(* ===== verification/_CoqProject ===== *)
-Q . S2P
Prelude.v
GoStd.v
Hash.v
Json.v
IR.v
Presets.v
Adapters.v
Api.v
Objects.v
Compiler.v
Convert.v
CompileProwlarr.v
Diff.v
Resources.v
ResourcesV1.v
Http.v
Shared.v
DiffSteps.v
Rest.v
Pair.v
Converge.v
Sync.v
ProwlarrTypes.v
Prowlarr.v
ProwlarrWire.v
ProwlarrConverge.v
ProwlarrSync.v
Sonarr.v
SonarrApply.v
SonarrWire.v
SonarrSafe.v
SonarrConverge.v
SonarrSync.v
SonarrQuality.v
Readarr.v
ReadarrSync.v
Lidarr.v
LidarrApply.v
LidarrSync.v
LidarrServer.v
LidarrQuality.v
RadarrResources.v
RadarrClient.v
Radarr.v
RadarrApply.v
RadarrUrl.v
RadarrSync.v
RadarrClients.v
Registration.v
Reconcile.v
GenericReconciler.v
Reports.v
Controllers.v
Coordinator.v
Lifecycle.v
ProwlarrLifecycle.v
ProwlarrReconcile.v
Applications.v
Secrets.v
SonarrReconcile.v
SonarrServer.v
DownloadStackApi.v
Rpc.v
Settings.v
Gluetun.v
Transmission.v
ClientTypes.v
QBittorrent.v
Deluge.v
RTorrent.v
Sabnzbd.v
NZBGet.v
DownloadStack.v
StackReconcile.v
BazarrApi.v
Bazarr.v
BazarrController.v
BazarrReconcile.v
