(* ===== verification/Prelude.v ===== *)
(** * Nebularr operator: a verification development

    Nebularr is a Kubernetes operator: a custom resource describes how a Sonarr,
    Radarr, Lidarr, Readarr or Prowlarr should be configured, and a reconciliation
    compiles the resource into an intermediate representation (IR), reads the
    current state of the service through an adapter, diffs the two and applies the
    changes.  This library models that path as pure functions and as computations
    in a monad of world, error and panic, and proves what makes it correct.
    A second kind of resource describes a download stack, a VPN container and up to
    six download clients, and a third the subtitle manager Bazarr; each has a
    controller of its own.

    ** The parts and where they are

    - [Prelude] (this file): the monad [M W A] of the code that performs effects
      (a world [W], and a returned value, a Go error or a panic), loops over
      slices, maps in an arbitrary iteration order ([RangeOrder]), the framework
      [steps] for what every run of a computation does to the world.
    - [GoStd]: what is used of Go's standard library: strings, strconv, integers of
      64 bits, float64 and its conversion and printing, [any] values, url.Parse.
    - [Hash]: MD5 and SHA-256 on bytes, with test vectors.
    - [Json]: encoding/json as far as the adapters use it: struct fields by name,
      case-insensitive keys, numbers in an interface as float64.
    - [IR] (internal/ir/v1), [Api] (api/v1alpha1), [Presets] (internal/presets),
      [Compiler], [Convert] and [CompileProwlarr] (internal/compiler: compiler.go,
      types.go, resources.go, features.go and prune.go; radarr.go; prowlarr.go).
    - [Adapters] (internal/adapters/adapter.go and registry.go), [Diff]
      (internal/adapters/diff.go and two files of adapters/shared).
    - [Http] (internal/adapters/httpclient), [Resources] and [Shared]
      (internal/adapters/shared): the wire structs and the code adapters share.
    - [Sonarr] and [SonarrApply] (internal/adapters/sonarr): the adapter, whose
      world is the service and the two package variables of the Go code.
    - [ProwlarrTypes] and [Prowlarr] (internal/adapters/prowlarr): the adapter,
      whose world is the service and the four caches of IDs.
    - [ResourcesV1], [Readarr] (internal/adapters/readarr) and [Lidarr] and
      [LidarrApply] (internal/adapters/lidarr): the adapters over version 1 of the
      API; Lidarr's has a world like Sonarr's, Readarr's keeps no state.
    - [RadarrResources] and [RadarrClient] (internal/adapters/radarr/client): the
      structs and the methods of the generated client that are used; [Radarr] and
      [RadarrApply] (internal/adapters/radarr): the adapter over them.
    - [Registration] (internal/prowlarr/registration.go), [Reconcile]
      (internal/controller/reconciler.go) and [GenericReconciler]
      (generic_arr_reconciler.go): one reconciliation as a computation on the
      object in memory and the world outside.
    - [Objects] (config_interfaces.go, status_wrappers.go): what the reconcilers
      ask of an object as the classes [ArrConfigObject], [HasStatus] and
      [HasConditions], with the five kinds as instances.  [Controllers] (the five controllers of the *arr
      applications and of Prowlarr) and [Coordinator]
      (prowlarr_coordinator_controller.go) are programs over these classes.
    - [DownloadStackApi] (downloadstackconfig_types.go), and the packages of
      internal/adapters/downloadstack: [Rpc] (net/http with headers, credentials,
      cookie jars and bodies in JSON, forms and XML), [Settings] (maps of settings
      and sequences of calls), [Gluetun] (the environment of the VPN container),
      [ClientTypes] (the structs of the answers), and a file for each client,
      [Transmission], [QBittorrent], [Deluge], [RTorrent], [Sabnzbd] and [NZBGet],
      with the synchronisation of its settings.  A client with a state of its own (a
      session, a counter of requests) is a computation on the pair of the services
      and that state ([Rpc.Net]).  [DownloadStack]
      (downloadstackconfig_controller.go) is the controller over them.
    - [BazarrApi] (bazarrconfig_types.go), [Bazarr] (internal/adapters/bazarr: the
      configuration file of generator.go and the client of client.go) and
      [BazarrController] (bazarrconfig_controller.go).

    The theorems about these programs are in files of their own.

    - [Rest]: what a REST collection promises to a client ([RestLaws], [LawsAt])
      and a server that keeps the promise ([MiniServer]); [Pair]: two services
      behind one address.
    - [Converge]: convergence independent of the adapter, stated against the
      classes [Managed] and [ManagedLaws].  [SonarrWire], [SonarrSafe],
      [SonarrConverge], [SonarrSync], [SonarrQuality] and [ProwlarrWire],
      [ProwlarrConverge], [ProwlarrSync] instantiate it for Sonarr and Prowlarr.
    - [DiffSteps]: a diff as a sequence of steps, one for each kind of resource;
      [Sync]: one sync of one kind of resource, independent of the adapter.
      [ReadarrSync]; [LidarrSync], [LidarrServer] and [LidarrQuality]; and
      [RadarrUrl], [RadarrSync] and [RadarrClients] use them for the other adapters.
    - [Reports]: what a reconciliation tells of the work it does ([tells]), and the
      phases of an object, for any kind of object.
    - [Lifecycle] and [ProwlarrLifecycle]: whole reconciliations, for any
      registry; [SonarrReconcile] and [ProwlarrReconcile] compose the reconciler
      with the adapters; [Applications]: registration with Prowlarr by the
      controllers and by the coordinator; [Secrets]: from the secrets of the
      cluster to the compiled configuration; [SonarrServer]: example services.
    - Those about a download client are in its file, against a class of what the
      server promises ([TransmissionLaws], [QBittorrentLaws], [DelugeLaws],
      [SABnzbdLaws], [NZBGetLaws]) with a server that keeps it; those about the
      controller are in [StackReconcile].  [BazarrReconcile] has those about the
      controller of Bazarr, against [ConfigMapLaws]; what it
      asks of the language profiles is shown for any server.

    Names are those of the Go code; a prefix is added where Go has two methods of
    one name ([SonarrGetHealth]), and record fields carry a prefix of the struct.

    ** What is a parameter

    The services are the class [Http.Service] (one function from a request and a
    state to a state and a response); Kubernetes is the class [Reconcile.Kube];
    SHA-256 over JSON is [Compiler.Digest]; the case tables of Unicode are
    [GoStd.UnicodeTables]; the parsing of times is [Resources.TimeFormat].  For the
    download stack they are [Rpc.Transport] (a request, a cookie jar and the state of
    the services give new ones and an answer), [DownloadStack.KubeStack]
    (deployments, CreateOrUpdate and owner references), [Rpc.FloatSyntax]
    (ParseFloat and Sscanf), [Rpc.UnicodeSpace] and [QBittorrent.JSONText] (the text
    of a JSON document inside a form); for Bazarr [BazarrController.KubeConfigMaps]
    and [Bazarr.BazarrText] (the serialization to YAML).  What
    the theorems rely on is stated as classes of laws ([Rest]'s [RestLaws] and
    [LawsAt], [Reconcile]'s [KubeLaws]), and a concrete server ([Rest]'s
    [MiniServer]) and cluster ([Reconcile]'s [ExampleCluster]) show that they can
    hold.

    ** What is shown

    - Convergence: a sync of Sonarr (read, diff, apply) brings download clients
      and indexers to the desired state and leaves what the user owns untouched;
      custom formats converge too, but the user's are deleted ([SonarrSync]).  A
      sync of Prowlarr brings all its four kinds to the desired state
      ([ProwlarrSync]), except for proxies with a timeout.  With the
      reconciler around it, the next reconciliation changes nothing
      ([SonarrReconcile], [ProwlarrReconcile]).
      A sync of Lidarr brings download clients, indexers and custom formats to the
      desired state ([LidarrServer]), one of Readarr the metadata profiles
      ([ReadarrSync]), one of Radarr the custom formats of the preset, the user's
      being deleted ([RadarrSync]).
    - What a sync leaves out: Radarr's quality profile is created once or never
      ([RadarrSync]) and a category never reaches Radarr ([RadarrClients]); Readarr
      updates metadata profiles only and deletes clients by their name
      ([ReadarrSync]); the profile that Lidarr's schema gives, and the two tables of
      quality names that disagree ([LidarrQuality]).
    - Clean-up: of a Sonarr it removes what is managed ([SonarrReconcile]), of a
      Prowlarr nothing ([ProwlarrReconcile]).
    - Safety: applying a diff never panics ([SonarrSafe], [RadarrSync]); applying is fail-soft
      ([Shared]); the status tells what happened ([Reconcile], [Lifecycle]); a
      reconciliation of a deleted object always reaches the removal of its
      finalizer ([Lifecycle], [ProwlarrLifecycle]).
    - Registration with Prowlarr is an upsert by name, its status is truthful, and
      the two controllers that register an application do it twice
      ([Applications]).
    - Secrets are resolved exactly and reach the configuration ([Secrets]).
    - The download clients: a sync brings the settings of the specification into the
      service and a second one changes nothing, through expired sessions, logins and
      retries ([Transmission], [QBittorrent], [Deluge]); options set one by one are
      applied up to the first refusal ([NZBGet]); what the code does not check
      ([Sabnzbd], [RTorrent], the crash of a login in [Deluge]); a call ends after
      at most five requests ([Transmission]); masks and limits at their width.
    - The download stack: Ready means that the credentials named were read, the secret
      is written and every client is synced, and not Ready that this cannot be done; a change of the environment restarts the deployment once, seen through
      a hash that tells environments apart; stale variables stay in the secret
      ([StackReconcile], [Gluetun]).
    - Bazarr: what the two modes do is what the status says of them, but for the
      errors of language profiles, which nothing looks at; the requests for the
      language profiles are one for each of the specification, whatever Bazarr
      answers; a config map that was there keeps its other
      entries and outlives the object; the file has the addresses of the
      specification, a default profile it defines, and no password in the clear
      ([Bazarr], [BazarrReconcile]).
    - Exactness and order-independence of the diffs ([Diff]); round trips through
      the wire format ([SonarrWire]) and of client URLs ([Convert]).
    - The compiler: supported output, exact pruning and reporting, scores, orders,
      names, and what the source hash does not see ([Compiler]); settings merged
      with secrets, implementations and categories ([Convert]).
    - Presets: every expansion has a reachable cutoff; termination of the
      recursive naming functions ([Presets]).

    ** Bounds and fuel

    Integers that overflow are kept in 64 bits where Go converts them ([Atoi],
    float64 conversions), and those of Radarr's client wrap to 32.  Fuel appears in [GoStd] (the digits of a float64: the
    bounds are those of its exponent range) and in [Resources], [ResourcesV1] and
    [RadarrResources] (decoding nested quality items: the depth of the document, which is enough since every level
    is a member of the one above).  The attempts of a call to Transmission are
    the loop's own bound, [MaxRetries]; products of the download clients' settings
    are taken modulo 2^64 as Go's [int] is ([Rpc.int64]).

    ** Not modelled

    Logging, metrics, contexts and timeouts; the mutex of the adapter registry
    (each operation is taken as atomic); transport errors other than as an error
    value of the service class; text that is no UTF-8, in which json.Marshal replaces
    bytes; the pauses between attempts.  Of Radarr's generated
    client, the operations and structs of its API that nothing in the repository
    calls: they are most of that file.  The generated deep copies of the API types,
    which copy records of values.  The discovery of API keys
    (internal/discovery/apikey.go): a Kubernetes job that prints a file and the wait
    for it, which no other package imports.  The list kinds of the API types and the
    fields nothing modelled reads.  The registration of controllers, adapters and
    metrics at start-up (SetupWithManager, register.go, internal/metrics,
    cmd/main.go).  The test doubles, and the factory of Transmission clients that
    tests replace (taken as nil). *)
From stdpp Require Export base tactics list gmap strings pretty.
From Stdlib Require Export ZArith Lia.

Declare Scope go_scope.
Delimit Scope go_scope with go.
Open Scope Z_scope.

(** ** Errors, panics and the effect monad *)

(** A Go [error] value is modelled by its message. *)
Definition error : Type := string.

(** The result of running a Go function: a return, an early return of a
    non-nil [error], or a run-time panic (nil dereference, failed type
    assertion, explicit [panic]). *)
Inductive outcome (A : Type) : Type :=
| Ret (a : A)
| Err (e : error)
| Panic (why : string).
Arguments Ret {A} a.
Arguments Err {A} e.
Arguments Panic {A} why.

(** Effectful code over a world [W]: the remote services, the cluster, the
    mutable package variables. *)
Definition M (W A : Type) : Type := W → W * outcome A.

Definition ret {W A} (a : A) : M W A := λ w, (w, Ret a).
Definition fail {W A} (e : error) : M W A := λ w, (w, Err e).
Definition panic {W A} (why : string) : M W A := λ w, (w, Panic why).

Definition bind {W A B} (m : M W A) (k : A → M W B) : M W B := λ w,
  match m w with
  | (w', Ret a) => k a w'
  | (w', Err e) => (w', Err e)
  | (w', Panic p) => (w', Panic p)
  end.

(** [x, err := m(); if err != nil { return fmt.Errorf("...: %w", err) }]. *)
Definition wrapErr {W A} (f : error → error) (m : M W A) : M W A := λ w,
  match m w with
  | (w', Err e) => (w', Err (f e))
  | r => r
  end.

(** A call whose [error] result the caller inspects instead of returning. *)
Definition attempt {W A} (m : M W A) : M W (A + error) := λ w,
  match m w with
  | (w', Ret a) => (w', Ret (inl a))
  | (w', Err e) => (w', Ret (inr e))
  | (w', Panic p) => (w', Panic p)
  end.

Definition get {W} : M W W := λ w, (w, Ret w).
Definition put {W} (w : W) : M W unit := λ _, (w, Ret tt).

Notation "'let*' x := m 'in' k" := (bind m (λ x, k))
  (at level 10, x name, m at level 200, k at level 200) : go_scope.
Notation "m ;;; k" := (bind m (λ _, k))
  (at level 100, right associativity) : go_scope.
Open Scope go_scope.

(** [for _, x := range xs { body }] threading an accumulator. *)
Fixpoint forRange {W A S} (body : S → A → M W S) (s : S) (xs : list A) : M W S :=
  match xs with
  | [] => ret s
  | x :: xs' => let* s' := body s x in forRange body s' xs'
  end.

(** ** Maps built from slices *)

(** [m := make(map[K]V); for _, x := range xs { m[key(x)] = x }]: the last
    element of a given key wins. *)
Definition indexBy {K A} `{Countable K} (key : A → K) (xs : list A) : gmap K A :=
  foldl (λ m x, <[key x := x]> m) ∅ xs.

(** [s := make(map[K]bool); for _, x := range xs { s[x] = true }]: the set of
    the elements; a lookup of an absent key yields [false]. *)
Definition setOf {K} `{Countable K} (xs : list K) : gset K := list_to_set xs.

Notation "k ∈? s" := (bool_decide (k ∈ s)) (at level 70) : go_scope.

(** ** Iteration over a map

    Go leaves the order in which [range] visits a map unspecified and varies
    it from one loop to the next.  A [RangeOrder] fixes, for each loop of the
    program (its [site]) and each map, one admissible order; theorems
    quantify over every [RangeOrder]. *)
Record RangeOrder := {
  rangeMap : nat → ∀ V : Type, gmap string V → list (string * V);
  rangeMap_perm : ∀ site V (m : gmap string V), rangeMap site V m ≡ₚ map_to_list m }.
Arguments rangeMap o site {V} m : rename.

(** Two admissible orders, for the examples. *)
Definition keyOrder : RangeOrder := {|
  rangeMap _ V m := map_to_list m;
  rangeMap_perm _ V m := Permutation_refl _ |}.

Definition reverseOrder : RangeOrder := {|
  rangeMap _ V m := reverse (map_to_list m);
  rangeMap_perm _ V m := reverse_Permutation _ |}.

(** ** Tactics and generic lemmas *)

(** Runs one effectful computation of the context: splits the goal on what a
    monadic call returned. *)
Ltac go_step :=
  match goal with
  | |- context [match ?m with (_, _) => _ end] =>
      let E := fresh "E" in destruct m as [? [?|?|?]] eqn:E; simplify_eq/=
  end.

(** Proves a decidable proposition on concrete values. *)
Ltac evaluates := apply (bool_decide_unpack _); vm_compute; reflexivity.

Create HintDb nebularr discriminated.
Create Rewrite HintDb go_rw.

Section monad_laws.
Context {W : Type}.

Lemma bind_ret_l {A B} (a : A) (k : A → M W B) w : bind (ret a) k w = k a w.
Proof. done. Qed.

Lemma bind_ok {A B} (m : M W A) (k : A → M W B) w w' a :
  m w = (w', Ret a) → bind m k w = k a w'.
Proof. unfold bind. by intros ->. Qed.

Lemma bind_err {A B} (m : M W A) (k : A → M W B) w w' e :
  m w = (w', Err e) → bind m k w = (w', Err e).
Proof. unfold bind. by intros ->. Qed.

Lemma wrapErr_ok {A} f (m : M W A) w w' a : m w = (w', Ret a) → wrapErr f m w = (w', Ret a).
Proof. unfold wrapErr. by intros ->. Qed.

Lemma wrapErr_err {A} f (m : M W A) w w' e : m w = (w', Err e) → wrapErr f m w = (w', Err (f e)).
Proof. unfold wrapErr. by intros ->. Qed.

Lemma bind_assoc {A B C} (m : M W A) (k : A → M W B) (h : B → M W C) w :
  bind (bind m k) h w = bind m (λ a, bind (k a) h) w.
Proof. unfold bind. by destruct (m w) as [? [?|?|?]]. Qed.

Lemma bind_attempt_ret {A B} (m : M W A) (k : A + error → M W B) w w' a :
  m w = (w', Ret a) → bind (attempt m) k w = k (inl a) w'.
Proof. unfold bind, attempt. by intros ->. Qed.

Lemma bind_attempt_err {A B} (m : M W A) (k : A + error → M W B) w w' e :
  m w = (w', Err e) → bind (attempt m) k w = k (inr e) w'.
Proof. unfold bind, attempt. by intros ->. Qed.
End monad_laws.

(** ** What a computation may do to the world

    [steps P m]: from every world, [m] ends in a world related by [P] and does not
    panic.  With the trivial relation this is the absence of panics; with equality
    of a part of the world, a frame condition. *)
Definition steps {W A} (P : relation W) (m : M W A) : Prop :=
  ∀ w, P w (m w).1 ∧ ∀ why, (m w).2 ≠ Panic why.

Section steps.
Context {W : Type} (P : relation W) `{!PreOrder P}.

Lemma steps_ret {A} (a : A) : steps P (ret a).
Proof. intros w. by split. Qed.

Lemma steps_fail {A} e : steps P (@fail W A e).
Proof. intros w. by split. Qed.

Lemma steps_bind {A B} (m : M W A) (k : A → M W B) :
  steps P m → (∀ a, steps P (k a)) → steps P (bind m k).
Proof.
  intros Hm Hk w. destruct (Hm w) as [HP Hn]. unfold bind. destruct (m w) as [w' [a|e|why]]; simpl in *.
  - destruct (Hk a w') as [HP' Hn']. split; [by etrans|done].
  - by split.
  - by destruct (Hn why).
Qed.

Lemma steps_wrapErr {A} f (m : M W A) : steps P m → steps P (wrapErr f m).
Proof.
  intros Hm w. destruct (Hm w) as [HP Hn]. unfold wrapErr.
  destruct (m w) as [w' [a|e|why]]; simpl in *; split; try done; by destruct (Hn why).
Qed.

Lemma steps_attempt {A} (m : M W A) : steps P m → steps P (attempt m).
Proof.
  intros Hm w. destruct (Hm w) as [HP Hn]. unfold attempt.
  destruct (m w) as [w' [a|e|why]]; simpl in *; split; try done; by destruct (Hn why).
Qed.

Lemma steps_forRange {A T} (body : T → A → M W T) (xs : list A) :
  (∀ t x, x ∈ xs → steps P (body t x)) → ∀ t, steps P (forRange body t xs).
Proof.
  induction xs as [|x xs IH]; intros Hb t; [apply steps_ret|]. simpl. apply steps_bind.
  - apply Hb. left.
  - intros t'. apply IH. intros t'' y Hy. apply Hb. by right.
Qed.

Lemma steps_get : steps P (@get W).
Proof. intros w. by split. Qed.
End steps.

(** The relation that asks nothing: what is left of [steps] is the absence of
    panics. *)
Definition anything {W} : relation W := λ _ _, True.

#[export] Instance anything_preorder {W} : PreOrder (@anything W).
Proof. by split. Qed.

Abbreviation noPanic := (steps anything).

Lemma attempt_returns {W A} (m : M W A) w : noPanic m → ∃ w' a, attempt m w = (w', Ret a).
Proof.
  intros Hm. destruct (Hm w) as [_ Hn]. unfold attempt. destruct (m w) as [w' [a|e|why]]; simpl in Hn;
    [by eexists _, _..|by destruct (Hn why)].
Qed.

#[export] Hint Resolve steps_ret steps_fail steps_get steps_bind steps_wrapErr steps_attempt : nebularr.

(** Splits a computation until the database has its parts. *)
Ltac noPanics :=
  repeat first
    [ apply (steps_ret anything)
    | apply (steps_fail anything)
    | solve [auto with nebularr]
    | apply (steps_wrapErr anything)
    | apply (steps_attempt anything)
    | apply (steps_bind anything); [|intros ?]
    | case_match ].

(** A loop that appends at most one element per iteration. *)
Lemma foldl_append_omap {A B} (body : list B → A → list B) (f : A → option B) acc xs :
  (∀ acc x, body acc x = acc ++ option_list (f x)) →
  foldl body acc xs = acc ++ omap f xs.
Proof.
  intros Hb. revert acc. induction xs as [|x xs IH]; intros acc; simpl; [by rewrite app_nil_r|].
  rewrite IH, Hb, <-app_assoc. by destruct (f x).
Qed.

Section index_by.
Context {K A : Type} `{Countable K} (key : A → K).

Lemma indexBy_snoc xs x : indexBy key (xs ++ [x]) = <[key x := x]> (indexBy key xs).
Proof. unfold indexBy. by rewrite foldl_app. Qed.

(** A lookup returns the last element of that key. *)
Lemma lookup_indexBy xs k :
  indexBy key xs !! k = last (filter (λ x, key x = k) xs).
Proof.
  induction xs as [|x xs IH] using rev_ind; [done|].
  rewrite indexBy_snoc, filter_app, filter_cons, filter_nil.
  case_decide as Hk.
  - by rewrite last_snoc, <-Hk, lookup_insert_eq.
  - by rewrite lookup_insert_ne, app_nil_r by done.
Qed.

Lemma lookup_indexBy_Some xs k x :
  indexBy key xs !! k = Some x → key x = k ∧ x ∈ xs.
Proof.
  rewrite lookup_indexBy. intros Hl%last_Some_elem_of.
  by apply list_elem_of_filter in Hl.
Qed.

Lemma lookup_indexBy_None xs k :
  indexBy key xs !! k = None ↔ ∀ x, x ∈ xs → key x ≠ k.
Proof.
  rewrite lookup_indexBy, last_None. split.
  - intros Hf x Hx Hk. assert (x ∈ filter (λ x, key x = k) xs) as Hin.
    { by apply list_elem_of_filter. }
    rewrite Hf in Hin. by apply not_elem_of_nil in Hin.
  - intros Hf. destruct (filter _ xs) as [|y l] eqn:E; [done|].
    assert (y ∈ filter (λ x, key x = k) xs) as Hin by (rewrite E; left).
    apply list_elem_of_filter in Hin as [??]. naive_solver.
Qed.

Lemma indexBy_is_Some xs x : x ∈ xs → is_Some (indexBy key xs !! key x).
Proof.
  intros Hx. destruct (indexBy key xs !! key x) eqn:E; [by eexists|].
  rewrite lookup_indexBy_None in E. naive_solver.
Qed.

(** With distinct keys every element is found under its own key. *)
Lemma lookup_indexBy_NoDup xs x :
  NoDup (key <$> xs) → x ∈ xs → indexBy key xs !! key x = Some x.
Proof.
  intros Hnd Hx. destruct (indexBy_is_Some xs x Hx) as [y Hy].
  rewrite Hy. apply lookup_indexBy_Some in Hy as [Hk Hy]. f_equal.
  apply list_elem_of_lookup in Hx as [i Hi], Hy as [j Hj].
  assert (i = j) as ->; [|by simplify_eq].
  eapply (NoDup_lookup (key <$> xs)); [done|by rewrite list_lookup_fmap, Hi|].
  by rewrite list_lookup_fmap, Hj; simpl; rewrite Hk.
Qed.
End index_by.

Lemma elem_of_rangeMap o site {V} (m : gmap string V) k v :
  (k, v) ∈ rangeMap o site m ↔ m !! k = Some v.
Proof. by rewrite (rangeMap_perm o site V m), elem_of_map_to_list. Qed.

Lemma NoDup_rangeMap_keys o site {V} (m : gmap string V) :
  NoDup ((rangeMap o site m).*1).
Proof. rewrite (rangeMap_perm o site V m). apply NoDup_fst_map_to_list. Qed.

Lemma rangeMap_order_irrelevant o1 o2 s1 s2 {V} (m : gmap string V) :
  rangeMap o1 s1 m ≡ₚ rangeMap o2 s2 m.
Proof. by rewrite (rangeMap_perm o1), (rangeMap_perm o2). Qed.

Lemma elem_of_setOf {K} `{Countable K} (xs : list K) k : k ∈ setOf xs ↔ k ∈ xs.
Proof. unfold setOf. apply elem_of_list_to_set. Qed.

#[export] Hint Rewrite @elem_of_setOf @elem_of_rangeMap : go_rw.
#[export] Hint Resolve NoDup_rangeMap_keys rangeMap_order_irrelevant : nebularr.
