(* ===== verification/GoStd.v ===== *)
(** * The Go language and standard library, as far as the operator uses them

    Strings are Go's byte strings ([string] of 8-bit [ascii]); [int] is a
    64-bit two's-complement integer held in a [Z]; [float64] is the IEEE 754
    binary64 [spec_float].  The functions below follow the documented
    behaviour of packages [strings], [strconv], [net/url] and [fmt]
    (Go 1.24, the version go.mod requires). *)
From S2P Require Export Prelude.
From Stdlib Require Export SpecFloat Ascii String.
From stdpp Require Export strings.
Open Scope Z_scope.

(** ** package strings *)

Definition byteN (c : ascii) : N := N_of_ascii c.
Definition inRange (lo hi : N) (c : ascii) : bool := ((lo <=? byteN c) && (byteN c <=? hi))%N.
Definition isLower (c : ascii) : bool := inRange 97 122 c.
Definition isUpper (c : ascii) : bool := inRange 65 90 c.
Definition isDigit (c : ascii) : bool := inRange 48 57 c.
Definition isAlpha (c : ascii) : bool := isLower c || isUpper c.

(** [if s == "" { s = d }]. *)
Definition orDefault (s d : string) : string := if String.eqb s "" then d else s.

Fixpoint stringForall (p : ascii → bool) (s : string) : bool :=
  match s with
  | EmptyString => true
  | String c s' => p c && stringForall p s'
  end.

Fixpoint stringMap (f : ascii → ascii) (s : string) : string :=
  match s with
  | EmptyString => EmptyString
  | String c s' => String (f c) (stringMap f s')
  end.

Definition HasPrefix (s p : string) : bool := String.prefix p s.

Fixpoint stringDrop (n : nat) (s : string) : string :=
  match n, s with
  | S n', String _ s' => stringDrop n' s'
  | _, _ => s
  end.

Definition TrimPrefix (s p : string) : string :=
  if HasPrefix s p then stringDrop (String.length p) s else s.

Fixpoint Contains (s sub : string) : bool :=
  HasPrefix s sub ||
  match s with
  | EmptyString => false
  | String _ s' => Contains s' sub
  end.

(** [strings.Cut(s, c)]: the text before and after the first [c]. *)
Fixpoint Cut (c : ascii) (s : string) : option (string * string) :=
  match s with
  | EmptyString => None
  | String a s' =>
      if Ascii.eqb a c then Some (EmptyString, s')
      else match Cut c s' with
           | Some (b, t) => Some (String a b, t)
           | None => None
           end
  end.

(** The text before and after the last [c] ([strings.LastIndex]). *)
Fixpoint CutLast (c : ascii) (s : string) : option (string * string) :=
  match s with
  | EmptyString => None
  | String a s' =>
      match CutLast c s' with
      | Some (b, t) => Some (String a b, t)
      | None => if Ascii.eqb a c then Some (EmptyString, s') else None
      end
  end.

Definition toLowerASCII (c : ascii) : ascii :=
  if isUpper c then ascii_of_N (byteN c + 32) else c.

Definition isASCII (s : string) : bool := stringForall (λ c, byteN c <? 128)%N s.

(** [strings.ToLower] works byte-wise on ASCII strings and maps the runes of
    any other string through the Unicode case tables, which are data of
    package unicode and enter as the function [lowerUnicode]. *)
Class UnicodeTables := lowerUnicode : string → string.

Definition ToLower `{UnicodeTables} (s : string) : string :=
  if isASCII s then stringMap toLowerASCII s else lowerUnicode s.

(** ** package strconv *)

Definition maxInt : Z := 2 ^ 63 - 1.
Definition minInt : Z := - 2 ^ 63.

Definition digitVal (c : ascii) : Z := Z.of_N (byteN c) - 48.

Fixpoint digitsVal (acc : Z) (s : string) : Z :=
  match s with
  | EmptyString => acc
  | String c s' => digitsVal (10 * acc + digitVal c) s'
  end.

(** [strconv.Atoi]: the value and whether the error is nil.  A syntax error
    yields 0, a range error the nearest representable [int]. *)
Definition Atoi (s : string) : Z * bool :=
  let '(neg, body) :=
    match s with
    | String c s' =>
        if Ascii.eqb c "-" then (true, s') else if Ascii.eqb c "+" then (false, s') else (false, s)
    | EmptyString => (false, s)
    end in
  if String.eqb body "" || negb (stringForall isDigit body) then (0, false)
  else
    let v := digitsVal 0 body in
    let n := if neg : bool then - v else v in
    if maxInt <? n then (maxInt, false)
    else if n <? minInt then (minInt, false)
    else (n, true).

(** [fmt.Sprintf("%d", n)]. *)
Definition Itoa (n : Z) : string := pretty n.

(** ** float64 *)

Definition float64 : Type := spec_float.
Definition float64_zero : float64 := S754_zero false.

(** The conversion [float64(n)]: nearest, ties to even. *)
Definition float64_of_int (n : Z) : float64 := binary_normalize 53 1024 n 0 false.

Definition truncMag (m : positive) (e : Z) : Z :=
  if 0 <=? e then Zpos m * 2 ^ e else Zpos m / 2 ^ (- e).

(** The conversion [int(f)]: truncation; a value that does not fit in an
    [int] gives the "indefinite" value of the amd64 instruction. *)
Definition int_of_float64 (f : float64) : Z :=
  match f with
  | S754_zero _ => 0
  | S754_infinity _ | S754_nan => minInt
  | S754_finite s m e =>
      let v := if s : bool then - truncMag m e else truncMag m e in
      if (minInt <=? v) && (v <=? maxInt) then v else minInt
  end.

(** *** Shortest decimal rendering ([strconv.FormatFloat(f, 'g', -1, 64)]) *)

(** A positive magnitude [m * 2^e] as the fraction [num / den]. *)
Definition magNum (m : positive) (e : Z) : Z := if 0 <=? e then Zpos m * 2 ^ e else Zpos m.
Definition magDen (e : Z) : Z := if 0 <=? e then 1 else 2 ^ (- e).

(** The decimal point position [dp]: [10^(dp-1) <= num/den < 10^dp]. *)
Fixpoint decPointUp (fuel : nat) (num den dp : Z) : Z :=
  match fuel with
  | O => dp
  | S k => if num <? den then dp else decPointUp k num (10 * den) (dp + 1)
  end.
Fixpoint decPointDown (fuel : nat) (num den dp : Z) : Z :=
  match fuel with
  | O => dp
  | S k => if den <=? 10 * num then dp else decPointDown k (10 * num) den (dp - 1)
  end.
Definition decPoint (num den : Z) : Z :=
  if den <=? num then decPointUp 400 num den 0 else decPointDown 400 num den 0.

Definition pow10Num (k : Z) : Z := if 0 <=? k then 10 ^ k else 1.
Definition pow10Den (k : Z) : Z := if 0 <=? k then 1 else 10 ^ (- k).

(** Whether the decimal [d * 10^k] rounds to the float [m * 2^e]: it lies
    within half a unit of [m] (a quarter below a power of two). *)
Definition roundsTo (m : positive) (e d k : Z) : bool :=
  let x := 4 * d * pow10Num k * magDen e in
  let unit := (if 0 <=? e then 2 ^ e else 1) * pow10Den k in
  let below := if (Zpos m =? 2 ^ 52) && (-1074 <? e) then 1 else 2 in
  let lo := (4 * Zpos m - below) * unit in
  let hi := (4 * Zpos m + 2) * unit in
  if Z.even (Zpos m) then (lo <=? x) && (x <=? hi) else (lo <? x) && (x <? hi).

(** The shortest digits: the first precision [n] at which one of the two
    [n]-digit neighbours of the value (nearest first) rounds back to it. *)
Fixpoint shortestDigits (fuel : nat) (m : positive) (e dp n : Z) : Z * Z :=
  let num := magNum m e * pow10Num (n - dp) in
  let den := magDen e * pow10Den (n - dp) in
  let fl := num / den in
  let near := if 2 * (num mod den) <? den then fl
              else if den <? 2 * (num mod den) then fl + 1
              else if Z.even fl then fl else fl + 1 in
  let other := if near =? fl then fl + 1 else fl in
  match fuel with
  | O => (near, n)
  | S k => if roundsTo m e near (dp - n) then (near, n)
           else if roundsTo m e other (dp - n) then (other, n)
           else shortestDigits k m e dp (n + 1)
  end.

Fixpoint repeatZero (n : nat) : string :=
  match n with O => "" | S k => String "0" (repeatZero k) end%string.

Fixpoint stringTake (n : nat) (s : string) : string :=
  match n, s with
  | S n', String c s' => String c (stringTake n' s')
  | _, _ => EmptyString
  end.

(** Drops the trailing zeros of a digit string. *)
Fixpoint trimZeros (s : string) : string :=
  match s with
  | EmptyString => EmptyString
  | String c s' =>
      match trimZeros s' with
      | EmptyString => if Ascii.eqb c "0" then EmptyString else String c EmptyString
      | t => String c t
      end
  end.

(** Layout of the digits [ds] with decimal point at [dp] under the verb [%g]:
    the exponent form when the exponent is below -4 or at least 6 (the
    threshold strconv uses for the shortest precision). *)
Definition layoutFloat (ds : string) (dp : Z) : string :=
  let nd := Z.of_nat (String.length ds) in
  let x := dp - 1 in
  if (x <? -4) || (6 <=? x) then
    (stringTake 1 ds +:+
     (if (nd =? 1)%Z then "" else "." +:+ stringDrop 1 ds) +:+
     "e" +:+ (if (x <? 0)%Z then "-" else "+") +:+
     (if (Z.abs x <? 10)%Z then "0" else "") +:+ Itoa (Z.abs x))%string
  else if dp <=? 0 then ("0." +:+ repeatZero (Z.to_nat (- dp)) +:+ ds)%string
  else if nd <=? dp then (ds +:+ repeatZero (Z.to_nat (dp - nd)))%string
  else (stringTake (Z.to_nat dp) ds +:+ "." +:+ stringDrop (Z.to_nat dp) ds)%string.

Definition formatFloat (f : float64) : string :=
  match f with
  | S754_zero s => if s : bool then "-0" else "0"
  | S754_infinity s => if s : bool then "-Inf" else "+Inf"
  | S754_nan => "NaN"
  | S754_finite s m e =>
      let '(d, n) := shortestDigits 17 m e (decPoint (magNum m e) (magDen e)) 1 in
      let full := Itoa d in
      let dp := decPoint (magNum m e) (magDen e) + (Z.of_nat (String.length full) - n) in
      ((if s : bool then "-" else "") +:+ layoutFloat (trimZeros full) dp)%string
  end.

Example formatFloat_1080 : formatFloat (float64_of_int 1080) = "1080".
Proof. vm_compute. reflexivity. Qed.
Example formatFloat_1234567 : formatFloat (float64_of_int 1234567) = "1.234567e+06".
Proof. vm_compute. reflexivity. Qed.
(* 0.1 *)
Example formatFloat_tenth :
  formatFloat (S754_finite false 7205759403792794 (-56)) = "0.1".
Proof. vm_compute. reflexivity. Qed.
(* 1/3 *)
Example formatFloat_third :
  formatFloat (SFdiv 53 1024 (float64_of_int 1) (float64_of_int 3)) = "0.3333333333333333".
Proof. vm_compute. reflexivity. Qed.

(** ** Dynamic values ([interface{}])

    The dynamic types the operator stores in an [interface{}]: those of
    decoded JSON ([nil], [bool], [string], [float64], [[]interface{}],
    [map[string]interface{}], the last in key order) and the Go values its
    resources carry before they are encoded ([int], [[]int]). *)
#[warnings="-register-all"]
Inductive any : Type :=
| VNil
| VBool (b : bool)
| VString (s : string)
| VInt (n : Z)
| VFloat (f : float64)
| VInts (l : list Z)
| VList (l : list any)
| VMap (l : list (string * any)).

Fixpoint joinWith (sep : string) (l : list string) : string :=
  match l with
  | [] => ""
  | [x] => x
  | x :: l' => (x +:+ sep +:+ joinWith sep l')%string
  end%string.

(** [fmt.Sprintf("%v", v)]. *)
Fixpoint Sprintv (v : any) : string :=
  match v with
  | VNil => "<nil>"
  | VBool b => if b then "true" else "false"
  | VString s => s
  | VInt n => Itoa n
  | VFloat f => formatFloat f
  | VInts l => ("[" +:+ joinWith " " (Itoa <$> l) +:+ "]")%string
  | VList l => ("[" +:+ joinWith " " (map Sprintv l) +:+ "]")%string
  | VMap l =>
      ("map[" +:+ joinWith " " (map (λ '(k, x), k +:+ ":" +:+ Sprintv x) l) +:+ "]")%string
  end%string.

(** ** package net/url *)

Definition isHex (c : ascii) : bool := isDigit c || inRange 97 102 c || inRange 65 70 c.
Definition unhex (c : ascii) : N :=
  (if isDigit c then byteN c - 48
   else if inRange 97 102 c then byteN c - 87 else byteN c - 55)%N.

Definition oneOf (cs : string) (c : ascii) : bool :=
  negb (stringForall (λ d, negb (Ascii.eqb c d)) cs).

(** [shouldEscape(c, encodeHost)], also used for zones. *)
Definition shouldEscapeHost (c : ascii) : bool :=
  negb (isAlpha c || isDigit c || oneOf "!$&'()*+,;=:[]<>-_.~" c || Ascii.eqb c "034").

Inductive encoding := encodePath | encodeUserPassword | encodeFragment | encodeHost | encodeZone.

Definition isHostMode (m : encoding) : bool :=
  match m with encodeHost | encodeZone => true | _ => false end.

(** [unescape(s, mode)]; [None] stands for a non-nil error. *)
Fixpoint unescape (mode : encoding) (s : string) : option string :=
  match s with
  | EmptyString => Some EmptyString
  | String "%" (String h (String l s')) =>
      let v := (16 * unhex h + unhex l)%N in
      let is25 := Ascii.eqb h "2" && Ascii.eqb l "5" in
      if negb (isHex h && isHex l) then None
      else if (match mode with encodeHost => true | _ => false end)
              && (unhex h <? 8)%N && negb is25 then None
      else if (match mode with encodeZone => true | _ => false end)
              && negb is25 && negb (v =? 32)%N && shouldEscapeHost (ascii_of_N v) then None
      else String (ascii_of_N v) <$> unescape mode s'
  | String "%" _ => None
  | String c s' =>
      if isHostMode mode && (byteN c <? 128)%N && shouldEscapeHost c then None
      else String c <$> unescape mode s'
  end.

Definition validUserinfo (s : string) : bool :=
  stringForall (λ c, isAlpha c || isDigit c || oneOf "-._:~!$&'()*+,;=%@" c) s.

(** [validOptionalPort]: empty, or a colon followed by digits. *)
Definition validOptionalPort (p : string) : bool :=
  match p with
  | EmptyString => true
  | String c p' => Ascii.eqb c ":" && stringForall isDigit p'
  end.

(** The position of ["%25"] in a bracketed host, as text before and from it. *)
Fixpoint splitZone (s : string) : option (string * string) :=
  if HasPrefix s "%25" then Some (EmptyString, s)
  else match s with
       | EmptyString => None
       | String c s' => match splitZone s' with
                        | Some (b, t) => Some (String c b, t)
                        | None => None
                        end
       end.

Definition parseHost (host : string) : option string :=
  if HasPrefix host "[" then
    match CutLast "]" host with
    | None => None
    | Some (inner, colonPort) =>
        if negb (validOptionalPort colonPort) then None
        else
          match splitZone inner with
          | Some (addr, zone) =>
              a ← unescape encodeHost addr;
              z ← unescape encodeZone zone;
              p ← unescape encodeHost ("]" +:+ colonPort)%string;
              Some (a +:+ z +:+ p)%string
          | None => unescape encodeHost host
          end
    end
  else
    match CutLast ":" host with
    | Some (_, port) =>
        if negb (validOptionalPort (":" +:+ port)%string) then None
        else unescape encodeHost host
    | None => unescape encodeHost host
    end.

(** [parseAuthority]: only the host is used by the operator. *)
Definition parseAuthority (authority : string) : option string :=
  match CutLast "@" authority with
  | None => parseHost authority
  | Some (userinfo, h) =>
      host ← parseHost h;
      if negb (validUserinfo userinfo) then None
      else match Cut ":" userinfo with
           | None => _ ← unescape encodeUserPassword userinfo; Some host
           | Some (u, p) =>
               _ ← unescape encodeUserPassword u; _ ← unescape encodeUserPassword p; Some host
           end
  end.

(** The longest prefix of scheme characters, and the rest. *)
Fixpoint schemeSpan (s : string) : string * string :=
  match s with
  | String c s' =>
      if isAlpha c || isDigit c || oneOf "+-." c
      then let '(a, b) := schemeSpan s' in (String c a, b)
      else (EmptyString, s)
  | EmptyString => (EmptyString, EmptyString)
  end.

(** [getScheme]: the scheme (empty when there is none) and the rest. *)
Definition getScheme (raw : string) : option (string * string) :=
  match schemeSpan raw with
  | (EmptyString, String ":" _) => None
  | (String c sch, String ":" rest) =>
      if isAlpha c then Some (String c sch, rest) else Some (EmptyString, raw)
  | _ => Some (EmptyString, raw)
  end.

(** The path is unescaped. *)
Record URL := mkURL { url_Scheme : string; url_Host : string; url_Path : string }.

Definition isCTL (c : ascii) : bool := (byteN c <? 32)%N || (byteN c =? 127)%N.

(** [setPath], once the query is cut off. *)
Definition withPath (scheme host path : string) : option URL :=
  p ← unescape encodePath path; Some (mkURL scheme host p).

Definition beforeCut (c : ascii) (s : string) : string :=
  match Cut c s with Some (b, _) => b | None => s end.

(** [url.parse(rawURL, false)]. *)
Definition urlParseNoFrag (raw : string) : option URL :=
  if negb (stringForall (λ c, negb (isCTL c)) raw) then None
  else if String.eqb raw "*" then Some (mkURL "" "" "*")
  else
    '(sch, rest0) ← getScheme raw;
    let scheme := stringMap toLowerASCII sch in
    let rest := beforeCut "?" rest0 in
    if negb (HasPrefix rest "/") && negb (String.eqb scheme "") then Some (mkURL scheme "" "")
    else if negb (HasPrefix rest "/") && Contains (beforeCut "/" rest) ":" then None
    else if (negb (String.eqb scheme "") || negb (HasPrefix rest "///")) && HasPrefix rest "//"
    then
      let afterSlashes := stringDrop 2 rest in
      let authority := beforeCut "/" afterSlashes in
      let path := stringDrop (String.length authority) afterSlashes in
      host ← parseAuthority authority;
      withPath scheme host path
    else withPath scheme "" rest.

(** [url.Parse]; [None] stands for a non-nil error. *)
Definition urlParse (raw : string) : option URL :=
  match Cut "#" raw with
  | None => urlParseNoFrag raw
  | Some (u, frag) =>
      url ← urlParseNoFrag u;
      _ ← unescape encodeFragment frag;
      Some url
  end.

Definition stripBrackets (h : string) : string :=
  match h with
  | String "[" h' =>
      match CutLast "]" h' with
      | Some (inner, EmptyString) => inner
      | _ => h
      end
  | _ => h
  end.

(** [u.Hostname()] and [u.Port()]. *)
Definition splitHostPort (hostport : string) : string * string :=
  match CutLast ":" hostport with
  | Some (h, p) =>
      if validOptionalPort (String ":" p) then (stripBrackets h, p) else (stripBrackets hostport, EmptyString)
  | None => (stripBrackets hostport, EmptyString)
  end.

Definition urlHostname (u : URL) : string := (splitHostPort (url_Host u)).1.
Definition urlPort (u : URL) : string := (splitHostPort (url_Host u)).2.

Example urlParse_plain : urlParse "http://qbittorrent.media:8080/api?x=1#f" =
  Some (mkURL "http" "qbittorrent.media:8080" "/api").
Proof. vm_compute. reflexivity. Qed.
Example urlParse_user_v6 :
  (λ u, (url_Scheme u, urlHostname u, urlPort u)) <$> urlParse "HTTPS://me:pw@[fe80::1%25en0]:8443" =
  Some ("https", "fe80::1%en0", "8443").
Proof. vm_compute. reflexivity. Qed.
Example urlParse_bad_port : urlParse "http://host:80a/" = None.
Proof. vm_compute. reflexivity. Qed.
Example urlParse_bare : urlParse "localhost:8080" = Some (mkURL "localhost" "" "").
Proof. vm_compute. reflexivity. Qed.

(** ** switch

    [switch s { case k1, k2: a ... default: d }] on a string. *)
Fixpoint switch {A} (s : string) (cases : list (list string * A)) (default : A) : A :=
  match cases with
  | [] => default
  | (ks, a) :: cases' => if existsb (String.eqb s) ks then a else switch s cases' default
  end.

Lemma switch_ind {A} (P : A → Prop) s cases d :
  (∀ ks a, (ks, a) ∈ cases → P a) → P d → P (switch s cases d).
Proof.
  intros Hc Hd. induction cases as [|[ks a] cases IH]; simpl; [done|].
  destruct (existsb _ _); [apply (Hc ks); left|]. apply IH. intros ks' a' Hin.
  apply (Hc ks'). by right.
Qed.

(** What a step keeps, a fold of it and a choice among such steps keep. *)
Lemma foldl_keeps {A B X} (g : A → X) (f : A → B → A) l a : (∀ a b, g (f a b) = g a) → g (foldl f a l) = g a.
Proof. intros Hf. revert a. induction l as [|b l IH]; intros a; [done|]. simpl. by rewrite IH, Hf. Qed.

Lemma switch_keeps {A X} (g : A → X) s (cases : list (list string * A)) (d : A) x :
  g d = x → Forall (λ c, g c.2 = x) cases → g (switch s cases d) = x.
Proof.
  intros Hd Hc. apply switch_ind; [|done]. intros ks a Hin. rewrite Forall_forall in Hc. by apply (Hc (ks, a)).
Qed.

(** ** Lemmas *)

Lemma stringDrop_append (p s : string) : stringDrop (String.length p) (p +:+ s) = s.
Proof. induction p as [|c p IH]; [done|]. exact IH. Qed.

Lemma HasPrefix_append (p s : string) : HasPrefix (p +:+ s) p = true.
Proof.
  unfold HasPrefix. induction p as [|c p IH]; simpl; [by destruct s|].
  destruct (ascii_dec c c); [exact IH|done].
Qed.

Lemma HasPrefix_spec (s p : string) : HasPrefix s p = true ↔ ∃ t, s = (p +:+ t)%string.
Proof.
  split; [|intros [t ->]; apply HasPrefix_append].
  unfold HasPrefix. revert s. induction p as [|c p IH]; intros s; [by exists s|].
  destruct s as [|d s]; [done|]. simpl. destruct (ascii_dec c d) as [<-|]; [|done].
  intros [t ->]%IH. by exists t.
Qed.

Lemma TrimPrefix_append (p s : string) : TrimPrefix (p +:+ s) p = s.
Proof. unfold TrimPrefix. by rewrite HasPrefix_append, stringDrop_append. Qed.

Lemma append_assoc (a b c : string) : ((a +:+ b) +:+ c)%string = (a +:+ b +:+ c)%string.
Proof. induction a as [|x a IH]; [done|]. exact (f_equal (String x) IH). Qed.

Lemma string_app_nil_r (s : string) : (s +:+ "")%string = s.
Proof. induction s as [|c s IH]; [done|]. exact (f_equal (String c) IH). Qed.

Lemma append_inj_r (p x y : string) : (p +:+ x)%string = (p +:+ y)%string → x = y.
Proof. intros H. by rewrite <-(TrimPrefix_append p x), H, TrimPrefix_append. Qed.

#[export] Hint Rewrite TrimPrefix_append HasPrefix_append stringDrop_append : go_rw.

(** [strconv.Atoi] inverts [%d] on every [int]. *)
Lemma pretty_N_char_digit n :
  (n < 10)%N → isDigit (pretty_N_char n) = true ∧ digitVal (pretty_N_char n) = Z.of_N n.
Proof.
  intros Hn. destruct n as [|p]; [done|].
  do 4 (destruct p as [p|p|]; [..|done]); simpl; try done; lia.
Qed.

Lemma pretty_N_go_digits n s :
  stringForall isDigit s = true →
  stringForall isDigit (pretty_N_go n s) = true.
Proof.
  revert s. induction (N.lt_wf_0 n) as [n _ IH]; intros s Hs.
  destruct (decide (n = 0)%N) as [->|Hn]; [done|].
  rewrite pretty_N_go_step by lia. apply IH.
  - apply N.div_lt; lia.
  - simpl. rewrite Hs, andb_true_r. apply pretty_N_char_digit, N.mod_lt. lia.
Qed.

Lemma pretty_N_go_val n s : digitsVal 0 (pretty_N_go n s) = digitsVal (Z.of_N n) s.
Proof.
  revert s. induction (N.lt_wf_0 n) as [n _ IH]; intros s.
  destruct (decide (n = 0)%N) as [->|Hn]; [done|].
  rewrite pretty_N_go_step by lia. rewrite IH by (apply N.div_lt; lia). simpl. f_equal.
  destruct (pretty_N_char_digit (n `mod` 10)%N) as [_ ->]; [apply N.mod_lt; lia|].
  rewrite N2Z.inj_div, N2Z.inj_mod. symmetry. apply Z.div_mod. done.
Qed.

Lemma pretty_N_digits (n : N) :
  stringForall isDigit (pretty n) = true ∧ digitsVal 0 (pretty n) = Z.of_N n ∧ pretty n ≠ "".
Proof.
  unfold pretty, pretty_N. destruct (decide (n = 0)%N) as [->|Hn]; [done|]. split_and!.
  - by apply pretty_N_go_digits.
  - by rewrite pretty_N_go_val.
  - intros H. pose proof (pretty_N_go_val n "") as Hv. rewrite H in Hv. simpl in Hv. lia.
Qed.

Lemma Atoi_digits s :
  stringForall isDigit s = true → s ≠ "" → digitsVal 0 s ≤ maxInt → Atoi s = (digitsVal 0 s, true).
Proof.
  intros Hd Hne Hmax. unfold Atoi. destruct s as [|c s']; [done|].
  assert (isDigit c = true) as Hc by (simpl in Hd; by apply andb_true_iff in Hd as [??]).
  assert (Ascii.eqb c "-" = false ∧ Ascii.eqb c "+" = false) as [-> ->].
  { split; apply Ascii.eqb_neq; intros ->; done. }
  rewrite Hd. simpl negb. rewrite orb_false_r.
  replace (String.eqb (String c s') "") with false by done.
  destruct (Z.ltb_spec maxInt (digitsVal 0 (String c s'))); [lia|].
  assert (0 ≤ digitsVal 0 (String c s')).
  { clear -Hd. assert (∀ s a, stringForall isDigit s = true → 0 ≤ a → 0 ≤ digitsVal a s) as Hpos.
    { induction s as [|d s IH]; intros a Hs Ha; simpl in *; [done|].
      apply andb_true_iff in Hs as [Hd' Hs]. apply IH; [done|].
      unfold isDigit, inRange in Hd'. apply andb_true_iff in Hd' as [H1%N.leb_le _].
      unfold digitVal. lia. }
    by apply Hpos. }
  destruct (Z.ltb_spec (digitsVal 0 (String c s')) minInt); [unfold minInt in *; lia|done].
Qed.

Lemma Atoi_Itoa n : minInt ≤ n ≤ maxInt → Atoi (Itoa n) = (n, true).
Proof.
  intros [Hlo Hhi]. unfold Itoa. destruct n as [|p|p].
  - done.
  - destruct (pretty_N_digits (Npos p)) as (Hd & Hv & Hne).
    change (pretty (Zpos p)) with (pretty (Npos p)).
    rewrite Atoi_digits; rewrite ?Hv; done.
  - destruct (pretty_N_digits (Npos p)) as (Hd & Hv & Hne).
    change (pretty (Zneg p)) with (String "-" (pretty (Npos p))).
    unfold Atoi. simpl. rewrite Hd. destruct (String.eqb_spec (pretty (N.pos p)) ""); [done|].
    simpl. rewrite Hv. simpl. destruct (Z.ltb_spec maxInt (Zneg p)); [unfold maxInt in *; lia|].
    change (- Z.pos p) with (Z.neg p). destruct (Z.ltb_spec (Zneg p) minInt); [lia|done].
Qed.

(** *** Strings by their bytes *)

Lemma stringForall_app p (a b : string) :
  stringForall p (a +:+ b) = stringForall p a && stringForall p b.
Proof.
  induction a as [|c a IH]; [done|].
  change (stringForall p (String c a +:+ b)) with (p c && stringForall p (a +:+ b)).
  rewrite IH. simpl. by rewrite andb_assoc.
Qed.

Lemma stringForall_impl (p q : ascii → bool) s :
  (∀ c, p c = true → q c = true) → stringForall p s = true → stringForall q s = true.
Proof.
  intros Hpq. induction s as [|c s IH]; [done|]. simpl.
  intros [Hc Hs]%andb_true_iff. rewrite (Hpq c) by done. by apply IH.
Qed.

Lemma Cut_None c s : stringForall (λ d, negb (Ascii.eqb d c)) s = true → Cut c s = None.
Proof.
  induction s as [|d s IH]; [done|]. simpl. intros [Hd%negb_true_iff Hs]%andb_true_iff.
  by rewrite Hd, IH.
Qed.

Lemma CutLast_None c s : stringForall (λ d, negb (Ascii.eqb d c)) s = true → CutLast c s = None.
Proof.
  induction s as [|d s IH]; [done|]. simpl. intros [Hd%negb_true_iff Hs]%andb_true_iff.
  by rewrite IH, Hd.
Qed.

Lemma CutLast_append c (a b : string) :
  stringForall (λ d, negb (Ascii.eqb d c)) b = true →
  CutLast c (a +:+ String c b) = Some (a, b).
Proof.
  intros Hb. induction a as [|d a IH].
  - change (CutLast c (String c b) = Some (EmptyString, b)). simpl. by rewrite CutLast_None, Ascii.eqb_refl.
  - change (CutLast c (String d (a +:+ String c b)) = Some (String d a, b)). simpl. by rewrite IH.
Qed.

(** The bytes of a plain host name or address with a port. *)
Definition hostByte (c : ascii) : bool := isAlpha c || isDigit c || oneOf ".-_" c.
Definition hostPortByte (c : ascii) : bool := hostByte c || Ascii.eqb c ":".

(** What the URL parser tests of such a byte. *)
Definition plainByte (c : ascii) : bool :=
  negb (Ascii.eqb c "#") && negb (isCTL c) && negb (Ascii.eqb c "?") && negb (Ascii.eqb c "/") &&
  negb (Ascii.eqb c "@") && negb (Ascii.eqb c "[") && negb (Ascii.eqb c "%") &&
  negb (shouldEscapeHost c) && negb (Ascii.eqb c "*").

Lemma hostPortByte_plain c : hostPortByte c = true → plainByte c = true.
Proof. by destruct c as [[] [] [] [] [] [] [] []]. Qed.

Lemma hostByte_hostPortByte c : hostByte c = true → hostPortByte c = true.
Proof. unfold hostPortByte. by intros ->. Qed.

Lemma isDigit_hostByte c : isDigit c = true → hostByte c = true.
Proof. unfold hostByte. intros ->. by rewrite orb_true_r. Qed.

Lemma hostByte_not_colon c : hostByte c = true → negb (Ascii.eqb c ":") = true.
Proof. by destruct c as [[] [] [] [] [] [] [] []]. Qed.

Lemma unescape_plain s :
  stringForall plainByte s = true → unescape encodeHost s = Some s.
Proof.
  induction s as [|c s IH]; [done|]. intros [Hc Hs]%andb_true_iff.
  assert (c ≠ "%"%char ∧ shouldEscapeHost c = false) as [Hne Hesc].
  { unfold plainByte in Hc. rewrite !andb_true_iff, !negb_true_iff in Hc.
    split; [|tauto]. intros ->. destruct Hc as ((? & Hc) & _). naive_solver. }
  assert (unescape encodeHost (String c s) =
    if isHostMode encodeHost && (byteN c <? 128)%N && shouldEscapeHost c then None
    else String c <$> unescape encodeHost s) as ->.
  { destruct c as [[] [] [] [] [] [] [] []]; try reflexivity. done. }
  rewrite Hesc, andb_false_r, IH by done. done.
Qed.

(** The parse of [scheme://host:port] for the two HTTP schemes. *)
Lemma plain_ne (P : ascii → bool) s :
  (∀ c, plainByte c = true → P c = true) →
  stringForall hostPortByte s = true → stringForall P s = true.
Proof. intros HP. apply stringForall_impl. intros c Hc. apply HP. by apply hostPortByte_plain. Qed.

Ltac plain_byte := intros ?; unfold plainByte; rewrite !andb_true_iff; tauto.

Lemma hostPort_plain (host port : string) :
  stringForall hostByte host = true → stringForall isDigit port = true →
  stringForall hostPortByte (host +:+ String ":" port) = true.
Proof.
  intros Hh Hp. rewrite stringForall_app. apply andb_true_iff. split.
  - by eapply stringForall_impl; [apply hostByte_hostPortByte|].
  - simpl. eapply stringForall_impl; [|exact Hp]. intros c ?.
    by apply hostByte_hostPortByte, isDigit_hostByte.
Qed.

Lemma not_colon_digits port :
  stringForall isDigit port = true → stringForall (λ d, negb (Ascii.eqb d ":")) port = true.
Proof. apply stringForall_impl. intros c ?. by apply hostByte_not_colon, isDigit_hostByte. Qed.

Lemma HasPrefix_single_false c d s : Ascii.eqb d c = false → HasPrefix (String d s) (String c "") = false.
Proof.
  intros H%Ascii.eqb_neq. unfold HasPrefix. simpl. destruct (ascii_dec c d) as [->|]; done.
Qed.

Lemma parseAuthority_plain (host port : string) :
  stringForall hostByte host = true → stringForall isDigit port = true → host ≠ "" →
  parseAuthority (host +:+ String ":" port) = Some (host +:+ String ":" port)%string.
Proof.
  intros Hh Hp Hne. pose proof (hostPort_plain host port Hh Hp) as Hplain.
  unfold parseAuthority. rewrite CutLast_None; [|eapply plain_ne; [plain_byte|done]].
  unfold parseHost.
  assert (HasPrefix (host +:+ String ":" port) "[" = false) as ->.
  { destruct host as [|c host]; [done|]. simpl in Hh. apply andb_true_iff in Hh as [Hc _].
    apply (HasPrefix_single_false "[" c (host +:+ String ":" port)).
    by destruct c as [[] [] [] [] [] [] [] []]. }
  rewrite CutLast_append by (by apply not_colon_digits).
  change (":" +:+ port)%string with (String ":" port). simpl validOptionalPort. rewrite Hp. simpl.
  apply unescape_plain. eapply plain_ne; [|done]. done.
Qed.

Lemma splitHostPort_plain (host port : string) :
  stringForall hostByte host = true → stringForall isDigit port = true →
  splitHostPort (host +:+ String ":" port) = (host, port).
Proof.
  intros Hh Hp. unfold splitHostPort. rewrite CutLast_append by (by apply not_colon_digits).
  simpl. rewrite Hp. f_equal. destruct host as [|c host]; [done|].
  simpl in Hh. apply andb_true_iff in Hh as [Hc _].
  destruct c as [[] [] [] [] [] [] [] []]; try reflexivity; done.
Qed.

(** A path: empty, or a slash and plain bytes. *)
Definition pathByte (c : ascii) : bool := hostByte c || Ascii.eqb c "/".
Definition plainPath (p : string) : bool :=
  match p with EmptyString => true | String c p' => Ascii.eqb c "/" && stringForall pathByte p' end.

Definition notByte (c d : ascii) : bool := negb (Ascii.eqb d c).

(** What the parser tests of the bytes of an authority and a path. *)
Definition urlByte (c : ascii) : bool :=
  notByte "#" c && negb (isCTL c) && notByte "?" c && notByte "%" c.

Lemma hostPortByte_urlByte c : hostPortByte c = true → urlByte c && notByte "/" c = true.
Proof. by destruct c as [[] [] [] [] [] [] [] []]. Qed.

Lemma pathByte_urlByte c : pathByte c = true → urlByte c = true.
Proof. by destruct c as [[] [] [] [] [] [] [] []]. Qed.

Lemma plainPath_urlByte p : plainPath p = true → stringForall urlByte p = true.
Proof.
  destruct p as [|c p]; [done|]. simpl. intros [->%Ascii.eqb_eq Hp]%andb_true_iff.
  by rewrite (stringForall_impl pathByte urlByte p pathByte_urlByte Hp).
Qed.

Lemma unescape_path p : stringForall urlByte p = true → unescape encodePath p = Some p.
Proof.
  induction p as [|c p IH]; [done|]. intros [Hc Hp]%andb_true_iff.
  assert (c ≠ "%"%char) as Hne by (by intros ->).
  assert (unescape encodePath (String c p) = String c <$> unescape encodePath p) as ->.
  { destruct c as [[] [] [] [] [] [] [] []]; try reflexivity. done. }
  by rewrite IH.
Qed.

Lemma Cut_append c a b : stringForall (notByte c) a = true → Cut c (a +:+ String c b) = Some (a, b).
Proof.
  induction a as [|d a IH]; intros Ha.
  - simpl. by rewrite Ascii.eqb_refl.
  - simpl in Ha. apply andb_true_iff in Ha as [Hd Ha]. unfold notByte in Hd. apply negb_true_iff in Hd.
    change (Cut c (String d (a +:+ String c b)) = Some (String d a, b)). simpl. by rewrite Hd, IH.
Qed.

Lemma beforeCut_None c s : stringForall (notByte c) s = true → beforeCut c s = s.
Proof. intros Hs. unfold beforeCut. by rewrite Cut_None. Qed.

Lemma beforeCut_path a p :
  stringForall (notByte "/") a = true → plainPath p = true → beforeCut "/" (a +:+ p) = a.
Proof.
  intros Ha Hp. unfold beforeCut. assert (Cut "/" (a +:+ p) =
    match p with EmptyString => None | String _ p' => Some (a, p') end) as ->.
  { induction a as [|c a IH].
    - destruct p as [|c p']; [done|]. change (Cut "/" (String c p') = Some (EmptyString, p')).
      simpl in Hp. apply andb_true_iff in Hp as [->%Ascii.eqb_eq _]. done.
    - simpl in Ha. apply andb_true_iff in Ha as [Hc Ha].
      change (Cut "/" (String c (a +:+ p)) = match p with EmptyString => None | String _ p' => Some (String c a, p') end).
      simpl. unfold notByte in Hc. apply negb_true_iff in Hc. rewrite Hc, (IH Ha). by destruct p. }
  destruct p; [|done]. by rewrite string_app_nil_r.
Qed.

Lemma urlParse_plain_path (tls : bool) (host port path : string) :
  stringForall hostByte host = true → stringForall isDigit port = true → host ≠ "" →
  plainPath path = true →
  let scheme := (if tls then "https" else "http")%string in
  urlParse (scheme +:+ "://" +:+ (host +:+ String ":" port) +:+ path) =
  Some (mkURL scheme (host +:+ String ":" port) path).
Proof.
  intros Hh Hp Hne Hpath scheme. pose proof (hostPort_plain host port Hh Hp) as Hplain.
  assert (Hauth : parseAuthority (host +:+ String ":" port) = Some (host +:+ String ":" port)%string)
    by (by apply parseAuthority_plain).
  set (auth := (host +:+ String ":" port)%string) in *.
  assert (Hslash : stringForall (notByte "/") auth = true).
  { eapply stringForall_impl; [|exact Hplain]. by intros c [_ ?]%hostPortByte_urlByte%andb_true_iff. }
  assert (Hall : stringForall urlByte (auth +:+ path) = true).
  { rewrite stringForall_app, (plainPath_urlByte path), andb_true_r by done.
    eapply stringForall_impl; [|exact Hplain]. by intros c [? _]%hostPortByte_urlByte%andb_true_iff. }
  assert (Hbyte : ∀ q : ascii → bool, (∀ c, urlByte c = true → q c = true) → stringForall q (auth +:+ path) = true).
  { intros q Hq. by eapply stringForall_impl. }
  pose proof (beforeCut_path auth path Hslash Hpath) as Hb.
  pose proof (stringDrop_append auth path) as Hd.
  pose proof (unescape_path path (plainPath_urlByte path Hpath)) as Hu.
  assert (Hc1 : Cut "#" (auth +:+ path) = None).
  { apply Cut_None, Hbyte. intros c. unfold urlByte. rewrite !andb_true_iff. unfold notByte. tauto. }
  assert (Hc2 : Cut "?" (auth +:+ path) = None).
  { apply Cut_None, Hbyte. intros c. unfold urlByte. rewrite !andb_true_iff. unfold notByte. tauto. }
  assert (Hctl : stringForall (λ c, negb (isCTL c)) (auth +:+ path) = true).
  { apply Hbyte. intros c. unfold urlByte. rewrite !andb_true_iff. tauto. }
  clear Hbyte Hall Hplain Hslash. set (rest := (auth +:+ path)%string) in *.
  assert (Hq : beforeCut "?" (String "/" (String "/" rest)) = String "/" (String "/" rest)).
  { unfold beforeCut. simpl. by rewrite Hc2. }
  assert (Hpre : HasPrefix rest "" = true) by (by destruct rest).
  clearbody rest auth. unfold scheme. destruct tls; unfold urlParse;
  [change ("https" +:+ "://" +:+ rest)%string with
     (String "h" (String "t" (String "t" (String "p" (String "s" (String ":" (String "/" (String "/" rest))))))))
  |change ("http" +:+ "://" +:+ rest)%string with
     (String "h" (String "t" (String "t" (String "p" (String ":" (String "/" (String "/" rest)))))))];
  cbn [Cut]; simpl Ascii.eqb; cbv iota; rewrite Hc1; unfold urlParseNoFrag; simpl stringForall; rewrite Hctl;
  simpl; rewrite Hq; simpl; rewrite Hb, Hauth, Hd; simpl; unfold withPath; by rewrite Hpre, Hu.
Qed.

Lemma urlParse_plain_http (tls : bool) (host port : string) :
  stringForall hostByte host = true → stringForall isDigit port = true → host ≠ "" →
  let scheme := (if tls then "https" else "http")%string in
  urlParse (scheme +:+ "://" +:+ host +:+ String ":" port) =
  Some (mkURL scheme (host +:+ String ":" port) "").
Proof.
  intros Hh Hp Hne scheme. pose proof (urlParse_plain_path tls host port "" Hh Hp Hne eq_refl) as Hu.
  cbn zeta in Hu. rewrite string_app_nil_r in Hu. exact Hu.
Qed.

Lemma Itoa_pathByte n : stringForall pathByte (Itoa n) = true.
Proof.
  assert (∀ k : N, stringForall pathByte (pretty k) = true) as HN.
  { intros k. eapply stringForall_impl; [|apply (pretty_N_digits k)].
    intros c Hc%isDigit_hostByte. unfold pathByte. by rewrite Hc. }
  destruct n as [|p|p]; [done|apply (HN (Npos p))|].
  change (Itoa (Z.neg p)) with (String "-" (pretty (Npos p))). simpl. apply HN.
Qed.

Lemma plainPath_app p rest :
  plainPath p = true → p ≠ ""%string → stringForall pathByte rest = true → plainPath (p +:+ rest) = true.
Proof.
  destruct p as [|x p]; [done|]. simpl. intros [-> Hp]%andb_true_iff _ Hr. by rewrite stringForall_app, Hp, Hr.
Qed.

Lemma Itoa_nonneg n : 0 ≤ n → stringForall isDigit (Itoa n) = true ∧ Itoa n ≠ "".
Proof.
  intros Hn. destruct n as [|p|p]; [done| |lia].
  by destruct (pretty_N_digits (Npos p)) as (? & _ & ?).
Qed.

(** *** Integers as [float64] *)

Lemma digits2_iter_xO m d : Zpos (digits2_pos (Pos.iter xO m d)) = Zpos d + Zpos (digits2_pos m).
Proof.
  induction d as [|d IH] using Pos.peano_ind; [simpl; lia|].
  rewrite Pos.iter_succ. simpl. lia.
Qed.

Lemma iter_xO_value m d : Zpos (Pos.iter xO m d) = Zpos m * 2 ^ Zpos d.
Proof.
  induction d as [|d IH] using Pos.peano_ind; [simpl; lia|].
  rewrite Pos.iter_succ, Pos2Z.inj_xO, IH, Pos2Z.inj_succ, Z.pow_succ_r by lia. ring.
Qed.

Lemma digits2_lower m : 2 ^ (Zpos (digits2_pos m) - 1) ≤ Zpos m.
Proof.
  induction m as [m IH|m IH|]; simpl digits2_pos; [| |done];
    rewrite Pos2Z.inj_succ; unfold Z.succ; rewrite Z.add_simpl_r;
    replace (Zpos (digits2_pos m)) with (Z.succ (Zpos (digits2_pos m) - 1)) by lia;
    rewrite Z.pow_succ_r by lia; lia.
Qed.

Lemma digits2_bound m : Zpos m < 2 ^ 53 → Zpos (digits2_pos m) ≤ 53.
Proof.
  intros Hm. pose proof (digits2_lower m) as Hl.
  assert (2 ^ (Zpos (digits2_pos m) - 1) < 2 ^ 53) as Hlt by lia.
  apply Z.pow_lt_mono_r_iff in Hlt; lia.
Qed.

(** A mantissa of exactly 53 bits is left as it is by the rounding. *)
Lemma binary_round_aux_exact sx mz k :
  Zpos (digits2_pos mz) = 53 → 0 ≤ k ≤ 53 →
  binary_round_aux 53 1024 sx (Zpos mz) (- k) loc_Exact = S754_finite sx mz (- k).
Proof.
  intros Hd Hk. assert (Hshr : shr_fexp 53 1024 (Zpos mz) (- k) loc_Exact =
    ({| shr_m := Zpos mz; shr_r := false; shr_s := false |}, - k)).
  { unfold shr_fexp. replace (fexp 53 1024 (Zdigits2 (Zpos mz) + - k) - - k) with 0; [done|].
    unfold fexp, emin. simpl Zdigits2. rewrite Hd. lia. }
  unfold binary_round_aux. rewrite Hshr. simpl shr_m. cbn [loc_of_shr_record round_nearest_even].
  rewrite Hshr. cbn [shr_m]. change (1024 - 53) with 971.
  by destruct (Z.leb_spec (- k) 971); [|lia].
Qed.

Lemma binary_round_exact sx m :
  Zpos m < 2 ^ 53 →
  ∃ mz k, 0 ≤ k ∧ Zpos mz = Zpos m * 2 ^ k ∧ binary_round 53 1024 sx m 0 = S754_finite sx mz (- k).
Proof.
  intros Hm%digits2_bound. unfold binary_round, shl_align.
  set (d := Zpos (digits2_pos m)) in *. assert (1 ≤ d) by lia.
  replace (fexp 53 1024 (d + 0)) with (- (53 - d)) by (unfold fexp, emin; lia).
  rewrite Z.sub_0_r. destruct (53 - d) as [|k|k] eqn:Ek; [| |lia].
  - exists m, 0. split; [done|]. split; [lia|]. apply (binary_round_aux_exact sx m 0); lia.
  - exists (Pos.iter xO m k), (Zpos k). split; [done|]. split; [apply iter_xO_value|].
    apply (binary_round_aux_exact sx (Pos.iter xO m k) (Zpos k)); [|lia].
    rewrite digits2_iter_xO. lia.
Qed.

Lemma truncMag_exact mz m k : 0 ≤ k → Zpos mz = Zpos m * 2 ^ k → truncMag mz (- k) = Zpos m.
Proof.
  intros Hk Hmz. unfold truncMag. rewrite Hmz, Z.opp_involutive. destruct (Z.leb_spec 0 (- k)).
  - replace k with 0 by lia. rewrite Z.pow_0_r. lia.
  - apply Z.div_mul. apply Z.pow_nonzero; lia.
Qed.

(** Every integer of magnitude below [2^53] survives the trip through a [float64]. *)
Lemma int_float64_exact n : - 2 ^ 53 < n < 2 ^ 53 → int_of_float64 (float64_of_int n) = n.
Proof.
  intros [Hlo Hhi]. unfold float64_of_int, binary_normalize.
  destruct n as [|p|p]; [done|..].
  - destruct (binary_round_exact false p) as (mz' & k' & Hk' & Hmz' & ->); [lia|].
    cbn [int_of_float64]. rewrite (truncMag_exact mz' p k') by done. unfold minInt, maxInt.
    destruct (Z.leb_spec (- 2 ^ 63) (Zpos p)), (Z.leb_spec (Zpos p) (2 ^ 63 - 1)); simpl; lia.
  - destruct (binary_round_exact true p) as (mz' & k' & Hk' & Hmz' & ->); [lia|].
    cbn [int_of_float64]. rewrite (truncMag_exact mz' p k') by done. unfold minInt, maxInt.
    destruct (Z.leb_spec (- 2 ^ 63) (- Zpos p)), (Z.leb_spec (- Zpos p) (2 ^ 63 - 1)); simpl; lia.
Qed.
