(* ===== verification/Hash.v ===== *)
(** * Hash functions (crypto/md5 and crypto/sha256 of Go's standard library)

    MD5 (RFC 1321) and SHA-256 (FIPS 180-4), which the operator uses for the password
    of Bazarr and to detect changes: one frame, padding and blocks of sixteen words,
    and the rounds of each function.  Words of 32 bits are kept in [Z] as residues. *)
From S2P Require Export GoStd.

(** ** Words *)

Definition word (n : Z) : Z := n `mod` 2 ^ 32.
Definition rotateLeft (n x : Z) : Z := Z.lor (word (Z.shiftl x n)) (Z.shiftr x (32 - n)).
Definition rotateRight (n x : Z) : Z := rotateLeft (32 - n) x.
Definition complement (x : Z) : Z := Z.lxor x (2 ^ 32 - 1).

Fixpoint bytesOf (s : string) : list Z :=
  match s with
  | EmptyString => []
  | String c s' => Z.of_N (byteN c) :: bytesOf s'
  end.

(** The [n] bytes of [x], the least significant first, and the number they are. *)
Fixpoint littleEndian (n : nat) (x : Z) : list Z :=
  match n with
  | O => []
  | S n' => x `mod` 256 :: littleEndian n' (x / 256)
  end.
Definition bigEndian (n : nat) (x : Z) : list Z := reverse (littleEndian n x).
Definition fromLittle (l : list Z) : Z := foldr (λ b n, b + 256 * n) 0 l.
Definition fromBig (l : list Z) : Z := foldl (λ n b, 256 * n + b) 0 l.

(** The pieces of [n] elements of a list, of which [k] are taken. *)
Fixpoint pieces {A} (n k : nat) (l : list A) : list (list A) :=
  match k with
  | O => []
  | S k' => take n l :: pieces n k' (drop n l)
  end.

(** ** The frame *)

Section frame.
Context {St : Type} (number : list Z → Z) (encode : nat → Z → list Z) (compress : St → list Z → St) (initial : St).

(** The message, the byte 128, zeros up to 8 bytes short of a multiple of 64, and the
    length of the message in bits in 8 bytes. *)
Definition padded (m : list Z) : list Z :=
  let n := Z.of_nat (length m) in
  m ++ 128 :: replicate (Z.to_nat ((55 - n) `mod` 64)) 0 ++ encode 8%nat (8 * n).

Definition blocks (m : list Z) : list (list Z) :=
  (λ block, number <$> pieces 4 16 block) <$> pieces 64 (length (padded m) / 64) (padded m).

Definition hashState (m : list Z) : St := foldl compress initial (blocks m).

Lemma padded_length m : (∀ x, length (encode 8%nat x) = 8%nat) → (length (padded m) `mod` 64 = 0)%nat.
Proof.
  intros He. unfold padded. rewrite length_app, length_cons, length_app, length_replicate, He.
  apply Nat2Z.inj. rewrite Nat2Z.inj_mod, !Nat2Z.inj_add, Nat2Z.inj_succ, Nat2Z.inj_add, Z2Nat.id by (apply Z.mod_pos_bound; lia).
  set (n := Z.of_nat (length m)). Z.to_euclidean_division_equations. lia.
Qed.
End frame.

(** ** Hexadecimal *)

Definition hexDigitLower (n : Z) : ascii := ascii_of_N (Z.to_N (if n <? 10 then 48 + n else 87 + n)).
Definition hexByte (b : Z) : string := String (hexDigitLower ((b / 16) `mod` 16)) (String (hexDigitLower (b `mod` 16)) "").
Fixpoint hex (l : list Z) : string :=
  match l with
  | [] => ""
  | b :: l' => hexByte b +:+ hex l'
  end.

Definition isHexLower (c : ascii) : bool := isDigit c || inRange 97 102 c.

Lemma hexDigitLower_hex n : isHexLower (hexDigitLower (n `mod` 16)) = true.
Proof.
  pose proof (Z.mod_pos_bound n 16 eq_refl) as Hb. set (k := n `mod` 16) in *. clearbody k. clear n.
  assert (k ∈ seqZ 0 16) as Hk by (rewrite elem_of_seqZ; lia). clear Hb.
  revert k Hk. apply Forall_forall. vm_compute. repeat constructor.
Qed.

Lemma hex_length l : String.length (hex l) = (2 * length l)%nat.
Proof.
  induction l as [|b l IH]; [done|].
  change (String.length (hex (b :: l))) with (2 + String.length (hex l))%nat. rewrite IH. simpl. lia.
Qed.

Lemma hex_digits l : stringForall isHexLower (hex l) = true.
Proof. induction l as [|b l IH]; [done|]. simpl. by rewrite !hexDigitLower_hex. Qed.

(** ** MD5 *)

Definition md5Sines : list Z :=
  [ 0xd76aa478; 0xe8c7b756; 0x242070db; 0xc1bdceee; 0xf57c0faf; 0x4787c62a; 0xa8304613; 0xfd469501;
    0x698098d8; 0x8b44f7af; 0xffff5bb1; 0x895cd7be; 0x6b901122; 0xfd987193; 0xa679438e; 0x49b40821;
    0xf61e2562; 0xc040b340; 0x265e5a51; 0xe9b6c7aa; 0xd62f105d; 0x02441453; 0xd8a1e681; 0xe7d3fbc8;
    0x21e1cde6; 0xc33707d6; 0xf4d50d87; 0x455a14ed; 0xa9e3e905; 0xfcefa3f8; 0x676f02d9; 0x8d2a4c8a;
    0xfffa3942; 0x8771f681; 0x6d9d6122; 0xfde5380c; 0xa4beea44; 0x4bdecfa9; 0xf6bb4b60; 0xbebfbc70;
    0x289b7ec6; 0xeaa127fa; 0xd4ef3085; 0x04881d05; 0xd9d4d039; 0xe6db99e5; 0x1fa27cf8; 0xc4ac5665;
    0xf4292244; 0x432aff97; 0xab9423a7; 0xfc93a039; 0x655b59c3; 0x8f0ccc92; 0xffeff47d; 0x85845dd1;
    0x6fa87e4f; 0xfe2ce6e0; 0xa3014314; 0x4e0811a1; 0xf7537e82; 0xbd3af235; 0x2ad7d2bb; 0xeb86d391 ].
Definition md5Shifts : list Z := [7; 12; 17; 22; 5; 9; 14; 20; 4; 11; 16; 23; 6; 10; 15; 21].

(** The function of a round of sixteen steps, and the word of the block a step uses. *)
Definition md5Mix (round b c d : Z) : Z :=
  if round =? 0 then Z.lor (Z.land b c) (Z.land (complement b) d)
  else if round =? 1 then Z.lor (Z.land d b) (Z.land (complement d) c)
  else if round =? 2 then Z.lxor b (Z.lxor c d)
  else Z.lxor c (Z.lor b (complement d)).
Definition md5Word (round i : Z) : Z :=
  (if round =? 0 then i else if round =? 1 then 5 * i + 1 else if round =? 2 then 3 * i + 5 else 7 * i) `mod` 16.

Record MD5State := mkMD5State { md5_a : Z; md5_b : Z; md5_c : Z; md5_d : Z }.

Definition md5Step (block : list Z) (s : MD5State) (step : Z * Z) : MD5State :=
  let '(i, sine) := step in
  let round := i / 16 in
  let mixed := word (md5Mix round (md5_b s) (md5_c s) (md5_d s) + md5_a s + sine
    + nth (Z.to_nat (md5Word round i)) block 0) in
  let shift := nth (Z.to_nat (4 * round + i `mod` 4)) md5Shifts 0 in
  mkMD5State (md5_d s) (word (md5_b s + rotateLeft shift mixed)) (md5_b s) (md5_c s).

Definition md5Compress (s : MD5State) (block : list Z) : MD5State :=
  let s' := foldl (md5Step block) s (zip (seqZ 0 64) md5Sines) in
  mkMD5State (word (md5_a s + md5_a s')) (word (md5_b s + md5_b s')) (word (md5_c s + md5_c s')) (word (md5_d s + md5_d s')).

Definition md5Initial : MD5State := mkMD5State 0x67452301 0xefcdab89 0x98badcfe 0x10325476.

Definition md5Sum (m : list Z) : list Z :=
  let s := hashState fromLittle littleEndian md5Compress md5Initial m in
  littleEndian 4 (md5_a s) ++ littleEndian 4 (md5_b s) ++ littleEndian 4 (md5_c s) ++ littleEndian 4 (md5_d s).

(** ** SHA-256 *)

(** The constants: 32 bits of the fractions of the cube roots of the first 64 primes,
    and of the square roots of the first eight. *)
Definition primes : list Z := filter (λ n, forallb (λ d, negb (n `mod` d =? 0)) (seqZ 2 (n - 2)) = true) (seqZ 2 310).
Definition cubeRoot (x : Z) : Z := foldr (λ k r, if (r + 2 ^ k) ^ 3 <=? x then r + 2 ^ k else r) 0 (seqZ 0 41).
Definition sha256Roots : list Z := Eval vm_compute in (λ p, word (cubeRoot (p * 2 ^ 96))) <$> primes.
Definition sha256Squares : list Z := Eval vm_compute in (λ p, word (Z.sqrt (p * 2 ^ 64))) <$> take 8 primes.

Definition sigma (a b c x : Z) : Z := Z.lxor (rotateRight a x) (Z.lxor (rotateRight b x) (rotateRight c x)).
Definition sigmaShift (a b c x : Z) : Z := Z.lxor (rotateRight a x) (Z.lxor (rotateRight b x) (Z.shiftr x c)).

(** The message schedule as a window of the last sixteen words. *)
Definition nextWord (window : list Z) : Z :=
  word (sigmaShift 17 19 10 (nth 14 window 0) + nth 9 window 0 + sigmaShift 7 18 3 (nth 1 window 0) + nth 0 window 0).

Record SHA256State := mkSHA256State {
  sha_a : Z; sha_b : Z; sha_c : Z; sha_d : Z; sha_e : Z; sha_f : Z; sha_g : Z; sha_h : Z }.

Definition sha256Step (x : list Z * SHA256State) (root : Z) : list Z * SHA256State :=
  let '(window, s) := x in
  let '(mkSHA256State a b c d e f g h) := s in
  let t1 := h + sigma 6 11 25 e + Z.lxor (Z.land e f) (Z.land (complement e) g) + root + nth 0 window 0 in
  let t2 := sigma 2 13 22 a + Z.lxor (Z.land a b) (Z.lxor (Z.land a c) (Z.land b c)) in
  (drop 1 window ++ [nextWord window], mkSHA256State (word (t1 + t2)) a b c (word (d + t1)) e f g).

Definition sha256Add (s t : SHA256State) : SHA256State :=
  mkSHA256State (word (sha_a s + sha_a t)) (word (sha_b s + sha_b t)) (word (sha_c s + sha_c t)) (word (sha_d s + sha_d t))
    (word (sha_e s + sha_e t)) (word (sha_f s + sha_f t)) (word (sha_g s + sha_g t)) (word (sha_h s + sha_h t)).

Definition sha256Compress (s : SHA256State) (block : list Z) : SHA256State :=
  sha256Add s (foldl sha256Step (block, s) sha256Roots).2.

Definition sha256Initial : SHA256State :=
  let h i := nth i sha256Squares 0 in mkSHA256State (h 0%nat) (h 1%nat) (h 2%nat) (h 3%nat) (h 4%nat) (h 5%nat) (h 6%nat) (h 7%nat).

Definition sha256Sum (m : list Z) : list Z :=
  let s := hashState fromBig bigEndian sha256Compress sha256Initial m in
  mjoin (bigEndian 4 <$> [sha_a s; sha_b s; sha_c s; sha_d s; sha_e s; sha_f s; sha_g s; sha_h s]).

(** ** The published test vectors *)

Definition md5Hex (s : string) : string := hex (md5Sum (bytesOf s)).
Definition sha256Hex (s : string) : string := hex (sha256Sum (bytesOf s)).

Example md5_empty : md5Hex "" = "d41d8cd98f00b204e9800998ecf8427e".
Proof. vm_compute. reflexivity. Qed.
Example md5_alphabet : md5Hex "abcdefghijklmnopqrstuvwxyz" = "c3fcd3d76192e4007dfb496cca67e13b".
Proof. vm_compute. reflexivity. Qed.
(* two blocks *)
Example md5_digits :
  md5Hex "12345678901234567890123456789012345678901234567890123456789012345678901234567890" = "57edf4a22be3c955ac49da2e2107b67a".
Proof. vm_compute. reflexivity. Qed.

Example sha256_abc : sha256Hex "abc" = "ba7816bf8f01cfea414140de5dae2223b00361a396177a9cb410ff61f20015ad".
Proof. vm_compute. reflexivity. Qed.
(* two blocks *)
Example sha256_two_blocks : sha256Hex "abcdbcdecdefdefgefghfghighijhijkijkljklmklmnlmnomnopnopq" =
  "248d6a61d20638b8e5c026930c3e6039a33ce45964ff2167f6ecedd419db06c1".
Proof. vm_compute. reflexivity. Qed.

Lemma md5Sum_length m : length (md5Sum m) = 16%nat.
Proof. reflexivity. Qed.

Lemma sha256Sum_length m : length (sha256Sum m) = 32%nat.
Proof. reflexivity. Qed.

(** Proofs do not look inside. *)
#[global] Opaque md5Sum sha256Sum.
