(* ===== verification/Json.v ===== *)
(** * Encoding and decoding of JSON bodies (package encoding/json)

    A parsed JSON document is an [any] in which a number literal that is an
    integer in the range of [int] is a [VInt] and any other number a [VFloat].
    [toWire] is what [json.Marshal] makes of a dynamic value, [toInterface] what
    decoding into an [interface{}] gives; [FromJSON] and [ToJSON] are the
    decoding into and encoding of the resource structs, from their field tags.  Text
    is taken to be UTF-8: [json.Marshal] replaces the bytes of any other. *)
From S2P Require Export GoStd.

(** ** Dynamic values *)

(** A [float64] that is an integer is written without a fraction. *)
Definition floatToWire (f : float64) : any :=
  let n := int_of_float64 f in
  if SFeqb (float64_of_int n) f then VInt n else VFloat f.

Fixpoint toWire (v : any) : any :=
  match v with
  | VFloat f => floatToWire f
  | VInts l => VList (VInt <$> l)
  | VList l => VList (map toWire l)
  | VMap l => VMap (map (λ '(k, x), (k, toWire x)) l)
  | _ => v
  end.

(** Decoding into an [interface{}]: every number becomes a [float64]. *)
Fixpoint toInterface (v : any) : any :=
  match v with
  | VInt n => VFloat (float64_of_int n)
  | VInts l => VList (map (λ n, VFloat (float64_of_int n)) l)
  | VList l => VList (map toInterface l)
  | VMap l => VMap (map (λ '(k, x), (k, toInterface x)) l)
  | _ => v
  end.

Definition throughJSON (v : any) : any := toInterface (toWire v).

(** ** Structs *)

(** Decoding a document into a value of type [A]; [None] is an error. *)
Class FromJSON (A : Type) := fromJSON : any → option A.
Class ToJSON (A : Type) := toJSON : A → any.

(** Keys match a field name regardless of letter case (ASCII names). *)
Definition sameKey (name k : string) : bool :=
  String.eqb (stringMap toLowerASCII name) (stringMap toLowerASCII k).

(** The members of an object are read in order into the field [name], whose
    value so far is [cur]: [null] leaves it alone, or resets it to [nullTo]. *)
Fixpoint readMember {A} (conv : any → option A) (nullTo : option A) (name : string) (cur : A)
    (members : list (string * any)) : option A :=
  match members with
  | [] => Some cur
  | (k, v) :: rest =>
      if sameKey name k then
        match v with
        | VNil => readMember conv nullTo name (default cur nullTo) rest
        | _ => match conv v with
               | Some x => readMember conv nullTo name x rest
               | None => None
               end
        end
      else readMember conv nullTo name cur rest
  end.

Definition asString (v : any) : option string := match v with VString s => Some s | _ => None end.
Definition asInt (v : any) : option Z := match v with VInt n => Some n | _ => None end.
Definition asBool (v : any) : option bool := match v with VBool b => Some b | _ => None end.

(** A slice: each element decoded in turn. *)
Definition asSlice {A} (conv : any → option A) (v : any) : option (list A) :=
  match v with
  | VList l => mapM conv l
  | _ => None
  end.
Definition asIntElem (v : any) : option Z := match v with VNil => Some 0 | _ => asInt v end.

Definition getString (name : string) : list (string * any) → option string :=
  readMember asString None name "".
Definition getInt (name : string) : list (string * any) → option Z := readMember asInt None name 0.
Definition getBool (name : string) : list (string * any) → option bool :=
  readMember asBool None name false.
Definition asFloat (v : any) : option float64 :=
  match v with VInt n => Some (float64_of_int n) | VFloat f => Some f | _ => None end.
Definition getFloat (name : string) : list (string * any) → option float64 :=
  readMember asFloat None name float64_zero.
Definition getAny (name : string) : list (string * any) → option any :=
  readMember (λ v, Some (toInterface v)) (Some VNil) name VNil.
Definition getSlice {A} (conv : any → option A) (name : string)
    : list (string * any) → option (list A) := readMember (asSlice conv) (Some []) name [].
Definition getPtr {A} (conv : any → option A) (name : string)
    : list (string * any) → option (option A) :=
  readMember (λ v, Some <$> conv v) (Some None) name None.

(** A member that is a struct, not a pointer to one, and present at most once. *)
Definition getStruct {A} `{FromJSON A} (name : string) (l : list (string * any)) : option A :=
  x ← readMember (λ v, Some <$> fromJSON v) None name None l;
  match x with Some a => Some a | None => fromJSON VNil end.

(** A struct: the members of an object; [null] leaves the zero value. *)
Definition asStruct {A} (members : list (string * any) → option A) (v : any) : option A :=
  match v with
  | VMap l => members l
  | VNil => members []
  | _ => None
  end.

(** A member tagged [omitempty]. *)
Definition omitIf (empty : bool) (name : string) (v : any) : list (string * any) :=
  if empty then [] else [(name, v)].

#[export] Instance FromJSON_list {A} `{FromJSON A} : FromJSON (list A) | 100 :=
  λ v, match v with VNil => Some [] | _ => asSlice fromJSON v end.
