(* ===== verification/IR.v ===== *)
(** * The intermediate representation (src/internal/ir/v1)

    One record per Go struct, with the struct's fields in its order; a record's
    fields carry a short prefix because Rocq's projections share one name
    space ([dc_Name] is the field [Name] of [DownloadClientIR]).

    - A pointer is an [option], a slice a [list] (a nil and an empty slice are
      the same list), a [map[string]V] a [gmap string V], a [time.Time] the
      number of nanoseconds of its instant.
    - The methods of [HealthStatus] and [HealthIssue] and the constants of the
      package follow the records. *)
From S2P Require Export GoStd.

(** ** ir/v1/connection.go *)

Record ConnectionIR := mkConnectionIR {
  conn_URL : string;
  conn_APIKey : string;
  conn_InsecureSkipVerify : bool }.

(** ** ir/v1/quality.go *)

Record FormatSpecIR := mkFormatSpecIR {
  fs_Type : string;
  fs_Name : string;
  fs_Negate : bool;
  fs_Required : bool;
  fs_Value : string }.

Record CustomFormatIR := mkCustomFormatIR {
  cf_ID : Z;
  cf_Name : string;
  cf_IncludeWhenRenaming : bool;
  cf_Specifications : list FormatSpecIR }.

Record VideoQualityTierIR := mkVideoQualityTierIR {
  vt_Resolution : string;
  vt_Sources : list string;
  vt_Allowed : bool }.

Record VideoQualityIR := mkVideoQualityIR {
  vq_ProfileName : string;
  vq_UpgradeAllowed : bool;
  vq_Cutoff : VideoQualityTierIR;
  vq_Tiers : list VideoQualityTierIR;
  vq_CustomFormats : list CustomFormatIR;
  vq_FormatScores : gmap string Z;
  vq_MinimumCustomFormatScore : Z;
  vq_UpgradeUntilCustomFormatScore : Z }.

Record PreferredTermIR := mkPreferredTermIR {
  pt_Term : string;
  pt_Score : Z }.

Record ReleaseProfileIR := mkReleaseProfileIR {
  rp_ID : option Z;
  rp_Name : string;
  rp_Enabled : bool;
  rp_Required : list string;
  rp_Ignored : list string;
  rp_Preferred : list PreferredTermIR;
  rp_IncludePreferredWhenRenaming : bool;
  rp_IndexerID : Z;
  rp_Tags : list Z }.

Record AudioQualityTierIR := mkAudioQualityTierIR {
  at_Tier : string;
  at_Allowed : bool }.

Record AudioQualityIR := mkAudioQualityIR {
  aq_ProfileName : string;
  aq_UpgradeAllowed : bool;
  aq_Cutoff : string;
  aq_Tiers : list AudioQualityTierIR;
  aq_ReleaseProfile : option ReleaseProfileIR;
  aq_FormatScores : gmap string Z;
  aq_MinimumCustomFormatScore : Z;
  aq_UpgradeUntilCustomFormatScore : Z }.

Record BookQualityTierIR := mkBookQualityTierIR {
  bt_Name : string;
  bt_Formats : list string;
  bt_Allowed : bool }.

Record BookQualityIR := mkBookQualityIR {
  bq_ProfileName : string;
  bq_UpgradeAllowed : bool;
  bq_Cutoff : BookQualityTierIR;
  bq_Tiers : list BookQualityTierIR }.

Record MetadataProfileIR := mkMetadataProfileIR {
  mp_ID : option Z;
  mp_Name : string;
  mp_MinPopularity : float64;
  mp_SkipMissingDate : bool;
  mp_SkipMissingIsbn : bool;
  mp_SkipPartsAndSets : bool;
  mp_SkipSeriesSecondary : bool;
  mp_AllowedLanguages : string }.

Record QualityIR := mkQualityIR {
  q_Video : option VideoQualityIR;
  q_Audio : option AudioQualityIR;
  q_Book : option BookQualityIR }.

(** ** ir/v1/download_client.go *)

Record DownloadClientIR := mkDownloadClientIR {
  dc_ID : Z;
  dc_Name : string;
  dc_Protocol : string;
  dc_Implementation : string;
  dc_Enable : bool;
  dc_Priority : Z;
  dc_RemoveCompletedDownloads : bool;
  dc_RemoveFailedDownloads : bool;
  dc_Host : string;
  dc_Port : Z;
  dc_UseTLS : bool;
  dc_Username : string;
  dc_Password : string;
  dc_Category : string;
  dc_Directory : string }.

(** ** ir/v1/remote_path_mapping.go *)

Record RemotePathMappingIR := mkRemotePathMappingIR {
  rpm_ID : Z;
  rpm_Host : string;
  rpm_RemotePath : string;
  rpm_LocalPath : string }.

(** ** ir/v1/indexer.go *)

Record ProwlarrRefIR := mkProwlarrRefIR {
  pref_ConfigName : string;
  pref_AutoRegister : bool;
  pref_Include : list string;
  pref_Exclude : list string }.

Record IndexerIR := mkIndexerIR {
  idx_ID : Z;
  idx_Name : string;
  idx_Protocol : string;
  idx_Implementation : string;
  idx_Enable : bool;
  idx_Priority : Z;
  idx_URL : string;
  idx_APIKey : string;
  idx_Categories : list Z;
  idx_MinimumSeeders : Z;
  idx_SeedRatio : float64;
  idx_SeedTimeMinutes : Z;
  idx_EnableRss : bool;
  idx_EnableAutomaticSearch : bool;
  idx_EnableInteractiveSearch : bool }.

Record IndexersIR := mkIndexersIR {
  idxs_ProwlarrRef : option ProwlarrRefIR;
  idxs_Direct : list IndexerIR }.

(** ** ir/v1/naming.go *)

Record RadarrNamingIR := mkRadarrNamingIR {
  rn_RenameMovies : bool;
  rn_ReplaceIllegalCharacters : bool;
  rn_ColonReplacementFormat : Z;
  rn_StandardMovieFormat : string;
  rn_MovieFolderFormat : string }.

Record SonarrNamingIR := mkSonarrNamingIR {
  sn_RenameEpisodes : bool;
  sn_ReplaceIllegalCharacters : bool;
  sn_ColonReplacementFormat : Z;
  sn_StandardEpisodeFormat : string;
  sn_DailyEpisodeFormat : string;
  sn_AnimeEpisodeFormat : string;
  sn_SeriesFolderFormat : string;
  sn_SeasonFolderFormat : string;
  sn_SpecialsFolderFormat : string;
  sn_MultiEpisodeStyle : Z }.

Record LidarrNamingIR := mkLidarrNamingIR {
  ln_RenameTracks : bool;
  ln_ReplaceIllegalCharacters : bool;
  ln_ColonReplacementFormat : Z;
  ln_StandardTrackFormat : string;
  ln_MultiDiscTrackFormat : string;
  ln_ArtistFolderFormat : string;
  ln_AlbumFolderFormat : string }.

Record NamingIR := mkNamingIR {
  nm_Radarr : option RadarrNamingIR;
  nm_Sonarr : option SonarrNamingIR;
  nm_Lidarr : option LidarrNamingIR }.

(** ** ir/v1/root_folder.go *)

Record RootFolderIR := mkRootFolderIR {
  rf_Path : string;
  rf_Name : string;
  rf_DefaultMonitor : string }.

(** ** ir/v1/import_list.go *)

Record ImportListIR := mkImportListIR {
  il_Name : string;
  il_Type : string;
  il_Enabled : bool;
  il_EnableAuto : bool;
  il_SearchOnAdd : bool;
  il_QualityProfileID : Z;
  il_QualityProfileName : string;
  il_RootFolderPath : string;
  il_Monitor : string;
  il_MinimumAvailability : string;
  il_SeriesType : string;
  il_SeasonFolder : bool;
  il_ShouldMonitor : string;
  il_Settings : gmap string string }.

(** ** ir/v1/notification.go *)

Record NotificationIR := mkNotificationIR {
  nt_ID : Z;
  nt_Name : string;
  nt_Implementation : string;
  nt_ConfigContract : string;
  nt_Enabled : bool;
  nt_OnGrab : bool;
  nt_OnDownload : bool;
  nt_OnUpgrade : bool;
  nt_OnRename : bool;
  nt_OnHealthIssue : bool;
  nt_OnHealthRestored : bool;
  nt_OnApplicationUpdate : bool;
  nt_OnManualInteractionRequired : bool;
  nt_IncludeHealthWarnings : bool;
  nt_OnMovieAdded : bool;
  nt_OnMovieDelete : bool;
  nt_OnMovieFileDelete : bool;
  nt_OnMovieFileDeleteForUpgrade : bool;
  nt_OnSeriesAdd : bool;
  nt_OnSeriesDelete : bool;
  nt_OnEpisodeFileDelete : bool;
  nt_OnEpisodeFileDeleteForUpgrade : bool;
  nt_OnReleaseImport : bool;
  nt_OnArtistAdd : bool;
  nt_OnArtistDelete : bool;
  nt_OnAlbumDelete : bool;
  nt_OnTrackRetag : bool;
  nt_OnDownloadFailure : bool;
  nt_OnImportFailure : bool;
  nt_Fields : gmap string any;
  nt_Tags : list Z }.

(** ** ir/v1/delay_profile.go *)

Record DelayProfileIR := mkDelayProfileIR {
  dp_ID : Z;
  dp_Name : string;
  dp_Order : Z;
  dp_PreferredProtocol : string;
  dp_UsenetDelay : Z;
  dp_TorrentDelay : Z;
  dp_EnableUsenet : bool;
  dp_EnableTorrent : bool;
  dp_BypassIfHighestQuality : bool;
  dp_BypassIfAboveCustomFormatScore : bool;
  dp_MinimumCustomFormatScore : Z;
  dp_Tags : list Z;
  dp_TagNames : list string }.

(** ** ir/v1/media_management.go *)

Record MediaManagementIR := mkMediaManagementIR {
  mm_RecycleBin : string;
  mm_RecycleBinCleanupDays : Z;
  mm_SetPermissions : bool;
  mm_ChmodFolder : string;
  mm_ChownGroup : string;
  mm_DeleteEmptyFolders : bool;
  mm_CreateEmptyFolders : bool;
  mm_UseHardlinks : bool;
  mm_WatchLibraryForChanges : option bool;
  mm_AllowFingerprinting : string }.

(** ** ir/v1/authentication.go *)

Record AuthenticationIR := mkAuthenticationIR {
  auth_Method : string;
  auth_Username : string;
  auth_Password : string;
  auth_AuthenticationRequired : string }.

(** ** ir/v1/ir.go: unrealized features *)

Record UnrealizedFeature := mkUnrealizedFeature {
  uf_Feature : string;
  uf_Reason : string }.

(** ** ir/v1/prowlarr.go *)

Record ProwlarrIndexerIR := mkProwlarrIndexerIR {
  pidx_Name : string;
  pidx_Definition : string;
  pidx_Enable : bool;
  pidx_Priority : Z;
  pidx_BaseURL : string;
  pidx_APIKey : string;
  pidx_Settings : gmap string string;
  pidx_Tags : list string }.

Record IndexerProxyIR := mkIndexerProxyIR {
  ipx_Name : string;
  ipx_Type : string;
  ipx_Host : string;
  ipx_Port : Z;
  ipx_Username : string;
  ipx_Password : string;
  ipx_RequestTimeout : Z;
  ipx_Tags : list string }.

Record ProwlarrApplicationIR := mkProwlarrApplicationIR {
  papp_Name : string;
  papp_Type : string;
  papp_ProwlarrURL : string;
  papp_URL : string;
  papp_APIKey : string;
  papp_SyncCategories : list Z;
  papp_SyncLevel : string;
  papp_Tags : list string }.

Record ProwlarrIR := mkProwlarrIR {
  pr_Connection : option ConnectionIR;
  pr_Indexers : list ProwlarrIndexerIR;
  pr_Proxies : list IndexerProxyIR;
  pr_Applications : list ProwlarrApplicationIR;
  pr_DownloadClients : list DownloadClientIR;
  pr_Unrealized : list UnrealizedFeature }.

(** ** ir/v1/ir.go *)

Record IR := mkIR {
  ir_Version : string;
  ir_GeneratedAt : Z;
  ir_SourceHash : string;
  ir_App : string;
  ir_Connection : option ConnectionIR;
  ir_Quality : option QualityIR;
  ir_DownloadClients : list DownloadClientIR;
  ir_RemotePathMappings : list RemotePathMappingIR;
  ir_Indexers : option IndexersIR;
  ir_Naming : option NamingIR;
  ir_RootFolders : list RootFolderIR;
  ir_ImportLists : list ImportListIR;
  ir_Notifications : list NotificationIR;
  ir_CustomFormats : list CustomFormatIR;
  ir_DelayProfiles : list DelayProfileIR;
  ir_ReleaseProfiles : list ReleaseProfileIR;
  ir_MetadataProfiles : list MetadataProfileIR;
  ir_MediaManagement : option MediaManagementIR;
  ir_Authentication : option AuthenticationIR;
  ir_Prowlarr : option ProwlarrIR;
  ir_Unrealized : list UnrealizedFeature }.

(** ** ir/v1/health.go *)

Definition HealthIssueType : Type := string.
Definition HealthIssueTypeError : HealthIssueType := "error".
Definition HealthIssueTypeWarning : HealthIssueType := "warning".
Definition HealthIssueTypeNotice : HealthIssueType := "notice".

Record HealthIssue := mkHealthIssue {
  hi_Source : string;
  hi_Type : HealthIssueType;
  hi_Message : string;
  hi_WikiURL : string }.

Record HealthStatus := mkHealthStatus {
  hs_Healthy : bool;
  hs_Issues : list HealthIssue }.

(** [HasErrors] and [HasWarnings] scan the issues for a severity. *)
Definition HasErrors (h : HealthStatus) : bool :=
  existsb (λ issue, String.eqb (hi_Type issue) HealthIssueTypeError) (hs_Issues h).

Definition HasWarnings (h : HealthStatus) : bool :=
  existsb (λ issue, String.eqb (hi_Type issue) HealthIssueTypeWarning) (hs_Issues h).

Definition IssueKey (h : HealthIssue) : string := (hi_Source h +:+ ":" +:+ hi_Message h)%string.

(** ** Constants *)

Definition ProtocolTorrent : string := "torrent".
Definition ProtocolUsenet : string := "usenet".
Definition IRVersion : string := "v1".

Definition ProxyTypeFlareSolverr : string := "flaresolverr".
Definition ProxyTypeHTTP : string := "http".
Definition ProxyTypeSocks4 : string := "socks4".
Definition ProxyTypeSocks5 : string := "socks5".
Definition AppTypeRadarr : string := "radarr".
Definition AppTypeSonarr : string := "sonarr".
Definition AppTypeLidarr : string := "lidarr".
Definition AppTypeReadarr : string := "readarr".
Definition SyncLevelDisabled : string := "disabled".
Definition SyncLevelAddOnly : string := "addOnly".
Definition SyncLevelFullSync : string := "fullSync".

(** Default Newznab categories by app type. *)
Definition DefaultSyncCategories : gmap string (list Z) := list_to_map [
  (AppTypeRadarr, [2000; 2010; 2020; 2030; 2040; 2045; 2050; 2060]);
  (AppTypeSonarr, [5000; 5010; 5020; 5030; 5040; 5045; 5050]);
  (AppTypeLidarr, [3000; 3010; 3020; 3030; 3040]);
  (AppTypeReadarr, [7000; 7010; 7020; 7030; 8000; 8010])].

(** The zero value of [VideoQualityTierIR], the cutoff of a profile none is set on. *)
Definition zeroVideoQualityTierIR : VideoQualityTierIR := mkVideoQualityTierIR "" [] false.
Definition zeroBookQualityTierIR : BookQualityTierIR := mkBookQualityTierIR "" [] false.

#[export] Instance FormatSpecIR_eq_dec : EqDecision FormatSpecIR.
Proof. solve_decision. Defined.
#[export] Instance CustomFormatIR_eq_dec : EqDecision CustomFormatIR.
Proof. solve_decision. Defined.
#[export] Instance float64_eq_dec : EqDecision float64.
Proof. unfold float64. solve_decision. Defined.
#[export] Instance DownloadClientIR_eq_dec : EqDecision DownloadClientIR.
Proof. solve_decision. Defined.
#[export] Instance IndexerIR_eq_dec : EqDecision IndexerIR.
Proof. solve_decision. Defined.
#[export] Instance RemotePathMappingIR_eq_dec : EqDecision RemotePathMappingIR.
Proof. solve_decision. Defined.
#[export] Instance DelayProfileIR_eq_dec : EqDecision DelayProfileIR.
Proof. solve_decision. Defined.
