(* ===== verification/Presets.v ===== *)
(** * Presets (src/internal/presets)

    The built-in video, audio and naming presets as finite maps, the overrides
    a configuration applies to a quality preset, and the expansion of a preset
    into the intermediate representation.  Tables are transcribed entry by
    entry; a Go [switch] on a name is a [switch]. *)
From S2P Require Export IR.

(** ** video.go *)

Record QualityTier := mkQualityTier {
  qt_Resolution : string;
  qt_Sources : list string }.

Record VideoQualityPreset := mkVideoQualityPreset {
  vp_Name : string;
  vp_Description : string;
  vp_Tiers : list QualityTier;
  vp_UpgradeUntil : option QualityTier;
  vp_PreferredFormats : list string;
  vp_RejectFormats : list string }.

(** All built-in video presets. *)
Definition VideoPresetList : list (string * VideoQualityPreset) := [
  ("4k-hdr", {|
    vp_Name := "4k-hdr";
    vp_Description := "4K with HDR, falls back to 1080p";
    vp_Tiers := [
      mkQualityTier "2160p" ["remux"; "bluray"; "webdl"; "webrip"];
      mkQualityTier "1080p" ["remux"; "bluray"; "webdl"; "webrip"]];
    vp_UpgradeUntil := Some (mkQualityTier "2160p" ["remux"]);
    vp_PreferredFormats := ["hdr10"; "hdr10plus"; "dolby-vision"; "atmos"; "truehd"; "dts-x"];
    vp_RejectFormats := ["cam"; "telesync"; "telecine"; "workprint"; "3d"] |});
  ("4k-sdr", {|
    vp_Name := "4k-sdr";
    vp_Description := "4K without HDR requirement";
    vp_Tiers := [
      mkQualityTier "2160p" ["remux"; "bluray"; "webdl"; "webrip"];
      mkQualityTier "1080p" ["remux"; "bluray"; "webdl"; "webrip"]];
    vp_UpgradeUntil := Some (mkQualityTier "2160p" ["remux"]);
    vp_PreferredFormats := ["atmos"; "truehd"; "dts-x"; "dts-hd"];
    vp_RejectFormats := ["cam"; "telesync"; "telecine"; "workprint"; "3d"] |});
  ("1080p-quality", {|
    vp_Name := "1080p-quality";
    vp_Description := "1080p bluray/remux preferred";
    vp_Tiers := [
      mkQualityTier "1080p" ["remux"; "bluray"];
      mkQualityTier "1080p" ["webdl"; "webrip"];
      mkQualityTier "720p" ["bluray"; "webdl"]];
    vp_UpgradeUntil := Some (mkQualityTier "1080p" ["remux"]);
    vp_PreferredFormats := ["truehd"; "dts-hd"; "atmos"];
    vp_RejectFormats := ["cam"; "telesync"; "telecine"; "workprint"] |});
  ("1080p-streaming", {|
    vp_Name := "1080p-streaming";
    vp_Description := "1080p web sources for smaller files";
    vp_Tiers := [
      mkQualityTier "1080p" ["webdl"; "webrip"];
      mkQualityTier "1080p" ["hdtv"];
      mkQualityTier "720p" ["webdl"; "webrip"]];
    vp_UpgradeUntil := Some (mkQualityTier "1080p" ["webdl"]);
    vp_PreferredFormats := ["hevc"; "aac"];
    vp_RejectFormats := ["cam"; "telesync"; "telecine"; "workprint"] |});
  ("720p", {|
    vp_Name := "720p";
    vp_Description := "720p any source for limited storage/bandwidth";
    vp_Tiers := [
      mkQualityTier "720p" ["bluray"; "webdl"; "webrip"; "hdtv"];
      mkQualityTier "480p" ["webdl"; "dvd"]];
    vp_UpgradeUntil := Some (mkQualityTier "720p" ["bluray"]);
    vp_PreferredFormats := [];
    vp_RejectFormats := ["cam"; "telesync"; "telecine"; "workprint"] |});
  ("balanced", {|
    vp_Name := "balanced";
    vp_Description := "1080p preferred, accepts 720p-4K (default)";
    vp_Tiers := [
      mkQualityTier "2160p" ["bluray"; "webdl"];
      mkQualityTier "1080p" ["remux"; "bluray"; "webdl"; "webrip"];
      mkQualityTier "720p" ["bluray"; "webdl"]];
    vp_UpgradeUntil := Some (mkQualityTier "1080p" ["bluray"]);
    vp_PreferredFormats := ["hdr10"; "dolby-vision"];
    vp_RejectFormats := ["cam"; "telesync"; "telecine"; "workprint"] |});
  ("any", {|
    vp_Name := "any";
    vp_Description := "Accept anything, upgrade when better";
    vp_Tiers := [
      mkQualityTier "2160p" ["remux"; "bluray"; "webdl"; "webrip"; "hdtv"];
      mkQualityTier "1080p" ["remux"; "bluray"; "webdl"; "webrip"; "hdtv"];
      mkQualityTier "720p" ["bluray"; "webdl"; "webrip"; "hdtv"];
      mkQualityTier "480p" ["webdl"; "webrip"; "dvd"; "sdtv"]];
    vp_UpgradeUntil := Some (mkQualityTier "2160p" ["remux"]);
    vp_PreferredFormats := [];
    vp_RejectFormats := ["cam"; "workprint"] |});
  ("storage-optimized", {|
    vp_Name := "storage-optimized";
    vp_Description := "Balance quality vs file size";
    vp_Tiers := [
      mkQualityTier "1080p" ["webdl"; "webrip"];
      mkQualityTier "720p" ["webdl"; "webrip"]];
    vp_UpgradeUntil := Some (mkQualityTier "1080p" ["webdl"]);
    vp_PreferredFormats := ["hevc"; "av1"; "aac"];
    vp_RejectFormats := ["remux"; "truehd"; "dts-hd"; "cam"; "telesync"] |})].

Definition VideoPresets : gmap string VideoQualityPreset := list_to_map VideoPresetList.

Definition DefaultVideoPreset : string := "balanced".

(** [GetVideoPreset]: the map lookup with its [ok] result. *)
Definition GetVideoPreset (name : string) : option VideoQualityPreset := VideoPresets !! name.

Definition ListVideoPresets (o : RangeOrder) : list string := (rangeMap o 0 VideoPresets).*1.

(** ** audio.go *)

Record AudioQualityPreset := mkAudioQualityPreset {
  ap_Name : string;
  ap_Description : string;
  ap_Tiers : list string;
  ap_UpgradeUntil : string;
  ap_PreferredFormats : list string;
  ap_RejectTiers : list string }.

(** All built-in audio presets. *)
Definition AudioPresetList : list (string * AudioQualityPreset) := [
  ("lossless-hires", {|
    ap_Name := "lossless-hires";
    ap_Description := "24-bit lossless preferred for audiophiles";
    ap_Tiers := ["lossless-hires"; "lossless"];
    ap_UpgradeUntil := "lossless-hires";
    ap_PreferredFormats := ["flac"; "alac"];
    ap_RejectTiers := ["lossy-poor"; "lossy-trash"] |});
  ("lossless", {|
    ap_Name := "lossless";
    ap_Description := "16-bit lossless (FLAC, ALAC)";
    ap_Tiers := ["lossless"; "lossless-hires"; "lossy-high"];
    ap_UpgradeUntil := "lossless";
    ap_PreferredFormats := ["flac"];
    ap_RejectTiers := ["lossy-poor"; "lossy-trash"] |});
  ("high-quality", {|
    ap_Name := "high-quality";
    ap_Description := "320kbps lossy or lossless";
    ap_Tiers := ["lossless"; "lossy-high"];
    ap_UpgradeUntil := "lossless";
    ap_PreferredFormats := ["flac"; "mp3-320"];
    ap_RejectTiers := ["lossy-low"; "lossy-poor"; "lossy-trash"] |});
  ("balanced", {|
    ap_Name := "balanced";
    ap_Description := "256kbps+ lossy or lossless (default)";
    ap_Tiers := ["lossless"; "lossy-high"; "lossy-mid"];
    ap_UpgradeUntil := "lossy-high";
    ap_PreferredFormats := [];
    ap_RejectTiers := ["lossy-poor"; "lossy-trash"] |});
  ("portable", {|
    ap_Name := "portable";
    ap_Description := "192-256kbps for mobile devices";
    ap_Tiers := ["lossy-high"; "lossy-mid"; "lossy-low"];
    ap_UpgradeUntil := "lossy-high";
    ap_PreferredFormats := ["aac"; "mp3-320"];
    ap_RejectTiers := ["lossy-trash"; "lossless-raw"] |});
  ("any", {|
    ap_Name := "any";
    ap_Description := "Accept anything, upgrade when better";
    ap_Tiers := ["lossless-hires"; "lossless"; "lossy-high"; "lossy-mid"; "lossy-low"; "lossy-poor"];
    ap_UpgradeUntil := "lossless";
    ap_PreferredFormats := [];
    ap_RejectTiers := [] |})].

Definition AudioPresets : gmap string AudioQualityPreset := list_to_map AudioPresetList.

Definition DefaultAudioPreset : string := "balanced".

Definition GetAudioPreset (name : string) : option AudioQualityPreset := AudioPresets !! name.

Definition ListAudioPresets (o : RangeOrder) : list string := (rangeMap o 0 AudioPresets).*1.

(** Lidarr quality IDs of the tier names. *)
Definition AudioTierDefinitions : gmap string (list Z) := list_to_map [
  ("lossless-hires", [1001; 1002]);
  ("lossless", [1003; 1004; 1005; 1006]);
  ("lossy-high", [2001; 2002; 2003]);
  ("lossy-mid", [2004; 2005; 2006]);
  ("lossy-low", [2007; 2008]);
  ("lossy-poor", [2009; 2010]);
  ("lossy-trash", [2011; 2012]);
  ("lossless-raw", [1007])].

(** ** naming.go *)

Record NamingPreset := mkNamingPreset {
  np_Name : string;
  np_Description : string }.

Record RadarrNamingExpansion := mkRadarrNamingExpansion {
  rne_RenameMovies : bool;
  rne_ReplaceIllegalCharacters : bool;
  rne_ColonReplacement : Z;
  rne_StandardMovieFormat : string;
  rne_MovieFolderFormat : string }.

Record SonarrNamingExpansion := mkSonarrNamingExpansion {
  sne_RenameEpisodes : bool;
  sne_ReplaceIllegalCharacters : bool;
  sne_ColonReplacement : Z;
  sne_StandardEpisodeFormat : string;
  sne_DailyEpisodeFormat : string;
  sne_AnimeEpisodeFormat : string;
  sne_SeriesFolderFormat : string;
  sne_SeasonFolderFormat : string;
  sne_SpecialsFolderFormat : string;
  sne_MultiEpisodeStyle : Z }.

Record LidarrNamingExpansion := mkLidarrNamingExpansion {
  lne_RenameTracks : bool;
  lne_ReplaceIllegalCharacters : bool;
  lne_ColonReplacement : Z;
  lne_StandardTrackFormat : string;
  lne_MultiDiscTrackFormat : string;
  lne_ArtistFolderFormat : string;
  lne_AlbumFolderFormat : string }.

Definition NamingPresets : gmap string NamingPreset := list_to_map [
  ("plex-friendly", mkNamingPreset "plex-friendly" "Optimized for Plex metadata matching");
  ("jellyfin-friendly", mkNamingPreset "jellyfin-friendly" "Optimized for Jellyfin");
  ("kodi-friendly", mkNamingPreset "kodi-friendly" "Optimized for Kodi");
  ("detailed", mkNamingPreset "detailed" "Maximum info in filename");
  ("minimal", mkNamingPreset "minimal" "Clean, simple names");
  ("scene", mkNamingPreset "scene" "Scene-style naming")].

Definition DefaultNamingPreset : string := "plex-friendly".

Definition ColonDelete : Z := 0.
Definition ColonDash : Z := 1.
Definition ColonSpace : Z := 2.
Definition ColonSmart : Z := 4.

(** [GetRadarrNaming], as a function of the recursive call its [default] case makes. *)
Definition GetRadarrNamingBody (self : string → RadarrNamingExpansion) (presetName : string)
    : RadarrNamingExpansion :=
  switch presetName [
    (["plex-friendly"; "jellyfin-friendly"; "kodi-friendly"], {|
        rne_RenameMovies := true;
        rne_ReplaceIllegalCharacters := true;
        rne_ColonReplacement := ColonSmart;
        rne_StandardMovieFormat := "{Movie CleanTitle} ({Release Year}) - {Quality Full}";
        rne_MovieFolderFormat := "{Movie CleanTitle} ({Release Year})" |});
    (["detailed"], {|
        rne_RenameMovies := true;
        rne_ReplaceIllegalCharacters := true;
        rne_ColonReplacement := ColonSmart;
        rne_StandardMovieFormat := "{Movie CleanTitle} ({Release Year}) [{Quality Full}]{[MediaInfo AudioCodec]}{[MediaInfo AudioChannels]}{[MediaInfo VideoCodec]}{[MediaInfo VideoDynamicRange]}{-Release Group}";
        rne_MovieFolderFormat := "{Movie CleanTitle} ({Release Year})" |});
    (["minimal"], {|
        rne_RenameMovies := true;
        rne_ReplaceIllegalCharacters := true;
        rne_ColonReplacement := ColonDelete;
        rne_StandardMovieFormat := "{Movie CleanTitle} ({Release Year})";
        rne_MovieFolderFormat := "{Movie CleanTitle} ({Release Year})" |});
    (["scene"], {|
        rne_RenameMovies := true;
        rne_ReplaceIllegalCharacters := true;
        rne_ColonReplacement := ColonDelete;
        rne_StandardMovieFormat := "{Movie.CleanTitle}.{Release Year}.{Quality.Full}-{Release Group}";
        rne_MovieFolderFormat := "{Movie CleanTitle} ({Release Year})" |})]
    (self "plex-friendly").

(** ["plex-friendly"] is a case of its own, so one unfolding of the recursive
    call suffices ([GetRadarrNaming_unfold]). *)
Definition GetRadarrNaming : string → RadarrNamingExpansion :=
  GetRadarrNamingBody (GetRadarrNamingBody (λ _, mkRadarrNamingExpansion false false 0 "" "")).

(** [GetSonarrNaming], as a function of the recursive call its [default] case makes. *)
Definition GetSonarrNamingBody (self : string → SonarrNamingExpansion) (presetName : string)
    : SonarrNamingExpansion :=
  switch presetName [
    (["plex-friendly"; "jellyfin-friendly"; "kodi-friendly"], {|
        sne_RenameEpisodes := true;
        sne_ReplaceIllegalCharacters := true;
        sne_ColonReplacement := ColonSmart;
        sne_StandardEpisodeFormat := "{Series Title} - S{season:00}E{episode:00} - {Episode Title} {Quality Full}";
        sne_DailyEpisodeFormat := "{Series Title} - {Air-Date} - {Episode Title} {Quality Full}";
        sne_AnimeEpisodeFormat := "{Series Title} - S{season:00}E{episode:00} - {Episode Title} {Quality Full}";
        sne_SeriesFolderFormat := "{Series Title}";
        sne_SeasonFolderFormat := "Season {season:00}";
        sne_SpecialsFolderFormat := "Specials";
        sne_MultiEpisodeStyle := 5 |});
    (["detailed"], {|
        sne_RenameEpisodes := true;
        sne_ReplaceIllegalCharacters := true;
        sne_ColonReplacement := ColonSmart;
        sne_StandardEpisodeFormat := "{Series Title} - S{season:00}E{episode:00} - {Episode Title} [{Quality Full}]{[MediaInfo AudioCodec]}{[MediaInfo VideoCodec]}{-Release Group}";
        sne_DailyEpisodeFormat := "{Series Title} - {Air-Date} - {Episode Title} [{Quality Full}]{-Release Group}";
        sne_AnimeEpisodeFormat := "{Series Title} - S{season:00}E{episode:00} - {absolute:000} - {Episode Title} [{Quality Full}]{-Release Group}";
        sne_SeriesFolderFormat := "{Series Title}";
        sne_SeasonFolderFormat := "Season {season:00}";
        sne_SpecialsFolderFormat := "Specials";
        sne_MultiEpisodeStyle := 5 |});
    (["minimal"], {|
        sne_RenameEpisodes := true;
        sne_ReplaceIllegalCharacters := true;
        sne_ColonReplacement := ColonDelete;
        sne_StandardEpisodeFormat := "{Series Title} - S{season:00}E{episode:00} - {Episode Title}";
        sne_DailyEpisodeFormat := "{Series Title} - {Air-Date} - {Episode Title}";
        sne_AnimeEpisodeFormat := "{Series Title} - S{season:00}E{episode:00} - {Episode Title}";
        sne_SeriesFolderFormat := "{Series Title}";
        sne_SeasonFolderFormat := "Season {season:00}";
        sne_SpecialsFolderFormat := "Specials";
        sne_MultiEpisodeStyle := 0 |});
    (["scene"], {|
        sne_RenameEpisodes := true;
        sne_ReplaceIllegalCharacters := true;
        sne_ColonReplacement := ColonDelete;
        sne_StandardEpisodeFormat := "{Series.Title}.S{season:00}E{episode:00}.{Episode.Title}.{Quality.Full}-{Release Group}";
        sne_DailyEpisodeFormat := "{Series.Title}.{Air.Date}.{Episode.Title}.{Quality.Full}-{Release Group}";
        sne_AnimeEpisodeFormat := "{Series.Title}.S{season:00}E{episode:00}.{Episode.Title}.{Quality.Full}-{Release Group}";
        sne_SeriesFolderFormat := "{Series Title}";
        sne_SeasonFolderFormat := "Season {season:00}";
        sne_SpecialsFolderFormat := "Specials";
        sne_MultiEpisodeStyle := 3 |})]
    (self "plex-friendly").

(** ["plex-friendly"] is a case of its own, so one unfolding of the recursive
    call suffices ([GetSonarrNaming_unfold]). *)
Definition GetSonarrNaming : string → SonarrNamingExpansion :=
  GetSonarrNamingBody (GetSonarrNamingBody (λ _, mkSonarrNamingExpansion false false 0 "" "" "" "" "" "" 0)).

(** [GetLidarrNaming], as a function of the recursive call its [default] case makes. *)
Definition GetLidarrNamingBody (self : string → LidarrNamingExpansion) (presetName : string)
    : LidarrNamingExpansion :=
  switch presetName [
    (["plex-friendly"; "jellyfin-friendly"; "kodi-friendly"], {|
        lne_RenameTracks := true;
        lne_ReplaceIllegalCharacters := true;
        lne_ColonReplacement := ColonSmart;
        lne_StandardTrackFormat := "{Album Artist} - {Album Title} - {track:00} - {Track Title}";
        lne_MultiDiscTrackFormat := "{Album Artist} - {Album Title} - {medium:0}{track:00} - {Track Title}";
        lne_ArtistFolderFormat := "{Artist Name}";
        lne_AlbumFolderFormat := "{Album Title} ({Release Year})" |});
    (["detailed"], {|
        lne_RenameTracks := true;
        lne_ReplaceIllegalCharacters := true;
        lne_ColonReplacement := ColonSmart;
        lne_StandardTrackFormat := "{Album Artist} - {Album Title} - {track:00} - {Track Title} [{Quality Full}]";
        lne_MultiDiscTrackFormat := "{Album Artist} - {Album Title} - {medium:0}{track:00} - {Track Title} [{Quality Full}]";
        lne_ArtistFolderFormat := "{Artist Name}";
        lne_AlbumFolderFormat := "{Album Title} ({Release Year}) [{Quality Full}]" |});
    (["minimal"], {|
        lne_RenameTracks := true;
        lne_ReplaceIllegalCharacters := true;
        lne_ColonReplacement := ColonDelete;
        lne_StandardTrackFormat := "{track:00} - {Track Title}";
        lne_MultiDiscTrackFormat := "{medium:0}{track:00} - {Track Title}";
        lne_ArtistFolderFormat := "{Artist Name}";
        lne_AlbumFolderFormat := "{Album Title}" |})]
    (self "plex-friendly").

(** ["plex-friendly"] is a case of its own, so one unfolding of the recursive
    call suffices ([GetLidarrNaming_unfold]). *)
Definition GetLidarrNaming : string → LidarrNamingExpansion :=
  GetLidarrNamingBody (GetLidarrNamingBody (λ _, mkLidarrNamingExpansion false false 0 "" "" "" "")).

Definition GetNamingPreset (name : string) : option NamingPreset := NamingPresets !! name.

Definition ListNamingPresets (o : RangeOrder) : list string := (rangeMap o 0 NamingPresets).*1.

(** ** override.go *)

Record QualityOverrides := mkQualityOverrides {
  qo_Exclude : list string;
  qo_PreferAdditional : list string;
  qo_RejectAdditional : list string }.

(** [removeItems]: the items of [slice] that [toRemove] does not list, in
    order; a copy of [slice] when [toRemove] is empty. *)
Definition removeItems (slice toRemove : list string) : list string :=
  match toRemove with
  | [] => slice
  | _ => let removeSet := setOf toRemove in filter (λ item, item ∉ removeSet) slice
  end.

Definition ApplyVideoOverrides (preset : VideoQualityPreset) (overrides : QualityOverrides)
    : VideoQualityPreset := {|
  vp_Name := vp_Name preset;
  vp_Description := vp_Description preset;
  vp_Tiers := vp_Tiers preset;
  vp_UpgradeUntil := vp_UpgradeUntil preset;
  vp_PreferredFormats :=
    removeItems (vp_PreferredFormats preset) (qo_Exclude overrides) ++ qo_PreferAdditional overrides;
  vp_RejectFormats :=
    removeItems (vp_RejectFormats preset) (qo_Exclude overrides) ++ qo_RejectAdditional overrides |}.

Definition ApplyAudioOverrides (preset : AudioQualityPreset) (overrides : QualityOverrides)
    : AudioQualityPreset := {|
  ap_Name := ap_Name preset;
  ap_Description := ap_Description preset;
  ap_Tiers := ap_Tiers preset;
  ap_UpgradeUntil := ap_UpgradeUntil preset;
  ap_PreferredFormats :=
    removeItems (ap_PreferredFormats preset) (qo_Exclude overrides) ++ qo_PreferAdditional overrides;
  ap_RejectTiers :=
    removeItems (ap_RejectTiers preset) (qo_Exclude overrides) ++ qo_RejectAdditional overrides |}.

(** ** expander.go *)

(** The pattern table of [getFormatSpecs]. *)
Definition formatPatterns : gmap string string := list_to_map [
  ("hdr10", "\bHDR10\b");
  ("hdr10plus", "\bHDR10\+|HDR10Plus\b");
  ("dolby-vision", "\b(DV|DoVi|Dolby[\.\s]?Vision)\b");
  ("hlg", "\bHLG\b");
  ("atmos", "\b(Atmos|ATMOS)\b");
  ("truehd", "\b(TrueHD|True[\.\s]?HD)\b");
  ("dts-x", "\b(DTS[\.\-\s]?X)\b");
  ("dts-hd", "\b(DTS[\.\-\s]?(HD[\.\-\s]?)?(MA)?)\b");
  ("hevc", "\b(HEVC|[xh][\.\s]?265)\b");
  ("av1", "\bAV1\b");
  ("aac", "\bAAC\b");
  ("cam", "\b(CAM|CAMRIP|CAM[\.\-\s]?RIP)\b");
  ("telesync", "\b(TS|TELESYNC|TELE[\.\-\s]?SYNC)\b");
  ("telecine", "\b(TC|TELECINE|TELE[\.\-\s]?CINE)\b");
  ("workprint", "\b(WP|WORKPRINT|WORK[\.\-\s]?PRINT)\b");
  ("3d", "\b3D\b");
  ("dubbed", "\b(DUBBED|DUB)\b");
  ("remux", "\b(REMUX|Remux)\b");
  ("imax", "\bIMAX\b");
  ("extended", "\b(EXTENDED|Extended)\b")].

Definition getFormatSpecs (format : string) : list FormatSpecIR :=
  match formatPatterns !! format with
  | None => []
  | Some pattern => [{|
      fs_Type := "ReleaseTitleSpecification";
      fs_Name := format;
      fs_Negate := false;
      fs_Required := true;
      fs_Value := pattern |}]
  end.

(** [None] is the nil the function returns for a format without specifications. *)
Definition formatToCustomFormat (format : string) (isReject : bool) : option CustomFormatIR :=
  let specs := getFormatSpecs format in
  match specs with
  | [] => None
  | _ =>
      let name := if isReject then ("Reject: " +:+ format)%string
                  else ("Prefer: " +:+ format)%string in
      Some {|
        cf_ID := 0;
        cf_Name := name;
        cf_IncludeWhenRenaming := false;
        cf_Specifications := specs |}
  end.

Definition tierToIR (tier : QualityTier) : VideoQualityTierIR := {|
  vt_Resolution := qt_Resolution tier;
  vt_Sources := qt_Sources tier;
  vt_Allowed := true |}.

(** One of the two loops of [ExpandVideoPreset] that turn format names into
    custom formats with a score: it appends to the formats and sets scores. *)
Definition addFormats (isReject : bool) (score : Z) (formats : list string)
    (st : list CustomFormatIR * gmap string Z) : list CustomFormatIR * gmap string Z :=
  foldl (λ st format,
    match formatToCustomFormat format isReject with
    | Some cf => (st.1 ++ [cf], <[cf_Name cf := score]> st.2)
    | None => st
    end) st formats.

(** The preset a name stands for: unknown names fall back to the default. *)
Definition resolveVideoPreset (presetName : string) : option VideoQualityPreset :=
  match GetVideoPreset presetName with
  | Some preset => Some preset
  | None => VideoPresets !! DefaultVideoPreset
  end.

Definition zeroVideoQualityPreset : VideoQualityPreset :=
  mkVideoQualityPreset "" "" [] None [] [].

Definition ExpandVideoPreset (presetName : string) (overrides : option QualityOverrides)
    (profileName : string) : VideoQualityIR :=
  let preset := default zeroVideoQualityPreset (resolveVideoPreset presetName) in
  let preset := match overrides with
                | Some ov => ApplyVideoOverrides preset ov
                | None => preset
                end in
  let formats := addFormats false 100 (vp_PreferredFormats preset) ([], ∅) in
  let formats := addFormats true (-10000) (vp_RejectFormats preset) formats in
  {| vq_ProfileName := profileName;
     vq_UpgradeAllowed := true;
     vq_Cutoff := match vp_UpgradeUntil preset with
                  | Some u => tierToIR u
                  | None => zeroVideoQualityTierIR
                  end;
     vq_Tiers := tierToIR <$> vp_Tiers preset;
     vq_CustomFormats := formats.1;
     vq_FormatScores := formats.2;
     vq_MinimumCustomFormatScore := 0;
     vq_UpgradeUntilCustomFormatScore := 0 |}.

Definition zeroAudioQualityPreset : AudioQualityPreset :=
  mkAudioQualityPreset "" "" [] "" [] [].

Definition resolveAudioPreset (presetName : string) : option AudioQualityPreset :=
  match GetAudioPreset presetName with
  | Some preset => Some preset
  | None => AudioPresets !! DefaultAudioPreset
  end.

Definition ExpandAudioPreset (presetName : string) (overrides : option QualityOverrides)
    (profileName : string) : AudioQualityIR :=
  let preset := default zeroAudioQualityPreset (resolveAudioPreset presetName) in
  let preset := match overrides with
                | Some ov => ApplyAudioOverrides preset ov
                | None => preset
                end in
  let rejectSet := setOf (ap_RejectTiers preset) in
  {| aq_ProfileName := profileName;
     aq_UpgradeAllowed := true;
     aq_Cutoff := ap_UpgradeUntil preset;
     aq_Tiers := (λ tier, mkAudioQualityTierIR tier (negb (tier ∈? rejectSet))) <$> ap_Tiers preset;
     aq_ReleaseProfile := None;
     aq_FormatScores := ∅;
     aq_MinimumCustomFormatScore := 0;
     aq_UpgradeUntilCustomFormatScore := 0 |}.

Definition ExpandRadarrNaming (presetName : string) : RadarrNamingIR :=
  let expansion := GetRadarrNaming presetName in {|
  rn_RenameMovies := rne_RenameMovies expansion;
  rn_ReplaceIllegalCharacters := rne_ReplaceIllegalCharacters expansion;
  rn_ColonReplacementFormat := rne_ColonReplacement expansion;
  rn_StandardMovieFormat := rne_StandardMovieFormat expansion;
  rn_MovieFolderFormat := rne_MovieFolderFormat expansion |}.

Definition ExpandSonarrNaming (presetName : string) : SonarrNamingIR :=
  let expansion := GetSonarrNaming presetName in {|
  sn_RenameEpisodes := sne_RenameEpisodes expansion;
  sn_ReplaceIllegalCharacters := sne_ReplaceIllegalCharacters expansion;
  sn_ColonReplacementFormat := sne_ColonReplacement expansion;
  sn_StandardEpisodeFormat := sne_StandardEpisodeFormat expansion;
  sn_DailyEpisodeFormat := sne_DailyEpisodeFormat expansion;
  sn_AnimeEpisodeFormat := sne_AnimeEpisodeFormat expansion;
  sn_SeriesFolderFormat := sne_SeriesFolderFormat expansion;
  sn_SeasonFolderFormat := sne_SeasonFolderFormat expansion;
  sn_SpecialsFolderFormat := sne_SpecialsFolderFormat expansion;
  sn_MultiEpisodeStyle := sne_MultiEpisodeStyle expansion |}.

Definition ExpandLidarrNaming (presetName : string) : LidarrNamingIR :=
  let expansion := GetLidarrNaming presetName in {|
  ln_RenameTracks := lne_RenameTracks expansion;
  ln_ReplaceIllegalCharacters := lne_ReplaceIllegalCharacters expansion;
  ln_ColonReplacementFormat := lne_ColonReplacement expansion;
  ln_StandardTrackFormat := lne_StandardTrackFormat expansion;
  ln_MultiDiscTrackFormat := lne_MultiDiscTrackFormat expansion;
  ln_ArtistFolderFormat := lne_ArtistFolderFormat expansion;
  ln_AlbumFolderFormat := lne_AlbumFolderFormat expansion |}.

(** ** Theorems *)

(** The tables are evaluated by [vm_compute] only. *)
Lemma elem_of_VideoPresets name p : VideoPresets !! name = Some p → (name, p) ∈ VideoPresetList.
Proof. apply elem_of_list_to_map_2. Qed.

Lemma elem_of_AudioPresets name p : AudioPresets !! name = Some p → (name, p) ∈ AudioPresetList.
Proof. apply elem_of_list_to_map_2. Qed.

#[global] Opaque formatPatterns VideoPresets AudioPresets.

(** *** override.go *)

Lemma removeItems_filter slice toRemove :
  removeItems slice toRemove = filter (λ item, item ∉ toRemove) slice.
Proof.
  destruct toRemove as [|r rs]; simpl.
  - induction slice as [|x l IH]; [done|]. rewrite filter_cons_True by apply not_elem_of_nil.
    by f_equal.
  - apply list_filter_iff. intros x. by rewrite elem_of_setOf.
Qed.

Lemma elem_of_removeItems slice toRemove x :
  x ∈ removeItems slice toRemove ↔ x ∈ slice ∧ x ∉ toRemove.
Proof. rewrite removeItems_filter, list_elem_of_filter. naive_solver. Qed.

(** The items excluded by [ov] and the additional ones, as the two overridden
    lists of a preset contain them. *)
Lemma elem_of_overridden slice excluded additional x :
  x ∈ removeItems slice excluded ++ additional ↔
  (x ∈ slice ∧ x ∉ excluded) ∨ x ∈ additional.
Proof. by rewrite elem_of_app, elem_of_removeItems. Qed.

#[export] Hint Rewrite elem_of_removeItems elem_of_overridden : go_rw.

(** overriding a video preset excludes the excluded formats from both
    lists, then appends the additional ones (so an item both excluded and
    additional stays), keeps the relative order of what it keeps, and leaves the
    tiers and the upgrade limit alone. *)
Theorem ApplyVideoOverrides_spec preset ov :
  let preset' := ApplyVideoOverrides preset ov in
  (∀ f, f ∈ vp_PreferredFormats preset' ↔
        (f ∈ vp_PreferredFormats preset ∧ f ∉ qo_Exclude ov) ∨ f ∈ qo_PreferAdditional ov) ∧
  (∀ f, f ∈ vp_RejectFormats preset' ↔
        (f ∈ vp_RejectFormats preset ∧ f ∉ qo_Exclude ov) ∨ f ∈ qo_RejectAdditional ov) ∧
  (∃ kept, vp_PreferredFormats preset' = kept ++ qo_PreferAdditional ov ∧
           kept `sublist_of` vp_PreferredFormats preset) ∧
  vp_Tiers preset' = vp_Tiers preset ∧ vp_UpgradeUntil preset' = vp_UpgradeUntil preset.
Proof.
  simpl. split; [intros f; apply elem_of_overridden|].
  split; [intros f; apply elem_of_overridden|]. split; [|done].
  eexists. split; [done|]. rewrite removeItems_filter. apply sublist_filter.
Qed.

(** *** expander.go: video *)

(** What the expansion needs of a preset: tiers, and an upgrade limit within one of them. *)
Definition presetOk (p : VideoQualityPreset) : bool :=
  match vp_UpgradeUntil p with
  | Some u =>
      existsb (λ t, String.eqb (qt_Resolution t) (qt_Resolution u) &&
                    forallb (λ s, existsb (String.eqb s) (qt_Sources t)) (qt_Sources u))
        (vp_Tiers p)
  | None => false
  end.

Lemma VideoPresets_ok name p : VideoPresets !! name = Some p → presetOk p = true.
Proof.
  intros Hl%elem_of_VideoPresets.
  assert (Forall (λ np, presetOk np.2 = true) VideoPresetList) as Hall.
  { apply Forall_fold_right. vm_compute. tauto. }
  rewrite Forall_forall in Hall. apply (Hall _ Hl).
Qed.

Lemma resolveVideoPreset_is_Some name :
  ∃ p, resolveVideoPreset name = Some p ∧ presetOk p = true.
Proof.
  unfold resolveVideoPreset, GetVideoPreset.
  destruct (VideoPresets !! name) as [p|] eqn:E; [by eauto using VideoPresets_ok|].
  destruct (VideoPresets !! DefaultVideoPreset) as [p|] eqn:E'; [by eauto using VideoPresets_ok|].
  by vm_compute in E'.
Qed.

Lemma presetOk_spec p :
  presetOk p = true →
  ∃ u t, vp_UpgradeUntil p = Some u ∧ t ∈ vp_Tiers p ∧
         qt_Resolution t = qt_Resolution u ∧ qt_Sources u ⊆ qt_Sources t.
Proof.
  unfold presetOk. destruct (vp_UpgradeUntil p) as [u|]; [|done].
  intros (t & Ht & [Hr Hs]%andb_true_iff)%existsb_exists. exists u, t.
  apply String.eqb_eq in Hr. rewrite forallb_forall in Hs.
  split_and!; [done|by apply list_elem_of_In|done|].
  intros s Hin%list_elem_of_In%Hs. apply existsb_exists in Hin as (s' & Hs' & ->%String.eqb_eq).
  by apply list_elem_of_In.
Qed.

(** The preset [ExpandVideoPreset] expands: the resolved one with the overrides. *)
Definition effectiveVideoPreset (name : string) (ov : option QualityOverrides)
    : VideoQualityPreset :=
  let preset := default zeroVideoQualityPreset (resolveVideoPreset name) in
  match ov with Some ov => ApplyVideoOverrides preset ov | None => preset end.

(** whatever name and overrides it is given (an unknown name is the default preset), the expansion allows at least one tier, all
    of its tiers are allowed, and the upgrade cutoff names a resolution and
    sources that one of the allowed tiers covers. *)
Theorem ExpandVideoPreset_cutoff_covered presetName overrides profileName :
  let q := ExpandVideoPreset presetName overrides profileName in
  (∃ t, t ∈ vq_Tiers q ∧ vt_Resolution t = vt_Resolution (vq_Cutoff q) ∧
        vt_Sources (vq_Cutoff q) ⊆ vt_Sources t) ∧
  (∀ t, t ∈ vq_Tiers q → vt_Allowed t = true) ∧ vt_Allowed (vq_Cutoff q) = true.
Proof.
  destruct (resolveVideoPreset_is_Some presetName) as (p & Hp & (u & t & Hu & Ht & Hr & Hs)%presetOk_spec).
  assert (vp_Tiers (effectiveVideoPreset presetName overrides) = vp_Tiers p ∧
          vp_UpgradeUntil (effectiveVideoPreset presetName overrides) = Some u) as [HT HU].
  { unfold effectiveVideoPreset. rewrite Hp. by destruct overrides. }
  unfold ExpandVideoPreset. fold (effectiveVideoPreset presetName overrides). simpl.
  rewrite HU, HT. split_and!; [|intros ? (?&->&?)%list_elem_of_fmap; done|done].
  exists (tierToIR t). split_and!; [by apply list_elem_of_fmap_2|done|done].
Qed.

Lemma formatToCustomFormat_name format isReject cf :
  formatToCustomFormat format isReject = Some cf →
  cf_Name cf = ((if isReject then "Reject: " else "Prefer: ") +:+ format)%string ∧
  is_Some (formatPatterns !! format).
Proof.
  unfold formatToCustomFormat, getFormatSpecs.
  destruct (formatPatterns !! format) eqn:E; [|done]. destruct isReject; naive_solver.
Qed.

Lemma formatToCustomFormat_is_Some format isReject :
  is_Some (formatPatterns !! format) → is_Some (formatToCustomFormat format isReject).
Proof.
  intros [p Hp]. unfold formatToCustomFormat, getFormatSpecs. rewrite Hp. by eexists.
Qed.

(** The name a format's custom format gets, when the format is known. *)
Definition knownName (prefix f n : string) : Prop :=
  n = (prefix +:+ f)%string ∧ is_Some (formatPatterns !! f).

Lemma addFormats_spec (isReject : bool) score formats st :
  let prefix := (if isReject then "Reject: " else "Prefer: ")%string in
  let st' := addFormats isReject score formats st in
  (∀ n s, st'.2 !! n = Some s ↔
    ((∃ f, f ∈ formats ∧ knownName prefix f n) ∧ s = score) ∨
    ((∀ f, f ∈ formats → ¬ knownName prefix f n) ∧ st.2 !! n = Some s)) ∧
  (∀ n, n ∈ cf_Name <$> st'.1 ↔
    (∃ f, f ∈ formats ∧ knownName prefix f n) ∨ n ∈ cf_Name <$> st.1).
Proof.
  intros prefix. induction formats as [|f fs IH] using rev_ind; intros st'.
  { unfold st'. simpl. split.
    - intros n s. split; [|by intros [[(f & []%not_elem_of_nil & _) _]|[_ ?]]].
      intros ?. right. by split; [intros f ?%not_elem_of_nil|].
    - intros n. split; [by right|]. by intros [(f & []%not_elem_of_nil & _)|?]. }
  unfold st', addFormats. rewrite foldl_app. simpl. fold (addFormats isReject score fs st).
  destruct IH as [IHs IHn]. unfold prefix in *. clear prefix st'.
  setoid_rewrite elem_of_app. setoid_rewrite list_elem_of_singleton.
  destruct (formatToCustomFormat f isReject) as [cf|] eqn:E; simpl.
  - apply formatToCustomFormat_name in E as [Hn Hk]. split.
    + intros n s. destruct (decide (cf_Name cf = n)) as [<-|Hne].
      * rewrite lookup_insert_eq. split.
        -- intros [= ->]. left. split; [|done]. exists f. by split; [right|].
        -- intros [[_ ->]|[Hno _]]; [done|]. exfalso. by apply (Hno f); [right|].
      * rewrite lookup_insert_ne, IHs by done.
        assert (¬ knownName (if isReject then "Reject: " else "Prefer: ") f n) as Hno
          by (intros [-> _]; congruence).
        generalize dependent (knownName (if isReject then "Reject: " else "Prefer: ")%string).
        naive_solver.
    + intros n. rewrite fmap_app, elem_of_app, IHn. simpl. rewrite list_elem_of_singleton, Hn.
      assert (knownName (if isReject then "Reject: " else "Prefer: ") f n ↔
              n = ((if isReject then "Reject: " else "Prefer: ") +:+ f)%string) as Hk'
        by (unfold knownName; tauto).
      rewrite <-Hk'. generalize (knownName (if isReject then "Reject: " else "Prefer: ")%string).
      clear. naive_solver.
  - assert (∀ n, ¬ knownName (if isReject then "Reject: " else "Prefer: ") f n) as Hno.
    { intros n [_ Hk]. apply (formatToCustomFormat_is_Some _ isReject) in Hk as [? Hk]. congruence. }
    setoid_rewrite IHs. setoid_rewrite IHn.
    generalize dependent (knownName (if isReject then "Reject: " else "Prefer: ")%string).
    clear. naive_solver.
Qed.

Lemma prefer_not_reject f g : ("Prefer: " +:+ f)%string ≠ ("Reject: " +:+ g)%string.
Proof. done. Qed.

(** the scores of the expansion are exactly 100 for the preferred and
    -10000 for the rejected formats (after overrides) that have a pattern, and
    they score exactly the custom formats the expansion defines: every scored
    name has a format and every format a score. *)
Theorem ExpandVideoPreset_scores presetName overrides profileName :
  let p := effectiveVideoPreset presetName overrides in
  let q := ExpandVideoPreset presetName overrides profileName in
  (∀ n s, vq_FormatScores q !! n = Some s ↔
     (s = 100 ∧ ∃ f, f ∈ vp_PreferredFormats p ∧ knownName "Prefer: " f n) ∨
     (s = -10000 ∧ ∃ f, f ∈ vp_RejectFormats p ∧ knownName "Reject: " f n)) ∧
  (∀ n, n ∈ cf_Name <$> vq_CustomFormats q ↔ is_Some (vq_FormatScores q !! n)).
Proof.
  intros p q. unfold q, ExpandVideoPreset. fold (effectiveVideoPreset presetName overrides).
  fold p. simpl.
  pose proof (addFormats_spec false 100 (vp_PreferredFormats p) ([], ∅)) as [Hp1 Hp2].
  set (st := addFormats false 100 (vp_PreferredFormats p) ([], ∅)) in *.
  pose proof (addFormats_spec true (-10000) (vp_RejectFormats p) st) as [Hr1 Hr2].
  set (st' := addFormats true (-10000) (vp_RejectFormats p) st) in *. simpl in *.
  assert (∀ n s, st'.2 !! n = Some s ↔
     (s = 100 ∧ ∃ f, f ∈ vp_PreferredFormats p ∧ knownName "Prefer: " f n) ∨
     (s = -10000 ∧ ∃ f, f ∈ vp_RejectFormats p ∧ knownName "Reject: " f n)) as Hsc.
  { intros n s. rewrite Hr1, Hp1, lookup_empty.
    assert (∀ f g n, knownName "Prefer: " f n → ¬ knownName "Reject: " g n) as Hdisj.
    { intros f g m [-> _] [Hbad _]. by apply prefer_not_reject in Hbad. }
    clear -Hdisj. generalize dependent (knownName "Prefer: "). intros P.
    generalize (knownName "Reject: "). naive_solver. }
  split; [exact Hsc|]. intros n. rewrite Hr2, Hp2. unfold is_Some. setoid_rewrite Hsc.
  clear. generalize (knownName "Prefer: "), (knownName "Reject: "). intros P Q.
  simpl. rewrite elem_of_nil. naive_solver.
Qed.

(** *** naming.go *)

(** the recursion of the three naming functions terminates: each function
    satisfies the equation its source states, whose [default] case calls the
    function itself, for every preset name; so every name without a case of its
    own gets the naming of the default preset. *)
Theorem naming_recursion presetName :
  GetRadarrNaming presetName = GetRadarrNamingBody GetRadarrNaming presetName ∧
  GetSonarrNaming presetName = GetSonarrNamingBody GetSonarrNaming presetName ∧
  GetLidarrNaming presetName = GetLidarrNamingBody GetLidarrNaming presetName ∧
  (presetName ∉ ["detailed"; "minimal"; "scene"] →
   GetRadarrNaming presetName = GetRadarrNaming DefaultNamingPreset ∧
   GetSonarrNaming presetName = GetSonarrNaming DefaultNamingPreset ∧
   GetLidarrNaming presetName = GetLidarrNaming DefaultNamingPreset).
Proof.
  split_and!; [reflexivity..|]. intros Hn.
  assert (Hne : ∀ k, k ∈ ["detailed"; "minimal"; "scene"] → String.eqb presetName k = false).
  { intros k Hk. apply String.eqb_neq. by intros ->. }
  unfold GetRadarrNaming, GetSonarrNaming, GetLidarrNaming,
    GetRadarrNamingBody, GetSonarrNamingBody, GetLidarrNamingBody. simpl.
  rewrite !(Hne "detailed"), !(Hne "minimal"), !(Hne "scene") by set_solver.
  by destruct (String.eqb presetName "plex-friendly"), (String.eqb presetName "jellyfin-friendly"),
    (String.eqb presetName "kodi-friendly").
Qed.

Lemma naming_recursion_witness :
  ("jellyfin-friendly" ∉ ["detailed"; "minimal"; "scene"]) ∧
  GetSonarrNaming "jellyfin-friendly" = GetSonarrNaming DefaultNamingPreset.
Proof.
  assert ("jellyfin-friendly" ∉ ["detailed"; "minimal"; "scene"]) as H by (vm_compute; set_solver).
  split; [exact H|]. apply (naming_recursion "jellyfin-friendly"), H.
Defined.

(** *** expander.go: audio *)

Definition audioPresetOk (p : AudioQualityPreset) : bool :=
  existsb (String.eqb (ap_UpgradeUntil p)) (ap_Tiers p) &&
  negb (existsb (String.eqb (ap_UpgradeUntil p)) (ap_RejectTiers p)).

Lemma AudioPresets_ok name p : AudioPresets !! name = Some p → audioPresetOk p = true.
Proof.
  intros Hl%elem_of_AudioPresets.
  assert (Forall (λ np, audioPresetOk np.2 = true) AudioPresetList) as Hall.
  { apply Forall_fold_right. vm_compute. tauto. }
  rewrite Forall_forall in Hall. apply (Hall _ Hl).
Qed.

Lemma resolveAudioPreset_is_Some name :
  ∃ p, resolveAudioPreset name = Some p ∧
       ap_UpgradeUntil p ∈ ap_Tiers p ∧ ap_UpgradeUntil p ∉ ap_RejectTiers p.
Proof.
  assert (∃ p, resolveAudioPreset name = Some p ∧ audioPresetOk p = true) as (p & Hp & Hok).
  { unfold resolveAudioPreset, GetAudioPreset.
    destruct (AudioPresets !! name) as [p|] eqn:E; [by eauto using AudioPresets_ok|].
    destruct (AudioPresets !! DefaultAudioPreset) as [p|] eqn:E'; [by eauto using AudioPresets_ok|].
    by vm_compute in E'. }
  exists p. split; [done|]. apply andb_true_iff in Hok as [Hin Hout]. split.
  - apply existsb_exists in Hin as (t & Ht & ->%String.eqb_eq). by apply list_elem_of_In.
  - intros Hr%list_elem_of_In. apply negb_true_iff, not_true_iff_false in Hout. apply Hout.
    apply existsb_exists. eexists. split; [done|]. apply String.eqb_refl.
Qed.

Definition effectiveAudioPreset (name : string) (ov : option QualityOverrides)
    : AudioQualityPreset :=
  let preset := default zeroAudioQualityPreset (resolveAudioPreset name) in
  match ov with Some ov => ApplyAudioOverrides preset ov | None => preset end.

(** the expansion lists the tiers of the preset in its order, each allowed
    exactly when the (overridden) preset does not reject it; and unless the
    overrides reject the cutoff itself, the cutoff tier is allowed, so upgrades
    have a reachable goal for every preset name and every exclusion. *)
Theorem ExpandAudioPreset_tiers presetName overrides profileName :
  let p := effectiveAudioPreset presetName overrides in
  let q := ExpandAudioPreset presetName overrides profileName in
  at_Tier <$> aq_Tiers q = ap_Tiers p ∧
  (∀ t, t ∈ aq_Tiers q → (at_Allowed t = true ↔ at_Tier t ∉ ap_RejectTiers p)) ∧
  (aq_Cutoff q ∉ from_option qo_RejectAdditional [] overrides →
   mkAudioQualityTierIR (aq_Cutoff q) true ∈ aq_Tiers q).
Proof.
  intros p q. unfold q, ExpandAudioPreset. fold (effectiveAudioPreset presetName overrides).
  fold p. simpl. split_and!.
  - rewrite <-list_fmap_compose. apply list_fmap_id.
  - intros ? (tier & -> & _)%list_elem_of_fmap. simpl.
    rewrite negb_true_iff, bool_decide_eq_false. by rewrite elem_of_setOf.
  - intros Hrej. destruct (resolveAudioPreset_is_Some presetName) as (r & Hr & Hin & Hout).
    assert (ap_Tiers p = ap_Tiers r ∧ ap_UpgradeUntil p = ap_UpgradeUntil r ∧
            ap_UpgradeUntil p ∉ ap_RejectTiers p) as (HT & HU & HR).
    { unfold p, effectiveAudioPreset in *. rewrite Hr in *. destruct overrides as [ov|]; [|done].
      simpl in *. split_and!; [done..|]. rewrite elem_of_overridden. naive_solver. }
    apply list_elem_of_fmap. exists (ap_UpgradeUntil p). rewrite HT, HU in *. split; [|done].
    rewrite bool_decide_eq_false_2; [done|]. by rewrite elem_of_setOf.
Qed.

Lemma ExpandAudioPreset_tiers_witness :
  ("lossy-high" ∉ ["lossy-poor"]) ∧
  mkAudioQualityTierIR "lossy-high" true ∈
    aq_Tiers (ExpandAudioPreset "unheard-of"
      (Some (mkQualityOverrides ["lossy-trash"] [] ["lossy-poor"])) "nebularr-x").
Proof.
  assert ("lossy-high" ∉ ["lossy-poor"]) as H by set_solver. split; [exact H|].
  apply (ExpandAudioPreset_tiers "unheard-of"
    (Some (mkQualityOverrides ["lossy-trash"] [] ["lossy-poor"])) "nebularr-x").
  vm_compute. vm_compute in H. exact H.
Defined.
