(* ===== verification/Adapters.v ===== *)
(** * Adapter contracts and the registry (src/internal/adapters/adapter.go, registry.go)

    The data that passes between the reconciler and the adapters
    ([ChangeSet], [ApplyResult], ...), the [Adapter] interface as a record of
    effectful operations over a world, and the package-level registry as a map
    threaded through its operations. *)
From S2P Require Export IR.

(** ** adapter.go: data *)

Record ServiceInfo := mkServiceInfo {
  si_Version : string;
  si_StartTime : Z }.

Record CustomFormatSpec := mkCustomFormatSpec {
  cfs_Name : string;
  cfs_Implementation : string }.

Record Capabilities := mkCapabilities {
  caps_DiscoveredAt : Z;
  caps_Resolutions : list string;
  caps_Sources : list string;
  caps_CustomFormatSpecs : list CustomFormatSpec;
  caps_AudioTiers : list string;
  caps_DownloadClientTypes : list string;
  caps_IndexerTypes : list string }.

(** [Change.Payload] is an [interface{}]; a constructor per dynamic type the
    adapters store in it.  Those marked by a star in the source are pointers. *)
Inductive Payload : Type :=
| PNil
| PVideoQuality (p : VideoQualityIR)            (* *irv1.VideoQualityIR *)
| PAudioQuality (p : AudioQualityIR)            (* *irv1.AudioQualityIR *)
| PBookQuality (p : BookQualityIR)              (* *irv1.BookQualityIR *)
| PCustomFormat (p : CustomFormatIR)            (* *irv1.CustomFormatIR *)
| PDownloadClient (p : DownloadClientIR)        (* irv1.DownloadClientIR *)
| PDownloadClientPtr (p : DownloadClientIR)     (* *irv1.DownloadClientIR *)
| PIndexer (p : IndexerIR)                      (* irv1.IndexerIR *)
| PIndexerPtr (p : IndexerIR)                   (* *irv1.IndexerIR *)
| PRootFolder (p : RootFolderIR)                (* irv1.RootFolderIR *)
| PRootFolderPtr (p : RootFolderIR)             (* *irv1.RootFolderIR *)
| PRemotePathMapping (p : RemotePathMappingIR)  (* *irv1.RemotePathMappingIR *)
| PNotification (p : NotificationIR)            (* *irv1.NotificationIR *)
| PDelayProfile (p : DelayProfileIR)            (* *irv1.DelayProfileIR *)
| PMetadataProfile (p : MetadataProfileIR)      (* *irv1.MetadataProfileIR *)
| PSonarrNaming (p : SonarrNamingIR)            (* *irv1.SonarrNamingIR *)
| PLidarrNaming (p : LidarrNamingIR)            (* *irv1.LidarrNamingIR *)
| PRadarrNaming (p : RadarrNamingIR)            (* *irv1.RadarrNamingIR *)
| PProwlarrIndexer (p : ProwlarrIndexerIR)      (* irv1.ProwlarrIndexerIR *)
| PIndexerProxy (p : IndexerProxyIR)            (* irv1.IndexerProxyIR *)
| PProwlarrApplication (p : ProwlarrApplicationIR). (* irv1.ProwlarrApplicationIR *)

Record Change := mkChange {
  ch_ResourceType : string;
  ch_Name : string;
  ch_ID : option Z;
  ch_Payload : Payload }.

Record ChangeSet := mkChangeSet {
  cs_Creates : list Change;
  cs_Updates : list Change;
  cs_Deletes : list Change }.

Definition emptyChangeSet : ChangeSet := mkChangeSet [] [] [].

(** [changes.Creates = append(changes.Creates, c)] and its siblings. *)
Definition appendCreate (c : Change) (cs : ChangeSet) : ChangeSet :=
  mkChangeSet (cs_Creates cs ++ [c]) (cs_Updates cs) (cs_Deletes cs).
Definition appendUpdate (c : Change) (cs : ChangeSet) : ChangeSet :=
  mkChangeSet (cs_Creates cs) (cs_Updates cs ++ [c]) (cs_Deletes cs).
Definition appendDelete (c : Change) (cs : ChangeSet) : ChangeSet :=
  mkChangeSet (cs_Creates cs) (cs_Updates cs) (cs_Deletes cs ++ [c]).

Definition IsEmpty (cs : ChangeSet) : bool :=
  (Z.of_nat (length (cs_Creates cs)) =? 0) && (Z.of_nat (length (cs_Updates cs)) =? 0)
  && (Z.of_nat (length (cs_Deletes cs)) =? 0).

Definition TotalChanges (cs : ChangeSet) : Z :=
  Z.of_nat (length (cs_Creates cs)) + Z.of_nat (length (cs_Updates cs))
  + Z.of_nat (length (cs_Deletes cs)).

Record ApplyError := mkApplyError {
  ae_Change : Change;
  ae_Error : error }.

Record ApplyResult := mkApplyResult {
  ar_Applied : Z;
  ar_Failed : Z;
  ar_Skipped : Z;
  ar_Errors : list ApplyError }.

Definition emptyApplyResult : ApplyResult := mkApplyResult 0 0 0 [].

Definition Success (r : ApplyResult) : bool :=
  (ar_Failed r =? 0) && (Z.of_nat (length (ar_Errors r)) =? 0).

Definition AppRadarr : string := "radarr".
Definition AppSonarr : string := "sonarr".
Definition AppLidarr : string := "lidarr".
Definition AppReadarr : string := "readarr".
Definition AppProwlarr : string := "prowlarr".

Definition ResourceQualityProfile : string := "QualityProfile".
Definition ResourceCustomFormat : string := "CustomFormat".
Definition ResourceDownloadClient : string := "DownloadClient".
Definition ResourceIndexer : string := "Indexer".
Definition ResourceRootFolder : string := "RootFolder".
Definition ResourceTag : string := "Tag".
Definition ResourceNamingConfig : string := "NamingConfig".
Definition ResourceImportList : string := "ImportList".
Definition ResourceMediaManagement : string := "MediaManagement".
Definition ResourceAuthentication : string := "Authentication".
Definition ResourceRemotePathMapping : string := "RemotePathMapping".
Definition ResourceNotification : string := "Notification".
Definition ResourceDelayProfile : string := "DelayProfile".
Definition ResourceMetadataProfile : string := "MetadataProfile".
Definition ResourceApplication : string := "Application".

(** ** adapter.go: the interfaces

    The methods of [Adapter], over a world [W] that holds the remote service
    and the adapter's package variables.  [Apply] and [ApplyDirect] return
    their result pointer next to the error, because the caller dereferences
    the one when the other is set.  The optional interfaces an adapter may
    also implement ([DirectApplier], [HealthChecker]) are [None] when it does
    not. *)
Record Adapter (W : Type) := mkAdapter {
  a_Name : string;
  a_SupportedApp : string;
  a_Connect : ConnectionIR → M W ServiceInfo;
  a_Discover : ConnectionIR → M W Capabilities;
  a_CurrentState : ConnectionIR → M W (option IR);
  a_Diff : IR → IR → option Capabilities → M W ChangeSet;
  a_Apply : ConnectionIR → ChangeSet → M W (option ApplyResult * option error);
  a_ApplyDirect : option (ConnectionIR → IR → M W (option ApplyResult * option error));
  a_GetHealth : option (ConnectionIR → M W HealthStatus) }.
Arguments mkAdapter {W}.
Arguments a_Name {W}.
Arguments a_SupportedApp {W}.
Arguments a_Connect {W}.
Arguments a_Discover {W}.
Arguments a_CurrentState {W}.
Arguments a_Diff {W}.
Arguments a_Apply {W}.
Arguments a_ApplyDirect {W}.
Arguments a_GetHealth {W}.

(** ** registry.go

    The package variable [registry]; every operation holds the mutex for its
    whole body, so each is one atomic step on the map. *)
Section registry.
Context {W : Type}.
Abbreviation registry := (gmap string (Adapter W)).

Definition Register (a : Adapter W) : M registry unit := λ reg,
  let app := a_SupportedApp a in
  match reg !! app with
  | Some _ => (reg, Panic ("adapter for app " +:+ app +:+ " already registered")%string)
  | None => (<[app := a]> reg, Ret tt)
  end.

Definition Get (app : string) (reg : registry) : option (Adapter W) := reg !! app.

Definition MustGet (app : string) : M registry (Adapter W) := λ reg,
  match Get app reg with
  | Some a => (reg, Ret a)
  | None => (reg, Panic ("no adapter registered for app " +:+ app)%string)
  end.

Definition List (o : RangeOrder) (reg : registry) : list string := (rangeMap o 0 reg).*1.

Definition Count (reg : registry) : Z := Z.of_nat (size reg).

Definition Clear (reg : registry) : registry := ∅.

Definition RegisterOrReplace (a : Adapter W) (reg : registry) : registry :=
  <[a_SupportedApp a := a]> reg.

Definition Unregister (app : string) (reg : registry) : registry * bool :=
  match reg !! app with
  | Some _ => (delete app reg, true)
  | None => (reg, false)
  end.
End registry.

(** ** Theorems: the registry *)

Section registry_theorems.
Context {W : Type}.
Implicit Types (a : Adapter W) (reg : gmap string (Adapter W)).

(** the registry is a map from applications to adapters: registering makes
    the adapter the one found for its application and touches no other;
    registering an application twice panics and leaves the registry as it was,
    whereas [RegisterOrReplace] overwrites; [Unregister] undoes a registration
    and reports whether there was one. *)
Theorem registry_spec a reg :
  (reg !! a_SupportedApp a = None →
   ∃ reg', Register a reg = (reg', Ret tt) ∧ Get (a_SupportedApp a) reg' = Some a ∧
     (∀ app, app ≠ a_SupportedApp a → Get app reg' = Get app reg) ∧
     Count reg' = Count reg + 1 ∧
     Unregister (a_SupportedApp a) reg' = (reg, true)) ∧
  (is_Some (reg !! a_SupportedApp a) → ∃ why, Register a reg = (reg, Panic why)) ∧
  MustGet (a_SupportedApp a) (RegisterOrReplace a reg) = (RegisterOrReplace a reg, Ret a) ∧
  (∀ app, Get app (Unregister app reg).1 = None ∧
          ((Unregister app reg).2 = true ↔ is_Some (Get app reg))).
Proof.
  unfold Register, Get, MustGet, RegisterOrReplace, Unregister, Count. split_and!.
  - intros Hn. rewrite Hn. eexists. split; [done|]. rewrite lookup_insert_eq. split_and!.
    + done.
    + intros app Hne. by rewrite lookup_insert_ne.
    + rewrite map_size_insert_None by done. lia.
    + by rewrite delete_insert_id.
  - intros [b ->]. by eexists.
  - unfold Get. by rewrite lookup_insert_eq.
  - intros app. destruct (reg !! app) eqn:E; simpl; rewrite ?lookup_delete_eq, ?E;
      split; try done; split; try done; by intros [].
Qed.

(** [List] names each registered application once, in some order. *)
Lemma List_perm o reg : List o reg ≡ₚ (map_to_list reg).*1.
Proof. unfold List. by rewrite (rangeMap_perm o 0 _ reg). Qed.
End registry_theorems.

Definition exampleAdapter (app : string) : Adapter unit :=
  mkAdapter app app (λ _, fail "") (λ _, fail "") (λ _, ret None) (λ _ _ _, ret emptyChangeSet)
    (λ _ _, ret (Some emptyApplyResult, None)) None None.

Lemma registry_spec_witness :
  let reg : gmap string (Adapter unit) := ∅ in
  reg !! a_SupportedApp (exampleAdapter AppSonarr) = None ∧
  ∃ reg', Register (exampleAdapter AppSonarr) reg = (reg', Ret tt) ∧
          Get AppSonarr reg' = Some (exampleAdapter AppSonarr).
Proof.
  intros reg. assert (reg !! a_SupportedApp (exampleAdapter AppSonarr) = None) as H by reflexivity.
  split; [exact H|].
  destruct (proj1 (registry_spec (exampleAdapter AppSonarr) reg) H) as (reg' & H1 & H2 & _).
  exists reg'. split; [exact H1|exact H2].
Defined.
