(* ===== verification/Api.v ===== *)
(** * Custom resources (src/api/v1alpha1)

    The specifications and statuses of the custom resources the reconcilers
    read and write, one record per Go struct.  The Kubernetes types they embed
    ([ObjectMeta], [Condition]) are reduced to the fields the operator uses.
    Two structs share their name with a struct of another package and are
    called [CustomFormatSpecAPI] and [HealthStatusAPI] here. *)
From S2P Require Export IR.

(** ** Kubernetes metadata *)

Record ObjectMeta := mkObjectMeta {
  om_Name : string;
  om_Namespace : string;
  om_UID : string;
  om_Generation : Z;
  om_DeletionTimestamp : option Z;
  om_Finalizers : list string }.

(** [metav1.Condition]. *)
Record Condition := mkCondition {
  cond_Type : string;
  cond_Status : string;
  cond_ObservedGeneration : Z;
  cond_LastTransitionTime : Z;
  cond_Reason : string;
  cond_Message : string }.

(** ** common_types.go *)

Record SecretKeySelector := mkSecretKeySelector {
  sks_Name : string;
  sks_Key : string }.

Record ConnectionSpec := mkConnectionSpec {
  cns_URL : string;
  cns_APIKeySecretRef : option SecretKeySelector;
  cns_ConfigPath : string;
  cns_InsecureSkipVerify : bool;
  cns_Timeout : option Z }.

Record CredentialsSecretRef := mkCredentialsSecretRef {
  csr_Name : string;
  csr_UsernameKey : string;
  csr_PasswordKey : string }.

Record LocalObjectReference := mkLocalObjectReference {
  lor_Name : string }.

Record VideoQualityTier := mkVideoQualityTier {
  vqt_Resolution : string;
  vqt_Sources : list string }.

Record VideoQualitySpec := mkVideoQualitySpec {
  vqs_Preset : string;
  vqs_TemplateRef : option LocalObjectReference;
  vqs_Exclude : list string;
  vqs_PreferAdditional : list string;
  vqs_RejectAdditional : list string;
  vqs_Tiers : list VideoQualityTier;
  vqs_UpgradeUntil : option VideoQualityTier;
  vqs_PreferredFormats : list string;
  vqs_RejectedFormats : list string }.

Record AudioQualitySpec := mkAudioQualitySpec {
  aqs_Preset : string;
  aqs_TemplateRef : option LocalObjectReference;
  aqs_Exclude : list string;
  aqs_PreferAdditional : list string;
  aqs_Tiers : list string;
  aqs_UpgradeUntil : string;
  aqs_PreferredFormats : list string }.

Record DownloadClientSpec := mkDownloadClientSpec {
  dcs_Name : string;
  dcs_URL : string;
  dcs_Type : string;
  dcs_CredentialsSecretRef : option CredentialsSecretRef;
  dcs_Category : string;
  dcs_Priority : Z;
  dcs_Enabled : option bool;
  dcs_RemoveCompletedDownloads : option bool;
  dcs_RemoveFailedDownloads : option bool }.

Record RemotePathMappingSpec := mkRemotePathMappingSpec {
  rpms_Host : string;
  rpms_RemotePath : string;
  rpms_LocalPath : string }.

Record ProwlarrRef := mkProwlarrRef {
  prr_Name : string;
  prr_AutoRegister : option bool;
  prr_Include : list string;
  prr_Exclude : list string }.

Record DirectIndexer := mkDirectIndexer {
  dix_Name : string;
  dix_URL : string;
  dix_Type : string;
  dix_APIKeySecretRef : option SecretKeySelector;
  dix_Categories : list string;
  dix_Priority : Z;
  dix_Enabled : option bool }.

Record IndexersSpec := mkIndexersSpec {
  ixs_ProwlarrRef : option ProwlarrRef;
  ixs_Direct : list DirectIndexer }.

Record NamingSpec := mkNamingSpec {
  nms_Preset : string;
  nms_RenameMedia : option bool;
  nms_StandardFormat : string;
  nms_FolderFormat : string }.

Record ReconciliationSpec := mkReconciliationSpec {
  rcs_Interval : option Z;
  rcs_Suspend : bool }.

Record ProwlarrRegistration := mkProwlarrRegistration {
  preg_Registered : bool;
  preg_ProwlarrName : string;
  preg_ApplicationID : option Z;
  preg_LastSync : option Z;
  preg_SyncedIndexers : list string;
  preg_Message : string }.

Record ManagedResources := mkManagedResources {
  mres_QualityProfileID : option Z;
  mres_CustomFormatIDs : list Z;
  mres_DownloadClientIDs : list Z;
  mres_IndexerIDs : list Z;
  mres_RootFolderIDs : list Z;
  mres_RemotePathMappingIDs : list Z;
  mres_NotificationIDs : list Z }.

Record HealthIssueStatus := mkHealthIssueStatus {
  his_Source : string;
  his_Type : string;
  his_Message : string;
  his_WikiURL : string }.

Record HealthStatusAPI := mkHealthStatusAPI {
  hst_Healthy : bool;
  hst_IssueCount : Z;
  hst_ErrorCount : Z;
  hst_WarningCount : Z;
  hst_LastCheck : option Z;
  hst_Issues : list HealthIssueStatus }.

Record ImportListSpec := mkImportListSpec {
  ils_Name : string;
  ils_Type : string;
  ils_Enabled : option bool;
  ils_EnableAuto : option bool;
  ils_SearchOnAdd : option bool;
  ils_QualityProfile : string;
  ils_RootFolder : string;
  ils_Monitor : string;
  ils_MinimumAvailability : string;
  ils_SeriesType : string;
  ils_SeasonFolder : option bool;
  ils_ShouldMonitor : string;
  ils_Settings : gmap string string;
  ils_SettingsSecretRef : option SecretKeySelector }.

Record MediaManagementSpec := mkMediaManagementSpec {
  mms_RecycleBin : string;
  mms_RecycleBinCleanupDays : option Z;
  mms_SetPermissions : option bool;
  mms_ChmodFolder : string;
  mms_ChownGroup : string;
  mms_DeleteEmptyFolders : option bool;
  mms_CreateEmptyFolders : option bool;
  mms_UseHardlinks : option bool;
  mms_WatchLibraryForChanges : option bool;
  mms_AllowFingerprinting : string }.

Record AuthenticationSpec := mkAuthenticationSpec {
  aus_Method : string;
  aus_Username : string;
  aus_PasswordSecretRef : option SecretKeySelector;
  aus_AuthenticationRequired : string }.

Record CustomFormatSpecificationSpec := mkCustomFormatSpecificationSpec {
  cfss_Name : string;
  cfss_Type : string;
  cfss_Negate : option bool;
  cfss_Required : option bool;
  cfss_Value : string }.

Record CustomFormatSpecAPI := mkCustomFormatSpecAPI {
  cfsp_Name : string;
  cfsp_IncludeWhenRenaming : option bool;
  cfsp_Score : Z;
  cfsp_Specifications : list CustomFormatSpecificationSpec }.

Record DelayProfileSpec := mkDelayProfileSpec {
  dps_Name : string;
  dps_PreferredProtocol : string;
  dps_UsenetDelay : Z;
  dps_TorrentDelay : Z;
  dps_EnableUsenet : option bool;
  dps_EnableTorrent : option bool;
  dps_BypassIfHighestQuality : option bool;
  dps_BypassIfAboveCustomFormatScore : option bool;
  dps_MinimumCustomFormatScore : Z;
  dps_Tags : list string;
  dps_Order : option Z }.

Record PreferredTermSpec := mkPreferredTermSpec {
  ptsp_Term : string;
  ptsp_Score : Z }.

Record ReleaseProfileSpec := mkReleaseProfileSpec {
  rps_Name : string;
  rps_Enabled : option bool;
  rps_Required : list string;
  rps_Ignored : list string;
  rps_Preferred : list PreferredTermSpec;
  rps_IncludePreferredWhenRenaming : option bool;
  rps_IndexerID : Z;
  rps_Tags : list string }.

Record NotificationSpec := mkNotificationSpec {
  nts_Name : string;
  nts_Type : string;
  nts_Enabled : option bool;
  nts_OnGrab : option bool;
  nts_OnDownload : option bool;
  nts_OnUpgrade : option bool;
  nts_OnRename : option bool;
  nts_OnHealthIssue : option bool;
  nts_OnHealthRestored : option bool;
  nts_OnApplicationUpdate : option bool;
  nts_OnManualInteractionRequired : option bool;
  nts_IncludeHealthWarnings : option bool;
  nts_OnMovieAdded : option bool;
  nts_OnMovieDelete : option bool;
  nts_OnMovieFileDelete : option bool;
  nts_OnMovieFileDeleteForUpgrade : option bool;
  nts_OnSeriesAdd : option bool;
  nts_OnSeriesDelete : option bool;
  nts_OnEpisodeFileDelete : option bool;
  nts_OnEpisodeFileDeleteForUpgrade : option bool;
  nts_OnReleaseImport : option bool;
  nts_OnArtistAdd : option bool;
  nts_OnArtistDelete : option bool;
  nts_OnAlbumDelete : option bool;
  nts_OnTrackRetag : option bool;
  nts_OnDownloadFailure : option bool;
  nts_OnImportFailure : option bool;
  nts_Settings : gmap string string;
  nts_SettingsSecretRef : option SecretKeySelector;
  nts_Tags : list string }.

(** ** radarrconfig_types.go *)

Record RadarrConfigSpec := mkRadarrConfigSpec {
  rcs_Connection : ConnectionSpec;
  rcs_Quality : option VideoQualitySpec;
  rcs_DownloadClients : list DownloadClientSpec;
  rcs_RemotePathMappings : list RemotePathMappingSpec;
  rcs_Indexers : option IndexersSpec;
  rcs_Naming : option NamingSpec;
  rcs_RootFolders : list string;
  rcs_ImportLists : list ImportListSpec;
  rcs_MediaManagement : option MediaManagementSpec;
  rcs_Authentication : option AuthenticationSpec;
  rcs_Notifications : list NotificationSpec;
  rcs_CustomFormats : list CustomFormatSpecAPI;
  rcs_DelayProfiles : list DelayProfileSpec;
  rcs_Reconciliation : option ReconciliationSpec }.

Record RadarrConfigStatus := mkRadarrConfigStatus {
  rcst_Conditions : list Condition;
  rcst_Connected : bool;
  rcst_ServiceVersion : string;
  rcst_LastReconcile : option Z;
  rcst_ManagedResources : ManagedResources;
  rcst_LastAppliedHash : string;
  rcst_ProwlarrRegistration : option ProwlarrRegistration;
  rcst_Health : option HealthStatusAPI }.

Record RadarrConfig := mkRadarrConfig {
  rc_ObjectMeta : ObjectMeta;
  rc_Spec : RadarrConfigSpec;
  rc_Status : RadarrConfigStatus }.

(** ** sonarrconfig_types.go *)

Record SonarrNamingSpec := mkSonarrNamingSpec {
  sns_NamingSpec : NamingSpec;
  sns_SeasonFolderFormat : string;
  sns_DailyEpisodeFormat : string;
  sns_AnimeEpisodeFormat : string }.

Record SonarrConfigSpec := mkSonarrConfigSpec {
  scs_Connection : ConnectionSpec;
  scs_Quality : option VideoQualitySpec;
  scs_DownloadClients : list DownloadClientSpec;
  scs_RemotePathMappings : list RemotePathMappingSpec;
  scs_Indexers : option IndexersSpec;
  scs_Naming : option SonarrNamingSpec;
  scs_RootFolders : list string;
  scs_ImportLists : list ImportListSpec;
  scs_MediaManagement : option MediaManagementSpec;
  scs_Authentication : option AuthenticationSpec;
  scs_Notifications : list NotificationSpec;
  scs_CustomFormats : list CustomFormatSpecAPI;
  scs_DelayProfiles : list DelayProfileSpec;
  scs_ReleaseProfiles : list ReleaseProfileSpec;
  scs_Reconciliation : option ReconciliationSpec }.

Record SonarrConfigStatus := mkSonarrConfigStatus {
  scst_Conditions : list Condition;
  scst_Connected : bool;
  scst_ServiceVersion : string;
  scst_LastReconcile : option Z;
  scst_ManagedResources : ManagedResources;
  scst_LastAppliedHash : string;
  scst_ProwlarrRegistration : option ProwlarrRegistration;
  scst_Health : option HealthStatusAPI }.

Record SonarrConfig := mkSonarrConfig {
  sc_ObjectMeta : ObjectMeta;
  sc_Spec : SonarrConfigSpec;
  sc_Status : SonarrConfigStatus }.

(** ** lidarrconfig_types.go *)

Record MetadataProfileSpec := mkMetadataProfileSpec {
  mps_PrimaryTypes : list string;
  mps_SecondaryTypes : list string;
  mps_ReleaseStatuses : list string }.

Record LidarrRootFolder := mkLidarrRootFolder {
  lrf_Path : string;
  lrf_Name : string;
  lrf_DefaultMonitor : string }.

Record LidarrNamingSpec := mkLidarrNamingSpec {
  lns_NamingSpec : NamingSpec;
  lns_ArtistFolderFormat : string;
  lns_AlbumFolderFormat : string }.

Record LidarrConfigSpec := mkLidarrConfigSpec {
  lcs_Connection : ConnectionSpec;
  lcs_Quality : option AudioQualitySpec;
  lcs_Metadata : option MetadataProfileSpec;
  lcs_DownloadClients : list DownloadClientSpec;
  lcs_RemotePathMappings : list RemotePathMappingSpec;
  lcs_Indexers : option IndexersSpec;
  lcs_Naming : option LidarrNamingSpec;
  lcs_RootFolders : list LidarrRootFolder;
  lcs_ImportLists : list ImportListSpec;
  lcs_MediaManagement : option MediaManagementSpec;
  lcs_Authentication : option AuthenticationSpec;
  lcs_Notifications : list NotificationSpec;
  lcs_CustomFormats : list CustomFormatSpecAPI;
  lcs_DelayProfiles : list DelayProfileSpec;
  lcs_Reconciliation : option ReconciliationSpec }.

Record LidarrConfigStatus := mkLidarrConfigStatus {
  lcst_Conditions : list Condition;
  lcst_Connected : bool;
  lcst_ServiceVersion : string;
  lcst_LastReconcile : option Z;
  lcst_ManagedResources : ManagedResources;
  lcst_LastAppliedHash : string;
  lcst_ProwlarrRegistration : option ProwlarrRegistration;
  lcst_Health : option HealthStatusAPI }.

Record LidarrConfig := mkLidarrConfig {
  lc_ObjectMeta : ObjectMeta;
  lc_Spec : LidarrConfigSpec;
  lc_Status : LidarrConfigStatus }.

(** ** readarrconfig_types.go *)

Record ReadarrMetadataProfileSpec := mkReadarrMetadataProfileSpec {
  rmps_Name : string;
  rmps_MinPopularity : Z;
  rmps_SkipMissingDate : option bool;
  rmps_SkipMissingIsbn : option bool;
  rmps_SkipPartsAndSets : option bool;
  rmps_SkipSeriesSecondary : option bool;
  rmps_AllowedLanguages : list string }.

Record ReadarrFormatSpec := mkReadarrFormatSpec {
  rfs_Format : string;
  rfs_Allowed : bool }.

Record ReadarrQualitySpec := mkReadarrQualitySpec {
  rqs_Preset : string;
  rqs_AllowedFormats : option (list ReadarrFormatSpec);
  rqs_UpgradeAllowed : option bool;
  rqs_Cutoff : string }.

Record ReadarrNamingSpec := mkReadarrNamingSpec {
  rns_NamingSpec : NamingSpec;
  rns_AuthorFolderFormat : string;
  rns_StandardBookFormat : string;
  rns_ColonReplacementFormat : string }.

Record ReadarrConfigSpec := mkReadarrConfigSpec {
  rdcs_Connection : ConnectionSpec;
  rdcs_Quality : option ReadarrQualitySpec;
  rdcs_MetadataProfile : option ReadarrMetadataProfileSpec;
  rdcs_DownloadClients : list DownloadClientSpec;
  rdcs_RemotePathMappings : list RemotePathMappingSpec;
  rdcs_Indexers : option IndexersSpec;
  rdcs_Naming : option ReadarrNamingSpec;
  rdcs_RootFolders : list string;
  rdcs_ImportLists : list ImportListSpec;
  rdcs_MediaManagement : option MediaManagementSpec;
  rdcs_Authentication : option AuthenticationSpec;
  rdcs_Notifications : list NotificationSpec;
  rdcs_Reconciliation : option ReconciliationSpec }.

Record ReadarrConfigStatus := mkReadarrConfigStatus {
  rdcst_Conditions : list Condition;
  rdcst_Connected : bool;
  rdcst_ServiceVersion : string;
  rdcst_LastReconcile : option Z;
  rdcst_ManagedResources : ManagedResources;
  rdcst_LastAppliedHash : string;
  rdcst_ProwlarrRegistration : option ProwlarrRegistration;
  rdcst_Health : option HealthStatusAPI }.

Record ReadarrConfig := mkReadarrConfig {
  rdc_ObjectMeta : ObjectMeta;
  rdc_Spec : ReadarrConfigSpec;
  rdc_Status : ReadarrConfigStatus }.

(** ** prowlarrconfig_types.go *)

Record ProwlarrIndexer := mkProwlarrIndexer {
  pxi_Name : string;
  pxi_Definition : string;
  pxi_BaseURL : string;
  pxi_Settings : gmap string string;
  pxi_APIKeySecretRef : option SecretKeySelector;
  pxi_Tags : list string;
  pxi_Priority : Z;
  pxi_Enabled : option bool }.

Record IndexerProxy := mkIndexerProxy {
  pxp_Name : string;
  pxp_Type : string;
  pxp_Host : string;
  pxp_Port : Z;
  pxp_CredentialsSecretRef : option CredentialsSecretRef;
  pxp_RequestTimeout : Z;
  pxp_Tags : list string }.

Record ProwlarrApplication := mkProwlarrApplication {
  pxa_Name : string;
  pxa_Type : string;
  pxa_URL : string;
  pxa_APIKeySecretRef : option SecretKeySelector;
  pxa_ConfigPath : string;
  pxa_SyncCategories : list string;
  pxa_SyncLevel : string }.

Record ProwlarrConfigSpec := mkProwlarrConfigSpec {
  pcs_Connection : ConnectionSpec;
  pcs_Indexers : list ProwlarrIndexer;
  pcs_Proxies : list IndexerProxy;
  pcs_Applications : list ProwlarrApplication;
  pcs_DownloadClients : list DownloadClientSpec;
  pcs_Authentication : option AuthenticationSpec;
  pcs_Reconciliation : option ReconciliationSpec }.

Record ProwlarrConfigStatus := mkProwlarrConfigStatus {
  pcst_Conditions : list Condition;
  pcst_Connected : bool;
  pcst_ServiceVersion : string;
  pcst_LastReconcile : option Z;
  pcst_ManagedIndexers : list Z;
  pcst_ManagedProxies : list Z;
  pcst_ManagedApplications : list Z;
  pcst_LastAppliedHash : string;
  pcst_Health : option HealthStatusAPI }.

Record ProwlarrConfig := mkProwlarrConfig {
  pc_ObjectMeta : ObjectMeta;
  pc_Spec : ProwlarrConfigSpec;
  pc_Status : ProwlarrConfigStatus }.
