(* ===== verification/Objects.v ===== *)
(** * The objects of the reconcilers (src/internal/controller/status_wrappers.go,
      config_interfaces.go)

    What the shared reconciler asks of a custom resource, as classes: its metadata
    ([ClientObject], the interface client.Object), the common part of its status
    ([HasStatus], the interface ConfigStatus of reconciler.go) and the getters of
    the interface ArrConfigObject of generic_arr_reconciler.go; and their
    implementations for the custom resources of the applications. *)
From S2P Require Export Api Adapters.

(** ** The interfaces *)

(** The part of a status the reconciler writes. *)
Record Status := mkStatus {
  st_Conditions : list Condition;
  st_Connected : bool;
  st_ServiceVersion : string;
  st_LastReconcile : option Z;
  st_LastAppliedHash : string;
  st_Health : option HealthStatusAPI }.

Definition st_set_Conditions (cs : list Condition) (s : Status) : Status :=
  mkStatus cs (st_Connected s) (st_ServiceVersion s) (st_LastReconcile s) (st_LastAppliedHash s) (st_Health s).
Definition st_set_Connected (b : bool) (s : Status) : Status :=
  mkStatus (st_Conditions s) b (st_ServiceVersion s) (st_LastReconcile s) (st_LastAppliedHash s) (st_Health s).
Definition st_set_ServiceVersion (v : string) (s : Status) : Status :=
  mkStatus (st_Conditions s) (st_Connected s) v (st_LastReconcile s) (st_LastAppliedHash s) (st_Health s).
Definition st_set_LastReconcile (t : option Z) (s : Status) : Status :=
  mkStatus (st_Conditions s) (st_Connected s) (st_ServiceVersion s) t (st_LastAppliedHash s) (st_Health s).
Definition st_set_LastAppliedHash (h : string) (s : Status) : Status :=
  mkStatus (st_Conditions s) (st_Connected s) (st_ServiceVersion s) (st_LastReconcile s) h (st_Health s).
Definition st_set_Health (h : option HealthStatusAPI) (s : Status) : Status :=
  mkStatus (st_Conditions s) (st_Connected s) (st_ServiceVersion s) (st_LastReconcile s)
    (st_LastAppliedHash s) h.

Definition set_Finalizers (fs : list string) (m : ObjectMeta) : ObjectMeta :=
  mkObjectMeta (om_Name m) (om_Namespace m) (om_UID m) (om_Generation m) (om_DeletionTimestamp m) fs.

(** Metadata, read and written in place. *)
Class ClientObject (C : Type) := {
  meta_of : C → ObjectMeta;
  with_meta : ObjectMeta → C → C;
  meta_with : ∀ m c, meta_of (with_meta m c) = m }.

(** The objects with the common part of a status. *)
Class HasStatus (C : Type) := {
  status_of : C → Status;
  with_status : Status → C → C;
  status_with : ∀ s c, status_of (with_status s c) = s;
  with_status_of : ∀ c, with_status (status_of c) c = c;
  with_status_twice : ∀ s s' c, with_status s (with_status s' c) = with_status s c }.

(** The objects with conditions in their status: all that [SetCondition] needs. *)
Class HasConditions (C : Type) := {
  conditions_of : C → list Condition;
  with_conditions : list Condition → C → C;
  conditions_with : ∀ cs c, conditions_of (with_conditions cs c) = cs }.

#[export] Program Instance StatusConditions {C} `{HasStatus C} : HasConditions C | 100 := {|
  conditions_of c := st_Conditions (status_of c);
  with_conditions cs c := with_status (st_set_Conditions cs (status_of c)) c |}.
Next Obligation. intros C ? cs c. cbn beta. exact (f_equal st_Conditions (status_with _ c)). Qed.

(** The getters; they read the specification, which neither the metadata nor the
    status are part of. *)
Class ArrConfigObject (C : Type) `{ClientObject C} `{HasStatus C} := {
  GetConnectionSpec : C → ConnectionSpec;
  GetReconciliationSpec : C → option ReconciliationSpec;
  GetDownloadClients : C → list DownloadClientSpec;
  GetIndexersSpec : C → option IndexersSpec;
  GetImportLists : C → list ImportListSpec;
  GetAuthenticationSpec : C → option AuthenticationSpec;
  GetAppType : C → string;
  GetFinalizerName : C → string;
  ShouldRegisterWithProwlarr : C → bool;
  GetReconciliationSpec_meta : ∀ m c, GetReconciliationSpec (with_meta m c) = GetReconciliationSpec c;
  GetFinalizerName_meta : ∀ m c, GetFinalizerName (with_meta m c) = GetFinalizerName c }.

(** ** config_interfaces.go *)

Definition SonarrFinalizer : string := "sonarrconfig.arr.rinzler.cloud/finalizer".
Definition RadarrFinalizer : string := "radarrconfig.arr.rinzler.cloud/finalizer".
Definition LidarrFinalizer : string := "lidarrconfig.arr.rinzler.cloud/finalizer".
Definition ReadarrFinalizer : string := "readarrconfig.arr.rinzler.cloud/finalizer".
Definition prowlarrFinalizer : string := "prowlarrconfig.arr.rinzler.cloud/finalizer".

#[local] Obligation Tactic := first [done | by intros [?? []]].

(** *** SonarrConfig *)

#[export] Program Instance SonarrConfigClientObject : ClientObject SonarrConfig := {|
  meta_of := sc_ObjectMeta;
  with_meta m c := mkSonarrConfig m (sc_Spec c) (sc_Status c) |}.

#[export] Program Instance SonarrStatusWrapper : HasStatus SonarrConfig := {|
  status_of c :=
    let s := sc_Status c in
    mkStatus (scst_Conditions s) (scst_Connected s) (scst_ServiceVersion s) (scst_LastReconcile s)
      (scst_LastAppliedHash s) (scst_Health s);
  with_status s c :=
    let s' := sc_Status c in
    mkSonarrConfig (sc_ObjectMeta c) (sc_Spec c)
      (mkSonarrConfigStatus (st_Conditions s) (st_Connected s) (st_ServiceVersion s) (st_LastReconcile s)
         (scst_ManagedResources s') (st_LastAppliedHash s) (scst_ProwlarrRegistration s') (st_Health s)) |}.

#[export] Program Instance SonarrConfigAdapter : ArrConfigObject SonarrConfig := {|
  GetConnectionSpec c := scs_Connection (sc_Spec c);
  GetReconciliationSpec c := scs_Reconciliation (sc_Spec c);
  GetDownloadClients c := scs_DownloadClients (sc_Spec c);
  GetIndexersSpec c := scs_Indexers (sc_Spec c);
  GetImportLists c := scs_ImportLists (sc_Spec c);
  GetAuthenticationSpec c := scs_Authentication (sc_Spec c);
  GetAppType _ := AppSonarr;
  GetFinalizerName _ := SonarrFinalizer;
  ShouldRegisterWithProwlarr _ := true |}.

(** *** RadarrConfig *)

#[export] Program Instance RadarrConfigClientObject : ClientObject RadarrConfig := {|
  meta_of := rc_ObjectMeta;
  with_meta m c := mkRadarrConfig m (rc_Spec c) (rc_Status c) |}.

#[export] Program Instance RadarrStatusWrapper : HasStatus RadarrConfig := {|
  status_of c :=
    let s := rc_Status c in
    mkStatus (rcst_Conditions s) (rcst_Connected s) (rcst_ServiceVersion s) (rcst_LastReconcile s)
      (rcst_LastAppliedHash s) (rcst_Health s);
  with_status s c :=
    let s' := rc_Status c in
    mkRadarrConfig (rc_ObjectMeta c) (rc_Spec c)
      (mkRadarrConfigStatus (st_Conditions s) (st_Connected s) (st_ServiceVersion s) (st_LastReconcile s)
         (rcst_ManagedResources s') (st_LastAppliedHash s) (rcst_ProwlarrRegistration s') (st_Health s)) |}.

#[export] Program Instance RadarrConfigAdapter : ArrConfigObject RadarrConfig := {|
  GetConnectionSpec c := rcs_Connection (rc_Spec c);
  GetReconciliationSpec c := rcs_Reconciliation (rc_Spec c);
  GetDownloadClients c := rcs_DownloadClients (rc_Spec c);
  GetIndexersSpec c := rcs_Indexers (rc_Spec c);
  GetImportLists c := rcs_ImportLists (rc_Spec c);
  GetAuthenticationSpec c := rcs_Authentication (rc_Spec c);
  GetAppType _ := AppRadarr;
  GetFinalizerName _ := RadarrFinalizer;
  ShouldRegisterWithProwlarr _ := true |}.

(** *** LidarrConfig *)

#[export] Program Instance LidarrConfigClientObject : ClientObject LidarrConfig := {|
  meta_of := lc_ObjectMeta;
  with_meta m c := mkLidarrConfig m (lc_Spec c) (lc_Status c) |}.

#[export] Program Instance LidarrStatusWrapper : HasStatus LidarrConfig := {|
  status_of c :=
    let s := lc_Status c in
    mkStatus (lcst_Conditions s) (lcst_Connected s) (lcst_ServiceVersion s) (lcst_LastReconcile s)
      (lcst_LastAppliedHash s) (lcst_Health s);
  with_status s c :=
    let s' := lc_Status c in
    mkLidarrConfig (lc_ObjectMeta c) (lc_Spec c)
      (mkLidarrConfigStatus (st_Conditions s) (st_Connected s) (st_ServiceVersion s) (st_LastReconcile s)
         (lcst_ManagedResources s') (st_LastAppliedHash s) (lcst_ProwlarrRegistration s') (st_Health s)) |}.

#[export] Program Instance LidarrConfigAdapter : ArrConfigObject LidarrConfig := {|
  GetConnectionSpec c := lcs_Connection (lc_Spec c);
  GetReconciliationSpec c := lcs_Reconciliation (lc_Spec c);
  GetDownloadClients c := lcs_DownloadClients (lc_Spec c);
  GetIndexersSpec c := lcs_Indexers (lc_Spec c);
  GetImportLists c := lcs_ImportLists (lc_Spec c);
  GetAuthenticationSpec c := lcs_Authentication (lc_Spec c);
  GetAppType _ := AppLidarr;
  GetFinalizerName _ := LidarrFinalizer;
  ShouldRegisterWithProwlarr _ := false |}.

(** *** ReadarrConfig *)

#[export] Program Instance ReadarrConfigClientObject : ClientObject ReadarrConfig := {|
  meta_of := rdc_ObjectMeta;
  with_meta m c := mkReadarrConfig m (rdc_Spec c) (rdc_Status c) |}.

#[export] Program Instance ReadarrStatusWrapper : HasStatus ReadarrConfig := {|
  status_of c :=
    let s := rdc_Status c in
    mkStatus (rdcst_Conditions s) (rdcst_Connected s) (rdcst_ServiceVersion s) (rdcst_LastReconcile s)
      (rdcst_LastAppliedHash s) (rdcst_Health s);
  with_status s c :=
    let s' := rdc_Status c in
    mkReadarrConfig (rdc_ObjectMeta c) (rdc_Spec c)
      (mkReadarrConfigStatus (st_Conditions s) (st_Connected s) (st_ServiceVersion s) (st_LastReconcile s)
         (rdcst_ManagedResources s') (st_LastAppliedHash s) (rdcst_ProwlarrRegistration s') (st_Health s)) |}.

#[export] Program Instance ReadarrConfigAdapter : ArrConfigObject ReadarrConfig := {|
  GetConnectionSpec c := rdcs_Connection (rdc_Spec c);
  GetReconciliationSpec c := rdcs_Reconciliation (rdc_Spec c);
  GetDownloadClients c := rdcs_DownloadClients (rdc_Spec c);
  GetIndexersSpec c := rdcs_Indexers (rdc_Spec c);
  GetImportLists c := rdcs_ImportLists (rdc_Spec c);
  GetAuthenticationSpec c := rdcs_Authentication (rdc_Spec c);
  GetAppType _ := AppReadarr;
  GetFinalizerName _ := ReadarrFinalizer;
  ShouldRegisterWithProwlarr _ := true |}.

(** *** ProwlarrConfig, which is not an ArrConfigObject *)

#[export] Program Instance ProwlarrConfigClientObject : ClientObject ProwlarrConfig := {|
  meta_of := pc_ObjectMeta;
  with_meta m c := mkProwlarrConfig m (pc_Spec c) (pc_Status c) |}.

#[export] Program Instance ProwlarrStatusWrapper : HasStatus ProwlarrConfig := {|
  status_of c :=
    let s := pc_Status c in
    mkStatus (pcst_Conditions s) (pcst_Connected s) (pcst_ServiceVersion s) (pcst_LastReconcile s)
      (pcst_LastAppliedHash s) (pcst_Health s);
  with_status s c :=
    let s' := pc_Status c in
    mkProwlarrConfig (pc_ObjectMeta c) (pc_Spec c)
      (mkProwlarrConfigStatus (st_Conditions s) (st_Connected s) (st_ServiceVersion s) (st_LastReconcile s)
         (pcst_ManagedIndexers s') (pcst_ManagedProxies s') (pcst_ManagedApplications s')
         (st_LastAppliedHash s) (st_Health s)) |}.
