(* ===== verification/Compiler.v ===== *)
(** * The policy compiler (src/internal/compiler)

    Inputs (types.go), the conversion of each group of settings to the
    intermediate representation (resources.go, features.go), the pruning of
    what the service does not support (prune.go) and [Compile] itself
    (compiler.go).  [Compile] never returns an error; [time.Now()] is its
    argument [now]. *)
From S2P Require Export IR Presets Adapters.

(** ** types.go *)

Record DownloadClientInput := mkDownloadClientInput {
  dci_Name : string;
  dci_Implementation : string;
  dci_Host : string;
  dci_Port : Z;
  dci_UseTLS : bool;
  dci_Username : string;
  dci_Password : string;
  dci_Category : string;
  dci_Priority : Z;
  dci_RemoveCompletedDownloads : bool;
  dci_RemoveFailedDownloads : bool }.

Record RemotePathMappingInput := mkRemotePathMappingInput {
  rpmi_Host : string;
  rpmi_RemotePath : string;
  rpmi_LocalPath : string }.

Record ProwlarrRefInput := mkProwlarrRefInput {
  pri_ConfigName : string;
  pri_AutoRegister : bool;
  pri_Include : list string;
  pri_Exclude : list string }.

Record IndexerInput := mkIndexerInput {
  ixi_Name : string;
  ixi_Protocol : string;
  ixi_Implementation : string;
  ixi_URL : string;
  ixi_APIKey : string;
  ixi_Categories : list Z;
  ixi_Priority : Z;
  ixi_MinimumSeeders : Z;
  ixi_SeedRatio : float64;
  ixi_SeedTimeMinutes : Z;
  ixi_EnableRss : bool;
  ixi_EnableAutomaticSearch : bool;
  ixi_EnableInteractiveSearch : bool }.

Record IndexersInput := mkIndexersInput {
  ixsi_ProwlarrRef : option ProwlarrRefInput;
  ixsi_Direct : list IndexerInput }.

Record ImportListInput := mkImportListInput {
  ili_Name : string;
  ili_Type : string;
  ili_Enabled : bool;
  ili_EnableAuto : bool;
  ili_SearchOnAdd : bool;
  ili_QualityProfileName : string;
  ili_RootFolderPath : string;
  ili_Monitor : string;
  ili_MinimumAvailability : string;
  ili_SeriesType : string;
  ili_SeasonFolder : bool;
  ili_ShouldMonitor : string;
  ili_Settings : gmap string string }.

Record MediaManagementInput := mkMediaManagementInput {
  mmi_RecycleBin : string;
  mmi_RecycleBinCleanupDays : Z;
  mmi_SetPermissions : bool;
  mmi_ChmodFolder : string;
  mmi_ChownGroup : string;
  mmi_DeleteEmptyFolders : bool;
  mmi_CreateEmptyFolders : bool;
  mmi_UseHardlinks : bool;
  mmi_WatchLibraryForChanges : option bool;
  mmi_AllowFingerprinting : string }.

Record AuthenticationInput := mkAuthenticationInput {
  aui_Method : string;
  aui_Username : string;
  aui_Password : string;
  aui_AuthenticationRequired : string }.

Record NotificationInput := mkNotificationInput {
  nti_Name : string;
  nti_Implementation : string;
  nti_OnGrab : bool;
  nti_OnDownload : bool;
  nti_OnUpgrade : bool;
  nti_OnRename : bool;
  nti_OnHealthIssue : bool;
  nti_OnHealthRestored : bool;
  nti_OnApplicationUpdate : bool;
  nti_OnManualInteractionRequired : bool;
  nti_IncludeHealthWarnings : bool;
  nti_OnMovieAdded : bool;
  nti_OnMovieDelete : bool;
  nti_OnMovieFileDelete : bool;
  nti_OnMovieFileDeleteForUpgrade : bool;
  nti_OnSeriesAdd : bool;
  nti_OnSeriesDelete : bool;
  nti_OnEpisodeFileDelete : bool;
  nti_OnEpisodeFileDeleteForUpgrade : bool;
  nti_OnReleaseImport : bool;
  nti_OnArtistAdd : bool;
  nti_OnArtistDelete : bool;
  nti_OnAlbumDelete : bool;
  nti_OnTrackRetag : bool;
  nti_OnDownloadFailure : bool;
  nti_OnImportFailure : bool;
  nti_Fields : gmap string any;
  nti_Tags : list string }.

Record CustomFormatSpecInput := mkCustomFormatSpecInput {
  cfsi_Name : string;
  cfsi_Type : string;
  cfsi_Negate : bool;
  cfsi_Required : bool;
  cfsi_Value : string }.

Record CustomFormatInput := mkCustomFormatInput {
  cfi_Name : string;
  cfi_IncludeWhenRenaming : bool;
  cfi_Score : Z;
  cfi_Specifications : list CustomFormatSpecInput }.

Record DelayProfileInput := mkDelayProfileInput {
  dpi_Name : string;
  dpi_PreferredProtocol : string;
  dpi_UsenetDelay : Z;
  dpi_TorrentDelay : Z;
  dpi_EnableUsenet : bool;
  dpi_EnableTorrent : bool;
  dpi_BypassIfHighestQuality : bool;
  dpi_BypassIfAboveCustomFormatScore : bool;
  dpi_MinimumCustomFormatScore : Z;
  dpi_Tags : list string;
  dpi_Order : Z }.

Record MetadataProfileInput := mkMetadataProfileInput {
  mpi_Name : string;
  mpi_MinPopularity : Z;
  mpi_SkipMissingDate : bool;
  mpi_SkipMissingIsbn : bool;
  mpi_SkipPartsAndSets : bool;
  mpi_SkipSeriesSecondary : bool;
  mpi_AllowedLanguages : list string }.

Record BookQualityInput := mkBookQualityInput {
  bqi_ProfileName : string;
  bqi_UpgradeAllowed : bool;
  bqi_CutoffFormat : string;
  bqi_AllowedFormats : list string }.

Record CompileInput := mkCompileInput {
  ci_App : string;
  ci_ConfigName : string;
  ci_Namespace : string;
  ci_URL : string;
  ci_APIKey : string;
  ci_QualityPreset : string;
  ci_QualityOverrides : option QualityOverrides;
  ci_NamingPreset : string;
  ci_DownloadClients : list DownloadClientInput;
  ci_RemotePathMappings : list RemotePathMappingInput;
  ci_Indexers : option IndexersInput;
  ci_RootFolders : list string;
  ci_ImportLists : list ImportListInput;
  ci_MediaManagement : option MediaManagementInput;
  ci_Authentication : option AuthenticationInput;
  ci_Notifications : list NotificationInput;
  ci_CustomFormats : list CustomFormatInput;
  ci_DelayProfiles : list DelayProfileInput;
  ci_MetadataProfile : option MetadataProfileInput;
  ci_BookQuality : option BookQualityInput;
  ci_Capabilities : option Capabilities;
  ci_ResolvedSecrets : gmap string string }.

(** ** Names of managed resources *)

(** [fmt.Sprintf("nebularr-%s-%s", configName, name)]. *)
Definition managedName (configName name : string) : string :=
  ("nebularr-" +:+ configName +:+ "-" +:+ name)%string.

(** ** prune.go: implementation names *)

Definition inferProtocol (impl : string) : string :=
  switch impl [
    (["qbittorrent"; "QBittorrent"; "transmission"; "Transmission";
      "deluge"; "Deluge"; "rtorrent"; "RTorrent"; "Torznab"], ProtocolTorrent);
    (["sabnzbd"; "Sabnzbd"; "nzbget"; "NzbGet"; "Newznab"], ProtocolUsenet)]
    "".

Definition normalizeImplementation (impl : string) : string :=
  switch impl [
    (["qbittorrent"], "QBittorrent");
    (["transmission"], "Transmission");
    (["deluge"], "Deluge");
    (["rtorrent"], "RTorrent");
    (["sabnzbd"], "Sabnzbd");
    (["nzbget"], "NzbGet")]
    impl.

(** ** resources.go *)

Definition compileDownloadClient (configName : string) (dc : DownloadClientInput)
    : DownloadClientIR := {|
  dc_ID := 0;
  dc_Name := managedName configName (dci_Name dc);
  dc_Protocol := inferProtocol (dci_Implementation dc);
  dc_Implementation := dci_Implementation dc;
  dc_Enable := true;
  dc_Priority := dci_Priority dc;
  dc_RemoveCompletedDownloads := dci_RemoveCompletedDownloads dc;
  dc_RemoveFailedDownloads := dci_RemoveFailedDownloads dc;
  dc_Host := dci_Host dc;
  dc_Port := dci_Port dc;
  dc_UseTLS := dci_UseTLS dc;
  dc_Username := dci_Username dc;
  dc_Password := dci_Password dc;
  dc_Category := dci_Category dc;
  dc_Directory := "" |}.

Definition compileDownloadClients (clients : list DownloadClientInput) (configName : string)
    : list DownloadClientIR := compileDownloadClient configName <$> clients.

Definition compileRemotePathMappings (mappings : list RemotePathMappingInput)
    : list RemotePathMappingIR :=
  (λ m, {|
    rpm_ID := 0;
    rpm_Host := rpmi_Host m;
    rpm_RemotePath := rpmi_RemotePath m;
    rpm_LocalPath := rpmi_LocalPath m |}) <$> mappings.

Definition compileIndexer (configName : string) (idx : IndexerInput) : IndexerIR := {|
  idx_ID := 0;
  idx_Name := managedName configName (ixi_Name idx);
  idx_Protocol := ixi_Protocol idx;
  idx_Implementation := ixi_Implementation idx;
  idx_Enable := true;
  idx_Priority := ixi_Priority idx;
  idx_URL := ixi_URL idx;
  idx_APIKey := ixi_APIKey idx;
  idx_Categories := ixi_Categories idx;
  idx_MinimumSeeders := ixi_MinimumSeeders idx;
  idx_SeedRatio := ixi_SeedRatio idx;
  idx_SeedTimeMinutes := ixi_SeedTimeMinutes idx;
  idx_EnableRss := ixi_EnableRss idx;
  idx_EnableAutomaticSearch := ixi_EnableAutomaticSearch idx;
  idx_EnableInteractiveSearch := ixi_EnableInteractiveSearch idx |}.

Definition compileIndexers (input : option IndexersInput) (configName : string)
    : option IndexersIR :=
  match input with
  | None => None
  | Some input => Some {|
      idxs_ProwlarrRef :=
        match ixsi_ProwlarrRef input with
        | None => None
        | Some r => Some {|
            pref_ConfigName := pri_ConfigName r;
            pref_AutoRegister := pri_AutoRegister r;
            pref_Include := pri_Include r;
            pref_Exclude := pri_Exclude r |}
        end;
      idxs_Direct := compileIndexer configName <$> ixsi_Direct input |}
  end.

Definition bookTier (format : string) : BookQualityTierIR := {|
  bt_Name := format;
  bt_Formats := [format];
  bt_Allowed := true |}.

(** The loop appends a tier per format and overwrites the cutoff at every
    format equal to the configured one. *)
Definition compileBookQuality (input : option BookQualityInput) (profileName : string)
    : option BookQualityIR :=
  match input with
  | None => None
  | Some input =>
      let st := foldl (λ (st : list BookQualityTierIR * BookQualityTierIR) format,
          let tier := bookTier format in
          (st.1 ++ [tier], if String.eqb format (bqi_CutoffFormat input) then tier else st.2))
        ([], zeroBookQualityTierIR) (bqi_AllowedFormats input) in
      Some {|
        bq_ProfileName := profileName;
        bq_UpgradeAllowed := bqi_UpgradeAllowed input;
        bq_Cutoff := st.2;
        bq_Tiers := st.1 |}
  end.

(** The loop over the languages, [i] being the loop index. *)
Fixpoint appendLanguages (i : Z) (acc : string) (langs : list string) : string :=
  match langs with
  | [] => acc
  | lang :: langs' =>
      appendLanguages (i + 1) ((if (0 <? i)%Z then acc +:+ "," else acc) +:+ lang)%string langs'
  end.

Definition compileMetadataProfile (input : option MetadataProfileInput) (profileName : string)
    : option MetadataProfileIR :=
  match input with
  | None => None
  | Some input => Some {|
      mp_ID := None;
      mp_Name := if String.eqb (mpi_Name input) "" then profileName
                 else ("nebularr-" +:+ mpi_Name input)%string;
      mp_MinPopularity := float64_of_int (mpi_MinPopularity input);
      mp_SkipMissingDate := mpi_SkipMissingDate input;
      mp_SkipMissingIsbn := mpi_SkipMissingIsbn input;
      mp_SkipPartsAndSets := mpi_SkipPartsAndSets input;
      mp_SkipSeriesSecondary := mpi_SkipSeriesSecondary input;
      mp_AllowedLanguages := appendLanguages 0 "" (mpi_AllowedLanguages input) |}
  end.

(** ** features.go *)

Definition compileImportListsToIR (lists : list ImportListInput) : list ImportListIR :=
  (λ list, {|
    il_Name := ili_Name list;
    il_Type := ili_Type list;
    il_Enabled := ili_Enabled list;
    il_EnableAuto := ili_EnableAuto list;
    il_SearchOnAdd := ili_SearchOnAdd list;
    il_QualityProfileID := 0;
    il_QualityProfileName := ili_QualityProfileName list;
    il_RootFolderPath := ili_RootFolderPath list;
    il_Monitor := ili_Monitor list;
    il_MinimumAvailability := ili_MinimumAvailability list;
    il_SeriesType := ili_SeriesType list;
    il_SeasonFolder := ili_SeasonFolder list;
    il_ShouldMonitor := ili_ShouldMonitor list;
    il_Settings := ili_Settings list |}) <$> lists.

Definition compileMediaManagementToIR (input : option MediaManagementInput)
    : option MediaManagementIR :=
  (λ input, {|
    mm_RecycleBin := mmi_RecycleBin input;
    mm_RecycleBinCleanupDays := mmi_RecycleBinCleanupDays input;
    mm_SetPermissions := mmi_SetPermissions input;
    mm_ChmodFolder := mmi_ChmodFolder input;
    mm_ChownGroup := mmi_ChownGroup input;
    mm_DeleteEmptyFolders := mmi_DeleteEmptyFolders input;
    mm_CreateEmptyFolders := mmi_CreateEmptyFolders input;
    mm_UseHardlinks := mmi_UseHardlinks input;
    mm_WatchLibraryForChanges := mmi_WatchLibraryForChanges input;
    mm_AllowFingerprinting := mmi_AllowFingerprinting input |}) <$> input.

Definition compileAuthenticationToIR (input : option AuthenticationInput)
    : option AuthenticationIR :=
  (λ input, {|
    auth_Method := aui_Method input;
    auth_Username := aui_Username input;
    auth_Password := aui_Password input;
    auth_AuthenticationRequired := aui_AuthenticationRequired input |}) <$> input.

(** The tag names of the input have no counterpart in the result. *)
Definition compileNotificationToIR (configName : string) (n : NotificationInput)
    : NotificationIR := {|
  nt_ID := 0;
  nt_Name := managedName configName (nti_Name n);
  nt_Implementation := nti_Implementation n;
  nt_ConfigContract := (nti_Implementation n +:+ "Settings")%string;
  nt_Enabled := true;
  nt_OnGrab := nti_OnGrab n;
  nt_OnDownload := nti_OnDownload n;
  nt_OnUpgrade := nti_OnUpgrade n;
  nt_OnRename := nti_OnRename n;
  nt_OnHealthIssue := nti_OnHealthIssue n;
  nt_OnHealthRestored := nti_OnHealthRestored n;
  nt_OnApplicationUpdate := nti_OnApplicationUpdate n;
  nt_OnManualInteractionRequired := nti_OnManualInteractionRequired n;
  nt_IncludeHealthWarnings := nti_IncludeHealthWarnings n;
  nt_OnMovieAdded := nti_OnMovieAdded n;
  nt_OnMovieDelete := nti_OnMovieDelete n;
  nt_OnMovieFileDelete := nti_OnMovieFileDelete n;
  nt_OnMovieFileDeleteForUpgrade := nti_OnMovieFileDeleteForUpgrade n;
  nt_OnSeriesAdd := nti_OnSeriesAdd n;
  nt_OnSeriesDelete := nti_OnSeriesDelete n;
  nt_OnEpisodeFileDelete := nti_OnEpisodeFileDelete n;
  nt_OnEpisodeFileDeleteForUpgrade := nti_OnEpisodeFileDeleteForUpgrade n;
  nt_OnReleaseImport := nti_OnReleaseImport n;
  nt_OnArtistAdd := nti_OnArtistAdd n;
  nt_OnArtistDelete := nti_OnArtistDelete n;
  nt_OnAlbumDelete := nti_OnAlbumDelete n;
  nt_OnTrackRetag := nti_OnTrackRetag n;
  nt_OnDownloadFailure := nti_OnDownloadFailure n;
  nt_OnImportFailure := nti_OnImportFailure n;
  nt_Fields := nti_Fields n;
  nt_Tags := [] |}.

Definition compileNotificationsToIR (notifications : list NotificationInput) (configName : string)
    : list NotificationIR := compileNotificationToIR configName <$> notifications.

Definition compileFormatSpec (spec : CustomFormatSpecInput) : FormatSpecIR := {|
  fs_Type := cfsi_Type spec;
  fs_Name := cfsi_Name spec;
  fs_Negate := cfsi_Negate spec;
  fs_Required := cfsi_Required spec;
  fs_Value := cfsi_Value spec |}.

Definition compileCustomFormatsToIR (formats : list CustomFormatInput) (configName : string)
    : list CustomFormatIR :=
  (λ cf, {|
    cf_ID := 0;
    cf_Name := managedName configName (cfi_Name cf);
    cf_IncludeWhenRenaming := cfi_IncludeWhenRenaming cf;
    cf_Specifications := compileFormatSpec <$> cfi_Specifications cf |}) <$> formats.

(** Only formats with a non-zero score are entered; a later one of the same
    name overwrites. *)
Definition compileFormatScores (formats : list CustomFormatInput) (configName : string)
    : gmap string Z :=
  foldl (λ (scores : gmap string Z) cf,
    if negb (cfi_Score cf =? 0) then <[managedName configName (cfi_Name cf) := cfi_Score cf]> scores
    else scores) ∅ formats.

Definition compileDelayProfile (i : nat) (p : DelayProfileInput) : DelayProfileIR := {|
  dp_ID := 0;
  dp_Name := dpi_Name p;
  dp_Order := if dpi_Order p =? 0 then Z.of_nat i + 1 else dpi_Order p;
  dp_PreferredProtocol :=
    if String.eqb (dpi_PreferredProtocol p) "" then ProtocolUsenet else dpi_PreferredProtocol p;
  dp_UsenetDelay := dpi_UsenetDelay p;
  dp_TorrentDelay := dpi_TorrentDelay p;
  dp_EnableUsenet := dpi_EnableUsenet p;
  dp_EnableTorrent := dpi_EnableTorrent p;
  dp_BypassIfHighestQuality := dpi_BypassIfHighestQuality p;
  dp_BypassIfAboveCustomFormatScore := dpi_BypassIfAboveCustomFormatScore p;
  dp_MinimumCustomFormatScore := dpi_MinimumCustomFormatScore p;
  dp_Tags := [];
  dp_TagNames := dpi_Tags p |}.

Definition compileDelayProfilesToIR (profiles : list DelayProfileInput) : list DelayProfileIR :=
  imap compileDelayProfile profiles.

(** ** Assignments to the fields of an [IR] *)

Definition ir_set_Quality (v : option QualityIR) (i : IR) : IR :=
  let '(mkIR a b c d e _ g h j k l m n o p q r s t u w) := i in
  mkIR a b c d e v g h j k l m n o p q r s t u w.
Definition ir_set_DownloadClients (v : list DownloadClientIR) (i : IR) : IR :=
  let '(mkIR a b c d e f _ h j k l m n o p q r s t u w) := i in
  mkIR a b c d e f v h j k l m n o p q r s t u w.
Definition ir_set_Indexers (v : option IndexersIR) (i : IR) : IR :=
  let '(mkIR a b c d e f g h _ k l m n o p q r s t u w) := i in
  mkIR a b c d e f g h v k l m n o p q r s t u w.
Definition ir_set_Unrealized (v : list UnrealizedFeature) (i : IR) : IR :=
  let '(mkIR a b c d e f g h j k l m n o p q r s t u _) := i in
  mkIR a b c d e f g h j k l m n o p q r s t u v.
Definition ir_set_SourceHash (v : string) (i : IR) : IR :=
  let '(mkIR a b _ d e f g h j k l m n o p q r s t u w) := i in
  mkIR a b v d e f g h j k l m n o p q r s t u w.

Definition q_set_Video (v : option VideoQualityIR) (q : QualityIR) : QualityIR :=
  mkQualityIR v (q_Audio q) (q_Book q).
Definition q_set_Audio (v : option AudioQualityIR) (q : QualityIR) : QualityIR :=
  mkQualityIR (q_Video q) v (q_Book q).
Definition vq_set_Tiers (v : list VideoQualityTierIR) (q : VideoQualityIR) : VideoQualityIR :=
  mkVideoQualityIR (vq_ProfileName q) (vq_UpgradeAllowed q) (vq_Cutoff q) v (vq_CustomFormats q)
    (vq_FormatScores q) (vq_MinimumCustomFormatScore q) (vq_UpgradeUntilCustomFormatScore q).
Definition vq_set_FormatScores (v : gmap string Z) (q : VideoQualityIR) : VideoQualityIR :=
  mkVideoQualityIR (vq_ProfileName q) (vq_UpgradeAllowed q) (vq_Cutoff q) (vq_Tiers q)
    (vq_CustomFormats q) v (vq_MinimumCustomFormatScore q) (vq_UpgradeUntilCustomFormatScore q).
Definition aq_set_FormatScores (v : gmap string Z) (q : AudioQualityIR) : AudioQualityIR :=
  mkAudioQualityIR (aq_ProfileName q) (aq_UpgradeAllowed q) (aq_Cutoff q) (aq_Tiers q)
    (aq_ReleaseProfile q) v (aq_MinimumCustomFormatScore q) (aq_UpgradeUntilCustomFormatScore q).

(** ** prune.go *)

Definition notSupported (kind what : string) : UnrealizedFeature := {|
  uf_Feature := (kind +:+ ":" +:+ what)%string;
  uf_Reason := "not supported by service" |}.

(** The loop of each of the three blocks of [pruneUnsupported]: items are kept
    in order when supported and reported otherwise. *)
Definition pruneLoop {A} (supported : A → bool) (feature : A → UnrealizedFeature) (items : list A)
    (unrealized : list UnrealizedFeature) : list A * list UnrealizedFeature :=
  foldl (λ st x, if supported x then (st.1 ++ [x], st.2) else (st.1, st.2 ++ [feature x]))
    ([], unrealized) items.

Definition pruneVideoTiers (caps : Capabilities) (st : IR * list UnrealizedFeature)
    : IR * list UnrealizedFeature :=
  let '(ir, unrealized) := st in
  match ir_Quality ir with
  | Some q =>
      match q_Video q with
      | Some v =>
          let supportedRes := setOf (caps_Resolutions caps) in
          let '(tiers, unrealized) :=
            pruneLoop (λ tier, vt_Resolution tier ∈? supportedRes)
              (λ tier, notSupported "resolution" (vt_Resolution tier)) (vq_Tiers v) unrealized in
          (ir_set_Quality (Some (q_set_Video (Some (vq_set_Tiers tiers v)) q)) ir, unrealized)
      | None => st
      end
  | None => st
  end.

Definition pruneDownloadClients (caps : Capabilities) (st : IR * list UnrealizedFeature)
    : IR * list UnrealizedFeature :=
  let '(ir, unrealized) := st in
  match caps_DownloadClientTypes caps with
  | [] => st
  | types =>
      let supportedTypes := setOf types in
      let '(clients, unrealized) :=
        pruneLoop (λ dc, normalizeImplementation (dc_Implementation dc) ∈? supportedTypes)
          (λ dc, notSupported "downloadclient" (dc_Implementation dc))
          (ir_DownloadClients ir) unrealized in
      (ir_set_DownloadClients clients ir, unrealized)
  end.

Definition pruneIndexers (caps : Capabilities) (st : IR * list UnrealizedFeature)
    : IR * list UnrealizedFeature :=
  let '(ir, unrealized) := st in
  match ir_Indexers ir, caps_IndexerTypes caps with
  | Some ixs, (_ :: _) as types =>
      let supportedTypes := setOf types in
      let '(direct, unrealized) :=
        pruneLoop (λ idx, idx_Implementation idx ∈? supportedTypes)
          (λ idx, notSupported "indexer" (idx_Implementation idx)) (idxs_Direct ixs) unrealized in
      (ir_set_Indexers (Some (mkIndexersIR (idxs_ProwlarrRef ixs) direct)) ir, unrealized)
  | _, _ => st
  end.

(** [pruneUnsupported] mutates the [IR] it is given and returns what it
    removed; both are the result here. *)
Definition pruneUnsupported (ir : IR) (caps : Capabilities) : IR * list UnrealizedFeature :=
  pruneIndexers caps (pruneDownloadClients caps (pruneVideoTiers caps (ir, []))).

(** ** compiler.go *)

(** The anonymous struct [hashInput] marshals. *)
Record Hashable := mkHashable {
  hb_App : string;
  hb_ConfigName : string;
  hb_QualityPreset : string;
  hb_QualityOverrides : option QualityOverrides;
  hb_NamingPreset : string;
  hb_DownloadClients : list DownloadClientInput;
  hb_RemotePathMappings : list RemotePathMappingInput;
  hb_Indexers : option IndexersInput;
  hb_RootFolders : list string;
  hb_Notifications : list NotificationInput;
  hb_CustomFormats : list CustomFormatInput;
  hb_DelayProfiles : list DelayProfileInput }.

Definition hashable (input : CompileInput) : Hashable := {|
  hb_App := ci_App input;
  hb_ConfigName := ci_ConfigName input;
  hb_QualityPreset := ci_QualityPreset input;
  hb_QualityOverrides := ci_QualityOverrides input;
  hb_NamingPreset := ci_NamingPreset input;
  hb_DownloadClients := ci_DownloadClients input;
  hb_RemotePathMappings := ci_RemotePathMappings input;
  hb_Indexers := ci_Indexers input;
  hb_RootFolders := ci_RootFolders input;
  hb_Notifications := ci_Notifications input;
  hb_CustomFormats := ci_CustomFormats input;
  hb_DelayProfiles := ci_DelayProfiles input |}.

(** The JSON encoding of the struct followed by the first eight bytes of its
    SHA-256, in hex: a function of the struct, kept abstract. *)
Class Digest := digest : Hashable → string.

Definition hashInput `{Digest} (input : CompileInput) : string := digest (hashable input).

Definition isOneOf (app : string) (apps : list string) : bool := existsb (String.eqb app) apps.

(** Step 2 of [Compile]: the quality part and the metadata profiles. *)
Definition compileQuality (input : CompileInput) (profileName : string)
    : option QualityIR * list MetadataProfileIR :=
  if isOneOf (ci_App input) [AppRadarr; AppSonarr] then
    let presetName := if String.eqb (ci_QualityPreset input) "" then DefaultVideoPreset
                      else ci_QualityPreset input in
    (Some (mkQualityIR
       (Some (ExpandVideoPreset presetName (ci_QualityOverrides input) profileName)) None None), [])
  else if String.eqb (ci_App input) AppLidarr then
    let presetName := if String.eqb (ci_QualityPreset input) "" then DefaultAudioPreset
                      else ci_QualityPreset input in
    (Some (mkQualityIR None
       (Some (ExpandAudioPreset presetName (ci_QualityOverrides input) profileName)) None), [])
  else if String.eqb (ci_App input) AppReadarr then
    (match ci_BookQuality input with
     | Some b => Some (mkQualityIR None None (compileBookQuality (Some b) profileName))
     | None => None
     end,
     match ci_MetadataProfile input with
     | Some m => option_list (compileMetadataProfile (Some m) profileName)
     | None => []
     end)
  else (None, []).

(** Step 3 of [Compile]. *)
Definition compileNaming (input : CompileInput) : option NamingIR :=
  let namingPreset := if String.eqb (ci_NamingPreset input) "" then DefaultNamingPreset
                      else ci_NamingPreset input in
  switch (ci_App input) [
    ([AppRadarr], Some (mkNamingIR (Some (ExpandRadarrNaming namingPreset)) None None));
    ([AppSonarr], Some (mkNamingIR None (Some (ExpandSonarrNaming namingPreset)) None));
    ([AppLidarr], Some (mkNamingIR None None (Some (ExpandLidarrNaming namingPreset))))]
    None.

(** The apps whose custom formats and delay profiles are compiled. *)
Definition videoOrAudioApp (app : string) : bool := isOneOf app [AppRadarr; AppSonarr; AppLidarr].

(** The second half of step 12: the scores of the configured formats replace
    those of the preset. *)
Definition populateScores (input : CompileInput) (q : option QualityIR) : option QualityIR :=
  match ci_CustomFormats input with
  | [] => q
  | formats =>
      let scores := compileFormatScores formats (ci_ConfigName input) in
      (λ q, mkQualityIR (vq_set_FormatScores scores <$> q_Video q)
                        (aq_set_FormatScores scores <$> q_Audio q) (q_Book q)) <$> q
  end.

(** Steps 1 to 13. *)
Definition compileUnpruned (now : Z) (input : CompileInput) : IR :=
  let profileName := ("nebularr-" +:+ ci_ConfigName input)%string in
  let '(quality, metadataProfiles) := compileQuality input profileName in
  let isVA := videoOrAudioApp (ci_App input) in {|
  ir_Version := IRVersion;
  ir_GeneratedAt := now;
  ir_SourceHash := "";
  ir_App := ci_App input;
  ir_Connection := Some (mkConnectionIR (ci_URL input) (ci_APIKey input) false);
  ir_Quality := if isVA then populateScores input quality else quality;
  ir_DownloadClients := compileDownloadClients (ci_DownloadClients input) (ci_ConfigName input);
  ir_RemotePathMappings := compileRemotePathMappings (ci_RemotePathMappings input);
  ir_Indexers := compileIndexers (ci_Indexers input) (ci_ConfigName input);
  ir_Naming := compileNaming input;
  ir_RootFolders := (λ path, mkRootFolderIR path "" "") <$> ci_RootFolders input;
  ir_ImportLists := compileImportListsToIR (ci_ImportLists input);
  ir_Notifications := compileNotificationsToIR (ci_Notifications input) (ci_ConfigName input);
  ir_CustomFormats :=
    if isVA then compileCustomFormatsToIR (ci_CustomFormats input) (ci_ConfigName input) else [];
  ir_DelayProfiles := if isVA then compileDelayProfilesToIR (ci_DelayProfiles input) else [];
  ir_ReleaseProfiles := [];
  ir_MetadataProfiles := metadataProfiles;
  ir_MediaManagement := compileMediaManagementToIR (ci_MediaManagement input);
  ir_Authentication := compileAuthenticationToIR (ci_Authentication input);
  ir_Prowlarr := None;
  ir_Unrealized := [] |}.

(** Steps 14 and 15. *)
Definition Compile `{Digest} (now : Z) (input : CompileInput) : IR :=
  let ir := compileUnpruned now input in
  let ir := match ci_Capabilities input with
            | Some caps => let '(ir, unrealized) := pruneUnsupported ir caps in
                           ir_set_Unrealized unrealized ir
            | None => ir
            end in
  ir_set_SourceHash (hashInput input) ir.

(** ** Theorems: pruning *)

Lemma pruneLoop_spec {A} (supported : A → bool) feature (items : list A) unrealized :
  pruneLoop supported feature items unrealized =
  (filter (λ x, supported x = true) items,
   unrealized ++ (feature <$> filter (λ x, supported x = false) items)).
Proof.
  unfold pruneLoop.
  enough (∀ kept, foldl (λ st x, if supported x then (st.1 ++ [x], st.2)
                                 else (st.1, st.2 ++ [feature x])) (kept, unrealized) items =
    (kept ++ filter (λ x, supported x = true) items,
     unrealized ++ (feature <$> filter (λ x, supported x = false) items))) as Hgen by apply Hgen.
  revert unrealized. induction items as [|x xs IH]; intros un kept; simpl; [by rewrite !app_nil_r|].
  rewrite !filter_cons. destruct (supported x); simpl; rewrite IH; simpl; by rewrite <-?app_assoc.
Qed.

(** What a capability list says of one item. *)
Definition tierSupported (caps : Capabilities) (t : VideoQualityTierIR) : bool :=
  vt_Resolution t ∈? setOf (caps_Resolutions caps).
Definition clientSupported (caps : Capabilities) (dc : DownloadClientIR) : bool :=
  match caps_DownloadClientTypes caps with
  | [] => true
  | types => normalizeImplementation (dc_Implementation dc) ∈? setOf types
  end.
Definition indexerSupported (caps : Capabilities) (idx : IndexerIR) : bool :=
  match caps_IndexerTypes caps with
  | [] => true
  | types => idx_Implementation idx ∈? setOf types
  end.

(** The three prunable lists of an [IR]. *)
Definition videoTiers (i : IR) : list VideoQualityTierIR :=
  from_option vq_Tiers [] (ir_Quality i ≫= q_Video).
Definition directIndexers (i : IR) : list IndexerIR := from_option idxs_Direct [] (ir_Indexers i).

(** The features reported for an [IR]: of the tiers, then the clients, then the indexers. *)
Definition unsupportedFeatures (caps : Capabilities) (i : IR) : list UnrealizedFeature :=
  ((λ t, notSupported "resolution" (vt_Resolution t)) <$>
     filter (λ t, tierSupported caps t = false) (videoTiers i)) ++
  ((λ dc, notSupported "downloadclient" (dc_Implementation dc)) <$>
     filter (λ dc, clientSupported caps dc = false) (ir_DownloadClients i)) ++
  ((λ idx, notSupported "indexer" (idx_Implementation idx)) <$>
     filter (λ idx, indexerSupported caps idx = false) (directIndexers i)).

Lemma filter_true {A} (l : list A) : filter (λ _, true = true) l = l.
Proof. induction l as [|x l IH]; [done|]. rewrite filter_cons_True by done. by f_equal. Qed.
Lemma filter_false {A} (l : list A) : filter (λ _, true = false) l = [].
Proof. induction l as [|x l IH]; [done|]. by rewrite filter_cons_False. Qed.

Lemma pruneVideoTiers_spec caps i u :
  let '(i', u') := pruneVideoTiers caps (i, u) in
  videoTiers i' = filter (λ t, tierSupported caps t = true) (videoTiers i) ∧
  u' = u ++ ((λ t, notSupported "resolution" (vt_Resolution t)) <$>
               filter (λ t, tierSupported caps t = false) (videoTiers i)) ∧
  ir_DownloadClients i' = ir_DownloadClients i ∧ ir_Indexers i' = ir_Indexers i ∧
  ir_set_Quality (ir_Quality i) i' = i.
Proof.
  unfold pruneVideoTiers, videoTiers.
  destruct i as [? ? ? ? ? q ? ? ? ? ? ? ? ? ? ? ? ? ? ? ?]; simpl.
  destruct q as [[[v|] ? ?]|]; simpl; rewrite ?app_nil_r; [|done..].
  rewrite pruneLoop_spec. simpl. done.
Qed.

Lemma pruneDownloadClients_spec caps i u :
  let '(i', u') := pruneDownloadClients caps (i, u) in
  ir_DownloadClients i' = filter (λ dc, clientSupported caps dc = true) (ir_DownloadClients i) ∧
  u' = u ++ ((λ dc, notSupported "downloadclient" (dc_Implementation dc)) <$>
               filter (λ dc, clientSupported caps dc = false) (ir_DownloadClients i)) ∧
  ir_set_DownloadClients (ir_DownloadClients i) i' = i.
Proof.
  unfold pruneDownloadClients, clientSupported.
  destruct i as [? ? ? ? ? ? dcs ? ? ? ? ? ? ? ? ? ? ? ? ? ?]; simpl.
  destruct (caps_DownloadClientTypes caps) as [|ty tys]; simpl.
  - by rewrite filter_true, filter_false, app_nil_r.
  - rewrite pruneLoop_spec. done.
Qed.

Lemma pruneIndexers_spec caps i u :
  let '(i', u') := pruneIndexers caps (i, u) in
  directIndexers i' = filter (λ idx, indexerSupported caps idx = true) (directIndexers i) ∧
  u' = u ++ ((λ idx, notSupported "indexer" (idx_Implementation idx)) <$>
               filter (λ idx, indexerSupported caps idx = false) (directIndexers i)) ∧
  idxs_ProwlarrRef <$> ir_Indexers i' = idxs_ProwlarrRef <$> ir_Indexers i ∧
  ir_set_Indexers (ir_Indexers i) i' = i.
Proof.
  unfold pruneIndexers, indexerSupported, directIndexers.
  destruct i as [? ? ? ? ? ? ? ? ixs ? ? ? ? ? ? ? ? ? ? ? ?]; simpl.
  destruct ixs as [[r d]|]; simpl; [|by destruct (caps_IndexerTypes caps); rewrite app_nil_r].
  destruct (caps_IndexerTypes caps) as [|ty tys]; simpl.
  - by rewrite filter_true, filter_false, app_nil_r.
  - rewrite pruneLoop_spec. done.
Qed.

Lemma pruneUnsupported_spec i caps :
  let '(i', unrealized) := pruneUnsupported i caps in
  videoTiers i' = filter (λ t, tierSupported caps t = true) (videoTiers i) ∧
  ir_DownloadClients i' = filter (λ dc, clientSupported caps dc = true) (ir_DownloadClients i) ∧
  directIndexers i' = filter (λ idx, indexerSupported caps idx = true) (directIndexers i) ∧
  unrealized = unsupportedFeatures caps i ∧
  ir_set_Quality (ir_Quality i) (ir_set_DownloadClients (ir_DownloadClients i)
    (ir_set_Indexers (ir_Indexers i) i')) = i.
Proof.
  unfold pruneUnsupported.
  pose proof (pruneVideoTiers_spec caps i []) as H1.
  destruct (pruneVideoTiers caps (i, [])) as [i1 u1].
  pose proof (pruneDownloadClients_spec caps i1 u1) as H2.
  destruct (pruneDownloadClients caps (i1, u1)) as [i2 u2].
  pose proof (pruneIndexers_spec caps i2 u2) as H3.
  destruct (pruneIndexers caps (i2, u2)) as [i3 u3].
  destruct H1 as (HT & -> & HD & HI & HS), H2 as (HD2 & -> & HS2), H3 as (HI3 & -> & _ & HS3).
  unfold unsupportedFeatures, videoTiers, directIndexers in *.
  unfold ir_set_Quality, ir_set_DownloadClients, ir_set_Indexers in *.
  destruct i1, i2, i3, i; simpl in *.
  injection HS3; injection HS2; injection HS; intros; subst. split_and!; try done. by rewrite <-?app_assoc.
Qed.

Lemma filter_all {A} (P : A → Prop) `{∀ x, Decision (P x)} (l : list A) :
  (∀ x, x ∈ l → P x) → filter P l = l.
Proof.
  induction l as [|x l IH]; [done|]. intros Hall.
  rewrite filter_cons_True by (apply Hall; left). f_equal. apply IH. intros y Hy. apply Hall. by right.
Qed.

Lemma filter_none {A} (P : A → Prop) `{∀ x, Decision (P x)} (l : list A) :
  (∀ x, x ∈ l → ¬ P x) → filter P l = [].
Proof.
  induction l as [|x l IH]; [done|]. intros Hall.
  rewrite filter_cons_False by (apply Hall; left). apply IH. intros y Hy. apply Hall. by right.
Qed.

(** A loop that finds only supported items changes nothing. *)
Lemma pruneLoop_noop {A} (supported : A → bool) feature (items : list A) u :
  (∀ x, x ∈ items → supported x = true) →
  pruneLoop supported feature items u = (items, u).
Proof.
  intros Hall. rewrite pruneLoop_spec, filter_all, filter_none; [|intros x Hx; by rewrite Hall|done].
  by rewrite app_nil_r.
Qed.

Lemma pruneVideoTiers_noop caps i u :
  (∀ t, t ∈ videoTiers i → tierSupported caps t = true) → pruneVideoTiers caps (i, u) = (i, u).
Proof.
  unfold pruneVideoTiers, videoTiers. intros Hall.
  destruct i as [? ? ? ? ? q ? ? ? ? ? ? ? ? ? ? ? ? ? ? ?]; simpl in *.
  destruct q as [[[[]|] ? ?]|]; simpl in *; [|done..]. by rewrite pruneLoop_noop.
Qed.

Lemma pruneDownloadClients_noop caps i u :
  (∀ dc, dc ∈ ir_DownloadClients i → clientSupported caps dc = true) →
  pruneDownloadClients caps (i, u) = (i, u).
Proof.
  unfold pruneDownloadClients, clientSupported. intros Hall. destruct i; simpl in *.
  destruct (caps_DownloadClientTypes caps); [done|]. by rewrite pruneLoop_noop.
Qed.

Lemma pruneIndexers_noop caps i u :
  (∀ idx, idx ∈ directIndexers i → indexerSupported caps idx = true) →
  pruneIndexers caps (i, u) = (i, u).
Proof.
  unfold pruneIndexers, indexerSupported, directIndexers. intros Hall.
  destruct i as [? ? ? ? ? ? ? ? ixs ? ? ? ? ? ? ? ? ? ? ? ?]; simpl in *.
  destruct ixs as [[]|]; [|done]. destruct (caps_IndexerTypes caps); [done|].
  simpl in *. by rewrite pruneLoop_noop.
Qed.

(** pruning partitions the three prunable lists of the representation: what
    stays is exactly what the service supports, in its original order; what goes
    is reported, item by item and in order, as an unrealized feature; an absent
    list of client or indexer types prunes nothing of that kind; and nothing
    else of the representation changes. *)
Theorem pruneUnsupported_partition i caps :
  let '(i', unrealized) := pruneUnsupported i caps in
  videoTiers i' = filter (λ t, tierSupported caps t = true) (videoTiers i) ∧
  ir_DownloadClients i' = filter (λ dc, clientSupported caps dc = true) (ir_DownloadClients i) ∧
  directIndexers i' = filter (λ idx, indexerSupported caps idx = true) (directIndexers i) ∧
  unrealized = unsupportedFeatures caps i ∧
  ir_set_Quality (ir_Quality i) (ir_set_DownloadClients (ir_DownloadClients i)
    (ir_set_Indexers (ir_Indexers i) i')) = i.
Proof. apply pruneUnsupported_spec. Qed.

(** pruning is idempotent: what is left after pruning for a service is
    supported by it, so a second pass with the same capabilities changes
    nothing and reports nothing. *)
Theorem pruneUnsupported_idempotent i caps :
  let i' := (pruneUnsupported i caps).1 in pruneUnsupported i' caps = (i', []).
Proof.
  pose proof (pruneUnsupported_spec i caps) as H. destruct (pruneUnsupported i caps) as [i' u].
  destruct H as (HT & HD & HI & _). cbn [fst]. unfold pruneUnsupported.
  rewrite pruneVideoTiers_noop, pruneDownloadClients_noop, pruneIndexers_noop; [done|..].
  all: intros x Hx; rewrite ?HT, ?HD, ?HI in Hx; by apply list_elem_of_filter in Hx as [??].
Qed.

(** ** Theorems: names, scores, orders *)

#[global] Instance managedName_inj cfg : Inj (=) (=) (managedName cfg).
Proof. intros x y H. unfold managedName in H. by do 3 apply append_inj_r in H. Qed.

Lemma NoDup_managed {A B} (f : A → B) (nameA : A → string) (nameB : B → string) cfg l :
  (∀ a, nameB (f a) = managedName cfg (nameA a)) →
  NoDup (nameA <$> l) → NoDup (nameB <$> (f <$> l)).
Proof.
  intros Hf Hnd. rewrite <-list_fmap_compose.
  rewrite (list_fmap_ext _ (managedName cfg ∘ nameA)) by (intros ? a _; apply Hf).
  rewrite list_fmap_compose. by apply (NoDup_fmap_2 (managedName cfg)).
Qed.

(** the names given to managed resources keep the names of one
    configuration apart: distinct clients, indexers, notifications and custom
    formats of a specification stay distinct.  The scheme is not injective
    across configurations: the configurations [a] and [a-b] can produce the same
    name. *)
Theorem managed_names_distinct cfg dcs ixs ns cfs :
  (NoDup (dci_Name <$> dcs) → NoDup (dc_Name <$> compileDownloadClients dcs cfg)) ∧
  (NoDup (ixi_Name <$> ixs) →
   NoDup (idx_Name <$> from_option idxs_Direct [] (compileIndexers (Some (mkIndexersInput None ixs)) cfg))) ∧
  (NoDup (nti_Name <$> ns) → NoDup (nt_Name <$> compileNotificationsToIR ns cfg)) ∧
  (NoDup (cfi_Name <$> cfs) → NoDup (cf_Name <$> compileCustomFormatsToIR cfs cfg)) ∧
  managedName "a" "b-c" = managedName "a-b" "c".
Proof. split_and!; try (intros H; by eapply NoDup_managed; [|exact H]); done. Qed.

Definition exampleCustomFormat (name : string) (score : Z) : CustomFormatInput :=
  mkCustomFormatInput name false score [].

Lemma managed_names_distinct_witness :
  let cfs := [exampleCustomFormat "x" 5; exampleCustomFormat "y" 0] in
  NoDup (cfi_Name <$> cfs) ∧ NoDup (cf_Name <$> compileCustomFormatsToIR cfs "cfg").
Proof.
  set (cfs := [exampleCustomFormat "x" 5; exampleCustomFormat "y" 0]).
  assert (NoDup (cfi_Name <$> cfs)) as H by (apply (bool_decide_unpack _); vm_compute; exact I).
  split; [exact H|]. apply (managed_names_distinct "cfg" [] [] [] cfs), H.
Defined.

(** the score of a managed custom format is the last non-zero score that the
    configuration gives to a format of that name; formats whose scores are all
    zero, and names that no format has, are not scored. *)
Theorem compileFormatScores_last formats cfg n :
  compileFormatScores formats cfg !! n =
  cfi_Score <$> last (filter (λ cf, managedName cfg (cfi_Name cf) = n ∧ cfi_Score cf ≠ 0) formats).
Proof.
  unfold compileFormatScores. induction formats as [|cf cfs IH] using rev_ind; [done|].
  rewrite foldl_app, filter_app, filter_cons, filter_nil. simpl.
  destruct (Z.eqb_spec (cfi_Score cf) 0) as [Hz|Hz]; simpl.
  - rewrite decide_False by (intros [_ ?]; done). by rewrite app_nil_r.
  - destruct (decide (managedName cfg (cfi_Name cf) = n)) as [<-|Hne].
    + rewrite decide_True by done. by rewrite last_snoc, lookup_insert_eq.
    + rewrite decide_False by (intros [? _]; done). by rewrite app_nil_r, lookup_insert_ne.
Qed.

Lemma lookup_compileDelayProfiles profiles i :
  compileDelayProfilesToIR profiles !! i = compileDelayProfile i <$> (profiles !! i).
Proof. apply list_lookup_imap. Qed.

(** delay profiles keep their position: a profile without an explicit order
    (0) gets its one-based index, so when none has one the orders of the result
    are 1, 2, ..., n (distinct, the first being the service's default profile). *)
Theorem compileDelayProfiles_order profiles :
  (∀ p, p ∈ profiles → dpi_Order p = 0) →
  dp_Order <$> compileDelayProfilesToIR profiles = Z.of_nat <$> seq 1 (length profiles) ∧
  NoDup (dp_Order <$> compileDelayProfilesToIR profiles).
Proof.
  intros Hz.
  assert (dp_Order <$> compileDelayProfilesToIR profiles = Z.of_nat <$> seq 1 (length profiles)) as Heq.
  { apply list_eq. intros i. rewrite !list_lookup_fmap, lookup_compileDelayProfiles.
    destruct (profiles !! i) as [p|] eqn:Hi; simpl.
    - rewrite (Hz p) by (by eapply list_elem_of_lookup_2). simpl.
      rewrite lookup_seq_lt by (by eapply lookup_lt_Some). simpl. f_equal. lia.
    - rewrite lookup_seq_ge; [done|]. by apply lookup_ge_None. }
  split; [done|]. rewrite Heq. apply NoDup_fmap; [apply _|]. apply NoDup_seq.
Qed.

Definition exampleDelayProfile (order : Z) : DelayProfileInput :=
  mkDelayProfileInput "d" "" 0 0 true true false false 0 [] order.

Lemma compileDelayProfiles_order_witness :
  let ps := [exampleDelayProfile 0; exampleDelayProfile 0; exampleDelayProfile 0] in
  (∀ p, p ∈ ps → dpi_Order p = 0) ∧ dp_Order <$> compileDelayProfilesToIR ps = [1; 2; 3].
Proof.
  set (ps := [exampleDelayProfile 0; exampleDelayProfile 0; exampleDelayProfile 0]).
  assert (∀ p, p ∈ ps → dpi_Order p = 0) as H
    by (apply Forall_forall; repeat constructor).
  split; [exact H|]. exact (proj1 (compileDelayProfiles_order ps H)).
Defined.

Lemma compileBookQuality_loop cutoff formats st :
  foldl (λ (st : list BookQualityTierIR * BookQualityTierIR) format,
      (st.1 ++ [bookTier format], if String.eqb format cutoff then bookTier format else st.2))
    st formats =
  (st.1 ++ (bookTier <$> formats), if bool_decide (cutoff ∈ formats) then bookTier cutoff else st.2).
Proof.
  revert st. induction formats as [|f fs IH]; intros [ts c]; simpl; [by rewrite app_nil_r|].
  rewrite IH. simpl. rewrite <-app_assoc. f_equal.
  destruct (String.eqb_spec f cutoff) as [->|Hne].
  - rewrite (bool_decide_eq_true_2 (cutoff ∈ cutoff :: fs)) by left. by case_bool_decide.
  - rewrite (bool_decide_ext (cutoff ∈ f :: fs) (cutoff ∈ fs)); [done|].
    rewrite elem_of_cons. naive_solver.
Qed.

(** a book profile has one allowed tier per configured format, in order;
    its cutoff is the tier of the configured cutoff format when that format is
    among them, and the empty tier when it is not. *)
Theorem compileBookQuality_spec input profileName :
  compileBookQuality (Some input) profileName = Some {|
    bq_ProfileName := profileName;
    bq_UpgradeAllowed := bqi_UpgradeAllowed input;
    bq_Cutoff := if bool_decide (bqi_CutoffFormat input ∈ bqi_AllowedFormats input)
                 then bookTier (bqi_CutoffFormat input) else zeroBookQualityTierIR;
    bq_Tiers := bookTier <$> bqi_AllowedFormats input |}.
Proof. unfold compileBookQuality. by rewrite compileBookQuality_loop. Qed.

(** ** Theorems: [Compile] *)

Section compile_theorems.
Context `{Digest}.

Lemma ir_set_SourceHash_prunable h i :
  videoTiers (ir_set_SourceHash h i) = videoTiers i ∧
  ir_DownloadClients (ir_set_SourceHash h i) = ir_DownloadClients i ∧
  directIndexers (ir_set_SourceHash h i) = directIndexers i ∧
  ir_Unrealized (ir_set_SourceHash h i) = ir_Unrealized i.
Proof. by destruct i. Qed.

Lemma ir_set_Unrealized_prunable u i :
  videoTiers (ir_set_Unrealized u i) = videoTiers i ∧
  ir_DownloadClients (ir_set_Unrealized u i) = ir_DownloadClients i ∧
  directIndexers (ir_set_Unrealized u i) = directIndexers i ∧
  ir_Unrealized (ir_set_Unrealized u i) = u.
Proof. by destruct i. Qed.

(** C26: compiling for a service with known capabilities yields a representation
    the service supports: every video tier, download client and direct indexer of
    the result is supported, and everything of the input that is missing from the
    result is named in [Unrealized]; without capabilities nothing is pruned. *)
Theorem Compile_supported now input :
  let ir := Compile now input in
  let full := compileUnpruned now input in
  match ci_Capabilities input with
  | Some caps =>
      (∀ t, t ∈ videoTiers ir ↔ t ∈ videoTiers full ∧ tierSupported caps t = true) ∧
      (∀ dc, dc ∈ ir_DownloadClients ir ↔ dc ∈ ir_DownloadClients full ∧ clientSupported caps dc = true) ∧
      (∀ idx, idx ∈ directIndexers ir ↔ idx ∈ directIndexers full ∧ indexerSupported caps idx = true) ∧
      ir_Unrealized ir = unsupportedFeatures caps full
  | None => videoTiers ir = videoTiers full ∧ ir_DownloadClients ir = ir_DownloadClients full ∧
            directIndexers ir = directIndexers full ∧ ir_Unrealized ir = []
  end.
Proof.
  unfold Compile. set (full := compileUnpruned now input). cbn zeta.
  destruct (ci_Capabilities input) as [caps|].
  - pose proof (pruneUnsupported_spec full caps) as Hp.
    destruct (pruneUnsupported full caps) as [i' u]. destruct Hp as (HT & HD & HI & HU & _).
    destruct (ir_set_SourceHash_prunable (hashInput input) (ir_set_Unrealized u i'))
      as (-> & -> & -> & ->).
    destruct (ir_set_Unrealized_prunable u i') as (-> & -> & -> & ->).
    rewrite HT, HD, HI. split_and!; [..|done]; intros x; rewrite list_elem_of_filter; naive_solver.
  - destruct (ir_set_SourceHash_prunable (hashInput input) full) as (-> & -> & -> & ->).
    split_and!; [done..|]. unfold full, compileUnpruned. by destruct (compileQuality _ _).
Qed.

(** Two inputs that differ only in what the hash leaves out: the connection, the
    book quality and metadata profile, import lists, media management,
    authentication, capabilities and secrets. *)
Definition sameHashable (i1 i2 : CompileInput) : Prop := hashable i1 = hashable i2.

(** the source hash is a function of the hashed part of the input alone: it
    does not depend on the time, the connection, the capabilities, the import
    lists, the media management or the authentication of the configuration.  So
    two configurations whose representations differ in those parts have the same
    hash: it does not detect drift there. *)
Theorem SourceHash_blind now1 now2 i1 i2 :
  sameHashable i1 i2 →
  ir_SourceHash (Compile now1 i1) = ir_SourceHash (Compile now2 i2) ∧
  ∀ auth mm, ∃ i1', sameHashable i1 i1' ∧
    ir_SourceHash (Compile now1 i1') = ir_SourceHash (Compile now1 i1) ∧
    ir_Authentication (compileUnpruned now1 i1') = compileAuthenticationToIR auth ∧
    ir_MediaManagement (compileUnpruned now1 i1') = compileMediaManagementToIR mm.
Proof.
  assert (∀ now i, ir_SourceHash (Compile now i) = digest (hashable i)) as Hh.
  { intros now i. unfold Compile. by destruct (match ci_Capabilities i with Some _ => _ | None => _ end). }
  unfold sameHashable. intros Heq. split; [by rewrite !Hh, Heq|]. intros auth mm.
  destruct i1 as [app cfg nsp url key qp qo np dcs rpms ixs rfs ils mm0 au0 nts cfs dps mp bq caps sec].
  exists (mkCompileInput app cfg nsp url key qp qo np dcs rpms ixs rfs ils mm auth nts cfs dps mp bq caps sec).
  rewrite !Hh. split_and!; [done..| |]; unfold compileUnpruned; by destruct (compileQuality _ _).
Qed.
End compile_theorems.

Definition exampleCompileInput : CompileInput :=
  mkCompileInput AppSonarr "tv" "default" "http://sonarr:8989" "k" "" None "" [] [] None [] [] None
    None [] [] [] None None None ∅.

Lemma SourceHash_blind_witness :
  let d : Digest := λ h, hb_ConfigName h in
  sameHashable exampleCompileInput exampleCompileInput ∧
  ir_SourceHash (Compile 0 exampleCompileInput) = ir_SourceHash (Compile 1 exampleCompileInput).
Proof.
  intros d. assert (sameHashable exampleCompileInput exampleCompileInput) as H by reflexivity.
  split; [exact H|]. exact (proj1 (SourceHash_blind 0 1 _ _ H)).
Defined.
