(* ===== verification/Convert.v ===== *)
(** * From custom resources to compiler inputs (src/internal/compiler/radarr.go)

    The conversion of each group of a resource's specification, with its
    defaults and the secrets resolved for it, and the per-application entry
    points [CompileRadarrConfig], [CompileSonarrConfig], [CompileLidarrConfig]
    and [CompileReadarrConfig].  [ResolvedSecrets] maps ["secret/key"] to a
    value, and ["apiKey"] to the key of the application itself. *)
From S2P Require Export Api Compiler.

(** ** Pointers and defaults *)

Definition ptrBoolOrDefault (ptr : option bool) (def : bool) : bool :=
  match ptr with Some b => b | None => def end.
Definition ptrIntOrDefault (ptr : option Z) (def : Z) : Z :=
  match ptr with Some n => n | None => def end.
Definition defaultString (s def : string) : string := if String.eqb s "" then def else s.

(** [if v, ok := resolvedSecrets[k]; ok { x = v }] on a fresh (empty) [x]. *)
Definition secretOrEmpty (secrets : gmap string string) (key : string) : string :=
  match secrets !! key with Some v => v | None => "" end.

(** The key of a [SecretKeySelector]'s value among the resolved secrets. *)
Definition secretKeyOf (ref : SecretKeySelector) (defaultKey : string) : string :=
  (sks_Name ref +:+ "/" +:+ defaultString (sks_Key ref) defaultKey)%string.

(** The username and password a [CredentialsSecretRef] resolves to. *)
Definition resolveCredentials (secrets : gmap string string) (ref : option CredentialsSecretRef)
    : string * string :=
  match ref with
  | None => ("", "")
  | Some ref =>
      let usernameKey := defaultString (csr_UsernameKey ref) "username" in
      let passwordKey := defaultString (csr_PasswordKey ref) "password" in
      let secretPrefix := (csr_Name ref +:+ "/")%string in
      (secretOrEmpty secrets (secretPrefix +:+ usernameKey)%string,
       secretOrEmpty secrets (secretPrefix +:+ passwordKey)%string)
  end.

(** ** Download clients *)

Definition parseClientURL (rawURL : string) : string * Z * bool :=
  match urlParse rawURL with
  | None => (rawURL, 0, false)
  | Some parsed =>
      let host := urlHostname parsed in
      let useTLS := String.eqb (url_Scheme parsed) "https" in
      let portStr := urlPort parsed in
      let port := if negb (String.eqb portStr "") then (Atoi portStr).1
                  else if useTLS then 443 else 80 in
      (host, port, useTLS)
  end.

Section naming.
Context `{UnicodeTables}.

Definition inferImplementationFromName (name : string) : string :=
  let nameLower := ToLower name in
  if Contains nameLower "qbit" || Contains nameLower "qbittorrent" then "qbittorrent"
  else if Contains nameLower "transmission" then "transmission"
  else if Contains nameLower "deluge" then "deluge"
  else if Contains nameLower "rtorrent" || Contains nameLower "rutorrent" then "rtorrent"
  else if Contains nameLower "sabnzbd" || Contains nameLower "sab" then "sabnzbd"
  else if Contains nameLower "nzbget" then "nzbget"
  else "qbittorrent".

Definition normalizeImplementationName (impl : string) : string :=
  switch (ToLower impl) [
    (["qbittorrent"], "QBittorrent");
    (["transmission"], "Transmission");
    (["deluge"], "Deluge");
    (["rtorrent"], "RTorrent");
    (["sabnzbd"], "Sabnzbd");
    (["nzbget"], "NzbGet")]
    impl.

Definition convertDownloadClient (secrets : gmap string string) (dc : DownloadClientSpec)
    : DownloadClientInput :=
  let '(host, port, useTLS) := parseClientURL (dcs_URL dc) in
  let impl := if String.eqb (dcs_Type dc) "" then inferImplementationFromName (dcs_Name dc)
              else dcs_Type dc in
  let '(username, password) := resolveCredentials secrets (dcs_CredentialsSecretRef dc) in {|
  dci_Name := dcs_Name dc;
  dci_Implementation := normalizeImplementationName impl;
  dci_Host := host;
  dci_Port := port;
  dci_UseTLS := useTLS;
  dci_Username := username;
  dci_Password := password;
  dci_Category := dcs_Category dc;
  dci_Priority := dcs_Priority dc;
  dci_RemoveCompletedDownloads := ptrBoolOrDefault (dcs_RemoveCompletedDownloads dc) true;
  dci_RemoveFailedDownloads := ptrBoolOrDefault (dcs_RemoveFailedDownloads dc) true |}.

Definition convertDownloadClients (clients : list DownloadClientSpec)
    (secrets : gmap string string) : list DownloadClientInput :=
  convertDownloadClient secrets <$> clients.

(** ** Indexers *)

Definition categoryTable : gmap string Z := list_to_map [
  ("movies", 2000);
  ("movies-sd", 2030);
  ("movies-hd", 2040);
  ("movies-uhd", 2045);
  ("movies-4k", 2045);
  ("movies-bluray", 2050);
  ("movies-3d", 2060);
  ("tv", 5000);
  ("tv-sd", 5030);
  ("tv-hd", 5040);
  ("tv-uhd", 5045);
  ("tv-4k", 5045);
  ("audio", 3000);
  ("music", 3000);
  ("audio-mp3", 3010);
  ("audio-flac", 3040);
  ("audio-lossless", 3040);
  ("xxx", 6000);
  ("other", 7000)].

(** An absent name yields the zero value of [int]. *)
Definition mapCategoryName (name : string) : Z := default 0 (categoryTable !! ToLower name).

(** The loop shared by [convertCategories] and [convertProwlarrCategories]. *)
Definition categoryIDs (mapName : string → Z) (categories : list string) : list Z :=
  foldl (λ result cat,
    let '(id, ok) := Atoi cat in
    if ok : bool then result ++ [id]
    else let id := mapName cat in if 0 <? id then result ++ [id] else result) [] categories.

Definition convertCategories (categories : list string) : list Z :=
  categoryIDs mapCategoryName categories.

Definition inferIndexerImplementation (url indexerType : string) : string :=
  if String.eqb indexerType "usenet" then "Newznab" else "Torznab".

Definition convertIndexer (secrets : gmap string string) (idx : DirectIndexer) : IndexerInput := {|
  ixi_Name := dix_Name idx;
  ixi_Protocol := if String.eqb (dix_Type idx) "usenet" then ProtocolUsenet else ProtocolTorrent;
  ixi_Implementation := inferIndexerImplementation (dix_URL idx) (dix_Type idx);
  ixi_URL := dix_URL idx;
  ixi_APIKey :=
    match dix_APIKeySecretRef idx with
    | Some ref => secretOrEmpty secrets (secretKeyOf ref "apiKey")
    | None => ""
    end;
  ixi_Categories := convertCategories (dix_Categories idx);
  ixi_Priority := dix_Priority idx;
  ixi_MinimumSeeders := 0;
  ixi_SeedRatio := float64_zero;
  ixi_SeedTimeMinutes := 0;
  ixi_EnableRss := true;
  ixi_EnableAutomaticSearch := true;
  ixi_EnableInteractiveSearch := true |}.

Definition convertIndexers (spec : option IndexersSpec) (secrets : gmap string string)
    : option IndexersInput :=
  match spec with
  | None => None
  | Some spec =>
      match ixs_ProwlarrRef spec with
      | Some r => Some {|
          ixsi_ProwlarrRef := Some {|
            pri_ConfigName := prr_Name r;
            pri_AutoRegister := ptrBoolOrDefault (prr_AutoRegister r) true;
            pri_Include := prr_Include r;
            pri_Exclude := prr_Exclude r |};
          ixsi_Direct := [] |}
      | None => Some {|
          ixsi_ProwlarrRef := None;
          ixsi_Direct := convertIndexer secrets <$> ixs_Direct spec |}
      end
  end.
End naming.

(** ** The other groups *)

Definition convertRemotePathMappings (mappings : list RemotePathMappingSpec)
    : list RemotePathMappingInput :=
  (λ m, {|
    rpmi_Host := rpms_Host m;
    rpmi_RemotePath := rpms_RemotePath m;
    rpmi_LocalPath := rpms_LocalPath m |}) <$> mappings.

(** [for k, v := range src { dst[k] = f(v) }]. *)
Definition copyInto {A B} (f : A → B) (entries : list (string * A)) (dst : gmap string B)
    : gmap string B :=
  foldl (λ dst '(k, v), <[k := f v]> dst) dst entries.

(** The loop over the resolved secrets that adds those of one secret to a
    settings map, under the key that remains without the secret's name. *)
Definition addSecretSettings {B} (f : string → B) (ref : option SecretKeySelector)
    (secrets : list (string * string)) (dst : gmap string B) : gmap string B :=
  match ref with
  | None => dst
  | Some ref =>
      let secretPrefix := (sks_Name ref +:+ "/")%string in
      foldl (λ dst '(key, value),
        if HasPrefix key secretPrefix then <[TrimPrefix key secretPrefix := f value]> dst else dst)
        dst secrets
  end.

Section maps.
(** The order in which the loops below range over maps. *)
Context (o : RangeOrder).

Definition convertImportList (secrets : gmap string string) (list : ImportListSpec)
    : ImportListInput := {|
  ili_Name := ils_Name list;
  ili_Type := ils_Type list;
  ili_Enabled := ptrBoolOrDefault (ils_Enabled list) true;
  ili_EnableAuto := ptrBoolOrDefault (ils_EnableAuto list) true;
  ili_SearchOnAdd := ptrBoolOrDefault (ils_SearchOnAdd list) true;
  ili_QualityProfileName := ils_QualityProfile list;
  ili_RootFolderPath := ils_RootFolder list;
  ili_Monitor := defaultString (ils_Monitor list) "movieOnly";
  ili_MinimumAvailability := defaultString (ils_MinimumAvailability list) "announced";
  ili_SeriesType := defaultString (ils_SeriesType list) "standard";
  ili_SeasonFolder := ptrBoolOrDefault (ils_SeasonFolder list) true;
  ili_ShouldMonitor := defaultString (ils_ShouldMonitor list) "all";
  ili_Settings :=
    addSecretSettings id (ils_SettingsSecretRef list) (rangeMap o 1 secrets)
      (copyInto id (rangeMap o 0 (ils_Settings list)) ∅) |}.

Definition convertImportLists (lists : list ImportListSpec) (secrets : gmap string string)
    : list ImportListInput := convertImportList secrets <$> lists.

Definition convertNotification (secrets : gmap string string) (n : NotificationSpec)
    : NotificationInput := {|
  nti_Name := nts_Name n;
  nti_Implementation := nts_Type n;
  nti_OnGrab := ptrBoolOrDefault (nts_OnGrab n) false;
  nti_OnDownload := ptrBoolOrDefault (nts_OnDownload n) false;
  nti_OnUpgrade := ptrBoolOrDefault (nts_OnUpgrade n) false;
  nti_OnRename := ptrBoolOrDefault (nts_OnRename n) false;
  nti_OnHealthIssue := ptrBoolOrDefault (nts_OnHealthIssue n) false;
  nti_OnHealthRestored := ptrBoolOrDefault (nts_OnHealthRestored n) false;
  nti_OnApplicationUpdate := ptrBoolOrDefault (nts_OnApplicationUpdate n) false;
  nti_OnManualInteractionRequired := ptrBoolOrDefault (nts_OnManualInteractionRequired n) false;
  nti_IncludeHealthWarnings := ptrBoolOrDefault (nts_IncludeHealthWarnings n) false;
  nti_OnMovieAdded := ptrBoolOrDefault (nts_OnMovieAdded n) false;
  nti_OnMovieDelete := ptrBoolOrDefault (nts_OnMovieDelete n) false;
  nti_OnMovieFileDelete := ptrBoolOrDefault (nts_OnMovieFileDelete n) false;
  nti_OnMovieFileDeleteForUpgrade := ptrBoolOrDefault (nts_OnMovieFileDeleteForUpgrade n) false;
  nti_OnSeriesAdd := ptrBoolOrDefault (nts_OnSeriesAdd n) false;
  nti_OnSeriesDelete := ptrBoolOrDefault (nts_OnSeriesDelete n) false;
  nti_OnEpisodeFileDelete := ptrBoolOrDefault (nts_OnEpisodeFileDelete n) false;
  nti_OnEpisodeFileDeleteForUpgrade := ptrBoolOrDefault (nts_OnEpisodeFileDeleteForUpgrade n) false;
  nti_OnReleaseImport := ptrBoolOrDefault (nts_OnReleaseImport n) false;
  nti_OnArtistAdd := ptrBoolOrDefault (nts_OnArtistAdd n) false;
  nti_OnArtistDelete := ptrBoolOrDefault (nts_OnArtistDelete n) false;
  nti_OnAlbumDelete := ptrBoolOrDefault (nts_OnAlbumDelete n) false;
  nti_OnTrackRetag := ptrBoolOrDefault (nts_OnTrackRetag n) false;
  nti_OnDownloadFailure := ptrBoolOrDefault (nts_OnDownloadFailure n) false;
  nti_OnImportFailure := ptrBoolOrDefault (nts_OnImportFailure n) false;
  nti_Fields :=
    addSecretSettings VString (nts_SettingsSecretRef n) (rangeMap o 1 secrets)
      (copyInto VString (rangeMap o 0 (nts_Settings n)) ∅);
  nti_Tags := nts_Tags n |}.

Definition convertNotifications (notifications : list NotificationSpec)
    (secrets : gmap string string) : list NotificationInput :=
  convertNotification secrets <$> notifications.
End maps.

Definition convertMediaManagement (spec : option MediaManagementSpec)
    : option MediaManagementInput :=
  (λ spec, {|
    mmi_RecycleBin := mms_RecycleBin spec;
    mmi_RecycleBinCleanupDays := ptrIntOrDefault (mms_RecycleBinCleanupDays spec) 7;
    mmi_SetPermissions := ptrBoolOrDefault (mms_SetPermissions spec) false;
    mmi_ChmodFolder := defaultString (mms_ChmodFolder spec) "755";
    mmi_ChownGroup := mms_ChownGroup spec;
    mmi_DeleteEmptyFolders := ptrBoolOrDefault (mms_DeleteEmptyFolders spec) false;
    mmi_CreateEmptyFolders := ptrBoolOrDefault (mms_CreateEmptyFolders spec) false;
    mmi_UseHardlinks := ptrBoolOrDefault (mms_UseHardlinks spec) true;
    mmi_WatchLibraryForChanges := mms_WatchLibraryForChanges spec;
    mmi_AllowFingerprinting := mms_AllowFingerprinting spec |}) <$> spec.

Definition convertAuthentication (spec : option AuthenticationSpec)
    (secrets : gmap string string) : option AuthenticationInput :=
  (λ spec, {|
    aui_Method := defaultString (aus_Method spec) "none";
    aui_Username := aus_Username spec;
    aui_Password :=
      match aus_PasswordSecretRef spec with
      | Some ref => secretOrEmpty secrets (secretKeyOf ref "password")
      | None => ""
      end;
    aui_AuthenticationRequired := defaultString (aus_AuthenticationRequired spec) "enabled" |})
  <$> spec.

Definition convertCustomFormatSpec (spec : CustomFormatSpecificationSpec)
    : CustomFormatSpecInput := {|
  cfsi_Name := cfss_Name spec;
  cfsi_Type := cfss_Type spec;
  cfsi_Negate := ptrBoolOrDefault (cfss_Negate spec) false;
  cfsi_Required := ptrBoolOrDefault (cfss_Required spec) false;
  cfsi_Value := cfss_Value spec |}.

Definition convertCustomFormats (customFormats : list CustomFormatSpecAPI)
    : list CustomFormatInput :=
  (λ cf, {|
    cfi_Name := cfsp_Name cf;
    cfi_IncludeWhenRenaming := ptrBoolOrDefault (cfsp_IncludeWhenRenaming cf) false;
    cfi_Score := cfsp_Score cf;
    cfi_Specifications := convertCustomFormatSpec <$> cfsp_Specifications cf |}) <$> customFormats.

Definition convertDelayProfile (i : nat) (p : DelayProfileSpec) : DelayProfileInput := {|
  dpi_Name := dps_Name p;
  dpi_PreferredProtocol := dps_PreferredProtocol p;
  dpi_UsenetDelay := dps_UsenetDelay p;
  dpi_TorrentDelay := dps_TorrentDelay p;
  dpi_EnableUsenet := ptrBoolOrDefault (dps_EnableUsenet p) true;
  dpi_EnableTorrent := ptrBoolOrDefault (dps_EnableTorrent p) true;
  dpi_BypassIfHighestQuality := ptrBoolOrDefault (dps_BypassIfHighestQuality p) false;
  dpi_BypassIfAboveCustomFormatScore :=
    ptrBoolOrDefault (dps_BypassIfAboveCustomFormatScore p) false;
  dpi_MinimumCustomFormatScore := dps_MinimumCustomFormatScore p;
  dpi_Tags := dps_Tags p;
  dpi_Order := match dps_Order p with Some n => n | None => Z.of_nat i + 1 end |}.

Definition convertDelayProfiles (profiles : list DelayProfileSpec) : list DelayProfileInput :=
  imap convertDelayProfile profiles.

(** ** Entry points *)

Section entry.
Context `{UnicodeTables} `{Digest} (o : RangeOrder).

Definition nonempty {A} (l : list A) : bool := match l with [] => false | _ => true end.

(** The quality overrides of a video specification, set when one of the three
    lists is non-empty. *)
Definition videoOverrides (q : VideoQualitySpec) : option QualityOverrides :=
  if nonempty (vqs_Exclude q) || nonempty (vqs_PreferAdditional q) || nonempty (vqs_RejectAdditional q)
  then Some (mkQualityOverrides (vqs_Exclude q) (vqs_PreferAdditional q) (vqs_RejectAdditional q))
  else None.

Definition audioOverrides (q : AudioQualitySpec) : option QualityOverrides :=
  if nonempty (aqs_Exclude q) || nonempty (aqs_PreferAdditional q)
  then Some (mkQualityOverrides (aqs_Exclude q) (aqs_PreferAdditional q) [])
  else None.

Definition CompileRadarrConfig (now : Z) (config : RadarrConfig) (resolvedSecrets : gmap string string)
    (caps : option Capabilities) : IR :=
  let spec := rc_Spec config in
  Compile now {|
    ci_App := AppRadarr;
    ci_ConfigName := om_Name (rc_ObjectMeta config);
    ci_Namespace := om_Namespace (rc_ObjectMeta config);
    ci_URL := cns_URL (rcs_Connection spec);
    ci_APIKey := secretOrEmpty resolvedSecrets "apiKey";
    ci_QualityPreset := from_option vqs_Preset "" (rcs_Quality spec);
    ci_QualityOverrides := rcs_Quality spec ≫= videoOverrides;
    ci_NamingPreset := from_option nms_Preset "" (rcs_Naming spec);
    ci_DownloadClients := convertDownloadClients (rcs_DownloadClients spec) resolvedSecrets;
    ci_RemotePathMappings := convertRemotePathMappings (rcs_RemotePathMappings spec);
    ci_Indexers := convertIndexers (rcs_Indexers spec) resolvedSecrets;
    ci_RootFolders := rcs_RootFolders spec;
    ci_ImportLists := convertImportLists o (rcs_ImportLists spec) resolvedSecrets;
    ci_MediaManagement := convertMediaManagement (rcs_MediaManagement spec);
    ci_Authentication := convertAuthentication (rcs_Authentication spec) resolvedSecrets;
    ci_Notifications := convertNotifications o (rcs_Notifications spec) resolvedSecrets;
    ci_CustomFormats := convertCustomFormats (rcs_CustomFormats spec);
    ci_DelayProfiles := convertDelayProfiles (rcs_DelayProfiles spec);
    ci_MetadataProfile := None;
    ci_BookQuality := None;
    ci_Capabilities := caps;
    ci_ResolvedSecrets := resolvedSecrets |}.

Definition CompileSonarrConfig (now : Z) (config : SonarrConfig) (resolvedSecrets : gmap string string)
    (caps : option Capabilities) : IR :=
  let spec := sc_Spec config in
  Compile now {|
    ci_App := AppSonarr;
    ci_ConfigName := om_Name (sc_ObjectMeta config);
    ci_Namespace := om_Namespace (sc_ObjectMeta config);
    ci_URL := cns_URL (scs_Connection spec);
    ci_APIKey := secretOrEmpty resolvedSecrets "apiKey";
    ci_QualityPreset := from_option vqs_Preset "" (scs_Quality spec);
    ci_QualityOverrides := scs_Quality spec ≫= videoOverrides;
    ci_NamingPreset := from_option (λ n, nms_Preset (sns_NamingSpec n)) "" (scs_Naming spec);
    ci_DownloadClients := convertDownloadClients (scs_DownloadClients spec) resolvedSecrets;
    ci_RemotePathMappings := convertRemotePathMappings (scs_RemotePathMappings spec);
    ci_Indexers := convertIndexers (scs_Indexers spec) resolvedSecrets;
    ci_RootFolders := scs_RootFolders spec;
    ci_ImportLists := convertImportLists o (scs_ImportLists spec) resolvedSecrets;
    ci_MediaManagement := convertMediaManagement (scs_MediaManagement spec);
    ci_Authentication := convertAuthentication (scs_Authentication spec) resolvedSecrets;
    ci_Notifications := convertNotifications o (scs_Notifications spec) resolvedSecrets;
    ci_CustomFormats := convertCustomFormats (scs_CustomFormats spec);
    ci_DelayProfiles := convertDelayProfiles (scs_DelayProfiles spec);
    ci_MetadataProfile := None;
    ci_BookQuality := None;
    ci_Capabilities := caps;
    ci_ResolvedSecrets := resolvedSecrets |}.

Definition CompileLidarrConfig (now : Z) (config : LidarrConfig) (resolvedSecrets : gmap string string)
    (caps : option Capabilities) : IR :=
  let spec := lc_Spec config in
  Compile now {|
    ci_App := AppLidarr;
    ci_ConfigName := om_Name (lc_ObjectMeta config);
    ci_Namespace := om_Namespace (lc_ObjectMeta config);
    ci_URL := cns_URL (lcs_Connection spec);
    ci_APIKey := secretOrEmpty resolvedSecrets "apiKey";
    ci_QualityPreset := from_option aqs_Preset "" (lcs_Quality spec);
    ci_QualityOverrides := lcs_Quality spec ≫= audioOverrides;
    ci_NamingPreset := from_option (λ n, nms_Preset (lns_NamingSpec n)) "" (lcs_Naming spec);
    ci_DownloadClients := convertDownloadClients (lcs_DownloadClients spec) resolvedSecrets;
    ci_RemotePathMappings := convertRemotePathMappings (lcs_RemotePathMappings spec);
    ci_Indexers := convertIndexers (lcs_Indexers spec) resolvedSecrets;
    ci_RootFolders := lrf_Path <$> lcs_RootFolders spec;
    ci_ImportLists := convertImportLists o (lcs_ImportLists spec) resolvedSecrets;
    ci_MediaManagement := convertMediaManagement (lcs_MediaManagement spec);
    ci_Authentication := convertAuthentication (lcs_Authentication spec) resolvedSecrets;
    ci_Notifications := convertNotifications o (lcs_Notifications spec) resolvedSecrets;
    ci_CustomFormats := [];
    ci_DelayProfiles := [];
    ci_MetadataProfile := None;
    ci_BookQuality := None;
    ci_Capabilities := caps;
    ci_ResolvedSecrets := resolvedSecrets |}.

(** The book quality of a Readarr specification: set when the format list is
    present (non-nil) or a cutoff is given. *)
Definition readarrBookQuality (q : ReadarrQualitySpec) : option BookQualityInput :=
  if (match rqs_AllowedFormats q with Some _ => true | None => false end)
     || negb (String.eqb (rqs_Cutoff q) "")
  then Some {|
    bqi_ProfileName := "";
    bqi_UpgradeAllowed := ptrBoolOrDefault (rqs_UpgradeAllowed q) true;
    bqi_CutoffFormat := rqs_Cutoff q;
    bqi_AllowedFormats :=
      rfs_Format <$> filter (λ f, rfs_Allowed f = true) (default [] (rqs_AllowedFormats q)) |}
  else None.

Definition readarrMetadataProfile (m : ReadarrMetadataProfileSpec) : MetadataProfileInput := {|
  mpi_Name := rmps_Name m;
  mpi_MinPopularity := rmps_MinPopularity m;
  mpi_SkipMissingDate := ptrBoolOrDefault (rmps_SkipMissingDate m) true;
  mpi_SkipMissingIsbn := ptrBoolOrDefault (rmps_SkipMissingIsbn m) false;
  mpi_SkipPartsAndSets := ptrBoolOrDefault (rmps_SkipPartsAndSets m) false;
  mpi_SkipSeriesSecondary := ptrBoolOrDefault (rmps_SkipSeriesSecondary m) false;
  mpi_AllowedLanguages := rmps_AllowedLanguages m |}.

Definition CompileReadarrConfig (now : Z) (config : ReadarrConfig) (resolvedSecrets : gmap string string)
    (caps : option Capabilities) : IR :=
  let spec := rdc_Spec config in
  Compile now {|
    ci_App := AppReadarr;
    ci_ConfigName := om_Name (rdc_ObjectMeta config);
    ci_Namespace := om_Namespace (rdc_ObjectMeta config);
    ci_URL := cns_URL (rdcs_Connection spec);
    ci_APIKey := secretOrEmpty resolvedSecrets "apiKey";
    ci_QualityPreset := from_option rqs_Preset "" (rdcs_Quality spec);
    ci_QualityOverrides := None;
    ci_NamingPreset := from_option (λ n, nms_Preset (rns_NamingSpec n)) "" (rdcs_Naming spec);
    ci_DownloadClients := convertDownloadClients (rdcs_DownloadClients spec) resolvedSecrets;
    ci_RemotePathMappings := convertRemotePathMappings (rdcs_RemotePathMappings spec);
    ci_Indexers := convertIndexers (rdcs_Indexers spec) resolvedSecrets;
    ci_RootFolders := rdcs_RootFolders spec;
    ci_ImportLists := convertImportLists o (rdcs_ImportLists spec) resolvedSecrets;
    ci_MediaManagement := convertMediaManagement (rdcs_MediaManagement spec);
    ci_Authentication := convertAuthentication (rdcs_Authentication spec) resolvedSecrets;
    ci_Notifications := convertNotifications o (rdcs_Notifications spec) resolvedSecrets;
    ci_CustomFormats := [];
    ci_DelayProfiles := [];
    ci_MetadataProfile := readarrMetadataProfile <$> rdcs_MetadataProfile spec;
    ci_BookQuality := rdcs_Quality spec ≫= readarrBookQuality;
    ci_Capabilities := caps;
    ci_ResolvedSecrets := resolvedSecrets |}.
End entry.

(** ** Theorems: settings merged with a secret *)

Section insert_loops.
Context {A B : Type}.
Implicit Types (l : list (string * A)) (m : gmap string B).

(** A loop that enters [f v] under [key k] for some of the entries [(k, v)]. *)
Definition insertLoop (sel : string → bool) (key : string → string) (f : A → B) l m
    : gmap string B :=
  foldl (λ dst '(k, v), if sel k then <[key k := f v]> dst else dst) m l.

Lemma lookup_insertLoop_other sel key f l m k' :
  (∀ k v, (k, v) ∈ l → sel k = true → key k ≠ k') → insertLoop sel key f l m !! k' = m !! k'.
Proof.
  induction l as [|[k v] l IH] using rev_ind; [done|]. intros Hno. unfold insertLoop in *.
  rewrite foldl_app. cbn [foldl].
  rewrite <-IH by (intros ?? Hin; eapply Hno, elem_of_app; by left).
  destruct (sel k) eqn:Hs; [|done]. rewrite lookup_insert_ne; [done|].
  eapply Hno; [|done]. apply elem_of_app. right. by left.
Qed.

Lemma lookup_insertLoop sel key f l m k v k' :
  (∀ k1 k2, sel k1 = true → sel k2 = true → key k1 = key k2 → k1 = k2) →
  NoDup l.*1 → (k, v) ∈ l → sel k = true → key k = k' →
  insertLoop sel key f l m !! k' = Some (f v).
Proof.
  intros Hinj. induction l as [|[k1 v1] l IH] using rev_ind; [by intros _ ?%not_elem_of_nil|].
  rewrite fmap_app, NoDup_app. intros (Hnd & Hdis & _) Hin Hs Hk.
  unfold insertLoop in *. rewrite foldl_app. cbn [foldl].
  apply elem_of_app in Hin as [Hin|[= <- <-]%list_elem_of_singleton].
  - destruct (sel k1) eqn:Hs1; [|auto]. rewrite lookup_insert_ne; [auto|]. intros Hk1.
    apply (Hdis k1); [|by left]. rewrite (Hinj k1 k) by congruence.
    by apply (list_elem_of_fmap_2 fst _ (k, v)).
  - by rewrite Hs, Hk, lookup_insert_eq.
Qed.
End insert_loops.

Lemma copyInto_spec {A B} (f : A → B) o site (src : gmap string A) :
  copyInto f (rangeMap o site src) ∅ = f <$> src.
Proof.
  apply map_eq. intros k. rewrite lookup_fmap.
  change (copyInto f (rangeMap o site src) ∅)
    with (insertLoop (λ _, true) id f (rangeMap o site src) ∅).
  destruct (src !! k) as [v|] eqn:E; simpl.
  - eapply lookup_insertLoop; [done|apply NoDup_rangeMap_keys| |done|done].
    by rewrite elem_of_rangeMap.
  - rewrite lookup_insertLoop_other, lookup_empty; [done|].
    intros k1 v1 ?%elem_of_rangeMap _ ?. simpl in *. congruence.
Qed.

(** The settings of a resource: those of the specification, overridden by the
    keys of the secret it refers to. *)
Definition mergedSetting {B} (f : string → B) (settings : gmap string string)
    (ref : option SecretKeySelector) (secrets : gmap string string) (k : string) : option B :=
  match ref ≫= (λ r, secrets !! (sks_Name r +:+ "/" +:+ k)%string) with
  | Some v => Some (f v)
  | None => f <$> (settings !! k)
  end.

Lemma addSecretSettings_spec {B} (f : string → B) o site1 site2 ref settings secrets k :
  addSecretSettings f ref (rangeMap o site1 secrets)
    (copyInto f (rangeMap o site2 settings) ∅) !! k = mergedSetting f settings ref secrets k.
Proof.
  rewrite copyInto_spec. unfold mergedSetting, addSecretSettings.
  destruct ref as [r|]; simpl; [|by rewrite lookup_fmap].
  set (p := (sks_Name r +:+ "/")%string).
  assert (Hp : ∀ x, (p +:+ x)%string = (sks_Name r +:+ "/" +:+ x)%string).
  { intros x. unfold p. by rewrite append_assoc. }
  set (sel := λ key, HasPrefix key p). set (cut := λ key, TrimPrefix key p).
  match goal with |- ?t !! k = _ =>
    change t with (insertLoop sel cut f (rangeMap o site1 secrets) (f <$> settings)) end.
  rewrite <-Hp. destruct (secrets !! (p +:+ k)%string) as [v|] eqn:E.
  - eapply lookup_insertLoop; [|apply NoDup_rangeMap_keys|by rewrite elem_of_rangeMap| |].
    + intros k1 k2 [t1 ->]%HasPrefix_spec [t2 ->]%HasPrefix_spec. unfold cut.
      rewrite !TrimPrefix_append. by intros ->.
    + apply HasPrefix_append.
    + apply TrimPrefix_append.
  - rewrite lookup_insertLoop_other, lookup_fmap; [done|].
    intros k1 v1 Hin%elem_of_rangeMap [t ->]%HasPrefix_spec <-. unfold cut in E.
    rewrite TrimPrefix_append in E. congruence.
Qed.

(** the settings of an import list and the fields of a notification are
    those of the specification, except that a key of the referenced secret
    overrides the setting of that name; the result does not depend on the order
    in which the maps of settings and secrets are visited. *)
Theorem settings_merged o1 o2 secrets list n k :
  ili_Settings (convertImportList o1 secrets list) !! k =
    mergedSetting id (ils_Settings list) (ils_SettingsSecretRef list) secrets k ∧
  nti_Fields (convertNotification o1 secrets n) !! k =
    mergedSetting VString (nts_Settings n) (nts_SettingsSecretRef n) secrets k ∧
  convertImportList o1 secrets list = convertImportList o2 secrets list ∧
  convertNotification o1 secrets n = convertNotification o2 secrets n.
Proof.
  split_and!; [apply addSecretSettings_spec..| |].
  - unfold convertImportList. f_equal. apply map_eq. intros i. by rewrite !addSecretSettings_spec.
  - unfold convertNotification. f_equal. apply map_eq. intros i. by rewrite !addSecretSettings_spec.
Qed.

(** ** Theorems: client URLs *)

(** the URL of a download client is parsed back into the parts it was
    written from: for every host name made of letters, digits, dots, dashes and
    underscores, every port and both schemes, [parseClientURL] recovers the host,
    the port and the use of TLS. *)
Theorem parseClientURL_roundtrip (host : string) (port : Z) (tls : bool) :
  stringForall hostByte host = true → host ≠ "" → 0 ≤ port ≤ maxInt →
  parseClientURL ((if tls then "https" else "http") +:+ "://" +:+ host +:+ ":" +:+ Itoa port) =
  (host, port, tls).
Proof.
  intros Hh Hne Hport.
  destruct (Itoa_nonneg port) as [Hd Hdne]; [lia|].
  unfold parseClientURL.
  pose proof (urlParse_plain_http tls host (Itoa port) Hh Hd Hne) as Hu. cbn zeta in Hu.
  change (":" +:+ Itoa port)%string with (String ":" (Itoa port)). rewrite Hu.
  unfold urlHostname, urlPort. cbn [url_Host url_Scheme].
  rewrite splitHostPort_plain by done. cbn [fst snd].
  assert (String.eqb (Itoa port) "" = false) as -> by (by apply String.eqb_neq).
  rewrite Atoi_Itoa by (unfold minInt; lia). by destruct tls.
Qed.

Lemma parseClientURL_roundtrip_witness :
  stringForall hostByte "qbit.media.svc" = true ∧
  parseClientURL "https://qbit.media.svc:8080" = ("qbit.media.svc", 8080, true).
Proof.
  assert (stringForall hostByte "qbit.media.svc" = true) as H by reflexivity.
  split; [exact H|].
  apply (parseClientURL_roundtrip "qbit.media.svc" 8080 true H); [discriminate|split; discriminate].
Defined.

(** ** Theorems: implementations and protocols *)

Section client_types.
Context `{UnicodeTables}.

Definition clientTypes : list string :=
  ["qbittorrent"; "transmission"; "deluge"; "rtorrent"; "sabnzbd"; "nzbget"].
Definition canonicalImplementations : list string :=
  ["QBittorrent"; "Transmission"; "Deluge"; "RTorrent"; "Sabnzbd"; "NzbGet"].

Lemma inferImplementationFromName_type name : inferImplementationFromName name ∈ clientTypes.
Proof.
  unfold inferImplementationFromName, clientTypes.
  repeat match goal with |- context [if ?b then _ else _] => destruct b end; set_solver.
Qed.

Lemma ToLower_clientTypes t : t ∈ clientTypes → ToLower t = t.
Proof.
  unfold clientTypes. rewrite !elem_of_cons, elem_of_nil.
  by intros [->|[->|[->|[->|[->|[->|[]]]]]]].
Qed.

Lemma normalizeImplementationName_type t :
  ToLower t ∈ clientTypes →
  let impl := normalizeImplementationName t in
  impl ∈ canonicalImplementations ∧ normalizeImplementation impl = impl ∧
  inferProtocol impl =
    if bool_decide (ToLower t ∈ ["sabnzbd"; "nzbget"]) then ProtocolUsenet else ProtocolTorrent.
Proof.
  intros Ht. unfold normalizeImplementationName, clientTypes, canonicalImplementations in *.
  rewrite !elem_of_cons, elem_of_nil in Ht.
  destruct Ht as [->|[->|[->|[->|[->|[->|[]]]]]]];
    (split; [set_solver|split; vm_compute; reflexivity]).
Qed.

(** The applications: the type of a specification, the implementation the services know
    it by, its protocol, and what a name has in it that stands for it. *)
Record ClientRow := mkClientRow {
  row_type : string;
  row_implementation : string;
  row_protocol : string;
  row_markers : list string }.

Definition clientTable : list ClientRow := [
  mkClientRow "qbittorrent" "QBittorrent" ProtocolTorrent ["qbit"; "qbittorrent"];
  mkClientRow "transmission" "Transmission" ProtocolTorrent ["transmission"];
  mkClientRow "deluge" "Deluge" ProtocolTorrent ["deluge"];
  mkClientRow "rtorrent" "RTorrent" ProtocolTorrent ["rtorrent"; "rutorrent"];
  mkClientRow "sabnzbd" "Sabnzbd" ProtocolUsenet ["sabnzbd"; "sab"];
  mkClientRow "nzbget" "NzbGet" ProtocolUsenet ["nzbget"]].

Definition marked (name : string) (row : ClientRow) : Prop :=
  Exists (λ marker, Contains (ToLower name) marker = true) (row_markers row).

#[local] Instance marked_decision name row : Decision (marked name row) := _.

(** The type a client is taken for: its own in any letter case, or, without one, that of
    the first application its name stands for; qBittorrent if there is none. *)
Definition clientTypeOf (dc : DownloadClientSpec) : string :=
  if String.eqb (dcs_Type dc) "" then
    match list_find (marked (dcs_Name dc)) clientTable with
    | Some (_, row) => row_type row
    | None => "qbittorrent"
    end
  else ToLower (dcs_Type dc).

Lemma inferImplementationFromName_first name : inferImplementationFromName name =
  match list_find (marked name) clientTable with Some (_, row) => row_type row | None => "qbittorrent" end.
Proof.
  unfold inferImplementationFromName, clientTable. cbn [list_find]. unfold marked. cbn [row_markers].
  repeat match goal with
  | |- context [decide (Exists ?P ?l)] =>
      rewrite (decide_ext (Exists P l) (existsb (Contains (ToLower name)) l = true))
        by (rewrite existsb_exists, Exists_exists; by setoid_rewrite list_elem_of_In)
  end.
  cbn [existsb]. rewrite !orb_false_r. repeat (case_decide as Hd; [by rewrite Hd|apply not_true_is_false in Hd; rewrite Hd; clear Hd]).
  done.
Qed.

(** C40: A download client of a known type, in any letter case, or without a type, is
    compiled to the implementation and the protocol of its application: that of the
    type, or of the first application the name stands for, and qBittorrent if it stands
    for none.  The implementation is the name the services know, so that pruning
    compares like with like. *)
Theorem download_client_implementation secrets cfg dc :
  dcs_Type dc = "" ∨ ToLower (dcs_Type dc) ∈ row_type <$> clientTable →
  let d := compileDownloadClient cfg (convertDownloadClient secrets dc) in
  ∃ row, row ∈ clientTable ∧ row_type row = clientTypeOf dc ∧
    dc_Implementation d = row_implementation row ∧ dc_Protocol d = row_protocol row ∧
    normalizeImplementation (dc_Implementation d) = row_implementation row.
Proof.
  intros Htype. cbv zeta.
  set (t := if String.eqb (dcs_Type dc) "" then inferImplementationFromName (dcs_Name dc) else dcs_Type dc).
  assert (ToLower t = clientTypeOf dc ∧ clientTypeOf dc ∈ row_type <$> clientTable) as [Et Ht].
  { unfold t, clientTypeOf. destruct (String.eqb_spec (dcs_Type dc) ""); [|naive_solver].
    rewrite <-inferImplementationFromName_first, ToLower_clientTypes by apply inferImplementationFromName_type.
    split; [done|]. apply inferImplementationFromName_type. }
  apply list_elem_of_fmap in Ht as (row & Erow & Hrow). exists row. split; [done|]. split; [done|].
  unfold convertDownloadClient. destruct (parseClientURL (dcs_URL dc)) as [[host port] tls].
  fold t. destruct (resolveCredentials secrets _) as [user pass]. cbn.
  unfold normalizeImplementationName. rewrite Et, Erow. clearbody t. clear Et Erow Htype.
  unfold clientTable in Hrow. rewrite !elem_of_cons, elem_of_nil in Hrow.
  by destruct Hrow as [->|[->|[->|[->|[->|[->|[]]]]]]]; vm_compute.
Qed.
End client_types.

Definition exampleClient (type url : string) : DownloadClientSpec :=
  mkDownloadClientSpec "sab" url type None "" 1 None None None.

(** Without a type, [sab] stands for SABnzbd. *)
Lemma download_client_implementation_witness :
  let u : UnicodeTables := id in
  let d := compileDownloadClient "cfg" (convertDownloadClient ∅ (exampleClient "" "http://sab:8080")) in
  dc_Implementation d = "Sabnzbd" ∧ dc_Protocol d = ProtocolUsenet.
Proof.
  intros u d.
  destruct (download_client_implementation ∅ "cfg" (exampleClient "" "http://sab:8080")) as (row & Hrow & Ht & Hi & Hp & _);
    [by left|].
  assert (clientTypeOf (exampleClient "" "http://sab:8080") = "sabnzbd") as E by (vm_compute; reflexivity).
  rewrite E in Ht. fold d in Hi, Hp. rewrite Hi, Hp. clear Hi Hp E d u.
  unfold clientTable in Hrow. rewrite !elem_of_cons, elem_of_nil in Hrow.
  destruct Hrow as [->|[->|[->|[->|[->|[->|[]]]]]]]; try discriminate Ht. split; reflexivity.
Defined.

(** ** Theorems: categories *)

(** What one category of a specification contributes. *)
Definition categoryID (mapName : string → Z) (cat : string) : option Z :=
  if (Atoi cat).2 then Some (Atoi cat).1
  else if 0 <? mapName cat then Some (mapName cat) else None.

Lemma categoryIDs_omap mapName cats :
  categoryIDs mapName cats = omap (categoryID mapName) cats.
Proof.
  rewrite <-(app_nil_l (omap _ _)). apply foldl_append_omap. intros acc c. unfold categoryID.
  destruct (Atoi c) as [n []]; simpl; [done|]. destruct (0 <? mapName c); [done|by rewrite app_nil_r].
Qed.

Lemma omap_all_Some {A B C} (f : B → option C) (g : A → B) (h : A → C) (l : list A) :
  (∀ x, x ∈ l → f (g x) = Some (h x)) → omap f (g <$> l) = h <$> l.
Proof.
  induction l as [|x l IH]; intros Hall; [done|]. simpl. rewrite Hall by left. f_equal.
  apply IH. intros y Hy. apply Hall. by right.
Qed.

Section categories.
Context `{UnicodeTables}.

(** numeric categories pass through unchanged, whatever their value
    (an [int]), in order; a name contributes the identifier of the category table
    for its lower-case form, and a name the table does not know contributes
    nothing. *)
Theorem convertCategories_spec (ids : list Z) (cats : list string) (id : Z) :
  Forall (λ n, minInt ≤ n ≤ maxInt) ids →
  convertCategories (Itoa <$> ids) = ids ∧
  (id ∈ convertCategories cats ↔
   ∃ c, c ∈ cats ∧ (Atoi c = (id, true) ∨
                    (Atoi c).2 = false ∧ categoryTable !! ToLower c = Some id)).
Proof.
  intros Hids. unfold convertCategories. rewrite !categoryIDs_omap. split.
  - rewrite (omap_all_Some _ Itoa (λ n, n)); [apply list_fmap_id|].
    intros n Hn. rewrite Forall_forall in Hids. unfold categoryID. by rewrite Atoi_Itoa by auto.
  - rewrite list_elem_of_omap. apply exist_proper. intros c. apply and_iff_compat_l.
    unfold categoryID, mapCategoryName.
    assert (∀ n, categoryTable !! ToLower c = Some n → 0 < n) as Hpos.
    { intros n Hl. assert (map_Forall (λ _ n, 0 < n) categoryTable) as Hall; [|by apply (Hall _ _ Hl)].
      apply (bool_decide_unpack _). vm_compute. exact I. }
    generalize dependent (categoryTable !! ToLower c). intros entry Hpos.
    destruct (Atoi c) as [n []]; simpl; [naive_solver|].
    destruct entry as [n'|]; simpl; [|naive_solver].
    specialize (Hpos n' eq_refl). destruct (Z.ltb_spec 0 n'); [naive_solver|lia].
Qed.
End categories.

Lemma convertCategories_spec_witness :
  let u : UnicodeTables := id in
  Forall (λ n, minInt ≤ n ≤ maxInt) [2000; 5040] ∧ convertCategories ["2000"; "5040"] = [2000; 5040].
Proof.
  intros u. assert (Forall (λ n, minInt ≤ n ≤ maxInt) [2000; 5040]) as H
    by (repeat constructor; discriminate).
  split; [exact H|]. exact (proj1 (convertCategories_spec [2000; 5040] [] 0 H)).
Defined.
