(* ===== verification/CompileProwlarr.v ===== *)
(** * Compiling a ProwlarrConfig (src/internal/compiler/prowlarr.go)

    Prowlarr manages indexers itself and syncs them to applications, so its
    configuration is compiled straight from the resource, without presets. *)
From S2P Require Export Convert.

Section prowlarr.
Context `{UnicodeTables} (o : RangeOrder).

Definition prowlarrCategoryTable : gmap string Z := list_to_map [
  ("movies", 2000);
  ("movies-sd", 2030);
  ("movies-hd", 2040);
  ("movies-uhd", 2045);
  ("movies-4k", 2045);
  ("movies-bluray", 2050);
  ("movies-webdl", 2010);
  ("movies-dvd", 2020);
  ("movies-3d", 2060);
  ("tv", 5000);
  ("tv-foreign", 5010);
  ("tv-sd", 5030);
  ("tv-hd", 5040);
  ("tv-uhd", 5045);
  ("tv-4k", 5045);
  ("tv-webdl", 5010);
  ("tv-dvd", 5020);
  ("tv-anime", 5070);
  ("tv-sport", 5060);
  ("audio", 3000);
  ("music", 3000);
  ("audio-mp3", 3010);
  ("music-mp3", 3010);
  ("audio-video", 3020);
  ("music-video", 3020);
  ("audio-lossless", 3040);
  ("music-lossless", 3040);
  ("audio-flac", 3040);
  ("music-flac", 3040);
  ("audio-foreign", 3030);
  ("music-foreign", 3030);
  ("books", 7000);
  ("books-ebook", 7020);
  ("books-comics", 7030);
  ("books-mags", 7010);
  ("xxx", 6000);
  ("xxx-dvd", 6010);
  ("xxx-wmv", 6020);
  ("xxx-xvid", 6030);
  ("xxx-x264", 6040);
  ("xxx-other", 6050);
  ("other", 7010);
  ("misc", 7999)].

Definition mapProwlarrCategoryName (name : string) : Z :=
  default 0 (prowlarrCategoryTable !! ToLower name).

Definition convertProwlarrCategories (categories : list string) (appType : string) : list Z :=
  match categories with
  | [] => match DefaultSyncCategories !! appType with
          | Some defaults => defaults
          | None => []
          end
  | _ => categoryIDs mapProwlarrCategoryName categories
  end.

Definition compileProwlarrIndexer (configName : string) (secrets : gmap string string)
    (idx : ProwlarrIndexer) : ProwlarrIndexerIR := {|
  pidx_Name := managedName configName (pxi_Name idx);
  pidx_Definition := pxi_Definition idx;
  pidx_Enable := ptrBoolOrDefault (pxi_Enabled idx) true;
  pidx_Priority := if pxi_Priority idx =? 0 then 25 else pxi_Priority idx;
  pidx_BaseURL := pxi_BaseURL idx;
  pidx_APIKey :=
    match pxi_APIKeySecretRef idx with
    | Some ref => secretOrEmpty secrets (secretKeyOf ref "apiKey")
    | None => ""
    end;
  pidx_Settings := copyInto id (rangeMap o 0 (pxi_Settings idx)) ∅;
  pidx_Tags := pxi_Tags idx |}.

Definition compileProwlarrIndexers (indexers : list ProwlarrIndexer) (configName : string)
    (secrets : gmap string string) : list ProwlarrIndexerIR :=
  compileProwlarrIndexer configName secrets <$> indexers.

Definition compileProwlarrProxy (configName : string) (secrets : gmap string string)
    (proxy : IndexerProxy) : IndexerProxyIR :=
  let '(username, password) := resolveCredentials secrets (pxp_CredentialsSecretRef proxy) in {|
  ipx_Name := managedName configName (pxp_Name proxy);
  ipx_Type := pxp_Type proxy;
  ipx_Host := pxp_Host proxy;
  ipx_Port := pxp_Port proxy;
  ipx_Username := username;
  ipx_Password := password;
  ipx_RequestTimeout :=
    if String.eqb (pxp_Type proxy) ProxyTypeFlareSolverr && (pxp_RequestTimeout proxy =? 0)
    then 60 else pxp_RequestTimeout proxy;
  ipx_Tags := pxp_Tags proxy |}.

Definition compileProwlarrProxies (proxies : list IndexerProxy) (configName : string)
    (secrets : gmap string string) : list IndexerProxyIR :=
  compileProwlarrProxy configName secrets <$> proxies.

Definition compileProwlarrApplication (configName prowlarrURL : string)
    (secrets : gmap string string) (app : ProwlarrApplication) : ProwlarrApplicationIR := {|
  papp_Name := managedName configName (pxa_Name app);
  papp_Type := pxa_Type app;
  papp_ProwlarrURL := prowlarrURL;
  papp_URL := pxa_URL app;
  papp_APIKey :=
    match pxa_APIKeySecretRef app with
    | Some ref => secretOrEmpty secrets (secretKeyOf ref "apiKey")
    | None => ""
    end;
  papp_SyncCategories := convertProwlarrCategories (pxa_SyncCategories app) (pxa_Type app);
  papp_SyncLevel := if String.eqb (pxa_SyncLevel app) "" then SyncLevelFullSync
                    else pxa_SyncLevel app;
  papp_Tags := [] |}.

Definition compileProwlarrApplications (apps : list ProwlarrApplication)
    (configName prowlarrURL : string) (secrets : gmap string string)
    : list ProwlarrApplicationIR :=
  compileProwlarrApplication configName prowlarrURL secrets <$> apps.

Definition compileProwlarrDownloadClient (configName : string) (secrets : gmap string string)
    (dc : DownloadClientSpec) : DownloadClientIR :=
  let '(host, port, useTLS) := parseClientURL (dcs_URL dc) in
  let impl := if String.eqb (dcs_Type dc) "" then inferImplementationFromName (dcs_Name dc)
              else dcs_Type dc in
  let '(username, password) := resolveCredentials secrets (dcs_CredentialsSecretRef dc) in {|
  dc_ID := 0;
  dc_Name := managedName configName (dcs_Name dc);
  dc_Protocol := inferProtocol impl;
  dc_Implementation := ToLower impl;
  dc_Enable := true;
  dc_Priority := dcs_Priority dc;
  dc_RemoveCompletedDownloads := false;
  dc_RemoveFailedDownloads := false;
  dc_Host := host;
  dc_Port := port;
  dc_UseTLS := useTLS;
  dc_Username := username;
  dc_Password := password;
  dc_Category := dcs_Category dc;
  dc_Directory := "" |}.

Definition compileProwlarrDownloadClients (clients : list DownloadClientSpec)
    (configName : string) (secrets : gmap string string) : list DownloadClientIR :=
  compileProwlarrDownloadClient configName secrets <$> clients.

Definition CompileProwlarrConfig (now : Z) (config : ProwlarrConfig)
    (secrets : gmap string string) (caps : option Capabilities) : IR :=
  let spec := pc_Spec config in
  let name := om_Name (pc_ObjectMeta config) in
  let url := cns_URL (pcs_Connection spec) in
  let conn := mkConnectionIR url (secretOrEmpty secrets "apiKey") false in {|
  ir_Version := IRVersion;
  ir_GeneratedAt := now;
  ir_SourceHash := "";
  ir_App := AppProwlarr;
  ir_Connection := Some conn;
  ir_Quality := None;
  ir_DownloadClients := [];
  ir_RemotePathMappings := [];
  ir_Indexers := None;
  ir_Naming := None;
  ir_RootFolders := [];
  ir_ImportLists := [];
  ir_Notifications := [];
  ir_CustomFormats := [];
  ir_DelayProfiles := [];
  ir_ReleaseProfiles := [];
  ir_MetadataProfiles := [];
  ir_MediaManagement := None;
  ir_Authentication := None;
  ir_Prowlarr := Some {|
    pr_Connection := Some conn;
    pr_Indexers := compileProwlarrIndexers (pcs_Indexers spec) name secrets;
    pr_Proxies := compileProwlarrProxies (pcs_Proxies spec) name secrets;
    pr_Applications := compileProwlarrApplications (pcs_Applications spec) name url secrets;
    pr_DownloadClients := compileProwlarrDownloadClients (pcs_DownloadClients spec) name secrets;
    pr_Unrealized := [] |};
  ir_Unrealized := [] |}.
End prowlarr.
