(* ===== verification/Diff.v ===== *)
(** * Diffing resources (src/internal/adapters/diff.go, adapters/shared)

    Every resource that is identified by a name is diffed by the same two
    loops: over the desired resources (creates and updates) and over the
    current ones (deletes).  [diffNamed] is those loops, over the operations
    ([DiffOps]) in which the copies in the source differ: the key, the
    equality and the changes they emit.  The theorems about the loops are
    proved once, against the interface [DiffLaws]. *)
From S2P Require Export Adapters.

(** ** The loops *)

Record DiffOps (A : Type) := mkDiffOps {
  op_key : A → string;
  op_equal : A → A → bool;
  op_create : string → A → Change;
  op_update : string → A → A → Change;   (* name, current, desired *)
  op_delete : string → A → Change }.
Arguments mkDiffOps {A}.
Arguments op_key {A}.
Arguments op_equal {A}.
Arguments op_create {A}.
Arguments op_update {A}.
Arguments op_delete {A}.

Section loops.
Context {A : Type} (ops : DiffOps A).

(** The body of the loop over the desired resources. *)
Definition desiredStep (currentMap : gmap string A) (changes : ChangeSet) (nd : string * A)
    : ChangeSet :=
  let '(name, desired) := nd in
  match currentMap !! name with
  | None => appendCreate (op_create ops name desired) changes
  | Some current =>
      if op_equal ops current desired then changes
      else appendUpdate (op_update ops name current desired) changes
  end.

(** The body of the loop over the current resources. *)
Definition currentStep (desiredMap : gmap string A) (changes : ChangeSet) (nc : string * A)
    : ChangeSet :=
  let '(name, current) := nc in
  match desiredMap !! name with
  | None => appendDelete (op_delete ops name current) changes
  | Some _ => changes
  end.

Definition diffNamed (o : RangeOrder) (current desired : list A) (changes : ChangeSet)
    : ChangeSet :=
  let currentMap := indexBy (op_key ops) current in
  let desiredMap := indexBy (op_key ops) desired in
  let changes := foldl (desiredStep currentMap) changes (rangeMap o 0 desiredMap) in
  foldl (currentStep desiredMap) changes (rangeMap o 1 currentMap).
End loops.

(** ** diff.go: download clients *)

Definition DownloadClientsEqual (current desired : DownloadClientIR) : bool :=
  String.eqb (dc_Name current) (dc_Name desired) &&
  String.eqb (dc_Implementation current) (dc_Implementation desired) &&
  String.eqb (dc_Host current) (dc_Host desired) &&
  (dc_Port current =? dc_Port desired) &&
  Bool.eqb (dc_UseTLS current) (dc_UseTLS desired) &&
  String.eqb (dc_Category current) (dc_Category desired) &&
  Bool.eqb (dc_Enable current) (dc_Enable desired) &&
  (dc_Priority current =? dc_Priority desired).

Definition downloadClientOps : DiffOps DownloadClientIR := {|
  op_key := dc_Name;
  op_equal := DownloadClientsEqual;
  op_create name d := mkChange ResourceDownloadClient name None (PDownloadClient d);
  op_update name c d := mkChange ResourceDownloadClient name (Some (dc_ID c)) (PDownloadClient d);
  op_delete name c := mkChange ResourceDownloadClient name (Some (dc_ID c)) PNil |}.

Definition DiffDownloadClientsWithIR (o : RangeOrder) (current desired : list DownloadClientIR)
    (changes : ChangeSet) : ChangeSet := diffNamed downloadClientOps o current desired changes.

(** The deprecated variant takes the IDs from a map; an absent name reads 0. *)
Definition downloadClientOpsByMap (clientIDs : gmap string Z) : DiffOps DownloadClientIR := {|
  op_key := dc_Name;
  op_equal := DownloadClientsEqual;
  op_create name d := mkChange ResourceDownloadClient name None (PDownloadClient d);
  op_update name c d :=
    mkChange ResourceDownloadClient name (Some (default 0 (clientIDs !! name))) (PDownloadClient d);
  op_delete name c :=
    mkChange ResourceDownloadClient name (Some (default 0 (clientIDs !! name))) PNil |}.

Definition DiffDownloadClients (o : RangeOrder) (current desired : list DownloadClientIR)
    (clientIDs : gmap string Z) (changes : ChangeSet) : ChangeSet :=
  diffNamed (downloadClientOpsByMap clientIDs) o current desired changes.

(** ** diff.go: indexers *)

Definition IndexersEqual (current desired : IndexerIR) : bool :=
  String.eqb (idx_Name current) (idx_Name desired) &&
  String.eqb (idx_Implementation current) (idx_Implementation desired) &&
  String.eqb (idx_URL current) (idx_URL desired) &&
  Bool.eqb (idx_Enable current) (idx_Enable desired) &&
  (idx_Priority current =? idx_Priority desired) &&
  Bool.eqb (idx_EnableRss current) (idx_EnableRss desired) &&
  Bool.eqb (idx_EnableAutomaticSearch current) (idx_EnableAutomaticSearch desired) &&
  Bool.eqb (idx_EnableInteractiveSearch current) (idx_EnableInteractiveSearch desired).

Definition indexerOps : DiffOps IndexerIR := {|
  op_key := idx_Name;
  op_equal := IndexersEqual;
  op_create name d := mkChange ResourceIndexer name None (PIndexer d);
  op_update name c d := mkChange ResourceIndexer name (Some (idx_ID c)) (PIndexer d);
  op_delete name c := mkChange ResourceIndexer name (Some (idx_ID c)) PNil |}.

Definition DiffIndexersWithIR (o : RangeOrder) (current desired : list IndexerIR)
    (changes : ChangeSet) : ChangeSet := diffNamed indexerOps o current desired changes.

Definition indexerOpsByMap (indexerIDs : gmap string Z) : DiffOps IndexerIR := {|
  op_key := idx_Name;
  op_equal := IndexersEqual;
  op_create name d := mkChange ResourceIndexer name None (PIndexer d);
  op_update name c d :=
    mkChange ResourceIndexer name (Some (default 0 (indexerIDs !! name))) (PIndexer d);
  op_delete name c :=
    mkChange ResourceIndexer name (Some (default 0 (indexerIDs !! name))) PNil |}.

Definition DiffIndexers (o : RangeOrder) (current desired : list IndexerIR)
    (indexerIDs : gmap string Z) (changes : ChangeSet) : ChangeSet :=
  diffNamed (indexerOpsByMap indexerIDs) o current desired changes.

(** ** diff.go: custom formats *)

Definition FormatSpecsEqual (current desired : FormatSpecIR) : bool :=
  String.eqb (fs_Type current) (fs_Type desired) &&
  String.eqb (fs_Name current) (fs_Name desired) &&
  Bool.eqb (fs_Negate current) (fs_Negate desired) &&
  Bool.eqb (fs_Required current) (fs_Required desired) &&
  String.eqb (fs_Value current) (fs_Value desired).

(** [None] is a nil pointer; two nil pointers are equal. *)
Definition CustomFormatsEqual (current desired : option CustomFormatIR) : bool :=
  match current, desired with
  | None, None => true
  | Some current, Some desired =>
      String.eqb (cf_Name current) (cf_Name desired) &&
      Bool.eqb (cf_IncludeWhenRenaming current) (cf_IncludeWhenRenaming desired) &&
      (Z.of_nat (length (cf_Specifications current))
         =? Z.of_nat (length (cf_Specifications desired))) &&
      let currentSpecs := indexBy fs_Name (cf_Specifications current) in
      forallb (λ desiredSpec,
        match currentSpecs !! fs_Name desiredSpec with
        | None => false
        | Some currentSpec => FormatSpecsEqual currentSpec desiredSpec
        end) (cf_Specifications desired)
  | _, _ => false
  end.

(** The updates and deletes of this variant carry no ID. *)
Definition customFormatOps : DiffOps CustomFormatIR := {|
  op_key := cf_Name;
  op_equal c d := CustomFormatsEqual (Some c) (Some d);
  op_create name d := mkChange ResourceCustomFormat name None (PCustomFormat d);
  op_update name c d := mkChange ResourceCustomFormat name None (PCustomFormat d);
  op_delete name c := mkChange ResourceCustomFormat name None PNil |}.

Definition DiffCustomFormats (o : RangeOrder) (current desired : list CustomFormatIR)
    (changes : ChangeSet) : ChangeSet := diffNamed customFormatOps o current desired changes.

(** ** diff.go: quality profiles and root folders *)

Definition DiffVideoQualityProfiles (currentProfile desiredProfile : option VideoQualityIR)
    (profileID : option Z) (changes : ChangeSet) : ChangeSet :=
  match desiredProfile, currentProfile with
  | None, Some c =>
      match profileID with
      | Some _ =>
          appendDelete (mkChange ResourceQualityProfile (vq_ProfileName c) profileID PNil) changes
      | None => changes
      end
  | None, None => changes
  | Some d, None =>
      appendCreate (mkChange ResourceQualityProfile (vq_ProfileName d) None (PVideoQuality d)) changes
  | Some _, Some _ => changes
  end.

Definition DiffQualityProfiles := DiffVideoQualityProfiles.

Definition DiffAudioQualityProfiles (currentProfile desiredProfile : option AudioQualityIR)
    (profileID : option Z) (changes : ChangeSet) : ChangeSet :=
  match desiredProfile, currentProfile with
  | None, Some c =>
      match profileID with
      | Some _ =>
          appendDelete (mkChange ResourceQualityProfile (aq_ProfileName c) profileID PNil) changes
      | None => changes
      end
  | None, None => changes
  | Some d, None =>
      appendCreate (mkChange ResourceQualityProfile (aq_ProfileName d) None (PAudioQuality d)) changes
  | Some _, Some _ => changes
  end.

Definition DiffBookQualityProfiles (currentProfile desiredProfile : option BookQualityIR)
    (changes : ChangeSet) : ChangeSet :=
  match desiredProfile, currentProfile with
  | None, _ => changes
  | Some d, None =>
      appendCreate (mkChange ResourceQualityProfile (bq_ProfileName d) None (PBookQuality d)) changes
  | Some _, Some _ => changes
  end.

Definition DiffRootFolders (current desired : list RootFolderIR) (changes : ChangeSet)
    : ChangeSet :=
  let currentPaths := setOf (rf_Path <$> current) in
  foldl (λ changes folder,
    if rf_Path folder ∈? currentPaths then changes
    else appendCreate (mkChange ResourceRootFolder (rf_Path folder) None
                         (PRootFolder (mkRootFolderIR (rf_Path folder) "" ""))) changes)
    changes desired.

(** ** shared/remotepathmappings.go *)

Definition rpmKey (m : RemotePathMappingIR) : string :=
  (rpm_Host m +:+ "|" +:+ rpm_RemotePath m)%string.
Definition rpmName (m : RemotePathMappingIR) : string :=
  (rpm_RemotePath m +:+ " -> " +:+ rpm_LocalPath m)%string.
Definition rpm_set_ID (id : Z) (m : RemotePathMappingIR) : RemotePathMappingIR :=
  mkRemotePathMappingIR id (rpm_Host m) (rpm_RemotePath m) (rpm_LocalPath m).

Definition remotePathMappingOps : DiffOps RemotePathMappingIR := {|
  op_key := rpmKey;
  op_equal c d := String.eqb (rpm_LocalPath c) (rpm_LocalPath d);
  op_create _ d := mkChange ResourceRemotePathMapping (rpmName d) None (PRemotePathMapping d);
  op_update _ c d :=
    mkChange ResourceRemotePathMapping (rpmName d) (Some (rpm_ID c))
      (PRemotePathMapping (rpm_set_ID (rpm_ID c) d));
  op_delete _ c :=
    mkChange ResourceRemotePathMapping (rpmName c) (Some (rpm_ID c)) (PRemotePathMapping c) |}.

Definition DiffRemotePathMappings (o : RangeOrder) (current desired : list RemotePathMappingIR)
    (changes : ChangeSet) : ChangeSet := diffNamed remotePathMappingOps o current desired changes.

(** ** shared/delayprofiles.go *)

Definition DelayProfilesEqual (a b : DelayProfileIR) : bool :=
  (dp_Order a =? dp_Order b) &&
  String.eqb (dp_PreferredProtocol a) (dp_PreferredProtocol b) &&
  (dp_UsenetDelay a =? dp_UsenetDelay b) &&
  (dp_TorrentDelay a =? dp_TorrentDelay b) &&
  Bool.eqb (dp_EnableUsenet a) (dp_EnableUsenet b) &&
  Bool.eqb (dp_EnableTorrent a) (dp_EnableTorrent b) &&
  Bool.eqb (dp_BypassIfHighestQuality a) (dp_BypassIfHighestQuality b) &&
  Bool.eqb (dp_BypassIfAboveCustomFormatScore a) (dp_BypassIfAboveCustomFormatScore b) &&
  (dp_MinimumCustomFormatScore a =? dp_MinimumCustomFormatScore b) &&
  (Z.of_nat (length (dp_Tags a)) =? Z.of_nat (length (dp_Tags b))) &&
  let tagSet := setOf (dp_Tags a) in
  forallb (λ t, t ∈? tagSet) (dp_Tags b).

Definition dp_set_ID (id : Z) (p : DelayProfileIR) : DelayProfileIR :=
  let '(mkDelayProfileIR _ b c d e f g h i j k l m) := p in
  mkDelayProfileIR id b c d e f g h i j k l m.

(** Delay profiles are keyed by their order and the loops run over the slices. *)
Definition DiffDelayProfiles (current desired : list DelayProfileIR) (changes : ChangeSet)
    : ChangeSet :=
  let currentByOrder := indexBy dp_Order current in
  let desiredByOrder := indexBy dp_Order desired in
  let changes := foldl (λ changes dp,
      match currentByOrder !! dp_Order dp with
      | None => appendCreate (mkChange ResourceDelayProfile (dp_Name dp) None (PDelayProfile dp)) changes
      | Some currentDP =>
          if DelayProfilesEqual currentDP dp then changes
          else appendUpdate (mkChange ResourceDelayProfile (dp_Name dp) (Some (dp_ID currentDP))
                 (PDelayProfile (dp_set_ID (dp_ID currentDP) dp))) changes
      end) changes desired in
  foldl (λ changes cp,
      if dp_Order cp =? 1 then changes
      else match desiredByOrder !! dp_Order cp with
           | Some _ => changes
           | None => appendDelete
               (mkChange ResourceDelayProfile (dp_Name cp) (Some (dp_ID cp)) PNil) changes
           end) changes current.

(** ** What the loops emit *)

Section emitted.
Context {A : Type} (ops : DiffOps A).

Definition createOf (cm : gmap string A) (nd : string * A) : option Change :=
  match cm !! nd.1 with None => Some (op_create ops nd.1 nd.2) | Some _ => None end.

Definition updateOf (cm : gmap string A) (nd : string * A) : option Change :=
  match cm !! nd.1 with
  | Some c => if op_equal ops c nd.2 then None else Some (op_update ops nd.1 c nd.2)
  | None => None
  end.

Definition deleteOf (dm : gmap string A) (nc : string * A) : option Change :=
  match dm !! nc.1 with None => Some (op_delete ops nc.1 nc.2) | Some _ => None end.

Lemma foldl_desiredStep cm l cs :
  foldl (desiredStep ops cm) cs l =
  mkChangeSet (cs_Creates cs ++ omap (createOf cm) l) (cs_Updates cs ++ omap (updateOf cm) l)
    (cs_Deletes cs).
Proof.
  revert cs. induction l as [|[n d] l IH]; intros [cr up de]; simpl; [by rewrite !app_nil_r|].
  rewrite IH. unfold createOf at 2, updateOf at 2. simpl.
  destruct (cm !! n) as [c|]; [destruct (op_equal ops c d)|]; simpl; by rewrite <-?app_assoc.
Qed.

Lemma foldl_currentStep dm l cs :
  foldl (currentStep ops dm) cs l =
  mkChangeSet (cs_Creates cs) (cs_Updates cs) (cs_Deletes cs ++ omap (deleteOf dm) l).
Proof.
  revert cs. induction l as [|[n d] l IH]; intros [cr up de]; simpl; [by rewrite !app_nil_r|].
  rewrite IH. unfold deleteOf at 2. simpl.
  destruct (dm !! n); simpl; by rewrite <-?app_assoc.
Qed.

Lemma diffNamed_eq o current desired cs :
  let cm := indexBy (op_key ops) current in
  let dm := indexBy (op_key ops) desired in
  diffNamed ops o current desired cs =
  mkChangeSet (cs_Creates cs ++ omap (createOf cm) (rangeMap o 0 dm))
    (cs_Updates cs ++ omap (updateOf cm) (rangeMap o 0 dm))
    (cs_Deletes cs ++ omap (deleteOf dm) (rangeMap o 1 cm)).
Proof. simpl. unfold diffNamed. by rewrite foldl_desiredStep, foldl_currentStep. Qed.
End emitted.

(** Change sets joined phase by phase. *)
Definition joinChanges (a b : ChangeSet) : ChangeSet :=
  mkChangeSet (cs_Creates a ++ cs_Creates b) (cs_Updates a ++ cs_Updates b) (cs_Deletes a ++ cs_Deletes b).

Lemma joinChanges_assoc a b c : joinChanges a (joinChanges b c) = joinChanges (joinChanges a b) c.
Proof. unfold joinChanges. simpl. by rewrite !app_assoc. Qed.

Lemma joinChanges_empty_l a : joinChanges emptyChangeSet a = a.
Proof. by destruct a. Qed.

Lemma joinChanges_empty_r a : joinChanges a emptyChangeSet = a.
Proof. destruct a. unfold joinChanges. simpl. by rewrite !app_nil_r. Qed.

Lemma diffNamed_join {A} (ops : DiffOps A) o current desired cs :
  diffNamed ops o current desired cs = joinChanges cs (diffNamed ops o current desired emptyChangeSet).
Proof. by rewrite !diffNamed_eq. Qed.

Section changes.
Context {A : Type} (ops : DiffOps A).
Implicit Types (current desired : list A) (cs : ChangeSet).

#[local] Notation "'byKey' l" := (indexBy (op_key ops) l) (at level 10, l at level 9).

Lemma elem_of_creates o current desired cs ch :
  ch ∈ cs_Creates (diffNamed ops o current desired cs) ↔
  ch ∈ cs_Creates cs ∨
  ∃ n d, byKey desired !! n = Some d ∧ byKey current !! n = None ∧ ch = op_create ops n d.
Proof.
  rewrite diffNamed_eq. simpl. rewrite elem_of_app, list_elem_of_omap.
  apply or_iff_compat_l. split.
  - intros ([n d] & Hin%elem_of_rangeMap & Hc). unfold createOf in Hc. simpl in Hc.
    destruct (byKey current !! n) eqn:E; naive_solver.
  - intros (n & d & Hd & Hc & ->). exists (n, d). unfold createOf. simpl.
    rewrite elem_of_rangeMap, Hc. done.
Qed.

Lemma elem_of_updates o current desired cs ch :
  ch ∈ cs_Updates (diffNamed ops o current desired cs) ↔
  ch ∈ cs_Updates cs ∨
  ∃ n c d, byKey desired !! n = Some d ∧ byKey current !! n = Some c ∧
           op_equal ops c d = false ∧ ch = op_update ops n c d.
Proof.
  rewrite diffNamed_eq. simpl. rewrite elem_of_app, list_elem_of_omap.
  apply or_iff_compat_l. split.
  - intros ([n d] & Hin%elem_of_rangeMap & Hc). unfold updateOf in Hc. simpl in Hc.
    destruct (byKey current !! n) as [c|] eqn:E; [|done].
    destruct (op_equal ops c d) eqn:Eq; naive_solver.
  - intros (n & c & d & Hd & Hc & He & ->). exists (n, d). unfold updateOf. simpl.
    rewrite elem_of_rangeMap, Hc, He. done.
Qed.

Lemma elem_of_deletes o current desired cs ch :
  ch ∈ cs_Deletes (diffNamed ops o current desired cs) ↔
  ch ∈ cs_Deletes cs ∨
  ∃ n c, byKey current !! n = Some c ∧ byKey desired !! n = None ∧ ch = op_delete ops n c.
Proof.
  rewrite diffNamed_eq. simpl. rewrite elem_of_app, list_elem_of_omap.
  apply or_iff_compat_l. split.
  - intros ([n c] & Hin%elem_of_rangeMap & Hc). unfold deleteOf in Hc. simpl in Hc.
    destruct (byKey desired !! n) eqn:E; naive_solver.
  - intros (n & c & Hc & Hd & ->). exists (n, c). unfold deleteOf. simpl.
    rewrite elem_of_rangeMap, Hd. done.
Qed.

(** The changes do not depend on the order of iteration, only their order does. *)
Definition sameChanges (cs1 cs2 : ChangeSet) : Prop :=
  cs_Creates cs1 ≡ₚ cs_Creates cs2 ∧ cs_Updates cs1 ≡ₚ cs_Updates cs2 ∧
  cs_Deletes cs1 ≡ₚ cs_Deletes cs2.

Lemma diffNamed_sameChanges o1 o2 current desired cs1 cs2 :
  sameChanges cs1 cs2 →
  sameChanges (diffNamed ops o1 current desired cs1) (diffNamed ops o2 current desired cs2).
Proof.
  intros (Hc & Hu & Hd). rewrite !diffNamed_eq. unfold sameChanges. simpl.
  rewrite Hc, Hu, Hd. rewrite (rangeMap_order_irrelevant o1 o2 0 0 (byKey desired)).
  rewrite (rangeMap_order_irrelevant o1 o2 1 1 (byKey current)). done.
Qed.

(** No change is emitted exactly when the two sides have the same names and
    equal resources under each. *)
Definition inSync current desired : Prop :=
  ∀ n, match byKey current !! n, byKey desired !! n with
       | Some c, Some d => op_equal ops c d = true
       | None, None => True
       | _, _ => False
       end.

Lemma IsEmpty_spec cs :
  IsEmpty cs = true ↔ cs_Creates cs = [] ∧ cs_Updates cs = [] ∧ cs_Deletes cs = [].
Proof. destruct cs as [[|??] [|??] [|??]]; naive_solver. Qed.

Lemma nil_iff_no_elem {B} (l : list B) : l = [] ↔ ∀ x, x ∉ l.
Proof. split; [intros -> x; apply not_elem_of_nil|apply elem_of_nil_inv]. Qed.

Lemma diffNamed_empty_iff o current desired cs :
  IsEmpty (diffNamed ops o current desired cs) = true ↔
  IsEmpty cs = true ∧ inSync current desired.
Proof.
  rewrite !IsEmpty_spec, !nil_iff_no_elem. setoid_rewrite elem_of_creates.
  setoid_rewrite elem_of_updates. setoid_rewrite elem_of_deletes. split.
  - intros (Hc & Hu & Hd). repeat split; [naive_solver..|]. intros n.
    destruct (byKey current !! n) as [c|] eqn:Ec, (byKey desired !! n) as [d|] eqn:Ed; try done.
    + destruct (op_equal ops c d) eqn:Eq; [done|]. exfalso. eapply Hu. right. eauto 10.
    + exfalso. eapply Hd. right. eauto.
    + exfalso. eapply Hc. right. eauto.
  - intros ((Hc & Hu & Hd) & Hs). repeat split; intros ch [Hin|Hin]; try naive_solver.
    + destruct Hin as (n & d & Hd' & Hc' & _). specialize (Hs n). by rewrite Hd', Hc' in Hs.
    + destruct Hin as (n & c & d & Hd' & Hc' & He & _). specialize (Hs n).
      rewrite Hd', Hc' in Hs. congruence.
    + destruct Hin as (n & c & Hc' & Hd' & _). specialize (Hs n). by rewrite Hd', Hc' in Hs.
Qed.
End changes.

(** ** Theorems: resources diffed by name *)

(** the diff of download clients (and of indexers) is exact.  A create is
    emitted for each desired name the service lacks, an update, addressed to the
    current resource's ID, for each name present on both sides with different
    settings, a delete, addressed by ID, for each current name no longer desired,
    and nothing else; when a name is listed twice the last entry counts. *)
Theorem DiffDownloadClientsWithIR_exact o current desired ch :
  let cs := DiffDownloadClientsWithIR o current desired emptyChangeSet in
  let cm := indexBy dc_Name current in
  let dm := indexBy dc_Name desired in
  (ch ∈ cs_Creates cs ↔ ∃ n d, dm !! n = Some d ∧ cm !! n = None ∧
     ch = mkChange ResourceDownloadClient n None (PDownloadClient d)) ∧
  (ch ∈ cs_Updates cs ↔ ∃ n c d, dm !! n = Some d ∧ cm !! n = Some c ∧
     DownloadClientsEqual c d = false ∧
     ch = mkChange ResourceDownloadClient n (Some (dc_ID c)) (PDownloadClient d)) ∧
  (ch ∈ cs_Deletes cs ↔ ∃ n c, cm !! n = Some c ∧ dm !! n = None ∧
     ch = mkChange ResourceDownloadClient n (Some (dc_ID c)) PNil).
Proof.
  unfold DiffDownloadClientsWithIR. cbn zeta.
  rewrite elem_of_creates, elem_of_updates, elem_of_deletes. simpl.
  rewrite elem_of_nil. split_and!; split; try naive_solver.
Qed.

(** The diff of indexers is exact in the same sense: a create for each desired
    name the service lacks, an update addressed to the current ID for each name
    on both sides whose settings differ, a delete for each current name no longer
    desired, and no other change. *)
Theorem DiffIndexersWithIR_exact o current desired ch :
  let cs := DiffIndexersWithIR o current desired emptyChangeSet in
  let cm := indexBy idx_Name current in
  let dm := indexBy idx_Name desired in
  (ch ∈ cs_Creates cs ↔ ∃ n d, dm !! n = Some d ∧ cm !! n = None ∧
     ch = mkChange ResourceIndexer n None (PIndexer d)) ∧
  (ch ∈ cs_Updates cs ↔ ∃ n c d, dm !! n = Some d ∧ cm !! n = Some c ∧
     IndexersEqual c d = false ∧
     ch = mkChange ResourceIndexer n (Some (idx_ID c)) (PIndexer d)) ∧
  (ch ∈ cs_Deletes cs ↔ ∃ n c, cm !! n = Some c ∧ dm !! n = None ∧
     ch = mkChange ResourceIndexer n (Some (idx_ID c)) PNil).
Proof.
  unfold DiffIndexersWithIR. cbn zeta.
  rewrite elem_of_creates, elem_of_updates, elem_of_deletes. simpl.
  rewrite elem_of_nil. split_and!; split; try naive_solver.
Qed.

(** map iteration order changes only the order of the changes, not which
    changes there are: any two runs of the four diffs that range over maps emit
    permutations of the same creates, updates and deletes. *)
Theorem diffs_order_irrelevant o1 o2 dcs dcs' ixs ixs' cfs cfs' rpms rpms' cs :
  sameChanges (DiffDownloadClientsWithIR o1 dcs dcs' cs) (DiffDownloadClientsWithIR o2 dcs dcs' cs) ∧
  sameChanges (DiffIndexersWithIR o1 ixs ixs' cs) (DiffIndexersWithIR o2 ixs ixs' cs) ∧
  sameChanges (DiffCustomFormats o1 cfs cfs' cs) (DiffCustomFormats o2 cfs cfs' cs) ∧
  sameChanges (DiffRemotePathMappings o1 rpms rpms' cs) (DiffRemotePathMappings o2 rpms rpms' cs).
Proof. split_and!; by apply diffNamed_sameChanges. Qed.

Lemma DownloadClientsEqual_refl dc : DownloadClientsEqual dc dc = true.
Proof.
  unfold DownloadClientsEqual. by rewrite !String.eqb_refl, !Z.eqb_refl, !Bool.eqb_reflx.
Qed.

Lemma IndexersEqual_refl i : IndexersEqual i i = true.
Proof. unfold IndexersEqual. by rewrite !String.eqb_refl, !Z.eqb_refl, !Bool.eqb_reflx. Qed.

Lemma inSync_refl {A} (ops : DiffOps A) l : (∀ x, op_equal ops x x = true) → inSync ops l l.
Proof. intros Hr n. by destruct (indexBy (op_key ops) l !! n). Qed.

(** the diffs report nothing exactly when there is nothing to do: when the
    two sides have the same names and equal resources under each; in particular a
    state is never different from itself. *)
Theorem diffs_empty_iff_in_sync o dcs dcs' ixs ixs' :
  (IsEmpty (DiffDownloadClientsWithIR o dcs dcs' emptyChangeSet) = true ↔
   inSync downloadClientOps dcs dcs') ∧
  (IsEmpty (DiffIndexersWithIR o ixs ixs' emptyChangeSet) = true ↔ inSync indexerOps ixs ixs') ∧
  inSync downloadClientOps dcs dcs ∧ inSync indexerOps ixs ixs.
Proof.
  split_and!; try (unfold DiffDownloadClientsWithIR, DiffIndexersWithIR;
                   rewrite diffNamed_empty_iff; naive_solver).
  - apply inSync_refl, DownloadClientsEqual_refl.
  - apply inSync_refl, IndexersEqual_refl.
Qed.

(** ** Theorems: root folders, quality and delay profiles *)

(** A loop that emits, for each element, at most one change of each kind. *)
Lemma foldl_emit {A} (step : ChangeSet → A → ChangeSet) (cr up de : A → option Change) cs l :
  (∀ cs x, step cs x = mkChangeSet (cs_Creates cs ++ option_list (cr x))
     (cs_Updates cs ++ option_list (up x)) (cs_Deletes cs ++ option_list (de x))) →
  foldl step cs l = mkChangeSet (cs_Creates cs ++ omap cr l) (cs_Updates cs ++ omap up l)
    (cs_Deletes cs ++ omap de l).
Proof.
  intros Hs. revert cs. induction l as [|x l IH]; intros [c u d]; simpl; [by rewrite !app_nil_r|].
  rewrite IH, Hs. simpl. rewrite <-!app_assoc. by destruct (cr x), (up x), (de x).
Qed.

(** The create of a root folder the service does not have. *)
Definition missingFolder (current : list RootFolderIR) (f : RootFolderIR) : option Change :=
  if bool_decide (rf_Path f ∈ (rf_Path <$> current)) then None
  else Some (mkChange ResourceRootFolder (rf_Path f) None
               (PRootFolder (mkRootFolderIR (rf_Path f) "" ""))).

Lemma DiffRootFolders_eq current desired cs :
  DiffRootFolders current desired cs =
  mkChangeSet (cs_Creates cs ++ omap (missingFolder current) desired) (cs_Updates cs) (cs_Deletes cs).
Proof.
  unfold DiffRootFolders.
  rewrite (foldl_emit _ (missingFolder current) (λ _, None) (λ _, None)).
  - f_equal; by induction desired; simpl in *; rewrite ?app_nil_r in *.
  - intros [c u d] f. unfold missingFolder. rewrite <-(bool_decide_ext _ _ (elem_of_setOf _ _)).
    case_bool_decide; simpl; by rewrite !app_nil_r.
Qed.

(** root folders are only ever created: a create for each desired folder
    whose path the service does not have, carrying that path, and no update and no
    delete, whatever the two sides are; when every path exists nothing is done. *)
Theorem DiffRootFolders_create_only current desired :
  let cs := DiffRootFolders current desired emptyChangeSet in
  cs_Updates cs = [] ∧ cs_Deletes cs = [] ∧
  (∀ ch, ch ∈ cs_Creates cs ↔ ∃ f, f ∈ desired ∧ (rf_Path f ∉ (rf_Path <$> current)) ∧
     ch = mkChange ResourceRootFolder (rf_Path f) None (PRootFolder (mkRootFolderIR (rf_Path f) "" ""))) ∧
  (IsEmpty cs = true ↔ ∀ f, f ∈ desired → rf_Path f ∈ (rf_Path <$> current)).
Proof.
  cbn zeta. rewrite DiffRootFolders_eq. simpl. split_and!; [done..| |].
  - intros ch. rewrite list_elem_of_omap. apply exist_proper. intros f. apply and_iff_compat_l.
    unfold missingFolder. case_bool_decide; naive_solver.
  - rewrite IsEmpty_spec. simpl. rewrite nil_iff_no_elem. setoid_rewrite list_elem_of_omap. split.
    + intros (Hn & _ & _) f Hf. apply dec_stable. intros Hnot. apply (Hn (mkChange ResourceRootFolder
        (rf_Path f) None (PRootFolder (mkRootFolderIR (rf_Path f) "" "")))).
      exists f. split; [done|]. unfold missingFolder. by rewrite bool_decide_eq_false_2.
    + intros Hall. split_and!; [|done..]. intros ch (f & Hf & Hm). unfold missingFolder in Hm.
      rewrite bool_decide_eq_true_2 in Hm; [done|by apply Hall].
Qed.

(** an existing quality profile is never updated by the diff, however it
    differs from the desired one: with a profile on both sides no change is
    emitted; a missing one is created; one that is no longer desired is deleted
    only when its ID is known. *)
Theorem DiffVideoQualityProfiles_cases current desired id cs :
  DiffVideoQualityProfiles current desired id cs =
  match desired, current with
  | Some _, Some _ => cs
  | Some d, None => appendCreate (mkChange ResourceQualityProfile (vq_ProfileName d) None (PVideoQuality d)) cs
  | None, Some c =>
      if bool_decide (is_Some id) then appendDelete (mkChange ResourceQualityProfile (vq_ProfileName c) id PNil) cs else cs
  | None, None => cs
  end.
Proof. by destruct current, desired, id. Qed.

(** The three changes [DiffDelayProfiles] may emit. *)
Definition delayCreate (cm : gmap Z DelayProfileIR) (d : DelayProfileIR) : option Change :=
  match cm !! dp_Order d with
  | None => Some (mkChange ResourceDelayProfile (dp_Name d) None (PDelayProfile d))
  | Some _ => None
  end.
Definition delayUpdate (cm : gmap Z DelayProfileIR) (d : DelayProfileIR) : option Change :=
  match cm !! dp_Order d with
  | None => None
  | Some c => if DelayProfilesEqual c d then None
              else Some (mkChange ResourceDelayProfile (dp_Name d) (Some (dp_ID c))
                           (PDelayProfile (dp_set_ID (dp_ID c) d)))
  end.
Definition delayDelete (dm : gmap Z DelayProfileIR) (c : DelayProfileIR) : option Change :=
  if dp_Order c =? 1 then None
  else match dm !! dp_Order c with
       | Some _ => None
       | None => Some (mkChange ResourceDelayProfile (dp_Name c) (Some (dp_ID c)) PNil)
       end.

Lemma omap_none {A B} (l : list A) : omap (λ _, @None B) l = [].
Proof. by induction l. Qed.

Lemma DiffDelayProfiles_eq current desired cs :
  DiffDelayProfiles current desired cs =
  mkChangeSet (cs_Creates cs ++ omap (delayCreate (indexBy dp_Order current)) desired)
    (cs_Updates cs ++ omap (delayUpdate (indexBy dp_Order current)) desired)
    (cs_Deletes cs ++ omap (delayDelete (indexBy dp_Order desired)) current).
Proof.
  unfold DiffDelayProfiles. cbv zeta.
  rewrite (foldl_emit _ (λ _, None) (λ _, None) (delayDelete (indexBy dp_Order desired)) _ current).
  2:{ intros [c u d] x. unfold delayDelete. destruct (dp_Order x =? 1); simpl; [by rewrite !app_nil_r|].
      destruct (indexBy dp_Order desired !! dp_Order x); simpl; by rewrite !app_nil_r. }
  rewrite (foldl_emit _ (delayCreate (indexBy dp_Order current))
             (delayUpdate (indexBy dp_Order current)) (λ _, None) _ desired).
  2:{ intros [c u d] x. unfold delayCreate, delayUpdate.
      destruct (indexBy dp_Order current !! dp_Order x) as [y|]; simpl;
        [destruct (DelayProfilesEqual y x); simpl|]; by rewrite !app_nil_r. }
  cbn [cs_Creates cs_Updates cs_Deletes]. by rewrite !omap_none, !app_nil_r.
Qed.

(** delay profiles are matched by their order, and the profile of order 1
    (the service's undeletable default) is never deleted: a current profile is
    deleted exactly when its order is not 1 and no desired profile has it, and an
    update keeps the ID and the order of the profile it replaces. *)
Theorem DiffDelayProfiles_default_kept current desired :
  let cs := DiffDelayProfiles current desired emptyChangeSet in
  (∀ ch, ch ∈ cs_Deletes cs ↔ ∃ c, c ∈ current ∧ dp_Order c ≠ 1 ∧
     (∀ d, d ∈ desired → dp_Order d ≠ dp_Order c) ∧
     ch = mkChange ResourceDelayProfile (dp_Name c) (Some (dp_ID c)) PNil) ∧
  (∀ ch, ch ∈ cs_Updates cs → ∃ c p, c ∈ current ∧ ch_ID ch = Some (dp_ID c) ∧
     ch_Payload ch = PDelayProfile p ∧ dp_ID p = dp_ID c ∧ dp_Order p = dp_Order c).
Proof.
  cbn zeta. rewrite DiffDelayProfiles_eq. simpl. split; intros ch.
  - rewrite list_elem_of_omap. apply exist_proper. intros c. apply and_iff_compat_l.
    unfold delayDelete. destruct (Z.eqb_spec (dp_Order c) 1); [naive_solver|].
    destruct (indexBy dp_Order desired !! dp_Order c) as [d|] eqn:E.
    + apply lookup_indexBy_Some in E as [? ?]. naive_solver.
    + rewrite lookup_indexBy_None in E. naive_solver.
  - intros (d & Hd & Hu)%list_elem_of_omap. unfold delayUpdate in Hu.
    destruct (indexBy dp_Order current !! dp_Order d) as [c|] eqn:E; [|done].
    apply lookup_indexBy_Some in E as [Ho Hc]. destruct (DelayProfilesEqual c d); [done|].
    simplify_eq. exists c, (dp_set_ID (dp_ID c) d). by destruct d.
Qed.
