(* ===== verification/Resources.v ===== *)
(** * The resources of the REST API (adapters/shared and sonarr/types.go)

    The structs the adapters exchange with a service, field by field in the
    order of the source (an embedded struct's fields come first), with their
    decoding and encoding by the struct tags. *)
From S2P Require Export Json.

(** [time.Time] values are parsed by package time; [None] is an error. *)
Class TimeFormat := parseTime : any → option Z.

(** ** shared/types.go, resources.go, authentication.go *)

Record SystemResource := mkSystemResource {
  sys_Version : string;
  sys_StartTime : option Z }.

#[export] Instance FromJSON_SystemResource `{TimeFormat} : FromJSON SystemResource := asStruct (λ l,
  vVersion ← getString "version" l;
  vStartTime ← getPtr parseTime "startTime" l;
  Some (mkSystemResource vVersion vStartTime)).

Record TagResource := mkTagResource {
  tag_ID : Z;
  tag_Label : string }.

#[export] Instance FromJSON_TagResource : FromJSON TagResource := asStruct (λ l,
  vID ← getInt "id" l;
  vLabel ← getString "label" l;
  Some (mkTagResource vID vLabel)).

#[export] Instance ToJSON_TagResource : ToJSON TagResource := λ r, VMap (omitIf (tag_ID r =? 0) "id" (VInt (tag_ID r)) ++
  [("label", VString (tag_Label r))]).

Record HealthResource := mkHealthResource {
  hr_Source : string;
  hr_Type : string;
  hr_Message : string;
  hr_WikiURL : string }.

#[export] Instance FromJSON_HealthResource : FromJSON HealthResource := asStruct (λ l,
  vSource ← getString "source" l;
  vType ← getString "type" l;
  vMessage ← getString "message" l;
  vWikiURL ← getString "wikiUrl" l;
  Some (mkHealthResource vSource vType vMessage vWikiURL)).

Record Field := mkField {
  f_Name : string;
  f_Value : any }.

#[export] Instance FromJSON_Field : FromJSON Field := asStruct (λ l,
  vName ← getString "name" l;
  vValue ← getAny "value" l;
  Some (mkField vName vValue)).

#[export] Instance ToJSON_Field : ToJSON Field := λ r, VMap ([("name", VString (f_Name r));
   ("value", toWire (f_Value r))]).

Record RemotePathMappingResource := mkRemotePathMappingResource {
  rpr_ID : Z;
  rpr_Host : string;
  rpr_RemotePath : string;
  rpr_LocalPath : string }.

#[export] Instance FromJSON_RemotePathMappingResource : FromJSON RemotePathMappingResource := asStruct (λ l,
  vID ← getInt "id" l;
  vHost ← getString "host" l;
  vRemotePath ← getString "remotePath" l;
  vLocalPath ← getString "localPath" l;
  Some (mkRemotePathMappingResource vID vHost vRemotePath vLocalPath)).

#[export] Instance ToJSON_RemotePathMappingResource : ToJSON RemotePathMappingResource := λ r, VMap (omitIf (rpr_ID r =? 0) "id" (VInt (rpr_ID r)) ++
  [("host", VString (rpr_Host r));
   ("remotePath", VString (rpr_RemotePath r));
   ("localPath", VString (rpr_LocalPath r))]).

Record CustomFormatSpecification := mkCustomFormatSpecification {
  cfsr_Name : string;
  cfsr_Implementation : string;
  cfsr_Negate : bool;
  cfsr_Required : bool;
  cfsr_Fields : list Field }.

#[export] Instance FromJSON_CustomFormatSpecification : FromJSON CustomFormatSpecification := asStruct (λ l,
  vName ← getString "name" l;
  vImplementation ← getString "implementation" l;
  vNegate ← getBool "negate" l;
  vRequired ← getBool "required" l;
  vFields ← getSlice fromJSON "fields" l;
  Some (mkCustomFormatSpecification vName vImplementation vNegate vRequired vFields)).

#[export] Instance ToJSON_CustomFormatSpecification : ToJSON CustomFormatSpecification := λ r, VMap ([("name", VString (cfsr_Name r));
   ("implementation", VString (cfsr_Implementation r));
   ("negate", VBool (cfsr_Negate r));
   ("required", VBool (cfsr_Required r));
   ("fields", VList (toJSON <$> cfsr_Fields r))]).

Record DelayProfileResource := mkDelayProfileResource {
  dpr_ID : Z;
  dpr_Order : Z;
  dpr_PreferredProtocol : string;
  dpr_UsenetDelay : Z;
  dpr_TorrentDelay : Z;
  dpr_EnableUsenet : bool;
  dpr_EnableTorrent : bool;
  dpr_BypassIfHighestQuality : bool;
  dpr_BypassIfAboveCustomFormatScore : bool;
  dpr_MinimumCustomFormatScore : Z;
  dpr_Tags : list Z }.

#[export] Instance FromJSON_DelayProfileResource : FromJSON DelayProfileResource := asStruct (λ l,
  vID ← getInt "id" l;
  vOrder ← getInt "order" l;
  vPreferredProtocol ← getString "preferredProtocol" l;
  vUsenetDelay ← getInt "usenetDelay" l;
  vTorrentDelay ← getInt "torrentDelay" l;
  vEnableUsenet ← getBool "enableUsenet" l;
  vEnableTorrent ← getBool "enableTorrent" l;
  vBypassIfHighestQuality ← getBool "bypassIfHighestQuality" l;
  vBypassIfAboveCustomFormatScore ← getBool "bypassIfAboveCustomFormatScore" l;
  vMinimumCustomFormatScore ← getInt "minimumCustomFormatScore" l;
  vTags ← getSlice asIntElem "tags" l;
  Some (mkDelayProfileResource vID vOrder vPreferredProtocol vUsenetDelay vTorrentDelay vEnableUsenet vEnableTorrent vBypassIfHighestQuality vBypassIfAboveCustomFormatScore vMinimumCustomFormatScore vTags)).

#[export] Instance ToJSON_DelayProfileResource : ToJSON DelayProfileResource := λ r, VMap (omitIf (dpr_ID r =? 0) "id" (VInt (dpr_ID r)) ++
  [("order", VInt (dpr_Order r));
   ("preferredProtocol", VString (dpr_PreferredProtocol r));
   ("usenetDelay", VInt (dpr_UsenetDelay r));
   ("torrentDelay", VInt (dpr_TorrentDelay r));
   ("enableUsenet", VBool (dpr_EnableUsenet r));
   ("enableTorrent", VBool (dpr_EnableTorrent r));
   ("bypassIfHighestQuality", VBool (dpr_BypassIfHighestQuality r));
   ("bypassIfAboveCustomFormatScore", VBool (dpr_BypassIfAboveCustomFormatScore r));
   ("minimumCustomFormatScore", VInt (dpr_MinimumCustomFormatScore r));
   ("tags", VList (VInt <$> dpr_Tags r))]).

Record HostConfigResource := mkHostConfigResource {
  hc_ID : Z;
  hc_BindAddress : string;
  hc_Port : Z;
  hc_SslPort : Z;
  hc_EnableSsl : bool;
  hc_LaunchBrowser : bool;
  hc_AuthenticationMethod : string;
  hc_AuthenticationRequired : string;
  hc_Username : string;
  hc_Password : string;
  hc_PasswordConfirmation : string;
  hc_LogLevel : string;
  hc_ConsoleLogLevel : string;
  hc_Branch : string;
  hc_ApiKey : string;
  hc_SslCertPath : string;
  hc_SslCertPassword : string;
  hc_UrlBase : string;
  hc_InstanceName : string;
  hc_UpdateAutomatically : bool;
  hc_UpdateMechanism : string;
  hc_UpdateScriptPath : string;
  hc_ProxyEnabled : bool;
  hc_ProxyType : string;
  hc_ProxyHostname : string;
  hc_ProxyPort : Z;
  hc_ProxyUsername : string;
  hc_ProxyPassword : string;
  hc_ProxyBypassFilter : string;
  hc_ProxyBypassLocalAddresses : bool;
  hc_CertificateValidation : string;
  hc_BackupFolder : string;
  hc_BackupInterval : Z;
  hc_BackupRetention : Z }.

#[export] Instance FromJSON_HostConfigResource : FromJSON HostConfigResource := asStruct (λ l,
  vID ← getInt "id" l;
  vBindAddress ← getString "bindAddress" l;
  vPort ← getInt "port" l;
  vSslPort ← getInt "sslPort" l;
  vEnableSsl ← getBool "enableSsl" l;
  vLaunchBrowser ← getBool "launchBrowser" l;
  vAuthenticationMethod ← getString "authenticationMethod" l;
  vAuthenticationRequired ← getString "authenticationRequired" l;
  vUsername ← getString "username" l;
  vPassword ← getString "password" l;
  vPasswordConfirmation ← getString "passwordConfirmation" l;
  vLogLevel ← getString "logLevel" l;
  vConsoleLogLevel ← getString "consoleLogLevel" l;
  vBranch ← getString "branch" l;
  vApiKey ← getString "apiKey" l;
  vSslCertPath ← getString "sslCertPath" l;
  vSslCertPassword ← getString "sslCertPassword" l;
  vUrlBase ← getString "urlBase" l;
  vInstanceName ← getString "instanceName" l;
  vUpdateAutomatically ← getBool "updateAutomatically" l;
  vUpdateMechanism ← getString "updateMechanism" l;
  vUpdateScriptPath ← getString "updateScriptPath" l;
  vProxyEnabled ← getBool "proxyEnabled" l;
  vProxyType ← getString "proxyType" l;
  vProxyHostname ← getString "proxyHostname" l;
  vProxyPort ← getInt "proxyPort" l;
  vProxyUsername ← getString "proxyUsername" l;
  vProxyPassword ← getString "proxyPassword" l;
  vProxyBypassFilter ← getString "proxyBypassFilter" l;
  vProxyBypassLocalAddresses ← getBool "proxyBypassLocalAddresses" l;
  vCertificateValidation ← getString "certificateValidation" l;
  vBackupFolder ← getString "backupFolder" l;
  vBackupInterval ← getInt "backupInterval" l;
  vBackupRetention ← getInt "backupRetention" l;
  Some (mkHostConfigResource vID vBindAddress vPort vSslPort vEnableSsl vLaunchBrowser vAuthenticationMethod vAuthenticationRequired vUsername vPassword vPasswordConfirmation vLogLevel vConsoleLogLevel vBranch vApiKey vSslCertPath vSslCertPassword vUrlBase vInstanceName vUpdateAutomatically vUpdateMechanism vUpdateScriptPath vProxyEnabled vProxyType vProxyHostname vProxyPort vProxyUsername vProxyPassword vProxyBypassFilter vProxyBypassLocalAddresses vCertificateValidation vBackupFolder vBackupInterval vBackupRetention)).

#[export] Instance ToJSON_HostConfigResource : ToJSON HostConfigResource := λ r, VMap (omitIf (hc_ID r =? 0) "id" (VInt (hc_ID r)) ++
  [("bindAddress", VString (hc_BindAddress r));
   ("port", VInt (hc_Port r));
   ("sslPort", VInt (hc_SslPort r));
   ("enableSsl", VBool (hc_EnableSsl r));
   ("launchBrowser", VBool (hc_LaunchBrowser r));
   ("authenticationMethod", VString (hc_AuthenticationMethod r));
   ("authenticationRequired", VString (hc_AuthenticationRequired r))] ++
  omitIf (String.eqb (hc_Username r) "") "username" (VString (hc_Username r)) ++
  omitIf (String.eqb (hc_Password r) "") "password" (VString (hc_Password r)) ++
  omitIf (String.eqb (hc_PasswordConfirmation r) "") "passwordConfirmation" (VString (hc_PasswordConfirmation r)) ++
  [("logLevel", VString (hc_LogLevel r));
   ("consoleLogLevel", VString (hc_ConsoleLogLevel r));
   ("branch", VString (hc_Branch r));
   ("apiKey", VString (hc_ApiKey r));
   ("sslCertPath", VString (hc_SslCertPath r));
   ("sslCertPassword", VString (hc_SslCertPassword r));
   ("urlBase", VString (hc_UrlBase r));
   ("instanceName", VString (hc_InstanceName r));
   ("updateAutomatically", VBool (hc_UpdateAutomatically r));
   ("updateMechanism", VString (hc_UpdateMechanism r));
   ("updateScriptPath", VString (hc_UpdateScriptPath r));
   ("proxyEnabled", VBool (hc_ProxyEnabled r));
   ("proxyType", VString (hc_ProxyType r));
   ("proxyHostname", VString (hc_ProxyHostname r));
   ("proxyPort", VInt (hc_ProxyPort r));
   ("proxyUsername", VString (hc_ProxyUsername r));
   ("proxyPassword", VString (hc_ProxyPassword r));
   ("proxyBypassFilter", VString (hc_ProxyBypassFilter r));
   ("proxyBypassLocalAddresses", VBool (hc_ProxyBypassLocalAddresses r));
   ("certificateValidation", VString (hc_CertificateValidation r));
   ("backupFolder", VString (hc_BackupFolder r));
   ("backupInterval", VInt (hc_BackupInterval r));
   ("backupRetention", VInt (hc_BackupRetention r))]).

(** ** sonarr *)

Record Quality := mkQuality {
  ql_ID : Z;
  ql_Name : string;
  ql_Source : string;
  ql_Resolution : Z }.

#[export] Instance FromJSON_Quality : FromJSON Quality := asStruct (λ l,
  vID ← getInt "id" l;
  vName ← getString "name" l;
  vSource ← getString "source" l;
  vResolution ← getInt "resolution" l;
  Some (mkQuality vID vName vSource vResolution)).

#[export] Instance ToJSON_Quality : ToJSON Quality := λ r, VMap ([("id", VInt (ql_ID r));
   ("name", VString (ql_Name r));
   ("source", VString (ql_Source r));
   ("resolution", VInt (ql_Resolution r))]).

(** A quality of a profile; groups nest further items. *)
#[warnings="-register-all"]
Inductive QualityProfileItem := mkQualityProfileItem {
  qi_ID : Z;
  qi_Name : string;
  qi_Quality : option Quality;
  qi_Items : list QualityProfileItem;
  qi_Allowed : bool }.

(** The nesting depth of a document bounds the recursion of the decoder. *)
Fixpoint depth (v : any) : nat :=
  match v with
  | VList l => S (foldr (λ x n, Nat.max (depth x) n) O l)
  | VMap l => S (foldr (λ '(_, x) n, Nat.max (depth x) n) O l)
  | _ => O
  end.

Fixpoint decodeQualityProfileItem (fuel : nat) (v : any) : option QualityProfileItem :=
  match fuel with
  | O => None
  | S fuel => asStruct (λ l,
      vID ← getInt "id" l;
      vName ← getString "name" l;
      vQuality ← getPtr fromJSON "quality" l;
      vItems ← getSlice (decodeQualityProfileItem fuel) "items" l;
      vAllowed ← getBool "allowed" l;
      Some (mkQualityProfileItem vID vName vQuality vItems vAllowed)) v
  end.

#[export] Instance FromJSON_QualityProfileItem : FromJSON QualityProfileItem :=
  λ v, decodeQualityProfileItem (S (depth v)) v.

Fixpoint encodeQualityProfileItem (i : QualityProfileItem) : any :=
  let '(mkQualityProfileItem id name quality items allowed) := i in
  VMap (omitIf (id =? 0) "id" (VInt id) ++
        omitIf (String.eqb name "") "name" (VString name) ++
        match quality with Some q => [("quality", toJSON q)] | None => [] end ++
        match items with [] => [] | _ => [("items", VList (map encodeQualityProfileItem items))] end ++
        [("allowed", VBool allowed)]).

#[export] Instance ToJSON_QualityProfileItem : ToJSON QualityProfileItem := encodeQualityProfileItem.

Record ProfileFormatItem := mkProfileFormatItem {
  pfi_Format : Z;
  pfi_Score : Z }.

#[export] Instance FromJSON_ProfileFormatItem : FromJSON ProfileFormatItem := asStruct (λ l,
  vFormat ← getInt "format" l;
  vScore ← getInt "score" l;
  Some (mkProfileFormatItem vFormat vScore)).

#[export] Instance ToJSON_ProfileFormatItem : ToJSON ProfileFormatItem := λ r, VMap ([("format", VInt (pfi_Format r));
   ("score", VInt (pfi_Score r))]).

Record QualityProfileResource := mkQualityProfileResource {
  qp_ID : Z;
  qp_Name : string;
  qp_UpgradeAllowed : bool;
  qp_Cutoff : Z;
  qp_Items : list QualityProfileItem;
  qp_FormatItems : list ProfileFormatItem;
  qp_MinFormatScore : Z;
  qp_MinUpgradeFormatScore : Z;
  qp_CutoffFormatScore : Z }.

#[export] Instance FromJSON_QualityProfileResource : FromJSON QualityProfileResource := asStruct (λ l,
  vID ← getInt "id" l;
  vName ← getString "name" l;
  vUpgradeAllowed ← getBool "upgradeAllowed" l;
  vCutoff ← getInt "cutoff" l;
  vItems ← getSlice fromJSON "items" l;
  vFormatItems ← getSlice fromJSON "formatItems" l;
  vMinFormatScore ← getInt "minFormatScore" l;
  vMinUpgradeFormatScore ← getInt "minUpgradeFormatScore" l;
  vCutoffFormatScore ← getInt "cutoffFormatScore" l;
  Some (mkQualityProfileResource vID vName vUpgradeAllowed vCutoff vItems vFormatItems vMinFormatScore vMinUpgradeFormatScore vCutoffFormatScore)).

#[export] Instance ToJSON_QualityProfileResource : ToJSON QualityProfileResource := λ r, VMap (omitIf (qp_ID r =? 0) "id" (VInt (qp_ID r)) ++
  [("name", VString (qp_Name r));
   ("upgradeAllowed", VBool (qp_UpgradeAllowed r));
   ("cutoff", VInt (qp_Cutoff r));
   ("items", VList (toJSON <$> qp_Items r));
   ("formatItems", VList (toJSON <$> qp_FormatItems r));
   ("minFormatScore", VInt (qp_MinFormatScore r));
   ("minUpgradeFormatScore", VInt (qp_MinUpgradeFormatScore r));
   ("cutoffFormatScore", VInt (qp_CutoffFormatScore r))]).

Record DownloadClientResource := mkDownloadClientResource {
  dcr_ID : Z;
  dcr_Name : string;
  dcr_Implementation : string;
  dcr_ConfigContract : string;
  dcr_Protocol : string;
  dcr_Enable : bool;
  dcr_Priority : Z;
  dcr_Tags : list Z;
  dcr_Fields : list Field;
  dcr_RemoveCompletedDownloads : bool;
  dcr_RemoveFailedDownloads : bool }.

#[export] Instance FromJSON_DownloadClientResource : FromJSON DownloadClientResource := asStruct (λ l,
  vID ← getInt "id" l;
  vName ← getString "name" l;
  vImplementation ← getString "implementation" l;
  vConfigContract ← getString "configContract" l;
  vProtocol ← getString "protocol" l;
  vEnable ← getBool "enable" l;
  vPriority ← getInt "priority" l;
  vTags ← getSlice asIntElem "tags" l;
  vFields ← getSlice fromJSON "fields" l;
  vRemoveCompletedDownloads ← getBool "removeCompletedDownloads" l;
  vRemoveFailedDownloads ← getBool "removeFailedDownloads" l;
  Some (mkDownloadClientResource vID vName vImplementation vConfigContract vProtocol vEnable vPriority vTags vFields vRemoveCompletedDownloads vRemoveFailedDownloads)).

#[export] Instance ToJSON_DownloadClientResource : ToJSON DownloadClientResource := λ r, VMap (omitIf (dcr_ID r =? 0) "id" (VInt (dcr_ID r)) ++
  [("name", VString (dcr_Name r));
   ("implementation", VString (dcr_Implementation r));
   ("configContract", VString (dcr_ConfigContract r));
   ("protocol", VString (dcr_Protocol r));
   ("enable", VBool (dcr_Enable r));
   ("priority", VInt (dcr_Priority r));
   ("tags", VList (VInt <$> dcr_Tags r));
   ("fields", VList (toJSON <$> dcr_Fields r));
   ("removeCompletedDownloads", VBool (dcr_RemoveCompletedDownloads r));
   ("removeFailedDownloads", VBool (dcr_RemoveFailedDownloads r))]).

Record IndexerResource := mkIndexerResource {
  ixr_ID : Z;
  ixr_Name : string;
  ixr_Implementation : string;
  ixr_ConfigContract : string;
  ixr_Protocol : string;
  ixr_Enable : bool;
  ixr_Priority : Z;
  ixr_Tags : list Z;
  ixr_Fields : list Field;
  ixr_EnableRss : bool;
  ixr_EnableAutomaticSearch : bool;
  ixr_EnableInteractiveSearch : bool;
  ixr_SeasonSearchMaximumSingleEpisodeAge : Z }.

#[export] Instance FromJSON_IndexerResource : FromJSON IndexerResource := asStruct (λ l,
  vID ← getInt "id" l;
  vName ← getString "name" l;
  vImplementation ← getString "implementation" l;
  vConfigContract ← getString "configContract" l;
  vProtocol ← getString "protocol" l;
  vEnable ← getBool "enable" l;
  vPriority ← getInt "priority" l;
  vTags ← getSlice asIntElem "tags" l;
  vFields ← getSlice fromJSON "fields" l;
  vEnableRss ← getBool "enableRss" l;
  vEnableAutomaticSearch ← getBool "enableAutomaticSearch" l;
  vEnableInteractiveSearch ← getBool "enableInteractiveSearch" l;
  vSeasonSearchMaximumSingleEpisodeAge ← getInt "seasonSearchMaximumSingleEpisodeAge" l;
  Some (mkIndexerResource vID vName vImplementation vConfigContract vProtocol vEnable vPriority vTags vFields vEnableRss vEnableAutomaticSearch vEnableInteractiveSearch vSeasonSearchMaximumSingleEpisodeAge)).

#[export] Instance ToJSON_IndexerResource : ToJSON IndexerResource := λ r, VMap (omitIf (ixr_ID r =? 0) "id" (VInt (ixr_ID r)) ++
  [("name", VString (ixr_Name r));
   ("implementation", VString (ixr_Implementation r));
   ("configContract", VString (ixr_ConfigContract r));
   ("protocol", VString (ixr_Protocol r));
   ("enable", VBool (ixr_Enable r));
   ("priority", VInt (ixr_Priority r));
   ("tags", VList (VInt <$> ixr_Tags r));
   ("fields", VList (toJSON <$> ixr_Fields r));
   ("enableRss", VBool (ixr_EnableRss r));
   ("enableAutomaticSearch", VBool (ixr_EnableAutomaticSearch r));
   ("enableInteractiveSearch", VBool (ixr_EnableInteractiveSearch r));
   ("seasonSearchMaximumSingleEpisodeAge", VInt (ixr_SeasonSearchMaximumSingleEpisodeAge r))]).

Record RootFolderResource := mkRootFolderResource {
  rfr_ID : Z;
  rfr_Path : string }.

#[export] Instance FromJSON_RootFolderResource : FromJSON RootFolderResource := asStruct (λ l,
  vID ← getInt "id" l;
  vPath ← getString "path" l;
  Some (mkRootFolderResource vID vPath)).

#[export] Instance ToJSON_RootFolderResource : ToJSON RootFolderResource := λ r, VMap (omitIf (rfr_ID r =? 0) "id" (VInt (rfr_ID r)) ++
  [("path", VString (rfr_Path r))]).

Record NamingConfigResource := mkNamingConfigResource {
  ncr_ID : Z;
  ncr_RenameEpisodes : bool;
  ncr_ReplaceIllegalCharacters : bool;
  ncr_StandardEpisodeFormat : string;
  ncr_DailyEpisodeFormat : string;
  ncr_AnimeEpisodeFormat : string;
  ncr_SeriesFolderFormat : string;
  ncr_SeasonFolderFormat : string;
  ncr_SpecialsFolderFormat : string;
  ncr_MultiEpisodeStyle : Z }.

#[export] Instance FromJSON_NamingConfigResource : FromJSON NamingConfigResource := asStruct (λ l,
  vID ← getInt "id" l;
  vRenameEpisodes ← getBool "renameEpisodes" l;
  vReplaceIllegalCharacters ← getBool "replaceIllegalCharacters" l;
  vStandardEpisodeFormat ← getString "standardEpisodeFormat" l;
  vDailyEpisodeFormat ← getString "dailyEpisodeFormat" l;
  vAnimeEpisodeFormat ← getString "animeEpisodeFormat" l;
  vSeriesFolderFormat ← getString "seriesFolderFormat" l;
  vSeasonFolderFormat ← getString "seasonFolderFormat" l;
  vSpecialsFolderFormat ← getString "specialsFolderFormat" l;
  vMultiEpisodeStyle ← getInt "multiEpisodeStyle" l;
  Some (mkNamingConfigResource vID vRenameEpisodes vReplaceIllegalCharacters vStandardEpisodeFormat vDailyEpisodeFormat vAnimeEpisodeFormat vSeriesFolderFormat vSeasonFolderFormat vSpecialsFolderFormat vMultiEpisodeStyle)).

#[export] Instance ToJSON_NamingConfigResource : ToJSON NamingConfigResource := λ r, VMap (omitIf (ncr_ID r =? 0) "id" (VInt (ncr_ID r)) ++
  [("renameEpisodes", VBool (ncr_RenameEpisodes r));
   ("replaceIllegalCharacters", VBool (ncr_ReplaceIllegalCharacters r));
   ("standardEpisodeFormat", VString (ncr_StandardEpisodeFormat r));
   ("dailyEpisodeFormat", VString (ncr_DailyEpisodeFormat r));
   ("animeEpisodeFormat", VString (ncr_AnimeEpisodeFormat r));
   ("seriesFolderFormat", VString (ncr_SeriesFolderFormat r));
   ("seasonFolderFormat", VString (ncr_SeasonFolderFormat r));
   ("specialsFolderFormat", VString (ncr_SpecialsFolderFormat r));
   ("multiEpisodeStyle", VInt (ncr_MultiEpisodeStyle r))]).

Record CustomFormatResource := mkCustomFormatResource {
  cfr_ID : Z;
  cfr_Name : string;
  cfr_IncludeCustomFormatWhenRenaming : bool;
  cfr_Specifications : list CustomFormatSpecification }.

#[export] Instance FromJSON_CustomFormatResource : FromJSON CustomFormatResource := asStruct (λ l,
  vID ← getInt "id" l;
  vName ← getString "name" l;
  vIncludeCustomFormatWhenRenaming ← getBool "includeCustomFormatWhenRenaming" l;
  vSpecifications ← getSlice fromJSON "specifications" l;
  Some (mkCustomFormatResource vID vName vIncludeCustomFormatWhenRenaming vSpecifications)).

#[export] Instance ToJSON_CustomFormatResource : ToJSON CustomFormatResource := λ r, VMap (omitIf (cfr_ID r =? 0) "id" (VInt (cfr_ID r)) ++
  [("name", VString (cfr_Name r));
   ("includeCustomFormatWhenRenaming", VBool (cfr_IncludeCustomFormatWhenRenaming r));
   ("specifications", VList (toJSON <$> cfr_Specifications r))]).

Record NotificationResource := mkNotificationResource {
  nr_ID : Z;
  nr_Name : string;
  nr_Implementation : string;
  nr_ConfigContract : string;
  nr_Tags : list Z;
  nr_Fields : list Field;
  nr_OnGrab : bool;
  nr_OnDownload : bool;
  nr_OnUpgrade : bool;
  nr_OnRename : bool;
  nr_OnSeriesAdd : bool;
  nr_OnSeriesDelete : bool;
  nr_OnEpisodeFileDelete : bool;
  nr_OnEpisodeFileDeleteForUpgrade : bool;
  nr_OnHealthIssue : bool;
  nr_OnHealthRestored : bool;
  nr_OnApplicationUpdate : bool;
  nr_OnManualInteractionRequired : bool;
  nr_IncludeHealthWarnings : bool }.

#[export] Instance FromJSON_NotificationResource : FromJSON NotificationResource := asStruct (λ l,
  vID ← getInt "id" l;
  vName ← getString "name" l;
  vImplementation ← getString "implementation" l;
  vConfigContract ← getString "configContract" l;
  vTags ← getSlice asIntElem "tags" l;
  vFields ← getSlice fromJSON "fields" l;
  vOnGrab ← getBool "onGrab" l;
  vOnDownload ← getBool "onDownload" l;
  vOnUpgrade ← getBool "onUpgrade" l;
  vOnRename ← getBool "onRename" l;
  vOnSeriesAdd ← getBool "onSeriesAdd" l;
  vOnSeriesDelete ← getBool "onSeriesDelete" l;
  vOnEpisodeFileDelete ← getBool "onEpisodeFileDelete" l;
  vOnEpisodeFileDeleteForUpgrade ← getBool "onEpisodeFileDeleteForUpgrade" l;
  vOnHealthIssue ← getBool "onHealthIssue" l;
  vOnHealthRestored ← getBool "onHealthRestored" l;
  vOnApplicationUpdate ← getBool "onApplicationUpdate" l;
  vOnManualInteractionRequired ← getBool "onManualInteractionRequired" l;
  vIncludeHealthWarnings ← getBool "includeHealthWarnings" l;
  Some (mkNotificationResource vID vName vImplementation vConfigContract vTags vFields vOnGrab vOnDownload vOnUpgrade vOnRename vOnSeriesAdd vOnSeriesDelete vOnEpisodeFileDelete vOnEpisodeFileDeleteForUpgrade vOnHealthIssue vOnHealthRestored vOnApplicationUpdate vOnManualInteractionRequired vIncludeHealthWarnings)).

#[export] Instance ToJSON_NotificationResource : ToJSON NotificationResource := λ r, VMap (omitIf (nr_ID r =? 0) "id" (VInt (nr_ID r)) ++
  [("name", VString (nr_Name r));
   ("implementation", VString (nr_Implementation r));
   ("configContract", VString (nr_ConfigContract r));
   ("tags", VList (VInt <$> nr_Tags r));
   ("fields", VList (toJSON <$> nr_Fields r));
   ("onGrab", VBool (nr_OnGrab r));
   ("onDownload", VBool (nr_OnDownload r));
   ("onUpgrade", VBool (nr_OnUpgrade r));
   ("onRename", VBool (nr_OnRename r));
   ("onSeriesAdd", VBool (nr_OnSeriesAdd r));
   ("onSeriesDelete", VBool (nr_OnSeriesDelete r));
   ("onEpisodeFileDelete", VBool (nr_OnEpisodeFileDelete r));
   ("onEpisodeFileDeleteForUpgrade", VBool (nr_OnEpisodeFileDeleteForUpgrade r));
   ("onHealthIssue", VBool (nr_OnHealthIssue r));
   ("onHealthRestored", VBool (nr_OnHealthRestored r));
   ("onApplicationUpdate", VBool (nr_OnApplicationUpdate r));
   ("onManualInteractionRequired", VBool (nr_OnManualInteractionRequired r));
   ("includeHealthWarnings", VBool (nr_IncludeHealthWarnings r))]).

Record ImportListResource := mkImportListResource {
  ilr_ID : Z;
  ilr_Name : string;
  ilr_Implementation : string;
  ilr_ConfigContract : string;
  ilr_EnableAutomaticAdd : bool;
  ilr_SearchForMissingEpisodes : bool;
  ilr_QualityProfileID : Z;
  ilr_RootFolderPath : string;
  ilr_ShouldMonitor : string;
  ilr_SeriesType : string;
  ilr_SeasonFolder : bool;
  ilr_ListType : string;
  ilr_ListOrder : Z;
  ilr_Tags : list Z;
  ilr_Fields : list Field }.

#[export] Instance FromJSON_ImportListResource : FromJSON ImportListResource := asStruct (λ l,
  vID ← getInt "id" l;
  vName ← getString "name" l;
  vImplementation ← getString "implementation" l;
  vConfigContract ← getString "configContract" l;
  vEnableAutomaticAdd ← getBool "enableAutomaticAdd" l;
  vSearchForMissingEpisodes ← getBool "searchForMissingEpisodes" l;
  vQualityProfileID ← getInt "qualityProfileId" l;
  vRootFolderPath ← getString "rootFolderPath" l;
  vShouldMonitor ← getString "shouldMonitor" l;
  vSeriesType ← getString "seriesType" l;
  vSeasonFolder ← getBool "seasonFolder" l;
  vListType ← getString "listType" l;
  vListOrder ← getInt "listOrder" l;
  vTags ← getSlice asIntElem "tags" l;
  vFields ← getSlice fromJSON "fields" l;
  Some (mkImportListResource vID vName vImplementation vConfigContract vEnableAutomaticAdd vSearchForMissingEpisodes vQualityProfileID vRootFolderPath vShouldMonitor vSeriesType vSeasonFolder vListType vListOrder vTags vFields)).

#[export] Instance ToJSON_ImportListResource : ToJSON ImportListResource := λ r, VMap (omitIf (ilr_ID r =? 0) "id" (VInt (ilr_ID r)) ++
  [("name", VString (ilr_Name r));
   ("implementation", VString (ilr_Implementation r));
   ("configContract", VString (ilr_ConfigContract r));
   ("enableAutomaticAdd", VBool (ilr_EnableAutomaticAdd r));
   ("searchForMissingEpisodes", VBool (ilr_SearchForMissingEpisodes r));
   ("qualityProfileId", VInt (ilr_QualityProfileID r));
   ("rootFolderPath", VString (ilr_RootFolderPath r));
   ("shouldMonitor", VString (ilr_ShouldMonitor r));
   ("seriesType", VString (ilr_SeriesType r));
   ("seasonFolder", VBool (ilr_SeasonFolder r));
   ("listType", VString (ilr_ListType r));
   ("listOrder", VInt (ilr_ListOrder r));
   ("tags", VList (VInt <$> ilr_Tags r));
   ("fields", VList (toJSON <$> ilr_Fields r))]).

Record MediaManagementConfigResource := mkMediaManagementConfigResource {
  mmr_ID : Z;
  mmr_RecycleBin : string;
  mmr_RecycleBinCleanupDays : Z;
  mmr_SetPermissionsLinux : bool;
  mmr_ChmodFolder : string;
  mmr_ChownGroup : string;
  mmr_DeleteEmptyFolders : bool;
  mmr_CreateEmptySeriesFolders : bool;
  mmr_CopyUsingHardlinks : bool;
  mmr_ImportExtraFiles : bool;
  mmr_ExtraFileExtensions : string;
  mmr_DownloadPropersAndRepacks : string;
  mmr_EnableMediaInfo : bool;
  mmr_MinimumFreeSpaceWhenImporting : Z;
  mmr_RescanAfterRefresh : string;
  mmr_FileDate : string;
  mmr_SkipFreeSpaceCheckWhenImporting : bool }.

#[export] Instance FromJSON_MediaManagementConfigResource : FromJSON MediaManagementConfigResource := asStruct (λ l,
  vID ← getInt "id" l;
  vRecycleBin ← getString "recycleBin" l;
  vRecycleBinCleanupDays ← getInt "recycleBinCleanupDays" l;
  vSetPermissionsLinux ← getBool "setPermissionsLinux" l;
  vChmodFolder ← getString "chmodFolder" l;
  vChownGroup ← getString "chownGroup" l;
  vDeleteEmptyFolders ← getBool "deleteEmptyFolders" l;
  vCreateEmptySeriesFolders ← getBool "createEmptySeriesFolders" l;
  vCopyUsingHardlinks ← getBool "copyUsingHardlinks" l;
  vImportExtraFiles ← getBool "importExtraFiles" l;
  vExtraFileExtensions ← getString "extraFileExtensions" l;
  vDownloadPropersAndRepacks ← getString "downloadPropersAndRepacks" l;
  vEnableMediaInfo ← getBool "enableMediaInfo" l;
  vMinimumFreeSpaceWhenImporting ← getInt "minimumFreeSpaceWhenImporting" l;
  vRescanAfterRefresh ← getString "rescanAfterRefresh" l;
  vFileDate ← getString "fileDate" l;
  vSkipFreeSpaceCheckWhenImporting ← getBool "skipFreeSpaceCheckWhenImporting" l;
  Some (mkMediaManagementConfigResource vID vRecycleBin vRecycleBinCleanupDays vSetPermissionsLinux vChmodFolder vChownGroup vDeleteEmptyFolders vCreateEmptySeriesFolders vCopyUsingHardlinks vImportExtraFiles vExtraFileExtensions vDownloadPropersAndRepacks vEnableMediaInfo vMinimumFreeSpaceWhenImporting vRescanAfterRefresh vFileDate vSkipFreeSpaceCheckWhenImporting)).

#[export] Instance ToJSON_MediaManagementConfigResource : ToJSON MediaManagementConfigResource := λ r, VMap (omitIf (mmr_ID r =? 0) "id" (VInt (mmr_ID r)) ++
  [("recycleBin", VString (mmr_RecycleBin r));
   ("recycleBinCleanupDays", VInt (mmr_RecycleBinCleanupDays r));
   ("setPermissionsLinux", VBool (mmr_SetPermissionsLinux r));
   ("chmodFolder", VString (mmr_ChmodFolder r));
   ("chownGroup", VString (mmr_ChownGroup r));
   ("deleteEmptyFolders", VBool (mmr_DeleteEmptyFolders r));
   ("createEmptySeriesFolders", VBool (mmr_CreateEmptySeriesFolders r));
   ("copyUsingHardlinks", VBool (mmr_CopyUsingHardlinks r));
   ("importExtraFiles", VBool (mmr_ImportExtraFiles r));
   ("extraFileExtensions", VString (mmr_ExtraFileExtensions r));
   ("downloadPropersAndRepacks", VString (mmr_DownloadPropersAndRepacks r));
   ("enableMediaInfo", VBool (mmr_EnableMediaInfo r));
   ("minimumFreeSpaceWhenImporting", VInt (mmr_MinimumFreeSpaceWhenImporting r));
   ("rescanAfterRefresh", VString (mmr_RescanAfterRefresh r));
   ("fileDate", VString (mmr_FileDate r));
   ("skipFreeSpaceCheckWhenImporting", VBool (mmr_SkipFreeSpaceCheckWhenImporting r))]).

