(* ===== verification/ResourcesV1.v ===== *)
(** * The resources of the APIs of version 1 (lidarr and readarr)

    The structs that the adapters of Lidarr and Readarr exchange with their services,
    where they differ from those of Sonarr in [Resources], with their decoding and
    encoding by the struct tags.  The two packages declare the same nested items of a
    quality profile; they differ in whether an empty list of items is written. *)
From S2P Require Export Resources.

(** ** The items of a quality profile *)

Record NamedQuality := mkNamedQuality {
  nq_ID : Z;
  nq_Name : string }.

#[export] Instance FromJSON_NamedQuality : FromJSON NamedQuality := asStruct (λ l,
  vID ← getInt "id" l;
  vName ← getString "name" l;
  Some (mkNamedQuality vID vName)).

#[export] Instance ToJSON_NamedQuality : ToJSON NamedQuality := λ r, VMap ([("id", VInt (nq_ID r));
   ("name", VString (nq_Name r))]).

#[warnings="-register-all"]
Inductive NamedItem := mkNamedItem {
  ni_ID : Z;
  ni_Name : string;
  ni_Quality : option NamedQuality;
  ni_Items : list NamedItem;
  ni_Allowed : bool }.

Fixpoint decodeNamedItem (fuel : nat) (v : any) : option NamedItem :=
  match fuel with
  | O => None
  | S fuel => asStruct (λ l,
      vID ← getInt "id" l;
      vName ← getString "name" l;
      vQuality ← getPtr fromJSON "quality" l;
      vItems ← getSlice (decodeNamedItem fuel) "items" l;
      vAllowed ← getBool "allowed" l;
      Some (mkNamedItem vID vName vQuality vItems vAllowed)) v
  end.

#[export] Instance FromJSON_NamedItem : FromJSON NamedItem := λ v, decodeNamedItem (S (depth v)) v.

(** [always] writes an empty list of items, too. *)
Fixpoint encodeNamedItem (always : bool) (i : NamedItem) : any :=
  let '(mkNamedItem id name quality items allowed) := i in
  VMap (omitIf (id =? 0) "id" (VInt id) ++
        omitIf (String.eqb name "") "name" (VString name) ++
        match quality with Some q => [("quality", toJSON q)] | None => [] end ++
        omitIf (negb always && Nat.eqb (length items) 0) "items" (VList (map (encodeNamedItem always) items)) ++
        [("allowed", VBool allowed)]).

(** ** readarr/types.go *)

Record ReadarrDownloadClientResource := mkReadarrDownloadClientResource {
  rdc_ID : Z;
  rdc_Name : string;
  rdc_Implementation : string;
  rdc_Protocol : string;
  rdc_Enable : bool;
  rdc_Priority : Z;
  rdc_Tags : list Z;
  rdc_Fields : list Field }.

#[export] Instance FromJSON_ReadarrDownloadClientResource : FromJSON ReadarrDownloadClientResource := asStruct (λ l,
  vID ← getInt "id" l;
  vName ← getString "name" l;
  vImplementation ← getString "implementation" l;
  vProtocol ← getString "protocol" l;
  vEnable ← getBool "enable" l;
  vPriority ← getInt "priority" l;
  vTags ← getSlice asIntElem "tags" l;
  vFields ← getSlice fromJSON "fields" l;
  Some (mkReadarrDownloadClientResource vID vName vImplementation vProtocol vEnable vPriority vTags vFields)).

#[export] Instance ToJSON_ReadarrDownloadClientResource : ToJSON ReadarrDownloadClientResource := λ r, VMap ([("id", VInt (rdc_ID r));
   ("name", VString (rdc_Name r));
   ("implementation", VString (rdc_Implementation r));
   ("protocol", VString (rdc_Protocol r));
   ("enable", VBool (rdc_Enable r));
   ("priority", VInt (rdc_Priority r))] ++
  omitIf (Nat.eqb (length (rdc_Tags r)) 0) "tags" (VList (VInt <$> rdc_Tags r)) ++
  omitIf (Nat.eqb (length (rdc_Fields r)) 0) "fields" (VList (toJSON <$> rdc_Fields r))).

Record ReadarrIndexerResource := mkReadarrIndexerResource {
  rix_ID : Z;
  rix_Name : string;
  rix_Implementation : string;
  rix_Protocol : string;
  rix_Enable : bool;
  rix_Priority : Z;
  rix_Tags : list Z;
  rix_Fields : list Field }.

#[export] Instance FromJSON_ReadarrIndexerResource : FromJSON ReadarrIndexerResource := asStruct (λ l,
  vID ← getInt "id" l;
  vName ← getString "name" l;
  vImplementation ← getString "implementation" l;
  vProtocol ← getString "protocol" l;
  vEnable ← getBool "enable" l;
  vPriority ← getInt "priority" l;
  vTags ← getSlice asIntElem "tags" l;
  vFields ← getSlice fromJSON "fields" l;
  Some (mkReadarrIndexerResource vID vName vImplementation vProtocol vEnable vPriority vTags vFields)).

#[export] Instance ToJSON_ReadarrIndexerResource : ToJSON ReadarrIndexerResource := λ r, VMap ([("id", VInt (rix_ID r));
   ("name", VString (rix_Name r));
   ("implementation", VString (rix_Implementation r));
   ("protocol", VString (rix_Protocol r));
   ("enable", VBool (rix_Enable r));
   ("priority", VInt (rix_Priority r))] ++
  omitIf (Nat.eqb (length (rix_Tags r)) 0) "tags" (VList (VInt <$> rix_Tags r)) ++
  omitIf (Nat.eqb (length (rix_Fields r)) 0) "fields" (VList (toJSON <$> rix_Fields r))).

Record ReadarrRootFolderResource := mkReadarrRootFolderResource {
  rrf_ID : Z;
  rrf_Path : string;
  rrf_Name : string;
  rrf_DefaultMetadataProfileId : Z;
  rrf_DefaultQualityProfileId : Z;
  rrf_DefaultMonitorOption : string;
  rrf_DefaultNewItemMonitorOption : string;
  rrf_DefaultTags : list Z;
  rrf_IsCalibreLibrary : bool;
  rrf_Host : string;
  rrf_Port : Z;
  rrf_UrlBase : string;
  rrf_Username : string;
  rrf_Password : string;
  rrf_Library : string;
  rrf_OutputFormat : string;
  rrf_OutputProfile : Z;
  rrf_UseSsl : bool }.

#[export] Instance FromJSON_ReadarrRootFolderResource : FromJSON ReadarrRootFolderResource := asStruct (λ l,
  vID ← getInt "id" l;
  vPath ← getString "path" l;
  vName ← getString "name" l;
  vDefaultMetadataProfileId ← getInt "defaultMetadataProfileId" l;
  vDefaultQualityProfileId ← getInt "defaultQualityProfileId" l;
  vDefaultMonitorOption ← getString "defaultMonitorOption" l;
  vDefaultNewItemMonitorOption ← getString "defaultNewItemMonitorOption" l;
  vDefaultTags ← getSlice asIntElem "defaultTags" l;
  vIsCalibreLibrary ← getBool "isCalibreLibrary" l;
  vHost ← getString "host" l;
  vPort ← getInt "port" l;
  vUrlBase ← getString "urlBase" l;
  vUsername ← getString "username" l;
  vPassword ← getString "password" l;
  vLibrary ← getString "library" l;
  vOutputFormat ← getString "outputFormat" l;
  vOutputProfile ← getInt "outputProfile" l;
  vUseSsl ← getBool "useSsl" l;
  Some (mkReadarrRootFolderResource vID vPath vName vDefaultMetadataProfileId vDefaultQualityProfileId vDefaultMonitorOption vDefaultNewItemMonitorOption vDefaultTags vIsCalibreLibrary vHost vPort vUrlBase vUsername vPassword vLibrary vOutputFormat vOutputProfile vUseSsl)).

#[export] Instance ToJSON_ReadarrRootFolderResource : ToJSON ReadarrRootFolderResource := λ r, VMap ([("id", VInt (rrf_ID r));
   ("path", VString (rrf_Path r))] ++
  omitIf (String.eqb (rrf_Name r) "") "name" (VString (rrf_Name r)) ++
  omitIf (rrf_DefaultMetadataProfileId r =? 0) "defaultMetadataProfileId" (VInt (rrf_DefaultMetadataProfileId r)) ++
  omitIf (rrf_DefaultQualityProfileId r =? 0) "defaultQualityProfileId" (VInt (rrf_DefaultQualityProfileId r)) ++
  omitIf (String.eqb (rrf_DefaultMonitorOption r) "") "defaultMonitorOption" (VString (rrf_DefaultMonitorOption r)) ++
  omitIf (String.eqb (rrf_DefaultNewItemMonitorOption r) "") "defaultNewItemMonitorOption" (VString (rrf_DefaultNewItemMonitorOption r)) ++
  omitIf (Nat.eqb (length (rrf_DefaultTags r)) 0) "defaultTags" (VList (VInt <$> rrf_DefaultTags r)) ++
  omitIf (negb (rrf_IsCalibreLibrary r)) "isCalibreLibrary" (VBool (rrf_IsCalibreLibrary r)) ++
  omitIf (String.eqb (rrf_Host r) "") "host" (VString (rrf_Host r)) ++
  omitIf (rrf_Port r =? 0) "port" (VInt (rrf_Port r)) ++
  omitIf (String.eqb (rrf_UrlBase r) "") "urlBase" (VString (rrf_UrlBase r)) ++
  omitIf (String.eqb (rrf_Username r) "") "username" (VString (rrf_Username r)) ++
  omitIf (String.eqb (rrf_Password r) "") "password" (VString (rrf_Password r)) ++
  omitIf (String.eqb (rrf_Library r) "") "library" (VString (rrf_Library r)) ++
  omitIf (String.eqb (rrf_OutputFormat r) "") "outputFormat" (VString (rrf_OutputFormat r)) ++
  omitIf (rrf_OutputProfile r =? 0) "outputProfile" (VInt (rrf_OutputProfile r)) ++
  omitIf (negb (rrf_UseSsl r)) "useSsl" (VBool (rrf_UseSsl r))).

Record ReadarrQualityProfileResource := mkReadarrQualityProfileResource {
  rqp_ID : Z;
  rqp_Name : string;
  rqp_UpgradeAllowed : bool;
  rqp_Cutoff : Z;
  rqp_Items : list NamedItem }.

#[export] Instance FromJSON_ReadarrQualityProfileResource : FromJSON ReadarrQualityProfileResource := asStruct (λ l,
  vID ← getInt "id" l;
  vName ← getString "name" l;
  vUpgradeAllowed ← getBool "upgradeAllowed" l;
  vCutoff ← getInt "cutoff" l;
  vItems ← getSlice fromJSON "items" l;
  Some (mkReadarrQualityProfileResource vID vName vUpgradeAllowed vCutoff vItems)).

(** The items are appended to a nil slice, which is written as [null]. *)
#[export] Instance ToJSON_ReadarrQualityProfileResource : ToJSON ReadarrQualityProfileResource := λ r, VMap ([("id", VInt (rqp_ID r));
   ("name", VString (rqp_Name r));
   ("upgradeAllowed", VBool (rqp_UpgradeAllowed r));
   ("cutoff", VInt (rqp_Cutoff r));
   ("items", match rqp_Items r with [] => VNil | l => VList (encodeNamedItem false <$> l) end)]).

Record MetadataProfileResource := mkMetadataProfileResource {
  mpr_ID : Z;
  mpr_Name : string;
  mpr_MinPopularity : float64;
  mpr_SkipMissingDate : bool;
  mpr_SkipMissingIsbn : bool;
  mpr_SkipPartsAndSets : bool;
  mpr_SkipSeriesSecondary : bool;
  mpr_AllowedLanguages : string }.

#[export] Instance FromJSON_MetadataProfileResource : FromJSON MetadataProfileResource := asStruct (λ l,
  vID ← getInt "id" l;
  vName ← getString "name" l;
  vMinPopularity ← getFloat "minPopularity" l;
  vSkipMissingDate ← getBool "skipMissingDate" l;
  vSkipMissingIsbn ← getBool "skipMissingIsbn" l;
  vSkipPartsAndSets ← getBool "skipPartsAndSets" l;
  vSkipSeriesSecondary ← getBool "skipSeriesSecondary" l;
  vAllowedLanguages ← getString "allowedLanguages" l;
  Some (mkMetadataProfileResource vID vName vMinPopularity vSkipMissingDate vSkipMissingIsbn vSkipPartsAndSets vSkipSeriesSecondary vAllowedLanguages)).

#[export] Instance ToJSON_MetadataProfileResource : ToJSON MetadataProfileResource := λ r, VMap ([("id", VInt (mpr_ID r));
   ("name", VString (mpr_Name r));
   ("minPopularity", toWire (VFloat (mpr_MinPopularity r)));
   ("skipMissingDate", VBool (mpr_SkipMissingDate r));
   ("skipMissingIsbn", VBool (mpr_SkipMissingIsbn r));
   ("skipPartsAndSets", VBool (mpr_SkipPartsAndSets r));
   ("skipSeriesSecondary", VBool (mpr_SkipSeriesSecondary r))] ++
  omitIf (String.eqb (mpr_AllowedLanguages r) "") "allowedLanguages" (VString (mpr_AllowedLanguages r))).

Record QualityDefinitionResource := mkQualityDefinitionResource {
  qdr_ID : Z;
  qdr_Quality : NamedQuality;
  qdr_Title : string;
  qdr_Weight : Z;
  qdr_MinSize : float64;
  qdr_MaxSize : float64 }.

#[export] Instance FromJSON_QualityDefinitionResource : FromJSON QualityDefinitionResource := asStruct (λ l,
  vID ← getInt "id" l;
  vQuality ← getStruct "quality" l;
  vTitle ← getString "title" l;
  vWeight ← getInt "weight" l;
  vMinSize ← getFloat "minSize" l;
  vMaxSize ← getFloat "maxSize" l;
  Some (mkQualityDefinitionResource vID vQuality vTitle vWeight vMinSize vMaxSize)).

(** ** lidarr/types.go, importlists.go, mediamanagement.go *)

Record LidarrQualityProfileResource := mkLidarrQualityProfileResource {
  lqp_ID : Z;
  lqp_Name : string;
  lqp_UpgradeAllowed : bool;
  lqp_Cutoff : Z;
  lqp_Items : list NamedItem;
  lqp_MinFormatScore : Z;
  lqp_CutoffFormatScore : Z;
  lqp_FormatItems : list any }.

#[export] Instance FromJSON_LidarrQualityProfileResource : FromJSON LidarrQualityProfileResource := asStruct (λ l,
  vID ← getInt "id" l;
  vName ← getString "name" l;
  vUpgradeAllowed ← getBool "upgradeAllowed" l;
  vCutoff ← getInt "cutoff" l;
  vItems ← getSlice fromJSON "items" l;
  vMinFormatScore ← getInt "minFormatScore" l;
  vCutoffFormatScore ← getInt "cutoffFormatScore" l;
  vFormatItems ← getSlice (λ v, Some (toInterface v)) "formatItems" l;
  Some (mkLidarrQualityProfileResource vID vName vUpgradeAllowed vCutoff vItems vMinFormatScore vCutoffFormatScore vFormatItems)).

#[export] Instance ToJSON_LidarrQualityProfileResource : ToJSON LidarrQualityProfileResource := λ r, VMap (omitIf (lqp_ID r =? 0) "id" (VInt (lqp_ID r)) ++
  [("name", VString (lqp_Name r));
   ("upgradeAllowed", VBool (lqp_UpgradeAllowed r));
   ("cutoff", VInt (lqp_Cutoff r));
   ("items", VList (encodeNamedItem true <$> lqp_Items r));
   ("minFormatScore", VInt (lqp_MinFormatScore r));
   ("cutoffFormatScore", VInt (lqp_CutoffFormatScore r));
   ("formatItems", VList (toWire <$> lqp_FormatItems r))]).

Record BaseIndexerResource := mkBaseIndexerResource {
  bix_ID : Z;
  bix_Name : string;
  bix_Implementation : string;
  bix_ConfigContract : string;
  bix_Protocol : string;
  bix_Enable : bool;
  bix_Priority : Z;
  bix_Tags : list Z;
  bix_Fields : list Field;
  bix_EnableRss : bool;
  bix_EnableAutomaticSearch : bool;
  bix_EnableInteractiveSearch : bool }.

#[export] Instance FromJSON_BaseIndexerResource : FromJSON BaseIndexerResource := asStruct (λ l,
  vID ← getInt "id" l;
  vName ← getString "name" l;
  vImplementation ← getString "implementation" l;
  vConfigContract ← getString "configContract" l;
  vProtocol ← getString "protocol" l;
  vEnable ← getBool "enable" l;
  vPriority ← getInt "priority" l;
  vTags ← getSlice asIntElem "tags" l;
  vFields ← getSlice fromJSON "fields" l;
  vEnableRss ← getBool "enableRss" l;
  vEnableAutomaticSearch ← getBool "enableAutomaticSearch" l;
  vEnableInteractiveSearch ← getBool "enableInteractiveSearch" l;
  Some (mkBaseIndexerResource vID vName vImplementation vConfigContract vProtocol vEnable vPriority vTags vFields vEnableRss vEnableAutomaticSearch vEnableInteractiveSearch)).

#[export] Instance ToJSON_BaseIndexerResource : ToJSON BaseIndexerResource := λ r, VMap (omitIf (bix_ID r =? 0) "id" (VInt (bix_ID r)) ++
  [("name", VString (bix_Name r));
   ("implementation", VString (bix_Implementation r));
   ("configContract", VString (bix_ConfigContract r));
   ("protocol", VString (bix_Protocol r));
   ("enable", VBool (bix_Enable r));
   ("priority", VInt (bix_Priority r));
   ("tags", VList (VInt <$> bix_Tags r));
   ("fields", VList (toJSON <$> bix_Fields r));
   ("enableRss", VBool (bix_EnableRss r));
   ("enableAutomaticSearch", VBool (bix_EnableAutomaticSearch r));
   ("enableInteractiveSearch", VBool (bix_EnableInteractiveSearch r))]).

Record LidarrRootFolderResource := mkLidarrRootFolderResource {
  lrf_ID : Z;
  lrf_Path : string;
  lrf_Name : string;
  lrf_DefaultMetadataProfileId : Z;
  lrf_DefaultQualityProfileId : Z;
  lrf_DefaultMonitorOption : string }.

#[export] Instance FromJSON_LidarrRootFolderResource : FromJSON LidarrRootFolderResource := asStruct (λ l,
  vID ← getInt "id" l;
  vPath ← getString "path" l;
  vName ← getString "name" l;
  vDefaultMetadataProfileId ← getInt "defaultMetadataProfileId" l;
  vDefaultQualityProfileId ← getInt "defaultQualityProfileId" l;
  vDefaultMonitorOption ← getString "defaultMonitorOption" l;
  Some (mkLidarrRootFolderResource vID vPath vName vDefaultMetadataProfileId vDefaultQualityProfileId vDefaultMonitorOption)).

#[export] Instance ToJSON_LidarrRootFolderResource : ToJSON LidarrRootFolderResource := λ r, VMap (omitIf (lrf_ID r =? 0) "id" (VInt (lrf_ID r)) ++
  [("path", VString (lrf_Path r))] ++
  omitIf (String.eqb (lrf_Name r) "") "name" (VString (lrf_Name r)) ++
  omitIf (lrf_DefaultMetadataProfileId r =? 0) "defaultMetadataProfileId" (VInt (lrf_DefaultMetadataProfileId r)) ++
  omitIf (lrf_DefaultQualityProfileId r =? 0) "defaultQualityProfileId" (VInt (lrf_DefaultQualityProfileId r)) ++
  omitIf (String.eqb (lrf_DefaultMonitorOption r) "") "defaultMonitorOption" (VString (lrf_DefaultMonitorOption r))).

Record LidarrNamingConfigResource := mkLidarrNamingConfigResource {
  lnc_ID : Z;
  lnc_RenameTracks : bool;
  lnc_ReplaceIllegalCharacters : bool;
  lnc_StandardTrackFormat : string;
  lnc_MultiDiscTrackFormat : string;
  lnc_ArtistFolderFormat : string;
  lnc_AlbumFolderFormat : string }.

#[export] Instance FromJSON_LidarrNamingConfigResource : FromJSON LidarrNamingConfigResource := asStruct (λ l,
  vID ← getInt "id" l;
  vRenameTracks ← getBool "renameTracks" l;
  vReplaceIllegalCharacters ← getBool "replaceIllegalCharacters" l;
  vStandardTrackFormat ← getString "standardTrackFormat" l;
  vMultiDiscTrackFormat ← getString "multiDiscTrackFormat" l;
  vArtistFolderFormat ← getString "artistFolderFormat" l;
  vAlbumFolderFormat ← getString "albumFolderFormat" l;
  Some (mkLidarrNamingConfigResource vID vRenameTracks vReplaceIllegalCharacters vStandardTrackFormat vMultiDiscTrackFormat vArtistFolderFormat vAlbumFolderFormat)).

#[export] Instance ToJSON_LidarrNamingConfigResource : ToJSON LidarrNamingConfigResource := λ r, VMap (omitIf (lnc_ID r =? 0) "id" (VInt (lnc_ID r)) ++
  [("renameTracks", VBool (lnc_RenameTracks r));
   ("replaceIllegalCharacters", VBool (lnc_ReplaceIllegalCharacters r));
   ("standardTrackFormat", VString (lnc_StandardTrackFormat r));
   ("multiDiscTrackFormat", VString (lnc_MultiDiscTrackFormat r));
   ("artistFolderFormat", VString (lnc_ArtistFolderFormat r))] ++
  omitIf (String.eqb (lnc_AlbumFolderFormat r) "") "albumFolderFormat" (VString (lnc_AlbumFolderFormat r))).

Record LidarrMetadataProfileResource := mkLidarrMetadataProfileResource {
  lmp_ID : Z;
  lmp_Name : string }.

#[export] Instance FromJSON_LidarrMetadataProfileResource : FromJSON LidarrMetadataProfileResource := asStruct (λ l,
  vID ← getInt "id" l;
  vName ← getString "name" l;
  Some (mkLidarrMetadataProfileResource vID vName)).

Record LidarrNotificationResource := mkLidarrNotificationResource {
  lnr_ID : Z;
  lnr_Name : string;
  lnr_Implementation : string;
  lnr_ConfigContract : string;
  lnr_Tags : list Z;
  lnr_Fields : list Field;
  lnr_OnGrab : bool;
  lnr_OnReleaseImport : bool;
  lnr_OnUpgrade : bool;
  lnr_OnRename : bool;
  lnr_OnArtistAdd : bool;
  lnr_OnArtistDelete : bool;
  lnr_OnAlbumDelete : bool;
  lnr_OnTrackRetag : bool;
  lnr_OnDownloadFailure : bool;
  lnr_OnImportFailure : bool;
  lnr_OnHealthIssue : bool;
  lnr_OnHealthRestored : bool;
  lnr_OnApplicationUpdate : bool;
  lnr_IncludeHealthWarnings : bool }.

#[export] Instance FromJSON_LidarrNotificationResource : FromJSON LidarrNotificationResource := asStruct (λ l,
  vID ← getInt "id" l;
  vName ← getString "name" l;
  vImplementation ← getString "implementation" l;
  vConfigContract ← getString "configContract" l;
  vTags ← getSlice asIntElem "tags" l;
  vFields ← getSlice fromJSON "fields" l;
  vOnGrab ← getBool "onGrab" l;
  vOnReleaseImport ← getBool "onReleaseImport" l;
  vOnUpgrade ← getBool "onUpgrade" l;
  vOnRename ← getBool "onRename" l;
  vOnArtistAdd ← getBool "onArtistAdd" l;
  vOnArtistDelete ← getBool "onArtistDelete" l;
  vOnAlbumDelete ← getBool "onAlbumDelete" l;
  vOnTrackRetag ← getBool "onTrackRetag" l;
  vOnDownloadFailure ← getBool "onDownloadFailure" l;
  vOnImportFailure ← getBool "onImportFailure" l;
  vOnHealthIssue ← getBool "onHealthIssue" l;
  vOnHealthRestored ← getBool "onHealthRestored" l;
  vOnApplicationUpdate ← getBool "onApplicationUpdate" l;
  vIncludeHealthWarnings ← getBool "includeHealthWarnings" l;
  Some (mkLidarrNotificationResource vID vName vImplementation vConfigContract vTags vFields vOnGrab vOnReleaseImport vOnUpgrade vOnRename vOnArtistAdd vOnArtistDelete vOnAlbumDelete vOnTrackRetag vOnDownloadFailure vOnImportFailure vOnHealthIssue vOnHealthRestored vOnApplicationUpdate vIncludeHealthWarnings)).

#[export] Instance ToJSON_LidarrNotificationResource : ToJSON LidarrNotificationResource := λ r, VMap (omitIf (lnr_ID r =? 0) "id" (VInt (lnr_ID r)) ++
  [("name", VString (lnr_Name r));
   ("implementation", VString (lnr_Implementation r));
   ("configContract", VString (lnr_ConfigContract r));
   ("tags", VList (VInt <$> lnr_Tags r));
   ("fields", VList (toJSON <$> lnr_Fields r));
   ("onGrab", VBool (lnr_OnGrab r));
   ("onReleaseImport", VBool (lnr_OnReleaseImport r));
   ("onUpgrade", VBool (lnr_OnUpgrade r));
   ("onRename", VBool (lnr_OnRename r));
   ("onArtistAdd", VBool (lnr_OnArtistAdd r));
   ("onArtistDelete", VBool (lnr_OnArtistDelete r));
   ("onAlbumDelete", VBool (lnr_OnAlbumDelete r));
   ("onTrackRetag", VBool (lnr_OnTrackRetag r));
   ("onDownloadFailure", VBool (lnr_OnDownloadFailure r));
   ("onImportFailure", VBool (lnr_OnImportFailure r));
   ("onHealthIssue", VBool (lnr_OnHealthIssue r));
   ("onHealthRestored", VBool (lnr_OnHealthRestored r));
   ("onApplicationUpdate", VBool (lnr_OnApplicationUpdate r));
   ("includeHealthWarnings", VBool (lnr_IncludeHealthWarnings r))]).

Record LidarrImportListResource := mkLidarrImportListResource {
  lil_ID : Z;
  lil_Name : string;
  lil_Implementation : string;
  lil_ConfigContract : string;
  lil_EnableAutomaticAdd : bool;
  lil_SearchForNewAlbum : bool;
  lil_QualityProfileID : Z;
  lil_MetadataProfileID : Z;
  lil_RootFolderPath : string;
  lil_ShouldMonitor : string;
  lil_MonitorNewItems : string;
  lil_ListType : string;
  lil_ListOrder : Z;
  lil_Tags : list Z;
  lil_Fields : list Field }.

#[export] Instance FromJSON_LidarrImportListResource : FromJSON LidarrImportListResource := asStruct (λ l,
  vID ← getInt "id" l;
  vName ← getString "name" l;
  vImplementation ← getString "implementation" l;
  vConfigContract ← getString "configContract" l;
  vEnableAutomaticAdd ← getBool "enableAutomaticAdd" l;
  vSearchForNewAlbum ← getBool "searchForNewAlbum" l;
  vQualityProfileID ← getInt "qualityProfileId" l;
  vMetadataProfileID ← getInt "metadataProfileId" l;
  vRootFolderPath ← getString "rootFolderPath" l;
  vShouldMonitor ← getString "shouldMonitor" l;
  vMonitorNewItems ← getString "monitorNewItems" l;
  vListType ← getString "listType" l;
  vListOrder ← getInt "listOrder" l;
  vTags ← getSlice asIntElem "tags" l;
  vFields ← getSlice fromJSON "fields" l;
  Some (mkLidarrImportListResource vID vName vImplementation vConfigContract vEnableAutomaticAdd vSearchForNewAlbum vQualityProfileID vMetadataProfileID vRootFolderPath vShouldMonitor vMonitorNewItems vListType vListOrder vTags vFields)).

#[export] Instance ToJSON_LidarrImportListResource : ToJSON LidarrImportListResource := λ r, VMap (omitIf (lil_ID r =? 0) "id" (VInt (lil_ID r)) ++
  [("name", VString (lil_Name r));
   ("implementation", VString (lil_Implementation r));
   ("configContract", VString (lil_ConfigContract r));
   ("enableAutomaticAdd", VBool (lil_EnableAutomaticAdd r));
   ("searchForNewAlbum", VBool (lil_SearchForNewAlbum r));
   ("qualityProfileId", VInt (lil_QualityProfileID r));
   ("metadataProfileId", VInt (lil_MetadataProfileID r));
   ("rootFolderPath", VString (lil_RootFolderPath r));
   ("shouldMonitor", VString (lil_ShouldMonitor r));
   ("monitorNewItems", VString (lil_MonitorNewItems r));
   ("listType", VString (lil_ListType r));
   ("listOrder", VInt (lil_ListOrder r));
   ("tags", VList (VInt <$> lil_Tags r));
   ("fields", VList (toJSON <$> lil_Fields r))]).

Record LidarrMediaManagementConfigResource := mkLidarrMediaManagementConfigResource {
  lmm_ID : Z;
  lmm_RecycleBin : string;
  lmm_RecycleBinCleanupDays : Z;
  lmm_SetPermissionsLinux : bool;
  lmm_ChmodFolder : string;
  lmm_ChownGroup : string;
  lmm_DeleteEmptyFolders : bool;
  lmm_CreateEmptyArtistFolders : bool;
  lmm_CopyUsingHardlinks : bool;
  lmm_ImportExtraFiles : bool;
  lmm_ExtraFileExtensions : string;
  lmm_DownloadPropersAndRepacks : string;
  lmm_WatchLibraryForChanges : bool;
  lmm_AllowFingerprinting : string;
  lmm_RescanAfterRefresh : string;
  lmm_FileDate : string;
  lmm_SkipFreeSpaceCheckWhenImporting : bool;
  lmm_MinimumFreeSpaceWhenImporting : Z }.

#[export] Instance FromJSON_LidarrMediaManagementConfigResource : FromJSON LidarrMediaManagementConfigResource := asStruct (λ l,
  vID ← getInt "id" l;
  vRecycleBin ← getString "recycleBin" l;
  vRecycleBinCleanupDays ← getInt "recycleBinCleanupDays" l;
  vSetPermissionsLinux ← getBool "setPermissionsLinux" l;
  vChmodFolder ← getString "chmodFolder" l;
  vChownGroup ← getString "chownGroup" l;
  vDeleteEmptyFolders ← getBool "deleteEmptyFolders" l;
  vCreateEmptyArtistFolders ← getBool "createEmptyArtistFolders" l;
  vCopyUsingHardlinks ← getBool "copyUsingHardlinks" l;
  vImportExtraFiles ← getBool "importExtraFiles" l;
  vExtraFileExtensions ← getString "extraFileExtensions" l;
  vDownloadPropersAndRepacks ← getString "downloadPropersAndRepacks" l;
  vWatchLibraryForChanges ← getBool "watchLibraryForChanges" l;
  vAllowFingerprinting ← getString "allowFingerprinting" l;
  vRescanAfterRefresh ← getString "rescanAfterRefresh" l;
  vFileDate ← getString "fileDate" l;
  vSkipFreeSpaceCheckWhenImporting ← getBool "skipFreeSpaceCheckWhenImporting" l;
  vMinimumFreeSpaceWhenImporting ← getInt "minimumFreeSpaceWhenImporting" l;
  Some (mkLidarrMediaManagementConfigResource vID vRecycleBin vRecycleBinCleanupDays vSetPermissionsLinux vChmodFolder vChownGroup vDeleteEmptyFolders vCreateEmptyArtistFolders vCopyUsingHardlinks vImportExtraFiles vExtraFileExtensions vDownloadPropersAndRepacks vWatchLibraryForChanges vAllowFingerprinting vRescanAfterRefresh vFileDate vSkipFreeSpaceCheckWhenImporting vMinimumFreeSpaceWhenImporting)).

#[export] Instance ToJSON_LidarrMediaManagementConfigResource : ToJSON LidarrMediaManagementConfigResource := λ r, VMap (omitIf (lmm_ID r =? 0) "id" (VInt (lmm_ID r)) ++
  [("recycleBin", VString (lmm_RecycleBin r));
   ("recycleBinCleanupDays", VInt (lmm_RecycleBinCleanupDays r));
   ("setPermissionsLinux", VBool (lmm_SetPermissionsLinux r));
   ("chmodFolder", VString (lmm_ChmodFolder r));
   ("chownGroup", VString (lmm_ChownGroup r));
   ("deleteEmptyFolders", VBool (lmm_DeleteEmptyFolders r));
   ("createEmptyArtistFolders", VBool (lmm_CreateEmptyArtistFolders r));
   ("copyUsingHardlinks", VBool (lmm_CopyUsingHardlinks r));
   ("importExtraFiles", VBool (lmm_ImportExtraFiles r));
   ("extraFileExtensions", VString (lmm_ExtraFileExtensions r));
   ("downloadPropersAndRepacks", VString (lmm_DownloadPropersAndRepacks r));
   ("watchLibraryForChanges", VBool (lmm_WatchLibraryForChanges r));
   ("allowFingerprinting", VString (lmm_AllowFingerprinting r));
   ("rescanAfterRefresh", VString (lmm_RescanAfterRefresh r));
   ("fileDate", VString (lmm_FileDate r));
   ("skipFreeSpaceCheckWhenImporting", VBool (lmm_SkipFreeSpaceCheckWhenImporting r));
   ("minimumFreeSpaceWhenImporting", VInt (lmm_MinimumFreeSpaceWhenImporting r))]).
