(* ===== verification/Http.v ===== *)
(** * The HTTP client (src/internal/adapters/httpclient/client.go)

    The transport and the service behind it are a parameter: [serve] maps a
    request and the state of the service to its new state and a response, and
    may do anything.  [Get], [Post], [Put] and [Delete] are the four methods of
    [Client], with the statuses they accept. *)
From S2P Require Export Resources.

Record Client := mkClient {
  c_BaseURL : string;
  c_APIKey : string;
  c_InsecureSkipVerify : bool;
  c_Timeout : Z }.

Record Config := mkConfig {
  cfg_BaseURL : string;
  cfg_APIKey : string;
  cfg_InsecureSkipVerify : bool;
  cfg_Timeout : Z }.

(** In nanoseconds. *)
Definition DefaultTimeout : Z := 30 * 10 ^ 9.

Definition New (cfg : Config) : Client := {|
  c_BaseURL := cfg_BaseURL cfg;
  c_APIKey := cfg_APIKey cfg;
  c_InsecureSkipVerify := cfg_InsecureSkipVerify cfg;
  c_Timeout := if cfg_Timeout cfg =? 0 then DefaultTimeout else cfg_Timeout cfg |}.

(** A request as it is sent: the key travels in the header X-Api-Key, and a
    request with a body has the content type application/json. *)
Record Request := mkRequest {
  rq_Method : string;
  rq_URL : string;
  rq_APIKey : string;
  rq_Body : option any }.

Inductive Response :=
| TransportError (e : error)
| Answer (status : Z) (text : string) (document : option any). (* the JSON of the text, if it is JSON *)

(** The service and the texts of the errors that come from the library. *)
Class Service (S : Type) := {
  serve : Client → Request → S → S * Response;
  requestError : string → error;
  decodeError : option any → error }.

Section client.
Context {S : Type} `{Service S}.

(** [http.NewRequestWithContext] fails on a malformed URL; otherwise the
    request is performed. *)
Definition do (c : Client) (method path : string) (body : option any)
    : M S (Z * string * option any) := λ s,
  let url := (c_BaseURL c +:+ path)%string in
  match urlParse url with
  | None => (s, Err (requestError url))
  | Some _ =>
      match serve c (mkRequest method url (c_APIKey c) body) s with
      | (s', TransportError e) => (s', Err e)
      | (s', Answer status text document) => (s', Ret (status, text, document))
      end
  end.

Definition unexpectedStatus (status : Z) (text : string) : error :=
  ("unexpected status " +:+ Itoa status +:+ ": " +:+ text)%string.

(** [json.NewDecoder(resp.Body).Decode(result)]. *)
Definition decode {A} `{FromJSON A} (document : option any) : M S A :=
  match document ≫= fromJSON with
  | Some x => ret x
  | None => fail (decodeError document)
  end.

Definition checkStatus (accepted : list Z) (r : Z * string * option any) : M S (option any) :=
  let '(status, text, document) := r in
  if existsb (Z.eqb status) accepted then ret document else fail (unexpectedStatus status text).

Definition Get (A : Type) `{FromJSON A} (c : Client) (path : string) : M S A :=
  let* r := do c "GET" path None in
  let* document := checkStatus [200] r in
  decode document.

(** [Post] and [Put] with a non-nil [result]. *)
Definition PostResult (A : Type) `{FromJSON A} {B} `{ToJSON B} (c : Client) (path : string) (body : B)
    : M S A :=
  let* r := do c "POST" path (Some (toJSON body)) in
  let* document := checkStatus [200; 201] r in
  decode document.

Definition PutResult (A : Type) `{FromJSON A} {B} `{ToJSON B} (c : Client) (path : string) (body : B)
    : M S A :=
  let* r := do c "PUT" path (Some (toJSON body)) in
  let* document := checkStatus [200; 202] r in
  decode document.

(** [Post] and [Put] with a nil [result]: the response body is not read. *)
Definition Post {B} `{ToJSON B} (c : Client) (path : string) (body : B) : M S unit :=
  let* r := do c "POST" path (Some (toJSON body)) in
  checkStatus [200; 201] r ;;; ret tt.

Definition Put {B} `{ToJSON B} (c : Client) (path : string) (body : B) : M S unit :=
  let* r := do c "PUT" path (Some (toJSON body)) in
  checkStatus [200; 202] r ;;; ret tt.

Definition Delete (c : Client) (path : string) : M S unit :=
  let* r := do c "DELETE" path None in
  checkStatus [200; 204] r ;;; ret tt.
End client.

(** ** Which requests the methods make

    A predicate on requests whose members relate the service's states before and
    after by [P] gives [steps P] of the methods that make such a request. *)
Section requests.
Context {S : Type} `{Service S} (P : relation S) `{!PreOrder P} (c : Client).

(** Every answer to the request [method path] is a step of [P]. *)
Definition harmless (method path : string) : Prop := ∀ body s,
  P s (serve c (mkRequest method (c_BaseURL c +:+ path) (c_APIKey c) body) s).1.

(** Requests on a collection of an API and on its members are steps of [P]. *)
Definition quietAt (api collection : string) : Prop :=
  (∀ method, harmless method (api +:+ collection)) ∧
  (∀ method id, harmless method (api +:+ collection +:+ "/" +:+ Itoa id)).

Lemma steps_do method path body : harmless method path → steps P (do c method path body).
Proof.
  intros Hh s. unfold do. specialize (Hh body s). destruct (urlParse _); [|by split].
  by destruct (serve _ _ s) as [s' [e|status text document]].
Qed.

Lemma steps_decode {A} `{FromJSON A} document : steps P (decode document : M S A).
Proof. unfold decode. destruct (document ≫= fromJSON); auto with nebularr. Qed.

Lemma steps_checkStatus accepted r : steps P (checkStatus accepted r).
Proof. destruct r as [[status text] document]. unfold checkStatus. case_match; auto with nebularr. Qed.

Lemma steps_Get A `{FromJSON A} path : harmless "GET" path → steps P (Get A c path).
Proof.
  intros Hh. unfold Get.
  auto using steps_bind, steps_do, steps_decode, steps_checkStatus.
Qed.

Lemma steps_PostResult A `{FromJSON A} {B} `{ToJSON B} path (body : B) :
  harmless "POST" path → steps P (PostResult A c path body).
Proof.
  intros Hh. unfold PostResult.
  auto using steps_bind, steps_do, steps_decode, steps_checkStatus.
Qed.

Lemma steps_PutResult A `{FromJSON A} {B} `{ToJSON B} path (body : B) :
  harmless "PUT" path → steps P (PutResult A c path body).
Proof.
  intros Hh. unfold PutResult.
  auto using steps_bind, steps_do, steps_decode, steps_checkStatus.
Qed.

Lemma steps_Post {B} `{ToJSON B} path (body : B) : harmless "POST" path → steps P (Post c path body).
Proof.
  intros Hh. unfold Post. auto using steps_bind, steps_do, steps_checkStatus, steps_ret.
Qed.

Lemma steps_Put {B} `{ToJSON B} path (body : B) : harmless "PUT" path → steps P (Put c path body).
Proof.
  intros Hh. unfold Put. auto using steps_bind, steps_do, steps_checkStatus, steps_ret.
Qed.

Lemma steps_Delete path : harmless "DELETE" path → steps P (Delete c path).
Proof.
  intros Hh. unfold Delete. auto using steps_bind, steps_do, steps_checkStatus, steps_ret.
Qed.
End requests.

#[export] Hint Resolve steps_Get steps_PostResult steps_PutResult steps_Post steps_Put steps_Delete
  : nebularr.
