(* ===== verification/Shared.v ===== *)
(** * Behaviour shared by the adapters (src/internal/adapters/shared)

    The apply loops, the ownership tag, the extraction of fields from the
    services' resources, health and authentication. *)
From S2P Require Export Diff Http.

(** ** apply.go *)

Section apply.
Context {W : Type}.
Abbreviation ApplyFunc := (Change → M W unit).

Definition countApplied (r : ApplyResult) : ApplyResult :=
  mkApplyResult (ar_Applied r + 1) (ar_Failed r) (ar_Skipped r) (ar_Errors r).
Definition countFailed (change : Change) (e : error) (r : ApplyResult) : ApplyResult :=
  mkApplyResult (ar_Applied r) (ar_Failed r + 1) (ar_Skipped r)
    (ar_Errors r ++ [mkApplyError change e]).

(** The body of each of the three loops. *)
Definition applyOne (f : ApplyFunc) (result : ApplyResult) (change : Change) : M W ApplyResult :=
  let* r := attempt (f change) in
  match r with
  | inl _ => ret (countApplied result)
  | inr e => ret (countFailed change e result)
  end.

Definition ApplyChanges (changes : ChangeSet) (createFn updateFn deleteFn : ApplyFunc)
    : M W ApplyResult :=
  let* result := forRange (applyOne createFn) emptyApplyResult (cs_Creates changes) in
  let* result := forRange (applyOne updateFn) result (cs_Updates changes) in
  forRange (applyOne deleteFn) result (cs_Deletes changes).
End apply.

(** ** The loop of the adapters' Discover

    The distinct non-empty names, in the order of their first occurrence. *)
Definition distinctNames (names : list string) : list string :=
  (foldl (λ (st : list string * gset string) name,
    if negb (String.eqb name "") && negb (name ∈? st.2) then (st.1 ++ [name], {[name]} ∪ st.2) else st)
    ([], ∅) names).1.

(** ** applydirect.go *)

Record ImportListStats := mkImportListStats {
  ils_Created : Z;
  ils_Updated : Z;
  ils_Deleted : Z;
  ils_Skipped : Z;
  ils_Errors : list error }.

Section apply_direct.
Context {W : Type}.

(** Each callback is optional; the statistics are a pointer. *)
Record DirectApplyCallbacks := mkDirectApplyCallbacks {
  dac_ApplyImportLists : option (M W (option ImportListStats));
  dac_ApplyMediaManagement : option (M W unit);
  dac_ApplyAuthentication : option (M W unit) }.

Definition resourceChange (resourceType : string) : Change := mkChange resourceType "" None PNil.

Definition directImportLists (lists : list ImportListIR) (cb : option (M W (option ImportListStats)))
    (result : ApplyResult) : M W ApplyResult :=
  match cb, lists with
  | Some f, _ :: _ =>
      let* r := attempt f in
      match r with
      | inr e => ret (countFailed (resourceChange ResourceImportList)
                        ("failed to apply import lists: " +:+ e)%string result)
      | inl None => ret result
      | inl (Some stats) =>
          let result := mkApplyResult
            (ar_Applied result + (ils_Created stats + ils_Updated stats + ils_Deleted stats))
            (ar_Failed result) (ar_Skipped result + ils_Skipped stats) (ar_Errors result) in
          ret (foldl (λ result e, countFailed (resourceChange ResourceImportList) e result)
                 result (ils_Errors stats))
      end
  | _, _ => ret result
  end.

(** The blocks for media management and authentication, which differ in the
    pointer they test and the resource type they report. *)
Definition directConfig {A} (resourceType : string) (config : option A) (cb : option (M W unit))
    (result : ApplyResult) : M W ApplyResult :=
  match cb, config with
  | Some f, Some _ =>
      let* r := attempt f in
      match r with
      | inr e => ret (countFailed (resourceChange resourceType) e result)
      | inl _ => ret (countApplied result)
      end
  | _, _ => ret result
  end.

Definition ApplyDirect (ir : IR) (callbacks : DirectApplyCallbacks) : M W ApplyResult :=
  let* result := directImportLists (ir_ImportLists ir) (dac_ApplyImportLists callbacks)
                   emptyApplyResult in
  let* result := directConfig ResourceMediaManagement (ir_MediaManagement ir)
                   (dac_ApplyMediaManagement callbacks) result in
  directConfig ResourceAuthentication (ir_Authentication ir)
    (dac_ApplyAuthentication callbacks) result.
End apply_direct.
Arguments DirectApplyCallbacks W : clear implicits.

(** ** clients.go *)

Definition dc_set_Host (v : string) (d : DownloadClientIR) : DownloadClientIR :=
  let '(mkDownloadClientIR a b c e f g h i _ k l m n o p) := d in
  mkDownloadClientIR a b c e f g h i v k l m n o p.
Definition dc_set_Port (v : Z) (d : DownloadClientIR) : DownloadClientIR :=
  let '(mkDownloadClientIR a b c e f g h i j _ l m n o p) := d in
  mkDownloadClientIR a b c e f g h i j v l m n o p.
Definition dc_set_UseTLS (v : bool) (d : DownloadClientIR) : DownloadClientIR :=
  let '(mkDownloadClientIR a b c e f g h i j k _ m n o p) := d in
  mkDownloadClientIR a b c e f g h i j k v m n o p.
Definition dc_set_Username (v : string) (d : DownloadClientIR) : DownloadClientIR :=
  let '(mkDownloadClientIR a b c e f g h i j k l _ n o p) := d in
  mkDownloadClientIR a b c e f g h i j k l v n o p.
Definition dc_set_Password (v : string) (d : DownloadClientIR) : DownloadClientIR :=
  let '(mkDownloadClientIR a b c e f g h i j k l m _ o p) := d in
  mkDownloadClientIR a b c e f g h i j k l m v o p.
Definition dc_set_Category (v : string) (d : DownloadClientIR) : DownloadClientIR :=
  let '(mkDownloadClientIR a b c e f g h i j k l m n _ p) := d in
  mkDownloadClientIR a b c e f g h i j k l m n v p.
Definition dc_set_Directory (v : string) (d : DownloadClientIR) : DownloadClientIR :=
  let '(mkDownloadClientIR a b c e f g h i j k l m n o _) := d in
  mkDownloadClientIR a b c e f g h i j k l m n o v.

(** [if v, ok := f.Value.(T); ok { set(v) }] *)
Definition ifString {A} (set : string → A → A) (v : any) (a : A) : A :=
  match v with VString s => set s a | _ => a end.
Definition ifBool {A} (set : bool → A → A) (v : any) (a : A) : A :=
  match v with VBool b => set b a | _ => a end.
Definition ifFloat {A} (set : float64 → A → A) (v : any) (a : A) : A :=
  match v with VFloat f => set f a | _ => a end.

Definition extractDownloadClientField (categoryFieldNames : list string) (ir : DownloadClientIR)
    (f : Field) : DownloadClientIR :=
  switch (f_Name f) [
    (["host"], ifString dc_set_Host (f_Value f) ir);
    (["port"], ifFloat (λ v, dc_set_Port (int_of_float64 v)) (f_Value f) ir);
    (["useSsl"], ifBool dc_set_UseTLS (f_Value f) ir);
    (["username"], ifString dc_set_Username (f_Value f) ir);
    (["password"], ifString dc_set_Password (f_Value f) ir);
    (["directory"], ifString dc_set_Directory (f_Value f) ir)]
    (if existsb (String.eqb (f_Name f)) categoryFieldNames
     then ifString dc_set_Category (f_Value f) ir else ir).

Definition ExtractDownloadClientFields (fields : list Field) (ir : DownloadClientIR)
    (categoryFieldNames : list string) : DownloadClientIR :=
  foldl (extractDownloadClientField categoryFieldNames) ir fields.

Definition idx_set_URL (v : string) (d : IndexerIR) : IndexerIR :=
  let '(mkIndexerIR a b c e f g _ i j k l m n o p) := d in
  mkIndexerIR a b c e f g v i j k l m n o p.
Definition idx_set_APIKey (v : string) (d : IndexerIR) : IndexerIR :=
  let '(mkIndexerIR a b c e f g h _ j k l m n o p) := d in
  mkIndexerIR a b c e f g h v j k l m n o p.
Definition idx_set_Categories (v : list Z) (d : IndexerIR) : IndexerIR :=
  let '(mkIndexerIR a b c e f g h i _ k l m n o p) := d in
  mkIndexerIR a b c e f g h i v k l m n o p.
Definition idx_set_MinimumSeeders (v : Z) (d : IndexerIR) : IndexerIR :=
  let '(mkIndexerIR a b c e f g h i j _ l m n o p) := d in
  mkIndexerIR a b c e f g h i j v l m n o p.
Definition idx_set_SeedRatio (v : float64) (d : IndexerIR) : IndexerIR :=
  let '(mkIndexerIR a b c e f g h i j k _ m n o p) := d in
  mkIndexerIR a b c e f g h i j k v m n o p.
Definition idx_set_SeedTimeMinutes (v : Z) (d : IndexerIR) : IndexerIR :=
  let '(mkIndexerIR a b c e f g h i j k l _ n o p) := d in
  mkIndexerIR a b c e f g h i j k l v n o p.

(** The categories of the field's list that are numbers, appended in order. *)
Definition appendCategories (v : any) (ir : IndexerIR) : IndexerIR :=
  match v with
  | VList l =>
      foldl (λ ir cat, match cat with
        | VFloat n => idx_set_Categories (idx_Categories ir ++ [int_of_float64 n]) ir
        | _ => ir
        end) ir l
  | _ => ir
  end.

Definition extractIndexerField (ir : IndexerIR) (f : Field) : IndexerIR :=
  switch (f_Name f) [
    (["baseUrl"], ifString idx_set_URL (f_Value f) ir);
    (["apiKey"], ifString idx_set_APIKey (f_Value f) ir);
    (["categories"], appendCategories (f_Value f) ir);
    (["minimumSeeders"], ifFloat (λ v, idx_set_MinimumSeeders (int_of_float64 v)) (f_Value f) ir);
    (["seedCriteria.seedRatio"], ifFloat idx_set_SeedRatio (f_Value f) ir);
    (["seedCriteria.seedTime"], ifFloat (λ v, idx_set_SeedTimeMinutes (int_of_float64 v)) (f_Value f) ir)]
    ir.

Definition ExtractIndexerFields (fields : list Field) (ir : IndexerIR) : IndexerIR :=
  foldl extractIndexerField ir fields.

(** ** tags.go *)

Definition OwnershipTagName : string := "nebularr-managed".

Definition HasTag (tags : list Z) (tagID : Z) : bool := existsb (λ t, t =? tagID) tags.

Definition quoted (s : string) : string := (String "034" s +:+ String "034" "")%string.

Section service.
Context {S : Type} `{Service S}.

Definition GetOwnershipTagID (c : Client) (apiVersion : string) : M S Z :=
  let* tags := wrapErr (λ e, "failed to get tags: " +:+ e)%string
                 (Get (list TagResource) c ("/api/" +:+ apiVersion +:+ "/tag")) in
  match list_find (λ tag, tag_Label tag = OwnershipTagName) tags with
  | Some (_, tag) => ret (tag_ID tag)
  | None => fail ("ownership tag " +:+ quoted OwnershipTagName +:+ " not found")%string
  end.

Definition EnsureOwnershipTag (c : Client) (apiVersion : string) : M S Z :=
  let* r := attempt (GetOwnershipTagID c apiVersion) in
  match r with
  | inl tagID => ret tagID
  | inr _ =>
      let* created := wrapErr (λ e, "failed to create ownership tag: " +:+ e)%string
        (PostResult TagResource c ("/api/" +:+ apiVersion +:+ "/tag") (mkTagResource 0 OwnershipTagName)) in
      ret (tag_ID created)
  end.

(** ** health.go *)

(** The loop over the checks: [Healthy] is cleared by an error. *)
Definition addHealthCheck (status : HealthStatus) (check : HealthResource) : HealthStatus :=
  let issueType := switch (hr_Type check) [
      (["error"], HealthIssueTypeError); (["warning"], HealthIssueTypeWarning)]
      HealthIssueTypeNotice in
  {| hs_Healthy := if String.eqb (hr_Type check) "error" then false else hs_Healthy status;
     hs_Issues := hs_Issues status ++
       [mkHealthIssue (hr_Source check) issueType (hr_Message check) (hr_WikiURL check)] |}.

Definition GetHealth (c : Client) (apiVersion : string) : M S HealthStatus :=
  let* healthChecks := wrapErr (λ e, "failed to get health: " +:+ e)%string
    (Get (list HealthResource) c ("/api/" +:+ apiVersion +:+ "/health")) in
  ret (foldl addHealthCheck (mkHealthStatus true []) healthChecks).

(** ** mediamanagement.go *)

Definition FetchConfig (T : Type) `{FromJSON T} (c : Client) (apiPath : string) : M S T :=
  wrapErr (λ e, "failed to get config from " +:+ apiPath +:+ ": " +:+ e)%string (Get T c apiPath).

Definition UpdateConfig {T : Type} `{FromJSON T} `{ToJSON T} (c : Client) (apiPath : string) (id : Z)
    (config : T) : M S unit :=
  PutResult T c (apiPath +:+ "/" +:+ Itoa id) config ;;; ret tt.

(** ** authentication.go *)

Definition MapAuthMethod (method : string) : string :=
  switch method [
    (["none"], "None"); (["forms"], "Forms"); (["basic"], "Basic"); (["external"], "External")]
    "None".

Definition MapAuthRequired (required : string) : string :=
  switch required [
    (["enabled"], "Enabled"); (["disabledForLocalAddresses"], "DisabledForLocalAddresses")]
    "Enabled".

Definition HostConfigToAuthIR (config : HostConfigResource) : AuthenticationIR := {|
  auth_Method := switch (hc_AuthenticationMethod config) [
    (["None"], "none"); (["Forms"], "forms"); (["Basic"], "basic"); (["External"], "external")]
    (hc_AuthenticationMethod config);
  auth_Username := hc_Username config;
  auth_Password := "";
  auth_AuthenticationRequired := switch (hc_AuthenticationRequired config) [
    (["Enabled"], "enabled"); (["DisabledForLocalAddresses"], "disabledForLocalAddresses")]
    (hc_AuthenticationRequired config) |}.

Definition GetAuthenticationIR (c : Client) (apiPath : string) : M S AuthenticationIR :=
  let* config := FetchConfig HostConfigResource c apiPath in
  ret (HostConfigToAuthIR config).

(** The fields [ApplyAuthentication] assigns; all others are kept. *)
Definition setAuthentication (method required username password confirmation : string)
    (c : HostConfigResource) : HostConfigResource :=
  mkHostConfigResource (hc_ID c) (hc_BindAddress c) (hc_Port c) (hc_SslPort c) (hc_EnableSsl c)
    (hc_LaunchBrowser c) method required username password confirmation (hc_LogLevel c)
    (hc_ConsoleLogLevel c) (hc_Branch c) (hc_ApiKey c) (hc_SslCertPath c) (hc_SslCertPassword
    c) (hc_UrlBase c) (hc_InstanceName c) (hc_UpdateAutomatically c) (hc_UpdateMechanism c)
    (hc_UpdateScriptPath c) (hc_ProxyEnabled c) (hc_ProxyType c) (hc_ProxyHostname c)
    (hc_ProxyPort c) (hc_ProxyUsername c) (hc_ProxyPassword c) (hc_ProxyBypassFilter c)
    (hc_ProxyBypassLocalAddresses c) (hc_CertificateValidation c) (hc_BackupFolder c)
    (hc_BackupInterval c) (hc_BackupRetention c).

Definition mergeAuthentication (ir : AuthenticationIR) (current : HostConfigResource)
    : HostConfigResource :=
  setAuthentication (MapAuthMethod (auth_Method ir)) (MapAuthRequired (auth_AuthenticationRequired ir))
    (if String.eqb (auth_Method ir) "forms" && negb (String.eqb (auth_Username ir) "")
     then auth_Username ir else hc_Username current)
    (if negb (String.eqb (auth_Password ir) "") then auth_Password ir else hc_Password current)
    (if negb (String.eqb (auth_Password ir) "") then auth_Password ir
     else hc_PasswordConfirmation current) current.

Definition ApplyAuthentication (c : Client) (apiPath : string) (ir : option AuthenticationIR)
    : M S unit :=
  match ir with
  | None => ret tt
  | Some ir =>
      let* current := wrapErr (λ e, "failed to get current host config: " +:+ e)%string
                        (FetchConfig HostConfigResource c apiPath) in
      let current := mergeAuthentication ir current in
      UpdateConfig c apiPath (hc_ID current) current
  end.
End service.

(** ** Theorems: the apply loops *)

Section apply_theorems.
Context {W : Type}.
Implicit Types (f : Change → M W unit) (w : W).

Lemma applyOne_ok f res ch w w' :
  f ch w = (w', Ret tt) → applyOne f res ch w = (w', Ret (countApplied res)).
Proof. intros Hf. unfold applyOne. by rewrite (bind_attempt_ret _ _ _ _ _ Hf). Qed.

Lemma applyOne_err f res ch w w' e :
  f ch w = (w', Err e) → applyOne f res ch w = (w', Ret (countFailed ch e res)).
Proof. intros Hf. unfold applyOne. by rewrite (bind_attempt_err _ _ _ _ _ Hf). Qed.

(** A callback that returns (possibly an error) on each of the changes. *)
Definition returns f (chs : list Change) : Prop :=
  ∀ ch w, ch ∈ chs → ∀ why, (f ch w).2 ≠ Panic why.

(** Whether a change's callback succeeds in a world. *)
Definition succeeds f ch w : bool := match (f ch w).2 with Ret _ => true | _ => false end.

(** The worlds the changes are applied in, one after the other. *)
Fixpoint applyAll f (chs : list Change) w : W :=
  match chs with [] => w | ch :: chs' => applyAll f chs' (f ch w).1 end.
Fixpoint failures f (chs : list Change) w : list ApplyError :=
  match chs with
  | [] => []
  | ch :: chs' =>
      match (f ch w).2 with
      | Err e => [mkApplyError ch e]
      | _ => []
      end ++ failures f chs' (f ch w).1
  end.

Definition addFailures (n : nat) (es : list ApplyError) (r : ApplyResult) : ApplyResult :=
  mkApplyResult (ar_Applied r + Z.of_nat (n - length es)) (ar_Failed r + Z.of_nat (length es))
    (ar_Skipped r) (ar_Errors r ++ es).

Lemma length_failures f chs w : (length (failures f chs w) ≤ length chs)%nat.
Proof.
  revert w. induction chs as [|ch chs IH]; intros w; simpl; [done|]. rewrite length_app.
  specialize (IH (f ch w).1). destruct (f ch w).2; simpl; lia.
Qed.

Lemma applyLoop_spec f chs res w :
  returns f chs →
  forRange (applyOne f) res chs w =
  (applyAll f chs w, Ret (addFailures (length chs) (failures f chs w) res)).
Proof.
  intros Hret. revert res w. induction chs as [|ch chs IH]; intros [a b c d] w.
  - unfold addFailures. simpl. by rewrite !Z.add_0_r, app_nil_r.
  - assert (Hret' : returns f chs) by (intros x v Hx; apply Hret; by right).
    assert (Hnp : ∀ why, (f ch w).2 ≠ Panic why) by (apply Hret; left).
    simpl. unfold bind. destruct (f ch w) as [w' r] eqn:Hf.
    pose proof (length_failures f chs w') as Hlen. simpl in *. destruct r as [[]|e|why].
    + rewrite (applyOne_ok _ _ _ _ _ Hf), IH by done. unfold addFailures, countApplied. simpl.
      do 3 f_equal. lia.
    + rewrite (applyOne_err _ _ _ _ _ _ Hf), IH by done. unfold addFailures, countFailed. simpl.
      rewrite <-app_assoc. do 3 f_equal; lia.
    + by destruct (Hnp why).
Qed.

(** What the three loops leave, and the result they report. *)
Definition applyPhases changes (createFn updateFn deleteFn : Change → M W unit) w : W * list ApplyError :=
  let w1 := applyAll createFn (cs_Creates changes) w in
  let w2 := applyAll updateFn (cs_Updates changes) w1 in
  (applyAll deleteFn (cs_Deletes changes) w2,
   failures createFn (cs_Creates changes) w ++ failures updateFn (cs_Updates changes) w1 ++
   failures deleteFn (cs_Deletes changes) w2).

Definition resultOf (changes : ChangeSet) (errors : list ApplyError) : ApplyResult :=
  mkApplyResult (TotalChanges changes - Z.of_nat (length errors)) (Z.of_nat (length errors)) 0 errors.

Lemma ApplyChanges_eq changes createFn updateFn deleteFn w :
  returns createFn (cs_Creates changes) → returns updateFn (cs_Updates changes) →
  returns deleteFn (cs_Deletes changes) →
  let '(w', errors) := applyPhases changes createFn updateFn deleteFn w in
  ApplyChanges changes createFn updateFn deleteFn w = (w', Ret (resultOf changes errors)).
Proof.
  intros Hc Hu Hd. unfold applyPhases, ApplyChanges, bind.
  rewrite applyLoop_spec by done. set (w1 := applyAll createFn _ w).
  rewrite applyLoop_spec by done. set (w2 := applyAll updateFn _ w1).
  rewrite applyLoop_spec by done. do 2 f_equal.
  pose proof (length_failures createFn (cs_Creates changes) w) as L1.
  pose proof (length_failures updateFn (cs_Updates changes) w1) as L2.
  pose proof (length_failures deleteFn (cs_Deletes changes) w2) as L3.
  unfold addFailures, resultOf, TotalChanges. simpl. rewrite !length_app, app_assoc. f_equal; lia.
Qed.

(** C27: applying is fail-soft and complete.  When no callback panics on the
    changes it is given, [ApplyChanges] always returns; every change is attempted,
    creates before updates before deletes and each in the world the previous ones
    left, whether or not they failed; the counts add up to the number of changes;
    the errors are those of the failed changes, in order; and the result is a
    success exactly when none failed. *)
Theorem ApplyChanges_fail_soft changes createFn updateFn deleteFn w :
  returns createFn (cs_Creates changes) → returns updateFn (cs_Updates changes) →
  returns deleteFn (cs_Deletes changes) →
  let w1 := applyAll createFn (cs_Creates changes) w in
  let w2 := applyAll updateFn (cs_Updates changes) w1 in
  let w3 := applyAll deleteFn (cs_Deletes changes) w2 in
  let errors := failures createFn (cs_Creates changes) w ++
                failures updateFn (cs_Updates changes) w1 ++
                failures deleteFn (cs_Deletes changes) w2 in
  ∃ r, ApplyChanges changes createFn updateFn deleteFn w = (w3, Ret r) ∧
    ar_Errors r = errors ∧ ar_Failed r = Z.of_nat (length errors) ∧
    ar_Applied r + ar_Failed r = TotalChanges changes ∧ ar_Skipped r = 0 ∧
    (Success r = true ↔ errors = []).
Proof.
  intros Hc Hu Hd w1 w2 w3 errors. exists (resultOf changes errors).
  split; [by apply ApplyChanges_eq|]. unfold resultOf, Success. simpl. split_and!; [done|done|lia|done|].
  rewrite andb_true_iff, !Z.eqb_eq, <-length_zero_iff_nil. lia.
Qed.
End apply_theorems.

Lemma ApplyChanges_fail_soft_witness :
  let f : Change → M Z unit := λ ch w, if String.eqb (ch_Name ch) "bad" then (w, Err "no") else (w + 1, Ret tt) in
  let chs := mkChangeSet [mkChange ResourceIndexer "bad" None PNil; mkChange ResourceIndexer "a" None PNil] []
               [mkChange ResourceIndexer "b" (Some 3) PNil] in
  (∀ l, returns f l) ∧ ∃ r, ApplyChanges chs f f f 0 = (2, Ret r) ∧ ar_Failed r = 1 ∧ Success r = false.
Proof.
  intros f chs. assert (∀ l, returns f l) as H.
  { intros l ch w _ why. unfold f. destruct (String.eqb _ _); discriminate. }
  split; [exact H|]. destruct (ApplyChanges_fail_soft chs f f f 0 (H _) (H _) (H _)) as (r & Hr & _ & Hf & _ & _ & Hs).
  exists r. split; [exact Hr|]. split; [exact Hf|].
  apply not_true_iff_false. intros Ht. apply Hs in Ht. vm_compute in Ht. discriminate.
Defined.

(** ** Theorems: health and authentication *)

(** The issue a check is reported as. *)
Definition issueOf (check : HealthResource) : HealthIssue :=
  mkHealthIssue (hr_Source check)
    (if String.eqb (hr_Type check) "error" then HealthIssueTypeError
     else if String.eqb (hr_Type check) "warning" then HealthIssueTypeWarning else HealthIssueTypeNotice)
    (hr_Message check) (hr_WikiURL check).

Lemma foldl_addHealthCheck checks status :
  foldl addHealthCheck status checks =
  mkHealthStatus (hs_Healthy status && forallb (λ ch, negb (String.eqb (hr_Type ch) "error")) checks)
    (hs_Issues status ++ (issueOf <$> checks)).
Proof.
  revert status. induction checks as [|ch checks IH]; intros [h l]; simpl.
  - by rewrite andb_true_r, app_nil_r.
  - rewrite IH. unfold addHealthCheck, issueOf at 2. simpl. rewrite !orb_false_r, <-app_assoc.
    destruct (String.eqb (hr_Type ch) "error"); simpl; [by rewrite andb_false_r|].
    by destruct (String.eqb (hr_Type ch) "warning").
Qed.

(** a service is reported healthy exactly when its list of checks could be
    read and none of them is an error; every check is reported, in order, with its
    severity (a type other than error and warning is a notice), and a failed
    request is an error, not a healthy service. *)
Theorem GetHealth_spec {S} `{Service S} c apiVersion (s : S) :
  (GetHealth c apiVersion s).2 =
  match (Get (list HealthResource) c ("/api/" +:+ apiVersion +:+ "/health") s).2 with
  | Ret checks => Ret (mkHealthStatus
      (forallb (λ ch, negb (String.eqb (hr_Type ch) "error")) checks) (issueOf <$> checks))
  | Err e => Err ("failed to get health: " +:+ e)%string
  | Panic why => Panic why
  end.
Proof.
  unfold GetHealth, bind, wrapErr.
  destruct (Get (list HealthResource) c ("/api/" +:+ apiVersion +:+ "/health") s) as [s' [checks|e|why]];
    [|done..]. simpl. by rewrite foldl_addHealthCheck.
Qed.

(** The authentication methods and requirements an IR can ask for. *)
Definition knownMethod (m : string) : bool := existsb (String.eqb m) ["none"; "forms"; "basic"; "external"].
Definition knownRequired (r : string) : bool := existsb (String.eqb r) ["enabled"; "disabledForLocalAddresses"].

(** applying an authentication setting is a read-modify-write of five fields.
    What is read back afterwards is the method and requirement asked for (an
    unknown method reads back as none, an unknown requirement as enabled); applying
    it twice is applying it once; an empty password keeps the current one; and
    restoring the five fields gives the configuration back, so that every other
    setting of the host is kept. *)
Theorem mergeAuthentication_spec ir current :
  let merged := mergeAuthentication ir current in
  auth_Method (HostConfigToAuthIR merged) = (if knownMethod (auth_Method ir) then auth_Method ir else "none") ∧
  auth_AuthenticationRequired (HostConfigToAuthIR merged) =
    (if knownRequired (auth_AuthenticationRequired ir) then auth_AuthenticationRequired ir else "enabled") ∧
  mergeAuthentication ir merged = merged ∧
  hc_Password merged = (if String.eqb (auth_Password ir) "" then hc_Password current else auth_Password ir) ∧
  setAuthentication (hc_AuthenticationMethod current) (hc_AuthenticationRequired current)
    (hc_Username current) (hc_Password current) (hc_PasswordConfirmation current) merged = current.
Proof.
  destruct ir as [method user pw required]. cbn zeta. split_and!.
  - unfold knownMethod. simpl. unfold MapAuthMethod. simpl.
    do 4 (match goal with |- context [String.eqb method ?s] => destruct (String.eqb_spec method s) as [->|?] end;
      [done|]). done.
  - unfold knownRequired. simpl. unfold MapAuthRequired. simpl.
    do 2 (match goal with |- context [String.eqb required ?s] => destruct (String.eqb_spec required s) as [->|?] end;
      [done|]). done.
  - unfold mergeAuthentication. simpl. destruct current. unfold setAuthentication. simpl.
    f_equal; by repeat case_match.
  - simpl. by destruct (String.eqb pw "").
  - by destruct current.
Qed.
