(* ===== verification/DiffSteps.v ===== *)
(** * The steps of a diff

    An adapter's [Diff] threads one change set through a step per resource kind.
    Here: steps that append changes of one kind ([appends]), the changes a list of
    such steps makes, and where those of one step stand among them.  The payload a
    change of a kind must have for the adapter's [Apply] is a parameter. *)
From S2P Require Export Shared.

Section typing.
(** What [Apply] asks of a change it creates or updates a resource for. *)
Context (payloadTyped updateTyped : Change → bool).

(** ** The parts of a diff

    The [Diff] of an adapter threads one change set through a step per resource kind;
    each step appends changes of its own kind. *)

(** Well-typed changes of one resource type. *)
Definition changesOf (rt : string) (cs : ChangeSet) : Prop :=
  (∀ ch, ch ∈ cs_Creates cs → ch_ResourceType ch = rt ∧ payloadTyped ch = true) ∧
  (∀ ch, ch ∈ cs_Updates cs → ch_ResourceType ch = rt ∧ updateTyped ch = true) ∧
  (∀ ch, ch ∈ cs_Deletes cs → ch_ResourceType ch = rt).

(** A step that appends changes of one resource type. *)
Definition appends (rt : string) (f : ChangeSet → ChangeSet) : Prop :=
  (∀ cs, f cs = joinChanges cs (f emptyChangeSet)) ∧ changesOf rt (f emptyChangeSet).

Lemma changesOf_empty rt : changesOf rt emptyChangeSet.
Proof. by split_and!; intros ch ?%not_elem_of_nil. Qed.

Lemma appends_id rt : appends rt (λ cs, cs).
Proof. split; [intros cs; by rewrite joinChanges_empty_r|apply changesOf_empty]. Qed.

Lemma appends_create rt ch :
  ch_ResourceType ch = rt → payloadTyped ch = true → appends rt (appendCreate ch).
Proof.
  intros Hrt Ht. split; [intros cs; unfold joinChanges, appendCreate; simpl; by rewrite !app_nil_r|].
  split_and!; simpl; [by intros x ->%list_elem_of_singleton|by intros x ?%not_elem_of_nil..].
Qed.

Lemma appends_update rt ch :
  ch_ResourceType ch = rt → updateTyped ch = true → appends rt (appendUpdate ch).
Proof.
  intros Hrt Ht. split; [intros cs; unfold joinChanges, appendUpdate; simpl; by rewrite !app_nil_r|].
  split_and!; simpl; [by intros x ?%not_elem_of_nil|by intros x ->%list_elem_of_singleton|by intros x ?%not_elem_of_nil].
Qed.

Lemma appends_delete rt ch : ch_ResourceType ch = rt → appends rt (appendDelete ch).
Proof.
  intros Hrt. split; [intros cs; unfold joinChanges, appendDelete; simpl; by rewrite !app_nil_r|].
  split_and!; simpl; [by intros x ?%not_elem_of_nil..|by intros x ->%list_elem_of_singleton].
Qed.

(** One step after another of the same kind. *)
Lemma appends_then rt f g h : appends rt f → appends rt g → (∀ cs, h cs = g (f cs)) → appends rt h.
Proof.
  intros [Hf (F1 & F2 & F3)] [Hg (G1 & G2 & G3)] Hh.
  assert (h emptyChangeSet = joinChanges (f emptyChangeSet) (g emptyChangeSet)) as E by (by rewrite Hh, Hg).
  split.
  - intros cs. by rewrite E, Hh, Hf, Hg, joinChanges_assoc.
  - rewrite E. split_and!; simpl; intros ch [Hin|Hin]%elem_of_app; auto.
Qed.

(** The changes of a resource kind are well-typed. *)
Definition opsTyped {A} (rt : string) (ops : DiffOps A) : Prop := ∀ n c d,
  (ch_ResourceType (op_create ops n d) = rt ∧ payloadTyped (op_create ops n d) = true) ∧
  (ch_ResourceType (op_update ops n c d) = rt ∧ updateTyped (op_update ops n c d) = true) ∧
  ch_ResourceType (op_delete ops n c) = rt.

Lemma appends_named {A} rt (ops : DiffOps A) o current desired :
  opsTyped rt ops → appends rt (diffNamed ops o current desired).
Proof.
  intros Ho. split; [intros cs; rewrite !diffNamed_eq; unfold joinChanges; simpl; done|].
  split_and!; intros ch.
  - intros [?%not_elem_of_nil|(n & d & _ & _ & ->)]%elem_of_creates; [done|by apply Ho].
  - intros [?%not_elem_of_nil|(n & c & d & _ & _ & _ & ->)]%elem_of_updates; [done|by apply Ho].
  - intros [?%not_elem_of_nil|(n & c & Hc & _ & ->)]%elem_of_deletes; [done|]. by apply (Ho n c c).
Qed.

(** The steps that several adapters share. *)
Lemma appends_folders current desired :
  (∀ n f, payloadTyped (mkChange ResourceRootFolder n None (PRootFolder f)) = true) →
  appends ResourceRootFolder (DiffRootFolders current desired).
Proof.
  intros Ht. split; [intros cs; rewrite !DiffRootFolders_eq; unfold joinChanges; simpl; by rewrite !app_nil_r|].
  rewrite DiffRootFolders_eq. split_and!; intros ch; simpl; try by intros ?%not_elem_of_nil.
  intros (f & _ & Hf)%list_elem_of_omap. unfold missingFolder in Hf. case_match; simplify_eq. by split.
Qed.

Lemma appends_delays current desired :
  (∀ n d, payloadTyped (mkChange ResourceDelayProfile n None (PDelayProfile d)) = true) →
  (∀ n i d, updateTyped (mkChange ResourceDelayProfile n (Some i) (PDelayProfile d)) = true) →
  appends ResourceDelayProfile (DiffDelayProfiles current desired).
Proof.
  intros Hc Hu. split; [intros cs; by rewrite !DiffDelayProfiles_eq|].
  rewrite DiffDelayProfiles_eq. split_and!; intros ch; simpl; intros (d & _ & Hd)%list_elem_of_omap;
    unfold delayCreate, delayUpdate, delayDelete in Hd; repeat case_match; simplify_eq; by auto.
Qed.

(** Changes of any of the types of a list of steps. *)
Definition changesOfAny (rts : list string) (cs : ChangeSet) : Prop :=
  (∀ ch, ch ∈ cs_Creates cs → ch_ResourceType ch ∈ rts ∧ payloadTyped ch = true) ∧
  (∀ ch, ch ∈ cs_Updates cs → ch_ResourceType ch ∈ rts ∧ updateTyped ch = true) ∧
  (∀ ch, ch ∈ cs_Deletes cs → ch_ResourceType ch ∈ rts).

Lemma changesOfAny_join rts1 rts2 a b :
  changesOfAny rts1 a → changesOfAny rts2 b → changesOfAny (rts1 ++ rts2) (joinChanges a b).
Proof.
  intros (A1 & A2 & A3) (B1 & B2 & B3).
  split_and!; simpl; intros ch [Hin|Hin]%elem_of_app; rewrite elem_of_app; naive_solver.
Qed.

Lemma foldl_appends (l : list (string * (ChangeSet → ChangeSet))) :
  Forall (λ step, appends step.1 step.2) l → ∃ d, changesOfAny l.*1 d ∧
  ∀ cs, foldl (λ cs (step : string * (ChangeSet → ChangeSet)), step.2 cs) cs l = joinChanges cs d.
Proof.
  induction 1 as [|[rt f] l [Hf Hof] _ (d & Hd & IH)].
  - exists emptyChangeSet. split; [by split_and!; intros ch ?%not_elem_of_nil|].
    intros cs. by rewrite joinChanges_empty_r.
  - exists (joinChanges (f emptyChangeSet) d). split.
    + change ((rt, f) :: l).*1 with ([rt] ++ l.*1).
      apply (changesOfAny_join [rt] l.*1); [|done]. destruct Hof as (H1 & H2 & H3).
      split_and!; intros ch Hin; rewrite list_elem_of_singleton; auto.
    + intros cs. simpl. rewrite IH. simpl in Hf. by rewrite (Hf cs), joinChanges_assoc.
Qed.

(** The changes of one step stand between those of the steps around it. *)
Lemma steps_around (l before after : list (string * (ChangeSet → ChangeSet))) rt f :
  Forall (λ step, appends step.1 step.2) l → l = before ++ (rt, f) :: after →
  ∃ pre post, foldl (λ cs (step : string * (ChangeSet → ChangeSet)), step.2 cs) emptyChangeSet l =
      joinChanges pre (joinChanges (f emptyChangeSet) post) ∧
    changesOfAny before.*1 pre ∧ changesOfAny after.*1 post.
Proof.
  intros Ha ->. apply Forall_app in Ha as [Hb [[Hf _] Haf]%Forall_cons].
  destruct (foldl_appends before Hb) as (pre & Hpre & Ep), (foldl_appends after Haf) as (post & Hpost & Eq).
  exists pre, post. split_and!; [|done..].
  rewrite foldl_app, Ep, joinChanges_empty_l. simpl. rewrite Eq. simpl in Hf.
  by rewrite (Hf pre), joinChanges_assoc.
Qed.

(** The changes of a type are those of its step. *)
Lemma step_changes (l before after : list (string * (ChangeSet → ChangeSet))) rt f :
  Forall (λ step, appends step.1 step.2) l → l = before ++ (rt, f) :: after → rt ∉ before.*1 ++ after.*1 →
  let all := foldl (λ cs (step : string * (ChangeSet → ChangeSet)), step.2 cs) emptyChangeSet l in
  let own := f emptyChangeSet in
  ∀ ch, ch_ResourceType ch = rt →
    (ch ∈ cs_Creates all ↔ ch ∈ cs_Creates own) ∧ (ch ∈ cs_Updates all ↔ ch ∈ cs_Updates own) ∧
    (ch ∈ cs_Deletes all ↔ ch ∈ cs_Deletes own).
Proof.
  intros Ha Hl Hrt all own ch <-. destruct (steps_around l before after _ f Ha Hl) as (pre & post & E & Hpre & Hpost).
  unfold all. rewrite E. rewrite not_elem_of_app in Hrt. destruct Hrt as [Hb Haf].
  destruct Hpre as (P1 & P2 & P3), Hpost as (Q1 & Q2 & Q3). unfold own. simpl.
  split_and!; rewrite !elem_of_app; split; auto; intros [Hin|[Hin|Hin]]; try done;
    first [by destruct Hb; apply P1|by destruct Hb; apply P2|by destruct Hb; apply P3
          |by destruct Haf; apply Q1|by destruct Haf; apply Q2|by destruct Haf; apply Q3].
Qed.

(** The changes of all steps together. *)
Lemma steps_typed (l : list (string * (ChangeSet → ChangeSet))) cs :
  Forall (λ step, appends step.1 step.2) l →
  cs = foldl (λ cs (step : string * (ChangeSet → ChangeSet)), step.2 cs) emptyChangeSet l →
  (∀ ch, ch ∈ cs_Creates cs → payloadTyped ch = true) ∧ (∀ ch, ch ∈ cs_Updates cs → updateTyped ch = true).
Proof.
  intros Ha ->. destruct (foldl_appends l Ha) as (d & (Hc & Hu & _) & E).
  rewrite E, joinChanges_empty_l. split; intros ch Hin; [by apply Hc|by apply Hu].
Qed.
End typing.
#[export] Hint Resolve appends_id appends_create appends_update appends_delete : nebularr.
