(* ===== verification/Rest.v ===== *)
(** * The contract of a REST collection

    What the documented API of a service says of one of its collections
    ([RestLaws]): the answers to a list, a create, an update and a delete; what the
    methods of [Http] return against it; and a small service that keeps the
    contract ([MiniServer]), which the witnesses run theorems on. *)
From S2P Require Export Shared.

(** ** The base URL *)

(** The client's base URL is [scheme://host:port]. *)
Definition plainBase (c : Client) : Prop := ∃ (tls : bool) host port,
  c_BaseURL c = ((if tls then "https" else "http") +:+ "://" +:+ (host +:+ String ":" port))%string ∧
  stringForall hostByte host = true ∧ stringForall isDigit port = true ∧ host ≠ "".

Lemma urlParse_base c path : plainBase c → plainPath path = true → is_Some (urlParse (c_BaseURL c +:+ path)).
Proof.
  intros (tls & host & port & -> & Hh & Hp & Hne) Hpath.
  exists (mkURL (if tls then "https" else "http") (host +:+ String ":" port) path).
  rewrite <-(urlParse_plain_path tls host port path) by done. by destruct tls.
Qed.

(** The path of a collection is plain. *)
Definition plainName (name : string) : bool := stringForall pathByte name.

(** ** The contract of a collection *)

(** The collection [col_api col_name], e.g. of the API ["/api/v3/"]. *)
Record Collection (S R : Type) := mkCollection {
  col_api : string;
  col_name : string;
  col_view : S → gmap Z R;       (* the resources by their ID *)
  col_setID : Z → R → R }.
Arguments mkCollection {S R}.
Arguments col_api {S R}.
Arguments col_name {S R}.
Arguments col_view {S R}.
Arguments col_setID {S R}.

Definition collectionPath (api name : string) : string := (api +:+ name)%string.
Definition memberPath (api name : string) (id : Z) : string := (api +:+ name +:+ "/" +:+ Itoa id)%string.

Section contract.
Context {S : Type} `{Service S} (c : Client).

Definition request (method p : string) (body : option any) : Request :=
  mkRequest method (c_BaseURL c +:+ p) (c_APIKey c) body.

(** The states of the service in which the collection is the same. *)
Definition sameCollection {R} (col : Collection S R) : relation S :=
  λ s s', col_view col s' = col_view col s.

#[export] Instance sameCollection_preorder {R} (col : Collection S R) : PreOrder (sameCollection col).
Proof. split; unfold sameCollection; [done|]. intros s1 s2 s3 H12 H23. congruence. Qed.

Abbreviation pathOf col := (collectionPath (col_api col) (col_name col)).
Abbreviation memberOf col := (memberPath (col_api col) (col_name col)).

Class RestLaws {R} `{FromJSON R} (col : Collection S R) : Prop := {
  col_list s : ∃ text doc l,
    serve c (request "GET" (pathOf col) None) s = (s, Answer 200 text (Some doc)) ∧
    fromJSON doc = Some l ∧ l ≡ₚ (map_to_list (col_view col s)).*2;
  (* a create stores the document under a fresh ID and answers with it *)
  col_post s doc r : fromJSON doc = Some r → ∃ s' text doc' i,
    serve c (request "POST" (pathOf col) (Some doc)) s = (s', Answer 201 text (Some doc')) ∧
    fromJSON doc' = Some (col_setID col i r) ∧ 0 < i ∧ col_view col s !! i = None ∧
    col_view col s' = <[i := col_setID col i r]> (col_view col s);
  col_put s i doc r : fromJSON doc = Some r → is_Some (col_view col s !! i) → ∃ s' status text doc',
    serve c (request "PUT" (memberOf col i) (Some doc)) s = (s', Answer status text (Some doc')) ∧
    (status = 200 ∨ status = 202) ∧
    fromJSON doc' = Some (col_setID col i r) ∧
    col_view col s' = <[i := col_setID col i r]> (col_view col s);
  col_delete s i : is_Some (col_view col s !! i) → ∃ s' text doc',
    serve c (request "DELETE" (memberOf col i) None) s = (s', Answer 200 text doc') ∧
    col_view col s' = delete i (col_view col s) }.

(** The contract of a collection of a service with the [others]: reads, and requests
    on other collections, leave the collection alone. *)
Class LawsAt (api : string) {R} `{FromJSON R} (col : Collection S R) (others : list string) : Prop := {
  col_rest :: RestLaws col;
  col_get : ∀ p, harmless (sameCollection col) c "GET" p;
  col_others : ∀ name, name ∈ others → quietAt (sameCollection col) c api name }.

(** The ownership tag exists and has the ID [tagID]. *)
Definition tagKnownAt (apiVersion : string) (tagID : Z) : Prop := ∀ s, ∃ text doc tags i label,
  serve c (request "GET" ("/api/" +:+ apiVersion +:+ "/tag") None) s = (s, Answer 200 text (Some doc)) ∧
  fromJSON doc = Some tags ∧
  list_find (λ tag, tag_Label tag = OwnershipTagName) tags = Some (i, mkTagResource tagID label).

Hypothesis base : plainBase c.

Lemma do_plain method p body s : plainPath p = true →
  do c method p body s =
  match serve c (request method p body) s with
  | (s', TransportError e) => (s', Err e)
  | (s', Answer status text document) => (s', Ret (status, text, document))
  end.
Proof. intros Hp. unfold do. by destruct (urlParse_base c p base Hp) as [u ->]. Qed.

Lemma EnsureOwnershipTag_known apiVersion tagID s :
  plainName apiVersion = true → tagKnownAt apiVersion tagID →
  EnsureOwnershipTag c apiVersion s = (s, Ret tagID) ∧ GetOwnershipTagID c apiVersion s = (s, Ret tagID).
Proof.
  intros Hv Ht. destruct (Ht s) as (text & doc & tags & i & label & Hs & Hd & Hf).
  assert (plainPath ("/api/" +:+ apiVersion +:+ "/tag") = true) as Hp.
  { apply plainPath_app; [done..|]. rewrite stringForall_app. unfold plainName in Hv. by rewrite Hv. }
  assert (GetOwnershipTagID c apiVersion s = (s, Ret tagID)) as HG.
  { unfold GetOwnershipTagID, Get, wrapErr, bind.
    rewrite do_plain by done. rewrite Hs. simpl. unfold decode. simpl. rewrite Hd. simpl. by rewrite Hf. }
  split; [|done]. unfold EnsureOwnershipTag. by rewrite (bind_attempt_ret _ _ _ _ _ HG).
Qed.

Section requests.
Context {R : Type} `{FromJSON R} (col : Collection S R) `{!RestLaws col}.
Context (api_plain : plainPath (col_api col) = true) (api_some : col_api col ≠ ""%string)
  (plain : plainName (col_name col) = true).

Lemma plain_collection : plainPath (pathOf col) = true.
Proof. by apply plainPath_app. Qed.

Lemma plain_resource i : plainPath (memberOf col i) = true.
Proof.
  apply plainPath_app; [done..|]. unfold plainName in plain. rewrite stringForall_app, plain.
  apply Itoa_pathByte.
Qed.

Lemma Get_list s : ∃ l, Get (list R) c (pathOf col) s = (s, Ret l) ∧
  l ≡ₚ (map_to_list (col_view col s)).*2.
Proof.
  destruct (col_list s) as (text & doc & l & Hs & Hd & Hl). exists l. split; [|done].
  unfold Get, bind. rewrite do_plain, Hs by (by apply plain_collection). simpl. unfold decode. simpl.
  by rewrite Hd.
Qed.

Section body.
Context {B : Type} `{ToJSON B} (body : B) (r : R) (decodes : fromJSON (toJSON body) = Some r).

Lemma Post_stores s : ∃ s' i,
  Post c (pathOf col) body s = (s', Ret tt) ∧
  PostResult R c (pathOf col) body s = (s', Ret (col_setID col i r)) ∧
  0 < i ∧ col_view col s !! i = None ∧ col_view col s' = <[i := col_setID col i r]> (col_view col s).
Proof.
  destruct (col_post s _ r decodes) as (s' & text & doc' & i & Hs & Hd & Hi & Hf & Hv). exists s', i.
  unfold Post, PostResult, bind. rewrite do_plain, Hs by (by apply plain_collection). simpl.
  unfold decode. simpl. by rewrite Hd.
Qed.

Lemma Put_stores s i : is_Some (col_view col s !! i) → ∃ s',
  Put c (memberOf col i) body s = (s', Ret tt) ∧
  PutResult R c (memberOf col i) body s = (s', Ret (col_setID col i r)) ∧
  col_view col s' = <[i := col_setID col i r]> (col_view col s).
Proof.
  intros Hi. destruct (col_put s i _ r decodes Hi) as (s' & status & text & doc' & Hs & Hst & Hd & Hv).
  exists s'. unfold Put, PutResult, bind. rewrite do_plain, Hs by (by apply plain_resource).
  destruct Hst as [-> | ->]; simpl; unfold decode; simpl; by rewrite Hd.
Qed.
End body.

Lemma Delete_removes s i : is_Some (col_view col s !! i) → ∃ s',
  Delete c (memberOf col i) s = (s', Ret tt) ∧
  col_view col s' = delete i (col_view col s).
Proof.
  intros Hi. destruct (col_delete s i Hi) as (s' & text & doc' & Hs & Hv). exists s'.
  unfold Delete, bind. by rewrite do_plain, Hs by (by apply plain_resource).
Qed.
End requests.
End contract.


(** ** A service that keeps the contract

    Documents by ID for one collection; every other request is answered 404. *)
Module MiniServer.

(** The document with its ID set: the last member of a name counts. *)
Definition assignID (i : Z) (doc : any) : any :=
  match doc with
  | VMap l => VMap (l ++ [("id", VInt i)])
  | VNil => VMap [("id", VInt i)]
  | v => v
  end.

Lemma readMember_snoc {A} (conv : any → option A) nullTo name cur l k v :
  sameKey name k = false →
  readMember conv nullTo name cur (l ++ [(k, v)]) = readMember conv nullTo name cur l.
Proof.
  intros Hk. revert cur. induction l as [|[k' v'] l IH]; intros cur; simpl; [by rewrite Hk|].
  destruct (sameKey name k'); [|done]. destruct v'; try apply IH; by destruct (conv _).
Qed.

Lemma getInt_id l i : getInt "id" (l ++ [("id", VInt i)]) = (getInt "id" l ≫= λ _, Some i).
Proof.
  unfold getInt. generalize 0. induction l as [|[k' v'] l IH]; intros cur; [done|]. simpl.
  destruct (sameKey "id" k'); [|done]. destruct v'; simpl; done.
Qed.

Section server.
Context {R : Type} `{FromJSON R} (api name : string) (setID : Z → R → R).
Context (decodes : ∀ doc r i, fromJSON doc = Some r → fromJSON (assignID i doc) = Some (setID i r)).
Context (tagID : Z).

Abbreviation State := (gmap Z any).
Definition view (s : State) : gmap Z R := omap fromJSON s.

(** The documents of the collection, in the order of the view. *)
Definition documents (s : State) : list any := omap (λ ir : Z * R, s !! ir.1) (map_to_list (view s)).

Definition tagsDocument : any :=
  VList [VMap [("id", VInt tagID); ("label", VString OwnershipTagName)]].

Definition serveGet (c : Client) (url : string) (s : State) : Response :=
  if String.eqb url (c_BaseURL c +:+ (api +:+ "tag")) then Answer 200 "" (Some tagsDocument)
  else if String.eqb url (c_BaseURL c +:+ collectionPath api name) then Answer 200 "" (Some (VList (documents s)))
  else Answer 404 "" None.

(** The member a URL addresses. *)
Definition member (c : Client) (url : string) (s : State) : option Z :=
  fst ∘ snd <$> list_find (λ kv : Z * any, url = (c_BaseURL c +:+ memberPath api name kv.1)%string) (map_to_list s).

Definition store (i : Z) (status : Z) (body : option any) (s : State) : State * Response :=
  match body with
  | Some doc => match (fromJSON doc : option R) with
                | Some _ => (<[i := assignID i doc]> s, Answer status "" (Some (assignID i doc)))
                | None => (s, Answer 400 "" None)
                end
  | None => (s, Answer 400 "" None)
  end.

(** A new ID, above all others. *)
Definition freshID (s : State) : Z := 1 + foldr Z.max 0 (map_to_list s).*1.

Lemma freshID_spec s : 0 < freshID s ∧ s !! freshID s = None.
Proof.
  unfold freshID. assert (∀ l, 0 ≤ foldr Z.max 0 l ∧ ∀ i, i ∈ l → i ≤ foldr Z.max 0 l) as Hmax.
  { induction l as [|x l [IH0 IH]]; simpl; [split; [done|by intros i ?%not_elem_of_nil]|].
    split; [lia|]. intros i [->|Hi%IH]%elem_of_cons; lia. }
  destruct (Hmax (map_to_list s).*1) as [H0 Hle]. split; [lia|].
  destruct (s !! _) as [doc|] eqn:E; [|done]. exfalso.
  apply elem_of_map_to_list, (list_elem_of_fmap_2 fst), Hle in E. simpl in E. lia.
Qed.

Definition miniServe (c : Client) (rq : Request) (s : State) : State * Response :=
  if String.eqb (rq_Method rq) "GET" then (s, serveGet c (rq_URL rq) s)
  else if String.eqb (rq_Method rq) "POST" && String.eqb (rq_URL rq) (c_BaseURL c +:+ collectionPath api name)
  then store (freshID s) 201 (rq_Body rq) s
  else match member c (rq_URL rq) s with
       | None => (s, Answer 404 "" None)
       | Some i =>
           if String.eqb (rq_Method rq) "PUT" then store i 202 (rq_Body rq) s
           else if String.eqb (rq_Method rq) "DELETE" then (delete i s, Answer 200 "" None)
           else (s, Answer 405 "" None)
       end.

#[local] Instance MiniService : Service State := {|
  serve := miniServe; requestError := id; decodeError := λ _, "unexpected document" |}.

Definition collection : Collection State R := mkCollection api name view setID.

Lemma documents_decode s : mapM fromJSON (documents s) = Some (map_to_list (view s)).*2.
Proof.
  unfold documents. assert (∀ i r, (i, r) ∈ map_to_list (view s) → ∃ doc, s !! i = Some doc ∧ fromJSON doc = Some r) as Hin.
  { intros i r Hi%elem_of_map_to_list. unfold view in Hi.
    apply lookup_omap_Some in Hi as (doc & Hd & Hi). by exists doc. }
  induction (map_to_list (view s)) as [|[i r] l IH]; [done|].
  destruct (Hin i r) as (doc & Hi & Hr); [left|]. csimpl. rewrite Hi. simpl. rewrite Hr. simpl.
  refine (f_equal (λ x, x ≫= λ k, Some (r :: k)) (IH _)). intros i' r' Hi'. apply Hin. by right.
Qed.

Lemma memberPath_inj i j : memberPath api name i = memberPath api name j → i = j.
Proof.
  unfold memberPath. rewrite <-!append_assoc. intros Hp%append_inj_r. by apply (inj pretty) in Hp.
Qed.

Lemma member_known c s i : is_Some (s !! i) → member c (c_BaseURL c +:+ memberPath api name i) s = Some i.
Proof.
  intros [doc Hi%elem_of_map_to_list]. unfold member.
  destruct (list_find_elem_of (λ kv : Z * any, (c_BaseURL c +:+ memberPath api name i)%string =
    (c_BaseURL c +:+ memberPath api name kv.1)%string) (map_to_list s) (i, doc) Hi eq_refl) as [[k [j doc']] Hf].
  rewrite Hf. apply list_find_Some in Hf as (_ & Hj & _). simpl in *.
  by apply append_inj_r, memberPath_inj in Hj as ->.
Qed.

Lemma view_store i doc r s :
  fromJSON doc = Some r → view (<[i := assignID i doc]> s) = <[i := setID i r]> (view s).
Proof. intros Hd. unfold view. by rewrite (omap_insert_Some _ _ _ _ (setID i r)) by (by apply decodes). Qed.

Lemma view_stored s i : is_Some (view s !! i) → is_Some (s !! i).
Proof. unfold view. intros [r (doc & _ & Hi)%lookup_omap_Some]. by exists doc. Qed.

Lemma request_differs c p q : p ≠ q → String.eqb (c_BaseURL c +:+ p) (c_BaseURL c +:+ q) = false.
Proof. intros Hne. apply String.eqb_neq. by intros ?%append_inj_r. Qed.

Lemma rest_laws c : collectionPath api name ≠ (api +:+ "tag")%string → RestLaws c collection.
Proof.
  intros Htag. split.
  - intros s. eexists _, _, _. split; [|split].
    + simpl. unfold miniServe, request. simpl. unfold serveGet. rewrite request_differs, String.eqb_refl by done. done.
    + apply documents_decode.
    + done.
  - intros s doc r Hd. eexists _, _, _, (freshID s). split; [|split_and!].
    + simpl. unfold miniServe, request. simpl. rewrite String.eqb_refl. unfold store. by rewrite Hd.
    + by apply decodes.
    + apply freshID_spec.
    + destruct (col_view collection s !! freshID s) as [r'|] eqn:E; [|done].
      destruct (view_stored s (freshID s) (ex_intro _ r' E)) as [doc' Hs].
      destruct (freshID_spec s) as [_ Hf]. by rewrite Hf in Hs.
    + by apply view_store.
  - intros s i doc r Hd Hi. eexists _, 202, _, _. split; [|split_and!; [by right| |]].
    + simpl. unfold miniServe, request. simpl. rewrite member_known by (by apply view_stored).
      unfold store. by rewrite Hd.
    + by apply decodes.
    + by apply view_store.
  - intros s i Hi. eexists _, _, _. split.
    + simpl. unfold miniServe, request. simpl. by rewrite member_known by (by apply view_stored).
    + unfold collection, view. simpl. by rewrite omap_delete.
Qed.

(** Requests elsewhere change nothing. *)
Lemma elsewhere c p method body s :
  p ≠ collectionPath api name → (∀ i, p ≠ memberPath api name i) →
  (miniServe c (request c method p body) s).1 = s.
Proof.
  intros Hp Hm. assert (member c (c_BaseURL c +:+ p) s = None) as HN.
  { unfold member. rewrite (proj2 (list_find_None _ _)); [done|]. apply Forall_forall. intros [i doc] _ Heq.
    apply append_inj_r in Heq. by apply (Hm i). }
  unfold miniServe, request. simpl. rewrite request_differs, andb_false_r by done.
  destruct (String.eqb method "GET"); [done|]. by rewrite HN.
Qed.

(** The paths of another collection are not those of this one. *)
Definition apart (other : string) : Prop := ∀ i j,
  collectionPath api other ≠ collectionPath api name ∧ collectionPath api other ≠ memberPath api name i ∧
  memberPath api other j ≠ collectionPath api name ∧ memberPath api other j ≠ memberPath api name i.

Lemma laws_at c others :
  collectionPath api name ≠ (api +:+ "tag")%string → Forall apart others → LawsAt c api collection others.
Proof.
  intros Htag Hothers. rewrite Forall_forall in Hothers. split.
  - by apply rest_laws.
  - intros p body s. done.
  - intros other Ho. split; intros; intros body s; unfold sameCollection; f_equal; apply elsewhere; intros;
      first [apply (Hothers other Ho 0 0)|eapply (Hothers other Ho _ 0)|apply (Hothers other Ho 0)|apply (Hothers other Ho)].
Qed.

Lemma known_tag apiVersion c :
  (api +:+ "tag" = "/api/" +:+ apiVersion +:+ "/tag")%string → tagKnownAt c apiVersion tagID.
Proof.
  intros Hp s. eexists _, _, _, _, _. split; [|split].
  - simpl. unfold miniServe, request. simpl. unfold serveGet. rewrite <-Hp. by rewrite String.eqb_refl.
  - reflexivity.
  - reflexivity.
Qed.
End server.

(** Setting the ID of a document sets it in what the document decodes to. *)
Ltac decodes_with_id unfold_instances :=
  intros doc r i; destruct doc as [| | | | | | |l]; try done;
  [by intros [= <-]|];
  simpl assignID; unfold fromJSON; unfold_instances; unfold asStruct; rewrite getInt_id;
  destruct (getInt "id" l); [|done]; cbn [mbind option_bind];
  unfold getString, getInt, getBool, getSlice, getPtr; rewrite !readMember_snoc by done;
  repeat match goal with
  | |- context [readMember ?c ?z ?n ?x l] =>
      destruct (readMember c z n x l); [|done]; cbn [mbind option_bind]
  end; by intros [= <-].

End MiniServer.
