(* ===== verification/Pair.v ===== *)
(** * Two services behind one address

    Requests are answered by a fixed document, by the right or by the left service,
    depending on the URL.  The contract of a collection carries over from the part
    to the whole. *)
From S2P Require Export Rest.

Section pair.
Context {S1 S2 : Type} (left : Service S1) (right : Service S2).
Context (front : Client → Request → option Response) (toRight : Client → string → bool).

Definition PairService : Service (S1 * S2) := {|
  serve c rq s :=
    match front c rq with
    | Some response => (s, response)
    | None =>
        if toRight c (rq_URL rq)
        then let '(s2, response) := @serve _ right c rq s.2 in ((s.1, s2), response)
        else let '(s1, response) := @serve _ left c rq s.1 in ((s1, s.2), response)
    end;
  requestError := @requestError _ left;
  decodeError := @decodeError _ left |}.

(** A request that reaches the left (or the right) service. *)
Definition goesLeft (c : Client) (p : string) : Prop := ∀ method body,
  front c (request c method p body) = None ∧ toRight c (c_BaseURL c +:+ p) = false.
Definition goesRight (c : Client) (p : string) : Prop := ∀ method body,
  front c (request c method p body) = None ∧ toRight c (c_BaseURL c +:+ p) = true.

Lemma serve_left c p method body s : goesLeft c p →
  @serve _ PairService c (request c method p body) s =
  let '(s1, response) := @serve _ left c (request c method p body) s.1 in ((s1, s.2), response).
Proof. intros Hl. destruct (Hl method body) as [H1 H2]. simpl. rewrite H1. cbn [request rq_URL]. by rewrite H2. Qed.

Lemma serve_right c p method body s : goesRight c p →
  @serve _ PairService c (request c method p body) s =
  let '(s2, response) := @serve _ right c (request c method p body) s.2 in ((s.1, s2), response).
Proof. intros Hl. destruct (Hl method body) as [H1 H2]. simpl. rewrite H1. cbn [request rq_URL]. by rewrite H2. Qed.

Lemma harmless_left {R} (col : Collection S1 R) view setID c method p :
  (∀ s, view s = col_view col s.1) →
  @harmless _ left (sameCollection col) c method p →
  @harmless _ PairService (sameCollection (mkCollection (col_api col) (col_name col) view setID)) c method p.
Proof.
  intros Hv Hh body s. unfold sameCollection in *. simpl. destruct (front c _); [done|].
  specialize (Hh body s.1). destruct (toRight c _).
  - destruct (@serve _ right c _ s.2) as [s2 response]. simpl. by rewrite !Hv.
  - destruct (@serve _ left c _ s.1) as [s1 response]. simpl in *. by rewrite !Hv.
Qed.

Lemma harmless_right {R} (col : Collection S2 R) view setID c method p :
  (∀ s, view s = col_view col s.2) →
  @harmless _ right (sameCollection col) c method p →
  @harmless _ PairService (sameCollection (mkCollection (col_api col) (col_name col) view setID)) c method p.
Proof.
  intros Hv Hh body s. unfold sameCollection in *. simpl. destruct (front c _); [done|].
  specialize (Hh body s.2). destruct (toRight c _).
  - destruct (@serve _ right c _ s.2) as [s2 response]. simpl in *. by rewrite !Hv.
  - destruct (@serve _ left c _ s.1) as [s1 response]. simpl. by rewrite !Hv.
Qed.

(** A request that changes neither side changes nothing. *)
Lemma harmless_both c method p :
  @harmless _ left eq c method p → @harmless _ right eq c method p → @harmless _ PairService eq c method p.
Proof.
  intros Hl Hr body [s1 s2]. specialize (Hl body s1). specialize (Hr body s2). simpl.
  destruct (front c _); [done|]. destruct (toRight c _).
  - destruct (@serve _ right c _ s2) as [s' response]. simpl in *. congruence.
  - destruct (@serve _ left c _ s1) as [s' response]. simpl in *. congruence.
Qed.

Lemma pair_left_rest {R} `{FromJSON R} (col : Collection S1 R) c :
  @RestLaws _ left c _ _ col →
  goesLeft c (collectionPath (col_api col) (col_name col)) →
  (∀ i, goesLeft c (memberPath (col_api col) (col_name col) i)) →
  @RestLaws _ PairService c _ _
    (mkCollection (col_api col) (col_name col) (λ s, col_view col s.1) (col_setID col)).
Proof.
  intros HL Hp Hr. split; cbn [col_name col_api col_view col_setID].
  - intros s. destruct (@col_list _ left _ _ _ _ HL s.1) as (text & doc & l & E & Hd & Hl).
    exists text, doc, l. split; [|done]. rewrite serve_left, E by done. by destruct s.
  - intros s doc r Hd. destruct (@col_post _ left _ _ _ _ HL s.1 doc r Hd) as (s' & text & doc' & i & E & Hd' & Hn & Hv).
    exists (s', s.2), text, doc', i. split; [|done]. by rewrite serve_left, E.
  - intros s i doc r Hd Hi. destruct (@col_put _ left _ _ _ _ HL s.1 i doc r Hd Hi) as (s' & st & text & doc' & E & Hst & Hd' & Hv).
    exists (s', s.2), st, text, doc'. split; [|done]. by rewrite serve_left, E.
  - intros s i Hi. destruct (@col_delete _ left _ _ _ _ HL s.1 i Hi) as (s' & text & doc' & E & Hv).
    exists (s', s.2), text, doc'. split; [|done]. by rewrite serve_left, E.
Qed.

Lemma pair_left_laws api {R} `{FromJSON R} (col : Collection S1 R) c others :
  @LawsAt _ left c api _ _ col others →
  goesLeft c (collectionPath (col_api col) (col_name col)) →
  (∀ i, goesLeft c (memberPath (col_api col) (col_name col) i)) →
  @LawsAt _ PairService c api _ _
    (mkCollection (col_api col) (col_name col) (λ s, col_view col s.1) (col_setID col)) others.
Proof.
  intros [Hrest Hget Hothers] Hp Hr. split.
  - by apply pair_left_rest.
  - intros p. eapply harmless_left; [done|]. apply Hget.
  - intros name Hin. destruct (Hothers name Hin) as [H1 H2].
    split; intros; (eapply harmless_left; [done|]); [apply H1|apply H2].
Qed.

Lemma pair_right_rest {R} `{FromJSON R} (col : Collection S2 R) c :
  @RestLaws _ right c _ _ col →
  goesRight c (collectionPath (col_api col) (col_name col)) →
  (∀ i, goesRight c (memberPath (col_api col) (col_name col) i)) →
  @RestLaws _ PairService c _ _
    (mkCollection (col_api col) (col_name col) (λ s, col_view col s.2) (col_setID col)).
Proof.
  intros HL Hp Hr. split; cbn [col_name col_api col_view col_setID].
  - intros s. destruct (@col_list _ right _ _ _ _ HL s.2) as (text & doc & l & E & Hd & Hl).
    exists text, doc, l. split; [|done]. rewrite serve_right, E by done. by destruct s.
  - intros s doc r Hd. destruct (@col_post _ right _ _ _ _ HL s.2 doc r Hd) as (s' & text & doc' & i & E & Hd' & Hn & Hv).
    exists (s.1, s'), text, doc', i. split; [|done]. by rewrite serve_right, E.
  - intros s i doc r Hd Hi. destruct (@col_put _ right _ _ _ _ HL s.2 i doc r Hd Hi) as (s' & st & text & doc' & E & Hst & Hd' & Hv).
    exists (s.1, s'), st, text, doc'. split; [|done]. by rewrite serve_right, E.
  - intros s i Hi. destruct (@col_delete _ right _ _ _ _ HL s.2 i Hi) as (s' & text & doc' & E & Hv).
    exists (s.1, s'), text, doc'. split; [|done]. by rewrite serve_right, E.
Qed.

Lemma pair_right_laws api {R} `{FromJSON R} (col : Collection S2 R) c others :
  @LawsAt _ right c api _ _ col others →
  goesRight c (collectionPath (col_api col) (col_name col)) →
  (∀ i, goesRight c (memberPath (col_api col) (col_name col) i)) →
  @LawsAt _ PairService c api _ _
    (mkCollection (col_api col) (col_name col) (λ s, col_view col s.2) (col_setID col)) others.
Proof.
  intros [Hrest Hget Hothers] Hp Hr. split.
  - by apply pair_right_rest.
  - intros p. eapply harmless_right; [done|]. apply Hget.
  - intros name Hin. destruct (Hothers name Hin) as [H1 H2].
    split; intros; (eapply harmless_right; [done|]); [apply H1|apply H2].
Qed.
End pair.

Lemma HasPrefix_app b s p : HasPrefix (b +:+ s) (b +:+ p) = HasPrefix s p.
Proof. unfold HasPrefix. induction b as [|x b IH]; [done|]. simpl. by destruct (ascii_dec x x). Qed.

(** A front that answers the status request only. *)
Definition statusFront (path : string) (c : Client) (rq : Request) : option Response :=
  if String.eqb (rq_URL rq) (c_BaseURL c +:+ path)
  then Some (Answer 200 "" (Some (VMap [("version", VString "4.0.9")]))) else None.

Lemma statusFront_none path c method p body : p ≠ path → statusFront path c (request c method p body) = None.
Proof.
  intros Hp. unfold statusFront, request. cbn [rq_URL].
  destruct (String.eqb_spec (c_BaseURL c +:+ p) (c_BaseURL c +:+ path)) as [E%append_inj_r|]; done.
Qed.
