(* ===== verification/Converge.v ===== *)
(** * Convergence of diff and apply

    The contract between a named resource of a service and the adapter code
    that manages it, as a record of laws ([Managed]), and the theorem every
    resource kind gets from it: applying the changes of a diff through the apply
    loops brings the service to the desired state, after which the diff is
    empty; resources the operator does not manage are left alone. *)
From S2P Require Export Shared.

(** The service holds resources [R], addressed by ID, in a collection that
    [view] reads off the world; [toIR] is how the adapter reads one, [make] what a
    created or updated one becomes (its encoding, as the service stores it).  The
    handlers are those the apply loops call for this kind of resource. *)
Record Managed {R A W : Type} (ops : DiffOps A) := mkManaged {
  mg_id : R → Z;
  mg_managed : R → bool;
  mg_toIR : R → A;
  mg_make : Z → A → R;
  mg_view : W → gmap Z R;
  mg_inv : W → Prop;
  mg_ok : A → Prop;
  mg_create : Change → M W unit;
  mg_update : Change → M W unit;
  mg_delete : Change → M W unit }.
Arguments Managed : clear implicits.
Arguments mkManaged {R A W ops}.
Arguments mg_id {R A W ops}.
Arguments mg_managed {R A W ops}.
Arguments mg_toIR {R A W ops}.
Arguments mg_make {R A W ops}.
Arguments mg_view {R A W ops}.
Arguments mg_inv {R A W ops}.
Arguments mg_ok {R A W ops}.
Arguments mg_create {R A W ops}.
Arguments mg_update {R A W ops}.
Arguments mg_delete {R A W ops}.

(** The managed resource of a name. *)
Definition present {R A W} {ops : DiffOps A} (m : Managed R A W ops) (v : gmap Z R) (n : string) (i : Z) (r : R)
    : Prop := v !! i = Some r ∧ mg_managed m r = true ∧ op_key ops (mg_toIR m r) = n.

Class ManagedLaws {R A W} {ops : DiffOps A} (m : Managed R A W ops) : Prop := {
  id_make : ∀ i d, mg_id m (mg_make m i d) = i;
  managed_make : ∀ i d, mg_ok m d → mg_managed m (mg_make m i d) = true;
  key_make : ∀ i d, mg_ok m d → op_key ops (mg_toIR m (mg_make m i d)) = op_key ops d;
  equal_make : ∀ i d, mg_ok m d → op_equal ops (mg_toIR m (mg_make m i d)) d = true;
  (* the documented effect of the three requests, in the worlds of the invariant *)
  create_spec : ∀ w n d, mg_inv m w → mg_ok m d → op_key ops d = n → (∀ i r, ¬ present m (mg_view m w) n i r) →
    ∃ w' i, mg_create m (op_create ops n d) w = (w', Ret tt) ∧ mg_inv m w' ∧
      mg_view m w !! i = None ∧ mg_view m w' = <[i := mg_make m i d]> (mg_view m w);
  update_spec : ∀ w n i r d, mg_inv m w → mg_ok m d → op_key ops d = n → mg_id m r = i → present m (mg_view m w) n i r →
    ∃ w', mg_update m (op_update ops n (mg_toIR m r) d) w = (w', Ret tt) ∧ mg_inv m w' ∧
      mg_view m w' = <[i := mg_make m i d]> (mg_view m w);
  delete_spec : ∀ w n i r, mg_inv m w → mg_id m r = i → present m (mg_view m w) n i r →
    ∃ w', mg_delete m (op_delete ops n (mg_toIR m r)) w = (w', Ret tt) ∧ mg_inv m w' ∧
      mg_view m w' = delete i (mg_view m w) }.

(** Laws by the ID the representation carries, in every world. *)
Lemma managedLaws_by_id {R A W} {ops : DiffOps A} (m : Managed R A W ops) (irID : A → Z) :
  (∀ w, mg_inv m w) → (∀ r, irID (mg_toIR m r) = mg_id m r) →
  (∀ i d, mg_id m (mg_make m i d) = i) → (∀ i d, mg_managed m (mg_make m i d) = true) →
  (∀ i d, mg_ok m d → op_key ops (mg_toIR m (mg_make m i d)) = op_key ops d) →
  (∀ i d, mg_ok m d → op_equal ops (mg_toIR m (mg_make m i d)) d = true) →
  (∀ w n d, mg_ok m d → ∃ w' i, mg_create m (op_create ops n d) w = (w', Ret tt) ∧
     mg_view m w !! i = None ∧ mg_view m w' = <[i := mg_make m i d]> (mg_view m w)) →
  (∀ w n c d, mg_ok m d → is_Some (mg_view m w !! irID c) → ∃ w',
     mg_update m (op_update ops n c d) w = (w', Ret tt) ∧
     mg_view m w' = <[irID c := mg_make m (irID c) d]> (mg_view m w)) →
  (∀ w n c, is_Some (mg_view m w !! irID c) → ∃ w',
     mg_delete m (op_delete ops n c) w = (w', Ret tt) ∧ mg_view m w' = delete (irID c) (mg_view m w)) →
  ManagedLaws m.
Proof.
  intros Hinv Hid ? Hmade ? ? Hc Hu Hd. split; try done.
  - intros w n d _ Hok _ _. destruct (Hc w n d Hok) as (w' & i & ? & ? & ?). by exists w', i.
  - intros w n i r d _ Hok _ Hi [Hr _]. destruct (Hu w n (mg_toIR m r) d Hok) as (w' & ? & ?);
      rewrite ?Hid, ?Hi in *; [by eexists|by exists w'].
  - intros w n i r _ Hi [Hr _]. destruct (Hd w n (mg_toIR m r)) as (w' & ? & ?);
      rewrite ?Hid, ?Hi in *; [by eexists|by exists w'].
Qed.

Section converge.
Context {R A W : Type} {ops : DiffOps A} (m : Managed R A W ops) `{!ManagedLaws m}.
Implicit Types (v : gmap Z R) (w : W).

Abbreviation present := (present m).

(** IDs are consistent and no two managed resources share a name. *)
Definition wellFormed v : Prop :=
  (∀ i r, v !! i = Some r → mg_id m r = i) ∧
  (∀ n i1 r1 i2 r2, present v n i1 r1 → present v n i2 r2 → i1 = i2).

(** What the adapter reads: the managed resources, in any order. *)
Definition listing v (l : list R) : Prop := l ≡ₚ (map_to_list v).*2.
Definition managedIR (l : list R) : list A :=
  mg_toIR m <$> filter (λ r, mg_managed m r = true) l.

Definition unmanagedKept v v' : Prop :=
  ∀ i r, mg_managed m r = false → v !! i = Some r ↔ v' !! i = Some r.

#[export] Instance unmanagedKept_preorder : PreOrder unmanagedKept.
Proof.
  split; [by intros v i r|]. intros v1 v2 v3 H12 H23 i r Hr. by rewrite (H12 i r Hr), (H23 i r Hr).
Qed.

Lemma elem_of_listing v l r : listing v l → r ∈ l ↔ ∃ i, v !! i = Some r.
Proof.
  intros Hl. rewrite Hl, list_elem_of_fmap. split.
  - intros ([i r'] & -> & Hin%elem_of_map_to_list). by exists i.
  - intros [i Hi]. exists (i, r). split; [done|]. by apply elem_of_map_to_list.
Qed.

Lemma lookup_managedIR v l n x :
  wellFormed v → listing v l →
  indexBy (op_key ops) (managedIR l) !! n = Some x ↔ ∃ i r, present v n i r ∧ mg_toIR m r = x.
Proof.
  intros [_ Huniq] Hl.
  assert (∀ y, y ∈ managedIR l ↔ ∃ i r, v !! i = Some r ∧ mg_managed m r = true ∧ y = mg_toIR m r) as Hel.
  { intros y. unfold managedIR. rewrite list_elem_of_fmap. split.
    - intros (r & -> & [Hm Hr]%list_elem_of_filter). apply (elem_of_listing v) in Hr as [i Hi]; [|done].
      by exists i, r.
    - intros (i & r & Hi & Hm & ->). exists r. split; [done|]. apply list_elem_of_filter.
      split; [done|]. apply (elem_of_listing v); [done|]. by exists i. }
  split.
  - intros [Hk Hx]%lookup_indexBy_Some. apply Hel in Hx as (i & r & Hi & Hm & ->).
    by exists i, r.
  - intros (i & r & (Hi & Hm & Hk) & <-).
    destruct (indexBy_is_Some (op_key ops) (managedIR l) (mg_toIR m r)) as [y Hy].
    { apply Hel. by exists i, r. }
    rewrite Hk in Hy. rewrite Hy. apply lookup_indexBy_Some in Hy as [Hky Hy].
    apply Hel in Hy as (j & r' & Hj & Hm' & ->).
    assert (i = j) as <- by (by apply (Huniq n i r j r')). congruence.
Qed.

(** *** The effect of one change *)

(** The collection after the name [n] was given the desired resource [d]. *)
Lemma store_named v n i d :
  wellFormed v → mg_ok m d → op_key ops d = n →
  (∀ j r, present v n j r → j = i) → (∀ r, v !! i = Some r → present v n i r) →
  let v' := <[i := mg_make m i d]> v in
  wellFormed v' ∧ unmanagedKept v v' ∧
  (∀ n', n' ≠ n → ∀ j r, present v' n' j r ↔ present v n' j r) ∧
  (∃ r, present v' n i r ∧ op_equal ops (mg_toIR m r) d = true).
Proof.
  intros [Hids Huniq] Hok Hn Honly Hat v'.
  assert (Hother : ∀ n', n' ≠ n → ∀ j r, present v' n' j r ↔ present v n' j r).
  { intros n' Hne j r. unfold present, v'. destruct (decide (i = j)) as [<-|Hij].
    - rewrite lookup_insert_eq. split.
      + intros ([= <-] & _ & Hk). rewrite key_make in Hk by done. congruence.
      + intros (Hi & _ & Hk). apply Hat in Hi as (_ & _ & Hk'). congruence.
    - by rewrite lookup_insert_ne. }
  assert (Hself : present v' n i (mg_make m i d)).
  { unfold present, v'. rewrite lookup_insert_eq, managed_make, key_make by done. done. }
  assert (Hn_only : ∀ j r, present v' n j r → j = i).
  { intros j r (Hj & Hm & Hk). destruct (decide (i = j)) as [|Hij]; [done|].
    unfold v' in Hj. rewrite lookup_insert_ne in Hj by done. by apply (Honly j r). }
  split_and!.
  - split.
    + intros j r. unfold v'. destruct (decide (i = j)) as [<-|].
      * rewrite lookup_insert_eq. intros [= <-]. apply id_make.
      * rewrite lookup_insert_ne by done. apply Hids.
    + intros n' i1 r1 i2 r2 H1 H2. destruct (decide (n' = n)) as [->|Hne].
      * by rewrite (Hn_only i1 r1), (Hn_only i2 r2).
      * apply Hother in H1, H2; [|done..]. by apply (Huniq n' i1 r1 i2 r2).
  - intros j r Hm. unfold v'. destruct (decide (i = j)) as [<-|]; [|by rewrite lookup_insert_ne].
    rewrite lookup_insert_eq. split.
    + intros Hi. apply Hat in Hi as (_ & ? & _). congruence.
    + intros [= <-]. rewrite managed_make in Hm; done.
  - done.
  - exists (mg_make m i d). split; [done|]. by apply equal_make.
Qed.

Lemma delete_named v n i r :
  wellFormed v → present v n i r →
  let v' := delete i v in
  wellFormed v' ∧ unmanagedKept v v' ∧
  (∀ n', n' ≠ n → ∀ j r, present v' n' j r ↔ present v n' j r) ∧
  (∀ j r, ¬ present v' n j r).
Proof.
  intros [Hids Huniq] Hp v'.
  assert (Hsub : ∀ n' j r', present v' n' j r' ↔ present v n' j r' ∧ j ≠ i).
  { intros n' j r'. unfold present, v'. rewrite lookup_delete_Some. naive_solver. }
  split_and!.
  - split.
    + intros j r'. unfold v'. rewrite lookup_delete_Some. intros [_ Hj]. by apply Hids.
    + intros n' i1 r1 i2 r2 [H1 _]%Hsub [H2 _]%Hsub. by apply (Huniq n' i1 r1 i2 r2).
  - intros j r' Hm. unfold v'. rewrite lookup_delete_Some. split; [|naive_solver].
    intros Hj. split; [|done]. intros <-. destruct Hp as (Hi & Hm' & _). congruence.
  - intros n' Hne j r'. rewrite Hsub. split; [naive_solver|]. intros Hj. split; [done|].
    intros ->. destruct Hp as (Hi & _ & Hk), Hj as (Hi' & _ & Hk'). congruence.
  - intros j r' [Hj Hji]%Hsub. apply Hji. by apply (Huniq n j r' i r).
Qed.

(** *** The loops *)

Definition sound w : Prop := mg_inv m w ∧ wellFormed (mg_view m w).

Definition sameAt v v' (n : string) : Prop := ∀ i r, present v n i r ↔ present v' n i r.

(** What a loop that processes the [names] leaves of the rest. *)
Definition frame w w' (names : list string) : Prop :=
  sound w' ∧ unmanagedKept (mg_view m w) (mg_view m w') ∧
  ∀ n, n ∉ names → sameAt (mg_view m w) (mg_view m w') n.

(** The changes of other resources. *)
Context (theirs : Change → Prop).

(** [n] more changes were counted, of which only other resources' failed. *)
Definition tally (n : Z) (r r' : ApplyResult) : Prop :=
  ∃ errs, ar_Errors r' = ar_Errors r ++ errs ∧
    ar_Failed r' = ar_Failed r + Z.of_nat (length errs) ∧
    ar_Applied r' = ar_Applied r + (n - Z.of_nat (length errs)) ∧
    ∀ e, e ∈ errs → theirs (ae_Change e).

Lemma tally_trans n1 n2 r1 r2 r3 : tally n1 r1 r2 → tally n2 r2 r3 → tally (n1 + n2) r1 r3.
Proof.
  intros (e1 & H1 & H2 & H3 & H4) (e2 & K1 & K2 & K3 & K4). exists (e1 ++ e2).
  rewrite K1, H1, K2, H2, K3, H3, app_assoc, length_app. split_and!; [done|lia|lia|].
  intros e [He|He]%elem_of_app; auto.
Qed.

Lemma tally_applied r : tally 1 r (countApplied r).
Proof.
  exists []. rewrite app_nil_r. split_and!; simpl; [done|lia|lia|by intros e ?%not_elem_of_nil].
Qed.

Lemma tally_failed ch e r : theirs ch → tally 1 r (countFailed ch e r).
Proof.
  exists [mkApplyError ch e]. split_and!; simpl; [done|lia|lia|by intros ? ->%list_elem_of_singleton].
Qed.

Lemma tally_zero r : tally 0 r r.
Proof. exists []. rewrite app_nil_r. split_and!; simpl; [done|lia|lia|by intros e ?%not_elem_of_nil]. Qed.

(** Changes of other resources leave the collection alone, whether or not they
    succeed. *)
Definition sameView : relation W := λ w w', mg_view m w' = mg_view m w ∧ (mg_inv m w → mg_inv m w').

#[export] Instance sameView_preorder : PreOrder sameView.
Proof.
  split; unfold sameView; [done|]. intros w1 w2 w3 [H12 I12] [H23 I23]. split; [congruence|auto].
Qed.

Lemma sameView_sound w w' : sameView w w' → sound w → sound w'.
Proof. intros [Hv Hi] [Hinv Hwf]. split; [auto|by rewrite Hv]. Qed.

Definition foreign (f : Change → M W unit) (ch : Change) : Prop := theirs ch ∧ steps sameView (f ch).

Lemma foreign_loop f others res w :
  Forall (foreign f) others →
  ∃ w' res', forRange (applyOne f) res others w = (w', Ret res') ∧ sameView w w' ∧
    tally (Z.of_nat (length others)) res res'.
Proof.
  intros Hf. revert res w. induction Hf as [|ch others [Hth Hch] _ IH]; intros res w.
  - exists w, res. split_and!; [done|done|apply tally_zero].
  - destruct (Hch w) as [Hv Hn]. destruct (f ch w) as [w1 r] eqn:Ef. simpl in Hv, Hn.
    assert (∃ res1, applyOne f res ch w = (w1, Ret res1) ∧ tally 1 res res1) as (res1 & E1 & T1).
    { destruct r as [[]|e|why]; [| |by destruct (Hn why)].
      - exists (countApplied res). split; [by apply applyOne_ok|apply tally_applied].
      - exists (countFailed ch e res). split; [by apply applyOne_err|by apply tally_failed]. }
    destruct (IH res1 w1) as (w2 & res2 & E2 & Hv2 & T2). exists w2, res2. split_and!.
    + cbn [forRange]. unfold bind. by rewrite E1.
    + by etrans.
    + replace (Z.of_nat (length (ch :: others))) with (1 + Z.of_nat (length others)) by (simpl; lia).
      by eapply tally_trans.
Qed.

Lemma forRange_app {X T} (body : T → X → M W T) (xs ys : list X) t w :
  forRange body t (xs ++ ys) w = bind (forRange body t xs) (λ t, forRange body t ys) w.
Proof.
  revert t w. induction xs as [|x xs IH]; intros t w; [done|]. simpl.
  unfold bind. destruct (body t x w) as [w' [t'|e|why]]; [apply IH|done..].
Qed.

(** The changes [mine] among changes of other resources. *)
Definition surrounded (f : Change → M W unit) (mine l : list Change) : Prop :=
  ∃ pre post, l = pre ++ mine ++ post ∧ Forall (foreign f) pre ∧ Forall (foreign f) post.

Lemma surrounded_self f mine : surrounded f mine mine.
Proof. exists [], []. by rewrite app_nil_r. Qed.

Section phase.
Context {X : Type} (f : Change → M W unit) (chg : X → Change) (nm : X → string).
Context (Pre Post : gmap Z R → X → Prop).
Hypothesis Pre_sameAt : ∀ x v v', sameAt v v' (nm x) → Pre v x → Pre v' x.
Hypothesis Post_sameAt : ∀ x v v', sameAt v v' (nm x) → Post v x → Post v' x.
Hypothesis request : ∀ x w, sound w → Pre (mg_view m w) x →
  ∃ w', f (chg x) w = (w', Ret tt) ∧
    frame w w' [nm x] ∧ Post (mg_view m w') x.

Lemma loop_spec l w res :
  sound w → NoDup (nm <$> l) → (∀ x, x ∈ l → Pre (mg_view m w) x) →
  ∃ w' res', forRange (applyOne f) res (chg <$> l) w = (w', Ret res') ∧
    tally (Z.of_nat (length l)) res res' ∧
    frame w w' (nm <$> l) ∧ (∀ x, x ∈ l → Post (mg_view m w') x).
Proof.
  revert w res. induction l as [|x l IH]; intros w res Hwf Hnd Hpre.
  - exists w, res. split_and!; [done|apply tally_zero| |by intros ? ?%not_elem_of_nil]. by split.
  - apply NoDup_cons in Hnd as [Hx Hnd].
    destruct (request x w) as (w1 & Hf & (Hwf1 & Hk1 & Hs1) & Hp1); [done|apply Hpre; by left|].
    assert (Hpre1 : ∀ y, y ∈ l → Pre (mg_view m w1) y).
    { intros y Hy. apply (Pre_sameAt y (mg_view m w)); [|apply Hpre; by right]. apply Hs1.
      intros Heq%list_elem_of_singleton. apply Hx. rewrite <-Heq. by apply list_elem_of_fmap_2. }
    destruct (IH w1 (countApplied res) Hwf1 Hnd Hpre1)
      as (w2 & res' & Hl & Ht & (Hwf2 & Hk2 & Hs2) & Hp2).
    exists w2, res'. split_and!.
    + rewrite fmap_cons. cbn [forRange]. unfold bind. by rewrite (applyOne_ok _ _ _ _ _ Hf), Hl.
    + replace (Z.of_nat (length (x :: l))) with (1 + Z.of_nat (length l)) by (simpl; lia).
      apply (tally_trans _ _ _ _ _ (tally_applied res) Ht).
    + split_and!; [done|by etrans|]. intros n [Hn1 Hn2]%not_elem_of_cons i r.
      rewrite <-(Hs2 n Hn2 i r). apply Hs1. by rewrite list_elem_of_singleton.
    + intros y [->|Hy]%elem_of_cons; [|by apply Hp2].
      apply (Post_sameAt x (mg_view m w1)); [|done]. by apply Hs2.
Qed.

(** One of the three loops of [ApplyChanges], over all resources' changes. *)
Lemma phase_spec l all w res :
  surrounded f (chg <$> l) all →
  sound w → NoDup (nm <$> l) → (∀ x, x ∈ l → Pre (mg_view m w) x) →
  ∃ w' res', forRange (applyOne f) res all w = (w', Ret res') ∧
    tally (Z.of_nat (length all)) res res' ∧
    frame w w' (nm <$> l) ∧ (∀ x, x ∈ l → Post (mg_view m w') x).
Proof.
  intros (pre & post & -> & Hpre & Hpost) Hwf Hnd HPre.
  destruct (foreign_loop f pre res w Hpre) as (w1 & r1 & E1 & V1 & T1).
  destruct (loop_spec l w1 r1) as (w2 & r2 & E2 & T2 & F2 & P2); [by eapply sameView_sound|done|by rewrite (proj1 V1)|].
  destruct (foreign_loop f post r2 w2 Hpost) as (w3 & r3 & E3 & V3 & T3).
  exists w3, r3. split_and!.
  - rewrite !forRange_app. unfold bind. rewrite E1, forRange_app. unfold bind. by rewrite E2, E3.
  - pose proof (tally_trans _ _ _ _ _ T1 (tally_trans _ _ _ _ _ T2 T3)) as T.
    rewrite !length_app, length_fmap, !Nat2Z.inj_add. exact T.
  - destruct F2 as (Hs2 & Hk2 & Ha2). unfold frame. rewrite (proj1 V3). rewrite (proj1 V1) in Hk2, Ha2.
    split_and!; [by eapply sameView_sound|done..].
  - rewrite (proj1 V3). exact P2.
Qed.
End phase.

(** The three preconditions, and what each request establishes. *)
Definition wanted v (n : string) (d : A) : Prop :=
  ∃ i r, present v n i r ∧ op_equal ops (mg_toIR m r) d = true.
Definition absent v (n : string) : Prop := ∀ i r, ¬ present v n i r.
Definition has v (n : string) (c : A) : Prop := ∃ i r, present v n i r ∧ mg_toIR m r = c.
Definition desiredOk (n : string) (d : A) : Prop := mg_ok m d ∧ op_key ops d = n.

Lemma sameAt_sym v v' n : sameAt v v' n → sameAt v' v n.
Proof. intros H i r. by rewrite (H i r). Qed.
Lemma wanted_sameAt v v' n d : sameAt v v' n → wanted v n d → wanted v' n d.
Proof. intros H (i & r & Hp & He). exists i, r. by rewrite <-(H i r). Qed.
Lemma absent_sameAt v v' n : sameAt v v' n → absent v n → absent v' n.
Proof. intros H Ha i r Hp. apply (Ha i r). by rewrite (H i r). Qed.
Lemma has_sameAt v v' n c : sameAt v v' n → has v n c → has v' n c.
Proof. intros H (i & r & Hp & He). exists i, r. by rewrite <-(H i r). Qed.

Lemma create_step (x : string * A) w :
  sound w → desiredOk x.1 x.2 ∧ absent (mg_view m w) x.1 →
  ∃ w', mg_create m (op_create ops x.1 x.2) w = (w', Ret tt) ∧
    frame w w' [x.1] ∧ wanted (mg_view m w') x.1 x.2.
Proof.
  destruct x as [n d]. simpl. intros [Hinv Hwf] [[Hok Hk] Habs].
  destruct (create_spec w n d Hinv Hok Hk Habs) as (w' & i & Hf & Hinv' & Hfresh & Hv).
  destruct (store_named (mg_view m w) n i d Hwf Hok Hk) as (Hwf' & Hkeep & Hoth & Hw).
  - intros j r Hp. by destruct (Habs j r).
  - intros r Hr. congruence.
  - exists w'. unfold frame, sound. rewrite Hv. split_and!; [done..| |by exists i].
    intros n' Hn'. rewrite list_elem_of_singleton in Hn'. apply sameAt_sym. intros j r. by apply Hoth.
Qed.

Lemma update_step (x : string * (A * A)) w :
  sound w → desiredOk x.1 x.2.2 ∧ has (mg_view m w) x.1 x.2.1 →
  ∃ w', mg_update m (op_update ops x.1 x.2.1 x.2.2) w = (w', Ret tt) ∧
    frame w w' [x.1] ∧ wanted (mg_view m w') x.1 x.2.2.
Proof.
  destruct x as (n & c & d). simpl. intros [Hinv Hwf] [[Hok Hk] (i & r & Hp & <-)].
  assert (mg_id m r = i) as Hid by (apply (proj1 Hwf), Hp).
  destruct (update_spec w n i r d Hinv Hok Hk Hid Hp) as (w' & Hf & Hinv' & Hv).
  destruct (store_named (mg_view m w) n i d Hwf Hok Hk) as (Hwf' & Hkeep & Hoth & Hw).
  - intros j r' Hp'. by apply (proj2 Hwf n j r' i r).
  - intros r' Hr'. destruct Hp as (Hi & ? & ?). by simplify_eq.
  - exists w'. unfold frame, sound. rewrite Hv. split_and!; [done..| |by exists i].
    intros n' Hn'. rewrite list_elem_of_singleton in Hn'. apply sameAt_sym. intros j r'. by apply Hoth.
Qed.

Lemma delete_step (x : string * A) w :
  sound w → has (mg_view m w) x.1 x.2 →
  ∃ w', mg_delete m (op_delete ops x.1 x.2) w = (w', Ret tt) ∧
    frame w w' [x.1] ∧ absent (mg_view m w') x.1.
Proof.
  destruct x as [n c]. simpl. intros [Hinv Hwf] (i & r & Hp & <-).
  assert (mg_id m r = i) as Hid by (apply (proj1 Hwf), Hp).
  destruct (delete_spec w n i r Hinv Hid Hp) as (w' & Hf & Hinv' & Hv).
  destruct (delete_named (mg_view m w) n i r Hwf Hp) as (Hwf' & Hkeep & Hoth & Habs).
  exists w'. unfold frame, sound. rewrite Hv. split_and!; [done..| |done].
  intros n' Hn'. rewrite list_elem_of_singleton in Hn'. apply sameAt_sym. intros j r'. by apply Hoth.
Qed.

(** *** The whole diff *)

(** The pairs the three loops of [diffNamed] emit a change for. *)
Definition toCreate (cm : gmap string A) (nd : string * A) : option (string * A) :=
  match cm !! nd.1 with None => Some nd | Some _ => None end.
Definition toUpdate (cm : gmap string A) (nd : string * A) : option (string * (A * A)) :=
  match cm !! nd.1 with
  | Some c => if op_equal ops c nd.2 then None else Some (nd.1, (c, nd.2))
  | None => None
  end.

Lemma omap_compose {X Y} (f : X → option Change) (g : X → option Y) (h : Y → Change) (l : list X) :
  (∀ x, f x = h <$> g x) → omap f l = h <$> omap g l.
Proof.
  intros Hf. induction l as [|x l IH]; [done|]. csimpl. rewrite Hf. destruct (g x); simpl; by rewrite IH.
Qed.

Lemma NoDup_omap_names {X} (g : string * A → option (string * X)) (l : list (string * A)) :
  (∀ x y, g x = Some y → y.1 = x.1) → NoDup l.*1 → NoDup (omap g l).*1.
Proof.
  intros Hg. induction l as [|x l IH]; [done|]. rewrite fmap_cons, NoDup_cons. intros [Hx Hnd].
  csimpl. destruct (g x) as [y|] eqn:E; [|by apply IH].
  rewrite fmap_cons, NoDup_cons. split; [|by apply IH].
  rewrite (Hg x y E). intros (z & Hz & Hin)%list_elem_of_fmap. apply Hx.
  apply list_elem_of_omap in Hin as (x' & Hx' & Hz'). rewrite Hz, (Hg x' z Hz').
  by apply list_elem_of_fmap_2.
Qed.

Lemma diffNamed_changes o current desired :
  let cm := indexBy (op_key ops) current in
  let dm := indexBy (op_key ops) desired in
  diffNamed ops o current desired emptyChangeSet =
  mkChangeSet ((λ x, op_create ops x.1 x.2) <$> omap (toCreate cm) (rangeMap o 0 dm))
    ((λ x, op_update ops x.1 x.2.1 x.2.2) <$> omap (toUpdate cm) (rangeMap o 0 dm))
    ((λ x, op_delete ops x.1 x.2) <$> omap (toCreate dm) (rangeMap o 1 cm)).
Proof.
  cbn zeta. rewrite diffNamed_eq. cbn [cs_Creates cs_Updates cs_Deletes emptyChangeSet].
  rewrite !app_nil_l. f_equal; apply omap_compose; intros [n x];
    unfold createOf, updateOf, deleteOf, toCreate, toUpdate; simpl; by repeat case_match.
Qed.

Lemma elem_of_toCreate o site cm (dm : gmap string A) n d :
  (n, d) ∈ omap (toCreate cm) (rangeMap o site dm) ↔ dm !! n = Some d ∧ cm !! n = None.
Proof.
  rewrite list_elem_of_omap. unfold toCreate. split.
  - intros ([n' d'] & Hin%elem_of_rangeMap & Hf). simpl in Hf. destruct (cm !! n') eqn:E; naive_solver.
  - intros [Hd Hc]. exists (n, d). simpl. by rewrite elem_of_rangeMap, Hc.
Qed.

Lemma elem_of_toUpdate o site cm (dm : gmap string A) n c d :
  (n, (c, d)) ∈ omap (toUpdate cm) (rangeMap o site dm) ↔
  dm !! n = Some d ∧ cm !! n = Some c ∧ op_equal ops c d = false.
Proof.
  rewrite list_elem_of_omap. unfold toUpdate. split.
  - intros ([n' d'] & Hin%elem_of_rangeMap & Hf). simpl in Hf.
    destruct (cm !! n') as [c'|] eqn:E; [|done]. destruct (op_equal ops c' d') eqn:E'; naive_solver.
  - intros (Hd & Hc & He). exists (n, d). simpl. by rewrite elem_of_rangeMap, Hc, He.
Qed.

Lemma not_in_names {X} (l : list (string * X)) n : (∀ x, (n, x) ∉ l) → n ∉ l.*1.
Proof. intros Hno ([n' x] & -> & Hin)%list_elem_of_fmap. by apply (Hno x). Qed.

Lemma in_sync_of v l desired :
  wellFormed v → listing v l →
  (∀ n d, indexBy (op_key ops) desired !! n = Some d → wanted v n d) →
  (∀ n, indexBy (op_key ops) desired !! n = None → absent v n) →
  inSync ops (managedIR l) desired.
Proof.
  intros Hwf Hl Hsome Hnone n.
  destruct (indexBy (op_key ops) desired !! n) as [d|] eqn:Ed.
  - destruct (Hsome n d Ed) as (i & r & Hp & He).
    assert (indexBy (op_key ops) (managedIR l) !! n = Some (mg_toIR m r)) as ->; [|done].
    apply (lookup_managedIR v); [done..|]. by exists i, r.
  - destruct (indexBy (op_key ops) (managedIR l) !! n) as [x|] eqn:Ex; [|done].
    apply (lookup_managedIR v) in Ex as (i & r & Hp & _); [|done..]. by apply (Hnone n Ed i r).
Qed.

(** What being in sync says of the collection. *)
Lemma in_sync_view v l desired :
  wellFormed v → listing v l → inSync ops (managedIR l) desired →
  (∀ n d, indexBy (op_key ops) desired !! n = Some d → wanted v n d) ∧
  (∀ n, indexBy (op_key ops) desired !! n = None → absent v n).
Proof.
  intros Hwf Hl Hs. split.
  - intros n d Hd. specialize (Hs n). rewrite Hd in Hs.
    destruct (indexBy (op_key ops) (managedIR l) !! n) as [x|] eqn:Ex; [|done].
    apply (lookup_managedIR v) in Ex as (i & r & Hp & <-); [|done..]. by exists i, r.
  - intros n Hd i r Hp. specialize (Hs n). rewrite Hd in Hs.
    assert (indexBy (op_key ops) (managedIR l) !! n = Some (mg_toIR m r)) as Hx.
    { apply (lookup_managedIR v); [done..|]. by exists i, r. }
    by rewrite Hx in Hs.
Qed.

(** The changes of the collection itself, in the change set of all resources. *)
Definition ownChanges o l desired : ChangeSet := diffNamed ops o (managedIR l) desired emptyChangeSet.

Definition embeds (own all : ChangeSet) : Prop :=
  surrounded (mg_create m) (cs_Creates own) (cs_Creates all) ∧
  surrounded (mg_update m) (cs_Updates own) (cs_Updates all) ∧
  surrounded (mg_delete m) (cs_Deletes own) (cs_Deletes all).

Lemma embeds_self own : embeds own own.
Proof. split_and!; apply surrounded_self. Qed.

(** *** The three phases, over the maps [cm] and [dm] of the diff *)

Section three_phases.
Context (o : RangeOrder) (cm dm : gmap string A).

(** What a phase leaves of the names it has nothing to do for. *)
Definition phase w w' (touched : string → Prop) : Prop :=
  sound w' ∧ unmanagedKept (mg_view m w) (mg_view m w') ∧
  ∀ n, ¬ touched n → sameAt (mg_view m w) (mg_view m w') n.

Lemma frame_phase {X} w w' (l : list (string * X)) (touched : string → Prop) :
  frame w w' l.*1 → (∀ n x, (n, x) ∈ l → touched n) → phase w w' touched.
Proof.
  intros (Hwf & Hk & Hs) Ht. split_and!; [done..|]. intros n Hn. apply Hs, not_in_names.
  intros x Hx. by apply Hn, (Ht n x).
Qed.

Lemma create_phase all w res :
  surrounded (mg_create m) ((λ x, op_create ops x.1 x.2) <$> omap (toCreate cm) (rangeMap o 0 dm)) all →
  sound w → (∀ n d, dm !! n = Some d → desiredOk n d) →
  (∀ n, cm !! n = None → absent (mg_view m w) n) →
  ∃ w' res', forRange (applyOne (mg_create m)) res all w = (w', Ret res') ∧
    tally (Z.of_nat (length all)) res res' ∧
    phase w w' (λ n, cm !! n = None ∧ is_Some (dm !! n)) ∧
    (∀ n d, dm !! n = Some d → cm !! n = None → wanted (mg_view m w') n d).
Proof.
  intros Hsur Hwf Hdm Habs.
  destruct (phase_spec (mg_create m) (λ x : string * A, op_create ops x.1 x.2) fst
    (λ v x, desiredOk x.1 x.2 ∧ absent v x.1) (λ v x, wanted v x.1 x.2)) with
    (l := omap (toCreate cm) (rangeMap o 0 dm)) (all := all) (w := w) (res := res)
    as (w' & res' & Hr & Ht & Hf & Hp); try done.
  - intros x v v' Hs [? ?]. split; [done|by eapply absent_sameAt].
  - intros x v v'. apply wanted_sameAt.
  - apply create_step.
  - apply NoDup_omap_names; [|apply NoDup_rangeMap_keys].
    intros x y. unfold toCreate. destruct (cm !! x.1); naive_solver.
  - intros [n d] [Hd Hc]%elem_of_toCreate. simpl. auto.
  - exists w', res'. split_and!; [done..| |].
    + eapply frame_phase; [exact Hf|]. intros n d [? ?]%elem_of_toCreate. eauto.
    + intros n d Hd Hc. apply (Hp (n, d)). by apply elem_of_toCreate.
Qed.

Lemma update_phase all w res :
  surrounded (mg_update m)
    ((λ x, op_update ops x.1 x.2.1 x.2.2) <$> omap (toUpdate cm) (rangeMap o 0 dm)) all →
  sound w → (∀ n d, dm !! n = Some d → desiredOk n d) →
  (∀ n c, cm !! n = Some c → has (mg_view m w) n c) →
  ∃ w' res', forRange (applyOne (mg_update m)) res all w = (w', Ret res') ∧
    tally (Z.of_nat (length all)) res res' ∧
    phase w w' (λ n, is_Some (cm !! n) ∧ is_Some (dm !! n)) ∧
    (∀ n c d, dm !! n = Some d → cm !! n = Some c → wanted (mg_view m w') n d).
Proof.
  intros Hsur Hwf Hdm Hhas.
  destruct (phase_spec (mg_update m) (λ x : string * (A * A), op_update ops x.1 x.2.1 x.2.2) fst
    (λ v x, desiredOk x.1 x.2.2 ∧ has v x.1 x.2.1) (λ v x, wanted v x.1 x.2.2)) with
    (l := omap (toUpdate cm) (rangeMap o 0 dm)) (all := all) (w := w) (res := res)
    as (w' & res' & Hr & Ht & Hf & Hp); try done.
  - intros x v v' Hs [? ?]. split; [done|by eapply has_sameAt].
  - intros x v v'. apply wanted_sameAt.
  - apply update_step.
  - apply NoDup_omap_names; [|apply NoDup_rangeMap_keys].
    intros x y. unfold toUpdate. destruct (cm !! x.1); [|done]. case_match; naive_solver.
  - intros (n & c & d) (Hd & Hc & _)%elem_of_toUpdate. simpl. auto.
  - exists w', res'. split_and!; [done..| |].
    + eapply frame_phase; [exact Hf|]. intros n [c d] (? & ? & _)%elem_of_toUpdate. eauto.
    + intros n c d Hd Hc. destruct (op_equal ops c d) eqn:He.
      * apply (wanted_sameAt (mg_view m w)).
        -- apply Hf, not_in_names. intros [c' d'] (? & ? & ?)%elem_of_toUpdate. congruence.
        -- destruct (Hhas n c Hc) as (i & r & Hp' & <-). by exists i, r.
      * apply (Hp (n, (c, d))). by apply elem_of_toUpdate.
Qed.

Lemma delete_phase all w res :
  surrounded (mg_delete m) ((λ x, op_delete ops x.1 x.2) <$> omap (toCreate dm) (rangeMap o 1 cm)) all →
  sound w →
  (∀ n c, cm !! n = Some c → dm !! n = None → has (mg_view m w) n c) →
  ∃ w' res', forRange (applyOne (mg_delete m)) res all w = (w', Ret res') ∧
    tally (Z.of_nat (length all)) res res' ∧
    phase w w' (λ n, is_Some (cm !! n) ∧ dm !! n = None) ∧
    (∀ n c, cm !! n = Some c → dm !! n = None → absent (mg_view m w') n).
Proof.
  intros Hsur Hwf Hhas.
  destruct (phase_spec (mg_delete m) (λ x : string * A, op_delete ops x.1 x.2) fst
    (λ v x, has v x.1 x.2) (λ v x, absent v x.1)) with
    (l := omap (toCreate dm) (rangeMap o 1 cm)) (all := all) (w := w) (res := res)
    as (w' & res' & Hr & Ht & Hf & Hp); try done.
  - intros x v v'. apply has_sameAt.
  - intros x v v'. apply absent_sameAt.
  - apply delete_step.
  - apply NoDup_omap_names; [|apply NoDup_rangeMap_keys].
    intros x y. unfold toCreate. destruct (dm !! x.1); naive_solver.
  - intros (n & c) (Hc & Hd)%elem_of_toCreate. simpl. auto.
  - exists w', res'. split_and!; [done..| |].
    + eapply frame_phase; [exact Hf|]. intros n c [? ?]%elem_of_toCreate. eauto.
    + intros n c Hc Hd. apply (Hp (n, c)). by apply elem_of_toCreate.
Qed.
End three_phases.

Lemma converge o w l desired all :
  sound w → listing (mg_view m w) l → Forall (mg_ok m) desired →
  embeds (ownChanges o l desired) all →
  ∃ w' r, ApplyChanges all (mg_create m) (mg_update m) (mg_delete m) w = (w', Ret r) ∧
    tally (TotalChanges all) emptyApplyResult r ∧
    sound w' ∧ unmanagedKept (mg_view m w) (mg_view m w') ∧
    ∀ l', listing (mg_view m w') l' → inSync ops (managedIR l') desired.
Proof.
  intros Hsound Hl Hok (Hsc & Hsu & Hsd). pose proof (proj2 Hsound) as Hwf. unfold ownChanges in *. rewrite diffNamed_changes in *.
  cbn [cs_Creates cs_Updates cs_Deletes] in *.
  set (cm := indexBy (op_key ops) (managedIR l)) in *. set (dm := indexBy (op_key ops) desired) in *.
  assert (Hcm : ∀ n c, cm !! n = Some c ↔ has (mg_view m w) n c) by (intros n c; by apply lookup_managedIR).
  assert (Habs : ∀ n, cm !! n = None → absent (mg_view m w) n).
  { intros n Hn i r Hp. assert (cm !! n = Some (mg_toIR m r)) by (apply Hcm; by exists i, r). congruence. }
  assert (Hdm : ∀ n d, dm !! n = Some d → desiredOk n d).
  { intros n d [Hk Hin]%lookup_indexBy_Some. rewrite Forall_forall in Hok. by split; [apply Hok|]. }
  destruct (create_phase o cm dm _ w emptyApplyResult Hsc Hsound Hdm Habs)
    as (w1 & r1 & E1 & T1 & (Hwf1 & Hk1 & Hs1) & HP1).
  destruct (update_phase o cm dm _ w1 r1 Hsu Hwf1 Hdm) as (w2 & r2 & E2 & T2 & (Hwf2 & Hk2 & Hs2) & HP2).
  { intros n c Hc. apply (has_sameAt (mg_view m w)); [apply Hs1; naive_solver|by apply Hcm]. }
  destruct (delete_phase o cm dm _ w2 r2 Hsd Hwf2) as (w3 & r3 & E3 & T3 & (Hwf3 & Hk3 & Hs3) & HP3).
  { intros n c Hc Hd. apply (has_sameAt (mg_view m w1)); [apply Hs2; rewrite Hd; by intros [? [? ?]]|].
    apply (has_sameAt (mg_view m w)); [apply Hs1; naive_solver|by apply Hcm]. }
  exists w3, r3. unfold ApplyChanges, bind. rewrite E1, E2, E3. split_and!; [done| |done|by etrans; [|etrans]|].
  - unfold TotalChanges. by eapply tally_trans; [eapply tally_trans|].
  - intros l' Hl'. apply (in_sync_of (mg_view m w3)); [apply Hwf3|done| |]; fold dm.
    + intros n d Hd. apply (wanted_sameAt (mg_view m w2)); [apply Hs3; naive_solver|].
      destruct (cm !! n) as [c|] eqn:Hc; [by apply (HP2 n c)|].
      apply (wanted_sameAt (mg_view m w1)); [|by apply HP1]. apply Hs2. rewrite Hc. by intros [[? ?] _].
    + intros n Hd. destruct (cm !! n) as [c|] eqn:Hc; [by apply (HP3 n c)|].
      apply (absent_sameAt (mg_view m w2)); [apply Hs3; rewrite Hc; by intros [[? ?] _]|].
      apply (absent_sameAt (mg_view m w1)); [apply Hs2; rewrite Hc; by intros [[? ?] _]|].
      apply (absent_sameAt (mg_view m w)); [|by apply Habs]. apply Hs1. rewrite Hd. by intros [_ [? ?]].
Qed.
End converge.

(** A collection of resources with pairwise distinct keys is well-formed. *)
Lemma wellFormed_distinct {R A W} {ops : DiffOps A} (m : Managed R A W ops) (v : gmap Z R) :
  map_Forall (λ i r, mg_id m r = i) v →
  NoDup ((λ ir : Z * R, op_key ops (mg_toIR m ir.2)) <$> map_to_list v) →
  wellFormed m v.
Proof.
  intros Hid Hnd. split; [intros i r; apply Hid|].
  intros n i1 r1 i2 r2 (H1 & _ & K1) (H2 & _ & K2).
  apply elem_of_map_to_list, list_elem_of_lookup in H1 as [j1 H1].
  apply elem_of_map_to_list, list_elem_of_lookup in H2 as [j2 H2].
  assert (j1 = j2) as ->; [|by simplify_eq].
  eapply NoDup_lookup; [exact Hnd|by rewrite list_lookup_fmap, H1|]. rewrite list_lookup_fmap, H2. simpl.
  congruence.
Qed.
