(* ===== verification/Sync.v ===== *)
(** * One sync of one kind of resource

    A sync reads the state of a service, diffs it against the desired one and applies
    the changes.  If the diff has a step for each kind of resource, the changes of the
    other kinds leave a collection alone and reading gives what the collection has,
    the sync brings the collection to the desired state ([kind_sync]). *)
From S2P Require Export DiffSteps Converge.

Section sync.
Context {W R A : Type} {ops : DiffOps A} (m : Managed R A W ops) `{!ManagedLaws m}.
Context (createTyped updateTyped : Change → bool) (rt : string) (other : string → Prop).
Abbreviation changesOfAny := (DiffSteps.changesOfAny createTyped updateTyped).
Abbreviation appends := (DiffSteps.appends createTyped updateTyped).
Abbreviation theirs := (λ ch, ch_ResourceType ch ≠ rt).

(** The changes of the other kinds leave the collection alone. *)
Hypothesis create_quiet : ∀ ch, other (ch_ResourceType ch) → createTyped ch = true → steps (sameView m) (mg_create m ch).
Hypothesis update_quiet : ∀ ch, other (ch_ResourceType ch) → updateTyped ch = true → steps (sameView m) (mg_update m ch).
Hypothesis delete_quiet : ∀ ch, other (ch_ResourceType ch) → steps (sameView m) (mg_delete m ch).
Hypothesis other_kind : ∀ rt', other rt' → rt' ≠ rt.

Lemma others_are_foreign rts d :
  changesOfAny rts d → Forall other rts →
  Forall (foreign m theirs (mg_create m)) (cs_Creates d) ∧
  Forall (foreign m theirs (mg_update m)) (cs_Updates d) ∧
  Forall (foreign m theirs (mg_delete m)) (cs_Deletes d).
Proof.
  intros (Hc & Hu & Hd) Hr. rewrite !Forall_forall. setoid_rewrite Forall_forall in Hr.
  split_and!; intros ch Hin.
  - destruct (Hc ch Hin) as [Ho%Hr Ht]. split; [by apply other_kind|by apply create_quiet].
  - destruct (Hu ch Hin) as [Ho%Hr Ht]. split; [by apply other_kind|by apply update_quiet].
  - pose proof (Hr _ (Hd ch Hin)) as Ho. split; [by apply other_kind|by apply delete_quiet].
Qed.

(** The diff of a state against the desired one, as its steps, and the part of the
    representation that holds the kind. *)
Context (part : IR → list A) (diffSteps : W → IR → IR → list (string * (ChangeSet → ChangeSet))) (o : RangeOrder).
Definition allChanges (w : W) (current desired : IR) : ChangeSet :=
  foldl (λ cs (step : string * (ChangeSet → ChangeSet)), step.2 cs) emptyChangeSet (diffSteps w current desired).

Hypothesis steps_append : ∀ w current desired, Forall (λ step, appends step.1 step.2) (diffSteps w current desired).
Hypothesis part_diffed : ∀ w current desired, ∃ before f after,
  diffSteps w current desired = before ++ (rt, f) :: after ∧
  f emptyChangeSet = diffNamed ops o (part current) (part desired) emptyChangeSet ∧
  Forall other (before.*1 ++ after.*1).

Lemma own_embeds w current desired :
  embeds m theirs (diffNamed ops o (part current) (part desired) emptyChangeSet) (allChanges w current desired).
Proof.
  destruct (part_diffed w current desired) as (before & f & after & Hs & <- & [Hb Ha]%Forall_app).
  destruct (steps_around createTyped updateTyped _ before after rt f (steps_append w current desired) Hs)
    as (pre & post & E & Hpre & Hpost).
  unfold allChanges. rewrite E.
  destruct (others_are_foreign _ _ Hpre Hb) as (C1 & U1 & D1), (others_are_foreign _ _ Hpost Ha) as (C2 & U2 & D2).
  split_and!; eexists _, _; simpl; eauto.
Qed.

(** The three operations of the adapter. *)
Context (read : M W IR) (apply : ChangeSet → M W (option ApplyResult * option error)).
Definition syncWith (desired : IR) : M W (option ApplyResult * option error) :=
  let* current := read in
  let* changes := (λ w, (w, Ret (allChanges w current desired))) in
  apply changes.

Hypothesis apply_is : ∀ changes w, apply changes w =
  (let* r := ApplyChanges changes (mg_create m) (mg_update m) (mg_delete m) in ret (Some r, None)) w.
Hypothesis read_lists : ∀ w, ∃ w' current l, read w = (w', Ret current) ∧ sameView m w w' ∧
  listing (mg_view m w) l ∧ part current = managedIR m l.

Lemma kind_sync desired w :
  sound m w → Forall (mg_ok m) (part desired) →
  ∃ w2 r, syncWith desired w = (w2, Ret (Some r, None)) ∧
    (∀ e, e ∈ ar_Errors r → theirs (ae_Change e)) ∧
    sound m w2 ∧ unmanagedKept m (mg_view m w) (mg_view m w2) ∧
    (∀ l, listing (mg_view m w2) l → inSync ops (managedIR m l) (part desired)) ∧
    ∃ w3 current, read w2 = (w3, Ret current) ∧ inSync ops (part current) (part desired).
Proof.
  intros Hw Hok. destruct (read_lists w) as (w1 & cur & l & E & Hv & Hl & Hp).
  pose proof (own_embeds w1 cur desired) as Hemb. rewrite Hp in Hemb.
  rewrite <-(proj1 Hv) in Hl.
  destruct (converge m theirs o w1 l (part desired) (allChanges w1 cur desired))
    as (w2 & r & EA & (errs & Herrs & _ & _ & Hth) & Hw2 & Hkeep & Hsync); [by eapply sameView_sound|done..|].
  destruct (read_lists w2) as (w3 & cur' & l' & E' & _ & Hl' & Hp').
  exists w2, r. split_and!.
  - unfold syncWith. rewrite (bind_ok _ _ _ _ _ E). unfold bind at 1. rewrite apply_is.
    by rewrite (bind_ok _ _ _ _ _ EA).
  - by rewrite Herrs.
  - done.
  - by rewrite <-(proj1 Hv).
  - exact Hsync.
  - exists w3, cur'. split; [done|]. rewrite Hp'. by apply Hsync.
Qed.
End sync.
