(* ===== verification/ProwlarrTypes.v ===== *)
(** * The resources of Prowlarr (src/internal/adapters/prowlarr/types.go)

    Prowlarr's own structs: they differ from the shared ones by the metadata of
    their fields.  The four field types of the source are one record here. *)
From S2P Require Export Shared.

(** IndexerField, IndexerProxyField, ApplicationField and DownloadClientField. *)
Record PField := mkPField {
  pf_Name : string;
  pf_Value : any;
  pf_Type : string;
  pf_Label : string;
  pf_Advanced : bool }.

(** A field literal of the source sets the name and the value only. *)
Definition pfield (name : string) (value : any) : PField := mkPField name value "" "" false.

#[export] Instance FromJSON_PField : FromJSON PField := asStruct (λ l,
  vName ← getString "name" l;
  vValue ← getAny "value" l;
  vType ← getString "type" l;
  vLabel ← getString "label" l;
  vAdvanced ← getBool "advanced" l;
  Some (mkPField vName vValue vType vLabel vAdvanced)).

#[export] Instance ToJSON_PField : ToJSON PField := λ f, VMap (
  [("name", VString (pf_Name f)); ("value", toWire (pf_Value f))] ++
  omitIf (String.eqb (pf_Type f) "") "type" (VString (pf_Type f)) ++
  omitIf (String.eqb (pf_Label f) "") "label" (VString (pf_Label f)) ++
  omitIf (negb (pf_Advanced f)) "advanced" (VBool (pf_Advanced f))).

Record IndexerCategory := mkIndexerCategory {
  icat_ID : Z;
  icat_Name : string }.

#[export] Instance FromJSON_IndexerCategory : FromJSON IndexerCategory := asStruct (λ l,
  vID ← getInt "id" l;
  vName ← getString "name" l;
  Some (mkIndexerCategory vID vName)).

#[export] Instance ToJSON_IndexerCategory : ToJSON IndexerCategory := λ r,
  VMap [("id", VInt (icat_ID r)); ("name", VString (icat_Name r))].

Record IndexerCaps := mkIndexerCaps {
  icaps_Categories : list IndexerCategory }.

#[export] Instance FromJSON_IndexerCaps : FromJSON IndexerCaps := asStruct (λ l,
  vCategories ← getSlice fromJSON "categories" l;
  Some (mkIndexerCaps vCategories)).

#[export] Instance ToJSON_IndexerCaps : ToJSON IndexerCaps := λ r, VMap (
  omitIf (Nat.eqb (length (icaps_Categories r)) 0) "categories" (VList (toJSON <$> icaps_Categories r))).

Record PIndexerResource := mkPIndexerResource {
  pir_ID : Z;
  pir_Name : string;
  pir_DefinitionName : string;
  pir_Implementation : string;
  pir_ConfigContract : string;
  pir_Enable : bool;
  pir_Protocol : string;
  pir_Priority : Z;
  pir_AppProfileID : Z;
  pir_Tags : list Z;
  pir_Fields : list PField;
  pir_Capabilities : option IndexerCaps }.

#[export] Instance FromJSON_PIndexerResource : FromJSON PIndexerResource := asStruct (λ l,
  vID ← getInt "id" l;
  vName ← getString "name" l;
  vDefinitionName ← getString "definitionName" l;
  vImplementation ← getString "implementation" l;
  vConfigContract ← getString "configContract" l;
  vEnable ← getBool "enable" l;
  vProtocol ← getString "protocol" l;
  vPriority ← getInt "priority" l;
  vAppProfileID ← getInt "appProfileId" l;
  vTags ← getSlice asIntElem "tags" l;
  vFields ← getSlice fromJSON "fields" l;
  vCapabilities ← getPtr fromJSON "capabilities" l;
  Some (mkPIndexerResource vID vName vDefinitionName vImplementation vConfigContract vEnable vProtocol vPriority
          vAppProfileID vTags vFields vCapabilities)).

(** A string, a list of integers or a list of fields with [omitempty]. *)
Definition optString (name s : string) : list (string * any) := omitIf (String.eqb s "") name (VString s).
Definition optInt (name : string) (n : Z) : list (string * any) := omitIf (n =? 0) name (VInt n).
Definition optInts (name : string) (l : list Z) : list (string * any) :=
  omitIf (Nat.eqb (length l) 0) name (VList (VInt <$> l)).
Definition optFields (name : string) (l : list PField) : list (string * any) :=
  omitIf (Nat.eqb (length l) 0) name (VList (toJSON <$> l)).

#[export] Instance ToJSON_PIndexerResource : ToJSON PIndexerResource := λ r, VMap (
  optInt "id" (pir_ID r) ++ [("name", VString (pir_Name r))] ++
  optString "definitionName" (pir_DefinitionName r) ++ optString "implementation" (pir_Implementation r) ++
  optString "configContract" (pir_ConfigContract r) ++ [("enable", VBool (pir_Enable r))] ++
  optString "protocol" (pir_Protocol r) ++ [("priority", VInt (pir_Priority r))] ++
  optInt "appProfileId" (pir_AppProfileID r) ++ optInts "tags" (pir_Tags r) ++ optFields "fields" (pir_Fields r) ++
  match pir_Capabilities r with None => [] | Some caps => [("capabilities", toJSON caps)] end).

Record PProxyResource := mkPProxyResource {
  ppr_ID : Z;
  ppr_Name : string;
  ppr_Implementation : string;
  ppr_ConfigContract : string;
  ppr_Tags : list Z;
  ppr_Fields : list PField }.

#[export] Instance FromJSON_PProxyResource : FromJSON PProxyResource := asStruct (λ l,
  vID ← getInt "id" l;
  vName ← getString "name" l;
  vImplementation ← getString "implementation" l;
  vConfigContract ← getString "configContract" l;
  vTags ← getSlice asIntElem "tags" l;
  vFields ← getSlice fromJSON "fields" l;
  Some (mkPProxyResource vID vName vImplementation vConfigContract vTags vFields)).

#[export] Instance ToJSON_PProxyResource : ToJSON PProxyResource := λ r, VMap (
  optInt "id" (ppr_ID r) ++ [("name", VString (ppr_Name r)); ("implementation", VString (ppr_Implementation r))] ++
  optString "configContract" (ppr_ConfigContract r) ++ optInts "tags" (ppr_Tags r) ++ optFields "fields" (ppr_Fields r)).

Record PApplicationResource := mkPApplicationResource {
  par_ID : Z;
  par_Name : string;
  par_Implementation : string;
  par_ConfigContract : string;
  par_SyncLevel : string;
  par_Tags : list Z;
  par_Fields : list PField }.

#[export] Instance FromJSON_PApplicationResource : FromJSON PApplicationResource := asStruct (λ l,
  vID ← getInt "id" l;
  vName ← getString "name" l;
  vImplementation ← getString "implementation" l;
  vConfigContract ← getString "configContract" l;
  vSyncLevel ← getString "syncLevel" l;
  vTags ← getSlice asIntElem "tags" l;
  vFields ← getSlice fromJSON "fields" l;
  Some (mkPApplicationResource vID vName vImplementation vConfigContract vSyncLevel vTags vFields)).

#[export] Instance ToJSON_PApplicationResource : ToJSON PApplicationResource := λ r, VMap (
  optInt "id" (par_ID r) ++ [("name", VString (par_Name r)); ("implementation", VString (par_Implementation r))] ++
  optString "configContract" (par_ConfigContract r) ++ [("syncLevel", VString (par_SyncLevel r))] ++
  optInts "tags" (par_Tags r) ++ optFields "fields" (par_Fields r)).

Record PClientResource := mkPClientResource {
  pcr_ID : Z;
  pcr_Name : string;
  pcr_Implementation : string;
  pcr_ConfigContract : string;
  pcr_Protocol : string;
  pcr_Enable : bool;
  pcr_Priority : Z;
  pcr_Tags : list Z;
  pcr_Fields : list PField }.

#[export] Instance FromJSON_PClientResource : FromJSON PClientResource := asStruct (λ l,
  vID ← getInt "id" l;
  vName ← getString "name" l;
  vImplementation ← getString "implementation" l;
  vConfigContract ← getString "configContract" l;
  vProtocol ← getString "protocol" l;
  vEnable ← getBool "enable" l;
  vPriority ← getInt "priority" l;
  vTags ← getSlice asIntElem "tags" l;
  vFields ← getSlice fromJSON "fields" l;
  Some (mkPClientResource vID vName vImplementation vConfigContract vProtocol vEnable vPriority vTags vFields)).

#[export] Instance ToJSON_PClientResource : ToJSON PClientResource := λ r, VMap (
  optInt "id" (pcr_ID r) ++ [("name", VString (pcr_Name r)); ("implementation", VString (pcr_Implementation r))] ++
  optString "configContract" (pcr_ConfigContract r) ++
  [("protocol", VString (pcr_Protocol r)); ("enable", VBool (pcr_Enable r)); ("priority", VInt (pcr_Priority r))] ++
  optInts "tags" (pcr_Tags r) ++ optFields "fields" (pcr_Fields r)).

Definition ProxyImplFlareSolverr : string := "FlareSolverr".
Definition ProxyImplHTTP : string := "HttpIndexerProxy".
Definition ProxyImplSocks4 : string := "Socks4IndexerProxy".
Definition ProxyImplSocks5 : string := "Socks5IndexerProxy".
Definition AppImplRadarr : string := "Radarr".
Definition AppImplSonarr : string := "Sonarr".
Definition AppImplLidarr : string := "Lidarr".
Definition AppImplReadarr : string := "Readarr".
