(* ===== verification/Prowlarr.v ===== *)
(** * The Prowlarr adapter (src/internal/adapters/prowlarr)

    Prowlarr's resources are addressed by name: four package variables map
    "baseURL:name" to the ID of the resource.  The files indexers.go, proxies.go,
    applications.go and clients.go are four copies of the same code, which is
    written once here over what they differ in ([PKind]); the world is the service
    and the four caches. *)
From S2P Require Export ProwlarrTypes.

(** ** The world *)

Inductive CacheKind := IndexerIDs | ProxyIDs | ApplicationIDs | DownloadClientIDs.

Record PWorld (S : Type) := mkPWorld {
  pw_service : S;
  indexerIDCache : gmap string Z;
  proxyIDCache : gmap string Z;
  applicationIDCache : gmap string Z;
  downloadClientIDCache : gmap string Z }.
Arguments mkPWorld {S}.
Arguments pw_service {S}.
Arguments indexerIDCache {S}.
Arguments proxyIDCache {S}.
Arguments applicationIDCache {S}.
Arguments downloadClientIDCache {S}.

(** The package variables as the program starts. *)
Definition initialPWorld {S} (s : S) : PWorld S := mkPWorld s ∅ ∅ ∅ ∅.

Definition cacheOf {S} (k : CacheKind) (w : PWorld S) : gmap string Z :=
  match k with
  | IndexerIDs => indexerIDCache w
  | ProxyIDs => proxyIDCache w
  | ApplicationIDs => applicationIDCache w
  | DownloadClientIDs => downloadClientIDCache w
  end.

Definition setCache {S} (k : CacheKind) (m : gmap string Z) (w : PWorld S) : PWorld S :=
  let '(mkPWorld s i p a d) := w in
  match k with
  | IndexerIDs => mkPWorld s m p a d
  | ProxyIDs => mkPWorld s i m a d
  | ApplicationIDs => mkPWorld s i p m d
  | DownloadClientIDs => mkPWorld s i p a m
  end.

Definition modifyCache {S} (k : CacheKind) (f : gmap string Z → gmap string Z) : M (PWorld S) unit := λ w,
  (setCache k (f (cacheOf k w)) w, Ret tt).

Definition onP {S A} (m : M S A) : M (PWorld S) A := λ w,
  let '(s, r) := m (pw_service w) in
  (mkPWorld s (indexerIDCache w) (proxyIDCache w) (applicationIDCache w) (downloadClientIDCache w), r).

(** ** Resources to the intermediate representation *)

Definition pidx_set_BaseURL (v : string) (i : ProwlarrIndexerIR) : ProwlarrIndexerIR :=
  mkProwlarrIndexerIR (pidx_Name i) (pidx_Definition i) (pidx_Enable i) (pidx_Priority i) v (pidx_APIKey i)
    (pidx_Settings i) (pidx_Tags i).
Definition pidx_set_APIKey (v : string) (i : ProwlarrIndexerIR) : ProwlarrIndexerIR :=
  mkProwlarrIndexerIR (pidx_Name i) (pidx_Definition i) (pidx_Enable i) (pidx_Priority i) (pidx_BaseURL i) v
    (pidx_Settings i) (pidx_Tags i).
Definition pidx_set_Setting (k v : string) (i : ProwlarrIndexerIR) : ProwlarrIndexerIR :=
  mkProwlarrIndexerIR (pidx_Name i) (pidx_Definition i) (pidx_Enable i) (pidx_Priority i) (pidx_BaseURL i)
    (pidx_APIKey i) (<[k := v]> (pidx_Settings i)) (pidx_Tags i).

Definition extractPIndexerField (ir : ProwlarrIndexerIR) (f : PField) : ProwlarrIndexerIR :=
  switch (pf_Name f) [
    (["baseUrl"], ifString pidx_set_BaseURL (pf_Value f) ir);
    (["apiKey"], ifString pidx_set_APIKey (pf_Value f) ir)]
    (ifString (pidx_set_Setting (pf_Name f)) (pf_Value f) ir).

Definition pindexerToIR (idx : PIndexerResource) : ProwlarrIndexerIR :=
  foldl extractPIndexerField
    (mkProwlarrIndexerIR (pir_Name idx) (pir_DefinitionName idx) (pir_Enable idx) (pir_Priority idx) "" "" ∅ [])
    (pir_Fields idx).

Definition implToProxyType (impl : string) : string :=
  switch impl [
    ([ProxyImplFlareSolverr], ProxyTypeFlareSolverr); ([ProxyImplHTTP], ProxyTypeHTTP);
    ([ProxyImplSocks4], ProxyTypeSocks4); ([ProxyImplSocks5], ProxyTypeSocks5)] impl.

Definition proxyTypeToImpl (proxyType : string) : string :=
  switch proxyType [
    ([ProxyTypeFlareSolverr], ProxyImplFlareSolverr); ([ProxyTypeHTTP], ProxyImplHTTP);
    ([ProxyTypeSocks4], ProxyImplSocks4); ([ProxyTypeSocks5], ProxyImplSocks5)] proxyType.

Definition ipx_set_Host (v : string) (p : IndexerProxyIR) : IndexerProxyIR :=
  mkIndexerProxyIR (ipx_Name p) (ipx_Type p) v (ipx_Port p) (ipx_Username p) (ipx_Password p)
    (ipx_RequestTimeout p) (ipx_Tags p).
Definition ipx_set_Port (v : Z) (p : IndexerProxyIR) : IndexerProxyIR :=
  mkIndexerProxyIR (ipx_Name p) (ipx_Type p) (ipx_Host p) v (ipx_Username p) (ipx_Password p)
    (ipx_RequestTimeout p) (ipx_Tags p).
Definition ipx_set_Username (v : string) (p : IndexerProxyIR) : IndexerProxyIR :=
  mkIndexerProxyIR (ipx_Name p) (ipx_Type p) (ipx_Host p) (ipx_Port p) v (ipx_Password p)
    (ipx_RequestTimeout p) (ipx_Tags p).
Definition ipx_set_Password (v : string) (p : IndexerProxyIR) : IndexerProxyIR :=
  mkIndexerProxyIR (ipx_Name p) (ipx_Type p) (ipx_Host p) (ipx_Port p) (ipx_Username p) v
    (ipx_RequestTimeout p) (ipx_Tags p).
Definition ipx_set_RequestTimeout (v : Z) (p : IndexerProxyIR) : IndexerProxyIR :=
  mkIndexerProxyIR (ipx_Name p) (ipx_Type p) (ipx_Host p) (ipx_Port p) (ipx_Username p) (ipx_Password p)
    v (ipx_Tags p).

Definition extractProxyField (ir : IndexerProxyIR) (f : PField) : IndexerProxyIR :=
  switch (pf_Name f) [
    (["host"], ifString ipx_set_Host (pf_Value f) ir);
    (["port"], ifFloat (λ v, ipx_set_Port (int_of_float64 v)) (pf_Value f) ir);
    (["username"], ifString ipx_set_Username (pf_Value f) ir);
    (["password"], ifString ipx_set_Password (pf_Value f) ir);
    (["requestTimeout"], ifFloat (λ v, ipx_set_RequestTimeout (int_of_float64 v)) (pf_Value f) ir)] ir.

Definition proxyToIR (proxy : PProxyResource) : IndexerProxyIR :=
  foldl extractProxyField
    (mkIndexerProxyIR (ppr_Name proxy) (implToProxyType (ppr_Implementation proxy)) "" 0 "" "" 0 [])
    (ppr_Fields proxy).

Definition implToAppType (impl : string) : string :=
  switch impl [
    ([AppImplRadarr], AppTypeRadarr); ([AppImplSonarr], AppTypeSonarr);
    ([AppImplLidarr], AppTypeLidarr); ([AppImplReadarr], AppTypeReadarr)] impl.

Definition appTypeToImpl (appType : string) : string :=
  switch appType [
    ([AppTypeRadarr], AppImplRadarr); ([AppTypeSonarr], AppImplSonarr);
    ([AppTypeLidarr], AppImplLidarr); ([AppTypeReadarr], AppImplReadarr)] appType.

Definition papp_set_ProwlarrURL (v : string) (a : ProwlarrApplicationIR) : ProwlarrApplicationIR :=
  mkProwlarrApplicationIR (papp_Name a) (papp_Type a) v (papp_URL a) (papp_APIKey a) (papp_SyncCategories a)
    (papp_SyncLevel a) (papp_Tags a).
Definition papp_set_URL (v : string) (a : ProwlarrApplicationIR) : ProwlarrApplicationIR :=
  mkProwlarrApplicationIR (papp_Name a) (papp_Type a) (papp_ProwlarrURL a) v (papp_APIKey a) (papp_SyncCategories a)
    (papp_SyncLevel a) (papp_Tags a).
Definition papp_set_APIKey (v : string) (a : ProwlarrApplicationIR) : ProwlarrApplicationIR :=
  mkProwlarrApplicationIR (papp_Name a) (papp_Type a) (papp_ProwlarrURL a) (papp_URL a) v (papp_SyncCategories a)
    (papp_SyncLevel a) (papp_Tags a).
Definition papp_set_SyncCategories (v : list Z) (a : ProwlarrApplicationIR) : ProwlarrApplicationIR :=
  mkProwlarrApplicationIR (papp_Name a) (papp_Type a) (papp_ProwlarrURL a) (papp_URL a) (papp_APIKey a) v
    (papp_SyncLevel a) (papp_Tags a).

(** The categories that are numbers, appended in order. *)
Definition appendSyncCategories (v : any) (ir : ProwlarrApplicationIR) : ProwlarrApplicationIR :=
  match v with
  | VList cats =>
      foldl (λ ir cat, match cat with
        | VFloat n => papp_set_SyncCategories (papp_SyncCategories ir ++ [int_of_float64 n]) ir
        | _ => ir
        end) ir cats
  | _ => ir
  end.

Definition extractApplicationField (ir : ProwlarrApplicationIR) (f : PField) : ProwlarrApplicationIR :=
  switch (pf_Name f) [
    (["prowlarrUrl"], ifString papp_set_ProwlarrURL (pf_Value f) ir);
    (["baseUrl"], ifString papp_set_URL (pf_Value f) ir);
    (["apiKey"], ifString papp_set_APIKey (pf_Value f) ir);
    (["syncCategories"], appendSyncCategories (pf_Value f) ir)] ir.

Definition applicationToIR (app : PApplicationResource) : ProwlarrApplicationIR :=
  foldl extractApplicationField
    (mkProwlarrApplicationIR (par_Name app) (implToAppType (par_Implementation app)) "" "" "" []
       (par_SyncLevel app) [])
    (par_Fields app).

Definition extractPClientField (ir : DownloadClientIR) (f : PField) : DownloadClientIR :=
  switch (pf_Name f) [
    (["host"], ifString dc_set_Host (pf_Value f) ir);
    (["port"], ifFloat (λ v, dc_set_Port (int_of_float64 v)) (pf_Value f) ir);
    (["useSsl"], ifBool dc_set_UseTLS (pf_Value f) ir);
    (["username"], ifString dc_set_Username (pf_Value f) ir);
    (["password"], ifString dc_set_Password (pf_Value f) ir);
    (["category"], ifString dc_set_Category (pf_Value f) ir);
    (["directory"], ifString dc_set_Directory (pf_Value f) ir)] ir.

Definition pclientToIR `{UnicodeTables} (client : PClientResource) : DownloadClientIR :=
  foldl extractPClientField
    (mkDownloadClientIR 0 (pcr_Name client) (pcr_Protocol client) (ToLower (pcr_Implementation client))
       (pcr_Enable client) (pcr_Priority client) false false "" 0 false "" "" "" "")
    (pcr_Fields client).

(** ** The intermediate representation to resources *)

Definition fieldUnless (absent : bool) (name : string) (value : any) : list PField :=
  if absent then [] else [pfield name value].

(** The settings follow the iteration order of the map. *)
Definition buildIndexerFields (o : RangeOrder) (idx : ProwlarrIndexerIR) : list PField :=
  fieldUnless (String.eqb (pidx_BaseURL idx) "") "baseUrl" (VString (pidx_BaseURL idx)) ++
  fieldUnless (String.eqb (pidx_APIKey idx) "") "apiKey" (VString (pidx_APIKey idx)) ++
  ((λ '(k, v), pfield k (VString v)) <$> rangeMap o 0 (pidx_Settings idx)).

Definition indexerResource (o : RangeOrder) (id : Z) (idx : ProwlarrIndexerIR) (tagID : Z) : PIndexerResource := {|
  pir_ID := id;
  pir_Name := pidx_Name idx;
  pir_DefinitionName := pidx_Definition idx;
  pir_Implementation := "";
  pir_ConfigContract := "";
  pir_Enable := pidx_Enable idx;
  pir_Protocol := "";
  pir_Priority := pidx_Priority idx;
  pir_AppProfileID := 0;
  pir_Tags := [tagID];
  pir_Fields := buildIndexerFields o idx;
  pir_Capabilities := None |}.

Definition buildProxyFields (proxy : IndexerProxyIR) : list PField :=
  if String.eqb (ipx_Type proxy) ProxyTypeFlareSolverr then
    [pfield "host" (VString (ipx_Host proxy))] ++
    fieldUnless (negb (0 <? ipx_RequestTimeout proxy)) "requestTimeout" (VInt (ipx_RequestTimeout proxy))
  else
    fieldUnless (String.eqb (ipx_Host proxy) "") "host" (VString (ipx_Host proxy)) ++
    fieldUnless (negb (0 <? ipx_Port proxy)) "port" (VInt (ipx_Port proxy)) ++
    fieldUnless (String.eqb (ipx_Username proxy) "") "username" (VString (ipx_Username proxy)) ++
    fieldUnless (String.eqb (ipx_Password proxy) "") "password" (VString (ipx_Password proxy)).

Definition proxyResource (id : Z) (proxy : IndexerProxyIR) (tagID : Z) : PProxyResource := {|
  ppr_ID := id;
  ppr_Name := ipx_Name proxy;
  ppr_Implementation := proxyTypeToImpl (ipx_Type proxy);
  ppr_ConfigContract := "";
  ppr_Tags := [tagID];
  ppr_Fields := buildProxyFields proxy |}.

(** The categories of the application, or the defaults of its type. *)
Definition categoriesOf (app : ProwlarrApplicationIR) : list Z :=
  match papp_SyncCategories app with
  | [] => default [] (DefaultSyncCategories !! papp_Type app)
  | categories => categories
  end.

Definition buildApplicationFields (app : ProwlarrApplicationIR) : list PField :=
  fieldUnless (String.eqb (papp_ProwlarrURL app) "") "prowlarrUrl" (VString (papp_ProwlarrURL app)) ++
  fieldUnless (String.eqb (papp_URL app) "") "baseUrl" (VString (papp_URL app)) ++
  fieldUnless (String.eqb (papp_APIKey app) "") "apiKey" (VString (papp_APIKey app)) ++
  fieldUnless (Nat.eqb (length (categoriesOf app)) 0) "syncCategories" (VInts (categoriesOf app)).

Definition applicationResource (id : Z) (app : ProwlarrApplicationIR) (tagID : Z) : PApplicationResource :=
  let impl := appTypeToImpl (papp_Type app) in {|
  par_ID := id;
  par_Name := papp_Name app;
  par_Implementation := impl;
  par_ConfigContract := (impl +:+ "Settings")%string;
  par_SyncLevel := papp_SyncLevel app;
  par_Tags := [tagID];
  par_Fields := buildApplicationFields app |}.

Definition implFromClientType `{UnicodeTables} (clientType : string) : string :=
  switch (ToLower clientType) [
    (["qbittorrent"], "QBittorrent"); (["transmission"], "Transmission"); (["deluge"], "Deluge");
    (["rtorrent"], "RTorrent"); (["sabnzbd"], "Sabnzbd"); (["nzbget"], "NzbGet")] clientType.

Definition buildDownloadClientFields (client : DownloadClientIR) : list PField :=
  fieldUnless (String.eqb (dc_Host client) "") "host" (VString (dc_Host client)) ++
  fieldUnless (negb (0 <? dc_Port client)) "port" (VInt (dc_Port client)) ++
  [pfield "useSsl" (VBool (dc_UseTLS client))] ++
  fieldUnless (String.eqb (dc_Username client) "") "username" (VString (dc_Username client)) ++
  fieldUnless (String.eqb (dc_Password client) "") "password" (VString (dc_Password client)) ++
  fieldUnless (String.eqb (dc_Category client) "") "category" (VString (dc_Category client)) ++
  fieldUnless (String.eqb (dc_Directory client) "") "directory" (VString (dc_Directory client)).

Definition clientResource `{UnicodeTables} (id : Z) (client : DownloadClientIR) (tagID : Z) : PClientResource := {|
  pcr_ID := id;
  pcr_Name := dc_Name client;
  pcr_Implementation := implFromClientType (dc_Implementation client);
  pcr_ConfigContract := "";
  pcr_Protocol := dc_Protocol client;
  pcr_Enable := dc_Enable client;
  pcr_Priority := dc_Priority client;
  pcr_Tags := [tagID];
  pcr_Fields := buildDownloadClientFields client |}.

(** ** Equality *)

(** [a.Settings[k]] read in the other map, where an absent key reads as the empty
    string. *)
Definition settingsEqual (a b : gmap string string) : bool :=
  Nat.eqb (size a) (size b) &&
  forallb (λ kv : string * string, String.eqb (default ""%string (b !! kv.1)) kv.2) (map_to_list a).

Definition indexersEqual (a b : ProwlarrIndexerIR) : bool :=
  String.eqb (pidx_Definition a) (pidx_Definition b) && Bool.eqb (pidx_Enable a) (pidx_Enable b) &&
  (pidx_Priority a =? pidx_Priority b) && String.eqb (pidx_BaseURL a) (pidx_BaseURL b) &&
  settingsEqual (pidx_Settings a) (pidx_Settings b).

Definition proxiesEqual (a b : IndexerProxyIR) : bool :=
  String.eqb (ipx_Type a) (ipx_Type b) && String.eqb (ipx_Host a) (ipx_Host b) &&
  (ipx_Port a =? ipx_Port b) && String.eqb (ipx_Username a) (ipx_Username b) &&
  (ipx_RequestTimeout a =? ipx_RequestTimeout b).

Definition applicationsEqual (a b : ProwlarrApplicationIR) : bool :=
  String.eqb (papp_Type a) (papp_Type b) && String.eqb (papp_URL a) (papp_URL b) &&
  String.eqb (papp_ProwlarrURL a) (papp_ProwlarrURL b) && String.eqb (papp_SyncLevel a) (papp_SyncLevel b) &&
  Nat.eqb (length (papp_SyncCategories a)) (length (papp_SyncCategories b)) &&
  forallb (λ c, c ∈? (setOf (papp_SyncCategories a))) (papp_SyncCategories b).

Definition downloadClientsEqual (a b : DownloadClientIR) : bool :=
  String.eqb (dc_Protocol a) (dc_Protocol b) && String.eqb (dc_Implementation a) (dc_Implementation b) &&
  Bool.eqb (dc_Enable a) (dc_Enable b) && (dc_Priority a =? dc_Priority b) &&
  String.eqb (dc_Host a) (dc_Host b) && (dc_Port a =? dc_Port b) && Bool.eqb (dc_UseTLS a) (dc_UseTLS b) &&
  String.eqb (dc_Username a) (dc_Username b) && String.eqb (dc_Category a) (dc_Category b) &&
  String.eqb (dc_Directory a) (dc_Directory b).

(** ** Diff

    No change carries an ID: resources are found again by their names. *)
Definition namedOps {A} (resourceType : string) (key : A → string) (equal : A → A → bool)
    (payload : A → Payload) : DiffOps A := {|
  op_key := key;
  op_equal := equal;
  op_create name d := mkChange resourceType name None (payload d);
  op_update name _ d := mkChange resourceType name None (payload d);
  op_delete name _ := mkChange resourceType name None PNil |}.

Definition ResourceIndexerProxy : string := "IndexerProxy".

Definition pindexerOps := namedOps ResourceIndexer pidx_Name indexersEqual PProwlarrIndexer.
Definition proxyOps := namedOps ResourceIndexerProxy ipx_Name proxiesEqual PIndexerProxy.
Definition applicationOps := namedOps ResourceApplication papp_Name applicationsEqual PProwlarrApplication.
Definition pclientOps := namedOps ResourceDownloadClient dc_Name downloadClientsEqual PDownloadClient.

Definition diffIndexers (o : RangeOrder) (current desired : ProwlarrIR) : ChangeSet → ChangeSet :=
  diffNamed pindexerOps o (pr_Indexers current) (pr_Indexers desired).
Definition diffProxies (o : RangeOrder) (current desired : ProwlarrIR) : ChangeSet → ChangeSet :=
  diffNamed proxyOps o (pr_Proxies current) (pr_Proxies desired).
Definition diffApplications (o : RangeOrder) (current desired : ProwlarrIR) : ChangeSet → ChangeSet :=
  diffNamed applicationOps o (pr_Applications current) (pr_Applications desired).
Definition diffDownloadClients (o : RangeOrder) (current desired : ProwlarrIR) : ChangeSet → ChangeSet :=
  diffNamed pclientOps o (pr_DownloadClients current) (pr_DownloadClients desired).

Definition zeroProwlarrIR : ProwlarrIR := mkProwlarrIR None [] [] [] [] [].

(** [o i] is the iteration order of the [i]th step. *)
Definition prowlarrDiff (o : nat → RangeOrder) (current desired : IR) : ChangeSet :=
  match ir_Prowlarr desired with
  | None => emptyChangeSet
  | Some desired =>
      let current := default zeroProwlarrIR (ir_Prowlarr current) in
      let changes := diffIndexers (o 0%nat) current desired emptyChangeSet in
      let changes := diffProxies (o 1%nat) current desired changes in
      let changes := diffApplications (o 2%nat) current desired changes in
      diffDownloadClients (o 3%nat) current desired changes
  end.

(** ** The requests

    What the four files differ in: the collection and its label in messages, the
    members of a resource the code reads, and the conversions. *)
Record PKind (R A : Type) := mkPKind {
  pk_collection : string;
  pk_label : string;
  pk_plural : string;
  pk_cache : CacheKind;
  pk_ID : R → Z;
  pk_Name : R → string;
  pk_Tags : R → list Z;
  pk_toIR : R → A;
  pk_irName : A → string;
  pk_resource : Z → A → Z → R }.    (* ID, configuration, ownership tag *)
Arguments mkPKind {R A}.
Arguments pk_collection {R A}.
Arguments pk_label {R A}.
Arguments pk_plural {R A}.
Arguments pk_cache {R A}.
Arguments pk_ID {R A}.
Arguments pk_Name {R A}.
Arguments pk_Tags {R A}.
Arguments pk_toIR {R A}.
Arguments pk_irName {R A}.
Arguments pk_resource {R A}.

Definition prowlarrCollection (collection : string) : string := ("/api/v1/" +:+ collection)%string.
Definition prowlarrMember (collection : string) (id : Z) : string :=
  ("/api/v1/" +:+ collection +:+ "/" +:+ Itoa id)%string.

(** [fmt.Sprintf("%s:%s", c.BaseURL(), name)] *)
Definition cacheKey (c : Client) (name : string) : string := (c_BaseURL c +:+ ":" +:+ name)%string.

Section requests.
Context {S : Type} `{Service S}.
Abbreviation MP := (M (PWorld S)).

Section kind.
Context {R A : Type} `{FromJSON R} `{ToJSON R} (k : PKind R A).

Definition cached (c : Client) (name : string) : MP (option Z) := λ w,
  (w, Ret (cacheOf (pk_cache k) w !! cacheKey c name)).
Definition cacheID (c : Client) (name : string) (id : Z) : MP unit :=
  modifyCache (pk_cache k) <[cacheKey c name := id]>.
Definition uncacheID (c : Client) (name : string) : MP unit :=
  modifyCache (pk_cache k) (delete (cacheKey c name)).

Definition listResources (c : Client) : MP (list R) :=
  wrapErr (λ e, "failed to get " +:+ pk_plural k +:+ ": " +:+ e)%string
    (onP (Get (list R) c (prowlarrCollection (pk_collection k)))).

Definition getManaged (c : Client) (tagID : Z) : MP (list A) :=
  let* resources := listResources c in
  forRange (λ managed r,
    if HasTag (pk_Tags k r) tagID
    then cacheID c (pk_Name k r) (pk_ID k r) ;;; ret (managed ++ [pk_toIR k r])
    else ret managed) [] resources.

(** The first resource of the name, whether it is managed or not. *)
Definition findByName (resources : list R) (name : string) : option Z :=
  (λ ir : nat * R, pk_ID k ir.2) <$> list_find (λ r, pk_Name k r = name) resources.

Definition createResource (c : Client) (x : A) (tagID : Z) : MP unit :=
  let* created := wrapErr (λ e, "failed to create " +:+ pk_label k +:+ " " +:+ pk_irName k x +:+ ": " +:+ e)%string
    (onP (PostResult R c (prowlarrCollection (pk_collection k)) (pk_resource k 0 x tagID))) in
  cacheID c (pk_irName k x) (pk_ID k created).

(** The ID an update uses: the cached one, or that of the resource found by its
    name, which is cached. *)
Definition idForUpdate (c : Client) (name : string) : MP Z :=
  let* known := cached c name in
  match known with
  | Some id => ret id
  | None =>
      let* resources := listResources c in
      let* id := (match findByName resources name with
                  | Some id => cacheID c name id ;;; ret id
                  | None => ret 0
                  end) in
      if id =? 0 then fail (pk_label k +:+ " " +:+ name +:+ " not found")%string else ret id
  end.

Definition updateResource (c : Client) (x : A) (tagID : Z) : MP unit :=
  let* id := idForUpdate c (pk_irName k x) in
  wrapErr (λ e, "failed to update " +:+ pk_label k +:+ " " +:+ pk_irName k x +:+ ": " +:+ e)%string
    (onP (Put c (prowlarrMember (pk_collection k) id) (pk_resource k id x tagID))).

(** [None] when there is nothing to delete. *)
Definition idForDelete (c : Client) (name : string) : MP (option Z) :=
  let* known := cached c name in
  match known with
  | Some id => ret (Some id)
  | None =>
      let* resources := listResources c in
      let id := default 0 (findByName resources name) in
      ret (if id =? 0 then None else Some id)
  end.

Definition removeResource (c : Client) (name : string) : MP unit :=
  let* target := idForDelete c name in
  match target with
  | None => ret tt
  | Some id =>
      wrapErr (λ e, "failed to delete " +:+ pk_label k +:+ " " +:+ name +:+ ": " +:+ e)%string
        (onP (Delete c (prowlarrMember (pk_collection k) id))) ;;;
      uncacheID c name
  end.
End kind.

(** ** The four kinds *)

Context `{UnicodeTables} `{TimeFormat}.

Definition indexerKind (o : RangeOrder) : PKind PIndexerResource ProwlarrIndexerIR :=
  mkPKind "indexer" "indexer" "indexers" IndexerIDs pir_ID pir_Name pir_Tags pindexerToIR pidx_Name
    (indexerResource o).
Definition proxyKind : PKind PProxyResource IndexerProxyIR :=
  mkPKind "indexerproxy" "proxy" "proxies" ProxyIDs ppr_ID ppr_Name ppr_Tags proxyToIR ipx_Name proxyResource.
Definition applicationKind : PKind PApplicationResource ProwlarrApplicationIR :=
  mkPKind "applications" "application" "applications" ApplicationIDs par_ID par_Name par_Tags applicationToIR
    papp_Name applicationResource.
Definition clientKind : PKind PClientResource DownloadClientIR :=
  mkPKind "downloadclient" "download client" "download clients" DownloadClientIDs pcr_ID pcr_Name pcr_Tags
    pclientToIR dc_Name clientResource.

(** The functions of the source. *)
Definition getManagedIndexers (o : RangeOrder) := getManaged (indexerKind o).
Definition createIndexer (o : RangeOrder) := createResource (indexerKind o).
Definition updateIndexer (o : RangeOrder) := updateResource (indexerKind o).
Definition deleteIndexer (o : RangeOrder) := removeResource (indexerKind o).
Definition getManagedProxies := getManaged proxyKind.
Definition createProxy := createResource proxyKind.
Definition updateProxy := updateResource proxyKind.
Definition deleteProxy := removeResource proxyKind.
Definition getManagedApplications := getManaged applicationKind.
Definition createApplication := createResource applicationKind.
Definition updateApplication := updateResource applicationKind.
Definition deleteApplication := removeResource applicationKind.
Definition getManagedDownloadClients := getManaged clientKind.
Definition createDownloadClient := createResource clientKind.
Definition updateDownloadClient := updateResource clientKind.
Definition deleteDownloadClient := removeResource clientKind.

(** ** apply.go

    A payload of another type is an error here, not a panic. *)
Definition invalidPayload {A} (what : string) : MP A := fail ("invalid payload type for " +:+ what)%string.
Definition unknownResource {A} (change : Change) : MP A :=
  fail ("unknown resource type: " +:+ ch_ResourceType change)%string.

Definition applyCreate (o : RangeOrder) (c : Client) (change : Change) (tagID : Z) : MP unit :=
  switch (ch_ResourceType change) [
    ([ResourceIndexer],
      match ch_Payload change with PProwlarrIndexer x => createIndexer o c x tagID | _ => invalidPayload "indexer" end);
    ([ResourceIndexerProxy],
      match ch_Payload change with PIndexerProxy x => createProxy c x tagID | _ => invalidPayload "proxy" end);
    ([ResourceApplication],
      match ch_Payload change with PProwlarrApplication x => createApplication c x tagID
      | _ => invalidPayload "application" end);
    ([ResourceDownloadClient],
      match ch_Payload change with PDownloadClient x => createDownloadClient c x tagID
      | _ => invalidPayload "download client" end)]
    (unknownResource change).

Definition applyUpdate (o : RangeOrder) (c : Client) (change : Change) (tagID : Z) : MP unit :=
  switch (ch_ResourceType change) [
    ([ResourceIndexer],
      match ch_Payload change with PProwlarrIndexer x => updateIndexer o c x tagID | _ => invalidPayload "indexer" end);
    ([ResourceIndexerProxy],
      match ch_Payload change with PIndexerProxy x => updateProxy c x tagID | _ => invalidPayload "proxy" end);
    ([ResourceApplication],
      match ch_Payload change with PProwlarrApplication x => updateApplication c x tagID
      | _ => invalidPayload "application" end);
    ([ResourceDownloadClient],
      match ch_Payload change with PDownloadClient x => updateDownloadClient c x tagID
      | _ => invalidPayload "download client" end)]
    (unknownResource change).

Definition applyDelete (o : RangeOrder) (c : Client) (change : Change) : MP unit :=
  switch (ch_ResourceType change) [
    ([ResourceIndexer], deleteIndexer o c (ch_Name change));
    ([ResourceIndexerProxy], deleteProxy c (ch_Name change));
    ([ResourceApplication], deleteApplication c (ch_Name change));
    ([ResourceDownloadClient], deleteDownloadClient c (ch_Name change))]
    (unknownResource change).

(** ** adapter.go *)

Definition newClient (conn : ConnectionIR) : Client :=
  New (mkConfig (conn_URL conn) (conn_APIKey conn) (conn_InsecureSkipVerify conn) 0).

Definition Connect (conn : ConnectionIR) : MP ServiceInfo :=
  let* status := wrapErr (λ e, "failed to connect to Prowlarr: " +:+ e)%string
    (onP (Get SystemResource (newClient conn) "/api/v1/system/status")) in
  ret (mkServiceInfo (sys_Version status) (default 0 (sys_StartTime status))).

(** [now] is [time.Now()]. *)
Definition Discover (now : Z) (conn : ConnectionIR) : MP Capabilities :=
  let c := newClient conn in
  let* dcSchemas := attempt (onP (Get (list PClientResource) c "/api/v1/downloadclient/schema")) in
  let* idxSchemas := attempt (onP (Get (list PIndexerResource) c "/api/v1/indexer/schema")) in
  ret {|
    caps_DiscoveredAt := now;
    caps_Resolutions := [];
    caps_Sources := [];
    caps_CustomFormatSpecs := [];
    caps_AudioTiers := [];
    caps_DownloadClientTypes :=
      match dcSchemas with inl l => distinctNames (pcr_Implementation <$> l) | inr _ => [] end;
    caps_IndexerTypes :=
      match idxSchemas with inl l => distinctNames (pir_DefinitionName <$> l) | inr _ => [] end |}.

Definition prowlarrIR (now : Z) (conn : ConnectionIR) (p : ProwlarrIR) : IR := {|
  ir_Version := IRVersion;
  ir_GeneratedAt := now;
  ir_SourceHash := "";
  ir_App := AppProwlarr;
  ir_Connection := Some conn;
  ir_Quality := None;
  ir_DownloadClients := [];
  ir_RemotePathMappings := [];
  ir_Indexers := None;
  ir_Naming := None;
  ir_RootFolders := [];
  ir_ImportLists := [];
  ir_Notifications := [];
  ir_CustomFormats := [];
  ir_DelayProfiles := [];
  ir_ReleaseProfiles := [];
  ir_MetadataProfiles := [];
  ir_MediaManagement := None;
  ir_Authentication := None;
  ir_Prowlarr := Some p;
  ir_Unrealized := [] |}.

(** [if x, err := m(); err == nil { part = x }] *)
Definition orNone {A} (m : MP (list A)) : MP (list A) :=
  let* r := attempt m in ret (match r with inl l => l | inr _ => [] end).

(** Without the ownership tag nothing is managed. *)
Definition CurrentState (o : RangeOrder) (now : Z) (conn : ConnectionIR) : MP IR :=
  let c := newClient conn in
  let* tag := attempt (onP (GetOwnershipTagID c "v1")) in
  match tag with
  | inr _ => ret (prowlarrIR now conn (mkProwlarrIR (Some conn) [] [] [] [] []))
  | inl tagID =>
      let* indexers := orNone (getManagedIndexers o c tagID) in
      let* proxies := orNone (getManagedProxies c tagID) in
      let* applications := orNone (getManagedApplications c tagID) in
      let* clients := orNone (getManagedDownloadClients c tagID) in
      ret (prowlarrIR now conn (mkProwlarrIR (Some conn) indexers proxies applications clients []))
  end.

(** The result pointer is nil when the ownership tag cannot be ensured. *)
Definition Apply (o : RangeOrder) (conn : ConnectionIR) (changes : ChangeSet)
    : MP (option ApplyResult * option error) :=
  let c := newClient conn in
  let* tag := attempt (onP (EnsureOwnershipTag c "v1")) in
  match tag with
  | inr e => ret (None, Some ("failed to ensure ownership tag: " +:+ e)%string)
  | inl tagID =>
      let* result := ApplyChanges changes (λ change, applyCreate o c change tagID)
        (λ change, applyUpdate o c change tagID) (applyDelete o c) in
      ret (Some result, None)
  end.

Definition ProwlarrGetHealth (conn : ConnectionIR) : MP HealthStatus :=
  onP (GetHealth (newClient conn) "v1").

(** The adapter over its world: [now] is the clock and [o] gives the order of each
    range loop.  It does not implement [DirectApplier]. *)
Definition ProwlarrAdapter (now : Z) (o : nat → RangeOrder) : Adapter (PWorld S) := {|
  a_Name := "prowlarr";
  a_SupportedApp := AppProwlarr;
  a_Connect := Connect;
  a_Discover := Discover now;
  a_CurrentState conn := let* current := CurrentState (o 0%nat) now conn in ret (Some current);
  a_Diff current desired _ := ret (prowlarrDiff o current desired);
  a_Apply := Apply (o 4%nat);
  a_ApplyDirect := None;
  a_GetHealth := Some ProwlarrGetHealth |}.
End requests.
