(* ===== verification/ProwlarrWire.v ===== *)
(** * Round trips through the Prowlarr API

    What a resource the adapter sends reads like when the service gives it back. *)
From S2P Require Export Prowlarr.

(** ** Encoding and decoding *)

(** A field as it comes back. *)
Definition wired (f : PField) : PField :=
  mkPField (pf_Name f) (throughJSON (pf_Value f)) (pf_Type f) (pf_Label f) (pf_Advanced f).

Lemma toWire_nil v : toWire v = VNil → v = VNil.
Proof. destruct v; try done. unfold toWire, floatToWire. by case_match. Qed.

Lemma decode_PField f : fromJSON (toJSON f) = Some (wired f).
Proof.
  destruct f as [name v ty label adv]. unfold wired, throughJSON, toJSON, ToJSON_PField, omitIf. cbn [pf_Name pf_Value pf_Type pf_Label pf_Advanced].
  generalize (toWire v) as x. intros x.
  destruct (String.eqb_spec ty "") as [->|]; destruct (String.eqb_spec label "") as [->|]; destruct adv;
    destruct x; reflexivity.
Qed.

Lemma decode_fields fields : mapM fromJSON (toJSON <$> fields) = Some (wired <$> fields).
Proof.
  induction fields as [|f fields IH]; [done|]. csimpl. rewrite decode_PField. csimpl. 
  refine (f_equal (λ x, x ≫= λ k, Some (wired f :: k)) IH).
Qed.

Lemma optFields_docs l : optFields "fields" l =
  match toJSON <$> l with [] => [] | docs => [("fields", VList docs)] end.
Proof. by destruct l. Qed.

(** Decodes the document of a resource: every optional member is there or not, and
    the documents of the fields decode together. *)
Ltac decode_resource project fields :=
  pose proof (decode_fields fields) as Hf;
  unfold toJSON at 1; project; unfold optString, optInt, optInts, omitIf; rewrite optFields_docs; revert Hf;
  generalize (toJSON <$> fields) as docs, (wired <$> fields) as out; intros docs out Hf;
  repeat match goal with
  | |- context [if (?x =? ?y)%string then _ else _] => is_var x; destruct (String.eqb_spec x y) as [->|?]
  | |- context [if ?x =? ?y then _ else _] => is_var x; destruct (Z.eqb_spec x y) as [->|?]
  end;
  (destruct docs as [|doc docs];
   [injection Hf as <-; reflexivity
   |unfold fromJSON at 1; cbn; cbn in Hf; by rewrite Hf]).

Definition pir_set_Fields (l : list PField) (r : PIndexerResource) : PIndexerResource :=
  let '(mkPIndexerResource a b c d e f g h i j _ k) := r in mkPIndexerResource a b c d e f g h i j l k.

Definition storedPIndexer (o : RangeOrder) (tagID id : Z) (x : ProwlarrIndexerIR) : PIndexerResource :=
  pir_set_Fields (wired <$> buildIndexerFields o x) (indexerResource o id x tagID).

Lemma decode_pindexer o tagID id x :
  fromJSON (toJSON (indexerResource o id x tagID)) = Some (storedPIndexer o tagID id x).
Proof.
  unfold storedPIndexer, indexerResource. generalize (buildIndexerFields o x) as fields. intros fields.
  destruct x as [name def en pr base key settings tags].
  decode_resource ltac:(unfold ToJSON_PIndexerResource;
    cbn [pir_set_Fields pir_ID pir_Name pir_DefinitionName pir_Implementation pir_ConfigContract pir_Enable
      pir_Protocol pir_Priority pir_AppProfileID pir_Tags pir_Fields pir_Capabilities pidx_Name pidx_Definition
      pidx_Enable pidx_Priority]) fields.
Qed.

Definition ppr_set_Fields (l : list PField) (r : PProxyResource) : PProxyResource :=
  mkPProxyResource (ppr_ID r) (ppr_Name r) (ppr_Implementation r) (ppr_ConfigContract r) (ppr_Tags r) l.

Definition storedProxy (tagID id : Z) (x : IndexerProxyIR) : PProxyResource :=
  ppr_set_Fields (wired <$> buildProxyFields x) (proxyResource id x tagID).

Lemma decode_proxy tagID id x :
  fromJSON (toJSON (proxyResource id x tagID)) = Some (storedProxy tagID id x).
Proof.
  unfold storedProxy, proxyResource. generalize (buildProxyFields x) as fields, (proxyTypeToImpl (ipx_Type x)) as impl.
  intros fields impl. destruct x as [name ty host port user pw timeout tags].
  decode_resource ltac:(unfold ToJSON_PProxyResource; cbn [ppr_set_Fields ppr_ID ppr_Name ppr_Implementation
    ppr_ConfigContract ppr_Tags ppr_Fields ipx_Name]) fields.
Qed.

Definition par_set_Fields (l : list PField) (r : PApplicationResource) : PApplicationResource :=
  mkPApplicationResource (par_ID r) (par_Name r) (par_Implementation r) (par_ConfigContract r) (par_SyncLevel r)
    (par_Tags r) l.

Definition storedApplication (tagID id : Z) (x : ProwlarrApplicationIR) : PApplicationResource :=
  par_set_Fields (wired <$> buildApplicationFields x) (applicationResource id x tagID).

Lemma decode_application tagID id x :
  fromJSON (toJSON (applicationResource id x tagID)) = Some (storedApplication tagID id x).
Proof.
  unfold storedApplication, applicationResource.
  generalize (buildApplicationFields x) as fields, (appTypeToImpl (papp_Type x)) as impl.
  intros fields impl. generalize (impl +:+ "Settings")%string as contract. intros contract.
  destruct x as [name ty purl url key cats level tags].
  decode_resource ltac:(unfold ToJSON_PApplicationResource; cbn [par_set_Fields par_ID par_Name par_Implementation
    par_ConfigContract par_SyncLevel par_Tags par_Fields papp_Name papp_SyncLevel]) fields.
Qed.

Definition pcr_set_Fields (l : list PField) (r : PClientResource) : PClientResource :=
  mkPClientResource (pcr_ID r) (pcr_Name r) (pcr_Implementation r) (pcr_ConfigContract r) (pcr_Protocol r)
    (pcr_Enable r) (pcr_Priority r) (pcr_Tags r) l.

Definition storedPClient `{UnicodeTables} (tagID id : Z) (x : DownloadClientIR) : PClientResource :=
  pcr_set_Fields (wired <$> buildDownloadClientFields x) (clientResource id x tagID).

Lemma decode_pclient `{UnicodeTables} tagID id x :
  fromJSON (toJSON (clientResource id x tagID)) = Some (storedPClient tagID id x).
Proof.
  unfold storedPClient, clientResource.
  generalize (buildDownloadClientFields x) as fields, (implFromClientType (dc_Implementation x)) as impl.
  intros fields impl. destruct x as [i name protocol impl0 en pr rc rf host port tls user pw cat dir].
  decode_resource ltac:(unfold ToJSON_PClientResource; cbn [pcr_set_Fields pcr_ID pcr_Name pcr_Implementation
    pcr_ConfigContract pcr_Protocol pcr_Enable pcr_Priority pcr_Tags pcr_Fields dc_Name dc_Protocol dc_Enable
    dc_Priority]) fields.
Qed.

(** ** What is read back *)

Lemma foldl_wired_unless {A} (f : A → PField → A) (a : A) b name v l :
  foldl f a (wired <$> (fieldUnless b name v ++ l)) =
  foldl f (if b then a else f a (wired (pfield name v))) (wired <$> l).
Proof. by destruct b. Qed.

Lemma settingsEqual_refl m : settingsEqual m m = true.
Proof.
  unfold settingsEqual. rewrite Nat.eqb_refl. simpl. apply forallb_forall. intros [k v] Hin.
  apply list_elem_of_In, elem_of_map_to_list in Hin. simpl. rewrite Hin. simpl. apply String.eqb_refl.
Qed.

(** *** Indexers *)

(** No setting has the name of a field that has a meaning of its own. *)
Definition indexerOk (x : ProwlarrIndexerIR) : Prop :=
  pidx_Settings x !! "baseUrl"%string = None ∧ pidx_Settings x !! "apiKey"%string = None.

Definition settingField (kv : string * string) : PField := let '(k, v) := kv in pfield k (VString v).

Lemma extract_settings entries ir :
  (∀ k v, (k, v) ∈ entries → k ≠ "baseUrl"%string ∧ k ≠ "apiKey"%string) →
  foldl extractPIndexerField ir (wired <$> (settingField <$> entries)) =
  mkProwlarrIndexerIR (pidx_Name ir) (pidx_Definition ir) (pidx_Enable ir) (pidx_Priority ir) (pidx_BaseURL ir)
    (pidx_APIKey ir) (foldl (λ m (kv : string * string), <[kv.1 := kv.2]> m) (pidx_Settings ir) entries) (pidx_Tags ir).
Proof.
  revert ir. induction entries as [|[k v] entries IH]; intros ir Hk; [by destruct ir|].
  destruct (Hk k v) as [H1 H2]; [left|]. rewrite !fmap_cons. cbn [foldl].
  rewrite IH by (intros k' v' Hin; apply (Hk k' v'); by right).
  unfold extractPIndexerField, settingField, pfield, wired. cbn [pf_Name pf_Value switch existsb].
  rewrite !(proj2 (String.eqb_neq _ _)) by done. done.
Qed.

Lemma rebuilt_settings o site (m : gmap string string) :
  foldl (λ m (kv : string * string), <[kv.1 := kv.2]> m) ∅ (rangeMap o site m) = m.
Proof.
  assert (∀ l (m0 : gmap string string), NoDup l.*1 → (∀ k, k ∈ l.*1 → m0 !! k = None) →
    foldl (λ m (kv : string * string), <[kv.1 := kv.2]> m) m0 l = list_to_map l ∪ m0) as H.
  { induction l as [|[k v] l IH]; intros m0 Hnd Hm; [simpl; by rewrite (left_id_L ∅ (∪))|].
    rewrite fmap_cons in Hnd. apply NoDup_cons in Hnd as [Hk Hnd]. simpl. rewrite IH; [|done|].
    - rewrite <-insert_union_l, insert_union_r; [done|]. by apply not_elem_of_list_to_map_1.
    - intros k' Hk'. rewrite lookup_insert_ne; [|intros ->; by apply Hk]. apply Hm. rewrite fmap_cons. by right. }
  rewrite H; [|apply NoDup_rangeMap_keys|done]. rewrite (right_id_L ∅ (∪)).
  rewrite (list_to_map_proper (rangeMap o site m) (map_to_list m)); [apply list_to_map_to_list| |apply rangeMap_perm].
  apply NoDup_rangeMap_keys.
Qed.

Lemma pindexerToIR_stored o tagID id x : indexerOk x →
  pindexerToIR (storedPIndexer o tagID id x) =
  mkProwlarrIndexerIR (pidx_Name x) (pidx_Definition x) (pidx_Enable x) (pidx_Priority x) (pidx_BaseURL x)
    (pidx_APIKey x) (pidx_Settings x) [].
Proof.
  intros [H1 H2]. destruct x as [name def en pr base key settings tags]. cbn [pidx_Settings] in *.
  unfold pindexerToIR, storedPIndexer, indexerResource, buildIndexerFields. cbn [pir_set_Fields pir_Fields pir_Name
    pir_DefinitionName pir_Enable pir_Priority pidx_Name pidx_Definition pidx_Enable pidx_Priority pidx_BaseURL
    pidx_APIKey pidx_Settings].
  rewrite !foldl_wired_unless.
  change ((λ '(k, v), pfield k (VString v)) <$> rangeMap o 0 settings)
    with (settingField <$> rangeMap o 0 settings).
  rewrite extract_settings.
  - destruct (String.eqb_spec base "") as [->|], (String.eqb_spec key "") as [->|]; simpl;
      by rewrite rebuilt_settings.
  - intros k v Hin%elem_of_rangeMap. split; intros ->; congruence.
Qed.

Lemma stored_pindexer_equal o tagID id x : indexerOk x →
  indexersEqual (pindexerToIR (storedPIndexer o tagID id x)) x = true.
Proof.
  intros Hok. rewrite pindexerToIR_stored by done. unfold indexersEqual. simpl.
  by rewrite !String.eqb_refl, Bool.eqb_reflx, Z.eqb_refl, settingsEqual_refl.
Qed.

(** *** Applications *)

Definition applicationOk (x : ProwlarrApplicationIR) : Prop :=
  implToAppType (appTypeToImpl (papp_Type x)) = papp_Type x ∧ categoriesOf x = papp_SyncCategories x ∧
  Forall (λ c, - 2 ^ 53 < c < 2 ^ 53) (papp_SyncCategories x).

Lemma appendSyncCategories_ints cats ir :
  Forall (λ c, - 2 ^ 53 < c < 2 ^ 53) cats →
  appendSyncCategories (throughJSON (VInts cats)) ir =
  papp_set_SyncCategories (papp_SyncCategories ir ++ cats) ir.
Proof.
  unfold throughJSON. simpl. revert ir. induction cats as [|n cats IH]; intros ir Hc; simpl.
  - rewrite app_nil_r. by destruct ir.
  - apply Forall_cons in Hc as [Hn Hc]. simpl in IH. rewrite IH by done. destruct ir. simpl.
    by rewrite int_float64_exact, <-app_assoc by done.
Qed.

Lemma applicationToIR_stored tagID id x : applicationOk x →
  applicationToIR (storedApplication tagID id x) =
  mkProwlarrApplicationIR (papp_Name x) (papp_Type x) (papp_ProwlarrURL x) (papp_URL x) (papp_APIKey x)
    (papp_SyncCategories x) (papp_SyncLevel x) [].
Proof.
  intros (Ht & Hc & Hb). unfold applicationToIR, storedApplication, applicationResource, buildApplicationFields.
  cbn [par_set_Fields par_Fields par_Name par_Implementation par_SyncLevel]. rewrite Ht, Hc.
  destruct x as [name ty purl url key cats level tags].
  cbn [papp_Name papp_Type papp_ProwlarrURL papp_URL papp_APIKey papp_SyncCategories papp_SyncLevel] in *.
  rewrite !foldl_wired_unless, <-(app_nil_r (fieldUnless _ "syncCategories" _)), foldl_wired_unless. cbn [fmap list_fmap foldl].
  assert (∀ ir, extractApplicationField ir (wired (pfield "syncCategories" (VInts cats))) =
    papp_set_SyncCategories (papp_SyncCategories ir ++ cats) ir) as HC.
  { intros ir. apply (appendSyncCategories_ints cats ir Hb). }
  rewrite HC.
  destruct (String.eqb_spec purl "") as [->|], (String.eqb_spec url "") as [->|], (String.eqb_spec key "") as [->|];
    by destruct cats.
Qed.

Lemma stored_application_equal tagID id x : applicationOk x →
  applicationsEqual (applicationToIR (storedApplication tagID id x)) x = true.
Proof.
  intros Hok. rewrite applicationToIR_stored by done. unfold applicationsEqual. simpl.
  rewrite !String.eqb_refl, Nat.eqb_refl. simpl. apply forallb_forall. intros c Hc.
  apply bool_decide_eq_true. unfold setOf. apply elem_of_list_to_set. by apply list_elem_of_In.
Qed.

(** *** Proxies and download clients *)

Definition proxyBounded (x : IndexerProxyIR) : Prop :=
  0 ≤ ipx_Port x < 2 ^ 53 ∧ 0 ≤ ipx_RequestTimeout x < 2 ^ 53.

(** A proxy of FlareSolverr has neither port nor user, another has no timeout. *)
Definition proxyOk (x : IndexerProxyIR) : Prop :=
  implToProxyType (proxyTypeToImpl (ipx_Type x)) = ipx_Type x ∧
  if String.eqb (ipx_Type x) ProxyTypeFlareSolverr
  then ipx_Port x = 0 ∧ ipx_Username x = ""%string else ipx_RequestTimeout x = 0.

Lemma proxyToIR_stored tagID id x : proxyBounded x →
  proxyToIR (storedProxy tagID id x) =
  let flare := String.eqb (ipx_Type x) ProxyTypeFlareSolverr in
  mkIndexerProxyIR (ipx_Name x) (implToProxyType (proxyTypeToImpl (ipx_Type x))) (ipx_Host x)
    (if flare then 0 else ipx_Port x) (if flare then ""%string else ipx_Username x)
    (if flare then ""%string else ipx_Password x) (if flare then ipx_RequestTimeout x else 0) [].
Proof.
  intros [Hp Ht]. unfold proxyToIR, storedProxy, proxyResource, buildProxyFields.
  cbn [ppr_set_Fields ppr_Fields ppr_Name ppr_Implementation].
  destruct x as [name ty host port user pw timeout tags].
  cbn [ipx_Name ipx_Type ipx_Host ipx_Port ipx_Username ipx_Password ipx_RequestTimeout] in *.
  destruct (String.eqb ty ProxyTypeFlareSolverr); cbv zeta.
  - destruct (Z.ltb_spec 0 timeout) as [H|H]; cbn.
    + by rewrite int_float64_exact by lia.
    + by replace timeout with 0 by lia.
  - destruct (String.eqb_spec host "") as [->|], (Z.ltb_spec 0 port) as [H|H], (String.eqb_spec user "") as [->|],
      (String.eqb_spec pw "") as [->|]; cbn; rewrite ?int_float64_exact by lia; try done;
      by replace port with 0 by lia.
Qed.

(** A proxy that was sent is found equal when it is read back exactly if it sets
    nothing that is not sent for its type. *)
Lemma stored_proxy_equal tagID id x : proxyBounded x →
  proxiesEqual (proxyToIR (storedProxy tagID id x)) x = true ↔ proxyOk x.
Proof.
  intros Hb. rewrite proxyToIR_stored by done. unfold proxiesEqual, proxyOk. simpl.
  rewrite !andb_true_iff, !String.eqb_eq, !Z.eqb_eq.
  destruct (String.eqb (ipx_Type x) ProxyTypeFlareSolverr); split; intros; destruct_and?; split_and?; auto; congruence.
Qed.

Definition clientOk `{UnicodeTables} (x : DownloadClientIR) : Prop :=
  ToLower (implFromClientType (dc_Implementation x)) = dc_Implementation x ∧ 0 ≤ dc_Port x < 2 ^ 53.

Lemma pclientToIR_stored `{UnicodeTables} tagID id x : clientOk x →
  pclientToIR (storedPClient tagID id x) =
  mkDownloadClientIR 0 (dc_Name x) (dc_Protocol x) (dc_Implementation x) (dc_Enable x) (dc_Priority x) false false
    (dc_Host x) (dc_Port x) (dc_UseTLS x) (dc_Username x) (dc_Password x) (dc_Category x) (dc_Directory x).
Proof.
  intros [Hi Hp]. unfold pclientToIR, storedPClient, clientResource, buildDownloadClientFields.
  cbn [pcr_set_Fields pcr_Fields pcr_Name pcr_Implementation pcr_Protocol pcr_Enable pcr_Priority]. rewrite Hi.
  destruct x as [i name protocol impl en pr rc rf host port tls user pw cat dir].
  cbn [dc_Name dc_Protocol dc_Implementation dc_Enable dc_Priority dc_Host dc_Port dc_UseTLS dc_Username dc_Password
    dc_Category dc_Directory] in *. clear Hi.
  destruct (String.eqb_spec host "") as [->|], (Z.ltb_spec 0 port) as [H1|H1], (String.eqb_spec user "") as [->|],
    (String.eqb_spec pw "") as [->|], (String.eqb_spec cat "") as [->|], (String.eqb_spec dir "") as [->|];
    cbn; rewrite ?int_float64_exact by lia; try done; by replace port with 0 by lia.
Qed.

Lemma stored_pclient_equal `{UnicodeTables} tagID id x : clientOk x →
  downloadClientsEqual (pclientToIR (storedPClient tagID id x)) x = true.
Proof.
  intros Hok. rewrite pclientToIR_stored by done. unfold downloadClientsEqual. simpl.
  by rewrite !String.eqb_refl, !Bool.eqb_reflx, !Z.eqb_refl.
Qed.
