(* ===== verification/ProwlarrConverge.v ===== *)
(** * A sync of Prowlarr converges

    The adapter finds a resource again by its name, through the ID cache that reading
    the state fills.  Against the contract of a collection ([LawsAt]) the requests of
    a kind implement the laws of [Managed], with the coherence of the cache as the
    invariant of the world. *)
From S2P Require Export ProwlarrWire Rest Converge.

(** ** A kind of resource against its collection *)

(** What a kind of resource satisfies: a resource that was sent reads back as the
    configuration it came from, where [ok] holds of it. *)
Class PKindLaws {R A} `{FromJSON R} `{ToJSON R} (k : PKind R A) (tagID : Z) (setID : Z → R → R)
    (stored : Z → A → R) (equal : A → A → bool) (ok : A → Prop) : Prop := {
  pk_decode i x : fromJSON (toJSON (pk_resource k i x tagID)) = Some (stored i x);
  pk_setID i j x : setID j (stored i x) = stored j x;
  pk_stored_ID i x : pk_ID k (stored i x) = i;
  pk_stored_Tags i x : pk_Tags k (stored i x) = [tagID];
  pk_stored_Name i x : pk_Name k (stored i x) = pk_irName k x;
  pk_toIR_Name r : pk_irName k (pk_toIR k r) = pk_Name k r;
  pk_stored_equal i x : ok x → equal (pk_toIR k (stored i x)) x = true }.

Lemma cacheOf_setCache {S} kd m (w : PWorld S) : cacheOf kd (setCache kd m w) = m.
Proof. by destruct w, kd. Qed.
Lemma cacheOf_setCache_ne {S} kd kd' m (w : PWorld S) : kd' ≠ kd → cacheOf kd' (setCache kd m w) = cacheOf kd' w.
Proof. by destruct w, kd, kd'. Qed.
Lemma service_setCache {S} kd m (w : PWorld S) : pw_service (setCache kd m w) = pw_service w.
Proof. by destruct w, kd. Qed.

Definition withPService {S} (w : PWorld S) (s : S) : PWorld S :=
  mkPWorld s (indexerIDCache w) (proxyIDCache w) (applicationIDCache w) (downloadClientIDCache w).

Lemma onP_ok {S A} (m : M S A) (w : PWorld S) s a :
  m (pw_service w) = (s, Ret a) → onP m w = (withPService w s, Ret a).
Proof. unfold onP. by intros ->. Qed.

Lemma cacheOf_withPService {S} kd (w : PWorld S) s : cacheOf kd (withPService w s) = cacheOf kd w.
Proof. by destruct kd. Qed.

Lemma cacheKey_inj c n1 n2 : cacheKey c n1 = cacheKey c n2 → n1 = n2.
Proof. unfold cacheKey. by intros ?%append_inj_r%append_inj_r. Qed.

Section kind.
Context {S R A : Type} `{Service S} `{FromJSON R} `{ToJSON R}.
Context (k : PKind R A) (c : Client) (tagID : Z) (rt : string) (payload : A → Payload).
Context (setID : Z → R → R) (stored : Z → A → R) (equal : A → A → bool) (ok : A → Prop).
Context `{!PKindLaws k tagID setID stored equal ok} (base : plainBase c).
Context (view : S → gmap Z R).
Abbreviation MP := (M (PWorld S)).

Definition kindCollection : Collection S R := mkCollection "/api/v1/" (pk_collection k) view setID.
Definition kindOps : DiffOps A := namedOps rt (pk_irName k) equal payload.

(** Every managed resource is cached under its name. *)
Definition coherent (w : PWorld S) : Prop := ∀ i r,
  view (pw_service w) !! i = Some r → HasTag (pk_Tags k r) tagID = true →
  cacheOf (pk_cache k) w !! cacheKey c (pk_Name k r) = Some i.

(** The callbacks of [Apply], which run the requests of the kind on its changes. *)
Context (doCreate doUpdate doDelete : Change → MP unit).
Hypothesis creates : ∀ n x, doCreate (mkChange rt n None (payload x)) = createResource k c x tagID.
Hypothesis updates : ∀ n x, doUpdate (mkChange rt n None (payload x)) = updateResource k c x tagID.
Hypothesis deletes : ∀ n, doDelete (mkChange rt n None PNil) = removeResource k c n.

Definition managedKind : Managed R A (PWorld S) kindOps :=
  mkManaged (ops := kindOps) (pk_ID k) (λ r, HasTag (pk_Tags k r) tagID) (pk_toIR k) stored
    (λ w, view (pw_service w)) coherent ok doCreate doUpdate doDelete.

Context (plain : plainName (pk_collection k) = true) `{!RestLaws c kindCollection}.

Lemma stored_managed i x : HasTag (pk_Tags k (stored i x)) tagID = true.
Proof. rewrite pk_stored_Tags. simpl. by rewrite Z.eqb_refl. Qed.

Lemma create_runs w x : coherent w → (∀ i r, ¬ present managedKind (view (pw_service w)) (pk_irName k x) i r) →
  ∃ w' i, createResource k c x tagID w = (w', Ret tt) ∧ coherent w' ∧ view (pw_service w) !! i = None ∧
    view (pw_service w') = <[i := stored i x]> (view (pw_service w)).
Proof.
  intros Hinv Habs. destruct (Post_stores c base kindCollection eq_refl ltac:(done) plain (pk_resource k 0 x tagID)
    (stored 0 x) (pk_decode 0 x) (pw_service w)) as (s' & i & _ & HP & _ & Hn & Hv).
  cbn [kindCollection col_view col_setID col_api col_name] in *. rewrite pk_setID in HP, Hv.
  exists (setCache (pk_cache k) (<[cacheKey c (pk_irName k x) := i]> (cacheOf (pk_cache k) (withPService w s')))
    (withPService w s')), i.
  split_and!; [| |exact Hn|by rewrite service_setCache].
  - unfold createResource, bind, wrapErr. unfold collectionPath in HP. unfold prowlarrCollection. rewrite (onP_ok _ _ _ _ HP), pk_stored_ID.
    reflexivity.
  - intros j r. rewrite service_setCache, cacheOf_setCache, cacheOf_withPService. simpl. rewrite Hv.
    destruct (decide (i = j)) as [<-|Hij].
    + rewrite lookup_insert_eq. intros [= <-] _. by rewrite pk_stored_Name, lookup_insert_eq.
    + rewrite lookup_insert_ne by done. intros Hj Ht. rewrite lookup_insert_ne; [by apply Hinv|].
      intros E%cacheKey_inj. apply (Habs j r). split_and!; [done..|]. simpl. by rewrite pk_toIR_Name.
Qed.

Lemma known_id w n i r : coherent w → present managedKind (view (pw_service w)) n i r →
  cacheOf (pk_cache k) w !! cacheKey c n = Some i.
Proof. intros Hinv (Hi & Ht & Hn). rewrite <-Hn. simpl. rewrite pk_toIR_Name. by apply Hinv. Qed.

Lemma update_runs w x i r : coherent w → present managedKind (view (pw_service w)) (pk_irName k x) i r →
  ∃ w', updateResource k c x tagID w = (w', Ret tt) ∧ coherent w' ∧
    view (pw_service w') = <[i := stored i x]> (view (pw_service w)).
Proof.
  intros Hinv Hp. pose proof (known_id w _ i r Hinv Hp) as Hid.
  destruct (Put_stores c base kindCollection eq_refl ltac:(done) plain (pk_resource k i x tagID)
    (stored i x) (pk_decode i x) (pw_service w) i) as (s' & HP & _ & Hv); [eexists; apply Hp|].
  cbn [kindCollection col_view col_setID col_api col_name] in *. rewrite pk_setID in Hv.
  exists (withPService w s'). split_and!; [| |exact Hv].
  - unfold updateResource, idForUpdate, cached, bind at 1 2. rewrite Hid. unfold bind, ret, wrapErr.
    change (prowlarrMember (pk_collection k) i) with (memberPath "/api/v1/" (pk_collection k) i).
    by rewrite (onP_ok _ _ _ _ HP).
  - intros j r'. simpl. rewrite cacheOf_withPService, Hv. destruct (decide (i = j)) as [<-|Hij].
    + rewrite lookup_insert_eq. intros [= <-] _. by rewrite pk_stored_Name.
    + rewrite lookup_insert_ne by done. apply Hinv.
Qed.

Lemma remove_runs w n i r : coherent w → present managedKind (view (pw_service w)) n i r →
  ∃ w', removeResource k c n w = (w', Ret tt) ∧ coherent w' ∧ view (pw_service w') = delete i (view (pw_service w)).
Proof.
  intros Hinv Hp. pose proof (known_id w _ i r Hinv Hp) as Hid.
  destruct (Delete_removes c base kindCollection eq_refl ltac:(done) plain (pw_service w) i) as (s' & HP & Hv);
    [eexists; apply Hp|].
  cbn [kindCollection col_view col_setID col_api col_name] in *.
  exists (setCache (pk_cache k) (delete (cacheKey c n) (cacheOf (pk_cache k) (withPService w s'))) (withPService w s')).
  split_and!; [| |by rewrite service_setCache].
  - unfold removeResource, idForDelete, cached, bind at 1 2. rewrite Hid. unfold bind, ret, wrapErr.
    change (prowlarrMember (pk_collection k) i) with (memberPath "/api/v1/" (pk_collection k) i).
    rewrite (onP_ok _ _ _ _ HP). reflexivity.
  - intros j r'. rewrite service_setCache, cacheOf_setCache, cacheOf_withPService. simpl. rewrite Hv.
    rewrite lookup_delete_Some. intros [Hij Hj] Ht. pose proof (Hinv j r' Hj Ht) as Hc.
    rewrite lookup_delete_ne; [done|]. intros E. rewrite E in Hid. congruence.
Qed.

#[export] Instance managedKind_laws : ManagedLaws managedKind.
Proof.
  split.
  - apply pk_stored_ID.
  - intros i x _. apply stored_managed.
  - intros i x _. simpl. by rewrite pk_toIR_Name, pk_stored_Name.
  - intros i x Hx. by apply pk_stored_equal.
  - intros w n x Hinv _ <- Habs. simpl. rewrite creates. by apply create_runs.
  - intros w n i r x Hinv _ <- Hid Hp. simpl. rewrite updates. by apply (update_runs w x i r).
  - intros w n i r Hinv Hid Hp. simpl. rewrite deletes. by apply (remove_runs w n i r).
Qed.

(** *** Reading the kind fills its cache *)

Definition cacheAll (l : list R) (m : gmap string Z) : gmap string Z :=
  foldl (λ m r, if HasTag (pk_Tags k r) tagID then <[cacheKey c (pk_Name k r) := pk_ID k r]> m else m) m l.

Lemma lookup_cacheAll l m r :
  r ∈ l → HasTag (pk_Tags k r) tagID = true →
  (∀ r', r' ∈ l → HasTag (pk_Tags k r') tagID = true → pk_Name k r' = pk_Name k r → pk_ID k r' = pk_ID k r) →
  cacheAll l m !! cacheKey c (pk_Name k r) = Some (pk_ID k r).
Proof.
  induction l as [|x l IH] using rev_ind; [by intros ?%not_elem_of_nil|].
  intros Hin Ht Huniq. unfold cacheAll. rewrite foldl_app. cbn [foldl].
  assert (HIH : r ∈ l → cacheAll l m !! cacheKey c (pk_Name k r) = Some (pk_ID k r)).
  { intros Hr. apply IH; [done..|]. intros r' Hr'. apply Huniq. apply elem_of_app. by left. }
  destruct (HasTag (pk_Tags k x) tagID) eqn:Hx.
  - destruct (decide (pk_Name k x = pk_Name k r)) as [E|E].
    + rewrite E, lookup_insert_eq. f_equal. apply Huniq; [|done..]. apply elem_of_app. right. by left.
    + rewrite lookup_insert_ne by (by intros ?%cacheKey_inj). apply HIH.
      apply elem_of_app in Hin as [Hin| ->%list_elem_of_singleton]; [done|by destruct E].
  - apply HIH. apply elem_of_app in Hin as [Hin| ->%list_elem_of_singleton]; [done|congruence].
Qed.

(** The body of the loop. *)
Definition collect (managed : list A) (r : R) : MP (list A) :=
  if HasTag (pk_Tags k r) tagID
  then cacheID k c (pk_Name k r) (pk_ID k r) ;;; ret (managed ++ [pk_toIR k r]) else ret managed.

Lemma collect_runs l w acc : forRange collect acc l w =
  (setCache (pk_cache k) (cacheAll l (cacheOf (pk_cache k) w)) w, Ret (acc ++ managedIR managedKind l)).
Proof.
  revert w acc. induction l as [|r l IH]; intros w acc; cbn [forRange].
  - rewrite app_nil_r. by destruct w, (pk_cache k).
  - unfold bind at 1, collect at 1, managedIR. rewrite filter_cons. cbn [managedKind mg_managed mg_toIR].
    destruct (HasTag (pk_Tags k r) tagID) eqn:Ht.
    + unfold bind, cacheID, modifyCache, ret. rewrite IH. unfold cacheAll. cbn [foldl]. rewrite Ht.
      rewrite decide_True by done. rewrite cacheOf_setCache, fmap_cons, <-app_assoc.
      f_equal. by destruct w, (pk_cache k).
    + unfold ret. rewrite IH. unfold cacheAll. cbn [foldl]. by rewrite Ht, decide_False by done.
Qed.

Lemma getManaged_runs w l s : Get (list R) c (prowlarrCollection (pk_collection k)) (pw_service w) = (s, Ret l) →
  getManaged k c tagID w =
  (setCache (pk_cache k) (cacheAll l (cacheOf (pk_cache k) w)) (withPService w s), Ret (managedIR managedKind l)).
Proof.
  intros HG. unfold getManaged, listResources, bind at 1, wrapErr. rewrite (onP_ok _ _ _ _ HG).
  rewrite <-(cacheOf_withPService (pk_cache k) w s). apply collect_runs.
Qed.

(** Reading brings the cache in line with the collection. *)
Lemma getManaged_reads w : wellFormed managedKind (view (pw_service w)) →
  ∃ w' l, getManaged k c tagID w = (w', Ret (managedIR managedKind l)) ∧ listing (view (pw_service w)) l ∧
    pw_service w' = pw_service w ∧ coherent w'.
Proof.
  intros [Hids Huniq].
  destruct (Get_list c base kindCollection eq_refl ltac:(done) plain (pw_service w)) as (l & HG & Hl).
  cbn [kindCollection col_view col_api col_name] in *.
  eexists _, l. split; [by apply getManaged_runs, HG|]. split; [done|]. split; [by rewrite service_setCache|].
  intros i r. rewrite service_setCache, cacheOf_setCache. simpl. intros Hi Ht.
  rewrite <-(Hids i r Hi). apply lookup_cacheAll; [|done|].
  - apply (elem_of_listing (view (pw_service w))); [done|by exists i].
  - intros r' Hr' Ht' Hn. apply (elem_of_listing (view (pw_service w))) in Hr' as [j Hj]; [|done].
    pose proof (Hids i r Hi) as Ei. pose proof (Hids j r' Hj) as Ej. simpl in Ei, Ej. rewrite Ei, Ej.
    apply (Huniq (pk_Name k r) j r' i r); split_and!; try done; simpl; by rewrite pk_toIR_Name.
Qed.
End kind.

(** ** Requests of another kind *)

(** The states in which the collection of a kind and its cache are the same. *)
Definition sameKind {S R} (view : S → gmap Z R) (kd : CacheKind) : relation (PWorld S) := λ w w',
  view (pw_service w') = view (pw_service w) ∧ cacheOf kd w' = cacheOf kd w.

#[export] Instance sameKind_preorder {S R} (view : S → gmap Z R) kd : PreOrder (sameKind view kd).
Proof. split; unfold sameKind; [done|]. intros w1 w2 w3 [? ?] [? ?]. split; congruence. Qed.

Section another.
Context {S R : Type} `{Service S} (c : Client) (view : S → gmap Z R) (kd : CacheKind).
Abbreviation P := (sameKind view kd).
Abbreviation same := (λ s s' : S, view s' = view s).

Lemma steps_onP {B} (m : M S B) : steps same m → steps P (onP m).
Proof.
  intros Hm w. destruct (Hm (pw_service w)) as [HP Hn]. unfold onP. destruct (m (pw_service w)) as [s r].
  split; [|exact Hn]. split; [exact HP|by destruct kd].
Qed.

Lemma steps_modifyCache kd' f : kd' ≠ kd → steps P (modifyCache kd' f : M (PWorld S) unit).
Proof.
  intros Hne w. split; [|done]. unfold modifyCache, sameKind. simpl.
  by rewrite service_setCache, cacheOf_setCache_ne by congruence.
Qed.

#[local] Instance same_preorder : PreOrder same.
Proof. split; [done|]. intros s1 s2 s3 H12 H23. congruence. Qed.

Context {R' A' : Type} `{FromJSON R'} `{ToJSON R'} (k : PKind R' A') (tagID : Z).
Context (other : pk_cache k ≠ kd) (reads : ∀ p, harmless same c "GET" p).
Context (quiet : quietAt same c "/api/v1/" (pk_collection k)).
#[local] Hint Extern 1 (PreOrder _) => typeclasses eauto : nebularr.
#[local] Hint Resolve steps_onP steps_modifyCache : nebularr.

Lemma steps_cached n : steps P (cached k c n : M (PWorld S) _).
Proof. intros w. by split. Qed.
#[local] Hint Resolve steps_cached : nebularr.

Lemma steps_listResources : steps P (listResources k c).
Proof. unfold listResources. auto with nebularr. Qed.
#[local] Hint Resolve steps_listResources : nebularr.

Lemma steps_cacheID n i : steps P (cacheID k c n i : M (PWorld S) _).
Proof. unfold cacheID. auto with nebularr. Qed.
#[local] Hint Resolve steps_cacheID : nebularr.

Lemma steps_getManaged : steps P (getManaged k c tagID).
Proof.
  unfold getManaged. apply steps_bind; [typeclasses eauto|auto with nebularr|]. intros l.
  apply steps_forRange; [typeclasses eauto|]. intros acc r _. case_match; auto with nebularr.
Qed.

Lemma steps_createResource x : steps P (createResource k c x tagID).
Proof.
  unfold createResource. destruct quiet as [Hq _]. apply steps_bind; [typeclasses eauto| |auto with nebularr].
  apply steps_wrapErr, steps_onP, steps_PostResult; [typeclasses eauto|apply Hq].
Qed.

Lemma steps_updateResource x : steps P (updateResource k c x tagID).
Proof.
  unfold updateResource, idForUpdate. destruct quiet as [_ Hq].
  apply steps_bind; [typeclasses eauto| |intros id; apply steps_wrapErr, steps_onP, steps_Put; [typeclasses eauto|apply Hq]].
  apply steps_bind; [typeclasses eauto|auto with nebularr|]. intros [id|]; [auto with nebularr|].
  apply steps_bind; [typeclasses eauto|auto with nebularr|]. intros l.
  apply steps_bind; [typeclasses eauto|case_match; auto with nebularr|].
  intros id. case_match; auto with nebularr.
Qed.

Lemma steps_removeResource n : steps P (removeResource k c n).
Proof.
  unfold removeResource, idForDelete. destruct quiet as [_ Hq].
  apply steps_bind; [typeclasses eauto| |].
  - apply steps_bind; [typeclasses eauto|auto with nebularr|]. intros [id|]; auto with nebularr.
  - intros [id|]; [|auto with nebularr]. apply steps_bind; [typeclasses eauto| |].
    + apply steps_wrapErr, steps_onP, steps_Delete; [typeclasses eauto|apply Hq].
    + intros _. unfold uncacheID. auto with nebularr.
Qed.
End another.
