(* ===== verification/ProwlarrSync.v ===== *)
(** * Theorems: Prowlarr

    One sync of Prowlarr: the state is read (which fills the ID caches), diffed and
    applied.  The four kinds of resource are instances of [PKindLaws]. *)
From S2P Require Export ProwlarrConverge Pair.

(** ** The four kinds *)

Definition pir_set_ID (id : Z) (r : PIndexerResource) : PIndexerResource :=
  let '(mkPIndexerResource _ b c d e f g h i j k l) := r in mkPIndexerResource id b c d e f g h i j k l.
Definition ppr_set_ID (id : Z) (r : PProxyResource) : PProxyResource :=
  mkPProxyResource id (ppr_Name r) (ppr_Implementation r) (ppr_ConfigContract r) (ppr_Tags r) (ppr_Fields r).
Definition par_set_ID (id : Z) (r : PApplicationResource) : PApplicationResource :=
  mkPApplicationResource id (par_Name r) (par_Implementation r) (par_ConfigContract r) (par_SyncLevel r)
    (par_Tags r) (par_Fields r).
Definition pcr_set_ID (id : Z) (r : PClientResource) : PClientResource :=
  mkPClientResource id (pcr_Name r) (pcr_Implementation r) (pcr_ConfigContract r) (pcr_Protocol r) (pcr_Enable r)
    (pcr_Priority r) (pcr_Tags r) (pcr_Fields r).

(** The extraction of a field keeps the name. *)
Ltac keeps_name g :=
  etrans; [apply (foldl_keeps g)|done]; intros a f; apply (switch_keeps g); [|repeat constructor]; simpl;
  try done; destruct (pf_Value f); try done; by destruct a.

Section kinds.
Context `{UnicodeTables} (o : RangeOrder) (tagID : Z).

#[export] Instance indexerKind_laws :
  PKindLaws (indexerKind o) tagID pir_set_ID (storedPIndexer o tagID) indexersEqual indexerOk.
Proof.
  split; try done.
  - intros. apply decode_pindexer.
  - intros r. simpl. unfold pindexerToIR. keeps_name pidx_Name.
  - intros. by apply stored_pindexer_equal.
Qed.

Definition proxyBoundedOk (x : IndexerProxyIR) : Prop := proxyBounded x ∧ proxyOk x.

#[export] Instance proxyKind_laws :
  PKindLaws proxyKind tagID ppr_set_ID (storedProxy tagID) proxiesEqual proxyBoundedOk.
Proof.
  split; try done.
  - intros. apply decode_proxy.
  - intros r. simpl. unfold proxyToIR. keeps_name ipx_Name.
  - intros i x [Hb Hok]. by apply stored_proxy_equal.
Qed.

Lemma appendSyncCategories_Name v a : papp_Name (appendSyncCategories v a) = papp_Name a.
Proof.
  destruct v as [| | | | | |l|]; try done. revert a. induction l as [|x l IH]; intros a; [done|]. simpl.
  unfold appendSyncCategories in IH. rewrite IH. by destruct x.
Qed.

#[export] Instance applicationKind_laws :
  PKindLaws applicationKind tagID par_set_ID (storedApplication tagID) applicationsEqual applicationOk.
Proof.
  split; try done.
  - intros. apply decode_application.
  - intros r. simpl. unfold applicationToIR. etrans; [apply (foldl_keeps papp_Name)|done]. intros a f.
    apply (switch_keeps papp_Name); [done|]. repeat constructor; simpl; try apply appendSyncCategories_Name; by destruct (pf_Value f).
  - intros. by apply stored_application_equal.
Qed.

#[export] Instance clientKind_laws :
  PKindLaws clientKind tagID pcr_set_ID (storedPClient tagID) downloadClientsEqual clientOk.
Proof.
  split; try done.
  - intros. apply decode_pclient.
  - intros r. simpl. unfold pclientToIR. keeps_name dc_Name.
  - intros. by apply stored_pclient_equal.
Qed.
End kinds.

(** ** One sync *)

Section sync.
Context {S : Type} `{Service S} `{UnicodeTables} `{TimeFormat}.
Abbreviation MP := (M (PWorld S)).

Definition prowlarrSync (now : Z) (od : nat → RangeOrder) (conn : ConnectionIR) (desired : IR)
    : MP (option ApplyResult * option error) :=
  let* current := CurrentState (od 0%nat) now conn in
  Apply (od 4%nat) conn (prowlarrDiff od current desired).

(** The four steps of [Diff] on the parts of two states. *)
Definition partsDiff (od : nat → RangeOrder) (current desired : ProwlarrIR) : ChangeSet :=
  joinChanges (joinChanges (joinChanges
    (diffIndexers (od 0%nat) current desired emptyChangeSet)
    (diffProxies (od 1%nat) current desired emptyChangeSet))
    (diffApplications (od 2%nat) current desired emptyChangeSet))
    (diffDownloadClients (od 3%nat) current desired emptyChangeSet).

Lemma prowlarrDiff_parts od current desired p d :
  ir_Prowlarr current = Some p → ir_Prowlarr desired = Some d → prowlarrDiff od current desired = partsDiff od p d.
Proof.
  intros Hp Hd. unfold prowlarrDiff, partsDiff. rewrite Hp, Hd. simpl.
  unfold diffDownloadClients at 1. rewrite diffNamed_join. f_equal.
  unfold diffApplications at 1. rewrite diffNamed_join. f_equal.
  unfold diffProxies at 1. by rewrite diffNamed_join.
Qed.

Context (conn : ConnectionIR) (tagID : Z) (base : plainBase (newClient conn)).
Context (known : tagKnownAt (newClient conn) "v1" tagID).
Abbreviation c := (newClient conn).

Lemma prowlarr_getOwnershipTagID_known (w : PWorld S) : onP (GetOwnershipTagID c "v1") w = (w, Ret tagID).
Proof.
  destruct (EnsureOwnershipTag_known c base "v1" tagID (pw_service w) eq_refl known) as [_ HG].
  rewrite (onP_ok _ _ _ _ HG). by destruct w.
Qed.

Lemma prowlarr_Apply_known o changes w :
  Apply o conn changes w =
  (let* r := ApplyChanges changes (λ ch, applyCreate o c ch tagID) (λ ch, applyUpdate o c ch tagID)
               (applyDelete o c) in ret (Some r, None)) w.
Proof.
  destruct (EnsureOwnershipTag_known c base "v1" tagID (pw_service w) eq_refl known) as [HE _].
  assert (onP (EnsureOwnershipTag c "v1") w = (w, Ret tagID)) as HT.
  { rewrite (onP_ok _ _ _ _ HE). by destruct w. }
  unfold Apply. by rewrite (bind_attempt_ret _ _ _ _ _ HT).
Qed.

Section part.
Context {R A : Type} `{FromJSON R} `{ToJSON R} (o : RangeOrder).
Context (k : PKind R A) (rt : string) (payload : A → Payload) (setID : Z → R → R) (stored : Z → A → R)
  (equal : A → A → bool) (ok : A → Prop) `{!PKindLaws k tagID setID stored equal ok}.
Context (view : S → gmap Z R) (others : list string).
Context `{!LawsAt c "/api/v1/" (kindCollection k setID view) others}.
Context (plain : plainName (pk_collection k) = true).
Hypothesis creates : ∀ n x, applyCreate o c (mkChange rt n None (payload x)) tagID = createResource k c x tagID.
Hypothesis updates : ∀ n x, applyUpdate o c (mkChange rt n None (payload x)) tagID = updateResource k c x tagID.
Hypothesis deletes : ∀ n, applyDelete o c (mkChange rt n None PNil) = removeResource k c n.

Definition managedPart : Managed R A (PWorld S) (kindOps k rt payload equal) :=
  managedKind k c tagID rt payload stored equal ok view
    (λ ch, applyCreate o c ch tagID) (λ ch, applyUpdate o c ch tagID) (applyDelete o c).

#[local] Instance managedPart_laws : ManagedLaws managedPart.
Proof. apply (managedKind_laws k c tagID rt payload setID stored equal ok base view); done || apply _. Qed.

(** Changes of other kinds leave this one alone. *)
Context (otherTypes : list string).
Abbreviation theirs := (λ ch, ch_ResourceType ch ∈ otherTypes).

Definition changesForeign (d : ChangeSet) : Prop :=
  Forall (foreign managedPart theirs (mg_create managedPart)) (cs_Creates d) ∧
  Forall (foreign managedPart theirs (mg_update managedPart)) (cs_Updates d) ∧
  Forall (foreign managedPart theirs (mg_delete managedPart)) (cs_Deletes d).

Lemma changesForeign_empty : changesForeign emptyChangeSet.
Proof. split_and!; apply Forall_nil_2. Qed.

Lemma changesForeign_join a b : changesForeign a → changesForeign b → changesForeign (joinChanges a b).
Proof. intros (? & ? & ?) (? & ? & ?). split_and!; by apply Forall_app. Qed.

Lemma sameKind_sameView {B} (f : MP B) : steps (sameKind view (pk_cache k)) f → steps (sameView managedPart) f.
Proof.
  intros Hf w. destruct (Hf w) as [[HV HC] Hn]. split; [|done]. split; [exact HV|].
  simpl. intros Hinv i r. rewrite HV, HC. apply Hinv.
Qed.

Lemma foreign_diff {R' A'} `{FromJSON R'} `{ToJSON R'} (k' : PKind R' A') rt' payload' equal' o' current desired :
  (∀ n x, applyCreate o c (mkChange rt' n None (payload' x)) tagID = createResource k' c x tagID) →
  (∀ n x, applyUpdate o c (mkChange rt' n None (payload' x)) tagID = updateResource k' c x tagID) →
  (∀ n, applyDelete o c (mkChange rt' n None PNil) = removeResource k' c n) →
  pk_cache k' ≠ pk_cache k → pk_collection k' ∈ others → rt' ∈ otherTypes →
  changesForeign (diffNamed (namedOps rt' (pk_irName k') equal' payload') o' current desired emptyChangeSet).
Proof.
  intros Hc Hu Hd Hkd Hq Hrt.
  pose proof (@col_get _ _ c _ _ _ _ _ _ : ∀ p, harmless (λ s s', view s' = view s) c "GET" p) as Hget.
  pose proof (@col_others _ _ c _ _ _ _ _ _ _ Hq : quietAt (λ s s', view s' = view s) c "/api/v1/" (pk_collection k')) as Hquiet.
  split_and!; apply Forall_forall; intros ch.
  - intros [?%not_elem_of_nil|(n & d & _ & _ & ->)]%elem_of_creates; [done|]. split; [done|]. simpl.
    rewrite Hc. by apply sameKind_sameView, steps_createResource.
  - intros [?%not_elem_of_nil|(n & cur & d & _ & _ & _ & ->)]%elem_of_updates; [done|]. split; [done|]. simpl.
    rewrite Hu. by apply sameKind_sameView, steps_updateResource.
  - intros [?%not_elem_of_nil|(n & cur & _ & _ & ->)]%elem_of_deletes; [done|]. split; [done|]. simpl.
    rewrite Hd. by apply sameKind_sameView, steps_removeResource.
Qed.

Context (part : ProwlarrIR → list A) (j : nat).

Definition splits : Prop := ∀ od current desired, ∃ pre post,
  partsDiff od current desired =
    joinChanges pre (joinChanges (diffNamed (kindOps k rt payload equal) (od j) (part current) (part desired) emptyChangeSet) post) ∧
  changesForeign pre ∧ changesForeign post.

Lemma prowlarr_part_applies od current desired l w :
  splits → sound managedPart w → listing (view (pw_service w)) l →
  part current = managedIR managedPart l → Forall ok (part desired) →
  ∃ w' r, Apply o conn (partsDiff od current desired) w = (w', Ret (Some r, None)) ∧
    ar_Failed r = Z.of_nat (length (ar_Errors r)) ∧
    (∀ e, e ∈ ar_Errors r → ch_ResourceType (ae_Change e) ∈ otherTypes) ∧
    sound managedPart w' ∧ unmanagedKept managedPart (view (pw_service w)) (view (pw_service w')) ∧
    ∀ l', listing (view (pw_service w')) l' → inSync (kindOps k rt payload equal) (managedIR managedPart l') (part desired).
Proof.
  intros Hs Hw Hl Hp Hok. destruct (Hs od current desired) as (pre & post & -> & Hpre & Hpost).
  destruct (converge managedPart theirs (od j) w l (part desired) (joinChanges pre (joinChanges
    (diffNamed (kindOps k rt payload equal) (od j) (part current) (part desired) emptyChangeSet) post)))
    as (w2 & r & EA & (errs & Herrs & Hfail & _ & Hth) & Hw2 & Hkeep & Hsync); [done..| |].
  - unfold ownChanges. rewrite <-Hp. destruct Hpre as (? & ? & ?), Hpost as (? & ? & ?).
    split_and!; eexists _, _; simpl; eauto.
  - exists w2, r. rewrite app_nil_l in Herrs. split_and!; [|by rewrite Hfail, Herrs|by rewrite Herrs|done..].
    rewrite prowlarr_Apply_known. by rewrite (bind_ok _ _ _ _ _ EA).
Qed.
End part.

(** *** The four kinds together *)

Context (o : RangeOrder).
Definition indexerParts view := managedPart o (indexerKind o) ResourceIndexer PProwlarrIndexer
  (storedPIndexer o tagID) indexersEqual indexerOk view.
Definition proxyParts view := managedPart o proxyKind ResourceIndexerProxy PIndexerProxy
  (storedProxy tagID) proxiesEqual proxyBoundedOk view.
Definition applicationParts view := managedPart o applicationKind ResourceApplication PProwlarrApplication
  (storedApplication tagID) applicationsEqual applicationOk view.
Definition clientParts view := managedPart o clientKind ResourceDownloadClient PDownloadClient
  (storedPClient tagID) downloadClientsEqual clientOk view.

Definition pAllCollections : list string := ["indexer"; "indexerproxy"; "applications"; "downloadclient"].
Definition pOtherThan (name : string) : list string := filter (λ n, n ≠ name) pAllCollections.
Definition pOtherTypes (rt : string) : list string :=
  filter (λ n, n ≠ rt) [ResourceIndexer; ResourceIndexerProxy; ResourceApplication; ResourceDownloadClient].

Record Views := mkViews {
  v_indexers : S → gmap Z PIndexerResource;
  v_proxies : S → gmap Z PProxyResource;
  v_applications : S → gmap Z PApplicationResource;
  v_clients : S → gmap Z PClientResource }.

(** The contract of Prowlarr: that of its four collections. *)
Class ProwlarrLaws (v : Views) : Prop := {
  laws_indexers :: LawsAt c "/api/v1/" (kindCollection (indexerKind o) pir_set_ID (v_indexers v)) (pOtherThan "indexer");
  laws_proxies :: LawsAt c "/api/v1/" (kindCollection proxyKind ppr_set_ID (v_proxies v)) (pOtherThan "indexerproxy");
  laws_applications :: LawsAt c "/api/v1/" (kindCollection applicationKind par_set_ID (v_applications v))
    (pOtherThan "applications");
  laws_clients :: LawsAt c "/api/v1/" (kindCollection clientKind pcr_set_ID (v_clients v)) (pOtherThan "downloadclient") }.

Context (v : Views) `{!ProwlarrLaws v}.
Abbreviation mi := (indexerParts (v_indexers v)).
Abbreviation mp := (proxyParts (v_proxies v)).
Abbreviation ma := (applicationParts (v_applications v)).
Abbreviation mc := (clientParts (v_clients v)).

(** The changes of another kind are foreign. *)
Ltac foreign_part other :=
  eapply foreign_diff with (k' := other);
  [typeclasses eauto|reflexivity|reflexivity|reflexivity|discriminate
  |refine (bool_decide_eq_true_1 _ _); vm_compute; reflexivity..].
Ltac foreign_parts :=
  repeat apply changesForeign_join;
  lazymatch goal with
  | |- context [diffIndexers _ _ _ _] => foreign_part (indexerKind o)
  | |- context [diffProxies _ _ _ _] => foreign_part proxyKind
  | |- context [diffApplications _ _ _ _] => foreign_part applicationKind
  | |- context [diffDownloadClients _ _ _ _] => let kind := constr:(clientKind) in foreign_part kind
  | |- _ => apply changesForeign_empty
  end.

Lemma indexers_split : splits o (indexerKind o) ResourceIndexer PProwlarrIndexer (storedPIndexer o tagID)
  indexersEqual indexerOk (v_indexers v) (pOtherTypes ResourceIndexer) pr_Indexers 0%nat.
Proof.
  intros od cur des. exists emptyChangeSet, (joinChanges (joinChanges
    (diffProxies (od 1%nat) cur des emptyChangeSet) (diffApplications (od 2%nat) cur des emptyChangeSet))
    (diffDownloadClients (od 3%nat) cur des emptyChangeSet)).
  split_and!; [unfold partsDiff; by rewrite !joinChanges_assoc, joinChanges_empty_l|foreign_parts..].
Qed.

Lemma proxies_split : splits o proxyKind ResourceIndexerProxy PIndexerProxy (storedProxy tagID)
  proxiesEqual proxyBoundedOk (v_proxies v) (pOtherTypes ResourceIndexerProxy) pr_Proxies 1%nat.
Proof.
  intros od cur des. exists (diffIndexers (od 0%nat) cur des emptyChangeSet), (joinChanges
    (diffApplications (od 2%nat) cur des emptyChangeSet) (diffDownloadClients (od 3%nat) cur des emptyChangeSet)).
  split_and!; [unfold partsDiff; by rewrite !joinChanges_assoc|foreign_parts..].
Qed.

Lemma applications_split : splits o applicationKind ResourceApplication PProwlarrApplication (storedApplication tagID)
  applicationsEqual applicationOk (v_applications v) (pOtherTypes ResourceApplication) pr_Applications 2%nat.
Proof.
  intros od cur des. exists (joinChanges (diffIndexers (od 0%nat) cur des emptyChangeSet)
    (diffProxies (od 1%nat) cur des emptyChangeSet)), (diffDownloadClients (od 3%nat) cur des emptyChangeSet).
  split_and!; [unfold partsDiff; by rewrite !joinChanges_assoc|foreign_parts..].
Qed.

Lemma clients_split : splits o clientKind ResourceDownloadClient PDownloadClient (storedPClient tagID)
  downloadClientsEqual clientOk (v_clients v) (pOtherTypes ResourceDownloadClient) pr_DownloadClients 3%nat.
Proof.
  intros od cur des. exists (joinChanges (joinChanges (diffIndexers (od 0%nat) cur des emptyChangeSet)
    (diffProxies (od 1%nat) cur des emptyChangeSet)) (diffApplications (od 2%nat) cur des emptyChangeSet)), emptyChangeSet.
  split_and!; [unfold partsDiff; by rewrite joinChanges_empty_r|foreign_parts..].
Qed.

(** Reading a kind: its managed resources are listed, its cache is filled, and the
    other kinds are as they were. *)
Definition allWellFormed (s : S) : Prop :=
  wellFormed mi (v_indexers v s) ∧ wellFormed mp (v_proxies v s) ∧ wellFormed ma (v_applications v s) ∧
  wellFormed mc (v_clients v s).

Lemma orNone_ok {A} (m : MP (list A)) w w' l : m w = (w', Ret l) → orNone m w = (w', Ret l).
Proof. intros E. unfold orNone. by rewrite (bind_attempt_ret _ _ _ _ _ E). Qed.

Lemma coherent_kept {R A R' A'} `{FromJSON R} `{FromJSON R'} `{ToJSON R'} (k : PKind R A) (k' : PKind R' A') view w w' l :
  pk_cache k' ≠ pk_cache k → getManaged k' c tagID w = (w', Ret l) → pw_service w' = pw_service w →
  coherent k c tagID view w → coherent k c tagID view w'.
Proof.
  intros Hne E Hs Hc. destruct (steps_getManaged c (λ _ : S, ∅ : gmap Z R) (pk_cache k) k' tagID Hne (λ _ _ _, eq_refl)) with w
    as [[_ HC] _]. rewrite E in HC. simpl in HC.
  intros i r. rewrite Hs, HC. apply Hc.
Qed.

Lemma CurrentState_parts now w : allWellFormed (pw_service w) → ∃ w' li lp la lc,
  CurrentState o now conn w = (w', Ret (prowlarrIR now conn
    (mkProwlarrIR (Some conn) (managedIR mi li) (managedIR mp lp) (managedIR ma la) (managedIR mc lc) []))) ∧
  pw_service w' = pw_service w ∧
  (listing (v_indexers v (pw_service w)) li ∧ coherent (indexerKind o) c tagID (v_indexers v) w') ∧
  (listing (v_proxies v (pw_service w)) lp ∧ coherent proxyKind c tagID (v_proxies v) w') ∧
  (listing (v_applications v (pw_service w)) la ∧ coherent applicationKind c tagID (v_applications v) w') ∧
  (listing (v_clients v (pw_service w)) lc ∧ coherent clientKind c tagID (v_clients v) w').
Proof.
  intros (Wi & Wp & Wa & Wc).
  destruct (getManaged_reads (indexerKind o) c tagID ResourceIndexer PProwlarrIndexer pir_set_ID (storedPIndexer o tagID)
    indexersEqual indexerOk base (v_indexers v) _ _ _ eq_refl w Wi) as (w1 & li & E1 & L1 & S1 & C1).
  rewrite <-S1 in Wp.
  destruct (getManaged_reads proxyKind c tagID ResourceIndexerProxy PIndexerProxy ppr_set_ID (storedProxy tagID)
    proxiesEqual proxyBoundedOk base (v_proxies v) _ _ _ eq_refl w1 Wp) as (w2 & lp & E2 & L2 & S2 & C2).
  rewrite <-S1, <-S2 in Wa.
  destruct (getManaged_reads applicationKind c tagID ResourceApplication PProwlarrApplication par_set_ID
    (storedApplication tagID) applicationsEqual applicationOk base (v_applications v) _ _ _ eq_refl w2 Wa)
    as (w3 & la & E3 & L3 & S3 & C3).
  rewrite <-S1, <-S2, <-S3 in Wc.
  destruct (getManaged_reads clientKind c tagID ResourceDownloadClient PDownloadClient pcr_set_ID (storedPClient tagID)
    downloadClientsEqual clientOk base (v_clients v) _ _ _ eq_refl w3 Wc) as (w4 & lc & E4 & L4 & S4 & C4).
  exists w4, li, lp, la, lc. split.
  { unfold CurrentState. rewrite (bind_attempt_ret _ _ _ _ _ (prowlarr_getOwnershipTagID_known w)).
    rewrite (bind_ok _ _ _ _ _ (orNone_ok _ _ _ _ E1)), (bind_ok _ _ _ _ _ (orNone_ok _ _ _ _ E2)),
      (bind_ok _ _ _ _ _ (orNone_ok _ _ _ _ E3)), (bind_ok _ _ _ _ _ (orNone_ok _ _ _ _ E4)). reflexivity. }
  split; [congruence|].
  assert (pw_service w3 = pw_service w2) as T3 by congruence.
  split_and!; try (congruence || by rewrite <-?S1, <-?S2, <-?S3).
  - eapply (coherent_kept _ clientKind); [|exact E4|done|]; [done|].
    eapply (coherent_kept _ applicationKind); [|exact E3|done|]; [done|].
    by eapply (coherent_kept _ proxyKind); [|exact E2|done|].
  - eapply (coherent_kept _ clientKind); [|exact E4|done|]; [done|].
    by eapply (coherent_kept _ applicationKind); [|exact E3|done|].
  - by eapply (coherent_kept _ clientKind); [|exact E4|done|].
Qed.

(** Applying the diff of a state that was read, kind by kind. *)
Lemma indexers_apply od cur d l w :
  coherent (indexerKind o) c tagID (v_indexers v) w → wellFormed mi (v_indexers v (pw_service w)) →
  listing (v_indexers v (pw_service w)) l → pr_Indexers cur = managedIR mi l → Forall indexerOk (pr_Indexers d) →
  ∃ w' r, Apply o conn (partsDiff od cur d) w = (w', Ret (Some r, None)) ∧
    ar_Failed r = Z.of_nat (length (ar_Errors r)) ∧
    (∀ e, e ∈ ar_Errors r → ch_ResourceType (ae_Change e) ∈ pOtherTypes ResourceIndexer) ∧
    sound mi w' ∧ unmanagedKept mi (v_indexers v (pw_service w)) (v_indexers v (pw_service w')) ∧
    ∀ l', listing (v_indexers v (pw_service w')) l' → inSync pindexerOps (managedIR mi l') (pr_Indexers d).
Proof.
  intros Hc Hw. eapply prowlarr_part_applies with (k := indexerKind o) (setID := pir_set_ID) (others := pOtherThan "indexer");
    [apply _|apply _|reflexivity|reflexivity|reflexivity|reflexivity| |by split].
  apply indexers_split.
Qed.

Lemma proxies_apply od cur d l w :
  coherent (proxyKind) c tagID (v_proxies v) w → wellFormed mp (v_proxies v (pw_service w)) →
  listing (v_proxies v (pw_service w)) l → pr_Proxies cur = managedIR mp l → Forall proxyBoundedOk (pr_Proxies d) →
  ∃ w' r, Apply o conn (partsDiff od cur d) w = (w', Ret (Some r, None)) ∧
    ar_Failed r = Z.of_nat (length (ar_Errors r)) ∧
    (∀ e, e ∈ ar_Errors r → ch_ResourceType (ae_Change e) ∈ pOtherTypes ResourceIndexerProxy) ∧
    sound mp w' ∧ unmanagedKept mp (v_proxies v (pw_service w)) (v_proxies v (pw_service w')) ∧
    ∀ l', listing (v_proxies v (pw_service w')) l' → inSync proxyOps (managedIR mp l') (pr_Proxies d).
Proof.
  intros Hc Hw. eapply prowlarr_part_applies with (k := proxyKind) (setID := ppr_set_ID) (others := pOtherThan "indexerproxy");
    [apply _|apply _|reflexivity|reflexivity|reflexivity|reflexivity| |by split].
  apply proxies_split.
Qed.

Lemma applications_apply od cur d l w :
  coherent (applicationKind) c tagID (v_applications v) w → wellFormed ma (v_applications v (pw_service w)) →
  listing (v_applications v (pw_service w)) l → pr_Applications cur = managedIR ma l → Forall applicationOk (pr_Applications d) →
  ∃ w' r, Apply o conn (partsDiff od cur d) w = (w', Ret (Some r, None)) ∧
    ar_Failed r = Z.of_nat (length (ar_Errors r)) ∧
    (∀ e, e ∈ ar_Errors r → ch_ResourceType (ae_Change e) ∈ pOtherTypes ResourceApplication) ∧
    sound ma w' ∧ unmanagedKept ma (v_applications v (pw_service w)) (v_applications v (pw_service w')) ∧
    ∀ l', listing (v_applications v (pw_service w')) l' → inSync applicationOps (managedIR ma l') (pr_Applications d).
Proof.
  intros Hc Hw. eapply prowlarr_part_applies with (k := applicationKind) (setID := par_set_ID) (others := pOtherThan "applications");
    [apply _|apply _|reflexivity|reflexivity|reflexivity|reflexivity| |by split].
  apply applications_split.
Qed.

Lemma clients_apply od cur d l w :
  coherent (clientKind) c tagID (v_clients v) w → wellFormed mc (v_clients v (pw_service w)) →
  listing (v_clients v (pw_service w)) l → pr_DownloadClients cur = managedIR mc l → Forall clientOk (pr_DownloadClients d) →
  ∃ w' r, Apply o conn (partsDiff od cur d) w = (w', Ret (Some r, None)) ∧
    ar_Failed r = Z.of_nat (length (ar_Errors r)) ∧
    (∀ e, e ∈ ar_Errors r → ch_ResourceType (ae_Change e) ∈ pOtherTypes ResourceDownloadClient) ∧
    sound mc w' ∧ unmanagedKept mc (v_clients v (pw_service w)) (v_clients v (pw_service w')) ∧
    ∀ l', listing (v_clients v (pw_service w')) l' → inSync pclientOps (managedIR mc l') (pr_DownloadClients d).
Proof.
  intros Hc Hw. eapply prowlarr_part_applies with (k := clientKind) (setID := pcr_set_ID) (others := pOtherThan "downloadclient");
    [apply _|apply _|reflexivity|reflexivity|reflexivity|reflexivity| |by split].
  apply clients_split.
Qed.

(** One sync, and what the next one reads. *)
Lemma sync_parts now od desired d w :
  ir_Prowlarr desired = Some d → allWellFormed (pw_service w) →
  Forall indexerOk (pr_Indexers d) → Forall proxyBoundedOk (pr_Proxies d) →
  Forall applicationOk (pr_Applications d) → Forall clientOk (pr_DownloadClients d) →
  ∃ w1 cur w2 r, CurrentState o now conn w = (w1, Ret cur) ∧ pw_service w1 = pw_service w ∧
    Apply o conn (prowlarrDiff od cur desired) w1 = (w2, Ret (Some r, None)) ∧ ar_Failed r = 0 ∧ ar_Errors r = [] ∧
    allWellFormed (pw_service w2) ∧
    unmanagedKept mi (v_indexers v (pw_service w)) (v_indexers v (pw_service w2)) ∧
    unmanagedKept mp (v_proxies v (pw_service w)) (v_proxies v (pw_service w2)) ∧
    unmanagedKept ma (v_applications v (pw_service w)) (v_applications v (pw_service w2)) ∧
    unmanagedKept mc (v_clients v (pw_service w)) (v_clients v (pw_service w2)) ∧
    (∀ l, listing (v_indexers v (pw_service w2)) l → inSync pindexerOps (managedIR mi l) (pr_Indexers d)) ∧
    (∀ l, listing (v_proxies v (pw_service w2)) l → inSync proxyOps (managedIR mp l) (pr_Proxies d)) ∧
    (∀ l, listing (v_applications v (pw_service w2)) l → inSync applicationOps (managedIR ma l) (pr_Applications d)) ∧
    (∀ l, listing (v_clients v (pw_service w2)) l → inSync pclientOps (managedIR mc l) (pr_DownloadClients d)).
Proof.
  intros Hd Hwf Oi Op Oa Oc.
  destruct (CurrentState_parts now w Hwf) as (w1 & li & lp & la & lc & E & Hs & [Li Ci] & [Lp Cp] & [La Ca] & [Lc Cc]).
  rewrite <-Hs in Li, Lp, La, Lc, Hwf. destruct Hwf as (Wi & Wp & Wa & Wc).
  set (p := mkProwlarrIR (Some conn) (managedIR mi li) (managedIR mp lp) (managedIR ma la) (managedIR mc lc) []) in *.
  destruct (indexers_apply od p d li w1) as (w2 & r & EA & Hfail & Ei & [_ Wi2] & Ki & Si); [done..|].
  destruct (proxies_apply od p d lp w1) as (w2' & r' & EA' & _ & Ep & [_ Wp2] & Kp & Sp); [done..|].
  rewrite EA in EA'. injection EA' as <- <-.
  destruct (applications_apply od p d la w1) as (w2' & r' & EA' & _ & Ea & [_ Wa2] & Ka & Sa); [done..|].
  rewrite EA in EA'. injection EA' as <- <-.
  destruct (clients_apply od p d lc w1) as (w2' & r' & EA' & _ & Ec & [_ Wc2] & Kc & Sc); [done..|].
  rewrite EA in EA'. injection EA' as <- <-.
  assert (ar_Errors r = []) as Herr.
  { destruct (ar_Errors r) as [|e l]; [done|]. exfalso.
    specialize (Ei e); specialize (Ep e); specialize (Ea e); specialize (Ec e).
    unfold pOtherTypes in *. rewrite !list_elem_of_filter in *. set_unfold. naive_solver. }
  eexists w1, _, w2, r. split; [exact E|]. split; [done|].
  rewrite (prowlarrDiff_parts od _ _ p d) by done. split_and!; try done.
  - by rewrite Hfail, Herr.
  - by rewrite <-Hs.
  - by rewrite <-Hs.
  - by rewrite <-Hs.
  - by rewrite <-Hs.
Qed.
End sync.

(** ** Theorems *)

Section theorems.
Context {S : Type} `{Service S} `{UnicodeTables} `{TimeFormat}.
Context (conn : ConnectionIR) (tagID : Z) (base : plainBase (newClient conn)).
Context (known : tagKnownAt (newClient conn) "v1" tagID).

(** The resources without the ownership tag are the same. *)
Definition userResourcesKept (v : Views) (s s' : S) : Prop :=
  (∀ i r, HasTag (pir_Tags r) tagID = false → v_indexers v s !! i = Some r ↔ v_indexers v s' !! i = Some r) ∧
  (∀ i r, HasTag (ppr_Tags r) tagID = false → v_proxies v s !! i = Some r ↔ v_proxies v s' !! i = Some r) ∧
  (∀ i r, HasTag (par_Tags r) tagID = false → v_applications v s !! i = Some r ↔ v_applications v s' !! i = Some r) ∧
  (∀ i r, HasTag (pcr_Tags r) tagID = false → v_clients v s !! i = Some r ↔ v_clients v s' !! i = Some r).

(** Every resource asked for reads back as it was sent. *)
Definition desiredReadsBack (d : ProwlarrIR) : Prop :=
  Forall indexerOk (pr_Indexers d) ∧ Forall proxyBoundedOk (pr_Proxies d) ∧
  Forall applicationOk (pr_Applications d) ∧ Forall clientOk (pr_DownloadClients d).

(** The sync, step by step. *)
Lemma sync_steps now (od : nat → RangeOrder) (v : Views) `{!ProwlarrLaws conn (od 4%nat) v} desired d (w : PWorld S) :
  ir_Prowlarr desired = Some d → desiredReadsBack d → allWellFormed conn tagID (od 4%nat) v (pw_service w) →
  ∃ w1 cur w2 r w3 current, CurrentState (od 0%nat) now conn w = (w1, Ret cur) ∧
    Apply (od 4%nat) conn (prowlarrDiff od cur desired) w1 = (w2, Ret (Some r, None)) ∧ Success r = true ∧
    allWellFormed conn tagID (od 4%nat) v (pw_service w2) ∧
    userResourcesKept v (pw_service w) (pw_service w2) ∧
    CurrentState (od 0%nat) now conn w2 = (w3, Ret current) ∧
    ∀ od', IsEmpty (prowlarrDiff od' current desired) = true.
Proof.
  intros Hd (Oi & Op & Oa & Oc) Hwf.
  destruct (sync_parts conn tagID base known (od 4%nat) v now od desired d w)
    as (w1 & cur & w2 & r & E1 & _ & E2 & Hf & He & Hwf2 & Ki & Kp & Ka & Kc & Si & Sp & Sa & Sc); [done..|].
  destruct (CurrentState_parts conn tagID base known (od 4%nat) v now w2 Hwf2)
    as (w3 & li & lp & la & lc & E3 & _ & [Li _] & [Lp _] & [La _] & [Lc _]).
  eexists w1, cur, w2, r, w3, _. split; [exact E1|]. split; [done|]. split; [unfold Success; by rewrite Hf, He|].
  split; [done|]. split; [by split_and!|]. split; [exact E3|].
  intros od'. unfold prowlarrDiff. rewrite Hd. cbn [ir_Prowlarr prowlarrIR default].
  unfold diffDownloadClients, diffApplications, diffProxies, diffIndexers.
  rewrite !diffNamed_empty_iff. split_and!; [done|by apply Si|by apply Sp|by apply Sa|by apply Sc].
Qed.

(** C7: A sync of Prowlarr converges when everything that is asked for reads back as it
    was sent.  That is: no setting of an indexer is named [baseUrl] or [apiKey]; a proxy
    of FlareSolverr has neither port nor user, and any other has no request timeout, as
    Prowlarr keeps the timeout of FlareSolverr only (an HTTP or SOCKS proxy with one never
    settles, see [proxy_timeout_never_settles]); an application is of a known type with
    the categories it syncs; the implementation of a client is one Prowlarr has; and the
    numbers are those of a float64.  Then, against the documented contract of the four
    collections, whatever the ID caches hold when it starts, with the tag in place and the
    names of managed resources distinct: every change succeeds, the next diff is empty,
    and the resources without the ownership tag are the ones that were there before. *)
Theorem sync_prowlarr now (od : nat → RangeOrder) (v : Views) `{!ProwlarrLaws conn (od 4%nat) v} desired d (w : PWorld S) :
  ir_Prowlarr desired = Some d → desiredReadsBack d → allWellFormed conn tagID (od 4%nat) v (pw_service w) →
  ∃ w2 r w3 current, prowlarrSync now od conn desired w = (w2, Ret (Some r, None)) ∧ Success r = true ∧
    allWellFormed conn tagID (od 4%nat) v (pw_service w2) ∧
    userResourcesKept v (pw_service w) (pw_service w2) ∧
    CurrentState (od 0%nat) now conn w2 = (w3, Ret current) ∧
    ∀ od', IsEmpty (prowlarrDiff od' current desired) = true.
Proof.
  intros Hd Hok Hwf.
  destruct (sync_steps now od v desired d w Hd Hok Hwf) as (w1 & cur & w2 & r & w3 & current & E1 & E2 & Hrest).
  exists w2, r, w3, current. split; [|done]. unfold prowlarrSync. by rewrite (bind_ok _ _ _ _ _ E1).
Qed.
End theorems.

(** ** A service with four collections, for the witnesses *)

Module ProwlarrMini.
Import MiniServer.

#[local] Instance noTimes : TimeFormat := λ _, None.
#[local] Instance asciiTables : UnicodeTables := id.

Lemma prowlarr_decodes_indexer doc r i : fromJSON doc = Some r → fromJSON (assignID i doc) = Some (pir_set_ID i r).
Proof. revert doc r i. decodes_with_id ltac:(unfold FromJSON_PIndexerResource). Qed.
Lemma decodes_proxy doc r i : fromJSON doc = Some r → fromJSON (assignID i doc) = Some (ppr_set_ID i r).
Proof. revert doc r i. decodes_with_id ltac:(unfold FromJSON_PProxyResource). Qed.
Lemma decodes_application doc r i : fromJSON doc = Some r → fromJSON (assignID i doc) = Some (par_set_ID i r).
Proof. revert doc r i. decodes_with_id ltac:(unfold FromJSON_PApplicationResource). Qed.
Lemma prowlarr_decodes_client doc r i : fromJSON doc = Some r → fromJSON (assignID i doc) = Some (pcr_set_ID i r).
Proof. revert doc r i. decodes_with_id ltac:(unfold FromJSON_PClientResource). Qed.

Abbreviation mini R name := (MiniService (R := R) "/api/v1/" name 7).
Abbreviation Docs := (gmap Z any).

Definition under (prefixes : list string) (c : Client) (url : string) : bool :=
  existsb (λ p, HasPrefix url (c_BaseURL c +:+ p)) prefixes.
Definition noFront (c : Client) (rq : Request) : option Response := None.

Definition indexerSide : Service (Docs * Docs) :=
  PairService (mini PIndexerResource "indexer") (mini PProxyResource "indexerproxy")
    noFront (under ["/api/v1/indexerproxy"]).
Definition applicationSide : Service (Docs * Docs) :=
  PairService (mini PApplicationResource "applications") (mini PClientResource "downloadclient")
    noFront (under ["/api/v1/downloadclient"]).
Definition exampleProwlarr : Service ((Docs * Docs) * (Docs * Docs)) :=
  PairService indexerSide applicationSide (statusFront "/api/v1/system/status")
    (under ["/api/v1/applications"; "/api/v1/downloadclient"]).

Definition exampleViews : Views := {|
  v_indexers s := view (R := PIndexerResource) s.1.1;
  v_proxies s := view (R := PProxyResource) s.1.2;
  v_applications s := view (R := PApplicationResource) s.2.1;
  v_clients s := view (R := PClientResource) s.2.2 |}.

Ltac paths_differ :=
  apply Forall_forall; intros other Ho i j; unfold pOtherThan, pAllCollections in Ho; set_unfold in Ho;
  destruct_or! Ho; subst other; split_and!; discriminate.

(** A request goes to the side its path says. *)
Ltac goes :=
  intros; intros method body; split; [reflexivity || by apply statusFront_none|]; unfold under; cbn [existsb]; by rewrite ?HasPrefix_app.

Lemma indexers_laws c : @LawsAt _ exampleProwlarr c "/api/v1/" _ _
  (mkCollection "/api/v1/" "indexer" (v_indexers exampleViews) pir_set_ID) (pOtherThan "indexer").
Proof.
  pose proof (laws_at (R := PIndexerResource) "/api/v1/" "indexer" pir_set_ID prowlarr_decodes_indexer 7 c (pOtherThan "indexer") ltac:(done)
    ltac:(paths_differ)) as L.
  apply (pair_left_laws (mini PIndexerResource "indexer") (mini PProxyResource "indexerproxy")
    noFront (under ["/api/v1/indexerproxy"])) in L; [|goes..].
  apply (pair_left_laws indexerSide applicationSide (statusFront "/api/v1/system/status")
    (under ["/api/v1/applications"; "/api/v1/downloadclient"])) in L; [exact L|goes..].
Qed.

Lemma proxies_laws c : @LawsAt _ exampleProwlarr c "/api/v1/" _ _
  (mkCollection "/api/v1/" "indexerproxy" (v_proxies exampleViews) ppr_set_ID) (pOtherThan "indexerproxy").
Proof.
  pose proof (laws_at (R := PProxyResource) "/api/v1/" "indexerproxy" ppr_set_ID decodes_proxy 7 c (pOtherThan "indexerproxy") ltac:(done)
    ltac:(paths_differ)) as L.
  apply (pair_right_laws (mini PIndexerResource "indexer") (mini PProxyResource "indexerproxy")
    noFront (under ["/api/v1/indexerproxy"])) in L; [|goes..].
  apply (pair_left_laws indexerSide applicationSide (statusFront "/api/v1/system/status")
    (under ["/api/v1/applications"; "/api/v1/downloadclient"])) in L; [exact L|goes..].
Qed.

Lemma applications_laws c : @LawsAt _ exampleProwlarr c "/api/v1/" _ _
  (mkCollection "/api/v1/" "applications" (v_applications exampleViews) par_set_ID) (pOtherThan "applications").
Proof.
  pose proof (laws_at (R := PApplicationResource) "/api/v1/" "applications" par_set_ID decodes_application 7 c (pOtherThan "applications") ltac:(done)
    ltac:(paths_differ)) as L.
  apply (pair_left_laws (mini PApplicationResource "applications") (mini PClientResource "downloadclient")
    noFront (under ["/api/v1/downloadclient"])) in L; [|goes..].
  apply (pair_right_laws indexerSide applicationSide (statusFront "/api/v1/system/status")
    (under ["/api/v1/applications"; "/api/v1/downloadclient"])) in L; [exact L|goes..].
Qed.

Lemma clients_laws c : @LawsAt _ exampleProwlarr c "/api/v1/" _ _
  (mkCollection "/api/v1/" "downloadclient" (v_clients exampleViews) pcr_set_ID) (pOtherThan "downloadclient").
Proof.
  pose proof (laws_at (R := PClientResource) "/api/v1/" "downloadclient" pcr_set_ID prowlarr_decodes_client 7 c (pOtherThan "downloadclient") ltac:(done)
    ltac:(paths_differ)) as L.
  apply (pair_right_laws (mini PApplicationResource "applications") (mini PClientResource "downloadclient")
    noFront (under ["/api/v1/downloadclient"])) in L; [|goes..].
  apply (pair_right_laws indexerSide applicationSide (statusFront "/api/v1/system/status")
    (under ["/api/v1/applications"; "/api/v1/downloadclient"])) in L; [exact L|goes..].
Qed.

Lemma exampleProwlarr_laws conn o : @ProwlarrLaws _ exampleProwlarr _ conn o exampleViews.
Proof. split; [apply indexers_laws|apply proxies_laws|apply applications_laws|apply clients_laws]. Qed.

Lemma exampleProwlarr_tag c : @tagKnownAt _ exampleProwlarr c "v1" 7.
Proof.
  intros s.
  destruct (MiniServer.known_tag (R := PIndexerResource) "/api/v1/" "indexer" 7 "v1" c eq_refl s.1.1)
    as (text & doc & tags & i & label & E & H). exists text, doc, tags, i, label. split; [|done].
  unfold exampleProwlarr. rewrite serve_left by goes. unfold indexerSide. rewrite serve_left by goes. rewrite E.
  by destruct s as [[] []].
Qed.

Definition exampleConn : ConnectionIR := mkConnectionIR "http://prowlarr.media:9696" "0123" false.

Lemma prowlarr_exampleConn_plain : plainBase (newClient exampleConn).
Proof. by exists false, "prowlarr.media"%string, "9696"%string. Qed.

Definition exampleIndexer (name : string) : ProwlarrIndexerIR :=
  mkProwlarrIndexerIR name "nzbgeek" true 25 "https://api.nzbgeek.info" "k" {[ "apiPath" := "/api" ]} [].
Definition exampleFlare : IndexerProxyIR :=
  mkIndexerProxyIR "nebularr-flare" ProxyTypeFlareSolverr "http://flare:8191" 0 "" "" 60 [].
Definition exampleApplication : ProwlarrApplicationIR :=
  mkProwlarrApplicationIR "nebularr-tv" AppTypeSonarr "http://prowlarr.media:9696" "http://sonarr:8989" "k"
    [5000; 5040] SyncLevelFullSync [].
Definition exampleClient : DownloadClientIR :=
  mkDownloadClientIR 0 "nebularr-qbit" ProtocolTorrent "qbittorrent" true 1 false false "qbit" 8080 false "u" "p" "tv" "".

Definition exampleDesired : ProwlarrIR :=
  mkProwlarrIR (Some exampleConn) [exampleIndexer "nebularr-geek"] [exampleFlare] [exampleApplication] [exampleClient] [].

(** An indexer of the user's, and a managed one that is no longer desired. *)
Definition userIndexer : PIndexerResource :=
  mkPIndexerResource 1 "mine" "rarbg" "" "" true "" 10 0 [] [] None.
Definition exampleDocs : (Docs * Docs) * (Docs * Docs) :=
  (({[ 1 := toJSON userIndexer;
       2 := toJSON (indexerResource keyOrder 2 (exampleIndexer "nebularr-old") 7) ]}, ∅), (∅, ∅)).

Lemma exampleDesired_readsBack : desiredReadsBack exampleDesired.
Proof.
  split_and!; repeat constructor; try reflexivity; simpl; lia.
Qed.

Lemma exampleDocs_wellFormed :
  @allWellFormed _ exampleProwlarr _ exampleConn 7 keyOrder exampleViews exampleDocs.
Proof. split_and!; apply wellFormed_distinct; evaluates. Qed.
End ProwlarrMini.

Lemma sync_prowlarr_witness :
  let desired := prowlarrIR 0 ProwlarrMini.exampleConn ProwlarrMini.exampleDesired in
  ∃ w2 r, @prowlarrSync _ ProwlarrMini.exampleProwlarr ProwlarrMini.asciiTables 0 (λ _, keyOrder) ProwlarrMini.exampleConn desired
      (initialPWorld ProwlarrMini.exampleDocs) = (w2, Ret (Some r, None)) ∧ Success r = true ∧
    v_indexers ProwlarrMini.exampleViews (pw_service w2) !! 1 = Some ProwlarrMini.userIndexer.
Proof.
  intros desired.
  destruct (@sync_prowlarr _ ProwlarrMini.exampleProwlarr ProwlarrMini.asciiTables ProwlarrMini.exampleConn 7 ProwlarrMini.prowlarr_exampleConn_plain
    (ProwlarrMini.exampleProwlarr_tag _) 0 (λ _, keyOrder) ProwlarrMini.exampleViews
    (ProwlarrMini.exampleProwlarr_laws _ _) desired ProwlarrMini.exampleDesired
    (initialPWorld ProwlarrMini.exampleDocs) eq_refl ProwlarrMini.exampleDesired_readsBack
    ProwlarrMini.exampleDocs_wellFormed) as (w2 & r & _ & _ & H1 & H2 & _ & (H3 & _) & _).
  exists w2, r. split; [exact H1|split; [exact H2|]].
  apply (H3 1 ProwlarrMini.userIndexer eq_refl). vm_compute. reflexivity.
Defined.
