(* ===== verification/Sonarr.v ===== *)
(** * The Sonarr adapter: reading and diffing (src/internal/adapters/sonarr)

    The conversion of Sonarr's resources to the intermediate representation,
    [Connect], [Discover], [CurrentState] and [Diff].  The world of the adapter
    is the service together with the two package variables of the source,
    [managedProfileID] (quality.go) and [namingConfigID] (naming.go). *)
From S2P Require Export Shared.

Record World (S : Type) := mkWorld {
  w_service : S;
  w_managedProfileID : option Z;
  w_namingConfigID : Z }.
Arguments mkWorld {S}.
Arguments w_service {S}.
Arguments w_managedProfileID {S}.
Arguments w_namingConfigID {S}.

(** The package variables as the program starts. *)
Definition initialWorld {S} (s : S) : World S := mkWorld s None 1.

(** A computation on the service alone. *)
Definition onService {S A} (m : M S A) : M (World S) A := λ w,
  let '(s, r) := m (w_service w) in
  (mkWorld s (w_managedProfileID w) (w_namingConfigID w), r).

Definition setManagedProfileID {S} (id : option Z) : M (World S) unit := λ w,
  (mkWorld (w_service w) id (w_namingConfigID w), Ret tt).
Definition setNamingConfigID {S} (id : Z) : M (World S) unit := λ w,
  (mkWorld (w_service w) (w_managedProfileID w) id, Ret tt).

(** ** clients.go, indexers.go *)

Definition clientToIR (dc : DownloadClientResource) : DownloadClientIR :=
  ExtractDownloadClientFields (dcr_Fields dc) {|
    dc_ID := dcr_ID dc;
    dc_Name := dcr_Name dc;
    dc_Protocol := dcr_Protocol dc;
    dc_Implementation := dcr_Implementation dc;
    dc_Enable := dcr_Enable dc;
    dc_Priority := dcr_Priority dc;
    dc_RemoveCompletedDownloads := dcr_RemoveCompletedDownloads dc;
    dc_RemoveFailedDownloads := dcr_RemoveFailedDownloads dc;
    dc_Host := ""; dc_Port := 0; dc_UseTLS := false; dc_Username := ""; dc_Password := "";
    dc_Category := ""; dc_Directory := "" |} ["category"; "tvCategory"].

Definition indexerToIR (idx : IndexerResource) : IndexerIR :=
  ExtractIndexerFields (ixr_Fields idx) {|
    idx_ID := ixr_ID idx;
    idx_Name := ixr_Name idx;
    idx_Protocol := ixr_Protocol idx;
    idx_Implementation := ixr_Implementation idx;
    idx_Enable := ixr_Enable idx;
    idx_Priority := ixr_Priority idx;
    idx_URL := ""; idx_APIKey := ""; idx_Categories := []; idx_MinimumSeeders := 0;
    idx_SeedRatio := float64_zero; idx_SeedTimeMinutes := 0;
    idx_EnableRss := ixr_EnableRss idx;
    idx_EnableAutomaticSearch := ixr_EnableAutomaticSearch idx;
    idx_EnableInteractiveSearch := ixr_EnableInteractiveSearch idx |}.

(** ** quality.go, apply.go: qualities *)

Definition resolveResolution (res : Z) : string :=
  if res =? 2160 then "2160p" else if res =? 1080 then "1080p"
  else if res =? 720 then "720p" else if res =? 480 then "480p" else "unknown".

(** The allowed items of a profile that are single qualities. *)
Definition itemTier (item : QualityProfileItem) : option VideoQualityTierIR :=
  match qi_Quality item with
  | Some q => if qi_Allowed item
              then Some (mkVideoQualityTierIR (resolveResolution (ql_Resolution q)) [ql_Source q] true)
              else None
  | None => None
  end.

Definition profileToIR (p : QualityProfileResource) : VideoQualityIR := {|
  vq_ProfileName := qp_Name p;
  vq_UpgradeAllowed := qp_UpgradeAllowed p;
  vq_Cutoff := zeroVideoQualityTierIR;
  vq_Tiers := omap itemTier (qp_Items p);
  vq_CustomFormats := [];
  vq_FormatScores := ∅;
  vq_MinimumCustomFormatScore := 0;
  vq_UpgradeUntilCustomFormatScore := 0 |}.

(** Whether a profile name follows the naming convention. *)
Definition isManagedProfile (p : QualityProfileResource) : bool :=
  (9 <? Z.of_nat (String.length (qp_Name p))) && String.eqb (stringTake 9 (qp_Name p)) "nebularr-".

(** ** customformats.go *)

Definition specToIR (spec : CustomFormatSpecification) : FormatSpecIR := {|
  fs_Type := cfsr_Implementation spec;
  fs_Name := cfsr_Name spec;
  fs_Negate := cfsr_Negate spec;
  fs_Required := cfsr_Required spec;
  fs_Value := match list_find (λ f, f_Name f = "value") (cfsr_Fields spec) with
              | Some (_, f) => match f_Value f with VString v => v | v => Sprintv v end
              | None => ""
              end |}.

Definition customFormatToIR (cf : CustomFormatResource) : CustomFormatIR := {|
  cf_ID := cfr_ID cf;
  cf_Name := cfr_Name cf;
  cf_IncludeWhenRenaming := cfr_IncludeCustomFormatWhenRenaming cf;
  cf_Specifications := specToIR <$> cfr_Specifications cf |}.

Definition customFormatsEqual (a b : CustomFormatIR) : bool :=
  Bool.eqb (cf_IncludeWhenRenaming a) (cf_IncludeWhenRenaming b) &&
  Nat.eqb (length (cf_Specifications a)) (length (cf_Specifications b)) &&
  forallb (λ ab : FormatSpecIR * FormatSpecIR, let '(specA, specB) := ab in
      String.eqb (fs_Type specA) (fs_Type specB) && String.eqb (fs_Name specA) (fs_Name specB) &&
      Bool.eqb (fs_Negate specA) (fs_Negate specB) && Bool.eqb (fs_Required specA) (fs_Required specB) &&
      String.eqb (fs_Value specA) (fs_Value specB))
    (zip (cf_Specifications a) (cf_Specifications b)).

Definition cf_set_ID (id : Z) (c : CustomFormatIR) : CustomFormatIR :=
  mkCustomFormatIR id (cf_Name c) (cf_IncludeWhenRenaming c) (cf_Specifications c).

Definition sonarrCustomFormatOps : DiffOps CustomFormatIR := {|
  op_key := cf_Name;
  op_equal := customFormatsEqual;
  op_create name d := mkChange ResourceCustomFormat name None (PCustomFormat d);
  op_update name c d :=
    mkChange ResourceCustomFormat name (Some (cf_ID c)) (PCustomFormat (cf_set_ID (cf_ID c) d));
  op_delete name c := mkChange ResourceCustomFormat name (Some (cf_ID c)) PNil |}.

(** ** notifications.go *)

Definition fieldsToMap (fields : list Field) : gmap string any :=
  foldl (λ m f,
    if negb (String.eqb (f_Name f) "") && negb (match f_Value f with VNil => true | _ => false end)
    then <[f_Name f := f_Value f]> m else m) ∅ fields.

Definition notificationToIR (n : NotificationResource) : NotificationIR := {|
  nt_ID := nr_ID n;
  nt_Name := nr_Name n;
  nt_Implementation := nr_Implementation n;
  nt_ConfigContract := nr_ConfigContract n;
  nt_Enabled := true;
  nt_OnGrab := nr_OnGrab n;
  nt_OnDownload := nr_OnDownload n;
  nt_OnUpgrade := nr_OnUpgrade n;
  nt_OnRename := nr_OnRename n;
  nt_OnHealthIssue := nr_OnHealthIssue n;
  nt_OnHealthRestored := nr_OnHealthRestored n;
  nt_OnApplicationUpdate := nr_OnApplicationUpdate n;
  nt_OnManualInteractionRequired := nr_OnManualInteractionRequired n;
  nt_IncludeHealthWarnings := nr_IncludeHealthWarnings n;
  nt_OnMovieAdded := false;
  nt_OnMovieDelete := false;
  nt_OnMovieFileDelete := false;
  nt_OnMovieFileDeleteForUpgrade := false;
  nt_OnSeriesAdd := nr_OnSeriesAdd n;
  nt_OnSeriesDelete := nr_OnSeriesDelete n;
  nt_OnEpisodeFileDelete := nr_OnEpisodeFileDelete n;
  nt_OnEpisodeFileDeleteForUpgrade := nr_OnEpisodeFileDeleteForUpgrade n;
  nt_OnReleaseImport := false;
  nt_OnArtistAdd := false;
  nt_OnArtistDelete := false;
  nt_OnAlbumDelete := false;
  nt_OnTrackRetag := false;
  nt_OnDownloadFailure := false;
  nt_OnImportFailure := false;
  nt_Fields := fieldsToMap (nr_Fields n);
  nt_Tags := nr_Tags n |}.

(** Two maps of fields are equal when they have the same keys and their values
    print alike. *)
Definition fieldsEqual (a b : gmap string any) : bool :=
  Nat.eqb (size a) (size b) &&
  forallb (λ kv : string * any,
    match b !! kv.1 with Some bv => String.eqb (Sprintv kv.2) (Sprintv bv) | None => false end)
    (map_to_list a).

Definition notificationsEqual (a b : NotificationIR) : bool :=
  String.eqb (nt_Implementation a) (nt_Implementation b) &&
  Bool.eqb (nt_OnGrab a) (nt_OnGrab b) && Bool.eqb (nt_OnDownload a) (nt_OnDownload b) &&
  Bool.eqb (nt_OnUpgrade a) (nt_OnUpgrade b) && Bool.eqb (nt_OnRename a) (nt_OnRename b) &&
  Bool.eqb (nt_OnHealthIssue a) (nt_OnHealthIssue b) &&
  Bool.eqb (nt_OnHealthRestored a) (nt_OnHealthRestored b) &&
  Bool.eqb (nt_OnApplicationUpdate a) (nt_OnApplicationUpdate b) &&
  Bool.eqb (nt_OnManualInteractionRequired a) (nt_OnManualInteractionRequired b) &&
  Bool.eqb (nt_IncludeHealthWarnings a) (nt_IncludeHealthWarnings b) &&
  Bool.eqb (nt_OnSeriesAdd a) (nt_OnSeriesAdd b) && Bool.eqb (nt_OnSeriesDelete a) (nt_OnSeriesDelete b) &&
  Bool.eqb (nt_OnEpisodeFileDelete a) (nt_OnEpisodeFileDelete b) &&
  Bool.eqb (nt_OnEpisodeFileDeleteForUpgrade a) (nt_OnEpisodeFileDeleteForUpgrade b) &&
  fieldsEqual (nt_Fields a) (nt_Fields b).

Definition nt_set_ID (id : Z) (n : NotificationIR) : NotificationIR :=
  let '(mkNotificationIR _ b c d e f g h i j k l m n o p q r s t u v w x y z a1 b1 c1 d1 e1) := n in
  mkNotificationIR id b c d e f g h i j k l m n o p q r s t u v w x y z a1 b1 c1 d1 e1.

Definition notificationOps : DiffOps NotificationIR := {|
  op_key := nt_Name;
  op_equal := notificationsEqual;
  op_create name d := mkChange ResourceNotification name None (PNotification d);
  op_update name c d :=
    mkChange ResourceNotification name (Some (nt_ID c)) (PNotification (nt_set_ID (nt_ID c) d));
  op_delete name c := mkChange ResourceNotification name (Some (nt_ID c)) PNil |}.

(** ** importlists.go, delayprofiles.go, naming.go, remotepathmappings.go, rootfolders.go,
       mediamanagement.go *)

Definition importListSettings (fields : list Field) : gmap string string :=
  foldl (λ m f, match f_Value f with
                | VNil => m
                | VString v => <[f_Name f := v]> m
                | v => <[f_Name f := Sprintv v]> m
                end) ∅ fields.

Definition importListToIR (list : ImportListResource) : ImportListIR := {|
  il_Name := ilr_Name list;
  il_Type := ilr_Implementation list;
  il_Enabled := true;
  il_EnableAuto := ilr_EnableAutomaticAdd list;
  il_SearchOnAdd := ilr_SearchForMissingEpisodes list;
  il_QualityProfileID := ilr_QualityProfileID list;
  il_QualityProfileName := "";
  il_RootFolderPath := ilr_RootFolderPath list;
  il_Monitor := "";
  il_MinimumAvailability := "";
  il_SeriesType := ilr_SeriesType list;
  il_SeasonFolder := ilr_SeasonFolder list;
  il_ShouldMonitor := ilr_ShouldMonitor list;
  il_Settings := importListSettings (ilr_Fields list) |}.

Definition delayProfileToIR (p : DelayProfileResource) : DelayProfileIR := {|
  dp_ID := dpr_ID p;
  dp_Name := "";
  dp_Order := dpr_Order p;
  dp_PreferredProtocol := switch (dpr_PreferredProtocol p) [
    (["usenet"], ProtocolUsenet); (["torrent"], ProtocolTorrent)] "";
  dp_UsenetDelay := dpr_UsenetDelay p;
  dp_TorrentDelay := dpr_TorrentDelay p;
  dp_EnableUsenet := dpr_EnableUsenet p;
  dp_EnableTorrent := dpr_EnableTorrent p;
  dp_BypassIfHighestQuality := dpr_BypassIfHighestQuality p;
  dp_BypassIfAboveCustomFormatScore := dpr_BypassIfAboveCustomFormatScore p;
  dp_MinimumCustomFormatScore := dpr_MinimumCustomFormatScore p;
  dp_Tags := dpr_Tags p;
  dp_TagNames := [] |}.

Definition namingToIR (naming : NamingConfigResource) : SonarrNamingIR := {|
  sn_RenameEpisodes := ncr_RenameEpisodes naming;
  sn_ReplaceIllegalCharacters := ncr_ReplaceIllegalCharacters naming;
  sn_ColonReplacementFormat := 0;
  sn_StandardEpisodeFormat := ncr_StandardEpisodeFormat naming;
  sn_DailyEpisodeFormat := ncr_DailyEpisodeFormat naming;
  sn_AnimeEpisodeFormat := ncr_AnimeEpisodeFormat naming;
  sn_SeriesFolderFormat := ncr_SeriesFolderFormat naming;
  sn_SeasonFolderFormat := ncr_SeasonFolderFormat naming;
  sn_SpecialsFolderFormat := ncr_SpecialsFolderFormat naming;
  sn_MultiEpisodeStyle := ncr_MultiEpisodeStyle naming |}.

Definition mappingToIR (m : RemotePathMappingResource) : RemotePathMappingIR :=
  mkRemotePathMappingIR (rpr_ID m) (rpr_Host m) (rpr_RemotePath m) (rpr_LocalPath m).

Definition mediaManagementToIR (config : MediaManagementConfigResource) : MediaManagementIR := {|
  mm_RecycleBin := mmr_RecycleBin config;
  mm_RecycleBinCleanupDays := mmr_RecycleBinCleanupDays config;
  mm_SetPermissions := mmr_SetPermissionsLinux config;
  mm_ChmodFolder := mmr_ChmodFolder config;
  mm_ChownGroup := mmr_ChownGroup config;
  mm_DeleteEmptyFolders := mmr_DeleteEmptyFolders config;
  mm_CreateEmptyFolders := mmr_CreateEmptySeriesFolders config;
  mm_UseHardlinks := mmr_CopyUsingHardlinks config;
  mm_WatchLibraryForChanges := None;
  mm_AllowFingerprinting := "" |}.

Definition namingNeedsUpdate (current : option SonarrNamingIR) (desired : SonarrNamingIR) : bool :=
  match current with
  | None => true
  | Some current =>
      negb (Bool.eqb (sn_RenameEpisodes current) (sn_RenameEpisodes desired)) ||
      negb (String.eqb (sn_StandardEpisodeFormat current) (sn_StandardEpisodeFormat desired)) ||
      negb (String.eqb (sn_DailyEpisodeFormat current) (sn_DailyEpisodeFormat desired)) ||
      negb (String.eqb (sn_AnimeEpisodeFormat current) (sn_AnimeEpisodeFormat desired)) ||
      negb (String.eqb (sn_SeriesFolderFormat current) (sn_SeriesFolderFormat desired)) ||
      negb (String.eqb (sn_SeasonFolderFormat current) (sn_SeasonFolderFormat desired))
  end.

(** ** adapter.go: reading *)

Definition newClient (conn : ConnectionIR) : Client :=
  New (mkConfig (conn_URL conn) (conn_APIKey conn) (conn_InsecureSkipVerify conn) 0).

Section reading.
Context {S : Type} `{Service S} `{TimeFormat}.
Abbreviation MS := (M (World S)).

Definition Connect (conn : ConnectionIR) : MS ServiceInfo :=
  let c := newClient conn in
  let* status := wrapErr (λ e, "failed to connect to Sonarr: " +:+ e)%string
    (onService (Get SystemResource c "/api/v3/system/status")) in
  ret (mkServiceInfo (sys_Version status) (default 0 (sys_StartTime status))).

(** [now] is [time.Now()]. *)
Definition Discover (now : Z) (conn : ConnectionIR) : MS Capabilities :=
  let c := newClient conn in
  let* dcSchemas := attempt (onService (Get (list DownloadClientResource) c "/api/v3/downloadclient/schema")) in
  let* idxSchemas := attempt (onService (Get (list IndexerResource) c "/api/v3/indexer/schema")) in
  ret {|
    caps_DiscoveredAt := now;
    caps_Resolutions := ["2160p"; "1080p"; "720p"; "480p"];
    caps_Sources := ["bluray"; "webdl"; "webrip"; "hdtv"; "dvd"];
    caps_CustomFormatSpecs := [];
    caps_AudioTiers := [];
    caps_DownloadClientTypes :=
      match dcSchemas with inl l => distinctNames (dcr_Implementation <$> l) | inr _ => [] end;
    caps_IndexerTypes :=
      match idxSchemas with inl l => distinctNames (ixr_Implementation <$> l) | inr _ => [] end |}.

Definition getOwnershipTagID (c : Client) : MS Z := onService (GetOwnershipTagID c "v3").
Definition ensureOwnershipTag (c : Client) : MS Z := onService (EnsureOwnershipTag c "v3").

(** [managedProfileID] ends up at the ID of the last managed profile. *)
Definition getManagedQualityProfiles (c : Client) (tagID : Z) : MS (list VideoQualityIR) :=
  let* profiles := onService (Get (list QualityProfileResource) c "/api/v3/qualityprofile") in
  forRange (λ managed p,
    if isManagedProfile p then
      setManagedProfileID (Some (qp_ID p)) ;;; ret (managed ++ [profileToIR p])
    else ret managed) [] profiles.

Definition getManagedDownloadClients (c : Client) (tagID : Z) : MS (list DownloadClientIR) :=
  let* clients := onService (Get (list DownloadClientResource) c "/api/v3/downloadclient") in
  ret (clientToIR <$> filter (λ dc, HasTag (dcr_Tags dc) tagID = true) clients).

Definition getManagedIndexers (c : Client) (tagID : Z) : MS (list IndexerIR) :=
  let* indexers := onService (Get (list IndexerResource) c "/api/v3/indexer") in
  ret (indexerToIR <$> filter (λ idx, HasTag (ixr_Tags idx) tagID = true) indexers).

Definition getRootFolders (c : Client) : MS (list RootFolderIR) :=
  let* folders := onService (Get (list RootFolderResource) c "/api/v3/rootfolder") in
  ret ((λ f, mkRootFolderIR (rfr_Path f) "" "") <$> folders).

Definition getRemotePathMappings (c : Client) : MS (list RemotePathMappingIR) :=
  let* mappings := wrapErr (λ e, "failed to get remote path mappings: " +:+ e)%string
    (onService (Get (list RemotePathMappingResource) c "/api/v3/remotepathmapping")) in
  ret (mappingToIR <$> mappings).

Definition getNamingConfig (c : Client) : MS SonarrNamingIR :=
  let* naming := onService (Get NamingConfigResource c "/api/v3/config/naming") in
  setNamingConfigID (ncr_ID naming) ;;; ret (namingToIR naming).

Definition getImportLists (c : Client) : MS (list ImportListResource) :=
  wrapErr (λ e, "failed to get import lists: " +:+ e)%string
    (onService (Get (list ImportListResource) c "/api/v3/importlist")).

Definition getManagedImportLists (c : Client) (tagID : Z) : MS (list ImportListIR) :=
  let* lists := getImportLists c in
  ret (importListToIR <$> filter (λ l, HasTag (ilr_Tags l) tagID = true) lists).

Definition mediaManagementAPIPath : string := "/api/v3/config/mediamanagement".
Definition hostConfigAPIPath : string := "/api/v3/config/host".

Definition getMediaManagementIR (c : Client) : MS MediaManagementIR :=
  let* config := onService (FetchConfig MediaManagementConfigResource c mediaManagementAPIPath) in
  ret (mediaManagementToIR config).

Definition getAuthenticationIR (c : Client) : MS AuthenticationIR :=
  onService (GetAuthenticationIR c hostConfigAPIPath).

Definition getManagedNotifications (c : Client) (tagID : Z) : MS (list NotificationIR) :=
  let* notifications := wrapErr (λ e, "failed to get notifications: " +:+ e)%string
    (onService (Get (list NotificationResource) c "/api/v3/notification")) in
  ret (notificationToIR <$> filter (λ n, HasTag (nr_Tags n) tagID = true) notifications).

Definition getAllCustomFormats (c : Client) : MS (list CustomFormatIR) :=
  let* customFormats := wrapErr (λ e, "failed to get custom formats: " +:+ e)%string
    (onService (Get (list CustomFormatResource) c "/api/v3/customformat")) in
  ret (customFormatToIR <$> customFormats).

Definition getManagedDelayProfiles (c : Client) : MS (list DelayProfileIR) :=
  let* profiles := wrapErr (λ e, "failed to get delay profiles: " +:+ e)%string
    (onService (Get (list DelayProfileResource) c "/api/v3/delayprofile")) in
  ret (delayProfileToIR <$> profiles).

(** [if x, err := m(); err == nil { ... }]: the part of the state is left at its
    zero value when it cannot be read. *)
Definition orZero {A B} (zero : B) (f : A → B) (m : MS A) : MS B :=
  let* r := attempt m in ret (match r with inl x => f x | inr _ => zero end).

Definition currentIR (now : Z) (conn : ConnectionIR) quality clients indexers folders mappings
    naming importLists mediaManagement auth notifications customFormats delayProfiles : IR := {|
  ir_Version := IRVersion;
  ir_GeneratedAt := now;
  ir_SourceHash := "";
  ir_App := AppSonarr;
  ir_Connection := Some conn;
  ir_Quality := quality;
  ir_DownloadClients := clients;
  ir_RemotePathMappings := mappings;
  ir_Indexers := indexers;
  ir_Naming := naming;
  ir_RootFolders := folders;
  ir_ImportLists := importLists;
  ir_Notifications := notifications;
  ir_CustomFormats := customFormats;
  ir_DelayProfiles := delayProfiles;
  ir_ReleaseProfiles := [];
  ir_MetadataProfiles := [];
  ir_MediaManagement := mediaManagement;
  ir_Authentication := auth;
  ir_Prowlarr := None;
  ir_Unrealized := [] |}.

Definition CurrentState (now : Z) (conn : ConnectionIR) : MS IR :=
  let c := newClient conn in
  let* tag := attempt (getOwnershipTagID c) in
  match tag with
  | inr _ => ret (currentIR now conn None [] None [] [] None [] None None [] [] [])
  | inl tagID =>
      let* quality := orZero None (λ profiles, match profiles with
                        | p :: _ => Some (mkQualityIR (Some p) None None)
                        | [] => None
                        end) (getManagedQualityProfiles c tagID) in
      let* clients := orZero [] id (getManagedDownloadClients c tagID) in
      let* indexers := orZero None (λ l, match l with
                         | [] => None
                         | _ => Some (mkIndexersIR None l)
                         end) (getManagedIndexers c tagID) in
      let* folders := orZero [] id (getRootFolders c) in
      let* mappings := orZero [] id (getRemotePathMappings c) in
      let* naming := orZero None (λ n, Some (mkNamingIR None (Some n) None)) (getNamingConfig c) in
      let* importLists := orZero [] id (getManagedImportLists c tagID) in
      let* mediaManagement := orZero None Some (getMediaManagementIR c) in
      let* auth := orZero None Some (getAuthenticationIR c) in
      let* notifications := orZero [] id (getManagedNotifications c tagID) in
      let* customFormats := orZero [] id (getAllCustomFormats c) in
      let* delayProfiles := orZero [] id (getManagedDelayProfiles c) in
      ret (currentIR now conn quality clients indexers folders mappings naming importLists
             mediaManagement auth notifications customFormats delayProfiles)
  end.

Definition SonarrGetHealth (conn : ConnectionIR) : MS HealthStatus :=
  onService (GetHealth (newClient conn) "v3").

(** ** adapter.go: [Diff] *)

Definition diffNaming (namingConfigID : Z) (current desired : IR) (changes : ChangeSet) : ChangeSet :=
  let currentNaming := ir_Naming current ≫= nm_Sonarr in
  match ir_Naming desired ≫= nm_Sonarr with
  | None => changes
  | Some desiredNaming =>
      if namingNeedsUpdate currentNaming desiredNaming
      then appendUpdate (mkChange ResourceNamingConfig "naming" (Some namingConfigID)
                           (PSonarrNaming desiredNaming)) changes
      else changes
  end.

(** [o i] is the iteration order of the [i]th step of [Diff]; every step returns
    a nil error. *)
Definition diffIR (o : nat → RangeOrder) (managedProfileID : option Z) (namingConfigID : Z)
    (current desired : IR) : ChangeSet :=
  let changes := emptyChangeSet in
  let changes := DiffQualityProfiles (ir_Quality current ≫= q_Video) (ir_Quality desired ≫= q_Video)
                   managedProfileID changes in
  let changes := DiffDownloadClientsWithIR (o 1%nat) (ir_DownloadClients current)
                   (ir_DownloadClients desired) changes in
  let changes := DiffIndexersWithIR (o 2%nat) (from_option idxs_Direct [] (ir_Indexers current))
                   (from_option idxs_Direct [] (ir_Indexers desired)) changes in
  let changes := DiffRootFolders (ir_RootFolders current) (ir_RootFolders desired) changes in
  let changes := DiffRemotePathMappings (o 4%nat) (ir_RemotePathMappings current)
                   (ir_RemotePathMappings desired) changes in
  let changes := diffNaming namingConfigID current desired changes in
  let changes := diffNamed notificationOps (o 6%nat) (ir_Notifications current)
                   (ir_Notifications desired) changes in
  let changes := diffNamed sonarrCustomFormatOps (o 7%nat) (ir_CustomFormats current)
                   (ir_CustomFormats desired) changes in
  DiffDelayProfiles (ir_DelayProfiles current) (ir_DelayProfiles desired) changes.

Definition Diff (o : nat → RangeOrder) (current desired : IR) (caps : option Capabilities)
    : MS ChangeSet := λ w,
  (w, Ret (diffIR o (w_managedProfileID w) (w_namingConfigID w) current desired)).
End reading.
