(* ===== verification/SonarrApply.v ===== *)
(** * The Sonarr adapter: applying changes (src/internal/adapters/sonarr)

    The conversion of the intermediate representation to Sonarr's resources,
    [applyCreate], [applyUpdate], [applyDelete] with the requests they make, and
    the entry points [Apply] and [ApplyDirect].  A failed type assertion on a
    change's payload, or the dereference of an absent ID, is a panic. *)
From S2P Require Export Sonarr.

(** ** apply.go: resources *)

Definition downloadClientFromIR (dc : DownloadClientIR) (tagID : Z) : DownloadClientResource := {|
  dcr_ID := 0;
  dcr_Name := dc_Name dc;
  dcr_Implementation := dc_Implementation dc;
  dcr_ConfigContract := (dc_Implementation dc +:+ "Settings")%string;
  dcr_Protocol := dc_Protocol dc;
  dcr_Enable := dc_Enable dc;
  dcr_Priority := dc_Priority dc;
  dcr_Tags := [tagID];
  dcr_Fields := [
    mkField "host" (VString (dc_Host dc));
    mkField "port" (VInt (dc_Port dc));
    mkField "useSsl" (VBool (dc_UseTLS dc));
    mkField "username" (VString (dc_Username dc));
    mkField "password" (VString (dc_Password dc));
    mkField "tvCategory" (VString (dc_Category dc))];
  dcr_RemoveCompletedDownloads := dc_RemoveCompletedDownloads dc;
  dcr_RemoveFailedDownloads := dc_RemoveFailedDownloads dc |}.

Definition dcr_set_ID (id : Z) (r : DownloadClientResource) : DownloadClientResource :=
  let '(mkDownloadClientResource _ b c d e f g h i j k) := r in
  mkDownloadClientResource id b c d e f g h i j k.

Definition indexerFromIR (idx : IndexerIR) (tagID : Z) : IndexerResource := {|
  ixr_ID := 0;
  ixr_Name := idx_Name idx;
  ixr_Implementation := idx_Implementation idx;
  ixr_ConfigContract := (idx_Implementation idx +:+ "Settings")%string;
  ixr_Protocol := idx_Protocol idx;
  ixr_Enable := idx_Enable idx;
  ixr_Priority := idx_Priority idx;
  ixr_Tags := [tagID];
  ixr_Fields := [
    mkField "baseUrl" (VString (idx_URL idx));
    mkField "apiKey" (VString (idx_APIKey idx));
    mkField "categories" (VInts (idx_Categories idx));
    mkField "minimumSeeders" (VInt (idx_MinimumSeeders idx))];
  ixr_EnableRss := idx_EnableRss idx;
  ixr_EnableAutomaticSearch := idx_EnableAutomaticSearch idx;
  ixr_EnableInteractiveSearch := idx_EnableInteractiveSearch idx;
  ixr_SeasonSearchMaximumSingleEpisodeAge := 0 |}.

Definition ixr_set_ID (id : Z) (r : IndexerResource) : IndexerResource :=
  let '(mkIndexerResource _ b c d e f g h i j k l m) := r in
  mkIndexerResource id b c d e f g h i j k l m.

(** ** apply.go: quality profiles *)

(** Resolution to the set of allowed sources; an absent resolution has none. *)
Definition buildAllowedQualitiesMap (tiers : list VideoQualityTierIR) : gmap string (gset string) :=
  foldl (λ (allowed : gmap string (gset string)) tier,
    if negb (vt_Allowed tier) then allowed
    else
      let res := vt_Resolution tier in
      <[res := default ∅ (allowed !! res) ∪ setOf (vt_Sources tier)]> allowed) ∅ tiers.

Definition resolutionToString (res : Z) : string :=
  if res =? 2160 then "2160p" else if res =? 1080 then "1080p"
  else if res =? 720 then "720p" else if res =? 480 then "480p" else "".

Definition mapSonarrSource (source : string) : string :=
  switch source [
    (["television"; "televisionRaw"], "hdtv");
    (["web"; "webdl"], "webdl");
    (["webRip"], "webrip");
    (["bluray"; "blurayRaw"], "bluray");
    (["dvd"], "dvd")]
    source.

Definition isQualityAllowed (quality : Quality) (allowedQualities : gmap string (gset string)) : bool :=
  match allowedQualities !! resolutionToString (ql_Resolution quality) with
  | None => false
  | Some sources => mapSonarrSource (ql_Source quality) ∈? sources
  end.

Definition isQualityCutoff (quality : Quality) (cutoffTier : VideoQualityTierIR) : bool :=
  String.eqb (resolutionToString (ql_Resolution quality)) (vt_Resolution cutoffTier) &&
  existsb (λ s, String.eqb s (mapSonarrSource (ql_Source quality))) (vt_Sources cutoffTier).

Definition qi_set (items : list QualityProfileItem) (allowed : bool) (i : QualityProfileItem)
    : QualityProfileItem := mkQualityProfileItem (qi_ID i) (qi_Name i) (qi_Quality i) items allowed.

(** An item of a group: itself with its flag, whether it is allowed, the cutoff. *)
Definition processSubItem (groupID : Z) (allowed : gmap string (gset string))
    (cutoffTier : VideoQualityTierIR) (st : list QualityProfileItem * bool * Z)
    (subItem : QualityProfileItem) : list QualityProfileItem * bool * Z :=
  let '(groupItems, groupAllowed, cutoffID) := st in
  match qi_Quality subItem with
  | None => (groupItems ++ [subItem], groupAllowed, cutoffID)
  | Some q =>
      let isAllowed := isQualityAllowed q allowed in
      (groupItems ++ [qi_set (qi_Items subItem) isAllowed subItem],
       groupAllowed || isAllowed,
       if isQualityCutoff q cutoffTier && (0 <? groupID) then groupID else cutoffID)
  end.

Definition processItem (allowed : gmap string (gset string)) (cutoffTier : VideoQualityTierIR)
    (st : list QualityProfileItem * Z) (item : QualityProfileItem) : list QualityProfileItem * Z :=
  let '(items, cutoffID) := st in
  match qi_Items item with
  | _ :: _ =>
      let '(groupItems, groupAllowed, cutoffID) :=
        foldl (processSubItem (qi_ID item) allowed cutoffTier) ([], false, cutoffID) (qi_Items item) in
      (items ++ [qi_set groupItems groupAllowed item], cutoffID)
  | [] =>
      match qi_Quality item with
      | None => (items ++ [item], cutoffID)
      | Some q =>
          (items ++ [qi_set [] (isQualityAllowed q allowed) item],
           if isQualityCutoff q cutoffTier && (0 <? ql_ID q) then ql_ID q else cutoffID)
      end
  end.

Definition processSchemaItems (schemaItems : list QualityProfileItem)
    (allowedQualities : gmap string (gset string)) (cutoffTier : VideoQualityTierIR)
    : list QualityProfileItem * Z :=
  foldl (processItem allowedQualities cutoffTier) ([], 1) schemaItems.

(** The pure part of [buildFormatItems], once the formats are known. *)
Definition mergeFormatItems (o : RangeOrder) (formatScores : gmap string Z)
    (formats : list CustomFormatResource) (schemaItems : list ProfileFormatItem)
    : list ProfileFormatItem :=
  let formatIDByName := cfr_ID <$> indexBy cfr_Name formats in
  let formatNameByID := cfr_Name <$> indexBy cfr_ID formats in
  let schemaFormatIDs := setOf (pfi_Format <$> schemaItems) in
  let result := (λ item,
    match formatNameByID !! pfi_Format item ≫= (λ name, formatScores !! name) with
    | Some score => mkProfileFormatItem (pfi_Format item) score
    | None => item
    end) <$> schemaItems in
  foldl (λ result '(name, score),
    match formatIDByName !! name with
    | Some formatID =>
        if formatID ∈? schemaFormatIDs then result
        else result ++ [mkProfileFormatItem formatID score]
    | None => result
    end) result (rangeMap o 0 formatScores).

(** ** customformats.go, notifications.go, delayprofiles.go, importlists.go *)

Definition sourceTable : gmap string Z := list_to_map [
  ("television", 1); ("televisionRaw", 2); ("webdl", 3); ("web", 3); ("webrip", 4); ("webRip", 4);
  ("dvd", 5); ("bluray", 6); ("blurayRaw", 7)].
Definition sourceToInt (source : string) : Z := default 0 (sourceTable !! source).

Definition resolutionTable : gmap string Z := list_to_map [
  ("r360p", 360); ("r480p", 480); ("r540p", 540); ("r576p", 576); ("r720p", 720);
  ("r1080p", 1080); ("r2160p", 2160)].
Definition resolutionToInt (res : string) : Z := default 0 (resolutionTable !! res).

Definition buildSpecFields (spec : FormatSpecIR) : list Field :=
  switch (fs_Type spec) [
    (["ReleaseTitleSpecification"; "ReleaseGroupSpecification"; "EditionSpecification"],
      [mkField "value" (VString (fs_Value spec))]);
    (["SourceSpecification"], [mkField "value" (VInt (sourceToInt (fs_Value spec)))]);
    (["ResolutionSpecification"], [mkField "value" (VInt (resolutionToInt (fs_Value spec)))])]
    [mkField "value" (VString (fs_Value spec))].

Definition irToCustomFormat (ir : CustomFormatIR) : CustomFormatResource := {|
  cfr_ID := cf_ID ir;
  cfr_Name := cf_Name ir;
  cfr_IncludeCustomFormatWhenRenaming := cf_IncludeWhenRenaming ir;
  cfr_Specifications := (λ spec, {|
    cfsr_Name := fs_Name spec;
    cfsr_Implementation := fs_Type spec;
    cfsr_Negate := fs_Negate spec;
    cfsr_Required := fs_Required spec;
    cfsr_Fields := buildSpecFields spec |}) <$> cf_Specifications ir |}.

(** The fields follow the iteration order [o] of the map. *)
Definition irToNotification (o : RangeOrder) (ir : NotificationIR) (tagID : Z)
    : NotificationResource := {|
  nr_ID := nt_ID ir;
  nr_Name := nt_Name ir;
  nr_Implementation := nt_Implementation ir;
  nr_ConfigContract := nt_ConfigContract ir;
  nr_Tags := [tagID];
  nr_Fields := (λ '(name, value), mkField name value) <$> rangeMap o 0 (nt_Fields ir);
  nr_OnGrab := nt_OnGrab ir;
  nr_OnDownload := nt_OnDownload ir;
  nr_OnUpgrade := nt_OnUpgrade ir;
  nr_OnRename := nt_OnRename ir;
  nr_OnSeriesAdd := nt_OnSeriesAdd ir;
  nr_OnSeriesDelete := nt_OnSeriesDelete ir;
  nr_OnEpisodeFileDelete := nt_OnEpisodeFileDelete ir;
  nr_OnEpisodeFileDeleteForUpgrade := nt_OnEpisodeFileDeleteForUpgrade ir;
  nr_OnHealthIssue := nt_OnHealthIssue ir;
  nr_OnHealthRestored := nt_OnHealthRestored ir;
  nr_OnApplicationUpdate := nt_OnApplicationUpdate ir;
  nr_OnManualInteractionRequired := nt_OnManualInteractionRequired ir;
  nr_IncludeHealthWarnings := nt_IncludeHealthWarnings ir |}.

Definition irToDelayProfile (ir : DelayProfileIR) (tagIDs : list Z) : DelayProfileResource := {|
  dpr_ID := 0;
  dpr_Order := dp_Order ir;
  dpr_PreferredProtocol := switch (dp_PreferredProtocol ir) [
    ([ProtocolUsenet], "usenet"); ([ProtocolTorrent], "torrent")] "usenet";
  dpr_UsenetDelay := dp_UsenetDelay ir;
  dpr_TorrentDelay := dp_TorrentDelay ir;
  dpr_EnableUsenet := dp_EnableUsenet ir;
  dpr_EnableTorrent := dp_EnableTorrent ir;
  dpr_BypassIfHighestQuality := dp_BypassIfHighestQuality ir;
  dpr_BypassIfAboveCustomFormatScore := dp_BypassIfAboveCustomFormatScore ir;
  dpr_MinimumCustomFormatScore := dp_MinimumCustomFormatScore ir;
  dpr_Tags := tagIDs |}.

Definition dpr_set_ID (id : Z) (r : DelayProfileResource) : DelayProfileResource :=
  let '(mkDelayProfileResource _ b c d e f g h i j k) := r in
  mkDelayProfileResource id b c d e f g h i j k.

(** The tags of a delay profile: the ownership tag when no tag names are
    configured, then the profile's own. *)
Definition delayProfileTags (ir : DelayProfileIR) (tagID : Z) : list Z :=
  (if (0 <? tagID) && (Z.of_nat (length (dp_TagNames ir)) =? 0) then [tagID] else []) ++ dp_Tags ir.

Definition findSchemaByType (schemas : list ImportListResource) (listType : string)
    : option ImportListResource :=
  snd <$> list_find (λ s, ilr_Implementation s = listType) schemas.

Definition buildImportListFields (o : RangeOrder) (settings : gmap string string)
    (schema : ImportListResource) : list Field :=
  let schemaFields := setOf (f_Name <$> ilr_Fields schema) in
  omap (λ '(name, value), if name ∈? schemaFields then Some (mkField name (VString value)) else None)
    (rangeMap o 0 settings).

Definition irToImportList (ir : ImportListIR) (schema : ImportListResource) (fields : list Field)
    (tagID : Z) : ImportListResource := {|
  ilr_ID := 0;
  ilr_Name := il_Name ir;
  ilr_Implementation := il_Type ir;
  ilr_ConfigContract := ilr_ConfigContract schema;
  ilr_EnableAutomaticAdd := il_EnableAuto ir;
  ilr_SearchForMissingEpisodes := il_SearchOnAdd ir;
  ilr_QualityProfileID := il_QualityProfileID ir;
  ilr_RootFolderPath := il_RootFolderPath ir;
  ilr_ShouldMonitor := if String.eqb (il_ShouldMonitor ir) "" then "all" else il_ShouldMonitor ir;
  ilr_SeriesType := if String.eqb (il_SeriesType ir) "" then "standard" else il_SeriesType ir;
  ilr_SeasonFolder := il_SeasonFolder ir;
  ilr_ListType := "program";
  ilr_ListOrder := 0;
  ilr_Tags := [tagID];
  ilr_Fields := fields |}.

Definition ilr_set_ID (id : Z) (r : ImportListResource) : ImportListResource :=
  let '(mkImportListResource _ b c d e f g h i j k l m n p) := r in
  mkImportListResource id b c d e f g h i j k l m n p.

(** The fields [applyMediaManagement] assigns; all others are kept. *)
Definition mergeMediaManagement (ir : MediaManagementIR) (c : MediaManagementConfigResource)
    : MediaManagementConfigResource :=
  mkMediaManagementConfigResource (mmr_ID c) (mm_RecycleBin ir) (mm_RecycleBinCleanupDays ir)
    (mm_SetPermissions ir) (mm_ChmodFolder ir) (mm_ChownGroup ir) (mm_DeleteEmptyFolders ir)
    (mm_CreateEmptyFolders ir) (mm_UseHardlinks ir) (mmr_ImportExtraFiles c)
    (mmr_ExtraFileExtensions c) (mmr_DownloadPropersAndRepacks c) (mmr_EnableMediaInfo c)
    (mmr_MinimumFreeSpaceWhenImporting c) (mmr_RescanAfterRefresh c) (mmr_FileDate c)
    (mmr_SkipFreeSpaceCheckWhenImporting c).

(** ** The requests *)

Section apply.
Context {S : Type} `{Service S}.
Abbreviation MS := (M (World S)).

Definition resourcePath (collection : string) (id : Z) : string :=
  ("/api/v3/" +:+ collection +:+ "/" +:+ Itoa id)%string.

Definition buildFormatItems (o : RangeOrder) (c : Client) (formatScores : gmap string Z)
    (schemaItems : list ProfileFormatItem) : M S (list ProfileFormatItem) :=
  if Z.of_nat (size formatScores) =? 0 then ret schemaItems
  else
    let* formats := wrapErr (λ e, "failed to get custom formats: " +:+ e)%string
      (Get (list CustomFormatResource) c "/api/v3/customformat") in
    ret (mergeFormatItems o formatScores formats schemaItems).

(** The resource both [createQualityProfile] and [updateQualityProfile] build
    from the schema, with the ID they give it. *)
Definition qualityProfileResource (o : RangeOrder) (c : Client) (id : Z) (profile : VideoQualityIR)
    : M S QualityProfileResource :=
  let* schema := wrapErr (λ e, "failed to get quality profile schema: " +:+ e)%string
    (Get QualityProfileResource c "/api/v3/qualityprofile/schema") in
  let allowedQualities := buildAllowedQualitiesMap (vq_Tiers profile) in
  let '(items, cutoffID) := processSchemaItems (qp_Items schema) allowedQualities (vq_Cutoff profile) in
  let* formatItems := wrapErr (λ e, "failed to build format items: " +:+ e)%string
    (buildFormatItems o c (vq_FormatScores profile) (qp_FormatItems schema)) in
  ret {|
    qp_ID := id;
    qp_Name := vq_ProfileName profile;
    qp_UpgradeAllowed := vq_UpgradeAllowed profile;
    qp_Cutoff := cutoffID;
    qp_Items := items;
    qp_FormatItems := formatItems;
    qp_MinFormatScore := vq_MinimumCustomFormatScore profile;
    qp_MinUpgradeFormatScore := qp_MinUpgradeFormatScore schema;
    qp_CutoffFormatScore := vq_UpgradeUntilCustomFormatScore profile |}.

Definition createQualityProfile (o : RangeOrder) (c : Client) (profile : VideoQualityIR) : M S unit :=
  let* resource := qualityProfileResource o c 0 profile in
  Post c "/api/v3/qualityprofile" resource.

Definition updateQualityProfile (o : RangeOrder) (c : Client) (id : Z) (profile : VideoQualityIR)
    : M S unit :=
  let* resource := qualityProfileResource o c id profile in
  Put c (resourcePath "qualityprofile" id) resource.

Definition createDownloadClient (c : Client) (dc : DownloadClientIR) (tagID : Z) : M S unit :=
  Post c "/api/v3/downloadclient" (downloadClientFromIR dc tagID).

Definition updateDownloadClient (c : Client) (id : Z) (dc : DownloadClientIR) (tagID : Z) : M S unit :=
  Put c (resourcePath "downloadclient" id) (dcr_set_ID id (downloadClientFromIR dc tagID)).

Definition createIndexer (c : Client) (idx : IndexerIR) (tagID : Z) : M S unit :=
  Post c "/api/v3/indexer" (indexerFromIR idx tagID).

Definition updateIndexer (c : Client) (id : Z) (idx : IndexerIR) (tagID : Z) : M S unit :=
  Put c (resourcePath "indexer" id) (ixr_set_ID id (indexerFromIR idx tagID)).

Definition createRootFolder (c : Client) (rf : RootFolderIR) : M S unit :=
  Post c "/api/v3/rootfolder" (mkRootFolderResource 0 (rf_Path rf)).

Definition updateNaming (c : Client) (namingConfigID : Z) (naming : SonarrNamingIR) : M S unit :=
  Put c "/api/v3/config/naming" {|
    ncr_ID := namingConfigID;
    ncr_RenameEpisodes := sn_RenameEpisodes naming;
    ncr_ReplaceIllegalCharacters := sn_ReplaceIllegalCharacters naming;
    ncr_StandardEpisodeFormat := sn_StandardEpisodeFormat naming;
    ncr_DailyEpisodeFormat := sn_DailyEpisodeFormat naming;
    ncr_AnimeEpisodeFormat := sn_AnimeEpisodeFormat naming;
    ncr_SeriesFolderFormat := sn_SeriesFolderFormat naming;
    ncr_SeasonFolderFormat := sn_SeasonFolderFormat naming;
    ncr_SpecialsFolderFormat := sn_SpecialsFolderFormat naming;
    ncr_MultiEpisodeStyle := sn_MultiEpisodeStyle naming |}.

Definition createCustomFormat (c : Client) (ir : CustomFormatIR) : M S unit :=
  wrapErr (λ e, "failed to create custom format: " +:+ e)%string
    (PostResult CustomFormatResource c "/api/v3/customformat" (irToCustomFormat ir)) ;;; ret tt.

Definition updateCustomFormat (c : Client) (ir : CustomFormatIR) : M S unit :=
  wrapErr (λ e, "failed to update custom format: " +:+ e)%string
    (PutResult CustomFormatResource c (resourcePath "customformat" (cf_ID ir)) (irToCustomFormat ir)) ;;;
  ret tt.

Definition deleteCustomFormat (c : Client) (id : Z) : M S unit :=
  wrapErr (λ e, "failed to delete custom format: " +:+ e)%string
    (Delete c (resourcePath "customformat" id)).

Definition createRemotePathMapping (c : Client) (ir : RemotePathMappingIR) : M S unit :=
  wrapErr (λ e, "failed to create remote path mapping: " +:+ e)%string
    (PostResult RemotePathMappingResource c "/api/v3/remotepathmapping"
       (mkRemotePathMappingResource 0 (rpm_Host ir) (rpm_RemotePath ir) (rpm_LocalPath ir))) ;;;
  ret tt.

Definition updateRemotePathMapping (c : Client) (ir : RemotePathMappingIR) : M S unit :=
  wrapErr (λ e, "failed to update remote path mapping: " +:+ e)%string
    (PutResult RemotePathMappingResource c (resourcePath "remotepathmapping" (rpm_ID ir))
       (mkRemotePathMappingResource (rpm_ID ir) (rpm_Host ir) (rpm_RemotePath ir) (rpm_LocalPath ir))) ;;;
  ret tt.

Definition deleteRemotePathMapping (c : Client) (id : Z) : M S unit :=
  wrapErr (λ e, "failed to delete remote path mapping: " +:+ e)%string
    (Delete c (resourcePath "remotepathmapping" id)).

Definition createNotification (o : RangeOrder) (c : Client) (ir : NotificationIR) (tagID : Z)
    : M S unit :=
  wrapErr (λ e, "failed to create notification: " +:+ e)%string
    (PostResult NotificationResource c "/api/v3/notification" (irToNotification o ir tagID)) ;;;
  ret tt.

Definition updateNotification (o : RangeOrder) (c : Client) (ir : NotificationIR) (tagID : Z)
    : M S unit :=
  wrapErr (λ e, "failed to update notification: " +:+ e)%string
    (PutResult NotificationResource c (resourcePath "notification" (nt_ID ir))
       (irToNotification o ir tagID)) ;;;
  ret tt.

Definition deleteNotification (c : Client) (id : Z) : M S unit :=
  wrapErr (λ e, "failed to delete notification: " +:+ e)%string
    (Delete c (resourcePath "notification" id)).

Definition createDelayProfile (c : Client) (ir : DelayProfileIR) (tagID : Z) : M S unit :=
  Post c "/api/v3/delayprofile" (irToDelayProfile ir (delayProfileTags ir tagID)).

Definition updateDelayProfile (c : Client) (ir : DelayProfileIR) (tagID : Z) : M S unit :=
  Put c (resourcePath "delayprofile" (dp_ID ir))
    (dpr_set_ID (dp_ID ir) (irToDelayProfile ir (delayProfileTags ir tagID))).

Definition deleteDelayProfile (c : Client) (id : Z) : M S unit :=
  Delete c (resourcePath "delayprofile" id).

(** ** apply.go: dispatch *)

Definition badPayload {A} : M S A := panic "interface conversion".
Definition nilID {A} : M S A := panic "nil pointer dereference".

Definition applyCreate (o : RangeOrder) (c : Client) (change : Change) (tagID : Z) : M S unit :=
  switch (ch_ResourceType change) [
    ([ResourceQualityProfile],
      match ch_Payload change with PVideoQuality p => createQualityProfile o c p | _ => badPayload end);
    ([ResourceCustomFormat],
      match ch_Payload change with PCustomFormat p => createCustomFormat c p | _ => badPayload end);
    ([ResourceDownloadClient],
      match ch_Payload change with PDownloadClient p => createDownloadClient c p tagID | _ => badPayload end);
    ([ResourceIndexer],
      match ch_Payload change with PIndexer p => createIndexer c p tagID | _ => badPayload end);
    ([ResourceRootFolder],
      match ch_Payload change with PRootFolder p => createRootFolder c p | _ => badPayload end);
    ([ResourceRemotePathMapping],
      match ch_Payload change with PRemotePathMapping p => createRemotePathMapping c p | _ => badPayload end);
    ([ResourceNotification],
      match ch_Payload change with PNotification p => createNotification o c p tagID | _ => badPayload end);
    ([ResourceDelayProfile],
      match ch_Payload change with PDelayProfile p => createDelayProfile c p tagID | _ => badPayload end)]
    (fail ("unsupported resource type for create: " +:+ ch_ResourceType change)%string).

(** [withID] is the dereference of [change.ID]. *)
Definition withID {A} (change : Change) (k : Z → M S A) : M S A :=
  match ch_ID change with Some id => k id | None => nilID end.

Definition applyUpdate (o : RangeOrder) (c : Client) (namingConfigID : Z) (change : Change) (tagID : Z)
    : M S unit :=
  switch (ch_ResourceType change) [
    ([ResourceQualityProfile], withID change (λ id,
      match ch_Payload change with PVideoQuality p => updateQualityProfile o c id p | _ => badPayload end));
    ([ResourceCustomFormat],
      match ch_Payload change with PCustomFormat p => updateCustomFormat c p | _ => badPayload end);
    ([ResourceDownloadClient], withID change (λ id,
      match ch_Payload change with PDownloadClient p => updateDownloadClient c id p tagID | _ => badPayload end));
    ([ResourceIndexer], withID change (λ id,
      match ch_Payload change with PIndexer p => updateIndexer c id p tagID | _ => badPayload end));
    ([ResourceNamingConfig],
      match ch_Payload change with PSonarrNaming p => updateNaming c namingConfigID p | _ => badPayload end);
    ([ResourceRemotePathMapping],
      match ch_Payload change with PRemotePathMapping p => updateRemotePathMapping c p | _ => badPayload end);
    ([ResourceNotification],
      match ch_Payload change with PNotification p => updateNotification o c p tagID | _ => badPayload end);
    ([ResourceDelayProfile],
      match ch_Payload change with PDelayProfile p => updateDelayProfile c p tagID | _ => badPayload end)]
    (fail ("unsupported resource type for update: " +:+ ch_ResourceType change)%string).

Definition applyDelete (c : Client) (change : Change) : M S unit :=
  match ch_ID change with
  | None => fail "cannot delete resource without ID"
  | Some id =>
      switch (ch_ResourceType change) [
        ([ResourceQualityProfile], Delete c (resourcePath "qualityprofile" id));
        ([ResourceCustomFormat], deleteCustomFormat c id);
        ([ResourceDownloadClient], Delete c (resourcePath "downloadclient" id));
        ([ResourceIndexer], Delete c (resourcePath "indexer" id));
        ([ResourceRootFolder], Delete c (resourcePath "rootfolder" id));
        ([ResourceRemotePathMapping], deleteRemotePathMapping c id);
        ([ResourceNotification], deleteNotification c id);
        ([ResourceDelayProfile], deleteDelayProfile c id)]
        (fail ("unsupported resource type for delete: " +:+ ch_ResourceType change)%string)
  end.

(** ** adapter.go: [Apply]

    The result pointer is nil when the ownership tag cannot be ensured. *)
Definition Apply (o : RangeOrder) (conn : ConnectionIR) (changes : ChangeSet)
    : MS (option ApplyResult * option error) := λ w,
  let c := newClient conn in
  (let* r := attempt (ensureOwnershipTag c) in
   match r with
   | inr e => ret (None, Some ("failed to ensure ownership tag: " +:+ e)%string)
   | inl tagID =>
       let* result := ApplyChanges changes
         (λ change, onService (applyCreate o c change tagID))
         (λ change, let* w := Prelude.get in onService (applyUpdate o c (w_namingConfigID w) change tagID))
         (λ change, onService (applyDelete c change)) in
       ret (Some result, None)
   end) w.

(** ** importlists.go: [applyImportLists] *)

Definition getImportListSchemas (c : Client) : MS (list ImportListResource) :=
  wrapErr (λ e, "failed to get import list schemas: " +:+ e)%string
    (onService (Get (list ImportListResource) c "/api/v3/importlist/schema")).

Definition createImportList (c : Client) (payload : ImportListResource) : MS unit :=
  onService (PostResult ImportListResource c "/api/v3/importlist" payload) ;;; ret tt.
Definition updateImportList (c : Client) (payload : ImportListResource) : MS unit :=
  onService (PutResult ImportListResource c (resourcePath "importlist" (ilr_ID payload)) payload) ;;;
  ret tt.
Definition deleteImportList (c : Client) (id : Z) : MS unit :=
  onService (Delete c (resourcePath "importlist" id)).

Definition emptyStats : ImportListStats := mkImportListStats 0 0 0 0 [].
Definition addStats (created updated deleted skipped : Z) (errors : list error) (s : ImportListStats)
    : ImportListStats :=
  mkImportListStats (ils_Created s + created) (ils_Updated s + updated) (ils_Deleted s + deleted)
    (ils_Skipped s + skipped) (ils_Errors s ++ errors).

(** The body of the loop over the desired lists. *)
Definition applyImportList (o : RangeOrder) (c : Client) (tagID : Z)
    (schemas : list ImportListResource) (existingByName : gmap string ImportListResource)
    (stats : ImportListStats) (list : ImportListIR) : MS ImportListStats :=
  match findSchemaByType schemas (il_Type list) with
  | None =>
      ret (addStats 0 0 0 1
        ["unknown import list type " +:+ il_Type list +:+ " for " +:+ il_Name list]%string stats)
  | Some schema =>
      let payload := irToImportList list schema (buildImportListFields o (il_Settings list) schema) tagID in
      match existingByName !! il_Name list with
      | None =>
          let* r := attempt (createImportList c payload) in
          match r with
          | inr e => ret (addStats 0 0 0 0
              ["failed to create import list " +:+ il_Name list +:+ ": " +:+ e]%string stats)
          | inl _ => ret (addStats 1 0 0 0 [] stats)
          end
      | Some existingList =>
          let* r := attempt (updateImportList c (ilr_set_ID (ilr_ID existingList) payload)) in
          match r with
          | inr e => ret (addStats 0 0 0 0
              ["failed to update import list " +:+ il_Name list +:+ ": " +:+ e]%string stats)
          | inl _ => ret (addStats 0 1 0 0 [] stats)
          end
      end
  end.

(** The body of the loop over the existing lists. *)
Definition deleteOrphan (c : Client) (tagID : Z) (desiredNames : gset string)
    (stats : ImportListStats) (ne : string * ImportListResource) : MS ImportListStats :=
  let '(name, existingList) := ne in
  if negb (name ∈? desiredNames) && HasTag (ilr_Tags existingList) tagID then
    let* r := attempt (deleteImportList c (ilr_ID existingList)) in
    match r with
    | inr e => ret (addStats 0 0 0 0 ["failed to delete import list " +:+ name +:+ ": " +:+ e]%string stats)
    | inl _ => ret (addStats 0 0 1 0 [] stats)
    end
  else ret stats.

Definition applyImportLists (o : RangeOrder) (c : Client) (ir : IR) (tagID : Z) : MS ImportListStats :=
  match ir_ImportLists ir with
  | [] => ret emptyStats
  | lists =>
      let* existing := wrapErr (λ e, "failed to get existing import lists: " +:+ e)%string
                         (getImportLists c) in
      let* schemas := wrapErr (λ e, "failed to get import list schemas: " +:+ e)%string
                        (getImportListSchemas c) in
      let existingByName := indexBy ilr_Name existing in
      let desiredNames := setOf (il_Name <$> lists) in
      let* stats := forRange (applyImportList o c tagID schemas existingByName) emptyStats lists in
      forRange (deleteOrphan c tagID desiredNames) stats (rangeMap o 1 existingByName)
  end.

(** ** mediamanagement.go, authentication.go, adapter.go: [ApplyDirect] *)

Definition applyMediaManagement (c : Client) (ir : option MediaManagementIR) : MS unit :=
  match ir with
  | None => ret tt
  | Some ir =>
      let* current := wrapErr (λ e, "failed to get current media management config: " +:+ e)%string
        (onService (FetchConfig MediaManagementConfigResource c mediaManagementAPIPath)) in
      let current := mergeMediaManagement ir current in
      onService (UpdateConfig c mediaManagementAPIPath (mmr_ID current) current)
  end.

Definition applyAuthentication (c : Client) (ir : option AuthenticationIR) : MS unit :=
  onService (ApplyAuthentication c hostConfigAPIPath ir).

Definition SonarrApplyDirect (o : RangeOrder) (conn : ConnectionIR) (ir : IR)
    : MS (option ApplyResult * option error) := λ w,
  let c := newClient conn in
  (let* r := attempt (ensureOwnershipTag c) in
   match r with
   | inr e => ret (None, Some ("failed to ensure ownership tag: " +:+ e)%string)
   | inl tagID =>
       let* result := ApplyDirect ir {|
         dac_ApplyImportLists := Some (let* stats := applyImportLists o c ir tagID in ret (Some stats));
         dac_ApplyMediaManagement := Some (applyMediaManagement c (ir_MediaManagement ir));
         dac_ApplyAuthentication := Some (applyAuthentication c (ir_Authentication ir)) |} in
       ret (Some result, None)
   end) w.
End apply.

(** The adapter as the registry holds it. *)
Definition SonarrAdapter {S} `{Service S} `{TimeFormat} (o : nat → RangeOrder) (now : Z)
    : Adapter (World S) := {|
  a_Name := "sonarr";
  a_SupportedApp := AppSonarr;
  a_Connect := Connect;
  a_Discover := Discover now;
  a_CurrentState conn := let* i := CurrentState now conn in ret (Some i);
  a_Diff := Diff o;
  a_Apply := Apply (o 10%nat);
  a_ApplyDirect := Some (SonarrApplyDirect (o 11%nat));
  a_GetHealth := Some SonarrGetHealth |}.
