(* ===== verification/SonarrWire.v ===== *)
(** * Round trips through the Sonarr API

    What a resource the adapter sends reads like when the service gives it back:
    encode ([downloadClientFromIR], [toJSON]), decode ([fromJSON]), convert to the
    intermediate representation ([clientToIR]).  The comparison the diff makes is
    then between equal resources, except where the theorems say otherwise. *)
From S2P Require Export SonarrApply.

(** ** Download clients *)

(** What the service returns for a client it stored under [id]. *)
Definition storedClient (tagID id : Z) (dc : DownloadClientIR) : DownloadClientResource := {|
  dcr_ID := id;
  dcr_Name := dc_Name dc;
  dcr_Implementation := dc_Implementation dc;
  dcr_ConfigContract := (dc_Implementation dc +:+ "Settings")%string;
  dcr_Protocol := dc_Protocol dc;
  dcr_Enable := dc_Enable dc;
  dcr_Priority := dc_Priority dc;
  dcr_Tags := [tagID];
  dcr_Fields := [
    mkField "host" (VString (dc_Host dc));
    mkField "port" (VFloat (float64_of_int (dc_Port dc)));
    mkField "useSsl" (VBool (dc_UseTLS dc));
    mkField "username" (VString (dc_Username dc));
    mkField "password" (VString (dc_Password dc));
    mkField "tvCategory" (VString (dc_Category dc))];
  dcr_RemoveCompletedDownloads := dc_RemoveCompletedDownloads dc;
  dcr_RemoveFailedDownloads := dc_RemoveFailedDownloads dc |}.

Lemma decode_client tagID id dc :
  fromJSON (toJSON (dcr_set_ID id (downloadClientFromIR dc tagID))) = Some (storedClient tagID id dc).
Proof.
  destruct dc. unfold toJSON, ToJSON_DownloadClientResource, omitIf. simpl dcr_ID.
  destruct (Z.eqb_spec id 0) as [->|Hid]; reflexivity.
Qed.

Lemma clientToIR_stored tagID id dc :
  clientToIR (storedClient tagID id dc) =
  mkDownloadClientIR id (dc_Name dc) (dc_Protocol dc) (dc_Implementation dc) (dc_Enable dc)
    (dc_Priority dc) (dc_RemoveCompletedDownloads dc) (dc_RemoveFailedDownloads dc) (dc_Host dc)
    (int_of_float64 (float64_of_int (dc_Port dc))) (dc_UseTLS dc) (dc_Username dc) (dc_Password dc)
    (dc_Category dc) "".
Proof. by destruct dc. Qed.

(** Field values come back as [float64]; a port survives that. *)
Definition portOk (dc : DownloadClientIR) : Prop := - 2 ^ 53 < dc_Port dc < 2 ^ 53.

Lemma stored_client_equal tagID id dc :
  portOk dc → DownloadClientsEqual (clientToIR (storedClient tagID id dc)) dc = true.
Proof.
  intros Hp. rewrite clientToIR_stored. unfold DownloadClientsEqual. simpl.
  rewrite int_float64_exact by done. by rewrite !String.eqb_refl, !Z.eqb_refl, !Bool.eqb_reflx.
Qed.

(** C39: a download client read back is the one that was sent: it carries the
    ownership tag and its ID, the diff finds it equal to the desired client (for
    every port number a float64 represents exactly), and its credentials survive too. *)
Theorem client_roundtrip tagID id dc :
  - 2 ^ 53 < dc_Port dc < 2 ^ 53 →
  ∃ r, fromJSON (toJSON (dcr_set_ID id (downloadClientFromIR dc tagID))) = Some r ∧
    HasTag (dcr_Tags r) tagID = true ∧ dc_ID (clientToIR r) = id ∧
    DownloadClientsEqual (clientToIR r) dc = true ∧
    dc_Username (clientToIR r) = dc_Username dc ∧ dc_Password (clientToIR r) = dc_Password dc.
Proof.
  intros Hp. exists (storedClient tagID id dc). split_and!.
  - apply decode_client.
  - simpl. by rewrite Z.eqb_refl.
  - by rewrite clientToIR_stored.
  - by apply stored_client_equal.
  - by rewrite clientToIR_stored.
  - by rewrite clientToIR_stored.
Qed.

Definition exampleClientIR (name : string) (port : Z) : DownloadClientIR :=
  mkDownloadClientIR 0 name ProtocolTorrent "QBittorrent" true 1 true true "qbit" port false "u" "p" "tv" "".

Lemma client_roundtrip_witness :
  - 2 ^ 53 < dc_Port (exampleClientIR "nebularr-tv-qbit" 8080) < 2 ^ 53 ∧
  ∃ r, fromJSON (toJSON (dcr_set_ID 7 (downloadClientFromIR (exampleClientIR "nebularr-tv-qbit" 8080) 3)))
         = Some r ∧ HasTag (dcr_Tags r) 3 = true.
Proof.
  assert (- 2 ^ 53 < dc_Port (exampleClientIR "nebularr-tv-qbit" 8080) < 2 ^ 53) as H by (simpl; lia).
  split; [exact H|].
  destruct (client_roundtrip 3 7 _ H) as (r & H1 & H2 & _). exists r. split; [exact H1|exact H2].
Defined.

(** ** Indexers *)

Definition storedIndexer (tagID id : Z) (idx : IndexerIR) : IndexerResource := {|
  ixr_ID := id;
  ixr_Name := idx_Name idx;
  ixr_Implementation := idx_Implementation idx;
  ixr_ConfigContract := (idx_Implementation idx +:+ "Settings")%string;
  ixr_Protocol := idx_Protocol idx;
  ixr_Enable := idx_Enable idx;
  ixr_Priority := idx_Priority idx;
  ixr_Tags := [tagID];
  ixr_Fields := [
    mkField "baseUrl" (VString (idx_URL idx));
    mkField "apiKey" (VString (idx_APIKey idx));
    mkField "categories" (throughJSON (VInts (idx_Categories idx)));
    mkField "minimumSeeders" (VFloat (float64_of_int (idx_MinimumSeeders idx)))];
  ixr_EnableRss := idx_EnableRss idx;
  ixr_EnableAutomaticSearch := idx_EnableAutomaticSearch idx;
  ixr_EnableInteractiveSearch := idx_EnableInteractiveSearch idx;
  ixr_SeasonSearchMaximumSingleEpisodeAge := 0 |}.

Lemma decode_indexer tagID id idx :
  fromJSON (toJSON (ixr_set_ID id (indexerFromIR idx tagID))) = Some (storedIndexer tagID id idx).
Proof.
  destruct idx. unfold toJSON, ToJSON_IndexerResource, omitIf. simpl ixr_ID.
  destruct (Z.eqb_spec id 0) as [->|Hid]; reflexivity.
Qed.

Lemma appendCategories_ints cats idx :
  appendCategories (throughJSON (VInts cats)) idx =
  idx_set_Categories (idx_Categories idx ++ ((λ n, int_of_float64 (float64_of_int n)) <$> cats)) idx.
Proof.
  unfold throughJSON. simpl. revert idx. induction cats as [|n cats IH]; intros idx; simpl.
  - rewrite app_nil_r. by destruct idx.
  - simpl in IH. rewrite IH. destruct idx. simpl. by rewrite <-app_assoc.
Qed.

Lemma indexerToIR_stored tagID id idx :
  indexerToIR (storedIndexer tagID id idx) =
  mkIndexerIR id (idx_Name idx) (idx_Protocol idx) (idx_Implementation idx) (idx_Enable idx)
    (idx_Priority idx) (idx_URL idx) (idx_APIKey idx)
    ((λ n, int_of_float64 (float64_of_int n)) <$> idx_Categories idx)
    (int_of_float64 (float64_of_int (idx_MinimumSeeders idx))) float64_zero 0
    (idx_EnableRss idx) (idx_EnableAutomaticSearch idx) (idx_EnableInteractiveSearch idx).
Proof.
  unfold indexerToIR, ExtractIndexerFields, storedIndexer. cbn [ixr_Fields foldl].
  assert (∀ i v, extractIndexerField i (mkField "categories" v) = appendCategories v i) as -> by done.
  rewrite appendCategories_ints. by destruct idx.
Qed.

Lemma stored_indexer_equal tagID id idx :
  IndexersEqual (indexerToIR (storedIndexer tagID id idx)) idx = true.
Proof.
  rewrite indexerToIR_stored. unfold IndexersEqual. simpl.
  by rewrite !String.eqb_refl, !Z.eqb_refl, !Bool.eqb_reflx.
Qed.

(** Reading the fields keeps the ID. *)
Lemma extracted_client_ID fields i names : dc_ID (ExtractDownloadClientFields fields i names) = dc_ID i.
Proof.
  unfold ExtractDownloadClientFields. revert i. induction fields as [|f fs IH]; intros i; [done|]. simpl. rewrite IH.
  unfold extractDownloadClientField.
  apply switch_ind; [|case_match; [destruct (f_Value f)|]; by destruct i].
  intros ks a Hin. set_unfold. destruct_or! Hin; simplify_eq; destruct (f_Value f); by destruct i.
Qed.

Lemma appendCategories_ID v i : idx_ID (appendCategories v i) = idx_ID i.
Proof.
  unfold appendCategories. destruct v as [| | | | | |l|]; try done.
  revert i. induction l as [|x l IH]; intros i; [done|]. simpl. rewrite IH.
  destruct x; try done. by destruct i.
Qed.

Lemma extracted_indexer_ID fields i : idx_ID (ExtractIndexerFields fields i) = idx_ID i.
Proof.
  unfold ExtractIndexerFields. revert i. induction fields as [|f fs IH]; intros i; [done|]. simpl. rewrite IH.
  unfold extractIndexerField. apply switch_ind; [|done].
  intros ks a Hin. set_unfold. destruct_or! Hin; simplify_eq;
    [destruct (f_Value f); by destruct i..|apply appendCategories_ID| | |];
    destruct (f_Value f); by destruct i.
Qed.

(** ** Remote path mappings *)

Definition mappingFromIR (id : Z) (m : RemotePathMappingIR) : RemotePathMappingResource :=
  mkRemotePathMappingResource id (rpm_Host m) (rpm_RemotePath m) (rpm_LocalPath m).

Lemma decode_mapping (r : RemotePathMappingResource) : fromJSON (toJSON r) = Some r.
Proof.
  destruct r as [id host rp lp]. unfold toJSON, ToJSON_RemotePathMappingResource, omitIf. simpl rpr_ID.
  destruct (Z.eqb_spec id 0) as [->|Hid]; reflexivity.
Qed.

(** ** Custom formats *)

(** The specification types whose value is sent as the text it is. *)
Definition textual (s : FormatSpecIR) : bool :=
  negb (String.eqb (fs_Type s) "SourceSpecification") &&
  negb (String.eqb (fs_Type s) "ResolutionSpecification").

Definition sentNumber (s : FormatSpecIR) : Z :=
  if String.eqb (fs_Type s) "SourceSpecification" then sourceToInt (fs_Value s)
  else resolutionToInt (fs_Value s).

Definition sentValue (s : FormatSpecIR) : any :=
  if textual s then VString (fs_Value s) else VInt (sentNumber s).

Lemma buildSpecFields_eq s : buildSpecFields s = [mkField "value" (sentValue s)].
Proof.
  unfold buildSpecFields, sentValue, sentNumber, textual. destruct s as [ty n ng rq v]. simpl.
  rewrite !orb_false_r.
  destruct (String.eqb_spec ty "ReleaseTitleSpecification") as [->|]; [done|].
  destruct (String.eqb_spec ty "ReleaseGroupSpecification") as [->|]; [done|].
  destruct (String.eqb_spec ty "EditionSpecification") as [->|]; [done|].
  destruct (String.eqb_spec ty "SourceSpecification") as [->|]; [done|].
  by destruct (String.eqb_spec ty "ResolutionSpecification") as [->|].
Qed.

(** What the service returns for a specification it stored, and a format. *)
Definition storedSpec (s : FormatSpecIR) : CustomFormatSpecification := {|
  cfsr_Name := fs_Name s;
  cfsr_Implementation := fs_Type s;
  cfsr_Negate := fs_Negate s;
  cfsr_Required := fs_Required s;
  cfsr_Fields := [mkField "value" (toInterface (sentValue s))] |}.

Definition storedFormat (cf : CustomFormatIR) : CustomFormatResource := {|
  cfr_ID := cf_ID cf;
  cfr_Name := cf_Name cf;
  cfr_IncludeCustomFormatWhenRenaming := cf_IncludeWhenRenaming cf;
  cfr_Specifications := storedSpec <$> cf_Specifications cf |}.

Lemma mapM_decode {A R} `{FromJSON R} `{ToJSON R} (f g : A → R) (l : list A) :
  (∀ x, fromJSON (toJSON (f x)) = Some (g x)) →
  mapM fromJSON (toJSON <$> (f <$> l)) = Some (g <$> l).
Proof.
  intros Hf. induction l as [|x l IH]; [done|]. rewrite !fmap_cons. cbn [mapM]. rewrite Hf.
  simpl in *. by rewrite IH.
Qed.

(** The specification [irToCustomFormat] sends. *)
Definition sentSpec (s : FormatSpecIR) : CustomFormatSpecification :=
  mkCustomFormatSpecification (fs_Name s) (fs_Type s) (fs_Negate s) (fs_Required s) (buildSpecFields s).

Lemma decode_spec s : fromJSON (toJSON (sentSpec s)) = Some (storedSpec s).
Proof.
  unfold sentSpec. rewrite buildSpecFields_eq. unfold storedSpec, sentValue.
  destruct s as [ty n ng rq v]. simpl. by destruct (textual _).
Qed.

Lemma decode_format cf : fromJSON (toJSON (irToCustomFormat cf)) = Some (storedFormat cf).
Proof.
  destruct cf as [id name inc specs].
  assert (asSlice fromJSON (VList (toJSON <$> (sentSpec <$> specs))) = Some (storedSpec <$> specs)) as Hs.
  { apply (mapM_decode sentSpec storedSpec), decode_spec. }
  unfold toJSON, ToJSON_CustomFormatResource, omitIf. simpl cfr_ID.
  unfold irToCustomFormat. cbn [cfr_Name cfr_IncludeCustomFormatWhenRenaming cfr_Specifications
    cf_Name cf_IncludeWhenRenaming cf_Specifications].
  fold sentSpec. change (λ spec, sentSpec spec) with sentSpec.
  destruct (Z.eqb_spec id 0) as [->|Hid];
  unfold fromJSON, FromJSON_CustomFormatResource, asStruct;
  cbn -[asSlice mapM toJSON fromJSON sentSpec storedSpec] in *; rewrite Hs; reflexivity.
Qed.

Definition readValue (s : FormatSpecIR) : string :=
  if textual s then fs_Value s else formatFloat (float64_of_int (sentNumber s)).

Lemma specToIR_stored s :
  specToIR (storedSpec s) = mkFormatSpecIR (fs_Type s) (fs_Name s) (fs_Negate s) (fs_Required s) (readValue s).
Proof.
  unfold specToIR, storedSpec, readValue, sentValue. cbn [cfsr_Fields list_find].
  rewrite decide_True by done. simpl. by destruct (textual s).
Qed.

(** A number of the two tables prints as a decimal numeral, which is none of the
    names it stands for. *)
Lemma tableNumber_text (table : list (string * Z)) v :
  Forall (λ kv, formatFloat (float64_of_int kv.2) ≠ kv.1 ∧ kv.1 ≠ "0") table →
  formatFloat (float64_of_int (default 0 ((list_to_map table : gmap string Z) !! v))) = v ↔ v = "0".
Proof.
  intros Ht. destruct ((list_to_map table : gmap string Z) !! v) as [n|] eqn:E; simpl.
  - apply elem_of_list_to_map_2 in E. rewrite Forall_forall in Ht. by destruct (Ht (v, n) E).
  - change (formatFloat (float64_of_int 0)) with "0". split; congruence.
Qed.

Lemma readValue_spec s : readValue s = fs_Value s ↔ textual s = true ∨ fs_Value s = "0".
Proof.
  unfold readValue. destruct (textual s); [naive_solver|].
  unfold sentNumber. destruct (String.eqb _ _); unfold sourceToInt, sourceTable, resolutionToInt, resolutionTable;
    rewrite tableNumber_text by (repeat constructor; by vm_compute); naive_solver.
Qed.

Lemma stored_specs_equal specs :
  forallb (λ ab : FormatSpecIR * FormatSpecIR, let '(specA, specB) := ab in
      String.eqb (fs_Type specA) (fs_Type specB) && String.eqb (fs_Name specA) (fs_Name specB) &&
      Bool.eqb (fs_Negate specA) (fs_Negate specB) && Bool.eqb (fs_Required specA) (fs_Required specB) &&
      String.eqb (fs_Value specA) (fs_Value specB))
    (zip ((λ s, specToIR (storedSpec s)) <$> specs) specs) = true ↔
  Forall (λ s, textual s = true ∨ fs_Value s = "0") specs.
Proof.
  induction specs as [|s specs IH]; [by split|]. rewrite Forall_cons, <-IH, fmap_cons.
  cbn [zip zip_with forallb]. rewrite andb_true_iff. apply and_iff_compat_r.
  rewrite specToIR_stored. cbn [fs_Type fs_Name fs_Negate fs_Required fs_Value].
  rewrite !String.eqb_refl, !Bool.eqb_reflx. simpl. by rewrite String.eqb_eq, readValue_spec.
Qed.

Lemma stored_format_equal_iff cf :
  customFormatsEqual (customFormatToIR (storedFormat cf)) cf = true ↔
  Forall (λ s, textual s = true ∨ fs_Value s = "0") (cf_Specifications cf).
Proof.
  unfold customFormatsEqual. cbn [customFormatToIR storedFormat cf_IncludeWhenRenaming
    cfr_IncludeCustomFormatWhenRenaming cf_Specifications cfr_Specifications].
  rewrite <-list_fmap_compose, Bool.eqb_reflx, length_fmap, Nat.eqb_refl. simpl.
  apply stored_specs_equal.
Qed.

(** The comparison ignores the ID. *)
Lemma stored_format_equal cf :
  Forall (λ s, textual s = true ∨ fs_Value s = "0") (cf_Specifications cf) → ∀ i,
  customFormatsEqual (customFormatToIR (storedFormat (cf_set_ID i cf))) cf = true.
Proof. intros Hs i. by apply (stored_format_equal_iff cf) in Hs. Qed.

(** a custom format read back equals the one that was sent, so the diff
    leaves it alone, exactly when none of its specifications is a source or a
    resolution: those are sent as a number and read back as its decimal text,
    which never equals the configured name (only the literal value 0 survives). *)
Theorem custom_format_roundtrip cf :
  ∃ r, fromJSON (toJSON (irToCustomFormat cf)) = Some r ∧
    cfr_ID r = cf_ID cf ∧ cfr_Name r = cf_Name cf ∧
    (customFormatsEqual (customFormatToIR r) cf = true ↔
     Forall (λ s, textual s = true ∨ fs_Value s = "0") (cf_Specifications cf)).
Proof.
  exists (storedFormat cf). split; [apply decode_format|]. split_and!; [done..|].
  apply stored_format_equal_iff.
Qed.

Example bluray_reads_back_as_6 :
  fs_Value (specToIR (storedSpec (mkFormatSpecIR "SourceSpecification" "disc" false true "bluray"))) = "6".
Proof. vm_compute. reflexivity. Qed.

(** ** Naming *)

(** The resource [updateNaming] sends. *)
Definition namingFromIR (id : Z) (n : SonarrNamingIR) : NamingConfigResource := {|
  ncr_ID := id;
  ncr_RenameEpisodes := sn_RenameEpisodes n;
  ncr_ReplaceIllegalCharacters := sn_ReplaceIllegalCharacters n;
  ncr_StandardEpisodeFormat := sn_StandardEpisodeFormat n;
  ncr_DailyEpisodeFormat := sn_DailyEpisodeFormat n;
  ncr_AnimeEpisodeFormat := sn_AnimeEpisodeFormat n;
  ncr_SeriesFolderFormat := sn_SeriesFolderFormat n;
  ncr_SeasonFolderFormat := sn_SeasonFolderFormat n;
  ncr_SpecialsFolderFormat := sn_SpecialsFolderFormat n;
  ncr_MultiEpisodeStyle := sn_MultiEpisodeStyle n |}.

Lemma decode_naming r : fromJSON (toJSON (r : NamingConfigResource)) = Some r.
Proof.
  destruct r as [id]. unfold toJSON, ToJSON_NamingConfigResource, omitIf. cbn [ncr_ID].
  destruct (Z.eqb_spec id 0) as [->|Hid]; reflexivity.
Qed.

(** The two diffs of naming against a read-back configuration. *)
Lemma naming_stored id n : namingNeedsUpdate (Some (namingToIR (namingFromIR id n))) n = false.
Proof. unfold namingNeedsUpdate. simpl. by rewrite !Bool.eqb_reflx, !String.eqb_refl. Qed.
