(* ===== verification/SonarrSafe.v ===== *)
(** * Safety of the Sonarr adapter

    Which requests applying a change makes, and the type discipline of the
    untyped payloads: [Diff] only emits changes whose payload has the dynamic type
    that [applyCreate] and [applyUpdate] assert, and whose ID is present where it is
    dereferenced, so that [Apply] never panics on them. *)
From S2P Require Export SonarrApply DiffSteps.

(** ** The adapter's world *)

(** A relation on the service, seen in the adapter's world. *)
Definition onServiceRel {S} (P : relation S) : relation (World S) :=
  λ w w', P (w_service w) (w_service w').

#[export] Instance onServiceRel_preorder {S} (P : relation S) `{!PreOrder P} : PreOrder (onServiceRel P).
Proof. split; unfold onServiceRel; [by intros w|]. intros w1 w2 w3 H12 H23. by etrans. Qed.

Lemma steps_onService {S A} (P : relation S) (m : M S A) :
  steps P m → steps (onServiceRel P) (onService m).
Proof.
  intros Hm w. specialize (Hm (w_service w)). unfold onService, onServiceRel.
  by destruct (m (w_service w)) as [s' r].
Qed.
#[export] Hint Resolve steps_onService : nebularr.

(** ** Well-typed changes *)

Definition isVideoQuality (p : Payload) : bool := match p with PVideoQuality _ => true | _ => false end.
Definition isCustomFormat (p : Payload) : bool := match p with PCustomFormat _ => true | _ => false end.
Definition isDownloadClient (p : Payload) : bool := match p with PDownloadClient _ => true | _ => false end.
Definition isIndexer (p : Payload) : bool := match p with PIndexer _ => true | _ => false end.
Definition isRootFolder (p : Payload) : bool := match p with PRootFolder _ => true | _ => false end.
Definition isMapping (p : Payload) : bool := match p with PRemotePathMapping _ => true | _ => false end.
Definition isNotification (p : Payload) : bool := match p with PNotification _ => true | _ => false end.
Definition isDelayProfile (p : Payload) : bool := match p with PDelayProfile _ => true | _ => false end.
Definition isSonarrNaming (p : Payload) : bool := match p with PSonarrNaming _ => true | _ => false end.

(** The payload a resource type comes with. *)
Definition payloadTyped (ch : Change) : bool :=
  switch (ch_ResourceType ch) [
    ([ResourceQualityProfile], isVideoQuality (ch_Payload ch));
    ([ResourceCustomFormat], isCustomFormat (ch_Payload ch));
    ([ResourceDownloadClient], isDownloadClient (ch_Payload ch));
    ([ResourceIndexer], isIndexer (ch_Payload ch));
    ([ResourceRootFolder], isRootFolder (ch_Payload ch));
    ([ResourceNamingConfig], isSonarrNaming (ch_Payload ch));
    ([ResourceRemotePathMapping], isMapping (ch_Payload ch));
    ([ResourceNotification], isNotification (ch_Payload ch));
    ([ResourceDelayProfile], isDelayProfile (ch_Payload ch))] true.

Definition hasID (ch : Change) : bool := match ch_ID ch with Some _ => true | None => false end.

Definition updateTyped (ch : Change) : bool := payloadTyped ch && hasID ch.

Definition changesTyped (cs : ChangeSet) : Prop :=
  (∀ ch, ch ∈ cs_Creates cs → payloadTyped ch = true) ∧
  (∀ ch, ch ∈ cs_Updates cs → updateTyped ch = true).

(** ** The parts of a diff *)

(** The changes and steps of the Sonarr adapter. *)
Abbreviation changesOf := (DiffSteps.changesOf payloadTyped updateTyped).
Abbreviation appends := (DiffSteps.appends payloadTyped updateTyped).
Abbreviation changesOfAny := (DiffSteps.changesOfAny payloadTyped updateTyped).

Lemma appends_quality current desired id :
  appends ResourceQualityProfile (DiffQualityProfiles current desired id).
Proof.
  unfold DiffQualityProfiles, DiffVideoQualityProfiles.
  destruct current, desired, id; try apply appends_id; by (apply appends_create || apply appends_delete).
Qed.

Lemma appends_naming id current desired : appends ResourceNamingConfig (diffNaming id current desired).
Proof.
  unfold diffNaming. destruct (ir_Naming desired ≫= nm_Sonarr); [|apply appends_id].
  case_match; auto with nebularr.
Qed.

Lemma appends_rootFolders current desired : appends ResourceRootFolder (DiffRootFolders current desired).
Proof. by apply appends_folders. Qed.

Lemma appends_delayProfiles current desired : appends ResourceDelayProfile (DiffDelayProfiles current desired).
Proof. by apply appends_delays. Qed.

(** The steps of [diffIR] in their order. *)
Definition diffSteps (o : nat → RangeOrder) mid nid (current desired : IR)
    : list (string * (ChangeSet → ChangeSet)) := [
  (ResourceQualityProfile,
    DiffQualityProfiles (ir_Quality current ≫= q_Video) (ir_Quality desired ≫= q_Video) mid);
  (ResourceDownloadClient,
    DiffDownloadClientsWithIR (o 1%nat) (ir_DownloadClients current) (ir_DownloadClients desired));
  (ResourceIndexer, DiffIndexersWithIR (o 2%nat) (from_option idxs_Direct [] (ir_Indexers current))
                      (from_option idxs_Direct [] (ir_Indexers desired)));
  (ResourceRootFolder, DiffRootFolders (ir_RootFolders current) (ir_RootFolders desired));
  (ResourceRemotePathMapping,
    DiffRemotePathMappings (o 4%nat) (ir_RemotePathMappings current) (ir_RemotePathMappings desired));
  (ResourceNamingConfig, diffNaming nid current desired);
  (ResourceNotification,
    diffNamed notificationOps (o 6%nat) (ir_Notifications current) (ir_Notifications desired));
  (ResourceCustomFormat,
    diffNamed sonarrCustomFormatOps (o 7%nat) (ir_CustomFormats current) (ir_CustomFormats desired));
  (ResourceDelayProfile, DiffDelayProfiles (ir_DelayProfiles current) (ir_DelayProfiles desired))].

Lemma diffIR_steps o mid nid current desired :
  diffIR o mid nid current desired =
  foldl (λ cs (step : string * (ChangeSet → ChangeSet)), step.2 cs) emptyChangeSet
    (diffSteps o mid nid current desired).
Proof. done. Qed.

Lemma diffSteps_append o mid nid current desired :
  Forall (λ step : string * (ChangeSet → ChangeSet), appends step.1 step.2)
    (diffSteps o mid nid current desired).
Proof.
  repeat apply Forall_cons_2; [..|apply Forall_nil_2]; cbn [fst snd];
    auto using appends_quality, appends_rootFolders, appends_naming, appends_delayProfiles;
    by apply appends_named.
Qed.

(** The changes of one step stand between those of the steps around it. *)
Lemma diffIR_around o mid nid current desired before rt f after :
  diffSteps o mid nid current desired = before ++ (rt, f) :: after →
  ∃ pre post, diffIR o mid nid current desired = joinChanges pre (joinChanges (f emptyChangeSet) post) ∧
    changesOfAny before.*1 pre ∧ changesOfAny after.*1 post.
Proof. intros Hs. rewrite diffIR_steps. eapply steps_around; [apply diffSteps_append|exact Hs]. Qed.

(** Everything [Diff] emits is well-typed. *)
Lemma diffIR_typed o mid nid current desired : changesTyped (diffIR o mid nid current desired).
Proof. eapply steps_typed; [apply diffSteps_append|by rewrite diffIR_steps]. Qed.

(** ** The requests of a change *)

(** The collection of the API a resource type lives in. *)
Definition collectionOf (resourceType : string) : string :=
  switch resourceType [
    ([ResourceQualityProfile], "qualityprofile"); ([ResourceCustomFormat], "customformat");
    ([ResourceDownloadClient], "downloadclient"); ([ResourceIndexer], "indexer");
    ([ResourceRootFolder], "rootfolder"); ([ResourceNamingConfig], "config/naming");
    ([ResourceRemotePathMapping], "remotepathmapping"); ([ResourceNotification], "notification");
    ([ResourceDelayProfile], "delayprofile")] "".

Section apply.
Context {S : Type} `{Service S} (P : relation S) `{!PreOrder P} (c : Client).

(** Requests on a collection and on its members are steps of [P]. *)
Definition quiet (collection : string) : Prop := quietAt P c "/api/v3/" collection.

Hypothesis get_harmless : ∀ path, harmless P c "GET" path.

Ltac quiet_request :=
  match goal with
  | |- quiet ?coll → _ =>
      let H1 := fresh "Hcoll" in let H2 := fresh "Hmember" in
      intros [H1 H2]; simpl in H1; eauto 10 with nebularr
  end.

(** Two names for one resource type. *)
Ltac resource_clash :=
  repeat match goal with H : (_ =? _)%string = true |- _ => apply String.eqb_eq in H end;
  exfalso; subst; match goal with H : @eq string _ _ |- _ => vm_compute in H; discriminate H end.

Lemma steps_qualityProfileResource o id profile : steps P (qualityProfileResource o c id profile).
Proof.
  unfold qualityProfileResource, buildFormatItems.
  apply steps_bind; [eauto with nebularr|eauto with nebularr|]. intros schema.
  destruct (processSchemaItems _ _ _) as [items cutoffID].
  apply steps_bind; [eauto with nebularr| |eauto with nebularr].
  apply steps_wrapErr. case_match; eauto 6 with nebularr.
Qed.
#[local] Hint Resolve steps_qualityProfileResource : nebularr.

Lemma applyCreate_steps o ch tagID :
  payloadTyped ch = true → quiet (collectionOf (ch_ResourceType ch)) →
  steps P (applyCreate o c ch tagID).
Proof.
  destruct ch as [rt n id p]. unfold payloadTyped, collectionOf, applyCreate.
  cbn [ch_ResourceType ch_Payload switch existsb]. rewrite !orb_false_r.
  repeat case_match; try done; intros Ht; try quiet_request; by resource_clash.
Qed.

Lemma applyUpdate_steps o nid ch tagID :
  updateTyped ch = true → quiet (collectionOf (ch_ResourceType ch)) →
  steps P (applyUpdate o c nid ch tagID).
Proof.
  destruct ch as [rt n id p]. unfold updateTyped, hasID, payloadTyped, collectionOf, applyUpdate, withID.
  cbn [ch_ResourceType ch_Payload ch_ID switch existsb]. rewrite !orb_false_r.
  destruct id as [id|]; [|by rewrite andb_false_r]. rewrite andb_true_r.
  repeat case_match; try done; intros Ht; try quiet_request; by resource_clash.
Qed.

Lemma applyDelete_steps ch :
  quiet (collectionOf (ch_ResourceType ch)) → steps P (applyDelete c ch).
Proof.
  destruct ch as [rt n id p]. unfold collectionOf, applyDelete.
  cbn [ch_ResourceType ch_ID switch existsb]. rewrite !orb_false_r.
  destruct id as [id|]; [|intros _; apply steps_fail; typeclasses eauto].
  unfold deleteCustomFormat, deleteRemotePathMapping, deleteNotification, deleteDelayProfile.
  repeat case_match; try quiet_request; by resource_clash.
Qed.
End apply.

(** ** [Apply] *)

Section no_panic.
Context {S : Type} `{Service S}.
Abbreviation MS := (M (World S)).

Lemma quiet_anything c collection : quiet anything c collection.
Proof. by split. Qed.

Lemma harmless_anything c method path : harmless anything c method path.
Proof. done. Qed.

Lemma steps_EnsureOwnershipTag (P : relation S) `{!PreOrder P} c v :
  (∀ path, harmless P c "GET" path) → harmless P c "POST" ("/api/" +:+ v +:+ "/tag") →
  steps P (EnsureOwnershipTag c v).
Proof.
  intros Hg Hp. unfold EnsureOwnershipTag, GetOwnershipTagID. apply steps_bind; [done| |].
  - apply steps_attempt, steps_bind; [done|eauto with nebularr|]. intros tags.
    destruct (list_find _ tags) as [[i tag]|]; auto with nebularr.
  - intros [tagID|e]; eauto with nebularr.
Qed.

(** The callbacks of [Apply] return on well-typed changes. *)
Lemma callbacks_return o c tagID cs :
  changesTyped cs →
  returns (λ change, onService (applyCreate o c change tagID) : MS unit) (cs_Creates cs) ∧
  returns (λ change, let* w := Prelude.get in
    onService (applyUpdate o c (w_namingConfigID w) change tagID) : MS unit) (cs_Updates cs) ∧
  returns (λ change, onService (applyDelete c change) : MS unit) (cs_Deletes cs).
Proof.
  intros [Hc Hu]. split_and!; intros ch w Hin.
  - apply (steps_onService anything), applyCreate_steps; auto using anything_preorder, quiet_anything, harmless_anything.
  - assert (steps (onServiceRel anything) (let* w := Prelude.get in
      onService (applyUpdate o c (w_namingConfigID w) ch tagID))) as Hs; [|apply (Hs w)].
    apply steps_bind; [typeclasses eauto|apply steps_get; typeclasses eauto|]. intros w'.
    apply steps_onService, applyUpdate_steps; auto using anything_preorder, quiet_anything, harmless_anything.
  - apply (steps_onService anything), applyDelete_steps; auto using anything_preorder, quiet_anything, harmless_anything.
Qed.

(** The run of [Apply]: the ownership tag, then the creations, the updates and the
    deletions. *)
Definition applyRun o conn changes (w : World S) : World S * outcome (option ApplyResult * option error) :=
  let c := newClient conn in
  match onService (EnsureOwnershipTag c "v3") w with
  | (w1, Ret tagID) =>
      let '(w2, errors) := applyPhases changes
        (λ change, onService (applyCreate o c change tagID))
        (λ change, let* w := Prelude.get in onService (applyUpdate o c (w_namingConfigID w) change tagID))
        (λ change, onService (applyDelete c change)) w1 in
      (w2, Ret (Some (resultOf changes errors), None))
  | (w1, Err e) => (w1, Ret (None, Some ("failed to ensure ownership tag: " +:+ e)%string))
  | (w1, Panic why) => (w1, Panic why)
  end.

Lemma Apply_typed_run o conn changes (w : World S) : changesTyped changes →
  Apply o conn changes w = applyRun o conn changes w ∧ ∀ why, (applyRun o conn changes w).2 ≠ Panic why.
Proof.
  intros Ht. unfold Apply, applyRun. set (c := newClient conn).
  destruct (steps_onService anything _ (steps_EnsureOwnershipTag anything c "v3"
    (harmless_anything c "GET") (harmless_anything c "POST" _)) w) as [_ Hn].
  unfold bind, attempt, ensureOwnershipTag.
  destruct (onService (EnsureOwnershipTag c "v3") w) as [w1 [tagID|e|why]]; simpl in Hn; [|done|by destruct (Hn why)].
  destruct (callbacks_return o c tagID changes Ht) as (Hc & Hu & Hd).
  pose proof (ApplyChanges_eq changes _ _ _ w1 Hc Hu Hd) as He.
  destruct (applyPhases _ _ _ _ w1) as [w2 errors]. unfold bind in He. by rewrite He.
Qed.

(** C12: Applying the changes of a diff never panics, whatever the two states are,
    however the service answers and in whatever order maps are visited.  If the ownership
    tag cannot be ensured, the error of that is returned in the world it left, nothing
    having been applied.  Otherwise every creation, then every update, then every deletion
    was attempted, in order and each in the world the one before it left, and the result
    has the errors of exactly those that failed and accounts for all of them. *)
Theorem Apply_of_diff_returns o od conn mid nid current desired (w : World S) :
  let changes := diffIR od mid nid current desired in
  let c := newClient conn in
  match onService (EnsureOwnershipTag c "v3") w with
  | (w1, Err e) =>
      Apply o conn changes w = (w1, Ret (None, Some ("failed to ensure ownership tag: " +:+ e)%string))
  | (w1, Ret tagID) => ∃ r,
      let create change := onService (applyCreate o c change tagID) in
      let update change := let* w := Prelude.get in onService (applyUpdate o c (w_namingConfigID w) change tagID) in
      let remove change := onService (applyDelete c change) in
      let w2 := applyAll create (cs_Creates changes) w1 in
      let w3 := applyAll update (cs_Updates changes) w2 in
      let w4 := applyAll remove (cs_Deletes changes) w3 in
      Apply o conn changes w = (w4, Ret (Some r, None)) ∧
      ar_Errors r = failures create (cs_Creates changes) w1 ++ failures update (cs_Updates changes) w2 ++
        failures remove (cs_Deletes changes) w3 ∧
      ar_Failed r = Z.of_nat (length (ar_Errors r)) ∧
      ar_Applied r + ar_Failed r = TotalChanges changes
  | (_, Panic _) => False
  end.
Proof.
  intros changes c. destruct (Apply_typed_run o conn changes w (diffIR_typed od mid nid current desired)) as [-> Hp].
  unfold applyRun in *. fold c in Hp |- *. destruct (onService (EnsureOwnershipTag c "v3") w) as [w1 [tagID|e|why]]; [|done|by destruct (Hp why)].
  eexists. split; [done|]. split; [done|]. split; [done|]. cbn. lia.
Qed.
End no_panic.
