(* ===== verification/SonarrConverge.v ===== *)
(** * A sync of Sonarr converges

    The documented contract of a collection of the REST API ([LawsAt]): what
    the service answers to a list, a create, an update and a delete, and that other
    requests leave the collection alone.  Against it, the adapter's handlers
    implement the laws of [Managed], so that reading the state, diffing it and
    applying the diff brings each collection to the desired state. *)
From S2P Require Export SonarrWire SonarrSafe Converge Rest.

(** ** The contract of Sonarr's collections

    [LawsAt] of the third version of the API. *)

Definition path (name : string) : string := collectionPath "/api/v3/" name.

Abbreviation tagKnown c := (tagKnownAt c "v3").

(** ** The adapter's handlers implement the laws *)

Section handlers.
Context {S : Type} `{Service S} (o : RangeOrder) (c : Client) (tagID : Z) (base : plainBase c).
Abbreviation MS := (M (World S)).

(** The callbacks of [Apply]. *)
Definition createCall (ch : Change) : MS unit := onService (applyCreate o c ch tagID).
Definition updateCall (ch : Change) : MS unit :=
  let* w := Prelude.get in onService (applyUpdate o c (w_namingConfigID w) ch tagID).
Definition deleteCall (ch : Change) : MS unit := onService (applyDelete c ch).

Definition withService (w : World S) (s' : S) : World S :=
  mkWorld s' (w_managedProfileID w) (w_namingConfigID w).

Lemma onService_ok {A} (m : M S A) (w : World S) s' a :
  m (w_service w) = (s', Ret a) → onService m w = (withService w s', Ret a).
Proof. unfold onService. by intros ->. Qed.


Lemma discard_ok {A} f (m : M S A) s s' a : m s = (s', Ret a) → (wrapErr f m ;;; ret tt) s = (s', Ret tt).
Proof. unfold bind. by intros ->%(wrapErr_ok f). Qed.

(** A resource kind: the collection of type [R] and how the adapter sees it. *)
Definition managedIn {R A} (ops : DiffOps A) (col : Collection S R) (id : R → Z) (managed : R → bool)
    (toIR : R → A) (make : Z → A → R) (ok : A → Prop) : Managed R A (World S) ops :=
  mkManaged id managed toIR make (λ w, col_view col (w_service w)) (λ _, True) ok
    createCall updateCall deleteCall.

(** *** Download clients *)

Definition clientCollection (view : S → gmap Z DownloadClientResource)
    : Collection S DownloadClientResource := mkCollection "/api/v3/" "downloadclient" view dcr_set_ID.

Definition managedClients view : Managed DownloadClientResource DownloadClientIR (World S) downloadClientOps :=
  managedIn downloadClientOps (clientCollection view) dcr_ID (λ r, HasTag (dcr_Tags r) tagID) clientToIR
    (storedClient tagID) portOk.

Lemma dc_ID_clientToIR r : dc_ID (clientToIR r) = dcr_ID r.
Proof. apply extracted_client_ID. Qed.

#[export] Instance managedClients_laws view others `{!LawsAt c "/api/v3/" (clientCollection view) others} :
  ManagedLaws (managedClients view).
Proof.
  apply (managedLaws_by_id _ dc_ID).
  - done.
  - apply dc_ID_clientToIR.
  - done.
  - intros i d. simpl. by rewrite Z.eqb_refl.
  - intros i d _. change (dc_Name (clientToIR (storedClient tagID i d)) = dc_Name d).
    by rewrite clientToIR_stored.
  - intros i d Hok. by apply stored_client_equal.
  - intros w n d Hok.
    destruct (Post_stores c base (clientCollection view) eq_refl ltac:(done) eq_refl (downloadClientFromIR d tagID)
      (storedClient tagID 0 d) (decode_client tagID 0 d) (w_service w)) as (s' & i & HP & _ & _ & Hn & Hv).
    eexists _, i. split_and!; [by apply onService_ok, HP|done|exact Hv].
  - intros w n cur d Hok Hi.
    destruct (Put_stores c base (clientCollection view) eq_refl ltac:(done) eq_refl
      (dcr_set_ID (dc_ID cur) (downloadClientFromIR d tagID)) (storedClient tagID (dc_ID cur) d)
      (decode_client tagID (dc_ID cur) d) (w_service w) (dc_ID cur) Hi) as (s' & HP & _ & Hv).
    eexists. split; [by apply onService_ok, HP|exact Hv].
  - intros w n cur Hi.
    destruct (Delete_removes c base (clientCollection view) eq_refl ltac:(done) eq_refl (w_service w) (dc_ID cur) Hi)
      as (s' & HP & Hv).
    eexists. split; [by apply onService_ok, HP|exact Hv].
Qed.
(** *** Indexers *)

Definition indexerCollection (view : S → gmap Z IndexerResource) : Collection S IndexerResource :=
  mkCollection "/api/v3/" "indexer" view ixr_set_ID.

Definition managedIndexers view : Managed IndexerResource IndexerIR (World S) indexerOps :=
  managedIn indexerOps (indexerCollection view) ixr_ID (λ r, HasTag (ixr_Tags r) tagID) indexerToIR
    (storedIndexer tagID) (λ _, True).

Lemma idx_ID_indexerToIR r : idx_ID (indexerToIR r) = ixr_ID r.
Proof. apply extracted_indexer_ID. Qed.

#[export] Instance managedIndexers_laws view others `{!LawsAt c "/api/v3/" (indexerCollection view) others} :
  ManagedLaws (managedIndexers view).
Proof.
  apply (managedLaws_by_id _ idx_ID).
  - done.
  - apply idx_ID_indexerToIR.
  - done.
  - intros i d. simpl. by rewrite Z.eqb_refl.
  - intros i d _. change (idx_Name (indexerToIR (storedIndexer tagID i d)) = idx_Name d).
    by rewrite indexerToIR_stored.
  - intros i d _. apply stored_indexer_equal.
  - intros w n d _.
    destruct (Post_stores c base (indexerCollection view) eq_refl ltac:(done) eq_refl (indexerFromIR d tagID)
      (storedIndexer tagID 0 d) (decode_indexer tagID 0 d) (w_service w)) as (s' & i & HP & _ & _ & Hn & Hv).
    eexists _, i. split_and!; [by apply onService_ok, HP|done|exact Hv].
  - intros w n cur d _ Hi.
    destruct (Put_stores c base (indexerCollection view) eq_refl ltac:(done) eq_refl
      (ixr_set_ID (idx_ID cur) (indexerFromIR d tagID)) (storedIndexer tagID (idx_ID cur) d)
      (decode_indexer tagID (idx_ID cur) d) (w_service w) (idx_ID cur) Hi) as (s' & HP & _ & Hv).
    eexists. split; [by apply onService_ok, HP|exact Hv].
  - intros w n cur Hi.
    destruct (Delete_removes c base (indexerCollection view) eq_refl ltac:(done) eq_refl (w_service w) (idx_ID cur) Hi)
      as (s' & HP & Hv).
    eexists. split; [by apply onService_ok, HP|exact Hv].
Qed.

(** *** Custom formats: every one of them is managed *)

Definition cfr_set_ID (id : Z) (r : CustomFormatResource) : CustomFormatResource :=
  mkCustomFormatResource id (cfr_Name r) (cfr_IncludeCustomFormatWhenRenaming r) (cfr_Specifications r).

Definition formatCollection (view : S → gmap Z CustomFormatResource) : Collection S CustomFormatResource :=
  mkCollection "/api/v3/" "customformat" view cfr_set_ID.

Definition survives (d : CustomFormatIR) : Prop :=
  Forall (λ s, textual s = true ∨ fs_Value s = "0") (cf_Specifications d).

Definition managedFormats view : Managed CustomFormatResource CustomFormatIR (World S) sonarrCustomFormatOps :=
  managedIn sonarrCustomFormatOps (formatCollection view) cfr_ID (λ _, true) customFormatToIR
    (λ i d, storedFormat (cf_set_ID i d)) survives.

#[export] Instance managedFormats_laws view others `{!LawsAt c "/api/v3/" (formatCollection view) others} :
  ManagedLaws (managedFormats view).
Proof.
  apply (managedLaws_by_id _ cf_ID); try done.
  - intros i d Hd. change (customFormatsEqual (customFormatToIR (storedFormat (cf_set_ID i d))) d = true).
    by apply stored_format_equal.
  - intros w n d _.
    destruct (Post_stores c base (formatCollection view) eq_refl ltac:(done) eq_refl (irToCustomFormat d)
      (storedFormat d) (decode_format d) (w_service w)) as (s' & i & _ & HP & _ & Hn & Hv).
    exists (withService w s'), i. split_and!; [|done|exact Hv]. apply onService_ok.
    exact (discard_ok _ _ _ _ _ HP).
  - intros w n cur d _ Hi.
    destruct (Put_stores c base (formatCollection view) eq_refl ltac:(done) eq_refl (irToCustomFormat (cf_set_ID (cf_ID cur) d))
      (storedFormat (cf_set_ID (cf_ID cur) d)) (decode_format _) (w_service w) (cf_ID cur) Hi)
      as (s' & _ & HP & Hv).
    exists (withService w s'). split; [|exact Hv]. apply onService_ok.
    exact (discard_ok _ _ _ _ _ HP).
  - intros w n cur Hi.
    destruct (Delete_removes c base (formatCollection view) eq_refl ltac:(done) eq_refl (w_service w) (cf_ID cur) Hi)
      as (s' & HP & Hv).
    exists (withService w s'). split; [|exact Hv]. apply onService_ok.
    exact (wrapErr_ok _ _ _ _ _ HP).
Qed.

(** *** Remote path mappings: every one of them is managed *)

Definition mappingCollection (view : S → gmap Z RemotePathMappingResource)
    : Collection S RemotePathMappingResource :=
  mkCollection "/api/v3/" "remotepathmapping" view
    (λ i r, mkRemotePathMappingResource i (rpr_Host r) (rpr_RemotePath r) (rpr_LocalPath r)).

Definition managedMappings view
    : Managed RemotePathMappingResource RemotePathMappingIR (World S) remotePathMappingOps :=
  managedIn remotePathMappingOps (mappingCollection view) rpr_ID (λ _, true) mappingToIR
    mappingFromIR (λ _, True).

#[export] Instance managedMappings_laws view others `{!LawsAt c "/api/v3/" (mappingCollection view) others} :
  ManagedLaws (managedMappings view).
Proof.
  apply (managedLaws_by_id _ rpm_ID); try done.
  - intros i d _. simpl. apply String.eqb_refl.
  - intros w n d _.
    destruct (Post_stores c base (mappingCollection view) eq_refl ltac:(done) eq_refl (mappingFromIR 0 d)
      (mappingFromIR 0 d) (decode_mapping _) (w_service w)) as (s' & i & _ & HP & _ & Hn & Hv).
    exists (withService w s'), i. split_and!; [|done|exact Hv]. apply onService_ok.
    exact (discard_ok _ _ _ _ _ HP).
  - intros w n cur d _ Hi.
    destruct (Put_stores c base (mappingCollection view) eq_refl ltac:(done) eq_refl (mappingFromIR (rpm_ID cur) d)
      (mappingFromIR (rpm_ID cur) d) (decode_mapping _) (w_service w) (rpm_ID cur) Hi)
      as (s' & _ & HP & Hv).
    exists (withService w s'). split; [|exact Hv]. apply onService_ok.
    exact (discard_ok _ _ _ _ _ HP).
  - intros w n cur Hi.
    destruct (Delete_removes c base (mappingCollection view) eq_refl ltac:(done) eq_refl (w_service w) (rpm_ID cur) Hi)
      as (s' & HP & Hv).
    exists (withService w s'). split; [|exact Hv]. apply onService_ok.
    exact (wrapErr_ok _ _ _ _ _ HP).
Qed.
End handlers.

(** ** Reading the state *)

Section reading.
Context {S : Type} `{Service S} (c : Client) (P : relation S) `{!PreOrder P}.
Context (get_harmless : ∀ p, harmless P c "GET" p).
Abbreviation MS := (M (World S)).
Abbreviation PW := (onServiceRel P).

(** What a part of the state is read as in the world [w]. *)
Definition readFrom {A B} (zero : B) (f : A → B) (m : MS A) (w : World S) : B :=
  match (m w).2 with Ret a => f a | _ => zero end.

Lemma orZero_reads {A B} (zero : B) (f : A → B) (m : MS A) w :
  steps PW m → ∃ w', orZero zero f m w = (w', Ret (readFrom zero f m w)) ∧ PW w w'.
Proof.
  intros Hm. destruct (Hm w) as [HP Hn]. exists (m w).1. split; [|done].
  unfold orZero, bind, attempt, readFrom. destruct (m w) as [w' [a|e|why]]; try done.
  by destruct (Hn why).
Qed.

Lemma steps_setManagedProfileID id : steps PW (setManagedProfileID id : MS unit).
Proof. intros w. split; [|done]. unfold onServiceRel. simpl. reflexivity. Qed.

Lemma steps_setNamingConfigID id : steps PW (setNamingConfigID id : MS unit).
Proof. intros w. split; [|done]. unfold onServiceRel. simpl. reflexivity. Qed.
#[local] Hint Resolve steps_setManagedProfileID steps_setNamingConfigID : nebularr.

Lemma steps_GetService A `{FromJSON A} p : steps PW (onService (Get A c p)).
Proof. auto with nebularr. Qed.
#[local] Hint Resolve steps_GetService : nebularr.

Lemma steps_getManagedQualityProfiles tagID : steps PW (getManagedQualityProfiles c tagID).
Proof.
  unfold getManagedQualityProfiles. apply steps_bind; [typeclasses eauto|auto with nebularr|].
  intros profiles. apply steps_forRange; [typeclasses eauto|]. intros managed p _.
  case_match; auto using steps_bind, steps_ret, steps_setManagedProfileID, onServiceRel_preorder.
Qed.

Lemma steps_getter {A B} (m : MS A) (f : A → B) : steps PW m → steps PW (let* x := m in ret (f x)).
Proof. intros Hm. apply steps_bind; [typeclasses eauto|done|]. intros a. apply steps_ret. typeclasses eauto. Qed.

Lemma steps_getNamingConfig : steps PW (getNamingConfig c).
Proof.
  unfold getNamingConfig. apply steps_bind; [typeclasses eauto|auto with nebularr|]. intros naming.
  apply steps_bind; [typeclasses eauto|auto with nebularr|]. intros _. apply steps_ret. typeclasses eauto.
Qed.

Lemma steps_wrappedGet A `{FromJSON A} e p : steps PW (wrapErr e (onService (Get A c p))).
Proof. apply steps_wrapErr. auto with nebularr. Qed.

Lemma steps_FetchConfig A `{FromJSON A} p : steps PW (onService (FetchConfig A c p)).
Proof. apply steps_onService. unfold FetchConfig. auto with nebularr. Qed.

Lemma steps_getAuthenticationIR : steps PW (getAuthenticationIR c).
Proof.
  apply steps_onService. unfold GetAuthenticationIR. apply steps_bind; [done| |].
  - unfold FetchConfig. auto with nebularr.
  - intros config. by apply steps_ret.
Qed.

(** The parts of the state, each read in some world the reading passes through. *)
Definition readIn {B} (w : World S) (x : B) (f : World S → B) : Prop := ∃ w1, PW w w1 ∧ x = f w1.

Lemma readIn_mono {B} w w' (x : B) f : PW w w' → readIn w' x f → readIn w x f.
Proof. intros Hw (w1 & H1 & Hx). exists w1. split; [by etrans|done]. Qed.

Lemma readIn_now {B} w (x : B) f : x = f w → readIn w x f.
Proof. intros ->. exists w. by split. Qed.

(** Runs the next read of [CurrentState]. *)
Ltac read_next w' HP :=
  match goal with
  | |- context [bind (orZero ?z ?f ?m) ?k ?w] =>
      let E := fresh "E" in
      destruct (orZero_reads z f m w) as (w' & E & HP); [|unfold bind at 1; rewrite E; clear E]
  end.

Lemma CurrentState_reads now conn tagID w :
  c = newClient conn → getOwnershipTagID c w = (w, Ret tagID) →
  ∃ w' cur, CurrentState now conn w = (w', Ret cur) ∧ PW w w' ∧
    readIn w (ir_DownloadClients cur) (readFrom [] id (getManagedDownloadClients c tagID)) ∧
    readIn w (from_option idxs_Direct [] (ir_Indexers cur)) (readFrom [] id (getManagedIndexers c tagID)) ∧
    readIn w (ir_RemotePathMappings cur) (readFrom [] id (getRemotePathMappings c)) ∧
    readIn w (ir_CustomFormats cur) (readFrom [] id (getAllCustomFormats c)).
Proof.
  intros Hc Htag. unfold CurrentState. rewrite <-Hc. unfold bind at 1, attempt. rewrite Htag.
  read_next w1 H1; [apply steps_getManagedQualityProfiles|].
  read_next w2 H2; [apply steps_getter, steps_GetService|].
  read_next w3 H3; [apply steps_getter, steps_GetService|].
  read_next w4 H4; [apply steps_getter, steps_GetService|].
  read_next w5 H5; [apply steps_getter, steps_wrappedGet|].
  read_next w6 H6; [apply steps_getNamingConfig|].
  read_next w7 H7; [apply steps_getter, steps_wrappedGet|].
  read_next w8 H8; [apply steps_getter, steps_FetchConfig|].
  read_next w9 H9; [apply steps_getAuthenticationIR|].
  read_next w10 H10; [apply steps_getter, steps_wrappedGet|].
  read_next w11 H11; [apply steps_getter, steps_wrappedGet|].
  read_next w12 H12; [apply steps_getter, steps_wrappedGet|].
  assert (PW w w2) as K2 by (by etrans). assert (PW w w4) as K4 by (by do 2 (etrans; [|done])).
  assert (PW w w10) as K10 by (by do 6 (etrans; [|done])).
  eexists _, _. split; [done|]. split_and!; [by do 2 (etrans; [|done])|..].
  - exists w1. by split.
  - exists w2. split; [done|]. unfold readFrom. cbn [currentIR ir_Indexers].
    destruct (getManagedIndexers c tagID w2) as [w' [[|i l]|e|why]]; done.
  - exists w4. by split.
  - exists w10. by split.
Qed.
End reading.

(** ** One sync *)

Section sync.
Context {S : Type} `{Service S}.
Abbreviation MS := (M (World S)).

(** The steps of a reconciliation that concern the adapter: read the state, diff
    it against the desired one, apply the changes. *)
Definition syncOnce (now : Z) (od : nat → RangeOrder) (o : RangeOrder) (conn : ConnectionIR) (desired : IR)
    : MS (option ApplyResult * option error) :=
  let* current := CurrentState now conn in
  let* changes := Diff od current desired None in
  Apply o conn changes.

Definition allCollections : list string := ["qualityprofile"; "customformat"; "downloadclient"; "indexer";
  "rootfolder"; "config/naming"; "remotepathmapping"; "notification"; "delayprofile"].
Definition otherThan (name : string) : list string := filter (λ n, n ≠ name) allCollections.

Context (conn : ConnectionIR) (tagID : Z).
Abbreviation c := (newClient conn).
Hypothesis base : plainBase c.
Hypothesis known : tagKnown c tagID.

Lemma getOwnershipTagID_known w : getOwnershipTagID c w = (w, Ret tagID).
Proof.
  destruct (EnsureOwnershipTag_known c base "v3" tagID (w_service w) eq_refl known) as [_ HG].
  unfold getOwnershipTagID. rewrite (onService_ok _ _ _ _ HG). by destruct w.
Qed.

Lemma Apply_known o changes w :
  Apply o conn changes w =
  (let* r := ApplyChanges changes (createCall o c tagID) (updateCall o c tagID) (deleteCall c) in
   ret (Some r, None)) w.
Proof.
  destruct (EnsureOwnershipTag_known c base "v3" tagID (w_service w) eq_refl known) as [HE _].
  assert (ensureOwnershipTag c w = (w, Ret tagID)) as HT.
  { unfold ensureOwnershipTag. rewrite (onService_ok _ _ _ _ HE). by destruct w. }
  unfold Apply. by rewrite (bind_attempt_ret _ _ _ _ _ HT).
Qed.

Lemma reads_quiet {R} `{FromJSON R} (col : Collection S R)
    `{!LawsAt c "/api/v3/" col (otherThan (col_name col))} p : harmless (sameCollection col) c "GET" p.
Proof. apply (@col_get S _ c _ R _ col (otherThan (col_name col)) _). Qed.

Section kind.
Context {R A : Type} `{FromJSON R} {ops : DiffOps A} (col : Collection S R).
Context `{!LawsAt c "/api/v3/" col (otherThan (col_name col))}.
Context (o : RangeOrder) (m : Managed R A (World S) ops) `{!ManagedLaws m}.
Hypothesis view_is : ∀ w, mg_view m w = col_view col (w_service w).
Hypothesis inv_holds : ∀ w, mg_inv m w.
Hypothesis create_is : mg_create m = createCall o c tagID.
Hypothesis update_is : mg_update m = updateCall o c tagID.
Hypothesis delete_is : mg_delete m = deleteCall c.
Context (rt : string).
Abbreviation theirs := (λ ch, ch_ResourceType ch ≠ rt).

Lemma quiet_others name : name ∈ otherThan (col_name col) → quiet (sameCollection col) c name.
Proof. apply (@col_others S _ c _ R _ col (otherThan (col_name col)) _). Qed.

(** The changes of the other steps leave the collection alone. *)
Lemma steps_sameView {B} (f : MS B) : steps (onServiceRel (sameCollection col)) f → steps (sameView m) f.
Proof.
  intros Hf w. destruct (Hf w) as [HP Hn]. split; [|done]. unfold sameView. rewrite !view_is. split; [done|]. intros _. apply inv_holds.
Qed.

Lemma others_foreign rts d :
  changesOfAny rts d →
  Forall (λ rt', rt' ≠ rt ∧ collectionOf rt' ∈ otherThan (col_name col)) rts →
  Forall (foreign m theirs (mg_create m)) (cs_Creates d) ∧
  Forall (foreign m theirs (mg_update m)) (cs_Updates d) ∧
  Forall (foreign m theirs (mg_delete m)) (cs_Deletes d).
Proof.
  intros (Hc & Hu & Hd) Hr. rewrite !Forall_forall. setoid_rewrite Forall_forall in Hr.
  pose proof (reads_quiet col) as Hg.
  rewrite create_is, update_is, delete_is. split_and!; intros ch Hin.
  - destruct (Hc ch Hin) as [[Hne Hq]%Hr Ht]. split; [done|].
    apply steps_sameView, steps_onService, applyCreate_steps; auto using quiet_others.
    typeclasses eauto.
  - destruct (Hu ch Hin) as [[Hne Hq]%Hr Ht]. split; [done|].
    apply steps_sameView, steps_bind; [typeclasses eauto|apply steps_get; typeclasses eauto|].
    intros w. apply steps_onService, applyUpdate_steps; auto using quiet_others.
    typeclasses eauto.
  - destruct (Hr _ (Hd ch Hin)) as [Hne Hq]. split; [done|].
    apply steps_sameView, steps_onService, applyDelete_steps; auto using quiet_others.
    typeclasses eauto.
Qed.

Lemma diff_embeds od mid nid current desired before f after own :
  diffSteps od mid nid current desired = before ++ (rt, f) :: after → f emptyChangeSet = own →
  Forall (λ rt', rt' ≠ rt ∧ collectionOf rt' ∈ otherThan (col_name col)) (before.*1 ++ after.*1) →
  embeds m theirs own (diffIR od mid nid current desired).
Proof.
  intros Hs <- [Hb Ha]%Forall_app.
  destruct (diffIR_around _ _ _ _ _ _ _ _ _ Hs) as (pre & post & -> & Hpre & Hpost).
  destruct (others_foreign _ _ Hpre Hb) as (C1 & U1 & D1), (others_foreign _ _ Hpost Ha) as (C2 & U2 & D2).
  split_and!; eexists _, _; simpl; eauto.
Qed.

(** The part of the representation that holds this kind, the order in which its
    diff visits maps, and the getter [CurrentState] reads it with. *)
Context (part : IR → list A) (k : nat) (getter : MS (list A)).
Hypothesis getter_lists : ∀ w : World S, ∃ w' l,
  getter w = (w', Ret (managedIR m l)) ∧ listing (col_view col (w_service w)) l.
Hypothesis part_read : ∀ now w, ∃ w' cur, CurrentState now conn w = (w', Ret cur) ∧
  onServiceRel (sameCollection col) w w' ∧
  readIn (sameCollection col) w (part cur) (readFrom [] (λ x, x) getter).
Hypothesis part_diffed : ∀ od mid nid current desired, ∃ before f after,
  diffSteps od mid nid current desired = before ++ (rt, f) :: after ∧
  f emptyChangeSet = diffNamed ops (od k) (part current) (part desired) emptyChangeSet ∧
  Forall (λ rt', rt' ≠ rt ∧ collectionOf rt' ∈ otherThan (col_name col)) (before.*1 ++ after.*1).

Lemma part_is_listing now w : ∃ w' cur l, CurrentState now conn w = (w', Ret cur) ∧
  col_view col (w_service w') = col_view col (w_service w) ∧
  listing (col_view col (w_service w)) l ∧ part cur = managedIR m l.
Proof.
  destruct (part_read now w) as (w' & cur & E & HP & (w1 & Hw1 & Hp)).
  destruct (getter_lists w1) as (w1' & l & G & Hl). exists w', cur, l. split_and!; [done|done| |].
  - by rewrite Hw1 in Hl.
  - rewrite Hp. unfold readFrom. by rewrite G.
Qed.

(** Applying the diff of a state that was read from the collection. *)
Lemma part_applies od mid nid cur l desired w :
  listing (col_view col (w_service w)) l → part cur = managedIR m l →
  wellFormed m (col_view col (w_service w)) → Forall (mg_ok m) (part desired) →
  ∃ w' r, Apply o conn (diffIR od mid nid cur desired) w = (w', Ret (Some r, None)) ∧
    (∀ e, e ∈ ar_Errors r → ch_ResourceType (ae_Change e) ≠ rt) ∧
    wellFormed m (col_view col (w_service w')) ∧
    unmanagedKept m (col_view col (w_service w)) (col_view col (w_service w')) ∧
    ∀ l', listing (col_view col (w_service w')) l' → inSync ops (managedIR m l') (part desired).
Proof.
  intros Hl Hp Hwf Hok. destruct (part_diffed od mid nid cur desired) as (before & f & after & Hs & Hf & Hothers).
  pose proof (diff_embeds od mid nid cur desired before f after _ Hs Hf Hothers) as Hemb. rewrite Hp in Hemb.
  rewrite <-view_is in *.
  destruct (converge m theirs (od k) w l (part desired) (diffIR od mid nid cur desired))
    as (w2 & r & EA & (errs & Herrs & _ & _ & Hth) & [_ Hwf2] & Hkeep & Hsync); [by split|done..|].
  exists w2, r. rewrite <-view_is. split_and!; [|by rewrite Herrs|done..].
  rewrite Apply_known. rewrite create_is, update_is, delete_is in EA. by rewrite (bind_ok _ _ _ _ _ EA).
Qed.

Lemma part_sync now od desired w :
  wellFormed m (col_view col (w_service w)) → Forall (mg_ok m) (part desired) →
  ∃ w2 r w3 cur', syncOnce now od o conn desired w = (w2, Ret (Some r, None)) ∧
    (∀ e, e ∈ ar_Errors r → ch_ResourceType (ae_Change e) ≠ rt) ∧
    wellFormed m (col_view col (w_service w2)) ∧
    unmanagedKept m (col_view col (w_service w)) (col_view col (w_service w2)) ∧
    CurrentState now conn w2 = (w3, Ret cur') ∧ inSync ops (part cur') (part desired) ∧
    (∃ l', listing (col_view col (w_service w2)) l' ∧ part cur' = managedIR m l').
Proof.
  intros Hwf Hok. destruct (part_is_listing now w) as (w1 & cur & l & E & Hv & Hl & Hp).
  rewrite <-Hv in Hl, Hwf.
  destruct (part_applies od (w_managedProfileID w1) (w_namingConfigID w1) cur l desired w1)
    as (w2 & r & EA & Herr & Hwf2 & Hkeep & Hsync); [done..|].
  destruct (part_is_listing now w2) as (w3 & cur' & l' & E' & _ & Hl' & Hp').
  exists w2, r, w3, cur'. split_and!; try done.
  - unfold syncOnce. rewrite (bind_ok _ _ _ _ _ E). exact EA.
  - by rewrite Hv in Hkeep.
  - rewrite Hp'. by apply Hsync.
  - by exists l'.
Qed.
End kind.

(** *** The four kinds *)

Lemma onServiceList {R} `{FromJSON R} (col : Collection S R)
    `{!LawsAt c "/api/v3/" col (otherThan (col_name col))} w :
  col_api col = "/api/v3/" → plainName (col_name col) = true →
  ∃ w' l, onService (Get (list R) c (path (col_name col))) w = (w', Ret l) ∧
    listing (col_view col (w_service w)) l.
Proof.
  intros Hapi Hp. destruct (Get_list c base col) with (s := w_service w) as (l & E & Hl);
    [by rewrite Hapi..|done|]. rewrite Hapi in E.
  eexists _, l. split; [by apply onService_ok|done].
Qed.

Lemma clients_listed o view `{!LawsAt c "/api/v3/" (clientCollection view) (otherThan "downloadclient")}
    (w : World S) : ∃ w' l,
  getManagedDownloadClients c tagID w = (w', Ret (managedIR (managedClients o c tagID view) l)) ∧
  listing (view (w_service w)) l.
Proof.
  destruct (onServiceList (clientCollection view) w eq_refl eq_refl) as (w' & l & E & Hl). exists w', l.
  split; [exact (bind_ok _ _ _ _ _ E)|done].
Qed.

Lemma indexers_listed o view `{!LawsAt c "/api/v3/" (indexerCollection view) (otherThan "indexer")}
    (w : World S) : ∃ w' l,
  getManagedIndexers c tagID w = (w', Ret (managedIR (managedIndexers o c tagID view) l)) ∧
  listing (view (w_service w)) l.
Proof.
  destruct (onServiceList (indexerCollection view) w eq_refl eq_refl) as (w' & l & E & Hl). exists w', l.
  split; [exact (bind_ok _ _ _ _ _ E)|done].
Qed.

(** Where every resource is managed. *)
Lemma managedIR_all {R A W} {ops : DiffOps A} (m : Managed R A W ops) l :
  (∀ r, mg_managed m r = true) → managedIR m l = mg_toIR m <$> l.
Proof.
  intros Hm. unfold managedIR. f_equal. induction l as [|r l IH]; [done|].
  by rewrite filter_cons_True, IH.
Qed.

Lemma formats_listed o view `{!LawsAt c "/api/v3/" (formatCollection view) (otherThan "customformat")}
    (w : World S) : ∃ w' l,
  getAllCustomFormats c w = (w', Ret (managedIR (managedFormats o c tagID view) l)) ∧
  listing (view (w_service w)) l.
Proof.
  destruct (onServiceList (formatCollection view) w eq_refl eq_refl) as (w' & l & E & Hl). exists w', l.
  rewrite managedIR_all by done. split; [|done].
  exact (bind_ok _ _ _ _ _ (wrapErr_ok (λ e, "failed to get custom formats: " +:+ e)%string _ _ _ _ E)).
Qed.

Lemma mappings_listed o view `{!LawsAt c "/api/v3/" (mappingCollection view) (otherThan "remotepathmapping")}
    (w : World S) : ∃ w' l,
  getRemotePathMappings c w = (w', Ret (managedIR (managedMappings o c tagID view) l)) ∧
  listing (view (w_service w)) l.
Proof.
  destruct (onServiceList (mappingCollection view) w eq_refl eq_refl) as (w' & l & E & Hl). exists w', l.
  rewrite managedIR_all by done. split; [|done].
  exact (bind_ok _ _ _ _ _ (wrapErr_ok (λ e, "failed to get remote path mappings: " +:+ e)%string _ _ _ _ E)).
Qed.
End sync.

(** The steps around one step of the diff. *)
Ltac around n :=
  match goal with
  | |- ∃ before f after, diffSteps ?o ?mid ?nid ?cur ?des = _ ∧ _ =>
      let l := eval unfold diffSteps in (diffSteps o mid nid cur des) in
      let b := eval cbn [take] in (take n l) in
      let a := eval cbn [drop] in (drop (S n) l) in
      exists b; eexists; exists a; split; [reflexivity|split; [reflexivity|]];
      repeat (apply Forall_cons; split); try apply Forall_nil_2;
      (split; [discriminate|by apply (bool_decide_unpack _)])
  end.
