(* ===== verification/SonarrSync.v ===== *)
(** * Theorems: a sync of Sonarr converges

    The properties of one reconciliation against a service that behaves as the REST
    contract says, and a small service ([MiniServer]) that does, which the
    witnesses run them on. *)
From S2P Require Export SonarrConverge.

(** ** Sonarr's collections on the small service *)
Module SonarrMini.
Import MiniServer.

Lemma decodes_client doc r i :
  fromJSON doc = Some r → fromJSON (assignID i doc) = Some (dcr_set_ID i r).
Proof.
  revert doc r i. decodes_with_id ltac:(unfold FromJSON_DownloadClientResource).
Qed.

Lemma decodes_indexer doc r i :
  fromJSON doc = Some r → fromJSON (assignID i doc) = Some (ixr_set_ID i r).
Proof. revert doc r i. decodes_with_id ltac:(unfold FromJSON_IndexerResource). Qed.

Lemma decodes_format doc r i :
  fromJSON doc = Some r → fromJSON (assignID i doc) = Some (cfr_set_ID i r).
Proof. revert doc r i. decodes_with_id ltac:(unfold FromJSON_CustomFormatResource). Qed.

(** The three collections meet the hypotheses of the theorems. *)
Abbreviation sonarrMini R name tagID := (MiniService (R := R) "/api/v3/" name tagID).

Lemma sonarr_known_tag {R} `{FromJSON R} (name : string) (tagID : Z) c :
  @tagKnownAt _ (sonarrMini R name tagID) c "v3" tagID.
Proof. by apply known_tag. Qed.

(** The paths of Sonarr's collections differ. *)
Ltac paths_differ :=
  apply Forall_forall; intros other Ho i j; unfold otherThan, allCollections in Ho; set_unfold in Ho;
  destruct_or! Ho; subst other; split_and!; discriminate.

Lemma client_laws c tagID :
  @LawsAt _ (sonarrMini DownloadClientResource "downloadclient" tagID) c "/api/v3/" _ _
    (clientCollection view) (otherThan "downloadclient").
Proof. apply (laws_at _ _ _ decodes_client); [done|paths_differ]. Qed.

Lemma indexer_laws c tagID :
  @LawsAt _ (sonarrMini IndexerResource "indexer" tagID) c "/api/v3/" _ _
    (indexerCollection view) (otherThan "indexer").
Proof. apply (laws_at _ _ _ decodes_indexer); [done|paths_differ]. Qed.

Lemma format_laws c tagID :
  @LawsAt _ (sonarrMini CustomFormatResource "customformat" tagID) c "/api/v3/" _ _
    (formatCollection view) (otherThan "customformat").
Proof. apply (laws_at _ _ _ decodes_format); [done|paths_differ]. Qed.
End SonarrMini.

(** ** The example configuration *)

Definition exampleConn : ConnectionIR := mkConnectionIR "http://sonarr.media:8989" "0123" false.

Lemma exampleConn_plain : plainBase (newClient exampleConn).
Proof. by exists false, "sonarr.media"%string, "8989"%string. Qed.

(** A state to be reached, and a service with a client of the user and a managed
    one that is no longer desired. *)
Definition exampleDesired (clients : list DownloadClientIR) (indexers : list IndexerIR)
    (formats : list CustomFormatIR) : IR :=
  currentIR 0 exampleConn None clients (Some (mkIndexersIR None indexers)) [] [] None [] None None [] formats [].

Definition userClient : DownloadClientResource :=
  mkDownloadClientResource 1 "mine" "Transmission" "TransmissionSettings" "torrent" true 1 [] [] false false.

Definition exampleService : gmap Z any :=
  {[ 1 := toJSON userClient;
     2 := toJSON (dcr_set_ID 2 (downloadClientFromIR (exampleClientIR "nebularr-tv-old" 80) 7)) ]}.

Section theorems.
Context {S : Type} `{Service S}.
Context (conn : ConnectionIR) (tagID : Z) (base : plainBase (newClient conn)).
Context (known : tagKnown (newClient conn) tagID).
Abbreviation c := (newClient conn).

(** C4: a sync of Sonarr brings the download clients to the desired state, whatever
    happens to the other resources.  With the ownership tag in place and the
    collection behaving as documented, reading the state, diffing it and applying
    all changes of the diff returns a result in which no change of a download client
    failed; afterwards the state reads in sync with the desired one, so that the
    next diff has no change for a download client; and the clients that do not
    carry the ownership tag are exactly those that were there before. *)
Theorem sync_download_clients view `{!LawsAt c "/api/v3/" (clientCollection view) (otherThan "downloadclient")}
    now od o desired (w : World S) :
  let m := managedClients o c tagID view in
  wellFormed m (view (w_service w)) →
  Forall portOk (ir_DownloadClients desired) →
  ∃ w2 r w3 current, syncOnce now od o conn desired w = (w2, Ret (Some r, None)) ∧
    (∀ e, e ∈ ar_Errors r → ch_ResourceType (ae_Change e) ≠ ResourceDownloadClient) ∧
    wellFormed m (view (w_service w2)) ∧
    (∀ i client, HasTag (dcr_Tags client) tagID = false →
       view (w_service w) !! i = Some client ↔ view (w_service w2) !! i = Some client) ∧
    CurrentState now conn w2 = (w3, Ret current) ∧
    ∀ o', IsEmpty (DiffDownloadClientsWithIR o' (ir_DownloadClients current)
                     (ir_DownloadClients desired) emptyChangeSet) = true.
Proof.
  intros m Hwf Hok.
  pose proof (managedClients_laws o c tagID base view (otherThan "downloadclient")) as HL.
  destruct (part_sync conn tagID base known (clientCollection view) o m (λ _, eq_refl) (λ _, I) eq_refl eq_refl eq_refl
    ResourceDownloadClient ir_DownloadClients 1%nat (getManagedDownloadClients c tagID)) with (now := now) (od := od) (desired := desired) (w := w)
    as (w2 & r & w3 & cur & E1 & Herr & Hwf2 & Hkeep & E2 & Hsync & _); try done.
  - apply (clients_listed conn tagID base o view).
  - intros now' w'.
    destruct (CurrentState_reads c (sameCollection (clientCollection view)) (reads_quiet conn (clientCollection view))
      now' conn tagID w'
      eq_refl (getOwnershipTagID_known conn tagID base known w')) as (w1 & cur & E & HP & Hr & _).
    by exists w1, cur.
  - intros od' mid nid cur des. around 1%nat.
  - exists w2, r, w3, cur. split_and!; try done. intros o'. by apply diffNamed_empty_iff.
Qed.

(** a sync of Sonarr brings the indexers to the desired state, for every desired
    state: no change of an indexer fails, the next diff has no change for an
    indexer, and the indexers without the ownership tag are untouched. *)
Theorem sync_indexers view `{!LawsAt c "/api/v3/" (indexerCollection view) (otherThan "indexer")}
    now od o desired (w : World S) :
  let m := managedIndexers o c tagID view in
  let direct := λ i, from_option idxs_Direct [] (ir_Indexers i) in
  wellFormed m (view (w_service w)) →
  ∃ w2 r w3 current, syncOnce now od o conn desired w = (w2, Ret (Some r, None)) ∧
    (∀ e, e ∈ ar_Errors r → ch_ResourceType (ae_Change e) ≠ ResourceIndexer) ∧
    wellFormed m (view (w_service w2)) ∧
    (∀ i indexer, HasTag (ixr_Tags indexer) tagID = false →
       view (w_service w) !! i = Some indexer ↔ view (w_service w2) !! i = Some indexer) ∧
    CurrentState now conn w2 = (w3, Ret current) ∧
    ∀ o', IsEmpty (DiffIndexersWithIR o' (direct current) (direct desired) emptyChangeSet) = true.
Proof.
  intros m direct Hwf.
  pose proof (managedIndexers_laws o c tagID base view (otherThan "indexer")) as HL.
  destruct (part_sync conn tagID base known (indexerCollection view) o m (λ _, eq_refl) (λ _, I) eq_refl eq_refl eq_refl
    ResourceIndexer direct 2%nat (getManagedIndexers c tagID)) with (now := now) (od := od) (desired := desired) (w := w)
    as (w2 & r & w3 & cur & E1 & Herr & Hwf2 & Hkeep & E2 & Hsync & _); try done.
  - apply (indexers_listed conn tagID base o view).
  - intros now' w'.
    destruct (CurrentState_reads c (sameCollection (indexerCollection view)) (reads_quiet conn (indexerCollection view))
      now' conn tagID w' eq_refl (getOwnershipTagID_known conn tagID base known w')) as (w1 & cur & E & HP & _ & Hr & _).
    by exists w1, cur.
  - intros od' mid nid cur des. around 2%nat.
  - by apply Forall_true.
  - exists w2, r, w3, cur. split_and!; try done. intros o'. by apply diffNamed_empty_iff.
Qed.

(** C30: The adapter takes every custom format of the service for its own.  For desired
    formats whose specifications are read back as they were sent (any type but source and
    resolution, whose values are sent as numbers, or the value 0: a format with another
    value of those is updated at every sync), a sync returns a result in which no change
    of a format failed; the service then holds, for each desired format, one of that name
    that the diff finds equal, and no format of any other name: formats the user created
    by hand are deleted, whatever the ownership convention says. *)
Theorem sync_custom_formats view `{!LawsAt c "/api/v3/" (formatCollection view) (otherThan "customformat")}
    now od o desired (w : World S) :
  wellFormed (managedFormats o c tagID view) (view (w_service w)) →
  Forall survives (ir_CustomFormats desired) →
  ∃ w2 r, syncOnce now od o conn desired w = (w2, Ret (Some r, None)) ∧
    (∀ e, e ∈ ar_Errors r → ch_ResourceType (ae_Change e) ≠ ResourceCustomFormat) ∧
    (∀ n d, indexBy cf_Name (ir_CustomFormats desired) !! n = Some d →
       ∃ i f, view (w_service w2) !! i = Some f ∧ cfr_Name f = n ∧
              customFormatsEqual (customFormatToIR f) d = true) ∧
    (∀ i f, view (w_service w2) !! i = Some f → cfr_Name f ∈ (cf_Name <$> ir_CustomFormats desired)).
Proof.
  intros Hwf Hok. set (m := managedFormats o c tagID view) in *.
  pose proof (managedFormats_laws o c tagID base view (otherThan "customformat")) as HL.
  destruct (part_sync conn tagID base known (formatCollection view) o m (λ _, eq_refl) (λ _, I) eq_refl eq_refl eq_refl
    ResourceCustomFormat ir_CustomFormats 7%nat (getAllCustomFormats c)) with
    (now := now) (od := od) (desired := desired) (w := w)
    as (w2 & r & w3 & cur & E1 & Herr & Hwf2 & _ & _ & Hsync & l' & Hl' & Hp'); try done.
  - apply (formats_listed conn tagID base o view).
  - intros now' w'.
    destruct (CurrentState_reads c (sameCollection (formatCollection view)) (reads_quiet conn (formatCollection view))
      now' conn tagID w' eq_refl (getOwnershipTagID_known conn tagID base known w'))
      as (w1 & cur & E & HP & _ & _ & _ & Hr).
    by exists w1, cur.
  - intros od' mid nid cur des. around 7%nat.
  - rewrite Hp' in Hsync. destruct (in_sync_view m _ l' _ Hwf2 Hl' Hsync) as [Hw Ha].
    exists w2, r. split_and!; [done|done| |].
    + intros n d Hd. destruct (Hw n d Hd) as (i & f & (Hi & _ & Hk) & He). by exists i, f.
    + intros i f Hi. destruct (indexBy cf_Name (ir_CustomFormats desired) !! cfr_Name f) as [d|] eqn:Ed.
      * apply lookup_indexBy_Some in Ed as [<- Hd]. by apply list_elem_of_fmap_2.
      * by destruct (Ha _ Ed i f).
Qed.
End theorems.

(** ** Witnesses *)

Lemma sync_download_clients_witness :
  let service := MiniServer.MiniService (R := DownloadClientResource) "/api/v3/" "downloadclient" 7 in
  let view := MiniServer.view (R := DownloadClientResource) in
  let desired := exampleDesired [exampleClientIR "nebularr-tv-qbit" 8080] [] [] in
  let w := initialWorld exampleService in
  ∃ w2 r, @syncOnce _ service 0 (λ _, keyOrder) keyOrder exampleConn desired w = (w2, Ret (Some r, None)) ∧
    view (w_service w2) !! 1 = Some userClient ∧
    wellFormed (@managedClients _ service keyOrder (newClient exampleConn) 7 view) (view (w_service w2)).
Proof.
  intros service view desired w.
  assert (wellFormed (@managedClients _ service keyOrder (newClient exampleConn) 7 view) (view (w_service w))) as Hwf.
  { apply wellFormed_distinct; [apply (bool_decide_unpack _); vm_compute; reflexivity|].
    apply (bool_decide_unpack _). vm_compute. reflexivity. }
  assert (Forall portOk (ir_DownloadClients desired)) as Hok by (repeat constructor; simpl; lia).
  destruct (@sync_download_clients _ service exampleConn 7 exampleConn_plain
    (SonarrMini.sonarr_known_tag (R := DownloadClientResource) "downloadclient" 7 _) view
    (SonarrMini.client_laws (newClient exampleConn) 7) 0 (λ _, keyOrder) keyOrder desired w Hwf Hok)
    as (w2 & r & _ & _ & H1 & _ & H2 & H3 & _).
  exists w2, r. split; [exact H1|split; [|exact H2]].
  apply (H3 1 userClient eq_refl). vm_compute. reflexivity.
Defined.

Definition exampleIndexerIR (name : string) : IndexerIR :=
  mkIndexerIR 0 name ProtocolTorrent "Torznab" true 25 "http://jackett:9117" "k" [5000; 5040] 1
    float64_zero 0 true true false.

Lemma sync_indexers_witness :
  let service := MiniServer.MiniService (R := IndexerResource) "/api/v3/" "indexer" 7 in
  let view := MiniServer.view (R := IndexerResource) in
  let desired := exampleDesired [] [exampleIndexerIR "nebularr-tv-tracker"] [] in
  let w := initialWorld {[ 4 := toJSON (ixr_set_ID 4 (indexerFromIR (exampleIndexerIR "nebularr-tv-old") 7)) ]} in
  ∃ w2 r, @syncOnce _ service 0 (λ _, keyOrder) keyOrder exampleConn desired w = (w2, Ret (Some r, None)) ∧
    wellFormed (@managedIndexers _ service keyOrder (newClient exampleConn) 7 view) (view (w_service w2)).
Proof.
  intros service view desired w.
  assert (wellFormed (@managedIndexers _ service keyOrder (newClient exampleConn) 7 view) (view (w_service w))) as Hwf.
  { apply wellFormed_distinct; apply (bool_decide_unpack _); vm_compute; reflexivity. }
  destruct (@sync_indexers _ service exampleConn 7 exampleConn_plain
    (SonarrMini.sonarr_known_tag (R := IndexerResource) "indexer" 7 _) view
    (SonarrMini.indexer_laws (newClient exampleConn) 7) 0 (λ _, keyOrder) keyOrder desired w Hwf)
    as (w2 & r & _ & _ & H1 & _ & H2 & _).
  exists w2, r. split; [exact H1|exact H2].
Defined.

(** The user's own format is gone after the sync. *)
Definition exampleFormat (name : string) : CustomFormatIR :=
  mkCustomFormatIR 0 name false [mkFormatSpecIR "ReleaseTitleSpecification" "x265" false true "x265|HEVC"].

Lemma sync_custom_formats_witness :
  let service := MiniServer.MiniService (R := CustomFormatResource) "/api/v3/" "customformat" 7 in
  let view := MiniServer.view (R := CustomFormatResource) in
  let desired := exampleDesired [] [] [exampleFormat "nebularr-x265"] in
  let w := initialWorld {[ 3 := toJSON (irToCustomFormat (cf_set_ID 3 (exampleFormat "mine"))) ]} in
  (cfr_Name <$> view (w_service w) !! 3) = Some "mine" ∧
  ∃ w2 r, @syncOnce _ service 0 (λ _, keyOrder) keyOrder exampleConn desired w = (w2, Ret (Some r, None)) ∧
    ∀ i f, view (w_service w2) !! i = Some f → cfr_Name f = "nebularr-x265".
Proof.
  intros service view desired w.
  assert (wellFormed (@managedFormats _ service keyOrder (newClient exampleConn) 7 view) (view (w_service w))) as Hwf.
  { apply wellFormed_distinct; apply (bool_decide_unpack _); vm_compute; reflexivity. }
  assert (Forall survives (ir_CustomFormats desired)) as Hok by (repeat constructor).
  split; [vm_compute; reflexivity|].
  destruct (@sync_custom_formats _ service exampleConn 7 exampleConn_plain
    (SonarrMini.sonarr_known_tag (R := CustomFormatResource) "customformat" 7 _) view
    (SonarrMini.format_laws (newClient exampleConn) 7) 0 (λ _, keyOrder) keyOrder desired w Hwf Hok)
    as (w2 & r & H1 & _ & _ & H2).
  exists w2, r. split; [exact H1|]. intros i f Hi. specialize (H2 i f Hi). simpl in H2.
  by apply list_elem_of_singleton in H2.
Defined.
