(* ===== verification/SonarrQuality.v ===== *)
(** * Theorems: the quality profiles the Sonarr adapter writes

    The translation of the quality tiers of the intermediate representation into
    Sonarr's tree of qualities and groups ([processSchemaItems]), and of the scores
    of custom formats into the profile's format items ([mergeFormatItems]). *)
From S2P Require Export SonarrApply.

(** ** Allowed qualities *)

(** A tier lists a quality: same resolution, and its source by the adapter's name. *)
Definition tierAllows (q : Quality) (tier : VideoQualityTierIR) : Prop :=
  vt_Allowed tier = true ∧ vt_Resolution tier = resolutionToString (ql_Resolution q) ∧
  mapSonarrSource (ql_Source q) ∈ vt_Sources tier.

Lemma lookup_allowedQualities tiers res source :
  source ∈ default ∅ (buildAllowedQualitiesMap tiers !! res) ↔
  ∃ t, t ∈ tiers ∧ vt_Allowed t = true ∧ vt_Resolution t = res ∧ source ∈ vt_Sources t.
Proof.
  unfold buildAllowedQualitiesMap. induction tiers as [|t tiers IH] using rev_ind.
  - simpl. rewrite lookup_empty. simpl. split; [by intros ?%not_elem_of_empty|].
    intros (t & Hin & _). by apply not_elem_of_nil in Hin.
  - rewrite foldl_app. simpl. setoid_rewrite elem_of_app. setoid_rewrite list_elem_of_singleton.
    destruct (vt_Allowed t) eqn:Ha; simpl.
    + destruct (decide (vt_Resolution t = res)) as [Heq|Hne].
      * rewrite Heq, lookup_insert_eq. simpl. rewrite elem_of_union, IH, elem_of_setOf. split.
        -- intros [(t' & ? & ? & ? & ?)|?]; [exists t'|exists t]; auto.
        -- intros (t' & [?| ->] & ? & ? & ?); [left; exists t'|right]; auto.
      * rewrite lookup_insert_ne, IH by done. split; intros (t' & Hin & ? & ? & ?).
        -- exists t'. auto.
        -- destruct Hin as [?| ->]; [exists t'; auto|congruence].
    + rewrite IH. split; intros (t' & Hin & ? & ? & ?).
      * exists t'. auto.
      * destruct Hin as [?| ->]; [exists t'; auto|congruence].
Qed.

Lemma isQualityAllowed_iff q tiers :
  isQualityAllowed q (buildAllowedQualitiesMap tiers) = true ↔ ∃ t, t ∈ tiers ∧ tierAllows q t.
Proof.
  unfold tierAllows. rewrite <-lookup_allowedQualities. unfold isQualityAllowed.
  destruct (buildAllowedQualitiesMap tiers !! _) as [sources|]; simpl.
  - by rewrite bool_decide_eq_true.
  - split; [done|by intros ?%not_elem_of_empty].
Qed.

(** ** The reference translation *)

Section reference.
Context (allowed : gmap string (gset string)) (cutoffTier : VideoQualityTierIR).

(** A quality of a group, and a top-level item, with their flags. *)
Definition flagSub (sub : QualityProfileItem) : QualityProfileItem :=
  match qi_Quality sub with
  | Some q => qi_set (qi_Items sub) (isQualityAllowed q allowed) sub
  | None => sub
  end.
Definition subAllowed (sub : QualityProfileItem) : bool :=
  match qi_Quality sub with Some q => isQualityAllowed q allowed | None => false end.
Definition flagItem (item : QualityProfileItem) : QualityProfileItem :=
  match qi_Items item with
  | [] => match qi_Quality item with
          | Some q => qi_set [] (isQualityAllowed q allowed) item
          | None => item
          end
  | subs => qi_set (flagSub <$> subs) (existsb subAllowed subs) item
  end.

(** The IDs an item offers for the cutoff: its group's, or its own quality's. *)
Definition subCutoff (groupID : Z) (sub : QualityProfileItem) : list Z :=
  match qi_Quality sub with
  | Some q => if isQualityCutoff q cutoffTier && (0 <? groupID) then [groupID] else []
  | None => []
  end.
Definition itemCutoffs (item : QualityProfileItem) : list Z :=
  match qi_Items item with
  | [] => match qi_Quality item with
          | Some q => if isQualityCutoff q cutoffTier && (0 <? ql_ID q) then [ql_ID q] else []
          | None => []
          end
  | subs => mjoin (subCutoff (qi_ID item) <$> subs)
  end.

(** The last of the candidates after the one so far. *)
Definition lastID (ids : list Z) (d : Z) : Z := default d (last ids).

Lemma lastID_app ids1 ids2 d : lastID (ids1 ++ ids2) d = lastID ids2 (lastID ids1 d).
Proof. unfold lastID. rewrite last_app. by destruct (last ids2). Qed.

Lemma processSubItems_eq groupID subs items ok cutoff :
  foldl (processSubItem groupID allowed cutoffTier) (items, ok, cutoff) subs =
  (items ++ (flagSub <$> subs), ok || existsb subAllowed subs,
   lastID (mjoin (subCutoff groupID <$> subs)) cutoff).
Proof.
  revert items ok cutoff. induction subs as [|sub subs IH]; intros items ok cutoff.
  - simpl. by rewrite app_nil_r, orb_false_r.
  - assert (processSubItem groupID allowed cutoffTier (items, ok, cutoff) sub =
      (items ++ [flagSub sub], ok || subAllowed sub, lastID (subCutoff groupID sub) cutoff)) as Hstep.
    { unfold processSubItem, flagSub, subAllowed, subCutoff. destruct (qi_Quality sub) as [q|].
      - by destruct (isQualityCutoff q cutoffTier && (0 <? groupID)).
      - by rewrite orb_false_r. }
    cbn [foldl]. rewrite Hstep, IH, <-app_assoc, <-orb_assoc, <-lastID_app. done.
Qed.

Lemma processItems_eq schemaItems items cutoff :
  foldl (processItem allowed cutoffTier) (items, cutoff) schemaItems =
  (items ++ (flagItem <$> schemaItems), lastID (mjoin (itemCutoffs <$> schemaItems)) cutoff).
Proof.
  revert items cutoff. induction schemaItems as [|item schemaItems IH]; intros items cutoff.
  - simpl. by rewrite app_nil_r.
  - assert (processItem allowed cutoffTier (items, cutoff) item =
      (items ++ [flagItem item], lastID (itemCutoffs item) cutoff)) as Hstep.
    { unfold processItem, flagItem, itemCutoffs. destruct (qi_Items item) as [|sub subs].
      - destruct (qi_Quality item) as [q|]; [|done].
        by destruct (isQualityCutoff q cutoffTier && (0 <? ql_ID q)).
      - by rewrite processSubItems_eq. }
    cbn [foldl]. rewrite Hstep, IH, <-app_assoc, <-lastID_app. done.
Qed.
End reference.

(** the quality tree written to Sonarr is the schema's own tree, in its order
    and with nothing added or lost: a quality is allowed exactly when an allowed
    tier has its resolution and lists its source, a group exactly when one of its
    qualities is; the cutoff is the last quality or group the cutoff tier matches,
    and the ID 1 when it matches none. *)
Theorem processSchemaItems_spec schemaItems tiers cutoffTier :
  let allowed := buildAllowedQualitiesMap tiers in
  processSchemaItems schemaItems allowed cutoffTier =
    (flagItem allowed <$> schemaItems,
     default 1 (last (mjoin (itemCutoffs cutoffTier <$> schemaItems)))) ∧
  (∀ q, isQualityAllowed q allowed = true ↔ ∃ t, t ∈ tiers ∧ tierAllows q t).
Proof.
  cbn zeta. split_and!.
  - unfold processSchemaItems. by rewrite processItems_eq.
  - intros q. apply isQualityAllowed_iff.
Qed.

(** ** A remux cutoff *)

(** The sources Sonarr gives its qualities. *)
Definition sonarrSources : list string :=
  ["unknown"; "television"; "televisionRaw"; "web"; "webRip"; "dvd"; "bluray"; "blurayRaw"].

(** The qualities of a profile's tree, two levels deep. *)
Definition qualitiesOf (items : list QualityProfileItem) : list Quality :=
  items ≫= λ i, option_list (qi_Quality i) ++ (qi_Items i ≫= λ s, option_list (qi_Quality s)).

Lemma remux_no_match q res : ql_Source q ∈ sonarrSources → isQualityCutoff q (mkVideoQualityTierIR res ["remux"] true) = false.
Proof.
  intros Hq. unfold isQualityCutoff. apply andb_false_iff. right. simpl. rewrite orb_false_r.
  unfold sonarrSources in Hq. rewrite !elem_of_cons in Hq. destruct_or! Hq; try by rewrite Hq.
  by apply not_elem_of_nil in Hq.
Qed.

(** a cutoff that names only the source remux, as the remux presets do, is
    never found among Sonarr's qualities: whatever the schema, the profile is
    written with the cutoff ID 1. *)
Theorem remux_cutoff_never_found schemaItems allowed res :
  (∀ q, q ∈ qualitiesOf schemaItems → ql_Source q ∈ sonarrSources) →
  (processSchemaItems schemaItems allowed (mkVideoQualityTierIR res ["remux"] true)).2 = 1.
Proof.
  intros Hq. unfold processSchemaItems. rewrite processItems_eq. simpl.
  assert (mjoin (itemCutoffs (mkVideoQualityTierIR res ["remux"] true) <$> schemaItems) = []) as ->; [|done].
  induction schemaItems as [|item items IH]; [done|].
  assert (Hitem : ∀ q, qi_Quality item = Some q → ql_Source q ∈ sonarrSources).
  { intros q E. apply Hq. unfold qualitiesOf. simpl. rewrite E. by left. }
  assert (Hsub : ∀ s q, s ∈ qi_Items item → qi_Quality s = Some q → ql_Source q ∈ sonarrSources).
  { intros s q Hs E. apply Hq. unfold qualitiesOf. cbn [mbind list_bind]. rewrite !elem_of_app. left. right.
    apply list_elem_of_bind. exists s. rewrite E. split; [by left|done]. }
  assert (itemCutoffs (mkVideoQualityTierIR res ["remux"] true) item = []) as Hi.
  { unfold itemCutoffs. destruct (qi_Items item) as [|s subs].
    - destruct (qi_Quality item) as [q|]; [|done]. by rewrite remux_no_match by auto.
    - revert Hsub. generalize (s :: subs). clear s subs. intros l Hsub. induction l as [|s l IHl]; [done|].
      assert (subCutoff (mkVideoQualityTierIR res ["remux"] true) (qi_ID item) s = []) as Hs.
      { unfold subCutoff. destruct (qi_Quality s) as [q|] eqn:E; [|done].
        rewrite remux_no_match; [done|]. apply (Hsub s q); [by left|done]. }
      cbn [fmap list_fmap]. change (mjoin (?a :: ?b)) with (a ++ mjoin b). simpl. rewrite Hs. simpl.
      apply IHl. intros s' q' Hs'. apply Hsub. by right. }
  simpl. rewrite Hi. simpl. apply IH. intros q Hin. apply Hq. unfold qualitiesOf in *. cbn [mbind list_bind].
  apply elem_of_app. by right.
Qed.

Lemma remux_cutoff_never_found_witness :
  let schema := [mkQualityProfileItem 0 "" (Some (mkQuality 20 "Bluray-2160p Remux" "blurayRaw" 2160)) [] false] in
  (∀ q, q ∈ qualitiesOf schema → ql_Source q ∈ sonarrSources) ∧
  (processSchemaItems schema (buildAllowedQualitiesMap [mkVideoQualityTierIR "2160p" ["remux"; "bluray"] true])
     (mkVideoQualityTierIR "2160p" ["remux"] true)).2 = 1.
Proof.
  intros schema. assert (∀ q, q ∈ qualitiesOf schema → ql_Source q ∈ sonarrSources) as H.
  { intros q Hq. unfold qualitiesOf in Hq. simpl in Hq. apply list_elem_of_singleton in Hq as ->. simpl.
    apply (bool_decide_unpack _). vm_compute. reflexivity. }
  split; [exact H|]. exact (remux_cutoff_never_found schema _ "2160p" H).
Defined.

(** ** Scores of custom formats *)

Definition rescored (formatScores : gmap string Z) (nameByID : gmap Z string) (item : ProfileFormatItem)
    : ProfileFormatItem :=
  match nameByID !! pfi_Format item ≫= (λ name, formatScores !! name) with
  | Some score => mkProfileFormatItem (pfi_Format item) score
  | None => item
  end.

Definition added (idByName : gmap string Z) (schemaIDs : gset Z) (ns : string * Z) : option ProfileFormatItem :=
  match idByName !! ns.1 with
  | Some id => if id ∈? schemaIDs then None else Some (mkProfileFormatItem id ns.2)
  | None => None
  end.

Lemma mergeFormatItems_eq o formatScores formats schemaItems :
  mergeFormatItems o formatScores formats schemaItems =
  (rescored formatScores (cfr_Name <$> indexBy cfr_ID formats) <$> schemaItems) ++
  omap (added (cfr_ID <$> indexBy cfr_Name formats) (setOf (pfi_Format <$> schemaItems))) (rangeMap o 0 formatScores).
Proof.
  unfold mergeFormatItems. apply foldl_append_omap. intros acc [name score]. unfold added. simpl.
  destruct ((cfr_ID <$> indexBy cfr_Name formats) !! name); simpl; [|by rewrite app_nil_r].
  case_bool_decide; simpl; by rewrite ?app_nil_r.
Qed.

(** the profile written to Sonarr gives every custom format the service has
    the score configured for it, once and only that score, whether or not the
    profile schema already listed the format; formats without a configured score
    keep the schema's. *)
Theorem mergeFormatItems_scores o formatScores formats schemaItems f score :
  NoDup (cfr_ID <$> formats) → NoDup (cfr_Name <$> formats) →
  f ∈ formats → formatScores !! cfr_Name f = Some score →
  let items := mergeFormatItems o formatScores formats schemaItems in
  mkProfileFormatItem (cfr_ID f) score ∈ items ∧
  (∀ item, item ∈ items → pfi_Format item = cfr_ID f → pfi_Score item = score) ∧
  (∀ item, item ∈ schemaItems → (∀ g, g ∈ formats → cfr_ID g = pfi_Format item →
     formatScores !! cfr_Name g = None) → item ∈ items).
Proof.
  intros Hids Hnames Hf Hscore items. unfold items. rewrite mergeFormatItems_eq.
  assert (Hid : (cfr_ID <$> indexBy cfr_Name formats) !! cfr_Name f = Some (cfr_ID f)).
  { by rewrite lookup_fmap, (lookup_indexBy_NoDup cfr_Name formats f Hnames Hf). }
  assert (Hname : (cfr_Name <$> indexBy cfr_ID formats) !! cfr_ID f = Some (cfr_Name f)).
  { by rewrite lookup_fmap, (lookup_indexBy_NoDup cfr_ID formats f Hids Hf). }
  assert (Hre : ∀ item, pfi_Format item = cfr_ID f →
    rescored formatScores (cfr_Name <$> indexBy cfr_ID formats) item = mkProfileFormatItem (cfr_ID f) score).
  { intros item Hi. unfold rescored. rewrite Hi, Hname. simpl. by rewrite Hscore. }
  split_and!.
  - apply elem_of_app. destruct (decide (cfr_ID f ∈ pfi_Format <$> schemaItems)) as [Hin|Hin].
    + left. apply list_elem_of_fmap in Hin as (item & Hi & Hin). apply list_elem_of_fmap.
      exists item. by rewrite Hre.
    + right. apply list_elem_of_omap. exists (cfr_Name f, score). split; [by apply elem_of_rangeMap|].
      unfold added. simpl. rewrite Hid, bool_decide_eq_false_2; [done|]. by rewrite elem_of_setOf.
  - intros item [Hin|Hin]%elem_of_app Hi.
    + apply list_elem_of_fmap in Hin as (it & -> & _).
      assert (pfi_Format it = cfr_ID f) as Hit by (revert Hi; unfold rescored; by case_match).
      by rewrite (Hre it Hit).
    + apply list_elem_of_omap in Hin as ([name s] & Hns%elem_of_rangeMap & Ha). unfold added in Ha. simpl in Ha.
      rewrite lookup_fmap in Ha. destruct (indexBy cfr_Name formats !! name) as [g|] eqn:Hg; [|done].
      simpl in Ha. case_bool_decide; [done|]. simplify_eq/=.
      apply lookup_indexBy_Some in Hg as [<- Hg].
      assert (indexBy cfr_ID formats !! cfr_ID f = Some g) as Hg'.
      { rewrite <-Hi. by apply lookup_indexBy_NoDup. }
      rewrite (lookup_indexBy_NoDup cfr_ID formats f Hids Hf) in Hg'. congruence.
  - intros item Hin Hno. apply elem_of_app. left. apply list_elem_of_fmap. exists item. split; [|done].
    unfold rescored. rewrite lookup_fmap. destruct (indexBy cfr_ID formats !! pfi_Format item) as [g|] eqn:Hg; [|done].
    apply lookup_indexBy_Some in Hg as [Hk Hg]. simpl. by rewrite (Hno g Hg Hk).
Qed.

Lemma mergeFormatItems_scores_witness :
  let f := mkCustomFormatResource 5 "x265" false [] in
  let g := mkCustomFormatResource 6 "HDR" false [] in
  let scores : gmap string Z := {[ "x265" := -100; "HDR" := 20 ]} in
  NoDup (cfr_ID <$> [f; g]) ∧
  mkProfileFormatItem 6 20 ∈ mergeFormatItems keyOrder scores [f; g] [mkProfileFormatItem 5 0].
Proof.
  intros f g scores.
  assert (NoDup (cfr_ID <$> [f; g])) as H1 by (apply (bool_decide_unpack _); reflexivity).
  assert (NoDup (cfr_Name <$> [f; g])) as H2 by (apply (bool_decide_unpack _); reflexivity).
  assert (g ∈ [f; g]) as H3 by (right; left).
  assert (scores !! cfr_Name g = Some 20) as H4 by (vm_compute; reflexivity).
  split; [exact H1|].
  exact (proj1 (mergeFormatItems_scores keyOrder scores [f; g] [mkProfileFormatItem 5 0] g 20 H1 H2 H3 H4)).
Defined.
