(* ===== verification/Readarr.v ===== *)
(** * The Readarr adapter (src/internal/adapters/readarr)

    The adapter of Readarr over the service alone: it keeps no state of its own.
    Quality and metadata profiles have no tags and are managed by the prefix of their
    name; download clients and indexers are managed by their tag, but are deleted by
    their name.  A failed type assertion on a change's payload is a panic. *)
From S2P Require Export ResourcesV1 Shared.

(** ** adapter.go: download clients and indexers *)

Definition downloadClientField (ir : DownloadClientIR) (f : Field) : DownloadClientIR :=
  switch (f_Name f) [
    (["host"], ifString dc_set_Host (f_Value f) ir);
    (["port"], ifFloat (λ v, dc_set_Port (int_of_float64 v)) (f_Value f) ir);
    (["useSsl"], ifBool dc_set_UseTLS (f_Value f) ir);
    (["username"], ifString dc_set_Username (f_Value f) ir);
    (["category"; "bookCategory"], ifString dc_set_Category (f_Value f) ir)] ir.

Definition downloadClientToIR (dc : ReadarrDownloadClientResource) : DownloadClientIR :=
  foldl downloadClientField {|
    dc_ID := 0;
    dc_Name := rdc_Name dc;
    dc_Protocol := rdc_Protocol dc;
    dc_Implementation := rdc_Implementation dc;
    dc_Enable := rdc_Enable dc;
    dc_Priority := rdc_Priority dc;
    dc_RemoveCompletedDownloads := false; dc_RemoveFailedDownloads := false;
    dc_Host := ""; dc_Port := 0; dc_UseTLS := false; dc_Username := ""; dc_Password := "";
    dc_Category := ""; dc_Directory := "" |} (rdc_Fields dc).

Definition idx_set_EnableRss (v : bool) (d : IndexerIR) : IndexerIR :=
  let '(mkIndexerIR a b c e f g h i j k l m _ o p) := d in mkIndexerIR a b c e f g h i j k l m v o p.
Definition idx_set_EnableAutomaticSearch (v : bool) (d : IndexerIR) : IndexerIR :=
  let '(mkIndexerIR a b c e f g h i j k l m n _ p) := d in mkIndexerIR a b c e f g h i j k l m n v p.
Definition idx_set_EnableInteractiveSearch (v : bool) (d : IndexerIR) : IndexerIR :=
  let '(mkIndexerIR a b c e f g h i j k l m n o _) := d in mkIndexerIR a b c e f g h i j k l m n o v.

Definition indexerField (ir : IndexerIR) (f : Field) : IndexerIR :=
  switch (f_Name f) [
    (["baseUrl"], ifString idx_set_URL (f_Value f) ir);
    (["minimumSeeders"], ifFloat (λ v, idx_set_MinimumSeeders (int_of_float64 v)) (f_Value f) ir);
    (["enableRss"], ifBool idx_set_EnableRss (f_Value f) ir);
    (["enableAutomaticSearch"], ifBool idx_set_EnableAutomaticSearch (f_Value f) ir);
    (["enableInteractiveSearch"], ifBool idx_set_EnableInteractiveSearch (f_Value f) ir)] ir.

Definition indexerToIR (idx : ReadarrIndexerResource) : IndexerIR :=
  foldl indexerField {|
    idx_ID := 0;
    idx_Name := rix_Name idx;
    idx_Protocol := rix_Protocol idx;
    idx_Implementation := rix_Implementation idx;
    idx_Enable := rix_Enable idx;
    idx_Priority := rix_Priority idx;
    idx_URL := ""; idx_APIKey := ""; idx_Categories := []; idx_MinimumSeeders := 0;
    idx_SeedRatio := float64_zero; idx_SeedTimeMinutes := 0;
    idx_EnableRss := false; idx_EnableAutomaticSearch := false; idx_EnableInteractiveSearch := false |} (rix_Fields idx).

(** The resource [createDownloadClient] sends. *)
Definition downloadClientResource (dc : DownloadClientIR) (tagID : Z) : ReadarrDownloadClientResource := {|
  rdc_ID := 0;
  rdc_Name := dc_Name dc;
  rdc_Implementation := dc_Implementation dc;
  rdc_Protocol := dc_Protocol dc;
  rdc_Enable := dc_Enable dc;
  rdc_Priority := dc_Priority dc;
  rdc_Tags := [tagID];
  rdc_Fields := [
    mkField "host" (VString (dc_Host dc));
    mkField "port" (VInt (dc_Port dc));
    mkField "useSsl" (VBool (dc_UseTLS dc));
    mkField "username" (VString (dc_Username dc));
    mkField "password" (VString (dc_Password dc))] ++
    (if negb (String.eqb (dc_Category dc) "") then [mkField "bookCategory" (VString (dc_Category dc))] else []) |}.

(** The resource [createIndexer] sends. *)
Definition indexerResource (idx : IndexerIR) (tagID : Z) : ReadarrIndexerResource := {|
  rix_ID := 0;
  rix_Name := idx_Name idx;
  rix_Implementation := idx_Implementation idx;
  rix_Protocol := idx_Protocol idx;
  rix_Enable := idx_Enable idx;
  rix_Priority := idx_Priority idx;
  rix_Tags := [tagID];
  rix_Fields := [
    mkField "baseUrl" (VString (idx_URL idx));
    mkField "apiKey" (VString (idx_APIKey idx));
    mkField "minimumSeeders" (VInt (idx_MinimumSeeders idx));
    mkField "enableRss" (VBool (idx_EnableRss idx));
    mkField "enableAutomaticSearch" (VBool (idx_EnableAutomaticSearch idx));
    mkField "enableInteractiveSearch" (VBool (idx_EnableInteractiveSearch idx))] |}.

(** Clients and indexers are created and deleted, but never updated; the deletion
    carries the name alone. *)
Definition clientOps : DiffOps DownloadClientIR := {|
  op_key := dc_Name;
  op_equal _ _ := true;
  op_create name d := mkChange ResourceDownloadClient name None (PDownloadClient d);
  op_update name _ d := mkChange ResourceDownloadClient name None (PDownloadClient d);
  op_delete name _ := mkChange ResourceDownloadClient name None PNil |}.

Definition indexerOps : DiffOps IndexerIR := {|
  op_key := idx_Name;
  op_equal _ _ := true;
  op_create name d := mkChange ResourceIndexer name None (PIndexer d);
  op_update name _ d := mkChange ResourceIndexer name None (PIndexer d);
  op_delete name _ := mkChange ResourceIndexer name None PNil |}.

Definition diffDownloadClients (o : RangeOrder) (current desired : IR) (changes : ChangeSet) : ChangeSet :=
  diffNamed clientOps o (ir_DownloadClients current) (ir_DownloadClients desired) changes.

Definition diffIndexers (o : RangeOrder) (current desired : IR) (changes : ChangeSet) : ChangeSet :=
  diffNamed indexerOps o (from_option idxs_Direct [] (ir_Indexers current))
    (from_option idxs_Direct [] (ir_Indexers desired)) changes.

Definition diffRootFolders (current desired : IR) (changes : ChangeSet) : ChangeSet :=
  let currentPaths := setOf (rf_Path <$> ir_RootFolders current) in
  foldl (λ changes rf,
    if rf_Path rf ∈? currentPaths then changes
    else appendCreate (mkChange ResourceRootFolder (rf_Path rf) None (PRootFolder rf)) changes)
    changes (ir_RootFolders desired).

(** ** metadata.go *)

(** Whether the name of a profile has the prefix of those the operator manages. *)
Definition hasPrefix (name : string) : bool :=
  negb ((Z.of_nat (String.length name) <? 9) || negb (String.eqb (stringTake 9 name) "nebularr-")).

Definition metadataProfileToIR (profile : MetadataProfileResource) : MetadataProfileIR := {|
  mp_ID := Some (mpr_ID profile);
  mp_Name := mpr_Name profile;
  mp_MinPopularity := mpr_MinPopularity profile;
  mp_SkipMissingDate := mpr_SkipMissingDate profile;
  mp_SkipMissingIsbn := mpr_SkipMissingIsbn profile;
  mp_SkipPartsAndSets := mpr_SkipPartsAndSets profile;
  mp_SkipSeriesSecondary := mpr_SkipSeriesSecondary profile;
  mp_AllowedLanguages := mpr_AllowedLanguages profile |}.

Definition metadataProfilesEqual (current desired : MetadataProfileIR) : bool :=
  String.eqb (mp_Name current) (mp_Name desired) &&
  SFeqb (mp_MinPopularity current) (mp_MinPopularity desired) &&
  Bool.eqb (mp_SkipMissingDate current) (mp_SkipMissingDate desired) &&
  Bool.eqb (mp_SkipMissingIsbn current) (mp_SkipMissingIsbn desired) &&
  Bool.eqb (mp_SkipPartsAndSets current) (mp_SkipPartsAndSets desired) &&
  Bool.eqb (mp_SkipSeriesSecondary current) (mp_SkipSeriesSecondary desired) &&
  String.eqb (mp_AllowedLanguages current) (mp_AllowedLanguages desired).

Definition metadataOps : DiffOps MetadataProfileIR := {|
  op_key := mp_Name;
  op_equal := metadataProfilesEqual;
  op_create name d := mkChange ResourceMetadataProfile name None (PMetadataProfile d);
  op_update name c d := mkChange ResourceMetadataProfile name (mp_ID c) (PMetadataProfile d);
  op_delete name c := mkChange ResourceMetadataProfile name (mp_ID c) PNil |}.

Definition diffMetadataProfiles (o : RangeOrder) (current desired : list MetadataProfileIR) (changes : ChangeSet)
    : ChangeSet := diffNamed metadataOps o current desired changes.

(** The resource that is sent, with the ID of the profile or 0. *)
Definition metadataProfileResource (id : Z) (ir : MetadataProfileIR) : MetadataProfileResource := {|
  mpr_ID := id;
  mpr_Name := mp_Name ir;
  mpr_MinPopularity := mp_MinPopularity ir;
  mpr_SkipMissingDate := mp_SkipMissingDate ir;
  mpr_SkipMissingIsbn := mp_SkipMissingIsbn ir;
  mpr_SkipPartsAndSets := mp_SkipPartsAndSets ir;
  mpr_SkipSeriesSecondary := mp_SkipSeriesSecondary ir;
  mpr_AllowedLanguages := mp_AllowedLanguages ir |}.

(** ** quality.go *)

Definition qualityToFormat (q : NamedQuality) : string := nq_Name q.

(** The format of an item, unless its quality is missing or has no name. *)
Definition formatOf (item : NamedItem) : option string :=
  match ni_Quality item with
  | Some q => if String.eqb (qualityToFormat q) "" then None else Some (qualityToFormat q)
  | None => None
  end.

Definition qualityItemToTier (item : NamedItem) : BookQualityTierIR :=
  match ni_Items item, ni_Quality item with
  | _ :: _, _ => mkBookQualityTierIR (ni_Name item) (omap formatOf (ni_Items item)) (ni_Allowed item)
  | [], Some q => mkBookQualityTierIR (nq_Name q) (option_list (formatOf item)) (ni_Allowed item)
  | [], None => mkBookQualityTierIR "" [] (ni_Allowed item)
  end.

Definition hasQuality (id : Z) (item : NamedItem) : Prop :=
  match ni_Quality item with Some q => nq_ID q = id | None => False end.
#[export] Instance hasQuality_dec id item : Decision (hasQuality id item).
Proof. unfold hasQuality. destruct (ni_Quality item); apply _. Defined.

Fixpoint findCutoffTier (items : list NamedItem) (cutoffID : Z) : option BookQualityTierIR :=
  match items with
  | [] => None
  | item :: items' =>
      if ni_ID item =? cutoffID then Some (qualityItemToTier item)
      else match list_find (hasQuality cutoffID) (ni_Items item) with
           | Some (_, subItem) => Some (qualityItemToTier subItem)
           | None => if decide (hasQuality cutoffID item) then Some (qualityItemToTier item)
                     else findCutoffTier items' cutoffID
           end
  end.

Definition qualityProfileToIR (profile : ReadarrQualityProfileResource) : BookQualityIR := {|
  bq_ProfileName := rqp_Name profile;
  bq_UpgradeAllowed := rqp_UpgradeAllowed profile;
  bq_Cutoff := if 0 <? rqp_Cutoff profile
    then default zeroBookQualityTierIR (findCutoffTier (rqp_Items profile) (rqp_Cutoff profile)) else zeroBookQualityTierIR;
  bq_Tiers := qualityItemToTier <$> rqp_Items profile |}.

Definition diffQualityProfiles (current desired : IR) (changes : ChangeSet) : ChangeSet :=
  DiffBookQualityProfiles (ir_Quality current ≫= q_Book) (ir_Quality desired ≫= q_Book) changes.

Definition findQualityByName (qualities : list QualityDefinitionResource) (name : string) : option QualityDefinitionResource :=
  snd <$> list_find (λ q, nq_Name (qdr_Quality q) = name) qualities.

Definition findQualityIDByName (qualities : list QualityDefinitionResource) (name : string) : Z :=
  match findQualityByName qualities name with Some def => nq_ID (qdr_Quality def) | None => 0 end.

Definition tierToQualityItem (tier : BookQualityTierIR) (qualities : list QualityDefinitionResource) : NamedItem :=
  match bt_Formats tier with
  | _ :: _ => mkNamedItem 0 (bt_Name tier) None
      (omap (λ format, (λ def, mkNamedItem 0 "" (Some (qdr_Quality def)) [] (bt_Allowed tier))
         <$> findQualityByName qualities format) (bt_Formats tier)) (bt_Allowed tier)
  | [] => mkNamedItem 0 (bt_Name tier)
      (if negb (String.eqb (bt_Name tier) "") then qdr_Quality <$> findQualityByName qualities (bt_Name tier) else None)
      [] (bt_Allowed tier)
  end.

(** The profile both [createQualityProfile] and [updateQualityProfile] send. *)
Definition qualityProfile (id : Z) (ir : BookQualityIR) (qualities : list QualityDefinitionResource)
    : ReadarrQualityProfileResource := {|
  rqp_ID := id;
  rqp_Name := bq_ProfileName ir;
  rqp_UpgradeAllowed := bq_UpgradeAllowed ir;
  rqp_Cutoff :=
    let cutoffID := findQualityIDByName qualities (bt_Name (bq_Cutoff ir)) in
    if negb (String.eqb (bt_Name (bq_Cutoff ir)) "") && (0 <? cutoffID) then cutoffID else 0;
  rqp_Items := (λ tier, tierToQualityItem tier qualities) <$> bq_Tiers ir |}.

(** ** The requests *)

Definition newClient (conn : ConnectionIR) : Client :=
  New (mkConfig (conn_URL conn) (conn_APIKey conn) (conn_InsecureSkipVerify conn) 0).

Section requests.
Context {S : Type} `{Service S}.
Abbreviation MS := (M S).

Definition collectionOf (name : string) : string := ("/api/v1/" +:+ name)%string.
Definition memberOf (name : string) (id : Z) : string := ("/api/v1/" +:+ name +:+ "/" +:+ Itoa id)%string.

(** The first resource of the name is deleted; that there is none is no error. *)
Definition deleteByName {R} `{FromJSON R} (collection : string) (nameOf : R → string) (idOf : R → Z) (c : Client)
    (name : string) : MS unit :=
  let* resources := Get (list R) c (collectionOf collection) in
  match list_find (λ r, nameOf r = name) resources with
  | Some (_, r) => Delete c (memberOf collection (idOf r))
  | None => ret tt
  end.
Definition deleteDownloadClientByName : Client → string → MS unit := deleteByName "downloadclient" rdc_Name rdc_ID.
Definition deleteIndexerByName : Client → string → MS unit := deleteByName "indexer" rix_Name rix_ID.
Definition deleteQualityProfileByName : Client → string → MS unit := deleteByName "qualityprofile" rqp_Name rqp_ID.
Definition deleteMetadataProfileByName : Client → string → MS unit := deleteByName "metadataprofile" mpr_Name mpr_ID.

Definition createDownloadClient (c : Client) (dc : DownloadClientIR) (tagID : Z) : MS unit :=
  PostResult ReadarrDownloadClientResource c (collectionOf "downloadclient") (downloadClientResource dc tagID) ;;; ret tt.

Definition createIndexer (c : Client) (idx : IndexerIR) (tagID : Z) : MS unit :=
  PostResult ReadarrIndexerResource c (collectionOf "indexer") (indexerResource idx tagID) ;;; ret tt.

Definition readarrRootFolder (path name : string) : ReadarrRootFolderResource :=
  mkReadarrRootFolderResource 0 path name 0 0 "" "" [] false "" 0 "" "" "" "" "" 0 false.

Definition createRootFolder (c : Client) (rf : RootFolderIR) : MS unit :=
  PostResult ReadarrRootFolderResource c (collectionOf "rootfolder") (readarrRootFolder (rf_Path rf) (rf_Name rf)) ;;; ret tt.

Definition createMetadataProfile (c : Client) (ir : MetadataProfileIR) : MS unit :=
  PostResult MetadataProfileResource c (collectionOf "metadataprofile") (metadataProfileResource 0 ir) ;;; ret tt.

Definition updateMetadataProfile (c : Client) (ir : MetadataProfileIR) (profileID : Z) : MS unit :=
  PutResult MetadataProfileResource c (memberOf "metadataprofile" profileID) (metadataProfileResource profileID ir) ;;; ret tt.

Definition getQualityDefinitions (c : Client) : MS (list QualityDefinitionResource) :=
  wrapErr (λ e, "failed to get quality definitions: " +:+ e)%string
    (Get (list QualityDefinitionResource) c (collectionOf "qualitydefinition")).

Definition createQualityProfile (c : Client) (ir : BookQualityIR) : MS unit :=
  let* qualities := getQualityDefinitions c in
  PostResult ReadarrQualityProfileResource c (collectionOf "qualityprofile") (qualityProfile 0 ir qualities) ;;; ret tt.

Definition updateQualityProfile (c : Client) (ir : BookQualityIR) (profileID : Z) : MS unit :=
  let* qualities := getQualityDefinitions c in
  PutResult ReadarrQualityProfileResource c (memberOf "qualityprofile" profileID) (qualityProfile profileID ir qualities) ;;;
  ret tt.

(** ** adapter.go: dispatch *)

Definition badPayload {A} : MS A := panic "interface conversion".

Definition unknownResource (t : string) : error := ("unknown resource type: " +:+ t)%string.

Definition applyCreate (c : Client) (tagID : Z) (change : Change) : MS unit :=
  switch (ch_ResourceType change) [
    ([ResourceQualityProfile],
      match ch_Payload change with PBookQuality p => createQualityProfile c p | _ => badPayload end);
    ([ResourceMetadataProfile],
      match ch_Payload change with PMetadataProfile p => createMetadataProfile c p | _ => badPayload end);
    ([ResourceDownloadClient],
      match ch_Payload change with PDownloadClient p => createDownloadClient c p tagID | _ => badPayload end);
    ([ResourceIndexer],
      match ch_Payload change with PIndexer p => createIndexer c p tagID | _ => badPayload end);
    ([ResourceRootFolder],
      match ch_Payload change with PRootFolder p => createRootFolder c p | _ => badPayload end)]
    (fail (unknownResource (ch_ResourceType change))).

(** An update of any other resource succeeds without doing anything. *)
Definition applyUpdate (c : Client) (change : Change) : MS unit :=
  switch (ch_ResourceType change) [
    ([ResourceQualityProfile],
      match ch_ID change with
      | Some id => match ch_Payload change with PBookQuality p => updateQualityProfile c p id | _ => badPayload end
      | None => fail "quality profile update requires ID"
      end);
    ([ResourceMetadataProfile],
      match ch_ID change with
      | Some id => match ch_Payload change with PMetadataProfile p => updateMetadataProfile c p id | _ => badPayload end
      | None => fail "metadata profile update requires ID"
      end)]
    (ret tt).

Definition applyDelete (c : Client) (change : Change) : MS unit :=
  switch (ch_ResourceType change) [
    ([ResourceQualityProfile], deleteQualityProfileByName c (ch_Name change));
    ([ResourceMetadataProfile], deleteMetadataProfileByName c (ch_Name change));
    ([ResourceDownloadClient], deleteDownloadClientByName c (ch_Name change));
    ([ResourceIndexer], deleteIndexerByName c (ch_Name change))]
    (fail (unknownResource (ch_ResourceType change))).

(** ** adapter.go: the adapter *)

Definition ensureOwnershipTag (c : Client) : MS Z := EnsureOwnershipTag c "v1".
Definition getOwnershipTagID (c : Client) : MS Z := GetOwnershipTagID c "v1".

Definition Apply (conn : ConnectionIR) (changes : ChangeSet) : MS (option ApplyResult * option error) :=
  let c := newClient conn in
  let* r := attempt (ensureOwnershipTag c) in
  match r with
  | inr e => ret (Some emptyApplyResult, Some ("failed to ensure ownership tag: " +:+ e)%string)
  | inl tagID =>
      let* result := ApplyChanges changes (applyCreate c tagID) (applyUpdate c) (applyDelete c) in
      ret (Some result, None)
  end.

Definition diffIR (o : nat → RangeOrder) (current desired : IR) : ChangeSet :=
  let changes := emptyChangeSet in
  let changes := diffQualityProfiles current desired changes in
  let changes := diffMetadataProfiles (o 1%nat) (ir_MetadataProfiles current) (ir_MetadataProfiles desired) changes in
  let changes := diffDownloadClients (o 2%nat) current desired changes in
  let changes := diffIndexers (o 3%nat) current desired changes in
  diffRootFolders current desired changes.

Definition Diff (o : nat → RangeOrder) (current desired : IR) (caps : option Capabilities) : MS ChangeSet :=
  ret (diffIR o current desired).

Definition Connect `{TimeFormat} (conn : ConnectionIR) : MS ServiceInfo :=
  let c := newClient conn in
  let* status := wrapErr (λ e, "failed to connect to Readarr: " +:+ e)%string (Get SystemResource c "/api/v1/system/status") in
  ret (mkServiceInfo (sys_Version status) (default 0 (sys_StartTime status))).

Definition Discover (now : Z) (conn : ConnectionIR) : MS Capabilities :=
  let c := newClient conn in
  let* dcSchemas := attempt (Get (list ReadarrDownloadClientResource) c "/api/v1/downloadclient/schema") in
  let* idxSchemas := attempt (Get (list ReadarrIndexerResource) c "/api/v1/indexer/schema") in
  ret {|
    caps_DiscoveredAt := now;
    caps_Resolutions := [];
    caps_Sources := [];
    caps_CustomFormatSpecs := [];
    caps_AudioTiers := [];
    caps_DownloadClientTypes := match dcSchemas with inl l => distinctNames (rdc_Implementation <$> l) | inr _ => [] end;
    caps_IndexerTypes := match idxSchemas with inl l => distinctNames (rix_Implementation <$> l) | inr _ => [] end |}.

Definition getManagedQualityProfiles (c : Client) : MS (list BookQualityIR) :=
  let* profiles := wrapErr (λ e, "failed to get quality profiles: " +:+ e)%string
    (Get (list ReadarrQualityProfileResource) c (collectionOf "qualityprofile")) in
  ret (qualityProfileToIR <$> filter (λ p, hasPrefix (rqp_Name p) = true) profiles).

Definition getManagedMetadataProfiles (c : Client) : MS (list MetadataProfileIR) :=
  let* profiles := wrapErr (λ e, "failed to get metadata profiles: " +:+ e)%string
    (Get (list MetadataProfileResource) c (collectionOf "metadataprofile")) in
  ret (metadataProfileToIR <$> filter (λ p, hasPrefix (mpr_Name p) = true) profiles).

Definition getManagedDownloadClients (c : Client) (tagID : Z) : MS (list DownloadClientIR) :=
  let* clients := Get (list ReadarrDownloadClientResource) c (collectionOf "downloadclient") in
  ret (downloadClientToIR <$> filter (λ r, HasTag (rdc_Tags r) tagID = true) clients).

Definition getManagedIndexers (c : Client) (tagID : Z) : MS (list IndexerIR) :=
  let* indexers := Get (list ReadarrIndexerResource) c (collectionOf "indexer") in
  ret (indexerToIR <$> filter (λ r, HasTag (rix_Tags r) tagID = true) indexers).

Definition getRootFolders (c : Client) : MS (list RootFolderIR) :=
  let* folders := Get (list ReadarrRootFolderResource) c (collectionOf "rootfolder") in
  ret ((λ f, mkRootFolderIR (rrf_Path f) "" "") <$> folders).

Definition currentIR (now : Z) (conn : ConnectionIR) quality metadata clients indexers folders : IR := {|
  ir_Version := IRVersion;
  ir_GeneratedAt := now;
  ir_SourceHash := "";
  ir_App := AppReadarr;
  ir_Connection := Some conn;
  ir_Quality := quality;
  ir_DownloadClients := clients;
  ir_RemotePathMappings := [];
  ir_Indexers := indexers;
  ir_Naming := None;
  ir_RootFolders := folders;
  ir_ImportLists := [];
  ir_Notifications := [];
  ir_CustomFormats := [];
  ir_DelayProfiles := [];
  ir_ReleaseProfiles := [];
  ir_MetadataProfiles := metadata;
  ir_MediaManagement := None;
  ir_Authentication := None;
  ir_Prowlarr := None;
  ir_Unrealized := [] |}.

(** [if x, err := m(); err == nil { ... }]. *)
Definition orZero {A B} (zero : B) (f : A → B) (m : MS A) : MS B :=
  let* r := attempt m in ret (match r with inl x => f x | inr _ => zero end).

Definition CurrentState (now : Z) (conn : ConnectionIR) : MS IR :=
  let c := newClient conn in
  let* tag := attempt (getOwnershipTagID c) in
  match tag with
  | inr _ => ret (currentIR now conn None [] [] None [])
  | inl tagID =>
      let* quality := orZero None (λ profiles, match profiles with
                        | p :: _ => Some (mkQualityIR None None (Some p))
                        | [] => None
                        end) (getManagedQualityProfiles c) in
      let* metadata := orZero [] id (getManagedMetadataProfiles c) in
      let* clients := orZero [] id (getManagedDownloadClients c tagID) in
      let* indexers := orZero None (λ l, match l with [] => None | _ => Some (mkIndexersIR None l) end)
                         (getManagedIndexers c tagID) in
      let* folders := orZero [] id (getRootFolders c) in
      ret (currentIR now conn quality metadata clients indexers folders)
  end.

Definition ReadarrGetHealth (conn : ConnectionIR) : MS HealthStatus := GetHealth (newClient conn) "v1".
End requests.

(** The adapter as the registry holds it. *)
Definition ReadarrAdapter {S} `{Service S} `{TimeFormat} (o : nat → RangeOrder) (now : Z) : Adapter S := {|
  a_Name := "readarr";
  a_SupportedApp := AppReadarr;
  a_Connect := Connect;
  a_Discover := Discover now;
  a_CurrentState conn := let* i := CurrentState now conn in ret (Some i);
  a_Diff := Diff o;
  a_Apply := Apply;
  a_ApplyDirect := None;
  a_GetHealth := Some ReadarrGetHealth |}.
