(* ===== verification/ReadarrSync.v ===== *)
(** * Theorems: a sync of Readarr

    The metadata profiles, which carry no tag and are managed by the prefix of their
    name: against a service that keeps the contract of [Rest] one sync brings those
    of the prefix to the desired state.  The download clients and indexers, which
    are listed by their tag but deleted by their name. *)
From S2P Require Export Compiler Sync Rest Readarr.

(** ** The changes of a diff *)

Definition isBookQuality (p : Payload) : bool := match p with PBookQuality _ => true | _ => false end.
Definition isMetadataProfile (p : Payload) : bool := match p with PMetadataProfile _ => true | _ => false end.
Definition isDownloadClient (p : Payload) : bool := match p with PDownloadClient _ => true | _ => false end.
Definition isIndexer (p : Payload) : bool := match p with PIndexer _ => true | _ => false end.
Definition isRootFolder (p : Payload) : bool := match p with PRootFolder _ => true | _ => false end.

(** The payload a resource type comes with. *)
Definition payloadTyped (ch : Change) : bool :=
  switch (ch_ResourceType ch) [
    ([ResourceQualityProfile], isBookQuality (ch_Payload ch));
    ([ResourceMetadataProfile], isMetadataProfile (ch_Payload ch));
    ([ResourceDownloadClient], isDownloadClient (ch_Payload ch));
    ([ResourceIndexer], isIndexer (ch_Payload ch));
    ([ResourceRootFolder], isRootFolder (ch_Payload ch))] true.

(** The collection of the API a resource type lives in. *)
Definition collectionName (resourceType : string) : string :=
  switch resourceType [
    ([ResourceQualityProfile], "qualityprofile"); ([ResourceMetadataProfile], "metadataprofile");
    ([ResourceDownloadClient], "downloadclient"); ([ResourceIndexer], "indexer");
    ([ResourceRootFolder], "rootfolder")] "".

Abbreviation changesOfAny := (DiffSteps.changesOfAny payloadTyped payloadTyped).
Abbreviation appends := (DiffSteps.appends payloadTyped payloadTyped).

(** The steps of [diffIR] in their order. *)
Definition diffSteps (o : nat → RangeOrder) (current desired : IR) : list (string * (ChangeSet → ChangeSet)) := [
  (ResourceQualityProfile, diffQualityProfiles current desired);
  (ResourceMetadataProfile,
    diffMetadataProfiles (o 1%nat) (ir_MetadataProfiles current) (ir_MetadataProfiles desired));
  (ResourceDownloadClient, diffDownloadClients (o 2%nat) current desired);
  (ResourceIndexer, diffIndexers (o 3%nat) current desired);
  (ResourceRootFolder, diffRootFolders current desired)].

Lemma readarr_appends_quality current desired : appends ResourceQualityProfile (diffQualityProfiles current desired).
Proof.
  unfold diffQualityProfiles, DiffBookQualityProfiles.
  repeat case_match; auto with nebularr.
Qed.

Lemma readarr_appends_rootFolders current desired : appends ResourceRootFolder (diffRootFolders current desired).
Proof.
  assert (∀ l, appends ResourceRootFolder (λ cs, foldl (λ changes rf,
    if rf_Path rf ∈? setOf (rf_Path <$> ir_RootFolders current) then changes
    else appendCreate (mkChange ResourceRootFolder (rf_Path rf) None (PRootFolder rf)) changes) cs l)) as Hl; [|apply Hl].
  intros l. induction l as [|f l IH] using rev_ind; [apply appends_id|].
  destruct (rf_Path f ∈? setOf (rf_Path <$> ir_RootFolders current)) eqn:Ef.
  - destruct IH as [E IH]. split; [intros cs; rewrite !foldl_app; cbn [foldl]; rewrite Ef; apply E|].
    rewrite foldl_app. cbn [foldl]. by rewrite Ef.
  - eapply appends_then; [exact IH|by apply (appends_create payloadTyped payloadTyped _
      (mkChange ResourceRootFolder (rf_Path f) None (PRootFolder f)))|].
    intros cs. rewrite foldl_app. cbn [foldl]. by rewrite Ef.
Qed.

Lemma readarr_diffSteps_append o current desired :
  Forall (λ step : string * (ChangeSet → ChangeSet), appends step.1 step.2) (diffSteps o current desired).
Proof.
  repeat apply Forall_cons_2; [..|apply Forall_nil_2]; cbn [fst snd];
    auto using readarr_appends_quality, readarr_appends_rootFolders; by apply appends_named.
Qed.

Lemma readarr_diffIR_typed o current desired :
  let cs := diffIR o current desired in
  (∀ ch, ch ∈ cs_Creates cs → payloadTyped ch = true) ∧ (∀ ch, ch ∈ cs_Updates cs → payloadTyped ch = true).
Proof. eapply steps_typed; [apply readarr_diffSteps_append|done]. Qed.

(** ** The requests of a change *)

Section apply.
Context {S : Type} `{Service S} (P : relation S) `{!PreOrder P} (c : Client).
Abbreviation quiet := (quietAt P c "/api/v1/").

Hypothesis get_harmless : ∀ p, harmless P c "GET" p.

Ltac resource_clash :=
  repeat match goal with H : (_ =? _)%string = true |- _ => apply String.eqb_eq in H end;
  exfalso; subst; match goal with H : @eq string _ _ |- _ => vm_compute in H; discriminate H end.

Lemma steps_deleteByName {R} `{FromJSON R} collection (nameOf : R → string) idOf n :
  quiet collection → steps P (deleteByName collection nameOf idOf c n).
Proof.
  intros [_ Hq]. unfold deleteByName. apply steps_bind; [done|auto with nebularr|].
  intros l. destruct (list_find _ l) as [[i r]|]; eauto with nebularr.
Qed.

Lemma steps_discarded {A} (m : M S A) : steps P m → steps P (m ;;; ret tt).
Proof. intros Hm. apply steps_bind; [done..|]. intros _. by apply steps_ret. Qed.

Lemma steps_getQualityDefinitions : steps P (getQualityDefinitions c).
Proof. unfold getQualityDefinitions. auto with nebularr. Qed.
#[local] Hint Resolve steps_deleteByName steps_discarded steps_getQualityDefinitions : nebularr.

(** What a change does to resources of its own kind. *)
Ltac own_collection :=
  match goal with
  | |- quietAt _ _ _ ?coll → _ =>
      let Hc := fresh "Hcoll" in let Hm := fresh "Hmember" in
      intros [Hc Hm]; simpl in Hc, Hm;
      first [solve [eauto 6 with nebularr]
            |apply steps_bind; [done|solve [auto with nebularr]|intros ?; solve [eauto 6 with nebularr]]]
  end.

Lemma readarr_applyCreate_steps ch tagID :
  payloadTyped ch = true → quiet (collectionName (ch_ResourceType ch)) → steps P (applyCreate c tagID ch).
Proof.
  destruct ch as [rt n id p]. unfold payloadTyped, collectionName, applyCreate.
  cbn [ch_ResourceType ch_Payload switch existsb]. rewrite !orb_false_r.
  repeat case_match; try done; intros Ht; try own_collection; try (by resource_clash).
Qed.

Lemma readarr_applyUpdate_steps ch :
  payloadTyped ch = true → quiet (collectionName (ch_ResourceType ch)) → steps P (applyUpdate c ch).
Proof.
  destruct ch as [rt n id p]. unfold payloadTyped, collectionName, applyUpdate.
  cbn [ch_ResourceType ch_Payload ch_ID switch existsb]. rewrite !orb_false_r.
  repeat case_match; try done; intros Ht; try (by resource_clash); try own_collection.
Qed.

Lemma readarr_applyDelete_steps ch :
  quiet (collectionName (ch_ResourceType ch)) → steps P (applyDelete c ch).
Proof.
  destruct ch as [rt n id p]. unfold collectionName, applyDelete.
  cbn [ch_ResourceType ch_Name switch existsb]. rewrite !orb_false_r.
  repeat case_match; try (by resource_clash); try (intros Hq; by apply steps_deleteByName);
    intros _; by apply steps_fail.
Qed.
End apply.

(** Applying a diff never panics: every change has the payload that is asserted. *)
Lemma readarr_callbacks_return {S} `{Service S} c tagID (o : nat → RangeOrder) current desired :
  let cs := diffIR o current desired in
  returns (applyCreate c tagID) (cs_Creates cs) ∧ returns (applyUpdate c) (cs_Updates cs) ∧
  returns (applyDelete c) (cs_Deletes cs).
Proof.
  intros cs. destruct (readarr_diffIR_typed o current desired) as [Hc Hu].
  assert (Hq : ∀ name, quietAt anything c "/api/v1/" name) by done.
  split_and!; intros ch s Hin; [apply (readarr_applyCreate_steps anything c)|apply (readarr_applyUpdate_steps anything c)
    |apply (readarr_applyDelete_steps anything c)]; auto; done.
Qed.

(** ** Metadata profiles *)

(** The floating point number the service reads back. *)
Definition readBack (f : float64) : float64 := default float64_zero (asFloat (toWire (VFloat f))).

Definition storedMetadata (i : Z) (d : MetadataProfileIR) : MetadataProfileResource :=
  metadataProfileResource i (mkMetadataProfileIR (mp_ID d) (mp_Name d) (readBack (mp_MinPopularity d))
    (mp_SkipMissingDate d) (mp_SkipMissingIsbn d) (mp_SkipPartsAndSets d) (mp_SkipSeriesSecondary d)
    (mp_AllowedLanguages d)).

(** A desired profile the adapter will recognise, whose popularity is a number that
    JSON keeps. *)
Definition metadataOk (d : MetadataProfileIR) : Prop :=
  hasPrefix (mp_Name d) = true ∧ SFeqb (readBack (mp_MinPopularity d)) (mp_MinPopularity d) = true.

Lemma decode_metadata i d : fromJSON (toJSON (metadataProfileResource i d)) = Some (storedMetadata i d).
Proof.
  destruct d as [id name pop b1 b2 b3 b4 langs].
  unfold toJSON, ToJSON_MetadataProfileResource, omitIf, storedMetadata, metadataProfileResource, readBack.
  cbn -[floatToWire]. unfold floatToWire.
  destruct (SFeqb _ pop) eqn:E; destruct (String.eqb_spec langs "") as [->|]; reflexivity.
Qed.

Definition mpr_set_ID (i : Z) (r : MetadataProfileResource) : MetadataProfileResource :=
  metadataProfileResource i (metadataProfileToIR r).

Section metadata.
Context {S : Type} `{Service S} (c : Client) (tagID : Z) (base : plainBase c).
Context (view : S → gmap Z MetadataProfileResource).

Definition metadataCollection : Collection S MetadataProfileResource :=
  mkCollection "/api/v1/" "metadataprofile" view mpr_set_ID.

(** IDs are consistent, and a name of the prefix has one profile. *)
Definition namesDistinct (v : gmap Z MetadataProfileResource) : Prop :=
  (∀ i r, v !! i = Some r → mpr_ID r = i) ∧
  (∀ i1 r1 i2 r2, v !! i1 = Some r1 → v !! i2 = Some r2 →
     hasPrefix (mpr_Name r1) = true → mpr_Name r1 = mpr_Name r2 → i1 = i2).

Definition managedMetadata : Managed MetadataProfileResource MetadataProfileIR S metadataOps :=
  mkManaged mpr_ID (λ r, hasPrefix (mpr_Name r)) metadataProfileToIR storedMetadata
    view (λ s, namesDistinct (view s)) metadataOk (applyCreate c tagID) (applyUpdate c) (applyDelete c).

Lemma namesDistinct_wellFormed v : namesDistinct v ↔ wellFormed managedMetadata v.
Proof.
  unfold namesDistinct, wellFormed, present. cbn [managedMetadata mg_id mg_managed mg_toIR metadataOps op_key].
  split; intros [Hi Hn]; split; try done.
  - intros n i1 r1 i2 r2 (H1 & Hm & <-) (H2 & _ & E). by apply (Hn i1 r1 i2 r2).
  - intros i1 r1 i2 r2 H1 H2 Hm E. apply (Hn (mpr_Name r1) i1 r1 i2 r2); split_and!; try done.
    by rewrite <-E.
Qed.

(** A profile is stored at an ID of its name or at one that is new. *)
Lemma namesDistinct_insert v i d :
  namesDistinct v → (∀ j r, v !! j = Some r → mpr_Name r = mp_Name d → j = i) →
  namesDistinct (<[i := storedMetadata i d]> v).
Proof.
  intros [Hi Hn] Honly. split.
  - intros j r [[<- <-]|[_ Hj]]%lookup_insert_Some; [done|by apply Hi].
  - intros j1 r1 j2 r2 [[<- <-]|[Hne1 H1]]%lookup_insert_Some [[<- <-]|[Hne2 H2]]%lookup_insert_Some Hp E; try done.
    + symmetry. by apply (Honly j2 r2).
    + by apply (Honly j1 r1).
    + by apply (Hn j1 r1 j2 r2).
Qed.

Lemma namesDistinct_delete v i : namesDistinct v → namesDistinct (delete i v).
Proof.
  intros [Hi Hn]. split.
  - intros j r [_ Hj]%lookup_delete_Some. by apply Hi.
  - intros j1 r1 j2 r2 [_ H1]%lookup_delete_Some [_ H2]%lookup_delete_Some. by apply Hn.
Qed.

Context `{!RestLaws c metadataCollection}.

(** The deletion by name finds the profile. *)
Lemma deleteByName_removes s n i r :
  namesDistinct (view s) → view s !! i = Some r → mpr_Name r = n → hasPrefix n = true →
  ∃ s', deleteMetadataProfileByName c n s = (s', Ret tt) ∧ view s' = delete i (view s).
Proof.
  intros [Hids Hn] Hi Hr Hp.
  destruct (Get_list c base metadataCollection eq_refl ltac:(done) eq_refl s) as (l & HG & Hl).
  assert (∀ r', r' ∈ l ↔ ∃ j, view s !! j = Some r') as Hin by (intros r'; by apply (elem_of_listing (view s))).
  destruct (list_find_elem_of (λ r, mpr_Name r = n) l r) as [[k r'] Hf]; [apply Hin; by exists i|done|].
  unfold deleteMetadataProfileByName, deleteByName, bind.
  change (collectionOf "metadataprofile") with (collectionPath "/api/v1/" "metadataprofile").
  cbn [metadataCollection col_api col_name] in HG. rewrite HG, Hf.
  apply list_find_Some in Hf as (Hk%list_elem_of_lookup_2 & Hr' & _).
  apply Hin in Hk as [j Hj]. assert (j = i) as ->.
  { apply (Hn j r' i r); [done..| |]; congruence. }
  rewrite (Hids i r' Hj).
  destruct (Delete_removes c base metadataCollection eq_refl ltac:(done) eq_refl s i) as (s' & HD & Hv); [by eexists|].
  by exists s'.
Qed.

#[export] Instance managedMetadata_laws : ManagedLaws managedMetadata.
Proof.
  split; cbn [managedMetadata mg_id mg_managed mg_toIR mg_make mg_view mg_inv mg_ok mg_create mg_update mg_delete].
  - done.
  - intros i d [Hp _]. exact Hp.
  - done.
  - intros i d [_ Hf]. simpl. unfold metadataProfilesEqual. simpl.
    rewrite !String.eqb_refl, !eqb_reflx. unfold readBack in *. by rewrite Hf.
  - intros s n d Hinv [Hp _] <- Habs.
    destruct (Post_stores c base metadataCollection eq_refl ltac:(done) eq_refl (metadataProfileResource 0 d)
      (storedMetadata 0 d) (decode_metadata 0 d) s) as (s' & i & _ & HP & _ & Hn & Hv).
    exists s', i. cbn [metadataCollection col_view] in *. split_and!; [|rewrite Hv|done|done].
    + exact (bind_ok _ _ _ _ _ HP).
    + apply namesDistinct_insert; [done|]. intros j r Hj Hr. destruct (Habs j r).
      split_and!; [done| |exact Hr]. simpl. by rewrite Hr.
  - intros s n i r d Hinv [Hp _] <- Hid Hpr. pose proof Hpr as (Hi & Hm & Hn).
    destruct (Put_stores c base metadataCollection eq_refl ltac:(done) eq_refl (metadataProfileResource i d)
      (storedMetadata i d) (decode_metadata i d) s i) as (s' & _ & HP & Hv); [by eexists|].
    exists s'. cbn [metadataCollection col_view] in *. split_and!; [|rewrite Hv|done].
    + simpl in Hid. simpl. unfold applyUpdate. simpl. rewrite Hid. exact (bind_ok _ _ _ _ _ HP).
    + apply namesDistinct_insert; [done|]. intros j r' Hj Hr'. symmetry.
      simpl in Hm, Hn. apply (proj2 Hinv i r j r'); [done..|congruence].
  - intros s n i r Hinv Hid (Hi & Hm & Hn). simpl in Hm, Hn.
    destruct (deleteByName_removes s n i r) as (s' & HD & Hv); [done|done|done|congruence|].
    exists s'. split_and!; [exact HD|rewrite Hv; by apply namesDistinct_delete|done].
Qed.
End metadata.

(** ** One sync *)

Section sync.
Context {S : Type} `{Service S}.

(** The steps of a reconciliation that concern the adapter. *)
Definition readarrSync (now : Z) (o : nat → RangeOrder) (conn : ConnectionIR) (desired : IR)
    : M S (option ApplyResult * option error) :=
  let* current := CurrentState now conn in
  let* changes := Diff o current desired None in
  Apply conn changes.

(** The collections of the other resources. *)
Definition otherCollections : list string := ["qualityprofile"; "downloadclient"; "indexer"; "rootfolder"].

Context (conn : ConnectionIR) (tagID : Z).
Abbreviation c := (newClient conn).
Context (base : plainBase c) (known : tagKnownAt c "v1" tagID).
Context (view : S → gmap Z MetadataProfileResource).
Abbreviation col := (metadataCollection view).
Context `{!LawsAt c "/api/v1/" col otherCollections}.
Abbreviation m := (managedMetadata c tagID view).
Abbreviation P := (sameCollection col).

Lemma readarr_reads_quiet p : harmless P c "GET" p.
Proof. apply (@col_get S _ c _ _ _ col otherCollections _). Qed.

Lemma readarr_quiet_others name : name ∈ otherCollections → quietAt P c "/api/v1/" name.
Proof. apply (@col_others S _ c _ _ _ col otherCollections _). Qed.

Lemma orZero_steps {A B} (zero : B) (f : A → B) (mm : M S A) s :
  steps P mm → ∃ s' b, orZero zero f mm s = (s', Ret b) ∧ P s s'.
Proof.
  intros Hm. destruct (Hm s) as [HP Hn]. unfold orZero, bind, attempt.
  destruct (mm s) as [s' [a|e|why]]; [by eexists _, _..|by destruct (Hn why)].
Qed.

Lemma readarr_steps_getter {A B} p `{FromJSON A} (f : A → B) : steps P (let* x := Get A c p in ret (f x)).
Proof.
  apply steps_bind; [typeclasses eauto|apply steps_Get; [typeclasses eauto|apply readarr_reads_quiet]|]. intros a.
  apply steps_ret. typeclasses eauto.
Qed.

Lemma steps_wrapped {A B} p `{FromJSON A} e (f : A → B) : steps P (let* x := wrapErr e (Get A c p) in ret (f x)).
Proof.
  apply steps_bind; [typeclasses eauto| |]; [|intros a; apply steps_ret; typeclasses eauto].
  apply steps_wrapErr, steps_Get; [typeclasses eauto|apply readarr_reads_quiet].
Qed.

Ltac read_next s' HP :=
  match goal with
  | |- context [bind (orZero ?z ?f ?g) ?k ?s] =>
      let E := fresh "E" in let b := fresh "b" in
      destruct (orZero_steps z f g s) as (s' & b & E & HP); [|unfold bind at 1; rewrite E; clear E]
  end.

Lemma metadata_read now s : ∃ s' cur l, CurrentState now conn s = (s', Ret cur) ∧
  view s' = view s ∧ listing (view s) l ∧ ir_MetadataProfiles cur = managedIR m l.
Proof.
  unfold CurrentState, bind at 1, attempt.
  destruct (EnsureOwnershipTag_known c base "v1" tagID s eq_refl known) as [_ HT].
  unfold getOwnershipTagID. rewrite HT.
  read_next s1 H1; [apply steps_wrapped|].
  destruct (Get_list c base col eq_refl ltac:(done) eq_refl s1) as (l & HG & Hl).
  assert (orZero [] id (getManagedMetadataProfiles c) s1 = (s1, Ret (managedIR m l))) as EM.
  { unfold orZero, getManagedMetadataProfiles, bind, attempt, wrapErr.
    change (collectionOf "metadataprofile") with (collectionPath "/api/v1/" "metadataprofile").
    cbn [metadataCollection col_api col_name] in HG. by rewrite HG. }
  unfold bind at 1. rewrite EM.
  read_next s2 H2; [apply readarr_steps_getter|]. read_next s3 H3; [apply readarr_steps_getter|].
  read_next s4 H4; [apply readarr_steps_getter|].
  eexists _, _, l. split; [reflexivity|]. unfold sameCollection in *.
  cbn [metadataCollection col_view] in *. rewrite <-H1. split_and!; [congruence|done|done].
Qed.

Lemma readarr_Apply_known changes s :
  Apply conn changes s =
  (let* r := ApplyChanges changes (applyCreate c tagID) (applyUpdate c) (applyDelete c) in ret (Some r, None)) s.
Proof.
  destruct (EnsureOwnershipTag_known c base "v1" tagID s eq_refl known) as [HE _].
  unfold Apply, ensureOwnershipTag. by rewrite (bind_attempt_ret _ _ _ _ _ HE).
Qed.

(** A resource type whose requests leave the profiles alone. *)
Definition otherKind (rt : string) : Prop := rt ≠ ResourceMetadataProfile ∧ collectionName rt ∈ otherCollections.

Lemma metadata_converges now o desired s :
  namesDistinct (view s) → Forall metadataOk (ir_MetadataProfiles desired) →
  ∃ s2 r, readarrSync now o conn desired s = (s2, Ret (Some r, None)) ∧
    (∀ e, e ∈ ar_Errors r → ch_ResourceType (ae_Change e) ≠ ResourceMetadataProfile) ∧
    namesDistinct (view s2) ∧ unmanagedKept m (view s) (view s2) ∧
    (∀ l, listing (view s2) l → inSync metadataOps (managedIR m l) (ir_MetadataProfiles desired)) ∧
    ∃ s3 current, CurrentState now conn s2 = (s3, Ret current) ∧
      inSync metadataOps (ir_MetadataProfiles current) (ir_MetadataProfiles desired).
Proof.
  intros Hwf Hok. pose proof (managedMetadata_laws c tagID base view) as HL.
  assert (Hsame : ∀ A (f : M S A), steps P f → steps (sameView m) f).
  { intros A f Hf s'. destruct (Hf s') as [HP Hn]. split; [|done]. unfold sameView.
    unfold sameCollection in HP. cbn [metadataCollection col_view managedMetadata mg_view mg_inv] in *.
    by rewrite HP. }
  destruct (kind_sync m payloadTyped payloadTyped ResourceMetadataProfile otherKind) with
    (part := ir_MetadataProfiles) (diffSteps := λ (_ : S) cur des, diffSteps o cur des) (o := o 1%nat)
    (read := CurrentState now conn) (apply := Apply conn) (desired := desired) (w := s)
    as (s2 & r & E & Herr & [Hinv _] & Hkeep & Hsync & Hread); try done.
  - intros ch [_ Hq] Ht. apply Hsame, readarr_applyCreate_steps; auto using readarr_quiet_others, readarr_reads_quiet.
    typeclasses eauto.
  - intros ch [_ Hq] Ht. apply Hsame, readarr_applyUpdate_steps; auto using readarr_quiet_others, readarr_reads_quiet.
    typeclasses eauto.
  - intros ch [_ Hq]. apply Hsame, readarr_applyDelete_steps; auto using readarr_quiet_others, readarr_reads_quiet.
    typeclasses eauto.
  - by intros rt [? _].
  - intros _ cur des. apply readarr_diffSteps_append.
  - intros _ cur des. exists [(ResourceQualityProfile, diffQualityProfiles cur des)]. eexists. eexists.
    split; [reflexivity|]. split; [reflexivity|].
    repeat constructor; (done || by apply (bool_decide_unpack _)).
  - apply readarr_Apply_known.
  - intros s'. destruct (metadata_read now s') as (s1 & cur & l & E & Hv & Hl & Hp). exists s1, cur, l.
    split_and!; [done| |done|done]. unfold sameView. cbn. by rewrite Hv.
  - split; [done|by apply namesDistinct_wellFormed].
  - exists s2, r. split_and!; done.
Qed.
End sync.

(** ** What Readarr is told of a compiled configuration *)

Lemma SFeqb_int n : - 2 ^ 53 < n < 2 ^ 53 → SFeqb (float64_of_int n) (float64_of_int n) = true.
Proof.
  intros [Hlo Hhi]. unfold float64_of_int, binary_normalize. destruct n as [|p|p]; [done|..].
  - destruct (binary_round_exact false p) as (mz & k & _ & _ & ->); [lia|].
    unfold SFeqb, SFcompare. by rewrite Z.compare_refl, Pos.compare_cont_refl.
  - destruct (binary_round_exact true p) as (mz & k & _ & _ & ->); [lia|].
    unfold SFeqb, SFcompare. by rewrite Z.compare_refl, Pos.compare_cont_refl.
Qed.

Lemma readBack_int n : - 2 ^ 53 < n < 2 ^ 53 → SFeqb (readBack (float64_of_int n)) (float64_of_int n) = true.
Proof.
  intros Hn. unfold readBack. cbn [toWire]. unfold floatToWire. rewrite int_float64_exact by done.
  rewrite SFeqb_int by done. by apply SFeqb_int.
Qed.

(** The metadata profiles of a configuration are named with the prefix. *)
Lemma compiled_metadata `{Digest} now input :
  ir_MetadataProfiles (Compile now input) =
  if decide (ci_App input = AppReadarr)
  then option_list (compileMetadataProfile (ci_MetadataProfile input) ("nebularr-" +:+ ci_ConfigName input)) else [].
Proof.
  assert (ir_MetadataProfiles (Compile now input) = (compileQuality input ("nebularr-" +:+ ci_ConfigName input)).2) as ->.
  { unfold Compile. transitivity (ir_MetadataProfiles (compileUnpruned now input)).
    - destruct (ci_Capabilities input) as [caps|]; [|by destruct (compileUnpruned now input)].
      pose proof (pruneUnsupported_spec (compileUnpruned now input) caps) as HP.
      destruct (pruneUnsupported _ caps) as [i u]. destruct HP as (_ & _ & _ & _ & <-). by destruct i.
    - unfold compileUnpruned. by destruct (compileQuality _ _). }
  unfold compileQuality, isOneOf. cbn [existsb]. rewrite !orb_false_r.
  destruct (String.eqb_spec (ci_App input) AppRadarr) as [->|_]; [by rewrite decide_False by done|].
  destruct (String.eqb_spec (ci_App input) AppSonarr) as [->|_]; [by rewrite decide_False by done|].
  destruct (String.eqb_spec (ci_App input) AppLidarr) as [->|_]; [by rewrite decide_False by done|].
  destruct (String.eqb_spec (ci_App input) AppReadarr) as [->|Hne]; simpl.
  - by destruct (ci_MetadataProfile input).
  - by rewrite decide_False.
Qed.

Lemma hasPrefix_app s : s ≠ ""%string → hasPrefix ("nebularr-" +:+ s) = true.
Proof. destruct s; [done|]. intros _. unfold hasPrefix. by rewrite (proj2 (Z.ltb_ge _ _)) by (simpl String.length; lia). Qed.

Lemma hasPrefix_append s : hasPrefix ("nebularr-" +:+ s) = true.
Proof. destruct s; [done|]. by apply hasPrefix_app. Qed.

(** A popularity that a [float64] holds exactly. *)
Definition popularityExact (input : CompileInput) : Prop :=
  ∀ mp, ci_MetadataProfile input = Some mp → - 2 ^ 53 < mpi_MinPopularity mp < 2 ^ 53.

Lemma compiled_metadata_ok `{Digest} now input :
  popularityExact input → Forall metadataOk (ir_MetadataProfiles (Compile now input)).
Proof.
  intros Hp. rewrite compiled_metadata. destruct (decide _); [|constructor].
  destruct (ci_MetadataProfile input) as [mp|] eqn:E; [|constructor]. repeat constructor; simpl.
  - destruct (String.eqb _ _); apply hasPrefix_append.
  - apply readBack_int, (Hp mp E).
Qed.

Section theorems.
Context {S : Type} `{Service S} `{Digest}.
Context (conn : ConnectionIR) (tagID : Z).
Abbreviation c := (newClient conn).
Context (base : plainBase c) (known : tagKnownAt c "v1" tagID).

(** C8: the metadata profile of a configuration reaches Readarr, and those without
    the operator's prefix are left alone.  The desired state is what [Compile] makes
    of a configuration, with a popularity that float64 has; Readarr has the ownership tag
    and its metadata profiles behave as documented, each name of the prefix once.  Then the sync returns a
    result in which no change of a metadata profile failed, whatever happens to the
    other resources; the profile that is asked for is there, as asked for; every
    other profile of the prefix is gone and the rest are those that were there
    before; and the next diff has no change for a metadata profile. *)
Theorem readarr_metadata_sync view `{!LawsAt c "/api/v1/" (metadataCollection view) otherCollections} now o input s :
  let desired := Compile now input in
  popularityExact input → namesDistinct (view s) →
  ∃ s2 r s3 current, readarrSync now o conn desired s = (s2, Ret (Some r, None)) ∧
    (∀ e, e ∈ ar_Errors r → ch_ResourceType (ae_Change e) ≠ ResourceMetadataProfile) ∧
    (∀ i p, hasPrefix (mpr_Name p) = false → view s !! i = Some p ↔ view s2 !! i = Some p) ∧
    (∀ d, d ∈ ir_MetadataProfiles desired → ∃ i p, view s2 !! i = Some p ∧
       metadataProfilesEqual (metadataProfileToIR p) d = true) ∧
    (∀ i p, view s2 !! i = Some p → hasPrefix (mpr_Name p) = true →
       mpr_Name p ∈ (mp_Name <$> ir_MetadataProfiles desired)) ∧
    namesDistinct (view s2) ∧
    CurrentState now conn s2 = (s3, Ret current) ∧
    ∀ o', IsEmpty (diffMetadataProfiles o' (ir_MetadataProfiles current)
                     (ir_MetadataProfiles desired) emptyChangeSet) = true.
Proof.
  intros desired Hpop Hwf.
  destruct (metadata_converges conn tagID base known view now o desired s Hwf (compiled_metadata_ok now input Hpop))
    as (s2 & r & E & Herr & Hwf2 & Hkeep & Hsync & (s3 & cur & E' & Hs)).
  destruct (Get_list c base (metadataCollection view) eq_refl ltac:(done) eq_refl s2) as (l & _ & Hl).
  pose proof (proj1 (namesDistinct_wellFormed c tagID view (view s2)) Hwf2) as Hwf2'.
  destruct (in_sync_view _ (view s2) l _ Hwf2' Hl (Hsync l Hl)) as [Hw Ha].
  exists s2, r, s3, cur. split_and!; try done.
  - intros d Hd. assert (indexBy mp_Name (ir_MetadataProfiles desired) !! mp_Name d = Some d) as Hi.
    { unfold desired in *. rewrite compiled_metadata in *. destruct (decide _); [|by apply not_elem_of_nil in Hd].
      destruct (compileMetadataProfile _ _); [|by apply not_elem_of_nil in Hd].
      apply list_elem_of_singleton in Hd as ->. unfold indexBy. simpl. by rewrite lookup_insert_eq. }
    destruct (Hw _ d Hi) as (i & p & (Hi' & _) & He). by exists i, p.
  - intros i p Hi Hpre. destruct (indexBy mp_Name (ir_MetadataProfiles desired) !! mpr_Name p) as [d|] eqn:Ed.
    + apply lookup_indexBy_Some in Ed as [<- Hd]. by apply list_elem_of_fmap_2.
    + by destruct (Ha _ Ed i p).
  - intros o'. apply diffNamed_empty_iff. by split.
Qed.
End theorems.

(** *** The named resources of a diff *)

Definition namesOf (rt : string) (l : list Change) : gset string :=
  list_to_set (ch_Name <$> filter (λ ch, ch_ResourceType ch = rt) l).

Lemma elem_of_namesOf rt l n : n ∈ namesOf rt l ↔ ∃ ch, ch ∈ l ∧ ch_ResourceType ch = rt ∧ ch_Name ch = n.
Proof.
  unfold namesOf. rewrite elem_of_list_to_set, list_elem_of_fmap. setoid_rewrite list_elem_of_filter. naive_solver.
Qed.

Lemma elem_of_keys {A} (key : A → string) l n :
  n ∈ (list_to_set (key <$> l) : gset string) ↔ is_Some (indexBy key l !! n).
Proof.
  rewrite elem_of_list_to_set, list_elem_of_fmap. split.
  - intros (x & -> & Hx). by apply indexBy_is_Some.
  - intros [x [Hk Hx]%lookup_indexBy_Some]. by exists x.
Qed.

Lemma namesOf_named {A} (ops : DiffOps A) rt o current desired all :
  (∀ n d, ch_ResourceType (op_create ops n d) = rt ∧ ch_Name (op_create ops n d) = n) →
  (∀ n d, ch_ResourceType (op_delete ops n d) = rt ∧ ch_Name (op_delete ops n d) = n) →
  (∀ ch, ch_ResourceType ch = rt →
     (ch ∈ cs_Creates all ↔ ch ∈ cs_Creates (diffNamed ops o current desired emptyChangeSet)) ∧
     (ch ∈ cs_Updates all ↔ ch ∈ cs_Updates (diffNamed ops o current desired emptyChangeSet)) ∧
     (ch ∈ cs_Deletes all ↔ ch ∈ cs_Deletes (diffNamed ops o current desired emptyChangeSet))) →
  namesOf rt (cs_Creates all) = list_to_set (op_key ops <$> desired) ∖ list_to_set (op_key ops <$> current) ∧
  namesOf rt (cs_Deletes all) = list_to_set (op_key ops <$> current) ∖ list_to_set (op_key ops <$> desired).
Proof.
  intros Hc Hd Hall. split; apply set_eq; intros n; rewrite elem_of_namesOf, elem_of_difference, !elem_of_keys, <-eq_None_not_Some.
  - split.
    + intros (ch & Hin & Ht & <-). apply Hall in Hin; [|done].
      apply elem_of_creates in Hin as [?%not_elem_of_nil|(m & d & Hm & Hn & ->)]; [done|].
      rewrite (proj2 (Hc m d)). by split; [exists d|].
    + intros [[d Hm] Hn]. exists (op_create ops n d). destruct (Hc n d) as [Ht Hname].
      split_and!; [|done..]. apply Hall; [done|]. apply elem_of_creates. right. by exists n, d.
  - split.
    + intros (ch & Hin & Ht & <-). apply Hall in Hin; [|done].
      apply elem_of_deletes in Hin as [?%not_elem_of_nil|(m & d & Hm & Hn & ->)]; [done|].
      rewrite (proj2 (Hd m d)). by split; [exists d|].
    + intros [[d Hm] Hn]. exists (op_delete ops n d). destruct (Hd n d) as [Ht Hname].
      split_and!; [|done..]. apply Hall; [done|]. apply elem_of_deletes. right. by exists n, d.
Qed.

(** Only the step of the metadata profiles updates. *)
Lemma diffIR_updates o current desired : cs_Updates (diffIR o current desired) =
  cs_Updates (diffMetadataProfiles (o 1%nat) (ir_MetadataProfiles current) (ir_MetadataProfiles desired) emptyChangeSet).
Proof.
  assert (∀ l cs, cs_Updates (foldl (λ changes rf,
    if rf_Path rf ∈? setOf (rf_Path <$> ir_RootFolders current) then changes
    else appendCreate (mkChange ResourceRootFolder (rf_Path rf) None (PRootFolder rf)) changes) cs l) = cs_Updates cs) as Hr.
  { induction l as [|f l IH]; intros cs; [done|]. cbn [foldl]. rewrite IH. by case_match. }
  unfold diffIR, diffRootFolders. rewrite Hr. unfold diffIndexers, diffDownloadClients.
  assert (Hnone : ∀ A (ops : DiffOps A) o cur des cs, (∀ x y, op_equal ops x y = true) →
    cs_Updates (diffNamed ops o cur des cs) = cs_Updates cs).
  { intros A ops o' cur des cs He. rewrite diffNamed_eq. simpl.
    replace (omap _ _) with (@nil Change); [by rewrite app_nil_r|]. symmetry. apply nil_iff_no_elem.
    intros ch ([n d] & _ & Hu)%list_elem_of_omap. unfold updateOf in Hu. repeat case_match; congruence. }
  rewrite !Hnone by done. unfold diffMetadataProfiles. rewrite !diffNamed_eq. simpl.
  f_equal. unfold diffQualityProfiles, DiffBookQualityProfiles. by repeat case_match.
Qed.

Lemma readarr_diffIR_steps o current desired : diffIR o current desired =
  foldl (λ cs (step : string * (ChangeSet → ChangeSet)), step.2 cs) emptyChangeSet (diffSteps o current desired).
Proof. done. Qed.

(** The steps around one step of the diff. *)
Ltac around n :=
  match goal with
  | |- context [diffIR ?o ?cur ?des] =>
      let l := eval unfold diffSteps in (diffSteps o cur des) in
      let b := eval cbn [take] in (take n l) in
      let a := eval cbn [drop] in (drop (S n) l) in
      let H := fresh in
      pose proof (step_changes payloadTyped payloadTyped (diffSteps o cur des) b a _ _ (readarr_diffSteps_append o cur des) eq_refl) as H;
      cbv zeta in H; rewrite <-readarr_diffIR_steps in H; apply H;
      by apply (bool_decide_unpack _)
  end.

(** C35: download clients and indexers are only ever created and deleted, by their
    names: whatever the two states are, the diff updates nothing but metadata
    profiles, and it has no change for a client or an indexer as soon as the two
    sides have the same names, however different the settings behind a name are;
    and what it has is a create for each new name and a delete for each that is no
    longer wanted.  So a change of a client's host or credentials is not applied. *)
Theorem readarr_updates_metadata_only o current desired :
  let cs := diffIR o current desired in
  let clients := λ i, dc_Name <$> ir_DownloadClients i in
  let indexers := λ i, idx_Name <$> from_option idxs_Direct [] (ir_Indexers i) in
  (∀ ch, ch ∈ cs_Updates cs → ch_ResourceType ch = ResourceMetadataProfile) ∧
  namesOf ResourceDownloadClient (cs_Creates cs) = list_to_set (clients desired) ∖ list_to_set (clients current) ∧
  namesOf ResourceDownloadClient (cs_Deletes cs) = list_to_set (clients current) ∖ list_to_set (clients desired) ∧
  namesOf ResourceIndexer (cs_Creates cs) = list_to_set (indexers desired) ∖ list_to_set (indexers current) ∧
  namesOf ResourceIndexer (cs_Deletes cs) = list_to_set (indexers current) ∖ list_to_set (indexers desired).
Proof.
  intros cs clients indexers.
  destruct (namesOf_named clientOps ResourceDownloadClient (o 2%nat) (ir_DownloadClients current)
    (ir_DownloadClients desired) cs) as [C1 C2]; [done|done|unfold cs; around 2%nat|].
  destruct (namesOf_named indexerOps ResourceIndexer (o 3%nat) (from_option idxs_Direct [] (ir_Indexers current))
    (from_option idxs_Direct [] (ir_Indexers desired)) cs) as [I1 I2]; [done|done|unfold cs; around 3%nat|].
  split_and!; [|done..]. intros ch. unfold cs. rewrite diffIR_updates.
  intros [?%not_elem_of_nil|(n & x & y & _ & _ & _ & ->)]%elem_of_updates; done.
Qed.

(** *** Deletions go by name *)

Definition rdc_set_ID (i : Z) (r : ReadarrDownloadClientResource) : ReadarrDownloadClientResource :=
  mkReadarrDownloadClientResource i (rdc_Name r) (rdc_Implementation r) (rdc_Protocol r) (rdc_Enable r) (rdc_Priority r)
    (rdc_Tags r) (rdc_Fields r).

Definition clientCollection {S} (view : S → gmap Z ReadarrDownloadClientResource) : Collection S ReadarrDownloadClientResource :=
  mkCollection "/api/v1/" "downloadclient" view rdc_set_ID.

Lemma clientToIR_name r : dc_Name (downloadClientToIR r) = rdc_Name r.
Proof.
  unfold downloadClientToIR. etrans; [apply (foldl_keeps dc_Name)|done]. intros a f.
  apply (switch_keeps dc_Name); [|repeat constructor]; simpl; try done; destruct (f_Value f); try done; by destruct a.
Qed.

(** The diff asks for the deletion of the names that are read and not desired. *)
Lemma deleted_clients o current desired :
  namesOf ResourceDownloadClient (cs_Deletes (diffIR o current desired)) =
  list_to_set (dc_Name <$> ir_DownloadClients current) ∖ list_to_set (dc_Name <$> ir_DownloadClients desired).
Proof.
  apply (namesOf_named clientOps ResourceDownloadClient (o 2%nat)); [done|done|]. around 2%nat.
Qed.

Section byName.
Context {S : Type} `{Service S} (c : Client) (tagID : Z) (base : plainBase c).
Context (view : S → gmap Z ReadarrDownloadClientResource) `{!RestLaws c (clientCollection view)}.
Implicit Types (s : S) (l : list ReadarrDownloadClientResource).

Abbreviation list_clients := (Get (list ReadarrDownloadClientResource) c (collectionOf "downloadclient")).

(** The first client of the name is deleted, whatever it is. *)
Lemma deleteClient_run s l n : list_clients s = (s, Ret l) → l ≡ₚ (map_to_list (view s)).*2 →
  (∀ i r, view s !! i = Some r → rdc_ID r = i) →
  match list_find (λ r, rdc_Name r = n) l with
  | Some (_, r) => ∃ s', deleteDownloadClientByName c n s = (s', Ret tt) ∧ view s' = delete (rdc_ID r) (view s) ∧
      view s !! rdc_ID r = Some r
  | None => deleteDownloadClientByName c n s = (s, Ret tt)
  end.
Proof.
  intros HG Hl Hids. unfold deleteDownloadClientByName, deleteByName. rewrite (bind_ok _ _ _ _ _ HG).
  destruct (list_find _ l) as [[k r]|] eqn:Ef; [|done].
  apply list_find_Some in Ef as (Hk%list_elem_of_lookup_2 & _).
  apply (elem_of_listing (view s)) in Hk as [i Hi]; [|exact Hl]. rewrite (Hids i r Hi).
  destruct (Delete_removes c base (clientCollection view) eq_refl ltac:(done) eq_refl s i) as (s' & HD & Hv); [by eexists|].
  by exists s'.
Qed.
End byName.

(** C34: Download clients are managed by their tag and deleted by their name.  In any
    state of a Readarr that lists and deletes as documented, with the managed clients
    read there, a deletion of the name [n] is asked for exactly when a client of that
    name has the ownership tag and the desired state has none of it.  Applying it
    succeeds and deletes the first client of the name that is listed and nothing else,
    whether it has the tag or not: when that is one of the user's, the user's client is
    gone and every managed client is still there. *)
Theorem readarr_deletes_untagged_client {S} `{Service S} c tagID (view : S → gmap Z ReadarrDownloadClientResource)
    `{!RestLaws c (clientCollection view)} o current desired n s :
  plainBase c → (∀ i r, view s !! i = Some r → rdc_ID r = i) →
  getManagedDownloadClients c tagID s = (s, Ret (ir_DownloadClients current)) →
  ∃ l, Get (list ReadarrDownloadClientResource) c (collectionOf "downloadclient") s = (s, Ret l) ∧
    l ≡ₚ (map_to_list (view s)).*2 ∧
    ((∃ ch, ch ∈ cs_Deletes (diffIR o current desired) ∧ ch_ResourceType ch = ResourceDownloadClient ∧ ch_Name ch = n) ↔
     (∃ i r, view s !! i = Some r ∧ rdc_Name r = n ∧ HasTag (rdc_Tags r) tagID = true) ∧
     n ∉ dc_Name <$> ir_DownloadClients desired) ∧
    ∀ id payload, let deletion := applyDelete c (mkChange ResourceDownloadClient n id payload) s in
    match list_find (λ r, rdc_Name r = n) l with
    | None => deletion = (s, Ret tt)
    | Some (_, r) => ∃ s', deletion = (s', Ret tt) ∧ view s' = delete (rdc_ID r) (view s) ∧
        (HasTag (rdc_Tags r) tagID = false →
           view s !! rdc_ID r = Some r ∧ view s' !! rdc_ID r = None ∧
           ∀ i r', view s !! i = Some r' → HasTag (rdc_Tags r') tagID = true → view s' !! i = Some r')
    end.
Proof.
  intros base Hids Hcur.
  destruct (Get_list c base (clientCollection view) eq_refl ltac:(done) eq_refl s) as (l & HG & Hl).
  change (Get (list ReadarrDownloadClientResource) c (collectionOf "downloadclient") s = (s, Ret l)) in HG.
  cbn [clientCollection col_view] in Hl. exists l. split; [done|]. split; [done|]. split.
  - rewrite <-elem_of_namesOf, deleted_clients, elem_of_difference, !elem_of_list_to_set.
    unfold getManagedDownloadClients in Hcur. rewrite (bind_ok _ _ _ _ _ HG) in Hcur. injection Hcur as <-.
    rewrite <-list_fmap_compose, list_elem_of_fmap. setoid_rewrite list_elem_of_filter.
    assert (∀ r, r ∈ l ↔ ∃ i, view s !! i = Some r) as Hin by (intros r; by apply (elem_of_listing (view s))).
    setoid_rewrite Hin. split.
    + intros [(r & -> & Ht & i & Hi) Hn]. split; [exists i, r|].
      * split_and!; [exact Hi| |exact Ht]. symmetry. apply clientToIR_name.
      * exact Hn.
    + intros [(i & r & Hi & <- & Ht) Hn]. rewrite <-clientToIR_name in Hn |- *. split; [|exact Hn]. exists r. split; [done|]. by split; [|exists i].
  - intros id payload. pose proof (deleteClient_run c base view s l n HG Hl Hids) as Hd.
    change (applyDelete c (mkChange ResourceDownloadClient n id payload) s) with (deleteDownloadClientByName c n s).
    destruct (list_find _ l) as [[k r]|]; [|exact Hd]. destruct Hd as (s' & E & Hv & Hr).
    exists s'. split; [done|]. split; [done|]. intros Ht. rewrite Hv. split; [done|]. split; [apply lookup_delete_eq|].
    intros i r' Hi Hr'. rewrite lookup_delete_ne; [done|]. intros <-. congruence.
Qed.

(** ** Examples *)

Module ReadarrMini.
Import MiniServer.

Lemma decodes_metadata doc r i :
  fromJSON doc = Some r → fromJSON (assignID i doc) = Some (mpr_set_ID i r).
Proof.
  revert doc r i. intros doc r i; destruct doc as [| | | | | | |l]; try done;
  [by intros [= <-]|];
  simpl assignID; unfold fromJSON; unfold FromJSON_MetadataProfileResource; unfold asStruct; rewrite getInt_id.
  destruct (getInt "id" l); [|done]; cbn [mbind option_bind].
  unfold getString, getInt, getBool, getFloat; rewrite !readMember_snoc by done.
  repeat match goal with
  | |- context [readMember ?c ?z ?n ?x l] =>
      destruct (readMember c z n x l); [|done]; cbn [mbind option_bind]
  end; by intros [= <-].
Qed.

Abbreviation metadataMini := (MiniService (R := MetadataProfileResource) "/api/v1/" "metadataprofile" 7).

Lemma metadata_laws c :
  @LawsAt _ metadataMini c "/api/v1/" _ _ (metadataCollection view) otherCollections.
Proof.
  apply (laws_at _ _ _ decodes_metadata); [done|].
  apply Forall_forall; intros other Ho i j; unfold otherCollections in Ho; set_unfold in Ho;
    destruct_or! Ho; subst other; split_and!; discriminate.
Qed.

Lemma readarr_decodes_client doc r i :
  fromJSON doc = Some r → fromJSON (assignID i doc) = Some (rdc_set_ID i r).
Proof. revert doc r i. decodes_with_id ltac:(unfold FromJSON_ReadarrDownloadClientResource). Qed.

Lemma readarr_client_laws c :
  @RestLaws _ (MiniService (R := ReadarrDownloadClientResource) "/api/v1/" "downloadclient" 7) c _ _ (clientCollection view).
Proof.
  apply (@col_rest _ _ c "/api/v1/" _ _ _ []).
  apply (laws_at _ _ _ readarr_decodes_client); [done|]. apply Forall_nil_2.
Qed.
End ReadarrMini.

Definition readarrConn : ConnectionIR := mkConnectionIR "http://readarr.media:8787" "0123" false.

Definition readarrInput : CompileInput :=
  mkCompileInput AppReadarr "books" "default" "http://readarr.media:8787" "0123" "" None "" [] [] None [] [] None
    None [] [] [] (Some (mkMetadataProfileInput "" 350 true false true false ["eng"; "deu"])) None None ∅.

(** A profile of the user, one of the operator under the name that is wanted, with
    other settings, and one that is no longer wanted. *)
Definition readarrProfiles : gmap Z any :=
  {[ 1 := toJSON (mkMetadataProfileResource 1 "Standard" (float64_of_int 10) true true true true "");
     2 := toJSON (mkMetadataProfileResource 2 "nebularr-books" (float64_of_int 10) true true true true "");
     3 := toJSON (mkMetadataProfileResource 3 "nebularr-old" (float64_of_int 10) true true true true "") ]}.

Lemma readarr_metadata_sync_witness :
  let service := ReadarrMini.metadataMini in
  let view := MiniServer.view (R := MetadataProfileResource) in
  let digest : Digest := λ h, hb_ConfigName h in
  let desired := Compile 0 readarrInput in
  ∃ s2 r, @readarrSync _ service 0 (λ _, keyOrder) readarrConn desired readarrProfiles = (s2, Ret (Some r, None)) ∧
    (∃ p, view s2 !! 1 = Some p ∧ mpr_Name p = "Standard"%string) ∧
    (∃ i p, view s2 !! i = Some p ∧ mpr_AllowedLanguages p = "eng,deu"%string).
Proof.
  intros service view digest desired.
  assert (plainBase (newClient readarrConn)) as base by (by exists false, "readarr.media"%string, "8787"%string).
  assert (@tagKnownAt _ service (newClient readarrConn) "v1" 7) as known by (by apply MiniServer.known_tag).
  assert (popularityExact readarrInput) as Hpop by (intros mp [= <-]; simpl; lia).
  assert (namesDistinct (view readarrProfiles)) as Hwf.
  { apply (namesDistinct_wellFormed (newClient readarrConn) 7 view (H := service)), wellFormed_distinct;
      apply (bool_decide_unpack _); vm_compute; reflexivity. }
  destruct (@readarr_metadata_sync _ service digest readarrConn 7 base known view
    (ReadarrMini.metadata_laws (newClient readarrConn)) 0 (λ _, keyOrder) readarrInput readarrProfiles Hpop Hwf)
    as (s2 & r & _ & _ & H1 & _ & H2 & H3 & _).
  exists s2, r. split; [exact H1|split].
  - set (p := mkMetadataProfileResource 1 "Standard" (float64_of_int 10) true true true true "").
    exists p. split; [|reflexivity]. apply (H2 1 p); [reflexivity|vm_compute; reflexivity].
  - destruct (H3 (mkMetadataProfileIR None "nebularr-books" (float64_of_int 350) true false true false "eng,deu"))
      as (i & p & Hi & He); [vm_compute; left|].
    exists i, p. split; [exact Hi|]. unfold metadataProfilesEqual in He.
    apply andb_prop in He as [_ He]. exact (proj1 (String.eqb_eq _ _) He).
Defined.

(** Two clients of one name, of which one carries the ownership tag. *)
Definition readarrClient (id : Z) (host : string) (tags : list Z) : ReadarrDownloadClientResource :=
  mkReadarrDownloadClientResource id "nebularr-qbit" "QBittorrent" "torrent" true 1 tags
    [mkField "host" (VString host)].

Definition readarrClients : gmap Z any :=
  {[ 1 := toJSON (readarrClient 1 "managed" [7]); 2 := toJSON (readarrClient 2 "mine" []) ]}.

(** The user's client goes and the managed one stays. *)
Lemma readarr_deletes_untagged_client_witness :
  let service := MiniServer.MiniService (R := ReadarrDownloadClientResource) "/api/v1/" "downloadclient" 7 in
  let view := MiniServer.view (R := ReadarrDownloadClientResource) in
  let c := newClient readarrConn in
  let current := currentIR 0 readarrConn None [] [downloadClientToIR (readarrClient 1 "managed" [7])] None [] in
  let desired := currentIR 0 readarrConn None [] [] None [] in
  ∃ ch s', ch ∈ cs_Deletes (diffIR (λ _, keyOrder) current desired) ∧
    applyDelete (H := service) c ch readarrClients = (s', Ret tt) ∧
    (rdc_Tags <$> view readarrClients !! 2) = Some [] ∧ view s' !! 2 = None ∧
    view s' !! 1 = Some (readarrClient 1 "managed" [7]).
Proof.
  intros service view c current desired.
  assert (plainBase c) as base by (by exists false, "readarr.media"%string, "8787"%string).
  assert (∀ i r, view readarrClients !! i = Some r → rdc_ID r = i) as Hids.
  { assert (map_Forall (λ i r, rdc_ID r = i) (view readarrClients)) as Hf
      by (apply (bool_decide_unpack _); vm_compute; exact I). exact Hf. }
  destruct (@readarr_deletes_untagged_client _ service c 7 view (ReadarrMini.readarr_client_laws c) (λ _, keyOrder) current desired
    "nebularr-qbit" readarrClients base Hids) as (l & HG & _ & [_ Hask] & Hrun); [vm_compute; reflexivity|].
  destruct Hask as (ch & Hin & Ht & Hn).
  { split; [|vm_compute; apply not_elem_of_nil].
    exists 1, (readarrClient 1 "managed" [7]). split_and!; vm_compute; reflexivity. }
  destruct ch as [rt n id p]. cbn [ch_ResourceType ch_Name] in Ht, Hn. subst rt n. specialize (Hrun id p).
  assert (l = [readarrClient 2 "mine" []; readarrClient 1 "managed" [7]]) as ->.
  { assert ((Get (H := service) (list ReadarrDownloadClientResource) c (collectionOf "downloadclient") readarrClients).2 =
      Ret [readarrClient 2 "mine" []; readarrClient 1 "managed" [7]]) as E by (vm_compute; reflexivity).
    rewrite HG in E. by injection E. }
  cbn in Hrun. destruct Hrun as (s' & E & _ & Hkeep). destruct (Hkeep eq_refl) as (_ & Hgone & Hothers).
  exists (mkChange ResourceDownloadClient "nebularr-qbit" id p), s'. split; [exact Hin|]. split; [exact E|].
  split; [vm_compute; reflexivity|]. split; [exact Hgone|]. apply Hothers; vm_compute; reflexivity.
Defined.
