(* ===== verification/Lidarr.v ===== *)
(** * The Lidarr adapter: reading and diffing (src/internal/adapters/lidarr)

    The adapter of Lidarr, over version 1 of the API.  Its package has the same two
    variables as Sonarr's, so the adapter runs in the same kind of [World].  The
    qualities are those of audio; a profile's tiers are read by another table than
    the one they are written by. *)
From S2P Require Export ResourcesV1 SonarrApply.

(** ** clients.go, indexers.go *)

Definition clientToIR (dc : DownloadClientResource) : DownloadClientIR :=
  ExtractDownloadClientFields (dcr_Fields dc) {|
    dc_ID := dcr_ID dc;
    dc_Name := dcr_Name dc;
    dc_Protocol := dcr_Protocol dc;
    dc_Implementation := dcr_Implementation dc;
    dc_Enable := dcr_Enable dc;
    dc_Priority := dcr_Priority dc;
    dc_RemoveCompletedDownloads := dcr_RemoveCompletedDownloads dc;
    dc_RemoveFailedDownloads := dcr_RemoveFailedDownloads dc;
    dc_Host := ""; dc_Port := 0; dc_UseTLS := false; dc_Username := ""; dc_Password := "";
    dc_Category := ""; dc_Directory := "" |} ["category"; "musicCategory"].

Definition indexerToIR (idx : BaseIndexerResource) : IndexerIR :=
  ExtractIndexerFields (bix_Fields idx) {|
    idx_ID := bix_ID idx;
    idx_Name := bix_Name idx;
    idx_Protocol := bix_Protocol idx;
    idx_Implementation := bix_Implementation idx;
    idx_Enable := bix_Enable idx;
    idx_Priority := bix_Priority idx;
    idx_URL := ""; idx_APIKey := ""; idx_Categories := []; idx_MinimumSeeders := 0;
    idx_SeedRatio := float64_zero; idx_SeedTimeMinutes := 0;
    idx_EnableRss := bix_EnableRss idx;
    idx_EnableAutomaticSearch := bix_EnableAutomaticSearch idx;
    idx_EnableInteractiveSearch := bix_EnableInteractiveSearch idx |}.

(** ** quality.go *)

Definition qualityToTier (qualityName : string) : string :=
  switch qualityName [
    (["FLAC 24bit"; "FLAC 24bit Lossless"], "lossless-hires");
    (["FLAC"; "FLAC Lossless"; "ALAC"; "APE"; "WAV"], "lossless");
    (["MP3-320"; "AAC-320"; "OGG Vorbis Q10"], "lossy-high");
    (["MP3-256"; "AAC-256"; "OGG Vorbis Q8"], "lossy-mid");
    (["MP3-128"; "AAC-128"; "MP3-VBR"; "AAC-VBR"], "lossy-low")] "".

(** The tier of an allowed item that is a single quality of a known tier. *)
Definition itemTier (item : NamedItem) : option AudioQualityTierIR :=
  match ni_Quality item with
  | Some q =>
      if ni_Allowed item && negb (String.eqb (qualityToTier (nq_Name q)) "")
      then Some (mkAudioQualityTierIR (qualityToTier (nq_Name q)) true) else None
  | None => None
  end.

Definition profileToIR (p : LidarrQualityProfileResource) : AudioQualityIR := {|
  aq_ProfileName := lqp_Name p;
  aq_UpgradeAllowed := lqp_UpgradeAllowed p;
  aq_Cutoff := "";
  aq_Tiers := omap itemTier (lqp_Items p);
  aq_ReleaseProfile := None;
  aq_FormatScores := ∅;
  aq_MinimumCustomFormatScore := 0;
  aq_UpgradeUntilCustomFormatScore := 0 |}.

(** Whether a profile name follows the naming convention. *)
Definition isManagedName (name : string) : bool :=
  (9 <? Z.of_nat (String.length name)) && String.eqb (stringTake 9 name) "nebularr-".

(** ** customformats.go *)

Definition specToIR (spec : CustomFormatSpecification) : FormatSpecIR := {|
  fs_Type := cfsr_Implementation spec;
  fs_Name := cfsr_Name spec;
  fs_Negate := cfsr_Negate spec;
  fs_Required := cfsr_Required spec;
  fs_Value := match list_find (λ f, f_Name f = "value") (cfsr_Fields spec) with
              | Some (_, f) => match f_Value f with VString v => v | v => Sprintv v end
              | None => ""
              end |}.

Definition customFormatToIR (cf : CustomFormatResource) : CustomFormatIR := {|
  cf_ID := cfr_ID cf;
  cf_Name := cfr_Name cf;
  cf_IncludeWhenRenaming := cfr_IncludeCustomFormatWhenRenaming cf;
  cf_Specifications := specToIR <$> cfr_Specifications cf |}.

Definition customFormatsEqual (a b : CustomFormatIR) : bool :=
  Bool.eqb (cf_IncludeWhenRenaming a) (cf_IncludeWhenRenaming b) &&
  Nat.eqb (length (cf_Specifications a)) (length (cf_Specifications b)) &&
  forallb (λ ab : FormatSpecIR * FormatSpecIR, let '(specA, specB) := ab in
      String.eqb (fs_Type specA) (fs_Type specB) && String.eqb (fs_Name specA) (fs_Name specB) &&
      Bool.eqb (fs_Negate specA) (fs_Negate specB) && Bool.eqb (fs_Required specA) (fs_Required specB) &&
      String.eqb (fs_Value specA) (fs_Value specB))
    (zip (cf_Specifications a) (cf_Specifications b)).

Definition cf_set_ID (id : Z) (c : CustomFormatIR) : CustomFormatIR :=
  mkCustomFormatIR id (cf_Name c) (cf_IncludeWhenRenaming c) (cf_Specifications c).

Definition lidarrCustomFormatOps : DiffOps CustomFormatIR := {|
  op_key := cf_Name;
  op_equal := customFormatsEqual;
  op_create name d := mkChange ResourceCustomFormat name None (PCustomFormat d);
  op_update name c d :=
    mkChange ResourceCustomFormat name (Some (cf_ID c)) (PCustomFormat (cf_set_ID (cf_ID c) d));
  op_delete name c := mkChange ResourceCustomFormat name (Some (cf_ID c)) PNil |}.

(** ** notifications.go *)

Definition notificationToIR (n : LidarrNotificationResource) : NotificationIR := {|
  nt_ID := lnr_ID n;
  nt_Name := lnr_Name n;
  nt_Implementation := lnr_Implementation n;
  nt_ConfigContract := lnr_ConfigContract n;
  nt_Enabled := true;
  nt_OnGrab := lnr_OnGrab n;
  nt_OnDownload := false;
  nt_OnUpgrade := lnr_OnUpgrade n;
  nt_OnRename := lnr_OnRename n;
  nt_OnHealthIssue := lnr_OnHealthIssue n;
  nt_OnHealthRestored := lnr_OnHealthRestored n;
  nt_OnApplicationUpdate := lnr_OnApplicationUpdate n;
  nt_OnManualInteractionRequired := false;
  nt_IncludeHealthWarnings := lnr_IncludeHealthWarnings n;
  nt_OnMovieAdded := false;
  nt_OnMovieDelete := false;
  nt_OnMovieFileDelete := false;
  nt_OnMovieFileDeleteForUpgrade := false;
  nt_OnSeriesAdd := false;
  nt_OnSeriesDelete := false;
  nt_OnEpisodeFileDelete := false;
  nt_OnEpisodeFileDeleteForUpgrade := false;
  nt_OnReleaseImport := lnr_OnReleaseImport n;
  nt_OnArtistAdd := lnr_OnArtistAdd n;
  nt_OnArtistDelete := lnr_OnArtistDelete n;
  nt_OnAlbumDelete := lnr_OnAlbumDelete n;
  nt_OnTrackRetag := lnr_OnTrackRetag n;
  nt_OnDownloadFailure := lnr_OnDownloadFailure n;
  nt_OnImportFailure := lnr_OnImportFailure n;
  nt_Fields := fieldsToMap (lnr_Fields n);
  nt_Tags := lnr_Tags n |}.

Definition notificationsEqual (a b : NotificationIR) : bool :=
  String.eqb (nt_Implementation a) (nt_Implementation b) &&
  Bool.eqb (nt_OnGrab a) (nt_OnGrab b) && Bool.eqb (nt_OnUpgrade a) (nt_OnUpgrade b) &&
  Bool.eqb (nt_OnRename a) (nt_OnRename b) &&
  Bool.eqb (nt_OnHealthIssue a) (nt_OnHealthIssue b) &&
  Bool.eqb (nt_OnHealthRestored a) (nt_OnHealthRestored b) &&
  Bool.eqb (nt_OnApplicationUpdate a) (nt_OnApplicationUpdate b) &&
  Bool.eqb (nt_IncludeHealthWarnings a) (nt_IncludeHealthWarnings b) &&
  Bool.eqb (nt_OnReleaseImport a) (nt_OnReleaseImport b) && Bool.eqb (nt_OnArtistAdd a) (nt_OnArtistAdd b) &&
  Bool.eqb (nt_OnArtistDelete a) (nt_OnArtistDelete b) && Bool.eqb (nt_OnAlbumDelete a) (nt_OnAlbumDelete b) &&
  Bool.eqb (nt_OnTrackRetag a) (nt_OnTrackRetag b) && Bool.eqb (nt_OnDownloadFailure a) (nt_OnDownloadFailure b) &&
  Bool.eqb (nt_OnImportFailure a) (nt_OnImportFailure b) &&
  fieldsEqual (nt_Fields a) (nt_Fields b).

Definition notificationOps : DiffOps NotificationIR := {|
  op_key := nt_Name;
  op_equal := notificationsEqual;
  op_create name d := mkChange ResourceNotification name None (PNotification d);
  op_update name c d :=
    mkChange ResourceNotification name (Some (nt_ID c)) (PNotification (nt_set_ID (nt_ID c) d));
  op_delete name c := mkChange ResourceNotification name (Some (nt_ID c)) PNil |}.

(** ** importlists.go, delayprofiles.go, naming.go, remotepathmappings.go, rootfolders.go,
       mediamanagement.go *)

Definition importListToIR (list : LidarrImportListResource) : ImportListIR := {|
  il_Name := lil_Name list;
  il_Type := lil_Implementation list;
  il_Enabled := true;
  il_EnableAuto := lil_EnableAutomaticAdd list;
  il_SearchOnAdd := lil_SearchForNewAlbum list;
  il_QualityProfileID := lil_QualityProfileID list;
  il_QualityProfileName := "";
  il_RootFolderPath := lil_RootFolderPath list;
  il_Monitor := "";
  il_MinimumAvailability := "";
  il_SeriesType := "";
  il_SeasonFolder := false;
  il_ShouldMonitor := "";
  il_Settings := importListSettings (lil_Fields list) |}.

Definition delayProfileToIR (p : DelayProfileResource) : DelayProfileIR := {|
  dp_ID := dpr_ID p;
  dp_Name := "";
  dp_Order := dpr_Order p;
  dp_PreferredProtocol := switch (dpr_PreferredProtocol p) [
    (["usenet"], ProtocolUsenet); (["torrent"], ProtocolTorrent)] "";
  dp_UsenetDelay := dpr_UsenetDelay p;
  dp_TorrentDelay := dpr_TorrentDelay p;
  dp_EnableUsenet := dpr_EnableUsenet p;
  dp_EnableTorrent := dpr_EnableTorrent p;
  dp_BypassIfHighestQuality := dpr_BypassIfHighestQuality p;
  dp_BypassIfAboveCustomFormatScore := dpr_BypassIfAboveCustomFormatScore p;
  dp_MinimumCustomFormatScore := dpr_MinimumCustomFormatScore p;
  dp_Tags := dpr_Tags p;
  dp_TagNames := [] |}.

Definition namingToIR (naming : LidarrNamingConfigResource) : LidarrNamingIR := {|
  ln_RenameTracks := lnc_RenameTracks naming;
  ln_ReplaceIllegalCharacters := lnc_ReplaceIllegalCharacters naming;
  ln_ColonReplacementFormat := 0;
  ln_StandardTrackFormat := lnc_StandardTrackFormat naming;
  ln_MultiDiscTrackFormat := lnc_MultiDiscTrackFormat naming;
  ln_ArtistFolderFormat := lnc_ArtistFolderFormat naming;
  ln_AlbumFolderFormat := lnc_AlbumFolderFormat naming |}.

Definition mappingToIR (m : RemotePathMappingResource) : RemotePathMappingIR :=
  mkRemotePathMappingIR (rpr_ID m) (rpr_Host m) (rpr_RemotePath m) (rpr_LocalPath m).

Definition mediaManagementToIR (config : LidarrMediaManagementConfigResource) : MediaManagementIR := {|
  mm_RecycleBin := lmm_RecycleBin config;
  mm_RecycleBinCleanupDays := lmm_RecycleBinCleanupDays config;
  mm_SetPermissions := lmm_SetPermissionsLinux config;
  mm_ChmodFolder := lmm_ChmodFolder config;
  mm_ChownGroup := lmm_ChownGroup config;
  mm_DeleteEmptyFolders := lmm_DeleteEmptyFolders config;
  mm_CreateEmptyFolders := lmm_CreateEmptyArtistFolders config;
  mm_UseHardlinks := lmm_CopyUsingHardlinks config;
  mm_WatchLibraryForChanges := Some (lmm_WatchLibraryForChanges config);
  mm_AllowFingerprinting := lmm_AllowFingerprinting config |}.

Definition namingNeedsUpdate (current : option LidarrNamingIR) (desired : LidarrNamingIR) : bool :=
  match current with
  | None => true
  | Some current =>
      negb (Bool.eqb (ln_RenameTracks current) (ln_RenameTracks desired)) ||
      negb (String.eqb (ln_StandardTrackFormat current) (ln_StandardTrackFormat desired)) ||
      negb (String.eqb (ln_MultiDiscTrackFormat current) (ln_MultiDiscTrackFormat desired)) ||
      negb (String.eqb (ln_ArtistFolderFormat current) (ln_ArtistFolderFormat desired)) ||
      negb (String.eqb (ln_AlbumFolderFormat current) (ln_AlbumFolderFormat desired))
  end.

(** ** adapter.go: reading *)

Definition newClient (conn : ConnectionIR) : Client :=
  New (mkConfig (conn_URL conn) (conn_APIKey conn) (conn_InsecureSkipVerify conn) 0).

Section reading.
Context {S : Type} `{Service S} `{TimeFormat}.
Abbreviation MS := (M (World S)).

Definition Connect (conn : ConnectionIR) : MS ServiceInfo :=
  let c := newClient conn in
  let* status := wrapErr (λ e, "failed to connect to Lidarr: " +:+ e)%string
    (onService (Get SystemResource c "/api/v1/system/status")) in
  ret (mkServiceInfo (sys_Version status) (default 0 (sys_StartTime status))).

(** [now] is [time.Now()]. *)
Definition Discover (now : Z) (conn : ConnectionIR) : MS Capabilities :=
  let c := newClient conn in
  let* dcSchemas := attempt (onService (Get (list DownloadClientResource) c "/api/v1/downloadclient/schema")) in
  let* idxSchemas := attempt (onService (Get (list BaseIndexerResource) c "/api/v1/indexer/schema")) in
  ret {|
    caps_DiscoveredAt := now;
    caps_Resolutions := [];
    caps_Sources := [];
    caps_CustomFormatSpecs := [];
    caps_AudioTiers := ["lossless-hires"; "lossless"; "lossy-high"; "lossy-mid"; "lossy-low"];
    caps_DownloadClientTypes :=
      match dcSchemas with inl l => distinctNames (dcr_Implementation <$> l) | inr _ => [] end;
    caps_IndexerTypes :=
      match idxSchemas with inl l => distinctNames (bix_Implementation <$> l) | inr _ => [] end |}.

Definition getOwnershipTagID (c : Client) : MS Z := onService (GetOwnershipTagID c "v1").
Definition ensureOwnershipTag (c : Client) : MS Z := onService (EnsureOwnershipTag c "v1").

(** [managedProfileID] ends up at the ID of the last managed profile. *)
Definition getManagedQualityProfiles (c : Client) (tagID : Z) : MS (list AudioQualityIR) :=
  let* profiles := onService (Get (list LidarrQualityProfileResource) c "/api/v1/qualityprofile") in
  forRange (λ managed p,
    if isManagedName (lqp_Name p) then
      setManagedProfileID (Some (lqp_ID p)) ;;; ret (managed ++ [profileToIR p])
    else ret managed) [] profiles.

Definition getManagedDownloadClients (c : Client) (tagID : Z) : MS (list DownloadClientIR) :=
  let* clients := onService (Get (list DownloadClientResource) c "/api/v1/downloadclient") in
  ret (clientToIR <$> filter (λ dc, HasTag (dcr_Tags dc) tagID = true) clients).

Definition getManagedIndexers (c : Client) (tagID : Z) : MS (list IndexerIR) :=
  let* indexers := onService (Get (list BaseIndexerResource) c "/api/v1/indexer") in
  ret (indexerToIR <$> filter (λ idx, HasTag (bix_Tags idx) tagID = true) indexers).

Definition getRootFolders (c : Client) : MS (list RootFolderIR) :=
  let* folders := onService (Get (list LidarrRootFolderResource) c "/api/v1/rootfolder") in
  ret ((λ f, mkRootFolderIR (lrf_Path f) (lrf_Name f) (lrf_DefaultMonitorOption f)) <$> folders).

Definition getRemotePathMappings (c : Client) : MS (list RemotePathMappingIR) :=
  let* mappings := wrapErr (λ e, "failed to get remote path mappings: " +:+ e)%string
    (onService (Get (list RemotePathMappingResource) c "/api/v1/remotepathmapping")) in
  ret (mappingToIR <$> mappings).

Definition getNamingConfig (c : Client) : MS LidarrNamingIR :=
  let* naming := onService (Get LidarrNamingConfigResource c "/api/v1/config/naming") in
  setNamingConfigID (lnc_ID naming) ;;; ret (namingToIR naming).

Definition getImportLists (c : Client) : MS (list LidarrImportListResource) :=
  wrapErr (λ e, "failed to get import lists: " +:+ e)%string
    (onService (Get (list LidarrImportListResource) c "/api/v1/importlist")).

Definition getManagedImportLists (c : Client) (tagID : Z) : MS (list ImportListIR) :=
  let* lists := getImportLists c in
  ret (importListToIR <$> filter (λ l, HasTag (lil_Tags l) tagID = true) lists).

Definition mediaManagementAPIPath : string := "/api/v1/config/mediamanagement".
Definition hostConfigAPIPath : string := "/api/v1/config/host".

Definition getMediaManagementIR (c : Client) : MS MediaManagementIR :=
  let* config := onService (FetchConfig LidarrMediaManagementConfigResource c mediaManagementAPIPath) in
  ret (mediaManagementToIR config).

Definition getAuthenticationIR (c : Client) : MS AuthenticationIR :=
  onService (GetAuthenticationIR c hostConfigAPIPath).

Definition getManagedNotifications (c : Client) (tagID : Z) : MS (list NotificationIR) :=
  let* notifications := wrapErr (λ e, "failed to get notifications: " +:+ e)%string
    (onService (Get (list LidarrNotificationResource) c "/api/v1/notification")) in
  ret (notificationToIR <$> filter (λ n, HasTag (lnr_Tags n) tagID = true) notifications).

Definition getAllCustomFormats (c : Client) : MS (list CustomFormatIR) :=
  let* customFormats := wrapErr (λ e, "failed to get custom formats: " +:+ e)%string
    (onService (Get (list CustomFormatResource) c "/api/v1/customformat")) in
  ret (customFormatToIR <$> customFormats).

Definition getManagedDelayProfiles (c : Client) : MS (list DelayProfileIR) :=
  let* profiles := wrapErr (λ e, "failed to get delay profiles: " +:+ e)%string
    (onService (Get (list DelayProfileResource) c "/api/v1/delayprofile")) in
  ret (delayProfileToIR <$> profiles).

Definition currentIR (now : Z) (conn : ConnectionIR) quality clients indexers folders mappings
    notifications naming importLists mediaManagement auth customFormats delayProfiles : IR := {|
  ir_Version := IRVersion;
  ir_GeneratedAt := now;
  ir_SourceHash := "";
  ir_App := AppLidarr;
  ir_Connection := Some conn;
  ir_Quality := quality;
  ir_DownloadClients := clients;
  ir_RemotePathMappings := mappings;
  ir_Indexers := indexers;
  ir_Naming := naming;
  ir_RootFolders := folders;
  ir_ImportLists := importLists;
  ir_Notifications := notifications;
  ir_CustomFormats := customFormats;
  ir_DelayProfiles := delayProfiles;
  ir_ReleaseProfiles := [];
  ir_MetadataProfiles := [];
  ir_MediaManagement := mediaManagement;
  ir_Authentication := auth;
  ir_Prowlarr := None;
  ir_Unrealized := [] |}.

Definition CurrentState (now : Z) (conn : ConnectionIR) : MS IR :=
  let c := newClient conn in
  let* tag := attempt (getOwnershipTagID c) in
  match tag with
  | inr _ => ret (currentIR now conn None [] None [] [] [] None [] None None [] [])
  | inl tagID =>
      let* quality := orZero None (λ profiles, match profiles with
                        | p :: _ => Some (mkQualityIR None (Some p) None)
                        | [] => None
                        end) (getManagedQualityProfiles c tagID) in
      let* clients := orZero [] id (getManagedDownloadClients c tagID) in
      let* indexers := orZero None (λ l, match l with
                         | [] => None
                         | _ => Some (mkIndexersIR None l)
                         end) (getManagedIndexers c tagID) in
      let* folders := orZero [] id (getRootFolders c) in
      let* mappings := orZero [] id (getRemotePathMappings c) in
      let* notifications := orZero [] id (getManagedNotifications c tagID) in
      let* naming := orZero None (λ n, Some (mkNamingIR None None (Some n))) (getNamingConfig c) in
      let* importLists := orZero [] id (getManagedImportLists c tagID) in
      let* mediaManagement := orZero None Some (getMediaManagementIR c) in
      let* auth := orZero None Some (getAuthenticationIR c) in
      let* customFormats := orZero [] id (getAllCustomFormats c) in
      let* delayProfiles := orZero [] id (getManagedDelayProfiles c) in
      ret (currentIR now conn quality clients indexers folders mappings notifications naming importLists
             mediaManagement auth customFormats delayProfiles)
  end.

Definition LidarrGetHealth (conn : ConnectionIR) : MS HealthStatus :=
  onService (GetHealth (newClient conn) "v1").

(** ** adapter.go: [Diff] *)

Definition diffNaming (namingConfigID : Z) (current desired : IR) (changes : ChangeSet) : ChangeSet :=
  let currentNaming := ir_Naming current ≫= nm_Lidarr in
  match ir_Naming desired ≫= nm_Lidarr with
  | None => changes
  | Some desiredNaming =>
      if namingNeedsUpdate currentNaming desiredNaming
      then appendUpdate (mkChange ResourceNamingConfig "naming" (Some namingConfigID)
                           (PLidarrNaming desiredNaming)) changes
      else changes
  end.

(** [o i] is the iteration order of the [i]th step of [Diff]; every step returns
    a nil error. *)
Definition diffIR (o : nat → RangeOrder) (managedProfileID : option Z) (namingConfigID : Z)
    (current desired : IR) : ChangeSet :=
  let changes := emptyChangeSet in
  let changes := DiffAudioQualityProfiles (ir_Quality current ≫= q_Audio) (ir_Quality desired ≫= q_Audio)
                   managedProfileID changes in
  let changes := DiffDownloadClientsWithIR (o 1%nat) (ir_DownloadClients current)
                   (ir_DownloadClients desired) changes in
  let changes := DiffIndexersWithIR (o 2%nat) (from_option idxs_Direct [] (ir_Indexers current))
                   (from_option idxs_Direct [] (ir_Indexers desired)) changes in
  let changes := DiffRootFolders (ir_RootFolders current) (ir_RootFolders desired) changes in
  let changes := DiffRemotePathMappings (o 4%nat) (ir_RemotePathMappings current)
                   (ir_RemotePathMappings desired) changes in
  let changes := diffNamed notificationOps (o 5%nat) (ir_Notifications current)
                   (ir_Notifications desired) changes in
  let changes := diffNaming namingConfigID current desired changes in
  let changes := diffNamed lidarrCustomFormatOps (o 7%nat) (ir_CustomFormats current)
                   (ir_CustomFormats desired) changes in
  DiffDelayProfiles (ir_DelayProfiles current) (ir_DelayProfiles desired) changes.

Definition Diff (o : nat → RangeOrder) (current desired : IR) (caps : option Capabilities)
    : MS ChangeSet := λ w,
  (w, Ret (diffIR o (w_managedProfileID w) (w_namingConfigID w) current desired)).
End reading.
