(* ===== verification/LidarrApply.v ===== *)
(** * The Lidarr adapter: applying changes (src/internal/adapters/lidarr)

    The conversion of the intermediate representation to Lidarr's resources,
    [applyCreate], [applyUpdate], [applyDelete] with the requests they make, and
    the entry points [Apply] and [ApplyDirect].  A failed type assertion on a
    change's payload, or the dereference of an absent ID, is a panic. *)
From S2P Require Export Lidarr.

(** ** apply.go: resources *)

Definition downloadClientFromIR (dc : DownloadClientIR) (tagID : Z) : DownloadClientResource := {|
  dcr_ID := 0;
  dcr_Name := dc_Name dc;
  dcr_Implementation := dc_Implementation dc;
  dcr_ConfigContract := (dc_Implementation dc +:+ "Settings")%string;
  dcr_Protocol := dc_Protocol dc;
  dcr_Enable := dc_Enable dc;
  dcr_Priority := dc_Priority dc;
  dcr_Tags := [tagID];
  dcr_Fields := [
    mkField "host" (VString (dc_Host dc));
    mkField "port" (VInt (dc_Port dc));
    mkField "useSsl" (VBool (dc_UseTLS dc));
    mkField "username" (VString (dc_Username dc));
    mkField "password" (VString (dc_Password dc));
    mkField "musicCategory" (VString (dc_Category dc))];
  dcr_RemoveCompletedDownloads := dc_RemoveCompletedDownloads dc;
  dcr_RemoveFailedDownloads := dc_RemoveFailedDownloads dc |}.

Definition indexerFromIR (idx : IndexerIR) (tagID : Z) : BaseIndexerResource := {|
  bix_ID := 0;
  bix_Name := idx_Name idx;
  bix_Implementation := idx_Implementation idx;
  bix_ConfigContract := (idx_Implementation idx +:+ "Settings")%string;
  bix_Protocol := idx_Protocol idx;
  bix_Enable := idx_Enable idx;
  bix_Priority := idx_Priority idx;
  bix_Tags := [tagID];
  bix_Fields := [
    mkField "baseUrl" (VString (idx_URL idx));
    mkField "apiKey" (VString (idx_APIKey idx));
    mkField "categories" (VInts (idx_Categories idx))];
  bix_EnableRss := idx_EnableRss idx;
  bix_EnableAutomaticSearch := idx_EnableAutomaticSearch idx;
  bix_EnableInteractiveSearch := idx_EnableInteractiveSearch idx |}.

Definition bix_set_ID (id : Z) (r : BaseIndexerResource) : BaseIndexerResource :=
  let '(mkBaseIndexerResource _ b c d e f g h i j k l) := r in
  mkBaseIndexerResource id b c d e f g h i j k l.

(** ** apply.go: quality profiles *)

Definition groupNameToTier (groupName : string) : string :=
  switch groupName [
    (["Lossless"], "lossless");
    (["High Quality Lossy"], "lossy-high");
    (["Mid Quality Lossy"], "lossy-mid");
    (["Low Quality Lossy"], "lossy-low");
    (["Poor Quality Lossy"; "Trash Quality Lossy"], "")] "".

Definition qualityNameToTier (qualityName : string) : string :=
  switch qualityName [
    (["FLAC 24bit"; "ALAC 24bit"], "lossless-hires");
    (["FLAC"; "ALAC"; "APE"; "WavPack"; "WAV"], "lossless");
    (["MP3-320"; "AAC-320"; "OGG Vorbis Q10"; "OGG Vorbis Q9"; "MP3-VBR-V0"; "AAC-VBR"], "lossy-high");
    (["MP3-256"; "AAC-256"; "OGG Vorbis Q8"; "OGG Vorbis Q7"; "MP3-VBR-V2"], "lossy-mid");
    (["MP3-192"; "AAC-192"; "OGG Vorbis Q6"; "WMA"; "MP3-160"; "MP3-128"], "lossy-low")] "".

Fixpoint copyQualityItem (item : NamedItem) : NamedItem :=
  let '(mkNamedItem id name quality items allowed) := item in
  mkNamedItem id name ((λ q, mkNamedQuality (nq_ID q) (nq_Name q)) <$> quality) (map copyQualityItem items) allowed.

(** The tier of an item of the schema: that of its group, or else of its quality. *)
Definition schemaTier (item : NamedItem) : string :=
  let tierName := groupNameToTier (ni_Name item) in
  match ni_Quality item with
  | Some q => if String.eqb tierName "" then qualityNameToTier (nq_Name q) else tierName
  | None => tierName
  end.

Definition ni_set_Allowed (allowed : bool) (item : NamedItem) : NamedItem :=
  mkNamedItem (ni_ID item) (ni_Name item) (ni_Quality item) (ni_Items item) allowed.

(** A later tier of the same name counts. *)
Definition tierAllowed (tiers : list AudioQualityTierIR) : gmap string bool :=
  foldl (λ m tier, <[at_Tier tier := at_Allowed tier]> m) ∅ tiers.

Definition processSchemaItem (allowedTiers : gmap string bool) (cutoff : string)
    (st : list NamedItem * Z) (item : NamedItem) : list NamedItem * Z :=
  let '(items, cutoffID) := st in
  match allowedTiers !! schemaTier item with
  | Some allowed =>
      (items ++ [ni_set_Allowed allowed (copyQualityItem item)],
       if allowed && String.eqb cutoff (schemaTier item) then
         if negb (ni_ID item =? 0) then ni_ID item
         else match ni_Quality item with Some q => nq_ID q | None => cutoffID end
       else cutoffID)
  | None => (items ++ [copyQualityItem item], cutoffID)
  end.

(** The group of lossless qualities. *)
Definition defaultCutoff : Z := 1005.

Definition profileFromSchema (schema : LidarrQualityProfileResource) (profile : AudioQualityIR)
    : LidarrQualityProfileResource :=
  let '(items, cutoffID) :=
    foldl (processSchemaItem (tierAllowed (aq_Tiers profile)) (aq_Cutoff profile)) ([], 0) (lqp_Items schema) in {|
  lqp_ID := 0;
  lqp_Name := aq_ProfileName profile;
  lqp_UpgradeAllowed := aq_UpgradeAllowed profile;
  lqp_Cutoff := if cutoffID =? 0 then defaultCutoff else cutoffID;
  lqp_Items := items;
  lqp_MinFormatScore := 0;
  lqp_CutoffFormatScore := 0;
  lqp_FormatItems := [] |}.

Definition lqp_set_ID (id : Z) (r : LidarrQualityProfileResource) : LidarrQualityProfileResource :=
  let '(mkLidarrQualityProfileResource _ b c d e f g h) := r in
  mkLidarrQualityProfileResource id b c d e f g h.

(** ** apply.go: root folders *)

(** The components of a path that are not empty. *)
Fixpoint splitFrom (current path : string) : list string :=
  match path with
  | EmptyString => if String.eqb current "" then [] else [current]
  | String c path' =>
      if Ascii.eqb c "/" then (if String.eqb current "" then [] else [current]) ++ splitFrom "" path'
      else splitFrom (current +:+ String c "") path'
  end.
Definition splitPath (path : string) : list string := splitFrom "" path.

Definition rootFolderName (rf : RootFolderIR) : string :=
  if String.eqb (rf_Name rf) "" then default (rf_Path rf) (last (splitPath (rf_Path rf))) else rf_Name rf.

(** The first managed profile, else the first profile, else 1. *)
Definition defaultQualityProfile (qualityProfiles : list LidarrQualityProfileResource) : Z :=
  let qualityProfileID :=
    match list_find (λ qp, isManagedName (lqp_Name qp) = true) qualityProfiles with
    | Some (_, qp) => lqp_ID qp
    | None => 1
    end in
  match qualityProfiles with
  | qp :: _ => if qualityProfileID =? 1 then lqp_ID qp else qualityProfileID
  | [] => qualityProfileID
  end.

Definition lidarrRootFolder (rf : RootFolderIR) (metadataProfileID qualityProfileID : Z) : LidarrRootFolderResource := {|
  lrf_ID := 0;
  lrf_Path := rf_Path rf;
  lrf_Name := rootFolderName rf;
  lrf_DefaultMetadataProfileId := metadataProfileID;
  lrf_DefaultQualityProfileId := qualityProfileID;
  lrf_DefaultMonitorOption := if String.eqb (rf_DefaultMonitor rf) "" then "all" else rf_DefaultMonitor rf |}.

(** ** customformats.go, notifications.go, delayprofiles.go, importlists.go *)

Definition buildSpecFields (spec : FormatSpecIR) : list Field := [mkField "value" (VString (fs_Value spec))].

Definition irToCustomFormat (ir : CustomFormatIR) : CustomFormatResource := {|
  cfr_ID := cf_ID ir;
  cfr_Name := cf_Name ir;
  cfr_IncludeCustomFormatWhenRenaming := cf_IncludeWhenRenaming ir;
  cfr_Specifications := (λ spec, {|
    cfsr_Name := fs_Name spec;
    cfsr_Implementation := fs_Type spec;
    cfsr_Negate := fs_Negate spec;
    cfsr_Required := fs_Required spec;
    cfsr_Fields := buildSpecFields spec |}) <$> cf_Specifications ir |}.

(** The fields follow the iteration order [o] of the map. *)
Definition irToNotification (o : RangeOrder) (ir : NotificationIR) (tagID : Z)
    : LidarrNotificationResource := {|
  lnr_ID := nt_ID ir;
  lnr_Name := nt_Name ir;
  lnr_Implementation := nt_Implementation ir;
  lnr_ConfigContract := nt_ConfigContract ir;
  lnr_Tags := [tagID];
  lnr_Fields := (λ '(name, value), mkField name value) <$> rangeMap o 0 (nt_Fields ir);
  lnr_OnGrab := nt_OnGrab ir;
  lnr_OnReleaseImport := nt_OnReleaseImport ir;
  lnr_OnUpgrade := nt_OnUpgrade ir;
  lnr_OnRename := nt_OnRename ir;
  lnr_OnArtistAdd := nt_OnArtistAdd ir;
  lnr_OnArtistDelete := nt_OnArtistDelete ir;
  lnr_OnAlbumDelete := nt_OnAlbumDelete ir;
  lnr_OnTrackRetag := nt_OnTrackRetag ir;
  lnr_OnDownloadFailure := nt_OnDownloadFailure ir;
  lnr_OnImportFailure := nt_OnImportFailure ir;
  lnr_OnHealthIssue := nt_OnHealthIssue ir;
  lnr_OnHealthRestored := nt_OnHealthRestored ir;
  lnr_OnApplicationUpdate := nt_OnApplicationUpdate ir;
  lnr_IncludeHealthWarnings := nt_IncludeHealthWarnings ir |}.

Definition irToDelayProfile (ir : DelayProfileIR) (tagIDs : list Z) : DelayProfileResource := {|
  dpr_ID := 0;
  dpr_Order := dp_Order ir;
  dpr_PreferredProtocol := switch (dp_PreferredProtocol ir) [
    ([ProtocolUsenet], "usenet"); ([ProtocolTorrent], "torrent")] "usenet";
  dpr_UsenetDelay := dp_UsenetDelay ir;
  dpr_TorrentDelay := dp_TorrentDelay ir;
  dpr_EnableUsenet := dp_EnableUsenet ir;
  dpr_EnableTorrent := dp_EnableTorrent ir;
  dpr_BypassIfHighestQuality := dp_BypassIfHighestQuality ir;
  dpr_BypassIfAboveCustomFormatScore := dp_BypassIfAboveCustomFormatScore ir;
  dpr_MinimumCustomFormatScore := dp_MinimumCustomFormatScore ir;
  dpr_Tags := tagIDs |}.

(** The tags of a delay profile: the ownership tag when no tag names are
    configured, then the profile's own. *)
Definition delayProfileTags (ir : DelayProfileIR) (tagID : Z) : list Z :=
  (if (0 <? tagID) && (Z.of_nat (length (dp_TagNames ir)) =? 0) then [tagID] else []) ++ dp_Tags ir.

Definition findSchemaByType (schemas : list LidarrImportListResource) (listType : string)
    : option LidarrImportListResource :=
  snd <$> list_find (λ s, lil_Implementation s = listType) schemas.

Definition buildImportListFields (o : RangeOrder) (settings : gmap string string)
    (schema : LidarrImportListResource) : list Field :=
  let schemaFields := setOf (f_Name <$> lil_Fields schema) in
  omap (λ '(name, value), if name ∈? schemaFields then Some (mkField name (VString value)) else None)
    (rangeMap o 0 settings).

Definition irToImportList (ir : ImportListIR) (schema : LidarrImportListResource) (fields : list Field)
    (tagID : Z) : LidarrImportListResource := {|
  lil_ID := 0;
  lil_Name := il_Name ir;
  lil_Implementation := il_Type ir;
  lil_ConfigContract := lil_ConfigContract schema;
  lil_EnableAutomaticAdd := il_EnableAuto ir;
  lil_SearchForNewAlbum := il_SearchOnAdd ir;
  lil_QualityProfileID := il_QualityProfileID ir;
  lil_MetadataProfileID := 1;
  lil_RootFolderPath := il_RootFolderPath ir;
  lil_ShouldMonitor := "entireArtist";
  lil_MonitorNewItems := "all";
  lil_ListType := "program";
  lil_ListOrder := 0;
  lil_Tags := [tagID];
  lil_Fields := fields |}.

Definition lil_set_ID (id : Z) (r : LidarrImportListResource) : LidarrImportListResource :=
  let '(mkLidarrImportListResource _ b c d e f g h i j k l m n p) := r in
  mkLidarrImportListResource id b c d e f g h i j k l m n p.

(** The fields [applyMediaManagement] assigns; all others are kept. *)
Definition mergeMediaManagement (ir : MediaManagementIR) (c : LidarrMediaManagementConfigResource)
    : LidarrMediaManagementConfigResource :=
  mkLidarrMediaManagementConfigResource (lmm_ID c) (mm_RecycleBin ir) (mm_RecycleBinCleanupDays ir)
    (mm_SetPermissions ir) (mm_ChmodFolder ir) (mm_ChownGroup ir) (mm_DeleteEmptyFolders ir)
    (mm_CreateEmptyFolders ir) (mm_UseHardlinks ir) (lmm_ImportExtraFiles c)
    (lmm_ExtraFileExtensions c) (lmm_DownloadPropersAndRepacks c)
    (default (lmm_WatchLibraryForChanges c) (mm_WatchLibraryForChanges ir))
    (if String.eqb (mm_AllowFingerprinting ir) "" then lmm_AllowFingerprinting c else mm_AllowFingerprinting ir)
    (lmm_RescanAfterRefresh c) (lmm_FileDate c) (lmm_SkipFreeSpaceCheckWhenImporting c)
    (lmm_MinimumFreeSpaceWhenImporting c).

(** ** The requests *)

Section apply.
Context {S : Type} `{Service S}.
Abbreviation MS := (M (World S)).

Definition resourcePath (collection : string) (id : Z) : string :=
  ("/api/v1/" +:+ collection +:+ "/" +:+ Itoa id)%string.

Definition getProfileSchema (c : Client) : M S LidarrQualityProfileResource :=
  wrapErr (λ e, "failed to get quality profile schema: " +:+ e)%string
    (Get LidarrQualityProfileResource c "/api/v1/qualityprofile/schema").

Definition createQualityProfile (c : Client) (profile : AudioQualityIR) : M S unit :=
  let* schema := getProfileSchema c in
  Post c "/api/v1/qualityprofile" (profileFromSchema schema profile).

Definition updateQualityProfile (c : Client) (id : Z) (profile : AudioQualityIR) : M S unit :=
  let* schema := getProfileSchema c in
  Put c (resourcePath "qualityprofile" id) (lqp_set_ID id (profileFromSchema schema profile)).

Definition createDownloadClient (c : Client) (dc : DownloadClientIR) (tagID : Z) : M S unit :=
  Post c "/api/v1/downloadclient" (downloadClientFromIR dc tagID).

Definition updateDownloadClient (c : Client) (id : Z) (dc : DownloadClientIR) (tagID : Z) : M S unit :=
  Put c (resourcePath "downloadclient" id) (dcr_set_ID id (downloadClientFromIR dc tagID)).

Definition createIndexer (c : Client) (idx : IndexerIR) (tagID : Z) : M S unit :=
  Post c "/api/v1/indexer" (indexerFromIR idx tagID).

Definition updateIndexer (c : Client) (id : Z) (idx : IndexerIR) (tagID : Z) : M S unit :=
  Put c (resourcePath "indexer" id) (bix_set_ID id (indexerFromIR idx tagID)).

Definition createRootFolder (c : Client) (rf : RootFolderIR) : M S unit :=
  let* metadataProfiles := wrapErr (λ e, "failed to get metadata profiles: " +:+ e)%string
    (Get (list LidarrMetadataProfileResource) c "/api/v1/metadataprofile") in
  let metadataProfileID := match metadataProfiles with p :: _ => lmp_ID p | [] => 1 end in
  let* qualityProfiles := wrapErr (λ e, "failed to get quality profiles: " +:+ e)%string
    (Get (list LidarrQualityProfileResource) c "/api/v1/qualityprofile") in
  Post c "/api/v1/rootfolder" (lidarrRootFolder rf metadataProfileID (defaultQualityProfile qualityProfiles)).

Definition updateNaming (c : Client) (namingConfigID : Z) (naming : LidarrNamingIR) : M S unit :=
  Put c "/api/v1/config/naming" {|
    lnc_ID := namingConfigID;
    lnc_RenameTracks := ln_RenameTracks naming;
    lnc_ReplaceIllegalCharacters := ln_ReplaceIllegalCharacters naming;
    lnc_StandardTrackFormat := ln_StandardTrackFormat naming;
    lnc_MultiDiscTrackFormat := ln_MultiDiscTrackFormat naming;
    lnc_ArtistFolderFormat := ln_ArtistFolderFormat naming;
    lnc_AlbumFolderFormat := ln_AlbumFolderFormat naming |}.

Definition createCustomFormat (c : Client) (ir : CustomFormatIR) : M S unit :=
  wrapErr (λ e, "failed to create custom format: " +:+ e)%string
    (PostResult CustomFormatResource c "/api/v1/customformat" (irToCustomFormat ir)) ;;; ret tt.

Definition updateCustomFormat (c : Client) (ir : CustomFormatIR) : M S unit :=
  wrapErr (λ e, "failed to update custom format: " +:+ e)%string
    (PutResult CustomFormatResource c (resourcePath "customformat" (cf_ID ir)) (irToCustomFormat ir)) ;;;
  ret tt.

Definition deleteCustomFormat (c : Client) (id : Z) : M S unit :=
  wrapErr (λ e, "failed to delete custom format: " +:+ e)%string
    (Delete c (resourcePath "customformat" id)).

Definition createRemotePathMapping (c : Client) (ir : RemotePathMappingIR) : M S unit :=
  wrapErr (λ e, "failed to create remote path mapping: " +:+ e)%string
    (PostResult RemotePathMappingResource c "/api/v1/remotepathmapping"
       (mkRemotePathMappingResource 0 (rpm_Host ir) (rpm_RemotePath ir) (rpm_LocalPath ir))) ;;;
  ret tt.

Definition updateRemotePathMapping (c : Client) (ir : RemotePathMappingIR) : M S unit :=
  wrapErr (λ e, "failed to update remote path mapping: " +:+ e)%string
    (PutResult RemotePathMappingResource c (resourcePath "remotepathmapping" (rpm_ID ir))
       (mkRemotePathMappingResource (rpm_ID ir) (rpm_Host ir) (rpm_RemotePath ir) (rpm_LocalPath ir))) ;;;
  ret tt.

Definition deleteRemotePathMapping (c : Client) (id : Z) : M S unit :=
  wrapErr (λ e, "failed to delete remote path mapping: " +:+ e)%string
    (Delete c (resourcePath "remotepathmapping" id)).

Definition createNotification (o : RangeOrder) (c : Client) (ir : NotificationIR) (tagID : Z)
    : M S unit :=
  wrapErr (λ e, "failed to create notification: " +:+ e)%string
    (PostResult LidarrNotificationResource c "/api/v1/notification" (irToNotification o ir tagID)) ;;;
  ret tt.

Definition updateNotification (o : RangeOrder) (c : Client) (ir : NotificationIR) (tagID : Z)
    : M S unit :=
  wrapErr (λ e, "failed to update notification: " +:+ e)%string
    (PutResult LidarrNotificationResource c (resourcePath "notification" (nt_ID ir))
       (irToNotification o ir tagID)) ;;;
  ret tt.

Definition deleteNotification (c : Client) (id : Z) : M S unit :=
  wrapErr (λ e, "failed to delete notification: " +:+ e)%string
    (Delete c (resourcePath "notification" id)).

Definition createDelayProfile (c : Client) (ir : DelayProfileIR) (tagID : Z) : M S unit :=
  Post c "/api/v1/delayprofile" (irToDelayProfile ir (delayProfileTags ir tagID)).

Definition updateDelayProfile (c : Client) (ir : DelayProfileIR) (tagID : Z) : M S unit :=
  Put c (resourcePath "delayprofile" (dp_ID ir))
    (dpr_set_ID (dp_ID ir) (irToDelayProfile ir (delayProfileTags ir tagID))).

Definition deleteDelayProfile (c : Client) (id : Z) : M S unit :=
  Delete c (resourcePath "delayprofile" id).

(** ** apply.go: dispatch *)

Definition applyCreate (o : RangeOrder) (c : Client) (change : Change) (tagID : Z) : M S unit :=
  switch (ch_ResourceType change) [
    ([ResourceQualityProfile],
      match ch_Payload change with PAudioQuality p => createQualityProfile c p | _ => badPayload end);
    ([ResourceDownloadClient],
      match ch_Payload change with PDownloadClient p => createDownloadClient c p tagID | _ => badPayload end);
    ([ResourceIndexer],
      match ch_Payload change with PIndexer p => createIndexer c p tagID | _ => badPayload end);
    ([ResourceRootFolder],
      match ch_Payload change with PRootFolder p => createRootFolder c p | _ => badPayload end);
    ([ResourceRemotePathMapping],
      match ch_Payload change with PRemotePathMapping p => createRemotePathMapping c p | _ => badPayload end);
    ([ResourceNotification],
      match ch_Payload change with PNotification p => createNotification o c p tagID | _ => badPayload end);
    ([ResourceCustomFormat],
      match ch_Payload change with PCustomFormat p => createCustomFormat c p | _ => badPayload end);
    ([ResourceDelayProfile],
      match ch_Payload change with PDelayProfile p => createDelayProfile c p tagID | _ => badPayload end)]
    (fail ("unsupported resource type for create: " +:+ ch_ResourceType change)%string).

Definition applyUpdate (o : RangeOrder) (c : Client) (namingConfigID : Z) (change : Change) (tagID : Z)
    : M S unit :=
  switch (ch_ResourceType change) [
    ([ResourceQualityProfile], withID change (λ id,
      match ch_Payload change with PAudioQuality p => updateQualityProfile c id p | _ => badPayload end));
    ([ResourceDownloadClient], withID change (λ id,
      match ch_Payload change with PDownloadClient p => updateDownloadClient c id p tagID | _ => badPayload end));
    ([ResourceIndexer], withID change (λ id,
      match ch_Payload change with PIndexer p => updateIndexer c id p tagID | _ => badPayload end));
    ([ResourceNamingConfig],
      match ch_Payload change with PLidarrNaming p => updateNaming c namingConfigID p | _ => badPayload end);
    ([ResourceRemotePathMapping],
      match ch_Payload change with PRemotePathMapping p => updateRemotePathMapping c p | _ => badPayload end);
    ([ResourceNotification],
      match ch_Payload change with PNotification p => updateNotification o c p tagID | _ => badPayload end);
    ([ResourceCustomFormat],
      match ch_Payload change with PCustomFormat p => updateCustomFormat c p | _ => badPayload end);
    ([ResourceDelayProfile],
      match ch_Payload change with PDelayProfile p => updateDelayProfile c p tagID | _ => badPayload end)]
    (fail ("unsupported resource type for update: " +:+ ch_ResourceType change)%string).

Definition applyDelete (c : Client) (change : Change) : M S unit :=
  match ch_ID change with
  | None => fail "cannot delete resource without ID"
  | Some id =>
      switch (ch_ResourceType change) [
        ([ResourceQualityProfile], Delete c (resourcePath "qualityprofile" id));
        ([ResourceDownloadClient], Delete c (resourcePath "downloadclient" id));
        ([ResourceIndexer], Delete c (resourcePath "indexer" id));
        ([ResourceRootFolder], Delete c (resourcePath "rootfolder" id));
        ([ResourceRemotePathMapping], deleteRemotePathMapping c id);
        ([ResourceNotification], deleteNotification c id);
        ([ResourceCustomFormat], deleteCustomFormat c id);
        ([ResourceDelayProfile], deleteDelayProfile c id)]
        (fail ("unsupported resource type for delete: " +:+ ch_ResourceType change)%string)
  end.

(** ** adapter.go: [Apply]

    The result pointer is nil when the ownership tag cannot be ensured. *)
Definition Apply (o : RangeOrder) (conn : ConnectionIR) (changes : ChangeSet)
    : MS (option ApplyResult * option error) := λ w,
  let c := newClient conn in
  (let* r := attempt (ensureOwnershipTag c) in
   match r with
   | inr e => ret (None, Some ("failed to ensure ownership tag: " +:+ e)%string)
   | inl tagID =>
       let* result := ApplyChanges changes
         (λ change, onService (applyCreate o c change tagID))
         (λ change, let* w := Prelude.get in onService (applyUpdate o c (w_namingConfigID w) change tagID))
         (λ change, onService (applyDelete c change)) in
       ret (Some result, None)
   end) w.

(** ** importlists.go: [applyImportLists] *)

Definition getImportListSchemas (c : Client) : MS (list LidarrImportListResource) :=
  wrapErr (λ e, "failed to get import list schemas: " +:+ e)%string
    (onService (Get (list LidarrImportListResource) c "/api/v1/importlist/schema")).

Definition createImportList (c : Client) (payload : LidarrImportListResource) : MS unit :=
  onService (PostResult LidarrImportListResource c "/api/v1/importlist" payload) ;;; ret tt.
Definition updateImportList (c : Client) (payload : LidarrImportListResource) : MS unit :=
  onService (PutResult LidarrImportListResource c (resourcePath "importlist" (lil_ID payload)) payload) ;;;
  ret tt.
Definition deleteImportList (c : Client) (id : Z) : MS unit :=
  onService (Delete c (resourcePath "importlist" id)).

(** The body of the loop over the desired lists. *)
Definition applyImportList (o : RangeOrder) (c : Client) (tagID : Z)
    (schemas : list LidarrImportListResource) (existingByName : gmap string LidarrImportListResource)
    (stats : ImportListStats) (list : ImportListIR) : MS ImportListStats :=
  match findSchemaByType schemas (il_Type list) with
  | None =>
      ret (addStats 0 0 0 1
        ["unknown import list type " +:+ il_Type list +:+ " for " +:+ il_Name list]%string stats)
  | Some schema =>
      let payload := irToImportList list schema (buildImportListFields o (il_Settings list) schema) tagID in
      match existingByName !! il_Name list with
      | None =>
          let* r := attempt (createImportList c payload) in
          match r with
          | inr e => ret (addStats 0 0 0 0
              ["failed to create import list " +:+ il_Name list +:+ ": " +:+ e]%string stats)
          | inl _ => ret (addStats 1 0 0 0 [] stats)
          end
      | Some existingList =>
          let* r := attempt (updateImportList c (lil_set_ID (lil_ID existingList) payload)) in
          match r with
          | inr e => ret (addStats 0 0 0 0
              ["failed to update import list " +:+ il_Name list +:+ ": " +:+ e]%string stats)
          | inl _ => ret (addStats 0 1 0 0 [] stats)
          end
      end
  end.

(** The body of the loop over the existing lists. *)
Definition deleteOrphan (c : Client) (tagID : Z) (desiredNames : gset string)
    (stats : ImportListStats) (ne : string * LidarrImportListResource) : MS ImportListStats :=
  let '(name, existingList) := ne in
  if negb (name ∈? desiredNames) && HasTag (lil_Tags existingList) tagID then
    let* r := attempt (deleteImportList c (lil_ID existingList)) in
    match r with
    | inr e => ret (addStats 0 0 0 0 ["failed to delete import list " +:+ name +:+ ": " +:+ e]%string stats)
    | inl _ => ret (addStats 0 0 1 0 [] stats)
    end
  else ret stats.

Definition applyImportLists (o : RangeOrder) (c : Client) (ir : IR) (tagID : Z) : MS ImportListStats :=
  match ir_ImportLists ir with
  | [] => ret emptyStats
  | lists =>
      let* existing := wrapErr (λ e, "failed to get existing import lists: " +:+ e)%string
                         (getImportLists c) in
      let* schemas := wrapErr (λ e, "failed to get import list schemas: " +:+ e)%string
                        (getImportListSchemas c) in
      let existingByName := indexBy lil_Name existing in
      let desiredNames := setOf (il_Name <$> lists) in
      let* stats := forRange (applyImportList o c tagID schemas existingByName) emptyStats lists in
      forRange (deleteOrphan c tagID desiredNames) stats (rangeMap o 1 existingByName)
  end.

(** ** mediamanagement.go, authentication.go, adapter.go: [ApplyDirect] *)

Definition applyMediaManagement (c : Client) (ir : option MediaManagementIR) : MS unit :=
  match ir with
  | None => ret tt
  | Some ir =>
      let* current := wrapErr (λ e, "failed to get current media management config: " +:+ e)%string
        (onService (FetchConfig LidarrMediaManagementConfigResource c mediaManagementAPIPath)) in
      let current := mergeMediaManagement ir current in
      onService (UpdateConfig c mediaManagementAPIPath (lmm_ID current) current)
  end.

Definition applyAuthentication (c : Client) (ir : option AuthenticationIR) : MS unit :=
  onService (ApplyAuthentication c hostConfigAPIPath ir).

Definition LidarrApplyDirect (o : RangeOrder) (conn : ConnectionIR) (ir : IR)
    : MS (option ApplyResult * option error) := λ w,
  let c := newClient conn in
  (let* r := attempt (ensureOwnershipTag c) in
   match r with
   | inr e => ret (None, Some ("failed to ensure ownership tag: " +:+ e)%string)
   | inl tagID =>
       let* result := ApplyDirect ir {|
         dac_ApplyImportLists := Some (let* stats := applyImportLists o c ir tagID in ret (Some stats));
         dac_ApplyMediaManagement := Some (applyMediaManagement c (ir_MediaManagement ir));
         dac_ApplyAuthentication := Some (applyAuthentication c (ir_Authentication ir)) |} in
       ret (Some result, None)
   end) w.
End apply.

(** The adapter as the registry holds it. *)
Definition LidarrAdapter {S} `{Service S} `{TimeFormat} (o : nat → RangeOrder) (now : Z)
    : Adapter (World S) := {|
  a_Name := "lidarr";
  a_SupportedApp := AppLidarr;
  a_Connect := Connect;
  a_Discover := Discover now;
  a_CurrentState conn := let* i := CurrentState now conn in ret (Some i);
  a_Diff := Diff o;
  a_Apply := Apply (o 10%nat);
  a_ApplyDirect := Some (LidarrApplyDirect (o 11%nat));
  a_GetHealth := Some LidarrGetHealth |}.
