(* ===== verification/LidarrSync.v ===== *)
(** * Theorems: a sync of Lidarr

    What Lidarr gives back of what it was sent, the requests of a change, and a sync
    against a service that keeps the contract of [Rest]: the download clients, the
    indexers and the custom formats reach the desired state.  The quality profile
    that is built from Lidarr's schema, and the media management configuration. *)
From S2P Require Export SonarrConverge Sync LidarrApply.

(** ** What the service gives back *)

Definition storedClient (tagID id : Z) (dc : DownloadClientIR) : DownloadClientResource := {|
  dcr_ID := id;
  dcr_Name := dc_Name dc;
  dcr_Implementation := dc_Implementation dc;
  dcr_ConfigContract := (dc_Implementation dc +:+ "Settings")%string;
  dcr_Protocol := dc_Protocol dc;
  dcr_Enable := dc_Enable dc;
  dcr_Priority := dc_Priority dc;
  dcr_Tags := [tagID];
  dcr_Fields := [
    mkField "host" (VString (dc_Host dc));
    mkField "port" (VFloat (float64_of_int (dc_Port dc)));
    mkField "useSsl" (VBool (dc_UseTLS dc));
    mkField "username" (VString (dc_Username dc));
    mkField "password" (VString (dc_Password dc));
    mkField "musicCategory" (VString (dc_Category dc))];
  dcr_RemoveCompletedDownloads := dc_RemoveCompletedDownloads dc;
  dcr_RemoveFailedDownloads := dc_RemoveFailedDownloads dc |}.

Lemma lidarr_decode_client tagID id dc :
  fromJSON (toJSON (dcr_set_ID id (downloadClientFromIR dc tagID))) = Some (storedClient tagID id dc).
Proof.
  destruct dc. unfold toJSON, ToJSON_DownloadClientResource, omitIf. simpl dcr_ID.
  destruct (Z.eqb_spec id 0) as [->|Hid]; reflexivity.
Qed.

Lemma lidarr_clientToIR_stored tagID id dc :
  clientToIR (storedClient tagID id dc) =
  mkDownloadClientIR id (dc_Name dc) (dc_Protocol dc) (dc_Implementation dc) (dc_Enable dc)
    (dc_Priority dc) (dc_RemoveCompletedDownloads dc) (dc_RemoveFailedDownloads dc) (dc_Host dc)
    (int_of_float64 (float64_of_int (dc_Port dc))) (dc_UseTLS dc) (dc_Username dc) (dc_Password dc)
    (dc_Category dc) "".
Proof. by destruct dc. Qed.

Lemma lidarr_stored_client_equal tagID id dc :
  portOk dc → DownloadClientsEqual (clientToIR (storedClient tagID id dc)) dc = true.
Proof.
  intros Hp. rewrite lidarr_clientToIR_stored. unfold DownloadClientsEqual. simpl.
  rewrite int_float64_exact by done. by rewrite !String.eqb_refl, !Z.eqb_refl, !Bool.eqb_reflx.
Qed.

Lemma lidarr_dc_ID r : dc_ID (clientToIR r) = dcr_ID r.
Proof. apply extracted_client_ID. Qed.

(** A custom format comes back as it was sent: every value is a text. *)
Definition lidarrSpec (s : FormatSpecIR) : CustomFormatSpecification :=
  mkCustomFormatSpecification (fs_Name s) (fs_Type s) (fs_Negate s) (fs_Required s) (buildSpecFields s).

Lemma lidarr_decode_format cf : fromJSON (toJSON (irToCustomFormat cf)) = Some (irToCustomFormat cf).
Proof.
  destruct cf as [id name inc specs].
  assert (asSlice fromJSON (VList (toJSON <$> (lidarrSpec <$> specs))) = Some (lidarrSpec <$> specs)) as Hs.
  { apply (mapM_decode lidarrSpec lidarrSpec). by intros []. }
  unfold toJSON, ToJSON_CustomFormatResource, omitIf. simpl cfr_ID.
  unfold irToCustomFormat. cbn [cfr_Name cfr_IncludeCustomFormatWhenRenaming cfr_Specifications
    cf_Name cf_IncludeWhenRenaming cf_Specifications].
  fold lidarrSpec. change (λ spec, lidarrSpec spec) with lidarrSpec.
  destruct (Z.eqb_spec id 0) as [->|Hid];
  unfold fromJSON, FromJSON_CustomFormatResource, asStruct;
  cbn -[asSlice mapM toJSON fromJSON lidarrSpec] in *; rewrite Hs; reflexivity.
Qed.

Lemma lidarr_specToIR s : specToIR (lidarrSpec s) = s.
Proof.
  destruct s. unfold specToIR, lidarrSpec. cbn [cfsr_Fields buildSpecFields list_find].
  by rewrite decide_True.
Qed.

Lemma lidarr_format_equal i cf : customFormatsEqual (customFormatToIR (irToCustomFormat (cf_set_ID i cf))) cf = true.
Proof.
  destruct cf as [id name inc specs]. unfold customFormatsEqual.
  cbn [customFormatToIR irToCustomFormat cf_set_ID cf_IncludeWhenRenaming cfr_IncludeCustomFormatWhenRenaming
    cf_Specifications cfr_Specifications].
  fold lidarrSpec. change (λ spec, lidarrSpec spec) with lidarrSpec.
  rewrite <-list_fmap_compose, Bool.eqb_reflx, length_fmap, Nat.eqb_refl. simpl.
  induction specs as [|s specs IH]; [done|]. rewrite fmap_cons. cbn [zip zip_with forallb].
  unfold compose at 1. rewrite lidarr_specToIR, !String.eqb_refl, !Bool.eqb_reflx. exact IH.
Qed.

(** Indexers: the categories come back as numbers. *)
Definition storedIndexer (tagID id : Z) (idx : IndexerIR) : BaseIndexerResource := {|
  bix_ID := id;
  bix_Name := idx_Name idx;
  bix_Implementation := idx_Implementation idx;
  bix_ConfigContract := (idx_Implementation idx +:+ "Settings")%string;
  bix_Protocol := idx_Protocol idx;
  bix_Enable := idx_Enable idx;
  bix_Priority := idx_Priority idx;
  bix_Tags := [tagID];
  bix_Fields := [
    mkField "baseUrl" (VString (idx_URL idx));
    mkField "apiKey" (VString (idx_APIKey idx));
    mkField "categories" (throughJSON (VInts (idx_Categories idx)))];
  bix_EnableRss := idx_EnableRss idx;
  bix_EnableAutomaticSearch := idx_EnableAutomaticSearch idx;
  bix_EnableInteractiveSearch := idx_EnableInteractiveSearch idx |}.

Lemma lidarr_decode_indexer tagID id idx :
  fromJSON (toJSON (bix_set_ID id (indexerFromIR idx tagID))) = Some (storedIndexer tagID id idx).
Proof.
  destruct idx. unfold toJSON, ToJSON_BaseIndexerResource, omitIf. simpl bix_ID.
  destruct (Z.eqb_spec id 0) as [->|Hid]; reflexivity.
Qed.

Lemma lidarr_indexerToIR_stored tagID id idx :
  indexerToIR (storedIndexer tagID id idx) =
  mkIndexerIR id (idx_Name idx) (idx_Protocol idx) (idx_Implementation idx) (idx_Enable idx)
    (idx_Priority idx) (idx_URL idx) (idx_APIKey idx)
    ((λ n, int_of_float64 (float64_of_int n)) <$> idx_Categories idx) 0 float64_zero 0
    (idx_EnableRss idx) (idx_EnableAutomaticSearch idx) (idx_EnableInteractiveSearch idx).
Proof.
  unfold indexerToIR, ExtractIndexerFields, storedIndexer. cbn [bix_Fields foldl].
  assert (∀ i v, extractIndexerField i (mkField "categories" v) = appendCategories v i) as -> by done.
  rewrite appendCategories_ints. by destruct idx.
Qed.

Lemma lidarr_stored_indexer_equal tagID id idx : IndexersEqual (indexerToIR (storedIndexer tagID id idx)) idx = true.
Proof.
  rewrite lidarr_indexerToIR_stored. unfold IndexersEqual. simpl.
  by rewrite !String.eqb_refl, !Z.eqb_refl, !Bool.eqb_reflx.
Qed.

Lemma lidarr_idx_ID r : idx_ID (indexerToIR r) = bix_ID r.
Proof. apply extracted_indexer_ID. Qed.

(** ** The steps of the diff *)

Definition isAudioQuality (p : Payload) : bool := match p with PAudioQuality _ => true | _ => false end.
Definition isLidarrNaming (p : Payload) : bool := match p with PLidarrNaming _ => true | _ => false end.

(** The payload a resource type comes with. *)
Definition payloadTyped (ch : Change) : bool :=
  switch (ch_ResourceType ch) [
    ([ResourceQualityProfile], isAudioQuality (ch_Payload ch));
    ([ResourceCustomFormat], isCustomFormat (ch_Payload ch));
    ([ResourceDownloadClient], isDownloadClient (ch_Payload ch));
    ([ResourceIndexer], isIndexer (ch_Payload ch));
    ([ResourceRootFolder], isRootFolder (ch_Payload ch));
    ([ResourceNamingConfig], isLidarrNaming (ch_Payload ch));
    ([ResourceRemotePathMapping], isMapping (ch_Payload ch));
    ([ResourceNotification], isNotification (ch_Payload ch));
    ([ResourceDelayProfile], isDelayProfile (ch_Payload ch))] true.

Definition updateTyped (ch : Change) : bool := payloadTyped ch && hasID ch.

Abbreviation appends := (DiffSteps.appends payloadTyped updateTyped).

Definition diffSteps (o : nat → RangeOrder) mid nid (current desired : IR)
    : list (string * (ChangeSet → ChangeSet)) := [
  (ResourceQualityProfile,
    DiffAudioQualityProfiles (ir_Quality current ≫= q_Audio) (ir_Quality desired ≫= q_Audio) mid);
  (ResourceDownloadClient,
    DiffDownloadClientsWithIR (o 1%nat) (ir_DownloadClients current) (ir_DownloadClients desired));
  (ResourceIndexer, DiffIndexersWithIR (o 2%nat) (from_option idxs_Direct [] (ir_Indexers current))
                      (from_option idxs_Direct [] (ir_Indexers desired)));
  (ResourceRootFolder, DiffRootFolders (ir_RootFolders current) (ir_RootFolders desired));
  (ResourceRemotePathMapping,
    DiffRemotePathMappings (o 4%nat) (ir_RemotePathMappings current) (ir_RemotePathMappings desired));
  (ResourceNotification,
    diffNamed notificationOps (o 5%nat) (ir_Notifications current) (ir_Notifications desired));
  (ResourceNamingConfig, diffNaming nid current desired);
  (ResourceCustomFormat,
    diffNamed lidarrCustomFormatOps (o 7%nat) (ir_CustomFormats current) (ir_CustomFormats desired));
  (ResourceDelayProfile, DiffDelayProfiles (ir_DelayProfiles current) (ir_DelayProfiles desired))].

Lemma lidarr_appends_quality current desired id :
  appends ResourceQualityProfile (DiffAudioQualityProfiles current desired id).
Proof. unfold DiffAudioQualityProfiles. destruct current, desired, id; auto with nebularr. Qed.

Lemma lidarr_appends_naming id current desired : appends ResourceNamingConfig (diffNaming id current desired).
Proof.
  unfold diffNaming. destruct (ir_Naming desired ≫= nm_Lidarr); [|apply appends_id].
  case_match; auto with nebularr.
Qed.

Lemma lidarr_diffSteps_append o mid nid current desired :
  Forall (λ step : string * (ChangeSet → ChangeSet), appends step.1 step.2)
    (diffSteps o mid nid current desired).
Proof.
  repeat apply Forall_cons_2; [..|apply Forall_nil_2]; cbn [fst snd];
    auto using lidarr_appends_quality, appends_folders, lidarr_appends_naming, appends_delays;
    by apply appends_named.
Qed.

Lemma lidarr_diffIR_typed o mid nid current desired :
  let cs := diffIR o mid nid current desired in
  (∀ ch, ch ∈ cs_Creates cs → payloadTyped ch = true) ∧ (∀ ch, ch ∈ cs_Updates cs → updateTyped ch = true).
Proof. eapply steps_typed; [apply lidarr_diffSteps_append|done]. Qed.

(** ** The requests of a change *)

(** The collection of the API a resource type lives in. *)
Definition collectionOf (resourceType : string) : string :=
  switch resourceType [
    ([ResourceQualityProfile], "qualityprofile"); ([ResourceCustomFormat], "customformat");
    ([ResourceDownloadClient], "downloadclient"); ([ResourceIndexer], "indexer");
    ([ResourceRootFolder], "rootfolder"); ([ResourceNamingConfig], "config/naming");
    ([ResourceRemotePathMapping], "remotepathmapping"); ([ResourceNotification], "notification");
    ([ResourceDelayProfile], "delayprofile")] "".

Section apply.
Context {S : Type} `{Service S} (P : relation S) `{!PreOrder P} (c : Client).
Abbreviation quietV1 := (quietAt P c "/api/v1/").

Hypothesis get_harmless : ∀ path, harmless P c "GET" path.

Ltac quiet_request :=
  match goal with
  | |- quietAt _ _ _ ?coll → _ =>
      let H1 := fresh "Hcoll" in let H2 := fresh "Hmember" in
      intros [H1 H2]; simpl in H1; eauto 10 with nebularr
  end.

Ltac resource_clash :=
  repeat match goal with H : (_ =? _)%string = true |- _ => apply String.eqb_eq in H end;
  exfalso; subst; match goal with H : @eq string _ _ |- _ => vm_compute in H; discriminate H end.

Lemma steps_getProfileSchema : steps P (getProfileSchema c).
Proof. unfold getProfileSchema. auto with nebularr. Qed.
#[local] Hint Resolve steps_getProfileSchema : nebularr.

Lemma lidarr_applyCreate_steps o ch tagID :
  payloadTyped ch = true → quietV1 (collectionOf (ch_ResourceType ch)) → steps P (applyCreate o c ch tagID).
Proof.
  destruct ch as [rt n id p]. unfold payloadTyped, collectionOf, applyCreate.
  cbn [ch_ResourceType ch_Payload switch existsb]. rewrite !orb_false_r.
  repeat case_match; try done; intros Ht; try quiet_request; by resource_clash.
Qed.

Lemma lidarr_applyUpdate_steps o nid ch tagID :
  updateTyped ch = true → quietV1 (collectionOf (ch_ResourceType ch)) → steps P (applyUpdate o c nid ch tagID).
Proof.
  destruct ch as [rt n id p]. unfold updateTyped, hasID, payloadTyped, collectionOf, applyUpdate, withID.
  cbn [ch_ResourceType ch_Payload ch_ID switch existsb]. rewrite !orb_false_r.
  destruct id as [id|]; [|by rewrite andb_false_r]. rewrite andb_true_r.
  repeat case_match; try done; intros Ht; try quiet_request; by resource_clash.
Qed.

Lemma lidarr_applyDelete_steps ch : quietV1 (collectionOf (ch_ResourceType ch)) → steps P (applyDelete c ch).
Proof.
  destruct ch as [rt n id p]. unfold collectionOf, applyDelete.
  cbn [ch_ResourceType ch_ID switch existsb]. rewrite !orb_false_r.
  destruct id as [id|]; [|intros _; apply steps_fail; typeclasses eauto].
  unfold deleteCustomFormat, deleteRemotePathMapping, deleteNotification, deleteDelayProfile.
  repeat case_match; try quiet_request; by resource_clash.
Qed.
End apply.

(** ** The handlers implement the laws *)

Section handlers.
Context {S : Type} `{Service S} (o : RangeOrder) (c : Client) (tagID : Z) (base : plainBase c).
Abbreviation MS := (M (World S)).

(** The callbacks of [Apply]. *)
Definition createCall (ch : Change) : MS unit := onService (applyCreate o c ch tagID).
Definition updateCall (ch : Change) : MS unit :=
  let* w := Prelude.get in onService (applyUpdate o c (w_namingConfigID w) ch tagID).
Definition deleteCall (ch : Change) : MS unit := onService (applyDelete c ch).

Definition managedIn {R A} (ops : DiffOps A) (col : Collection S R) (id : R → Z) (managed : R → bool)
    (toIR : R → A) (make : Z → A → R) (ok : A → Prop) : Managed R A (World S) ops :=
  mkManaged id managed toIR make (λ w, col_view col (w_service w)) (λ _, True) ok
    createCall updateCall deleteCall.

Definition clientCollection (view : S → gmap Z DownloadClientResource)
    : Collection S DownloadClientResource := mkCollection "/api/v1/" "downloadclient" view dcr_set_ID.
Definition managedClients view : Managed DownloadClientResource DownloadClientIR (World S) downloadClientOps :=
  managedIn downloadClientOps (clientCollection view) dcr_ID (λ r, HasTag (dcr_Tags r) tagID) clientToIR
    (storedClient tagID) portOk.

Definition indexerCollection (view : S → gmap Z BaseIndexerResource) : Collection S BaseIndexerResource :=
  mkCollection "/api/v1/" "indexer" view bix_set_ID.
Definition managedIndexers view : Managed BaseIndexerResource IndexerIR (World S) indexerOps :=
  managedIn indexerOps (indexerCollection view) bix_ID (λ r, HasTag (bix_Tags r) tagID) indexerToIR
    (storedIndexer tagID) (λ _, True).

Definition formatCollection (view : S → gmap Z CustomFormatResource) : Collection S CustomFormatResource :=
  mkCollection "/api/v1/" "customformat" view cfr_set_ID.
Definition managedFormats view : Managed CustomFormatResource CustomFormatIR (World S) lidarrCustomFormatOps :=
  managedIn lidarrCustomFormatOps (formatCollection view) cfr_ID (λ _, true) customFormatToIR
    (λ i d, irToCustomFormat (cf_set_ID i d)) (λ _, True).

#[export] Instance lidarr_clients_laws view others `{!LawsAt c "/api/v1/" (clientCollection view) others} :
  ManagedLaws (managedClients view).
Proof.
  apply (managedLaws_by_id _ dc_ID).
  - done.
  - apply lidarr_dc_ID.
  - done.
  - intros i d. simpl. by rewrite Z.eqb_refl.
  - intros i d _. change (dc_Name (clientToIR (storedClient tagID i d)) = dc_Name d).
    by rewrite lidarr_clientToIR_stored.
  - intros i d Hok. by apply lidarr_stored_client_equal.
  - intros w n d Hok.
    destruct (Post_stores c base (clientCollection view) eq_refl ltac:(done) eq_refl (downloadClientFromIR d tagID)
      (storedClient tagID 0 d) (lidarr_decode_client tagID 0 d) (w_service w)) as (s' & i & HP & _ & _ & Hn & Hv).
    eexists _, i. split_and!; [by apply onService_ok, HP|done|exact Hv].
  - intros w n cur d Hok Hi.
    destruct (Put_stores c base (clientCollection view) eq_refl ltac:(done) eq_refl
      (dcr_set_ID (dc_ID cur) (downloadClientFromIR d tagID)) (storedClient tagID (dc_ID cur) d)
      (lidarr_decode_client tagID (dc_ID cur) d) (w_service w) (dc_ID cur) Hi) as (s' & HP & _ & Hv).
    eexists. split; [by apply onService_ok, HP|exact Hv].
  - intros w n cur Hi.
    destruct (Delete_removes c base (clientCollection view) eq_refl ltac:(done) eq_refl (w_service w) (dc_ID cur) Hi)
      as (s' & HP & Hv).
    eexists. split; [by apply onService_ok, HP|exact Hv].
Qed.

#[export] Instance lidarr_indexers_laws view others `{!LawsAt c "/api/v1/" (indexerCollection view) others} :
  ManagedLaws (managedIndexers view).
Proof.
  apply (managedLaws_by_id _ idx_ID).
  - done.
  - apply lidarr_idx_ID.
  - done.
  - intros i d. simpl. by rewrite Z.eqb_refl.
  - intros i d _. change (idx_Name (indexerToIR (storedIndexer tagID i d)) = idx_Name d).
    by rewrite lidarr_indexerToIR_stored.
  - intros i d _. apply lidarr_stored_indexer_equal.
  - intros w n d _.
    destruct (Post_stores c base (indexerCollection view) eq_refl ltac:(done) eq_refl (indexerFromIR d tagID)
      (storedIndexer tagID 0 d) (lidarr_decode_indexer tagID 0 d) (w_service w)) as (s' & i & HP & _ & _ & Hn & Hv).
    eexists _, i. split_and!; [by apply onService_ok, HP|done|exact Hv].
  - intros w n cur d _ Hi.
    destruct (Put_stores c base (indexerCollection view) eq_refl ltac:(done) eq_refl
      (bix_set_ID (idx_ID cur) (indexerFromIR d tagID)) (storedIndexer tagID (idx_ID cur) d)
      (lidarr_decode_indexer tagID (idx_ID cur) d) (w_service w) (idx_ID cur) Hi) as (s' & HP & _ & Hv).
    eexists. split; [by apply onService_ok, HP|exact Hv].
  - intros w n cur Hi.
    destruct (Delete_removes c base (indexerCollection view) eq_refl ltac:(done) eq_refl (w_service w) (idx_ID cur) Hi)
      as (s' & HP & Hv).
    eexists. split; [by apply onService_ok, HP|exact Hv].
Qed.

#[export] Instance lidarr_formats_laws view others `{!LawsAt c "/api/v1/" (formatCollection view) others} :
  ManagedLaws (managedFormats view).
Proof.
  apply (managedLaws_by_id _ cf_ID); try done.
  - intros i d _. apply lidarr_format_equal.
  - intros w n d _.
    destruct (Post_stores c base (formatCollection view) eq_refl ltac:(done) eq_refl (irToCustomFormat d)
      (irToCustomFormat d) (lidarr_decode_format d) (w_service w)) as (s' & i & _ & HP & _ & Hn & Hv).
    exists (withService w s'), i. split_and!; [|done|exact Hv]. apply onService_ok.
    exact (discard_ok _ _ _ _ _ HP).
  - intros w n cur d _ Hi.
    destruct (Put_stores c base (formatCollection view) eq_refl ltac:(done) eq_refl (irToCustomFormat (cf_set_ID (cf_ID cur) d))
      (irToCustomFormat (cf_set_ID (cf_ID cur) d)) (lidarr_decode_format _) (w_service w) (cf_ID cur) Hi)
      as (s' & _ & HP & Hv).
    exists (withService w s'). split; [|exact Hv]. apply onService_ok.
    exact (discard_ok _ _ _ _ _ HP).
  - intros w n cur Hi.
    destruct (Delete_removes c base (formatCollection view) eq_refl ltac:(done) eq_refl (w_service w) (cf_ID cur) Hi)
      as (s' & HP & Hv).
    exists (withService w s'). split; [|exact Hv]. apply onService_ok.
    exact (wrapErr_ok _ _ _ _ _ HP).
Qed.
End handlers.

(** ** Reading the state *)

Section reading.
Context {S : Type} `{Service S} (c : Client) (P : relation S) `{!PreOrder P}.
Context (get_harmless : ∀ p, harmless P c "GET" p).
Abbreviation MS := (M (World S)).
Abbreviation PW := (onServiceRel P).

Lemma steps_lidarrQuality tagID : steps PW (getManagedQualityProfiles c tagID).
Proof.
  unfold getManagedQualityProfiles. apply steps_bind; [typeclasses eauto|by apply steps_GetService|].
  intros profiles. apply steps_forRange; [typeclasses eauto|]. intros managed p _.
  case_match; [apply steps_bind; [typeclasses eauto|by apply steps_setManagedProfileID|intros _]|];
    apply steps_ret; typeclasses eauto.
Qed.

Lemma steps_lidarrNaming : steps PW (getNamingConfig c).
Proof.
  unfold getNamingConfig. apply steps_bind; [typeclasses eauto|by apply steps_GetService|]. intros naming.
  apply steps_bind; [typeclasses eauto|by apply steps_setNamingConfigID|]. intros _. apply steps_ret. typeclasses eauto.
Qed.

Lemma steps_lidarrAuth : steps PW (getAuthenticationIR c).
Proof.
  apply steps_onService. unfold GetAuthenticationIR. apply steps_bind; [done| |].
  - unfold FetchConfig. auto with nebularr.
  - intros config. by apply steps_ret.
Qed.

Ltac read_next w' HP :=
  match goal with
  | |- context [bind (orZero ?z ?f ?m) ?k ?w] =>
      let E := fresh "E" in
      destruct (orZero_reads P z f m w) as (w' & E & HP); [|unfold bind at 1; rewrite E; clear E]
  end.

Lemma lidarr_reads now conn tagID w :
  c = newClient conn → getOwnershipTagID c w = (w, Ret tagID) →
  ∃ w' cur, CurrentState now conn w = (w', Ret cur) ∧ PW w w' ∧
    readIn P w (ir_DownloadClients cur) (readFrom [] id (getManagedDownloadClients c tagID)) ∧
    readIn P w (from_option idxs_Direct [] (ir_Indexers cur)) (readFrom [] id (getManagedIndexers c tagID)) ∧
    readIn P w (ir_CustomFormats cur) (readFrom [] id (getAllCustomFormats c)).
Proof.
  intros Hc Htag. unfold CurrentState. rewrite <-Hc. unfold bind at 1, attempt. rewrite Htag.
  read_next w1 H1; [apply steps_lidarrQuality|].
  read_next w2 H2; [by apply steps_getter, steps_GetService|].
  read_next w3 H3; [by apply steps_getter, steps_GetService|].
  read_next w4 H4; [by apply steps_getter, steps_GetService|].
  read_next w5 H5; [by apply steps_getter, steps_wrappedGet|].
  read_next w6 H6; [by apply steps_getter, steps_wrappedGet|].
  read_next w7 H7; [apply steps_lidarrNaming|].
  read_next w8 H8; [by apply steps_getter, steps_wrappedGet|].
  read_next w9 H9; [by apply steps_getter, steps_FetchConfig|].
  read_next w10 H10; [apply steps_lidarrAuth|].
  read_next w11 H11; [by apply steps_getter, steps_wrappedGet|].
  read_next w12 H12; [by apply steps_getter, steps_wrappedGet|].
  assert (PW w w2) as K2 by (by etrans). assert (PW w w4) as K4 by (by do 2 (etrans; [|done])).
  assert (PW w w10) as K10 by (by do 6 (etrans; [|done])).
  eexists _, _. split; [done|]. split_and!; [by do 2 (etrans; [|done])|..].
  - exists w1. by split.
  - exists w2. split; [done|]. unfold readFrom. cbn [currentIR ir_Indexers].
    destruct (getManagedIndexers c tagID w2) as [w' [[|i l]|e|why]]; done.
  - exists w10. by split.
Qed.
End reading.

(** ** One sync *)

Section sync.
Context {S : Type} `{Service S}.
Abbreviation MS := (M (World S)).

(** The steps of a reconciliation that concern the adapter. *)
Definition lidarrSync (now : Z) (od : nat → RangeOrder) (o : RangeOrder) (conn : ConnectionIR) (desired : IR)
    : MS (option ApplyResult * option error) :=
  let* current := CurrentState now conn in
  let* changes := Diff od current desired None in
  Apply o conn changes.

Context (conn : ConnectionIR) (tagID : Z).
Abbreviation c := (newClient conn).
Hypothesis base : plainBase c.
Hypothesis known : tagKnownAt c "v1" tagID.

Lemma lidarr_tag w : getOwnershipTagID c w = (w, Ret tagID).
Proof.
  destruct (EnsureOwnershipTag_known c base "v1" tagID (w_service w) eq_refl known) as [_ HG].
  unfold getOwnershipTagID. rewrite (onService_ok _ _ _ _ HG). by destruct w.
Qed.

Lemma lidarr_Apply_known o changes w :
  Apply o conn changes w =
  (let* r := ApplyChanges changes (createCall o c tagID) (updateCall o c tagID) (deleteCall c) in
   ret (Some r, None)) w.
Proof.
  destruct (EnsureOwnershipTag_known c base "v1" tagID (w_service w) eq_refl known) as [HE _].
  assert (ensureOwnershipTag c w = (w, Ret tagID)) as HT.
  { unfold ensureOwnershipTag. rewrite (onService_ok _ _ _ _ HE). by destruct w. }
  unfold Apply. by rewrite (bind_attempt_ret _ _ _ _ _ HT).
Qed.

Section kind.
Context {R A : Type} `{FromJSON R} {ops : DiffOps A} (col : Collection S R).
Context `{!LawsAt c "/api/v1/" col (otherThan (col_name col))}.
Context (o : RangeOrder) (m : Managed R A (World S) ops) `{!ManagedLaws m}.
Hypothesis view_is : ∀ w, mg_view m w = col_view col (w_service w).
Hypothesis inv_holds : ∀ w, mg_inv m w.
Hypothesis create_is : mg_create m = createCall o c tagID.
Hypothesis update_is : mg_update m = updateCall o c tagID.
Hypothesis delete_is : mg_delete m = deleteCall c.
Context (rt : string).
Abbreviation P := (sameCollection col).

(** A resource type whose requests go to another collection. *)
Definition elsewhereThan (rt' : string) : Prop := rt' ≠ rt ∧ collectionOf rt' ∈ otherThan (col_name col).

Lemma lidarr_reads_quiet p : harmless P c "GET" p.
Proof. apply (@col_get S _ c _ R _ col (otherThan (col_name col)) _). Qed.

Lemma lidarr_quiet_others name : name ∈ otherThan (col_name col) → quietAt P c "/api/v1/" name.
Proof. apply (@col_others S _ c _ R _ col (otherThan (col_name col)) _). Qed.

Lemma lidarr_sameView {B} (f : MS B) : steps (onServiceRel P) f → steps (sameView m) f.
Proof.
  intros Hf w. destruct (Hf w) as [HP Hn]. split; [|done]. unfold sameView. rewrite !view_is. by split.
Qed.

Context (part : IR → list A) (k : nat) (getter : MS (list A)).
Hypothesis getter_lists : ∀ w : World S, ∃ w' l,
  getter w = (w', Ret (managedIR m l)) ∧ listing (col_view col (w_service w)) l.
Hypothesis part_read : ∀ now w, ∃ w' cur, CurrentState now conn w = (w', Ret cur) ∧
  onServiceRel P w w' ∧ readIn P w (part cur) (readFrom [] (λ x, x) getter).
Hypothesis part_diffed : ∀ od mid nid current desired, ∃ before f after,
  diffSteps od mid nid current desired = before ++ (rt, f) :: after ∧
  f emptyChangeSet = diffNamed ops (od k) (part current) (part desired) emptyChangeSet ∧
  Forall elsewhereThan (before.*1 ++ after.*1).

Lemma lidarr_kind_sync now od desired w :
  wellFormed m (col_view col (w_service w)) → Forall (mg_ok m) (part desired) →
  ∃ w2 r, lidarrSync now od o conn desired w = (w2, Ret (Some r, None)) ∧
    (∀ e, e ∈ ar_Errors r → ch_ResourceType (ae_Change e) ≠ rt) ∧
    wellFormed m (col_view col (w_service w2)) ∧
    unmanagedKept m (col_view col (w_service w)) (col_view col (w_service w2)) ∧
    (∀ l, listing (col_view col (w_service w2)) l → inSync ops (managedIR m l) (part desired)) ∧
    ∃ w3 current, CurrentState now conn w2 = (w3, Ret current) ∧ inSync ops (part current) (part desired).
Proof.
  intros Hwf Hok. rewrite <-view_is in *.
  destruct (kind_sync m payloadTyped updateTyped rt elsewhereThan) with
    (part := part) (diffSteps := λ (w : World S) cur des, diffSteps od (w_managedProfileID w) (w_namingConfigID w) cur des)
    (o := od k) (read := CurrentState now conn) (apply := Apply o conn) (desired := desired) (w := w)
    as (w2 & r & E & Herr & [_ Hwf2] & Hkeep & Hsync & Hread); try done.
  - intros ch [_ Hq] Ht. rewrite create_is. apply lidarr_sameView, steps_onService, lidarr_applyCreate_steps;
      auto using lidarr_quiet_others, lidarr_reads_quiet. typeclasses eauto.
  - intros ch [_ Hq] Ht. rewrite update_is. apply lidarr_sameView, steps_bind; [typeclasses eauto| |].
    + apply steps_get. typeclasses eauto.
    + intros w'. apply steps_onService, lidarr_applyUpdate_steps; auto using lidarr_quiet_others, lidarr_reads_quiet.
      typeclasses eauto.
  - intros ch [_ Hq]. rewrite delete_is. apply lidarr_sameView, steps_onService, lidarr_applyDelete_steps;
      auto using lidarr_quiet_others, lidarr_reads_quiet. typeclasses eauto.
  - by intros rt' [? _].
  - intros w' cur des. apply lidarr_diffSteps_append.
  - rewrite create_is, update_is, delete_is. apply lidarr_Apply_known.
  - intros w'. destruct (part_read now w') as (w1 & cur & E & HP & (w1' & Hw1 & Hp)).
    destruct (getter_lists w1') as (w1'' & l & G & Hl). exists w1, cur, l. split_and!; [done| | |].
    + unfold sameView. rewrite !view_is. by split.
    + rewrite view_is. by rewrite Hw1 in Hl.
    + rewrite Hp. unfold readFrom. by rewrite G.
  - exists w2, r. rewrite <-!view_is. by split_and!.
Qed.
End kind.

Lemma lidarr_list {R} `{FromJSON R} (col : Collection S R)
    `{!LawsAt c "/api/v1/" col (otherThan (col_name col))} w :
  col_api col = "/api/v1/" → plainName (col_name col) = true →
  ∃ w' l, onService (Get (list R) c (collectionPath "/api/v1/" (col_name col))) w = (w', Ret l) ∧
    listing (col_view col (w_service w)) l.
Proof.
  intros Hapi Hp. destruct (Get_list c base col) with (s := w_service w) as (l & E & Hl);
    [by rewrite Hapi..|done|]. rewrite Hapi in E.
  eexists _, l. split; [by apply onService_ok|done].
Qed.
End sync.

(** The steps around one step of the diff. *)
Ltac around n :=
  match goal with
  | |- ∃ before f after, diffSteps ?o ?mid ?nid ?cur ?des = _ ∧ _ =>
      let l := eval unfold diffSteps in (diffSteps o mid nid cur des) in
      let b := eval cbn [take] in (take n l) in
      let a := eval cbn [drop] in (drop (S n) l) in
      exists b; eexists; exists a; split; [reflexivity|split; [reflexivity|]];
      repeat (apply Forall_cons; split); try apply Forall_nil_2;
      (split; [discriminate|by apply (bool_decide_unpack _)])
  end.

Section theorems.
Context {S : Type} `{Service S}.
Context (conn : ConnectionIR) (tagID : Z) (base : plainBase (newClient conn)).
Context (known : tagKnownAt (newClient conn) "v1" tagID).
Abbreviation c := (newClient conn).

Lemma lidarr_clients_sync view `{!LawsAt c "/api/v1/" (clientCollection view) (otherThan "downloadclient")}
    now od o desired (w : World S) :
  let m := managedClients o c tagID view in
  wellFormed m (view (w_service w)) → Forall portOk (ir_DownloadClients desired) →
  ∃ w2 r, lidarrSync now od o conn desired w = (w2, Ret (Some r, None)) ∧
    (∀ e, e ∈ ar_Errors r → ch_ResourceType (ae_Change e) ≠ ResourceDownloadClient) ∧
    wellFormed m (view (w_service w2)) ∧
    unmanagedKept m (view (w_service w)) (view (w_service w2)) ∧
    ∃ w3 current, CurrentState now conn w2 = (w3, Ret current) ∧
      inSync downloadClientOps (ir_DownloadClients current) (ir_DownloadClients desired).
Proof.
  intros m Hwf Hok. pose proof (lidarr_clients_laws o c tagID base view (otherThan "downloadclient")) as HL.
  destruct (lidarr_kind_sync conn tagID base known (clientCollection view) o m (λ _, eq_refl) (λ _, I) eq_refl eq_refl eq_refl
    ResourceDownloadClient ir_DownloadClients 1%nat (getManagedDownloadClients c tagID)) with
    (now := now) (od := od) (desired := desired) (w := w)
    as (w2 & r & E & Herr & Hwf2 & Hkeep & _ & Hread); try done.
  - intros w'. destruct (lidarr_list conn base (clientCollection view) w' eq_refl eq_refl) as (w1 & l & E & Hl).
    exists w1, l. split; [exact (bind_ok _ _ _ _ _ E)|done].
  - intros now' w'. destruct (lidarr_reads c (sameCollection (clientCollection view))
      (lidarr_reads_quiet conn (clientCollection view)) now' conn tagID w' eq_refl (lidarr_tag conn tagID base known w'))
      as (w1 & cur & E & HP & Hr & _). by exists w1, cur.
  - intros od' mid nid cur des. around 1%nat.
  - by exists w2, r.
Qed.

Lemma lidarr_indexers_sync view `{!LawsAt c "/api/v1/" (indexerCollection view) (otherThan "indexer")}
    now od o desired (w : World S) :
  let m := managedIndexers o c tagID view in
  let direct := λ i, from_option idxs_Direct [] (ir_Indexers i) in
  wellFormed m (view (w_service w)) →
  ∃ w2 r, lidarrSync now od o conn desired w = (w2, Ret (Some r, None)) ∧
    (∀ e, e ∈ ar_Errors r → ch_ResourceType (ae_Change e) ≠ ResourceIndexer) ∧
    wellFormed m (view (w_service w2)) ∧
    unmanagedKept m (view (w_service w)) (view (w_service w2)) ∧
    ∃ w3 current, CurrentState now conn w2 = (w3, Ret current) ∧ inSync indexerOps (direct current) (direct desired).
Proof.
  intros m direct Hwf. pose proof (lidarr_indexers_laws o c tagID base view (otherThan "indexer")) as HL.
  destruct (lidarr_kind_sync conn tagID base known (indexerCollection view) o m (λ _, eq_refl) (λ _, I) eq_refl eq_refl eq_refl
    ResourceIndexer direct 2%nat (getManagedIndexers c tagID)) with
    (now := now) (od := od) (desired := desired) (w := w)
    as (w2 & r & E & Herr & Hwf2 & Hkeep & _ & Hread); try done.
  - intros w'. destruct (lidarr_list conn base (indexerCollection view) w' eq_refl eq_refl) as (w1 & l & E & Hl).
    exists w1, l. split; [exact (bind_ok _ _ _ _ _ E)|done].
  - intros now' w'. destruct (lidarr_reads c (sameCollection (indexerCollection view))
      (lidarr_reads_quiet conn (indexerCollection view)) now' conn tagID w' eq_refl (lidarr_tag conn tagID base known w'))
      as (w1 & cur & E & HP & _ & Hr & _). by exists w1, cur.
  - intros od' mid nid cur des. around 2%nat.
  - by apply Forall_true.
  - by exists w2, r.
Qed.

Lemma lidarr_formats_sync view `{!LawsAt c "/api/v1/" (formatCollection view) (otherThan "customformat")}
    now od o desired (w : World S) :
  let m := managedFormats o c tagID view in
  wellFormed m (view (w_service w)) →
  ∃ w2 r, lidarrSync now od o conn desired w = (w2, Ret (Some r, None)) ∧
    (∀ e, e ∈ ar_Errors r → ch_ResourceType (ae_Change e) ≠ ResourceCustomFormat) ∧
    wellFormed m (view (w_service w2)) ∧
    ∃ w3 current, CurrentState now conn w2 = (w3, Ret current) ∧
      inSync lidarrCustomFormatOps (ir_CustomFormats current) (ir_CustomFormats desired).
Proof.
  intros m Hwf. pose proof (lidarr_formats_laws o c tagID base view (otherThan "customformat")) as HL.
  destruct (lidarr_kind_sync conn tagID base known (formatCollection view) o m (λ _, eq_refl) (λ _, I) eq_refl eq_refl eq_refl
    ResourceCustomFormat ir_CustomFormats 7%nat (getAllCustomFormats c)) with
    (now := now) (od := od) (desired := desired) (w := w)
    as (w2 & r & E & Herr & Hwf2 & _ & _ & Hread); try done.
  - intros w'. destruct (lidarr_list conn base (formatCollection view) w' eq_refl eq_refl) as (w1 & l & E & Hl).
    exists w1, l. rewrite managedIR_all by done. split; [|done].
    exact (bind_ok _ _ _ _ _ (wrapErr_ok (λ e, "failed to get custom formats: " +:+ e)%string _ _ _ _ E)).
  - intros now' w'. destruct (lidarr_reads c (sameCollection (formatCollection view))
      (lidarr_reads_quiet conn (formatCollection view)) now' conn tagID w' eq_refl (lidarr_tag conn tagID base known w'))
      as (w1 & cur & E & HP & _ & _ & Hr). by exists w1, cur.
  - intros od' mid nid cur des. around 7%nat.
  - by apply Forall_true.
  - by exists w2, r.
Qed.
End theorems.
