(* ===== verification/LidarrServer.v ===== *)
(** * Theorems: Lidarr converges

    One sync brings the download clients, the indexers and the custom formats of
    Lidarr to the desired state together, against a service whose three collections
    keep the contract of [Rest]; with a service of that kind as the witness.  And the
    quality profile the adapter makes from Lidarr's schema. *)
From S2P Require Export LidarrSync Pair.

(** ** All three collections *)

(** The kinds whose collections the theorem is about. *)
Definition syncedKinds : list string := [ResourceDownloadClient; ResourceIndexer; ResourceCustomFormat].

Definition directIndexers (i : IR) : list IndexerIR := from_option idxs_Direct [] (ir_Indexers i).

Definition noChanges (rt : string) (cs : ChangeSet) : Prop := ∀ ch, ch_ResourceType ch = rt →
  ch ∉ cs_Creates cs ∧ ch ∉ cs_Updates cs ∧ ch ∉ cs_Deletes cs.

Lemma step_noChanges (l before after : list (string * (ChangeSet → ChangeSet))) rt f :
  Forall (λ step, appends step.1 step.2) l → l = before ++ (rt, f) :: after → rt ∉ before.*1 ++ after.*1 →
  IsEmpty (f emptyChangeSet) = true →
  noChanges rt (foldl (λ cs (step : string * (ChangeSet → ChangeSet)), step.2 cs) emptyChangeSet l).
Proof.
  intros Ha Hl Hrt (Hc & Hu & Hd)%IsEmpty_spec ch Hch.
  destruct (step_changes payloadTyped updateTyped l before after rt f Ha Hl Hrt ch Hch) as (C & U & D).
  rewrite C, U, D, Hc, Hu, Hd. split_and!; apply not_elem_of_nil.
Qed.

Lemma kinds_in_sync od mid nid current desired rt :
  inSync downloadClientOps (ir_DownloadClients current) (ir_DownloadClients desired) →
  inSync indexerOps (directIndexers current) (directIndexers desired) →
  inSync lidarrCustomFormatOps (ir_CustomFormats current) (ir_CustomFormats desired) →
  rt ∈ syncedKinds → noChanges rt (diffIR od mid nid current desired).
Proof.
  intros Hc Hi Hf Hrt. unfold syncedKinds in Hrt. set_unfold in Hrt.
  pose proof (lidarr_diffSteps_append od mid nid current desired) as Ha.
  destruct_or! Hrt; subst rt;
    [set (k := 1%nat)|set (k := 2%nat)|set (k := 7%nat)];
    (eapply (step_noChanges (diffSteps od mid nid current desired)
       (take k (diffSteps od mid nid current desired)) (drop (S k) (diffSteps od mid nid current desired)));
     [exact Ha|reflexivity|by apply (bool_decide_unpack _)|by apply diffNamed_empty_iff]).
Qed.

Section theorems.
Context {S : Type} `{Service S}.
Context (conn : ConnectionIR) (tagID : Z) (base : plainBase (newClient conn)).
Context (known : tagKnownAt (newClient conn) "v1" tagID).
Abbreviation c := (newClient conn).
Context (clients : S → gmap Z DownloadClientResource) (indexers : S → gmap Z BaseIndexerResource)
  (formats : S → gmap Z CustomFormatResource).
Context `{!LawsAt c "/api/v1/" (clientCollection clients) (otherThan "downloadclient")}
  `{!LawsAt c "/api/v1/" (indexerCollection indexers) (otherThan "indexer")}
  `{!LawsAt c "/api/v1/" (formatCollection formats) (otherThan "customformat")}.

(** The collections address their resources by ID, and the operator's have distinct names. *)
Definition lidarrWellFormed (o : RangeOrder) (s : S) : Prop :=
  wellFormed (managedClients o c tagID clients) (clients s) ∧
  wellFormed (managedIndexers o c tagID indexers) (indexers s) ∧
  wellFormed (managedFormats o c tagID formats) (formats s).

(** C9: a sync of Lidarr converges.  With the ownership tag in place and the collections
    of the download clients, the indexers and the custom formats behaving as
    documented, the operator's resources in them having distinct names, and ports that
    float64 has, a sync returns a result in which no change of one of them failed,
    whatever happened to the other resources.  The state then reads so that the next
    diff, in any order of iteration, has no change of the three kinds; and the
    clients and indexers without the ownership tag are the ones that were there. *)
Theorem lidarr_sync now od o desired (w : World S) :
  lidarrWellFormed o (w_service w) → Forall portOk (ir_DownloadClients desired) →
  ∃ w2 r w3 current, lidarrSync now od o conn desired w = (w2, Ret (Some r, None)) ∧
    (∀ e, e ∈ ar_Errors r → ch_ResourceType (ae_Change e) ∉ syncedKinds) ∧
    lidarrWellFormed o (w_service w2) ∧
    (∀ i client, HasTag (dcr_Tags client) tagID = false →
       clients (w_service w) !! i = Some client ↔ clients (w_service w2) !! i = Some client) ∧
    (∀ i indexer, HasTag (bix_Tags indexer) tagID = false →
       indexers (w_service w) !! i = Some indexer ↔ indexers (w_service w2) !! i = Some indexer) ∧
    CurrentState now conn w2 = (w3, Ret current) ∧
    ∀ od' (w4 w5 : World S) cs rt, Diff od' current desired None w4 = (w5, Ret cs) → rt ∈ syncedKinds → noChanges rt cs.
Proof.
  intros (Hc & Hi & Hf) Hok.
  destruct (lidarr_clients_sync conn tagID base known clients now od o desired w Hc Hok)
    as (w2 & r & E & Ec & Wc & Kc & w3 & cur & R & Sc).
  destruct (lidarr_indexers_sync conn tagID base known indexers now od o desired w Hi)
    as (w2i & ri & E' & Ei & Wi & Ki & w3i & curi & R' & Si).
  rewrite E in E'. injection E' as <- <-. rewrite R in R'. injection R' as <- <-.
  destruct (lidarr_formats_sync conn tagID base known formats now od o desired w Hf)
    as (w2f & rf & E' & Ef & Wf & w3f & curf & R' & Sf).
  rewrite E in E'. injection E' as <- <-. rewrite R in R'. injection R' as <- <-.
  exists w2, r, w3, cur. split_and!; try done.
  - intros e He Hrt. unfold syncedKinds in Hrt. set_unfold in Hrt. destruct_or! Hrt; naive_solver.
  - intros od' w4 w5 cs rt [= _ <-] Hrt. by apply kinds_in_sync.
Qed.
End theorems.

(** ** A service with three collections, for the witness *)

Module LidarrMini.
Import MiniServer.

#[local] Instance lidarrNoTimes : TimeFormat := λ _, None.

Lemma lidarr_decodes_client doc r i : fromJSON doc = Some r → fromJSON (assignID i doc) = Some (dcr_set_ID i r).
Proof. revert doc r i. decodes_with_id ltac:(unfold FromJSON_DownloadClientResource). Qed.
Lemma lidarr_decodes_indexer doc r i : fromJSON doc = Some r → fromJSON (assignID i doc) = Some (bix_set_ID i r).
Proof. revert doc r i. decodes_with_id ltac:(unfold FromJSON_BaseIndexerResource). Qed.
Lemma lidarr_decodes_format doc r i : fromJSON doc = Some r → fromJSON (assignID i doc) = Some (cfr_set_ID i r).
Proof. revert doc r i. decodes_with_id ltac:(unfold FromJSON_CustomFormatResource). Qed.

Abbreviation mini R name := (MiniService (R := R) "/api/v1/" name 7).
Abbreviation Docs := (gmap Z any).

Definition lidarrUnder (prefix : string) (c : Client) (url : string) : bool :=
  HasPrefix url (c_BaseURL c +:+ prefix).
Definition lidarrNoFront (c : Client) (rq : Request) : option Response := None.

Definition clientSide : Service (Docs * Docs) :=
  PairService (mini DownloadClientResource "downloadclient") (mini BaseIndexerResource "indexer")
    lidarrNoFront (lidarrUnder "/api/v1/indexer").
Definition exampleLidarr : Service ((Docs * Docs) * Docs) :=
  PairService clientSide (mini CustomFormatResource "customformat")
    (statusFront "/api/v1/system/status") (lidarrUnder "/api/v1/customformat").

Abbreviation Docs3 := ((Docs * Docs) * Docs)%type.
Definition lidarrClients (s : Docs3) : gmap Z DownloadClientResource := view s.1.1.
Definition lidarrIndexers (s : Docs3) : gmap Z BaseIndexerResource := view s.1.2.
Definition lidarrFormats (s : Docs3) : gmap Z CustomFormatResource := view s.2.

Ltac paths_differ :=
  apply Forall_forall; intros other Ho i j; unfold otherThan, allCollections in Ho; set_unfold in Ho;
  destruct_or! Ho; subst other; split_and!; discriminate.

Ltac goes :=
  intros; intros method body; split; [reflexivity || by apply statusFront_none|];
  unfold lidarrUnder; by rewrite ?HasPrefix_app.

Lemma lidarrClients_laws c :
  @LawsAt _ exampleLidarr c "/api/v1/" _ _ (clientCollection lidarrClients) (otherThan "downloadclient").
Proof.
  pose proof (laws_at (R := DownloadClientResource) "/api/v1/" "downloadclient" dcr_set_ID lidarr_decodes_client 7 c
    (otherThan "downloadclient") ltac:(done) ltac:(paths_differ)) as L.
  apply (pair_left_laws (mini DownloadClientResource "downloadclient") (mini BaseIndexerResource "indexer")
    lidarrNoFront (lidarrUnder "/api/v1/indexer")) in L; [|goes..].
  apply (pair_left_laws clientSide (mini CustomFormatResource "customformat") (statusFront "/api/v1/system/status")
    (lidarrUnder "/api/v1/customformat")) in L; [exact L|goes..].
Qed.

Lemma lidarrIndexers_laws c :
  @LawsAt _ exampleLidarr c "/api/v1/" _ _ (indexerCollection lidarrIndexers) (otherThan "indexer").
Proof.
  pose proof (laws_at (R := BaseIndexerResource) "/api/v1/" "indexer" bix_set_ID lidarr_decodes_indexer 7 c
    (otherThan "indexer") ltac:(done) ltac:(paths_differ)) as L.
  apply (pair_right_laws (mini DownloadClientResource "downloadclient") (mini BaseIndexerResource "indexer")
    lidarrNoFront (lidarrUnder "/api/v1/indexer")) in L; [|goes..].
  apply (pair_left_laws clientSide (mini CustomFormatResource "customformat") (statusFront "/api/v1/system/status")
    (lidarrUnder "/api/v1/customformat")) in L; [exact L|goes..].
Qed.

Lemma lidarrFormats_laws c :
  @LawsAt _ exampleLidarr c "/api/v1/" _ _ (formatCollection lidarrFormats) (otherThan "customformat").
Proof.
  pose proof (laws_at (R := CustomFormatResource) "/api/v1/" "customformat" cfr_set_ID lidarr_decodes_format 7 c
    (otherThan "customformat") ltac:(done) ltac:(paths_differ)) as L.
  apply (pair_right_laws clientSide (mini CustomFormatResource "customformat") (statusFront "/api/v1/system/status")
    (lidarrUnder "/api/v1/customformat")) in L; [exact L|goes..].
Qed.

Lemma exampleLidarr_tag c : @tagKnownAt _ exampleLidarr c "v1" 7.
Proof.
  intros s.
  destruct (MiniServer.known_tag (R := DownloadClientResource) "/api/v1/" "downloadclient" 7 "v1" c eq_refl s.1.1)
    as (text & doc & tags & i & label & E & H). exists text, doc, tags, i, label. split; [|done].
  unfold exampleLidarr. rewrite serve_left by goes. unfold clientSide. rewrite serve_left by goes. rewrite E.
  by destruct s as [[] ?].
Qed.

Definition lidarrConn : ConnectionIR := mkConnectionIR "http://lidarr.media:8686" "0123" false.

(** A client of the user's; a managed indexer that is no longer desired; a custom
    format that is not, either. *)
Definition userClient : DownloadClientResource :=
  mkDownloadClientResource 1 "mine" "Transmission" "TransmissionSettings" "torrent" true 1 [] [] false false.
Definition oldIndexer : IndexerIR :=
  mkIndexerIR 0 "nebularr-old" ProtocolUsenet "Newznab" true 25 "https://api.nzbgeek.info" "k" [3000] 0 float64_zero 0
    true true true.
Definition lidarrDocs : Docs3 :=
  (({[ 1 := toJSON userClient ]}, {[ 4 := toJSON (bix_set_ID 4 (indexerFromIR oldIndexer 7)) ]}),
   {[ 2 := toJSON (irToCustomFormat (mkCustomFormatIR 2 "by hand" false [])) ]}).

Definition lidarrDesired : IR :=
  currentIR 0 lidarrConn None
    [mkDownloadClientIR 0 "nebularr-qbit" ProtocolTorrent "QBittorrent" true 1 true false "qbit" 8080 false "u" "p" "music" ""]
    None [] [] [] None [] None None
    [mkCustomFormatIR 0 "FLAC" true [mkFormatSpecIR "ReleaseTitleSpecification" "flac" false true "\bFLAC\b"]] [].
End LidarrMini.

Lemma lidarr_sync_witness :
  ∃ w2 r, @lidarrSync _ LidarrMini.exampleLidarr 0 (λ _, keyOrder) keyOrder LidarrMini.lidarrConn LidarrMini.lidarrDesired
      (initialWorld LidarrMini.lidarrDocs) = (w2, Ret (Some r, None)) ∧
    LidarrMini.lidarrClients (w_service w2) !! 1 = Some LidarrMini.userClient.
Proof.
  assert (plainBase (newClient LidarrMini.lidarrConn)) as base by (by exists false, "lidarr.media"%string, "8686"%string).
  assert (@lidarrWellFormed _ LidarrMini.exampleLidarr LidarrMini.lidarrConn 7 LidarrMini.lidarrClients
    LidarrMini.lidarrIndexers LidarrMini.lidarrFormats keyOrder LidarrMini.lidarrDocs) as Hwf
    by (split_and!; apply wellFormed_distinct; evaluates).
  assert (Forall portOk (ir_DownloadClients LidarrMini.lidarrDesired)) as Hok by (repeat constructor; simpl; lia).
  destruct (@lidarr_sync _ LidarrMini.exampleLidarr LidarrMini.lidarrConn 7 base (LidarrMini.exampleLidarr_tag _)
    LidarrMini.lidarrClients LidarrMini.lidarrIndexers LidarrMini.lidarrFormats
    (LidarrMini.lidarrClients_laws _) (LidarrMini.lidarrIndexers_laws _) (LidarrMini.lidarrFormats_laws _)
    0 (λ _, keyOrder) keyOrder LidarrMini.lidarrDesired (initialWorld LidarrMini.lidarrDocs) Hwf Hok)
    as (w2 & r & _ & _ & H1 & _ & _ & H2 & _).
  exists w2, r. split; [exact H1|].
  apply (H2 1 LidarrMini.userClient eq_refl). vm_compute. reflexivity.
Defined.
