(* ===== verification/LidarrQuality.v ===== *)
(** * Theorems: Lidarr's quality profiles

    The profile the adapter makes from the schema of the service: which items it
    allows, what it leaves as it is, and the cutoff.  And what the two tables of
    quality names, for reading and for writing, make of one name. *)
From S2P Require Export LidarrSync.

(** ** The items *)

Section item_ind.
Context (P : NamedItem → Prop)
  (step : ∀ id name q items allowed, Forall P items → P (mkNamedItem id name q items allowed)).

Fixpoint named_item_ind (item : NamedItem) : P item :=
  let '(mkNamedItem id name q items allowed) := item in
  step id name q items allowed
    ((fix go (l : list NamedItem) : Forall P l :=
        match l with [] => Forall_nil_2 P | i :: l => Forall_cons_2 P i l (named_item_ind i) (go l) end) items).
End item_ind.

(** The deep copy has the contents of the original. *)
Lemma copyQualityItem_eq item : copyQualityItem item = item.
Proof.
  induction item as [id name q items allowed IH] using named_item_ind. simpl. f_equal.
  - by destruct q as [[]|].
  - induction IH as [|i l Hi _ IH]; [done|]. simpl. by rewrite Hi, IH.
Qed.

(** The ID an item gives the cutoff: its own, or else that of its quality. *)
Definition cutoffCandidate (tiers : gmap string bool) (cutoff : string) (item : NamedItem) : option Z :=
  match tiers !! schemaTier item with
  | Some true =>
      if String.eqb cutoff (schemaTier item) then
        if negb (ni_ID item =? 0) then Some (ni_ID item) else nq_ID <$> ni_Quality item
      else None
  | _ => None
  end.

Definition allowItem (tiers : gmap string bool) (item : NamedItem) : NamedItem :=
  ni_set_Allowed (default (ni_Allowed item) (tiers !! schemaTier item)) item.

Lemma processSchemaItem_eq tiers cutoff items cutoffID item :
  processSchemaItem tiers cutoff (items, cutoffID) item =
  (items ++ [allowItem tiers item], default cutoffID (cutoffCandidate tiers cutoff item)).
Proof.
  unfold processSchemaItem, allowItem, cutoffCandidate. rewrite copyQualityItem_eq.
  destruct (tiers !! schemaTier item) as [[]|]; simpl; [|done|by destruct item].
  destruct (String.eqb _ _); [|done]. destruct (ni_ID item =? 0); [|done]. simpl. by destruct (ni_Quality item).
Qed.

Lemma last_cons_default {A} (x : A) l : default x (last l) = default x (last (x :: l)).
Proof. by destruct l. Qed.

Lemma foldl_processSchemaItem tiers cutoff l items cutoffID :
  foldl (processSchemaItem tiers cutoff) (items, cutoffID) l =
  (items ++ (allowItem tiers <$> l), default cutoffID (last (omap (cutoffCandidate tiers cutoff) l))).
Proof.
  revert items cutoffID. induction l as [|i l IH]; intros items cutoffID; [by rewrite app_nil_r|].
  cbn [foldl]. rewrite processSchemaItem_eq, IH, <-app_assoc. f_equal. csimpl.
  destruct (cutoffCandidate tiers cutoff i) as [z|]; [|done]. simpl.
  by rewrite last_cons_default, last_cons; destruct (last _).
Qed.

Lemma groupNameToTier_not_hires name : groupNameToTier name ≠ "lossless-hires"%string.
Proof. unfold groupNameToTier, switch. by repeat case_match. Qed.

Lemma last_omap_None {A B} (f : A → option B) l : (∀ x, x ∈ l → f x = None) → omap f l = [].
Proof.
  induction l as [|x l IH]; [done|]. intros Hf. csimpl. rewrite Hf by left. apply IH. intros y Hy. apply Hf. by right.
Qed.

(** C37: a quality profile has the items of the service's schema, in their order, and
    differs from them in nothing but which are allowed: an item whose group name, or
    else whose quality's name, belongs to a configured tier is allowed as the last
    such tier says, every other item is as in the schema, and so are all nested
    items.  The cutoff is the ID of the last item of the cutoff's tier, if that tier
    is allowed, and 1005 otherwise.  No group has the tier of the high-resolution
    qualities, so the cutoff "lossless-hires" is 1005 on a schema of groups. *)
Theorem lidarr_profile_from_schema schema profile :
  let made := profileFromSchema schema profile in
  let tiers := tierAllowed (aq_Tiers profile) in
  lqp_Name made = aq_ProfileName profile ∧ lqp_UpgradeAllowed made = aq_UpgradeAllowed profile ∧
  length (lqp_Items made) = length (lqp_Items schema) ∧
  (∀ k item, lqp_Items schema !! k = Some item →
     lqp_Items made !! k =
       Some (mkNamedItem (ni_ID item) (ni_Name item) (ni_Quality item) (ni_Items item)
               (default (ni_Allowed item) (tiers !! schemaTier item)))) ∧
  lqp_Cutoff made =
    match last (omap (cutoffCandidate tiers (aq_Cutoff profile)) (lqp_Items schema)) with
    | Some id => if id =? 0 then 1005 else id
    | None => 1005
    end ∧
  (aq_Cutoff profile = "lossless-hires"%string → (∀ item, item ∈ lqp_Items schema → ni_Quality item = None) →
   lqp_Cutoff made = 1005).
Proof.
  intros made tiers.
  assert (lqp_Items made = allowItem tiers <$> lqp_Items schema) as Hi.
  { unfold made, profileFromSchema. by rewrite foldl_processSchemaItem. }
  assert (lqp_Cutoff made = match last (omap (cutoffCandidate tiers (aq_Cutoff profile)) (lqp_Items schema)) with
    | Some id => if id =? 0 then 1005 else id | None => 1005 end) as Hc.
  { unfold made, profileFromSchema. rewrite foldl_processSchemaItem. cbn [lqp_Cutoff]. fold tiers. by destruct (last _). }
  split_and!; [|..|done|].
  1-2: unfold made, profileFromSchema; by rewrite foldl_processSchemaItem.
  - by rewrite Hi, length_fmap.
  - intros k item Hk. by rewrite Hi, list_lookup_fmap, Hk.
  - intros Hh Hgroups. rewrite Hc, last_omap_None; [done|]. intros item Hin. unfold cutoffCandidate.
    rewrite Hh. unfold schemaTier. rewrite (Hgroups item Hin). destruct (tiers !! _) as [[]|]; [|done..].
    destruct (String.eqb_spec "lossless-hires" (groupNameToTier (ni_Name item))) as [E|]; [|done].
    by destruct (groupNameToTier_not_hires (ni_Name item)).
Qed.

(** The schema of a Lidarr: two groups, of which the first holds the 24 bit qualities. *)
Definition exampleSchema : LidarrQualityProfileResource :=
  mkLidarrQualityProfileResource 0 "" false 0
    [mkNamedItem 1001 "Low Quality Lossy" None [mkNamedItem 0 "" (Some (mkNamedQuality 10 "MP3-192")) [] true] true;
     mkNamedItem 1005 "Lossless" None
       [mkNamedItem 0 "" (Some (mkNamedQuality 6 "FLAC")) [] true;
        mkNamedItem 0 "" (Some (mkNamedQuality 21 "FLAC 24bit")) [] true] false] 0 0 [].

Definition exampleAudio : AudioQualityIR :=
  mkAudioQualityIR "nebularr-music" true "lossless-hires"
    [mkAudioQualityTierIR "lossless-hires" true; mkAudioQualityTierIR "lossless" true; mkAudioQualityTierIR "lossy-low" false]
    None ∅ 0 0.

Lemma lidarr_profile_from_schema_witness :
  let made := profileFromSchema exampleSchema exampleAudio in
  length (lqp_Items made) = 2%nat ∧ (ni_Allowed <$> lqp_Items made) = [false; true] ∧ lqp_Cutoff made = 1005.
Proof.
  destruct (lidarr_profile_from_schema exampleSchema exampleAudio) as (_ & _ & Hl & _ & _ & Hc).
  split; [exact Hl|split; [reflexivity|]]. apply Hc; [reflexivity|].
  apply Forall_forall. repeat constructor.
Defined.

(** The two tables disagree: a name that is written under a tier and read under
    another or under none, and one that is read but never written. *)
Lemma quality_tables_disagree :
  qualityToTier "AAC-VBR" = "lossy-low"%string ∧ qualityNameToTier "AAC-VBR" = "lossy-high"%string ∧
  qualityToTier "MP3-192" = ""%string ∧ qualityNameToTier "MP3-192" = "lossy-low"%string ∧
  qualityToTier "FLAC Lossless" = "lossless"%string ∧ qualityNameToTier "FLAC Lossless" = ""%string.
Proof. done. Qed.

(** A profile that exists is never updated, whatever its tiers. *)
Lemma lidarr_profile_never_updated o mid nid current desired ch :
  ch ∈ cs_Updates (diffIR o mid nid current desired) → ch_ResourceType ch ≠ ResourceQualityProfile.
Proof.
  intros Hin Hrt.
  pose proof (lidarr_diffSteps_append o mid nid current desired) as Ha.
  destruct (step_changes payloadTyped updateTyped (diffSteps o mid nid current desired) []
    (drop 1 (diffSteps o mid nid current desired)) _ _ Ha eq_refl ltac:(by apply (bool_decide_unpack _)) ch Hrt)
    as (_ & U & _).
  apply U in Hin. revert Hin. unfold DiffAudioQualityProfiles. repeat case_match; by intros ?%not_elem_of_nil.
Qed.
