(* ===== verification/RadarrResources.v ===== *)
(** * The resources of Radarr's client (radarr/client/client.gen.go)

    The generated client declares a struct per resource, every member a pointer: a
    member that is absent or [null] is [None].  A [*T] tagged [omitempty] is left out
    when it is nil, any other is written as [null]; an [int32] takes the numbers of
    its range only, and every other number is an error of the decoder.  Enumerations
    are strings.  The presets of a resource, which nothing reads, are kept as the
    documents they come as. *)
From S2P Require Export Resources.

(** ** Pointers *)

Definition int32Min : Z := - 2 ^ 31.
Definition int32Max : Z := 2 ^ 31 - 1.

(** The conversion [int32(n)]. *)
Definition int32 (n : Z) : Z := (n + 2 ^ 31) mod 2 ^ 32 - 2 ^ 31.

Definition fitsInt32 (n : Z) : bool := (int32Min <=? n) && (n <=? int32Max).
Definition asInt32 (v : any) : option Z :=
  match v with VInt n => if fitsInt32 n then Some n else None | _ => None end.
Definition asInt32Elem (v : any) : option Z := match v with VNil => Some 0 | _ => asInt32 v end.

Definition omitNone {A} (name : string) (enc : A → any) (x : option A) : list (string * any) :=
  match x with Some a => [(name, enc a)] | None => [] end.
Definition orNull {A} (name : string) (enc : A → any) (x : option A) : list (string * any) :=
  [(name, match x with Some a => enc a | None => VNil end)].

(** The conversion keeps the numbers of the range and has its values there. *)
Lemma int32_fits_iff n : int32 n = n ↔ fitsInt32 n = true.
Proof.
  unfold fitsInt32, int32, int32Min, int32Max. rewrite andb_true_iff, !Z.leb_le. split.
  - intros E. pose proof (Z.mod_pos_bound (n + 2 ^ 31) (2 ^ 32) eq_refl). lia.
  - intros Hn. rewrite Z.mod_small by lia. lia.
Qed.

Lemma int32_inRange n : fitsInt32 (int32 n) = true.
Proof.
  unfold fitsInt32, int32, int32Min, int32Max. rewrite andb_true_iff, !Z.leb_le.
  pose proof (Z.mod_pos_bound (n + 2 ^ 31) (2 ^ 32) eq_refl). lia.
Qed.

(** ** The structs *)

Record RTag := mkRTag {
  xt_Id : option Z;
  xt_Label : option string }.

#[export] Instance FromJSON_RTag : FromJSON RTag := asStruct (λ l,
  vId ← getPtr asInt32 "id" l;
  vLabel ← getPtr asString "label" l;
  Some (mkRTag vId vLabel)).

#[export] Instance ToJSON_RTag : ToJSON RTag := λ r, VMap (
  omitNone "id" VInt (xt_Id r) ++
  orNull "label" VString (xt_Label r)).

Record RLanguage := mkRLanguage {
  xl_Id : option Z;
  xl_Name : option string }.

#[export] Instance FromJSON_RLanguage : FromJSON RLanguage := asStruct (λ l,
  vId ← getPtr asInt32 "id" l;
  vName ← getPtr asString "name" l;
  Some (mkRLanguage vId vName)).

#[export] Instance ToJSON_RLanguage : ToJSON RLanguage := λ r, VMap (
  omitNone "id" VInt (xl_Id r) ++
  orNull "name" VString (xl_Name r)).

Record RSelectOption := mkRSelectOption {
  xso_DividerAfter : option bool;
  xso_Hint : option string;
  xso_Name : option string;
  xso_Order : option Z;
  xso_Value : option Z }.

#[export] Instance FromJSON_RSelectOption : FromJSON RSelectOption := asStruct (λ l,
  vDividerAfter ← getPtr asBool "dividerAfter" l;
  vHint ← getPtr asString "hint" l;
  vName ← getPtr asString "name" l;
  vOrder ← getPtr asInt32 "order" l;
  vValue ← getPtr asInt32 "value" l;
  Some (mkRSelectOption vDividerAfter vHint vName vOrder vValue)).

#[export] Instance ToJSON_RSelectOption : ToJSON RSelectOption := λ r, VMap (
  omitNone "dividerAfter" VBool (xso_DividerAfter r) ++
  orNull "hint" VString (xso_Hint r) ++
  orNull "name" VString (xso_Name r) ++
  omitNone "order" VInt (xso_Order r) ++
  omitNone "value" VInt (xso_Value r)).

Record RProviderMessage := mkRProviderMessage {
  xpm_Message : option string;
  xpm_Type : option string }.

#[export] Instance FromJSON_RProviderMessage : FromJSON RProviderMessage := asStruct (λ l,
  vMessage ← getPtr asString "message" l;
  vType ← getPtr asString "type" l;
  Some (mkRProviderMessage vMessage vType)).

#[export] Instance ToJSON_RProviderMessage : ToJSON RProviderMessage := λ r, VMap (
  orNull "message" VString (xpm_Message r) ++
  omitNone "type" VString (xpm_Type r)).

Record RField := mkRField {
  xf_Advanced : option bool;
  xf_HelpLink : option string;
  xf_HelpText : option string;
  xf_HelpTextWarning : option string;
  xf_Hidden : option string;
  xf_IsFloat : option bool;
  xf_Label : option string;
  xf_Name : option string;
  xf_Order : option Z;
  xf_Placeholder : option string;
  xf_Privacy : option string;
  xf_Section : option string;
  xf_SelectOptions : option (list RSelectOption);
  xf_SelectOptionsProviderAction : option string;
  xf_Type : option string;
  xf_Unit : option string;
  xf_Value : any }.

#[export] Instance FromJSON_RField : FromJSON RField := asStruct (λ l,
  vAdvanced ← getPtr asBool "advanced" l;
  vHelpLink ← getPtr asString "helpLink" l;
  vHelpText ← getPtr asString "helpText" l;
  vHelpTextWarning ← getPtr asString "helpTextWarning" l;
  vHidden ← getPtr asString "hidden" l;
  vIsFloat ← getPtr asBool "isFloat" l;
  vLabel ← getPtr asString "label" l;
  vName ← getPtr asString "name" l;
  vOrder ← getPtr asInt32 "order" l;
  vPlaceholder ← getPtr asString "placeholder" l;
  vPrivacy ← getPtr asString "privacy" l;
  vSection ← getPtr asString "section" l;
  vSelectOptions ← getPtr (asSlice fromJSON) "selectOptions" l;
  vSelectOptionsProviderAction ← getPtr asString "selectOptionsProviderAction" l;
  vType ← getPtr asString "type" l;
  vUnit ← getPtr asString "unit" l;
  vValue ← getAny "value" l;
  Some (mkRField vAdvanced vHelpLink vHelpText vHelpTextWarning vHidden vIsFloat vLabel vName vOrder vPlaceholder vPrivacy vSection vSelectOptions vSelectOptionsProviderAction vType vUnit vValue)).

#[export] Instance ToJSON_RField : ToJSON RField := λ r, VMap (
  omitNone "advanced" VBool (xf_Advanced r) ++
  orNull "helpLink" VString (xf_HelpLink r) ++
  orNull "helpText" VString (xf_HelpText r) ++
  orNull "helpTextWarning" VString (xf_HelpTextWarning r) ++
  orNull "hidden" VString (xf_Hidden r) ++
  omitNone "isFloat" VBool (xf_IsFloat r) ++
  orNull "label" VString (xf_Label r) ++
  orNull "name" VString (xf_Name r) ++
  omitNone "order" VInt (xf_Order r) ++
  orNull "placeholder" VString (xf_Placeholder r) ++
  omitNone "privacy" VString (xf_Privacy r) ++
  orNull "section" VString (xf_Section r) ++
  orNull "selectOptions" (λ l, VList (toJSON <$> l)) (xf_SelectOptions r) ++
  orNull "selectOptionsProviderAction" VString (xf_SelectOptionsProviderAction r) ++
  orNull "type" VString (xf_Type r) ++
  orNull "unit" VString (xf_Unit r) ++
  [("value", toWire (xf_Value r))]).

Record RQuality := mkRQuality {
  xq_Id : option Z;
  xq_Modifier : option string;
  xq_Name : option string;
  xq_Resolution : option Z;
  xq_Source : option string }.

#[export] Instance FromJSON_RQuality : FromJSON RQuality := asStruct (λ l,
  vId ← getPtr asInt32 "id" l;
  vModifier ← getPtr asString "modifier" l;
  vName ← getPtr asString "name" l;
  vResolution ← getPtr asInt32 "resolution" l;
  vSource ← getPtr asString "source" l;
  Some (mkRQuality vId vModifier vName vResolution vSource)).

#[export] Instance ToJSON_RQuality : ToJSON RQuality := λ r, VMap (
  omitNone "id" VInt (xq_Id r) ++
  omitNone "modifier" VString (xq_Modifier r) ++
  orNull "name" VString (xq_Name r) ++
  omitNone "resolution" VInt (xq_Resolution r) ++
  omitNone "source" VString (xq_Source r)).

(** The items of a profile nest. *)
#[warnings="-register-all"]
Inductive RQualityItem := mkRQualityItem {
  xqi_Allowed : option bool;
  xqi_Id : option Z;
  xqi_Items : option (list RQualityItem);
  xqi_Name : option string;
  xqi_Quality : option RQuality }.

Fixpoint decodeRQualityItem (fuel : nat) (v : any) : option RQualityItem :=
  match fuel with
  | O => None
  | S fuel => asStruct (λ l,
      vAllowed ← getPtr asBool "allowed" l;
      vId ← getPtr asInt32 "id" l;
      vItems ← getPtr (asSlice (decodeRQualityItem fuel)) "items" l;
      vName ← getPtr asString "name" l;
      vQuality ← getPtr fromJSON "quality" l;
      Some (mkRQualityItem vAllowed vId vItems vName vQuality)) v
  end.

#[export] Instance FromJSON_RQualityItem : FromJSON RQualityItem := λ v, decodeRQualityItem (S (depth v)) v.

Fixpoint encodeRQualityItem (i : RQualityItem) : any :=
  let '(mkRQualityItem allowed id items name quality) := i in
  VMap (
    omitNone "allowed" VBool allowed ++
    omitNone "id" VInt id ++
    [("items", match items with Some l => VList (map encodeRQualityItem l) | None => VNil end)] ++
    orNull "name" VString name ++
    omitNone "quality" toJSON quality).

#[export] Instance ToJSON_RQualityItem : ToJSON RQualityItem := encodeRQualityItem.

Record RFormatItem := mkRFormatItem {
  xfi_Format : option Z;
  xfi_Id : option Z;
  xfi_Name : option string;
  xfi_Score : option Z }.

#[export] Instance FromJSON_RFormatItem : FromJSON RFormatItem := asStruct (λ l,
  vFormat ← getPtr asInt32 "format" l;
  vId ← getPtr asInt32 "id" l;
  vName ← getPtr asString "name" l;
  vScore ← getPtr asInt32 "score" l;
  Some (mkRFormatItem vFormat vId vName vScore)).

#[export] Instance ToJSON_RFormatItem : ToJSON RFormatItem := λ r, VMap (
  omitNone "format" VInt (xfi_Format r) ++
  omitNone "id" VInt (xfi_Id r) ++
  orNull "name" VString (xfi_Name r) ++
  omitNone "score" VInt (xfi_Score r)).

Record RQualityProfile := mkRQualityProfile {
  xqp_Cutoff : option Z;
  xqp_CutoffFormatScore : option Z;
  xqp_FormatItems : option (list RFormatItem);
  xqp_Id : option Z;
  xqp_Items : option (list RQualityItem);
  xqp_Language : option RLanguage;
  xqp_MinFormatScore : option Z;
  xqp_MinUpgradeFormatScore : option Z;
  xqp_Name : option string;
  xqp_UpgradeAllowed : option bool }.

#[export] Instance FromJSON_RQualityProfile : FromJSON RQualityProfile := asStruct (λ l,
  vCutoff ← getPtr asInt32 "cutoff" l;
  vCutoffFormatScore ← getPtr asInt32 "cutoffFormatScore" l;
  vFormatItems ← getPtr (asSlice fromJSON) "formatItems" l;
  vId ← getPtr asInt32 "id" l;
  vItems ← getPtr (asSlice fromJSON) "items" l;
  vLanguage ← getPtr fromJSON "language" l;
  vMinFormatScore ← getPtr asInt32 "minFormatScore" l;
  vMinUpgradeFormatScore ← getPtr asInt32 "minUpgradeFormatScore" l;
  vName ← getPtr asString "name" l;
  vUpgradeAllowed ← getPtr asBool "upgradeAllowed" l;
  Some (mkRQualityProfile vCutoff vCutoffFormatScore vFormatItems vId vItems vLanguage vMinFormatScore vMinUpgradeFormatScore vName vUpgradeAllowed)).

#[export] Instance ToJSON_RQualityProfile : ToJSON RQualityProfile := λ r, VMap (
  omitNone "cutoff" VInt (xqp_Cutoff r) ++
  omitNone "cutoffFormatScore" VInt (xqp_CutoffFormatScore r) ++
  orNull "formatItems" (λ l, VList (toJSON <$> l)) (xqp_FormatItems r) ++
  omitNone "id" VInt (xqp_Id r) ++
  orNull "items" (λ l, VList (toJSON <$> l)) (xqp_Items r) ++
  omitNone "language" toJSON (xqp_Language r) ++
  omitNone "minFormatScore" VInt (xqp_MinFormatScore r) ++
  omitNone "minUpgradeFormatScore" VInt (xqp_MinUpgradeFormatScore r) ++
  orNull "name" VString (xqp_Name r) ++
  omitNone "upgradeAllowed" VBool (xqp_UpgradeAllowed r)).

Record RSpecification := mkRSpecification {
  xcs_Fields : option (list RField);
  xcs_Id : option Z;
  xcs_Implementation : option string;
  xcs_ImplementationName : option string;
  xcs_InfoLink : option string;
  xcs_Name : option string;
  xcs_Negate : option bool;
  xcs_Presets : option (list any);
  xcs_Required : option bool }.

#[export] Instance FromJSON_RSpecification : FromJSON RSpecification := asStruct (λ l,
  vFields ← getPtr (asSlice fromJSON) "fields" l;
  vId ← getPtr asInt32 "id" l;
  vImplementation ← getPtr asString "implementation" l;
  vImplementationName ← getPtr asString "implementationName" l;
  vInfoLink ← getPtr asString "infoLink" l;
  vName ← getPtr asString "name" l;
  vNegate ← getPtr asBool "negate" l;
  vPresets ← getPtr (asSlice Some) "presets" l;
  vRequired ← getPtr asBool "required" l;
  Some (mkRSpecification vFields vId vImplementation vImplementationName vInfoLink vName vNegate vPresets vRequired)).

Record RCustomFormat := mkRCustomFormat {
  xcf_Id : option Z;
  xcf_IncludeCustomFormatWhenRenaming : option bool;
  xcf_Name : option string;
  xcf_Specifications : option (list RSpecification) }.

#[export] Instance FromJSON_RCustomFormat : FromJSON RCustomFormat := asStruct (λ l,
  vId ← getPtr asInt32 "id" l;
  vIncludeCustomFormatWhenRenaming ← getPtr asBool "includeCustomFormatWhenRenaming" l;
  vName ← getPtr asString "name" l;
  vSpecifications ← getPtr (asSlice fromJSON) "specifications" l;
  Some (mkRCustomFormat vId vIncludeCustomFormatWhenRenaming vName vSpecifications)).

Record RDownloadClient := mkRDownloadClient {
  xdc_ConfigContract : option string;
  xdc_Enable : option bool;
  xdc_Fields : option (list RField);
  xdc_Id : option Z;
  xdc_Implementation : option string;
  xdc_ImplementationName : option string;
  xdc_InfoLink : option string;
  xdc_Message : option RProviderMessage;
  xdc_Name : option string;
  xdc_Presets : option (list any);
  xdc_Priority : option Z;
  xdc_Protocol : option string;
  xdc_RemoveCompletedDownloads : option bool;
  xdc_RemoveFailedDownloads : option bool;
  xdc_Tags : option (list Z) }.

#[export] Instance FromJSON_RDownloadClient : FromJSON RDownloadClient := asStruct (λ l,
  vConfigContract ← getPtr asString "configContract" l;
  vEnable ← getPtr asBool "enable" l;
  vFields ← getPtr (asSlice fromJSON) "fields" l;
  vId ← getPtr asInt32 "id" l;
  vImplementation ← getPtr asString "implementation" l;
  vImplementationName ← getPtr asString "implementationName" l;
  vInfoLink ← getPtr asString "infoLink" l;
  vMessage ← getPtr fromJSON "message" l;
  vName ← getPtr asString "name" l;
  vPresets ← getPtr (asSlice Some) "presets" l;
  vPriority ← getPtr asInt32 "priority" l;
  vProtocol ← getPtr asString "protocol" l;
  vRemoveCompletedDownloads ← getPtr asBool "removeCompletedDownloads" l;
  vRemoveFailedDownloads ← getPtr asBool "removeFailedDownloads" l;
  vTags ← getPtr (asSlice asInt32Elem) "tags" l;
  Some (mkRDownloadClient vConfigContract vEnable vFields vId vImplementation vImplementationName vInfoLink vMessage vName vPresets vPriority vProtocol vRemoveCompletedDownloads vRemoveFailedDownloads vTags)).

#[export] Instance ToJSON_RDownloadClient : ToJSON RDownloadClient := λ r, VMap (
  orNull "configContract" VString (xdc_ConfigContract r) ++
  omitNone "enable" VBool (xdc_Enable r) ++
  orNull "fields" (λ l, VList (toJSON <$> l)) (xdc_Fields r) ++
  omitNone "id" VInt (xdc_Id r) ++
  orNull "implementation" VString (xdc_Implementation r) ++
  orNull "implementationName" VString (xdc_ImplementationName r) ++
  orNull "infoLink" VString (xdc_InfoLink r) ++
  omitNone "message" toJSON (xdc_Message r) ++
  orNull "name" VString (xdc_Name r) ++
  orNull "presets" VList (xdc_Presets r) ++
  omitNone "priority" VInt (xdc_Priority r) ++
  omitNone "protocol" VString (xdc_Protocol r) ++
  omitNone "removeCompletedDownloads" VBool (xdc_RemoveCompletedDownloads r) ++
  omitNone "removeFailedDownloads" VBool (xdc_RemoveFailedDownloads r) ++
  orNull "tags" (λ l, VList (VInt <$> l)) (xdc_Tags r)).

Record RIndexer := mkRIndexer {
  xix_ConfigContract : option string;
  xix_DownloadClientId : option Z;
  xix_EnableAutomaticSearch : option bool;
  xix_EnableInteractiveSearch : option bool;
  xix_EnableRss : option bool;
  xix_Fields : option (list RField);
  xix_Id : option Z;
  xix_Implementation : option string;
  xix_ImplementationName : option string;
  xix_InfoLink : option string;
  xix_Message : option RProviderMessage;
  xix_Name : option string;
  xix_Presets : option (list any);
  xix_Priority : option Z;
  xix_Protocol : option string;
  xix_SupportsRss : option bool;
  xix_SupportsSearch : option bool;
  xix_Tags : option (list Z) }.

#[export] Instance FromJSON_RIndexer : FromJSON RIndexer := asStruct (λ l,
  vConfigContract ← getPtr asString "configContract" l;
  vDownloadClientId ← getPtr asInt32 "downloadClientId" l;
  vEnableAutomaticSearch ← getPtr asBool "enableAutomaticSearch" l;
  vEnableInteractiveSearch ← getPtr asBool "enableInteractiveSearch" l;
  vEnableRss ← getPtr asBool "enableRss" l;
  vFields ← getPtr (asSlice fromJSON) "fields" l;
  vId ← getPtr asInt32 "id" l;
  vImplementation ← getPtr asString "implementation" l;
  vImplementationName ← getPtr asString "implementationName" l;
  vInfoLink ← getPtr asString "infoLink" l;
  vMessage ← getPtr fromJSON "message" l;
  vName ← getPtr asString "name" l;
  vPresets ← getPtr (asSlice Some) "presets" l;
  vPriority ← getPtr asInt32 "priority" l;
  vProtocol ← getPtr asString "protocol" l;
  vSupportsRss ← getPtr asBool "supportsRss" l;
  vSupportsSearch ← getPtr asBool "supportsSearch" l;
  vTags ← getPtr (asSlice asInt32Elem) "tags" l;
  Some (mkRIndexer vConfigContract vDownloadClientId vEnableAutomaticSearch vEnableInteractiveSearch vEnableRss vFields vId vImplementation vImplementationName vInfoLink vMessage vName vPresets vPriority vProtocol vSupportsRss vSupportsSearch vTags)).

#[export] Instance ToJSON_RIndexer : ToJSON RIndexer := λ r, VMap (
  orNull "configContract" VString (xix_ConfigContract r) ++
  omitNone "downloadClientId" VInt (xix_DownloadClientId r) ++
  omitNone "enableAutomaticSearch" VBool (xix_EnableAutomaticSearch r) ++
  omitNone "enableInteractiveSearch" VBool (xix_EnableInteractiveSearch r) ++
  omitNone "enableRss" VBool (xix_EnableRss r) ++
  orNull "fields" (λ l, VList (toJSON <$> l)) (xix_Fields r) ++
  omitNone "id" VInt (xix_Id r) ++
  orNull "implementation" VString (xix_Implementation r) ++
  orNull "implementationName" VString (xix_ImplementationName r) ++
  orNull "infoLink" VString (xix_InfoLink r) ++
  omitNone "message" toJSON (xix_Message r) ++
  orNull "name" VString (xix_Name r) ++
  orNull "presets" VList (xix_Presets r) ++
  omitNone "priority" VInt (xix_Priority r) ++
  omitNone "protocol" VString (xix_Protocol r) ++
  omitNone "supportsRss" VBool (xix_SupportsRss r) ++
  omitNone "supportsSearch" VBool (xix_SupportsSearch r) ++
  orNull "tags" (λ l, VList (VInt <$> l)) (xix_Tags r)).

Record RUnmappedFolder := mkRUnmappedFolder {
  xuf_Name : option string;
  xuf_Path : option string;
  xuf_RelativePath : option string }.

#[export] Instance FromJSON_RUnmappedFolder : FromJSON RUnmappedFolder := asStruct (λ l,
  vName ← getPtr asString "name" l;
  vPath ← getPtr asString "path" l;
  vRelativePath ← getPtr asString "relativePath" l;
  Some (mkRUnmappedFolder vName vPath vRelativePath)).

#[export] Instance ToJSON_RUnmappedFolder : ToJSON RUnmappedFolder := λ r, VMap (
  orNull "name" VString (xuf_Name r) ++
  orNull "path" VString (xuf_Path r) ++
  orNull "relativePath" VString (xuf_RelativePath r)).

Record RRootFolder := mkRRootFolder {
  xrf_Accessible : option bool;
  xrf_FreeSpace : option Z;
  xrf_Id : option Z;
  xrf_Path : option string;
  xrf_UnmappedFolders : option (list RUnmappedFolder) }.

#[export] Instance FromJSON_RRootFolder : FromJSON RRootFolder := asStruct (λ l,
  vAccessible ← getPtr asBool "accessible" l;
  vFreeSpace ← getPtr asInt "freeSpace" l;
  vId ← getPtr asInt32 "id" l;
  vPath ← getPtr asString "path" l;
  vUnmappedFolders ← getPtr (asSlice fromJSON) "unmappedFolders" l;
  Some (mkRRootFolder vAccessible vFreeSpace vId vPath vUnmappedFolders)).

#[export] Instance ToJSON_RRootFolder : ToJSON RRootFolder := λ r, VMap (
  omitNone "accessible" VBool (xrf_Accessible r) ++
  orNull "freeSpace" VInt (xrf_FreeSpace r) ++
  omitNone "id" VInt (xrf_Id r) ++
  orNull "path" VString (xrf_Path r) ++
  orNull "unmappedFolders" (λ l, VList (toJSON <$> l)) (xrf_UnmappedFolders r)).

Record RNamingConfig := mkRNamingConfig {
  xnc_ColonReplacementFormat : option string;
  xnc_Id : option Z;
  xnc_MovieFolderFormat : option string;
  xnc_RenameMovies : option bool;
  xnc_ReplaceIllegalCharacters : option bool;
  xnc_StandardMovieFormat : option string }.

#[export] Instance FromJSON_RNamingConfig : FromJSON RNamingConfig := asStruct (λ l,
  vColonReplacementFormat ← getPtr asString "colonReplacementFormat" l;
  vId ← getPtr asInt32 "id" l;
  vMovieFolderFormat ← getPtr asString "movieFolderFormat" l;
  vRenameMovies ← getPtr asBool "renameMovies" l;
  vReplaceIllegalCharacters ← getPtr asBool "replaceIllegalCharacters" l;
  vStandardMovieFormat ← getPtr asString "standardMovieFormat" l;
  Some (mkRNamingConfig vColonReplacementFormat vId vMovieFolderFormat vRenameMovies vReplaceIllegalCharacters vStandardMovieFormat)).

#[export] Instance ToJSON_RNamingConfig : ToJSON RNamingConfig := λ r, VMap (
  omitNone "colonReplacementFormat" VString (xnc_ColonReplacementFormat r) ++
  omitNone "id" VInt (xnc_Id r) ++
  orNull "movieFolderFormat" VString (xnc_MovieFolderFormat r) ++
  omitNone "renameMovies" VBool (xnc_RenameMovies r) ++
  omitNone "replaceIllegalCharacters" VBool (xnc_ReplaceIllegalCharacters r) ++
  orNull "standardMovieFormat" VString (xnc_StandardMovieFormat r)).

Record RMapping := mkRMapping {
  xrm_Host : option string;
  xrm_Id : option Z;
  xrm_LocalPath : option string;
  xrm_RemotePath : option string }.

#[export] Instance FromJSON_RMapping : FromJSON RMapping := asStruct (λ l,
  vHost ← getPtr asString "host" l;
  vId ← getPtr asInt32 "id" l;
  vLocalPath ← getPtr asString "localPath" l;
  vRemotePath ← getPtr asString "remotePath" l;
  Some (mkRMapping vHost vId vLocalPath vRemotePath)).

#[export] Instance ToJSON_RMapping : ToJSON RMapping := λ r, VMap (
  orNull "host" VString (xrm_Host r) ++
  omitNone "id" VInt (xrm_Id r) ++
  orNull "localPath" VString (xrm_LocalPath r) ++
  orNull "remotePath" VString (xrm_RemotePath r)).

Record RNotification := mkRNotification {
  xn_ConfigContract : option string;
  xn_Fields : option (list RField);
  xn_Id : option Z;
  xn_Implementation : option string;
  xn_ImplementationName : option string;
  xn_IncludeHealthWarnings : option bool;
  xn_InfoLink : option string;
  xn_Link : option string;
  xn_Message : option RProviderMessage;
  xn_Name : option string;
  xn_OnApplicationUpdate : option bool;
  xn_OnDownload : option bool;
  xn_OnGrab : option bool;
  xn_OnHealthIssue : option bool;
  xn_OnHealthRestored : option bool;
  xn_OnManualInteractionRequired : option bool;
  xn_OnMovieAdded : option bool;
  xn_OnMovieDelete : option bool;
  xn_OnMovieFileDelete : option bool;
  xn_OnMovieFileDeleteForUpgrade : option bool;
  xn_OnRename : option bool;
  xn_OnUpgrade : option bool;
  xn_Presets : option (list any);
  xn_SupportsOnApplicationUpdate : option bool;
  xn_SupportsOnDownload : option bool;
  xn_SupportsOnGrab : option bool;
  xn_SupportsOnHealthIssue : option bool;
  xn_SupportsOnHealthRestored : option bool;
  xn_SupportsOnManualInteractionRequired : option bool;
  xn_SupportsOnMovieAdded : option bool;
  xn_SupportsOnMovieDelete : option bool;
  xn_SupportsOnMovieFileDelete : option bool;
  xn_SupportsOnMovieFileDeleteForUpgrade : option bool;
  xn_SupportsOnRename : option bool;
  xn_SupportsOnUpgrade : option bool;
  xn_Tags : option (list Z);
  xn_TestCommand : option string }.

#[export] Instance FromJSON_RNotification : FromJSON RNotification := asStruct (λ l,
  vConfigContract ← getPtr asString "configContract" l;
  vFields ← getPtr (asSlice fromJSON) "fields" l;
  vId ← getPtr asInt32 "id" l;
  vImplementation ← getPtr asString "implementation" l;
  vImplementationName ← getPtr asString "implementationName" l;
  vIncludeHealthWarnings ← getPtr asBool "includeHealthWarnings" l;
  vInfoLink ← getPtr asString "infoLink" l;
  vLink ← getPtr asString "link" l;
  vMessage ← getPtr fromJSON "message" l;
  vName ← getPtr asString "name" l;
  vOnApplicationUpdate ← getPtr asBool "onApplicationUpdate" l;
  vOnDownload ← getPtr asBool "onDownload" l;
  vOnGrab ← getPtr asBool "onGrab" l;
  vOnHealthIssue ← getPtr asBool "onHealthIssue" l;
  vOnHealthRestored ← getPtr asBool "onHealthRestored" l;
  vOnManualInteractionRequired ← getPtr asBool "onManualInteractionRequired" l;
  vOnMovieAdded ← getPtr asBool "onMovieAdded" l;
  vOnMovieDelete ← getPtr asBool "onMovieDelete" l;
  vOnMovieFileDelete ← getPtr asBool "onMovieFileDelete" l;
  vOnMovieFileDeleteForUpgrade ← getPtr asBool "onMovieFileDeleteForUpgrade" l;
  vOnRename ← getPtr asBool "onRename" l;
  vOnUpgrade ← getPtr asBool "onUpgrade" l;
  vPresets ← getPtr (asSlice Some) "presets" l;
  vSupportsOnApplicationUpdate ← getPtr asBool "supportsOnApplicationUpdate" l;
  vSupportsOnDownload ← getPtr asBool "supportsOnDownload" l;
  vSupportsOnGrab ← getPtr asBool "supportsOnGrab" l;
  vSupportsOnHealthIssue ← getPtr asBool "supportsOnHealthIssue" l;
  vSupportsOnHealthRestored ← getPtr asBool "supportsOnHealthRestored" l;
  vSupportsOnManualInteractionRequired ← getPtr asBool "supportsOnManualInteractionRequired" l;
  vSupportsOnMovieAdded ← getPtr asBool "supportsOnMovieAdded" l;
  vSupportsOnMovieDelete ← getPtr asBool "supportsOnMovieDelete" l;
  vSupportsOnMovieFileDelete ← getPtr asBool "supportsOnMovieFileDelete" l;
  vSupportsOnMovieFileDeleteForUpgrade ← getPtr asBool "supportsOnMovieFileDeleteForUpgrade" l;
  vSupportsOnRename ← getPtr asBool "supportsOnRename" l;
  vSupportsOnUpgrade ← getPtr asBool "supportsOnUpgrade" l;
  vTags ← getPtr (asSlice asInt32Elem) "tags" l;
  vTestCommand ← getPtr asString "testCommand" l;
  Some (mkRNotification vConfigContract vFields vId vImplementation vImplementationName vIncludeHealthWarnings vInfoLink vLink vMessage vName vOnApplicationUpdate vOnDownload vOnGrab vOnHealthIssue vOnHealthRestored vOnManualInteractionRequired vOnMovieAdded vOnMovieDelete vOnMovieFileDelete vOnMovieFileDeleteForUpgrade vOnRename vOnUpgrade vPresets vSupportsOnApplicationUpdate vSupportsOnDownload vSupportsOnGrab vSupportsOnHealthIssue vSupportsOnHealthRestored vSupportsOnManualInteractionRequired vSupportsOnMovieAdded vSupportsOnMovieDelete vSupportsOnMovieFileDelete vSupportsOnMovieFileDeleteForUpgrade vSupportsOnRename vSupportsOnUpgrade vTags vTestCommand)).

#[export] Instance ToJSON_RNotification : ToJSON RNotification := λ r, VMap (
  orNull "configContract" VString (xn_ConfigContract r) ++
  orNull "fields" (λ l, VList (toJSON <$> l)) (xn_Fields r) ++
  omitNone "id" VInt (xn_Id r) ++
  orNull "implementation" VString (xn_Implementation r) ++
  orNull "implementationName" VString (xn_ImplementationName r) ++
  omitNone "includeHealthWarnings" VBool (xn_IncludeHealthWarnings r) ++
  orNull "infoLink" VString (xn_InfoLink r) ++
  orNull "link" VString (xn_Link r) ++
  omitNone "message" toJSON (xn_Message r) ++
  orNull "name" VString (xn_Name r) ++
  omitNone "onApplicationUpdate" VBool (xn_OnApplicationUpdate r) ++
  omitNone "onDownload" VBool (xn_OnDownload r) ++
  omitNone "onGrab" VBool (xn_OnGrab r) ++
  omitNone "onHealthIssue" VBool (xn_OnHealthIssue r) ++
  omitNone "onHealthRestored" VBool (xn_OnHealthRestored r) ++
  omitNone "onManualInteractionRequired" VBool (xn_OnManualInteractionRequired r) ++
  omitNone "onMovieAdded" VBool (xn_OnMovieAdded r) ++
  omitNone "onMovieDelete" VBool (xn_OnMovieDelete r) ++
  omitNone "onMovieFileDelete" VBool (xn_OnMovieFileDelete r) ++
  omitNone "onMovieFileDeleteForUpgrade" VBool (xn_OnMovieFileDeleteForUpgrade r) ++
  omitNone "onRename" VBool (xn_OnRename r) ++
  omitNone "onUpgrade" VBool (xn_OnUpgrade r) ++
  orNull "presets" VList (xn_Presets r) ++
  omitNone "supportsOnApplicationUpdate" VBool (xn_SupportsOnApplicationUpdate r) ++
  omitNone "supportsOnDownload" VBool (xn_SupportsOnDownload r) ++
  omitNone "supportsOnGrab" VBool (xn_SupportsOnGrab r) ++
  omitNone "supportsOnHealthIssue" VBool (xn_SupportsOnHealthIssue r) ++
  omitNone "supportsOnHealthRestored" VBool (xn_SupportsOnHealthRestored r) ++
  omitNone "supportsOnManualInteractionRequired" VBool (xn_SupportsOnManualInteractionRequired r) ++
  omitNone "supportsOnMovieAdded" VBool (xn_SupportsOnMovieAdded r) ++
  omitNone "supportsOnMovieDelete" VBool (xn_SupportsOnMovieDelete r) ++
  omitNone "supportsOnMovieFileDelete" VBool (xn_SupportsOnMovieFileDelete r) ++
  omitNone "supportsOnMovieFileDeleteForUpgrade" VBool (xn_SupportsOnMovieFileDeleteForUpgrade r) ++
  omitNone "supportsOnRename" VBool (xn_SupportsOnRename r) ++
  omitNone "supportsOnUpgrade" VBool (xn_SupportsOnUpgrade r) ++
  orNull "tags" (λ l, VList (VInt <$> l)) (xn_Tags r) ++
  orNull "testCommand" VString (xn_TestCommand r)).

Record RDelayProfile := mkRDelayProfile {
  xdp_BypassIfAboveCustomFormatScore : option bool;
  xdp_BypassIfHighestQuality : option bool;
  xdp_EnableTorrent : option bool;
  xdp_EnableUsenet : option bool;
  xdp_Id : option Z;
  xdp_MinimumCustomFormatScore : option Z;
  xdp_Order : option Z;
  xdp_PreferredProtocol : option string;
  xdp_Tags : option (list Z);
  xdp_TorrentDelay : option Z;
  xdp_UsenetDelay : option Z }.

#[export] Instance FromJSON_RDelayProfile : FromJSON RDelayProfile := asStruct (λ l,
  vBypassIfAboveCustomFormatScore ← getPtr asBool "bypassIfAboveCustomFormatScore" l;
  vBypassIfHighestQuality ← getPtr asBool "bypassIfHighestQuality" l;
  vEnableTorrent ← getPtr asBool "enableTorrent" l;
  vEnableUsenet ← getPtr asBool "enableUsenet" l;
  vId ← getPtr asInt32 "id" l;
  vMinimumCustomFormatScore ← getPtr asInt32 "minimumCustomFormatScore" l;
  vOrder ← getPtr asInt32 "order" l;
  vPreferredProtocol ← getPtr asString "preferredProtocol" l;
  vTags ← getPtr (asSlice asInt32Elem) "tags" l;
  vTorrentDelay ← getPtr asInt32 "torrentDelay" l;
  vUsenetDelay ← getPtr asInt32 "usenetDelay" l;
  Some (mkRDelayProfile vBypassIfAboveCustomFormatScore vBypassIfHighestQuality vEnableTorrent vEnableUsenet vId vMinimumCustomFormatScore vOrder vPreferredProtocol vTags vTorrentDelay vUsenetDelay)).

#[export] Instance ToJSON_RDelayProfile : ToJSON RDelayProfile := λ r, VMap (
  omitNone "bypassIfAboveCustomFormatScore" VBool (xdp_BypassIfAboveCustomFormatScore r) ++
  omitNone "bypassIfHighestQuality" VBool (xdp_BypassIfHighestQuality r) ++
  omitNone "enableTorrent" VBool (xdp_EnableTorrent r) ++
  omitNone "enableUsenet" VBool (xdp_EnableUsenet r) ++
  omitNone "id" VInt (xdp_Id r) ++
  omitNone "minimumCustomFormatScore" VInt (xdp_MinimumCustomFormatScore r) ++
  omitNone "order" VInt (xdp_Order r) ++
  omitNone "preferredProtocol" VString (xdp_PreferredProtocol r) ++
  orNull "tags" (λ l, VList (VInt <$> l)) (xdp_Tags r) ++
  omitNone "torrentDelay" VInt (xdp_TorrentDelay r) ++
  omitNone "usenetDelay" VInt (xdp_UsenetDelay r)).

Record RImportList := mkRImportList {
  xil_ConfigContract : option string;
  xil_EnableAuto : option bool;
  xil_Enabled : option bool;
  xil_Fields : option (list RField);
  xil_Id : option Z;
  xil_Implementation : option string;
  xil_ImplementationName : option string;
  xil_InfoLink : option string;
  xil_ListOrder : option Z;
  xil_ListType : option string;
  xil_Message : option RProviderMessage;
  xil_MinRefreshInterval : option string;
  xil_MinimumAvailability : option string;
  xil_Monitor : option string;
  xil_Name : option string;
  xil_Presets : option (list any);
  xil_QualityProfileId : option Z;
  xil_RootFolderPath : option string;
  xil_SearchOnAdd : option bool;
  xil_Tags : option (list Z) }.

#[export] Instance FromJSON_RImportList : FromJSON RImportList := asStruct (λ l,
  vConfigContract ← getPtr asString "configContract" l;
  vEnableAuto ← getPtr asBool "enableAuto" l;
  vEnabled ← getPtr asBool "enabled" l;
  vFields ← getPtr (asSlice fromJSON) "fields" l;
  vId ← getPtr asInt32 "id" l;
  vImplementation ← getPtr asString "implementation" l;
  vImplementationName ← getPtr asString "implementationName" l;
  vInfoLink ← getPtr asString "infoLink" l;
  vListOrder ← getPtr asInt32 "listOrder" l;
  vListType ← getPtr asString "listType" l;
  vMessage ← getPtr fromJSON "message" l;
  vMinRefreshInterval ← getPtr asString "minRefreshInterval" l;
  vMinimumAvailability ← getPtr asString "minimumAvailability" l;
  vMonitor ← getPtr asString "monitor" l;
  vName ← getPtr asString "name" l;
  vPresets ← getPtr (asSlice Some) "presets" l;
  vQualityProfileId ← getPtr asInt32 "qualityProfileId" l;
  vRootFolderPath ← getPtr asString "rootFolderPath" l;
  vSearchOnAdd ← getPtr asBool "searchOnAdd" l;
  vTags ← getPtr (asSlice asInt32Elem) "tags" l;
  Some (mkRImportList vConfigContract vEnableAuto vEnabled vFields vId vImplementation vImplementationName vInfoLink vListOrder vListType vMessage vMinRefreshInterval vMinimumAvailability vMonitor vName vPresets vQualityProfileId vRootFolderPath vSearchOnAdd vTags)).

#[export] Instance ToJSON_RImportList : ToJSON RImportList := λ r, VMap (
  orNull "configContract" VString (xil_ConfigContract r) ++
  omitNone "enableAuto" VBool (xil_EnableAuto r) ++
  omitNone "enabled" VBool (xil_Enabled r) ++
  orNull "fields" (λ l, VList (toJSON <$> l)) (xil_Fields r) ++
  omitNone "id" VInt (xil_Id r) ++
  orNull "implementation" VString (xil_Implementation r) ++
  orNull "implementationName" VString (xil_ImplementationName r) ++
  orNull "infoLink" VString (xil_InfoLink r) ++
  omitNone "listOrder" VInt (xil_ListOrder r) ++
  omitNone "listType" VString (xil_ListType r) ++
  omitNone "message" toJSON (xil_Message r) ++
  omitNone "minRefreshInterval" VString (xil_MinRefreshInterval r) ++
  omitNone "minimumAvailability" VString (xil_MinimumAvailability r) ++
  omitNone "monitor" VString (xil_Monitor r) ++
  orNull "name" VString (xil_Name r) ++
  orNull "presets" VList (xil_Presets r) ++
  omitNone "qualityProfileId" VInt (xil_QualityProfileId r) ++
  orNull "rootFolderPath" VString (xil_RootFolderPath r) ++
  omitNone "searchOnAdd" VBool (xil_SearchOnAdd r) ++
  orNull "tags" (λ l, VList (VInt <$> l)) (xil_Tags r)).

Record RMediaManagement := mkRMediaManagement {
  xmm_AutoRenameFolders : option bool;
  xmm_AutoUnmonitorPreviouslyDownloadedMovies : option bool;
  xmm_ChmodFolder : option string;
  xmm_ChownGroup : option string;
  xmm_CopyUsingHardlinks : option bool;
  xmm_CreateEmptyMovieFolders : option bool;
  xmm_DeleteEmptyFolders : option bool;
  xmm_DownloadPropersAndRepacks : option string;
  xmm_EnableMediaInfo : option bool;
  xmm_ExtraFileExtensions : option string;
  xmm_FileDate : option string;
  xmm_Id : option Z;
  xmm_ImportExtraFiles : option bool;
  xmm_MinimumFreeSpaceWhenImporting : option Z;
  xmm_PathsDefaultStatic : option bool;
  xmm_RecycleBin : option string;
  xmm_RecycleBinCleanupDays : option Z;
  xmm_RescanAfterRefresh : option string;
  xmm_ScriptImportPath : option string;
  xmm_SetPermissionsLinux : option bool;
  xmm_SkipFreeSpaceCheckWhenImporting : option bool;
  xmm_UseScriptImport : option bool }.

#[export] Instance FromJSON_RMediaManagement : FromJSON RMediaManagement := asStruct (λ l,
  vAutoRenameFolders ← getPtr asBool "autoRenameFolders" l;
  vAutoUnmonitorPreviouslyDownloadedMovies ← getPtr asBool "autoUnmonitorPreviouslyDownloadedMovies" l;
  vChmodFolder ← getPtr asString "chmodFolder" l;
  vChownGroup ← getPtr asString "chownGroup" l;
  vCopyUsingHardlinks ← getPtr asBool "copyUsingHardlinks" l;
  vCreateEmptyMovieFolders ← getPtr asBool "createEmptyMovieFolders" l;
  vDeleteEmptyFolders ← getPtr asBool "deleteEmptyFolders" l;
  vDownloadPropersAndRepacks ← getPtr asString "downloadPropersAndRepacks" l;
  vEnableMediaInfo ← getPtr asBool "enableMediaInfo" l;
  vExtraFileExtensions ← getPtr asString "extraFileExtensions" l;
  vFileDate ← getPtr asString "fileDate" l;
  vId ← getPtr asInt32 "id" l;
  vImportExtraFiles ← getPtr asBool "importExtraFiles" l;
  vMinimumFreeSpaceWhenImporting ← getPtr asInt32 "minimumFreeSpaceWhenImporting" l;
  vPathsDefaultStatic ← getPtr asBool "pathsDefaultStatic" l;
  vRecycleBin ← getPtr asString "recycleBin" l;
  vRecycleBinCleanupDays ← getPtr asInt32 "recycleBinCleanupDays" l;
  vRescanAfterRefresh ← getPtr asString "rescanAfterRefresh" l;
  vScriptImportPath ← getPtr asString "scriptImportPath" l;
  vSetPermissionsLinux ← getPtr asBool "setPermissionsLinux" l;
  vSkipFreeSpaceCheckWhenImporting ← getPtr asBool "skipFreeSpaceCheckWhenImporting" l;
  vUseScriptImport ← getPtr asBool "useScriptImport" l;
  Some (mkRMediaManagement vAutoRenameFolders vAutoUnmonitorPreviouslyDownloadedMovies vChmodFolder vChownGroup vCopyUsingHardlinks vCreateEmptyMovieFolders vDeleteEmptyFolders vDownloadPropersAndRepacks vEnableMediaInfo vExtraFileExtensions vFileDate vId vImportExtraFiles vMinimumFreeSpaceWhenImporting vPathsDefaultStatic vRecycleBin vRecycleBinCleanupDays vRescanAfterRefresh vScriptImportPath vSetPermissionsLinux vSkipFreeSpaceCheckWhenImporting vUseScriptImport)).

#[export] Instance ToJSON_RMediaManagement : ToJSON RMediaManagement := λ r, VMap (
  omitNone "autoRenameFolders" VBool (xmm_AutoRenameFolders r) ++
  omitNone "autoUnmonitorPreviouslyDownloadedMovies" VBool (xmm_AutoUnmonitorPreviouslyDownloadedMovies r) ++
  orNull "chmodFolder" VString (xmm_ChmodFolder r) ++
  orNull "chownGroup" VString (xmm_ChownGroup r) ++
  omitNone "copyUsingHardlinks" VBool (xmm_CopyUsingHardlinks r) ++
  omitNone "createEmptyMovieFolders" VBool (xmm_CreateEmptyMovieFolders r) ++
  omitNone "deleteEmptyFolders" VBool (xmm_DeleteEmptyFolders r) ++
  omitNone "downloadPropersAndRepacks" VString (xmm_DownloadPropersAndRepacks r) ++
  omitNone "enableMediaInfo" VBool (xmm_EnableMediaInfo r) ++
  orNull "extraFileExtensions" VString (xmm_ExtraFileExtensions r) ++
  omitNone "fileDate" VString (xmm_FileDate r) ++
  omitNone "id" VInt (xmm_Id r) ++
  omitNone "importExtraFiles" VBool (xmm_ImportExtraFiles r) ++
  omitNone "minimumFreeSpaceWhenImporting" VInt (xmm_MinimumFreeSpaceWhenImporting r) ++
  omitNone "pathsDefaultStatic" VBool (xmm_PathsDefaultStatic r) ++
  orNull "recycleBin" VString (xmm_RecycleBin r) ++
  omitNone "recycleBinCleanupDays" VInt (xmm_RecycleBinCleanupDays r) ++
  omitNone "rescanAfterRefresh" VString (xmm_RescanAfterRefresh r) ++
  orNull "scriptImportPath" VString (xmm_ScriptImportPath r) ++
  omitNone "setPermissionsLinux" VBool (xmm_SetPermissionsLinux r) ++
  omitNone "skipFreeSpaceCheckWhenImporting" VBool (xmm_SkipFreeSpaceCheckWhenImporting r) ++
  omitNone "useScriptImport" VBool (xmm_UseScriptImport r)).

Record RHostConfig := mkRHostConfig {
  xhc_AnalyticsEnabled : option bool;
  xhc_ApiKey : option string;
  xhc_ApplicationUrl : option string;
  xhc_AuthenticationMethod : option string;
  xhc_AuthenticationRequired : option string;
  xhc_BackupFolder : option string;
  xhc_BackupInterval : option Z;
  xhc_BackupRetention : option Z;
  xhc_BindAddress : option string;
  xhc_Branch : option string;
  xhc_CertificateValidation : option string;
  xhc_ConsoleLogLevel : option string;
  xhc_EnableSsl : option bool;
  xhc_Id : option Z;
  xhc_InstanceName : option string;
  xhc_LaunchBrowser : option bool;
  xhc_LogLevel : option string;
  xhc_LogSizeLimit : option Z;
  xhc_Password : option string;
  xhc_PasswordConfirmation : option string;
  xhc_Port : option Z;
  xhc_ProxyBypassFilter : option string;
  xhc_ProxyBypassLocalAddresses : option bool;
  xhc_ProxyEnabled : option bool;
  xhc_ProxyHostname : option string;
  xhc_ProxyPassword : option string;
  xhc_ProxyPort : option Z;
  xhc_ProxyType : option string;
  xhc_ProxyUsername : option string;
  xhc_SslCertPassword : option string;
  xhc_SslCertPath : option string;
  xhc_SslPort : option Z;
  xhc_TrustCgnatIpAddresses : option bool;
  xhc_UpdateAutomatically : option bool;
  xhc_UpdateMechanism : option string;
  xhc_UpdateScriptPath : option string;
  xhc_UrlBase : option string;
  xhc_Username : option string }.

#[export] Instance FromJSON_RHostConfig : FromJSON RHostConfig := asStruct (λ l,
  vAnalyticsEnabled ← getPtr asBool "analyticsEnabled" l;
  vApiKey ← getPtr asString "apiKey" l;
  vApplicationUrl ← getPtr asString "applicationUrl" l;
  vAuthenticationMethod ← getPtr asString "authenticationMethod" l;
  vAuthenticationRequired ← getPtr asString "authenticationRequired" l;
  vBackupFolder ← getPtr asString "backupFolder" l;
  vBackupInterval ← getPtr asInt32 "backupInterval" l;
  vBackupRetention ← getPtr asInt32 "backupRetention" l;
  vBindAddress ← getPtr asString "bindAddress" l;
  vBranch ← getPtr asString "branch" l;
  vCertificateValidation ← getPtr asString "certificateValidation" l;
  vConsoleLogLevel ← getPtr asString "consoleLogLevel" l;
  vEnableSsl ← getPtr asBool "enableSsl" l;
  vId ← getPtr asInt32 "id" l;
  vInstanceName ← getPtr asString "instanceName" l;
  vLaunchBrowser ← getPtr asBool "launchBrowser" l;
  vLogLevel ← getPtr asString "logLevel" l;
  vLogSizeLimit ← getPtr asInt32 "logSizeLimit" l;
  vPassword ← getPtr asString "password" l;
  vPasswordConfirmation ← getPtr asString "passwordConfirmation" l;
  vPort ← getPtr asInt32 "port" l;
  vProxyBypassFilter ← getPtr asString "proxyBypassFilter" l;
  vProxyBypassLocalAddresses ← getPtr asBool "proxyBypassLocalAddresses" l;
  vProxyEnabled ← getPtr asBool "proxyEnabled" l;
  vProxyHostname ← getPtr asString "proxyHostname" l;
  vProxyPassword ← getPtr asString "proxyPassword" l;
  vProxyPort ← getPtr asInt32 "proxyPort" l;
  vProxyType ← getPtr asString "proxyType" l;
  vProxyUsername ← getPtr asString "proxyUsername" l;
  vSslCertPassword ← getPtr asString "sslCertPassword" l;
  vSslCertPath ← getPtr asString "sslCertPath" l;
  vSslPort ← getPtr asInt32 "sslPort" l;
  vTrustCgnatIpAddresses ← getPtr asBool "trustCgnatIpAddresses" l;
  vUpdateAutomatically ← getPtr asBool "updateAutomatically" l;
  vUpdateMechanism ← getPtr asString "updateMechanism" l;
  vUpdateScriptPath ← getPtr asString "updateScriptPath" l;
  vUrlBase ← getPtr asString "urlBase" l;
  vUsername ← getPtr asString "username" l;
  Some (mkRHostConfig vAnalyticsEnabled vApiKey vApplicationUrl vAuthenticationMethod vAuthenticationRequired vBackupFolder vBackupInterval vBackupRetention vBindAddress vBranch vCertificateValidation vConsoleLogLevel vEnableSsl vId vInstanceName vLaunchBrowser vLogLevel vLogSizeLimit vPassword vPasswordConfirmation vPort vProxyBypassFilter vProxyBypassLocalAddresses vProxyEnabled vProxyHostname vProxyPassword vProxyPort vProxyType vProxyUsername vSslCertPassword vSslCertPath vSslPort vTrustCgnatIpAddresses vUpdateAutomatically vUpdateMechanism vUpdateScriptPath vUrlBase vUsername)).

#[export] Instance ToJSON_RHostConfig : ToJSON RHostConfig := λ r, VMap (
  omitNone "analyticsEnabled" VBool (xhc_AnalyticsEnabled r) ++
  orNull "apiKey" VString (xhc_ApiKey r) ++
  orNull "applicationUrl" VString (xhc_ApplicationUrl r) ++
  omitNone "authenticationMethod" VString (xhc_AuthenticationMethod r) ++
  omitNone "authenticationRequired" VString (xhc_AuthenticationRequired r) ++
  orNull "backupFolder" VString (xhc_BackupFolder r) ++
  omitNone "backupInterval" VInt (xhc_BackupInterval r) ++
  omitNone "backupRetention" VInt (xhc_BackupRetention r) ++
  orNull "bindAddress" VString (xhc_BindAddress r) ++
  orNull "branch" VString (xhc_Branch r) ++
  omitNone "certificateValidation" VString (xhc_CertificateValidation r) ++
  orNull "consoleLogLevel" VString (xhc_ConsoleLogLevel r) ++
  omitNone "enableSsl" VBool (xhc_EnableSsl r) ++
  omitNone "id" VInt (xhc_Id r) ++
  orNull "instanceName" VString (xhc_InstanceName r) ++
  omitNone "launchBrowser" VBool (xhc_LaunchBrowser r) ++
  orNull "logLevel" VString (xhc_LogLevel r) ++
  omitNone "logSizeLimit" VInt (xhc_LogSizeLimit r) ++
  orNull "password" VString (xhc_Password r) ++
  orNull "passwordConfirmation" VString (xhc_PasswordConfirmation r) ++
  omitNone "port" VInt (xhc_Port r) ++
  orNull "proxyBypassFilter" VString (xhc_ProxyBypassFilter r) ++
  omitNone "proxyBypassLocalAddresses" VBool (xhc_ProxyBypassLocalAddresses r) ++
  omitNone "proxyEnabled" VBool (xhc_ProxyEnabled r) ++
  orNull "proxyHostname" VString (xhc_ProxyHostname r) ++
  orNull "proxyPassword" VString (xhc_ProxyPassword r) ++
  omitNone "proxyPort" VInt (xhc_ProxyPort r) ++
  omitNone "proxyType" VString (xhc_ProxyType r) ++
  orNull "proxyUsername" VString (xhc_ProxyUsername r) ++
  orNull "sslCertPassword" VString (xhc_SslCertPassword r) ++
  orNull "sslCertPath" VString (xhc_SslCertPath r) ++
  omitNone "sslPort" VInt (xhc_SslPort r) ++
  omitNone "trustCgnatIpAddresses" VBool (xhc_TrustCgnatIpAddresses r) ++
  omitNone "updateAutomatically" VBool (xhc_UpdateAutomatically r) ++
  omitNone "updateMechanism" VString (xhc_UpdateMechanism r) ++
  orNull "updateScriptPath" VString (xhc_UpdateScriptPath r) ++
  orNull "urlBase" VString (xhc_UrlBase r) ++
  orNull "username" VString (xhc_Username r)).

Record RHealth := mkRHealth {
  xh_Id : option Z;
  xh_Message : option string;
  xh_Source : option string;
  xh_Type : option string;
  xh_WikiUrl : option string }.

#[export] Instance FromJSON_RHealth : FromJSON RHealth := asStruct (λ l,
  vId ← getPtr asInt32 "id" l;
  vMessage ← getPtr asString "message" l;
  vSource ← getPtr asString "source" l;
  vType ← getPtr asString "type" l;
  vWikiUrl ← getPtr asString "wikiUrl" l;
  Some (mkRHealth vId vMessage vSource vType vWikiUrl)).

Record RSystem := mkRSystem {
  xs_AppData : option string;
  xs_AppName : option string;
  xs_Authentication : option string;
  xs_Branch : option string;
  xs_BuildTime : option Z;
  xs_DatabaseType : option string;
  xs_DatabaseVersion : option string;
  xs_InstanceName : option string;
  xs_IsAdmin : option bool;
  xs_IsDebug : option bool;
  xs_IsDocker : option bool;
  xs_IsLinux : option bool;
  xs_IsNetCore : option bool;
  xs_IsOsx : option bool;
  xs_IsProduction : option bool;
  xs_IsUserInteractive : option bool;
  xs_IsWindows : option bool;
  xs_MigrationVersion : option Z;
  xs_Mode : option string;
  xs_OsName : option string;
  xs_OsVersion : option string;
  xs_PackageAuthor : option string;
  xs_PackageUpdateMechanism : option string;
  xs_PackageUpdateMechanismMessage : option string;
  xs_PackageVersion : option string;
  xs_RuntimeName : option string;
  xs_RuntimeVersion : option string;
  xs_StartTime : option Z;
  xs_StartupPath : option string;
  xs_UrlBase : option string;
  xs_Version : option string }.

#[export] Instance FromJSON_RSystem `{TimeFormat} : FromJSON RSystem := asStruct (λ l,
  vAppData ← getPtr asString "appData" l;
  vAppName ← getPtr asString "appName" l;
  vAuthentication ← getPtr asString "authentication" l;
  vBranch ← getPtr asString "branch" l;
  vBuildTime ← getPtr parseTime "buildTime" l;
  vDatabaseType ← getPtr asString "databaseType" l;
  vDatabaseVersion ← getPtr asString "databaseVersion" l;
  vInstanceName ← getPtr asString "instanceName" l;
  vIsAdmin ← getPtr asBool "isAdmin" l;
  vIsDebug ← getPtr asBool "isDebug" l;
  vIsDocker ← getPtr asBool "isDocker" l;
  vIsLinux ← getPtr asBool "isLinux" l;
  vIsNetCore ← getPtr asBool "isNetCore" l;
  vIsOsx ← getPtr asBool "isOsx" l;
  vIsProduction ← getPtr asBool "isProduction" l;
  vIsUserInteractive ← getPtr asBool "isUserInteractive" l;
  vIsWindows ← getPtr asBool "isWindows" l;
  vMigrationVersion ← getPtr asInt32 "migrationVersion" l;
  vMode ← getPtr asString "mode" l;
  vOsName ← getPtr asString "osName" l;
  vOsVersion ← getPtr asString "osVersion" l;
  vPackageAuthor ← getPtr asString "packageAuthor" l;
  vPackageUpdateMechanism ← getPtr asString "packageUpdateMechanism" l;
  vPackageUpdateMechanismMessage ← getPtr asString "packageUpdateMechanismMessage" l;
  vPackageVersion ← getPtr asString "packageVersion" l;
  vRuntimeName ← getPtr asString "runtimeName" l;
  vRuntimeVersion ← getPtr asString "runtimeVersion" l;
  vStartTime ← getPtr parseTime "startTime" l;
  vStartupPath ← getPtr asString "startupPath" l;
  vUrlBase ← getPtr asString "urlBase" l;
  vVersion ← getPtr asString "version" l;
  Some (mkRSystem vAppData vAppName vAuthentication vBranch vBuildTime vDatabaseType vDatabaseVersion vInstanceName vIsAdmin vIsDebug vIsDocker vIsLinux vIsNetCore vIsOsx vIsProduction vIsUserInteractive vIsWindows vMigrationVersion vMode vOsName vOsVersion vPackageAuthor vPackageUpdateMechanism vPackageUpdateMechanismMessage vPackageVersion vRuntimeName vRuntimeVersion vStartTime vStartupPath vUrlBase vVersion)).
