(* ===== verification/RadarrClient.v ===== *)
(** * Radarr's generated client (radarr/client/client.gen.go)

    The methods of the generated client that the adapter uses.  Each builds a request
    by resolving the path of its operation against the server's URL, which always
    ends in a slash, and sends it with the API key; the status is left to the caller.
    [resolveReference] is [url.URL.Parse] of package net/url on such a path. *)
From S2P Require Export RadarrResources Http.

(** ** package net/url: resolving a reference *)

Fixpoint splitOn (sep : ascii) (current s : string) : list string :=
  match s with
  | EmptyString => [current]
  | String c s' => if Ascii.eqb c sep then current :: splitOn sep "" s' else splitOn sep (current +:+ String c "") s'
  end.

(** The loop of [resolvePath]: the text so far, which begins with a slash, and
    whether the next element is the first. *)
Definition resolveElem (st : string * bool) (elem : string) : string * bool :=
  let '(dst, first) := st in
  if String.eqb elem "." then (dst, false)
  else if String.eqb elem ".." then
    match CutLast "/" (stringDrop 1 dst) with
    | Some (before, _) => (("/" +:+ before)%string, first)
    | None => ("/"%string, true)
    end
  else ((dst +:+ (if first then "" else "/") +:+ elem)%string, false).

(** [resolvePath(base, ref)] for a reference that does not begin with a slash. *)
Definition resolvePath (base ref : string) : string :=
  let full := (match CutLast "/" base with Some (before, _) => before +:+ "/" | None => "" end +:+ ref)%string in
  let elems := splitOn "/" "" full in
  let '(dst, _) := foldl resolveElem ("/"%string, true) elems in
  let dst := match last elems with
             | Some e => if String.eqb e "." || String.eqb e ".." then (dst +:+ "/")%string else dst
             | None => dst
             end in
  if HasPrefix dst "//" then stringDrop 1 dst else dst.

(** The text of the reference [ref], resolved against the URL [server].  The
    authority and the path of the server are taken over as they are written. *)
Definition resolveReference (server ref : string) : option string :=
  _ ← urlParse server;
  '(sch, afterScheme) ← getScheme (beforeCut "#" server);
  let scheme := stringMap toLowerASCII sch in
  let rest := beforeCut "?" afterScheme in
  let hasAuthority := (negb (String.eqb scheme "") || negb (HasPrefix rest "///")) && HasPrefix rest "//" in
  let authority := if hasAuthority then beforeCut "/" (stringDrop 2 rest) else ""%string in
  let path := if hasAuthority then stringDrop (2 + String.length authority) rest
              else if negb (HasPrefix rest "/") && negb (String.eqb scheme "") then ""%string (* opaque *)
              else rest in
  Some ((if String.eqb scheme "" then (if String.eqb authority "" then "" else "//" +:+ authority)
         else scheme +:+ "://" +:+ authority) +:+ resolvePath path ref)%string.

Example resolveReference_plain : resolveReference "http://radarr.media:7878/" "./api/v3/tag" =
  Some "http://radarr.media:7878/api/v3/tag"%string.
Proof. vm_compute. reflexivity. Qed.
Example resolveReference_base : resolveReference "HTTPS://me:pw@host/a/../radarr/?x=1#y" "./api/v3/tag" =
  Some "https://me:pw@host/radarr/api/v3/tag"%string.
Proof. vm_compute. reflexivity. Qed.

(** ** The client *)

Definition HasSuffix (s p : string) : bool :=
  let n := (String.length s - String.length p)%nat in
  (String.length p <=? String.length s)%nat && String.eqb (stringDrop n s) p.

(** The server URL always has a trailing slash. *)
Definition NewClient (server apiKey : string) (insecure : bool) (timeout : Z) : Client :=
  mkClient (if HasSuffix server "/" then server else server +:+ "/")%string apiKey insecure timeout.

Section client.
Context {S : Type} `{Service S}.

(** The status, the text and the JSON of the body. *)
Abbreviation Answered := (Z * string * option any)%type.

(** An operation path that begins with a slash is made relative to the server. *)
Definition NewRequest (server operationPath : string) : option string :=
  resolveReference server (if HasPrefix operationPath "/" then "." +:+ operationPath else operationPath)%string.

Definition send (c : Client) (method operationPath : string) (body : option any) : M S Answered := λ s,
  match NewRequest (c_BaseURL c) operationPath with
  | None => (s, Err (requestError (c_BaseURL c)))
  | Some url =>
      match urlParse url with
      | None => (s, Err (requestError url))
      | Some _ =>
          match serve c (mkRequest method url (c_APIKey c) body) s with
          | (s', TransportError e) => (s', Err e)
          | (s', Answer status text document) => (s', Ret (status, text, document))
          end
      end
  end.

Definition DeleteApiV3CustomformatId (c : Client) (id : Z) : M S Answered := send c "DELETE" ("/api/v3/customformat/" +:+ Itoa id) None.
Definition DeleteApiV3DelayprofileId (c : Client) (id : Z) : M S Answered := send c "DELETE" ("/api/v3/delayprofile/" +:+ Itoa id) None.
Definition DeleteApiV3DownloadclientId (c : Client) (id : Z) : M S Answered := send c "DELETE" ("/api/v3/downloadclient/" +:+ Itoa id) None.
Definition DeleteApiV3ImportlistId (c : Client) (id : Z) : M S Answered := send c "DELETE" ("/api/v3/importlist/" +:+ Itoa id) None.
Definition DeleteApiV3IndexerId (c : Client) (id : Z) : M S Answered := send c "DELETE" ("/api/v3/indexer/" +:+ Itoa id) None.
Definition DeleteApiV3NotificationId (c : Client) (id : Z) : M S Answered := send c "DELETE" ("/api/v3/notification/" +:+ Itoa id) None.
Definition DeleteApiV3QualityprofileId (c : Client) (id : Z) : M S Answered := send c "DELETE" ("/api/v3/qualityprofile/" +:+ Itoa id) None.
Definition DeleteApiV3RemotepathmappingId (c : Client) (id : Z) : M S Answered := send c "DELETE" ("/api/v3/remotepathmapping/" +:+ Itoa id) None.
Definition GetApiV3ConfigHost (c : Client) : M S Answered := send c "GET" "/api/v3/config/host" None.
Definition GetApiV3ConfigMediamanagement (c : Client) : M S Answered := send c "GET" "/api/v3/config/mediamanagement" None.
Definition GetApiV3ConfigNaming (c : Client) : M S Answered := send c "GET" "/api/v3/config/naming" None.
Definition GetApiV3Customformat (c : Client) : M S Answered := send c "GET" "/api/v3/customformat" None.
Definition GetApiV3CustomformatSchema (c : Client) : M S Answered := send c "GET" "/api/v3/customformat/schema" None.
Definition GetApiV3Delayprofile (c : Client) : M S Answered := send c "GET" "/api/v3/delayprofile" None.
Definition GetApiV3Downloadclient (c : Client) : M S Answered := send c "GET" "/api/v3/downloadclient" None.
Definition GetApiV3DownloadclientSchema (c : Client) : M S Answered := send c "GET" "/api/v3/downloadclient/schema" None.
Definition GetApiV3Health (c : Client) : M S Answered := send c "GET" "/api/v3/health" None.
Definition GetApiV3Importlist (c : Client) : M S Answered := send c "GET" "/api/v3/importlist" None.
Definition GetApiV3ImportlistSchema (c : Client) : M S Answered := send c "GET" "/api/v3/importlist/schema" None.
Definition GetApiV3Indexer (c : Client) : M S Answered := send c "GET" "/api/v3/indexer" None.
Definition GetApiV3IndexerSchema (c : Client) : M S Answered := send c "GET" "/api/v3/indexer/schema" None.
Definition GetApiV3Notification (c : Client) : M S Answered := send c "GET" "/api/v3/notification" None.
Definition GetApiV3Qualityprofile (c : Client) : M S Answered := send c "GET" "/api/v3/qualityprofile" None.
Definition GetApiV3QualityprofileSchema (c : Client) : M S Answered := send c "GET" "/api/v3/qualityprofile/schema" None.
Definition GetApiV3Remotepathmapping (c : Client) : M S Answered := send c "GET" "/api/v3/remotepathmapping" None.
Definition GetApiV3Rootfolder (c : Client) : M S Answered := send c "GET" "/api/v3/rootfolder" None.
Definition GetApiV3SystemStatus (c : Client) : M S Answered := send c "GET" "/api/v3/system/status" None.
Definition GetApiV3Tag (c : Client) : M S Answered := send c "GET" "/api/v3/tag" None.
Definition PostApiV3CustomformatWithBody (c : Client) (body : any) : M S Answered := send c "POST" "/api/v3/customformat" (Some body).
Definition PostApiV3Delayprofile (c : Client) (body : any) : M S Answered := send c "POST" "/api/v3/delayprofile" (Some body).
Definition PostApiV3Downloadclient (c : Client) (body : any) : M S Answered := send c "POST" "/api/v3/downloadclient" (Some body).
Definition PostApiV3Importlist (c : Client) (body : any) : M S Answered := send c "POST" "/api/v3/importlist" (Some body).
Definition PostApiV3Indexer (c : Client) (body : any) : M S Answered := send c "POST" "/api/v3/indexer" (Some body).
Definition PostApiV3Notification (c : Client) (body : any) : M S Answered := send c "POST" "/api/v3/notification" (Some body).
Definition PostApiV3Qualityprofile (c : Client) (body : any) : M S Answered := send c "POST" "/api/v3/qualityprofile" (Some body).
Definition PostApiV3Remotepathmapping (c : Client) (body : any) : M S Answered := send c "POST" "/api/v3/remotepathmapping" (Some body).
Definition PostApiV3Rootfolder (c : Client) (body : any) : M S Answered := send c "POST" "/api/v3/rootfolder" (Some body).
Definition PostApiV3Tag (c : Client) (body : any) : M S Answered := send c "POST" "/api/v3/tag" (Some body).
Definition PutApiV3ConfigHostId (c : Client) (id : Z) (body : any) : M S Answered := send c "PUT" ("/api/v3/config/host/" +:+ Itoa id) (Some body).
Definition PutApiV3ConfigMediamanagementId (c : Client) (id : Z) (body : any) : M S Answered := send c "PUT" ("/api/v3/config/mediamanagement/" +:+ Itoa id) (Some body).
Definition PutApiV3ConfigNamingId (c : Client) (id : Z) (body : any) : M S Answered := send c "PUT" ("/api/v3/config/naming/" +:+ Itoa id) (Some body).
Definition PutApiV3CustomformatIdWithBody (c : Client) (id : Z) (body : any) : M S Answered := send c "PUT" ("/api/v3/customformat/" +:+ Itoa id) (Some body).
Definition PutApiV3DelayprofileId (c : Client) (id : Z) (body : any) : M S Answered := send c "PUT" ("/api/v3/delayprofile/" +:+ Itoa id) (Some body).
Definition PutApiV3DownloadclientId (c : Client) (id : Z) (body : any) : M S Answered := send c "PUT" ("/api/v3/downloadclient/" +:+ Itoa id) (Some body).
Definition PutApiV3ImportlistId (c : Client) (id : Z) (body : any) : M S Answered := send c "PUT" ("/api/v3/importlist/" +:+ Itoa id) (Some body).
Definition PutApiV3IndexerId (c : Client) (id : Z) (body : any) : M S Answered := send c "PUT" ("/api/v3/indexer/" +:+ Itoa id) (Some body).
Definition PutApiV3NotificationId (c : Client) (id : Z) (body : any) : M S Answered := send c "PUT" ("/api/v3/notification/" +:+ Itoa id) (Some body).
Definition PutApiV3QualityprofileId (c : Client) (id : Z) (body : any) : M S Answered := send c "PUT" ("/api/v3/qualityprofile/" +:+ Itoa id) (Some body).
Definition PutApiV3RemotepathmappingId (c : Client) (id : Z) (body : any) : M S Answered := send c "PUT" ("/api/v3/remotepathmapping/" +:+ Itoa id) (Some body).
End client.
