(* ===== verification/Radarr.v ===== *)
(** * The Radarr adapter: reading and diffing (src/internal/adapters/radarr)

    The adapter of Radarr over the generated client of [RadarrClient].  It keeps no
    state of its own.  Every custom format counts as managed; download clients and
    indexers are managed by their tag, but are updated and deleted by their name. *)
From S2P Require Export RadarrClient Shared.

(** ** adapter.go: pointers *)

Definition ptrToString (s : option string) : string := default ""%string s.
Definition ptrToInt (i : option Z) : Z := default 0 i.
Definition ptrToBool (b : option bool) : bool := default false b.
Definition intPtr (i : Z) : option Z := Some (int32 i).
Definition stringPtr (s : string) : option string := Some s.
Definition boolPtr (b : bool) : option bool := Some b.

(** ** tags.go *)

Definition hasTag (tags : option (list Z)) (tagID : Z) : bool :=
  match tags with Some l => existsb (λ t, t =? tagID) l | None => false end.

(** ** clients.go *)

Definition inferProtocol (impl : string) : string :=
  switch impl [
    (["QBittorrent"; "Transmission"; "Deluge"; "RTorrent"; "Vuze"; "UTorrent"; "Aria2"; "Flood"], ProtocolTorrent);
    (["Sabnzbd"; "NzbGet"; "NzbVortex"; "Pneumatic"; "UsenetBlackhole"], ProtocolUsenet)] "".

Definition downloadClientField (ir : DownloadClientIR) (f : RField) : DownloadClientIR :=
  switch (ptrToString (xf_Name f)) [
    (["host"], ifString dc_set_Host (xf_Value f) ir);
    (["port"], ifFloat (λ v, dc_set_Port (int_of_float64 v)) (xf_Value f) ir);
    (["useSsl"], ifBool dc_set_UseTLS (xf_Value f) ir);
    (["username"], ifString dc_set_Username (xf_Value f) ir);
    (["movieCategory"], ifString dc_set_Category (xf_Value f) ir);
    (["movieDirectory"], ifString dc_set_Directory (xf_Value f) ir)] ir.

Definition downloadClientToIR (dc : RDownloadClient) : DownloadClientIR :=
  foldl downloadClientField {|
    dc_ID := 0;
    dc_Name := ptrToString (xdc_Name dc);
    dc_Protocol := inferProtocol (ptrToString (xdc_Implementation dc));
    dc_Implementation := ptrToString (xdc_Implementation dc);
    dc_Enable := ptrToBool (xdc_Enable dc);
    dc_Priority := ptrToInt (xdc_Priority dc);
    dc_RemoveCompletedDownloads := ptrToBool (xdc_RemoveCompletedDownloads dc);
    dc_RemoveFailedDownloads := ptrToBool (xdc_RemoveFailedDownloads dc);
    dc_Host := ""; dc_Port := 0; dc_UseTLS := false; dc_Username := ""; dc_Password := "";
    dc_Category := ""; dc_Directory := "" |} (default [] (xdc_Fields dc)).

(** Updates and deletes carry no ID. *)
Definition clientOps : DiffOps DownloadClientIR := {|
  op_key := dc_Name;
  op_equal := DownloadClientsEqual;
  op_create name d := mkChange ResourceDownloadClient name None (PDownloadClientPtr d);
  op_update name _ d := mkChange ResourceDownloadClient name None (PDownloadClientPtr d);
  op_delete name _ := mkChange ResourceDownloadClient name None PNil |}.

Definition diffDownloadClients (o : RangeOrder) (current desired : IR) (changes : ChangeSet) : ChangeSet :=
  diffNamed clientOps o (ir_DownloadClients current) (ir_DownloadClients desired) changes.

(** ** indexers.go *)

Definition indexerField (ir : IndexerIR) (f : RField) : IndexerIR :=
  switch (ptrToString (xf_Name f)) [
    (["baseUrl"], ifString idx_set_URL (xf_Value f) ir);
    (["apiKey"], ifString idx_set_APIKey (xf_Value f) ir);
    (["categories"], appendCategories (xf_Value f) ir);
    (["minimumSeeders"], ifFloat (λ v, idx_set_MinimumSeeders (int_of_float64 v)) (xf_Value f) ir);
    (["seedCriteria.seedRatio"], ifFloat idx_set_SeedRatio (xf_Value f) ir);
    (["seedCriteria.seedTime"], ifFloat (λ v, idx_set_SeedTimeMinutes (int_of_float64 v)) (xf_Value f) ir)] ir.

Definition indexerToIR (idx : RIndexer) : IndexerIR :=
  let enableRss := ptrToBool (xix_EnableRss idx) in
  let enableAutoSearch := ptrToBool (xix_EnableAutomaticSearch idx) in
  let enableInteractive := ptrToBool (xix_EnableInteractiveSearch idx) in
  let impl := ptrToString (xix_Implementation idx) in
  foldl indexerField {|
    idx_ID := 0;
    idx_Name := ptrToString (xix_Name idx);
    idx_Protocol := switch impl [
      (["Torznab"; "TorrentRssIndexer"], ProtocolTorrent); (["Newznab"], ProtocolUsenet)] "";
    idx_Implementation := impl;
    idx_Enable := enableRss || enableAutoSearch || enableInteractive;
    idx_Priority := ptrToInt (xix_Priority idx);
    idx_URL := ""; idx_APIKey := ""; idx_Categories := []; idx_MinimumSeeders := 0;
    idx_SeedRatio := float64_zero; idx_SeedTimeMinutes := 0;
    idx_EnableRss := enableRss;
    idx_EnableAutomaticSearch := enableAutoSearch;
    idx_EnableInteractiveSearch := enableInteractive |} (default [] (xix_Fields idx)).

(** An indexer that exists is updated, whatever its settings. *)
Definition indexerOps : DiffOps IndexerIR := {|
  op_key := idx_Name;
  op_equal _ _ := false;
  op_create name d := mkChange ResourceIndexer name None (PIndexerPtr d);
  op_update name _ d := mkChange ResourceIndexer name None (PIndexerPtr d);
  op_delete name _ := mkChange ResourceIndexer name None PNil |}.

Definition diffIndexers (o : RangeOrder) (current desired : IR) (changes : ChangeSet) : ChangeSet :=
  diffNamed indexerOps o (from_option idxs_Direct [] (ir_Indexers current))
    (from_option idxs_Direct [] (ir_Indexers desired)) changes.

(** ** rootfolders.go *)

Definition rootFolderToIR (folder : RRootFolder) : RootFolderIR :=
  mkRootFolderIR (ptrToString (xrf_Path folder)) "" "".

Definition diffRootFolders (o : RangeOrder) (current desired : IR) (changes : ChangeSet) : ChangeSet :=
  let currentFolders := setOf (rf_Path <$> ir_RootFolders current) in
  let desiredFolders := indexBy (λ p : string, p) (rf_Path <$> ir_RootFolders desired) in
  foldl (λ changes (kv : string * string), let '(path, _) := kv in
    if path ∈? currentFolders then changes
    else appendCreate (mkChange ResourceRootFolder path None (PRootFolderPtr (mkRootFolderIR path "" ""))) changes)
    changes (rangeMap o 0 desiredFolders).

(** ** remotepathmappings.go *)

Definition remotePathMappingToIR (m : RMapping) : RemotePathMappingIR :=
  mkRemotePathMappingIR (ptrToInt (xrm_Id m)) (ptrToString (xrm_Host m)) (ptrToString (xrm_RemotePath m))
    (ptrToString (xrm_LocalPath m)).

(** The loops are those of [DiffRemotePathMappings]. *)
Definition diffRemotePathMappings (o : RangeOrder) (current desired : IR) (changes : ChangeSet) : ChangeSet :=
  diffNamed remotePathMappingOps o (ir_RemotePathMappings current) (ir_RemotePathMappings desired) changes.

(** ** naming.go *)

Definition colonReplacementToInt (format : string) : Z :=
  switch format [(["delete"], 0); (["dash"], 1); (["spaceDash"], 2); (["spaceDashSpace"], 2); (["smart"], 4)] 0.

Definition intToColonReplacement (format : Z) : string :=
  if format =? 0 then "delete" else if format =? 1 then "dash" else if format =? 2 then "spaceDash"
  else if format =? 4 then "smart" else "delete".

Definition namingToIR (naming : RNamingConfig) : RadarrNamingIR := {|
  rn_RenameMovies := ptrToBool (xnc_RenameMovies naming);
  rn_ReplaceIllegalCharacters := ptrToBool (xnc_ReplaceIllegalCharacters naming);
  rn_ColonReplacementFormat := from_option colonReplacementToInt 0 (xnc_ColonReplacementFormat naming);
  rn_StandardMovieFormat := ptrToString (xnc_StandardMovieFormat naming);
  rn_MovieFolderFormat := ptrToString (xnc_MovieFolderFormat naming) |}.

Definition namingEqual (a b : RadarrNamingIR) : bool :=
  Bool.eqb (rn_RenameMovies a) (rn_RenameMovies b) &&
  Bool.eqb (rn_ReplaceIllegalCharacters a) (rn_ReplaceIllegalCharacters b) &&
  (rn_ColonReplacementFormat a =? rn_ColonReplacementFormat b) &&
  String.eqb (rn_StandardMovieFormat a) (rn_StandardMovieFormat b) &&
  String.eqb (rn_MovieFolderFormat a) (rn_MovieFolderFormat b).

Definition diffNaming (current desired : IR) (changes : ChangeSet) : ChangeSet :=
  match ir_Naming desired ≫= nm_Radarr with
  | None => changes
  | Some desiredNaming =>
      let update := appendUpdate (mkChange ResourceNamingConfig "naming" None (PRadarrNaming desiredNaming)) in
      match ir_Naming current ≫= nm_Radarr with
      | Some currentNaming => if namingEqual currentNaming desiredNaming then changes else update changes
      | None => update changes
      end
  end.

(** ** quality.go *)

Definition qualityToResolution (q : RQuality) : string :=
  match xq_Resolution q with Some r => (Itoa r +:+ "p")%string | None => "" end.

Definition qualityToSource (q : RQuality) : string :=
  match xq_Source q with
  | None => ""
  | Some source => switch source [
      (["bluray"], "bluray"); (["webdl"], "webdl"); (["webrip"], "webrip"); (["tv"], "hdtv"); (["dvd"], "dvd");
      (["cam"], "cam"); (["telesync"], "telesync"); (["telecine"], "telecine"); (["workprint"], "workprint")] ""
  end.

(** The source of an item, unless it has no quality or no source of ours. *)
Definition sourceOf (item : RQualityItem) : option string :=
  match xqi_Quality item with
  | Some q => if String.eqb (qualityToSource q) "" then None else Some (qualityToSource q)
  | None => None
  end.

Definition qualityItemToTier (item : RQualityItem) : VideoQualityTierIR :=
  match xqi_Items item, xqi_Quality item with
  | Some (i :: l), _ =>
      mkVideoQualityTierIR (ptrToString (xqi_Name item)) (omap sourceOf (i :: l)) (ptrToBool (xqi_Allowed item))
  | _, Some q =>
      mkVideoQualityTierIR (qualityToResolution q) (option_list (sourceOf item)) (ptrToBool (xqi_Allowed item))
  | _, None => mkVideoQualityTierIR "" [] (ptrToBool (xqi_Allowed item))
  end.

Definition hasQuality (id : Z) (item : RQualityItem) : Prop := (xqi_Quality item ≫= xq_Id) = Some id.
#[export] Instance hasQuality_dec id item : Decision (hasQuality id item).
Proof. unfold hasQuality. apply _. Defined.

Fixpoint findCutoffTier (items : list RQualityItem) (cutoffID : Z) : option VideoQualityTierIR :=
  match items with
  | [] => None
  | item :: items' =>
      if decide (xqi_Id item = Some cutoffID) then Some (qualityItemToTier item)
      else match list_find (hasQuality cutoffID) (default [] (xqi_Items item)) with
           | Some (_, subItem) => Some (qualityItemToTier subItem)
           | None => if decide (hasQuality cutoffID item) then Some (qualityItemToTier item)
                     else findCutoffTier items' cutoffID
           end
  end.

Definition zeroTier : VideoQualityTierIR := mkVideoQualityTierIR "" [] false.

(** The loop over the scores of a profile. *)
Definition addScore (scores : gmap string Z) (fi : RFormatItem) : gmap string Z :=
  match xfi_Name fi, xfi_Score fi with
  | Some name, Some score => if String.eqb name "" then scores else <[name := score]> scores
  | _, _ => scores
  end.

Definition qualityProfileToIR (profile : RQualityProfile) : VideoQualityIR := {|
  vq_ProfileName := ptrToString (xqp_Name profile);
  vq_UpgradeAllowed := ptrToBool (xqp_UpgradeAllowed profile);
  vq_Cutoff := match xqp_Cutoff profile, xqp_Items profile with
               | Some cutoffID, Some items => default zeroTier (findCutoffTier items cutoffID)
               | _, _ => zeroTier
               end;
  vq_Tiers := qualityItemToTier <$> default [] (xqp_Items profile);
  vq_CustomFormats := [];
  vq_FormatScores := foldl addScore ∅ (default [] (xqp_FormatItems profile));
  vq_MinimumCustomFormatScore := ptrToInt (xqp_MinFormatScore profile);
  vq_UpgradeUntilCustomFormatScore := ptrToInt (xqp_CutoffFormatScore profile) |}.

(** Whether the name of a profile has the prefix of those the operator manages. *)
Definition isManagedProfile (name : string) : bool :=
  negb ((Z.of_nat (String.length name) <? 9) || negb (String.eqb (stringTake 9 name) "nebularr-")).

(** [fmt.Sprintf] with the verb [%.0f]: to the nearest integer, ties to even. *)
Definition formatFixed0 (f : float64) : string :=
  match f with
  | S754_zero s => if s : bool then "-0" else "0"
  | S754_infinity s => if s : bool then "-Inf" else "+Inf"
  | S754_nan => "NaN"
  | S754_finite s m e =>
      let den := magDen e in
      let fl := magNum m e / den in
      let r := 2 * (magNum m e mod den) in
      let n := if r <? den then fl else if den <? r then fl + 1 else if Z.even fl then fl else fl + 1 in
      ((if s : bool then "-" else "") +:+ Itoa n)%string
  end.

(** The last field of the name counts; a value of [null] is none. *)
Definition specValue (value : string) (field : RField) : string :=
  if decide (xf_Name field = Some "value"%string) then
    match xf_Value field with
    | VNil => value
    | VString v => v
    | VFloat v => formatFixed0 v
    | v => Sprintv v
    end
  else value.

Definition formatSpecToIR (spec : RSpecification) : FormatSpecIR := {|
  fs_Type := ptrToString (xcs_Implementation spec);
  fs_Name := ptrToString (xcs_Name spec);
  fs_Negate := ptrToBool (xcs_Negate spec);
  fs_Required := ptrToBool (xcs_Required spec);
  fs_Value := foldl specValue "" (default [] (xcs_Fields spec)) |}.

Definition customFormatToIR (format : RCustomFormat) : CustomFormatIR := {|
  cf_ID := 0;
  cf_Name := ptrToString (xcf_Name format);
  cf_IncludeWhenRenaming := ptrToBool (xcf_IncludeCustomFormatWhenRenaming format);
  cf_Specifications := formatSpecToIR <$> default [] (xcf_Specifications format) |}.

Definition diffQualityProfiles (current desired : IR) (changes : ChangeSet) : ChangeSet :=
  DiffQualityProfiles (ir_Quality current ≫= q_Video) (ir_Quality desired ≫= q_Video) None changes.

Definition formatsOf (i : IR) : list CustomFormatIR := from_option vq_CustomFormats [] (ir_Quality i ≫= q_Video).

Definition diffCustomFormats (o : RangeOrder) (current desired : IR) (changes : ChangeSet) : ChangeSet :=
  DiffCustomFormats o (formatsOf current) (formatsOf desired) changes.

(** ** notifications.go *)

Definition fieldsToMap (fields : list RField) : gmap string any :=
  foldl (λ m f,
    if negb (String.eqb (ptrToString (xf_Name f)) "") && negb (match xf_Value f with VNil => true | _ => false end)
    then <[ptrToString (xf_Name f) := xf_Value f]> m else m) ∅ fields.

Definition notificationToIR (n : RNotification) : NotificationIR := {|
  nt_ID := ptrToInt (xn_Id n);
  nt_Name := ptrToString (xn_Name n);
  nt_Implementation := ptrToString (xn_Implementation n);
  nt_ConfigContract := ptrToString (xn_ConfigContract n);
  nt_Enabled := true;
  nt_OnGrab := ptrToBool (xn_OnGrab n);
  nt_OnDownload := ptrToBool (xn_OnDownload n);
  nt_OnUpgrade := ptrToBool (xn_OnUpgrade n);
  nt_OnRename := ptrToBool (xn_OnRename n);
  nt_OnHealthIssue := ptrToBool (xn_OnHealthIssue n);
  nt_OnHealthRestored := ptrToBool (xn_OnHealthRestored n);
  nt_OnApplicationUpdate := ptrToBool (xn_OnApplicationUpdate n);
  nt_OnManualInteractionRequired := ptrToBool (xn_OnManualInteractionRequired n);
  nt_IncludeHealthWarnings := ptrToBool (xn_IncludeHealthWarnings n);
  nt_OnMovieAdded := ptrToBool (xn_OnMovieAdded n);
  nt_OnMovieDelete := ptrToBool (xn_OnMovieDelete n);
  nt_OnMovieFileDelete := ptrToBool (xn_OnMovieFileDelete n);
  nt_OnMovieFileDeleteForUpgrade := ptrToBool (xn_OnMovieFileDeleteForUpgrade n);
  nt_OnSeriesAdd := false;
  nt_OnSeriesDelete := false;
  nt_OnEpisodeFileDelete := false;
  nt_OnEpisodeFileDeleteForUpgrade := false;
  nt_OnReleaseImport := false;
  nt_OnArtistAdd := false;
  nt_OnArtistDelete := false;
  nt_OnAlbumDelete := false;
  nt_OnTrackRetag := false;
  nt_OnDownloadFailure := false;
  nt_OnImportFailure := false;
  nt_Fields := fieldsToMap (default [] (xn_Fields n));
  nt_Tags := default [] (xn_Tags n) |}.

Definition fieldsEqual (a b : gmap string any) : bool :=
  Nat.eqb (size a) (size b) &&
  forallb (λ kv : string * any,
    match b !! kv.1 with Some bv => String.eqb (Sprintv kv.2) (Sprintv bv) | None => false end)
    (map_to_list a).

Definition notificationsEqual (a b : NotificationIR) : bool :=
  String.eqb (nt_Implementation a) (nt_Implementation b) &&
  Bool.eqb (nt_OnGrab a) (nt_OnGrab b) && Bool.eqb (nt_OnDownload a) (nt_OnDownload b) &&
  Bool.eqb (nt_OnUpgrade a) (nt_OnUpgrade b) && Bool.eqb (nt_OnRename a) (nt_OnRename b) &&
  Bool.eqb (nt_OnHealthIssue a) (nt_OnHealthIssue b) &&
  Bool.eqb (nt_OnHealthRestored a) (nt_OnHealthRestored b) &&
  Bool.eqb (nt_OnApplicationUpdate a) (nt_OnApplicationUpdate b) &&
  Bool.eqb (nt_OnManualInteractionRequired a) (nt_OnManualInteractionRequired b) &&
  Bool.eqb (nt_IncludeHealthWarnings a) (nt_IncludeHealthWarnings b) &&
  Bool.eqb (nt_OnMovieAdded a) (nt_OnMovieAdded b) && Bool.eqb (nt_OnMovieDelete a) (nt_OnMovieDelete b) &&
  Bool.eqb (nt_OnMovieFileDelete a) (nt_OnMovieFileDelete b) &&
  Bool.eqb (nt_OnMovieFileDeleteForUpgrade a) (nt_OnMovieFileDeleteForUpgrade b) &&
  fieldsEqual (nt_Fields a) (nt_Fields b).

Definition nt_set_ID (id : Z) (n : NotificationIR) : NotificationIR :=
  let '(mkNotificationIR _ b c d e f g h i j k l m n o p q r s t u v w x y z a1 a2 a3 a4 a5) := n in
  mkNotificationIR id b c d e f g h i j k l m n o p q r s t u v w x y z a1 a2 a3 a4 a5.

Definition notificationOps : DiffOps NotificationIR := {|
  op_key := nt_Name;
  op_equal := notificationsEqual;
  op_create name d := mkChange ResourceNotification name None (PNotification d);
  op_update name c d :=
    mkChange ResourceNotification name (Some (nt_ID c)) (PNotification (nt_set_ID (nt_ID c) d));
  op_delete name c := mkChange ResourceNotification name (Some (nt_ID c)) PNil |}.

Definition diffNotifications (o : RangeOrder) (current desired : IR) (changes : ChangeSet) : ChangeSet :=
  diffNamed notificationOps o (ir_Notifications current) (ir_Notifications desired) changes.

(** ** delayprofiles.go *)

Definition delayProfileToIR (p : RDelayProfile) : DelayProfileIR := {|
  dp_ID := ptrToInt (xdp_Id p);
  dp_Name := "";
  dp_Order := ptrToInt (xdp_Order p);
  dp_PreferredProtocol := match xdp_PreferredProtocol p with
    | Some protocol => switch protocol [(["usenet"], ProtocolUsenet); (["torrent"], ProtocolTorrent)] ""
    | None => ""
    end;
  dp_UsenetDelay := ptrToInt (xdp_UsenetDelay p);
  dp_TorrentDelay := ptrToInt (xdp_TorrentDelay p);
  dp_EnableUsenet := ptrToBool (xdp_EnableUsenet p);
  dp_EnableTorrent := ptrToBool (xdp_EnableTorrent p);
  dp_BypassIfHighestQuality := ptrToBool (xdp_BypassIfHighestQuality p);
  dp_BypassIfAboveCustomFormatScore := ptrToBool (xdp_BypassIfAboveCustomFormatScore p);
  dp_MinimumCustomFormatScore := ptrToInt (xdp_MinimumCustomFormatScore p);
  dp_Tags := default [] (xdp_Tags p);
  dp_TagNames := [] |}.

(** The loops and the comparison are those of [DiffDelayProfiles]. *)
Definition diffDelayProfiles (current desired : IR) (changes : ChangeSet) : ChangeSet :=
  DiffDelayProfiles (ir_DelayProfiles current) (ir_DelayProfiles desired) changes.

(** ** importlists.go, mediamanagement.go, authentication.go *)

Definition importListSetting (m : gmap string string) (f : RField) : gmap string string :=
  match xf_Name f, xf_Value f with
  | None, _ | _, VNil => m
  | Some name, VString v => <[name := v]> m
  | Some name, v => <[name := Sprintv v]> m
  end.

Definition importListToIR (list : RImportList) : ImportListIR := {|
  il_Name := ptrToString (xil_Name list);
  il_Type := ptrToString (xil_Implementation list);
  il_Enabled := ptrToBool (xil_Enabled list);
  il_EnableAuto := ptrToBool (xil_EnableAuto list);
  il_SearchOnAdd := ptrToBool (xil_SearchOnAdd list);
  il_QualityProfileID := ptrToInt (xil_QualityProfileId list);
  il_QualityProfileName := "";
  il_RootFolderPath := ptrToString (xil_RootFolderPath list);
  il_Monitor := ptrToString (xil_Monitor list);
  il_MinimumAvailability := ptrToString (xil_MinimumAvailability list);
  il_SeriesType := "";
  il_SeasonFolder := false;
  il_ShouldMonitor := "";
  il_Settings := foldl importListSetting ∅ (default [] (xil_Fields list)) |}.

Definition mediaManagementConfigToIR (config : RMediaManagement) : MediaManagementIR := {|
  mm_RecycleBin := ptrToString (xmm_RecycleBin config);
  mm_RecycleBinCleanupDays := ptrToInt (xmm_RecycleBinCleanupDays config);
  mm_SetPermissions := ptrToBool (xmm_SetPermissionsLinux config);
  mm_ChmodFolder := ptrToString (xmm_ChmodFolder config);
  mm_ChownGroup := ptrToString (xmm_ChownGroup config);
  mm_DeleteEmptyFolders := ptrToBool (xmm_DeleteEmptyFolders config);
  mm_CreateEmptyFolders := ptrToBool (xmm_CreateEmptyMovieFolders config);
  mm_UseHardlinks := ptrToBool (xmm_CopyUsingHardlinks config);
  mm_WatchLibraryForChanges := None;
  mm_AllowFingerprinting := "" |}.

(** The values of the enumerations are the names the representation has. *)
Definition hostConfigToAuthIR (config : RHostConfig) : AuthenticationIR := {|
  auth_Method := match xhc_AuthenticationMethod config with
    | Some m => switch m [(["none"], "none"); (["forms"], "forms"); (["basic"], "basic"); (["external"], "external")] m
    | None => ""
    end;
  auth_Username := ptrToString (xhc_Username config);
  auth_Password := "";
  auth_AuthenticationRequired := match xhc_AuthenticationRequired config with
    | Some r => switch r [
        (["enabled"], "enabled"); (["disabledForLocalAddresses"], "disabledForLocalAddresses")] r
    | None => ""
    end |}.

Definition mapAuthMethod (method : string) : string :=
  switch method [
    (["none"], "none"); (["forms"], "forms"); (["basic"], "basic"); (["external"], "external")] "none".

Definition mapAuthRequired (required : string) : string :=
  switch required [
    (["enabled"], "enabled"); (["disabledForLocalAddresses"], "disabledForLocalAddresses")] "enabled".

(** ** adapter.go: reading *)

(** Creating the client cannot fail. *)
Definition newClient (conn : ConnectionIR) : Client :=
  NewClient (conn_URL conn) (conn_APIKey conn) (conn_InsecureSkipVerify conn) (30 * 10 ^ 9).

Section reading.
Context {S : Type} `{Service S} `{TimeFormat}.
Abbreviation MS := (M S).
Abbreviation Answered := (Z * string * option any)%type.

Definition statusError (text : string) (status : Z) : error := (text +:+ ": " +:+ Itoa status)%string.
Definition unexpected : string := "unexpected status code".

Definition expect (text : string) (accepted : list Z) (r : Answered) : MS (option any) :=
  let '(status, _, document) := r in
  if existsb (Z.eqb status) accepted then ret document else fail (statusError text status).

Definition getting (what : string) (r : MS Answered) : MS Answered :=
  wrapErr (λ e, "failed to get " +:+ what +:+ ": " +:+ e)%string r.
Definition decoding (A : Type) `{FromJSON A} (what : string) (document : option any) : MS A :=
  wrapErr (λ e, "failed to decode " +:+ what +:+ ": " +:+ e)%string (decode document).

(** A read: the request, a status of 200, the document. *)
Definition fetch (A : Type) `{FromJSON A} (what : string) (r : MS Answered) : MS A :=
  let* answer := getting what r in
  let* document := expect unexpected [200] answer in
  decoding A what document.

Definition Connect (conn : ConnectionIR) : MS ServiceInfo :=
  let c := newClient conn in
  let* resp := wrapErr (λ e, "failed to connect to Radarr: " +:+ e)%string (GetApiV3SystemStatus c) in
  let* document := expect unexpected [200] resp in
  let* status := decoding RSystem "system status" document in
  ret (mkServiceInfo (ptrToString (xs_Version status)) (default 0 (xs_StartTime status))).

(** The resources of a schema, none if anything fails. *)
Definition schemas (A : Type) `{FromJSON A} (r : MS Answered) : MS (list A) :=
  let* resp := attempt r in
  match resp with
  | inl (200, _, Some document) => ret (default [] (fromJSON document))
  | _ => ret []
  end.

(** [now] is [time.Now()]. *)
Definition Discover (now : Z) (conn : ConnectionIR) : MS Capabilities :=
  let c := newClient conn in
  let* specs := schemas RSpecification (GetApiV3CustomformatSchema c) in
  let* clients := schemas RDownloadClient (GetApiV3DownloadclientSchema c) in
  let* indexers := schemas RIndexer (GetApiV3IndexerSchema c) in
  ret {|
    caps_DiscoveredAt := now;
    caps_Resolutions := ["2160p"; "1080p"; "720p"; "480p"];
    caps_Sources := ["bluray"; "webdl"; "webrip"; "hdtv"; "dvd"; "cam"; "telesync"; "telecine"; "workprint"];
    caps_CustomFormatSpecs :=
      (λ s, mkCustomFormatSpec (ptrToString (xcs_Name s)) (ptrToString (xcs_Implementation s))) <$> specs;
    caps_AudioTiers := [];
    caps_DownloadClientTypes := distinctNames ((λ dc, ptrToString (xdc_Implementation dc)) <$> clients);
    caps_IndexerTypes := distinctNames ((λ i, ptrToString (xix_Implementation i)) <$> indexers) |}.

Definition getOwnershipTagID (c : Client) : MS Z :=
  let* tags := fetch (list RTag) "tags" (GetApiV3Tag c) in
  match list_find (λ tag, ptrToString (xt_Label tag) = OwnershipTagName) tags with
  | Some (_, tag) => ret (ptrToInt (xt_Id tag))
  | None => fail "ownership tag not found"
  end.

Definition ensureOwnershipTag (c : Client) : MS Z :=
  let* r := attempt (getOwnershipTagID c) in
  match r with
  | inl tagID => ret tagID
  | inr _ =>
      let* resp := wrapErr (λ e, "failed to create ownership tag: " +:+ e)%string
        (PostApiV3Tag c (toJSON (mkRTag None (stringPtr OwnershipTagName)))) in
      let* document := expect "unexpected status code creating tag" [201; 200] resp in
      let* tag := decoding RTag "created tag" document in
      ret (ptrToInt (xt_Id tag))
  end.

Definition getManagedQualityProfiles (c : Client) (tagID : Z) : MS (list VideoQualityIR) :=
  let* profiles := fetch (list RQualityProfile) "quality profiles" (GetApiV3Qualityprofile c) in
  ret (qualityProfileToIR <$> filter (λ p, isManagedProfile (ptrToString (xqp_Name p)) = true) profiles).

Definition getManagedCustomFormats (c : Client) : MS (list CustomFormatIR) :=
  let* formats := fetch (list RCustomFormat) "custom formats" (GetApiV3Customformat c) in
  ret (filter (λ ir, cf_Name ir ≠ ""%string) (customFormatToIR <$> formats)).

Definition getManagedDownloadClients (c : Client) (tagID : Z) : MS (list DownloadClientIR) :=
  let* clients := fetch (list RDownloadClient) "download clients" (GetApiV3Downloadclient c) in
  ret (downloadClientToIR <$> filter (λ dc, hasTag (xdc_Tags dc) tagID = true) clients).

Definition getManagedIndexers (c : Client) (tagID : Z) : MS (list IndexerIR) :=
  let* indexers := fetch (list RIndexer) "indexers" (GetApiV3Indexer c) in
  ret (indexerToIR <$> filter (λ idx, hasTag (xix_Tags idx) tagID = true) indexers).

Definition getRootFolders (c : Client) : MS (list RootFolderIR) :=
  let* folders := fetch (list RRootFolder) "root folders" (GetApiV3Rootfolder c) in
  ret (rootFolderToIR <$> folders).

Definition getRemotePathMappings (c : Client) : MS (list RemotePathMappingIR) :=
  let* mappings := fetch (list RMapping) "remote path mappings" (GetApiV3Remotepathmapping c) in
  ret (remotePathMappingToIR <$> mappings).

Definition getNamingConfig (c : Client) : MS RadarrNamingIR :=
  let* naming := fetch RNamingConfig "naming config" (GetApiV3ConfigNaming c) in
  ret (namingToIR naming).

Definition getImportLists (c : Client) : MS (list RImportList) :=
  fetch (list RImportList) "import lists" (GetApiV3Importlist c).

Definition getManagedImportLists (c : Client) (tagID : Z) : MS (list ImportListIR) :=
  let* lists := getImportLists c in
  ret (importListToIR <$> filter (λ l, hasTag (xil_Tags l) tagID = true) lists).

Definition getMediaManagementConfig (c : Client) : MS RMediaManagement :=
  fetch RMediaManagement "media management config" (GetApiV3ConfigMediamanagement c).
Definition getMediaManagementIR (c : Client) : MS MediaManagementIR :=
  let* config := getMediaManagementConfig c in ret (mediaManagementConfigToIR config).

Definition getHostConfig (c : Client) : MS RHostConfig :=
  fetch RHostConfig "host config" (GetApiV3ConfigHost c).
Definition getAuthenticationIR (c : Client) : MS AuthenticationIR :=
  let* config := getHostConfig c in ret (hostConfigToAuthIR config).

Definition getManagedNotifications (c : Client) (tagID : Z) : MS (list NotificationIR) :=
  let* notifications := fetch (list RNotification) "notifications" (GetApiV3Notification c) in
  ret (notificationToIR <$> filter (λ n, hasTag (xn_Tags n) tagID = true) notifications).

Definition getManagedDelayProfiles (c : Client) : MS (list DelayProfileIR) :=
  let* profiles := fetch (list RDelayProfile) "delay profiles" (GetApiV3Delayprofile c) in
  ret (delayProfileToIR <$> profiles).

(** [if x, err := m; err == nil { use(x) }]: an error leaves the zero value. *)
Definition orZero {A B} (zero : B) (use : A → B) (m : MS A) : MS B :=
  let* r := attempt m in ret (match r with inl x => use x | inr _ => zero end).

Definition currentIR (now : Z) (conn : ConnectionIR) quality clients indexers folders mappings naming
    importLists mediaManagement auth notifications delayProfiles : IR := {|
  ir_Version := IRVersion;
  ir_GeneratedAt := now;
  ir_SourceHash := "";
  ir_App := AppRadarr;
  ir_Connection := Some conn;
  ir_Quality := quality;
  ir_DownloadClients := clients;
  ir_RemotePathMappings := mappings;
  ir_Indexers := indexers;
  ir_Naming := naming;
  ir_RootFolders := folders;
  ir_ImportLists := importLists;
  ir_Notifications := notifications;
  ir_CustomFormats := [];
  ir_DelayProfiles := delayProfiles;
  ir_ReleaseProfiles := [];
  ir_MetadataProfiles := [];
  ir_MediaManagement := mediaManagement;
  ir_Authentication := auth;
  ir_Prowlarr := None;
  ir_Unrealized := [] |}.

Definition zeroVideo : VideoQualityIR := mkVideoQualityIR "" false zeroTier [] [] ∅ 0 0.

(** The custom formats are held by the profile, an empty one if there is none. *)
Definition withFormats (profile : option VideoQualityIR) (formats : list CustomFormatIR) : option QualityIR :=
  match formats with
  | [] => (λ p, mkQualityIR (Some p) None None) <$> profile
  | _ =>
      let '(mkVideoQualityIR a b c d _ f g h) := default zeroVideo profile in
      Some (mkQualityIR (Some (mkVideoQualityIR a b c d formats f g h)) None None)
  end.

Definition CurrentState (now : Z) (conn : ConnectionIR) : MS IR :=
  let c := newClient conn in
  let* tag := attempt (getOwnershipTagID c) in
  match tag with
  | inr _ => ret (currentIR now conn None [] None [] [] None [] None None [] [])
  | inl tagID =>
      let* profile := orZero None head (getManagedQualityProfiles c tagID) in
      let* formats := orZero [] id (getManagedCustomFormats c) in
      let* clients := orZero [] id (getManagedDownloadClients c tagID) in
      let* indexers := orZero None (λ l, match l with
                         | [] => None
                         | _ => Some (mkIndexersIR None l)
                         end) (getManagedIndexers c tagID) in
      let* folders := orZero [] id (getRootFolders c) in
      let* mappings := orZero [] id (getRemotePathMappings c) in
      let* naming := orZero None (λ n, Some (mkNamingIR (Some n) None None)) (getNamingConfig c) in
      let* importLists := orZero [] id (getManagedImportLists c tagID) in
      let* mediaManagement := orZero None Some (getMediaManagementIR c) in
      let* auth := orZero None Some (getAuthenticationIR c) in
      let* notifications := orZero [] id (getManagedNotifications c tagID) in
      let* delayProfiles := orZero [] id (getManagedDelayProfiles c) in
      ret (currentIR now conn (withFormats profile formats) clients indexers folders mappings naming importLists
             mediaManagement auth notifications delayProfiles)
  end.

Definition healthIssueType (check : RHealth) : HealthIssueType :=
  match xh_Type check with
  | Some t => switch t [(["error"], HealthIssueTypeError); (["warning"], HealthIssueTypeWarning)] HealthIssueTypeNotice
  | None => HealthIssueTypeNotice
  end.

(** The loop over the checks: [Healthy] is cleared by an error. *)
Definition addHealthCheck (status : HealthStatus) (check : RHealth) : HealthStatus := {|
  hs_Healthy := if decide (xh_Type check = Some "error"%string) then false else hs_Healthy status;
  hs_Issues := hs_Issues status ++
    [mkHealthIssue (ptrToString (xh_Source check)) (healthIssueType check) (ptrToString (xh_Message check))
       (ptrToString (xh_WikiUrl check))] |}.

Definition RadarrGetHealth (conn : ConnectionIR) : MS HealthStatus :=
  let* healthChecks := fetch (list RHealth) "health" (GetApiV3Health (newClient conn)) in
  ret (foldl addHealthCheck (mkHealthStatus true []) healthChecks).

(** ** adapter.go: [Diff]

    [o i] is the iteration order of the [i]th step; every step returns a nil error. *)
Definition diffIR (o : nat → RangeOrder) (current desired : IR) : ChangeSet :=
  let changes := emptyChangeSet in
  let changes := diffQualityProfiles current desired changes in
  let changes := diffCustomFormats (o 1%nat) current desired changes in
  let changes := diffDownloadClients (o 2%nat) current desired changes in
  let changes := diffIndexers (o 3%nat) current desired changes in
  let changes := diffRootFolders (o 4%nat) current desired changes in
  let changes := diffRemotePathMappings (o 5%nat) current desired changes in
  let changes := diffNaming current desired changes in
  let changes := diffNotifications (o 7%nat) current desired changes in
  diffDelayProfiles current desired changes.

Definition Diff (o : nat → RangeOrder) (current desired : IR) (caps : option Capabilities) : MS ChangeSet := λ s,
  (s, Ret (diffIR o current desired)).
End reading.
