(* ===== verification/RadarrApply.v ===== *)
(** * The Radarr adapter: applying changes (src/internal/adapters/radarr)

    The conversion of the intermediate representation to the structs of the generated
    client, the requests that create, update and delete, and the entry points [Apply]
    and [ApplyDirect].  A number becomes an [int32], which wraps.  A failed type
    assertion on a change's payload, or the dereference of an absent ID, is a panic. *)
From S2P Require Export Radarr.

(** ** apply.go: quality profiles *)

Definition parseResolution (res : string) : Z :=
  switch res [(["2160p"], 2160); (["1080p"], 1080); (["720p"], 720); (["480p"], 480); (["360p"], 360)] 0.

Definition buildQualityName (resolution : Z) (source : string) : string :=
  let named (prefix : string) := (prefix +:+ "-" +:+ Itoa resolution +:+ "p")%string in
  switch source [
    (["bluray"], named "Bluray"); (["remux"], named "Remux"); (["webdl"], named "WEBDL");
    (["webrip"], named "WEBRip"); (["hdtv"], named "HDTV"); (["dvd"], "DVD")] "".

(** A name that is not in the table has the ID 0. *)
Definition qualityNameToID (name : string) : Z :=
  switch name [
    (["Unknown"], 0); (["SDTV"], 1); (["DVD"], 2); (["WEBDL-1080p"], 3); (["HDTV-720p"], 4);
    (["WEBDL-720p"], 5); (["Bluray-720p"], 6); (["Bluray-1080p"], 7); (["WEBDL-480p"], 8);
    (["HDTV-1080p"], 9); (["Raw-HD"], 10); (["WEBRip-480p"], 12); (["WEBRip-720p"], 14);
    (["WEBRip-1080p"], 15); (["HDTV-2160p"], 16); (["WEBRip-2160p"], 17); (["WEBDL-2160p"], 18);
    (["Bluray-2160p"], 19); (["Bluray-480p"], 20); (["Bluray-576p"], 21); (["BR-DISK"], 22); (["DVD-R"], 23);
    (["WORKPRINT"], 24); (["CAM"], 25); (["TELESYNC"], 26); (["TELECINE"], 27); (["DVDSCR"], 28);
    (["REGIONAL"], 29); (["Remux-1080p"], 30); (["Remux-2160p"], 31)] 0.

(** The IDs of one tier, of the sources that have one. *)
Definition tierQualities (tier : VideoQualityTierIR) : list Z :=
  if vt_Allowed tier then
    filter (λ id, 0 < id) ((λ source, qualityNameToID (buildQualityName (parseResolution (vt_Resolution tier)) source))
      <$> vt_Sources tier)
  else [].

Definition buildAllowedQualitySet (tiers : list VideoQualityTierIR) : gset Z :=
  setOf (tiers ≫= tierQualities).

(** The first source of the cutoff decides. *)
Definition findCutoffQualityID (cutoff : VideoQualityTierIR) : Z :=
  match vt_Sources cutoff with
  | [] => 0
  | source :: _ => qualityNameToID (buildQualityName (parseResolution (vt_Resolution cutoff)) source)
  end.

(** A quality is allowed if it is in the set; a group also if one of its items is. *)
Fixpoint markItem (allowed : gset Z) (item : RQualityItem) : RQualityItem :=
  let '(mkRQualityItem itemAllowed id items name quality) := item in
  let itemAllowed := match quality ≫= xq_Id with
                     | Some qualityID => boolPtr (qualityID ∈? allowed)
                     | None => itemAllowed
                     end in
  match items with
  | Some (i :: l) =>
      let nested := map (markItem allowed) (i :: l) in
      mkRQualityItem
        (if existsb (λ n, ptrToBool (xqi_Allowed n)) nested then boolPtr true else itemAllowed)
        id (Some nested) name quality
  | _ => mkRQualityItem itemAllowed id items name quality
  end.
Definition markAllowedQualities (items : list RQualityItem) (allowed : gset Z) : list RQualityItem :=
  markItem allowed <$> items.

Definition originalLanguage : RLanguage := mkRLanguage (Some (-2)) (Some "Original"%string).

(** The schema with the settings of the profile; [formatItems] are those of its
    scores, if it has any. *)
Definition profileOf (ir : VideoQualityIR) (schema : RQualityProfile) (formatItems : option (list RFormatItem))
    : RQualityProfile :=
  let cutoffID := findCutoffQualityID (vq_Cutoff ir) in {|
  xqp_Cutoff := if 0 <? cutoffID then intPtr cutoffID else xqp_Cutoff schema;
  xqp_CutoffFormatScore :=
    if 0 <? vq_UpgradeUntilCustomFormatScore ir then intPtr (vq_UpgradeUntilCustomFormatScore ir)
    else xqp_CutoffFormatScore schema;
  xqp_FormatItems := match formatItems with Some l => Some l | None => xqp_FormatItems schema end;
  xqp_Id := xqp_Id schema;
  xqp_Items := (λ items, markAllowedQualities items (buildAllowedQualitySet (vq_Tiers ir))) <$> xqp_Items schema;
  xqp_Language := Some originalLanguage;
  xqp_MinFormatScore := intPtr (vq_MinimumCustomFormatScore ir);
  xqp_MinUpgradeFormatScore := xqp_MinUpgradeFormatScore schema;
  xqp_Name := stringPtr (vq_ProfileName ir);
  xqp_UpgradeAllowed := boolPtr (vq_UpgradeAllowed ir) |}.

Definition xqp_set_Id (id : option Z) (c : RQualityProfile) : RQualityProfile :=
  let '(mkRQualityProfile v0 v1 v2 _ v4 v5 v6 v7 v8 v9) := c in
  mkRQualityProfile v0 v1 v2 id v4 v5 v6 v7 v8 v9.

(** The IDs of the formats that have a name and an ID; the last of a name counts. *)
Definition formatIDByName (formats : list RCustomFormat) : gmap string Z :=
  foldl (λ m f, match xcf_Name f, xcf_Id f with Some name, Some id => <[name := id]> m | _, _ => m end) ∅ formats.

(** A score of a format that the service does not have is left out. *)
Definition formatItemsOf (o : RangeOrder) (formatScores : gmap string Z) (formats : list RCustomFormat)
    : list RFormatItem :=
  omap (λ kv : string * Z, let '(name, score) := kv in
    (λ formatID, mkRFormatItem (Some formatID) None (stringPtr name) (Some (int32 score)))
      <$> formatIDByName formats !! name) (rangeMap o 0 formatScores).

(** ** apply.go: custom formats

    They are sent by structs of the adapter's own. *)
Record minimalField := mkMinimalField { mf_Name : string; mf_Value : any }.
Record minimalSpec := mkMinimalSpec {
  ms_Name : string;
  ms_Implementation : string;
  ms_Negate : bool;
  ms_Required : bool;
  ms_Fields : list minimalField }.
Record minimalCustomFormat := mkMinimalCustomFormat {
  mcf_ID : option Z;
  mcf_Name : string;
  mcf_IncludeCustomFormatWhenRenaming : bool;
  mcf_Specifications : list minimalSpec }.

#[export] Instance ToJSON_minimalField : ToJSON minimalField := λ r,
  VMap [("name", VString (mf_Name r)); ("value", toWire (mf_Value r))].
#[export] Instance ToJSON_minimalSpec : ToJSON minimalSpec := λ r, VMap [
  ("name", VString (ms_Name r));
  ("implementation", VString (ms_Implementation r));
  ("negate", VBool (ms_Negate r));
  ("required", VBool (ms_Required r));
  ("fields", VList (toJSON <$> ms_Fields r))].
#[export] Instance ToJSON_minimalCustomFormat : ToJSON minimalCustomFormat := λ r, VMap (
  omitNone "id" VInt (mcf_ID r) ++ [
  ("name", VString (mcf_Name r));
  ("includeCustomFormatWhenRenaming", VBool (mcf_IncludeCustomFormatWhenRenaming r));
  ("specifications", VList (toJSON <$> mcf_Specifications r))]).

Definition sourceToInt (source : string) : Z :=
  switch source [(["cam"], 1); (["telesync"], 2); (["telecine"], 3); (["workprint"], 4); (["dvd"], 5);
    (["tv"], 6); (["webdl"], 7); (["webrip"], 8); (["bluray"], 9)] 0.

Definition resolutionToInt (res : string) : Z :=
  switch res [(["r360p"], 360); (["r480p"], 480); (["r576p"], 576); (["r720p"], 720); (["r1080p"], 1080);
    (["r2160p"], 2160)] 0.

Definition buildMinimalFields (spec : FormatSpecIR) : list minimalField :=
  [mkMinimalField "value" (switch (fs_Type spec) [
    (["ReleaseTitleSpecification"], VString (fs_Value spec));
    (["SourceSpecification"], VInt (sourceToInt (fs_Value spec)));
    (["ResolutionSpecification"], VInt (resolutionToInt (fs_Value spec)))] (VString (fs_Value spec)))].

Definition buildMinimalCustomFormat (id : option Z) (ir : CustomFormatIR) : minimalCustomFormat :=
  mkMinimalCustomFormat id (cf_Name ir) (cf_IncludeWhenRenaming ir)
    ((λ spec, mkMinimalSpec (fs_Name spec) (fs_Type spec) (fs_Negate spec) (fs_Required spec) (buildMinimalFields spec))
       <$> cf_Specifications ir).

(** ** apply.go: download clients *)

Definition newField (name : string) (value : any) : RField := {|
  xf_Advanced := None;
  xf_HelpLink := None;
  xf_HelpText := None;
  xf_HelpTextWarning := None;
  xf_Hidden := None;
  xf_IsFloat := None;
  xf_Label := None;
  xf_Name := stringPtr name;
  xf_Order := None;
  xf_Placeholder := None;
  xf_Privacy := None;
  xf_Section := None;
  xf_SelectOptions := None;
  xf_SelectOptionsProviderAction := None;
  xf_Type := None;
  xf_Unit := None;
  xf_Value := value |}.

Definition normalizeImplementation (impl : string) : string :=
  switch impl [
    (["qbittorrent"], "QBittorrent"); (["transmission"], "Transmission"); (["deluge"], "Deluge");
    (["rtorrent"], "RTorrent"); (["sabnzbd"], "Sabnzbd"); (["nzbget"], "NzbGet")] impl.

Definition protocolOf (protocol : string) : option string :=
  switch protocol [([ProtocolTorrent], Some "torrent"%string); ([ProtocolUsenet], Some "usenet"%string)] None.

Definition fieldIf (present : bool) (name : string) (value : any) : list RField :=
  if present then [newField name value] else [].

(** The cases are those of the lower-case constants of the representation. *)
Definition buildDownloadClientFields (ir : DownloadClientIR) : list RField :=
  let directory := fieldIf (negb (String.eqb (dc_Directory ir) "")) "movieDirectory" (VString (dc_Directory ir)) in
  [newField "host" (VString (dc_Host ir));
   newField "port" (VInt (dc_Port ir));
   newField "useSsl" (VBool (dc_UseTLS ir))] ++
  fieldIf (negb (String.eqb (dc_Username ir) "")) "username" (VString (dc_Username ir)) ++
  fieldIf (negb (String.eqb (dc_Password ir) "")) "password" (VString (dc_Password ir)) ++
  switch (dc_Implementation ir) [
    (["transmission"],
      [newField "urlBase" (VString "/transmission/"); newField "movieCategory" (VString (dc_Category ir));
       newField "addPaused" (VBool false)] ++ directory);
    (["qbittorrent"],
      [newField "movieCategory" (VString (dc_Category ir)); newField "initialState" (VInt 0)] ++ directory);
    (["deluge"],
      [newField "movieCategory" (VString (dc_Category ir)); newField "addPaused" (VBool false)] ++ directory);
    (["sabnzbd"; "nzbget"], [newField "movieCategory" (VString (dc_Category ir))])] [].

Definition irToDownloadClient (ir : DownloadClientIR) (tagID : Z) : RDownloadClient := {|
  xdc_ConfigContract := stringPtr (normalizeImplementation (dc_Implementation ir) +:+ "Settings");
  xdc_Enable := boolPtr (dc_Enable ir);
  xdc_Fields := Some (buildDownloadClientFields ir);
  xdc_Id := None;
  xdc_Implementation := stringPtr (normalizeImplementation (dc_Implementation ir));
  xdc_ImplementationName := None;
  xdc_InfoLink := None;
  xdc_Message := None;
  xdc_Name := stringPtr (dc_Name ir);
  xdc_Presets := None;
  xdc_Priority := intPtr (dc_Priority ir);
  xdc_Protocol := protocolOf (dc_Protocol ir);
  xdc_RemoveCompletedDownloads := boolPtr (dc_RemoveCompletedDownloads ir);
  xdc_RemoveFailedDownloads := boolPtr (dc_RemoveFailedDownloads ir);
  xdc_Tags := Some [int32 tagID] |}.

Definition xdc_set_Id (id : option Z) (c : RDownloadClient) : RDownloadClient :=
  let '(mkRDownloadClient v0 v1 v2 _ v4 v5 v6 v7 v8 v9 v10 v11 v12 v13 v14) := c in
  mkRDownloadClient v0 v1 v2 id v4 v5 v6 v7 v8 v9 v10 v11 v12 v13 v14.

(** ** apply.go: indexers *)

Definition buildIndexerFields (ir : IndexerIR) : list RField :=
  [newField "baseUrl" (VString (idx_URL ir)); newField "apiPath" (VString "/api")] ++
  fieldIf (negb (String.eqb (idx_APIKey ir) "")) "apiKey" (VString (idx_APIKey ir)) ++
  fieldIf (match idx_Categories ir with [] => false | _ => true end) "categories" (VInts (idx_Categories ir)) ++
  (if String.eqb (idx_Protocol ir) ProtocolTorrent then
     fieldIf (0 <? idx_MinimumSeeders ir) "minimumSeeders" (VInt (idx_MinimumSeeders ir)) ++
     fieldIf (SFltb float64_zero (idx_SeedRatio ir)) "seedCriteria.seedRatio" (VFloat (idx_SeedRatio ir)) ++
     fieldIf (0 <? idx_SeedTimeMinutes ir) "seedCriteria.seedTime" (VInt (idx_SeedTimeMinutes ir))
   else []).

Definition indexerImplementation (ir : IndexerIR) : string :=
  if String.eqb (idx_Implementation ir) "" then
    (if String.eqb (idx_Protocol ir) ProtocolTorrent then "Torznab" else "Newznab")
  else idx_Implementation ir.

Definition irToIndexer (ir : IndexerIR) (tagID : Z) : RIndexer := {|
  xix_ConfigContract := stringPtr (indexerImplementation ir +:+ "Settings");
  xix_DownloadClientId := None;
  xix_EnableAutomaticSearch := boolPtr (idx_Enable ir && idx_EnableAutomaticSearch ir);
  xix_EnableInteractiveSearch := boolPtr (idx_Enable ir && idx_EnableInteractiveSearch ir);
  xix_EnableRss := boolPtr (idx_Enable ir && idx_EnableRss ir);
  xix_Fields := Some (buildIndexerFields ir);
  xix_Id := None;
  xix_Implementation := stringPtr (indexerImplementation ir);
  xix_ImplementationName := None;
  xix_InfoLink := None;
  xix_Message := None;
  xix_Name := stringPtr (idx_Name ir);
  xix_Presets := None;
  xix_Priority := intPtr (idx_Priority ir);
  xix_Protocol := protocolOf (idx_Protocol ir);
  xix_SupportsRss := None;
  xix_SupportsSearch := None;
  xix_Tags := Some [int32 tagID] |}.

Definition xix_set_Id (id : option Z) (c : RIndexer) : RIndexer :=
  let '(mkRIndexer v0 v1 v2 v3 v4 v5 _ v7 v8 v9 v10 v11 v12 v13 v14 v15 v16 v17) := c in
  mkRIndexer v0 v1 v2 v3 v4 v5 id v7 v8 v9 v10 v11 v12 v13 v14 v15 v16 v17.

(** ** remotepathmappings.go, notifications.go, delayprofiles.go, importlists.go *)

(** An ID that is not positive is not sent. *)
Definition idIf (id : Z) : option Z := if 0 <? id then intPtr id else None.

Definition irToRemotePathMapping (ir : RemotePathMappingIR) : RMapping := {|
  xrm_Host := Some (rpm_Host ir);
  xrm_Id := idIf (rpm_ID ir);
  xrm_LocalPath := Some (rpm_LocalPath ir);
  xrm_RemotePath := Some (rpm_RemotePath ir) |}.

(** The fields follow the iteration order [o] of the map. *)
Definition irToNotification (o : RangeOrder) (ir : NotificationIR) (tagID : Z) : RNotification := {|
  xn_ConfigContract := Some (nt_ConfigContract ir);
  xn_Fields := if Nat.eqb (size (nt_Fields ir)) 0 then None
    else Some ((λ '(name, value), newField name value) <$> rangeMap o 0 (nt_Fields ir));
  xn_Id := idIf (nt_ID ir);
  xn_Implementation := Some (nt_Implementation ir);
  xn_ImplementationName := None;
  xn_IncludeHealthWarnings := Some (nt_IncludeHealthWarnings ir);
  xn_InfoLink := None;
  xn_Link := None;
  xn_Message := None;
  xn_Name := Some (nt_Name ir);
  xn_OnApplicationUpdate := Some (nt_OnApplicationUpdate ir);
  xn_OnDownload := Some (nt_OnDownload ir);
  xn_OnGrab := Some (nt_OnGrab ir);
  xn_OnHealthIssue := Some (nt_OnHealthIssue ir);
  xn_OnHealthRestored := Some (nt_OnHealthRestored ir);
  xn_OnManualInteractionRequired := Some (nt_OnManualInteractionRequired ir);
  xn_OnMovieAdded := Some (nt_OnMovieAdded ir);
  xn_OnMovieDelete := Some (nt_OnMovieDelete ir);
  xn_OnMovieFileDelete := Some (nt_OnMovieFileDelete ir);
  xn_OnMovieFileDeleteForUpgrade := Some (nt_OnMovieFileDeleteForUpgrade ir);
  xn_OnRename := Some (nt_OnRename ir);
  xn_OnUpgrade := Some (nt_OnUpgrade ir);
  xn_Presets := None;
  xn_SupportsOnApplicationUpdate := None;
  xn_SupportsOnDownload := None;
  xn_SupportsOnGrab := None;
  xn_SupportsOnHealthIssue := None;
  xn_SupportsOnHealthRestored := None;
  xn_SupportsOnManualInteractionRequired := None;
  xn_SupportsOnMovieAdded := None;
  xn_SupportsOnMovieDelete := None;
  xn_SupportsOnMovieFileDelete := None;
  xn_SupportsOnMovieFileDeleteForUpgrade := None;
  xn_SupportsOnRename := None;
  xn_SupportsOnUpgrade := None;
  xn_Tags := Some [int32 tagID];
  xn_TestCommand := None |}.

Definition irToDelayProfile (ir : DelayProfileIR) (tagIDs : list Z) : RDelayProfile := {|
  xdp_BypassIfAboveCustomFormatScore := boolPtr (dp_BypassIfAboveCustomFormatScore ir);
  xdp_BypassIfHighestQuality := boolPtr (dp_BypassIfHighestQuality ir);
  xdp_EnableTorrent := boolPtr (dp_EnableTorrent ir);
  xdp_EnableUsenet := boolPtr (dp_EnableUsenet ir);
  xdp_Id := None;
  xdp_MinimumCustomFormatScore := intPtr (dp_MinimumCustomFormatScore ir);
  xdp_Order := intPtr (dp_Order ir);
  xdp_PreferredProtocol := Some (switch (dp_PreferredProtocol ir) [
    ([ProtocolUsenet], "usenet"); ([ProtocolTorrent], "torrent")] "usenet");
  xdp_Tags := Some tagIDs;
  xdp_TorrentDelay := intPtr (dp_TorrentDelay ir);
  xdp_UsenetDelay := intPtr (dp_UsenetDelay ir) |}.

(** The tags of a delay profile: the ownership tag when no tag names are
    configured, then the profile's own. *)
Definition delayProfileTags (ir : DelayProfileIR) (tagID : Z) : list Z :=
  (if (0 <? tagID) && (Z.of_nat (length (dp_TagNames ir)) =? 0) then [int32 tagID] else []) ++
  (int32 <$> dp_Tags ir).

Definition xdp_set_Id (id : option Z) (c : RDelayProfile) : RDelayProfile :=
  let '(mkRDelayProfile v0 v1 v2 v3 _ v5 v6 v7 v8 v9 v10) := c in
  mkRDelayProfile v0 v1 v2 v3 id v5 v6 v7 v8 v9 v10.

Definition findSchemaByType (schemas : list RImportList) (listType : string) : option RImportList :=
  snd <$> list_find (λ s, ptrToString (xil_Implementation s) = listType) schemas.

Definition buildImportListFields (o : RangeOrder) (settings : gmap string string) (schema : RImportList) : list RField :=
  let schemaFields := setOf (omap xf_Name (default [] (xil_Fields schema))) in
  omap (λ '(name, value), if name ∈? schemaFields then Some (newField name (VString value)) else None)
    (rangeMap o 0 settings).

Definition notEmpty (s : string) : option string := if String.eqb s "" then None else Some s.

Definition irToImportList (ir : ImportListIR) (schema : RImportList) (fields : list RField) (tagID : Z) : RImportList := {|
  xil_ConfigContract := xil_ConfigContract schema;
  xil_EnableAuto := boolPtr (il_EnableAuto ir);
  xil_Enabled := boolPtr (il_Enabled ir);
  xil_Fields := Some fields;
  xil_Id := None;
  xil_Implementation := stringPtr (il_Type ir);
  xil_ImplementationName := None;
  xil_InfoLink := None;
  xil_ListOrder := Some 0;
  xil_ListType := Some "program"%string;
  xil_Message := None;
  xil_MinRefreshInterval := None;
  xil_MinimumAvailability := notEmpty (il_MinimumAvailability ir);
  xil_Monitor := notEmpty (il_Monitor ir);
  xil_Name := stringPtr (il_Name ir);
  xil_Presets := None;
  xil_QualityProfileId := intPtr (il_QualityProfileID ir);
  xil_RootFolderPath := stringPtr (il_RootFolderPath ir);
  xil_SearchOnAdd := boolPtr (il_SearchOnAdd ir);
  xil_Tags := Some [int32 tagID] |}.

Definition xil_set_Id (id : option Z) (c : RImportList) : RImportList :=
  let '(mkRImportList v0 v1 v2 v3 _ v5 v6 v7 v8 v9 v10 v11 v12 v13 v14 v15 v16 v17 v18 v19) := c in
  mkRImportList v0 v1 v2 v3 id v5 v6 v7 v8 v9 v10 v11 v12 v13 v14 v15 v16 v17 v18 v19.

(** ** mediamanagement.go, authentication.go

    The fields that are assigned; all others are kept. *)
Definition mergeMediaManagement (ir : MediaManagementIR) (c : RMediaManagement) : RMediaManagement :=
  let '(mkRMediaManagement v0 v1 _ _ _ _ _ v7 v8 v9 v10 v11 v12 v13 v14 _ _ v17 v18 _ v20 v21) := c in
  mkRMediaManagement v0 v1 (stringPtr (mm_ChmodFolder ir)) (stringPtr (mm_ChownGroup ir)) (boolPtr (mm_UseHardlinks ir)) (boolPtr (mm_CreateEmptyFolders ir)) (boolPtr (mm_DeleteEmptyFolders ir)) v7 v8 v9 v10 v11 v12 v13 v14 (stringPtr (mm_RecycleBin ir)) (Some (int32 (mm_RecycleBinCleanupDays ir))) v17 v18 (boolPtr (mm_SetPermissions ir)) v20 v21.

Definition mergeHostConfig (ir : AuthenticationIR) (c : RHostConfig) : RHostConfig :=
  let username := if String.eqb (auth_Method ir) "forms" && negb (String.eqb (auth_Username ir) "")
                  then stringPtr (auth_Username ir) else xhc_Username c in
  let newPassword (old : option string) :=
    if String.eqb (auth_Password ir) "" then old else stringPtr (auth_Password ir) in
  let '(mkRHostConfig v0 v1 v2 _ _ v5 v6 v7 v8 v9 v10 v11 v12 v13 v14 v15 v16 v17 _ _ v20 v21 v22 v23 v24 v25 v26 v27 v28 v29 v30 v31 v32 v33 v34 v35 v36 _) := c in
  mkRHostConfig v0 v1 v2 (Some (mapAuthMethod (auth_Method ir))) (Some (mapAuthRequired (auth_AuthenticationRequired ir))) v5 v6 v7 v8 v9 v10 v11 v12 v13 v14 v15 v16 v17 (newPassword (xhc_Password c)) (newPassword (xhc_PasswordConfirmation c)) v20 v21 v22 v23 v24 v25 v26 v27 v28 v29 v30 v31 v32 v33 v34 v35 v36 username.

(** ** The requests *)

Section apply.
Context {S : Type} `{Service S}.
Abbreviation MS := (M S).
Abbreviation Answered := (Z * string * option any)%type.

Definition created : list Z := [201; 200].
Definition updated : list Z := [200; 202].
Definition deleted : list Z := [200; 204].

(** A write: the request and one of the accepted statuses; [withBody] adds the text
    of the answer to the error. *)
Definition writing (verb what : string) (accepted : list Z) (withBody : bool) (r : MS Answered) : MS unit :=
  let* answer := wrapErr (λ e, "failed to " +:+ verb +:+ " " +:+ what +:+ ": " +:+ e)%string r in
  let '(status, text, _) := answer in
  if existsb (Z.eqb status) accepted then ret tt
  else fail (statusError unexpected status +:+ (if withBody then ", body: " +:+ text else ""))%string.

(** The ID of the first resource of the name; the status of the answer is not
    looked at, and a resource without an ID has the ID 0. *)
Definition findIDByName {R} `{FromJSON R} (what one : string) (r : MS Answered) (nameOf : R → option string)
    (idOf : R → option Z) (name : string) : MS Z :=
  let* answer := getting what r in
  let '(_, _, document) := answer in
  let* resources := decoding (list R) what document in
  match list_find (λ r, ptrToString (nameOf r) = name) resources with
  | Some (_, r) => ret (ptrToInt (idOf r))
  | None => fail (one +:+ " not found: " +:+ name)%string
  end.

Definition findQualityProfileIDByName (c : Client) : string → MS Z :=
  findIDByName "quality profiles" "quality profile" (GetApiV3Qualityprofile c) xqp_Name xqp_Id.
Definition findCustomFormatIDByName (c : Client) : string → MS Z :=
  findIDByName "custom formats" "custom format" (GetApiV3Customformat c) xcf_Name xcf_Id.
Definition findDownloadClientIDByName (c : Client) : string → MS Z :=
  findIDByName "download clients" "download client" (GetApiV3Downloadclient c) xdc_Name xdc_Id.
Definition findIndexerIDByName (c : Client) : string → MS Z :=
  findIDByName "indexers" "indexer" (GetApiV3Indexer c) xix_Name xix_Id.

(** *** Quality profiles *)

Definition buildFormatItems (o : RangeOrder) (c : Client) (formatScores : gmap string Z) : MS (list RFormatItem) :=
  let* formats := fetch (list RCustomFormat) "custom formats" (GetApiV3Customformat c) in
  ret (formatItemsOf o formatScores formats).

Definition irToQualityProfile (o : RangeOrder) (c : Client) (ir : VideoQualityIR) : MS RQualityProfile :=
  let* resp := getting "quality profile schema" (GetApiV3QualityprofileSchema c) in
  let* document := expect "unexpected status code getting schema" [200] resp in
  let* schema := decoding RQualityProfile "quality profile schema" document in
  if Nat.eqb (size (vq_FormatScores ir)) 0 then ret (profileOf ir schema None)
  else
    let* formatItems := wrapErr (λ e, "failed to build format items: " +:+ e)%string
      (buildFormatItems o c (vq_FormatScores ir)) in
    ret (profileOf ir schema (Some formatItems)).

Definition buildProfile (o : RangeOrder) (c : Client) (ir : VideoQualityIR) : MS RQualityProfile :=
  wrapErr (λ e, "failed to build quality profile: " +:+ e)%string (irToQualityProfile o c ir).

Definition createQualityProfile (o : RangeOrder) (c : Client) (ir : VideoQualityIR) : MS unit :=
  let* profile := buildProfile o c ir in
  writing "create" "quality profile" created true (PostApiV3Qualityprofile c (toJSON profile)).

Definition updateQualityProfile (o : RangeOrder) (c : Client) (ir : VideoQualityIR) : MS unit :=
  let* profileID := findQualityProfileIDByName c (vq_ProfileName ir) in
  let* profile := buildProfile o c ir in
  writing "update" "quality profile" updated false
    (PutApiV3QualityprofileId c profileID (toJSON (xqp_set_Id (intPtr profileID) profile))).

Definition deleteQualityProfile (c : Client) (name : string) : MS unit :=
  let* profileID := findQualityProfileIDByName c name in
  writing "delete" "quality profile" deleted false (DeleteApiV3QualityprofileId c (int32 profileID)).

(** *** Custom formats *)

Definition createCustomFormat (c : Client) (ir : CustomFormatIR) : MS unit :=
  writing "create" "custom format" created true
    (PostApiV3CustomformatWithBody c (toJSON (buildMinimalCustomFormat None ir))).

Definition updateCustomFormat (c : Client) (ir : CustomFormatIR) : MS unit :=
  let* cfID := findCustomFormatIDByName c (cf_Name ir) in
  writing "update" "custom format" updated true
    (PutApiV3CustomformatIdWithBody c cfID (toJSON (buildMinimalCustomFormat (Some cfID) ir))).

Definition deleteCustomFormat (c : Client) (name : string) : MS unit :=
  let* cfID := findCustomFormatIDByName c name in
  writing "delete" "custom format" deleted false (DeleteApiV3CustomformatId c (int32 cfID)).

(** *** Download clients and indexers *)

Definition createDownloadClient (c : Client) (ir : DownloadClientIR) (tagID : Z) : MS unit :=
  writing "create" "download client" created true (PostApiV3Downloadclient c (toJSON (irToDownloadClient ir tagID))).

Definition updateDownloadClient (c : Client) (ir : DownloadClientIR) (tagID : Z) : MS unit :=
  let* dcID := findDownloadClientIDByName c (dc_Name ir) in
  writing "update" "download client" updated false
    (PutApiV3DownloadclientId c (int32 dcID) (toJSON (xdc_set_Id (intPtr dcID) (irToDownloadClient ir tagID)))).

Definition deleteDownloadClient (c : Client) (name : string) : MS unit :=
  let* dcID := findDownloadClientIDByName c name in
  writing "delete" "download client" deleted false (DeleteApiV3DownloadclientId c (int32 dcID)).

Definition createIndexer (c : Client) (ir : IndexerIR) (tagID : Z) : MS unit :=
  writing "create" "indexer" created true (PostApiV3Indexer c (toJSON (irToIndexer ir tagID))).

Definition updateIndexer (c : Client) (ir : IndexerIR) (tagID : Z) : MS unit :=
  let* idxID := findIndexerIDByName c (idx_Name ir) in
  writing "update" "indexer" updated false
    (PutApiV3IndexerId c (int32 idxID) (toJSON (xix_set_Id (intPtr idxID) (irToIndexer ir tagID)))).

Definition deleteIndexer (c : Client) (name : string) : MS unit :=
  let* idxID := findIndexerIDByName c name in
  writing "delete" "indexer" deleted false (DeleteApiV3IndexerId c (int32 idxID)).

(** *** The other resources *)

Definition createRootFolder (c : Client) (ir : RootFolderIR) : MS unit :=
  writing "create" "root folder" created false
    (PostApiV3Rootfolder c (toJSON (mkRRootFolder None None None (stringPtr (rf_Path ir)) None))).

(** The current configuration gives the ID; its status is not looked at. *)
Definition updateNamingConfig (c : Client) (ir : RadarrNamingIR) : MS unit :=
  let* answer := getting "naming config" (GetApiV3ConfigNaming c) in
  let '(_, _, document) := answer in
  let* current := decoding RNamingConfig "naming config" document in
  writing "update" "naming config" updated false
    (PutApiV3ConfigNamingId c (ptrToInt (xnc_Id current)) (toJSON {|
       xnc_ColonReplacementFormat := Some (intToColonReplacement (rn_ColonReplacementFormat ir));
       xnc_Id := xnc_Id current;
       xnc_MovieFolderFormat := stringPtr (rn_MovieFolderFormat ir);
       xnc_RenameMovies := boolPtr (rn_RenameMovies ir);
       xnc_ReplaceIllegalCharacters := boolPtr (rn_ReplaceIllegalCharacters ir);
       xnc_StandardMovieFormat := stringPtr (rn_StandardMovieFormat ir) |})).

Definition createRemotePathMapping (c : Client) (ir : RemotePathMappingIR) : MS unit :=
  writing "create" "remote path mapping" created false
    (PostApiV3Remotepathmapping c (toJSON (irToRemotePathMapping ir))).
Definition updateRemotePathMapping (c : Client) (ir : RemotePathMappingIR) : MS unit :=
  writing "update" "remote path mapping" updated false
    (PutApiV3RemotepathmappingId c (rpm_ID ir) (toJSON (irToRemotePathMapping ir))).
Definition deleteRemotePathMapping (c : Client) (id : Z) : MS unit :=
  writing "delete" "remote path mapping" deleted false (DeleteApiV3RemotepathmappingId c (int32 id)).

Definition createNotification (o : RangeOrder) (c : Client) (ir : NotificationIR) (tagID : Z) : MS unit :=
  writing "create" "notification" created false (PostApiV3Notification c (toJSON (irToNotification o ir tagID))).
Definition updateNotification (o : RangeOrder) (c : Client) (ir : NotificationIR) (tagID : Z) : MS unit :=
  writing "update" "notification" updated false
    (PutApiV3NotificationId c (int32 (nt_ID ir)) (toJSON (irToNotification o ir tagID))).
Definition deleteNotification (c : Client) (id : Z) : MS unit :=
  writing "delete" "notification" deleted false (DeleteApiV3NotificationId c (int32 id)).

Definition createDelayProfile (c : Client) (ir : DelayProfileIR) (tagID : Z) : MS unit :=
  writing "create" "delay profile" created false
    (PostApiV3Delayprofile c (toJSON (irToDelayProfile ir (delayProfileTags ir tagID)))).
Definition updateDelayProfile (c : Client) (ir : DelayProfileIR) (tagID : Z) : MS unit :=
  writing "update" "delay profile" updated false
    (PutApiV3DelayprofileId c (dp_ID ir)
       (toJSON (xdp_set_Id (intPtr (dp_ID ir)) (irToDelayProfile ir (delayProfileTags ir tagID))))).
Definition deleteDelayProfile (c : Client) (id : Z) : MS unit :=
  writing "delete" "delay profile" deleted false (DeleteApiV3DelayprofileId c (int32 id)).

(** ** apply.go: dispatch *)

Definition badPayload {A} : MS A := panic "interface conversion".

Definition applyCreate (o : RangeOrder) (c : Client) (tagID : Z) (change : Change) : MS unit :=
  switch (ch_ResourceType change) [
    ([ResourceQualityProfile],
      match ch_Payload change with PVideoQuality p => createQualityProfile o c p | _ => badPayload end);
    ([ResourceCustomFormat],
      match ch_Payload change with PCustomFormat p => createCustomFormat c p | _ => badPayload end);
    ([ResourceDownloadClient],
      match ch_Payload change with PDownloadClientPtr p => createDownloadClient c p tagID | _ => badPayload end);
    ([ResourceIndexer],
      match ch_Payload change with PIndexerPtr p => createIndexer c p tagID | _ => badPayload end);
    ([ResourceRootFolder],
      match ch_Payload change with PRootFolderPtr p => createRootFolder c p | _ => badPayload end);
    ([ResourceRemotePathMapping],
      match ch_Payload change with PRemotePathMapping p => createRemotePathMapping c p | _ => badPayload end);
    ([ResourceNotification],
      match ch_Payload change with PNotification p => createNotification o c p tagID | _ => badPayload end);
    ([ResourceDelayProfile],
      match ch_Payload change with PDelayProfile p => createDelayProfile c p tagID | _ => badPayload end)]
    (fail ("unknown resource type for create: " +:+ ch_ResourceType change)%string).

Definition applyUpdate (o : RangeOrder) (c : Client) (tagID : Z) (change : Change) : MS unit :=
  switch (ch_ResourceType change) [
    ([ResourceQualityProfile],
      match ch_Payload change with PVideoQuality p => updateQualityProfile o c p | _ => badPayload end);
    ([ResourceCustomFormat],
      match ch_Payload change with PCustomFormat p => updateCustomFormat c p | _ => badPayload end);
    ([ResourceDownloadClient],
      match ch_Payload change with PDownloadClientPtr p => updateDownloadClient c p tagID | _ => badPayload end);
    ([ResourceIndexer],
      match ch_Payload change with PIndexerPtr p => updateIndexer c p tagID | _ => badPayload end);
    ([ResourceNamingConfig],
      match ch_Payload change with PRadarrNaming p => updateNamingConfig c p | _ => badPayload end);
    ([ResourceRemotePathMapping],
      match ch_Payload change with PRemotePathMapping p => updateRemotePathMapping c p | _ => badPayload end);
    ([ResourceNotification],
      match ch_Payload change with PNotification p => updateNotification o c p tagID | _ => badPayload end);
    ([ResourceDelayProfile],
      match ch_Payload change with PDelayProfile p => updateDelayProfile c p tagID | _ => badPayload end)]
    (fail ("unknown resource type for update: " +:+ ch_ResourceType change)%string).

(** A deletion by ID, which must be there. *)
Definition deleteByID (what : string) (change : Change) (delete : Z → MS unit) : MS unit :=
  match ch_ID change with
  | Some id => delete id
  | None => fail (what +:+ " ID is required for delete")%string
  end.

Definition applyDelete (c : Client) (change : Change) : MS unit :=
  switch (ch_ResourceType change) [
    ([ResourceQualityProfile], deleteQualityProfile c (ch_Name change));
    ([ResourceCustomFormat], deleteCustomFormat c (ch_Name change));
    ([ResourceDownloadClient], deleteDownloadClient c (ch_Name change));
    ([ResourceIndexer], deleteIndexer c (ch_Name change));
    ([ResourceRemotePathMapping], deleteByID "remote path mapping" change (deleteRemotePathMapping c));
    ([ResourceNotification], deleteByID "notification" change (deleteNotification c));
    ([ResourceDelayProfile], deleteByID "delay profile" change (deleteDelayProfile c))]
    (fail ("unknown resource type for delete: " +:+ ch_ResourceType change)%string).

(** ** adapter.go: [Apply]

    The result pointer is nil when the ownership tag cannot be ensured.  The three
    loops are those of [ApplyChanges]. *)
Definition Apply (o : RangeOrder) (conn : ConnectionIR) (changes : ChangeSet)
    : MS (option ApplyResult * option error) :=
  let c := newClient conn in
  let* r := attempt (ensureOwnershipTag c) in
  match r with
  | inr e => ret (None, Some ("failed to ensure ownership tag: " +:+ e)%string)
  | inl tagID =>
      let* result := ApplyChanges changes (applyCreate o c tagID) (applyUpdate o c tagID) (applyDelete c) in
      ret (Some result, None)
  end.

(** ** importlists.go: [applyImportLists] *)

Definition getImportListSchemas (c : Client) : MS (list RImportList) :=
  fetch (list RImportList) "import list schemas" (GetApiV3ImportlistSchema c).

Definition createImportList (c : Client) (payload : RImportList) : MS unit :=
  writing "create" "import list" created false (PostApiV3Importlist c (toJSON payload)).
Definition updateImportList (c : Client) (payload : RImportList) : MS unit :=
  match xil_Id payload with
  | Some id => writing "update" "import list" updated false (PutApiV3ImportlistId c id (toJSON payload))
  | None => panic "nil pointer dereference"
  end.
Definition deleteImportList (c : Client) (id : Z) : MS unit :=
  writing "delete" "import list" deleted false (DeleteApiV3ImportlistId c (int32 id)).

Definition emptyStats : ImportListStats := mkImportListStats 0 0 0 0 [].
Definition addStats (created updated deleted skipped : Z) (errors : list error) (s : ImportListStats)
    : ImportListStats :=
  mkImportListStats (ils_Created s + created) (ils_Updated s + updated) (ils_Deleted s + deleted)
    (ils_Skipped s + skipped) (ils_Errors s ++ errors).

(** The body of the loop over the desired lists. *)
Definition applyImportList (o : RangeOrder) (c : Client) (tagID : Z) (schemas : list RImportList)
    (existingByName : gmap string RImportList) (stats : ImportListStats) (list : ImportListIR) : MS ImportListStats :=
  match findSchemaByType schemas (il_Type list) with
  | None =>
      ret (addStats 0 0 0 1
        ["unknown import list type " +:+ il_Type list +:+ " for " +:+ il_Name list]%string stats)
  | Some schema =>
      let payload := irToImportList list schema (buildImportListFields o (il_Settings list) schema) tagID in
      match existingByName !! il_Name list with
      | None =>
          let* r := attempt (createImportList c payload) in
          match r with
          | inr e => ret (addStats 0 0 0 0
              ["failed to create import list " +:+ il_Name list +:+ ": " +:+ e]%string stats)
          | inl _ => ret (addStats 1 0 0 0 [] stats)
          end
      | Some existingList =>
          let* r := attempt (updateImportList c (xil_set_Id (xil_Id existingList) payload)) in
          match r with
          | inr e => ret (addStats 0 0 0 0
              ["failed to update import list " +:+ il_Name list +:+ ": " +:+ e]%string stats)
          | inl _ => ret (addStats 0 1 0 0 [] stats)
          end
      end
  end.

(** The body of the loop over the existing lists. *)
Definition deleteOrphan (c : Client) (tagID : Z) (desiredNames : gset string) (stats : ImportListStats)
    (ne : string * RImportList) : MS ImportListStats :=
  let '(name, existingList) := ne in
  if negb (name ∈? desiredNames) && hasTag (xil_Tags existingList) tagID then
    let* r := attempt (deleteImportList c (ptrToInt (xil_Id existingList))) in
    match r with
    | inr e => ret (addStats 0 0 0 0 ["failed to delete import list " +:+ name +:+ ": " +:+ e]%string stats)
    | inl _ => ret (addStats 0 0 1 0 [] stats)
    end
  else ret stats.

Definition applyImportLists (o : RangeOrder) (c : Client) (ir : IR) (tagID : Z) : MS ImportListStats :=
  match ir_ImportLists ir with
  | [] => ret emptyStats
  | lists =>
      let* existing := wrapErr (λ e, "failed to get existing import lists: " +:+ e)%string (getImportLists c) in
      let* schemas := wrapErr (λ e, "failed to get import list schemas: " +:+ e)%string (getImportListSchemas c) in
      let existingByName := indexBy (λ l, ptrToString (xil_Name l)) (filter (λ l, is_Some (xil_Name l)) existing) in
      let desiredNames := setOf (il_Name <$> lists) in
      let* stats := forRange (applyImportList o c tagID schemas existingByName) emptyStats lists in
      forRange (deleteOrphan c tagID desiredNames) stats (rangeMap o 1 existingByName)
  end.

(** ** mediamanagement.go, authentication.go *)

Definition updateConfig (what : string) (id : option Z) (put : Z → MS Answered) : MS unit :=
  match id with
  | Some id => writing "update" what updated false (put id)
  | None => fail (what +:+ " ID is required")%string
  end.

Definition updateMediaManagementConfig (c : Client) (config : RMediaManagement) : MS unit :=
  updateConfig "media management config" (xmm_Id config) (λ id, PutApiV3ConfigMediamanagementId c id (toJSON config)).
Definition updateHostConfig (c : Client) (config : RHostConfig) : MS unit :=
  updateConfig "host config" (xhc_Id config) (λ id, PutApiV3ConfigHostId c id (toJSON config)).

Definition applyMediaManagement (c : Client) (ir : option MediaManagementIR) : MS unit :=
  match ir with
  | None => ret tt
  | Some ir =>
      let* current := wrapErr (λ e, "failed to get current media management config: " +:+ e)%string
        (getMediaManagementConfig c) in
      updateMediaManagementConfig c (mergeMediaManagement ir current)
  end.

Definition applyAuthentication (c : Client) (ir : option AuthenticationIR) : MS unit :=
  match ir with
  | None => ret tt
  | Some ir =>
      let* current := wrapErr (λ e, "failed to get current host config: " +:+ e)%string (getHostConfig c) in
      updateHostConfig c (mergeHostConfig ir current)
  end.

(** ** adapter.go: [ApplyDirect] *)

Definition RadarrApplyDirect (o : RangeOrder) (conn : ConnectionIR) (ir : IR)
    : MS (option ApplyResult * option error) :=
  let c := newClient conn in
  let* r := attempt (ensureOwnershipTag c) in
  match r with
  | inr e => ret (None, Some ("failed to ensure ownership tag: " +:+ e)%string)
  | inl tagID =>
      let* result := ApplyDirect ir {|
        dac_ApplyImportLists := Some (let* stats := applyImportLists o c ir tagID in ret (Some stats));
        dac_ApplyMediaManagement := Some (applyMediaManagement c (ir_MediaManagement ir));
        dac_ApplyAuthentication := Some (applyAuthentication c (ir_Authentication ir)) |} in
      ret (Some result, None)
  end.
End apply.

(** The adapter as the registry holds it. *)
Definition RadarrAdapter {S} `{Service S} `{TimeFormat} (o : nat → RangeOrder) (now : Z) : Adapter S := {|
  a_Name := "radarr";
  a_SupportedApp := AppRadarr;
  a_Connect := Connect;
  a_Discover := Discover now;
  a_CurrentState conn := let* i := CurrentState now conn in ret (Some i);
  a_Diff := Diff o;
  a_Apply := Apply (o 10%nat);
  a_ApplyDirect := Some (RadarrApplyDirect (o 11%nat));
  a_GetHealth := Some RadarrGetHealth |}.
