(* ===== verification/RadarrUrl.v ===== *)
(** * Theorems: the requests of Radarr's client

    A path of the API, resolved against a server's URL of the usual form, is that
    path below the server ([resolveReference_plain_api]); so a method of the client
    makes the request of its collection, and what is known of the requests on a
    collection carries over to the methods ([steps_send]). *)
From S2P Require Export RadarrClient Rest.

(** ** The elements of a path *)

Definition plainElem (e : string) : bool := negb (String.eqb e ".") && negb (String.eqb e "..").

(** A path of bytes that need no escaping, without an element [.] or [..]. *)
Definition plainOp (r : string) : bool := stringForall pathByte r && forallb plainElem (splitOn "/" "" r).

Lemma splitOn_app current a b :
  splitOn "/" current (a +:+ "/" +:+ b) = splitOn "/" current a ++ splitOn "/" "" b.
Proof.
  revert current. induction a as [|x a IH]; intros current; [done|].
  change (String x a +:+ "/" +:+ b)%string with (String x (a +:+ "/" +:+ b)). cbn [splitOn].
  destruct (Ascii.eqb x "/"); by rewrite IH.
Qed.

Lemma splitOn_nil current : splitOn "/" current "" = [current].
Proof. done. Qed.

(** The elements, each after a slash, are the text again. *)
Lemma resolveElems_plain dst current r :
  forallb plainElem (splitOn "/" current r) = true →
  foldl resolveElem (dst, false) (splitOn "/" current r) = ((dst +:+ "/" +:+ current +:+ r)%string, false).
Proof.
  revert dst current. induction r as [|x r IH]; intros dst current; cbn [splitOn forallb foldl].
  - unfold plainElem. intros [[?%negb_true_iff ?%negb_true_iff]%andb_true_iff _]%andb_true_iff. cbn [resolveElem].
    rewrite H, H0. by rewrite string_app_nil_r.
  - destruct (Ascii.eqb_spec x "/") as [->|]; cbn [forallb foldl].
    + intros [[?%negb_true_iff ?%negb_true_iff]%andb_true_iff Hr]%andb_true_iff. cbn [resolveElem].
      rewrite H, H0. rewrite (IH _ "" Hr). f_equal. by rewrite !append_assoc.
    + intros Hr. rewrite (IH _ _ Hr). f_equal. by rewrite !append_assoc.
Qed.

(** The operation path of a client method, resolved against the root. *)
Lemma resolvePath_api r :
  plainOp r = true → resolvePath "/" ("./api/v3/" +:+ r) = ("/api/v3/" +:+ r)%string.
Proof.
  unfold plainOp. intros [_ Hr]%andb_true_iff. unfold resolvePath.
  change (splitOn "/" "" _) with (["" ; "."; "api"; "v3"]%string ++ splitOn "/" "" r).
  rewrite foldl_app. change (foldl resolveElem ("/"%string, true) _) with ("//api/v3"%string, false).
  rewrite resolveElems_plain by done. rewrite last_app.
  assert (∀ e, last (splitOn "/" "" r) = Some e → String.eqb e "." || String.eqb e ".." = false) as Hp.
  { intros e He%last_Some_elem_of%list_elem_of_In. rewrite forallb_forall in Hr. specialize (Hr e He).
    unfold plainElem in Hr. by destruct (String.eqb e "."), (String.eqb e ".."). }
  destruct (last (splitOn "/" "" r)) as [e|]; [by rewrite (Hp e eq_refl)|done].
Qed.

(** ** Resolving against a server *)

(** The base URL of the client is [scheme://host:port/]. *)
Definition slashBase (c : Client) : Prop := ∃ (tls : bool) host port,
  c_BaseURL c = ((if tls then "https" else "http") +:+ "://" +:+ (host +:+ String ":" port) +:+ "/")%string ∧
  stringForall hostByte host = true ∧ stringForall isDigit port = true ∧ host ≠ "".

Lemma getScheme_http (tls : bool) rest :
  getScheme ((if tls then "https" else "http") +:+ "://" +:+ rest) =
  Some ((if tls then "https" else "http")%string, ("//" +:+ rest)%string).
Proof. by destruct tls. Qed.

Lemma hostPort_notByte host port d :
  stringForall hostByte host = true → stringForall isDigit port = true →
  (∀ x, hostPortByte x = true → notByte d x = true) →
  stringForall (notByte d) (host +:+ String ":" port) = true.
Proof.
  intros Hh Hp Hd. eapply stringForall_impl; [exact Hd|]. by apply hostPort_plain.
Qed.

Lemma resolveReference_plain_api (c : Client) r :
  slashBase c → plainOp r = true →
  NewRequest (c_BaseURL c) ("/api/v3/" +:+ r) = Some (c_BaseURL c +:+ "api/v3/" +:+ r)%string.
Proof.
  intros (tls & host & port & -> & Hh & Hp & Hne) Hr.
  unfold NewRequest. change (HasPrefix ("/api/v3/" +:+ r) "/") with true. cbv iota.
  change ("." +:+ "/api/v3/" +:+ r)%string with ("./api/v3/" +:+ r)%string.
  unfold resolveReference.
  rewrite (urlParse_plain_path tls host port "/" Hh Hp Hne eq_refl). cbn [mbind option_bind].
  pose proof (hostPort_plain host port Hh Hp) as Hplain.
  set (auth := (host +:+ String ":" port)%string) in *.
  assert (∀ d, (∀ x, hostPortByte x = true → notByte d x = true) → stringForall (notByte d) auth = true) as Hbyte
    by (intros d Hd; by eapply stringForall_impl).
  assert (beforeCut "/" (auth +:+ "/") = auth) as Ha.
  { apply beforeCut_path; [|done]. apply Hbyte. by intros x [_ ?]%hostPortByte_urlByte%andb_true_iff. }
  assert (stringForall (notByte "#") (auth +:+ "/") = true ∧ stringForall (notByte "?") (auth +:+ "/") = true) as [H1 H2].
  { rewrite !stringForall_app, !Hbyte; [done|..]; intros x [Hu _]%hostPortByte_urlByte%andb_true_iff;
      unfold urlByte in Hu; rewrite !andb_true_iff in Hu; tauto. }
  clear Hbyte Hplain. set (rest := (auth +:+ "/")%string) in *.
  assert (beforeCut "#" ((if tls then "https" else "http") +:+ "://" +:+ rest) =
    (if tls then "https" else "http") +:+ "://" +:+ rest)%string as ->
    by (apply beforeCut_None; rewrite !stringForall_app, H1; by destruct tls).
  rewrite getScheme_http. cbn [mbind option_bind].
  assert (stringMap toLowerASCII (if tls then "https" else "http") = if tls then "https" else "http")%string as ->
    by (by destruct tls).
  assert (beforeCut "?" ("//" +:+ rest) = "//" +:+ rest)%string as ->
    by (apply beforeCut_None; by rewrite stringForall_app, H2).
  assert (String.eqb (if tls then "https" else "http") "" = false) as -> by (by destruct tls).
  cbn [negb orb andb]. replace (HasPrefix ("//" +:+ rest) "//") with true by (by destruct rest).
  change (stringDrop 2 ("//" +:+ rest)) with rest. cbn [andb]. rewrite Ha.
  change (stringDrop (2 + String.length auth) ("//" +:+ rest)) with (stringDrop (String.length auth) rest).
  unfold rest at 1. rewrite stringDrop_append, resolvePath_api by done. f_equal.
  unfold rest. rewrite !append_assoc. done.
Qed.

Section send.
Context {S : Type} `{Service S} (c : Client) (base : slashBase c).

Lemma slashBase_urlParse r : plainOp r = true → is_Some (urlParse (c_BaseURL c +:+ "api/v3/" +:+ r)).
Proof.
  intros [Hr _]%andb_true_iff. destruct base as (tls & host & port & -> & Hh & Hp & Hne).
  exists (mkURL (if tls then "https" else "http") (host +:+ String ":" port) ("/api/v3/" +:+ r)).
  rewrite <-(urlParse_plain_path tls host port ("/api/v3/" +:+ r)) by done. f_equal. by rewrite !append_assoc.
Qed.

(** The request a method makes. *)
Lemma send_plain method r body s : plainOp r = true →
  send c method ("/api/v3/" +:+ r) body s =
  match serve c (request c method ("api/v3/" +:+ r) body) s with
  | (s', TransportError e) => (s', Err e)
  | (s', Answer status text document) => (s', Ret (status, text, document))
  end.
Proof.
  intros Hr. unfold send. rewrite (resolveReference_plain_api c r base Hr).
  by destruct (slashBase_urlParse r Hr) as [u ->].
Qed.

Lemma steps_send (P : relation S) `{!PreOrder P} method r body :
  plainOp r = true → harmless P c method ("api/v3/" +:+ r) → steps P (send c method ("/api/v3/" +:+ r) body).
Proof.
  intros Hr Hh s. rewrite send_plain by done. specialize (Hh body s). unfold request.
  by destruct (serve c _ s) as [s' [e|status text document]].
Qed.
End send.

(** ** The paths of the API *)

Lemma splitOn_none current s : stringForall (notByte "/") s = true → splitOn "/" current s = [(current +:+ s)%string].
Proof.
  revert current. induction s as [|x s IH]; intros current; simpl; [by rewrite string_app_nil_r|].
  unfold notByte at 1. intros [->%negb_true_iff Hs]%andb_true_iff. rewrite IH by done. by rewrite append_assoc.
Qed.

Lemma Itoa_plainElem i : plainElem (Itoa i) = true ∧ stringForall (notByte "/") (Itoa i) = true.
Proof.
  assert (∀ k : N, stringForall isDigit (pretty k) = true) as HN by apply pretty_N_digits.
  assert (∀ s, stringForall isDigit s = true → plainElem s = true ∧ stringForall (notByte "/") s = true) as Hd.
  { intros s Hs. split.
    - destruct s as [|x s]; [done|]. simpl in Hs. apply andb_true_iff in Hs as [Hx _].
      by destruct x as [[] [] [] [] [] [] [] []].
    - eapply stringForall_impl; [|exact Hs]. by intros [[] [] [] [] [] [] [] []]. }
  destruct i as [|p|p]; [done|by apply Hd, (HN (Npos p))|].
  change (Itoa (Z.neg p)) with (String "-" (pretty (Npos p))).
  destruct (Hd _ (HN (Npos p))) as [_ Hs]. split; [done|]. exact Hs.
Qed.

(** A member of a collection of a plain path. *)
Lemma plainOp_member name i : plainOp name = true → plainOp (name +:+ "/" +:+ Itoa i) = true.
Proof.
  unfold plainOp. intros [Hb He]%andb_true_iff. destruct (Itoa_plainElem i) as [Hi Hn].
  rewrite splitOn_app, forallb_app, He, (splitOn_none "" (Itoa i) Hn). rewrite !stringForall_app, Hb, Itoa_pathByte.
  change ("" +:+ Itoa i)%string with (Itoa i). simpl. by rewrite Hi.
Qed.

(** ** The contract of a collection with 32-bit IDs

    As [RestLaws], but a resource can be created only while an ID of the range is
    free, and the members that are addressed have an ID of the range. *)

Section contract.
Context {S : Type} `{Service S} (c : Client).
Abbreviation pathOf col := (collectionPath (col_api col) (col_name col)).
Abbreviation memberOf col := (memberPath (col_api col) (col_name col)).

Class Laws32 {R} `{FromJSON R} (col : Collection S R) (others : list string) : Prop := {
  l32_list s : ∃ text doc l,
    serve c (request c "GET" (pathOf col) None) s = (s, Answer 200 text (Some doc)) ∧
    fromJSON doc = Some l ∧ l ≡ₚ (map_to_list (col_view col s)).*2;
  l32_post s doc r : fromJSON doc = Some r → Z.of_nat (size (col_view col s)) < int32Max → ∃ s' text doc' i,
    serve c (request c "POST" (pathOf col) (Some doc)) s = (s', Answer 201 text doc') ∧
    fitsInt32 i = true ∧ col_view col s !! i = None ∧
    col_view col s' = <[i := col_setID col i r]> (col_view col s);
  l32_put s i doc r : fromJSON doc = Some r → fitsInt32 i = true → is_Some (col_view col s !! i) →
    ∃ s' status text doc',
      serve c (request c "PUT" (memberOf col i) (Some doc)) s = (s', Answer status text doc') ∧
      (status = 200 ∨ status = 202) ∧ col_view col s' = <[i := col_setID col i r]> (col_view col s);
  l32_delete s i : fitsInt32 i = true → is_Some (col_view col s !! i) → ∃ s' text doc',
    serve c (request c "DELETE" (memberOf col i) None) s = (s', Answer 200 text doc') ∧
    col_view col s' = delete i (col_view col s);
  l32_get : ∀ p, harmless (sameCollection col) c "GET" p;
  l32_others : ∀ name, name ∈ others → quietAt (sameCollection col) c (col_api col) name }.
End contract.

(** ** A service that keeps it *)

Module MiniServer32.
Import MiniServer.

Section server.
Context {R : Type} `{FromJSON R} (api name : string) (setID : Z → R → R).
Context (decodes : ∀ doc r i, fitsInt32 i = true → fromJSON doc = Some r → fromJSON (assignID i doc) = Some (setID i r)).
Context (tagID : Z).
Abbreviation State := (gmap Z any).

(** The smallest positive ID that is free. *)
Definition freeID (s : State) : Z :=
  default 1 (snd <$> list_find (λ i, view (R := R) s !! i = None) (seqZ 1 (Z.of_nat (size (view (R := R) s)) + 1))).

Lemma freeID_spec s :
  1 ≤ freeID s ≤ Z.of_nat (size (view (R := R) s)) + 1 ∧ view (R := R) s !! freeID s = None.
Proof.
  unfold freeID. set (v := view s). set (n := Z.of_nat (size v) + 1).
  destruct (list_find (λ i, v !! i = None) (seqZ 1 n)) as [[k i]|] eqn:E.
  - apply list_find_Some in E as (Hk%list_elem_of_lookup_2 & Hi & _). apply elem_of_seqZ in Hk. simpl. split; [lia|done].
  - exfalso. apply list_find_None in E. rewrite Forall_forall in E.
    assert (list_to_set (seqZ 1 n) ⊆ (dom v : gset Z)) as Hsub.
    { intros i Hi%elem_of_list_to_set. apply elem_of_dom, not_eq_None_Some, E, Hi. }
    apply subseteq_size in Hsub. rewrite size_list_to_set, length_seqZ, size_dom in Hsub by apply NoDup_seqZ. lia.
Qed.

Definition serve32 (c : Client) (rq : Request) (s : State) : State * Response :=
  if String.eqb (rq_Method rq) "POST" && String.eqb (rq_URL rq) (c_BaseURL c +:+ collectionPath api name)
  then store (R := R) (freeID s) 201 (rq_Body rq) s
  else miniServe (R := R) api name tagID c rq s.

#[local] Instance MiniService32 : Service State := {|
  serve := serve32; requestError := id; decodeError := λ _, "unexpected document" |}.

Definition collection32 : Collection State R := mkCollection api name (view (R := R)) setID.

Lemma view_store32 i doc r s : fitsInt32 i = true →
  fromJSON doc = Some r → view (<[i := assignID i doc]> s) = <[i := setID i r]> (view (R := R) s).
Proof. intros Hi Hd. unfold view. by rewrite (omap_insert_Some _ _ _ _ (setID i r)) by (by apply decodes). Qed.

Lemma serve32_other c method p body s : method ≠ "POST"%string →
  serve32 c (request c method p body) s = miniServe (R := R) api name tagID c (request c method p body) s.
Proof. intros Hm. unfold serve32. cbn [request rq_Method]. by apply String.eqb_neq in Hm as ->. Qed.

(** Requests elsewhere change nothing. *)
Lemma elsewhere32 c p method body s :
  p ≠ collectionPath api name → (∀ i, p ≠ memberPath api name i) →
  (serve32 c (request c method p body) s).1 = s.
Proof.
  intros Hp Hm. unfold serve32. cbn [request rq_URL]. rewrite request_differs, andb_false_r by done.
  by apply elsewhere.
Qed.

Lemma laws32 c others :
  collectionPath api name ≠ (api +:+ "tag")%string → Forall (apart api name) others →
  @Laws32 _ MiniService32 c _ _ collection32 others.
Proof.
  intros Htag Hothers. rewrite Forall_forall in Hothers. split.
  - intros s. eexists _, _, _. split; [|split].
    + simpl. rewrite serve32_other by done. unfold miniServe, request. simpl. unfold serveGet.
      rewrite request_differs, String.eqb_refl by done. done.
    + apply documents_decode.
    + done.
  - intros s doc r Hd Hroom. destruct (freeID_spec s) as [Hb Hf].
    assert (fitsInt32 (freeID s) = true) as Hfit.
    { unfold fitsInt32, int32Min. cbn [collection32 col_view] in Hroom. unfold int32Max in *.
      apply andb_true_iff. split; apply Z.leb_le; lia. }
    eexists _, _, _, (freeID s). split; [|split_and!; [done..|]].
    + simpl. unfold serve32, request. simpl. rewrite String.eqb_refl. unfold store. by rewrite Hd.
    + by apply view_store32.
  - intros s i doc r Hd Hfit Hi. eexists _, 202, _, _. split; [|split_and!; [by right|]].
    + simpl. rewrite serve32_other by done. unfold miniServe, request. simpl.
      rewrite member_known by (by apply (view_stored (R := R))). unfold store. by rewrite Hd.
    + by apply view_store32.
  - intros s i Hfit Hi. eexists _, _, _. split.
    + simpl. rewrite serve32_other by done. unfold miniServe, request. simpl.
      by rewrite member_known by (by apply (view_stored (R := R))).
    + unfold collection32, view. simpl. by rewrite omap_delete.
  - intros p body s. done.
  - intros other Ho. split; intros; intros body s; unfold sameCollection; f_equal; apply elsewhere32; intros;
      first [apply (Hothers other Ho 0 0)|eapply (Hothers other Ho _ 0)|apply (Hothers other Ho 0)|apply (Hothers other Ho)].
Qed.
End server.
End MiniServer32.
