(* ===== verification/RadarrSync.v ===== *)
(** * Theorems: a sync of Radarr

    The changes of a diff and the requests that apply them: every change has the
    payload the adapter asserts, so applying a diff never panics, and it makes
    requests on the collection of its kind only.  Radarr's custom formats, which carry
    no tag: all of them count as managed, and one sync leaves exactly the formats of
    the preset.  The quality profile, which is created once or never. *)
From S2P Require Export Compiler Sync RadarrUrl RadarrApply.

(** ** The changes of a diff *)

(** The payload a resource type comes with. *)
Definition payloadTyped (ch : Change) : bool :=
  switch (ch_ResourceType ch) [
    ([ResourceQualityProfile], match ch_Payload ch with PVideoQuality _ => true | _ => false end);
    ([ResourceCustomFormat], match ch_Payload ch with PCustomFormat _ => true | _ => false end);
    ([ResourceDownloadClient], match ch_Payload ch with PDownloadClientPtr _ => true | _ => false end);
    ([ResourceIndexer], match ch_Payload ch with PIndexerPtr _ => true | _ => false end);
    ([ResourceRootFolder], match ch_Payload ch with PRootFolderPtr _ => true | _ => false end);
    ([ResourceNamingConfig], match ch_Payload ch with PRadarrNaming _ => true | _ => false end);
    ([ResourceRemotePathMapping], match ch_Payload ch with PRemotePathMapping _ => true | _ => false end);
    ([ResourceNotification], match ch_Payload ch with PNotification _ => true | _ => false end);
    ([ResourceDelayProfile], match ch_Payload ch with PDelayProfile _ => true | _ => false end)] true.

(** The collection of the API a resource type lives in. *)
Definition collectionName (resourceType : string) : string :=
  switch resourceType [
    ([ResourceQualityProfile], "qualityprofile"); ([ResourceCustomFormat], "customformat");
    ([ResourceDownloadClient], "downloadclient"); ([ResourceIndexer], "indexer");
    ([ResourceRootFolder], "rootfolder"); ([ResourceNamingConfig], "config/naming");
    ([ResourceRemotePathMapping], "remotepathmapping"); ([ResourceNotification], "notification");
    ([ResourceDelayProfile], "delayprofile")] "".

Abbreviation changesOfAny := (DiffSteps.changesOfAny payloadTyped payloadTyped).
Abbreviation appends := (DiffSteps.appends payloadTyped payloadTyped).

(** The steps of [diffIR] in their order. *)
Definition diffSteps (o : nat → RangeOrder) (current desired : IR) : list (string * (ChangeSet → ChangeSet)) := [
  (ResourceQualityProfile, diffQualityProfiles current desired);
  (ResourceCustomFormat, diffCustomFormats (o 1%nat) current desired);
  (ResourceDownloadClient, diffDownloadClients (o 2%nat) current desired);
  (ResourceIndexer, diffIndexers (o 3%nat) current desired);
  (ResourceRootFolder, diffRootFolders (o 4%nat) current desired);
  (ResourceRemotePathMapping, diffRemotePathMappings (o 5%nat) current desired);
  (ResourceNamingConfig, diffNaming current desired);
  (ResourceNotification, diffNotifications (o 7%nat) current desired);
  (ResourceDelayProfile, diffDelayProfiles current desired)].

Lemma radarr_diffIR_steps o current desired : diffIR o current desired =
  foldl (λ cs (step : string * (ChangeSet → ChangeSet)), step.2 cs) emptyChangeSet (diffSteps o current desired).
Proof. done. Qed.

Lemma radarr_appends_quality current desired : appends ResourceQualityProfile (diffQualityProfiles current desired).
Proof. unfold diffQualityProfiles, DiffQualityProfiles, DiffVideoQualityProfiles. repeat case_match; auto with nebularr. Qed.

Lemma radarr_appends_naming current desired : appends ResourceNamingConfig (diffNaming current desired).
Proof. unfold diffNaming. repeat case_match; auto with nebularr. Qed.

Lemma radarr_appends_rootFolders o current desired : appends ResourceRootFolder (diffRootFolders o current desired).
Proof.
  unfold diffRootFolders. generalize (setOf (rf_Path <$> ir_RootFolders current)). intros known.
  generalize (rangeMap o 0 (indexBy (λ p : string, p) (rf_Path <$> ir_RootFolders desired))). intros l.
  induction l as [|[path p] l IH] using rev_ind; [apply appends_id|].
  destruct (path ∈? known) eqn:Ep.
  - destruct IH as [E IH]. split; [intros cs; rewrite !foldl_app; cbn [foldl]; rewrite Ep; apply E|].
    rewrite foldl_app. cbn [foldl]. by rewrite Ep.
  - eapply appends_then; [exact IH|by apply (appends_create payloadTyped payloadTyped _
      (mkChange ResourceRootFolder path None (PRootFolderPtr (mkRootFolderIR path "" ""))))|].
    intros cs. rewrite foldl_app. cbn [foldl]. by rewrite Ep.
Qed.

Lemma radarr_diffSteps_append o current desired :
  Forall (λ step : string * (ChangeSet → ChangeSet), appends step.1 step.2) (diffSteps o current desired).
Proof.
  repeat apply Forall_cons_2; [..|apply Forall_nil_2]; cbn [fst snd];
    auto using radarr_appends_quality, radarr_appends_rootFolders, radarr_appends_naming;
    by first [apply appends_named|apply appends_delays].
Qed.

Lemma radarr_diffIR_typed o current desired :
  let cs := diffIR o current desired in
  (∀ ch, ch ∈ cs_Creates cs → payloadTyped ch = true) ∧ (∀ ch, ch ∈ cs_Updates cs → payloadTyped ch = true).
Proof. eapply steps_typed; [apply radarr_diffSteps_append|done]. Qed.

(** ** The requests of a change *)

Section apply.
Context {S : Type} `{Service S} (P : relation S) `{!PreOrder P} (c : Client).
Abbreviation sends := (λ method r, ∀ body, steps P (send c method ("/api/v3/" +:+ r) body)).

(** Requests on a collection and on its members. *)
Definition quietly (name : string) : Prop :=
  (∀ method, sends method name) ∧ (∀ method id, sends method (name +:+ "/" +:+ Itoa id)%string).

Hypothesis get_quiet : ∀ r, plainOp r = true → sends "GET" r.

Lemma steps_read r : plainOp r = true → steps P (send c "GET" ("/api/v3/" +:+ r) None).
Proof. intros Hr. by apply get_quiet. Qed.

Lemma steps_expect text accepted r : steps P (expect text accepted r).
Proof. destruct r as [[status t] document]. unfold expect. case_match; auto with nebularr. Qed.
Lemma steps_getting what r : steps P r → steps P (getting what r).
Proof. unfold getting. auto with nebularr. Qed.
Lemma steps_decoding A `{FromJSON A} what document : steps P (decoding A what document).
Proof. unfold decoding. auto using steps_decode with nebularr. Qed.
#[local] Hint Resolve steps_expect steps_getting steps_decoding : nebularr.

Lemma steps_fetch A `{FromJSON A} what r : steps P r → steps P (fetch A what r).
Proof. intros Hr. unfold fetch. auto with nebularr. Qed.

Lemma steps_writing verb what accepted withBody r : steps P r → steps P (writing verb what accepted withBody r).
Proof.
  intros Hr. unfold writing. apply steps_bind; [done|auto with nebularr|]. intros [[status text] document].
  case_match; auto with nebularr.
Qed.

Lemma steps_findIDByName {R} `{FromJSON R} what one r (nameOf : R → option string) idOf name :
  steps P r → steps P (findIDByName what one r nameOf idOf name).
Proof.
  intros Hr. unfold findIDByName. apply steps_bind; [done|auto with nebularr|]. intros [[status text] document].
  apply steps_bind; [done|auto with nebularr|]. intros l. repeat case_match; auto with nebularr.
Qed.
#[local] Hint Resolve steps_fetch steps_writing steps_findIDByName : nebularr.

Lemma steps_buildProfile o ir : steps P (buildProfile o c ir).
Proof.
  unfold buildProfile, irToQualityProfile, buildFormatItems.
  apply steps_wrapErr, steps_bind; [done|apply steps_getting, (steps_read "qualityprofile/schema" eq_refl)|].
  intros a. apply steps_bind; [done|auto with nebularr|]. intros document.
  apply steps_bind; [done|auto with nebularr|]. intros schema. case_match; [by apply steps_ret|].
  apply steps_bind; [done| |intros ?; by apply steps_ret].
  apply steps_wrapErr, steps_bind; [done|apply steps_fetch, (steps_read "customformat" eq_refl)|].
  intros ?. by apply steps_ret.
Qed.

Ltac resource_clash :=
  repeat match goal with H : (_ =? _)%string = true |- _ => apply String.eqb_eq in H end;
  exfalso; subst; match goal with H : @eq string _ _ |- _ => vm_compute in H; discriminate H end.

(** What an operation does: it may look up the ID, or build the profile, and then
    makes the request on its collection. *)
Ltac own_requests Hc Hm :=
  first [apply steps_writing; first [apply Hc|apply Hm]
        |apply steps_bind; [done|first [apply steps_findIDByName, Hc|apply steps_buildProfile]
           |intros ?; own_requests Hc Hm]].
Ltac quiet_request :=
  match goal with
  | |- quietly _ → _ =>
      let Hc := fresh "Hcoll" in let Hm := fresh "Hmember" in
      intros [Hc Hm]; simpl in Hc, Hm; own_requests Hc Hm
  end.

Lemma steps_updateNamingConfig ir : quietly "config/naming" → steps P (updateNamingConfig c ir).
Proof.
  intros [Hc Hm]. simpl in Hc, Hm. unfold updateNamingConfig.
  apply steps_bind; [done|apply steps_getting, Hc|]. intros [[status text] document].
  apply steps_bind; [done|auto with nebularr|]. intros current. apply steps_writing, Hm.
Qed.

Lemma radarr_applyCreate_steps o ch tagID :
  payloadTyped ch = true → quietly (collectionName (ch_ResourceType ch)) → steps P (applyCreate o c tagID ch).
Proof.
  destruct ch as [rt n id p]. unfold payloadTyped, collectionName, applyCreate.
  cbn [ch_ResourceType ch_Payload switch existsb]. rewrite !orb_false_r.
  repeat case_match; try done; intros Ht; try (intros _; exact (steps_fail P _)); first [resource_clash|quiet_request].
Qed.

Lemma radarr_applyUpdate_steps o ch tagID :
  payloadTyped ch = true → quietly (collectionName (ch_ResourceType ch)) → steps P (applyUpdate o c tagID ch).
Proof.
  destruct ch as [rt n id p]. unfold payloadTyped, collectionName, applyUpdate.
  cbn [ch_ResourceType ch_Payload switch existsb]. rewrite !orb_false_r.
  repeat case_match; try done; intros Ht; try (intros _; exact (steps_fail P _));
    try (by apply steps_updateNamingConfig); first [resource_clash|quiet_request].
Qed.

Lemma radarr_applyDelete_steps ch :
  quietly (collectionName (ch_ResourceType ch)) → steps P (applyDelete c ch).
Proof.
  destruct ch as [rt n id p]. unfold collectionName, applyDelete, deleteByID.
  cbn [ch_ResourceType ch_Name ch_ID switch existsb]. rewrite !orb_false_r.
  repeat case_match; try (intros _; exact (steps_fail P _)); first [resource_clash|quiet_request].
Qed.
End apply.

Lemma radarr_send_noPanic {S} `{Service S} (c : Client) method path body : noPanic (send c method path body).
Proof.
  intros s. split; [done|]. intros why. unfold send. repeat case_match; try done; simplify_eq/=.
Qed.

(** Applying a diff never panics: every change has the payload that is asserted. *)
Lemma radarr_callbacks_return {S} `{Service S} c tagID o (od : nat → RangeOrder) current desired :
  let cs := diffIR od current desired in
  returns (applyCreate o c tagID) (cs_Creates cs) ∧ returns (applyUpdate o c tagID) (cs_Updates cs) ∧
  returns (applyDelete c) (cs_Deletes cs).
Proof.
  intros cs. destruct (radarr_diffIR_typed od current desired) as [Hc Hu].
  assert (Hq : ∀ name, quietly anything c name) by (split; intros; apply radarr_send_noPanic).
  assert (Hg : ∀ r, plainOp r = true → ∀ body, noPanic (send c "GET" ("/api/v3/" +:+ r) body))
    by (intros; apply radarr_send_noPanic).
  split_and!; intros ch s Hin; [apply (radarr_applyCreate_steps anything c)|apply (radarr_applyUpdate_steps anything c)
    |apply (radarr_applyDelete_steps anything c)]; auto; done.
Qed.

(** ** Custom formats on the wire *)

(** A specification that is sent and read back as its text. *)
Definition textual (spec : FormatSpecIR) : Prop :=
  fs_Type spec ∉ ["SourceSpecification"; "ResolutionSpecification"]%string.

Definition storedSpec (spec : FormatSpecIR) : RSpecification := {|
  xcs_Fields := Some [newField "value" (VString (fs_Value spec))];
  xcs_Id := None;
  xcs_Implementation := Some (fs_Type spec);
  xcs_ImplementationName := None;
  xcs_InfoLink := None;
  xcs_Name := Some (fs_Name spec);
  xcs_Negate := Some (fs_Negate spec);
  xcs_Presets := None;
  xcs_Required := Some (fs_Required spec) |}.

Definition xcf_set_Id (i : Z) (r : RCustomFormat) : RCustomFormat :=
  mkRCustomFormat (Some i) (xcf_IncludeCustomFormatWhenRenaming r) (xcf_Name r) (xcf_Specifications r).

Definition storedFormat (i : Z) (d : CustomFormatIR) : RCustomFormat :=
  mkRCustomFormat (Some i) (Some (cf_IncludeWhenRenaming d)) (Some (cf_Name d)) (Some (storedSpec <$> cf_Specifications d)).

Lemma radarr_decode_spec spec : textual spec →
  fromJSON (toJSON (mkMinimalSpec (fs_Name spec) (fs_Type spec) (fs_Negate spec) (fs_Required spec)
    (buildMinimalFields spec))) = Some (storedSpec spec).
Proof.
  unfold textual, buildMinimalFields. rewrite not_elem_of_cons, list_elem_of_singleton. intros [H1 H2].
  cbn [switch existsb]. rewrite !orb_false_r. destruct (String.eqb (fs_Type spec) "ReleaseTitleSpecification").
  - by destruct spec.
  - apply String.eqb_neq in H1 as ->. apply String.eqb_neq in H2 as ->. by destruct spec.
Qed.

Lemma radarr_decode_format id d : Forall textual (cf_Specifications d) → from_option fitsInt32 true id = true →
  fromJSON (toJSON (buildMinimalCustomFormat id d)) =
  Some (mkRCustomFormat id (Some (cf_IncludeWhenRenaming d)) (Some (cf_Name d)) (Some (storedSpec <$> cf_Specifications d))).
Proof.
  intros Hs Hid. set (minimal := λ spec, mkMinimalSpec (fs_Name spec) (fs_Type spec) (fs_Negate spec)
    (fs_Required spec) (buildMinimalFields spec)).
  assert (∀ l, Forall textual l →
    mapM (M := option) fromJSON (toJSON <$> (minimal <$> l)) = Some (storedSpec <$> l)) as HM.
  { induction 1 as [|spec l Hspec _ IH]; [done|]. rewrite !fmap_cons. cbn [mapM].
    pose proof (radarr_decode_spec spec Hspec : fromJSON (toJSON (minimal spec)) = _) as Hd. rewrite Hd. cbn [mbind option_bind].
    by rewrite IH. }
  specialize (HM _ Hs). unfold toJSON at 1, ToJSON_minimalCustomFormat, buildMinimalCustomFormat.
  cbn [mcf_ID mcf_Name mcf_IncludeCustomFormatWhenRenaming mcf_Specifications]. fold minimal.
  revert HM. generalize (toJSON <$> (minimal <$> cf_Specifications d)). intros docs HM.
  destruct id as [i|]; cbn -[fitsInt32]; simpl in Hid; rewrite ?Hid; cbn -[fitsInt32]; by rewrite HM.
Qed.

Lemma formatSpecToIR_stored spec : formatSpecToIR (storedSpec spec) = spec.
Proof. by destruct spec. Qed.

Lemma customFormatToIR_stored i d :
  customFormatToIR (storedFormat i d) = mkCustomFormatIR 0 (cf_Name d) (cf_IncludeWhenRenaming d) (cf_Specifications d).
Proof.
  assert (∀ l : list FormatSpecIR, formatSpecToIR <$> (storedSpec <$> l) = l) as Hl.
  { induction l as [|spec l IH]; [done|]. by rewrite !fmap_cons, formatSpecToIR_stored, IH. }
  exact (f_equal (mkCustomFormatIR 0 (cf_Name d) (cf_IncludeWhenRenaming d)) (Hl (cf_Specifications d))).
Qed.

(** What is read back equals what was asked for. *)
Lemma stored_equal i d : NoDup (fs_Name <$> cf_Specifications d) →
  op_equal customFormatOps (customFormatToIR (storedFormat i d)) d = true.
Proof.
  intros Hnd. rewrite customFormatToIR_stored. simpl. rewrite String.eqb_refl, eqb_reflx, Z.eqb_refl. simpl.
  apply forallb_forall. intros spec Hin%list_elem_of_In. rewrite (lookup_indexBy_NoDup _ _ spec) by done.
  unfold FormatSpecsEqual. by rewrite !String.eqb_refl, !eqb_reflx.
Qed.

(** ** The handlers of the custom formats *)

Abbreviation formatName r := (ptrToString (xcf_Name r)).

(** IDs are consistent, and a name has one format. *)
Definition formatsDistinct (v : gmap Z RCustomFormat) : Prop :=
  (∀ i r, v !! i = Some r → xcf_Id r = Some i ∧ fitsInt32 i = true) ∧
  (∀ i1 r1 i2 r2, v !! i1 = Some r1 → v !! i2 = Some r2 → formatName r1 ≠ ""%string →
     formatName r1 = formatName r2 → i1 = i2).

(** There are IDs for formats of the [names] beside those of other names. *)
Definition otherName (names : list string) (ir : Z * RCustomFormat) : Prop := formatName ir.2 ∉ names.
#[export] Instance otherName_dec names ir : Decision (otherName names ir).
Proof. unfold otherName. apply _. Defined.
Definition roomFor (names : list string) (v : gmap Z RCustomFormat) : Prop :=
  Z.of_nat (size (filter (otherName names) v) + length names) ≤ int32Max.

Lemma roomFor_enough names v : Z.of_nat (size v + length names) ≤ int32Max → roomFor names v.
Proof.
  intros Hr. unfold roomFor. pose proof (map_subseteq_size _ _ (map_filter_subseteq (otherName names) v)). lia.
Qed.

Lemma roomFor_create names v n :
  formatsDistinct v → roomFor names v → ""%string ∉ names → n ∈ names →
  (∀ i r, v !! i = Some r → formatName r ≠ n) → Z.of_nat (size v) < int32Max.
Proof.
  intros [_ Hd] Hr He Hn Habs. unfold roomFor in Hr.
  set (own := filter (λ ir : Z * RCustomFormat, ¬ otherName names ir) v).
  assert (size v = size (filter (otherName names) v) + size own)%nat as ->.
  { rewrite <-map_size_disj_union by apply map_disjoint_filter_complement.
    unfold own. by rewrite map_filter_union_complement. }
  assert (∀ i r, own !! i = Some r → v !! i = Some r ∧ formatName r ∈ names) as Hown.
  { intros i r [Hi Hni]%map_lookup_filter_Some. split; [done|]. unfold otherName in Hni. simpl in Hni.
    by apply dec_stable in Hni. }
  assert (length (map_to_list own) ≤ length (filter (λ m, m ≠ n) names))%nat as Hle.
  { rewrite <-(length_fmap (λ ir : Z * RCustomFormat, formatName ir.2)). apply submseteq_length, NoDup_submseteq.
    - apply NoDup_fmap_2_strong; [|apply NoDup_map_to_list].
      intros [i1 r1] [i2 r2] H1%elem_of_map_to_list H2%elem_of_map_to_list E. simpl in E.
      destruct (Hown _ _ H1) as [V1 N1], (Hown _ _ H2) as [V2 _].
      assert (i1 = i2) as -> by (apply (Hd i1 r1 i2 r2); [done..| |done]; by intros E'; rewrite E' in N1).
      congruence.
    - intros m ([i r] & -> & Hi%elem_of_map_to_list)%list_elem_of_fmap. destruct (Hown _ _ Hi) as [Hv Hin].
      apply list_elem_of_filter. split; [by apply (Habs i)|done]. }
  assert (length (filter (λ m, m ≠ n) names) < length names)%nat as Hlt by (apply (length_filter_lt _ _ n); [done|by intros []]).
  rewrite length_map_to_list in Hle. lia.
Qed.

Lemma roomFor_insert names v i d :
  roomFor names v → cf_Name d ∈ names → roomFor names (<[i := storedFormat i d]> v).
Proof.
  unfold roomFor. intros Hr Hd. rewrite map_filter_insert_False by (intros Hn; by apply Hn).
  rewrite map_filter_delete. pose proof (map_subseteq_size _ _ (delete_subseteq (filter (otherName names) v) i)). lia.
Qed.

Lemma roomFor_delete names v i : roomFor names v → roomFor names (delete i v).
Proof.
  unfold roomFor. intros Hr. rewrite map_filter_delete.
  pose proof (map_subseteq_size _ _ (delete_subseteq (filter (otherName names) v) i)). lia.
Qed.

Lemma formatsDistinct_insert v i d :
  formatsDistinct v → fitsInt32 i = true → (∀ j r, v !! j = Some r → formatName r = cf_Name d → j = i) →
  formatsDistinct (<[i := storedFormat i d]> v).
Proof.
  intros [Hi Hn] Hfit Honly. split.
  - intros j r [[<- <-]|[_ Hj]]%lookup_insert_Some; [done|by apply Hi].
  - intros j1 r1 j2 r2 [[<- <-]|[Hne1 H1]]%lookup_insert_Some [[<- <-]|[Hne2 H2]]%lookup_insert_Some Hp E; try done.
    + symmetry. by apply (Honly j2 r2).
    + by apply (Honly j1 r1).
    + by apply (Hn j1 r1 j2 r2).
Qed.

Lemma formatsDistinct_delete v i : formatsDistinct v → formatsDistinct (delete i v).
Proof.
  intros [Hi Hn]. split.
  - intros j r [_ Hj]%lookup_delete_Some. by apply Hi.
  - intros j1 r1 j2 r2 [_ H1]%lookup_delete_Some [_ H2]%lookup_delete_Some. by apply Hn.
Qed.

Section formats.
Context {S : Type} `{Service S} (names : list string) (o : RangeOrder) (c : Client) (tagID : Z) (base : slashBase c).
Context (view : S → gmap Z RCustomFormat).

(** A format the configuration asks for, that Radarr gives back as it was sent. *)
Definition formatOk (d : CustomFormatIR) : Prop :=
  cf_Name d ∈ names ∧ Forall textual (cf_Specifications d) ∧ NoDup (fs_Name <$> cf_Specifications d).

Definition formatCollection : Collection S RCustomFormat := mkCollection "api/v3/" "customformat" view xcf_set_Id.

Definition managedFormats : Managed RCustomFormat CustomFormatIR S customFormatOps :=
  mkManaged (λ r, ptrToInt (xcf_Id r)) (λ r, negb (String.eqb (formatName r) "")) customFormatToIR storedFormat
    view (λ s, formatsDistinct (view s) ∧ roomFor names (view s)) formatOk
    (applyCreate o c tagID) (applyUpdate o c tagID) (applyDelete c).

Lemma formatsDistinct_wellFormed v : formatsDistinct v → wellFormed managedFormats v.
Proof.
  intros [Hi Hn]. split.
  - intros i r Hr. simpl. by destruct (Hi i r Hr) as [-> _].
  - intros n i1 r1 i2 r2 (H1 & Hm & E1) (H2 & _ & E2). cbn [managedFormats mg_managed mg_toIR customFormatOps op_key
      customFormatToIR cf_Name] in *.
    apply negb_true_iff, String.eqb_neq in Hm. apply (Hn i1 r1 i2 r2); congruence.
Qed.

Context (others : list string) `{!Laws32 c formatCollection others} (names_some : ""%string ∉ names).

Lemma list_formats s : ∃ text doc l,
  GetApiV3Customformat c s = (s, Ret (200, text, Some doc)) ∧ fromJSON doc = Some l ∧ listing (view s) l.
Proof.
  destruct (l32_list c (col := formatCollection) s) as (text & doc & l & Hs & Hd & Hl).
  exists text, doc, l. split; [|done]. unfold GetApiV3Customformat.
  change "/api/v3/customformat"%string with ("/api/v3/" +:+ "customformat")%string.
  cbn [formatCollection col_api col_name] in Hs. unfold collectionPath in Hs.
  rewrite send_plain by done. by rewrite Hs.
Qed.

(** The format of a name is found by it. *)
Lemma find_format s n i r :
  formatsDistinct (view s) → view s !! i = Some r → formatName r = n → n ≠ ""%string →
  findCustomFormatIDByName c n s = (s, Ret i).
Proof.
  intros [Hids Hn] Hi Hr Hp. destruct (list_formats s) as (text & doc & l & HG & Hd & Hl).
  destruct (list_find_elem_of (λ r, formatName r = n) l r) as [[k r'] Hf];
    [by apply (elem_of_listing (view s)); [|exists i]|done|].
  unfold findCustomFormatIDByName, findIDByName, getting, decoding, bind, wrapErr. rewrite HG. unfold decode. simpl.
  rewrite Hd. simpl. rewrite Hf. simpl.
  apply list_find_Some in Hf as (Hk%list_elem_of_lookup_2 & Hr' & _).
  apply (elem_of_listing (view s)) in Hk as [j Hj]; [|done]. assert (j = i) as ->.
  { apply (Hn j r' i r); [done..| |]; congruence. }
  by destruct (Hids i r' Hj) as [-> _].
Qed.

Lemma create_format s d : formatOk d → formatsDistinct (view s) → roomFor names (view s) →
  (∀ i r, view s !! i = Some r → formatName r ≠ cf_Name d) →
  ∃ s' i, createCustomFormat c d s = (s', Ret tt) ∧ fitsInt32 i = true ∧ view s !! i = None ∧
    view s' = <[i := storedFormat i d]> (view s).
Proof.
  intros (Hn & Ht & _) Hd Hr Habs.
  destruct (l32_post c (col := formatCollection) s _ _ (radarr_decode_format None d Ht eq_refl))
    as (s' & text & doc & i & HP & Hfit & Hnone & Hv); [by eapply roomFor_create|].
  exists s', i. split; [|done]. unfold createCustomFormat, writing, PostApiV3CustomformatWithBody, bind, wrapErr.
  change "/api/v3/customformat"%string with ("/api/v3/" +:+ "customformat")%string.
  cbn [formatCollection col_api col_name] in HP. unfold collectionPath in HP.
  rewrite send_plain by done. by rewrite HP.
Qed.

Lemma update_format s i r d : formatOk d → formatsDistinct (view s) → view s !! i = Some r →
  formatName r = cf_Name d →
  ∃ s', updateCustomFormat c d s = (s', Ret tt) ∧ view s' = <[i := storedFormat i d]> (view s).
Proof.
  intros (Hn & Ht & _) Hd Hi Hr. assert (fitsInt32 i = true) as Hfit by apply (proj1 Hd i r Hi).
  destruct (l32_put c (col := formatCollection) s i _ _ (radarr_decode_format (Some i) d Ht Hfit) Hfit)
    as (s' & status & text & doc & HP & Hst & Hv); [by eexists|].
  exists s'. split; [|done]. unfold updateCustomFormat. rewrite (bind_ok _ _ s s i)
    by (apply (find_format s _ i r); [done..|by intros E; rewrite E in Hn]).
  unfold writing, PutApiV3CustomformatIdWithBody, bind, wrapErr.
  change ("/api/v3/customformat/" +:+ Itoa i)%string with ("/api/v3/" +:+ "customformat" +:+ "/" +:+ Itoa i)%string.
  rewrite send_plain by (done || by apply plainOp_member).
  cbn [formatCollection col_api col_name] in HP. unfold memberPath in HP.
  rewrite HP. by destruct Hst as [-> | ->].
Qed.

Lemma delete_format s i r n : formatsDistinct (view s) → view s !! i = Some r → formatName r = n → n ≠ ""%string →
  ∃ s', deleteCustomFormat c n s = (s', Ret tt) ∧ view s' = delete i (view s).
Proof.
  intros Hd Hi Hr Hn. assert (fitsInt32 i = true) as Hfit by apply (proj1 Hd i r Hi).
  destruct (l32_delete c (col := formatCollection) s i Hfit) as (s' & text & doc & HP & Hv); [by eexists|].
  exists s'. split; [|done]. unfold deleteCustomFormat. rewrite (bind_ok _ _ s s i) by (by apply (find_format s _ i r)).
  rewrite (proj2 (int32_fits_iff i) Hfit). unfold writing, DeleteApiV3CustomformatId, bind, wrapErr.
  change ("/api/v3/customformat/" +:+ Itoa i)%string with ("/api/v3/" +:+ "customformat" +:+ "/" +:+ Itoa i)%string.
  rewrite send_plain by (done || by apply plainOp_member).
  cbn [formatCollection col_api col_name] in HP. unfold memberPath in HP.
  by rewrite HP.
Qed.

#[export] Instance managedFormats_laws : ManagedLaws managedFormats.
Proof.
  split; cbn [managedFormats mg_id mg_managed mg_toIR mg_make mg_view mg_inv mg_ok mg_create mg_update mg_delete].
  - done.
  - intros i d [Hn _]. apply negb_true_iff, String.eqb_neq. simpl. intros E. by rewrite E in Hn.
  - done.
  - intros i d (_ & _ & Hd). by apply stored_equal.
  - intros s n d [Hd Hr] Hok <- Habs.
    assert (∀ i r, view s !! i = Some r → formatName r ≠ cf_Name d) as Habs'.
    { intros i r Hi E. apply (Habs i r). split; [done|split; [|exact E]].
      apply negb_true_iff, String.eqb_neq. intros E'. destruct Hok as [Hok _]. by rewrite <-E, E' in Hok. }
    destruct (create_format s d) as (s' & i & HP & Hfit & Hn & Hv); [done..|].
    exists s', i. rewrite Hv. split; [exact HP|split; [split|done]].
    + apply formatsDistinct_insert; [done..|]. intros j r Hj E. by destruct (Habs' j r).
    + apply roomFor_insert; [done|]. apply Hok.
  - intros s n i r d [Hd Hr] Hok <- _ (Hi & Hm & Hn). cbn [managedFormats mg_managed mg_toIR customFormatOps op_key customFormatToIR cf_Name] in Hm, Hn.
    destruct (update_format s i r d Hok Hd Hi Hn) as (s' & HP & Hv). exists s'. rewrite Hv.
    split; [exact HP|split; [split|done]].
    + apply formatsDistinct_insert; [done|apply (proj1 Hd i r Hi)|]. intros j r' Hj E. symmetry.
      apply (proj2 Hd i r j r'); [done..| |congruence]. apply negb_true_iff, String.eqb_neq in Hm. exact Hm.
    + apply roomFor_insert; [done|]. apply Hok.
  - intros s n i r [Hd Hr] _ (Hi & Hm & Hn). cbn [managedFormats mg_managed mg_toIR customFormatOps op_key customFormatToIR cf_Name] in Hm, Hn.
    apply negb_true_iff, String.eqb_neq in Hm.
    destruct (delete_format s i r n Hd Hi Hn) as (s' & HP & Hv); [congruence|]. exists s'. rewrite Hv.
    split; [exact HP|split; [split|done]]; [by apply formatsDistinct_delete|by apply roomFor_delete].
Qed.
End formats.

(** ** One sync *)

Section sync.
Context {S : Type} `{Service S}.

(** The steps of a reconciliation that concern the adapter. *)
Definition radarrSync (now : Z) (od : nat → RangeOrder) (o : RangeOrder) (conn : ConnectionIR) (desired : IR)
    : M S (option ApplyResult * option error) :=
  let* current := CurrentState now conn in
  let* changes := Diff od current desired None in
  Apply o conn changes.

(** The ownership tag exists and has the ID [tagID]. *)
Definition radarrTagKnown (c : Client) (tagID : Z) : Prop := ∀ s, ∃ text doc tags k tag,
  serve c (request c "GET" "api/v3/tag" None) s = (s, Answer 200 text (Some doc)) ∧
  fromJSON doc = Some tags ∧
  list_find (λ tag : RTag, ptrToString (xt_Label tag) = OwnershipTagName) tags = Some (k, tag) ∧
  ptrToInt (xt_Id tag) = tagID.

(** The collections of the other resources. *)
Definition otherCollections : list string :=
  ["qualityprofile"; "downloadclient"; "indexer"; "rootfolder"; "config/naming"; "remotepathmapping"; "notification";
   "delayprofile"].

Context (conn : ConnectionIR) (tagID : Z) (o : RangeOrder).
Abbreviation c := (newClient conn).
Context (base : slashBase c) (known : radarrTagKnown c tagID).
Context (view : S → gmap Z RCustomFormat).
Abbreviation col := (formatCollection view).
Context `{!Laws32 c col otherCollections}.
Abbreviation P := (sameCollection col).

Lemma radarr_getOwnershipTagID_known s : getOwnershipTagID c s = (s, Ret tagID).
Proof.
  destruct (known s) as (text & doc & tags & k & tag & Hs & Hd & Hf & Hid).
  unfold getOwnershipTagID, fetch, getting, decoding, bind, wrapErr, GetApiV3Tag.
  change "/api/v3/tag"%string with ("/api/v3/" +:+ "tag")%string. rewrite send_plain by done.
  change ("api/v3/" +:+ "tag")%string with "api/v3/tag"%string. rewrite Hs. unfold decode. simpl. rewrite Hd. simpl.
  rewrite Hf. simpl. by rewrite Hid.
Qed.

Lemma radarr_Apply_known changes s :
  Apply o conn changes s =
  (let* r := ApplyChanges changes (applyCreate o c tagID) (applyUpdate o c tagID) (applyDelete c) in
   ret (Some r, None)) s.
Proof.
  assert (ensureOwnershipTag c s = (s, Ret tagID)) as HE
    by (unfold ensureOwnershipTag; by rewrite (bind_attempt_ret _ _ _ _ _ (radarr_getOwnershipTagID_known s))).
  unfold Apply. by rewrite (bind_attempt_ret _ _ _ _ _ HE).
Qed.

Lemma radarr_get_quiet r body : plainOp r = true → steps P (send c "GET" ("/api/v3/" +:+ r) body).
Proof. intros Hr. apply steps_send; [done|typeclasses eauto|done|apply (l32_get c (col := col))]. Qed.

Lemma radarr_quiet_others name : plainOp name = true → name ∈ otherCollections → quietly P c name.
Proof.
  intros Hp Hn. destruct (l32_others c (col := col) name Hn) as [Hc Hm].
  split; intros; (apply steps_send; [done|typeclasses eauto| |]); [done|apply Hc|by apply plainOp_member|apply Hm].
Qed.

Lemma radarr_orZero_steps {A B} (zero : B) (f : A → B) (m : M S A) s :
  steps P m → ∃ s' b, orZero zero f m s = (s', Ret b) ∧ P s s'.
Proof.
  intros Hm. destruct (Hm s) as [HP Hn]. unfold orZero, bind, attempt.
  destruct (m s) as [s' [a|e|why]]; [by eexists _, _..|by destruct (Hn why)].
Qed.

Lemma steps_fetched A `{FromJSON A} {B} what r (f : A → B) : plainOp r = true →
  steps P (let* x := fetch A what (send c "GET" ("/api/v3/" +:+ r) None) in ret (f x)).
Proof.
  intros Hr. apply steps_bind; [typeclasses eauto| |intros a; apply steps_ret; typeclasses eauto].
  apply steps_fetch; [typeclasses eauto|]. by apply radarr_get_quiet.
Qed.

Ltac read_next r s' HP :=
  match goal with
  | |- context [bind (orZero ?z ?f ?g) ?k ?s] =>
      let E := fresh "E" in let b := fresh "b" in
      destruct (radarr_orZero_steps z f g s) as (s' & b & E & HP); [by apply (steps_fetched _ _ r)|];
      unfold bind at 1; rewrite E; clear E
  end.

(** The profile that is read holds no custom formats. *)
Lemma quality_read s : ∃ s' profile,
  orZero None head (getManagedQualityProfiles c tagID) s = (s', Ret profile) ∧ P s s' ∧
  from_option vq_CustomFormats [] profile = [].
Proof.
  pose proof (radarr_get_quiet "qualityprofile" None eq_refl) as Hg.
  assert (steps P (fetch (list RQualityProfile) "quality profiles" (GetApiV3Qualityprofile c))) as Hf
    by (apply steps_fetch; [typeclasses eauto|exact Hg]).
  destruct (Hf s) as [HP Hn]. unfold orZero, getManagedQualityProfiles, bind, attempt.
  destruct (fetch _ _ _ s) as [s' [l|e|why]]; [|by eexists _, _|by destruct (Hn why)].
  eexists _, _. split; [reflexivity|]. split; [exact HP|]. by destruct (filter _ l).
Qed.

Lemma managed_formats names l :
  filter (λ ir, cf_Name ir ≠ ""%string) (customFormatToIR <$> l) = managedIR (managedFormats names o c tagID view) l.
Proof.
  unfold managedIR. induction l as [|r l IH]; [done|]. rewrite fmap_cons.
  cbn [managedFormats mg_managed mg_toIR] in *.
  destruct (String.eqb_spec (formatName r) "") as [E|E].
  - rewrite filter_cons_False, filter_cons_False; [exact IH|by rewrite E|]. intros Hn. by apply Hn.
  - rewrite filter_cons_True, filter_cons_True, fmap_cons by (done || by apply negb_true_iff, String.eqb_neq).
    by rewrite IH.
Qed.

Lemma formatsOf_withFormats profile formats now clients indexers folders mappings naming il mm auth nt dp :
  formatsOf (currentIR now conn (withFormats profile formats) clients indexers folders mappings naming il mm auth nt dp)
  = match formats with [] => from_option vq_CustomFormats [] profile | _ => formats end.
Proof. unfold formatsOf. simpl. by destruct formats, profile as [[]|]. Qed.

(** What is read: the formats that have a name; and with one of them the
    representation has a profile, read or not. *)
Lemma formats_read names now s : ∃ s' cur l, CurrentState now conn s = (s', Ret cur) ∧
  view s' = view s ∧ listing (view s) l ∧
  formatsOf cur = managedIR (managedFormats names o c tagID view) l ∧
  (formatsOf cur ≠ [] → is_Some (ir_Quality cur ≫= q_Video)).
Proof.
  unfold CurrentState, bind at 1, attempt. rewrite radarr_getOwnershipTagID_known.
  destruct (quality_read s) as (s1 & profile & E1 & H1 & Hprofile). unfold bind at 1. rewrite E1.
  destruct (list_formats c base view otherCollections s1) as (text & doc & l & HG & Hd & Hl).
  assert (orZero [] id (getManagedCustomFormats c) s1 = (s1, Ret (managedIR (managedFormats names o c tagID view) l))) as EF.
  { unfold orZero, getManagedCustomFormats, fetch, getting, decoding, bind, attempt, wrapErr. rewrite HG.
    unfold decode. simpl. rewrite Hd. simpl. by rewrite managed_formats with (names := names). }
  unfold bind at 1. rewrite EF.
  read_next "downloadclient"%string s2 H2. read_next "indexer"%string s3 H3. read_next "rootfolder"%string s4 H4.
  read_next "remotepathmapping"%string s5 H5. read_next "config/naming"%string s6 H6.
  read_next "importlist"%string s7 H7. read_next "config/mediamanagement"%string s8 H8.
  read_next "config/host"%string s9 H9. read_next "notification"%string s10 H10. read_next "delayprofile"%string s11 H11.
  eexists _, _, l. split; [reflexivity|]. unfold sameCollection in *. cbn [formatCollection col_view] in *.
  assert (view s1 = view s) as E by congruence. split; [congruence|]. split; [by rewrite <-E|].
  rewrite formatsOf_withFormats, Hprofile.
  destruct (managedIR _ l) as [|f fs]; [by split|]. split; [done|]. intros _. simpl. by destruct profile as [[]|].
Qed.

(** A resource type whose requests leave the custom formats alone. *)
Definition otherKind (rt : string) : Prop :=
  rt ≠ ResourceCustomFormat ∧ plainOp (collectionName rt) = true ∧ collectionName rt ∈ otherCollections.

Lemma formats_converge now od desired s :
  let names := cf_Name <$> formatsOf desired in
  let m := managedFormats names o c tagID view in
  formatsDistinct (view s) → Z.of_nat (size (view s) + length names) ≤ int32Max → ""%string ∉ names →
  Forall (formatOk names) (formatsOf desired) →
  ∃ s2 r, radarrSync now od o conn desired s = (s2, Ret (Some r, None)) ∧
    (∀ e, e ∈ ar_Errors r → ch_ResourceType (ae_Change e) ≠ ResourceCustomFormat) ∧
    formatsDistinct (view s2) ∧ unmanagedKept m (view s) (view s2) ∧
    (∀ l, listing (view s2) l → inSync customFormatOps (managedIR m l) (formatsOf desired)) ∧
    ∃ s3 current, CurrentState now conn s2 = (s3, Ret current) ∧
      inSync customFormatOps (formatsOf current) (formatsOf desired).
Proof.
  intros names m Hwf Hroom Hne Hok.
  pose proof (managedFormats_laws names o c tagID base view otherCollections Hne) as HL.
  assert (Hsame : ∀ A (f : M S A), steps P f → steps (sameView m) f).
  { intros A f Hf s'. destruct (Hf s') as [HP Hn]. split; [|done]. unfold sameView, sameCollection in *.
    cbn [formatCollection col_view m managedFormats mg_view mg_inv] in *. by rewrite HP. }
  destruct (kind_sync m payloadTyped payloadTyped ResourceCustomFormat otherKind) with
    (part := formatsOf) (diffSteps := λ (_ : S) cur des, diffSteps od cur des) (o := od 1%nat)
    (read := CurrentState now conn) (apply := Apply o conn) (desired := desired) (w := s)
    as (s2 & r & E & Herr & [[Hinv _] _] & Hkeep & Hsync & Hread); try done.
  - intros ch (_ & Hp & Hq) Ht. apply Hsame, radarr_applyCreate_steps; auto using radarr_quiet_others, radarr_get_quiet.
    typeclasses eauto.
  - intros ch (_ & Hp & Hq) Ht. apply Hsame, radarr_applyUpdate_steps; auto using radarr_quiet_others, radarr_get_quiet.
    typeclasses eauto.
  - intros ch (_ & Hp & Hq). apply Hsame, radarr_applyDelete_steps; auto using radarr_quiet_others, radarr_get_quiet.
    typeclasses eauto.
  - by intros rt [? _].
  - intros _ cur des. apply radarr_diffSteps_append.
  - intros _ cur des. exists [(ResourceQualityProfile, diffQualityProfiles cur des)]. eexists. eexists.
    split; [reflexivity|]. split; [reflexivity|].
    repeat constructor; (done || by apply (bool_decide_unpack _)).
  - apply radarr_Apply_known.
  - intros s'. destruct (formats_read names now s') as (s1 & cur & l & E & Hv & Hl & Hp & _). exists s1, cur, l.
    split_and!; [done| |done|done]. unfold sameView. cbn. by rewrite Hv.
  - split; [split; [done|by apply roomFor_enough]|by apply formatsDistinct_wellFormed].
  - exists s2, r. split_and!; done.
Qed.
End sync.

(** ** What a configuration asks for *)

(** The custom formats Radarr is told of are those of the preset. *)
Definition isPresetFormat (d : CustomFormatIR) : Prop := ∃ isReject format, formatToCustomFormat format isReject = Some d.

Lemma addFormats_preset isReject score formats st :
  Forall isPresetFormat st.1 → Forall isPresetFormat (addFormats isReject score formats st).1.
Proof.
  revert st. induction formats as [|f l IH]; intros st Hst; [done|]. unfold addFormats. cbn [foldl].
  destruct (formatToCustomFormat f isReject) as [d|] eqn:E; apply IH; [|done].
  cbn [fst]. apply Forall_app_2; [done|]. apply Forall_singleton. by exists isReject, f.
Qed.

Lemma compiled_formats `{Digest} now input : ci_App input = AppRadarr →
  Forall isPresetFormat (formatsOf (Compile now input)).
Proof.
  intros Happ. assert (Forall isPresetFormat (formatsOf (compileUnpruned now input))) as Hun.
  { unfold compileUnpruned, compileQuality. rewrite Happ. cbn -[ExpandVideoPreset].
    unfold formatsOf, populateScores. cbn -[ExpandVideoPreset]. unfold ExpandVideoPreset.
    destruct (ci_CustomFormats input); cbn; apply addFormats_preset, addFormats_preset, Forall_nil_2. }
  assert (∀ i j, ir_Quality i ≫= q_Video = ir_Quality j ≫= q_Video → formatsOf i = formatsOf j) as Heq
    by (intros i j E; unfold formatsOf; by rewrite E).
  unfold Compile. destruct (ci_Capabilities input) as [caps|];
    [|by rewrite (Heq _ (compileUnpruned now input)) by (by destruct (compileUnpruned now input))].
  revert Hun. generalize (compileUnpruned now input). intros i Hi.
  assert (formatsOf (pruneUnsupported i caps).1 = formatsOf i) as Hp.
  { unfold pruneUnsupported. transitivity (formatsOf (pruneVideoTiers caps (i, [])).1).
    - apply Heq. unfold pruneIndexers, pruneDownloadClients. destruct (pruneVideoTiers caps (i, [])) as [[] u]. cbn.
      repeat case_match; simplify_eq/=; done.
    - unfold pruneVideoTiers, formatsOf. destruct (ir_Quality i) as [[[[]|] ? ?]|] eqn:E; cbn; rewrite ?E; [|done..].
      case_match. destruct i. by cbn. }
  destruct (pruneUnsupported i caps) as [i' u]. cbn [fst] in Hp.
  rewrite (Heq _ i') by (by destruct i'). by rewrite Hp.
Qed.

Lemma preset_format_ok names d : isPresetFormat d → cf_Name d ∈ names → formatOk names d.
Proof.
  intros (b & f & E) Hn. split; [done|]. unfold formatToCustomFormat, getFormatSpecs in E.
  destruct (formatPatterns !! f); [|done]. injection E as <-. cbn. split.
  - apply Forall_singleton. by apply (bool_decide_unpack _).
  - apply NoDup_singleton.
Qed.

(** The name of a preset's format determines it. *)
Lemma preset_format_name d d' : isPresetFormat d → isPresetFormat d' → cf_Name d = cf_Name d' → d = d'.
Proof.
  intros (b & f & E) (b' & f' & E') Hn. pose proof (formatToCustomFormat_name _ _ _ E) as [H1 _].
  pose proof (formatToCustomFormat_name _ _ _ E') as [H2 _]. rewrite H1, H2 in Hn.
  assert (b = b' ∧ f = f') as [-> ->].
  { destruct b, b'; try (by destruct (prefer_not_reject f f')); try (by destruct (prefer_not_reject f' f));
      apply append_inj_r in Hn; done. }
  congruence.
Qed.

(** None of them is empty, or is one the configuration defines itself. *)
Lemma preset_format_prefix d : isPresetFormat d → cf_Name d ≠ ""%string ∧ ∀ cfg n, cf_Name d ≠ managedName cfg n.
Proof.
  intros (b & f & E). pose proof (formatToCustomFormat_name _ _ _ E) as [-> _].
  split; [by destruct b|]. intros cfg n. unfold managedName. by destruct b.
Qed.

Lemma compiled_own_formats `{Digest} now input d :
  d ∈ ir_CustomFormats (Compile now input) → ∃ n, cf_Name d = managedName (ci_ConfigName input) n.
Proof.
  assert (ir_CustomFormats (Compile now input) = ir_CustomFormats (compileUnpruned now input)) as ->.
  { unfold Compile. destruct (ci_Capabilities input) as [caps|]; [|by destruct (compileUnpruned now input)].
    pose proof (pruneUnsupported_spec (compileUnpruned now input) caps) as HP.
    destruct (pruneUnsupported _ caps) as [i u]. destruct HP as (_ & _ & _ & _ & <-). by destruct i. }
  unfold compileUnpruned. destruct (compileQuality _ _). cbn [ir_CustomFormats].
  destruct (videoOrAudioApp (ci_App input)); [|by intros ?%not_elem_of_nil].
  intros (cf & -> & _)%list_elem_of_fmap. by exists (cfi_Name cf).
Qed.

Section theorems.
Context {S : Type} `{Service S} `{Digest}.
Context (conn : ConnectionIR) (tagID : Z) (o : RangeOrder).
Abbreviation c := (newClient conn).
Context (base : slashBase c) (known : radarrTagKnown c tagID).
Context (view : S → gmap Z RCustomFormat) `{!Laws32 c (formatCollection view) otherCollections}.

(** There is room for the formats that are asked for, beside all there are. *)
Definition hasRoom (s : S) (desired : IR) : Prop :=
  Z.of_nat (size (view s) + length (formatsOf desired)) ≤ int32Max.

Lemma compiled_converge now od input s :
  let desired := Compile now input in
  let m := managedFormats (cf_Name <$> formatsOf desired) o c tagID view in
  ci_App input = AppRadarr → formatsDistinct (view s) → hasRoom s desired →
  ∃ s2 r, radarrSync now od o conn desired s = (s2, Ret (Some r, None)) ∧
    (∀ e, e ∈ ar_Errors r → ch_ResourceType (ae_Change e) ≠ ResourceCustomFormat) ∧
    formatsDistinct (view s2) ∧ unmanagedKept m (view s) (view s2) ∧
    (∀ n d, indexBy cf_Name (formatsOf desired) !! n = Some d → ∃ i f, view s2 !! i = Some f ∧ formatName f = n ∧
       CustomFormatsEqual (Some (customFormatToIR f)) (Some d) = true) ∧
    (∀ i f, view s2 !! i = Some f → formatName f ≠ ""%string → formatName f ∈ (cf_Name <$> formatsOf desired)) ∧
    ∃ s3 current, CurrentState now conn s2 = (s3, Ret current) ∧
      inSync customFormatOps (formatsOf current) (formatsOf desired).
Proof.
  intros desired m Happ Hwf Hroom. pose proof (compiled_formats now input Happ) as Hpre. fold desired in Hpre.
  assert (""%string ∉ cf_Name <$> formatsOf desired) as Hne.
  { intros (d & E & Hd)%list_elem_of_fmap. rewrite Forall_forall in Hpre. by destruct (preset_format_prefix d (Hpre d Hd)). }
  destruct (formats_converge conn tagID o base known view now od desired s Hwf) as
    (s2 & r & E & Herr & Hwf2 & Hkeep & Hsync & Hread); [by rewrite length_fmap|done| |].
  { rewrite Forall_forall in *. intros d Hd. apply preset_format_ok; [by apply Hpre|by apply list_elem_of_fmap_2]. }
  pose proof (managedFormats_laws (cf_Name <$> formatsOf desired) o c tagID base view otherCollections Hne) as HL.
  destruct (list_formats c base view otherCollections s2) as (text & doc & l & _ & _ & Hl).
  destruct (in_sync_view m (view s2) l _ (formatsDistinct_wellFormed _ o c tagID view (view s2) Hwf2) Hl (Hsync l Hl))
    as [Hw Ha].
  exists s2, r. split_and!; try done.
  - intros n d Hd. destruct (Hw n d Hd) as (i & f & (Hi & _ & Hk) & He). by exists i, f.
  - intros i f Hi Hf. destruct (indexBy cf_Name (formatsOf desired) !! formatName f) as [d|] eqn:Ed.
    + apply lookup_indexBy_Some in Ed as [<- Hd]. by apply list_elem_of_fmap_2.
    + destruct (Ha _ Ed i f). split_and!; [done|by apply negb_true_iff, String.eqb_neq|done].
Qed.

(** C10: the custom formats of a configuration in Radarr: a sync makes Radarr's
    formats those of the configuration's preset.  The desired state is what [Compile]
    makes of a configuration of a Radarr; Radarr has the ownership tag, each name at
    most once, IDs left for the formats, and its custom formats behave as documented.
    Then the sync returns a result in which no change of a custom format failed,
    whatever happens to the other resources; every format of the preset is there, as
    asked for; every format of another name is gone, the user's own included, and
    those the configuration itself defines are not there; the next diff has no change
    for a custom format. *)
Theorem radarr_formats_sync now od input s :
  let desired := Compile now input in
  ci_App input = AppRadarr → formatsDistinct (view s) → hasRoom s desired →
  ∃ s2 r s3 current, radarrSync now od o conn desired s = (s2, Ret (Some r, None)) ∧
    (∀ e, e ∈ ar_Errors r → ch_ResourceType (ae_Change e) ≠ ResourceCustomFormat) ∧
    (∀ d, d ∈ formatsOf desired → ∃ i f, view s2 !! i = Some f ∧
       CustomFormatsEqual (Some (customFormatToIR f)) (Some d) = true) ∧
    (∀ i f, view s2 !! i = Some f → formatName f ≠ ""%string → formatName f ∈ (cf_Name <$> formatsOf desired)) ∧
    (∀ d i f, d ∈ ir_CustomFormats desired → view s2 !! i = Some f → formatName f ≠ cf_Name d) ∧
    (∀ i f, formatName f = ""%string → view s !! i = Some f ↔ view s2 !! i = Some f) ∧
    formatsDistinct (view s2) ∧
    CurrentState now conn s2 = (s3, Ret current) ∧
    ∀ o', IsEmpty (diffCustomFormats o' current desired emptyChangeSet) = true.
Proof.
  intros desired Happ Hwf Hroom. pose proof (compiled_formats now input Happ) as Hpre. fold desired in Hpre.
  rewrite Forall_forall in Hpre.
  destruct (compiled_converge now od input s Happ Hwf Hroom)
    as (s2 & r & E & Herr & Hwf2 & Hkeep & Hw & Ha & s3 & cur & E' & Hs).
  exists s2, r, s3, cur. split_and!; try done.
  - intros d Hd. destruct (indexBy_is_Some cf_Name (formatsOf desired) d Hd) as [d' Hd'].
    destruct (Hw _ d' Hd') as (i & f & Hi & _ & He). exists i, f. split; [done|].
    apply lookup_indexBy_Some in Hd' as [Hn Hin]. by rewrite (preset_format_name d d') by auto.
  - intros d i f Hd Hi Hn. destruct (compiled_own_formats now input d Hd) as [n En].
    assert (formatName f ≠ ""%string) as Hf by (by rewrite Hn, En).
    destruct (proj1 (list_elem_of_fmap _ _ _) (Ha i f Hi Hf)) as (x & Ex & Hx).
    apply (proj2 (preset_format_prefix _ (Hpre _ Hx)) (ci_ConfigName input) n). congruence.
  - intros i f Hf. apply (Hkeep i f). simpl. by rewrite Hf.
  - intros o'. apply diffNamed_empty_iff. by split.
Qed.

(** A change set without a change of a type. *)
Definition noChangeOf (rt : string) (cs : ChangeSet) : Prop := ∀ ch, ch_ResourceType ch = rt →
  ¬ ch ∈ cs_Creates cs ∧ ¬ ch ∈ cs_Updates cs ∧ ¬ ch ∈ cs_Deletes cs.

(** Once Radarr has a custom format, no diff has a change of the quality profile. *)
Lemma quality_unchanged now s i f : view s !! i = Some f → formatName f ≠ ""%string →
  ∃ s' current, CurrentState now conn s = (s', Ret current) ∧ view s' = view s ∧
  ∀ od desired, noChangeOf ResourceQualityProfile (diffIR od current desired).
Proof.
  intros Hi Hf. destruct (formats_read conn tagID o base known view [] now s) as (s' & cur & l & E & Hv & Hl & Hp & Hq).
  exists s', cur. split_and!; [done..|]. intros od desired ch Hch. set (cs := diffIR od cur desired).
  assert (is_Some (ir_Quality cur ≫= q_Video)) as [v Hcur].
  { apply Hq. rewrite Hp. intros E0. assert (customFormatToIR f ∈ managedIR (managedFormats [] o c tagID view) l) as Hin.
    { apply list_elem_of_fmap_2, list_elem_of_filter. split; [by apply negb_true_iff, String.eqb_neq|].
      apply (elem_of_listing (view s)); [done|by exists i]. }
    rewrite E0 in Hin. by apply not_elem_of_nil in Hin. }
  pose proof (step_changes payloadTyped payloadTyped (diffSteps od cur desired) [] (drop 1 (diffSteps od cur desired))
    ResourceQualityProfile _ (radarr_diffSteps_append od cur desired) eq_refl) as HS.
  cbv zeta in HS. rewrite <-radarr_diffIR_steps in HS. fold cs in HS.
  destruct (HS ltac:(by apply (bool_decide_unpack _)) ch Hch) as (-> & -> & ->).
  unfold diffQualityProfiles, DiffQualityProfiles, DiffVideoQualityProfiles. rewrite Hcur.
  destruct (ir_Quality desired ≫= q_Video); split_and!; apply not_elem_of_nil.
Qed.

(** C11: the quality profile is not created once Radarr has a custom format, and never
    updated: with a format of its own before the first sync, no sync asks for any
    change of a profile; and the first sync of a configuration whose preset has a
    format leaves Radarr in such a state, whether the creation of the profile
    succeeded in it or not.  So a profile that failed to be created is not tried
    again, and a change of its tiers or scores is never applied. *)
Theorem radarr_profile_stuck now od input s :
  let desired := Compile now input in
  ci_App input = AppRadarr → formatsDistinct (view s) → hasRoom s desired → formatsOf desired ≠ [] →
  let unchanged := λ s, ∃ s' current, CurrentState now conn s = (s', Ret current) ∧
    ∀ od' desired', noChangeOf ResourceQualityProfile (diffIR od' current desired') in
  ((∃ i f, view s !! i = Some f ∧ formatName f ≠ ""%string) → unchanged s) ∧
  ∃ s2 r, radarrSync now od o conn desired s = (s2, Ret (Some r, None)) ∧ unchanged s2.
Proof.
  intros desired Happ Hwf Hroom Hsome unchanged.
  assert (∀ s, (∃ i f, view s !! i = Some f ∧ formatName f ≠ ""%string) → unchanged s) as Hun.
  { intros s0 (i & f & Hi & Hf). destruct (quality_unchanged now s0 i f Hi Hf) as (s' & cur & E & _ & Hc). by exists s', cur. }
  split; [apply Hun|].
  destruct (compiled_converge now od input s Happ Hwf Hroom) as (s2 & r & E & _ & _ & _ & Hw & _).
  exists s2, r. split; [done|]. apply Hun.
  pose proof (compiled_formats now input Happ) as Hpre. fold desired in Hpre, Hw. rewrite Forall_forall in Hpre.
  destruct (formatsOf desired) as [|d l] eqn:El; [done|].
  destruct (indexBy_is_Some cf_Name (d :: l) d ltac:(left)) as [d' Hd'].
  destruct (Hw _ d' Hd') as (i & f & Hi & Hn & _). exists i, f. split; [done|]. rewrite Hn.
  apply preset_format_prefix, Hpre. left.
Qed.
End theorems.

(** ** Examples *)

Module RadarrMini.
Import MiniServer MiniServer32.

Lemma getPtr_id l i : fitsInt32 i = true →
  getPtr asInt32 "id" (l ++ [("id", VInt i)]) = (getPtr asInt32 "id" l ≫= λ _, Some (Some i)).
Proof.
  intros Hi. unfold getPtr. assert (∀ cur, readMember (λ v, Some <$> asInt32 v) (Some None) "id" cur (l ++ [("id", VInt i)])
    = readMember (λ v, Some <$> asInt32 v) (Some None) "id" cur l ≫= λ _, Some (Some i)) as Hl; [|apply Hl].
  induction l as [|[k' v'] l IH]; intros cur.
  - cbn -[fitsInt32]. by rewrite Hi.
  - cbn [app readMember]. destruct (sameKey "id" k'); [|apply IH].
    destruct v'; try apply IH; by destruct (Some <$> asInt32 _); [apply IH|].
Qed.

Lemma radarr_decodes_format doc r i : fitsInt32 i = true →
  fromJSON doc = Some r → fromJSON (assignID i doc) = Some (xcf_set_Id i r).
Proof.
  intros Hi. destruct doc as [| | | | | | |l]; try done.
  - intros [= <-]. cbn -[fitsInt32]. by rewrite Hi.
  - unfold assignID, fromJSON, FromJSON_RCustomFormat, asStruct. rewrite getPtr_id by done.
    destruct (getPtr asInt32 "id" l); [|done]. cbn [mbind option_bind]. unfold getPtr. rewrite !readMember_snoc by done.
    repeat match goal with
    | |- context [readMember ?c ?z ?n ?x l] =>
        destruct (readMember c z n x l); [|done]; cbn [mbind option_bind]
    end; by intros [= <-].
Qed.

Abbreviation formatMini := (MiniService32 (R := RCustomFormat) "api/v3/" "customformat" 7).

Lemma radarr_format_laws c :
  @Laws32 _ formatMini c _ _ (formatCollection view) otherCollections.
Proof.
  apply (laws32 _ _ _ radarr_decodes_format); [done|].
  apply Forall_forall; intros other Ho i j; unfold otherCollections in Ho; set_unfold in Ho;
    destruct_or! Ho; subst other; split_and!; discriminate.
Qed.

Lemma mini_known c : @radarrTagKnown _ formatMini c 7.
Proof.
  intros s. set (tag := mkRTag (Some 7) (Some OwnershipTagName)).
  exists ""%string, (tagsDocument 7), [tag], 0%nat, tag. split_and!; [|reflexivity..].
  simpl. rewrite serve32_other by done. unfold miniServe, request. simpl. unfold serveGet.
  change ("api/v3/" +:+ "tag")%string with "api/v3/tag"%string. by rewrite String.eqb_refl.
Qed.
End RadarrMini.

Definition radarrConn : ConnectionIR := mkConnectionIR "http://radarr.media:7878" "0123" false.

(** A configuration with a format of its own. *)
Definition radarrInput : CompileInput :=
  mkCompileInput AppRadarr "movies" "default" "http://radarr.media:7878" "0123" "" None "" [] [] None [] [] None
    None [] [mkCustomFormatInput "x265" false 50 [mkCustomFormatSpecInput "x265" "ReleaseTitleSpecification" false true "x265"]] []
    None None None ∅.

(** Radarr has a format the user made. *)
Definition radarrFormats : gmap Z any := {[ 3 := toJSON (buildMinimalCustomFormat (Some 3) (mkCustomFormatIR 0 "mine" true [])) ]}.

Lemma radarr_mini_plain : slashBase (newClient radarrConn).
Proof. by exists false, "radarr.media"%string, "7878"%string. Qed.

Lemma radarr_mini_distinct : formatsDistinct (MiniServer.view (R := RCustomFormat) radarrFormats).
Proof.
  assert (MiniServer.view (R := RCustomFormat) radarrFormats = {[ 3 := storedFormat 3 (mkCustomFormatIR 0 "mine" true []) ]})
    as -> by (vm_compute; reflexivity).
  split; [by intros i r [<- <-]%lookup_singleton_Some|].
  by intros i1 r1 i2 r2 [<- <-]%lookup_singleton_Some [<- <-]%lookup_singleton_Some.
Qed.

Lemma radarr_mini_room `{Digest} : hasRoom (MiniServer.view (R := RCustomFormat)) radarrFormats (Compile 0 radarrInput).
Proof.
  unfold hasRoom. assert (size (MiniServer.view (R := RCustomFormat) radarrFormats) = 1%nat) as -> by (vm_compute; reflexivity).
  assert (length (formatsOf (Compile 0 radarrInput)) ≤ 100)%nat; [|unfold int32Max; lia].
  apply (bool_decide_unpack _). vm_compute. exact I.
Qed.

(** The sync brings the formats of the preset and removes the user's; it does not
    bring the one the configuration defines. *)
Lemma radarr_formats_sync_witness :
  let service := RadarrMini.formatMini in
  let view := MiniServer.view (R := RCustomFormat) in
  let digest : Digest := λ h, hb_ConfigName h in
  let desired := Compile 0 radarrInput in
  (cf_Name <$> ir_CustomFormats desired) = ["nebularr-movies-x265"%string] ∧
  ((λ f, formatName f) <$> view radarrFormats !! 3) = Some "mine"%string ∧
  ∃ s2 r, @radarrSync _ service 0 (λ _, keyOrder) keyOrder radarrConn desired radarrFormats = (s2, Ret (Some r, None)) ∧
    (∀ i f, view s2 !! i = Some f → formatName f ≠ "mine"%string ∧ formatName f ≠ "nebularr-movies-x265"%string) ∧
    (∃ i f, view s2 !! i = Some f ∧ formatName f = "Reject: cam"%string).
Proof.
  intros service view digest desired. split; [vm_compute; reflexivity|]. split; [vm_compute; reflexivity|].
  destruct (@radarr_formats_sync _ service digest radarrConn 7 keyOrder radarr_mini_plain (RadarrMini.mini_known _) view
    (RadarrMini.radarr_format_laws _) 0 (λ _, keyOrder) radarrInput radarrFormats eq_refl radarr_mini_distinct radarr_mini_room)
    as (s2 & r & _ & _ & H1 & _ & H2 & H3 & H4 & _).
  exists s2, r. split; [exact H1|]. split.
  - intros i f Hi. split; [|by apply (H4 (mkCustomFormatIR 0 "nebularr-movies-x265" false
      [mkFormatSpecIR "ReleaseTitleSpecification" "x265" false true "x265"]) i f); [vm_compute; left|]].
    intros E. assert (formatName f ∈ cf_Name <$> formatsOf desired) as Hin by (apply (H3 i f Hi); by rewrite E).
    rewrite E in Hin. revert Hin. apply (bool_decide_unpack _). vm_compute. exact I.
  - assert ("Reject: cam"%string ∈ (cf_Name <$> formatsOf desired)) as (d & En & Hd)%list_elem_of_fmap
      by (apply (bool_decide_unpack _); vm_compute; exact I).
    destruct (H2 d Hd) as (i & f & Hi & He). exists i, f. split; [exact Hi|].
    apply andb_prop in He as [He _]. apply andb_prop in He as [He _]. apply andb_prop in He as [He _].
    rewrite En. exact (proj1 (String.eqb_eq _ _) He).
Defined.

(** The user's format keeps the first sync from creating the profile, and after it
    the preset's formats do. *)
Lemma radarr_profile_stuck_witness :
  let service := RadarrMini.formatMini in
  let digest : Digest := λ h, hb_ConfigName h in
  let desired := Compile 0 radarrInput in
  is_Some (ir_Quality desired ≫= q_Video) ∧
  (∃ s' current, @CurrentState _ service 0 radarrConn radarrFormats = (s', Ret current) ∧
     noChangeOf ResourceQualityProfile (diffIR (λ _, keyOrder) current desired)) ∧
  ∃ s2 r s3 current, @radarrSync _ service 0 (λ _, keyOrder) keyOrder radarrConn desired radarrFormats = (s2, Ret (Some r, None)) ∧
    @CurrentState _ service 0 radarrConn s2 = (s3, Ret current) ∧
    noChangeOf ResourceQualityProfile (diffIR (λ _, keyOrder) current desired).
Proof.
  intros service digest desired. split; [apply (bool_decide_unpack _); vm_compute; exact I|].
  assert (formatsOf desired ≠ []) as Hsome by (intros E; apply (f_equal length) in E; vm_compute in E; discriminate E).
  destruct (@radarr_profile_stuck _ service digest radarrConn 7 keyOrder radarr_mini_plain (RadarrMini.mini_known _)
    (MiniServer.view (R := RCustomFormat)) (RadarrMini.radarr_format_laws _) 0 (λ _, keyOrder) radarrInput radarrFormats eq_refl
    radarr_mini_distinct radarr_mini_room Hsome) as [H1 (s2 & r & H2 & s3 & cur & H3 & H4)].
  split.
  - destruct H1 as (s' & cur' & E & Hn); [|exists s', cur'; split; [exact E|apply Hn]].
    exists 3, (storedFormat 3 (mkCustomFormatIR 0 "mine" true [])). split; [vm_compute; reflexivity|done].
  - exists s2, r, s3, cur. split; [exact H2|]. split; [exact H3|apply H4].
Defined.
