(* ===== verification/RadarrClients.v ===== *)
(** * Theorems: Radarr's download clients

    What becomes of a download client of a configuration on its way to Radarr: the
    fields that depend on the implementation are written for the lower-case names
    only, which no compiled client has, so its category is never sent
    ([radarr_category_lost]). *)
From S2P Require Export Convert RadarrApply.

(** ** Fields on the wire *)

Lemma decode_newField name v : toWire v ≠ VNil →
  fromJSON (toJSON (newField name v)) = Some (newField name (throughJSON v)).
Proof.
  unfold throughJSON, toJSON, ToJSON_RField. cbn [newField xf_Value]. generalize (toWire v). intros w Hw.
  destruct w; [by destruct (Hw eq_refl)|cbv -[toInterface]; reflexivity..].
Qed.

(** The fields of a client of an implementation the compiler knows. *)
Lemma canonical_fields ir : dc_Implementation ir ∈ canonicalImplementations →
  buildDownloadClientFields ir =
  [newField "host" (VString (dc_Host ir)); newField "port" (VInt (dc_Port ir)); newField "useSsl" (VBool (dc_UseTLS ir))]
  ++ fieldIf (negb (String.eqb (dc_Username ir) "")) "username" (VString (dc_Username ir))
  ++ fieldIf (negb (String.eqb (dc_Password ir) "")) "password" (VString (dc_Password ir)).
Proof.
  unfold canonicalImplementations. rewrite !elem_of_cons, elem_of_nil. unfold buildDownloadClientFields.
  by intros [->|[->|[->|[->|[->|[->|[]]]]]]]; cbn [switch existsb String.eqb Ascii.eqb Bool.eqb orb];
    rewrite !app_nil_r.
Qed.

Definition storedFields (ir : DownloadClientIR) : list RField :=
  [newField "host" (VString (dc_Host ir)); newField "port" (VFloat (float64_of_int (dc_Port ir)));
   newField "useSsl" (VBool (dc_UseTLS ir))]
  ++ fieldIf (negb (String.eqb (dc_Username ir) "")) "username" (VString (dc_Username ir))
  ++ fieldIf (negb (String.eqb (dc_Password ir) "")) "password" (VString (dc_Password ir)).

Lemma radarr_decode_fields ir : dc_Implementation ir ∈ canonicalImplementations →
  mapM (M := option) fromJSON (toJSON <$> buildDownloadClientFields ir) = Some (storedFields ir).
Proof.
  intros Hc. rewrite (canonical_fields ir Hc). unfold storedFields, fieldIf.
  destruct (negb (String.eqb (dc_Username ir) "")), (negb (String.eqb (dc_Password ir) ""));
    cbn [app]; rewrite !fmap_cons; cbn [mapM fmap list_fmap]; rewrite !decode_newField by done; done.
Qed.

Definition storedClient (ir : DownloadClientIR) (tagID : Z) : RDownloadClient :=
  let '(mkRDownloadClient v0 v1 _ v3 v4 v5 v6 v7 v8 v9 v10 v11 v12 v13 v14) := irToDownloadClient ir tagID in
  mkRDownloadClient v0 v1 (Some (storedFields ir)) v3 v4 v5 v6 v7 v8 v9 v10 v11 v12 v13 v14.

Lemma radarr_decode_client ir tagID : dc_Implementation ir ∈ canonicalImplementations →
  fromJSON (toJSON (irToDownloadClient ir tagID)) = Some (storedClient ir tagID).
Proof.
  intros Hc. pose proof (radarr_decode_fields ir Hc : asSlice fromJSON (VList (toJSON <$> buildDownloadClientFields ir)) = _) as HF.
  unfold storedClient, irToDownloadClient, intPtr.
  pose proof (int32_inRange (dc_Priority ir)) as Hp. pose proof (int32_inRange tagID) as Ht.
  revert Hp Ht. generalize (int32 (dc_Priority ir)) (int32 tagID). intros p t Hp Ht.
  unfold toJSON at 1, ToJSON_RDownloadClient. unfold fromJSON at 1, FromJSON_RDownloadClient, asStruct.
  cbn [xdc_ConfigContract xdc_Enable xdc_Fields xdc_Id xdc_Implementation xdc_ImplementationName xdc_InfoLink
    xdc_Message xdc_Name xdc_Presets xdc_Priority xdc_Protocol xdc_RemoveCompletedDownloads xdc_RemoveFailedDownloads
    xdc_Tags orNull omitNone stringPtr boolPtr app].
  revert HF. generalize (toJSON <$> buildDownloadClientFields ir). intros docs.
  generalize (asSlice (A := RField) fromJSON) (storedFields ir). intros conv fields HF.
  generalize (normalizeImplementation (dc_Implementation ir)). intros impl.
  destruct (protocolOf (dc_Protocol ir)) as [protocol|]; cbv -[fitsInt32]; rewrite HF, Hp, Ht; reflexivity.
Qed.

(** What is read back: the category and the directory are gone, the priority is that
    of 32 bits. *)
Lemma downloadClientToIR_stored ir tagID :
  dc_Implementation ir ∈ canonicalImplementations → - 2 ^ 53 < dc_Port ir < 2 ^ 53 →
  let dc := downloadClientToIR (storedClient ir tagID) in
  dc_Name dc = dc_Name ir ∧ dc_Implementation dc = dc_Implementation ir ∧ dc_Host dc = dc_Host ir ∧
  dc_Port dc = dc_Port ir ∧ dc_UseTLS dc = dc_UseTLS ir ∧ dc_Category dc = ""%string ∧
  dc_Directory dc = ""%string ∧ dc_Enable dc = dc_Enable ir ∧ dc_Priority dc = int32 (dc_Priority ir).
Proof.
  intros Hc Hport dc.
  assert (normalizeImplementation (dc_Implementation ir) = dc_Implementation ir) as Hn.
  { unfold canonicalImplementations in Hc. rewrite !elem_of_cons, elem_of_nil in Hc.
    by destruct Hc as [->|[->|[->|[->|[->|[->|[]]]]]]]. }
  unfold dc, downloadClientToIR, storedClient, irToDownloadClient, storedFields, fieldIf. rewrite Hn.
  destruct (negb (String.eqb (dc_Username ir) "")), (negb (String.eqb (dc_Password ir) ""));
    cbn -[int_of_float64 float64_of_int int32 inferProtocol]; rewrite int_float64_exact by done; by split_and!.
Qed.

Lemma canonical_names host port tls username password (b1 b2 : bool) f :
  f ∈ [newField "host" host; newField "port" port; newField "useSsl" tls] ++
      fieldIf b1 "username" username ++ fieldIf b2 "password" password →
  xf_Name f ≠ Some "movieCategory"%string.
Proof.
  destruct b1, b2; cbn [fieldIf app]; rewrite !elem_of_cons, elem_of_nil; intros Hf; destruct_or! Hf; by subst.
Qed.

(** ** The category of a compiled client *)

Lemma compiled_client_implementation `{UnicodeTables} secrets cfg dc :
  (dcs_Type dc ≠ "" → ToLower (dcs_Type dc) ∈ clientTypes) →
  dc_Implementation (compileDownloadClient cfg (convertDownloadClient secrets dc)) ∈ canonicalImplementations.
Proof.
  intros Htype. unfold convertDownloadClient. destruct (parseClientURL (dcs_URL dc)) as [[host port] tls].
  destruct (resolveCredentials secrets _) as [user pass]. simpl.
  apply normalizeImplementationName_type. destruct (String.eqb_spec (dcs_Type dc) ""); [|by apply Htype].
  rewrite ToLower_clientTypes; apply inferImplementationFromName_type.
Qed.

(** C36: the category of a download client never reaches Radarr.  For every client of
    a specification of a known type, or without one, and with a port that float64 has,
    the document that is sent has no
    field for the category, and what Radarr reads back from it has none; so the client
    equals the one that is asked for exactly if that has no category and its priority
    is an [int32], and otherwise every sync finds an update for it, which changes
    nothing. *)
Theorem radarr_category_lost `{UnicodeTables} secrets cfg dc tagID :
  let d := compileDownloadClient cfg (convertDownloadClient secrets dc) in
  (dcs_Type dc ≠ "" → ToLower (dcs_Type dc) ∈ clientTypes) → - 2 ^ 53 < dc_Port d < 2 ^ 53 →
  ∃ r, fromJSON (toJSON (irToDownloadClient d tagID)) = Some r ∧
    (∀ f, f ∈ buildDownloadClientFields d → xf_Name f ≠ Some "movieCategory"%string) ∧
    let current := downloadClientToIR r in
    dc_Category current = ""%string ∧
    (∀ o, IsEmpty (diffNamed clientOps o [current] [d] emptyChangeSet) = true ↔
       dc_Category d = ""%string ∧ fitsInt32 (dc_Priority d) = true) ∧
    (¬ (dc_Category d = ""%string ∧ fitsInt32 (dc_Priority d) = true) → ∀ o,
       mkChange ResourceDownloadClient (dc_Name d) None (PDownloadClientPtr d) ∈
         cs_Updates (diffNamed clientOps o [current] [d] emptyChangeSet)).
Proof.
  intros d Htype Hport. pose proof (compiled_client_implementation secrets cfg dc Htype) as Hc. fold d in Hc.
  exists (storedClient d tagID). split; [by apply radarr_decode_client|].
  pose proof (downloadClientToIR_stored d tagID Hc Hport) as (Hn & Hi & Hh & Hp & Ht & Hcat & _ & He & Hpr).
  assert (DownloadClientsEqual (downloadClientToIR (storedClient d tagID)) d = true ↔
    dc_Category d = ""%string ∧ fitsInt32 (dc_Priority d) = true) as Heq.
  { unfold DownloadClientsEqual. rewrite Hn, Hi, Hh, Hp, Ht, Hcat, He, Hpr.
    rewrite !String.eqb_refl, !Z.eqb_refl, !eqb_reflx. cbn [andb].
    rewrite andb_true_r, andb_true_iff, Z.eqb_eq, <-int32_fits_iff, String.eqb_eq.
    split; intros [E1 E2]; split; [by symmetry|done|by symmetry|done]. }
  set (current := downloadClientToIR (storedClient d tagID)) in *.
  assert (indexBy dc_Name [current] = {[ dc_Name d := current ]} ∧ indexBy dc_Name [d] = {[ dc_Name d := d ]}) as [I1 I2]
    by (rewrite <-Hn at 1; split; [exact (insert_empty (dc_Name current) current)|exact (insert_empty (dc_Name d) d)]).
  split; [|split; [exact Hcat|split; [intros o|intros Hne o]]].
  - intros f. rewrite (canonical_fields d Hc). apply canonical_names.
  - rewrite <-Heq, diffNamed_empty_iff. unfold inSync. cbn [clientOps op_key op_equal]. rewrite I1, I2. split.
    + intros [_ Hs]. specialize (Hs (dc_Name d)). by rewrite !lookup_singleton_eq in Hs.
    + intros E. split; [done|]. intros n. destruct (decide (dc_Name d = n)) as [<-|Hne].
      * by rewrite !lookup_singleton_eq.
      * by rewrite !lookup_singleton_ne.
  - apply elem_of_updates. right. exists (dc_Name d), current, d. cbn [clientOps op_key op_equal op_update].
    rewrite I1, I2, !lookup_singleton_eq. split_and!; [done..| |done].
    apply not_true_is_false. by rewrite Heq.
Qed.

Definition radarrClientSpec : DownloadClientSpec :=
  mkDownloadClientSpec "qbit" "http://qbittorrent:8080" "qBittorrent" None "radarr" 1 None None None.

Lemma radarr_category_lost_witness :
  let u : UnicodeTables := id in
  let d := compileDownloadClient "movies" (convertDownloadClient ∅ radarrClientSpec) in
  dc_Category d = "radarr"%string ∧ dc_Implementation d = "QBittorrent"%string ∧
  ∃ r, fromJSON (toJSON (irToDownloadClient d 7)) = Some r ∧
    mkChange ResourceDownloadClient "nebularr-movies-qbit" None (PDownloadClientPtr d) ∈
      cs_Updates (diffNamed clientOps keyOrder [downloadClientToIR r] [d] emptyChangeSet).
Proof.
  intros u d. split; [vm_compute; reflexivity|]. split; [vm_compute; reflexivity|].
  assert (dcs_Type radarrClientSpec ≠ "" → ToLower (dcs_Type radarrClientSpec) ∈ clientTypes) as Ht
    by (intros _; apply (bool_decide_unpack _); vm_compute; exact I).
  assert (- 2 ^ 53 < dc_Port d < 2 ^ 53) as Hp by (vm_compute; split; reflexivity).
  destruct (radarr_category_lost ∅ "movies" radarrClientSpec 7 Ht Hp) as (r & E & _ & _ & _ & Hup).
  exists r. split; [exact E|]. apply Hup. intros [Hc _]. vm_compute in Hc. discriminate Hc.
Defined.
