(* ===== verification/Registration.v ===== *)
(** * Registration with Prowlarr (src/internal/prowlarr/registration.go)

    The registration service makes its own HTTP requests, with the method, header,
    accepted statuses and decoding of the methods of [Http]; the connection is a
    client without a base configuration. *)
From S2P Require Export IR Http.

Record AppRegistration := mkAppRegistration {
  reg_Name : string;
  reg_Type : string;
  reg_URL : string;
  reg_APIKey : string;
  reg_ProwlarrURL : string;
  reg_SyncLevel : string;
  reg_SyncCategories : list Z;
  reg_Tags : list string }.

Record ProwlarrConnection := mkProwlarrConnection {
  pwc_URL : string;
  pwc_APIKey : string }.

Record ApplicationField := mkApplicationField {
  af_Name : string;
  af_Value : any }.

#[export] Instance FromJSON_ApplicationField : FromJSON ApplicationField := asStruct (λ l,
  vName ← getString "name" l;
  vValue ← getAny "value" l;
  Some (mkApplicationField vName vValue)).

#[export] Instance ToJSON_ApplicationField : ToJSON ApplicationField := λ f,
  VMap [("name", VString (af_Name f)); ("value", toWire (af_Value f))].

Record ApplicationResource := mkApplicationResource {
  apr_ID : Z;
  apr_Name : string;
  apr_Implementation : string;
  apr_ConfigContract : string;
  apr_SyncLevel : string;
  apr_Tags : list Z;
  apr_Fields : list ApplicationField }.

#[export] Instance FromJSON_ApplicationResource : FromJSON ApplicationResource := asStruct (λ l,
  vID ← getInt "id" l;
  vName ← getString "name" l;
  vImplementation ← getString "implementation" l;
  vConfigContract ← getString "configContract" l;
  vSyncLevel ← getString "syncLevel" l;
  vTags ← getSlice asIntElem "tags" l;
  vFields ← getSlice fromJSON "fields" l;
  Some (mkApplicationResource vID vName vImplementation vConfigContract vSyncLevel vTags vFields)).

#[export] Instance ToJSON_ApplicationResource : ToJSON ApplicationResource := λ r, VMap (
  omitIf (apr_ID r =? 0) "id" (VInt (apr_ID r)) ++
  [("name", VString (apr_Name r)); ("implementation", VString (apr_Implementation r))] ++
  omitIf (String.eqb (apr_ConfigContract r) "") "configContract" (VString (apr_ConfigContract r)) ++
  [("syncLevel", VString (apr_SyncLevel r))] ++
  omitIf (Nat.eqb (length (apr_Tags r)) 0) "tags" (VList (VInt <$> apr_Tags r)) ++
  omitIf (Nat.eqb (length (apr_Fields r)) 0) "fields" (VList (toJSON <$> apr_Fields r))).

Definition getImplementationForType (appType : string) : string * string :=
  switch appType [
    ([AppTypeRadarr], ("Radarr", "RadarrSettings")); ([AppTypeSonarr], ("Sonarr", "SonarrSettings"));
    ([AppTypeLidarr], ("Lidarr", "LidarrSettings")); ([AppTypeReadarr], ("Readarr", "ReadarrSettings"))]
    (appType, "")%string.

(** [categories], with the defaults of the app type for an empty list. *)
Definition registrationCategories (app : AppRegistration) : list Z :=
  match reg_SyncCategories app with
  | [] => default [] (DefaultSyncCategories !! reg_Type app)
  | categories => categories
  end.

Definition buildApplicationResource (app : AppRegistration) (prowlarrURL : string) : ApplicationResource :=
  let '(impl, contract) := getImplementationForType (reg_Type app) in
  let syncLevel := if String.eqb (reg_SyncLevel app) "" then SyncLevelFullSync else reg_SyncLevel app in
  let fields := [mkApplicationField "baseUrl" (VString (reg_URL app));
                 mkApplicationField "apiKey" (VString (reg_APIKey app))] in
  let prowlarrSelfURL := if String.eqb (reg_ProwlarrURL app) "" then prowlarrURL else reg_ProwlarrURL app in
  let fields := fields ++ [mkApplicationField "prowlarrUrl" (VString prowlarrSelfURL)] in
  let categories := registrationCategories app in
  let fields := if 0 <? Z.of_nat (length categories)
                then fields ++ [mkApplicationField "syncCategories" (VInts categories)] else fields in
  mkApplicationResource 0 (reg_Name app) impl contract syncLevel [] fields.

Definition apr_set_ID (id : Z) (r : ApplicationResource) : ApplicationResource :=
  mkApplicationResource id (apr_Name r) (apr_Implementation r) (apr_ConfigContract r) (apr_SyncLevel r)
    (apr_Tags r) (apr_Fields r).

Section registration.
Context {S : Type} `{Service S}.

(** The connection as a client: 30 seconds, certificates verified. *)
Definition prowlarrClient (prowlarr : ProwlarrConnection) : Client :=
  mkClient (pwc_URL prowlarr) (pwc_APIKey prowlarr) false (30 * 10 ^ 9).

Definition applicationsPath : string := "/api/v1/applications".
Definition applicationPath (id : Z) : string := (applicationsPath +:+ "/" +:+ Itoa id)%string.

Definition findApplicationByName (prowlarr : ProwlarrConnection) (name : string) : M S Z :=
  let* apps := Get (list ApplicationResource) (prowlarrClient prowlarr) applicationsPath in
  ret (match list_find (λ app, apr_Name app = name) apps with
       | Some (_, app) => apr_ID app
       | None => 0
       end).

Definition createApplication (prowlarr : ProwlarrConnection) (app : ApplicationResource) : M S unit :=
  PostResult ApplicationResource (prowlarrClient prowlarr) applicationsPath app ;;; ret tt.
Definition updateApplication (prowlarr : ProwlarrConnection) (app : ApplicationResource) : M S unit :=
  Put (prowlarrClient prowlarr) (applicationPath (apr_ID app)) app.
Definition deleteApplication (prowlarr : ProwlarrConnection) (id : Z) : M S unit :=
  Delete (prowlarrClient prowlarr) (applicationPath id).

Definition RegisterApp (prowlarr : ProwlarrConnection) (app : AppRegistration) : M S unit :=
  let* existingID := wrapErr (λ e, "failed to check for existing application: " +:+ e)%string
    (findApplicationByName prowlarr (reg_Name app)) in
  let resource := buildApplicationResource app (pwc_URL prowlarr) in
  if 0 <? existingID then updateApplication prowlarr (apr_set_ID existingID resource)
  else createApplication prowlarr resource.

Definition UnregisterApp (prowlarr : ProwlarrConnection) (appName : string) : M S unit :=
  let* id := wrapErr (λ e, "failed to find application: " +:+ e)%string
    (findApplicationByName prowlarr appName) in
  if id =? 0 then ret tt else deleteApplication prowlarr id.

(** Neither operation panics. *)
Lemma findApplicationByName_steps (P : relation S) `{!PreOrder P} prowlarr name :
  (∀ m p, harmless P (prowlarrClient prowlarr) m p) → steps P (findApplicationByName prowlarr name).
Proof.
  intros Hh. unfold findApplicationByName. apply steps_bind; [done|auto with nebularr|]. auto with nebularr.
Qed.

Lemma RegisterApp_steps (P : relation S) `{!PreOrder P} prowlarr app :
  (∀ m p, harmless P (prowlarrClient prowlarr) m p) → steps P (RegisterApp prowlarr app).
Proof.
  intros Hh. unfold RegisterApp. apply steps_bind; [done| |].
  - by apply steps_wrapErr, findApplicationByName_steps.
  - intros id. unfold updateApplication, createApplication. case_match; auto with nebularr.
Qed.

Lemma UnregisterApp_steps (P : relation S) `{!PreOrder P} prowlarr name :
  (∀ m p, harmless P (prowlarrClient prowlarr) m p) → steps P (UnregisterApp prowlarr name).
Proof.
  intros Hh. unfold UnregisterApp. apply steps_bind; [done| |].
  - by apply steps_wrapErr, findApplicationByName_steps.
  - intros id. unfold deleteApplication. case_match; auto with nebularr.
Qed.
End registration.
