(* ===== verification/Reconcile.v ===== *)
(** * The reconciler (src/internal/controller)

    The flow shared by the controllers of the four *arr applications:
    [ReconcileConfig], the resolution of secrets, [CleanupManagedResources], the
    health report (reconciler.go) and the state machine of
    generic_arr_reconciler.go.  The Kubernetes API, the condition helper and the
    finalizer helpers belong to other modules and are the class [Kube]; logging
    and metrics are left out. *)
From S2P Require Export Objects Shared Registration.

(** ** Kubernetes

    What the reconcilers ask of the cluster: secrets and Prowlarr configurations by
    name, the clock, the event recorder, and the helpers for conditions and
    finalizers. *)
Class Kube (W : Type) := {
  kubeGetSecret : string → string → M W (gmap string string);      (* namespace, name *)
  kubeGetProwlarrConfig : string → string → M W ProwlarrConfig;
  kubeClock : W → Z;
  recorder : option (string → string → string → M W unit);         (* nil in the tests *)
  setStatusCondition : list Condition → Condition → list Condition; (* meta.SetStatusCondition *)
  containsFinalizer : list string → string → bool;                  (* package controllerutil *)
  addFinalizer : list string → string → list string;
  removeFinalizer : list string → string → list string }.

(** The writes of an object of type [C]: the object as the API server returns it. *)
Class KubeObject (W C : Type) := {
  kubeUpdate : C → M W C;
  kubeStatusUpdate : C → M W C }.

(** What is documented of the helpers. *)
Class KubeLaws W `{Kube W} : Prop := {
  containsFinalizer_spec fs f : containsFinalizer fs f = true ↔ f ∈ fs;
  addFinalizer_spec fs f g : g ∈ addFinalizer fs f ↔ g ∈ fs ∨ g = f;
  removeFinalizer_spec fs f g : g ∈ removeFinalizer fs f ↔ g ∈ fs ∧ g ≠ f;
  (* the condition of that type now has the status, reason and message given *)
  setStatusCondition_self cs c : ∃ c', list_find (λ d, cond_Type d = cond_Type c) (setStatusCondition cs c)
      ≫= (λ ic, Some ic.2) = Some c' ∧
    cond_Status c' = cond_Status c ∧ cond_Reason c' = cond_Reason c ∧ cond_Message c' = cond_Message c;
  setStatusCondition_other cs c t : t ≠ cond_Type c →
    list_find (λ d, cond_Type d = t) (setStatusCondition cs c) ≫= (λ ic, Some ic.2) =
    list_find (λ d, cond_Type d = t) cs ≫= (λ ic, Some ic.2) }.

Definition ConditionTypeReady : string := "Ready".
Definition ConditionTypeConnected : string := "Connected".
Definition ConditionTypeSynced : string := "Synced".
Definition ConditionTrue : string := "True".
Definition ConditionFalse : string := "False".

(** In nanoseconds. *)
Definition DefaultRequeueInterval : Z := 300 * 10 ^ 9.
Definition ErrorRequeueInterval : Z := 30 * 10 ^ 9.

(** [ctrl.Result]. *)
Record Result := mkResult {
  res_Requeue : bool;
  res_RequeueAfter : Z }.

(** ** The world of a reconciliation: everything outside, and the object in memory *)
Record Rec (W C : Type) := mkRec {
  rec_world : W;
  rec_config : C }.
Arguments mkRec {W C}.
Arguments rec_world {W C}.
Arguments rec_config {W C}.

Definition onWorld {W C A} (m : M W A) : M (Rec W C) A := λ r,
  let '(w, x) := m (rec_world r) in (mkRec w (rec_config r), x).

Definition modifyStatus {W C} `{HasStatus C} (f : Status → Status) : M (Rec W C) unit := λ r,
  (mkRec (rec_world r) (with_status (f (status_of (rec_config r))) (rec_config r)), Ret tt).

(** ** Secrets *)

Section secrets.
Context {W : Type} `{Kube W}.
Abbreviation secrets := (gmap string string).

Definition ResolveSecretValue (namespace name key : string) : M W string :=
  let* data := wrapErr (λ e, "failed to get secret " +:+ namespace +:+ "/" +:+ name +:+ ": " +:+ e)%string
    (kubeGetSecret namespace name) in
  match data !! key with
  | Some value => ret value
  | None => fail ("key " +:+ quoted key +:+ " not found in secret " +:+ namespace +:+ "/" +:+ name)%string
  end.

(** The value of an optional reference, or the default without one. *)
Definition resolveOne (namespace key dflt : string) (ref : option SecretKeySelector) : M W string :=
  match ref with
  | None => ret dflt
  | Some ref => ResolveSecretValue namespace (sks_Name ref) (orDefault (sks_Key ref) key)
  end.

Definition ResolveConnectionSecrets (namespace : string) (conn : ConnectionSpec) : M W secrets :=
  match cns_APIKeySecretRef conn with
  | None => ret ∅
  | Some ref =>
      let* apiKey := wrapErr (λ e, "failed to resolve API key secret: " +:+ e)%string
        (ResolveSecretValue namespace (sks_Name ref) (orDefault (sks_Key ref) "apiKey")) in
      ret {[ "apiKey"%string := apiKey ]}
  end.

(** [resolved[name+"/"+key] = value] after reading the value; [msg] heads the error. *)
Definition resolveInto (msg namespace name key : string) (resolved : secrets) : M W secrets :=
  let* value := wrapErr (λ e, msg +:+ ": " +:+ e)%string (ResolveSecretValue namespace name key) in
  ret (<[(name +:+ "/" +:+ key)%string := value]> resolved).

(** A pair of credentials. *)
Definition resolvePair (msg namespace : string) (resolved : secrets) (ref : option CredentialsSecretRef)
    : M W secrets :=
  match ref with
  | None => ret resolved
  | Some ref =>
      let* resolved := resolveInto msg namespace (csr_Name ref) (orDefault (csr_UsernameKey ref) "username")
                         resolved in
      resolveInto msg namespace (csr_Name ref) (orDefault (csr_PasswordKey ref) "password") resolved
  end.

(** A single key. *)
Definition resolveKey (msg namespace dflt : string) (resolved : secrets) (ref : option SecretKeySelector)
    : M W secrets :=
  match ref with
  | None => ret resolved
  | Some ref => resolveInto msg namespace (sks_Name ref) (orDefault (sks_Key ref) dflt) resolved
  end.

Definition ResolveDownloadClientSecrets (namespace : string) (clients : list DownloadClientSpec)
    (resolved : secrets) : M W secrets :=
  forRange (λ resolved dc, resolvePair "failed to resolve download client credentials" namespace
      resolved (dcs_CredentialsSecretRef dc)) resolved clients.

Definition ResolveIndexerSecrets (namespace : string) (indexers : option IndexersSpec)
    (resolved : secrets) : M W secrets :=
  match indexers with
  | None => ret resolved
  | Some indexers =>
      forRange (λ resolved idx, resolveKey "failed to resolve indexer API key" namespace "apiKey"
          resolved (dix_APIKeySecretRef idx)) resolved (ixs_Direct indexers)
  end.

Definition ResolveProwlarrIndexerSecrets (namespace : string) (indexers : list ProwlarrIndexer)
    (resolved : secrets) : M W secrets :=
  forRange (λ resolved idx, resolveKey "failed to resolve Prowlarr indexer API key" namespace "apiKey"
      resolved (pxi_APIKeySecretRef idx)) resolved indexers.

Definition ResolveProxySecrets (namespace : string) (proxies : list IndexerProxy) (resolved : secrets)
    : M W secrets :=
  forRange (λ resolved proxy, resolvePair "failed to resolve proxy credentials" namespace
      resolved (pxp_CredentialsSecretRef proxy)) resolved proxies.

Definition ResolveApplicationSecrets (namespace : string) (apps : list ProwlarrApplication)
    (resolved : secrets) : M W secrets :=
  forRange (λ resolved app, resolveKey "failed to resolve application API key" namespace "apiKey"
      resolved (pxa_APIKeySecretRef app)) resolved apps.

(** Every key of the referenced secret; [map_fold] over distinct keys does not
    depend on the order. *)
Definition addSecretData (name : string) (data resolved : secrets) : secrets :=
  map_fold (λ key value resolved, <[(name +:+ "/" +:+ key)%string := value]> resolved) resolved data.

Definition ResolveImportListSecrets (namespace : string) (lists : list ImportListSpec) (resolved : secrets)
    : M W secrets :=
  forRange (λ resolved list,
    match ils_SettingsSecretRef list with
    | None => ret resolved
    | Some ref =>
        let* data := wrapErr (λ e, "failed to get import list secret " +:+ sks_Name ref +:+ ": " +:+ e)%string
          (kubeGetSecret namespace (sks_Name ref)) in
        ret (addSecretData (sks_Name ref) data resolved)
    end) resolved lists.

Definition ResolveAuthenticationSecrets (namespace : string) (auth : option AuthenticationSpec)
    (resolved : secrets) : M W secrets :=
  match auth ≫= aus_PasswordSecretRef with
  | None => ret resolved
  | Some ref => resolveKey "failed to resolve authentication password" namespace "password" resolved (Some ref)
  end.
End secrets.

(** ** reconciler.go: [ReconcileConfig] and its companions *)

Definition SetCondition {W C} `{Kube W} `{HasConditions C} (generation : Z) (condType condStatus reason message : string)
    : M (Rec W C) unit := λ r,
  let c := rec_config r in
  (mkRec (rec_world r) (with_conditions (setStatusCondition (conditions_of c)
    (mkCondition condType condStatus generation (kubeClock (rec_world r)) reason message)) c), Ret tt).

Section reconciler.
Context {W C : Type} `{Kube W} `{HasStatus C} `{Service W} (registry : gmap string (Adapter W)).
Abbreviation MR := (M (Rec W C)).

(** A failed step: one condition, and the error is returned with a nil result. *)
Definition failWith (generation : Z) (reason : string) (e : error)
    : MR (option ApplyResult * option error) :=
  SetCondition generation ConditionTypeReady ConditionFalse reason e ;;; ret (None, Some e).

Definition notRegistered (appType : string) : error := (appType +:+ " adapter not registered")%string.

(** The status at the end of a successful reconciliation. *)
Definition finish (generation : Z) (desired : IR) (result : ApplyResult)
    : MR (option ApplyResult * option error) :=
  let* r := Prelude.get in
  modifyStatus (st_set_LastReconcile (Some (kubeClock (rec_world r)))) ;;;
  modifyStatus (st_set_LastAppliedHash (ir_SourceHash desired)) ;;;
  SetCondition generation ConditionTypeReady ConditionTrue "Ready" "Configuration reconciled successfully" ;;;
  ret (Some result, None).

(** [Apply] and what is made of its result; the method call and the field access
    on a nil result panic. *)
Definition applyChanges (adapter : Adapter W) (conn : ConnectionIR) (generation : Z) (desired : IR)
    (changes : ChangeSet) : MR (option ApplyResult * option error) :=
  let* applied := onWorld (a_Apply adapter conn changes) in
  match applied with
  | (result, Some e) =>
      SetCondition generation ConditionTypeSynced ConditionFalse "ApplyFailed" e ;;;
      match result with
      | None => panic "nil pointer dereference"
      | Some result' =>
          SetCondition generation ConditionTypeReady ConditionFalse "ApplyFailed"
            ("Applied " +:+ Itoa (ar_Applied result') +:+ "/" +:+ Itoa (TotalChanges changes) +:+ " changes")%string ;;;
          ret (result, Some e)
      end
  | (None, None) => panic "nil pointer dereference"
  | (Some result, None) =>
      (if Success result
       then SetCondition generation ConditionTypeSynced ConditionTrue "Synced"
              ("Applied " +:+ Itoa (ar_Applied result) +:+ " changes")%string
       else SetCondition generation ConditionTypeSynced ConditionFalse "PartiallyApplied"
              ("Applied " +:+ Itoa (ar_Applied result) +:+ " changes, " +:+ Itoa (ar_Failed result) +:+ " failed")%string) ;;;
      finish generation desired result
  end.

Definition ReconcileConfig (appType : string) (conn : ConnectionIR) (desired : IR) (generation : Z)
    : MR (option ApplyResult * option error) :=
  match Adapters.Get appType registry with
  | None => failWith generation "AdapterNotFound" (notRegistered appType)
  | Some adapter =>
      let* connected := attempt (onWorld (a_Connect adapter conn)) in
      match connected with
      | inr e =>
          modifyStatus (st_set_Connected false) ;;;
          SetCondition generation ConditionTypeConnected ConditionFalse "ConnectionFailed" e ;;;
          SetCondition generation ConditionTypeReady ConditionFalse "ConnectionFailed"
            ("Cannot connect to " +:+ appType)%string ;;;
          ret (None, Some e)
      | inl serviceInfo =>
          modifyStatus (st_set_Connected true) ;;;
          modifyStatus (st_set_ServiceVersion (si_Version serviceInfo)) ;;;
          SetCondition generation ConditionTypeConnected ConditionTrue "Connected"
            ("Connected to " +:+ appType +:+ " " +:+ si_Version serviceInfo)%string ;;;
          let* discovered := attempt (onWorld (a_Discover adapter conn)) in
          match discovered with
          | inr e => failWith generation "DiscoveryFailed" e
          | inl caps =>
              let* state := attempt (onWorld (a_CurrentState adapter conn)) in
              match state with
              | inr e => failWith generation "StateFetchFailed" e
              | inl None => panic "nil pointer dereference"   (* the adapters' Diff reads it *)
              | inl (Some current) =>
                  let* diff := attempt (onWorld (a_Diff adapter current desired (Some caps))) in
                  match diff with
                  | inr e => failWith generation "DiffFailed" e
                  | inl changes =>
                      if IsEmpty changes then
                        SetCondition generation ConditionTypeSynced ConditionTrue "InSync"
                          "Configuration is in sync" ;;;
                        finish generation desired emptyApplyResult
                      else applyChanges adapter conn generation desired changes
                  end
              end
          end
      end
  end.

Definition emptyIRFor (appType : string) : IR :=
  mkIR "" 0 "" appType None None [] [] None None [] [] [] [] [] [] [] None None None [].

Definition CleanupManagedResources (appType : string) (conn : ConnectionIR) : M W unit :=
  match Adapters.Get appType registry with
  | None => fail (notRegistered appType)
  | Some adapter =>
      let* state := a_CurrentState adapter conn in
      match state with
      | None => ret tt
      | Some current =>
          let* caps := attempt (a_Discover adapter conn) in
          let* changes := a_Diff adapter current (emptyIRFor appType)
                            (match caps with inl c => Some c | inr _ => None end) in
          if IsEmpty changes then ret tt
          else
            let* applied := a_Apply adapter conn changes in
            match applied with
            | (_, Some e) => fail e
            | (None, None) => panic "nil pointer dereference"
            | (Some _, None) => ret tt
            end
      end
  end.

(** The status is not touched; the result pointer is only read when it is not nil. *)
Definition ApplyDirectConfig (appType : string) (conn : ConnectionIR) (desired : IR)
    : M W (option ApplyResult * option error) :=
  match Adapters.Get appType registry with
  | None => ret (None, Some (notRegistered appType))
  | Some adapter =>
      match a_ApplyDirect adapter with
      | None => ret (Some emptyApplyResult, None)
      | Some applyDirect =>
          let hasDirectApplyWork := (0 <? Z.of_nat (length (ir_ImportLists desired))) ||
            bool_decide (is_Some (ir_MediaManagement desired)) ||
            bool_decide (is_Some (ir_Authentication desired)) in
          if negb hasDirectApplyWork then ret (Some emptyApplyResult, None)
          else applyDirect conn desired
      end
  end.

(** *** Prowlarr *)

Definition HandleProwlarrRegistration (namespace : string) (ref : option ProwlarrRef)
    (appType appName appURL appAPIKey : string) : M W unit :=
  match ref with
  | None => ret tt
  | Some ref =>
      if negb (default true (prr_AutoRegister ref)) then ret tt
      else
        let* prowlarrConfig := wrapErr (λ e, "failed to get ProwlarrConfig " +:+ prr_Name ref +:+ ": " +:+ e)%string
          (kubeGetProwlarrConfig namespace (prr_Name ref)) in
        let conn := pcs_Connection (pc_Spec prowlarrConfig) in
        let* prowlarrSecrets := wrapErr (λ e, "failed to resolve Prowlarr secrets: " +:+ e)%string
          (ResolveConnectionSecrets namespace conn) in
        wrapErr (λ e, "failed to register with Prowlarr: " +:+ e)%string
          (RegisterApp (mkProwlarrConnection (cns_URL conn) (default "" (prowlarrSecrets !! "apiKey")))
             (mkAppRegistration appName appType appURL appAPIKey "" SyncLevelFullSync [] []))
  end%string.

(** Errors are logged: they never block a deletion. *)
Definition HandleProwlarrUnregistration (namespace prowlarrRefName appName : string) : M W unit :=
  if String.eqb prowlarrRefName "" then ret tt
  else
    let* r := attempt (kubeGetProwlarrConfig namespace prowlarrRefName) in
    match r with
    | inr _ => ret tt
    | inl prowlarrConfig =>
        let conn := pcs_Connection (pc_Spec prowlarrConfig) in
        let* r := attempt (ResolveConnectionSecrets namespace conn) in
        match r with
        | inr _ => ret tt
        | inl prowlarrSecrets =>
            let* _ := attempt (UnregisterApp
              (mkProwlarrConnection (cns_URL conn) (default "" (prowlarrSecrets !! "apiKey")))%string appName) in
            ret tt
        end
    end.

(** *** Health *)

Definition issueStatus (issue : HealthIssue) : HealthIssueStatus :=
  mkHealthIssueStatus (hi_Source issue) (hi_Type issue) (hi_Message issue) (hi_WikiURL issue).

Definition countIssues (t : HealthIssueType) (h : HealthStatus) : Z :=
  Z.of_nat (length (filter (λ issue, hi_Type issue = t) (hs_Issues h))).

Definition healthStatusOf (now : Z) (h : HealthStatus) : HealthStatusAPI := {|
  hst_Healthy := hs_Healthy h;
  hst_IssueCount := Z.of_nat (length (hs_Issues h));
  hst_ErrorCount := countIssues HealthIssueTypeError h;
  hst_WarningCount := countIssues HealthIssueTypeWarning h;
  hst_LastCheck := Some now;
  hst_Issues := issueStatus <$> hs_Issues h |}.

(** The event of an issue: type, reason and message; none for a notice. *)
Definition eventOf (issue : HealthIssue) : option (string * string * string) :=
  let message := ("[" +:+ hi_Source issue +:+ "] " +:+ hi_Message issue)%string in
  switch (hi_Type issue) [
    ([HealthIssueTypeError], Some ("Warning", "HealthError", message)%string);
    ([HealthIssueTypeWarning], Some ("Warning", "HealthWarning", message)%string);
    ([HealthIssueTypeNotice], None)]
    (Some ("Warning", "HealthWarning", message)%string).

Definition emitEvents (issues : list HealthIssue) : M W unit :=
  match recorder with
  | None => ret tt
  | Some event =>
      forRange (λ _ issue, match eventOf issue with
                           | Some (eventType, reason, message) => event eventType reason message
                           | None => ret tt
                           end) tt issues
  end.

Definition CheckAndReportHealth (appType : string) (conn : ConnectionIR) : M W (option HealthStatusAPI) :=
  match Adapters.Get appType registry ≫= a_GetHealth with
  | None => ret None
  | Some getHealth =>
      let* r := attempt (getHealth conn) in
      match r with
      | inr _ => ret None
      | inl health =>
          let* w := Prelude.get in
          emitEvents (hs_Issues health) ;;;
          ret (Some (healthStatusOf (kubeClock w) health))
      end
  end.
End reconciler.

(** ** Theorems *)

(** The status of the condition of a type. *)
Definition conditionStatus (s : Status) (t : string) : option string :=
  cond_Status <$> (list_find (λ d, cond_Type d = t) (st_Conditions s) ≫= λ ic, Some ic.2).

Section theorems.
Context {W C : Type} `{KubeLaws W} `{HasStatus C} `{Service W} (registry : gmap string (Adapter W)).
Implicit Types (r : Rec W C).

Definition statusOf (r : Rec W C) : Status := status_of (rec_config r).

(** What a computation does to the status, whatever it does to the world. *)
Definition keepsStatus {A} (m : M (Rec W C) A) : Prop := ∀ r, rec_config (m r).1 = rec_config r.

Lemma onWorld_keeps {A} (m : M W A) : keepsStatus (onWorld m).
Proof. intros r. unfold onWorld. by destruct (m (rec_world r)) as [w x]. Qed.

Lemma attempt_keeps {A} (m : M (Rec W C) A) : keepsStatus m → keepsStatus (attempt m).
Proof. intros Hm r. specialize (Hm r). unfold attempt. by destruct (m r) as [r' [a|e|why]]. Qed.

Lemma SetCondition_run g t st reason msg r : ∃ r', SetCondition g t st reason msg r = (r', Ret tt) ∧
  rec_world r' = rec_world r ∧
  conditionStatus (statusOf r') t = Some st ∧
  (∀ t', t' ≠ t → conditionStatus (statusOf r') t' = conditionStatus (statusOf r) t') ∧
  st_LastAppliedHash (statusOf r') = st_LastAppliedHash (statusOf r).
Proof.
  eexists. split; [done|]. unfold statusOf. cbn [rec_config rec_world with_conditions conditions_of StatusConditions].
  rewrite !status_with.
  split_and!; [done| | |done].
  - unfold conditionStatus. simpl.
    destruct (setStatusCondition_self (st_Conditions (status_of (rec_config r)))
      (mkCondition t st g (kubeClock (rec_world r)) reason msg)) as (c' & E & Hst & _).
    simpl in E, Hst. rewrite E. simpl. by rewrite Hst.
  - intros t' Hne. unfold conditionStatus. simpl. f_equal. by apply setStatusCondition_other.
Qed.

(** Runs an adapter operation of [ReconcileConfig]: the status is kept. *)
Lemma attempt_onWorld_run {A B} (m : M W A) (k : A + error → M (Rec W C) B) r r' b before :
  bind (attempt (onWorld m)) k r = (r', Ret b) →
  st_LastAppliedHash (statusOf r) = before →
  ∃ a r1, k a r1 = (r', Ret b) ∧ st_LastAppliedHash (statusOf r1) = before.
Proof.
  unfold bind. pose proof (attempt_keeps _ (onWorld_keeps m) r) as Hk.
  destruct (attempt (onWorld m) r) as [r1 [a|e|why]]; [|done..]. intros E Hb. exists a, r1.
  split; [done|]. unfold statusOf in *. simpl in Hk. by rewrite Hk.
Qed.

Lemma bind_SetCondition {B} g t st reason msg (k : unit → M (Rec W C) B) r r' b before :
  bind (SetCondition g t st reason msg) k r = (r', Ret b) →
  st_LastAppliedHash (statusOf r) = before →
  ∃ r1, k tt r1 = (r', Ret b) ∧ st_LastAppliedHash (statusOf r1) = before ∧
    conditionStatus (statusOf r1) t = Some st.
Proof.
  unfold bind. destruct (SetCondition_run g t st reason msg r) as (r1 & -> & _ & Hr & _ & Hh).
  intros E Hb. exists r1. by rewrite Hh.
Qed.

Lemma onWorld_run {A B} (m : M W A) (k : A → M (Rec W C) B) r r' b before :
  bind (onWorld m) k r = (r', Ret b) →
  st_LastAppliedHash (statusOf r) = before →
  ∃ a r1, k a r1 = (r', Ret b) ∧ st_LastAppliedHash (statusOf r1) = before.
Proof.
  unfold bind. pose proof (onWorld_keeps m r) as Hk.
  destruct (onWorld m r) as [r1 [a|e|why]]; [|done..]. intros E Hb. exists a, r1.
  split; [done|]. unfold statusOf in *. simpl in Hk. by rewrite Hk.
Qed.

(** The same computations run forward. *)
Lemma attempt_onWorld_ok {A B} (m : M W A) (k : A + error → M (Rec W C) B) r w a :
  m (rec_world r) = (w, Ret a) → bind (attempt (onWorld m)) k r = k (inl a) (mkRec w (rec_config r)).
Proof. unfold bind, attempt, onWorld. by intros ->. Qed.

Lemma bind_modifyStatus {B} f (k : unit → M (Rec W C) B) r :
  bind (modifyStatus f) k r = k tt (mkRec (rec_world r) (with_status (f (status_of (rec_config r))) (rec_config r))).
Proof. done. Qed.

Lemma bind_SetCondition_ok g t st reason msg r : ∃ c,
  (∀ B (k : unit → M (Rec W C) B),
     bind (SetCondition g t st reason msg) k r = k tt (mkRec (rec_world r) c)) ∧
  ∀ t', t' ≠ t → conditionStatus (status_of c) t' = conditionStatus (statusOf r) t'.
Proof.
  destruct (SetCondition_run g t st reason msg r) as ([w c] & E & Hw & _ & Ho & _). exists c.
  simpl in Hw. subst w. split; [|done]. intros B k. unfold bind. by rewrite E.
Qed.

(** What the status says after [ReconcileConfig] returned. *)
Definition statusTells (desired : IR) (before after : Status) (x : option ApplyResult * option error) : Prop :=
  match x with
  | (res, None) =>
      st_LastAppliedHash after = ir_SourceHash desired ∧
      conditionStatus after ConditionTypeReady = Some ConditionTrue ∧
      ∃ result, res = Some result ∧ conditionStatus after ConditionTypeSynced =
        Some (if Success result then ConditionTrue else ConditionFalse)
  | (_, Some _) =>
      st_LastAppliedHash after = st_LastAppliedHash before ∧
      conditionStatus after ConditionTypeReady = Some ConditionFalse
  end.

Lemma finish_tells g desired result before r r' x :
  finish g desired result r = (r', Ret x) →
  conditionStatus (statusOf r) ConditionTypeSynced =
    Some (if Success result then ConditionTrue else ConditionFalse) →
  statusTells desired before (statusOf r') x.
Proof.
  unfold finish, bind, Prelude.get, modifyStatus. cbv beta iota. intros E Hs.
  match type of E with context [SetCondition ?g ?t ?st ?re ?ms ?r0] =>
    destruct (SetCondition_run g t st re ms r0) as (r1 & E1 & _ & Hr & Ho & Hh) end.
  rewrite E1 in E. injection E as <- <-. unfold statusOf in *. cbn [rec_config] in Ho, Hh.
  rewrite !status_with in Hh. setoid_rewrite status_with in Ho.
  simpl. rewrite Hh. split_and!; [done|done|].
  exists result. split; [done|]. by rewrite Ho, status_with.
Qed.

Lemma failWith_tells g reason e desired before r r' x :
  failWith g reason e r = (r', Ret x) →
  st_LastAppliedHash (statusOf r) = st_LastAppliedHash before →
  statusTells desired before (statusOf r') x.
Proof.
  unfold failWith. intros E Hb.
  apply bind_SetCondition with (before := st_LastAppliedHash before) in E as (r1 & E1 & Hb1 & Hr1); [|done].
  injection E1 as <- <-. by split.
Qed.

Lemma applyChanges_tells adapter conn g desired changes before r r' x :
  applyChanges adapter conn g desired changes r = (r', Ret x) →
  st_LastAppliedHash (statusOf r) = st_LastAppliedHash before →
  statusTells desired before (statusOf r') x.
Proof.
  unfold applyChanges. intros E Hb.
  destruct (onWorld_run _ _ _ _ _ _ E Hb) as ([[result|] [e|]] & r1 & E1 & Hb1); [| | |done].
  - apply bind_SetCondition with (before := st_LastAppliedHash before) in E1 as (r2 & E2 & Hb2 & _); [|done].
    apply bind_SetCondition with (before := st_LastAppliedHash before) in E2 as (r3 & E3 & Hb3 & Hr3); [|done].
    injection E3 as <- <-. by split.
  - destruct (Success result) eqn:Hs;
      apply bind_SetCondition with (before := st_LastAppliedHash before) in E1 as (r2 & E2 & Hb2 & Hr2); try done;
      eapply finish_tells; try exact E2; by rewrite Hs.
  - apply bind_SetCondition with (before := st_LastAppliedHash before) in E1 as (r2 & E2 & Hb2 & _); done.
Qed.

Lemma ReconcileConfig_tells appType conn desired g r r' x :
  ReconcileConfig registry appType conn desired g r = (r', Ret x) →
  statusTells desired (statusOf r) (statusOf r') x.
Proof.
  remember (statusOf r) as before eqn:Eb. assert (st_LastAppliedHash (statusOf r) = st_LastAppliedHash before) as Hb
    by (by subst). clear Eb. unfold ReconcileConfig. intros E.
  destruct (Adapters.Get appType registry) as [adapter|]; [|by eapply failWith_tells].
  destruct (attempt_onWorld_run _ _ _ _ _ _ E Hb) as ([info|e] & r1 & E1 & Hb1); last first.
  { unfold bind at 1, modifyStatus in E1. cbv beta iota in E1.
    apply bind_SetCondition with (before := st_LastAppliedHash before) in E1 as (r2 & E2 & Hb2 & _);
      [|by unfold statusOf in *; simpl; rewrite ?status_with].
    apply bind_SetCondition with (before := st_LastAppliedHash before) in E2 as (r3 & E3 & Hb3 & Hr3); [|done].
    injection E3 as <- <-. by split. }
  unfold bind at 1, modifyStatus at 1 in E1. cbv beta iota in E1.
  unfold bind at 1, modifyStatus at 1 in E1. cbv beta iota in E1.
  apply bind_SetCondition with (before := st_LastAppliedHash before) in E1 as (r2 & E2 & Hb2 & _);
      [|by unfold statusOf in *; simpl; rewrite ?status_with].
  destruct (attempt_onWorld_run _ _ _ _ _ _ E2 Hb2) as ([caps|e] & r3 & E3 & Hb3); [|by eapply failWith_tells].
  destruct (attempt_onWorld_run _ _ _ _ _ _ E3 Hb3) as ([[current|]|e] & r4 & E4 & Hb4);
    [|done|by eapply failWith_tells].
  destruct (attempt_onWorld_run _ _ _ _ _ _ E4 Hb4) as ([changes|e] & r5 & E5 & Hb5); [|by eapply failWith_tells].
  destruct (IsEmpty changes).
  - apply bind_SetCondition with (before := st_LastAppliedHash before) in E5 as (r6 & E6 & Hb6 & Hs6); [|done].
    eapply finish_tells; [exact E6|exact Hs6].
  - by eapply applyChanges_tells.
Qed.

(** A reconciliation whose every step succeeds: what the changes leave of the
    world.  [applied] is what applying them does, empty change sets included. *)
Lemma ReconcileConfig_applies appType adapter conn desired g r wc info wd caps ws cur wf changes w' res :
  Adapters.Get appType registry = Some adapter →
  a_Connect adapter conn (rec_world r) = (wc, Ret info) → a_Discover adapter conn wc = (wd, Ret caps) →
  a_CurrentState adapter conn wd = (ws, Ret (Some cur)) → a_Diff adapter cur desired (Some caps) ws = (wf, Ret changes) →
  a_Apply adapter conn changes wf = (w', Ret (Some res, None)) →
  (IsEmpty changes = true → w' = wf ∧ res = emptyApplyResult) →
  ∃ r', ReconcileConfig registry appType conn desired g r = (r', Ret (Some res, None)) ∧ rec_world r' = w'.
Proof.
  intros Hreg Ec Ed Es Ef Ea Hempty. unfold ReconcileConfig. rewrite Hreg.
  rewrite (attempt_onWorld_ok (a_Connect adapter conn) _ _ _ _ Ec), !bind_modifyStatus.
  match goal with |- ∃ _, bind (SetCondition ?g ?t ?st ?re ?msg) _ ?r0 = _ ∧ _ =>
    destruct (bind_SetCondition_ok g t st re msg r0) as (c1 & -> & _) end. cbn [rec_world].
  rewrite (attempt_onWorld_ok (a_Discover adapter conn) _ (mkRec wc c1) _ _ Ed).
  rewrite (attempt_onWorld_ok (a_CurrentState adapter conn) _ (mkRec wd c1) _ _ Es). cbn [rec_config].
  rewrite (attempt_onWorld_ok (a_Diff adapter cur desired (Some caps)) _ (mkRec ws c1) _ _ Ef). cbn [rec_config].
  destruct (IsEmpty changes) eqn:He.
  - destruct (Hempty eq_refl) as [-> ->].
    match goal with |- ∃ _, bind (SetCondition ?g ?t ?st ?re ?msg) _ ?r0 = _ ∧ _ =>
      destruct (bind_SetCondition_ok g t st re msg r0) as (c2 & -> & _) end. by eexists.
  - unfold applyChanges, onWorld, bind at 1. cbn [rec_world rec_config]. rewrite Ea. by destruct (Success res); eexists.
Qed.

(** C13: what the status says is what happened.  When [ReconcileConfig] returns
    without an error, the last applied hash is the desired state's, Ready is true
    and Synced tells whether every change was applied (Ready stays true even when
    some failed); when it returns an error, Ready is false and the hash is the one
    from before, so that the next reconciliation does not take the state for
    applied.  This holds for every adapter and every outcome of its operations. *)
Theorem ReconcileConfig_status appType conn desired g r r' x :
  ReconcileConfig registry appType conn desired g r = (r', Ret x) →
  match x with
  | (res, None) =>
      st_LastAppliedHash (statusOf r') = ir_SourceHash desired ∧
      conditionStatus (statusOf r') ConditionTypeReady = Some ConditionTrue ∧
      ∃ result, res = Some result ∧ conditionStatus (statusOf r') ConditionTypeSynced =
        Some (if Success result then ConditionTrue else ConditionFalse)
  | (_, Some _) =>
      st_LastAppliedHash (statusOf r') = st_LastAppliedHash (statusOf r) ∧
      conditionStatus (statusOf r') ConditionTypeReady = Some ConditionFalse
  end.
Proof. apply ReconcileConfig_tells. Qed.

(** when the changes cannot be applied at all, the reconciler crashes.  If the
    adapter connects, reads a state and finds changes, but its [Apply] reports an
    error with a nil result (as every adapter does when the ownership tag cannot be
    ensured), [ReconcileConfig] dereferences the nil result. *)
Theorem ReconcileConfig_nil_result_panics appType adapter conn desired g (r : Rec W C)
    w1 w2 w3 w4 w5 info caps current changes e :
  Adapters.Get appType registry = Some adapter →
  a_Connect adapter conn (rec_world r) = (w1, Ret info) →
  a_Discover adapter conn w1 = (w2, Ret caps) →
  a_CurrentState adapter conn w2 = (w3, Ret (Some current)) →
  a_Diff adapter current desired (Some caps) w3 = (w4, Ret changes) →
  IsEmpty changes = false →
  a_Apply adapter conn changes w4 = (w5, Ret (None, Some e)) →
  ∃ r' why, ReconcileConfig registry appType conn desired g r = (r', Panic why) ∧
    conditionStatus (statusOf r') ConditionTypeReady = conditionStatus (statusOf r) ConditionTypeReady.
Proof.
  intros Hreg Hconn Hdisc Hcur Hdiff Hne Happly. unfold ReconcileConfig. rewrite Hreg.
  rewrite (attempt_onWorld_ok _ _ _ _ _ Hconn), !bind_modifyStatus.
  destruct (bind_SetCondition_ok g ConditionTypeConnected ConditionTrue "Connected"
    ("Connected to " +:+ appType +:+ " " +:+ si_Version info)%string (mkRec w1 (with_status (st_set_ServiceVersion (si_Version info) (status_of
      (with_status (st_set_Connected true (status_of (rec_config r))) (rec_config r))))
      (with_status (st_set_Connected true (status_of (rec_config r))) (rec_config r)))))
    as (c1 & Hb1 & Ho1).
  cbn [rec_world rec_config] in *. rewrite Hb1.
  rewrite (attempt_onWorld_ok (a_Discover adapter conn) _ (mkRec w1 c1) _ _ Hdisc).
  rewrite (attempt_onWorld_ok (a_CurrentState adapter conn) _ (mkRec w2 c1) _ _ Hcur).
  rewrite (attempt_onWorld_ok (a_Diff adapter current desired (Some caps)) _ (mkRec w3 c1) _ _ Hdiff), Hne.
  unfold applyChanges, onWorld, bind at 1. cbn [rec_world rec_config]. rewrite Happly.
  destruct (bind_SetCondition_ok g ConditionTypeSynced ConditionFalse "ApplyFailed" e (mkRec w5 c1))
    as (c2 & Hb2 & Ho2).
  rewrite Hb2. eexists _, _. split; [done|]. unfold statusOf in *. cbn [rec_config] in *.
  rewrite (Ho2 ConditionTypeReady), (Ho1 ConditionTypeReady) by done. by rewrite !status_with.
Qed.
End theorems.

(** ** An example cluster, for the witnesses *)
Module ExampleCluster.

(** The secrets of a namespace; the object updates succeed. *)
Definition Cluster : Type := gmap (string * string) (gmap string string).

Definition setCondition (cs : list Condition) (c : Condition) : list Condition :=
  filter (λ d, cond_Type d ≠ cond_Type c) cs ++ [c].

Definition kubeOn {W} (secretsOf : W → Cluster) : Kube W := {|
  kubeGetSecret ns name := λ w,
    (w, match secretsOf w !! (ns, name) with Some d => Ret d | None => Err "not found" end);
  kubeGetProwlarrConfig ns name := fail "not found";
  kubeClock := λ _, 0;
  recorder := None;
  setStatusCondition := setCondition;
  containsFinalizer fs f := bool_decide (f ∈ fs);
  addFinalizer fs f := if bool_decide (f ∈ fs) then fs else fs ++ [f];
  removeFinalizer fs f := filter (λ g, g ≠ f) fs |}.
#[export] Instance ExampleKube : Kube Cluster := kubeOn id.

Definition findCondition (t : string) (cs : list Condition) : option Condition :=
  list_find (λ d, cond_Type d = t) cs ≫= λ ic, Some ic.2.

Lemma findCondition_cons t d cs :
  findCondition t (d :: cs) = if decide (cond_Type d = t) then Some d else findCondition t cs.
Proof.
  unfold findCondition. simpl. case_decide; [done|].
  by destruct (list_find (λ d0, cond_Type d0 = t) cs) as [[i x]|].
Qed.

Lemma findCondition_set t cs c :
  findCondition t (setCondition cs c) = if decide (cond_Type c = t) then Some c else findCondition t cs.
Proof.
  unfold setCondition. induction cs as [|d cs IH].
  - rewrite filter_nil, app_nil_l, findCondition_cons. done.
  - rewrite findCondition_cons, filter_cons. destruct (decide (cond_Type d ≠ cond_Type c)) as [Hne|Heq].
    + rewrite <-app_comm_cons, findCondition_cons, IH. repeat case_decide; congruence.
    + apply dec_stable in Heq. rewrite IH. repeat case_decide; congruence.
Qed.

(** The writes of objects succeed. *)
#[export] Instance kubeStores {W C} : KubeObject W C := {|
  kubeUpdate c := ret c; kubeStatusUpdate c := ret c |}.

Lemma kubeOn_laws {W} (secretsOf : W → Cluster) : @KubeLaws W (kubeOn secretsOf).
Proof.
  split.
  - intros fs f. apply bool_decide_eq_true.
  - intros fs f g. simpl. case_bool_decide; [naive_solver|]. rewrite elem_of_app, list_elem_of_singleton. done.
  - intros fs f g. simpl. rewrite list_elem_of_filter. naive_solver.
  - intros cs c. exists c. split; [|done]. change (findCondition (cond_Type c) (setCondition cs c) = Some c).
    rewrite findCondition_set. by rewrite decide_True.
  - intros cs c t Hne. change (findCondition t (setCondition cs c) = findCondition t cs).
    rewrite findCondition_set. by rewrite decide_False by congruence.
Qed.

#[export] Instance ExampleKubeLaws : KubeLaws Cluster := kubeOn_laws id.

#[export] Instance ExampleHTTP : Service Cluster := {|
  serve c rq w := (w, TransportError "connection refused"); requestError := id; decodeError := λ _, "json" |}.

Definition exampleCaps : Capabilities := mkCapabilities 0 [] [] [] [] [] [].

(** An adapter that finds one change and reports [applied]. *)
Definition exampleFlow (applied : option ApplyResult * option error) : Adapter Cluster :=
  mkAdapter AppSonarr AppSonarr (λ _, ret (mkServiceInfo "4.0" 0)) (λ _, ret exampleCaps)
    (λ _, ret (Some (emptyIRFor AppSonarr)))
    (λ _ _ _, ret (mkChangeSet [mkChange ResourceIndexer "a" None PNil] [] []))
    (λ _ _, ret applied) None None.

Definition exampleSpec (clients : list DownloadClientSpec) (suspend : bool) : SonarrConfigSpec :=
  mkSonarrConfigSpec
    (mkConnectionSpec "http://sonarr.media:8989" (Some (mkSecretKeySelector "sonarr" "")) "" false None)
    None clients [] None None [] [] None None [] [] [] [] (Some (mkReconciliationSpec None suspend)).

Definition exampleObject (finalizers : list string) (deleted : option Z) (suspend : bool) : SonarrConfig :=
  mkSonarrConfig (mkObjectMeta "tv" "media" "4f1d" 3 deleted finalizers) (exampleSpec [] suspend)
    (mkSonarrConfigStatus [] false "" None (mkManagedResources None [] [] [] [] [] []) "before" None None).

Definition exampleRec : Rec Cluster SonarrConfig :=
  mkRec {[ ("media", "sonarr") := {[ "apiKey" := "0123" ]} ]}%string (exampleObject [SonarrFinalizer] None false).
Definition exampleConnIR : ConnectionIR := mkConnectionIR "http://sonarr.media:8989" "0123" false.
End ExampleCluster.
Import ExampleCluster.

Definition onePartlyApplied : ApplyResult :=
  mkApplyResult 0 1 0 [mkApplyError (mkChange ResourceIndexer "a" None PNil) "refused"].

Lemma ReconcileConfig_status_witness :
  let reg : gmap string (Adapter Cluster) := {[ AppSonarr := exampleFlow (Some onePartlyApplied, None) ]} in
  let run := ReconcileConfig reg AppSonarr exampleConnIR (emptyIRFor AppSonarr) 3 exampleRec in
  run.2 = Ret (Some onePartlyApplied, None) ∧
  conditionStatus (statusOf run.1) ConditionTypeReady = Some ConditionTrue ∧
  conditionStatus (statusOf run.1) ConditionTypeSynced = Some ConditionFalse.
Proof.
  intros reg run. assert (run.2 = Ret (Some onePartlyApplied, None)) as E by (vm_compute; reflexivity).
  split; [exact E|]. assert (run = (run.1, Ret (Some onePartlyApplied, None))) as E'.
  { rewrite <-E. destruct run. reflexivity. }
  destruct (ReconcileConfig_status reg AppSonarr exampleConnIR (emptyIRFor AppSonarr) 3 exampleRec
    run.1 (Some onePartlyApplied, None) E') as (_ & Hr & result & Heq & Hs).
  injection Heq as <-. split; [exact Hr|exact Hs].
Defined.

Lemma ReconcileConfig_nil_result_panics_witness :
  let adapter := exampleFlow (None, Some "failed to ensure ownership tag: 503"%string) in
  let reg : gmap string (Adapter Cluster) := {[ AppSonarr := adapter ]} in
  ∃ r' why, ReconcileConfig reg AppSonarr exampleConnIR (emptyIRFor AppSonarr) 3 exampleRec = (r', Panic why).
Proof.
  intros adapter reg. set (w := rec_world exampleRec).
  assert (Adapters.Get AppSonarr reg = Some adapter) as H by (vm_compute; reflexivity).
  destruct (ReconcileConfig_nil_result_panics reg AppSonarr adapter exampleConnIR (emptyIRFor AppSonarr) 3
    exampleRec w w w w w (mkServiceInfo "4.0" 0) exampleCaps (emptyIRFor AppSonarr)
    (mkChangeSet [mkChange ResourceIndexer "a" None PNil] [] []) "failed to ensure ownership tag: 503"
    H eq_refl eq_refl eq_refl eq_refl eq_refl eq_refl) as (r' & why & E & _).
  exists r', why. exact E.
Defined.
