(* ===== verification/GenericReconciler.v ===== *)
(** * The generic reconciler (src/internal/controller/generic_arr_reconciler.go)

    The state machine of one reconciliation: suspension, deletion with its
    finalizer, and the normal flow.  [compileConfig] is the callback the
    controllers pass; [reconcile] works on the object in memory ([Rec]). *)
From S2P Require Export Reconcile.

(** *** Steps on an object of any kind *)

Section steps.
Context {W C : Type} `{Kube W} `{KubeObject W C} `{HasConditions C}.
Abbreviation MR := (M (Rec W C)).
Abbreviation Outcome := (Result * option error)%type.

Definition config : MR C := λ r, (r, Ret (rec_config r)).

(** [r.Update(ctx, obj)] and [r.Status().Update(ctx, obj)]: the object in memory
    becomes the one the API server returns; an error leaves it as it is. *)
Definition update : MR unit := λ r,
  match kubeUpdate (rec_config r) (rec_world r) with
  | (w, Ret c) => (mkRec w c, Ret tt)
  | (w, Err e) => (mkRec w (rec_config r), Err e)
  | (w, Panic p) => (mkRec w (rec_config r), Panic p)
  end.
Definition updateStatus : MR unit := λ r,
  match kubeStatusUpdate (rec_config r) (rec_world r) with
  | (w, Ret c) => (mkRec w c, Ret tt)
  | (w, Err e) => (mkRec w (rec_config r), Err e)
  | (w, Panic p) => (mkRec w (rec_config r), Panic p)
  end.

Definition modifyConfig (f : C → C) : MR unit := λ r, (mkRec (rec_world r) (f (rec_config r)), Ret tt).

Definition modifyFinalizers `{ClientObject C} (f : list string → list string) : MR unit :=
  modifyConfig (λ c, with_meta (set_Finalizers (f (om_Finalizers (meta_of c))) (meta_of c)) c).

(** An error is reported in the status (a failed status update is logged), and
    the object is requeued. *)
Definition requeueAfterError (err : option error) : MR Outcome :=
  let* _ := attempt updateStatus in ret (mkResult false ErrorRequeueInterval, err).

Definition failStep (generation : Z) (reason : string) (e : error) (err : option error) : MR Outcome :=
  SetCondition generation ConditionTypeReady ConditionFalse reason e ;;;
  requeueAfterError err.

(** [x, err := m(); if err != nil { ...return }; k(x)]. *)
Definition step {A} (generation : Z) (reason : string) (m : M W A) (k : A → MR Outcome) : MR Outcome :=
  let* r := attempt (onWorld m) in
  match r with
  | inl a => k a
  | inr e => failStep generation reason e (Some e)
  end.

(** [if err := r.Update(ctx, obj); err != nil { return ctrl.Result{}, err }]. *)
Definition thenUpdate (requeue : bool) : MR Outcome :=
  let* updated := attempt update in
  match updated with
  | inr e => ret (mkResult false 0, Some e)
  | inl _ => ret (mkResult requeue 0, None)
  end.

(** The end of a successful flow: the status is written, and the object is polled
    again after its interval. *)
Definition updateAndPoll (interval : C → Z) : MR Outcome :=
  let* updated := attempt updateStatus in
  match updated with
  | inr e => ret (mkResult false 0, Some e)
  | inl _ => let* c := config in ret (mkResult false (interval c), None)
  end.
End steps.

(** *** The reconciler of the four applications *)

Section generic.
Context {W C : Type} `{Kube W} `{KubeObject W C} `{ArrConfigObject C} `{Service W} (registry : gmap string (Adapter W)).
(** [CompileConfig]: the desired state, or an error. *)
Context (compileConfig : C → gmap string string → option Capabilities → M W IR).
Abbreviation MR := (M (Rec W C)).
Abbreviation Outcome := (Result * option error)%type.

Definition modifyMeta (f : ObjectMeta → ObjectMeta) : MR unit :=
  modifyConfig (λ c, with_meta (f (meta_of c)) c).

Definition intervalOf (c : C) : Z := default DefaultRequeueInterval (GetReconciliationSpec c ≫= rcs_Interval).

Definition appNameOf (c : C) : string :=
  ("nebularr-" +:+ GetAppType c +:+ "-" +:+ om_Name (meta_of c))%string.

(** The resolution of all secrets, in its order. *)
Definition resolveAll (c : C) : M W (gmap string string) :=
  let namespace := om_Namespace (meta_of c) in
  let* resolved := ResolveConnectionSecrets namespace (GetConnectionSpec c) in
  let* resolved := ResolveDownloadClientSecrets namespace (GetDownloadClients c) resolved in
  let* resolved := ResolveIndexerSecrets namespace (GetIndexersSpec c) resolved in
  let* resolved := ResolveImportListSecrets namespace (GetImportLists c) resolved in
  ResolveAuthenticationSecrets namespace (GetAuthenticationSpec c) resolved.

Definition connectionOf (c : C) (resolved : gmap string string) : ConnectionIR :=
  mkConnectionIR (cns_URL (GetConnectionSpec c)) (default ""%string (resolved !! "apiKey"%string)) false.

(** What follows a successful [ReconcileConfig]: nothing of it is fatal but the
    update of the status. *)
Definition afterReconcile (c : C) (conn : ConnectionIR) (desired : IR) : MR Outcome :=
  let* _ := attempt (onWorld (ApplyDirectConfig registry (GetAppType c) conn desired)) in
  (if ShouldRegisterWithProwlarr c then
     match GetIndexersSpec c ≫= ixs_ProwlarrRef with
     | None => ret tt
     | Some ref =>
         let* _ := attempt (onWorld (HandleProwlarrRegistration (om_Namespace (meta_of c)) (Some ref)
           (GetAppType c) (appNameOf c) (conn_URL conn) (conn_APIKey conn))) in
         ret tt
     end
   else ret tt) ;;;
  let* health := onWorld (CheckAndReportHealth registry (GetAppType c) conn) in
  (match health with
   | None => ret tt
   | Some h => modifyStatus (st_set_Health (Some h))
   end) ;;;
  updateAndPoll intervalOf.

Definition reconcileNormal : MR Outcome :=
  let* c := config in
  let g := om_Generation (meta_of c) in
  step g "SecretResolutionFailed" (resolveAll c) (λ resolved,
  let conn := connectionOf c resolved in
  match Adapters.Get (GetAppType c) registry with
  | None => failStep g "AdapterNotFound" (notRegistered (GetAppType c)) None
  | Some adapter =>
      step g "DiscoveryFailed" (a_Discover adapter conn) (λ caps,
      step g "CompilationFailed" (compileConfig c resolved (Some caps)) (λ desired,
      let* r := ReconcileConfig registry (GetAppType c) conn desired g in
      match r with
      | (_, Some e) => requeueAfterError (Some e)
      | (_, None) => afterReconcile c conn desired
      end))
  end).

Definition reconcileDelete (finalizerName : string) : MR Outcome :=
  let* c := config in
  let namespace := om_Namespace (meta_of c) in
  (match GetIndexersSpec c ≫= ixs_ProwlarrRef with
   | None => ret tt
   | Some ref =>
       let* _ := attempt (onWorld (HandleProwlarrUnregistration namespace (prr_Name ref) (appNameOf c))) in
       ret tt
   end) ;;;
  let* resolved := attempt (onWorld (ResolveConnectionSecrets namespace (GetConnectionSpec c))) in
  (match resolved with
   | inr _ => ret tt
   | inl resolved =>
       let* _ := attempt (onWorld (CleanupManagedResources registry (GetAppType c) (connectionOf c resolved))) in
       ret tt
   end) ;;;
  modifyMeta (λ m, set_Finalizers (removeFinalizer (om_Finalizers m) finalizerName) m) ;;;
  thenUpdate false.

Definition Reconcile : MR Outcome :=
  let* c := config in
  if from_option rcs_Suspend false (GetReconciliationSpec c) then ret (mkResult false 0, None)
  else
    let finalizerName := GetFinalizerName c in
    match om_DeletionTimestamp (meta_of c) with
    | Some _ => reconcileDelete finalizerName
    | None =>
        if negb (containsFinalizer (om_Finalizers (meta_of c)) finalizerName) then
          modifyMeta (λ m, set_Finalizers (addFinalizer (om_Finalizers m) finalizerName) m) ;;;
          thenUpdate true
        else reconcileNormal
    end.

(** *** [FetchAndReconcile]: [fetch] is the read of the object by its key, with
    whether an error means that it does not exist. *)
Definition FetchAndReconcile (fetch : M W C) (isNotFound : error → bool) : M W Outcome := λ w,
  match fetch w with
  | (w', Ret c) =>
      let '(r, x) := Reconcile (mkRec w' c) in (rec_world r, x)
  | (w', Err e) =>
      (w', Ret (mkResult false 0, if isNotFound e then None else Some e))
  | (w', Panic p) => (w', Panic p)
  end.
End generic.
