(* ===== verification/Reports.v ===== *)
(** * What a reconciliation reports (theorems about the steps of [GenericReconciler])

    For any kind of object with conditions: a run that returns ends with one write of
    a status, whose Ready condition tells whether something failed.  A relation
    [agree] says which part of the object the run leaves alone. *)
From S2P Require Export GenericReconciler.

Definition conditionIn (cs : list Condition) (t : string) : option Condition :=
  list_find (λ d, cond_Type d = t) cs ≫= λ ic, Some ic.2.

(** The status and the message of the Ready condition. *)
Definition readyOf {C} `{HasConditions C} (c : C) : option string :=
  cond_Status <$> conditionIn (conditions_of c) ConditionTypeReady.
Definition messageOf {C} `{HasConditions C} (c : C) : option string :=
  cond_Message <$> conditionIn (conditions_of c) ConditionTypeReady.

(** The object in memory after a write of [c]. *)
Definition written {C} (c : C) (x : outcome C) : C := match x with Ret c' => c' | _ => c end.

Section reports.
Context {W C : Type} `{KubeLaws W} `{!KubeObject W C} `{HasConditions C}.
Context (agree : relation C) `{!PreOrder agree} (agree_conditions : ∀ cs c, agree c (with_conditions cs c)).
Abbreviation MR := (M (Rec W C)).
Abbreviation Outcome := (Result * option error)%type.
Implicit Types (c : C) (r : Rec W C).

Lemma SetCondition_message g st reason msg r : ∃ c' cs,
  SetCondition g ConditionTypeReady st reason msg r = (mkRec (rec_world r) c', Ret tt) ∧
  c' = with_conditions cs (rec_config r) ∧ agree (rec_config r) c' ∧
  readyOf c' = Some st ∧ messageOf c' = Some msg.
Proof.
  eexists _, _. split; [done|]. split; [done|]. split; [apply agree_conditions|]. unfold readyOf, messageOf.
  rewrite conditions_with. destruct (setStatusCondition_self (conditions_of (rec_config r))
    (mkCondition ConditionTypeReady st g (kubeClock (rec_world r)) reason msg)) as (c' & E & Hst & _ & Hmsg).
  change (conditionIn (setStatusCondition (conditions_of (rec_config r))
    (mkCondition ConditionTypeReady st g (kubeClock (rec_world r)) reason msg)) ConditionTypeReady = Some c') in E.
  rewrite E. simpl. by rewrite Hst, Hmsg.
Qed.

Lemma SetCondition_ready g st reason msg r : ∃ c' cs,
  SetCondition g ConditionTypeReady st reason msg r = (mkRec (rec_world r) c', Ret tt) ∧
  c' = with_conditions cs (rec_config r) ∧ agree (rec_config r) c' ∧ readyOf c' = Some st.
Proof. destruct (SetCondition_message g st reason msg r) as (c' & cs & ? & ? & ? & ? & _). by exists c', cs. Qed.

(** A run that ends with the write of a status that is not Ready and is retried after
    an error. *)
Definition reportsFailure c r' (x : Outcome) : Prop := ∃ w1 c1 w2 out e,
  kubeStatusUpdate c1 w1 = (w2, out) ∧ r' = mkRec w2 (written c1 out) ∧
  agree c c1 ∧ readyOf c1 = Some ConditionFalse ∧ x = (mkResult false ErrorRequeueInterval, Some e).

Lemma reportsFailure_agree c1 c2 r' x : agree c1 c2 → reportsFailure c2 r' x → reportsFailure c1 r' x.
Proof.
  intros Ha (w1 & c3 & w2 & out & e & Hu & Hr & Ha' & Hf). exists w1, c3, w2, out, e.
  split_and!; [done..|by etrans|apply Hf|apply Hf].
Qed.

Lemma requeue_reports c e r r' x : requeueAfterError (Some e) r = (r', Ret x) →
  agree c (rec_config r) → readyOf (rec_config r) = Some ConditionFalse → reportsFailure c r' x.
Proof.
  unfold requeueAfterError, bind, attempt, updateStatus. destruct r as [w1 c1]. cbn [rec_world rec_config].
  intros E Ha Hr. destruct (kubeStatusUpdate c1 w1) as [w2 out] eqn:Eu. exists w1, c1, w2, out, e.
  destruct out; [| |done]; injection E as <- <-; by split_and!.
Qed.

Lemma failStep_reports c g reason e e' r r' x : failStep g reason e (Some e') r = (r', Ret x) →
  agree c (rec_config r) → reportsFailure c r' x.
Proof.
  unfold failStep. intros E Ha. destruct (SetCondition_ready g ConditionFalse reason e r) as (c' & cs & E1 & _ & Ha' & Hr).
  rewrite (bind_ok _ _ _ _ _ E1) in E. apply (requeue_reports _ _ _ _ _ E); [by etrans|done].
Qed.

(** A step: what follows, from the world after it, or the report of its failure. *)
Lemma step_cases {A} c g reason (m : M W A) (k : A → MR Outcome) r r' x :
  step g reason m k r = (r', Ret x) → agree c (rec_config r) →
  (∃ a w', m (rec_world r) = (w', Ret a) ∧ k a (mkRec w' (rec_config r)) = (r', Ret x)) ∨ reportsFailure c r' x.
Proof.
  unfold step, bind, attempt, onWorld. destruct r as [w1 c1]. cbn [rec_world rec_config].
  destruct (m w1) as [w' [a|e|why]]; intros E Ha; [left; by exists a, w'| |done].
  right. by eapply failStep_reports.
Qed.

(** The end of a run in which nothing failed. *)
Definition reportsSuccess (interval : C → Z) c1 r' (x : Outcome) : Prop := ∃ w1 w2 out,
  kubeStatusUpdate c1 w1 = (w2, out) ∧ r' = mkRec w2 (written c1 out) ∧ readyOf c1 = Some ConditionTrue ∧
  match out with
  | Ret c' => x = (mkResult false (interval c'), None)
  | Err e => x = (mkResult false 0, Some e)
  | Panic _ => False
  end.

Lemma succeed_reports interval g reason msg r r' x :
  (SetCondition g ConditionTypeReady ConditionTrue reason msg ;;; updateAndPoll interval) r = (r', Ret x) →
  ∃ c1 cs, c1 = with_conditions cs (rec_config r) ∧ reportsSuccess interval c1 r' x.
Proof.
  intros E. destruct (SetCondition_ready g ConditionTrue reason msg r) as (c1 & cs & E1 & Hc & _ & Hr).
  exists c1, cs. split; [done|]. rewrite (bind_ok _ _ _ _ _ E1) in E.
  unfold updateAndPoll, bind, attempt, updateStatus in E. cbn [rec_world rec_config] in E.
  destruct (kubeStatusUpdate c1 (rec_world r)) as [w2 out] eqn:Eu. exists (rec_world r), w2, out.
  destruct out; [| |done]; injection E as <- <-; by split_and!.
Qed.

(** *** Exactly *)

Lemma step_run_on {A} g reason (m : M W A) (k : A → MR Outcome) w c : step g reason m k (mkRec w c) =
  match m w with
  | (w', Ret a) => k a (mkRec w' c)
  | (w', Err e) => failStep g reason e (Some e) (mkRec w' c)
  | (w', Panic p) => (mkRec w' c, Panic p)
  end.
Proof. unfold step, bind, attempt, onWorld. cbn [rec_world rec_config]. by destruct (m w) as [w' [a|e|p]]. Qed.

(** A run that ends, in the world [w], with the write of [c1] after an error. *)
Definition failsWith (w : W) c1 (e : error) (run : Rec W C * outcome Outcome) : Prop :=
  readyOf c1 = Some ConditionFalse ∧ messageOf c1 = Some e ∧
  let '(w', out) := kubeStatusUpdate c1 w in
  run = (mkRec w' (written c1 out),
    match out with Panic p => Panic p | _ => Ret (mkResult false ErrorRequeueInterval, Some e) end).

(** A run that ends with the write of [c1] after nothing failed. *)
Definition succeedsWith (interval : C → Z) (w : W) c1 (run : Rec W C * outcome Outcome) : Prop :=
  readyOf c1 = Some ConditionTrue ∧
  let '(w', out) := kubeStatusUpdate c1 w in
  run = (mkRec w' (written c1 out),
    match out with
    | Ret c' => Ret (mkResult false (interval c'), None)
    | Err e => Ret (mkResult false 0, Some e)
    | Panic p => Panic p
    end).

Lemma requeue_fails e w c1 : readyOf c1 = Some ConditionFalse → messageOf c1 = Some e →
  failsWith w c1 e (requeueAfterError (Some e) (mkRec w c1)).
Proof.
  intros Hr Hm. split; [done|]. split; [done|].
  unfold requeueAfterError, bind, attempt, updateStatus. cbn [rec_world rec_config].
  by destruct (kubeStatusUpdate c1 w) as [w' []].
Qed.

Lemma failStep_fails g reason e w c : ∃ cs,
  failsWith w (with_conditions cs c) e (failStep g reason e (Some e) (mkRec w c)).
Proof.
  unfold failStep. destruct (SetCondition_message g ConditionFalse reason e (mkRec w c)) as (c1 & cs & E & -> & _ & Hr & Hm).
  exists cs. rewrite (bind_ok _ _ _ _ _ E). by apply requeue_fails.
Qed.

Lemma poll_succeeds interval g reason msg w c : ∃ cs,
  succeedsWith interval w (with_conditions cs c)
    ((SetCondition g ConditionTypeReady ConditionTrue reason msg ;;; updateAndPoll interval) (mkRec w c)).
Proof.
  destruct (SetCondition_ready g ConditionTrue reason msg (mkRec w c)) as (c1 & cs & E & -> & _ & Hr).
  exists cs. rewrite (bind_ok _ _ _ _ _ E). split; [done|].
  unfold updateAndPoll, bind, attempt, updateStatus. cbn [rec_world rec_config].
  by destruct (kubeStatusUpdate (with_conditions cs c) w) as [w' []].
Qed.
(** A run does the work [p] and tells what came of it: it succeeds with an object that
    satisfies [good] if the work does, and reports its error otherwise. *)
Definition tells {A} (interval : C → Z) c (good : W → A → C → Prop) (p : W * outcome A) (run : Rec W C * outcome Outcome)
    : Prop :=
  let '(w', out) := p in
  match out with
  | Ret a => ∃ c1, agree c c1 ∧ good w' a c1 ∧ succeedsWith interval w' c1 run
  | Err e => ∃ c1, agree c c1 ∧ failsWith w' c1 e run
  | Panic why => run.2 = Panic why
  end.

Lemma tells_step {A B} interval c (good : W → B → C → Prop) g reason (m : M W A) (k' : A → M W B) (k : A → MR Outcome) w c' :
  agree c c' → (∀ a w', m w = (w', Ret a) → tells interval c good (k' a w') (k a (mkRec w' c'))) →
  tells interval c good (bind m k' w) (step g reason m k (mkRec w c')).
Proof.
  intros Ha Hk. rewrite step_run_on. unfold bind. destruct (m w) as [w' [a|e|why]]; [by apply Hk| |done].
  destruct (failStep_fails g reason e w' c') as [cs Hf]. exists (with_conditions cs c'). split; [|done].
  by etrans.
Qed.

Lemma tells_last {A} interval c (good : W → A → C → Prop) g reason (m : M W A) (k : A → MR Outcome) w c' :
  agree c c' → (∀ a w', m w = (w', Ret a) → tells interval c good (w', Ret a) (k a (mkRec w' c'))) →
  tells interval c good (m w) (step g reason m k (mkRec w c')).
Proof.
  intros Ha Hk. assert (m w = bind m ret w) as -> by (unfold bind; by destruct (m w) as [w' []]).
  by apply tells_step.
Qed.

Lemma config_then {A} (k : C → MR A) w c : (let* c := config in k c) (mkRec w c) = k c (mkRec w c).
Proof. done. Qed.
End reports.

(** ** The phases of an object's life *)

Inductive Phase := Suspended | Deleting | Unguarded | Active.

(** Of an object with the reconciliation spec [spec] and the metadata [m]. *)
Definition phaseFrom `{Kube W} (spec : option ReconciliationSpec) (m : ObjectMeta) (finalizer : string) : Phase :=
  if from_option rcs_Suspend false spec then Suspended
  else match om_DeletionTimestamp m with
       | Some _ => Deleting
       | None => if containsFinalizer (om_Finalizers m) finalizer then Active else Unguarded
       end.

Lemma phaseFrom_guarded `{KubeLaws W} spec m finalizer :
  phaseFrom spec m finalizer = Unguarded →
  phaseFrom spec (set_Finalizers (addFinalizer (om_Finalizers m) finalizer) m) finalizer = Active.
Proof.
  unfold phaseFrom. destruct (from_option _ _ _); [done|]. simpl. destruct (om_DeletionTimestamp m); [done|].
  intros _. rewrite (proj2 (containsFinalizer_spec _ _)); [done|]. apply addFinalizer_spec. by right.
Qed.

Definition withFinalizers `{ClientObject C} (fs : list string) (c : C) : C :=
  with_meta (set_Finalizers fs (meta_of c)) c.

(** The write of the object [c]: what it is in memory afterwards. *)
Definition storing `{KubeObject W C} (c : C) (requeue : bool) (w : W) : Rec W C * outcome (Result * option error) :=
  match kubeUpdate c w with
  | (w', Ret c') => (mkRec w' c', Ret (mkResult requeue 0, None))
  | (w', Err e) => (mkRec w' c, Ret (mkResult false 0, Some e))
  | (w', Panic p) => (mkRec w' c, Panic p)
  end.

Lemma update_run `{KubeObject W C} (c : C) requeue w : thenUpdate requeue (mkRec w c) = storing c requeue w.
Proof.
  unfold thenUpdate, bind, attempt, update, storing. simpl. by destruct (kubeUpdate c w) as [w' [c'|e|why]].
Qed.
