(* ===== verification/Controllers.v ===== *)
(** * The controllers (src/internal/controller/*config_controller.go)

    The entry points of the controllers of the four applications, which wire the
    generic reconciler to a kind of object and its compiler, and the controller of
    Prowlarr, which has a flow of its own made of the same steps. *)
From S2P Require Export GenericReconciler Convert CompileProwlarr.

(** ** The four applications

    [Reconcile] of each controller with its [CompileConfig] callback; the compilers
    return no error. *)
Section applications.
Context {W : Type} `{Kube W} `{Service W} `{Digest} `{UnicodeTables} (registry : gmap string (Adapter W)).
Context (o : RangeOrder) (now : Z) (isNotFound : error → bool).
Abbreviation Outcome := (Result * option error)%type.

(** A compiler as the callback [CompileConfig]. *)
Definition asCallback {C} (compile : C → gmap string string → option Capabilities → IR)
    (c : C) (secrets : gmap string string) (caps : option Capabilities) : M W IR := ret (compile c secrets caps).

Definition SonarrConfigReconcile `{!KubeObject W SonarrConfig} (fetch : M W SonarrConfig) : M W Outcome :=
  FetchAndReconcile registry (asCallback (CompileSonarrConfig o now)) fetch isNotFound.
Definition RadarrConfigReconcile `{!KubeObject W RadarrConfig} (fetch : M W RadarrConfig) : M W Outcome :=
  FetchAndReconcile registry (asCallback (CompileRadarrConfig o now)) fetch isNotFound.
Definition LidarrConfigReconcile `{!KubeObject W LidarrConfig} (fetch : M W LidarrConfig) : M W Outcome :=
  FetchAndReconcile registry (asCallback (CompileLidarrConfig o now)) fetch isNotFound.
Definition ReadarrConfigReconcile `{!KubeObject W ReadarrConfig} (fetch : M W ReadarrConfig) : M W Outcome :=
  FetchAndReconcile registry (asCallback (CompileReadarrConfig o now)) fetch isNotFound.
End applications.

(** ** Prowlarr (prowlarrconfig_controller.go) *)
Section controller.
Context {W : Type} `{Kube W} `{!KubeObject W ProwlarrConfig} `{Service W} `{UnicodeTables}.
Context (registry : gmap string (Adapter W)) (o : RangeOrder) (now : Z).
Abbreviation MR := (M (Rec W ProwlarrConfig)).
Abbreviation Outcome := (Result * option error)%type.
Implicit Types (c : ProwlarrConfig).

Definition prowlarrResolveAll c : M W (gmap string string) :=
  let namespace := om_Namespace (pc_ObjectMeta c) in
  let spec := pc_Spec c in
  let* resolved := ResolveConnectionSecrets namespace (pcs_Connection spec) in
  let* resolved := ResolveDownloadClientSecrets namespace (pcs_DownloadClients spec) resolved in
  let* resolved := ResolveProwlarrIndexerSecrets namespace (pcs_Indexers spec) resolved in
  let* resolved := ResolveProxySecrets namespace (pcs_Proxies spec) resolved in
  ResolveApplicationSecrets namespace (pcs_Applications spec) resolved.

Definition prowlarrConnectionOf c (resolved : gmap string string) : ConnectionIR :=
  mkConnectionIR (cns_URL (pcs_Connection (pc_Spec c))) (default ""%string (resolved !! "apiKey"%string)) false.

Definition prowlarrIntervalOf c : Z := default DefaultRequeueInterval (pcs_Reconciliation (pc_Spec c) ≫= rcs_Interval).

Definition prowlarrReconcileNormal : MR Outcome :=
  let* c := config in
  let g := om_Generation (pc_ObjectMeta c) in
  step g "SecretResolutionFailed" (prowlarrResolveAll c) (λ resolved,
  let conn := prowlarrConnectionOf c resolved in
  match Adapters.Get AppProwlarr registry with
  | None => failStep g "AdapterNotFound" (notRegistered AppProwlarr) None
  | Some adapter =>
      step g "DiscoveryFailed" (a_Discover adapter conn) (λ caps,
      step g "CompilationFailed" (ret (CompileProwlarrConfig o now c resolved (Some caps))) (λ desired,
      let* r := ReconcileConfig registry AppProwlarr conn desired g in
      match r with
      | (_, Some e) => requeueAfterError (Some e)
      | (_, None) =>
          let* health := onWorld (CheckAndReportHealth registry AppProwlarr conn) in
          (match health with
           | None => ret tt
           | Some h => modifyStatus (st_set_Health (Some h))
           end) ;;;
          updateAndPoll prowlarrIntervalOf
      end))
  end).

Definition prowlarrReconcileDelete : MR Outcome :=
  let* c := config in
  let* resolved := attempt (onWorld (ResolveConnectionSecrets (om_Namespace (pc_ObjectMeta c))
    (pcs_Connection (pc_Spec c)))) in
  (match resolved with
   | inr _ => ret tt
   | inl resolved =>
       let* _ := attempt (onWorld (CleanupManagedResources registry AppProwlarr (prowlarrConnectionOf c resolved))) in
       ret tt
   end) ;;;
  modifyFinalizers (λ fs, removeFinalizer fs prowlarrFinalizer) ;;;
  thenUpdate false.

(** [prowlarrReconcile] after the object was read. *)
Definition prowlarrReconcileObject : MR Outcome :=
  let* c := config in
  if from_option rcs_Suspend false (pcs_Reconciliation (pc_Spec c)) then ret (mkResult false 0, None)
  else
    match om_DeletionTimestamp (pc_ObjectMeta c) with
    | Some _ => prowlarrReconcileDelete
    | None =>
        if negb (containsFinalizer (om_Finalizers (pc_ObjectMeta c)) prowlarrFinalizer) then
          modifyFinalizers (λ fs, addFinalizer fs prowlarrFinalizer) ;;;
          thenUpdate true
        else prowlarrReconcileNormal
    end.

Definition prowlarrReconcile (fetch : M W ProwlarrConfig) (isNotFound : error → bool) : M W Outcome := λ w,
  match fetch w with
  | (w', Ret c) =>
      let '(r, x) := prowlarrReconcileObject (mkRec w' c) in (rec_world r, x)
  | (w', Err e) => (w', Ret (mkResult false 0, if isNotFound e then None else Some e))
  | (w', Panic p) => (w', Panic p)
  end.
End controller.
