(* ===== verification/Coordinator.v ===== *)
(** * The Prowlarr coordinator (src/internal/controller/prowlarr_coordinator_controller.go)

    The registration of the applications that refer to a ProwlarrConfig (the pull
    model), for the four kinds of application in turn, and the requests a change of
    an application triggers. *)
From S2P Require Export Reconcile.

(** ** The objects *)

(** The field status.prowlarrRegistration. *)
Class HasRegistration (C : Type) := {
  registration_of : C → option ProwlarrRegistration;
  with_registration : option ProwlarrRegistration → C → C }.

Definition sc_with_registration (reg : option ProwlarrRegistration) (c : SonarrConfig) : SonarrConfig :=
  let s := sc_Status c in
  mkSonarrConfig (sc_ObjectMeta c) (sc_Spec c)
    (mkSonarrConfigStatus (scst_Conditions s) (scst_Connected s) (scst_ServiceVersion s) (scst_LastReconcile s)
       (scst_ManagedResources s) (scst_LastAppliedHash s) reg (scst_Health s)).
Definition rc_with_registration (reg : option ProwlarrRegistration) (c : RadarrConfig) : RadarrConfig :=
  let s := rc_Status c in
  mkRadarrConfig (rc_ObjectMeta c) (rc_Spec c)
    (mkRadarrConfigStatus (rcst_Conditions s) (rcst_Connected s) (rcst_ServiceVersion s) (rcst_LastReconcile s)
       (rcst_ManagedResources s) (rcst_LastAppliedHash s) reg (rcst_Health s)).
Definition lc_with_registration (reg : option ProwlarrRegistration) (c : LidarrConfig) : LidarrConfig :=
  let s := lc_Status c in
  mkLidarrConfig (lc_ObjectMeta c) (lc_Spec c)
    (mkLidarrConfigStatus (lcst_Conditions s) (lcst_Connected s) (lcst_ServiceVersion s) (lcst_LastReconcile s)
       (lcst_ManagedResources s) (lcst_LastAppliedHash s) reg (lcst_Health s)).
Definition rdc_with_registration (reg : option ProwlarrRegistration) (c : ReadarrConfig) : ReadarrConfig :=
  let s := rdc_Status c in
  mkReadarrConfig (rdc_ObjectMeta c) (rdc_Spec c)
    (mkReadarrConfigStatus (rdcst_Conditions s) (rdcst_Connected s) (rdcst_ServiceVersion s) (rdcst_LastReconcile s)
       (rdcst_ManagedResources s) (rdcst_LastAppliedHash s) reg (rdcst_Health s)).

#[export] Instance SonarrRegistration : HasRegistration SonarrConfig := {|
  registration_of c := scst_ProwlarrRegistration (sc_Status c); with_registration := sc_with_registration |}.
#[export] Instance RadarrRegistration : HasRegistration RadarrConfig := {|
  registration_of c := rcst_ProwlarrRegistration (rc_Status c); with_registration := rc_with_registration |}.
#[export] Instance LidarrRegistration : HasRegistration LidarrConfig := {|
  registration_of c := lcst_ProwlarrRegistration (lc_Status c); with_registration := lc_with_registration |}.
#[export] Instance ReadarrRegistration : HasRegistration ReadarrConfig := {|
  registration_of c := rdcst_ProwlarrRegistration (rdc_Status c); with_registration := rdc_with_registration |}.

(** [r.List] of a kind in a namespace. *)
Class KubeList (W C : Type) := kubeList : string → M W (list C).

(** ** One application *)

Section coordinator.
Context {W : Type} `{Kube W} `{Service W}.
Abbreviation Outcome := (Result * option error)%type.

Definition notRegisteredBecause (prowlarrName message : string) : ProwlarrRegistration :=
  mkProwlarrRegistration false prowlarrName None None [] message.

Definition pushKeyOf (appType name : string) : string := (appType +:+ "/" +:+ name)%string.
Definition pullNameOf (configName appType : string) : string :=
  ("nebularr-pull-" +:+ configName +:+ "-" +:+ appType)%string.

(** The key of the secret of the application type, or of the configuration; an
    empty string when there is neither. *)
Definition appAPIKeyOf (namespace appType configName : string) : M W string :=
  let* r := attempt (ResolveSecretValue namespace (appType +:+ "-api-key") "apiKey") in
  match r with
  | inl apiKey => ret apiKey
  | inr _ =>
      let* r := attempt (ResolveSecretValue namespace (configName +:+ "-api-key") "apiKey") in
      match r with
      | inl apiKey => ret apiKey
      | inr _ => ret ""
      end
  end%string.

(** The registration afterwards, and the error. *)
Definition processAppConfig (prowlarrConfig : ProwlarrConfig) (conn : ProwlarrConnection)
    (pushModelApps : gset string) (configName namespace appType : string) (indexers : option IndexersSpec)
    (appURL : string) (registration : option ProwlarrRegistration)
    : M W (option ProwlarrRegistration * option error) :=
  let prowlarrName := om_Name (pc_ObjectMeta prowlarrConfig) in
  match indexers ≫= ixs_ProwlarrRef with
  | None =>
      ret (match registration with
           | Some reg => if preg_Registered reg && String.eqb (preg_ProwlarrName reg) prowlarrName
                         then Some (notRegisteredBecause "" "ProwlarrRef removed from config") else Some reg
           | None => None
           end, None)
  | Some prowlarrRef =>
      if negb (String.eqb (prr_Name prowlarrRef) prowlarrName) then ret (registration, None)
      else if pushKeyOf appType configName ∈? pushModelApps then
        ret (Some (notRegisteredBecause prowlarrName
               "Conflict: app is defined in both ProwlarrConfig.applications[] (Push) and has prowlarrRef (Pull). Remove from one."),
             Some ("conflict: " +:+ appType +:+ "/" +:+ configName +:+ " defined in both Push and Pull model")%string)
      else if negb (default true (prr_AutoRegister prowlarrRef)) then
        ret (Some (notRegisteredBecause prowlarrName "Auto-registration disabled (autoRegister: false)"), None)
      else
        let* appAPIKey := appAPIKeyOf namespace appType configName in
        if String.eqb appAPIKey "" then
          ret (Some (notRegisteredBecause prowlarrName ("Could not resolve API key for " +:+ configName)%string),
               Some ("could not resolve API key for " +:+ appType +:+ "/" +:+ configName)%string)
        else
          let appName := pullNameOf configName appType in
          let* registered := attempt (RegisterApp conn (mkAppRegistration appName appType appURL appAPIKey
            (cns_URL (pcs_Connection (pc_Spec prowlarrConfig))) SyncLevelFullSync [] [])) in
          match registered with
          | inr e => ret (Some (notRegisteredBecause prowlarrName ("Registration failed: " +:+ e)%string), Some e)
          | inl _ =>
              let* w := Prelude.get in
              ret (Some (mkProwlarrRegistration true prowlarrName None (Some (kubeClock w)) []
                     ("Registered as " +:+ appName)%string), None)
          end
  end.

(** ** The applications of a kind *)

Definition processKind (C : Type) `{KubeList W C} `{KubeObject W C} `{ArrConfigObject C} `{HasRegistration C}
    (appType namespace : string) (prowlarrConfig : ProwlarrConfig) (conn : ProwlarrConnection)
    (pushModelApps : gset string) (errs : list error) : M W (list error) :=
  let* items := attempt (kubeList namespace) in
  match items with
  | inr _ => ret errs
  | inl items =>
      forRange (λ errs (config : C),
        let* r := processAppConfig prowlarrConfig conn pushModelApps
          (om_Name (meta_of config)) (om_Namespace (meta_of config)) appType
          (GetIndexersSpec config) (cns_URL (GetConnectionSpec config)) (registration_of config) in
        let* _ := attempt (kubeStatusUpdate (with_registration r.1 config)) in
        ret (errs ++ option_list r.2)) errs items
  end.

Context `{!KubeList W RadarrConfig} `{!KubeObject W RadarrConfig} `{!KubeList W SonarrConfig} `{!KubeObject W SonarrConfig}
  `{!KubeList W LidarrConfig} `{!KubeObject W LidarrConfig} `{!KubeList W ReadarrConfig} `{!KubeObject W ReadarrConfig}.

Definition processKinds namespace prowlarrConfig conn pushModelApps : M W (list error) :=
  let* errs := processKind RadarrConfig AppTypeRadarr namespace prowlarrConfig conn pushModelApps [] in
  let* errs := processKind SonarrConfig AppTypeSonarr namespace prowlarrConfig conn pushModelApps errs in
  let* errs := processKind LidarrConfig AppTypeLidarr namespace prowlarrConfig conn pushModelApps errs in
  processKind ReadarrConfig AppTypeReadarr namespace prowlarrConfig conn pushModelApps errs.

(** [Reconcile] of the request [namespace/name]. *)
Definition CoordinatorReconcile (isNotFound : error → bool) (namespace name : string) : M W Outcome :=
  let* fetched := attempt (kubeGetProwlarrConfig namespace name) in
  match fetched with
  | inr e => ret (mkResult false 0, if isNotFound e then None else Some e)
  | inl prowlarrConfig =>
      match om_DeletionTimestamp (pc_ObjectMeta prowlarrConfig) with
      | Some _ => ret (mkResult false 0, None)
      | None =>
          if negb (pcst_Connected (pc_Status prowlarrConfig)) then ret (mkResult false (30 * 10 ^ 9), None)
          else
            let spec := pc_Spec prowlarrConfig in
            let* secrets := attempt (ResolveConnectionSecrets (om_Namespace (pc_ObjectMeta prowlarrConfig))
              (pcs_Connection spec)) in
            match secrets with
            | inr e => ret (mkResult false ErrorRequeueInterval, Some e)
            | inl prowlarrSecrets =>
                let conn := mkProwlarrConnection (cns_URL (pcs_Connection spec))
                  (default "" (prowlarrSecrets !! "apiKey"))%string in
                let pushModelApps := setOf ((λ app, pushKeyOf (pxa_Type app) (pxa_Name app)) <$> pcs_Applications spec) in
                let* errs := processKinds namespace prowlarrConfig conn pushModelApps in
                ret (match errs with
                     | [] => (mkResult false DefaultRequeueInterval, None)
                     | _ => (mkResult false ErrorRequeueInterval, Some
                              ("encountered " +:+ Itoa (Z.of_nat (length errs)) +:+ " errors during coordination")%string)
                     end)
            end
      end
  end.
End coordinator.

(** ** SetupWithManager: the requests a changed application triggers (namespace, name) *)
Definition mapAppConfigToProwlarr `{ArrConfigObject C} (config : C) : list (string * string) :=
  let prowlarrRefName := from_option prr_Name "" (GetIndexersSpec config ≫= ixs_ProwlarrRef) in
  if negb (String.eqb prowlarrRefName "") then [(om_Namespace (meta_of config), prowlarrRefName)] else [].
