(* ===== verification/Lifecycle.v ===== *)
(** * The life of a configuration (theorems about generic_arr_reconciler.go)

    The reconciler as a state machine on the object: what one reconciliation does
    in each phase of the object's life, that every return reports in the status,
    and that a deletion always gets to the removal of the finalizer. *)
From S2P Require Export GenericReconciler Reports SonarrConverge.

(** ** Computations that only write the status of the object in memory *)

Section touches.
Context {W C : Type} `{HasStatus C}.

Definition touchesStatus {A} (m : M (Rec W C) A) : Prop := ∀ r, ∃ s,
  rec_config (m r).1 = with_status s (rec_config r).

Lemma touches_keeps {A} (m : M (Rec W C) A) : keepsStatus m → touchesStatus m.
Proof. intros Hm r. exists (status_of (rec_config r)). by rewrite with_status_of. Qed.

Lemma touches_ret {A} (a : A) : touchesStatus (ret a).
Proof. by apply touches_keeps. Qed.
Lemma touches_panic {A} why : touchesStatus (@panic _ A why).
Proof. by apply touches_keeps. Qed.
Lemma touches_get : touchesStatus (@Prelude.get (Rec W C)).
Proof. by apply touches_keeps. Qed.
Lemma touches_onWorld {A} (m : M W A) : touchesStatus (onWorld m).
Proof. apply touches_keeps, onWorld_keeps. Qed.
Lemma touches_modify f : touchesStatus (modifyStatus f : M (Rec W C) unit).
Proof. intros r. by eexists. Qed.

Lemma touches_attempt {A} (m : M (Rec W C) A) : touchesStatus m → touchesStatus (attempt m).
Proof. intros Hm r. specialize (Hm r). unfold attempt. by destruct (m r) as [r' [a|e|why]]. Qed.

Lemma touches_bind {A B} (m : M (Rec W C) A) (k : A → M (Rec W C) B) :
  touchesStatus m → (∀ a, touchesStatus (k a)) → touchesStatus (bind m k).
Proof.
  intros Hm Hk r. destruct (Hm r) as [s Hs]. unfold bind. destruct (m r) as [r' [a|e|why]]; simpl in Hs;
    [|by exists s..].
  destruct (Hk a r') as [s' Hs']. exists s'. by rewrite Hs', Hs, with_status_twice.
Qed.
End touches.

Create HintDb touches discriminated.
#[export] Hint Resolve touches_ret touches_panic touches_get touches_onWorld touches_modify
  touches_attempt touches_bind : touches.

Section helper.
Context {W C : Type} `{Kube W} `{HasStatus C} `{Service W} (registry : gmap string (Adapter W)).

Lemma touches_SetCondition g t st reason msg : touchesStatus (SetCondition g t st reason msg : M (Rec W C) unit).
Proof. intros r. by eexists. Qed.
#[local] Hint Resolve touches_SetCondition : touches.

Lemma touches_failWith g reason e : touchesStatus (failWith g reason e : M (Rec W C) _).
Proof. unfold failWith. auto with touches. Qed.

Lemma touches_finish g desired result : touchesStatus (finish g desired result : M (Rec W C) _).
Proof. unfold finish. auto 6 with touches. Qed.
#[local] Hint Resolve touches_failWith touches_finish : touches.

Lemma touches_ReconcileConfig appType conn desired g :
  touchesStatus (ReconcileConfig registry appType conn desired g : M (Rec W C) _).
Proof.
  unfold ReconcileConfig, applyChanges.
  repeat first [progress auto with touches | apply touches_bind; intros | case_match].
Qed.
End helper.

(** ** Every return of a flow is reported

    For an object of any kind; the object that is read first is [c0]. *)

Section reports.
Context {W C : Type} `{KubeLaws W} `{!KubeObject W C} `{!HasStatus C} `{Service W}.
Implicit Types (c : C) (r : Rec W C) (s : Status).
Abbreviation Outcome := (Result * option error)%type.

(** The object in memory after the write of [c]. *)
Definition written (c : C) (o : outcome C) : C :=
  match o with Ret c' => c' | _ => c end.

(** The run ended with a write of the status [s] of the object [c0], and returned
    what belongs to that status: it is Ready with the hash of a state that was
    compiled ([compiled]), and the object is polled again after its interval (or the
    failed write is an error); or it is not Ready, with the hash it had, and the
    object is retried. *)
Definition reported (compiled : IR → Prop) (interval : C → Z) (c0 : C) (r' : Rec W C) (x : Outcome) : Prop :=
  ∃ w s w' o, kubeStatusUpdate (with_status s c0) w = (w', o) ∧
    r' = mkRec w' (written (with_status s c0) o) ∧
    ((conditionStatus s ConditionTypeReady = Some ConditionTrue ∧
      (∃ desired, compiled desired ∧ st_LastAppliedHash s = ir_SourceHash desired) ∧
      match o with
      | Ret c' => x = (mkResult false (interval c'), None)
      | Err e => x = (mkResult false 0, Some e)
      | Panic _ => False
      end) ∨
     (conditionStatus s ConditionTypeReady = Some ConditionFalse ∧
      st_LastAppliedHash s = st_LastAppliedHash (status_of c0) ∧
      x.1 = mkResult false ErrorRequeueInterval)).

Lemma updateStatus_run {B} (k : unit + error → M (Rec W C) B) r r' b :
  bind (attempt updateStatus) k r = (r', Ret b) →
  ∃ w' o, kubeStatusUpdate (rec_config r) (rec_world r) = (w', o) ∧
    match o with
    | Ret c' => k (inl tt) (mkRec w' c') = (r', Ret b)
    | Err e => k (inr e) (mkRec w' (rec_config r)) = (r', Ret b)
    | Panic _ => False
    end.
Proof.
  unfold bind, attempt, updateStatus. destruct (kubeStatusUpdate _ _) as [w' [c'|e|why]]; [eauto..|done].
Qed.

Context (compiled : IR → Prop) (interval : C → Z) (c0 : C).

(** A run that ends in a requeue after an error. *)
Lemma requeue_reported s err r r' x :
  requeueAfterError err r = (r', Ret x) → rec_config r = with_status s c0 →
  conditionStatus s ConditionTypeReady = Some ConditionFalse →
  st_LastAppliedHash s = st_LastAppliedHash (status_of c0) → reported compiled interval c0 r' x.
Proof.
  intros E Hc Hr Hh. apply updateStatus_run in E as (w' & o & Eo & E). rewrite Hc in Eo.
  exists (rec_world r), s, w', o. split; [done|].
  destruct o as [c'|e|why]; [| |done]; injection E as <- <-; simpl; rewrite ?Hc; (split; [done|right; done]).
Qed.

Lemma bind_config {B} (k : C → M (Rec W C) B) r : bind config k r = k (rec_config r) r.
Proof. done. Qed.

(** A failed step. *)
Lemma failStep_reported g s reason e err r r' x :
  failStep g reason e err r = (r', Ret x) → rec_config r = with_status s c0 →
  st_LastAppliedHash s = st_LastAppliedHash (status_of c0) → reported compiled interval c0 r' x.
Proof.
  unfold failStep. intros E Hc Hh. unfold bind in E.
  destruct (SetCondition_run g ConditionTypeReady ConditionFalse reason e r) as (r1 & E1 & _ & Hr & _ & Hh').
  destruct (touches_SetCondition g ConditionTypeReady ConditionFalse reason e r) as [s1 Hs1].
  rewrite E1 in E, Hs1. simpl in Hs1. rewrite Hc, with_status_twice in Hs1.
  unfold statusOf in *. rewrite Hs1, status_with in Hr, Hh'. rewrite Hc, status_with in Hh'.
  eapply requeue_reported; [exact E|exact Hs1|done|by rewrite Hh'].
Qed.

(** A step: it fails and the failure is reported, or the run goes on. *)
Lemma step_run {A} g reason (m : M W A) (k : A → M (Rec W C) Outcome) s r r' x :
  step g reason m k r = (r', Ret x) → rec_config r = with_status s c0 →
  st_LastAppliedHash s = st_LastAppliedHash (status_of c0) →
  reported compiled interval c0 r' x ∨
  ∃ w' a, m (rec_world r) = (w', Ret a) ∧ k a (mkRec w' (rec_config r)) = (r', Ret x).
Proof.
  unfold step. intros E Hc Hh. unfold bind, attempt, onWorld in E.
  destruct (m (rec_world r)) as [w' [a|e|why]]; [right; by eexists _, _|left|done].
  eapply failStep_reported; [exact E|done|done].
Qed.

(** What is done on the world only, or attempted, and then the rest of the run. *)
Lemma onWorld_goes {A} (m : M W A) (k : A → M (Rec W C) Outcome) r r' x :
  bind (onWorld m) k r = (r', Ret x) → ∃ a r1, k a r1 = (r', Ret x) ∧ rec_config r1 = rec_config r.
Proof.
  unfold bind, onWorld. destruct (m (rec_world r)) as [w1 [b|e|why]]; [|done..]. intros E. by eexists _, _.
Qed.
Lemma attempt_goes {A} (m : M W A) (k : A + error → M (Rec W C) Outcome) r r' x :
  bind (attempt (onWorld m)) k r = (r', Ret x) → ∃ a r1, k a r1 = (r', Ret x) ∧ rec_config r1 = rec_config r.
Proof.
  unfold bind, attempt, onWorld. destruct (m (rec_world r)) as [w1 [b|e|why]]; [| |done]; intros E; by eexists _, _.
Qed.

(** The report of the health, with the rest of the run. *)
Lemma health_goes (m : M W (option HealthStatusAPI)) (k : M (Rec W C) Outcome) s r r' x :
  (let* health := onWorld m in
   (match health with None => ret tt | Some h => modifyStatus (st_set_Health (Some h)) end) ;;; k) r = (r', Ret x) →
  rec_config r = with_status s c0 →
  ∃ h r1, k r1 = (r', Ret x) ∧ rec_config r1 = with_status (st_set_Health h s) c0.
Proof.
  intros E Hc. apply onWorld_goes in E as (health & r1 & E & Hc1). rewrite Hc in Hc1.
  destruct health as [h|].
  - rewrite bind_modifyStatus in E. exists (Some h). eexists. split; [exact E|]. simpl.
    by rewrite Hc1, status_with, with_status_twice.
  - exists (st_Health s), r1. split; [exact E|]. rewrite Hc1. by destruct s.
Qed.

(** The successful end. *)
Lemma updateAndPoll_reported s desired r r' x :
  updateAndPoll interval r = (r', Ret x) → rec_config r = with_status s c0 →
  conditionStatus s ConditionTypeReady = Some ConditionTrue →
  compiled desired → st_LastAppliedHash s = ir_SourceHash desired → reported compiled interval c0 r' x.
Proof.
  intros E Hc Hr Hd Hh. apply updateStatus_run in E as (w' & o & Eo & E). rewrite Hc in Eo.
  exists (rec_world r), s, w', o. split; [done|].
  destruct o as [c'|e|why]; [| |done]; injection E as <- <-; rewrite ?Hc; (split; [done|left; eauto]).
Qed.

(** [ReconcileConfig] and what follows it: it fails and that is reported, or the run
    goes on with a Ready object. *)
Lemma ReconcileConfig_reported registry appType conn desired g
    (k : M (Rec W C) Outcome) s r r' x :
  (let* res := ReconcileConfig registry appType conn desired g in
   match res with (_, Some e) => requeueAfterError (Some e) | (_, None) => k end) r = (r', Ret x) →
  rec_config r = with_status s c0 →
  st_LastAppliedHash s = st_LastAppliedHash (status_of c0) →
  reported compiled interval c0 r' x ∨
  ∃ s1 r1, k r1 = (r', Ret x) ∧ rec_config r1 = with_status s1 c0 ∧
    conditionStatus s1 ConditionTypeReady = Some ConditionTrue ∧ st_LastAppliedHash s1 = ir_SourceHash desired.
Proof.
  intros E Hc Hh. destruct (touches_ReconcileConfig registry appType conn desired g r) as [s4 Hs4].
  unfold bind in E. destruct (ReconcileConfig _ _ _ _ _ r) as [r4 [[result [e|]]|e|why]] eqn:ER; [| |done..];
    pose proof (ReconcileConfig_tells _ _ _ _ _ _ _ _ ER) as Ht; unfold statusTells, statusOf in Ht;
    simpl in Hs4; rewrite Hc, with_status_twice in Hs4; rewrite Hs4, ?Hc, !status_with in Ht.
  - left. destruct Ht as [Hh' Hr]. eapply requeue_reported; [done..|congruence].
  - right. destruct Ht as (Hh' & Hr & _). by exists s4, r4.
Qed.
End reports.

Section normal.
Context {W C : Type} `{KubeLaws W} `{!KubeObject W C} `{ArrConfigObject C} `{Service W} (registry : gmap string (Adapter W)).
Context (compileConfig : C → gmap string string → option Capabilities → M W IR).

(** The states the callback compiles from the object. *)
Definition compiledFrom (c : C) (desired : IR) : Prop :=
  ∃ w resolved caps w', compileConfig c resolved caps w = (w', Ret desired).

Lemma afterReconcile_reported conn desired c0 s r r' x :
  afterReconcile registry c0 conn desired r = (r', Ret x) → rec_config r = with_status s c0 →
  conditionStatus s ConditionTypeReady = Some ConditionTrue → compiledFrom c0 desired →
  st_LastAppliedHash s = ir_SourceHash desired → reported (compiledFrom c0) intervalOf c0 r' x.
Proof.
  unfold afterReconcile. intros E Hc Hr Hd Hh.
  apply attempt_goes in E as (_ & r1 & E & Hc1). rewrite Hc in Hc1.
  match type of E with bind _ (λ _, ?tail) _ = _ => assert (∃ r2, tail r2 = (r', Ret x) ∧
    rec_config r2 = with_status s c0) as (r2 & E2 & Hc2) end.
  { destruct (ShouldRegisterWithProwlarr c0); [destruct (GetIndexersSpec c0 ≫= ixs_ProwlarrRef)|]; [|by exists r1..].
    rewrite bind_assoc in E. apply attempt_goes in E as (b & r2 & E & Hc2). rewrite Hc1 in Hc2. by exists r2. }
  apply (health_goes c0 _ _ s) in E2 as (h & r3 & E3 & Hc3); [|done].
  eapply updateAndPoll_reported; [exact E3|exact Hc3|done..].
Qed.

(** C17: Every return of the normal flow ends with a write of the status, which says what
    happened: either the object is Ready with the hash of the state compiled from
    it, and it is polled again after its interval; or it is not Ready, keeps the
    hash it had, and is retried after the error interval.  Nothing else of the
    object is written. *)
Theorem reconcileNormal_reports r r' x :
  reconcileNormal registry compileConfig r = (r', Ret x) →
  reported (compiledFrom (rec_config r)) intervalOf (rec_config r) r' x.
Proof.
  set (c0 := rec_config r). unfold reconcileNormal. rewrite bind_config. fold c0. intros E.
  assert (rec_config r = with_status (status_of c0) c0) as Hc by (by rewrite with_status_of).
  apply (step_run (compiledFrom c0) intervalOf c0 _ _ _ _ _ _ _ _ ) with (1:=E) in Hc as Hs; [|done].
  destruct Hs as [?|(w1 & resolved & _ & E1)]; [done|clear E].
  destruct (Adapters.Get _ _) as [adapter|]; [|by eapply failStep_reported].
  destruct (step_run (compiledFrom c0) intervalOf c0 _ _ _ _ _ _ _ _ E1 Hc eq_refl)
    as [?|(w2 & caps & _ & E2)]; [done|clear E1].
  destruct (step_run (compiledFrom c0) intervalOf c0 _ _ _ _ _ _ _ _ E2 Hc eq_refl)
    as [?|(w3 & desired & Hcomp & E3)]; [done|clear E2].
  eapply ReconcileConfig_reported in E3 as [?|(s1 & r1 & E4 & Hc1 & Hr & Hh)]; [done| |exact Hc|done].
  eapply afterReconcile_reported; [exact E4|exact Hc1|done| |done]. by eexists _, _, _, _.
Qed.
End normal.

(** ** The phases of an object's life *)

Section phases.
Context {W C : Type} `{KubeLaws W} `{!KubeObject W C} `{ArrConfigObject C} `{Service W} (registry : gmap string (Adapter W)).
Context (compileConfig : C → gmap string string → option Capabilities → M W IR).

Definition phaseOf (c : C) : Phase := phaseFrom (GetReconciliationSpec c) (meta_of c) (GetFinalizerName c).

Lemma Reconcile_by_phase r :
  let c := rec_config r in
  let guarded := withFinalizers (addFinalizer (om_Finalizers (meta_of c)) (GetFinalizerName c)) c in
  Reconcile registry compileConfig r =
  match phaseOf c with
  | Suspended => (r, Ret (mkResult false 0, None))
  | Deleting => reconcileDelete registry (GetFinalizerName c) r
  | Unguarded => storing guarded true (rec_world r)
  | Active => reconcileNormal registry compileConfig r
  end ∧ (phaseOf c = Unguarded → phaseOf guarded = Active).
Proof.
  cbn zeta. split; last first.
  { unfold phaseOf, withFinalizers. rewrite GetReconciliationSpec_meta, GetFinalizerName_meta, meta_with.
    apply phaseFrom_guarded. }
  unfold Reconcile, phaseOf, phaseFrom. rewrite bind_config.
  destruct (from_option _ _ _); [done|]. destruct (om_DeletionTimestamp _); [done|].
  destruct (containsFinalizer _ _); [done|]. apply (update_run _ true).
Qed.

(** ** Deletion *)

(** The errors of a computation that is only attempted are dropped. *)
Lemma attempted {A B} (m : M W A) (k : M (Rec W C) B) (r : Rec W C) : noPanic m →
  ∃ w', bind (attempt (onWorld m)) (λ _, k) r = k (mkRec w' (rec_config r)).
Proof.
  intros Hm. destruct (Hm (rec_world r)) as [_ Hn]. unfold bind, attempt, onWorld.
  destruct (m (rec_world r)) as [w' [a|e|why]]; simpl in Hn; [by exists w'..|by destruct (Hn why)].
Qed.

Lemma steps_ResolveSecretValue ns n k :
  (∀ ns n, noPanic (kubeGetSecret (W:=W) ns n)) → noPanic (ResolveSecretValue (W:=W) ns n k).
Proof.
  intros Hs. unfold ResolveSecretValue. apply steps_bind; [typeclasses eauto| |].
  - by apply steps_wrapErr.
  - intros data. destruct (data !! k); auto using steps_ret, steps_fail with typeclass_instances.
Qed.

Lemma steps_ResolveConnectionSecrets ns conn :
  (∀ ns n, noPanic (kubeGetSecret (W:=W) ns n)) → noPanic (ResolveConnectionSecrets (W:=W) ns conn).
Proof.
  intros Hs. unfold ResolveConnectionSecrets. destruct (cns_APIKeySecretRef conn); [|by apply steps_ret].
  apply steps_bind; [typeclasses eauto| |].
  - by apply steps_wrapErr, steps_ResolveSecretValue.
  - intros v. by apply steps_ret.
Qed.

Lemma steps_HandleProwlarrUnregistration ns name appName :
  (∀ ns n, noPanic (kubeGetSecret (W:=W) ns n)) → (∀ ns n, noPanic (kubeGetProwlarrConfig (W:=W) ns n)) →
  noPanic (HandleProwlarrUnregistration (W:=W) ns name appName).
Proof.
  intros Hs Hp. unfold HandleProwlarrUnregistration. case_match; [by apply steps_ret|].
  apply steps_bind; [typeclasses eauto|by apply steps_attempt|]. intros [pc|e]; [|by apply steps_ret].
  apply steps_bind; [typeclasses eauto|by apply steps_attempt, steps_ResolveConnectionSecrets|].
  intros [secrets|e]; [|by apply steps_ret].
  apply steps_bind; [typeclasses eauto| |intros x; by apply steps_ret].
  apply steps_attempt, UnregisterApp_steps; [typeclasses eauto|]. intros m p. done.
Qed.

(** The deletion of an object, whatever fails on the way. *)
Lemma reconcileDelete_runs finalizerName (r : Rec W C) :
  (∀ ns n, noPanic (kubeGetSecret (W:=W) ns n)) → (∀ ns n, noPanic (kubeGetProwlarrConfig (W:=W) ns n)) →
  (∀ conn, noPanic (CleanupManagedResources registry (GetAppType (rec_config r)) conn)) →
  ∃ w, reconcileDelete registry finalizerName r =
    let c := rec_config r in
    storing (withFinalizers (removeFinalizer (om_Finalizers (meta_of c)) finalizerName) c) false w.
Proof.
  intros Hs Hp Hclean. unfold reconcileDelete. rewrite bind_config. destruct r as [w c]. cbn [rec_config] in *.
  set (tail := λ (_ : unit), _ : M (Rec W C) (Result * option error)).
  match goal with |- ∃ _, bind ?m tail _ = _ =>
    assert (∃ w1, bind m tail (mkRec w c) = tail tt (mkRec w1 c)) as [w1 ->] end.
  { destruct (GetIndexersSpec c ≫= ixs_ProwlarrRef) as [ref|]; [|by exists w].
    rewrite bind_assoc. destruct (attempted (HandleProwlarrUnregistration (om_Namespace (meta_of c)) (prr_Name ref)
      (appNameOf c)) (tail tt) (mkRec w c)) as [w1 E]; [by apply steps_HandleProwlarrUnregistration|].
    exists w1. exact E. }
  unfold tail. clear tail.
  destruct (steps_ResolveConnectionSecrets (om_Namespace (meta_of c)) (GetConnectionSpec c) Hs w1) as [_ Hn].
  unfold bind at 1. unfold attempt at 1. unfold onWorld at 1. cbn [rec_world rec_config].
  destruct (ResolveConnectionSecrets _ _ w1) as [w2 [resolved|e|why]]; simpl in Hn; [| |by destruct (Hn why)].
  - rewrite bind_assoc.
    match goal with |- ∃ _, bind _ (λ _, bind (ret tt) ?k) _ = _ =>
      destruct (attempted (CleanupManagedResources registry (GetAppType c) (connectionOf c resolved)) (k tt)
        (mkRec w2 c) (Hclean _)) as [w3 E] end.
    exists w3. rewrite <-(update_run _ false). exact E.
  - exists w2. apply (update_run _ false).
Qed.
End phases.

(** ** Witnesses, on the example cluster *)
Import ExampleCluster.

Definition exampleCompile (c : SonarrConfig) (secrets : gmap string string) (caps : option Capabilities)
    : M Cluster IR := ret (emptyIRFor AppSonarr).

Definition exampleAdapters : gmap string (Adapter Cluster) :=
  {[ AppSonarr := exampleFlow (Some onePartlyApplied, None) ]}.

Lemma reconcileNormal_reports_witness :
  let run := reconcileNormal exampleAdapters exampleCompile exampleRec in
  run.2 = Ret (mkResult false DefaultRequeueInterval, None) ∧
  reported (compiledFrom exampleCompile (rec_config exampleRec)) intervalOf (rec_config exampleRec) run.1 (mkResult false DefaultRequeueInterval, None).
Proof.
  intros run. assert (run.2 = Ret (mkResult false DefaultRequeueInterval, None)) as E by (vm_compute; reflexivity).
  split; [exact E|]. apply (reconcileNormal_reports exampleAdapters exampleCompile exampleRec).
  fold run. rewrite <-E. destruct run. reflexivity.
Defined.

