(* ===== verification/ProwlarrLifecycle.v ===== *)
(** * The life of a ProwlarrConfig (theorems about prowlarrconfig_controller.go)

    The controller of Prowlarr repeats the flow of the generic reconciler; it has
    the same guarantees: phases, reports, and deletions that end. *)
From S2P Require Export Lifecycle Controllers.

Section lifecycle.
Context {W : Type} `{KubeLaws W} `{!KubeObject W ProwlarrConfig} `{Service W} `{UnicodeTables}.
Context (registry : gmap string (Adapter W)) (o : RangeOrder) (now : Z).
Implicit Types (r : Rec W ProwlarrConfig) (c : ProwlarrConfig).

Definition prowlarrPhase c : Phase :=
  phaseFrom (pcs_Reconciliation (pc_Spec c)) (pc_ObjectMeta c) prowlarrFinalizer.

(** The states compiled from the object. *)
Definition prowlarrCompiled c (desired : IR) : Prop :=
  ∃ secrets caps, desired = CompileProwlarrConfig o now c secrets (Some caps).

Lemma prowlarr_normal_reported r r' x :
  prowlarrReconcileNormal registry o now r = (r', Ret x) →
  reported (prowlarrCompiled (rec_config r)) prowlarrIntervalOf (rec_config r) r' x.
Proof.
  set (c0 := rec_config r). unfold prowlarrReconcileNormal. rewrite bind_config. fold c0. intros E.
  assert (rec_config r = with_status (status_of c0) c0) as Hc by (by rewrite with_status_of).
  destruct (step_run (prowlarrCompiled c0) prowlarrIntervalOf c0 _ _ _ _ _ _ _ _ E Hc eq_refl)
    as [?|(w1 & resolved & _ & E1)]; [done|clear E].
  destruct (Adapters.Get _ _) as [adapter|]; [|by eapply failStep_reported].
  destruct (step_run (prowlarrCompiled c0) prowlarrIntervalOf c0 _ _ _ _ _ _ _ _ E1 Hc eq_refl)
    as [?|(w2 & caps & _ & E2)]; [done|clear E1].
  destruct (step_run (prowlarrCompiled c0) prowlarrIntervalOf c0 _ _ _ _ _ _ _ _ E2 Hc eq_refl)
    as [?|(w3 & desired & Hcomp & E3)]; [done|clear E2].
  injection Hcomp as <- <-.
  eapply ReconcileConfig_reported in E3 as [?|(s1 & r1 & E4 & Hc1 & Hr & Hh)]; [done| |exact Hc|done].
  eapply health_goes in E4 as (h & r2 & E5 & Hc2); [|exact Hc1].
  eapply updateAndPoll_reported; [exact E5|exact Hc2|done| |exact Hh]. by eexists _, _.
Qed.

Lemma prowlarr_delete_runs r :
  (∀ ns n, noPanic (kubeGetSecret (W:=W) ns n)) →
  (∀ conn, noPanic (CleanupManagedResources registry AppProwlarr conn)) →
  ∃ w, prowlarrReconcileDelete registry r =
    let c := rec_config r in
    storing (withFinalizers (removeFinalizer (om_Finalizers (pc_ObjectMeta c)) prowlarrFinalizer) c) false w.
Proof.
  intros Hs Hclean. unfold prowlarrReconcileDelete. rewrite bind_config. destruct r as [w c]. cbn [rec_config] in *.
  destruct (steps_ResolveConnectionSecrets (om_Namespace (pc_ObjectMeta c)) (pcs_Connection (pc_Spec c)) Hs w) as [_ Hn].
  unfold bind at 1. unfold attempt at 1. unfold onWorld at 1. cbn [rec_world rec_config].
  destruct (ResolveConnectionSecrets _ _ w) as [w2 [resolved|e|why]]; simpl in Hn; [| |by destruct (Hn why)].
  - rewrite bind_assoc.
    match goal with |- ∃ _, bind _ (λ _, bind (ret tt) ?k) _ = _ =>
      destruct (attempted (CleanupManagedResources registry AppProwlarr (prowlarrConnectionOf c resolved)) (k tt)
        (mkRec w2 c) (Hclean _)) as [w3 E] end.
    exists w3. rewrite <-(update_run _ false). exact E.
  - exists w2. apply (update_run _ false).
Qed.

(** C29: One reconciliation of a ProwlarrConfig, by phase.  A suspended object is left
    alone; one that is being deleted ends, whatever fails on the way, with the write
    of the object without the finalizer (if reading secrets and the clean-up do not
    crash); one without the finalizer gets it first; and every return of the normal
    flow ends with a write of the status that tells what happened. *)
Theorem prowlarr_lifecycle r :
  let c := rec_config r in
  let finalizers := om_Finalizers (pc_ObjectMeta c) in
  let run := prowlarrReconcileObject registry o now r in
  match prowlarrPhase c with
  | Suspended => run = (r, Ret (mkResult false 0, None))
  | Deleting =>
      (∀ ns n, noPanic (kubeGetSecret (W:=W) ns n)) →
      (∀ conn, noPanic (CleanupManagedResources registry AppProwlarr conn)) →
      ∃ w, run = storing (withFinalizers (removeFinalizer finalizers prowlarrFinalizer) c) false w
  | Unguarded =>
      run = storing (withFinalizers (addFinalizer finalizers prowlarrFinalizer) c) true (rec_world r) ∧
      prowlarrPhase (withFinalizers (addFinalizer finalizers prowlarrFinalizer) c) = Active
  | Active => ∀ r' x, run = (r', Ret x) →
      reported (prowlarrCompiled c) prowlarrIntervalOf c r' x
  end.
Proof.
  cbn zeta. unfold prowlarrReconcileObject, prowlarrPhase. rewrite bind_config.
  destruct (phaseFrom _ _ _) eqn:Hp; pose proof Hp as Hp'; unfold phaseFrom in Hp';
    (destruct (from_option _ _ _); [try done|]); try (destruct (om_DeletionTimestamp _); try done);
    try (destruct (containsFinalizer _ _); try done).
  - by apply prowlarr_delete_runs.
  - split; [apply (update_run _ true)|]. exact (phaseFrom_guarded _ _ _ Hp).
  - intros r' x E. by apply prowlarr_normal_reported.
Qed.
End lifecycle.

(** ** Witness: a deleted object whose secret is gone *)
Import ExampleCluster.
#[local] Instance noTables : UnicodeTables := id.

Definition examplePC (finalizers : list string) (deleted : option Z) : ProwlarrConfig :=
  mkProwlarrConfig (mkObjectMeta "prowlarr" "media" "4f1d" 1 deleted finalizers)
    (mkProwlarrConfigSpec
       (mkConnectionSpec "http://prowlarr:9696" (Some (mkSecretKeySelector "prowlarr" "")) "" false None)
       [] [] [] [] None None)
    (mkProwlarrConfigStatus [] true "1.0" None [] [] [] "" None).

Lemma prowlarr_lifecycle_witness :
  let r : Rec Cluster ProwlarrConfig := mkRec ∅ (examplePC [prowlarrFinalizer; "other"]%string (Some 9)) in
  prowlarrReconcileObject ∅ keyOrder 0 r =
    (mkRec ∅ (examplePC ["other"]%string (Some 9)), Ret (mkResult false 0, None)).
Proof.
  intros r. destruct (prowlarr_lifecycle ∅ keyOrder 0 r) as [w E].
  - intros ns n w. split; [exact I|]. intros why. simpl. destruct (w !! (ns, n)); discriminate.
  - intros conn w. split; [exact I|]. intros why. discriminate.
  - assert ((prowlarrReconcileObject ∅ keyOrder 0 r).1 =
      mkRec ∅ (examplePC ["other"]%string (Some 9))) as Hr by (vm_compute; reflexivity).
    assert (w = ∅) as -> by exact (f_equal rec_world (eq_trans (eq_sym (f_equal fst E)) Hr)).
    exact E.
Defined.
