(* ===== verification/ProwlarrReconcile.v ===== *)
(** * Theorems: reconciling Prowlarr

    The generic reconciliation with the Prowlarr adapter: what a ProwlarrConfig that
    compiles to resources that read back as they are sent is brought to, what never
    settles, and what the clean-up of a deletion leaves behind. *)
From S2P Require Export ProwlarrLifecycle ProwlarrSync.

(** ** Computations that only read *)

Section reading.
Context {S : Type} `{Service S} (P : relation S) `{!PreOrder P} (c : Client).
Context (get_harmless : ∀ p, harmless P c "GET" p).
Abbreviation MP := (M (PWorld S)).

(** The service is changed in accordance with [P]. *)
Definition onPRel : relation (PWorld S) := λ w w', P (pw_service w) (pw_service w').

#[export] Instance onPRel_preorder : PreOrder onPRel.
Proof. split; [by intros w; unfold onPRel|]. intros w1 w2 w3 H1 H2. unfold onPRel in *. by etrans. Qed.

Lemma steps_onPRel {A} (m : M S A) : steps P m → steps onPRel (onP m).
Proof.
  intros Hm w. destruct (Hm (pw_service w)) as [HP Hn]. unfold onP.
  destruct (m (pw_service w)) as [s r]. by split.
Qed.

Lemma steps_cacheOnly kd f : steps onPRel (modifyCache kd f : MP unit).
Proof. intros w. split; [|done]. unfold modifyCache, onPRel. simpl. by rewrite service_setCache. Qed.
#[local] Hint Extern 1 (PreOrder _) => typeclasses eauto : nebularr.
#[local] Hint Resolve steps_onPRel steps_cacheOnly : nebularr.

Lemma steps_ownershipTag : steps onPRel (attempt (onP (GetOwnershipTagID c "v1"))).
Proof.
  apply steps_attempt, steps_onPRel. unfold GetOwnershipTagID. apply steps_bind; [done|auto with nebularr|].
  intros tags. destruct (list_find _ _) as [[? ?]|]; auto with nebularr.
Qed.

Lemma steps_reading_kind {R A} `{FromJSON R} (k : PKind R A) tagID : steps onPRel (orNone (getManaged k c tagID)).
Proof.
  unfold orNone. apply steps_bind; [auto with nebularr| |auto with nebularr]. apply steps_attempt.
  unfold getManaged, listResources. apply steps_bind; [auto with nebularr|auto with nebularr|]. intros l.
  apply steps_forRange; [auto with nebularr|]. intros acc r _. unfold cacheID. case_match; auto with nebularr.
Qed.
End reading.

Section adapter.
Context {S : Type} `{Service S} `{UnicodeTables} `{TimeFormat} (P : relation S) `{!PreOrder P} (conn : ConnectionIR).
Context (get_harmless : ∀ p, harmless P (newClient conn) "GET" p).
#[local] Hint Extern 1 (PreOrder _) => typeclasses eauto : nebularr.
#[local] Hint Resolve steps_onPRel steps_cacheOnly steps_ownershipTag steps_reading_kind : nebularr.

Lemma prowlarr_steps_Connect : steps (onPRel P) (Connect conn).
Proof. unfold Connect. apply steps_bind; auto with nebularr. Qed.

Lemma prowlarr_steps_Discover now : steps (onPRel P) (Discover now conn).
Proof. unfold Discover. repeat (apply steps_bind; [auto with nebularr|auto with nebularr|intros ?]). auto with nebularr. Qed.

Lemma prowlarr_steps_CurrentState o now : steps (onPRel P) (CurrentState o now conn).
Proof.
  unfold CurrentState. apply steps_bind; [auto with nebularr|auto with nebularr|].
  intros [tagID|e]; [|auto with nebularr].
  do 4 (apply steps_bind; [auto with nebularr| |intros ?];
    [unfold getManagedIndexers, getManagedProxies, getManagedApplications, getManagedDownloadClients; auto with nebularr|]).
  auto with nebularr.
Qed.

End adapter.

Section returns.
Context {S : Type} `{Service S} `{UnicodeTables} `{TimeFormat} (conn : ConnectionIR).
Abbreviation c := (newClient conn).

Lemma anyRequest p : harmless (@anything S) c "GET" p.
Proof. done. Qed.

Lemma orNone_returns {A} (m : M (PWorld S) (list A)) w : steps (onPRel anything) (orNone m) →
  ∃ w' l, orNone m w = (w', Ret l).
Proof.
  intros Hm. destruct (Hm w) as [_ Hn]. revert Hn. unfold orNone, bind, attempt.
  destruct (m w) as [w' [l|e|why]]; simpl; [by eexists _, _..|]. intros Hn. by destruct (Hn why).
Qed.

(** It returns a state with a Prowlarr part, whatever fails. *)
Lemma CurrentState_returns o now w : ∃ w' p, CurrentState o now conn w = (w', Ret (prowlarrIR now conn p)).
Proof.
  unfold CurrentState.
  destruct (steps_ownershipTag anything c anyRequest w) as [_ Hn].
  unfold bind at 1. destruct (attempt _ w) as [w1 [[tagID|e]|e|why]] eqn:E; simpl in Hn;
    [|by eexists _, _| |by destruct (Hn why)].
  - destruct (orNone_returns _ w1 (steps_reading_kind anything c anyRequest (indexerKind o) tagID)) as (w2 & l2 & E2).
    destruct (orNone_returns _ w2 (steps_reading_kind anything c anyRequest proxyKind tagID)) as (w3 & l3 & E3).
    destruct (orNone_returns _ w3 (steps_reading_kind anything c anyRequest applicationKind tagID)) as (w4 & l4 & E4).
    destruct (orNone_returns _ w4 (steps_reading_kind anything c anyRequest clientKind tagID)) as (w5 & l5 & E5).
    rewrite (bind_ok _ _ _ _ _ E2), (bind_ok _ _ _ _ _ E3), (bind_ok _ _ _ _ _ E4), (bind_ok _ _ _ _ _ E5).
    by eexists _, _.
  - unfold attempt in E. by destruct (onP _ w) as [? [?|?|?]].
Qed.

Lemma prowlarr_Discover_returns now w : ∃ w' caps, Discover now conn w = (w', Ret caps).
Proof.
  unfold Discover.
  destruct (attempt_returns (onP (Get (list PClientResource) c "/api/v1/downloadclient/schema")) w) as (w1 & a & E1).
  { apply (steps_onPRel anything), steps_Get; [typeclasses eauto|apply anyRequest]. }
  rewrite (bind_ok _ _ _ _ _ E1).
  destruct (attempt_returns (onP (Get (list PIndexerResource) c "/api/v1/indexer/schema")) w1) as (w2 & b & E2).
  { apply (steps_onPRel anything), steps_Get; [typeclasses eauto|apply anyRequest]. }
  rewrite (bind_ok _ _ _ _ _ E2). by eexists _, _.
Qed.
End returns.

(** ** Configurations that read back as they are sent *)

Section compiled.
Context `{UnicodeTables} (o : RangeOrder).

Definition knownClientTypes : list string :=
  ["qbittorrent"; "transmission"; "deluge"; "rtorrent"; "sabnzbd"; "nzbget"].
Definition exactInFloat (n : Z) : Prop := - 2 ^ 53 < n < 2 ^ 53.

Definition indexerSpecOk (x : ProwlarrIndexer) : Prop :=
  pxi_Settings x !! "baseUrl"%string = None ∧ pxi_Settings x !! "apiKey"%string = None.
(** A FlareSolverr proxy has neither port nor credentials, another no timeout. *)
Definition proxySpecOk (x : IndexerProxy) : Prop :=
  pxp_Type x ∈ [ProxyTypeFlareSolverr; ProxyTypeHTTP; ProxyTypeSocks4; ProxyTypeSocks5] ∧
  0 ≤ pxp_Port x < 2 ^ 53 ∧ 0 ≤ pxp_RequestTimeout x < 2 ^ 53 ∧
  if String.eqb (pxp_Type x) ProxyTypeFlareSolverr
  then pxp_Port x = 0 ∧ pxp_CredentialsSecretRef x = None else pxp_RequestTimeout x = 0.
(** The categories have a known name or are numbers, in which case there is one. *)
Definition applicationSpecOk (x : ProwlarrApplication) : Prop :=
  pxa_Type x ∈ [AppTypeRadarr; AppTypeSonarr; AppTypeLidarr; AppTypeReadarr] ∧
  convertProwlarrCategories (pxa_SyncCategories x) (pxa_Type x) ≠ [] ∧
  Forall exactInFloat (convertProwlarrCategories (pxa_SyncCategories x) (pxa_Type x)).
Definition clientSpecOk (x : DownloadClientSpec) : Prop :=
  (dcs_Type x = ""%string ∨ dcs_Type x ∈ knownClientTypes) ∧ 0 ≤ (parseClientURL (dcs_URL x)).1.2 < 2 ^ 53.

Definition specOk (spec : ProwlarrConfigSpec) : Prop :=
  Forall indexerSpecOk (pcs_Indexers spec) ∧ Forall proxySpecOk (pcs_Proxies spec) ∧
  Forall applicationSpecOk (pcs_Applications spec) ∧ Forall clientSpecOk (pcs_DownloadClients spec).

Lemma compiled_indexer_ok name secrets x : indexerSpecOk x → indexerOk (compileProwlarrIndexer o name secrets x).
Proof.
  unfold indexerSpecOk, indexerOk. cbn [compileProwlarrIndexer pidx_Settings]. rewrite copyInto_spec, map_fmap_id. done.
Qed.

Lemma compiled_proxy_ok name secrets x : proxySpecOk x → proxyBoundedOk (compileProwlarrProxy name secrets x).
Proof.
  intros (Ht & Hp & Hr & Hc). unfold compileProwlarrProxy, proxyBoundedOk, proxyBounded, proxyOk.
  destruct (resolveCredentials secrets (pxp_CredentialsSecretRef x)) as [u p] eqn:E. simpl.
  assert (implToProxyType (proxyTypeToImpl (pxp_Type x)) = pxp_Type x) as Hty.
  { set_unfold in Ht. by destruct_or! Ht; rewrite ?Ht. }
  destruct (String.eqb (pxp_Type x) ProxyTypeFlareSolverr); simpl; [|by split_and!; try lia].
  destruct Hc as [Hc1 Hc2]. rewrite Hc2 in E. injection E as <- <-.
  by split_and!; try lia; destruct (Z.eqb_spec (pxp_RequestTimeout x) 0); try lia.
Qed.

Lemma compiled_application_ok name url secrets x :
  applicationSpecOk x → applicationOk (compileProwlarrApplication name url secrets x).
Proof.
  intros (Ht & Hne & Hb). unfold applicationOk, categoriesOf. simpl.
  split_and!; [set_unfold in Ht; by destruct_or! Ht; rewrite ?Ht| |done]. by destruct (convertProwlarrCategories _ _).
Qed.

Lemma inferred_known name : inferImplementationFromName name ∈ knownClientTypes.
Proof. unfold inferImplementationFromName. repeat case_match; unfold knownClientTypes; set_solver. Qed.

Lemma known_lowered t : t ∈ knownClientTypes → ToLower t = t ∧ ToLower (implFromClientType t) = t.
Proof. intros Ht. unfold knownClientTypes in Ht. set_unfold in Ht. by destruct_or! Ht; subst t. Qed.

Lemma compiled_client_ok name secrets x : clientSpecOk x → clientOk (compileProwlarrDownloadClient name secrets x).
Proof.
  intros [Ht Hp]. unfold compileProwlarrDownloadClient, clientOk.
  destruct (parseClientURL (dcs_URL x)) as [[host port] tls]. destruct (resolveCredentials _ _) as [u p]. simpl in *.
  set (impl := if (dcs_Type x =? "")%string then inferImplementationFromName (dcs_Name x) else dcs_Type x).
  assert (impl ∈ knownClientTypes) as Hk.
  { unfold impl. destruct (String.eqb_spec (dcs_Type x) ""); [apply inferred_known|]. by destruct Ht. }
  destruct (known_lowered impl Hk) as [E1 E2]. by rewrite E1, E2.
Qed.

Lemma compiled_reads_back now config secrets caps : specOk (pc_Spec config) →
  ∃ d, ir_Prowlarr (CompileProwlarrConfig o now config secrets caps) = Some d ∧ desiredReadsBack d.
Proof.
  intros (Hi & Hp & Ha & Hc). eexists. split; [done|]. split_and!; simpl; apply Forall_fmap.
  - eapply Forall_impl; [exact Hi|]. intros x. apply compiled_indexer_ok.
  - eapply Forall_impl; [exact Hp|]. intros x. apply compiled_proxy_ok.
  - eapply Forall_impl; [exact Ha|]. intros x. apply compiled_application_ok.
  - eapply Forall_impl; [exact Hc|]. intros x. apply compiled_client_ok.
Qed.

(** the request timeout of a proxy that is not FlareSolverr never settles.  It is
    not sent for such a proxy, yet it is compared: after any write of the proxy its
    diff has an update, at every reconciliation.  The API server gives every proxy
    a timeout of 60 seconds when none is set. *)
Theorem proxy_timeout_never_settles name secrets (x : IndexerProxy) tagID id o' current desired :
  let d := compileProwlarrProxy name secrets x in
  pxp_Type x ≠ ProxyTypeFlareSolverr → 0 < pxp_RequestTimeout x < 2 ^ 53 → 0 ≤ pxp_Port x < 2 ^ 53 →
  indexBy ipx_Name (pr_Proxies current) !! ipx_Name d = Some (proxyToIR (storedProxy tagID id d)) →
  indexBy ipx_Name (pr_Proxies desired) !! ipx_Name d = Some d →
  mkChange ResourceIndexerProxy (ipx_Name d) None (PIndexerProxy d) ∈
    cs_Updates (diffProxies o' current desired emptyChangeSet).
Proof.
  intros d Hty Hr Hp Hcur Hdes. unfold diffProxies. apply elem_of_updates. right.
  assert (pxp_Type x = ipx_Type d ∧ pxp_RequestTimeout x = ipx_RequestTimeout d ∧ pxp_Port x = ipx_Port d) as (E1 & E2 & E3).
  { unfold d, compileProwlarrProxy. destruct (resolveCredentials _ _) as [u p]. simpl.
    by rewrite (proj2 (String.eqb_neq _ _) Hty). }
  rewrite E1 in Hty. rewrite E2 in Hr. rewrite E3 in Hp.
  eexists _, _, _. split; [exact Hdes|]. split; [exact Hcur|]. split; [|done].
  apply not_true_iff_false. intros He. apply stored_proxy_equal in He as [_ Hk]; [|split; lia].
  rewrite (proj2 (String.eqb_neq _ _) Hty) in Hk. lia.
Qed.
End compiled.

(** ** Theorems *)

Section theorems.
Context {S : Type} `{Service S} `{UnicodeTables} `{TimeFormat}.
Context (od : nat → RangeOrder) (now : Z) (registry : gmap string (Adapter (PWorld S))).
Hypothesis registered : Adapters.Get AppProwlarr registry = Some (ProwlarrAdapter now od).
Context (conn : ConnectionIR).
Abbreviation c := (newClient conn).

(** the clean-up before a ProwlarrConfig is deleted removes nothing.  The state it
    compares with has no Prowlarr part, which [Diff] takes for nothing to do: it
    returns without an error having made only reads, so that everything the operator
    created in Prowlarr stays there, whatever the service answers. *)
Theorem prowlarr_cleanup_removes_nothing (P : relation S) `{!PreOrder P} (w : PWorld S) :
  (∀ p, harmless P c "GET" p) →
  ∃ w', CleanupManagedResources registry AppProwlarr conn w = (w', Ret tt) ∧ P (pw_service w) (pw_service w').
Proof.
  intros Hget. unfold CleanupManagedResources. rewrite registered.
  destruct (CurrentState_returns conn (od 0%nat) now w) as (w1 & p & E1).
  destruct (prowlarr_steps_CurrentState P conn Hget (od 0%nat) now w) as [K1 _]. rewrite E1 in K1.
  rewrite (bind_ok _ _ _ w1 (Some (prowlarrIR now conn p))) by exact (bind_ok _ _ _ _ _ E1).
  destruct (prowlarr_Discover_returns conn now w1) as (w2 & caps & E2).
  destruct (prowlarr_steps_Discover P conn Hget now w1) as [K2 _]. rewrite E2 in K2.
  rewrite (bind_attempt_ret _ _ _ _ _ E2). exists w2. split; [done|]. unfold onPRel in *. simpl in *. by etrans.
Qed.

(** The states of Prowlarr with the same resources. *)
Definition sameViews (v : Views) : relation S := λ s s',
  v_indexers v s' = v_indexers v s ∧ v_proxies v s' = v_proxies v s ∧
  v_applications v s' = v_applications v s ∧ v_clients v s' = v_clients v s.

#[local] Instance sameViews_preorder v : PreOrder (sameViews v).
Proof.
  split; unfold sameViews; [done|]. intros s1 s2 s3 (? & ? & ? & ?) (? & ? & ? & ?). split_and!; congruence.
Qed.

Lemma reads_same (v : Views) o `{!ProwlarrLaws conn o v} p : harmless (sameViews v) c "GET" p.
Proof.
  intros body s. split_and!.
  - apply (@col_get _ _ c _ _ _ _ _ (laws_indexers conn o)).
  - apply (@col_get _ _ c _ _ _ _ _ (laws_proxies conn o)).
  - apply (@col_get _ _ c _ _ _ _ _ (laws_applications conn o)).
  - apply (@col_get _ _ c _ _ _ _ _ (laws_clients conn o)).
Qed.

(** C3: a ProwlarrConfig is brought about and reported.  When Prowlarr answers and its
    collections behave as documented, a reconciliation to the state compiled from a
    configuration that reads back as it is sent ([specOk]) returns without an error;
    the status is Ready and Synced; the next diff is empty; and what does not carry
    the ownership tag is untouched. *)
Theorem prowlarr_reconcile_converges {C} `{KubeLaws (PWorld S)} `{!HasStatus C} (tagID : Z) (v : Views)
    `{!ProwlarrLaws conn (od 4%nat) v} config secrets caps o g (r : Rec (PWorld S) C) wc info :
  plainBase c → tagKnownAt c "v1" tagID → specOk (pc_Spec config) →
  Connect conn (rec_world r) = (wc, Ret info) →
  let before := pw_service (rec_world r) in
  allWellFormed conn tagID (od 4%nat) v before →
  let desired := CompileProwlarrConfig o now config secrets caps in
  ∃ r' res w current, ReconcileConfig registry AppProwlarr conn desired g r = (r', Ret (Some res, None)) ∧
    Success res = true ∧
    conditionStatus (statusOf r') ConditionTypeReady = Some ConditionTrue ∧
    conditionStatus (statusOf r') ConditionTypeSynced = Some ConditionTrue ∧
    CurrentState (od 0%nat) now conn (rec_world r') = (w, Ret current) ∧
    (∀ od', IsEmpty (prowlarrDiff od' current desired) = true) ∧
    userResourcesKept tagID v before (pw_service (rec_world r')).
Proof.
  cbn zeta. intros base known Hspec Ec Hwf. set (desired := CompileProwlarrConfig _ _ _ _ _).
  destruct (compiled_reads_back o now config secrets caps Hspec) as (d & Hd & Oi & Op & Oa & Oc). fold desired in Hd.
  destruct (prowlarr_Discover_returns conn now wc) as (wd & found & Ed).
  assert (sameViews v (pw_service (rec_world r)) (pw_service wd)) as Hv.
  { destruct (prowlarr_steps_Connect (sameViews v) conn (reads_same v (od 4%nat)) (rec_world r)) as [K1 _]. rewrite Ec in K1.
    destruct (prowlarr_steps_Discover (sameViews v) conn (reads_same v (od 4%nat)) now wc) as [K2 _]. rewrite Ed in K2.
    unfold onPRel in *. simpl in *. by etrans. }
  destruct Hv as (Vi & Vp & Va & Vc).
  unfold allWellFormed in Hwf. rewrite <-Vi, <-Vp, <-Va, <-Vc in Hwf.
  destruct (sync_steps conn tagID base known now od v desired d wd Hd) as (w1 & cur & w2 & res & w3 & current & E1 & E2
    & Hok & _ & Hkeep & E3 & Hempty); [done..|].
  destruct (ReconcileConfig_applies registry AppProwlarr (ProwlarrAdapter now od) conn desired g r wc info wd found
    w1 cur w1 (prowlarrDiff od cur desired) w2 res) as (r' & ER & Hr'); try done.
  - exact (bind_ok _ _ _ _ _ E1).
  - intros He. rewrite (prowlarr_Apply_known conn tagID base known) in E2.
    destruct (prowlarrDiff od cur desired) as [[|] [|] [|]]; try done. by injection E2 as <- <-.
  - destruct (ReconcileConfig_tells _ _ _ _ _ _ _ _ ER) as (_ & Hready & res' & [= <-] & Hsynced).
    rewrite Hok in Hsynced. exists r', res, w3, current. rewrite Hr'. split_and!; try done.
    unfold userResourcesKept in *. by rewrite <-Vi, <-Vp, <-Va, <-Vc.
Qed.
End theorems.

(** ** Witnesses *)
Import ExampleCluster ProwlarrMini.

Definition exampleProwlarrRegistry : gmap string (Adapter (PWorld ((Docs * Docs) * (Docs * Docs)))) :=
  {[ AppProwlarr := @ProwlarrAdapter _ exampleProwlarr asciiTables noTimes 0 (λ _, keyOrder) ]}.

(** The managed indexer survives the clean-up. *)
Lemma prowlarr_cleanup_removes_nothing_witness :
  ∃ w', @CleanupManagedResources _ exampleProwlarrRegistry AppProwlarr exampleConn (initialPWorld exampleDocs) = (w', Ret tt) ∧
    (pir_Tags <$> v_indexers exampleViews (pw_service w') !! 2) = Some [7].
Proof.
  destruct (@prowlarr_cleanup_removes_nothing _ exampleProwlarr asciiTables noTimes (λ _, keyOrder) 0
    exampleProwlarrRegistry eq_refl exampleConn eq _ (initialPWorld exampleDocs)) as (w' & E & Hs).
  - intros p. repeat apply harmless_both; done.
  - exists w'. split; [exact E|]. rewrite <-Hs. vm_compute. reflexivity.
Defined.

(** An HTTP proxy with the timeout the API server sets. *)
Definition exampleHTTPProxy : IndexerProxy :=
  mkIndexerProxy "corporate" ProxyTypeHTTP "proxy.lan" 3128 None 60 [].

Lemma proxy_timeout_never_settles_witness :
  let d := compileProwlarrProxy "media" ∅ exampleHTTPProxy in
  let current := mkProwlarrIR None [] [proxyToIR (storedProxy 7 3 d)] [] [] [] in
  cs_Updates (diffProxies keyOrder current (mkProwlarrIR None [] [d] [] [] []) emptyChangeSet) ≠ [].
Proof.
  intros d current He.
  assert (mkChange ResourceIndexerProxy (ipx_Name d) None (PIndexerProxy d) ∈ @nil Change) as Hin.
  { rewrite <-He. apply (proxy_timeout_never_settles "media" ∅ exampleHTTPProxy 7 3);
      [discriminate|simpl; lia|simpl; lia|reflexivity|reflexivity]. }
  by apply not_elem_of_nil in Hin.
Defined.

Definition exampleSpec : ProwlarrConfigSpec :=
  mkProwlarrConfigSpec (mkConnectionSpec "http://prowlarr.media:9696" (Some (mkSecretKeySelector "prowlarr" "")) "" false None)
    [mkProwlarrIndexer "geek" "nzbgeek" "https://api.nzbgeek.info" {[ "apiPath" := "/api" ]} None [] 0 None]
    [mkIndexerProxy "flare" ProxyTypeFlareSolverr "http://flare:8191" 0 None 60 []]
    [mkProwlarrApplication "tv" AppTypeSonarr "http://sonarr:8989" None "" ["tv-hd"] ""]
    [] None None.
Definition exampleProwlarrConfig : ProwlarrConfig :=
  mkProwlarrConfig (mkObjectMeta "media" "media" "4f1d" 1 None [prowlarrFinalizer]) exampleSpec
    (mkProwlarrConfigStatus [] false "" None [] [] [] "" None).

Lemma exampleSpec_ok : @specOk asciiTables exampleSpec.
Proof.
  split_and!; repeat constructor; try reflexivity; simpl; try lia; try set_solver; try discriminate.
Qed.

Lemma prowlarr_reconcile_converges_witness :
  let kube := @kubeOn (PWorld ((Docs * Docs) * (Docs * Docs))) (λ _, ∅) in
  let desired := @CompileProwlarrConfig asciiTables keyOrder 0 exampleProwlarrConfig ∅ None in
  let r := mkRec (initialPWorld exampleDocs) exampleProwlarrConfig in
  ∃ r' res, @ReconcileConfig _ _ kube _ exampleProwlarrRegistry AppProwlarr exampleConn desired 1 r =
      (r', Ret (Some res, None)) ∧
    conditionStatus (statusOf r') ConditionTypeSynced = Some ConditionTrue ∧
    v_indexers exampleViews (pw_service (rec_world r')) !! 1 = Some userIndexer.
Proof.
  intros kube desired r.
  destruct (@prowlarr_reconcile_converges _ exampleProwlarr asciiTables noTimes (λ _, keyOrder) 0 exampleProwlarrRegistry
    eq_refl exampleConn _ kube (kubeOn_laws _) _ 7 exampleViews (exampleProwlarr_laws _ _) exampleProwlarrConfig ∅ None
    keyOrder 1 r (initialPWorld exampleDocs) (mkServiceInfo "4.0.9" 0) prowlarr_exampleConn_plain (exampleProwlarr_tag _)
    exampleSpec_ok eq_refl exampleDocs_wellFormed) as (r' & res & w & cur & E & _ & _ & Hs & _ & _ & (Hk & _)).
  exists r', res. split; [exact E|]. split; [exact Hs|].
  apply (Hk 1 userIndexer eq_refl). vm_compute. reflexivity.
Defined.
