(* ===== verification/Applications.v ===== *)
(** * The applications of Prowlarr (theorems about registration.go and the coordinator)

    Against the contract of the collection of applications: registering is an
    insert-or-update by name, unregistering removes what registering added; and the
    two ways an application gets registered, by its own controller and by the
    coordinator, do not know of each other. *)
From S2P Require Export Converge Rest Coordinator.

(** ** The wire format *)

Definition storedField (f : ApplicationField) : ApplicationField :=
  mkApplicationField (af_Name f) (throughJSON (af_Value f)).

(** An application as it is stored, under the ID [i]. *)
Definition storedApp (i : Z) (r : ApplicationResource) : ApplicationResource :=
  mkApplicationResource i (apr_Name r) (apr_Implementation r) (apr_ConfigContract r) (apr_SyncLevel r)
    (apr_Tags r) (storedField <$> apr_Fields r).

Lemma decode_field f : fromJSON (toJSON f) = Some (storedField f).
Proof.
  destruct f as [name [| | |f| | | |]]; try reflexivity.
  unfold storedField, throughJSON, fromJSON, toJSON, FromJSON_ApplicationField, ToJSON_ApplicationField. simpl.
  unfold floatToWire. by destruct (SFeqb _ _).
Qed.

Lemma decode_app_fields fs : mapM fromJSON (toJSON <$> fs) = Some (storedField <$> fs).
Proof. induction fs as [|f fs IH]; [done|]. csimpl. rewrite decode_field. simpl.
  exact (f_equal (λ x, x ≫= λ k, Some (storedField f :: k)) IH).
Qed.

Lemma decode_ints l : mapM asIntElem (VInt <$> l) = Some l.
Proof. induction l as [|n l IH]; [done|]. csimpl.
  exact (f_equal (λ x, x ≫= λ k, Some (n :: k)) IH).
Qed.

Lemma decode_app r : fromJSON (toJSON r) = Some (storedApp (apr_ID r) r).
Proof.
  destruct r as [id name impl contract level tags fields]. unfold toJSON, ToJSON_ApplicationResource.
  unfold omitIf. cbn [apr_ID apr_Name apr_Implementation apr_ConfigContract apr_SyncLevel apr_Tags apr_Fields].
  assert (getInt "id" [("id"%string, VInt id)] = Some id) as Hid by done.
  set (members := _ ++ _). assert (getInt "id" members = Some id) as Hi.
  { unfold members. by destruct (Z.eqb_spec id 0) as [->|_], (String.eqb contract ""), tags, fields. }
  assert (getString "name" members = Some name ∧ getString "implementation" members = Some impl ∧
    getString "configContract" members = Some contract ∧ getString "syncLevel" members = Some level) as (Hn & Hm & Hc & Hl).
  { unfold members. split_and!; by destruct (Z.eqb_spec id 0) as [->|_], (String.eqb_spec contract "") as [->|_], tags, fields. }
  assert (getSlice asIntElem "tags" members = Some tags) as Ht.
  { unfold members. pose proof (decode_ints tags) as D. unfold getSlice.
    destruct (Z.eqb_spec id 0) as [->|_], (String.eqb contract ""), tags, fields; simpl; try done;
      simpl in D; by rewrite D. }
  assert (getSlice fromJSON "fields" members = Some (storedField <$> fields)) as Hf.
  { unfold members. pose proof (decode_app_fields fields) as D. unfold getSlice.
    destruct (Z.eqb_spec id 0) as [->|_], (String.eqb contract ""), tags, fields; simpl; try done;
      simpl in D; by rewrite D. }
  unfold fromJSON, FromJSON_ApplicationResource, asStruct. by rewrite Hi, Hn, Hm, Hc, Hl, Ht, Hf.
Qed.

(** ** The collection of applications *)

Section collection.
Context {S : Type} `{Service S} (prowlarr : ProwlarrConnection) (view : S → gmap Z ApplicationResource).
Implicit Types (s : S) (v : gmap Z ApplicationResource).

Definition applications : Collection S ApplicationResource :=
  mkCollection "/api/v1/" "applications" view apr_set_ID.

Context (base : plainBase (prowlarrClient prowlarr)) `{!RestLaws (prowlarrClient prowlarr) applications}.

(** IDs are positive and consistent, and names distinct. *)
Definition appsOk v : Prop :=
  (∀ i r, v !! i = Some r → apr_ID r = i ∧ 0 < i) ∧
  (∀ i j r r', v !! i = Some r → v !! j = Some r' → apr_Name r = apr_Name r' → i = j).

Definition unnamed v (name : string) : Prop := ∀ i r, v !! i = Some r → apr_Name r ≠ name.

Lemma findApplicationByName_run name s : appsOk (view s) →
  ∃ id, findApplicationByName prowlarr name s = (s, Ret id) ∧
    ((id = 0 ∧ unnamed (view s) name) ∨ (0 < id ∧ ∃ r, view s !! id = Some r ∧ apr_Name r = name)).
Proof.
  intros [Hids _]. destruct (Get_list _ base applications eq_refl ltac:(done) eq_refl s) as (l & E & Hl).
  unfold findApplicationByName. rewrite (bind_ok _ _ _ _ _ E). eexists. split; [done|].
  destruct (list_find _ l) as [[k r]|] eqn:Ef.
  - right. apply list_find_Some in Ef as (Hk & Hn & _). apply list_elem_of_lookup_2 in Hk.
    apply (elem_of_listing _ _ _ Hl) in Hk as [i Hi]. destruct (Hids i r Hi) as [<- Hpos]. eauto.
  - left. split; [done|]. intros i r Hi Hn. apply list_find_None, Forall_forall with (x := r) in Ef; [done|].
    apply (elem_of_listing _ _ _ Hl). by exists i.
Qed.

Abbreviation built app := (buildApplicationResource app (pwc_URL prowlarr)).

Lemma built_name app : apr_Name (built app) = reg_Name app ∧ apr_ID (built app) = 0.
Proof. unfold buildApplicationResource. by destruct (getImplementationForType _). Qed.

Lemma RegisterApp_run app s : appsOk (view s) →
  ∃ s' i, RegisterApp prowlarr app s = (s', Ret tt) ∧ 0 < i ∧
    view s' = <[i := storedApp i (built app)]> (view s) ∧
    ((view s !! i = None ∧ unnamed (view s) (reg_Name app)) ∨
     ∃ r, view s !! i = Some r ∧ apr_Name r = reg_Name app).
Proof.
  intros Hok. destruct (findApplicationByName_run (reg_Name app) s Hok) as (id & Ef & Hid).
  unfold RegisterApp, wrapErr. unfold bind at 1. rewrite Ef.
  destruct Hid as [[-> Hn]|(Hpos & r & Hi & Hr)].
  - destruct (Post_stores _ base applications eq_refl ltac:(done) eq_refl (built app) _ (decode_app _) s)
      as (s' & i & _ & EP & Hpos & Hnew & Hv).
    exists s', i. split_and!; [|done|exact Hv|by left].
    exact (bind_ok _ _ _ _ _ EP).
  - destruct (Put_stores _ base applications eq_refl ltac:(done) eq_refl (apr_set_ID id (built app)) _ (decode_app _) s id
      (ex_intro _ r Hi)) as (s' & EP & _ & Hv).
    exists s', id. split_and!; [|done|exact Hv|right; by exists r].
    destruct (Z.ltb_spec 0 id); [exact EP|lia].
Qed.

Lemma appsOk_insert v i r : appsOk v → 0 < i → apr_ID r = i →
  (unnamed v (apr_Name r) ∨ ∃ r', v !! i = Some r' ∧ apr_Name r' = apr_Name r) → appsOk (<[i := r]> v).
Proof.
  intros [Hids Huniq] Hpos Hid Hn. split.
  - intros j r'. rewrite lookup_insert_Some. intros [[<- <-]|[_ Hj]]; [done|by apply Hids].
  - assert (∀ j r', v !! j = Some r' → apr_Name r' = apr_Name r → j = i) as Hat.
    { intros j r' Hj Hnj. destruct Hn as [Hn|(r2 & Hi & H2)]; [by destruct (Hn j r')|].
      apply (Huniq j i r' r2); congruence. }
    intros j k rj rk. rewrite !lookup_insert_Some.
    intros [[<- <-]|[Hj1 Hj]] [[<- <-]|[Hk1 Hk]] E; [done| |by apply (Hat j rj)|by apply (Huniq j k rj rk)].
    by rewrite (Hat k rk).
Qed.

Lemma RegisterApp_ok app s s' i : appsOk (view s) → 0 < i →
  view s' = <[i := storedApp i (built app)]> (view s) →
  ((view s !! i = None ∧ unnamed (view s) (reg_Name app)) ∨
   ∃ r, view s !! i = Some r ∧ apr_Name r = reg_Name app) → appsOk (view s').
Proof.
  intros Hok Hpos -> Hcase. destruct (built_name app) as [Hb _].
  apply appsOk_insert; [done..|]. simpl. rewrite Hb. naive_solver.
Qed.

(** The applications with another name. *)
Definition others (name : string) v : gmap Z ApplicationResource := filter (λ ir, apr_Name ir.2 ≠ name) v.

Lemma UnregisterApp_run name s : appsOk (view s) →
  ∃ s', UnregisterApp prowlarr name s = (s', Ret tt) ∧ view s' = others name (view s).
Proof.
  intros Hok. destruct (findApplicationByName_run name s Hok) as (id & Ef & Hid).
  unfold UnregisterApp, wrapErr. unfold bind at 1. rewrite Ef.
  destruct Hid as [[-> Hn]|(Hpos & r & Hi & Hr)].
  - exists s. split; [done|]. symmetry. apply map_filter_id. intros i r Hi. by apply (Hn i).
  - destruct (Delete_removes _ base applications eq_refl ltac:(done) eq_refl s id (ex_intro _ r Hi)) as (s' & ED & Hv).
    exists s'. split; [destruct (Z.eqb_spec id 0); [lia|exact ED]|]. etrans; [exact Hv|]. simpl.
    apply map_eq. intros j. apply option_eq. intros rj. unfold others.
    rewrite lookup_delete_Some, map_lookup_filter_Some. simpl.
    split; [intros [Hne Hj]|intros [Hj Hne]]; (split; [try done|try done]).
    + intros Hn. apply Hne. apply (proj2 Hok id j r rj); congruence.
    + intros ->. congruence.
Qed.

(** C28: Registration with Prowlarr is an upsert by name.  If the applications have
    distinct names, registering one leaves exactly one of its name, as built from
    the registration, and all others as they were; registering it again changes
    nothing; and unregistering it leaves exactly the applications of other names. *)
Theorem registration_upserts app s : appsOk (view s) →
  ∃ s1 i, RegisterApp prowlarr app s = (s1, Ret tt) ∧
    view s1 !! i = Some (storedApp i (built app)) ∧
    others (reg_Name app) (view s1) = others (reg_Name app) (view s) ∧
    (∀ j r, view s1 !! j = Some r → apr_Name r = reg_Name app → j = i) ∧
    (∃ s2, RegisterApp prowlarr app s1 = (s2, Ret tt) ∧ view s2 = view s1) ∧
    (∃ s3, UnregisterApp prowlarr (reg_Name app) s1 = (s3, Ret tt) ∧
       view s3 = others (reg_Name app) (view s)).
Proof.
  intros Hok. destruct (RegisterApp_run app s Hok) as (s1 & i & E1 & Hpos & Hv1 & Hcase).
  pose proof (RegisterApp_ok app s s1 i Hok Hpos Hv1 Hcase) as Hok1.
  destruct (built_name app) as [Hb _].
  assert (view s1 !! i = Some (storedApp i (built app))) as Hi by (by rewrite Hv1, lookup_insert_eq).
  assert (others (reg_Name app) (view s1) = others (reg_Name app) (view s)) as Ho.
  { rewrite Hv1. unfold others. rewrite map_filter_insert_False by (simpl; rewrite Hb; naive_solver).
    apply map_filter_delete_not. intros r Hr. destruct Hcase as [[Hnone _]|(r' & Hr' & Hn)]; simpl; naive_solver. }
  exists s1, i. split_and!; [done..| | |].
  - intros j r Hj Hn. apply (proj2 Hok1 j i r (storedApp i (built app))); [done..|]. simpl. congruence.
  - destruct (RegisterApp_run app s1 Hok1) as (s2 & j & E2 & _ & Hv2 & Hcase2). exists s2. split; [done|].
    destruct Hcase2 as [[_ Hun]|(r & Hj & Hn)]; [by destruct (Hun i _ Hi)|].
    assert (j = i) as ->. { apply (proj2 Hok1 j i r (storedApp i (built app))); [done..|]. simpl. congruence. }
    by rewrite Hv2, insert_id.
  - destruct (UnregisterApp_run (reg_Name app) s1 Hok1) as (s3 & E3 & Hv3). exists s3. split; [done|].
    by rewrite Hv3, Ho.
Qed.
End collection.

(** ** The coordinator's registrations *)

Section coordinator.
Context {W : Type} `{Kube W} `{Service W}.
Context (pc : ProwlarrConfig) (conn : ProwlarrConnection) (push : gset string).
Context (name namespace appType url : string).
Implicit Types (reg : option ProwlarrRegistration) (w : W).

Abbreviation prowlarrName := (om_Name (pc_ObjectMeta pc)).

(** The applications the coordinator registers with this Prowlarr. *)
Definition selected (indexers : option IndexersSpec) : bool :=
  match indexers ≫= ixs_ProwlarrRef with
  | None => false
  | Some ref => String.eqb (prr_Name ref) prowlarrName && negb (pushKeyOf appType name ∈? push) &&
                default true (prr_AutoRegister ref)
  end.

Definition pullRegistration (key : string) : AppRegistration :=
  mkAppRegistration (pullNameOf name appType) appType url key
    (cns_URL (pcs_Connection (pc_Spec pc))) SyncLevelFullSync [] [].

(** The status says registered only when Prowlarr took the registration.  For a
    selected application the coordinator writes a registration for this Prowlarr,
    which is marked as registered exactly when there was no error, and then Prowlarr
    accepted, last of all, a registration with a non-empty key; for any other
    application (of another Prowlarr, in conflict with the push model, with
    automatic registration off, or without reference) nothing is asked of the
    cluster or of Prowlarr, no registration becomes registered, and a conflict is an
    error. *)
Theorem registration_truthful indexers reg w w' reg' err :
  processAppConfig pc conn push name namespace appType indexers url reg w = (w', Ret (reg', err)) →
  if selected indexers then
    ∃ r, reg' = Some r ∧ preg_ProwlarrName r = prowlarrName ∧ (preg_Registered r = true ↔ err = None) ∧
      (err = None → ∃ key w1, key ≠ ""%string ∧ RegisterApp conn (pullRegistration key) w1 = (w', Ret tt))
  else
    w' = w ∧ (∀ r, reg' = Some r → preg_Registered r = true → reg = reg') ∧
    (err ≠ None ↔ ∃ ref, indexers ≫= ixs_ProwlarrRef = Some ref ∧ prr_Name ref = prowlarrName ∧
                         pushKeyOf appType name ∈ push).
Proof.
  unfold processAppConfig, selected. destruct (indexers ≫= ixs_ProwlarrRef) as [ref|]; last first.
  { intros [= <- <- <-]. split_and!; [done| |naive_solver].
    destruct reg as [r|]; [|done]. destruct (_ && _); [|done]. by intros ? [= <-]. }
  destruct (String.eqb_spec (prr_Name ref) prowlarrName) as [Hn|Hn]; simpl; last first.
  { intros [= <- <- <-]. split_and!; [done..|]. split; [done|]. naive_solver. }
  case_bool_decide as Hp; simpl.
  { intros [= <- <- <-]. split_and!; [done|by intros ? [= <-]|]. split; [eauto|done]. }
  destruct (default true (prr_AutoRegister ref)); simpl; last first.
  { intros [= <- <- <-]. split_and!; [done|by intros ? [= <-]|]. split; [done|naive_solver]. }
  unfold bind at 1. destruct (appAPIKeyOf _ _ _ w) as [w1 [key|e|why]]; [|done..].
  destruct (String.eqb_spec key "") as [->|Hk]; [intros [= <- <- <-]; by eexists|].
  unfold bind, attempt. fold (pullRegistration key).
  destruct (RegisterApp conn (pullRegistration key) w1) as [w2 [[]|e|why]] eqn:ER; [| |done].
  - intros [= <- <- <-]. eexists. split_and!; [done..|]. intros _. by exists key, w1.
  - intros [= <- <- <-]. by eexists.
Qed.
End coordinator.

(** ** The two registrations of one application *)

Definition baseUrlOf (a : ApplicationResource) : option any :=
  af_Value ∘ snd <$> list_find (λ f, af_Name f = "baseUrl"%string) (apr_Fields a).

Lemma storedApp_baseUrl i app url : baseUrlOf (storedApp i (buildApplicationResource app url)) = Some (VString (reg_URL app)).
Proof. unfold buildApplicationResource. by destruct (getImplementationForType _), (0 <? _). Qed.

Definition controllerNameOf (appType name : string) : string := ("nebularr-" +:+ appType +:+ "-" +:+ name)%string.

Lemma pullName_differs appType name : appType ∈ [AppRadarr; AppSonarr; AppLidarr; AppReadarr] →
  pullNameOf name appType ≠ controllerNameOf appType name.
Proof. intros Hin. set_unfold in Hin. by destruct_or! Hin; subst appType. Qed.

Section twice.
Context {W : Type} `{Kube W} `{Service W} (view : W → gmap Z ApplicationResource).
Context (pc : ProwlarrConfig) (ref : ProwlarrRef) (secrets : gmap string string) (push : gset string).
Context (name namespace appType url apiKey key : string) (direct : list DirectIndexer).

Abbreviation conn := (mkProwlarrConnection (cns_URL (pcs_Connection (pc_Spec pc)))
  (default "" (secrets !! "apiKey"))%string).

(** What the two controllers read in the cluster, which reading does not change. *)
Hypothesis config_read : ∀ w : W, kubeGetProwlarrConfig namespace (prr_Name ref) w = (w, Ret pc).
Hypothesis secrets_read : ∀ w : W, ResolveConnectionSecrets namespace (pcs_Connection (pc_Spec pc)) w = (w, Ret secrets).
Hypothesis key_read : ∀ w : W, appAPIKeyOf namespace appType name w = (w, Ret key).

(** An application that refers to a Prowlarr is registered with it twice.  Its own
    controller and the coordinator register it under different names, so that after
    both have run Prowlarr holds two applications of the same address, and the
    clean-up of its deletion removes only the one and leaves the other. *)
Theorem app_registered_twice reg w :
  appType ∈ [AppRadarr; AppSonarr; AppLidarr; AppReadarr] → key ≠ ""%string →
  prr_Name ref = om_Name (pc_ObjectMeta pc) → prr_Name ref ≠ ""%string →
  default true (prr_AutoRegister ref) = true → pushKeyOf appType name ∉ push →
  plainBase (prowlarrClient conn) → RestLaws (prowlarrClient conn) (applications view) → appsOk (view w) →
  ∃ w1 w2 w3 r i j a b,
    HandleProwlarrRegistration namespace (Some ref) appType (controllerNameOf appType name) url apiKey w = (w1, Ret tt) ∧
    processAppConfig pc conn push name namespace appType (Some (mkIndexersSpec (Some ref) direct)) url reg w1 =
      (w2, Ret (Some r, None)) ∧ preg_Registered r = true ∧
    i ≠ j ∧ view w2 !! i = Some a ∧ view w2 !! j = Some b ∧
    baseUrlOf a = Some (VString url) ∧ baseUrlOf b = Some (VString url) ∧
    HandleProwlarrUnregistration namespace (prr_Name ref) (controllerNameOf appType name) w2 = (w3, Ret tt) ∧
    view w3 !! i = None ∧ view w3 !! j = Some b.
Proof.
  intros Hty Hkey Hname Hne Hauto Hpush base laws Hok. pose proof (pullName_differs appType name Hty) as Hdiff.
  set (own := mkAppRegistration (controllerNameOf appType name) appType url apiKey "" SyncLevelFullSync [] []).
  set (pull := pullRegistration pc name appType url key).
  destruct (RegisterApp_run conn view base own w Hok) as (w1 & i & E1 & Hi & Hv1 & Hc1).
  pose proof (RegisterApp_ok conn view own w w1 i Hok Hi Hv1 Hc1) as Hok1.
  destruct (RegisterApp_run conn view base pull w1 Hok1) as (w2 & j & E2 & Hj & Hv2 & Hc2).
  pose proof (RegisterApp_ok conn view pull w1 w2 j Hok1 Hj Hv2 Hc2) as Hok2.
  destruct (UnregisterApp_run conn view base (controllerNameOf appType name) w2 Hok2) as (w3 & E3 & Hv3).
  set (a := storedApp i (buildApplicationResource own (pwc_URL conn))) in *.
  set (b := storedApp j (buildApplicationResource pull (pwc_URL conn))) in *.
  assert (apr_Name a = controllerNameOf appType name ∧ apr_Name b = pullNameOf name appType) as [Ha Hb].
  { split; [exact (proj1 (built_name conn own))|exact (proj1 (built_name conn pull))]. }
  assert (view w1 !! i = Some a) as Hi1 by (by rewrite Hv1, lookup_insert_eq).
  assert (i ≠ j) as Hij.
  { intros <-. destruct Hc2 as [[Hn _]|(r & Hr & Hrn)]; [congruence|]. rewrite Hi1 in Hr. injection Hr as <-.
    apply Hdiff. rewrite <-Ha. symmetry. exact Hrn. }
  assert (view w2 !! i = Some a) as Hi2 by (by rewrite Hv2, lookup_insert_ne).
  assert (view w2 !! j = Some b) as Hj2 by (by rewrite Hv2, lookup_insert_eq).
  eexists w1, w2, w3, _, i, j, a, b. split_and!; [| |..|].
  - unfold HandleProwlarrRegistration. rewrite Hauto. cbn [negb]. unfold wrapErr, bind at 1. rewrite config_read.
    unfold bind. rewrite secrets_read. unfold own in E1. by rewrite E1.
  - unfold processAppConfig. simpl. rewrite Hname, String.eqb_refl. simpl.
    rewrite bool_decide_eq_false_2, Hauto by done. simpl. unfold bind at 1. rewrite key_read.
    destruct (String.eqb_spec key ""); [done|]. unfold bind, attempt. fold (pullRegistration pc name appType url key).
    fold pull. by rewrite E2.
  - done.
  - exact Hij.
  - exact Hi2.
  - exact Hj2.
  - apply (storedApp_baseUrl i own).
  - apply (storedApp_baseUrl j pull).
  - unfold HandleProwlarrUnregistration. destruct (String.eqb_spec (prr_Name ref) ""); [done|].
    unfold bind at 1, attempt. rewrite config_read. unfold bind at 1. rewrite secrets_read. unfold bind. by rewrite E3.
  - rewrite Hv3. unfold others. apply map_lookup_filter_None. right. intros x Hx. rewrite Hi2 in Hx.
    injection Hx as <-. intros Hn. exact (Hn Ha).
  - rewrite Hv3. unfold others. apply map_lookup_filter_Some. split; [done|]. intros Hn. apply Hdiff.
    rewrite <-Hn. symmetry. exact Hb.
Qed.
End twice.

(** ** Witnesses: a Prowlarr with one application of the user's *)
Module Example.
Import ExampleCluster MiniServer.

Abbreviation State := (gmap Z any).

Lemma decodes_app doc r i : fromJSON doc = Some r → fromJSON (assignID i doc) = Some (apr_set_ID i r).
Proof. revert doc r i. decodes_with_id ltac:(unfold FromJSON_ApplicationResource). Qed.

#[export] Instance prowlarrServer : Service State :=
  MiniService (R := ApplicationResource) "/api/v1/" "applications" 3.
Abbreviation appsView := (view (R := ApplicationResource)).

Lemma prowlarr_laws c : RestLaws c (applications appsView).
Proof. by apply (rest_laws "/api/v1/" "applications" apr_set_ID decodes_app 3). Qed.

Definition exampleProwlarr : ProwlarrConfig :=
  mkProwlarrConfig (mkObjectMeta "prowlarr" "media" "4f1d" 1 None [])
    (mkProwlarrConfigSpec
       (mkConnectionSpec "http://prowlarr:9696" (Some (mkSecretKeySelector "prowlarr" "")) "" false None)
       [] [] [] [] None None)
    (mkProwlarrConfigStatus [] true "1.0" None [] [] [] "" None).

Definition exampleRef : ProwlarrRef := mkProwlarrRef "prowlarr" None [] [].

Definition cluster : Cluster :=
  {[ ("media", "prowlarr") := {[ "apiKey" := "p0" ]}; ("media", "sonarr-api-key") := {[ "apiKey" := "s0" ]} ]}%string.

#[export] Instance prowlarrKube : Kube State := {|
  kubeGetSecret ns n := λ w, (w, match cluster !! (ns, n) with Some d => Ret d | None => Err "not found"%string end);
  kubeGetProwlarrConfig ns n := ret exampleProwlarr;
  kubeClock := λ _, 7;
  recorder := None;
  setStatusCondition := setCondition;
  containsFinalizer fs f := bool_decide (f ∈ fs);
  addFinalizer fs f := fs ++ [f];
  removeFinalizer fs f := filter (λ g, g ≠ f) fs |}.

Definition exampleConn : ProwlarrConnection := mkProwlarrConnection "http://prowlarr:9696" "p0".

Definition userApp : ApplicationResource := mkApplicationResource 5 "mine" "Sonarr" "SonarrSettings" "fullSync" [] [].
Definition exampleApps : State := {[ 5 := toJSON userApp ]}.

Lemma registration_plain : plainBase (prowlarrClient exampleConn).
Proof. exists false, "prowlarr"%string, "9696"%string. split_and!; [reflexivity..|discriminate]. Qed.

Lemma exampleApps_view : appsView exampleApps = {[ 5 := userApp ]}.
Proof. vm_compute. reflexivity. Qed.

Lemma exampleApps_ok : appsOk (appsView exampleApps).
Proof.
  rewrite exampleApps_view. split.
  - intros i r [<- <-]%lookup_singleton_Some. split; [reflexivity|lia].
  - intros i j r r' [<- _]%lookup_singleton_Some [<- _]%lookup_singleton_Some. done.
Qed.

Definition exampleApp : AppRegistration :=
  mkAppRegistration "nebularr-sonarr-tv" AppSonarr "http://sonarr:8989" "s0" "" "" [] [].
End Example.
Import Example.

Lemma registration_upserts_witness : ∃ s1 s3,
  RegisterApp exampleConn exampleApp exampleApps = (s1, Ret tt) ∧
  UnregisterApp exampleConn "nebularr-sonarr-tv" s1 = (s3, Ret tt) ∧ appsView s3 = {[ 5 := userApp ]}.
Proof.
  destruct (registration_upserts exampleConn appsView registration_plain (RestLaws0 := prowlarr_laws _) exampleApp
    exampleApps exampleApps_ok) as (s1 & i & E1 & _ & _ & _ & _ & (s3 & E3 & Hv)).
  exists s1, s3. split; [exact E1|]. split; [exact E3|]. rewrite Hv, exampleApps_view. vm_compute. reflexivity.
Defined.

Lemma registration_truthful_witness :
  let run := processAppConfig exampleProwlarr exampleConn ∅ "tv" "media" AppTypeSonarr
    (Some (mkIndexersSpec (Some exampleRef) [])) "http://sonarr:8989" None exampleApps in
  ∃ w' r, run = (w', Ret (Some r, None)) ∧ preg_Registered r = true.
Proof.
  intros run. assert (∃ r, run.2 = Ret (Some r, None)) as [r Er] by (vm_compute; eexists; reflexivity).
  assert (run = (run.1, Ret (Some r, None))) as E by (rewrite <-Er; destruct run; reflexivity).
  exists run.1, r. split; [exact E|].
  destruct (registration_truthful exampleProwlarr exampleConn ∅ "tv" "media" AppTypeSonarr "http://sonarr:8989"
    (Some (mkIndexersSpec (Some exampleRef) [])) None exampleApps _ _ _ E) as (r' & Hr & _ & Hiff & _).
  injection Hr as <-. by apply Hiff.
Defined.

Lemma app_registered_twice_witness : ∃ w1 w2 i j a b,
  HandleProwlarrRegistration "media" (Some exampleRef) AppSonarr "nebularr-sonarr-tv" "http://sonarr:8989" "s0"
    exampleApps = (w1, Ret tt) ∧
  (processAppConfig exampleProwlarr exampleConn ∅ "tv" "media" AppTypeSonarr
    (Some (mkIndexersSpec (Some exampleRef) [])) "http://sonarr:8989" None w1).1 = w2 ∧
  i ≠ j ∧ appsView w2 !! i = Some a ∧ appsView w2 !! j = Some b ∧ baseUrlOf a = baseUrlOf b.
Proof.
  assert (∀ w : State, kubeGetProwlarrConfig "media" (prr_Name exampleRef) w = (w, Ret exampleProwlarr)) as Hconfig
    by reflexivity.
  assert (∀ w : State, ResolveConnectionSecrets "media" (pcs_Connection (pc_Spec exampleProwlarr)) w =
    (w, Ret {[ "apiKey"%string := "p0"%string ]})) as Hsecrets by (intros w; vm_compute; reflexivity).
  assert (∀ w : State, appAPIKeyOf "media" AppSonarr "tv" w = (w, Ret "s0"%string)) as Hkey
    by (intros w; vm_compute; reflexivity).
  destruct (app_registered_twice appsView exampleProwlarr exampleRef {[ "apiKey"%string := "p0"%string ]} ∅
    "tv" "media" AppSonarr "http://sonarr:8989" "s0" "s0" [] Hconfig Hsecrets Hkey None exampleApps)
    as (w1 & w2 & w3 & r & i & j & a & b & E1 & E2 & _ & Hij & Ha & Hb & Ua & Ub & _);
    [right; left|discriminate|reflexivity|discriminate|reflexivity|set_solver|exact registration_plain|
     exact (prowlarr_laws _)|exact exampleApps_ok|].
  exists w1, w2, i, j, a, b. split; [exact E1|]. split; [exact (f_equal fst E2)|].
  split; [exact Hij|]. split; [exact Ha|]. split; [exact Hb|]. by rewrite Ua, Ub.
Defined.
