(* ===== verification/Secrets.v ===== *)
(** * Theorems: the resolution of secrets (reconciler.go and its callers)

    What the five resolution passes of a reconciliation put into the map of
    resolved secrets, and that the compiled configuration gets from it exactly the
    values of the secrets its specification names. *)
From S2P Require Export GenericReconciler Convert.

(** Names of Kubernetes objects contain no slash. *)
Definition slashFree (name : string) : bool := stringForall (notByte "/") name.

Definition entry (name key : string) : string := (name +:+ "/" +:+ key)%string.

Lemma entry_inj n k n' k' : slashFree n = true → slashFree n' = true → entry n k = entry n' k' → n = n' ∧ k = k'.
Proof.
  intros Hn Hn' E. assert (Cut "/" (entry n k) = Cut "/" (entry n' k')) as Hc by (by rewrite E).
  unfold entry in Hc. change ("/" +:+ k)%string with (String "/" k) in Hc.
  change ("/" +:+ k')%string with (String "/" k') in Hc. rewrite !Cut_append in Hc by done. by simplify_eq.
Qed.

Lemma entry_not_plain n k : entry n k ≠ "apiKey".
Proof.
  intros E. assert (stringForall (notByte "/") (entry n k) = true) as H by (by rewrite E).
  unfold entry in H. rewrite stringForall_app in H. by apply andb_true_iff in H as [_ H].
Qed.

(** ** The references of a specification

    A reference to one key of a secret, or (import lists) to the whole secret. *)
Inductive SecretRef := OneKey (name key : string) | AllKeys (name : string).

Definition refName (ref : SecretRef) : string :=
  match ref with OneKey name _ => name | AllKeys name => name end.

Definition credentialRefs (ref : option CredentialsSecretRef) : list SecretRef :=
  match ref with
  | None => []
  | Some ref => [OneKey (csr_Name ref) (orDefault (csr_UsernameKey ref) "username");
                 OneKey (csr_Name ref) (orDefault (csr_PasswordKey ref) "password")]
  end.
Definition keyRefs (dflt : string) (ref : option SecretKeySelector) : list SecretRef :=
  match ref with None => [] | Some ref => [OneKey (sks_Name ref) (orDefault (sks_Key ref) dflt)] end.

Definition refsOf `{ArrConfigObject C} (c : C) : list SecretRef :=
  mjoin ((λ dc, credentialRefs (dcs_CredentialsSecretRef dc)) <$> GetDownloadClients c) ++
  mjoin ((λ idx, keyRefs "apiKey" (dix_APIKeySecretRef idx)) <$> from_option ixs_Direct [] (GetIndexersSpec c)) ++
  mjoin ((λ list, match ils_SettingsSecretRef list with None => [] | Some ref => [AllKeys (sks_Name ref)] end)
           <$> GetImportLists c) ++
  keyRefs "password" (GetAuthenticationSpec c ≫= aus_PasswordSecretRef).

Section secrets.
Context {W : Type} `{Kube W} `{Service W}.

(** The cluster's secrets, while they do not change. *)
Context (secretsOf : W → string → string → option (gmap string string)) (namespace : string).
Definition readsSecrets : Prop := ∀ ns n w, ∃ e,
  kubeGetSecret ns n w = (w, match secretsOf w ns n with Some data => Ret data | None => Err e end).
Hypothesis reads : readsSecrets.
Implicit Types (w : W) (resolved : gmap string string).

Definition valueOf w (name key : string) : option string := secretsOf w namespace name ≫= lookup key.

(** Every entry is the value of the secret it names. *)
Definition sound w resolved : Prop := ∀ n k v, slashFree n = true →
  resolved !! entry n k = Some v → valueOf w n k = Some v.

Definition answered resolved w (ref : SecretRef) : Prop :=
  match ref with
  | OneKey n k => ∃ v, valueOf w n k = Some v ∧ resolved !! entry n k = Some v
  | AllKeys n => ∃ data, secretsOf w namespace n = Some data ∧
      ∀ k v, data !! k = Some v → resolved !! entry n k = Some v
  end.
Definition dangling w (ref : SecretRef) : Prop :=
  match ref with
  | OneKey n k => valueOf w n k = None
  | AllKeys n => secretsOf w namespace n = None
  end.

(** What a pass for the references [refs] does: the world stays, every entry is
    sound and none is lost; either all references are answered or one dangles. *)
Definition passes (m : gmap string string → M W (gmap string string)) (refs : list SecretRef) : Prop :=
  ∀ w resolved, sound w resolved → Forall (λ ref, slashFree (refName ref) = true) refs →
  ∃ x, m resolved w = (w, x) ∧
    match x with
    | Ret resolved' => sound w resolved' ∧
        (∀ n k, slashFree n = true → is_Some (resolved !! entry n k) → resolved' !! entry n k = resolved !! entry n k) ∧
        resolved' !! "apiKey"%string = resolved !! "apiKey"%string ∧
        (∀ ref, ref ∈ refs → answered resolved' w ref)
    | Err _ => ∃ ref, ref ∈ refs ∧ dangling w ref
    | Panic _ => False
    end.

Lemma answered_mono w resolved resolved' ref :
  slashFree (refName ref) = true →
  (∀ n k, slashFree n = true → is_Some (resolved !! entry n k) → resolved' !! entry n k = resolved !! entry n k) →
  answered resolved w ref → answered resolved' w ref.
Proof.
  intros Hr Hm. destruct ref as [n k|n]; simpl in *.
  - intros (v & Hv & Hl). exists v. split; [done|]. by rewrite Hm by (by rewrite ?Hl).
  - intros (data & Hd & Hl). exists data. split; [done|]. intros k v Hk. specialize (Hl k v Hk).
    by rewrite Hm by (by rewrite ?Hl).
Qed.

Lemma passes_none : passes ret [].
Proof.
  intros w resolved Hs _. eexists. split; [done|]. split_and!; try done. by intros ref ?%not_elem_of_nil.
Qed.

Lemma passes_seq m1 m2 refs1 refs2 :
  passes m1 refs1 → passes m2 refs2 → passes (λ resolved, let* r := m1 resolved in m2 r) (refs1 ++ refs2).
Proof.
  intros H1 H2 w resolved Hs [Hf1 Hf2]%Forall_app.
  destruct (H1 w resolved Hs Hf1) as (x1 & E1 & Hx1). unfold bind. rewrite E1.
  destruct x1 as [r1|e|why]; [|eexists; split; [done|]; destruct Hx1 as (ref & Hin & Hd); exists ref; split; [set_solver|done]|done].
  destruct Hx1 as (Hs1 & Hm1 & Ha1 & Hn1). destruct (H2 w r1 Hs1 Hf2) as (x2 & E2 & Hx2). rewrite E2.
  exists x2. split; [done|]. destruct x2 as [r2|e|why]; [|destruct Hx2 as (ref & Hin & Hd); exists ref; split; [set_solver|done]|done].
  destruct Hx2 as (Hs2 & Hm2 & Ha2 & Hn2). split_and!; [done| |by rewrite Ha2|].
  - intros n k Hn Hi. rewrite Hm2; [by apply Hm1|done|]. by rewrite Hm1.
  - intros ref [Hin|Hin]%elem_of_app; [|by apply Hn2]. eapply answered_mono; [|exact Hm2|by apply Hn1].
    by eapply (proj1 (Forall_forall _ _) Hf1).
Qed.

Lemma passes_forRange {A} (body : gmap string string → A → M W (gmap string string)) (refs : A → list SecretRef) xs :
  (∀ x, passes (λ resolved, body resolved x) (refs x)) →
  passes (λ resolved, forRange body resolved xs) (mjoin (refs <$> xs)).
Proof.
  intros Hb. induction xs as [|x xs IH]; [apply passes_none|]. exact (passes_seq _ _ _ _ (Hb x) IH).
Qed.

Lemma sound_insert w resolved n k v :
  slashFree n = true → sound w resolved → valueOf w n k = Some v → sound w (<[entry n k := v]> resolved).
Proof.
  intros Hn Hs Hv n' k' v' Hn'. rewrite lookup_insert_Some. intros [[E <-]|[_ Hl]]; [|by apply Hs].
  by apply entry_inj in E as [<- <-].
Qed.

Lemma insert_keeps w resolved n k v : slashFree n = true → sound w resolved → valueOf w n k = Some v →
  ∀ n' k', slashFree n' = true → is_Some (resolved !! entry n' k') →
  <[entry n k := v]> resolved !! entry n' k' = resolved !! entry n' k'.
Proof.
  intros Hn Hs Hv n' k' Hn' [v' Hv']. destruct (decide (entry n k = entry n' k')) as [E|E];
    [|by rewrite lookup_insert_ne].
  apply entry_inj in E as [<- <-]; [|done..]. rewrite lookup_insert_eq, Hv'. specialize (Hs n k v' Hn Hv'). congruence.
Qed.

Lemma passes_into msg n k : passes (resolveInto msg namespace n k) [OneKey n k].
Proof.
  intros w resolved Hs Hf. apply Forall_cons in Hf as [Hf _]. simpl in Hf. unfold resolveInto, ResolveSecretValue.
  destruct (reads namespace n w) as [e Er]. unfold bind, wrapErr. rewrite Er.
  destruct (secretsOf w namespace n) as [data|] eqn:Ed.
  - destruct (data !! k) as [v|] eqn:Ek.
    + assert (valueOf w n k = Some v) as Hv by (unfold valueOf; by rewrite Ed).
      exists (Ret (<[entry n k := v]> resolved)). split; [done|]. split_and!.
      * by apply sound_insert.
      * by apply (insert_keeps w).
      * apply lookup_insert_ne. exact (entry_not_plain n k).
      * intros ref ->%list_elem_of_singleton. exists v. split; [done|]. apply lookup_insert_eq.
    + eexists. split; [done|]. exists (OneKey n k). split; [by left|]. unfold dangling, valueOf. by rewrite Ed.
  - eexists. split; [done|]. exists (OneKey n k). split; [by left|]. unfold dangling, valueOf. by rewrite Ed.
Qed.

Lemma passes_pair msg ref : passes (λ resolved, resolvePair msg namespace resolved ref) (credentialRefs ref).
Proof.
  destruct ref as [ref|]; [|apply passes_none]. unfold resolvePair, credentialRefs.
  exact (passes_seq _ _ _ _ (passes_into _ _ _) (passes_into _ _ _)).
Qed.

Lemma passes_key msg dflt ref : passes (λ resolved, resolveKey msg namespace dflt resolved ref) (keyRefs dflt ref).
Proof. destruct ref as [ref|]; [apply passes_into|apply passes_none]. Qed.

(** Adding the data of a secret that is sound to add. *)
Lemma addSecretData_spec w resolved n data :
  slashFree n = true → secretsOf w namespace n = Some data → sound w resolved →
  let resolved' := addSecretData n data resolved in
  sound w resolved' ∧
  (∀ n' k', slashFree n' = true → is_Some (resolved !! entry n' k') → resolved' !! entry n' k' = resolved !! entry n' k') ∧
  resolved' !! "apiKey"%string = resolved !! "apiKey"%string ∧
  (∀ k v, data !! k = Some v → resolved' !! entry n k = Some v).
Proof.
  intros Hn Hd Hs. cbn zeta. unfold addSecretData.
  refine (map_fold_weak_ind (λ resolved' seen, seen ⊆ data →
     sound w resolved' ∧
     (∀ n' k', slashFree n' = true → is_Some (resolved !! entry n' k') → resolved' !! entry n' k' = resolved !! entry n' k') ∧
     resolved' !! "apiKey"%string = resolved !! "apiKey"%string ∧
     (∀ k v, seen !! k = Some v → resolved' !! entry n k = Some v)) _ _ _ _ data (reflexivity _)).
  { intros _. split_and!; [done..|]. intros k v. by rewrite lookup_empty. }
  intros k v seen resolved' Hk IH Hsub.
  assert (data !! k = Some v) as Hv by (eapply lookup_weaken; [apply lookup_insert_eq|exact Hsub]).
  destruct IH as (IHs & IHm & IHa & IHn).
  { etrans; [|exact Hsub]. by apply insert_subseteq. }
  change ((n +:+ "/" +:+ k)%string) with (entry n k).
  assert (valueOf w n k = Some v) as Hval by (unfold valueOf; by rewrite Hd).
  split_and!.
  - by apply sound_insert.
  - intros n' k' Hn' Hi. rewrite (insert_keeps w) by (rewrite ?IHm; done). by apply IHm.
  - rewrite lookup_insert_ne by apply entry_not_plain. done.
  - intros k' v'. rewrite lookup_insert_Some. intros [[<- <-]|[Hne Hl]]; [apply lookup_insert_eq|].
    rewrite lookup_insert_ne; [by apply IHn|]. intros [_ E]%entry_inj; done.
Qed.

Lemma passes_importLists lists : passes (ResolveImportListSecrets namespace lists)
  (mjoin ((λ list, match ils_SettingsSecretRef list with None => [] | Some ref => [AllKeys (sks_Name ref)] end) <$> lists)).
Proof.
  unfold ResolveImportListSecrets. apply (passes_forRange (λ resolved list, _)). intros list.
  destruct (ils_SettingsSecretRef list) as [ref|]; [|apply passes_none].
  intros w resolved Hs Hf. apply Forall_cons in Hf as [Hf _]. simpl in Hf.
  destruct (reads namespace (sks_Name ref) w) as [e Er]. unfold bind, wrapErr. rewrite Er.
  destruct (secretsOf w namespace (sks_Name ref)) as [data|] eqn:Ed; (eexists; split; [done|]).
  - destruct (addSecretData_spec w resolved _ data Hf Ed Hs) as (H1 & H2 & H3 & H4).
    split_and!; [done..|]. intros r ->%list_elem_of_singleton. by exists data.
  - exists (AllKeys (sks_Name ref)). split; [by left|done].
Qed.

(** The passes after the connection's, in their order. *)
Lemma passes_all `{ArrConfigObject C} (c : C) : om_Namespace (meta_of c) = namespace →
  passes (λ resolved,
    let* resolved := ResolveDownloadClientSecrets namespace (GetDownloadClients c) resolved in
    let* resolved := ResolveIndexerSecrets namespace (GetIndexersSpec c) resolved in
    let* resolved := ResolveImportListSecrets namespace (GetImportLists c) resolved in
    ResolveAuthenticationSecrets namespace (GetAuthenticationSpec c) resolved) (refsOf c).
Proof.
  intros Hns. unfold refsOf.
  refine (passes_seq _ _ _ _ _ (passes_seq _ _ _ _ _ (passes_seq _ _ _ _ _ _))).
  - unfold ResolveDownloadClientSecrets. apply (passes_forRange (λ resolved dc, _)). intros dc. apply passes_pair.
  - unfold ResolveIndexerSecrets. destruct (GetIndexersSpec c) as [spec|]; [|apply passes_none].
    apply (passes_forRange (λ resolved idx, _)). intros idx. apply passes_key.
  - apply passes_importLists.
  - unfold ResolveAuthenticationSecrets. destruct (GetAuthenticationSpec c ≫= aus_PasswordSecretRef) as [ref|].
    + exact (passes_key _ _ (Some ref)).
    + apply passes_none.
Qed.
End secrets.

Section theorems.
Context {W C : Type} `{Kube W} `{Service W} `{ArrConfigObject C} `{UnicodeTables}.
Context (secretsOf : W → string → string → option (gmap string string)).
Implicit Types (w : W) (c : C).

(** The connection's own reference. *)
Definition connectionRefs c : list SecretRef := keyRefs "apiKey" (cns_APIKeySecretRef (GetConnectionSpec c)).

Abbreviation namespaceOf c := (om_Namespace (meta_of c)).

Lemma resolveConnection_run c w : readsSecrets secretsOf →
  ∃ x, ResolveConnectionSecrets (namespaceOf c) (GetConnectionSpec c) w = (w, x) ∧
    match x with
    | Ret resolved => sound secretsOf (namespaceOf c) w resolved ∧
        match cns_APIKeySecretRef (GetConnectionSpec c) with
        | None => resolved !! "apiKey"%string = None
        | Some ref => ∃ v, valueOf secretsOf (namespaceOf c) w (sks_Name ref) (orDefault (sks_Key ref) "apiKey") = Some v ∧
            resolved !! "apiKey"%string = Some v
        end
    | Err _ => ∃ ref, ref ∈ connectionRefs c ∧ dangling secretsOf (namespaceOf c) w ref
    | Panic _ => False
    end.
Proof.
  intros Hr. unfold ResolveConnectionSecrets, ResolveSecretValue, connectionRefs.
  destruct (cns_APIKeySecretRef (GetConnectionSpec c)) as [ref|]; last first.
  { eexists. split; [done|]. split; [|done]. intros n k v _. by rewrite lookup_empty. }
  destruct (Hr (namespaceOf c) (sks_Name ref) w) as [e Er]. unfold bind, wrapErr. rewrite Er.
  set (key := orDefault (sks_Key ref) "apiKey").
  assert (∀ x, valueOf secretsOf (namespaceOf c) w (sks_Name ref) key = x → x = None →
    ∃ r, r ∈ keyRefs "apiKey" (Some ref) ∧ dangling secretsOf (namespaceOf c) w r) as Hdangling.
  { intros x Hx ->. exists (OneKey (sks_Name ref) key). split; [by left|done]. }
  unfold valueOf in *. destruct (secretsOf w (namespaceOf c) (sks_Name ref)) as [data|];
    [destruct (data !! key) as [v|] eqn:Ek|]; (eexists; split; [done|]); [|by apply (Hdangling None)..].
  split; [|exists v; split; [done|apply lookup_insert_eq]].
  intros n k v' _ Hl. exfalso. rewrite lookup_singleton_Some in Hl. destruct Hl as [Hl _].
  by apply (entry_not_plain n k).
Qed.

(** What the run of [resolveAll] comes to. *)
Lemma resolveAll_run c w : readsSecrets secretsOf →
  Forall (λ ref, slashFree (refName ref) = true) (refsOf c) →
  ∃ x, resolveAll c w = (w, x) ∧
    match x with
    | Ret resolved =>
        sound secretsOf (namespaceOf c) w resolved ∧
        (∀ ref, ref ∈ refsOf c → answered secretsOf (namespaceOf c) resolved w ref) ∧
        match cns_APIKeySecretRef (GetConnectionSpec c) with
        | None => resolved !! "apiKey"%string = None
        | Some ref => ∃ v, valueOf secretsOf (namespaceOf c) w (sks_Name ref) (orDefault (sks_Key ref) "apiKey") = Some v ∧
            resolved !! "apiKey"%string = Some v
        end
    | Err _ => ∃ ref, ref ∈ connectionRefs c ++ refsOf c ∧ dangling secretsOf (namespaceOf c) w ref
    | Panic _ => False
    end.
Proof.
  intros Hr Hf. unfold resolveAll. destruct (resolveConnection_run c w Hr) as (x & E & Hx).
  unfold bind at 1. rewrite E. destruct x as [r0|e|why]; [|eexists; split; [done|]; set_solver|done].
  destruct Hx as [Hs Hkey].
  destruct (passes_all secretsOf (namespaceOf c) Hr c eq_refl w r0 Hs Hf) as (x & E' & Hx'). exists x.
  split; [exact E'|]. destruct x as [resolved|e|why]; [|set_solver|done].
  destruct Hx' as (Hs' & _ & Ha & Hn). rewrite Ha. done.
Qed.

(** C20: The resolution of the secrets of a configuration changes nothing and fails
    exactly when a reference dangles.  If every secret and key that the connection,
    the download clients, the indexers, the import lists and the authentication
    name exists, it returns the values of all of them: that of the connection under
    [apiKey], where there is nothing if the connection names none, the others under the
    secret's name and the key; and no entry holds anything but the value of the secret
    it names.  If it fails, one of them is missing. *)
Theorem resolveAll_exact c w : readsSecrets secretsOf →
  Forall (λ ref, slashFree (refName ref) = true) (refsOf c) →
  ∃ x, resolveAll c w = (w, x) ∧
    match x with
    | Ret resolved =>
        (∀ n k v, slashFree n = true → resolved !! entry n k = Some v →
           valueOf secretsOf (namespaceOf c) w n k = Some v) ∧
        (∀ ref, ref ∈ refsOf c → answered secretsOf (namespaceOf c) resolved w ref) ∧
        match cns_APIKeySecretRef (GetConnectionSpec c) with
        | None => resolved !! "apiKey"%string = None
        | Some ref => ∃ v, valueOf secretsOf (namespaceOf c) w (sks_Name ref) (orDefault (sks_Key ref) "apiKey") = Some v ∧
            resolved !! "apiKey"%string = Some v
        end
    | Err _ => ∃ ref, ref ∈ connectionRefs c ++ refsOf c ∧ dangling secretsOf (namespaceOf c) w ref
    | Panic _ => False
    end.
Proof. intros Hr Hf. exact (resolveAll_run c w Hr Hf). Qed.

Lemma secretOrEmpty_answered c resolved w n k :
  answered secretsOf (namespaceOf c) resolved w (OneKey n k) →
  valueOf secretsOf (namespaceOf c) w n k = Some (secretOrEmpty resolved (entry n k)).
Proof. intros (v & Hv & Hl). unfold secretOrEmpty. by rewrite Hl. Qed.

(** What the inputs of the compiler have of the secrets. *)
Lemma secrets_converted c w w' resolved : readsSecrets secretsOf →
  Forall (λ ref, slashFree (refName ref) = true) (refsOf c) →
  resolveAll c w = (w', Ret resolved) →
  let value := valueOf secretsOf (namespaceOf c) w in
  (∀ ref, cns_APIKeySecretRef (GetConnectionSpec c) = Some ref →
     value (sks_Name ref) (orDefault (sks_Key ref) "apiKey") = Some (secretOrEmpty resolved "apiKey")) ∧
  (∀ dc ref, dc ∈ GetDownloadClients c → dcs_CredentialsSecretRef dc = Some ref →
     let d := convertDownloadClient resolved dc in
     value (csr_Name ref) (orDefault (csr_UsernameKey ref) "username") = Some (dci_Username d) ∧
     value (csr_Name ref) (orDefault (csr_PasswordKey ref) "password") = Some (dci_Password d)) ∧
  (∀ idx ref, idx ∈ from_option ixs_Direct [] (GetIndexersSpec c) → dix_APIKeySecretRef idx = Some ref →
     value (sks_Name ref) (orDefault (sks_Key ref) "apiKey") = Some (ixi_APIKey (convertIndexer resolved idx))).
Proof.
  intros Hr Hf E. cbn zeta. destruct (resolveAll_run c w Hr Hf) as (x & E' & Hx). rewrite E in E'.
  injection E' as -> <-. destruct Hx as (_ & Hn & Hkey). split_and!.
  - intros ref Href. rewrite Href in Hkey. destruct Hkey as (v & -> & Hl). unfold secretOrEmpty. by rewrite Hl.
  - intros dc ref Hin Href. assert (∀ r, r ∈ credentialRefs (Some ref) → r ∈ refsOf c) as Hsub.
    { intros r Hrin. unfold refsOf. apply elem_of_app. left. apply list_elem_of_join.
      exists (credentialRefs (Some ref)). split; [done|]. apply list_elem_of_fmap. exists dc. by rewrite Href. }
    assert (dci_Username (convertDownloadClient resolved dc) = (resolveCredentials resolved (Some ref)).1 ∧
            dci_Password (convertDownloadClient resolved dc) = (resolveCredentials resolved (Some ref)).2) as [-> ->].
    { unfold convertDownloadClient. destruct (parseClientURL _) as [[? ?] ?]. by rewrite Href. }
    assert (∀ k, ((csr_Name ref +:+ "/") +:+ k)%string = entry (csr_Name ref) k) as Hassoc
      by (intros k; apply append_assoc).
    unfold resolveCredentials. cbn [fst snd]. rewrite !Hassoc.
    split; apply secretOrEmpty_answered, Hn, Hsub; [by left|by right; left].
  - intros idx ref Hin Href. unfold convertIndexer. simpl. rewrite Href.
    apply secretOrEmpty_answered, Hn. unfold refsOf. apply elem_of_app. right. apply elem_of_app. left.
    apply list_elem_of_join. exists (keyRefs "apiKey" (Some ref)). split; [by left|].
    apply list_elem_of_fmap. exists idx. by rewrite Href.
Qed.
(** What the compiled configuration [ir] of [c] has of the secrets in [w]: the API key of
    the connection; of every download client and every direct indexer, which the names
    of the configuration and of the entry identify, the credentials of its own reference,
    whether it is in [ir] or was left out as unsupported; and nothing is in [ir] that is
    not one of these. *)
Definition hasSecrets c w resolved caps ir : Prop :=
  let value := valueOf secretsOf (namespaceOf c) w in
  let client dc := compileDownloadClient (om_Name (meta_of c)) (convertDownloadClient resolved dc) in
  let indexer idx := compileIndexer (om_Name (meta_of c)) (convertIndexer resolved idx) in
  let direct := if from_option ixs_ProwlarrRef None (GetIndexersSpec c) is Some _ then []
                else from_option ixs_Direct [] (GetIndexersSpec c) in
  (∃ conn, ir_Connection ir = Some conn ∧ conn_URL conn = cns_URL (GetConnectionSpec c) ∧
     ∀ ref, cns_APIKeySecretRef (GetConnectionSpec c) = Some ref →
       value (sks_Name ref) (orDefault (sks_Key ref) "apiKey") = Some (conn_APIKey conn)) ∧
  (∀ d, d ∈ ir_DownloadClients ir ↔ ∃ dc, dc ∈ GetDownloadClients c ∧ d = client dc ∧
     from_option (λ caps, clientSupported caps d) true caps = true) ∧
  (∀ dc ref, dc ∈ GetDownloadClients c → dcs_CredentialsSecretRef dc = Some ref →
     value (csr_Name ref) (orDefault (csr_UsernameKey ref) "username") = Some (dc_Username (client dc)) ∧
     value (csr_Name ref) (orDefault (csr_PasswordKey ref) "password") = Some (dc_Password (client dc))) ∧
  (∀ i, i ∈ directIndexers ir ↔ ∃ idx, idx ∈ direct ∧ i = indexer idx ∧
     from_option (λ caps, indexerSupported caps i) true caps = true) ∧
  (∀ idx ref, idx ∈ direct → dix_APIKeySecretRef idx = Some ref →
     value (sks_Name ref) (orDefault (sks_Key ref) "apiKey") = Some (idx_APIKey (indexer idx))).

(** Every compilation of an object with its secrets resolved has them. *)
Definition secretsReach (compile : C → gmap string string → option Capabilities → IR) : Prop :=
  ∀ c w w' resolved caps, Forall (λ ref, slashFree (refName ref) = true) (refsOf c) →
  resolveAll c w = (w', Ret resolved) → hasSecrets c w resolved caps (compile c resolved caps).

Lemma Compile_entries `{Digest} now input :
  let ir := Compile now input in
  ir_Connection ir = Some (mkConnectionIR (ci_URL input) (ci_APIKey input) false) ∧
  (∀ d, d ∈ ir_DownloadClients ir ↔ d ∈ compileDownloadClients (ci_DownloadClients input) (ci_ConfigName input) ∧
     from_option (λ caps, clientSupported caps d) true (ci_Capabilities input) = true) ∧
  (∀ i, i ∈ directIndexers ir ↔ i ∈ from_option idxs_Direct [] (compileIndexers (ci_Indexers input) (ci_ConfigName input)) ∧
     from_option (λ caps, indexerSupported caps i) true (ci_Capabilities input) = true).
Proof.
  unfold Compile. set (full := compileUnpruned now input). cbn zeta.
  assert (ir_Connection full = Some (mkConnectionIR (ci_URL input) (ci_APIKey input) false) ∧
    ir_DownloadClients full = compileDownloadClients (ci_DownloadClients input) (ci_ConfigName input) ∧
    ir_Indexers full = compileIndexers (ci_Indexers input) (ci_ConfigName input)) as (Hc & <- & Hi)
    by (unfold full, compileUnpruned; by destruct (compileQuality _ _)).
  rewrite <-Hi. change (from_option idxs_Direct [] (ir_Indexers full)) with (directIndexers full).
  assert (∀ h u i, ir_Connection (ir_set_SourceHash h i) = ir_Connection i ∧
    ir_Connection (ir_set_Unrealized u i) = ir_Connection i) as Hset by (by intros ? ? []).
  destruct (ci_Capabilities input) as [caps|]; cbn [from_option].
  - pose proof (pruneUnsupported_spec full caps) as Hp. destruct (pruneUnsupported full caps) as [i' u].
    destruct Hp as (_ & HD & HI & _ & Hrest).
    destruct (ir_set_SourceHash_prunable (hashInput input) (ir_set_Unrealized u i')) as (_ & -> & -> & _).
    destruct (ir_set_Unrealized_prunable u i') as (_ & -> & -> & _).
    rewrite (proj1 (Hset _ u _)), (proj2 (Hset "" u _)), HD, HI. split_and!.
    + rewrite <-Hc, <-Hrest. by destruct i'.
    + intros d. rewrite list_elem_of_filter. tauto.
    + intros i. rewrite list_elem_of_filter. tauto.
  - destruct (ir_set_SourceHash_prunable (hashInput input) full) as (_ & -> & -> & _).
    rewrite (proj1 (Hset _ [] _)). split_and!; [done|tauto..].
Qed.

(** What the four compilations have in common. *)
Lemma secretsReach_of `{Digest} now compile : readsSecrets secretsOf →
  (∀ c resolved caps, ∃ input, compile c resolved caps = Compile now input ∧
     ci_ConfigName input = om_Name (meta_of c) ∧ ci_URL input = cns_URL (GetConnectionSpec c) ∧
     ci_APIKey input = secretOrEmpty resolved "apiKey" ∧
     ci_DownloadClients input = convertDownloadClients (GetDownloadClients c) resolved ∧
     ci_Indexers input = convertIndexers (GetIndexersSpec c) resolved ∧ ci_Capabilities input = caps) →
  secretsReach compile.
Proof.
  intros Hr Hcomp c w w' resolved caps Hf E.
  destruct (secrets_converted c w w' resolved Hr Hf E) as (Hkey & Hdc & Hidx).
  destruct (Hcomp c resolved caps) as (input & -> & En & Eu & Ek & Ed & Ei & Ec).
  destruct (Compile_entries now input) as (Hconn & Hclients & Hindexers). rewrite Eu, Ek in Hconn. rewrite Ed, En, Ec in Hclients.
  rewrite Ei, En, Ec in Hindexers. unfold hasSecrets. cbv zeta. split_and!.
  - by eexists.
  - intros d. rewrite Hclients. unfold compileDownloadClients, convertDownloadClients.
    rewrite <-list_fmap_compose, list_elem_of_fmap. naive_solver.
  - intros dc ref Hin Href. exact (Hdc dc ref Hin Href).
  - intros i. rewrite Hindexers. unfold convertIndexers, compileIndexers. destruct (GetIndexersSpec c) as [spec|]; simpl.
    + destruct (ixs_ProwlarrRef spec); simpl; [set_solver|].
      rewrite <-list_fmap_compose, list_elem_of_fmap. naive_solver.
    + set_solver.
  - intros idx ref Hin Href. apply Hidx; [|done].
    revert Hin. destruct (from_option ixs_ProwlarrRef None (GetIndexersSpec c)); [by intros ?%not_elem_of_nil|done].
Qed.
End theorems.

Section reach.
Context {W : Type} `{Kube W} `{Service W} `{UnicodeTables} `{Digest}.

(** C19: The compiled configuration uses the values of the secrets its specification
    names.  Of each of the four kinds of object, what the compiler makes of the object
    and its resolved secrets has a connection with the API key, and every download
    client and direct indexer in it is configured with the credentials of its own
    reference, whatever the references of the others. *)
Theorem secrets_reach_configuration (secretsOf : W → string → string → option (gmap string string)) o now :
  readsSecrets secretsOf →
  secretsReach secretsOf (CompileSonarrConfig o now) ∧ secretsReach secretsOf (CompileRadarrConfig o now) ∧
  secretsReach secretsOf (CompileLidarrConfig o now) ∧ secretsReach secretsOf (CompileReadarrConfig o now).
Proof.
  intros Hr. split_and!; apply (secretsReach_of secretsOf now _ Hr); intros c resolved caps; eexists; by split_and!.
Qed.
End reach.

(** ** Witnesses *)
Import ExampleCluster.

#[local] Instance asciiOnly : UnicodeTables := id.

(** A cluster with two secrets that do not change. *)
Definition exampleSecrets (ns n : string) : option (gmap string string) :=
  if String.eqb n "sonarr" then Some {[ "apiKey"%string := "0123"%string ]}
  else if String.eqb n "qbit" then Some {[ "username"%string := "admin"%string; "password"%string := "s3cret"%string ]}
  else None.

#[local] Instance secretsKube : Kube unit := {|
  kubeGetSecret ns n := λ w, (w, match exampleSecrets ns n with Some data => Ret data | None => Err "not found"%string end);
  kubeGetProwlarrConfig ns n := fail "not found"%string;
  kubeClock := λ _, 0;
  recorder := None;
  setStatusCondition := setCondition;
  containsFinalizer fs f := bool_decide (f ∈ fs);
  addFinalizer fs f := fs ++ [f];
  removeFinalizer fs f := filter (λ g, g ≠ f) fs |}.

Definition exampleClientSpec : DownloadClientSpec :=
  mkDownloadClientSpec "qbit" "http://qbit:8080" "qbittorrent"
    (Some (mkCredentialsSecretRef "qbit" "" "")) "tv" 1 None None None.

Definition exampleConfig : SonarrConfig :=
  let c := exampleObject [SonarrFinalizer] None false in
  mkSonarrConfig (meta_of c) (exampleSpec [exampleClientSpec] false) (sc_Status c).

Lemma exampleSecrets_read : readsSecrets (λ _ : unit, exampleSecrets).
Proof. intros ns n w. exists "not found"%string. reflexivity. Qed.

Definition exampleResolved : gmap string string :=
  match (resolveAll exampleConfig tt).2 with Ret resolved => resolved | _ => ∅ end.

Lemma resolveAll_exact_witness :
  resolveAll exampleConfig tt = (tt, Ret exampleResolved) ∧
  answered (λ _ : unit, exampleSecrets) "media" exampleResolved tt (OneKey "qbit" "password").
Proof.
  assert (resolveAll exampleConfig tt = (tt, Ret exampleResolved)) as E0
    by (vm_compute; reflexivity).
  split; [exact E0|].
  destruct (resolveAll_exact (λ _, exampleSecrets) exampleConfig tt exampleSecrets_read) as (x & E & Hx).
  - repeat constructor.
  - assert (Ret exampleResolved = x) as <- by exact (f_equal snd (eq_trans (eq_sym E0) E)).
    apply (proj1 (proj2 Hx)). right. left.
Defined.

#[local] Instance noDigest : Digest := λ _, ""%string.

(** Compiled for a service whose capabilities are not known. *)
Definition exampleCompiled : IR := CompileSonarrConfig keyOrder 0 exampleConfig exampleResolved None.

Lemma secrets_reach_configuration_witness :
  resolveAll exampleConfig tt = (tt, Ret exampleResolved) ∧
  hasSecrets (λ _, exampleSecrets) exampleConfig tt exampleResolved None exampleCompiled ∧
  dc_Password <$> ir_DownloadClients exampleCompiled = ["s3cret"%string].
Proof.
  assert (resolveAll exampleConfig tt = (tt, Ret exampleResolved)) as E
    by (vm_compute; reflexivity).
  assert (Forall (λ ref, slashFree (refName ref) = true) (refsOf exampleConfig)) as Hf by (repeat constructor).
  destruct (secrets_reach_configuration (λ _, exampleSecrets) keyOrder 0 exampleSecrets_read) as [H _].
  split; [exact E|]. split; [exact (H exampleConfig tt tt exampleResolved None Hf E)|].
  vm_compute. reflexivity.
Defined.
