(* ===== verification/SonarrReconcile.v ===== *)
(** * Theorems: the reconciler with the Sonarr adapter

    The composition of the generic reconciler and the adapter: a reconciliation
    brings the service to the desired state and says so in the status; a deletion
    removes what the operator created and never gets stuck. *)
From S2P Require Export SonarrSync Lifecycle.

(** Requests made on behalf of the operator itself go to the same services. *)
#[export] Instance Service_World {S} `{Service S} : Service (World S) := {|
  serve c rq w := let '(s, response) := serve c rq (w_service w) in
    (mkWorld s (w_managedProfileID w) (w_namingConfigID w), response);
  requestError := requestError (S:=S);
  decodeError := decodeError (S:=S) |}.

(** ** Reading operations leave the service alone *)

Section reads.
Context {S : Type} `{Service S} `{TimeFormat} (conn : ConnectionIR).
Context (P : relation S) `{!PreOrder P} (get_harmless : ∀ p, harmless P (newClient conn) "GET" p).
Abbreviation PW := (onServiceRel P).

Lemma steps_orZero {A B} (zero : B) (f : A → B) (m : M (World S) A) : steps PW m → steps PW (orZero zero f m).
Proof.
  intros Hm. apply steps_bind; [typeclasses eauto| |intros a; apply steps_ret; typeclasses eauto].
  by apply steps_attempt.
Qed.

Lemma steps_CurrentState now : steps PW (CurrentState now conn).
Proof.
  unfold CurrentState. apply steps_bind; [typeclasses eauto| |].
  { apply steps_attempt, steps_onService, steps_bind; [done|by apply steps_wrapErr, steps_Get|]. intros tags.
    case_match; [case_match; by apply steps_ret|by apply steps_fail]. }
  intros [tagID|e]; [|apply steps_ret; typeclasses eauto].
  repeat (apply steps_bind; [typeclasses eauto|apply steps_orZero|intros ?]).
  all: try (apply steps_ret; typeclasses eauto).
  all: first [by apply steps_getManagedQualityProfiles | by apply steps_getNamingConfig
    | by apply steps_getAuthenticationIR
    | by apply steps_getter, steps_FetchConfig | by apply steps_getter, steps_wrappedGet
    | by apply steps_getter, steps_GetService].
Qed.

Lemma steps_Discover now : steps PW (Discover now conn).
Proof.
  unfold Discover. do 2 (apply steps_bind; [typeclasses eauto|by apply steps_attempt, steps_GetService|intros ?]).
  apply steps_ret. typeclasses eauto.
Qed.

Lemma steps_Connect : steps PW (Connect conn).
Proof. by apply steps_getter, steps_wrappedGet. Qed.
End reads.

(** ** The adapter in the registry *)

Section registered.
Context {S : Type} `{Service S} `{TimeFormat}.
Context (o : nat → RangeOrder) (now : Z) (registry : gmap string (Adapter (World S))).
Hypothesis registered : Adapters.Get AppSonarr registry = Some (SonarrAdapter o now).

(** The changes of a diff can be applied from any world. *)
Lemma Apply_diff_noPanic mid nid current desired conn :
  noPanic (Apply (o 10%nat) conn (diffIR o mid nid current desired)) ∧
  ∀ w w', Apply (o 10%nat) conn (diffIR o mid nid current desired) w ≠ (w', Ret (None, None)).
Proof.
  pose proof (diffIR_typed o mid nid current desired) as Ht.
  pose proof (λ w : World S, Apply_typed_run (o 10%nat) conn _ w Ht) as Hr. split.
  - intros w. split; [done|]. destruct (Hr w) as [-> Hp]. exact Hp.
  - intros w w'. destruct (Hr w) as [-> Hp]. unfold applyRun. destruct (onService _ w) as [w1 [tagID|e|why]]; [|done..].
    by destruct (applyPhases _ _ _ _ w1).
Qed.

Lemma Cleanup_noPanic conn : noPanic (CleanupManagedResources registry AppSonarr conn).
Proof.
  unfold CleanupManagedResources. rewrite registered. cbn [SonarrAdapter a_CurrentState a_Discover a_Diff a_Apply].
  assert (∀ p, harmless anything (newClient conn) "GET" p) as Hg by done.
  pose proof (λ w, steps_CurrentState conn anything Hg now w) as Hcur.
  pose proof (λ w, steps_Discover conn anything Hg now w) as Hdis.
  intros w. split; [done|]. intros why. unfold bind at 1 2. unfold ret at 1.
  destruct (Hcur w) as [_ Hn]. destruct (CurrentState now conn w) as [w1 [cur|e|p]]; [|done|by destruct (Hn p)].
  destruct (attempt_returns (Discover now conn) w1) as (w2 & caps & E); [intros w2; split; [done|apply Hdis]|].
  unfold bind at 1. rewrite E. unfold Diff, bind at 1.
  set (changes := diffIR _ _ _ _ _). destruct (IsEmpty changes); [done|].
  destruct (Apply_diff_noPanic (w_managedProfileID w2) (w_namingConfigID w2) cur (emptyIRFor AppSonarr) conn)
    as [Hnp Hnn]. fold changes in Hnp, Hnn. specialize (Hnp w2). specialize (Hnn w2). unfold bind.
  destruct (Apply (o 10%nat) conn changes w2) as [w3 [[[r|] [e|]]|e|p]]; simpl in *; try done.
  - by destruct (Hnn w3).
  - by destruct (proj2 Hnp p).
Qed.
End registered.

(** ** The two halves of a sync, for clients and indexers *)

Section halves.
Context {S : Type} `{Service S} `{TimeFormat} (conn : ConnectionIR) (tagID : Z).
Context (base : plainBase (newClient conn)) (known : tagKnown (newClient conn) tagID) (o : RangeOrder).
Abbreviation c := (newClient conn).
Implicit Types (w : World S).

Definition directOf (i : IR) : list IndexerIR := from_option idxs_Direct [] (ir_Indexers i).

Section clients.
Context view `{!LawsAt c "/api/v3/" (clientCollection view) (otherThan "downloadclient")}.
Abbreviation m := (managedClients o c tagID view).

Lemma clients_read now w : ∃ w1 cur l, CurrentState now conn w = (w1, Ret cur) ∧
  view (w_service w1) = view (w_service w) ∧ listing (view (w_service w)) l ∧
  ir_DownloadClients cur = managedIR m l.
Proof.
  refine (part_is_listing conn (clientCollection view) m ir_DownloadClients (getManagedDownloadClients c tagID)
    _ _ now w); [apply (clients_listed conn tagID base o view)|].
  intros now' w'. destruct (CurrentState_reads c (sameCollection (clientCollection view))
    (reads_quiet conn (clientCollection view)) now' conn tagID w' eq_refl
    (getOwnershipTagID_known conn tagID base known w')) as (w1 & cur & E & HP & Hr & _). by exists w1, cur.
Qed.

Lemma clients_applied od mid nid cur l desired w :
  listing (view (w_service w)) l → ir_DownloadClients cur = managedIR m l →
  wellFormed m (view (w_service w)) → Forall portOk (ir_DownloadClients desired) →
  ∃ w' r, Apply o conn (diffIR od mid nid cur desired) w = (w', Ret (Some r, None)) ∧
    (∀ e, e ∈ ar_Errors r → ch_ResourceType (ae_Change e) ≠ ResourceDownloadClient) ∧
    wellFormed m (view (w_service w')) ∧
    unmanagedKept m (view (w_service w)) (view (w_service w')) ∧
    ∀ l', listing (view (w_service w')) l' → inSync downloadClientOps (managedIR m l') (ir_DownloadClients desired).
Proof.
  pose proof (managedClients_laws o c tagID base view (otherThan "downloadclient")) as HL.
  refine (part_applies conn tagID base known (clientCollection view) o m (λ _, eq_refl) (λ _, I) eq_refl eq_refl eq_refl
    ResourceDownloadClient ir_DownloadClients 1%nat _ od mid nid cur l desired w).
  intros od' mid' nid' cur' des. around 1%nat.
Qed.
End clients.

Section indexers.
Context view `{!LawsAt c "/api/v3/" (indexerCollection view) (otherThan "indexer")}.
Abbreviation m := (managedIndexers o c tagID view).

Lemma indexers_read now w : ∃ w1 cur l, CurrentState now conn w = (w1, Ret cur) ∧
  view (w_service w1) = view (w_service w) ∧ listing (view (w_service w)) l ∧ directOf cur = managedIR m l.
Proof.
  refine (part_is_listing conn (indexerCollection view) m directOf (getManagedIndexers c tagID) _ _ now w);
    [apply (indexers_listed conn tagID base o view)|].
  intros now' w'. destruct (CurrentState_reads c (sameCollection (indexerCollection view))
    (reads_quiet conn (indexerCollection view)) now' conn tagID w' eq_refl
    (getOwnershipTagID_known conn tagID base known w')) as (w1 & cur & E & HP & _ & Hr & _). by exists w1, cur.
Qed.

Lemma indexers_applied od mid nid cur l desired w :
  listing (view (w_service w)) l → directOf cur = managedIR m l → wellFormed m (view (w_service w)) →
  ∃ w' r, Apply o conn (diffIR od mid nid cur desired) w = (w', Ret (Some r, None)) ∧
    (∀ e, e ∈ ar_Errors r → ch_ResourceType (ae_Change e) ≠ ResourceIndexer) ∧
    wellFormed m (view (w_service w')) ∧
    unmanagedKept m (view (w_service w)) (view (w_service w')) ∧
    ∀ l', listing (view (w_service w')) l' → inSync indexerOps (managedIR m l') (directOf desired).
Proof.
  intros Hl Hp Hwf. pose proof (managedIndexers_laws o c tagID base view (otherThan "indexer")) as HL.
  refine (part_applies conn tagID base known (indexerCollection view) o m (λ _, eq_refl) (λ _, I) eq_refl eq_refl eq_refl
    ResourceIndexer directOf 2%nat _ od mid nid cur l desired w Hl Hp Hwf (Forall_true _ _ _)); [|done].
  intros od' mid' nid' cur' des. around 2%nat.
Qed.
End indexers.

(** A change set without changes is applied without effect. *)
Lemma Apply_empty changes w : IsEmpty changes = true →
  Apply o conn changes w = (w, Ret (Some emptyApplyResult, None)).
Proof.
  intros He. rewrite (Apply_known conn tagID base known). destruct changes as [[|] [|] [|]]; done.
Qed.

(** Nothing managed is left of a collection in sync with the empty state. *)
Lemma nothing_managed {R A} {ops : DiffOps A} (m : Managed R A (World S) ops) v i r :
  wellFormed m v → (∀ l, listing v l → inSync ops (managedIR m l) []) → v !! i = Some r → mg_managed m r = false.
Proof.
  intros Hwf Hs Hi. destruct (mg_managed m r) eqn:Hm; [|done]. exfalso.
  destruct (in_sync_view m v (map_to_list v).*2 [] Hwf) as [_ Habs]; [by unfold listing|apply Hs; by unfold listing|].
  apply (Habs (op_key ops (mg_toIR m r)) eq_refl i r). done.
Qed.
End halves.

(** ** Theorems *)

Section theorems.
Context {S C : Type} `{Service S} `{TimeFormat} `{!Kube (World S)}
  `{!KubeObject (World S) C} `{ArrConfigObject C}.
Context (o : nat → RangeOrder) (now : Z) (registry : gmap string (Adapter (World S))).
Context (compileConfig : C → gmap string string → option Capabilities → M (World S) IR).
Hypothesis registered : Adapters.Get AppSonarr registry = Some (SonarrAdapter o now).

(** C2: A deletion is never blocked.  Whatever fails (Prowlarr is gone, the secret is
    missing, Sonarr is unreachable or refuses every deletion), the reconciliation of
    an object that is being deleted ends with the write of the object without its
    finalizer and with its other finalizers kept, and does not ask to be retried
    unless that write fails. *)
Theorem deletion_never_blocked `{!KubeLaws (World S)} (r : Rec (World S) C) :
  (∀ ns n, noPanic (kubeGetSecret (W:=World S) ns n)) →
  (∀ ns n, noPanic (kubeGetProwlarrConfig (W:=World S) ns n)) →
  GetAppType (rec_config r) = AppSonarr → phaseOf (rec_config r) = Deleting →
  let c := rec_config r in
  let released := withFinalizers (removeFinalizer (om_Finalizers (meta_of c)) (GetFinalizerName c)) c in
  (∃ w, Reconcile registry compileConfig r = storing released false w) ∧
  ∀ f, f ∈ om_Finalizers (meta_of released) ↔ f ∈ om_Finalizers (meta_of c) ∧ f ≠ GetFinalizerName c.
Proof.
  intros Hs Hp Happ Hphase. cbn zeta. split; [|intros f; unfold withFinalizers; rewrite meta_with; apply removeFinalizer_spec].
  destruct (Reconcile_by_phase registry compileConfig r) as [-> _]. rewrite Hphase.
  apply reconcileDelete_runs; [done..|]. intros conn. rewrite Happ. by apply (Cleanup_noPanic o now).
Qed.

Section reachable.
Context (conn : ConnectionIR) (tagID : Z).
Context (base : plainBase (newClient conn)) (known : tagKnown (newClient conn) tagID).
Abbreviation c := (newClient conn).
Context cview `{!LawsAt c "/api/v3/" (clientCollection cview) (otherThan "downloadclient")}.
Context iview `{!LawsAt c "/api/v3/" (indexerCollection iview) (otherThan "indexer")}.
Abbreviation clients := (managedClients (o 10%nat) c tagID cview).
Abbreviation indexers := (managedIndexers (o 10%nat) c tagID iview).

Lemma Discover_returns w : ∃ w' caps, Discover now conn w = (w', Ret caps).
Proof.
  unfold Discover. destruct (steps_GetService c anything (λ _ _ _, I) (list DownloadClientResource)
    "/api/v3/downloadclient/schema" w) as [_ Hn1].
  unfold bind at 1, attempt at 1. destruct (onService _ w) as [w1 [a|e|why]]; [..|by destruct (Hn1 why)];
    (destruct (steps_GetService c anything (λ _ _ _, I) (list IndexerResource) "/api/v3/indexer/schema" w1) as [_ Hn2];
     unfold bind, attempt; destruct (onService _ w1) as [w2 [b|e'|why']]; [..|by destruct (Hn2 why')]; by eexists _, _).
Qed.

(** C18: The clean-up before a deletion removes every download client and indexer that
    carries the ownership tag, and no other. *)
Theorem cleanup_removes_managed (w : World S) :
  wellFormed clients (cview (w_service w)) → wellFormed indexers (iview (w_service w)) →
  ∃ w', CleanupManagedResources registry AppSonarr conn w = (w', Ret tt) ∧
    (∀ i client, cview (w_service w') !! i = Some client ↔
       cview (w_service w) !! i = Some client ∧ HasTag (dcr_Tags client) tagID = false) ∧
    (∀ i indexer, iview (w_service w') !! i = Some indexer ↔
       iview (w_service w) !! i = Some indexer ∧ HasTag (ixr_Tags indexer) tagID = false).
Proof.
  intros Hcwf Hiwf. unfold CleanupManagedResources. rewrite registered.
  cbn [SonarrAdapter a_CurrentState a_Discover a_Diff a_Apply].
  destruct (clients_read conn tagID base known (o 10%nat) cview now w) as (w1 & cur & lc & E1 & Hv1 & Hlc & Hc1).
  destruct (indexers_read conn tagID base known (o 10%nat) iview now w) as (w1' & cur' & li & E1' & Hv1' & Hli & Hi1).
  rewrite E1 in E1'. injection E1' as <- <-.
  rewrite (bind_ok _ _ _ w1 (Some cur)) by exact (bind_ok _ _ _ _ _ E1).
  destruct (steps_Discover conn _ (reads_quiet conn (clientCollection cview)) now w1) as [Hv2 _].
  destruct (steps_Discover conn _ (reads_quiet conn (indexerCollection iview)) now w1) as [Hv2' _].
  destruct (attempt_returns (Discover now conn) w1) as (w2 & caps & E2).
  { intros w'. split; [done|]. apply (steps_Discover conn _ (reads_quiet conn (clientCollection cview)) now w'). }
  assert (w2 = (Discover now conn w1).1) as Hw2.
  { unfold attempt in E2. by destruct (Discover now conn w1) as [w' [?|?|?]]; simplify_eq. }
  rewrite <-Hw2 in Hv2, Hv2'. clear Hw2. rewrite (bind_ok _ _ _ _ _ E2).
  unfold bind at 1, Diff. set (mid := w_managedProfileID w2). set (nid := w_namingConfigID w2).
  assert (cview (w_service w2) = cview (w_service w)) as Kc by (by rewrite <-Hv1).
  assert (iview (w_service w2) = iview (w_service w)) as Ki by (by rewrite <-Hv1').
  rewrite <-Kc in Hlc, Hcwf |- *. rewrite <-Ki in Hli, Hiwf |- *.
  destruct (clients_applied conn tagID base known (o 10%nat) cview o mid nid cur lc (emptyIRFor AppSonarr) w2)
    as (w3 & res & EA & _ & Hcwf3 & Hck & Hcs); [done..|by apply Forall_nil|].
  destruct (indexers_applied conn tagID base known (o 10%nat) iview o mid nid cur li (emptyIRFor AppSonarr) w2)
    as (w3' & res' & EA' & _ & Hiwf3 & Hik & His); [done..|].
  rewrite EA in EA'. injection EA' as <- <-.
  exists w3. split_and!.
  - destruct (IsEmpty _) eqn:He.
    + rewrite (Apply_empty conn tagID base known _ _ _ He) in EA. by injection EA as -> _.
    + by rewrite (bind_ok _ _ _ _ _ EA).
  - intros i client. split.
    + intros Hi. pose proof (nothing_managed clients _ i client Hcwf3 Hcs Hi) as Hm. split; [|exact Hm].
      by apply (Hck i client Hm).
    + intros [Hi Hm]. by apply (Hck i client Hm).
  - intros i indexer. split.
    + intros Hi. pose proof (nothing_managed indexers _ i indexer Hiwf3 His Hi) as Hm. split; [|exact Hm].
      by apply (Hik i indexer Hm).
    + intros [Hi Hm]. by apply (Hik i indexer Hm).
Qed.

(** The steps of [ReconcileConfig] before it applies: the connection, the
    discovery and the read of the state, as far as the two collections see them. *)
Lemma reconcile_reads w wc info :
  Connect conn w = (wc, Ret info) →
  ∃ wd caps ws cur lc li, Discover now conn wc = (wd, Ret caps) ∧ CurrentState now conn wd = (ws, Ret cur) ∧
    cview (w_service ws) = cview (w_service w) ∧ iview (w_service ws) = iview (w_service w) ∧
    listing (cview (w_service ws)) lc ∧ ir_DownloadClients cur = managedIR clients lc ∧
    listing (iview (w_service ws)) li ∧ directOf cur = managedIR indexers li.
Proof.
  intros Ec. pose proof (reads_quiet conn (clientCollection cview)) as Gc.
  pose proof (reads_quiet conn (indexerCollection iview)) as Gi.
  destruct (steps_Connect conn _ Gc w) as [Hc1 _], (steps_Connect conn _ Gi w) as [Hi1 _]. rewrite Ec in Hc1, Hi1.
  destruct (steps_Discover conn _ Gc now wc) as [Hc2 _], (steps_Discover conn _ Gi now wc) as [Hi2 _].
  destruct (Discover_returns wc) as (wd & caps & Ed). rewrite Ed in Hc2, Hi2.
  destruct (clients_read conn tagID base known (o 10%nat) cview now wd) as (ws & cur & lc & Es & Hc3 & Hlc & Hpc).
  destruct (indexers_read conn tagID base known (o 10%nat) iview now wd) as (ws' & cur' & li & Es' & Hi3 & Hli & Hpi).
  rewrite Es in Es'. injection Es' as <- <-. rewrite <-Hc3 in Hlc. rewrite <-Hi3 in Hli.
  exists wd, caps, ws, cur, lc, li. split_and!; try done.
  - rewrite Hc3. unfold onServiceRel, sameCollection in *. simpl in *. congruence.
  - rewrite Hi3. unfold onServiceRel, sameCollection in *. simpl in *. congruence.
Qed.

(** What [ReconcileConfig] does to the world, when the changes can be applied. *)
Lemma Sonarr_applies `{!KubeLaws (World S)} desired g (r : Rec (World S) C) wc info wd caps ws cur w' res :
  Connect conn (rec_world r) = (wc, Ret info) → Discover now conn wc = (wd, Ret caps) →
  CurrentState now conn wd = (ws, Ret cur) →
  Apply (o 10%nat) conn (diffIR o (w_managedProfileID ws) (w_namingConfigID ws) cur desired) ws =
    (w', Ret (Some res, None)) →
  ∃ r', ReconcileConfig registry AppSonarr conn desired g r = (r', Ret (Some res, None)) ∧ rec_world r' = w'.
Proof.
  intros Ec Ed Es Ea. eapply ReconcileConfig_applies; [exact registered|exact Ec|exact Ed|exact (bind_ok _ _ _ _ _ Es)
    |reflexivity|exact Ea|]. intros He.
  rewrite (Apply_empty conn tagID base known _ _ _ He) in Ea. by injection Ea as <- <-.
Qed.

(** C1: A reconciliation brings Sonarr to the desired state and says so.  When Sonarr
    answers and its collections behave as documented, [ReconcileConfig] returns
    without an error; the status is Ready with the hash of the desired state; no
    change of a download client or an indexer failed; the next diff has nothing to
    change in either; and what does not carry the ownership tag is untouched. *)
Theorem reconcile_converges `{!KubeLaws (World S)} desired g (r : Rec (World S) C) wc info :
  Connect conn (rec_world r) = (wc, Ret info) →
  let before := w_service (rec_world r) in
  wellFormed clients (cview before) → wellFormed indexers (iview before) →
  Forall portOk (ir_DownloadClients desired) →
  ∃ r' res w current, ReconcileConfig registry AppSonarr conn desired g r = (r', Ret (Some res, None)) ∧
    conditionStatus (statusOf r') ConditionTypeReady = Some ConditionTrue ∧
    st_LastAppliedHash (statusOf r') = ir_SourceHash desired ∧
    (∀ e, e ∈ ar_Errors res → ch_ResourceType (ae_Change e) ∉ [ResourceDownloadClient; ResourceIndexer]) ∧
    CurrentState now conn (rec_world r') = (w, Ret current) ∧
    (∀ o', IsEmpty (DiffDownloadClientsWithIR o' (ir_DownloadClients current)
                      (ir_DownloadClients desired) emptyChangeSet) = true ∧
           IsEmpty (DiffIndexersWithIR o' (directOf current) (directOf desired) emptyChangeSet) = true) ∧
    unmanagedKept clients (cview before) (cview (w_service (rec_world r'))) ∧
    unmanagedKept indexers (iview before) (iview (w_service (rec_world r'))).
Proof.
  cbn zeta. intros Ec Hcwf Hiwf Hok.
  destruct (reconcile_reads _ _ _ Ec) as (wd & caps & ws & cur & lc & li & Ed & Es & Kc & Ki & Hlc & Hpc & Hli & Hpi).
  rewrite <-Kc in Hcwf |- *. rewrite <-Ki in Hiwf |- *.
  set (mid := w_managedProfileID ws). set (nid := w_namingConfigID ws).
  destruct (clients_applied conn tagID base known (o 10%nat) cview o mid nid cur lc desired ws)
    as (w' & res & EA & Hce & Hcwf' & Hck & Hcs); [done..|].
  destruct (indexers_applied conn tagID base known (o 10%nat) iview o mid nid cur li desired ws)
    as (w'' & res' & EA' & Hie & Hiwf' & Hik & His); [done..|].
  rewrite EA in EA'. injection EA' as <- <-.
  destruct (Sonarr_applies desired g r wc info wd caps ws cur w' res Ec Ed Es EA) as (r' & ER & <-).
  destruct (ReconcileConfig_tells _ _ _ _ _ _ _ _ ER) as (Hh & Hr & _).
  destruct (clients_read conn tagID base known (o 10%nat) cview now (rec_world r')) as (w3 & cur3 & l3 & E3 & _ & Hl3 & Hp3).
  destruct (indexers_read conn tagID base known (o 10%nat) iview now (rec_world r')) as (w3' & cur3' & l3' & E3' & _ & Hl3' & Hp3').
  rewrite E3 in E3'. injection E3' as <- <-.
  exists r', res, w3, cur3. split_and!; [done..| |done| |done|done].
  - intros e He Hin. set_unfold in Hin. destruct Hin as [Hin|[Hin|[]]]; [by apply (Hce e)|by apply (Hie e)].
  - intros o'. split; apply diffNamed_empty_iff; (split; [done|]); [rewrite Hp3; by apply Hcs|rewrite Hp3'; by apply His].
Qed.
End reachable.
End theorems.
