(* ===== verification/SonarrServer.v ===== *)
(** * A service with two collections, for the witnesses

    Sonarr's download clients and indexers behind one address ([PairService]). *)
From S2P Require Export SonarrReconcile Pair.
Import ExampleCluster.

(** ** Download clients and indexers behind one address *)

#[local] Instance noTimes : TimeFormat := λ _, None.

Definition indexerURL (c : Client) (url : string) : bool := HasPrefix url (c_BaseURL c +:+ "/api/v3/indexer").

Definition exampleSonarr : Service (gmap Z any * gmap Z any) :=
  PairService (MiniServer.MiniService (R := DownloadClientResource) "/api/v3/" "downloadclient" 7)
    (MiniServer.MiniService (R := IndexerResource) "/api/v3/" "indexer" 7) (statusFront "/api/v3/system/status") indexerURL.

Abbreviation exampleClients := (λ s : gmap Z any * gmap Z any, MiniServer.view (R := DownloadClientResource) s.1).
Abbreviation exampleIndexers := (λ s : gmap Z any * gmap Z any, MiniServer.view (R := IndexerResource) s.2).

Lemma exampleSonarr_clients c :
  @LawsAt _ exampleSonarr c "/api/v3/" _ _ (clientCollection exampleClients) (otherThan "downloadclient").
Proof.
  apply (pair_left_laws _ _ _ _ _ _ _ _ (SonarrMini.client_laws c 7)).
  - intros method body. split; [by apply statusFront_none|]. unfold indexerURL. by rewrite HasPrefix_app.
  - intros i method body. split; [by apply statusFront_none|]. unfold indexerURL. by rewrite HasPrefix_app.
Qed.

Lemma exampleSonarr_indexers c :
  @LawsAt _ exampleSonarr c "/api/v3/" _ _ (indexerCollection exampleIndexers) (otherThan "indexer").
Proof.
  apply (pair_right_laws _ _ _ _ _ _ _ _ (SonarrMini.indexer_laws c 7)).
  - intros method body. split; [by apply statusFront_none|]. unfold indexerURL. by rewrite HasPrefix_app.
  - intros i method body. split; [by apply statusFront_none|]. unfold indexerURL. by rewrite HasPrefix_app.
Qed.

Lemma exampleSonarr_tag c : @tagKnownAt _ exampleSonarr c "v3" 7.
Proof.
  intros s. destruct (SonarrMini.sonarr_known_tag (R := DownloadClientResource) "downloadclient" 7 c s.1)
    as (text & doc & tags & i & label & E & H). exists text, doc, tags, i, label. split; [|done].
  unfold exampleSonarr. rewrite serve_left, E.
  - by destruct s.
  - intros method body. split; [by apply statusFront_none|]. unfold indexerURL. by rewrite HasPrefix_app.
Qed.

(** The user's client, and a client and an indexer of the operator. *)
Definition exampleState : gmap Z any * gmap Z any :=
  (exampleService, {[ 4 := toJSON (ixr_set_ID 4 (indexerFromIR (exampleIndexerIR "nebularr-tv-old") 7)) ]}).

Definition exampleRegistry {S} `{Service S} : gmap string (Adapter (World S)) :=
  {[ AppSonarr := SonarrAdapter (λ _, keyOrder) 0 ]}.

Lemma exampleClients_wellFormed :
  wellFormed (@managedClients _ exampleSonarr keyOrder (newClient exampleConn) 7 exampleClients)
    (exampleClients exampleState).
Proof. apply wellFormed_distinct; evaluates. Qed.

Lemma exampleIndexers_wellFormed :
  wellFormed (@managedIndexers _ exampleSonarr keyOrder (newClient exampleConn) 7 exampleIndexers)
    (exampleIndexers exampleState).
Proof. apply wellFormed_distinct; evaluates. Qed.

(** ** Witnesses *)

Lemma cleanup_removes_managed_witness :
  ∃ w', @CleanupManagedResources _ (@exampleRegistry _ exampleSonarr) AppSonarr exampleConn (initialWorld exampleState) =
      (w', Ret tt) ∧
    exampleClients (w_service w') !! 1 = Some userClient ∧ exampleClients (w_service w') !! 2 = None ∧
    exampleIndexers (w_service w') !! 4 = None.
Proof.
  destruct (@cleanup_removes_managed _ exampleSonarr _ (λ _, keyOrder) 0 (@exampleRegistry _ exampleSonarr)
    eq_refl exampleConn 7 exampleConn_plain (exampleSonarr_tag _)
    exampleClients (exampleSonarr_clients _) exampleIndexers (exampleSonarr_indexers _)
    (initialWorld exampleState) exampleClients_wellFormed exampleIndexers_wellFormed) as (w' & E & Hc & Hi).
  exists w'. split; [exact E|]. split; [|split].
  - apply Hc. split; [vm_compute; reflexivity|reflexivity].
  - apply eq_None_not_Some. intros [x Ex].
    apply Hc in Ex as [Ex Ht]. exfalso. revert Ex. vm_compute. intros [= <-]. vm_compute in Ht. discriminate Ht.
  - apply eq_None_not_Some. intros [x Ex].
    apply Hi in Ex as [Ex Ht]. exfalso. revert Ex. vm_compute. intros [= <-]. vm_compute in Ht. discriminate Ht.
Defined.

Lemma reconcile_converges_witness :
  let kube := @kubeOn (World (gmap Z any * gmap Z any)) (λ _, ∅) in
  let desired := exampleDesired [exampleClientIR "nebularr-tv-qbit" 8080] [exampleIndexerIR "nebularr-tv-tracker"] [] in
  let r := mkRec (initialWorld exampleState) (exampleObject [SonarrFinalizer] None false) in
  ∃ r' res, @ReconcileConfig _ _ kube _ (@exampleRegistry _ exampleSonarr) AppSonarr exampleConn desired 3 r =
      (r', Ret (Some res, None)) ∧
    conditionStatus (statusOf r') ConditionTypeReady = Some ConditionTrue ∧
    exampleClients (w_service (rec_world r')) !! 1 = Some userClient.
Proof.
  intros kube desired r.
  assert (Forall portOk (ir_DownloadClients desired)) as Hok by (repeat constructor; simpl; lia).
  destruct (@reconcile_converges _ _ exampleSonarr _ kube _ (λ _, keyOrder) 0 (@exampleRegistry _ exampleSonarr)
    eq_refl exampleConn 7 exampleConn_plain (exampleSonarr_tag _)
    exampleClients (exampleSonarr_clients _) exampleIndexers (exampleSonarr_indexers _)
    (kubeOn_laws _) desired 3 r (initialWorld exampleState) (mkServiceInfo "4.0.9" 0) eq_refl
    exampleClients_wellFormed exampleIndexers_wellFormed Hok)
    as (r' & res & w & cur & E & Hr & _ & _ & _ & _ & Hk & _).
  exists r', res. split; [exact E|]. split; [exact Hr|].
  apply (Hk 1 userClient eq_refl). vm_compute. reflexivity.
Defined.

(** Sonarr refuses the connection and the secret is gone: the finalizer is removed. *)
Lemma deletion_never_blocked_witness :
  let kube := @kubeOn (World Cluster) w_service in
  let r := mkRec (initialWorld (∅ : Cluster)) (exampleObject ["other"; SonarrFinalizer] (Some 5) false) in
  ∃ w, @Reconcile _ _ kube kubeStores _ _ _ _ exampleRegistry (λ _ _ _, fail "unused") r =
    (mkRec w (exampleObject ["other"] (Some 5) false), Ret (mkResult false 0, None)).
Proof.
  intros kube r.
  destruct (@deletion_never_blocked _ _ ExampleHTTP _ kube kubeStores _ _ _ (λ _, keyOrder) 0 exampleRegistry (λ _ _ _, fail "unused")
    eq_refl (kubeOn_laws _) r) as [[w E] _].
  - intros ns n w. split; [exact I|]. intros why. simpl. destruct (w_service w !! (ns, n)); discriminate.
  - intros ns n w. split; [exact I|]. intros why. discriminate.
  - reflexivity.
  - reflexivity.
  - exists w. exact E.
Defined.
