(* ===== verification/DownloadStackApi.v ===== *)
(** * The custom resource DownloadStackConfig (src/api/v1alpha1/downloadstackconfig_types.go)

    A VPN container (Gluetun) and the settings of the download clients that run
    behind it; one record per Go struct, in an order that declares a struct before
    its use. *)
From S2P Require Export Api.

(** ** Gluetun *)

Record GluetunProviderSpec := mkGluetunProviderSpec {
  glp_Name : string;
  glp_CredentialsSecretRef : option CredentialsSecretRef;
  glp_PrivateKeySecretRef : option SecretKeySelector }.

Record GluetunServerSpec := mkGluetunServerSpec {
  gls_Regions : list string;
  gls_Countries : list string;
  gls_Cities : list string;
  gls_Hostnames : list string }.

Record GluetunFirewallSpec := mkGluetunFirewallSpec {
  glf_VPNInputPorts : list Z;
  glf_InputPorts : list Z;
  glf_OutboundSubnets : list string;
  glf_Debug : bool }.

Record GluetunKillSwitchSpec := mkGluetunKillSwitchSpec {
  glk_Enabled : bool }.

Record GluetunDNSSpec := mkGluetunDNSSpec {
  gld_OverTLS : bool;
  gld_PlaintextAddress : string;
  gld_KeepNameserver : bool }.

Record GluetunIPv6Spec := mkGluetunIPv6Spec {
  gl6_Enabled : bool }.

Record GluetunLoggingSpec := mkGluetunLoggingSpec {
  gll_Level : string }.

Record GluetunSpec := mkGluetunSpec {
  gl_Provider : GluetunProviderSpec;
  gl_VPNType : string;
  gl_Server : option GluetunServerSpec;
  gl_Firewall : option GluetunFirewallSpec;
  gl_KillSwitch : option GluetunKillSwitchSpec;
  gl_DNS : option GluetunDNSSpec;
  gl_IPv6 : option GluetunIPv6Spec;
  gl_Logging : option GluetunLoggingSpec }.

(** ** Transmission *)

Record TransmissionConnectionSpec := mkTransmissionConnectionSpec {
  tmc_URL : string;
  tmc_CredentialsSecretRef : option CredentialsSecretRef }.

Record TransmissionSpeedSpec := mkTransmissionSpeedSpec {
  tms_DownloadLimit : Z;
  tms_DownloadLimitEnabled : bool;
  tms_UploadLimit : Z;
  tms_UploadLimitEnabled : bool }.

Record TransmissionAltSpeedSpec := mkTransmissionAltSpeedSpec {
  tma_Enabled : bool;
  tma_Down : Z;
  tma_Up : Z;
  tma_TimeEnabled : bool;
  tma_TimeBegin : Z;
  tma_TimeEnd : Z;
  tma_TimeDays : list Z }.

Record TransmissionDirectoriesSpec := mkTransmissionDirectoriesSpec {
  tmd_Download : string;
  tmd_Incomplete : string;
  tmd_IncompleteEnabled : bool }.

Record TransmissionSeedingSpec := mkTransmissionSeedingSpec {
  tmr_RatioLimit : string;
  tmr_RatioLimited : bool;
  tmr_IdleLimit : Z;
  tmr_IdleLimitEnabled : bool }.

Record TransmissionQueueSpec := mkTransmissionQueueSpec {
  tmq_DownloadSize : Z;
  tmq_DownloadEnabled : bool;
  tmq_SeedSize : Z;
  tmq_SeedEnabled : bool;
  tmq_StalledEnabled : bool;
  tmq_StalledMinutes : Z }.

Record TransmissionPeersSpec := mkTransmissionPeersSpec {
  tmp_LimitGlobal : Z;
  tmp_LimitPerTorrent : Z;
  tmp_Port : Z;
  tmp_RandomPort : bool;
  tmp_PortForwardingEnabled : bool }.

Record TransmissionSecuritySpec := mkTransmissionSecuritySpec {
  tmx_Encryption : string;
  tmx_PEXEnabled : option bool;
  tmx_DHTEnabled : option bool;
  tmx_LPDEnabled : option bool;
  tmx_UTPEnabled : option bool }.

Record TransmissionBlocklistSpec := mkTransmissionBlocklistSpec {
  tmb_Enabled : bool;
  tmb_URL : string }.

Record TransmissionSpec := mkTransmissionSpec {
  tm_Connection : TransmissionConnectionSpec;
  tm_Speed : option TransmissionSpeedSpec;
  tm_AltSpeed : option TransmissionAltSpeedSpec;
  tm_Directories : option TransmissionDirectoriesSpec;
  tm_Seeding : option TransmissionSeedingSpec;
  tm_Queue : option TransmissionQueueSpec;
  tm_Peers : option TransmissionPeersSpec;
  tm_Security : option TransmissionSecuritySpec;
  tm_Blocklist : option TransmissionBlocklistSpec }.

(** ** qBittorrent *)

Record QBittorrentConnectionSpec := mkQBittorrentConnectionSpec {
  qbc_URL : string;
  qbc_CredentialsSecretRef : option CredentialsSecretRef }.

Record QBittorrentSpeedSpec := mkQBittorrentSpeedSpec {
  qbs_DownloadLimit : Z;
  qbs_UploadLimit : Z;
  qbs_GlobalDownloadSpeedLimit : Z;
  qbs_GlobalUploadSpeedLimit : Z }.

Record QBittorrentAltSpeedSpec := mkQBittorrentAltSpeedSpec {
  qba_Enabled : bool;
  qba_DownloadLimit : Z;
  qba_UploadLimit : Z;
  qba_SchedulerEnabled : bool;
  qba_SchedulerDays : Z;
  qba_ScheduleFromHour : Z;
  qba_ScheduleFromMinute : Z;
  qba_ScheduleToHour : Z;
  qba_ScheduleToMinute : Z }.

Record QBittorrentDirectoriesSpec := mkQBittorrentDirectoriesSpec {
  qbd_SavePath : string;
  qbd_TempPath : string;
  qbd_TempPathEnabled : bool;
  qbd_CreateSubfolder : option bool;
  qbd_AppendExtension : option bool }.

Record QBittorrentSeedingSpec := mkQBittorrentSeedingSpec {
  qbr_MaxRatio : string;
  qbr_MaxRatioEnabled : bool;
  qbr_MaxSeedingTime : Z;
  qbr_MaxSeedingTimeEnabled : bool;
  qbr_MaxRatioAction : option Z }.

Record QBittorrentQueueSpec := mkQBittorrentQueueSpec {
  qbq_QueueingEnabled : option bool;
  qbq_MaxActiveDownloads : Z;
  qbq_MaxActiveUploads : Z;
  qbq_MaxActiveTorrents : Z }.

Record QBittorrentConnectionsSpec := mkQBittorrentConnectionsSpec {
  qbn_MaxConnections : Z;
  qbn_MaxConnectionsPerTorrent : Z;
  qbn_MaxUploads : Z;
  qbn_MaxUploadsPerTorrent : Z;
  qbn_ListenPort : Z;
  qbn_RandomPort : bool;
  qbn_UPnPEnabled : option bool }.

Record QBittorrentBitTorrentSpec := mkQBittorrentBitTorrentSpec {
  qbt_DHT : option bool;
  qbt_PeX : option bool;
  qbt_LSD : option bool;
  qbt_Encryption : option Z;
  qbt_AnonymousMode : bool }.

Record QBittorrentSpec := mkQBittorrentSpec {
  qb_Connection : QBittorrentConnectionSpec;
  qb_Speed : option QBittorrentSpeedSpec;
  qb_AltSpeed : option QBittorrentAltSpeedSpec;
  qb_Directories : option QBittorrentDirectoriesSpec;
  qb_Seeding : option QBittorrentSeedingSpec;
  qb_Queue : option QBittorrentQueueSpec;
  qb_Connections : option QBittorrentConnectionsSpec;
  qb_BitTorrent : option QBittorrentBitTorrentSpec }.

(** ** Deluge *)

Record DelugeConnectionSpec := mkDelugeConnectionSpec {
  dlc_URL : string;
  dlc_PasswordSecretRef : option SecretKeySelector }.

Record DelugeSpeedSpec := mkDelugeSpeedSpec {
  dls_MaxDownloadSpeed : Z;
  dls_MaxUploadSpeed : Z;
  dls_MaxDownloadSpeedPerTorrent : Z;
  dls_MaxUploadSpeedPerTorrent : Z }.

Record DelugeDirectoriesSpec := mkDelugeDirectoriesSpec {
  dld_DownloadLocation : string;
  dld_MoveCompleted : bool;
  dld_MoveCompletedPath : string;
  dld_CopyTorrentFile : bool;
  dld_TorrentFilesLocation : string }.

Record DelugeSeedingSpec := mkDelugeSeedingSpec {
  dlr_StopSeedAtRatio : bool;
  dlr_StopSeedRatio : string;
  dlr_RemoveAtRatio : bool;
  dlr_ShareRatioLimit : string;
  dlr_SeedTimeLimit : Z }.

Record DelugeQueueSpec := mkDelugeQueueSpec {
  dlq_MaxActiveDownloading : Z;
  dlq_MaxActiveSeeding : Z;
  dlq_MaxActiveLimit : Z;
  dlq_QueueNewToTop : bool }.

Record DelugeConnectionsSpec := mkDelugeConnectionsSpec {
  dln_MaxConnections : Z;
  dln_MaxConnectionsPerTorrent : Z;
  dln_MaxUploadSlots : Z;
  dln_MaxUploadSlotsPerTorrent : Z;
  dln_ListenPorts : list Z;
  dln_RandomPort : bool }.

Record DelugeProtocolSpec := mkDelugeProtocolSpec {
  dlp_DHT : option bool;
  dlp_UPnP : option bool;
  dlp_NATPMP : option bool;
  dlp_LSD : option bool;
  dlp_ProtocolEncryption : option bool;
  dlp_EncryptionLevel : option Z }.

Record DelugeSpec := mkDelugeSpec {
  dl_Connection : DelugeConnectionSpec;
  dl_Speed : option DelugeSpeedSpec;
  dl_Directories : option DelugeDirectoriesSpec;
  dl_Seeding : option DelugeSeedingSpec;
  dl_Queue : option DelugeQueueSpec;
  dl_Connections : option DelugeConnectionsSpec;
  dl_Protocol : option DelugeProtocolSpec }.

(** ** rTorrent *)

Record RTorrentConnectionSpec := mkRTorrentConnectionSpec {
  rtc_URL : string;
  rtc_CredentialsSecretRef : option CredentialsSecretRef }.

Record RTorrentSpeedSpec := mkRTorrentSpeedSpec {
  rts_DownloadRate : Z;
  rts_UploadRate : Z }.

Record RTorrentDirectoriesSpec := mkRTorrentDirectoriesSpec {
  rtd_Directory : string;
  rtd_SessionDirectory : string }.

Record RTorrentSeedingSpec := mkRTorrentSeedingSpec {
  rtr_MinSeedRatio : string;
  rtr_MaxSeedRatio : string;
  rtr_MinSeedTime : Z;
  rtr_MaxSeedTime : Z }.

Record RTorrentConnectionsSpec := mkRTorrentConnectionsSpec {
  rtn_MaxPeers : Z;
  rtn_MaxPeersPerTorrent : Z;
  rtn_MaxUploads : Z;
  rtn_MaxUploadsPerTorrent : Z;
  rtn_Port : Z;
  rtn_PortRange : string;
  rtn_PortRandomize : bool }.

Record RTorrentProtocolSpec := mkRTorrentProtocolSpec {
  rtp_DHT : option bool;
  rtp_PEX : option bool;
  rtp_Encryption : string }.

Record RTorrentSpec := mkRTorrentSpec {
  rt_Connection : RTorrentConnectionSpec;
  rt_Speed : option RTorrentSpeedSpec;
  rt_Directories : option RTorrentDirectoriesSpec;
  rt_Seeding : option RTorrentSeedingSpec;
  rt_Connections : option RTorrentConnectionsSpec;
  rt_Protocol : option RTorrentProtocolSpec }.

(** ** SABnzbd *)

Record SABnzbdConnectionSpec := mkSABnzbdConnectionSpec {
  sbc_URL : string;
  sbc_APIKeySecretRef : SecretKeySelector }.

Record SABnzbdSpeedSpec := mkSABnzbdSpeedSpec {
  sbs_SpeedLimit : Z;
  sbs_SpeedLimitPercentage : Z;
  sbs_PauseDownloads : bool }.

Record SABnzbdDirectoriesSpec := mkSABnzbdDirectoriesSpec {
  sbd_DownloadDir : string;
  sbd_CompleteDir : string;
  sbd_IncompleteDir : string;
  sbd_ScriptDir : string;
  sbd_NzbBackupDir : string }.

Record SABnzbdCategorySpec := mkSABnzbdCategorySpec {
  sbg_Name : string;
  sbg_Dir : string;
  sbg_Priority : Z;
  sbg_Script : string }.

Record SABnzbdQueueSpec := mkSABnzbdQueueSpec {
  sbq_PreCheck : bool;
  sbq_MaxRetries : Z;
  sbq_Connections : Z }.

Record SABnzbdPostProcessingSpec := mkSABnzbdPostProcessingSpec {
  sbp_Enabled : bool;
  sbp_QuickCheck : bool;
  sbp_UnpackEnabled : bool;
  sbp_CleanupEnabled : bool;
  sbp_ScriptEnabled : bool }.

Record SABnzbdSpec := mkSABnzbdSpec {
  sb_Connection : SABnzbdConnectionSpec;
  sb_Speed : option SABnzbdSpeedSpec;
  sb_Directories : option SABnzbdDirectoriesSpec;
  sb_Categories : list SABnzbdCategorySpec;
  sb_Queue : option SABnzbdQueueSpec;
  sb_PostProcessing : option SABnzbdPostProcessingSpec }.

(** ** NZBGet *)

Record NZBGetConnectionSpec := mkNZBGetConnectionSpec {
  ngc_URL : string;
  ngc_CredentialsSecretRef : option CredentialsSecretRef }.

Record NZBGetSpeedSpec := mkNZBGetSpeedSpec {
  ngs_DownloadRate : Z;
  ngs_ArticleTimeout : Z;
  ngs_WriteBuffer : Z }.

Record NZBGetDirectoriesSpec := mkNZBGetDirectoriesSpec {
  ngd_MainDir : string;
  ngd_DestDir : string;
  ngd_InterDir : string;
  ngd_NzbDir : string;
  ngd_TempDir : string;
  ngd_ScriptDir : string }.

Record NZBGetCategorySpec := mkNZBGetCategorySpec {
  ngg_Name : string;
  ngg_DestDir : string;
  ngg_Unpack : option bool;
  ngg_Aliases : list string }.

Record NZBGetQueueSpec := mkNZBGetQueueSpec {
  ngq_FlushQueue : bool;
  ngq_DupeCheck : bool;
  ngq_PropagationDelay : Z;
  ngq_HealthCheck : string }.

Record NZBGetPostProcessingSpec := mkNZBGetPostProcessingSpec {
  ngp_ParCheck : string;
  ngp_ParRepair : option bool;
  ngp_Unpack : option bool;
  ngp_UnpackCleanupDisk : option bool;
  ngp_DirectUnpack : option bool;
  ngp_ScriptOrder : list string }.

Record NZBGetConnectionsSpec := mkNZBGetConnectionsSpec {
  ngn_ArticleConnections : Z;
  ngn_RetryInterval : Z;
  ngn_TerminateTimeout : Z;
  ngn_Decode : option bool }.

Record NZBGetSpec := mkNZBGetSpec {
  ng_Connection : NZBGetConnectionSpec;
  ng_Speed : option NZBGetSpeedSpec;
  ng_Directories : option NZBGetDirectoriesSpec;
  ng_Categories : list NZBGetCategorySpec;
  ng_Queue : option NZBGetQueueSpec;
  ng_PostProcessing : option NZBGetPostProcessingSpec;
  ng_Connections : option NZBGetConnectionsSpec }.

(** ** DownloadStackConfig *)

Record DownloadStackConfigSpec := mkDownloadStackConfigSpec {
  dss_DeploymentRef : LocalObjectReference;
  dss_Gluetun : GluetunSpec;
  dss_Transmission : option TransmissionSpec;
  dss_QBittorrent : option QBittorrentSpec;
  dss_Deluge : option DelugeSpec;
  dss_RTorrent : option RTorrentSpec;
  dss_SABnzbd : option SABnzbdSpec;
  dss_NZBGet : option NZBGetSpec;
  dss_RestartOnGluetunChange : bool;
  dss_Reconciliation : option ReconciliationSpec }.

Record DownloadStackConfigStatus := mkDownloadStackConfigStatus {
  dst_Conditions : list Condition;
  dst_GluetunConfigHash : string;
  dst_GluetunSecretGenerated : bool;
  dst_TransmissionConnected : bool;
  dst_TransmissionVersion : string;
  dst_QBittorrentConnected : bool;
  dst_QBittorrentVersion : string;
  dst_DelugeConnected : bool;
  dst_DelugeVersion : string;
  dst_RTorrentConnected : bool;
  dst_RTorrentVersion : string;
  dst_SABnzbdConnected : bool;
  dst_SABnzbdVersion : string;
  dst_NZBGetConnected : bool;
  dst_NZBGetVersion : string;
  dst_LastReconcile : option Z;
  dst_ObservedGeneration : Z }.

Record DownloadStackConfig := mkDownloadStackConfig {
  ds_ObjectMeta : ObjectMeta;
  ds_Spec : DownloadStackConfigSpec;
  ds_Status : DownloadStackConfigStatus }.

