(* ===== verification/Rpc.v ===== *)
(** * HTTP as the download clients use it (net/http in src/internal/adapters/downloadstack)

    Requests with headers, credentials and one of the bodies the clients send;
    answers with their headers and their body as text and as what it decodes to.
    The transport, the services behind it and the cookie jar of an [http.Client] are
    the class [Transport]: a request, the jar and the state of the services give new
    ones and an answer.  A client is an object with state, and its methods are
    computations on the pair of the services and that state. *)
From stdpp Require Import sorting.
From S2P Require Export Json.

(** An XML element: its name, and its text or its children. *)
#[warnings="-register-all"]
Inductive xml : Type :=
| XText (name text : string)
| XElem (name : string) (children : list xml).

Inductive Body :=
| NoBody
| JSONBody (v : any)
| FormBody (values : gmap string string)    (* url.Values with one value for each key *)
| XMLBody (document : xml).

Record HttpRequest := mkHttpRequest {
  hq_Method : string;
  hq_URL : string;
  hq_Headers : list (string * string);
  hq_BasicAuth : option (string * string);
  hq_Body : Body }.

(** The body of an answer: its text, and the JSON or XML document in it, if any. *)
Record HttpResponse := mkHttpResponse {
  hp_Status : Z;
  hp_Headers : list (string * string);
  hp_Text : string;
  hp_JSON : option any;
  hp_XML : option xml }.

Inductive HttpReply :=
| NoReply (e : error)
| Reply (r : HttpResponse).

(** The value of a header, empty when it is missing. *)
Definition headerOf (name : string) (headers : list (string * string)) : string :=
  default ""%string (snd ∘ snd <$> list_find (λ h, h.1 = name) headers).

Class Transport (S : Type) := {
  Jar : Type;
  newJar : Jar;
  roundTrip : Jar → HttpRequest → S → S * (Jar * HttpReply);
  newRequestError : string → error;        (* http.NewRequestWithContext on a malformed URL *)
  marshalError : any → error;              (* json.Marshal of an unsupported value *)
  unmarshalError : option any → error;     (* of json.Unmarshal and of a json.Decoder *)
  xmlError : option xml → error }.

(** [strconv.ParseFloat(s, 64)] and [fmt.Sscanf(s, "%f", &x)]; [None] is an error. *)
Class FloatSyntax := {
  parseFloat : string → option float64;
  scanFloat : string → option float64 }.

(** ** JSON *)

(** The values [json.Marshal] accepts: no float is an infinity or not a number. *)
Definition finite (f : float64) : bool :=
  match f with S754_zero _ | S754_finite _ _ _ => true | _ => false end.

Fixpoint marshalable (v : any) : bool :=
  match v with
  | VFloat f => finite f
  | VList l => forallb marshalable l
  | VMap l => forallb (λ '(_, x), marshalable x) l
  | _ => true
  end.

(** [sort.Strings], and a map in the order of its keys. *)
Definition sortStrings (l : list string) : list string := merge_sort String.le l.
Definition sortedKeys {V} (m : gmap string V) : list string := sortStrings (map_to_list m).*1.
Definition sortedEntries {V} (m : gmap string V) : list (string * V) :=
  omap (λ k, pair k <$> m !! k) (sortedKeys m).

(** A [map[string]interface{}] is written in the order of its keys. *)
Definition VObject (m : gmap string any) : any := VMap (sortedEntries m).

(** Decoding an object into a [map[string]interface{}]: a repeated key takes the
    last value. *)
Definition asMap (v : any) : option (gmap string any) :=
  match v with
  | VMap l => Some (foldl (λ m '(k, x), <[k := toInterface x]> m) ∅ l)
  | _ => None
  end.
Definition getMap (name : string) : list (string * any) → option (gmap string any) :=
  readMember asMap (Some ∅) name ∅.

(** Values that are no structs, by themselves: [null] leaves the zero value. *)
#[export] Instance FromJSON_bool : FromJSON bool := λ v, match v with VNil => Some false | _ => asBool v end.
#[export] Instance FromJSON_string : FromJSON string := λ v, match v with VNil => Some ""%string | _ => asString v end.
#[export] Instance FromJSON_any : FromJSON any := λ v, Some (toInterface v).
#[export] Instance FromJSON_map : FromJSON (gmap string any) := λ v, match v with VNil => Some ∅ | _ => asMap v end.

(** A [json.RawMessage]: the document itself, [None] when the member is missing. *)
Definition getRaw (name : string) : list (string * any) → option (option any) :=
  readMember (λ v, Some (Some v)) (Some (Some VNil)) name None.

(** ** Strings, integers and query strings *)

(** [strings.TrimSuffix(s, "/")]. *)
Definition trimSlash (s : string) : string :=
  match CutLast "/" s with Some (before, EmptyString) => before | _ => s end.

(** [strings.TrimSpace]: of ASCII strings here, and the white space of Unicode is a
    parameter. *)
Class UnicodeSpace := trimSpaceUnicode : string → string.
Definition isSpace (c : ascii) : bool := inRange 9 13 c || Ascii.eqb c " ".
Fixpoint trimLeft (s : string) : string :=
  match s with
  | EmptyString => ""
  | String c s' => if isSpace c then trimLeft s' else s
  end.
Fixpoint trimRight (s : string) : string :=
  match s with
  | EmptyString => ""
  | String c s' => match trimRight s' with
                   | EmptyString => if isSpace c then "" else String c ""
                   | s'' => String c s''
                   end
  end.
Definition TrimSpace `{UnicodeSpace} (s : string) : string :=
  if isASCII s then trimRight (trimLeft s) else trimSpaceUnicode s.

(** The result of an operation on [int], which wraps around at 64 bits. *)
Definition int64 (n : Z) : Z := (n + 2 ^ 63) `mod` 2 ^ 64 - 2 ^ 63.

(** [url.QueryEscape] and [Encode] of [url.Values] with one value for each key. *)
Definition hexDigit (n : N) : ascii := ascii_of_N (if n <? 10 then 48 + n else 55 + n)%N.
Definition unreserved (c : ascii) : bool := isAlpha c || isDigit c || oneOf "-_.~" c.
Fixpoint QueryEscape (s : string) : string :=
  match s with
  | EmptyString => ""
  | String c s' =>
      if unreserved c then String c (QueryEscape s')
      else if Ascii.eqb c " " then String "+" (QueryEscape s')
      else String "%" (String (hexDigit (byteN c / 16)%N) (String (hexDigit (byteN c mod 16)%N) (QueryEscape s')))
  end.
Definition encodeValues (values : gmap string string) : string :=
  joinWith "&" ((λ kv, (QueryEscape kv.1 +:+ "=" +:+ QueryEscape kv.2)%string) <$> sortedEntries values).

(** ** Clients *)

(** The services and the state of a client. *)
Record Net (S C : Type) := mkNet {
  net_services : S;
  net_client : C }.
Arguments mkNet {S C}.
Arguments net_services {S C}.
Arguments net_client {S C}.

Section net.
Context {S C : Type}.

Definition client : M (Net S C) C := λ n, (n, Ret (net_client n)).
Definition setClient (c : C) : M (Net S C) unit := λ n, (mkNet (net_services n) c, Ret tt).

(** A client made for some calls and then dropped. *)
Definition withClient {A} (c : C) (m : M (Net S C) A) : M S A := λ s,
  let '(n, x) := m (mkNet s c) in (net_services n, x).
End net.

Section transport.
Context {S : Type} `{Transport S}.

(** [http.NewRequestWithContext], then [httpClient.Do] with the jar [j]; an error of
    the first gets the heading [building]. *)
Definition send (building : string) (j : Jar) (r : HttpRequest) : M S (Jar * HttpReply) := λ s,
  match urlParse (hq_URL r) with
  | None => (s, Err (building +:+ ": " +:+ newRequestError (hq_URL r))%string)
  | Some _ => let '(s', x) := roundTrip j r s in (s', Ret x)
  end.

(** [json.Unmarshal], and [Decode] of a [json.Decoder], into a value of type [A]. *)
Definition unmarshal {A W} `{FromJSON A} (msg : string) (document : option any) : M W A :=
  match document ≫= fromJSON with
  | Some a => ret a
  | None => fail (msg +:+ ": " +:+ unmarshalError document)%string
  end.

(** [if c.username != "" { req.SetBasicAuth(c.username, c.password) }]. *)
Definition basicAuth (username password : string) : option (string * string) :=
  if String.eqb username "" then None else Some (username, password).

Definition jsonType : string * string := ("Content-Type", "application/json")%string.

Definition httpError (r : HttpResponse) : error :=
  ("HTTP error: " +:+ Itoa (hp_Status r) +:+ " - " +:+ hp_Text r)%string.
End transport.

(** Lift a computation on the services. *)
Definition onServices {S C A} (m : M S A) : M (Net S C) A := λ n,
  let '(s, x) := m (net_services n) in (mkNet s (net_client n), x).

Section exchange.
Context {S : Type} `{Transport S}.

(** The answer, or the error under a heading: [building] when the request cannot be
    made, [failed] when there is no answer.  First by a client without a cookie jar,
    then by one whose jar sends and keeps cookies. *)
Definition exchange (building failed : string) (r : HttpRequest) : M S HttpResponse :=
  let* x := send building newJar r in
  match x.2 with
  | NoReply e => fail (failed +:+ ": " +:+ e)%string
  | Reply a => ret a
  end.

Definition sendKeeping {C} (jar : C → Jar) (keep : Jar → C → C) (building failed : string) (r : HttpRequest)
    : M (Net S C) HttpResponse :=
  let* c := client in
  let* x := onServices (send building (jar c) r) in
  setClient (keep x.1 c) ;;;
  match x.2 with
  | NoReply e => fail (failed +:+ ": " +:+ e)%string
  | Reply a => ret a
  end.

Lemma exchange_run building failed r w w' j a : urlParse (hq_URL r) ≠ None →
  roundTrip newJar r w = (w', (j, Reply a)) → exchange building failed r w = (w', Ret a).
Proof. intros Hu E. unfold exchange, bind, send. destruct (urlParse _); [|done]. by rewrite E. Qed.

Lemma sendKeeping_run {C} (jar : C → Jar) keep building failed r w (c : C) w' j' a : urlParse (hq_URL r) ≠ None →
  roundTrip (jar c) r w = (w', (j', Reply a)) →
  sendKeeping jar keep building failed r (mkNet w c) = (mkNet w' (keep j' c), Ret a).
Proof.
  intros Hu E. unfold sendKeeping, onServices, bind, client, setClient, send. simpl.
  destruct (urlParse _); [|done]. by rewrite E.
Qed.
End exchange.

(** ** Lemmas *)

Lemma sortStrings_perm l1 l2 : l1 ≡ₚ l2 → sortStrings l1 = sortStrings l2.
Proof.
  intros Hp. unfold sortStrings. apply (Sorted_unique String.le); [by apply (Sorted_merge_sort _)..|].
  by rewrite !merge_sort_Permutation.
Qed.

Section sorted.
Context {V : Type}.
Implicit Types (m : gmap string V).

Lemma elem_of_sortedKeys m k : k ∈ sortedKeys m ↔ is_Some (m !! k).
Proof.
  unfold sortedKeys, sortStrings. rewrite (merge_sort_Permutation _ _), list_elem_of_fmap. split.
  - intros ([k' v] & -> & Hin%elem_of_map_to_list). by exists v.
  - intros [v Hv]. exists (k, v). by rewrite elem_of_map_to_list.
Qed.

Lemma NoDup_sortedKeys m : NoDup (sortedKeys m).
Proof. unfold sortedKeys, sortStrings. rewrite (merge_sort_Permutation _ _). apply NoDup_fst_map_to_list. Qed.

Lemma elem_of_sortedEntries m k v : (k, v) ∈ sortedEntries m ↔ m !! k = Some v.
Proof.
  unfold sortedEntries. rewrite list_elem_of_omap. setoid_rewrite elem_of_sortedKeys. split.
  - intros (k' & [v' Hv] & E). rewrite Hv in E. by injection E as <- <-.
  - intros Hv. exists k. by rewrite Hv.
Qed.

Lemma sortedEntries_keys m : (sortedEntries m).*1 = sortedKeys m.
Proof.
  unfold sortedEntries. assert (∀ l, Forall (λ k, is_Some (m !! k)) l →
    (omap (λ k, pair k <$> m !! k) l).*1 = l) as H.
  { induction 1 as [|k l [v Hv] _ IH]; [done|]. simpl. rewrite Hv. simpl. f_equal. exact IH. }
  apply H, Forall_forall. intros k. by rewrite elem_of_sortedKeys.
Qed.

Lemma sortedEntries_map m : list_to_map (sortedEntries m) = m.
Proof.
  apply map_eq. intros k. apply option_eq. intros v.
  rewrite <-elem_of_list_to_map by (rewrite sortedEntries_keys; apply NoDup_sortedKeys).
  apply elem_of_sortedEntries.
Qed.
End sorted.

Lemma bind_client {S C A} (k : C → M (Net S C) A) s c : bind client k (mkNet s c) = k c (mkNet s c).
Proof. done. Qed.
Lemma bind_setClient {S C A} (k : unit → M (Net S C) A) s c c' :
  bind (setClient c') k (mkNet s c) = k tt (mkNet s c').
Proof. done. Qed.

Lemma onServices_run {S C A} (m : M S A) s s' (c : C) x :
  m s = (s', x) → onServices m (mkNet s c) = (mkNet s' c, x).
Proof. intros E. unfold onServices. simpl. by rewrite E. Qed.

Lemma unmarshal_ok {S W A} `{Transport S} `{FromJSON A} msg document (a : A) (w : W) :
  document ≫= fromJSON = Some a → unmarshal msg document w = (w, Ret a).
Proof. unfold unmarshal. by intros ->. Qed.

(** *** No panics *)
Section no_panic.
Context {S C : Type} `{Transport S}.

Lemma client_noPanic : noPanic (@client S C).
Proof. by split. Qed.
Lemma setClient_noPanic (c : C) : noPanic (@setClient S C c).
Proof. by split. Qed.
Lemma onServices_noPanic {A} (m : M S A) : noPanic m → noPanic (@onServices S C A m).
Proof.
  intros Hm n. unfold onServices. destruct (Hm (net_services n)) as [_ Hp].
  by destruct (m (net_services n)) as [s x].
Qed.
Lemma send_noPanic building j r : noPanic (send building j r).
Proof. intros s. unfold send. destruct (urlParse _); [by destruct (roundTrip j r s)|done]. Qed.
Lemma unmarshal_noPanic {A W} `{FromJSON A} msg document : noPanic (@unmarshal S _ A W _ msg document).
Proof. intros w. unfold unmarshal. by case_match. Qed.
End no_panic.
#[export] Hint Resolve client_noPanic setClient_noPanic onServices_noPanic send_noPanic unmarshal_noPanic : nebularr.

Lemma exchange_noPanic {W} `{Transport W} building failed r : noPanic (exchange building failed r).
Proof. unfold exchange. noPanics. Qed.
Lemma sendKeeping_noPanic {W} `{Transport W} {C} jar keep building failed r :
  noPanic (@sendKeeping W _ C jar keep building failed r).
Proof. unfold sendKeeping. noPanics. Qed.
#[export] Hint Resolve exchange_noPanic sendKeeping_noPanic : nebularr.

(** The result of a computation that is followed by another: a panic comes from the
    first, or from the second once the first has returned. *)
Lemma bind_panic {W A B} (m : M W A) (k : A → M W B) w why :
  (bind m k w).2 = Panic why ↔ (m w).2 = Panic why ∨ ∃ w' a, m w = (w', Ret a) ∧ (k a w').2 = Panic why.
Proof.
  unfold bind. destruct (m w) as [w' [a|e|p]]; simpl; [|naive_solver..].
  split; [intros Hp; right; by exists w', a|]. by intros [[=]|(? & ? & [= <- <-] & Hp)].
Qed.

Lemma bind_panic_noPanic {W A B} (m : M W A) (k : A → M W B) w why : noPanic m →
  (bind m k w).2 = Panic why ↔ ∃ w' a, m w = (w', Ret a) ∧ (k a w').2 = Panic why.
Proof. intros Hm. rewrite bind_panic. destruct (Hm w) as [_ Hp]. naive_solver. Qed.

Lemma wrapErr_ret {W A} f (m : M W A) w w' a : wrapErr f m w = (w', Ret a) ↔ m w = (w', Ret a).
Proof. unfold wrapErr. destruct (m w) as [? []]; naive_solver. Qed.

Lemma unmarshal_ret {S W A} `{Transport S} `{FromJSON A} msg document (w w' : W) (a : A) :
  unmarshal msg document w = (w', Ret a) ↔ w' = w ∧ document ≫= fromJSON = Some a.
Proof. unfold unmarshal. case_match; split; [|naive_solver..]. by intros [= <- <-]. Qed.
