(* ===== verification/Settings.v ===== *)
(** * Settings of the download clients

    The maps of names to dynamic values in which the syncs of Transmission,
    qBittorrent and Deluge collect what the specification asks for, with one
    definition for each way in which the code writes into them. *)
From S2P Require Export Rpc.

Abbreviation Settings := (gmap string any).

(** [m[k] = v], under a condition, and for a struct that may be absent. *)
Definition putIf (c : bool) (k : string) (v : any) (m : Settings) : Settings := if c then <[k := v]> m else m.
Definition putAll (l : list (string * any)) (m : Settings) : Settings :=
  foldl (λ m '(k, v), <[k := v]> m) m l.
Definition putSome {A} (x : option A) (k : string) (v : A → any) (m : Settings) : Settings :=
  match x with Some a => <[k := v a]> m | None => m end.
Definition inSection {A} (x : option A) (f : A → Settings → Settings) (m : Settings) : Settings :=
  match x with Some a => f a m | None => m end.
Definition setString (k s : string) : Settings → Settings := putIf (negb (String.eqb s "")) k (VString s).
Definition setPositive (k : string) (n : Z) : Settings → Settings := putIf (0 <? n) k (VInt n).

(** What the server stores of settings: their JSON. *)
Definition stored (settings : Settings) : Settings := toWire <$> settings.

(** [m[k] = v] leaves the other names alone. *)
Section lookups.
Implicit Types (m : Settings) (k : string).

Lemma putIf_ne c k k' v m : k' ≠ k → putIf c k' v m !! k = m !! k.
Proof. intros Hk. unfold putIf. destruct c; [by apply lookup_insert_ne|done]. Qed.
Lemma setString_ne k k' s m : k' ≠ k → setString k' s m !! k = m !! k.
Proof. apply putIf_ne. Qed.
Lemma setPositive_ne k k' n m : k' ≠ k → setPositive k' n m !! k = m !! k.
Proof. apply putIf_ne. Qed.
Lemma putSome_ne {A} (x : option A) k k' f m : k' ≠ k → putSome x k' f m !! k = m !! k.
Proof. intros Hk. unfold putSome. destruct x; [by apply lookup_insert_ne|done]. Qed.
Lemma putAll_ne l k m : Forall (λ kv, kv.1 ≠ k) l → putAll l m !! k = m !! k.
Proof.
  intros Hl. unfold putAll. revert m. induction Hl as [|[k' v] l Hk _ IH]; intros m; [done|]. simpl.
  rewrite IH. by apply lookup_insert_ne.
Qed.
Lemma inSection_ne {A} (x : option A) f k m : (∀ a m, f a m !! k = m !! k) → inSection x f m !! k = m !! k.
Proof. intros Hf. destruct x; [apply Hf|done]. Qed.
End lookups.

(** A section that does not write the name looked up. *)
Ltac untouched :=
  repeat first
    [ rewrite putIf_ne by discriminate
    | rewrite setString_ne by discriminate
    | rewrite setPositive_ne by discriminate
    | rewrite putSome_ne by discriminate
    | rewrite putAll_ne by (repeat constructor; discriminate)
    | rewrite inSection_ne by (intros; cbn beta; untouched; reflexivity) ].

Lemma stored_union m1 m2 : stored (m1 ∪ m2) = stored m1 ∪ stored m2.
Proof. apply map_fmap_union. Qed.

(** What a server finds in the members of the object it receives. *)
Lemma arguments_stored args : list_to_map (map (λ '(k, x), (k, toWire x)) (sortedEntries args)) = stored args.
Proof.
  unfold stored. rewrite <-(sortedEntries_map args) at 2. rewrite <-list_to_map_fmap. f_equal.
  apply list_fmap_ext. by intros _ [k v] _.
Qed.


(** ** Syncs by one call after another *)
Section calls.
Context {W : Type}.

(** [if b { if err := m; err != nil { return ... } }], and the same for a pointer. *)
Definition whenM (b : bool) (m : M W unit) : M W unit := if b then m else ret tt.
Definition forSome {A} (x : option A) (f : A → M W unit) : M W unit := match x with Some a => f a | None => ret tt end.
Definition failedTo {A} (what : string) (m : M W A) : M W A := wrapErr (λ e, "failed to " +:+ what +:+ ": " +:+ e)%string m.

(** The elements a condition and an optional section contribute to a list of calls. *)
Definition pick {X} (b : bool) (x : X) : list X := if b then [x] else [].
Definition pickFor {A X} (x : option A) (f : A → list X) : list X := from_option f [] x.

(** The calls of a list, up to the first that fails. *)
Fixpoint inTurn {X} (run : X → M W unit) (l : list X) : M W unit :=
  match l with
  | [] => ret tt
  | x :: l' => run x ;;; inTurn run l'
  end.

Section runsAs.
Context {X : Type} (run : X → M W unit).

Lemma inTurn_app l1 l2 w : inTurn run (l1 ++ l2) w = (inTurn run l1 ;;; inTurn run l2) w.
Proof.
  revert w. induction l1 as [|x l1 IH]; intros w; [done|]. simpl. rewrite bind_assoc. unfold bind.
  destruct (run x w) as [w' [[]|e|why]]; [apply IH|done..].
Qed.

(** A computation and the calls it stands for. *)
Definition runsAs (m : M W unit) (l : list X) : Prop := ∀ w, m w = inTurn run l w.

Lemma runsAs_one m x : (∀ w, m w = run x w) → runsAs m [x].
Proof. intros Hm w. rewrite Hm. simpl. unfold bind, ret. by destruct (run x w) as [w' [[]|e|why]]. Qed.
Lemma runsAs_if b m x : (∀ w, m w = run x w) → runsAs (whenM b m) (pick b x).
Proof. intros Hm. destruct b; [by apply runsAs_one|by intros w]. Qed.
Lemma runsAs_for {A} (x : option A) f g : (∀ a, runsAs (f a) (g a)) → runsAs (forSome x f) (pickFor x g).
Proof. intros Hfg. destruct x; [apply Hfg|by intros w]. Qed.
Lemma runsAs_app m1 m2 l1 l2 : runsAs m1 l1 → runsAs m2 l2 → runsAs (m1 ;;; m2) (l1 ++ l2).
Proof.
  intros H1 H2 w. rewrite inTurn_app. unfold bind. rewrite H1. by destruct (inTurn run l1 w) as [w' [[]|e|why]].
Qed.
End runsAs.
End calls.

(** Splits a sync into its calls. *)
Ltac runs_as :=
  repeat first
    [ apply runsAs_app
    | apply runsAs_if; intros; reflexivity
    | apply runsAs_one; intros; reflexivity
    | apply runsAs_for; intros ? ].
