(* ===== verification/Gluetun.v ===== *)
(** * The environment of the VPN container (src/internal/adapters/downloadstack/gluetun.go)

    The environment variables of Gluetun as a function of the specification and the
    resolved credentials, and the hash by which the controller notices a change. *)
From S2P Require Export DownloadStackApi Rpc Hash.

(** The first eight bytes of the SHA-256 of a text, in hexadecimal. *)
Definition sha256Prefix (s : string) : string := hex (take 8 (sha256Sum (bytesOf s))).

Record GluetunEnvInput := mkGluetunEnvInput {
  gei_Spec : GluetunSpec;
  gei_Username : string;
  gei_Password : string;
  gei_PrivateKey : string }.

Abbreviation Env := (gmap string string).

(** [if c { env[k] = v }]. *)
Definition setIf (c : bool) (k v : string) (env : Env) : Env := if c then <[k := v]> env else env.

(** [if x != nil { ... }]. *)
Definition whenSome {A} (x : option A) (f : A → Env → Env) (env : Env) : Env :=
  match x with Some a => f a env | None => env end.

Definition onOff (b : bool) : string := if b then "on" else "off".
Definition nonEmpty (s : string) : bool := negb (String.eqb s "").
Definition someOf {A} (l : list A) : bool := negb (Nat.eqb (length l) 0).

Definition joinInts (ints : list Z) : string := joinWith "," (Itoa <$> ints).

Definition gluetunProvider (spec : GluetunSpec) (env : Env) : Env :=
  <["VPN_TYPE"%string := gl_VPNType spec]> (<["VPN_SERVICE_PROVIDER"%string := glp_Name (gl_Provider spec)]> env).

Definition gluetunCredentials (input : GluetunEnvInput) (env : Env) : Env :=
  if String.eqb (gl_VPNType (gei_Spec input)) "wireguard" then
    setIf (nonEmpty (gei_PrivateKey input)) "WIREGUARD_PRIVATE_KEY" (gei_PrivateKey input) env
  else
    setIf (nonEmpty (gei_Password input)) "OPENVPN_PASSWORD" (gei_Password input)
      (setIf (nonEmpty (gei_Username input)) "OPENVPN_USER" (gei_Username input) env).

Definition gluetunServer (s : GluetunServerSpec) (env : Env) : Env :=
  let env := setIf (someOf (gls_Regions s)) "SERVER_REGIONS" (joinWith "," (gls_Regions s)) env in
  let env := setIf (someOf (gls_Countries s)) "SERVER_COUNTRIES" (joinWith "," (gls_Countries s)) env in
  let env := setIf (someOf (gls_Cities s)) "SERVER_CITIES" (joinWith "," (gls_Cities s)) env in
  setIf (someOf (gls_Hostnames s)) "SERVER_HOSTNAMES" (joinWith "," (gls_Hostnames s)) env.

Definition gluetunFirewall (f : GluetunFirewallSpec) (env : Env) : Env :=
  let env := setIf (someOf (glf_VPNInputPorts f)) "FIREWALL_VPN_INPUT_PORTS" (joinInts (glf_VPNInputPorts f)) env in
  let env := setIf (someOf (glf_InputPorts f)) "FIREWALL_INPUT_PORTS" (joinInts (glf_InputPorts f)) env in
  let env := setIf (someOf (glf_OutboundSubnets f)) "FIREWALL_OUTBOUND_SUBNETS"
    (joinWith "," (glf_OutboundSubnets f)) env in
  setIf (glf_Debug f) "FIREWALL_DEBUG" "on" env.

Definition gluetunDNS (d : GluetunDNSSpec) (env : Env) : Env :=
  let env := <["DOT"%string := onOff (gld_OverTLS d)]> env in
  let env := setIf (nonEmpty (gld_PlaintextAddress d)) "DNS_PLAINTEXT_ADDRESS" (gld_PlaintextAddress d) env in
  setIf (gld_KeepNameserver d) "DNS_KEEP_NAMESERVER" "on" env.

Definition GenerateGluetunEnv (input : GluetunEnvInput) : Env :=
  let spec := gei_Spec input in
  let env := gluetunProvider spec ∅ in
  let env := gluetunCredentials input env in
  let env := whenSome (gl_Server spec) gluetunServer env in
  let env := whenSome (gl_Firewall spec) gluetunFirewall env in
  let env := whenSome (gl_KillSwitch spec) (λ k, <["BLOCK_WITHOUT_VPN"%string := onOff (glk_Enabled k)]>) env in
  let env := whenSome (gl_DNS spec) gluetunDNS env in
  let env := whenSome (gl_IPv6 spec) (λ v6, <["OPENVPN_IPV6"%string := onOff (gl6_Enabled v6)]>) env in
  whenSome (gl_Logging spec) (λ l, setIf (nonEmpty (gll_Level l)) "LOG_LEVEL" (gll_Level l)) env.

Definition newline : ascii := "010".
Definition envLine (k v : string) : string := (k +:+ "=" +:+ v +:+ String newline "")%string.

Section hash.
Context (o : RangeOrder).

(** The keys are collected in the order of the map and sorted. *)
Definition envText (env : Env) : string :=
  foldl (λ sb k, (sb +:+ envLine k (default "" (env !! k)))%string) ""%string (sortStrings (rangeMap o 0 env).*1).

Definition HashGluetunEnv (env : Env) : string := sha256Prefix (envText env).
End hash.

(** ** The environment, as a table *)

Definition cond (c : bool) (v : string) : option string := if c then Some v else None.

(** What Gluetun is told, variable by variable: the specification of
    [GenerateGluetunEnv]. *)
Definition gluetunVariables (input : GluetunEnvInput) : list (string * option string) :=
  let spec := gei_Spec input in
  let wireguard := String.eqb (gl_VPNType spec) "wireguard" in
  let server f := gl_Server spec ≫= λ s, cond (someOf (f s)) (joinWith "," (f s)) in
  [("VPN_SERVICE_PROVIDER", Some (glp_Name (gl_Provider spec)));
   ("VPN_TYPE", Some (gl_VPNType spec));
   ("WIREGUARD_PRIVATE_KEY", cond (wireguard && nonEmpty (gei_PrivateKey input)) (gei_PrivateKey input));
   ("OPENVPN_USER", cond (negb wireguard && nonEmpty (gei_Username input)) (gei_Username input));
   ("OPENVPN_PASSWORD", cond (negb wireguard && nonEmpty (gei_Password input)) (gei_Password input));
   ("SERVER_REGIONS", server gls_Regions);
   ("SERVER_COUNTRIES", server gls_Countries);
   ("SERVER_CITIES", server gls_Cities);
   ("SERVER_HOSTNAMES", server gls_Hostnames);
   ("FIREWALL_VPN_INPUT_PORTS", gl_Firewall spec ≫= λ f,
      cond (someOf (glf_VPNInputPorts f)) (joinInts (glf_VPNInputPorts f)));
   ("FIREWALL_INPUT_PORTS", gl_Firewall spec ≫= λ f,
      cond (someOf (glf_InputPorts f)) (joinInts (glf_InputPorts f)));
   ("FIREWALL_OUTBOUND_SUBNETS", gl_Firewall spec ≫= λ f,
      cond (someOf (glf_OutboundSubnets f)) (joinWith "," (glf_OutboundSubnets f)));
   ("FIREWALL_DEBUG", gl_Firewall spec ≫= λ f, cond (glf_Debug f) "on");
   ("BLOCK_WITHOUT_VPN", onOff ∘ glk_Enabled <$> gl_KillSwitch spec);
   ("DOT", onOff ∘ gld_OverTLS <$> gl_DNS spec);
   ("DNS_PLAINTEXT_ADDRESS", gl_DNS spec ≫= λ d, cond (nonEmpty (gld_PlaintextAddress d)) (gld_PlaintextAddress d));
   ("DNS_KEEP_NAMESERVER", gl_DNS spec ≫= λ d, cond (gld_KeepNameserver d) "on");
   ("OPENVPN_IPV6", onOff ∘ gl6_Enabled <$> gl_IPv6 spec);
   ("LOG_LEVEL", gl_Logging spec ≫= λ l, cond (nonEmpty (gll_Level l)) (gll_Level l))]%string.

(** The variables of a table, set one after the other. *)
Definition setAll (env : Env) (table : list (string * option string)) : Env :=
  foldl (λ env kv, match kv.2 with Some v => <[kv.1 := v]> env | None => env end) env table.

Lemma setAll_app env t1 t2 : setAll env (t1 ++ t2) = setAll (setAll env t1) t2.
Proof. apply foldl_app. Qed.

Lemma setIf_table c k v env : setIf c k v env = setAll env [(k, cond c v)].
Proof. by destruct c. Qed.

(** In a table that names each variable once, each gets its value. *)
Lemma lookup_setAll table k v : NoDup table.*1 →
  setAll ∅ table !! k = Some v ↔ (k, Some v) ∈ table.
Proof.
  induction table as [|[k' ov] table IH] using rev_ind; intros Hn.
  - split; [intros E|intros E%elem_of_nil; done]. simpl in E. by rewrite lookup_empty in E.
  - rewrite fmap_app in Hn. apply NoDup_app in Hn as (Hn & Hfresh & _). simpl in Hfresh.
    rewrite setAll_app, elem_of_app, list_elem_of_singleton. simpl.
    assert (k = k' → (k, Some v) ∉ table) as Hk.
    { intros -> Hin. apply (Hfresh k'); [|by constructor]. by apply (list_elem_of_fmap_2 fst) in Hin. }
    specialize (IH Hn). destruct ov as [v'|].
    + destruct (decide (k' = k)) as [->|Hne].
      * rewrite lookup_insert_eq. split; [intros [= ->]; by right|]. by intros [Hin|[= ->]]; [destruct (Hk eq_refl)|].
      * rewrite lookup_insert_ne, IH by done. split; [by left|]. by intros [Hin|[= ]].
    + rewrite IH. split; [by left|]. by intros [Hin|[= ]].
Qed.

Lemma credentials_table input env :
  let wireguard := String.eqb (gl_VPNType (gei_Spec input)) "wireguard" in
  gluetunCredentials input env = setAll env
    [("WIREGUARD_PRIVATE_KEY", cond (wireguard && nonEmpty (gei_PrivateKey input)) (gei_PrivateKey input));
     ("OPENVPN_USER", cond (negb wireguard && nonEmpty (gei_Username input)) (gei_Username input));
     ("OPENVPN_PASSWORD", cond (negb wireguard && nonEmpty (gei_Password input)) (gei_Password input))]%string.
Proof. cbn zeta. unfold gluetunCredentials. destruct (String.eqb _ _); simpl; by rewrite !setIf_table. Qed.

(** The parts of the specification that may be absent. *)
Lemma server_table x env :
  let server f := x ≫= λ s, cond (someOf (f s)) (joinWith "," (f s)) in
  whenSome x gluetunServer env = setAll env
    [("SERVER_REGIONS", server gls_Regions); ("SERVER_COUNTRIES", server gls_Countries);
     ("SERVER_CITIES", server gls_Cities); ("SERVER_HOSTNAMES", server gls_Hostnames)]%string.
Proof. destruct x as [s|]; [|done]. unfold whenSome, gluetunServer. by rewrite !setIf_table. Qed.

Lemma firewall_table x env : whenSome x gluetunFirewall env = setAll env
  [("FIREWALL_VPN_INPUT_PORTS", x ≫= λ f, cond (someOf (glf_VPNInputPorts f)) (joinInts (glf_VPNInputPorts f)));
   ("FIREWALL_INPUT_PORTS", x ≫= λ f, cond (someOf (glf_InputPorts f)) (joinInts (glf_InputPorts f)));
   ("FIREWALL_OUTBOUND_SUBNETS", x ≫= λ f,
      cond (someOf (glf_OutboundSubnets f)) (joinWith "," (glf_OutboundSubnets f)));
   ("FIREWALL_DEBUG", x ≫= λ f, cond (glf_Debug f) "on")]%string.
Proof. destruct x as [f|]; [|done]. unfold whenSome, gluetunFirewall. by rewrite !setIf_table. Qed.

Lemma dns_table x env : whenSome x gluetunDNS env = setAll env
  [("DOT", onOff ∘ gld_OverTLS <$> x);
   ("DNS_PLAINTEXT_ADDRESS", x ≫= λ d, cond (nonEmpty (gld_PlaintextAddress d)) (gld_PlaintextAddress d));
   ("DNS_KEEP_NAMESERVER", x ≫= λ d, cond (gld_KeepNameserver d) "on")]%string.
Proof. destruct x as [d|]; [|done]. unfold whenSome, gluetunDNS. by rewrite !setIf_table. Qed.

Lemma switch_table {A} (on : A → bool) x k env :
  whenSome x (λ a, <[k := onOff (on a)]>) env = setAll env [(k, onOff ∘ on <$> x)].
Proof. by destruct x. Qed.

Lemma logging_table x env :
  whenSome x (λ l, setIf (nonEmpty (gll_Level l)) "LOG_LEVEL" (gll_Level l)) env = setAll env
    [("LOG_LEVEL"%string, x ≫= λ l, cond (nonEmpty (gll_Level l)) (gll_Level l))].
Proof. destruct x as [l|]; [|done]. simpl whenSome. by rewrite setIf_table. Qed.

Lemma gluetun_variables input k v : GenerateGluetunEnv input !! k = Some v ↔ (k, Some v) ∈ gluetunVariables input.
Proof.
  rewrite <-lookup_setAll by (apply (bool_decide_unpack _); vm_compute; reflexivity).
  f_equiv. f_equal. unfold GenerateGluetunEnv, gluetunProvider. cbn zeta.
  by rewrite credentials_table, server_table, firewall_table, !switch_table, dns_table, logging_table.
Qed.

(** The environment of the VPN container is exactly the documented table: a
    variable is set, and to that value, if and only if the table of the
    specification and the credentials says so.  In particular the credentials of
    the VPN type that is not used never get into it. *)
Theorem gluetun_env_exact input k v :
  GenerateGluetunEnv input !! k = Some v ↔ (k, Some v) ∈ gluetunVariables input.
Proof. apply gluetun_variables. Qed.

(** ** The hash *)

(** A key, and a value, that the text of the environment does not confuse. *)
Definition plainKey (k : string) : bool := stringForall (notByte "=") k.
Definition plainValue (v : string) : bool := stringForall (notByte newline) v.
Definition plainEnv (env : Env) : Prop := map_Forall (λ k v, plainKey k = true ∧ plainValue v = true) env.

(** Two texts that are cut at the same byte for the first time. *)
Lemma cut_unique c a b r s : stringForall (notByte c) a = true → stringForall (notByte c) b = true →
  (a +:+ String c r = b +:+ String c s)%string → a = b ∧ r = s.
Proof.
  revert b. induction a as [|x a IH]; intros [|y b] Ha Hb E; simpl in *.
  - by injection E.
  - injection E as -> _. unfold notByte in Hb. by rewrite Ascii.eqb_refl in Hb.
  - injection E as -> _. unfold notByte in Ha. by rewrite Ascii.eqb_refl in Ha.
  - injection E as -> E. apply andb_true_iff in Ha as [_ Ha]. apply andb_true_iff in Hb as [_ Hb].
    by destruct (IH b Ha Hb E) as [-> ->].
Qed.

Fixpoint linesOf (l : list (string * string)) : string :=
  match l with [] => "" | (k, v) :: l => (envLine k v +:+ linesOf l)%string end.

Lemma envLine_app k v r : (envLine k v +:+ r = k +:+ String "=" (v +:+ String newline r))%string.
Proof. unfold envLine. by rewrite !append_assoc. Qed.

Lemma linesOf_inj l1 l2 :
  Forall (λ kv, plainKey kv.1 = true ∧ plainValue kv.2 = true) l1 →
  Forall (λ kv, plainKey kv.1 = true ∧ plainValue kv.2 = true) l2 →
  linesOf l1 = linesOf l2 → l1 = l2.
Proof.
  intros H1. revert l2. induction H1 as [|[k v] l1 [Hk Hv] _ IH]; intros l2 H2 E; destruct H2 as [|[k' v'] l2 [Hk' Hv'] H2];
    simpl in *; [done| | |].
  - rewrite envLine_app in E. by destruct k'.
  - rewrite envLine_app in E. by destruct k.
  - rewrite !envLine_app in E. apply cut_unique in E as [-> E]; [|done..].
    apply cut_unique in E as [-> E]; [|done..]. f_equal. by apply IH.
Qed.

Section hashing.

Lemma keys_sorted o (env : Env) : sortStrings (rangeMap o 0 env).*1 = sortedKeys env.
Proof. apply sortStrings_perm. by rewrite rangeMap_perm. Qed.

Definition entries (env : Env) : list (string * string) := (λ k, (k, default "" (env !! k))%string) <$> sortedKeys env.

Lemma envText_lines o env : envText o env = linesOf (entries env).
Proof.
  unfold envText, entries. rewrite keys_sorted.
  assert (∀ l sb, foldl (λ sb k, (sb +:+ envLine k (default "" (env !! k)))%string) sb l =
    (sb +:+ linesOf ((λ k, (k, default "" (env !! k))%string) <$> l))%string) as Hf.
  { induction l as [|k l IH]; intros sb; simpl; [by rewrite string_app_nil_r|]. by rewrite IH, append_assoc. }
  by rewrite Hf.
Qed.

Lemma elem_of_entries env k v : (k, v) ∈ entries env ↔ env !! k = Some v.
Proof.
  unfold entries. rewrite list_elem_of_fmap. setoid_rewrite elem_of_sortedKeys. split.
  - intros (k' & [= <- ->] & [v' Hv]). by rewrite Hv.
  - intros Hv. exists k. by rewrite Hv.
Qed.

Lemma entries_plain env : plainEnv env → Forall (λ kv, plainKey kv.1 = true ∧ plainValue kv.2 = true) (entries env).
Proof. intros Hp. apply Forall_forall. intros [k v] Hin%elem_of_entries. exact (Hp k v Hin). Qed.

(** The hash tells environments apart.  It does not depend on the order in which
    the map is visited, and, for environments without line breaks in their values
    and without equals signs in their names, two of them have the same hash exactly
    when they are the same (as long as SHA-256 does not collide on their texts): so
    a restart is triggered if and only if a variable changed. *)
Theorem gluetun_hash_exact o1 o2 env1 env2 :
  plainEnv env1 → plainEnv env2 →
  (sha256Prefix (envText o1 env1) = sha256Prefix (envText o2 env2) → envText o1 env1 = envText o2 env2) →
  HashGluetunEnv o1 env1 = HashGluetunEnv o2 env2 ↔ env1 = env2.
Proof.
  intros Hp1 Hp2 Hc. unfold HashGluetunEnv. split.
  - intros E%Hc. rewrite !envText_lines in E. apply linesOf_inj in E; [|by apply entries_plain..].
    apply map_eq. intros k. apply option_eq. intros v. by rewrite <-!elem_of_entries, E.
  - intros ->. by rewrite !envText_lines.
Qed.

(** The variables the generator sets are plain names; its values are plain when
    those of the specification and the credentials are. *)
Lemma generated_plain input :
  Forall (λ kv, from_option plainValue true kv.2 = true) (gluetunVariables input) →
  plainEnv (GenerateGluetunEnv input).
Proof.
  intros Hv k v Hin%gluetun_variables. split.
  - assert (forallb plainKey (gluetunVariables input).*1 = true) as Hk by (vm_compute; reflexivity).
    rewrite forallb_forall in Hk. apply Hk. apply list_elem_of_In. by apply (list_elem_of_fmap_2 fst) in Hin.
  - rewrite Forall_forall in Hv. exact (Hv _ Hin).
Qed.
End hashing.

(** ** Witness: another password is another environment *)

Definition exampleGluetun (password : string) : GluetunEnvInput :=
  mkGluetunEnvInput
    (mkGluetunSpec (mkGluetunProviderSpec "mullvad" None None) "openvpn"
       (Some (mkGluetunServerSpec [] ["Sweden"; "Norway"] [] []))%string None
       (Some (mkGluetunKillSwitchSpec true)) None None None)
    "user" password "key".

Lemma gluetun_hash_exact_witness :
  let env1 := GenerateGluetunEnv (exampleGluetun "old") in
  let env2 := GenerateGluetunEnv (exampleGluetun "new") in
  HashGluetunEnv keyOrder env1 ≠ HashGluetunEnv reverseOrder env2 ∧
  HashGluetunEnv keyOrder env1 = HashGluetunEnv reverseOrder env1.
Proof.
  assert (∀ p, plainValue p = true → plainEnv (GenerateGluetunEnv (exampleGluetun p))) as Hp.
  { intros p Hp. apply generated_plain. unfold gluetunVariables. simpl.
    destruct p as [|c p]; repeat constructor; try done; by rewrite Hp. }
  split.
  - intros E. apply (gluetun_hash_exact keyOrder reverseOrder) in E;
      [|by apply Hp..|intros Hsha; vm_compute in Hsha; discriminate Hsha].
    apply (f_equal (lookup "OPENVPN_PASSWORD"%string)) in E. vm_compute in E. discriminate E.
  - apply (gluetun_hash_exact keyOrder reverseOrder); [by apply Hp..| |reflexivity].
    intros _. by rewrite !envText_lines.
Defined.
