(* ===== verification/Transmission.v ===== *)
(** * Transmission (src/internal/adapters/downloadstack/transmission_client.go,
      transmission_settings.go)

    The RPC client with its session ID, which protects the server against requests
    forged across sites: a request without the current ID is answered 409 with it,
    and sent again.  Then the settings of the specification as arguments of the call
    session-set. *)
From S2P Require Export Settings DownloadStackApi.

(** ** The client *)

Definition SessionHeader : string := "X-Transmission-Session-Id".
Definition MaxRetries : nat := 3.

(** The fields are those of the Go struct but for the HTTP client, which has no
    cookie jar; [tc_sessionID] is the one that changes. *)
Record TransmissionClient := mkTransmissionClient {
  tc_baseURL : string;
  tc_rpcURL : string;
  tc_sessionID : string;
  tc_username : string;
  tc_password : string }.

Definition NewTransmissionClient (baseURL username password : string) : TransmissionClient :=
  mkTransmissionClient baseURL (baseURL +:+ "/transmission/rpc") "" username password.

Definition tc_set_sessionID (id : string) (c : TransmissionClient) : TransmissionClient :=
  mkTransmissionClient (tc_baseURL c) (tc_rpcURL c) id (tc_username c) (tc_password c).

Record TransmissionRPCRequest := mkTransmissionRPCRequest {
  trq_Method : string;
  trq_Arguments : gmap string any;
  trq_Tag : Z }.

#[export] Instance ToJSON_TransmissionRPCRequest : ToJSON TransmissionRPCRequest := λ r, VMap (
  [("method"%string, VString (trq_Method r))] ++
  omitIf (bool_decide (trq_Arguments r = ∅)) "arguments" (toWire (VObject (trq_Arguments r))) ++
  omitIf (trq_Tag r =? 0) "tag" (VInt (trq_Tag r))).

Record TransmissionRPCResponse := mkTransmissionRPCResponse {
  trr_Result : string;
  trr_Arguments : gmap string any;
  trr_Tag : Z }.

#[export] Instance FromJSON_TransmissionRPCResponse : FromJSON TransmissionRPCResponse := asStruct (λ l,
  vResult ← getString "result" l;
  vArguments ← getMap "arguments" l;
  vTag ← getInt "tag" l;
  Some (mkTransmissionRPCResponse vResult vArguments vTag)).

Record TransmissionSession := mkTransmissionSession {
  tse_Version : string;
  tse_SpeedLimitDown : Z;
  tse_SpeedLimitDownEnabled : bool;
  tse_SpeedLimitUp : Z;
  tse_SpeedLimitUpEnabled : bool;
  tse_AltSpeedEnabled : bool;
  tse_AltSpeedDown : Z;
  tse_AltSpeedUp : Z;
  tse_AltSpeedTimeEnabled : bool;
  tse_AltSpeedTimeBegin : Z;
  tse_AltSpeedTimeEnd : Z;
  tse_AltSpeedTimeDay : Z;
  tse_DownloadDir : string;
  tse_IncompleteDirEnabled : bool;
  tse_IncompleteDir : string;
  tse_SeedRatioLimit : float64;
  tse_SeedRatioLimited : bool;
  tse_IdleSeedingLimit : Z;
  tse_IdleSeedingLimitEnabled : bool;
  tse_DownloadQueueSize : Z;
  tse_DownloadQueueEnabled : bool;
  tse_SeedQueueSize : Z;
  tse_SeedQueueEnabled : bool;
  tse_QueueStalledEnabled : bool;
  tse_QueueStalledMinutes : Z;
  tse_PeerLimitGlobal : Z;
  tse_PeerLimitPerTorrent : Z;
  tse_PeerPort : Z;
  tse_PeerPortRandomOnStart : bool;
  tse_PortForwardingEnabled : bool;
  tse_Encryption : string;
  tse_PexEnabled : bool;
  tse_DhtEnabled : bool;
  tse_LpdEnabled : bool;
  tse_UtpEnabled : bool;
  tse_BlocklistEnabled : bool;
  tse_BlocklistURL : string;
  tse_BlocklistSize : Z }.

#[export] Instance FromJSON_TransmissionSession : FromJSON TransmissionSession := asStruct (λ l,
  vVersion ← getString "version" l;
  vSpeedLimitDown ← getInt "speed-limit-down" l;
  vSpeedLimitDownEnabled ← getBool "speed-limit-down-enabled" l;
  vSpeedLimitUp ← getInt "speed-limit-up" l;
  vSpeedLimitUpEnabled ← getBool "speed-limit-up-enabled" l;
  vAltSpeedEnabled ← getBool "alt-speed-enabled" l;
  vAltSpeedDown ← getInt "alt-speed-down" l;
  vAltSpeedUp ← getInt "alt-speed-up" l;
  vAltSpeedTimeEnabled ← getBool "alt-speed-time-enabled" l;
  vAltSpeedTimeBegin ← getInt "alt-speed-time-begin" l;
  vAltSpeedTimeEnd ← getInt "alt-speed-time-end" l;
  vAltSpeedTimeDay ← getInt "alt-speed-time-day" l;
  vDownloadDir ← getString "download-dir" l;
  vIncompleteDirEnabled ← getBool "incomplete-dir-enabled" l;
  vIncompleteDir ← getString "incomplete-dir" l;
  vSeedRatioLimit ← getFloat "seedRatioLimit" l;
  vSeedRatioLimited ← getBool "seedRatioLimited" l;
  vIdleSeedingLimit ← getInt "idle-seeding-limit" l;
  vIdleSeedingLimitEnabled ← getBool "idle-seeding-limit-enabled" l;
  vDownloadQueueSize ← getInt "download-queue-size" l;
  vDownloadQueueEnabled ← getBool "download-queue-enabled" l;
  vSeedQueueSize ← getInt "seed-queue-size" l;
  vSeedQueueEnabled ← getBool "seed-queue-enabled" l;
  vQueueStalledEnabled ← getBool "queue-stalled-enabled" l;
  vQueueStalledMinutes ← getInt "queue-stalled-minutes" l;
  vPeerLimitGlobal ← getInt "peer-limit-global" l;
  vPeerLimitPerTorrent ← getInt "peer-limit-per-torrent" l;
  vPeerPort ← getInt "peer-port" l;
  vPeerPortRandomOnStart ← getBool "peer-port-random-on-start" l;
  vPortForwardingEnabled ← getBool "port-forwarding-enabled" l;
  vEncryption ← getString "encryption" l;
  vPexEnabled ← getBool "pex-enabled" l;
  vDhtEnabled ← getBool "dht-enabled" l;
  vLpdEnabled ← getBool "lpd-enabled" l;
  vUtpEnabled ← getBool "utp-enabled" l;
  vBlocklistEnabled ← getBool "blocklist-enabled" l;
  vBlocklistURL ← getString "blocklist-url" l;
  vBlocklistSize ← getInt "blocklist-size" l;
  Some (mkTransmissionSession vVersion vSpeedLimitDown vSpeedLimitDownEnabled vSpeedLimitUp vSpeedLimitUpEnabled vAltSpeedEnabled vAltSpeedDown vAltSpeedUp vAltSpeedTimeEnabled vAltSpeedTimeBegin vAltSpeedTimeEnd vAltSpeedTimeDay vDownloadDir vIncompleteDirEnabled vIncompleteDir vSeedRatioLimit vSeedRatioLimited vIdleSeedingLimit vIdleSeedingLimitEnabled vDownloadQueueSize vDownloadQueueEnabled vSeedQueueSize vSeedQueueEnabled vQueueStalledEnabled vQueueStalledMinutes vPeerLimitGlobal vPeerLimitPerTorrent vPeerPort vPeerPortRandomOnStart vPortForwardingEnabled vEncryption vPexEnabled vDhtEnabled vLpdEnabled vUtpEnabled vBlocklistEnabled vBlocklistURL vBlocklistSize)).

Section client.
Context {W : Type} `{Transport W}.
Abbreviation MT := (M (Net W TransmissionClient)).

Definition postRPC (headers : list (string * string)) (body : any) (c : TransmissionClient) : HttpRequest :=
  mkHttpRequest "POST" (tc_rpcURL c) headers (basicAuth (tc_username c) (tc_password c)) (JSONBody body).

(** The request that asks for a session ID, and a call with one. *)
Definition sessionRequest : TransmissionClient → HttpRequest :=
  postRPC [jsonType] (VMap [("method", VString "session-get")]%string).
Definition callRequest (body : any) (c : TransmissionClient) : HttpRequest :=
  postRPC [jsonType; (SessionHeader, tc_sessionID c)] body c.

Definition sendNow (r : HttpRequest) : MT HttpReply :=
  let* x := onServices (send "failed to create request" newJar r) in ret x.2.

(** Take over the session ID of an answer, which must have one. *)
Definition takeSessionID (missing : error) (r : HttpResponse) : MT unit :=
  let* c := client in
  let id := headerOf SessionHeader (hp_Headers r) in
  setClient (tc_set_sessionID id c) ;;;
  if String.eqb id "" then fail missing else ret tt.

Definition getSessionID : MT unit :=
  let* c := client in
  let* x := sendNow (sessionRequest c) in
  match x with
  | NoReply e => fail ("failed to send request: " +:+ e)%string
  | Reply r =>
      if hp_Status r =? 409 then takeSessionID "no session ID in 409 response" r
      else if hp_Status r =? 200 then takeSessionID "successful response but no session ID" r
      else fail ("unexpected status code getting session: " +:+ Itoa (hp_Status r))%string
  end.

(** What an answer other than 409 gives. *)
Definition readRPC (r : HttpResponse) : MT TransmissionRPCResponse :=
  if hp_Status r =? 401 then fail "unauthorized - invalid credentials"
  else if negb (hp_Status r =? 200) then fail (httpError r)
  else
    let* rpcResp := unmarshal "failed to decode response" (hp_JSON r) in
    if String.eqb (trr_Result rpcResp) "success" then ret rpcResp
    else fail ("RPC error: " +:+ trr_Result rpcResp)%string.

(** The loop [for attempt := 0; attempt <= MaxRetries; attempt++] with the number of
    attempts that are left; the pauses between attempts are not modelled. *)
Fixpoint attempts (left_ : nat) (body : any) : MT TransmissionRPCResponse :=
  match left_ with
  | O => fail "request failed - max retries exceeded"
  | S left_ =>
      let* c := client in
      (if String.eqb (tc_sessionID c) ""
       then wrapErr (λ e, "failed to get session ID: " +:+ e)%string getSessionID else ret tt) ;;;
      let* c := client in
      let* x := sendNow (callRequest body c) in
      match x with
      | NoReply e =>
          if (0 <? left_)%nat then attempts left_ body
          else fail ("request failed after retries: " +:+ e)%string
      | Reply r =>
          if hp_Status r =? 409 then
            takeSessionID "session expired but no new ID provided" r ;;; attempts left_ body
          else readRPC r
      end
  end.

Definition request (method : string) (arguments : gmap string any) : MT TransmissionRPCResponse :=
  if marshalable (VObject arguments)
  then attempts (1 + MaxRetries) (toJSON (mkTransmissionRPCRequest method arguments 0))
  else fail ("failed to marshal request: " +:+ marshalError (VObject arguments))%string.

(** The arguments are encoded again and decoded into the struct. *)
Definition GetSession : MT TransmissionSession :=
  let* resp := request "session-get" ∅ in
  unmarshal "failed to unmarshal session" (Some (toWire (VObject (trr_Arguments resp)))).

Definition TransmissionTestConnection : MT unit := GetSession ;;; ret tt.
Definition SetSession (settings : gmap string any) : MT unit := request "session-set" settings ;;; ret tt.
Definition GetSessionStats : MT (gmap string any) :=
  let* resp := request "session-stats" ∅ in ret (trr_Arguments resp).
Definition UpdateBlocklist : MT unit := request "blocklist-update" ∅ ;;; ret tt.

Definition GetTransmissionVersion : MT string := let* session := GetSession in ret (tse_Version session).
End client.

(** ** The settings *)

(** Sunday is bit 0; the days of the specification count from 1 for Monday. *)
Definition dayBit (day : Z) : Z :=
  if day =? 1 then 2 else if day =? 2 then 4 else if day =? 3 then 8 else if day =? 4 then 16
  else if day =? 5 then 32 else if day =? 6 then 64 else if day =? 7 then 1 else 0.
Definition dayMask (days : list Z) : Z := foldl (λ mask day, Z.lor mask (dayBit day)) 0 days.

Section settings.
Context `{FloatSyntax}.

Definition buildTransmissionSettings (spec : TransmissionSpec) : Settings :=
  let settings := inSection (tm_Speed spec) (λ s, putAll [
    ("speed-limit-down", VInt (tms_DownloadLimit s));
    ("speed-limit-down-enabled", VBool (tms_DownloadLimitEnabled s));
    ("speed-limit-up", VInt (tms_UploadLimit s));
    ("speed-limit-up-enabled", VBool (tms_UploadLimitEnabled s))]%string) ∅ in
  let settings := inSection (tm_AltSpeed spec) (λ a m,
    putIf (negb (Nat.eqb (length (tma_TimeDays a)) 0)) "alt-speed-time-day" (VInt (dayMask (tma_TimeDays a)))
      (putAll [
        ("alt-speed-enabled", VBool (tma_Enabled a));
        ("alt-speed-down", VInt (tma_Down a));
        ("alt-speed-up", VInt (tma_Up a));
        ("alt-speed-time-enabled", VBool (tma_TimeEnabled a));
        ("alt-speed-time-begin", VInt (tma_TimeBegin a));
        ("alt-speed-time-end", VInt (tma_TimeEnd a))]%string m)) settings in
  let settings := inSection (tm_Directories spec) (λ d m,
    putAll [("incomplete-dir-enabled", VBool (tmd_IncompleteEnabled d))]%string
      (setString "incomplete-dir" (tmd_Incomplete d) (setString "download-dir" (tmd_Download d) m))) settings in
  let settings := inSection (tm_Seeding spec) (λ s m,
    putAll [
      ("seedRatioLimited", VBool (tmr_RatioLimited s));
      ("idle-seeding-limit", VInt (tmr_IdleLimit s));
      ("idle-seeding-limit-enabled", VBool (tmr_IdleLimitEnabled s))]%string
      (putSome (if String.eqb (tmr_RatioLimit s) "" then None else parseFloat (tmr_RatioLimit s))
         "seedRatioLimit" VFloat m)) settings in
  let settings := inSection (tm_Queue spec) (λ q, putAll [
    ("download-queue-size", VInt (tmq_DownloadSize q));
    ("download-queue-enabled", VBool (tmq_DownloadEnabled q));
    ("seed-queue-size", VInt (tmq_SeedSize q));
    ("seed-queue-enabled", VBool (tmq_SeedEnabled q));
    ("queue-stalled-enabled", VBool (tmq_StalledEnabled q));
    ("queue-stalled-minutes", VInt (tmq_StalledMinutes q))]%string) settings in
  let settings := inSection (tm_Peers spec) (λ p m,
    putAll [
      ("peer-port-random-on-start", VBool (tmp_RandomPort p));
      ("port-forwarding-enabled", VBool (tmp_PortForwardingEnabled p))]%string
      (setPositive "peer-port" (tmp_Port p)
        (setPositive "peer-limit-per-torrent" (tmp_LimitPerTorrent p)
          (setPositive "peer-limit-global" (tmp_LimitGlobal p) m)))) settings in
  let settings := inSection (tm_Security spec) (λ x m,
    putSome (tmx_UTPEnabled x) "utp-enabled" VBool
      (putSome (tmx_LPDEnabled x) "lpd-enabled" VBool
        (putSome (tmx_DHTEnabled x) "dht-enabled" VBool
          (putSome (tmx_PEXEnabled x) "pex-enabled" VBool
            (setString "encryption" (tmx_Encryption x) m))))) settings in
  inSection (tm_Blocklist spec) (λ b m,
    setString "blocklist-url" (tmb_URL b) (putAll [("blocklist-enabled", VBool (tmb_Enabled b))]%string m)) settings.

Definition SyncTransmissionSettings {W} `{Transport W} (spec : TransmissionSpec)
    : M (Net W TransmissionClient) unit :=
  let settings := buildTransmissionSettings spec in
  if bool_decide (settings = ∅) then ret tt else SetSession settings.
End settings.

(** ** The mask of days *)

Lemma dayBit_pow day : 1 ≤ day ≤ 7 → dayBit day = 2 ^ (day `mod` 7).
Proof.
  intros Hd. assert (day = 1 ∨ day = 2 ∨ day = 3 ∨ day = 4 ∨ day = 5 ∨ day = 6 ∨ day = 7) as Hc by lia.
  repeat destruct Hc as [->|Hc]; by subst.
Qed.

Lemma dayBit_none day : ¬ 1 ≤ day ≤ 7 → dayBit day = 0.
Proof. intros Hd. unfold dayBit. repeat case_match; lia. Qed.

Lemma dayBit_spec day i : 0 ≤ i → Z.testbit (dayBit day) i = true ↔ 1 ≤ day ≤ 7 ∧ i = day `mod` 7.
Proof.
  intros Hi. destruct (decide (1 ≤ day ≤ 7)) as [Hd|Hd].
  - rewrite dayBit_pow, Z.pow2_bits_eqb by (done || by apply Z.mod_pos_bound). rewrite Z.eqb_eq. naive_solver.
  - rewrite dayBit_none, Z.bits_0 by done. naive_solver.
Qed.

Lemma dayBit_nonneg day : 0 ≤ dayBit day.
Proof. unfold dayBit. repeat case_match; lia. Qed.

Lemma dayMask_bits days i : 0 ≤ i → Z.testbit (dayMask days) i = existsb (λ day, Z.testbit (dayBit day) i) days.
Proof.
  intros Hi. unfold dayMask. assert (∀ mask, Z.testbit (foldl (λ mask day, Z.lor mask (dayBit day)) mask days) i =
    Z.testbit mask i || existsb (λ day, Z.testbit (dayBit day) i) days) as H.
  { induction days as [|day days' IH]; intros mask; simpl; [by rewrite orb_false_r|].
    by rewrite IH, Z.lor_spec, orb_assoc. }
  by rewrite H, Z.testbit_0_l.
Qed.

Lemma dayMask_nonneg days : 0 ≤ dayMask days.
Proof.
  unfold dayMask. assert (∀ mask, 0 ≤ mask → 0 ≤ foldl (λ mask day, Z.lor mask (dayBit day)) mask days) as H.
  { induction days as [|day days' IH]; intros mask Hm; simpl; [done|]. apply IH, Z.lor_nonneg.
    split; [done|apply dayBit_nonneg]. }
  by apply H.
Qed.

(** The mask of the days of the alternative speed: it is a number of seven bits in
    which a bit is set exactly when the specification names its day, Sunday (7 there)
    being bit 0; other numbers, repetitions and the order do not matter. *)
Theorem dayMask_spec days :
  0 ≤ dayMask days < 2 ^ 7 ∧
  ∀ i, 0 ≤ i → Z.testbit (dayMask days) i = true ↔ ∃ day, day ∈ days ∧ 1 ≤ day ≤ 7 ∧ i = day `mod` 7.
Proof.
  assert (∀ i, 0 ≤ i → Z.testbit (dayMask days) i = true ↔
    ∃ day, day ∈ days ∧ 1 ≤ day ≤ 7 ∧ i = day `mod` 7) as Hbits.
  { intros i Hi. rewrite dayMask_bits, existsb_exists by done. setoid_rewrite dayBit_spec; [|done].
    by setoid_rewrite list_elem_of_In. }
  split; [|done]. split; [apply dayMask_nonneg|].
  destruct (decide (dayMask days = 0)) as [->|Hne]; [done|]. pose proof (dayMask_nonneg days).
  apply Z.log2_lt_pow2; [lia|].
  destruct (proj1 (Hbits _ (Z.log2_nonneg (dayMask days)))) as (day & _ & _ & ->); [apply Z.bit_log2; lia|].
  by apply Z.mod_pos_bound.
Qed.

(** ** The session *)

(** What Transmission promises to the client [c]: it has a session ID and settings;
    a request without the ID is answered 409 with it and changes nothing; with it,
    session-set merges its arguments into the settings, and session-get returns a
    session with the version. *)
Class TransmissionLaws {W} `{Transport W} (c : TransmissionClient) (token : W → string) (settings : W → Settings)
    (version : string) : Prop := {
  tl_url : urlParse (tc_rpcURL c) ≠ None;
  tl_token w : token w ≠ ""%string;
  tl_conflict headers body w : headerOf SessionHeader headers ≠ token w →
    ∃ w' j a, roundTrip newJar (postRPC headers body c) w = (w', (j, Reply a)) ∧
      hp_Status a = 409 ∧ headerOf SessionHeader (hp_Headers a) = token w ∧
      token w' = token w ∧ settings w' = settings w;
  tl_set w args : args ≠ ∅ →
    ∃ w' j a resp, roundTrip newJar (callRequest (toJSON (mkTransmissionRPCRequest "session-set" args 0))
        (tc_set_sessionID (token w) c)) w = (w', (j, Reply a)) ∧
      hp_Status a = 200 ∧ hp_JSON a ≫= fromJSON = Some resp ∧ trr_Result resp = "success"%string ∧
      token w' = token w ∧ settings w' = stored args ∪ settings w;
  tl_get w :
    ∃ w' j a resp session, roundTrip newJar (callRequest (toJSON (mkTransmissionRPCRequest "session-get" ∅ 0))
        (tc_set_sessionID (token w) c)) w = (w', (j, Reply a)) ∧
      hp_Status a = 200 ∧ hp_JSON a ≫= fromJSON = Some resp ∧ trr_Result resp = "success"%string ∧
      fromJSON (toWire (VObject (trr_Arguments resp))) = Some session ∧ tse_Version session = version ∧
      token w' = token w ∧ settings w' = settings w }.

Section session.
Context {W : Type} `{TransmissionLaws W}.
Implicit Types (v w : W) (x : TransmissionClient).

(** The client with the session ID [id]. *)
Abbreviation withID id := (tc_set_sessionID id c).

Lemma sendNow_run (r : HttpRequest) w (x : TransmissionClient) w' j a : hq_URL r = tc_rpcURL c →
  roundTrip newJar r w = (w', (j, a)) → sendNow r (mkNet w x) = (mkNet w' x, Ret a).
Proof.
  intros Hu E. unfold sendNow, onServices, bind, send. simpl. rewrite Hu.
  destruct (urlParse _) eqn:Ep; [|by destruct (tl_url Ep)]. by rewrite E.
Qed.

Lemma has_token w : String.eqb (token w) "" = false.
Proof. apply String.eqb_neq, (tl_token (settings:=settings)). Qed.

Lemma takeSessionID_run missing a w v x : headerOf SessionHeader (hp_Headers a) = token w →
  takeSessionID missing a (mkNet v x) = (mkNet v (tc_set_sessionID (token w) x), Ret tt).
Proof.
  intros Hh. unfold takeSessionID. rewrite bind_client. cbn zeta. rewrite bind_setClient, Hh.
  by rewrite has_token.
Qed.

(** A call that the server answers, once it has the session ID, in the worlds that
    differ from [w] by nothing it cares for. *)
Definition answered (body : any) w (post : W → TransmissionRPCResponse → Prop) : Prop :=
  ∀ v, token v = token w → settings v = settings w →
    ∃ v' j a resp, roundTrip newJar (callRequest body (withID (token w))) v = (v', (j, Reply a)) ∧
      hp_Status a = 200 ∧ hp_JSON a ≫= fromJSON = Some resp ∧ trr_Result resp = "success"%string ∧ post v' resp.

Lemma readRPC_run a resp w x : hp_Status a = 200 → hp_JSON a ≫= fromJSON = Some resp →
  trr_Result resp = "success"%string → readRPC a (mkNet w x) = (mkNet w x, Ret resp).
Proof. intros Hs Hd Hr. unfold readRPC, bind, unmarshal. rewrite Hs. simpl. rewrite Hd. simpl. by rewrite Hr. Qed.

(** With the right session ID the first attempt succeeds. *)
Lemma attempts_known body w post v n : answered body w post → token v = token w → settings v = settings w →
  ∃ v' resp, attempts (Datatypes.S n) body (mkNet v (withID (token w))) = (mkNet v' (withID (token w)), Ret resp) ∧ post v' resp.
Proof.
  intros Ha Ht Hs. destruct (Ha v Ht Hs) as (v' & j & a & resp & E & H2 & Hd & Hr & Hp).
  exists v', resp. split; [|done]. cbn [attempts]. rewrite bind_client. cbn [tc_sessionID tc_set_sessionID].
  rewrite has_token, bind_ret_l, bind_client.
  rewrite (bind_ok _ _ _ _ _ (sendNow_run (callRequest body (withID (token w))) _ _ _ _ _ eq_refl E)). rewrite H2. by apply readRPC_run.
Qed.

Lemma attempts_run id body w post n : answered body w post →
  ∃ w' resp, attempts (Datatypes.S (Datatypes.S n)) body (mkNet w (withID id)) = (mkNet w' (withID (token w)), Ret resp) ∧
    post w' resp.
Proof.
  intros Ha. destruct (decide (id = token w)) as [->|Hid]; [by apply attempts_known|].
  cbn [attempts]. rewrite bind_client. cbn [tc_sessionID tc_set_sessionID].
  destruct (String.eqb_spec id "") as [->|Hne].
  - (* no session ID: asked for, and the first attempt succeeds *)
    destruct (tl_conflict (c:=c) (token:=token) (settings:=settings) [jsonType] (VMap [("method", VString "session-get")]%string) w)
      as (w1 & j & a & E & H4 & Hh & Ht & Hs); [by apply String.eqb_neq; rewrite String.eqb_sym, has_token|].
    assert (wrapErr (λ e, "failed to get session ID: " +:+ e)%string getSessionID (mkNet w (withID "")) =
      (mkNet w1 (withID (token w)), Ret tt)) as Eg.
    { unfold wrapErr, getSessionID. rewrite bind_client.
      rewrite (bind_ok _ _ _ _ _ (sendNow_run (sessionRequest (withID "")) _ _ _ _ _ eq_refl E)). cbn beta iota. rewrite H4.
      change (409 =? 409) with true. cbn iota. by rewrite (takeSessionID_run _ a w) by done. }
    rewrite (bind_ok _ _ _ _ _ Eg).
    destruct (attempts_known body w post w1 (Datatypes.S n) Ha Ht Hs) as (v' & resp & Ea & Hp).
    exists v', resp. split; [|done]. rewrite <-Ea. cbn [attempts]. rewrite !bind_client. cbn [tc_sessionID tc_set_sessionID].
    by rewrite has_token.
  - (* an old session ID: refused, and the second attempt succeeds *)
    rewrite bind_ret_l, bind_client.
    destruct (tl_conflict (c:=c) (token:=token) (settings:=settings) [jsonType; (SessionHeader, id)] body w)
      as (w1 & j & a & E & H4 & Hh & Ht & Hs); [done|].
    rewrite (bind_ok _ _ _ _ _ (sendNow_run (callRequest body (withID id)) _ _ _ _ _ eq_refl E)). cbn beta iota. rewrite H4.
    change (409 =? 409) with true. cbn iota. rewrite (bind_ok _ _ _ _ _ (takeSessionID_run _ a w w1 _ Hh)).
    exact (attempts_known body w post w1 n Ha Ht Hs).
Qed.
Lemma SetSession_run id args w : args ≠ ∅ → marshalable (VObject args) = true →
  ∃ w', SetSession args (mkNet w (withID id)) = (mkNet w' (withID (token w)), Ret tt) ∧
    token w' = token w ∧ settings w' = stored args ∪ settings w.
Proof.
  intros Hne Hm. unfold SetSession, request. rewrite Hm.
  destruct (attempts_run id (toJSON (mkTransmissionRPCRequest "session-set" args 0)) w
    (λ v _, token v = token w ∧ settings v = stored args ∪ settings w) 2) as (w' & resp & E & Ht & Hs).
  - intros v Ht Hs. destruct (tl_set (settings:=settings) v args Hne) as (v' & j & a & resp & E & H2 & Hd & Hr & Ht' & Hs').
    rewrite Ht in E. exists v', j, a, resp. by rewrite Ht', Hs', Ht, Hs.
  - exists w'. by rewrite (bind_ok _ _ _ _ _ E).
Qed.

Lemma GetSession_run id w : ∃ w' session,
  GetSession (mkNet w (withID id)) = (mkNet w' (withID (token w)), Ret session) ∧
  tse_Version session = version ∧ token w' = token w ∧ settings w' = settings w.
Proof.
  unfold GetSession, request.
  destruct (attempts_run id (toJSON (mkTransmissionRPCRequest "session-get" ∅ 0)) w
    (λ v resp, (∃ session, fromJSON (toWire (VObject (trr_Arguments resp))) = Some session ∧ tse_Version session = version) ∧
      token v = token w ∧ settings v = settings w) 2) as (w' & resp & E & (session & Hd & Hv) & Ht & Hs).
  - intros v Ht Hs. destruct (tl_get (settings:=settings) v) as (v' & j & a & resp & session & E & H2 & Hd & Hr & Hses & Hv & Ht' & Hs').
    rewrite Ht in E. exists v', j, a, resp. rewrite Ht', Hs', Ht, Hs. split_and!; [done..|by exists session|done|done].
  - exists w', session. split; [|done]. change (marshalable (VObject ∅)) with true. cbn iota.
    rewrite (bind_ok _ _ _ _ _ E). by apply unmarshal_ok.
Qed.

(** C14: The settings reach Transmission.  Whatever session ID the client has, none, an
    old one or the current one, the sync of a specification returns, the server then
    has the settings of the specification over those it had, and syncing again
    changes nothing; only a seed ratio that is no number of JSON makes it fail, and
    then nothing is sent. *)
Theorem transmission_sync `{FloatSyntax} id spec w :
  let n := mkNet w (withID id) in
  let desired := buildTransmissionSettings spec in
  if marshalable (VObject desired) then
    ∃ w' id', SyncTransmissionSettings spec n = (mkNet w' (withID id'), Ret tt) ∧
      token w' = token w ∧ settings w' = stored desired ∪ settings w ∧
      ∃ w'', SyncTransmissionSettings spec (mkNet w' (withID id')) = (mkNet w'' (withID id'), Ret tt) ∧
        settings w'' = settings w'
  else ∃ e, SyncTransmissionSettings spec n = (n, Err e).
Proof.
  cbn zeta. unfold SyncTransmissionSettings. cbn zeta. set (desired := buildTransmissionSettings spec).
  destruct (marshalable _) eqn:Hm.
  - case_bool_decide as Hd.
    + exists w, id. rewrite Hd. unfold stored. rewrite fmap_empty, (left_id_L ∅ (∪)). split_and!; [done..|by exists w].
    + destruct (SetSession_run id desired w Hd Hm) as (w' & E & Ht & Hs). exists w', (token w). split_and!; [done..|].
      destruct (SetSession_run (token w) desired w' Hd Hm) as (w'' & E' & _ & Hs'). exists w''. rewrite Ht in E'.
      split; [done|]. by rewrite Hs', Hs, (assoc_L (∪)), (idemp_L (∪)).
  - case_bool_decide as Hd; [by rewrite Hd in Hm|]. unfold SetSession, request. rewrite Hm. by eexists.
Qed.
End session.

(** ** The number of requests *)

Section bound.
Context {W : Type} `{Transport W}.
(** The number of requests the services have answered. *)
Context (count : W → nat) (counts : ∀ j r w, count (roundTrip j r w).1 = Datatypes.S (count w)).
Abbreviation MT := (M (Net W TransmissionClient)).
Implicit Types (n : Net W TransmissionClient).

Abbreviation sent n := (count (net_services n)).
Abbreviation hasID n := (tc_sessionID (net_client n) ≠ ""%string).

(** From [n], the run of [m] makes at most [a] requests and does not crash, and what it
    returns satisfies [Q]. *)
Definition spends {A} (a : nat) (m : MT A) n (Q : A → Net W TransmissionClient → Prop) : Prop :=
  (sent (m n).1 ≤ a + sent n)%nat ∧ (∀ why, (m n).2 ≠ Panic why) ∧ ∀ v, (m n).2 = Ret v → Q v (m n).1.

Lemma spends_bind {A B} a b (m : MT A) (k : A → MT B) n Q R :
  spends a m n Q → (∀ v n', Q v n' → spends b (k v) n' R) → spends (a + b) (bind m k) n R.
Proof.
  intros (Hs & Hp & Hq) Hk. unfold spends, bind. destruct (m n) as [n' [v|e|why]]; simpl in *.
  - destruct (Hk v n' (Hq v eq_refl)) as (Hs' & Hp' & Hq'). split_and!; [lia|done..].
  - split_and!; [lia|done..].
  - by destruct (Hp why).
Qed.

Lemma spends_wrapErr {A} f a (m : MT A) n Q : spends a m n Q → spends a (wrapErr f m) n Q.
Proof. unfold spends, wrapErr. destruct (m n) as [n' [v|e|why]]; naive_solver. Qed.
Lemma spends_ret {A} (v : A) n (Q : A → _ → Prop) : Q v n → spends 0 (ret v) n Q.
Proof. intros HQ. split_and!; [done..|]. by intros ? [= <-]. Qed.
Lemma spends_fail {A} e n (Q : A → _ → Prop) : spends 0 (fail e) n Q.
Proof. by split_and!. Qed.
Lemma spends_client n : spends 0 client n (λ c n', n' = n ∧ c = net_client n).
Proof. split_and!; [done..|]. by intros ? [= <-]. Qed.
Lemma spends_weaken {A} a b (m : MT A) n (Q R : A → _ → Prop) : (a ≤ b)%nat → (∀ v n', Q v n' → R v n') →
  spends a m n Q → spends b m n R.
Proof. intros Hab HQ (Hs & Hp & Hq). split_and!; [lia|done|]. eauto. Qed.

Lemma spends_sendNow r n : spends 1 (sendNow r) n (λ _ n', net_client n' = net_client n).
Proof using counts.
  unfold spends, sendNow, onServices, bind, send. destruct n as [w c]. simpl. destruct (urlParse _); [|simpl; split_and!; [lia|done..]].
  pose proof (counts newJar r w) as Hc. destruct (roundTrip newJar r w) as [w' [j x]]. simpl in *. rewrite Hc.
  by split_and!.
Qed.

Lemma spends_takeSessionID missing r n : spends 0 (takeSessionID missing r) n (λ _ n', hasID n').
Proof.
  unfold spends, takeSessionID, bind, client, setClient. destruct n as [w c]. simpl.
  by destruct (String.eqb_spec (headerOf SessionHeader (hp_Headers r)) "").
Qed.

Lemma spends_getSessionID n : spends 1 getSessionID n (λ _ n', hasID n').
Proof using counts.
  apply (spends_bind 0 1 _ _ _ _ _ (spends_client n)). intros c n0 [-> ->].
  apply (spends_bind 1 0 _ _ _ _ _ (spends_sendNow _ n)). intros x n1 _.
  destruct x as [e|r]; [apply spends_fail|].
  repeat case_match; first [apply spends_takeSessionID|apply spends_fail].
Qed.

Lemma spends_readRPC r n : spends 0 (readRPC r) n (λ _ _, True).
Proof.
  unfold readRPC. destruct (hp_Status r =? 401); [apply spends_fail|].
  destruct (negb _); [apply spends_fail|]. apply (spends_bind 0 0 _ _ _ (λ _ _, True)).
  - unfold unmarshal. case_match; [by apply spends_ret|apply spends_fail].
  - intros resp n' _. case_match; [by apply spends_ret|apply spends_fail].
Qed.

(** With a session ID there is one request for each attempt. *)
Lemma spends_attempts k body n : hasID n → spends k (attempts k body) n (λ _ _, True).
Proof using counts.
  revert n. induction k as [|k IH]; intros n Hn; [apply spends_fail|]. cbn [attempts].
  apply (spends_bind 0 _ _ _ _ _ _ (spends_client n)). intros c n0 [-> ->].
  rewrite (proj2 (String.eqb_neq _ _) Hn).
  apply (spends_bind 0 _ _ _ _ (λ _ n1, n1 = n)); [by apply spends_ret|]. intros _ n0 ->.
  apply (spends_bind 0 _ _ _ _ _ _ (spends_client n)). intros c n0 [-> ->].
  apply (spends_bind 1 k _ _ _ _ _ (spends_sendNow _ n)). intros [e|r] n1 Hc.
  - destruct (0 <? k)%nat; [apply IH; by rewrite Hc|]. apply (spends_weaken 0 _ _ _ (λ _ _, True)); [lia|done|apply spends_fail].
  - destruct (hp_Status r =? 409).
    + apply (spends_bind 0 _ _ _ _ _ _ (spends_takeSessionID _ _ n1)). intros _ n2 H2. by apply IH.
    + apply (spends_weaken 0 _ _ _ (λ _ _, True)); [lia|done|apply spends_readRPC].
Qed.

Lemma spends_request method arguments n : spends (2 + MaxRetries) (request method arguments) n (λ _ _, True).
Proof using counts.
  unfold request. destruct (marshalable _); [|apply (spends_weaken 0 _ _ _ (λ _ _, True)); [lia|done|apply spends_fail]].
  set (body := toJSON _). destruct (decide (hasID n)) as [Hid|Hid].
  { apply (spends_weaken 4 _ _ _ (λ _ _, True)); [unfold MaxRetries; lia|done|by apply spends_attempts]. }
  change (1 + MaxRetries)%nat with 4%nat. cbn [attempts].
  apply (spends_bind 0 5 _ _ _ _ _ (spends_client n)). intros c n0 [-> ->].
  destruct (String.eqb_spec (tc_sessionID (net_client n)) "") as [_|]; [|by destruct Hid].
  apply (spends_bind 1 4 _ _ _ _ _ (spends_wrapErr _ _ _ _ _ (spends_getSessionID n))). intros _ n1 H1.
  (* what follows is an attempt of a client with a session ID *)
  pose proof (spends_attempts 4 body n1 H1) as Ha. cbn [attempts] in Ha. unfold spends in *. revert Ha.
  destruct n1 as [w1 c1]. rewrite !bind_client. cbn in H1. by rewrite (proj2 (String.eqb_neq _ _) H1), !bind_ret_l, !bind_client.
Qed.

(** C31: A call makes at most five requests, one for each of the four attempts and one for
    the session ID, whatever the server answers, and never crashes. *)
Theorem request_bounded method arguments n :
  (sent (request method arguments n).1 ≤ 2 + MaxRetries + sent n)%nat ∧
  ∀ why, (request method arguments n).2 ≠ Panic why.
Proof using counts. destruct (spends_request method arguments n) as (Hs & Hp & _). by split. Qed.
End bound.

(** ** A server that keeps the promise *)
Module MiniTransmission.

Definition theToken : string := "s3cret".
Definition exampleClient : TransmissionClient := NewTransmissionClient "http://seedbox:9091" "admin" "pw".

Definition answer (status : Z) (document : any) : HttpReply :=
  Reply (mkHttpResponse status [(SessionHeader, theToken)] "" (Some document) None).
Definition success (arguments : list (string * any)) : HttpReply :=
  answer 200 (VMap [("result", VString "success"); ("arguments", VMap arguments)]%string).

(** The state is the settings; the version is all that a session tells. *)
Definition respond (r : HttpRequest) (settings : Settings) : Settings * HttpReply :=
  if String.eqb (headerOf SessionHeader (hq_Headers r)) theToken then
    match hq_Body r with
    | JSONBody (VMap [(_, VString "session-set"); (_, VMap arguments)])%string =>
        (list_to_map arguments ∪ settings, success [])
    | _ => (settings, success [("version", VString "4.0.5")]%string)
    end
  else (settings, answer 409 VNil).

#[export] Instance Server : Transport Settings := {|
  Jar := unit;
  newJar := tt;
  roundTrip j r s := let '(s', x) := respond r s in (s', (tt, x));
  newRequestError := id;
  marshalError _ := "json: unsupported value"%string;
  unmarshalError _ := "json"%string;
  xmlError _ := "xml"%string |}.

#[export] Instance keeps : TransmissionLaws exampleClient (λ _, theToken) id "4.0.5".
Proof.
  split.
  - vm_compute. discriminate.
  - discriminate.
  - intros headers body w Hne. unfold roundTrip, Server, respond. simpl.
    rewrite (proj2 (String.eqb_neq _ _) Hne). by eexists _, tt, _.
  - intros w args Hne. unfold roundTrip, Server, respond. simpl.
    rewrite bool_decide_eq_false_2 by done. simpl. rewrite arguments_stored.
    eexists _, tt, _, (mkTransmissionRPCResponse "success" ∅ 0). by split_and!.
  - intros w. eexists _, tt, _, (mkTransmissionRPCResponse "success" {["version"%string := VString "4.0.5"]} 0).
    eexists. split_and!; [reflexivity|reflexivity|reflexivity|done|vm_compute; reflexivity|done..].
Qed.
End MiniTransmission.

Section witnesses.
Import MiniTransmission.

#[local] Instance noFloats : FloatSyntax := {| parseFloat _ := None; scanFloat _ := None |}.

Definition exampleTransmission : TransmissionSpec :=
  mkTransmissionSpec (mkTransmissionConnectionSpec "http://seedbox:9091" None)
    (Some (mkTransmissionSpeedSpec 1000 true 200 true))
    (Some (mkTransmissionAltSpeedSpec true 50 10 true 540 1020 [1; 7; 7])) None None None None None None.

(** A stale session ID is renewed and the settings, with the mask of Monday and Sunday,
    are there. *)
Lemma transmission_sync_witness : ∃ s',
  SyncTransmissionSettings exampleTransmission (mkNet (∅ : Settings) (tc_set_sessionID "stale" exampleClient)) =
    (mkNet s' (tc_set_sessionID theToken exampleClient), Ret tt) ∧
  s' !! "alt-speed-time-day"%string = Some (VInt 3).
Proof.
  pose proof (transmission_sync (c:=exampleClient) (token:=λ _, theToken) (settings:=id) "stale" exampleTransmission ∅) as H.
  cbv zeta in H. assert (marshalable (VObject (buildTransmissionSettings exampleTransmission)) = true) as Hm
    by (vm_compute; reflexivity). rewrite Hm in H.
  destruct H as (s' & id' & E & _ & Hs & _). exists s'. split.
  - assert (id' = theToken) as ->; [|exact E].
    apply (f_equal (tc_sessionID ∘ net_client ∘ fst)) in E. simpl in E. rewrite <-E. vm_compute. reflexivity.
  - simpl in Hs. rewrite Hs. vm_compute. reflexivity.
Defined.

(** A server that counts its requests and always answers 409. *)
#[local] Instance refusing : Transport nat := {|
  Jar := unit; newJar := tt;
  roundTrip _ _ n := (Datatypes.S n, (tt, answer 409 VNil));
  newRequestError := id; marshalError _ := ""%string; unmarshalError _ := ""%string; xmlError _ := ""%string |}.

Lemma request_bounded_witness : ∃ n',
  (request "session-get" ∅ (mkNet 0%nat exampleClient)).1 = n' ∧ (net_services n' ≤ 5)%nat ∧ net_services n' = 5%nat.
Proof.
  destruct (request_bounded (W:=nat) id ltac:(done) "session-get" ∅ (mkNet 0%nat exampleClient)) as [H _].
  eexists. split; [reflexivity|]. split; [exact H|vm_compute; reflexivity].
Defined.
End witnesses.
