(* ===== verification/ClientTypes.v ===== *)
(** * The documents of the download clients (src/internal/adapters/downloadstack)

    What the clients of qBittorrent, Deluge, SABnzbd and NZBGet decode answers into:
    one record per Go struct and its decoding, from the field tags. *)
From S2P Require Export Rpc.

(** ** qBittorrent *)

Record QBittorrentPreferences := mkQBittorrentPreferences {
  qpr_Locale : string;
  qpr_CreateSubfolderEnabled : bool;
  qpr_StartPausedEnabled : bool;
  qpr_AutoDeleteMode : Z;
  qpr_PreallocateAll : bool;
  qpr_IncompleteFilesExt : bool;
  qpr_SavePath : string;
  qpr_TempPathEnabled : bool;
  qpr_TempPath : string;
  qpr_ExportDir : string;
  qpr_ExportDirFin : string;
  qpr_ScanDirs : any;
  qpr_MailNotificationEnabled : bool;
  qpr_MailNotificationSender : string;
  qpr_MailNotificationEmail : string;
  qpr_MailNotificationSmtp : string;
  qpr_MailNotificationSslEnabled : bool;
  qpr_MailNotificationAuthEnabled : bool;
  qpr_MailNotificationUsername : string;
  qpr_MailNotificationPassword : string;
  qpr_ListenPort : Z;
  qpr_Upnp : bool;
  qpr_RandomPort : bool;
  qpr_MaxConnec : Z;
  qpr_MaxConnecPerTorrent : Z;
  qpr_MaxUploads : Z;
  qpr_MaxUploadsPerTorrent : Z;
  qpr_DlLimit : Z;
  qpr_UpLimit : Z;
  qpr_AltDlLimit : Z;
  qpr_AltUpLimit : Z;
  qpr_BittorrentProtocol : Z;
  qpr_LimitUtpRate : bool;
  qpr_LimitTcpOverhead : bool;
  qpr_LimitLanPeers : bool;
  qpr_SchedulerEnabled : bool;
  qpr_ScheduleFromHour : Z;
  qpr_ScheduleFromMin : Z;
  qpr_ScheduleToHour : Z;
  qpr_ScheduleToMin : Z;
  qpr_SchedulerDays : Z;
  qpr_Dht : bool;
  qpr_Pex : bool;
  qpr_Lsd : bool;
  qpr_Encryption : Z;
  qpr_AnonymousMode : bool;
  qpr_QueueingEnabled : bool;
  qpr_MaxActiveDownloads : Z;
  qpr_MaxActiveTorrents : Z;
  qpr_MaxActiveUploads : Z;
  qpr_DontCountSlowTorrents : bool;
  qpr_SlowTorrentDlRateThreshold : Z;
  qpr_SlowTorrentUlRateThreshold : Z;
  qpr_SlowTorrentInactiveTimer : Z;
  qpr_MaxRatio : float64;
  qpr_MaxRatioEnabled : bool;
  qpr_MaxSeedingTime : Z;
  qpr_MaxSeedingTimeEnabled : bool;
  qpr_MaxRatioAct : Z;
  qpr_WebUiDomainList : string;
  qpr_WebUiAddress : string;
  qpr_WebUiPort : Z;
  qpr_WebUiUpnp : bool;
  qpr_WebUiUsername : string;
  qpr_WebUiPassword : string;
  qpr_WebUiCsrfProtectionEnabled : bool;
  qpr_WebUiClickjackingProtectionEnabled : bool;
  qpr_WebUiSecureCookieEnabled : bool;
  qpr_WebUiMaxAuthFailCount : Z;
  qpr_WebUiBanDuration : Z;
  qpr_WebUiSessionTimeout : Z;
  qpr_BypassLocalAuth : bool;
  qpr_BypassAuthSubnetWhitelistEnabled : bool;
  qpr_BypassAuthSubnetWhitelist : string;
  qpr_AlternativeWebuiEnabled : bool;
  qpr_AlternativeWebuiPath : string;
  qpr_UseHttps : bool }.

#[export] Instance FromJSON_QBittorrentPreferences : FromJSON QBittorrentPreferences := asStruct (λ l,
  vLocale ← getString "locale" l;
  vCreateSubfolderEnabled ← getBool "create_subfolder_enabled" l;
  vStartPausedEnabled ← getBool "start_paused_enabled" l;
  vAutoDeleteMode ← getInt "auto_delete_mode" l;
  vPreallocateAll ← getBool "preallocate_all" l;
  vIncompleteFilesExt ← getBool "incomplete_files_ext" l;
  vSavePath ← getString "save_path" l;
  vTempPathEnabled ← getBool "temp_path_enabled" l;
  vTempPath ← getString "temp_path" l;
  vExportDir ← getString "export_dir" l;
  vExportDirFin ← getString "export_dir_fin" l;
  vScanDirs ← getAny "scan_dirs" l;
  vMailNotificationEnabled ← getBool "mail_notification_enabled" l;
  vMailNotificationSender ← getString "mail_notification_sender" l;
  vMailNotificationEmail ← getString "mail_notification_email" l;
  vMailNotificationSmtp ← getString "mail_notification_smtp" l;
  vMailNotificationSslEnabled ← getBool "mail_notification_ssl_enabled" l;
  vMailNotificationAuthEnabled ← getBool "mail_notification_auth_enabled" l;
  vMailNotificationUsername ← getString "mail_notification_username" l;
  vMailNotificationPassword ← getString "mail_notification_password" l;
  vListenPort ← getInt "listen_port" l;
  vUpnp ← getBool "upnp" l;
  vRandomPort ← getBool "random_port" l;
  vMaxConnec ← getInt "max_connec" l;
  vMaxConnecPerTorrent ← getInt "max_connec_per_torrent" l;
  vMaxUploads ← getInt "max_uploads" l;
  vMaxUploadsPerTorrent ← getInt "max_uploads_per_torrent" l;
  vDlLimit ← getInt "dl_limit" l;
  vUpLimit ← getInt "up_limit" l;
  vAltDlLimit ← getInt "alt_dl_limit" l;
  vAltUpLimit ← getInt "alt_up_limit" l;
  vBittorrentProtocol ← getInt "bittorrent_protocol" l;
  vLimitUtpRate ← getBool "limit_utp_rate" l;
  vLimitTcpOverhead ← getBool "limit_tcp_overhead" l;
  vLimitLanPeers ← getBool "limit_lan_peers" l;
  vSchedulerEnabled ← getBool "scheduler_enabled" l;
  vScheduleFromHour ← getInt "schedule_from_hour" l;
  vScheduleFromMin ← getInt "schedule_from_min" l;
  vScheduleToHour ← getInt "schedule_to_hour" l;
  vScheduleToMin ← getInt "schedule_to_min" l;
  vSchedulerDays ← getInt "scheduler_days" l;
  vDht ← getBool "dht" l;
  vPex ← getBool "pex" l;
  vLsd ← getBool "lsd" l;
  vEncryption ← getInt "encryption" l;
  vAnonymousMode ← getBool "anonymous_mode" l;
  vQueueingEnabled ← getBool "queueing_enabled" l;
  vMaxActiveDownloads ← getInt "max_active_downloads" l;
  vMaxActiveTorrents ← getInt "max_active_torrents" l;
  vMaxActiveUploads ← getInt "max_active_uploads" l;
  vDontCountSlowTorrents ← getBool "dont_count_slow_torrents" l;
  vSlowTorrentDlRateThreshold ← getInt "slow_torrent_dl_rate_threshold" l;
  vSlowTorrentUlRateThreshold ← getInt "slow_torrent_ul_rate_threshold" l;
  vSlowTorrentInactiveTimer ← getInt "slow_torrent_inactive_timer" l;
  vMaxRatio ← getFloat "max_ratio" l;
  vMaxRatioEnabled ← getBool "max_ratio_enabled" l;
  vMaxSeedingTime ← getInt "max_seeding_time" l;
  vMaxSeedingTimeEnabled ← getBool "max_seeding_time_enabled" l;
  vMaxRatioAct ← getInt "max_ratio_act" l;
  vWebUiDomainList ← getString "web_ui_domain_list" l;
  vWebUiAddress ← getString "web_ui_address" l;
  vWebUiPort ← getInt "web_ui_port" l;
  vWebUiUpnp ← getBool "web_ui_upnp" l;
  vWebUiUsername ← getString "web_ui_username" l;
  vWebUiPassword ← getString "web_ui_password" l;
  vWebUiCsrfProtectionEnabled ← getBool "web_ui_csrf_protection_enabled" l;
  vWebUiClickjackingProtectionEnabled ← getBool "web_ui_clickjacking_protection_enabled" l;
  vWebUiSecureCookieEnabled ← getBool "web_ui_secure_cookie_enabled" l;
  vWebUiMaxAuthFailCount ← getInt "web_ui_max_auth_fail_count" l;
  vWebUiBanDuration ← getInt "web_ui_ban_duration" l;
  vWebUiSessionTimeout ← getInt "web_ui_session_timeout" l;
  vBypassLocalAuth ← getBool "bypass_local_auth" l;
  vBypassAuthSubnetWhitelistEnabled ← getBool "bypass_auth_subnet_whitelist_enabled" l;
  vBypassAuthSubnetWhitelist ← getString "bypass_auth_subnet_whitelist" l;
  vAlternativeWebuiEnabled ← getBool "alternative_webui_enabled" l;
  vAlternativeWebuiPath ← getString "alternative_webui_path" l;
  vUseHttps ← getBool "use_https" l;
  Some (mkQBittorrentPreferences vLocale vCreateSubfolderEnabled vStartPausedEnabled vAutoDeleteMode vPreallocateAll vIncompleteFilesExt vSavePath vTempPathEnabled vTempPath vExportDir vExportDirFin vScanDirs vMailNotificationEnabled vMailNotificationSender vMailNotificationEmail vMailNotificationSmtp vMailNotificationSslEnabled vMailNotificationAuthEnabled vMailNotificationUsername vMailNotificationPassword vListenPort vUpnp vRandomPort vMaxConnec vMaxConnecPerTorrent vMaxUploads vMaxUploadsPerTorrent vDlLimit vUpLimit vAltDlLimit vAltUpLimit vBittorrentProtocol vLimitUtpRate vLimitTcpOverhead vLimitLanPeers vSchedulerEnabled vScheduleFromHour vScheduleFromMin vScheduleToHour vScheduleToMin vSchedulerDays vDht vPex vLsd vEncryption vAnonymousMode vQueueingEnabled vMaxActiveDownloads vMaxActiveTorrents vMaxActiveUploads vDontCountSlowTorrents vSlowTorrentDlRateThreshold vSlowTorrentUlRateThreshold vSlowTorrentInactiveTimer vMaxRatio vMaxRatioEnabled vMaxSeedingTime vMaxSeedingTimeEnabled vMaxRatioAct vWebUiDomainList vWebUiAddress vWebUiPort vWebUiUpnp vWebUiUsername vWebUiPassword vWebUiCsrfProtectionEnabled vWebUiClickjackingProtectionEnabled vWebUiSecureCookieEnabled vWebUiMaxAuthFailCount vWebUiBanDuration vWebUiSessionTimeout vBypassLocalAuth vBypassAuthSubnetWhitelistEnabled vBypassAuthSubnetWhitelist vAlternativeWebuiEnabled vAlternativeWebuiPath vUseHttps)).

(** ** Deluge *)

Record DelugeRPCError := mkDelugeRPCError {
  dre_Message : string;
  dre_Code : Z }.

#[export] Instance FromJSON_DelugeRPCError : FromJSON DelugeRPCError := asStruct (λ l,
  vMessage ← getString "message" l;
  vCode ← getInt "code" l;
  Some (mkDelugeRPCError vMessage vCode)).

Record DelugeRPCResponse := mkDelugeRPCResponse {
  drr_ID : Z;
  drr_Result : option any;
  drr_Error : option DelugeRPCError }.

#[export] Instance FromJSON_DelugeRPCResponse : FromJSON DelugeRPCResponse := asStruct (λ l,
  vID ← getInt "id" l;
  vResult ← getRaw "result" l;
  vError ← getPtr fromJSON "error" l;
  Some (mkDelugeRPCResponse vID vResult vError)).

Record DelugeConfig := mkDelugeConfig {
  dcf_DownloadLocation : string;
  dcf_MoveCompleted : bool;
  dcf_MoveCompletedPath : string;
  dcf_AutoManagedDefault : bool;
  dcf_CopyTorrentFile : bool;
  dcf_TorrentfilesLocation : string;
  dcf_MaxDownloadSpeed : float64;
  dcf_MaxUploadSpeed : float64;
  dcf_MaxDownloadSpeedPerTorrent : float64;
  dcf_MaxUploadSpeedPerTorrent : float64;
  dcf_MaxConnections : Z;
  dcf_MaxConnectionsPerTorrent : Z;
  dcf_MaxUploadSlots : Z;
  dcf_MaxUploadSlotsPerTorrent : Z;
  dcf_StopSeedAtRatio : bool;
  dcf_StopSeedRatio : float64;
  dcf_RemoveAtRatio : bool;
  dcf_ShareRatioLimit : float64;
  dcf_SeedTimeRatioLimit : float64;
  dcf_SeedTimeLimit : Z;
  dcf_MaxActiveDownloading : Z;
  dcf_MaxActiveSeeding : Z;
  dcf_MaxActiveLimit : Z;
  dcf_QueueNewToTop : bool;
  dcf_StopSeedWhenShareRatioReached : bool;
  dcf_ListenPorts : list Z;
  dcf_RandomPort : bool;
  dcf_ListenInterface : string;
  dcf_OutgoingInterface : string;
  dcf_ListenUsesSysPorts : bool;
  dcf_ListenReusePorts : bool;
  dcf_DHTEnabled : bool;
  dcf_UPnPEnabled : bool;
  dcf_NATPMPEnabled : bool;
  dcf_LSDEnabled : bool;
  dcf_PEEnabled : bool;
  dcf_PEEncLevel : Z;
  dcf_ProxyEnabled : bool;
  dcf_ProxyHostname : string;
  dcf_ProxyPort : Z;
  dcf_ProxyUsername : string;
  dcf_ProxyPassword : string;
  dcf_AddPaused : bool;
  dcf_PreAllocateStorage : bool;
  dcf_PrioritizeFirstLastPieces : bool;
  dcf_SequentialDownload : bool;
  dcf_SuperSeeding : bool }.

#[export] Instance FromJSON_DelugeConfig : FromJSON DelugeConfig := asStruct (λ l,
  vDownloadLocation ← getString "download_location" l;
  vMoveCompleted ← getBool "move_completed" l;
  vMoveCompletedPath ← getString "move_completed_path" l;
  vAutoManagedDefault ← getBool "auto_managed_default" l;
  vCopyTorrentFile ← getBool "copy_torrent_file" l;
  vTorrentfilesLocation ← getString "torrentfiles_location" l;
  vMaxDownloadSpeed ← getFloat "max_download_speed" l;
  vMaxUploadSpeed ← getFloat "max_upload_speed" l;
  vMaxDownloadSpeedPerTorrent ← getFloat "max_download_speed_per_torrent" l;
  vMaxUploadSpeedPerTorrent ← getFloat "max_upload_speed_per_torrent" l;
  vMaxConnections ← getInt "max_connections_global" l;
  vMaxConnectionsPerTorrent ← getInt "max_connections_per_torrent" l;
  vMaxUploadSlots ← getInt "max_upload_slots_global" l;
  vMaxUploadSlotsPerTorrent ← getInt "max_upload_slots_per_torrent" l;
  vStopSeedAtRatio ← getBool "stop_seed_at_ratio" l;
  vStopSeedRatio ← getFloat "stop_seed_ratio" l;
  vRemoveAtRatio ← getBool "remove_seed_at_ratio" l;
  vShareRatioLimit ← getFloat "share_ratio_limit" l;
  vSeedTimeRatioLimit ← getFloat "seed_time_ratio_limit" l;
  vSeedTimeLimit ← getInt "seed_time_limit" l;
  vMaxActiveDownloading ← getInt "max_active_downloading" l;
  vMaxActiveSeeding ← getInt "max_active_seeding" l;
  vMaxActiveLimit ← getInt "max_active_limit" l;
  vQueueNewToTop ← getBool "queue_new_to_top" l;
  vStopSeedWhenShareRatioReached ← getBool "stop_seed_when_share_ratio_reached" l;
  vListenPorts ← getSlice asIntElem "listen_ports" l;
  vRandomPort ← getBool "random_port" l;
  vListenInterface ← getString "listen_interface" l;
  vOutgoingInterface ← getString "outgoing_interface" l;
  vListenUsesSysPorts ← getBool "listen_use_sys_port" l;
  vListenReusePorts ← getBool "listen_reuse_port" l;
  vDHTEnabled ← getBool "dht" l;
  vUPnPEnabled ← getBool "upnp" l;
  vNATPMPEnabled ← getBool "natpmp" l;
  vLSDEnabled ← getBool "lsd" l;
  vPEEnabled ← getBool "pe_enabled" l;
  vPEEncLevel ← getInt "enc_level" l;
  vProxyEnabled ← getBool "proxy_type" l;
  vProxyHostname ← getString "proxy_hostname" l;
  vProxyPort ← getInt "proxy_port" l;
  vProxyUsername ← getString "proxy_username" l;
  vProxyPassword ← getString "proxy_password" l;
  vAddPaused ← getBool "add_paused" l;
  vPreAllocateStorage ← getBool "pre_allocate_storage" l;
  vPrioritizeFirstLastPieces ← getBool "prioritize_first_last_pieces" l;
  vSequentialDownload ← getBool "sequential_download" l;
  vSuperSeeding ← getBool "super_seeding" l;
  Some (mkDelugeConfig vDownloadLocation vMoveCompleted vMoveCompletedPath vAutoManagedDefault vCopyTorrentFile vTorrentfilesLocation vMaxDownloadSpeed vMaxUploadSpeed vMaxDownloadSpeedPerTorrent vMaxUploadSpeedPerTorrent vMaxConnections vMaxConnectionsPerTorrent vMaxUploadSlots vMaxUploadSlotsPerTorrent vStopSeedAtRatio vStopSeedRatio vRemoveAtRatio vShareRatioLimit vSeedTimeRatioLimit vSeedTimeLimit vMaxActiveDownloading vMaxActiveSeeding vMaxActiveLimit vQueueNewToTop vStopSeedWhenShareRatioReached vListenPorts vRandomPort vListenInterface vOutgoingInterface vListenUsesSysPorts vListenReusePorts vDHTEnabled vUPnPEnabled vNATPMPEnabled vLSDEnabled vPEEnabled vPEEncLevel vProxyEnabled vProxyHostname vProxyPort vProxyUsername vProxyPassword vAddPaused vPreAllocateStorage vPrioritizeFirstLastPieces vSequentialDownload vSuperSeeding)).

(** ** SABnzbd *)

Record SABnzbdMiscConfig := mkSABnzbdMiscConfig {
  smc_DownloadDir : string;
  smc_CompleteDir : string;
  smc_IncompleteDir : string;
  smc_ScriptDir : string;
  smc_NzbBackupDir : string;
  smc_AdminDir : string;
  smc_LogDir : string;
  smc_Bandwidth : string;
  smc_BandwidthPerc : Z;
  smc_QueueCompleteAction : string;
  smc_PreCheck : bool;
  smc_Unpack : bool;
  smc_UnpackReplace : bool;
  smc_ScriptArgs : string;
  smc_DirectUnpack : bool;
  smc_EnableMeta : bool;
  smc_SafeMode : bool;
  smc_NoAssembly : bool;
  smc_ParOption : Z;
  smc_HistoryRetention : string;
  smc_EmailServer : string;
  smc_EmailTo : string;
  smc_EmailFrom : string }.

#[export] Instance FromJSON_SABnzbdMiscConfig : FromJSON SABnzbdMiscConfig := asStruct (λ l,
  vDownloadDir ← getString "download_dir" l;
  vCompleteDir ← getString "complete_dir" l;
  vIncompleteDir ← getString "incomplete_dir" l;
  vScriptDir ← getString "script_dir" l;
  vNzbBackupDir ← getString "nzb_backup_dir" l;
  vAdminDir ← getString "admin_dir" l;
  vLogDir ← getString "log_dir" l;
  vBandwidth ← getString "bandwidth_max" l;
  vBandwidthPerc ← getInt "bandwidth_perc" l;
  vQueueCompleteAction ← getString "queue_complete" l;
  vPreCheck ← getBool "pre_check" l;
  vUnpack ← getBool "unpack" l;
  vUnpackReplace ← getBool "unpack_replace" l;
  vScriptArgs ← getString "script" l;
  vDirectUnpack ← getBool "direct_unpack" l;
  vEnableMeta ← getBool "enable_meta" l;
  vSafeMode ← getBool "safe_mode" l;
  vNoAssembly ← getBool "no_assembly" l;
  vParOption ← getInt "par_option" l;
  vHistoryRetention ← getString "history_retention" l;
  vEmailServer ← getString "email_server" l;
  vEmailTo ← getString "email_to" l;
  vEmailFrom ← getString "email_from" l;
  Some (mkSABnzbdMiscConfig vDownloadDir vCompleteDir vIncompleteDir vScriptDir vNzbBackupDir vAdminDir vLogDir vBandwidth vBandwidthPerc vQueueCompleteAction vPreCheck vUnpack vUnpackReplace vScriptArgs vDirectUnpack vEnableMeta vSafeMode vNoAssembly vParOption vHistoryRetention vEmailServer vEmailTo vEmailFrom)).

Record SABnzbdServerConfig := mkSABnzbdServerConfig {
  ssc_Name : string;
  ssc_Host : string;
  ssc_Port : Z;
  ssc_Username : string;
  ssc_Password : string;
  ssc_Connections : Z;
  ssc_SSL : bool;
  ssc_SSLVerify : Z;
  ssc_Optional : bool;
  ssc_Retention : Z;
  ssc_Enable : bool;
  ssc_Priority : Z }.

#[export] Instance FromJSON_SABnzbdServerConfig : FromJSON SABnzbdServerConfig := asStruct (λ l,
  vName ← getString "name" l;
  vHost ← getString "host" l;
  vPort ← getInt "port" l;
  vUsername ← getString "username" l;
  vPassword ← getString "password" l;
  vConnections ← getInt "connections" l;
  vSSL ← getBool "ssl" l;
  vSSLVerify ← getInt "ssl_verify" l;
  vOptional ← getBool "optional" l;
  vRetention ← getInt "retention" l;
  vEnable ← getBool "enable" l;
  vPriority ← getInt "priority" l;
  Some (mkSABnzbdServerConfig vName vHost vPort vUsername vPassword vConnections vSSL vSSLVerify vOptional vRetention vEnable vPriority)).

Record SABnzbdCategory := mkSABnzbdCategory {
  scg_Name : string;
  scg_Order : Z;
  scg_Dir : string;
  scg_Script : string;
  scg_Priority : Z;
  scg_PostProc : Z }.

#[export] Instance FromJSON_SABnzbdCategory : FromJSON SABnzbdCategory := asStruct (λ l,
  vName ← getString "name" l;
  vOrder ← getInt "order" l;
  vDir ← getString "dir" l;
  vScript ← getString "script" l;
  vPriority ← getInt "priority" l;
  vPostProc ← getInt "pp" l;
  Some (mkSABnzbdCategory vName vOrder vDir vScript vPriority vPostProc)).

Record SABnzbdConfig := mkSABnzbdConfig {
  scf_Misc : SABnzbdMiscConfig;
  scf_Servers : list SABnzbdServerConfig;
  scf_Categories : list SABnzbdCategory }.

#[export] Instance FromJSON_SABnzbdConfig : FromJSON SABnzbdConfig := asStruct (λ l,
  vMisc ← getStruct "misc" l;
  vServers ← getSlice fromJSON "servers" l;
  vCategories ← getSlice fromJSON "categories" l;
  Some (mkSABnzbdConfig vMisc vServers vCategories)).

Record SABnzbdSlot := mkSABnzbdSlot {
  ssl_ID : string;
  ssl_Filename : string;
  ssl_Status : string;
  ssl_Size : string;
  ssl_SizeLeft : string;
  ssl_Percentage : string;
  ssl_Category : string;
  ssl_Priority : string;
  ssl_TimeLeft : string }.

#[export] Instance FromJSON_SABnzbdSlot : FromJSON SABnzbdSlot := asStruct (λ l,
  vID ← getString "nzo_id" l;
  vFilename ← getString "filename" l;
  vStatus ← getString "status" l;
  vSize ← getString "size" l;
  vSizeLeft ← getString "sizeleft" l;
  vPercentage ← getString "percentage" l;
  vCategory ← getString "cat" l;
  vPriority ← getString "priority" l;
  vTimeLeft ← getString "timeleft" l;
  Some (mkSABnzbdSlot vID vFilename vStatus vSize vSizeLeft vPercentage vCategory vPriority vTimeLeft)).

Record SABnzbdQueue := mkSABnzbdQueue {
  sqq_Status : string;
  sqq_Paused : bool;
  sqq_PausedAll : bool;
  sqq_Speed : string;
  sqq_SpeedLimit : string;
  sqq_SpeedLimitAbs : string;
  sqq_SizeLeft : string;
  sqq_TimeLeft : string;
  sqq_NoOfSlots : Z;
  sqq_NoOfSlotsTotal : Z;
  sqq_Slots : list SABnzbdSlot }.

#[export] Instance FromJSON_SABnzbdQueue : FromJSON SABnzbdQueue := asStruct (λ l,
  vStatus ← getString "status" l;
  vPaused ← getBool "paused" l;
  vPausedAll ← getBool "paused_all" l;
  vSpeed ← getString "speed" l;
  vSpeedLimit ← getString "speedlimit" l;
  vSpeedLimitAbs ← getString "speedlimit_abs" l;
  vSizeLeft ← getString "sizeleft" l;
  vTimeLeft ← getString "timeleft" l;
  vNoOfSlots ← getInt "noofslots" l;
  vNoOfSlotsTotal ← getInt "noofslots_total" l;
  vSlots ← getSlice fromJSON "slots" l;
  Some (mkSABnzbdQueue vStatus vPaused vPausedAll vSpeed vSpeedLimit vSpeedLimitAbs vSizeLeft vTimeLeft vNoOfSlots vNoOfSlotsTotal vSlots)).

Record SABnzbdHistorySlot := mkSABnzbdHistorySlot {
  shs_ID : string;
  shs_Name : string;
  shs_Status : string;
  shs_Size : string;
  shs_Category : string;
  shs_Completed : Z;
  shs_FailMessage : string }.

#[export] Instance FromJSON_SABnzbdHistorySlot : FromJSON SABnzbdHistorySlot := asStruct (λ l,
  vID ← getString "nzo_id" l;
  vName ← getString "name" l;
  vStatus ← getString "status" l;
  vSize ← getString "size" l;
  vCategory ← getString "category" l;
  vCompleted ← getInt "completed" l;
  vFailMessage ← getString "fail_message" l;
  Some (mkSABnzbdHistorySlot vID vName vStatus vSize vCategory vCompleted vFailMessage)).

Record SABnzbdHistory := mkSABnzbdHistory {
  shh_NoOfSlots : Z;
  shh_Slots : list SABnzbdHistorySlot }.

#[export] Instance FromJSON_SABnzbdHistory : FromJSON SABnzbdHistory := asStruct (λ l,
  vNoOfSlots ← getInt "noofslots" l;
  vSlots ← getSlice fromJSON "slots" l;
  Some (mkSABnzbdHistory vNoOfSlots vSlots)).

Record SABnzbdResponse := mkSABnzbdResponse {
  srr_Status : bool;
  srr_Error : string }.

#[export] Instance FromJSON_SABnzbdResponse : FromJSON SABnzbdResponse := asStruct (λ l,
  vStatus ← getBool "status" l;
  vError ← getString "error" l;
  Some (mkSABnzbdResponse vStatus vError)).

(** ** NZBGet *)

Record NZBGetRPCError := mkNZBGetRPCError {
  nre_Name : string;
  nre_Code : Z;
  nre_Message : string }.

#[export] Instance FromJSON_NZBGetRPCError : FromJSON NZBGetRPCError := asStruct (λ l,
  vName ← getString "name" l;
  vCode ← getInt "code" l;
  vMessage ← getString "message" l;
  Some (mkNZBGetRPCError vName vCode vMessage)).

Record NZBGetRPCResponse := mkNZBGetRPCResponse {
  nrr_Result : option any;
  nrr_Error : option NZBGetRPCError;
  nrr_ID : Z }.

#[export] Instance FromJSON_NZBGetRPCResponse : FromJSON NZBGetRPCResponse := asStruct (λ l,
  vResult ← getRaw "result" l;
  vError ← getPtr fromJSON "error" l;
  vID ← getInt "id" l;
  Some (mkNZBGetRPCResponse vResult vError vID)).

Record NZBGetConfigItem := mkNZBGetConfigItem {
  nci_Name : string;
  nci_Value : string }.

#[export] Instance FromJSON_NZBGetConfigItem : FromJSON NZBGetConfigItem := asStruct (λ l,
  vName ← getString "Name" l;
  vValue ← getString "Value" l;
  Some (mkNZBGetConfigItem vName vValue)).

Record NZBGetServerStatus := mkNZBGetServerStatus {
  nss_ID : Z;
  nss_Active : bool }.

#[export] Instance FromJSON_NZBGetServerStatus : FromJSON NZBGetServerStatus := asStruct (λ l,
  vID ← getInt "ID" l;
  vActive ← getBool "Active" l;
  Some (mkNZBGetServerStatus vID vActive)).

Record NZBGetStatus := mkNZBGetStatus {
  nst_RemainingSizeLo : Z;
  nst_RemainingSizeHi : Z;
  nst_RemainingSizeMB : Z;
  nst_ForcedSizeLo : Z;
  nst_ForcedSizeHi : Z;
  nst_ForcedSizeMB : Z;
  nst_DownloadedSizeLo : Z;
  nst_DownloadedSizeHi : Z;
  nst_DownloadedSizeMB : Z;
  nst_ArticleCacheLo : Z;
  nst_ArticleCacheHi : Z;
  nst_ArticleCacheMB : Z;
  nst_DownloadRate : Z;
  nst_AverageDownloadRate : Z;
  nst_DownloadLimit : Z;
  nst_ThreadCount : Z;
  nst_PostJobCount : Z;
  nst_UrlCount : Z;
  nst_UpTimeSec : Z;
  nst_DownloadTimeSec : Z;
  nst_ServerPaused : bool;
  nst_DownloadPaused : bool;
  nst_Download2Paused : bool;
  nst_ServerStandBy : bool;
  nst_PostPaused : bool;
  nst_ScanPaused : bool;
  nst_QuotaReached : bool;
  nst_FreeDiskSpaceLo : Z;
  nst_FreeDiskSpaceHi : Z;
  nst_FreeDiskSpaceMB : Z;
  nst_ServerTime : Z;
  nst_ResumeTime : Z;
  nst_FeedActive : bool;
  nst_QueueScriptCount : Z;
  nst_NewsServers : list NZBGetServerStatus }.

#[export] Instance FromJSON_NZBGetStatus : FromJSON NZBGetStatus := asStruct (λ l,
  vRemainingSizeLo ← getInt "RemainingSizeLo" l;
  vRemainingSizeHi ← getInt "RemainingSizeHi" l;
  vRemainingSizeMB ← getInt "RemainingSizeMB" l;
  vForcedSizeLo ← getInt "ForcedSizeLo" l;
  vForcedSizeHi ← getInt "ForcedSizeHi" l;
  vForcedSizeMB ← getInt "ForcedSizeMB" l;
  vDownloadedSizeLo ← getInt "DownloadedSizeLo" l;
  vDownloadedSizeHi ← getInt "DownloadedSizeHi" l;
  vDownloadedSizeMB ← getInt "DownloadedSizeMB" l;
  vArticleCacheLo ← getInt "ArticleCacheLo" l;
  vArticleCacheHi ← getInt "ArticleCacheHi" l;
  vArticleCacheMB ← getInt "ArticleCacheMB" l;
  vDownloadRate ← getInt "DownloadRate" l;
  vAverageDownloadRate ← getInt "AverageDownloadRate" l;
  vDownloadLimit ← getInt "DownloadLimit" l;
  vThreadCount ← getInt "ThreadCount" l;
  vPostJobCount ← getInt "PostJobCount" l;
  vUrlCount ← getInt "UrlCount" l;
  vUpTimeSec ← getInt "UpTimeSec" l;
  vDownloadTimeSec ← getInt "DownloadTimeSec" l;
  vServerPaused ← getBool "ServerPaused" l;
  vDownloadPaused ← getBool "DownloadPaused" l;
  vDownload2Paused ← getBool "Download2Paused" l;
  vServerStandBy ← getBool "ServerStandBy" l;
  vPostPaused ← getBool "PostPaused" l;
  vScanPaused ← getBool "ScanPaused" l;
  vQuotaReached ← getBool "QuotaReached" l;
  vFreeDiskSpaceLo ← getInt "FreeDiskSpaceLo" l;
  vFreeDiskSpaceHi ← getInt "FreeDiskSpaceHi" l;
  vFreeDiskSpaceMB ← getInt "FreeDiskSpaceMB" l;
  vServerTime ← getInt "ServerTime" l;
  vResumeTime ← getInt "ResumeTime" l;
  vFeedActive ← getBool "FeedActive" l;
  vQueueScriptCount ← getInt "QueueScriptCount" l;
  vNewsServers ← getSlice fromJSON "NewsServers" l;
  Some (mkNZBGetStatus vRemainingSizeLo vRemainingSizeHi vRemainingSizeMB vForcedSizeLo vForcedSizeHi vForcedSizeMB vDownloadedSizeLo vDownloadedSizeHi vDownloadedSizeMB vArticleCacheLo vArticleCacheHi vArticleCacheMB vDownloadRate vAverageDownloadRate vDownloadLimit vThreadCount vPostJobCount vUrlCount vUpTimeSec vDownloadTimeSec vServerPaused vDownloadPaused vDownload2Paused vServerStandBy vPostPaused vScanPaused vQuotaReached vFreeDiskSpaceLo vFreeDiskSpaceHi vFreeDiskSpaceMB vServerTime vResumeTime vFeedActive vQueueScriptCount vNewsServers)).

Record NZBGetParameter := mkNZBGetParameter {
  npm_Name : string;
  npm_Value : string }.

#[export] Instance FromJSON_NZBGetParameter : FromJSON NZBGetParameter := asStruct (λ l,
  vName ← getString "Name" l;
  vValue ← getString "Value" l;
  Some (mkNZBGetParameter vName vValue)).

Record NZBGetScriptStatus := mkNZBGetScriptStatus {
  nsc_Name : string;
  nsc_Status : string }.

#[export] Instance FromJSON_NZBGetScriptStatus : FromJSON NZBGetScriptStatus := asStruct (λ l,
  vName ← getString "Name" l;
  vStatus ← getString "Status" l;
  Some (mkNZBGetScriptStatus vName vStatus)).

Record NZBGetServerStat := mkNZBGetServerStat {
  nsv_ServerID : Z;
  nsv_SuccessArticles : Z;
  nsv_FailedArticles : Z }.

#[export] Instance FromJSON_NZBGetServerStat : FromJSON NZBGetServerStat := asStruct (λ l,
  vServerID ← getInt "ServerID" l;
  vSuccessArticles ← getInt "SuccessArticles" l;
  vFailedArticles ← getInt "FailedArticles" l;
  Some (mkNZBGetServerStat vServerID vSuccessArticles vFailedArticles)).

Record NZBGetLogEntry := mkNZBGetLogEntry {
  nle_ID : Z;
  nle_Kind : string;
  nle_Time : Z;
  nle_Text : string }.

#[export] Instance FromJSON_NZBGetLogEntry : FromJSON NZBGetLogEntry := asStruct (λ l,
  vID ← getInt "ID" l;
  vKind ← getString "Kind" l;
  vTime ← getInt "Time" l;
  vText ← getString "Text" l;
  Some (mkNZBGetLogEntry vID vKind vTime vText)).

Record NZBGetGroup := mkNZBGetGroup {
  ngr_NZBID : Z;
  ngr_NZBName : string;
  ngr_NZBNicename : string;
  ngr_Kind : string;
  ngr_URL : string;
  ngr_NZBFilename : string;
  ngr_DestDir : string;
  ngr_FinalDir : string;
  ngr_Category : string;
  ngr_ParStatus : string;
  ngr_UnpackStatus : string;
  ngr_MoveStatus : string;
  ngr_ScriptStatus : string;
  ngr_DeleteStatus : string;
  ngr_MarkStatus : string;
  ngr_UrlStatus : string;
  ngr_FileSizeLo : Z;
  ngr_FileSizeHi : Z;
  ngr_FileSizeMB : Z;
  ngr_FileCount : Z;
  ngr_MinPostTime : Z;
  ngr_MaxPostTime : Z;
  ngr_TotalArticles : Z;
  ngr_SuccessArticles : Z;
  ngr_FailedArticles : Z;
  ngr_Health : Z;
  ngr_CriticalHealth : Z;
  ngr_DupeKey : string;
  ngr_DupeScore : Z;
  ngr_DupeMode : string;
  ngr_Deleted : bool;
  ngr_DownloadedSizeLo : Z;
  ngr_DownloadedSizeHi : Z;
  ngr_DownloadedSizeMB : Z;
  ngr_DownloadTimeSec : Z;
  ngr_PostTotalTimeSec : Z;
  ngr_ParTimeSec : Z;
  ngr_RepairTimeSec : Z;
  ngr_UnpackTimeSec : Z;
  ngr_MessageCount : Z;
  ngr_ExtraParBlocks : Z;
  ngr_Parameters : list NZBGetParameter;
  ngr_ScriptStatuses : list NZBGetScriptStatus;
  ngr_ServerStats : list NZBGetServerStat;
  ngr_PostInfoText : string;
  ngr_PostStageProgress : Z;
  ngr_PostStageTimeSec : Z;
  ngr_Log : list NZBGetLogEntry }.

#[export] Instance FromJSON_NZBGetGroup : FromJSON NZBGetGroup := asStruct (λ l,
  vNZBID ← getInt "NZBID" l;
  vNZBName ← getString "NZBName" l;
  vNZBNicename ← getString "NZBNicename" l;
  vKind ← getString "Kind" l;
  vURL ← getString "URL" l;
  vNZBFilename ← getString "NZBFilename" l;
  vDestDir ← getString "DestDir" l;
  vFinalDir ← getString "FinalDir" l;
  vCategory ← getString "Category" l;
  vParStatus ← getString "ParStatus" l;
  vUnpackStatus ← getString "UnpackStatus" l;
  vMoveStatus ← getString "MoveStatus" l;
  vScriptStatus ← getString "ScriptStatus" l;
  vDeleteStatus ← getString "DeleteStatus" l;
  vMarkStatus ← getString "MarkStatus" l;
  vUrlStatus ← getString "UrlStatus" l;
  vFileSizeLo ← getInt "FileSizeLo" l;
  vFileSizeHi ← getInt "FileSizeHi" l;
  vFileSizeMB ← getInt "FileSizeMB" l;
  vFileCount ← getInt "FileCount" l;
  vMinPostTime ← getInt "MinPostTime" l;
  vMaxPostTime ← getInt "MaxPostTime" l;
  vTotalArticles ← getInt "TotalArticles" l;
  vSuccessArticles ← getInt "SuccessArticles" l;
  vFailedArticles ← getInt "FailedArticles" l;
  vHealth ← getInt "Health" l;
  vCriticalHealth ← getInt "CriticalHealth" l;
  vDupeKey ← getString "DupeKey" l;
  vDupeScore ← getInt "DupeScore" l;
  vDupeMode ← getString "DupeMode" l;
  vDeleted ← getBool "Deleted" l;
  vDownloadedSizeLo ← getInt "DownloadedSizeLo" l;
  vDownloadedSizeHi ← getInt "DownloadedSizeHi" l;
  vDownloadedSizeMB ← getInt "DownloadedSizeMB" l;
  vDownloadTimeSec ← getInt "DownloadTimeSec" l;
  vPostTotalTimeSec ← getInt "PostTotalTimeSec" l;
  vParTimeSec ← getInt "ParTimeSec" l;
  vRepairTimeSec ← getInt "RepairTimeSec" l;
  vUnpackTimeSec ← getInt "UnpackTimeSec" l;
  vMessageCount ← getInt "MessageCount" l;
  vExtraParBlocks ← getInt "ExtraParBlocks" l;
  vParameters ← getSlice fromJSON "Parameters" l;
  vScriptStatuses ← getSlice fromJSON "ScriptStatuses" l;
  vServerStats ← getSlice fromJSON "ServerStats" l;
  vPostInfoText ← getString "PostInfoText" l;
  vPostStageProgress ← getInt "PostStageProgress" l;
  vPostStageTimeSec ← getInt "PostStageTimeSec" l;
  vLog ← getSlice fromJSON "Log" l;
  Some (mkNZBGetGroup vNZBID vNZBName vNZBNicename vKind vURL vNZBFilename vDestDir vFinalDir vCategory vParStatus vUnpackStatus vMoveStatus vScriptStatus vDeleteStatus vMarkStatus vUrlStatus vFileSizeLo vFileSizeHi vFileSizeMB vFileCount vMinPostTime vMaxPostTime vTotalArticles vSuccessArticles vFailedArticles vHealth vCriticalHealth vDupeKey vDupeScore vDupeMode vDeleted vDownloadedSizeLo vDownloadedSizeHi vDownloadedSizeMB vDownloadTimeSec vPostTotalTimeSec vParTimeSec vRepairTimeSec vUnpackTimeSec vMessageCount vExtraParBlocks vParameters vScriptStatuses vServerStats vPostInfoText vPostStageProgress vPostStageTimeSec vLog)).

Record NZBGetHistoryItem := mkNZBGetHistoryItem {
  nhi_NZBID : Z;
  nhi_NZBName : string;
  nhi_NZBNicename : string;
  nhi_Kind : string;
  nhi_URL : string;
  nhi_NZBFilename : string;
  nhi_DestDir : string;
  nhi_FinalDir : string;
  nhi_Category : string;
  nhi_ParStatus : string;
  nhi_UnpackStatus : string;
  nhi_MoveStatus : string;
  nhi_ScriptStatus : string;
  nhi_DeleteStatus : string;
  nhi_MarkStatus : string;
  nhi_UrlStatus : string;
  nhi_FileSizeLo : Z;
  nhi_FileSizeHi : Z;
  nhi_FileSizeMB : Z;
  nhi_FileCount : Z;
  nhi_TotalArticles : Z;
  nhi_SuccessArticles : Z;
  nhi_FailedArticles : Z;
  nhi_Health : Z;
  nhi_CriticalHealth : Z;
  nhi_DupeKey : string;
  nhi_DupeScore : Z;
  nhi_DupeMode : string;
  nhi_Deleted : bool;
  nhi_DownloadedSizeLo : Z;
  nhi_DownloadedSizeHi : Z;
  nhi_DownloadedSizeMB : Z;
  nhi_DownloadTimeSec : Z;
  nhi_PostTotalTimeSec : Z;
  nhi_ParTimeSec : Z;
  nhi_RepairTimeSec : Z;
  nhi_UnpackTimeSec : Z;
  nhi_MessageCount : Z;
  nhi_ExtraParBlocks : Z;
  nhi_Parameters : list NZBGetParameter;
  nhi_ScriptStatuses : list NZBGetScriptStatus;
  nhi_ServerStats : list NZBGetServerStat;
  nhi_Status : string;
  nhi_HistoryTime : Z }.

#[export] Instance FromJSON_NZBGetHistoryItem : FromJSON NZBGetHistoryItem := asStruct (λ l,
  vNZBID ← getInt "NZBID" l;
  vNZBName ← getString "NZBName" l;
  vNZBNicename ← getString "NZBNicename" l;
  vKind ← getString "Kind" l;
  vURL ← getString "URL" l;
  vNZBFilename ← getString "NZBFilename" l;
  vDestDir ← getString "DestDir" l;
  vFinalDir ← getString "FinalDir" l;
  vCategory ← getString "Category" l;
  vParStatus ← getString "ParStatus" l;
  vUnpackStatus ← getString "UnpackStatus" l;
  vMoveStatus ← getString "MoveStatus" l;
  vScriptStatus ← getString "ScriptStatus" l;
  vDeleteStatus ← getString "DeleteStatus" l;
  vMarkStatus ← getString "MarkStatus" l;
  vUrlStatus ← getString "UrlStatus" l;
  vFileSizeLo ← getInt "FileSizeLo" l;
  vFileSizeHi ← getInt "FileSizeHi" l;
  vFileSizeMB ← getInt "FileSizeMB" l;
  vFileCount ← getInt "FileCount" l;
  vTotalArticles ← getInt "TotalArticles" l;
  vSuccessArticles ← getInt "SuccessArticles" l;
  vFailedArticles ← getInt "FailedArticles" l;
  vHealth ← getInt "Health" l;
  vCriticalHealth ← getInt "CriticalHealth" l;
  vDupeKey ← getString "DupeKey" l;
  vDupeScore ← getInt "DupeScore" l;
  vDupeMode ← getString "DupeMode" l;
  vDeleted ← getBool "Deleted" l;
  vDownloadedSizeLo ← getInt "DownloadedSizeLo" l;
  vDownloadedSizeHi ← getInt "DownloadedSizeHi" l;
  vDownloadedSizeMB ← getInt "DownloadedSizeMB" l;
  vDownloadTimeSec ← getInt "DownloadTimeSec" l;
  vPostTotalTimeSec ← getInt "PostTotalTimeSec" l;
  vParTimeSec ← getInt "ParTimeSec" l;
  vRepairTimeSec ← getInt "RepairTimeSec" l;
  vUnpackTimeSec ← getInt "UnpackTimeSec" l;
  vMessageCount ← getInt "MessageCount" l;
  vExtraParBlocks ← getInt "ExtraParBlocks" l;
  vParameters ← getSlice fromJSON "Parameters" l;
  vScriptStatuses ← getSlice fromJSON "ScriptStatuses" l;
  vServerStats ← getSlice fromJSON "ServerStats" l;
  vStatus ← getString "Status" l;
  vHistoryTime ← getInt "HistoryTime" l;
  Some (mkNZBGetHistoryItem vNZBID vNZBName vNZBNicename vKind vURL vNZBFilename vDestDir vFinalDir vCategory vParStatus vUnpackStatus vMoveStatus vScriptStatus vDeleteStatus vMarkStatus vUrlStatus vFileSizeLo vFileSizeHi vFileSizeMB vFileCount vTotalArticles vSuccessArticles vFailedArticles vHealth vCriticalHealth vDupeKey vDupeScore vDupeMode vDeleted vDownloadedSizeLo vDownloadedSizeHi vDownloadedSizeMB vDownloadTimeSec vPostTotalTimeSec vParTimeSec vRepairTimeSec vUnpackTimeSec vMessageCount vExtraParBlocks vParameters vScriptStatuses vServerStats vStatus vHistoryTime)).

