(* ===== verification/QBittorrent.v ===== *)
(** * qBittorrent (src/internal/adapters/downloadstack/qbittorrent_client.go and
      syncQBittorrentSettings of downloadstackconfig_controller.go)

    The client of the WebUI: a login that puts a session into the cookie jar, and
    requests that log in again, once, when the session has expired; and the
    preferences of the specification. *)
From S2P Require Export Settings DownloadStackApi ClientTypes.

(** ** The client *)

(** Over the type [J] of cookie jars. *)
Record QBittorrentClient (J : Type) := mkQBittorrentClient {
  qc_baseURL : string;
  qc_jar : J;
  qc_username : string;
  qc_password : string;
  qc_loggedIn : bool }.
Arguments mkQBittorrentClient {J}.
Arguments qc_baseURL {J}.
Arguments qc_jar {J}.
Arguments qc_username {J}.
Arguments qc_password {J}.
Arguments qc_loggedIn {J}.

(** The part of a client that changes. *)
Definition qc_session {J} (j : J) (loggedIn : bool) (c : QBittorrentClient J) : QBittorrentClient J :=
  mkQBittorrentClient (qc_baseURL c) j (qc_username c) (qc_password c) loggedIn.

Definition NewQBittorrentClient `{Transport W} (baseURL username password : string) : QBittorrentClient Jar :=
  mkQBittorrentClient (trimSlash baseURL) newJar username password false.

(** The text [json.Marshal] makes of a document: the preferences are one value of a form. *)
Class JSONText := jsonText : any → string.

Section client.
Context {W : Type} `{Transport W} `{UnicodeSpace} `{JSONText}.
Abbreviation MQ := (M (Net W (QBittorrentClient Jar))).

Definition formType : string * string := ("Content-Type", "application/x-www-form-urlencoded")%string.

Definition sendWithJar : string → string → HttpRequest → MQ HttpResponse :=
  sendKeeping qc_jar (λ j c, qc_session j (qc_loggedIn c) c).

Definition setLoggedIn (b : bool) : MQ unit :=
  let* c := client in setClient (qc_session (qc_jar c) b c).

Definition loginRequest (c : QBittorrentClient Jar) : HttpRequest :=
  mkHttpRequest "POST" (qc_baseURL c +:+ "/api/v2/auth/login") [formType] None
    (FormBody {[ "username"%string := qc_username c; "password"%string := qc_password c ]}).

Definition Login : MQ unit :=
  let* c := client in
  if qc_loggedIn c then ret tt
  else
    let* r := sendWithJar "failed to create login request" "login request failed" (loginRequest c) in
    let result := TrimSpace (hp_Text r) in
    if negb (hp_Status r =? 200) then
      fail ("login failed with status " +:+ Itoa (hp_Status r) +:+ ": " +:+ result)%string
    else if String.eqb result "Fails." then fail "login failed: invalid credentials"
    else if negb (String.eqb result "Ok.") then fail ("unexpected login response: " +:+ result)%string
    else setLoggedIn true.

Definition apiRequest (method endpoint : string) (data : option (gmap string string)) (c : QBittorrentClient Jar)
    : HttpRequest :=
  mkHttpRequest method (qc_baseURL c +:+ endpoint) (match data with Some _ => [formType] | None => [] end) None
    (match data with Some values => FormBody values | None => NoBody end).

Definition textOf (r : HttpResponse) : MQ HttpResponse :=
  if negb (hp_Status r =? 200) then fail (httpError r) else ret r.

(** The body of the answer; the response is returned, whose text and JSON it is. *)
Definition qbRequest (method endpoint : string) (data : option (gmap string string)) : MQ HttpResponse :=
  let* c := client in
  (if qc_loggedIn c then ret tt else Login) ;;;
  let* r := sendWithJar "failed to create request" "request failed" (apiRequest method endpoint data c) in
  if hp_Status r =? 403 then
    setLoggedIn false ;;;
    wrapErr (λ e, "re-login failed: " +:+ e)%string Login ;;;
    let* r := sendWithJar "failed to create retry request" "retry request failed" (apiRequest method endpoint data c) in
    textOf r
  else textOf r.

Definition qbGetVersion : MQ string :=
  let* r := qbRequest "GET" "/api/v2/app/version" None in ret (TrimSpace (hp_Text r)).
Definition qbTestConnection : MQ unit := qbGetVersion ;;; ret tt.

Definition SetPreferences (prefs : Settings) : MQ unit :=
  if marshalable (VObject prefs) then
    qbRequest "POST" "/api/v2/app/setPreferences" (Some {[ "json"%string := jsonText (toWire (VObject prefs)) ]}) ;;; ret tt
  else fail ("failed to marshal preferences: " +:+ marshalError (VObject prefs))%string.

Definition GetPreferences : MQ QBittorrentPreferences :=
  let* r := qbRequest "GET" "/api/v2/app/preferences" None in
  unmarshal "failed to unmarshal preferences" (hp_JSON r).

Definition GetTransferInfo : MQ (gmap string any) :=
  let* r := qbRequest "GET" "/api/v2/transfer/info" None in
  unmarshal "failed to unmarshal transfer info" (hp_JSON r).

Definition GetMainData (rid : Z) : MQ (gmap string any) :=
  let data := if 0 <? rid then {[ "rid"%string := Itoa rid ]} else ∅ in
  let* r := qbRequest "GET" ("/api/v2/sync/maindata?" +:+ encodeValues data) None in
  unmarshal "failed to unmarshal main data" (hp_JSON r).

Definition ToggleSpeedLimitsMode : MQ unit :=
  qbRequest "POST" "/api/v2/transfer/toggleSpeedLimitsMode" None ;;; ret tt.

Definition SetSpeedLimits (downloadLimit uploadLimit : Z) : MQ unit :=
  SetPreferences (putAll [("dl_limit", VInt (int64 (downloadLimit * 1024)));
                          ("up_limit", VInt (int64 (uploadLimit * 1024)))]%string ∅).
End client.

(** ** The preferences *)

(** [n] KiB in bytes, as the [int] the code computes. *)
Definition kib (n : Z) : any := VInt (int64 (n * 1024)).

(** The loops of [syncQBittorrentSettings] write into one map, in this order. *)
Definition qbPreferences `{FloatSyntax} (spec : QBittorrentSpec) : Settings :=
  let prefs := inSection (qb_Speed spec) (λ s m,
    putIf (0 <? qbs_GlobalUploadSpeedLimit s) "up_limit" (kib (qbs_GlobalUploadSpeedLimit s))
      (putIf (0 <? qbs_GlobalDownloadSpeedLimit s) "dl_limit" (kib (qbs_GlobalDownloadSpeedLimit s))
        (putIf (0 <? qbs_UploadLimit s) "up_limit" (kib (qbs_UploadLimit s))
          (putIf (0 <? qbs_DownloadLimit s) "dl_limit" (kib (qbs_DownloadLimit s)) m)))) ∅ in
  let prefs := inSection (qb_AltSpeed spec) (λ a m,
    putAll [
      ("schedule_from_hour", VInt (qba_ScheduleFromHour a));
      ("schedule_from_min", VInt (qba_ScheduleFromMinute a));
      ("schedule_to_hour", VInt (qba_ScheduleToHour a));
      ("schedule_to_min", VInt (qba_ScheduleToMinute a))]%string
      (setPositive "scheduler_days" (qba_SchedulerDays a)
        (putAll [
          ("alt_dl_limit", kib (qba_DownloadLimit a));
          ("alt_up_limit", kib (qba_UploadLimit a));
          ("scheduler_enabled", VBool (qba_SchedulerEnabled a))]%string m))) prefs in
  let prefs := inSection (qb_Directories spec) (λ d m,
    putSome (qbd_AppendExtension d) "incomplete_files_ext" VBool
      (putSome (qbd_CreateSubfolder d) "create_subfolder_enabled" VBool
        (putAll [("temp_path_enabled", VBool (qbd_TempPathEnabled d))]%string
          (setString "temp_path" (qbd_TempPath d) (setString "save_path" (qbd_SavePath d) m))))) prefs in
  let prefs := inSection (qb_Seeding spec) (λ s m,
    putSome (qbr_MaxRatioAction s) "max_ratio_act" VInt
      (setPositive "max_seeding_time" (qbr_MaxSeedingTime s)
        (putAll [("max_seeding_time_enabled", VBool (qbr_MaxSeedingTimeEnabled s))]%string
          (putSome (if String.eqb (qbr_MaxRatio s) "" then None else scanFloat (qbr_MaxRatio s)) "max_ratio" VFloat
            (putAll [("max_ratio_enabled", VBool (qbr_MaxRatioEnabled s))]%string m))))) prefs in
  let prefs := inSection (qb_Queue spec) (λ q m,
    setPositive "max_active_torrents" (qbq_MaxActiveTorrents q)
      (setPositive "max_active_uploads" (qbq_MaxActiveUploads q)
        (setPositive "max_active_downloads" (qbq_MaxActiveDownloads q)
          (putSome (qbq_QueueingEnabled q) "queueing_enabled" VBool m)))) prefs in
  let prefs := inSection (qb_Connections spec) (λ c m,
    putSome (qbn_UPnPEnabled c) "upnp" VBool
      (putAll [("random_port", VBool (qbn_RandomPort c))]%string
        (setPositive "listen_port" (qbn_ListenPort c)
          (setPositive "max_uploads_per_torrent" (qbn_MaxUploadsPerTorrent c)
            (setPositive "max_uploads" (qbn_MaxUploads c)
              (setPositive "max_connec_per_torrent" (qbn_MaxConnectionsPerTorrent c)
                (setPositive "max_connec" (qbn_MaxConnections c) m))))))) prefs in
  inSection (qb_BitTorrent spec) (λ b m,
    putAll [("anonymous_mode", VBool (qbt_AnonymousMode b))]%string
      (putSome (qbt_Encryption b) "encryption" VInt
        (putSome (qbt_LSD b) "lsd" VBool
          (putSome (qbt_PeX b) "pex" VBool
            (putSome (qbt_DHT b) "dht" VBool m))))) prefs.

Definition syncQBittorrentSettings {W} `{Transport W} `{UnicodeSpace} `{JSONText} `{FloatSyntax} (spec : QBittorrentSpec)
    : M (Net W (QBittorrentClient Jar)) unit :=
  let prefs := qbPreferences spec in
  if bool_decide (prefs = ∅) then ret tt else SetPreferences prefs.

(** ** The session *)

(** What qBittorrent promises to a client: [valid j w] says that the jar [j] holds a
    session.  A login opens one when the credentials are [good] and tells so; a request
    without a session is answered 403 and changes nothing; with one, setPreferences
    merges the preferences [args] into those of the server. *)
Class QBittorrentLaws {W} `{Transport W} `{UnicodeSpace} `{JSONText} (c : QBittorrentClient Jar) (good : bool)
    (valid : Jar → W → bool) (prefs : W → Settings) (args : Settings) : Prop := {
  ql_url endpoint : endpoint ∈ ["/api/v2/auth/login"; "/api/v2/app/setPreferences"]%string →
    urlParse (qc_baseURL c +:+ endpoint)%string ≠ None;
  ql_login j w : ∃ w' j' a, roundTrip j (loginRequest c) w = (w', (j', Reply a)) ∧
    hp_Status a = 200 ∧ TrimSpace (hp_Text a) = (if good then "Ok." else "Fails.")%string ∧
    valid j' w' = good ∧ prefs w' = prefs w;
  ql_refused j w : valid j w = false →
    ∃ w' j' a, roundTrip j (apiRequest "POST" "/api/v2/app/setPreferences"
        (Some {[ "json"%string := jsonText (toWire (VObject args)) ]}) c) w = (w', (j', Reply a)) ∧
      hp_Status a = 403 ∧ prefs w' = prefs w;
  ql_set j w : valid j w = true →
    ∃ w' j' a, roundTrip j (apiRequest "POST" "/api/v2/app/setPreferences"
        (Some {[ "json"%string := jsonText (toWire (VObject args)) ]}) c) w = (w', (j', Reply a)) ∧
      hp_Status a = 200 ∧ valid j' w' = true ∧ prefs w' = stored args ∪ prefs w }.

Section session.
Context {W : Type} `{QBittorrentLaws W}.
Implicit Types (w : W) (j : Jar) (b : bool).

(** The client with a jar and a flag. *)
Abbreviation with_ j b := (qc_session j b c).

Lemma sendWithJar_run building failed (r : HttpRequest) j b w w' j' a : urlParse (hq_URL r) ≠ None →
  roundTrip j r w = (w', (j', Reply a)) →
  sendWithJar building failed r (mkNet w (with_ j b)) = (mkNet w' (with_ j' b), Ret a).
Proof. intros Hu E. unfold sendWithJar. exact (sendKeeping_run qc_jar _ building failed r w (with_ j b) w' j' a Hu E). Qed.

Lemma Login_run j w : ∃ w' j', Login (mkNet w (with_ j false)) =
    (mkNet w' (with_ j' good), if good then Ret tt else Err "login failed: invalid credentials") ∧
  valid j' w' = good ∧ prefs w' = prefs w.
Proof.
  destruct (ql_login (valid:=valid) (prefs:=prefs) (args:=args) j w) as (w' & j' & a & E & Hst & Ht & Hv & Hp).
  exists w', j'. split; [|done]. unfold Login. rewrite bind_client. cbn [qc_loggedIn qc_session].
  rewrite (bind_ok _ _ _ _ _ (sendWithJar_run _ _ (loginRequest (with_ j false)) j false w w' j' a
    (ql_url (good:=good) (valid:=valid) (prefs:=prefs) (args:=args) "/api/v2/auth/login" ltac:(set_solver)) E)).
  rewrite Hst, Ht. by destruct good.
Qed.

Abbreviation setRequest := (apiRequest "POST" "/api/v2/app/setPreferences"
  (Some {[ "json"%string := jsonText (toWire (VObject args)) ]})).

Lemma send_set building failed j b w w' j' a : roundTrip j (setRequest c) w = (w', (j', Reply a)) →
  sendWithJar building failed (setRequest (with_ j b)) (mkNet w (with_ j b)) = (mkNet w' (with_ j' b), Ret a).
Proof.
  intros E. apply sendWithJar_run; [|done].
  apply (ql_url (c:=c) (good:=good) (valid:=valid) (prefs:=prefs) (args:=args) "/api/v2/app/setPreferences"). set_solver.
Qed.

(** With a session the preferences are set. *)
Lemma set_valid building failed j b w : valid j w = true →
  ∃ w' j' a, sendWithJar building failed (setRequest (with_ j b)) (mkNet w (with_ j b)) =
    (mkNet w' (with_ j' b), Ret a) ∧ hp_Status a = 200 ∧ valid j' w' = true ∧ prefs w' = stored args ∪ prefs w.
Proof.
  intros Hv. destruct (ql_set (good:=good) j w Hv) as (w' & j' & a & E & Hst & Hv' & Hp).
  exists w', j', a. split_and!; [by apply send_set|done..].
Qed.

Lemma textOf_run a (n : Net W (QBittorrentClient Jar)) : hp_Status a = 200 → textOf a n = (n, Ret a).
Proof. unfold textOf. by intros ->. Qed.

(** A login and what follows, which may count on the session. *)
Lemma login_then (m : M (Net W (QBittorrentClient Jar)) unit) (k : unit → M (Net W (QBittorrentClient Jar)) unit) j w :
  (∀ n n' e, Login n = (n', Err e) → ∃ e', m n = (n', Err e')) →
  (∀ n n', Login n = (n', Ret tt) → m n = (n', Ret tt)) →
  (∀ w1 j1, valid j1 w1 = true → ∃ w' j', k tt (mkNet w1 (with_ j1 true)) = (mkNet w' (with_ j' true), Ret tt) ∧
    valid j' w' = true ∧ prefs w' = stored args ∪ prefs w1) →
  if good then
    ∃ w' j', bind m k (mkNet w (with_ j false)) = (mkNet w' (with_ j' true), Ret tt) ∧
      valid j' w' = true ∧ prefs w' = stored args ∪ prefs w
  else ∃ n e, bind m k (mkNet w (with_ j false)) = (n, Err e) ∧ prefs (net_services n) = prefs w.
Proof.
  intros Herr Hok Hk. destruct (Login_run j w) as (w1 & j1 & E & Hv & Hp).
  destruct (Bool.bool_dec good true) as [Hg|Hg%not_true_is_false]; rewrite Hg in E, Hv |- *.
  - destruct (Hk w1 j1 Hv) as (w2 & j2 & E2 & Hv2 & Hp2). exists w2, j2. rewrite <-Hp.
    by rewrite (bind_ok _ _ _ _ _ (Hok _ _ E)).
  - destruct (Herr _ _ _ E) as [e' E']. eexists _, e'. by rewrite (bind_err _ _ _ _ _ E').
Qed.

(** What [SetPreferences] does, by the flag and the session of the client. *)
Lemma SetPreferences_run j b w : marshalable (VObject args) = true →
  if good || (b && valid j w) then
    ∃ w' j', SetPreferences args (mkNet w (with_ j b)) = (mkNet w' (with_ j' true), Ret tt) ∧
      valid j' w' = true ∧ prefs w' = stored args ∪ prefs w
  else ∃ n e, SetPreferences args (mkNet w (with_ j b)) = (n, Err e) ∧ prefs (net_services n) = prefs w.
Proof.
  intros Hm. unfold SetPreferences. rewrite Hm. unfold qbRequest. rewrite !bind_assoc, bind_client.
  cbn [qc_loggedIn qc_session]. destruct b; cbn [andb].
  - rewrite !bind_assoc, bind_ret_l, bind_assoc. destruct (valid j w) eqn:Hv.
    + rewrite orb_true_r. destruct (set_valid "failed to create request" "request failed" j true w Hv)
        as (w' & j' & a & E & Hst & Hv' & Hp). exists w', j'. split; [|done].
      rewrite (bind_ok _ _ _ _ _ E), Hst. change (200 =? 403) with false. cbn iota.
      by rewrite (bind_ok _ _ _ _ _ (textOf_run a _ Hst)).
    + rewrite orb_false_r.
      destruct (ql_refused (good:=good) (prefs:=prefs) (args:=args) j w Hv) as (w1 & j1 & a & E & Hst & Hp).
      rewrite (bind_ok _ _ _ _ _ (send_set _ _ j true w w1 j1 a E)), Hst.
      change (403 =? 403) with true. cbn iota. unfold setLoggedIn.
      rewrite !bind_assoc, bind_client, bind_setClient, !bind_assoc. rewrite <-Hp.
      apply login_then; [intros n n' e Hl; eexists; by apply wrapErr_err|intros n n'; apply wrapErr_ok|].
      intros w2 j2 Hv2. destruct (set_valid "failed to create retry request" "retry request failed" j2 true w2 Hv2)
        as (w3 & j3 & a3 & E3 & Hst3 & H3). exists w3, j3. split; [|done].
      by rewrite bind_assoc, (bind_ok _ _ _ _ _ E3), (bind_ok _ _ _ _ _ (textOf_run a3 _ Hst3)).
  - rewrite orb_false_r, bind_assoc. apply login_then; [by eauto|done|].
    intros w2 j2 Hv2. destruct (set_valid "failed to create request" "request failed" j2 true w2 Hv2)
      as (w3 & j3 & a3 & E3 & Hst3 & H3). exists w3, j3. split; [|done].
    rewrite bind_assoc, (bind_ok _ _ _ _ _ E3), Hst3. change (200 =? 403) with false. cbn iota.
    by rewrite (bind_ok _ _ _ _ _ (textOf_run a3 _ Hst3)).
Qed.
End session.

(** C15: The preferences reach qBittorrent.  A specification without a preference (the
    connection alone) is synced without a request, whatever the credentials are.  For any
    other, with good credentials the sync returns and the server then has the preferences
    of the specification over those it had, whether the client was logged in, was not, or
    had a session that has expired; a second sync changes nothing.  With credentials the
    server refuses it fails and changes nothing, unless a session was open; and a seed
    ratio that is no number of JSON makes it fail before anything is sent. *)
Theorem qbittorrent_sync {W} `{Transport W} `{UnicodeSpace} `{JSONText} `{FloatSyntax}
    (c : QBittorrentClient Jar) good valid prefs spec j b w :
  let desired := qbPreferences spec in
  let n := mkNet w (qc_session j b c) in
  QBittorrentLaws c good valid prefs desired →
  if bool_decide (desired = ∅) then syncQBittorrentSettings spec n = (n, Ret tt)
  else if marshalable (VObject desired) then
    if good || (b && valid j w) then
      ∃ w' j', syncQBittorrentSettings spec n = (mkNet w' (qc_session j' true c), Ret tt) ∧
        prefs w' = stored desired ∪ prefs w ∧
        ∃ w'' j'', syncQBittorrentSettings spec (mkNet w' (qc_session j' true c)) =
          (mkNet w'' (qc_session j'' true c), Ret tt) ∧ prefs w'' = prefs w'
    else ∃ n' e, syncQBittorrentSettings spec n = (n', Err e) ∧ prefs (net_services n') = prefs w
  else ∃ e, syncQBittorrentSettings spec n = (n, Err e).
Proof.
  cbn zeta. intros Hl. unfold syncQBittorrentSettings. cbn zeta. case_bool_decide as Hne; [done|].
  destruct (marshalable _) eqn:Hm; [|unfold SetPreferences; rewrite Hm; by eexists].
  pose proof (SetPreferences_run j b w Hm) as Hr. destruct (good || _) eqn:Hg; [|exact Hr].
  destruct Hr as (w' & j' & E & Hv & Hp). exists w', j'. split_and!; [done..|].
  pose proof (SetPreferences_run j' true w' Hm) as Hr. rewrite Hv, orb_true_r in Hr.
  destruct Hr as (w'' & j'' & E' & _ & Hp'). exists w'', j''. split; [done|].
  by rewrite Hp', Hp, (assoc_L (∪)), (idemp_L (∪)).
Qed.

(** ** The rate limits *)

(** The limit that counts: the global one, if there is one. *)
Definition limitOf (global_ own : Z) : Z := if 0 <? global_ then global_ else own.

Lemma int64_mod n : int64 n `mod` 2 ^ 64 = n `mod` 2 ^ 64 ∧ - 2 ^ 63 ≤ int64 n < 2 ^ 63.
Proof.
  unfold int64. split; [|pose proof (Z.mod_pos_bound (n + 2 ^ 63) (2 ^ 64)); lia].
  rewrite Zminus_mod_idemp_l. f_equal. lia.
Qed.

Lemma int64_id n : int64 n = n ↔ - 2 ^ 63 ≤ n < 2 ^ 63.
Proof.
  split; [intros <-; apply int64_mod|]. intros Hn. unfold int64. rewrite Z.mod_small by lia. lia.
Qed.

(** The download limit of qBittorrent.  The preferences have one exactly when the
    specification has a positive limit, and it is the limit that counts, from KiB to
    bytes in 64 bits: the right number if and only if it fits, and 0, which means no
    limit at all, for 2 to the 54 KiB. *)
Theorem qbittorrent_limit `{FloatSyntax} spec s : qb_Speed spec = Some s →
  let n := limitOf (qbs_GlobalDownloadSpeedLimit s) (qbs_DownloadLimit s) in
  (n ≤ 0 → qbPreferences spec !! "dl_limit"%string = None) ∧
  (0 < n → ∃ bytes, qbPreferences spec !! "dl_limit"%string = Some (VInt bytes) ∧
    - 2 ^ 63 ≤ bytes < 2 ^ 63 ∧ bytes `mod` 2 ^ 64 = (n * 1024) `mod` 2 ^ 64 ∧
    (bytes = n * 1024 ↔ n < 2 ^ 53)) ∧
  (n = 2 ^ 54 → qbPreferences spec !! "dl_limit"%string = Some (VInt 0)).
Proof.
  intros Hs n. assert (qbPreferences spec !! "dl_limit"%string = if 0 <? n then Some (kib n) else None) as ->.
  { unfold qbPreferences. cbn zeta. untouched. rewrite Hs. cbn [inSection]. untouched.
    unfold n, limitOf. destruct (0 <? qbs_GlobalDownloadSpeedLimit s) eqn:Hg;
      cbn [putIf]; [rewrite Hg; apply lookup_insert_eq|].
    untouched. destruct (0 <? qbs_DownloadLimit s); [apply lookup_insert_eq|apply lookup_empty]. }
  unfold kib. destruct (int64_mod (n * 1024)) as [Hmod Hb].
  split_and!; [intros Hn; by rewrite (proj2 (Z.ltb_ge _ _) Hn)| |intros Hn; by rewrite Hn].
  intros Hn. rewrite (proj2 (Z.ltb_lt _ _) Hn). exists (int64 (n * 1024)). split_and!; [done|apply Hb|apply Hb|done|rewrite int64_id; lia..].
Qed.

(** ** A server that keeps the promise *)
Module MiniQBittorrent.

Definition scalarText (v : any) : string :=
  match v with VInt n => Itoa n | VBool b => if b then "true" else "false" | VString s => "'" +:+ s +:+ "'" | _ => "null" end.
#[export] Instance textOfObject : JSONText := λ v,
  match v with
  | VMap l => ("{" +:+ joinWith "," ((λ '(k, x), ("'" +:+ k +:+ "':" +:+ scalarText x)%string) <$> l) +:+ "}")%string
  | _ => scalarText v
  end.
#[export] Instance asciiSpace : UnicodeSpace := id.
#[export] Instance noFloats : FloatSyntax := {| parseFloat _ := None; scanFloat _ := None |}.

Definition exampleQBittorrent : QBittorrentSpec :=
  mkQBittorrentSpec (mkQBittorrentConnectionSpec "http://seedbox:8080" None)
    (Some (mkQBittorrentSpeedSpec 100 0 0 0)) None None None None None
    (Some (mkQBittorrentBitTorrentSpec (Some true) None None None false)).

Definition answer (status : Z) (text : string) : HttpReply := Reply (mkHttpResponse status [] text None None).

(** A jar says whether it holds a session; the state is the preferences. *)
Definition respond (good j : bool) (r : HttpRequest) (prefs : Settings) : Settings * (bool * HttpReply) :=
  if String.eqb (hq_URL r) "http://seedbox:8080/api/v2/auth/login" then
    (prefs, (good, answer 200 (if good then "Ok." else "Fails.")))
  else if j then
    match hq_Body r with
    | FormBody data =>
        if bool_decide (data !! "json" = Some (jsonText (toWire (VObject (qbPreferences exampleQBittorrent)))))%string
        then (stored (qbPreferences exampleQBittorrent) ∪ prefs, (true, answer 200 ""))
        else (prefs, (true, answer 400 ""))
    | _ => (prefs, (true, answer 200 "v4.6.0"))
    end
  else (prefs, (false, answer 403 "Forbidden")).

#[export] Instance Server : Transport Settings := {|
  Jar := bool;
  newJar := false;
  roundTrip j r s := respond true j r s;
  newRequestError := id;
  marshalError _ := "json: unsupported value"%string;
  unmarshalError _ := "json"%string;
  xmlError _ := "xml"%string |}.

Definition exampleClient : QBittorrentClient bool := NewQBittorrentClient "http://seedbox:8080/" "admin" "adminadmin".

Lemma qbittorrent_keeps : QBittorrentLaws exampleClient true (λ j _, j) id (qbPreferences exampleQBittorrent).
Proof.
  split.
  - intros endpoint. rewrite !elem_of_cons, elem_of_nil. intros [->|[->|[]]]; vm_compute; discriminate.
  - intros j w. by eexists _, true, _.
  - intros j w ->. by eexists _, false, _.
  - intros j w ->. unfold roundTrip, Server, respond. cbn [hq_Body apiRequest].
    rewrite lookup_singleton_eq, bool_decide_eq_true_2 by done. by eexists _, true, _.
Qed.
End MiniQBittorrent.

Section witnesses.
Import MiniQBittorrent.

(** A client whose session has expired logs in again and sets the limit. *)
Lemma qbittorrent_sync_witness : ∃ w' j',
  syncQBittorrentSettings exampleQBittorrent (mkNet ∅ (qc_session false true exampleClient)) =
    (mkNet w' (qc_session j' true exampleClient), Ret tt) ∧
  w' !! "dl_limit"%string = Some (VInt 102400).
Proof.
  assert (bool_decide (qbPreferences exampleQBittorrent = ∅) = false) as Hne by (vm_compute; reflexivity).
  pose proof (qbittorrent_sync exampleClient true (λ j _, j) id exampleQBittorrent false true ∅ qbittorrent_keeps) as Hs.
  cbv zeta in Hs. rewrite Hne in Hs. assert (marshalable (VObject (qbPreferences exampleQBittorrent)) = true) as Hm
    by (vm_compute; reflexivity). rewrite Hm in Hs.
  destruct Hs as (w' & j' & E & Hp & _). exists w', j'. split; [exact E|].
  unfold id in Hp. rewrite Hp. vm_compute. reflexivity.
Defined.

(** 2 to the 54 KiB are no limit. *)
Lemma qbittorrent_limit_witness :
  let s := mkQBittorrentSpeedSpec 100 0 (2 ^ 54) 0 in
  let spec := mkQBittorrentSpec (mkQBittorrentConnectionSpec "" None) (Some s) None None None None None None in
  qbPreferences spec !! "dl_limit"%string = Some (VInt 0).
Proof. intros s spec. apply (qbittorrent_limit spec s eq_refl). reflexivity. Defined.
End witnesses.
