(* ===== verification/Deluge.v ===== *)
(** * Deluge (src/internal/adapters/downloadstack/deluge_client.go and syncDelugeSettings
      of downloadstackconfig_controller.go)

    The JSON-RPC client of the Web UI: a login that opens a session and connects the
    Web UI to the first daemon it knows, a check of the session before each operation,
    numbered requests; and the configuration of the specification. *)
From S2P Require Export Settings DownloadStackApi ClientTypes.

(** ** The client *)

(** Over the type [J] of cookie jars. *)
Record DelugeClient (J : Type) := mkDelugeClient {
  dc_baseURL : string;
  dc_jar : J;
  dc_password : string;
  dc_loggedIn : bool;
  dc_requestID : Z }.
Arguments mkDelugeClient {J}.
Arguments dc_baseURL {J}.
Arguments dc_jar {J}.
Arguments dc_password {J}.
Arguments dc_loggedIn {J}.
Arguments dc_requestID {J}.

(** The part of a client that changes. *)
Definition dc_session {J} (j : J) (loggedIn : bool) (id : Z) (c : DelugeClient J) : DelugeClient J :=
  mkDelugeClient (dc_baseURL c) j (dc_password c) loggedIn id.

Definition NewDelugeClient `{Transport W} (baseURL password : string) : DelugeClient Jar :=
  mkDelugeClient (trimSlash baseURL) newJar password false 0.

Record DelugeRPCRequest := mkDelugeRPCRequest {
  drq_ID : Z;
  drq_Method : string;
  drq_Params : list any }.

Definition delugeBody (r : DelugeRPCRequest) : any := VMap [
  ("id", VInt (drq_ID r));
  ("method", VString (drq_Method r));
  ("params", VList (drq_Params r))]%string.

Section client.
Context {W : Type} `{Transport W}.
Abbreviation MD := (M (Net W (DelugeClient Jar))).

Definition delugeSend : string → string → HttpRequest → MD HttpResponse :=
  sendKeeping dc_jar (λ j c, dc_session j (dc_loggedIn c) (dc_requestID c) c).

Definition delugeNextID : MD Z :=
  let* c := client in
  let id := int64 (dc_requestID c + 1) in
  setClient (dc_session (dc_jar c) (dc_loggedIn c) id c) ;;; ret id.

Definition delugePost (body : any) (c : DelugeClient Jar) : HttpRequest :=
  mkHttpRequest "POST" (dc_baseURL c +:+ "/json") [jsonType; ("Accept", "application/json")%string] None
    (JSONBody (toWire body)).

Definition delugeRequest (method : string) (params : list any) : MD DelugeRPCResponse :=
  let* id := delugeNextID in
  let body := delugeBody (mkDelugeRPCRequest id method params) in
  if negb (marshalable body) then fail ("failed to marshal request: " +:+ marshalError body)%string
  else
    let* c := client in
    let* r := delugeSend "failed to create request" "request failed" (delugePost body c) in
    if negb (hp_Status r =? 200) then fail (httpError r)
    else
      let* rpcResp := unmarshal "failed to decode response" (hp_JSON r) in
      match drr_Error rpcResp with
      | Some e => fail ("RPC error: " +:+ dre_Message e +:+ " (code " +:+ Itoa (dre_Code e) +:+ ")")%string
      | None => ret rpcResp
      end.

Definition delugeSetLoggedIn (b : bool) : MD unit :=
  let* c := client in setClient (dc_session (dc_jar c) b (dc_requestID c) c).

(** The call to [web.connect] may fail; a first host without an ID, which must be
    its first element, is an index out of range. *)
Definition connectFirst (hosts : list (list any)) : MD unit :=
  match hosts with
  | [] => ret tt
  | [] :: _ => panic "index out of range [0] with length 0"
  | (hostID :: _) :: _ =>
      match hostID with
      | VString id => attempt (delugeRequest "web.connect" [VString id]) ;;; ret tt
      | _ => ret tt
      end
  end.

Definition delugeLogin : MD unit :=
  let* c := client in
  if dc_loggedIn c then ret tt
  else
    let* resp := wrapErr (λ e, "login request failed: " +:+ e)%string
      (delugeRequest "auth.login" [VString (dc_password c)]) in
    let* success := unmarshal "failed to parse login response" (drr_Result resp) in
    if negb success then fail "login failed: invalid password"
    else
      let* hostsResp := wrapErr (λ e, "failed to get hosts: " +:+ e)%string (delugeRequest "web.get_hosts" []) in
      let* hosts := unmarshal "failed to parse hosts" (drr_Result hostsResp) in
      connectFirst hosts ;;;
      delugeSetLoggedIn true.

Definition ensureLoggedIn : MD unit :=
  let* c := client in
  if negb (dc_loggedIn c) then delugeLogin
  else
    let* x := attempt (delugeRequest "auth.check_session" []) in
    match x with
    | inr _ => delugeSetLoggedIn false ;;; delugeLogin
    | inl resp =>
        match drr_Result resp ≫= fromJSON with
        | Some true => ret tt
        | _ => delugeSetLoggedIn false ;;; delugeLogin
        end
    end.

(** A call in a session, and what its result decodes to. *)
Definition delugeCall (method : string) (params : list any) : MD DelugeRPCResponse :=
  ensureLoggedIn ;;; delugeRequest method params.
Definition delugeRead {A} `{FromJSON A} (msg method : string) : MD A :=
  let* resp := delugeCall method [] in unmarshal msg (drr_Result resp).

Definition delugeGetVersion : MD string := delugeRead "failed to parse version" "daemon.info".
Definition delugeTestConnection : MD unit := delugeLogin ;;; delugeGetVersion ;;; ret tt.
Definition delugeGetConfig : MD DelugeConfig := delugeRead "failed to parse config" "core.get_config".
Definition delugeSetConfig (config : Settings) : MD unit := delugeCall "core.set_config" [VObject config] ;;; ret tt.
Definition GetLabels : MD (list string) :=
  ensureLoggedIn ;;;
  let* resp := wrapErr (λ e, "label plugin might not be enabled: " +:+ e)%string (delugeRequest "label.get_labels" []) in
  unmarshal "failed to parse labels" (drr_Result resp).
Definition AddLabel (label : string) : MD unit := delugeCall "label.add" [VString label] ;;; ret tt.

Definition sessionKeys : list string :=
  ["upload_rate"; "download_rate"; "num_peers"; "num_connections"; "payload_upload_rate";
   "payload_download_rate"; "total_upload"; "total_download"; "dht_nodes"]%string.
Definition GetSessionStatus : MD (gmap string any) :=
  let* resp := delugeCall "core.get_session_status" [VList (VString <$> sessionKeys)] in
  unmarshal "failed to parse session status" (drr_Result resp).

Definition PauseAllTorrents : MD unit := delugeCall "core.pause_session" [] ;;; ret tt.
Definition ResumeAllTorrents : MD unit := delugeCall "core.resume_session" [] ;;; ret tt.
Definition GetEnabledPlugins : MD (list string) := delugeRead "failed to parse plugins" "core.get_enabled_plugins".
Definition EnablePlugin (plugin : string) : MD unit := delugeCall "core.enable_plugin" [VString plugin] ;;; ret tt.
End client.

(** ** The configuration *)

Section config.
Context `{FloatSyntax}.

(** [if s != "" { if _, err := fmt.Sscanf(s, "%f", &ratio); err == nil { config[k] = ratio } }]. *)
Definition setRatio (k s : string) : Settings → Settings :=
  putSome (if String.eqb s "" then None else scanFloat s) k VFloat.
Definition setSpeed (k : string) (n : Z) : Settings → Settings := putIf (negb (n =? 0)) k (VFloat (float64_of_int n)).

Definition delugeConfig (spec : DelugeSpec) : Settings :=
  let config := inSection (dl_Speed spec) (λ s m,
    setSpeed "max_upload_speed_per_torrent" (dls_MaxUploadSpeedPerTorrent s)
      (setSpeed "max_download_speed_per_torrent" (dls_MaxDownloadSpeedPerTorrent s)
        (setSpeed "max_upload_speed" (dls_MaxUploadSpeed s)
          (setSpeed "max_download_speed" (dls_MaxDownloadSpeed s) m)))) ∅ in
  let config := inSection (dl_Directories spec) (λ d m,
    setString "torrentfiles_location" (dld_TorrentFilesLocation d)
      (putAll [("copy_torrent_file", VBool (dld_CopyTorrentFile d))]%string
        (setString "move_completed_path" (dld_MoveCompletedPath d)
          (putAll [("move_completed", VBool (dld_MoveCompleted d))]%string
            (setString "download_location" (dld_DownloadLocation d) m))))) config in
  let config := inSection (dl_Seeding spec) (λ s m,
    putIf (negb (dlr_SeedTimeLimit s =? 0)) "seed_time_limit" (VInt (dlr_SeedTimeLimit s))
      (setRatio "share_ratio_limit" (dlr_ShareRatioLimit s)
        (putAll [("remove_seed_at_ratio", VBool (dlr_RemoveAtRatio s))]%string
          (setRatio "stop_seed_ratio" (dlr_StopSeedRatio s)
            (putAll [("stop_seed_at_ratio", VBool (dlr_StopSeedAtRatio s))]%string m))))) config in
  let config := inSection (dl_Queue spec) (λ q m,
    putAll [("queue_new_to_top", VBool (dlq_QueueNewToTop q))]%string
      (setPositive "max_active_limit" (dlq_MaxActiveLimit q)
        (setPositive "max_active_seeding" (dlq_MaxActiveSeeding q)
          (setPositive "max_active_downloading" (dlq_MaxActiveDownloading q) m)))) config in
  let config := inSection (dl_Connections spec) (λ c m,
    putAll [("random_port", VBool (dln_RandomPort c))]%string
      (putIf (Nat.eqb (length (dln_ListenPorts c)) 2) "listen_ports" (VInts (dln_ListenPorts c))
        (setPositive "max_upload_slots_per_torrent" (dln_MaxUploadSlotsPerTorrent c)
          (setPositive "max_upload_slots_global" (dln_MaxUploadSlots c)
            (setPositive "max_connections_per_torrent" (dln_MaxConnectionsPerTorrent c)
              (setPositive "max_connections_global" (dln_MaxConnections c) m)))))) config in
  inSection (dl_Protocol spec) (λ p m,
    putSome (dlp_EncryptionLevel p) "enc_level" VInt
      (putSome (dlp_ProtocolEncryption p) "pe_enabled" VBool
        (putSome (dlp_LSD p) "lsd" VBool
          (putSome (dlp_NATPMP p) "natpmp" VBool
            (putSome (dlp_UPnP p) "upnp" VBool
              (putSome (dlp_DHT p) "dht" VBool m)))))) config.

Definition syncDelugeSettings {W} `{Transport W} (spec : DelugeSpec) : M (Net W (DelugeClient Jar)) unit :=
  let config := delugeConfig spec in
  if bool_decide (config = ∅) then ret tt else delugeSetConfig config.
End config.

(** ** The session *)

(** The answer of the services to a call with any number, by a client with the jar [j]:
    a response without an error, whose result and whose state satisfy [post]. *)
Definition delugeAnswers {W} `{Transport W} (c : DelugeClient Jar) (method : string) (params : list any) (j : Jar) (w : W)
    (post : W → Jar → option any → Prop) : Prop :=
  ∀ id, ∃ w' j' a resp,
    roundTrip j (delugePost (delugeBody (mkDelugeRPCRequest id method params)) c) w = (w', (j', Reply a)) ∧
    hp_Status a = 200 ∧ hp_JSON a ≫= fromJSON = Some resp ∧ drr_Error resp = None ∧ post w' j' (drr_Result resp).

(** What Deluge promises to a client: [valid j w] says that the jar [j] holds a session,
    [connected w] that the Web UI is connected to a daemon.  A login opens a session when
    the password is [good] and tells so; in a session the Web UI lists its hosts, connects
    to the first one, and, connected, merges the configuration [args] into the daemon's. *)
Class DelugeLaws {W} `{Transport W} (c : DelugeClient Jar) (good : bool) (valid : Jar → W → bool)
    (connected : W → bool) (config : W → Settings) (args : Settings) : Prop := {
  dl_url : urlParse (dc_baseURL c +:+ "/json")%string ≠ None;
  dl_login j w : delugeAnswers c "auth.login" [VString (dc_password c)] j w (λ w' j' r,
    r = Some (VBool good) ∧ valid j' w' = good ∧ config w' = config w);
  dl_hosts j w : valid j w = true → delugeAnswers c "web.get_hosts" [] j w (λ w' j' r,
    (∃ host info rest, r ≫= fromJSON = Some ((VString host :: info) :: rest) ∧
      delugeAnswers c "web.connect" [VString host] j' w' (λ w'' j'' _,
        valid j'' w'' = true ∧ connected w'' = true ∧ config w'' = config w)) ∧
    valid j' w' = true ∧ config w' = config w);
  dl_check j w : delugeAnswers c "auth.check_session" [] j w (λ w' j' r,
    r = Some (VBool (valid j w)) ∧ valid j' w' = valid j w ∧ connected w' = connected w ∧ config w' = config w);
  dl_set j w : valid j w = true → connected w = true → delugeAnswers c "core.set_config" [VObject args] j w (λ w' j' _,
    valid j' w' = true ∧ connected w' = true ∧ config w' = stored args ∪ config w) }.

Section session.
Context {W : Type} `{DelugeLaws W}.
Implicit Types (w : W) (j : Jar) (b : bool) (id : Z).

Abbreviation with_ j b id := (dc_session j b id c).

Lemma delugeRequest_run method params j b id w post :
  delugeAnswers c method params j w post → forallb marshalable params = true →
  ∃ w' j' resp, delugeRequest method params (mkNet w (with_ j b id)) =
    (mkNet w' (with_ j' b (int64 (id + 1))), Ret resp) ∧ post w' j' (drr_Result resp).
Proof.
  intros Ha Hm. destruct (Ha (int64 (id + 1))) as (w' & j' & a & resp & E & Hst & Hd & He & Hp).
  exists w', j', resp. split; [|done]. unfold delugeRequest, delugeNextID.
  rewrite bind_assoc, bind_client. cbn zeta. rewrite bind_assoc, bind_setClient, bind_ret_l.
  cbn [marshalable delugeBody forallb drq_ID drq_Method drq_Params andb]. rewrite Hm. cbn [negb andb].
  rewrite bind_client. cbn [dc_jar dc_session].
  erewrite bind_ok; [|refine (sendKeeping_run dc_jar _ _ _ _ w (with_ j b (int64 (id + 1))) w' j' a _ E);
    exact (dl_url (c:=c) (good:=good) (valid:=valid) (connected:=connected) (config:=config) (args:=args))].
  rewrite Hst. change (negb (200 =? 200)) with false. cbn iota.
  rewrite (bind_ok _ _ _ _ _ (unmarshal_ok _ _ _ _ Hd)). by rewrite He.
Qed.

Abbreviation ready w j := (valid j w = true ∧ connected w = true).

Lemma delugeLogin_run j id w : ∃ w' j' id',
  delugeLogin (mkNet w (with_ j false id)) =
    (mkNet w' (with_ j' good id'), if good then Ret tt else Err "login failed: invalid password") ∧
  config w' = config w ∧ (good = true → ready w' j').
Proof.
  destruct (delugeRequest_run "auth.login" [VString (dc_password c)] j false id w _ (dl_login (args:=args) j w) eq_refl)
    as (w1 & j1 & r1 & E1 & Hr1 & Hv1 & Hc1).
  unfold delugeLogin. rewrite bind_client. cbn [dc_loggedIn dc_session dc_password].
  rewrite (bind_ok _ _ _ _ _ (wrapErr_ok _ _ _ _ _ E1)), Hr1.
  rewrite (bind_ok _ _ _ _ _ (unmarshal_ok _ (Some (VBool good)) good _ eq_refl)).
  destruct (Bool.bool_dec good true) as [Hg|Hg%not_true_is_false]; rewrite Hg in Hv1 |- *; cbn [negb]; [|by eexists w1, j1, _].
  destruct (delugeRequest_run "web.get_hosts" [] j1 false (int64 (id + 1)) w1 _ (dl_hosts (good:=good) (args:=args) j1 w1 Hv1) eq_refl)
    as (w2 & j2 & r2 & E2 & (host & info & rest & Hd & Hh) & Hv2 & Hc2).
  rewrite (bind_ok _ _ _ _ _ (wrapErr_ok _ _ _ _ _ E2)), (bind_ok _ _ _ _ _ (unmarshal_ok _ _ _ _ Hd)).
  destruct (delugeRequest_run "web.connect" [VString host] j2 false (int64 (int64 (id + 1) + 1)) w2 _ Hh eq_refl)
    as (w3 & j3 & r3 & E3 & Hv3 & Hn3 & Hc3).
  cbn [connectFirst]. rewrite bind_assoc, (bind_attempt_ret _ _ _ _ _ E3), bind_ret_l.
  eexists w3, j3, _. split_and!; [done|by rewrite Hc3, Hc1|done].
Qed.

Lemma delugeLogin_then {A} (k : M (Net W (DelugeClient Jar)) A) (P : Net W (DelugeClient Jar) * outcome A → Prop) j id w :
  (∀ w' j' id', config w' = config w → ready w' j' → good = true → P (k (mkNet w' (with_ j' true id')))) →
  (∀ n' e, config (net_services n') = config w → good = false → P (n', Err e)) →
  P ((delugeLogin ;;; k) (mkNet w (with_ j false id))).
Proof.
  intros Hok Herr. destruct (delugeLogin_run j id w) as (w' & j' & id' & E & Hc & Hr).
  destruct (Bool.bool_dec good true) as [Hg|Hg%not_true_is_false]; rewrite Hg in E.
  - rewrite (bind_ok _ _ _ _ _ E). by apply Hok; [|apply Hr|].
  - rewrite (bind_err _ _ _ _ _ E). by apply Herr.
Qed.

(** What precedes each operation: the session is checked, and opened if need be. *)
Lemma ensureLoggedIn_then {A} (k : M (Net W (DelugeClient Jar)) A) (P : Net W (DelugeClient Jar) * outcome A → Prop) j b id w :
  (b = true → valid j w = true → connected w = true) →
  (∀ w' j' id', config w' = config w → ready w' j' → good || (b && valid j w) = true →
    P (k (mkNet w' (with_ j' true id')))) →
  (∀ n' e, config (net_services n') = config w → good || (b && valid j w) = false → P (n', Err e)) →
  P ((ensureLoggedIn ;;; k) (mkNet w (with_ j b id))).
Proof.
  intros Hconn Hok Herr. unfold ensureLoggedIn. rewrite bind_assoc, bind_client. cbn [dc_loggedIn dc_session].
  destruct b; cbn [negb andb].
  - rewrite bind_assoc. destruct (delugeRequest_run "auth.check_session" [] j true id w _ (dl_check (good:=good) (args:=args) j w) eq_refl)
      as (w1 & j1 & r1 & E1 & Hr1 & Hv1 & Hn1 & Hc1).
    rewrite (bind_attempt_ret _ _ _ _ _ E1), Hr1. cbn. destruct (valid j w) eqn:Hv.
    + rewrite bind_ret_l. apply Hok; [done|rewrite Hn1; by auto|apply orb_true_r].
    + unfold delugeSetLoggedIn. rewrite !bind_assoc, bind_client, bind_setClient.
      change (P ((delugeLogin ;;; k) (mkNet w1 (with_ j1 false (int64 (id + 1)))))).
      apply delugeLogin_then; rewrite Hc1.
      * intros w' j' id' Hc Hr Hg. apply Hok; [done..|]. by rewrite Hg.
      * intros n' e Hc Hg. apply Herr; [done|]. by rewrite Hg.
  - apply delugeLogin_then.
    + intros w' j' id' Hc Hr Hg. apply Hok; [done..|]. by rewrite Hg.
    + intros n' e Hc Hg. apply Herr; [done|]. by rewrite Hg.
Qed.
End session.

(** What a call of the configuration does once the client is logged in, or is not: a
    configuration that is no JSON is refused by the client itself. *)
Lemma delugeSetConfig_run {W} `{Transport W} (c : DelugeClient Jar) good valid connected config desired j b id w :
  DelugeLaws c good valid connected config desired → (b = true → valid j w = true → connected w = true) →
  let run := delugeSetConfig desired (mkNet w (dc_session j b id c)) in
  if (good || (b && valid j w)) && marshalable (VObject desired) then
    ∃ w' j' id', run = (mkNet w' (dc_session j' true id' c), Ret tt) ∧
      config w' = stored desired ∪ config w ∧ valid j' w' = true ∧ connected w' = true
  else ∃ n' e, run = (n', Err e) ∧ config (net_services n') = config w.
Proof.
  cbn zeta. intros Hl Hconn. unfold delugeSetConfig, delugeCall. rewrite bind_assoc.
  apply ensureLoggedIn_then; [done| |].
  - intros w1 j1 id1 Hc1 [Hv1 Hn1] ->. cbn [andb]. destruct (marshalable (VObject desired)) eqn:Hm.
    + destruct (delugeRequest_run "core.set_config" [VObject desired] j1 true id1 w1 _ (dl_set (good:=good) j1 w1 Hv1 Hn1))
        as (w2 & j2 & r2 & E2 & Hv2 & Hn2 & Hc2); [cbn [forallb]; by rewrite Hm|].
      exists w2, j2, (int64 (id1 + 1)). rewrite (bind_ok _ _ _ _ _ E2), Hc2, Hc1. by split_and!.
    + unfold delugeRequest, delugeNextID. rewrite !bind_assoc, bind_client. cbn zeta.
      rewrite !bind_assoc, bind_setClient, bind_ret_l.
      cbn [marshalable delugeBody forallb drq_ID drq_Method drq_Params andb]. rewrite Hm. cbn [negb andb].
      eexists _, _. split; [reflexivity|exact Hc1].
  - intros n' e Hc ->. by exists n', e.
Qed.

(** C16: The configuration reaches Deluge.  A specification without a setting (the
    connection alone) is synced without a request, whatever the password is.  For any
    other, with a good password, and with every number one that JSON has, the sync returns
    and the daemon then has the configuration of the specification over the one it had:
    whether the client was not logged in or had a session that has expired, since it logs
    in and connects the Web UI to the daemon first, or had a session that is valid, in
    which the Web UI was connected already; a second sync changes nothing.  With a
    password the Web UI refuses it fails and changes nothing, unless a session was open;
    and a ratio that is no number of JSON makes it fail and change nothing. *)
Theorem deluge_sync {W} `{Transport W} `{FloatSyntax} (c : DelugeClient Jar) good valid connected config spec j b id w :
  let desired := delugeConfig spec in
  let n := mkNet w (dc_session j b id c) in
  DelugeLaws c good valid connected config desired →
  (b = true → valid j w = true → connected w = true) →
  if bool_decide (desired = ∅) then syncDelugeSettings spec n = (n, Ret tt)
  else if (good || (b && valid j w)) && marshalable (VObject desired) then
    ∃ w' j' id', syncDelugeSettings spec n = (mkNet w' (dc_session j' true id' c), Ret tt) ∧
      config w' = stored desired ∪ config w ∧
      ∃ w'' j'' id'', syncDelugeSettings spec (mkNet w' (dc_session j' true id' c)) =
        (mkNet w'' (dc_session j'' true id'' c), Ret tt) ∧ config w'' = config w'
  else ∃ n' e, syncDelugeSettings spec n = (n', Err e) ∧ config (net_services n') = config w.
Proof.
  cbn zeta. intros Hl Hconn. unfold syncDelugeSettings. cbn zeta. case_bool_decide as Hne; [done|].
  pose proof (delugeSetConfig_run c good valid connected config _ j b id w Hl Hconn) as Hr. cbn zeta in Hr.
  destruct (_ && marshalable _) eqn:Hg; [|exact Hr]. apply andb_prop in Hg as [_ Hm].
  destruct Hr as (w1 & j1 & id1 & E1 & Hc1 & Hv1 & Hn1). exists w1, j1, id1. split_and!; [done..|].
  pose proof (delugeSetConfig_run c good valid connected config _ j1 true id1 w1 Hl (λ _ _, Hn1)) as Hr.
  cbn zeta in Hr. rewrite Hm, Hv1, orb_true_r in Hr.
  destruct Hr as (w2 & j2 & id2 & E2 & Hc2 & _). exists w2, j2, id2. split; [done|].
  by rewrite Hc2, Hc1, (assoc_L (∪)), (idemp_L (∪)).
Qed.

(** ** The crash *)

Lemma delugeRequest_noPanic {W} `{Transport W} method params : noPanic (delugeRequest method params).
Proof. unfold delugeRequest, delugeNextID, delugeSend. noPanics. Qed.
#[local] Hint Resolve delugeRequest_noPanic : nebularr.

Lemma connectFirst_panic {W} `{Transport W} hosts (n : Net W (DelugeClient Jar)) why :
  (connectFirst hosts n).2 = Panic why → why = "index out of range [0] with length 0"%string ∧ ∃ rest, hosts = [] :: rest.
Proof.
  destruct hosts as [|[|x info] rest]; cbn; [done| |].
  - intros [= <-]. split; [done|by exists rest].
  - assert (@steps (Net W (DelugeClient Jar)) unit anything (match x with
      | VString id => attempt (delugeRequest "web.connect" [VString id]) ;;; ret tt | _ => ret tt end)) as Hp by noPanics.
    by intros E%(proj2 (Hp n)).
Qed.

(** When a login to Deluge crashes: exactly when the password is accepted and the Web
    UI then lists a first host that is an empty list, whose first element the code reads
    without a check.  No other answer makes the login crash. *)
Theorem deluge_login_crash {W} `{Transport W} (n : Net W (DelugeClient Jar)) why :
  (delugeLogin n).2 = Panic why ↔
  why = "index out of range [0] with length 0"%string ∧ dc_loggedIn (net_client n) = false ∧
  ∃ n1 r1 n2 r2 rest,
    delugeRequest "auth.login" [VString (dc_password (net_client n))] n = (n1, Ret r1) ∧
    drr_Result r1 ≫= fromJSON = Some true ∧
    delugeRequest "web.get_hosts" [] n1 = (n2, Ret r2) ∧
    drr_Result r2 ≫= fromJSON = Some (([] : list any) :: rest).
Proof.
  unfold delugeLogin. destruct n as [w c]. rewrite bind_client. cbn [net_client].
  destruct (dc_loggedIn c); [naive_solver|].
  rewrite bind_panic_noPanic by noPanics. split.
  - intros (n1 & r1 & E1%wrapErr_ret & Hp).
    apply bind_panic_noPanic in Hp as (n1' & ok & [-> Hok]%unmarshal_ret & Hp); [|noPanics]. destruct ok; [|done].
    apply bind_panic_noPanic in Hp as (n2 & r2 & E2%wrapErr_ret & Hp); [|noPanics].
    apply bind_panic_noPanic in Hp as (n2' & hosts & [-> Hh]%unmarshal_ret & Hp); [|noPanics].
    apply bind_panic in Hp as [Hp|(? & ? & _ & Hp)]; [|done].
    apply connectFirst_panic in Hp as [-> [rest ->]]. split_and!; [done..|]. by exists n1, r1, n2, r2, rest.
  - intros (-> & _ & n1 & r1 & n2 & r2 & rest & E1 & Hok & E2 & Hh). exists n1, r1.
    split; [by apply wrapErr_ret|]. rewrite (bind_ok _ _ _ _ _ (unmarshal_ok _ _ _ _ Hok)). cbn [negb].
    rewrite (bind_ok _ _ _ _ _ (wrapErr_ok _ _ _ _ _ E2)), (bind_ok _ _ _ _ _ (unmarshal_ok _ _ _ _ Hh)). done.
Qed.

(** ** A server that keeps the promise *)
Module MiniDeluge.

(** The state is whether the Web UI is connected, and the configuration; a jar says
    whether it holds a session. *)
Definition State : Type := bool * Settings.

Definition success (id : any) (result : any) : HttpReply :=
  Reply (mkHttpResponse 200 [] "" (Some (VMap [("id", id); ("result", result); ("error", VNil)]%string)) None).

Definition answer (j : bool) (id : any) (method : string) (params : list any) (s : State) : State * (bool * HttpReply) :=
  if String.eqb method "auth.login" then (s, (true, success id (VBool true)))
  else if String.eqb method "auth.check_session" then (s, (j, success id (VBool j)))
  else if String.eqb method "web.get_hosts" then
    (s, (j, success id (VList [VList [VString "d1"; VString "127.0.0.1"; VInt 58846; VString "Online"]])))
  else if String.eqb method "web.connect" then ((true, s.2), (j, success id VNil))
  else
    match params with
    | [VMap args] => ((s.1, if j && s.1 then list_to_map args ∪ s.2 else s.2), (j, success id VNil))
    | _ => (s, (j, success id VNil))
    end.

Definition respond (j : bool) (r : HttpRequest) (s : State) : State * (bool * HttpReply) :=
  match hq_Body r with
  | JSONBody (VMap [(_, id); (_, VString method); (_, VList params)]) => answer j id method params s
  | _ => (s, (j, NoReply "EOF"))
  end.

#[export] Instance Server : Transport State := {|
  Jar := bool;
  newJar := false;
  roundTrip := respond;
  newRequestError := id;
  marshalError _ := "json: unsupported value"%string;
  unmarshalError _ := "json"%string;
  xmlError _ := "xml"%string |}.
#[export] Instance noFloats : FloatSyntax := {| parseFloat _ := None; scanFloat _ := None |}.

Definition exampleClient : DelugeClient bool := NewDelugeClient "http://seedbox:8112/" "deluge".
Definition exampleDeluge : DelugeSpec :=
  mkDelugeSpec (mkDelugeConnectionSpec "http://seedbox:8112" None) (Some (mkDelugeSpeedSpec 500 (-1) 0 0)) None None None
    (Some (mkDelugeConnectionsSpec 200 0 0 0 [6881; 6889] false)) None.

Lemma deluge_keeps args : DelugeLaws exampleClient true (λ j _, j) fst snd args.
Proof.
  split.
  - vm_compute. discriminate.
  - intros j w id. by eexists w, true, _, (mkDelugeRPCResponse id (Some (VBool true)) None).
  - intros j w -> id. eexists w, true, _, (mkDelugeRPCResponse id (Some _) None). split_and!; [done..| |done|done].
    eexists _, _, _. split; [done|]. intros id'. by eexists (true, w.2), true, _, (mkDelugeRPCResponse id' (Some VNil) None).
  - intros j w id. by eexists w, j, _, (mkDelugeRPCResponse id (Some (VBool j)) None).
  - intros j [k s] -> Hk id. cbn in Hk. subst k.
    eexists (true, stored args ∪ s), true, _, (mkDelugeRPCResponse id (Some VNil) None). split_and!;
      [unfold roundTrip, Server, respond; cbn; by rewrite arguments_stored|done..].
Qed.
End MiniDeluge.

Section witnesses.
Import MiniDeluge.

(** A new client logs in, connects the Web UI and sets the configuration. *)
Lemma deluge_sync_witness : ∃ w' j' id',
  syncDelugeSettings exampleDeluge (mkNet (false, ∅) exampleClient) =
    (mkNet w' (dc_session j' true id' exampleClient), Ret tt) ∧
  w'.2 !! "listen_ports"%string = Some (VList [VInt 6881; VInt 6889]) ∧
  w'.2 !! "max_upload_speed"%string = Some (VInt (-1)).
Proof.
  assert (bool_decide (delugeConfig exampleDeluge = ∅) = false) as Hne by (vm_compute; reflexivity).
  pose proof (deluge_sync exampleClient true (λ j _, j) fst snd exampleDeluge false false 0 (false, ∅)
    (deluge_keeps _) ltac:(discriminate)) as Hs.
  cbv zeta in Hs. rewrite Hne in Hs.
  assert (marshalable (VObject (delugeConfig exampleDeluge)) = true) as Hm by (vm_compute; reflexivity).
  rewrite Hm in Hs. cbn [orb andb] in Hs. destruct Hs as (w' & j' & id' & E & Hc & _). exists w', j', id'. split; [exact E|].
  rewrite Hc. split; vm_compute; reflexivity.
Defined.
End witnesses.
