(* ===== verification/RTorrent.v ===== *)
(** * rTorrent (src/internal/adapters/downloadstack/rtorrent_client.go and
      syncRTorrentSettings of downloadstackconfig_controller.go)

    The XML-RPC client: the document of a call as encoding/xml makes it from the tags
    of the request structs, the decoding of the response, and the calls that set what
    the specification asks for. *)
From S2P Require Export Settings DownloadStackApi.

(** ** Documents *)

Definition xmlName (x : xml) : string := match x with XText n _ => n | XElem n _ => n end.
Definition xmlText (x : xml) : string := match x with XText _ t => t | XElem _ _ => "" end.
Definition xmlChildren (x : xml) : list xml := match x with XText _ _ => [] | XElem _ l => l end.

Definition elementsNamed (name : string) (l : list xml) : list xml := filter (λ x, xmlName x = name) l.

(** The elements at the end of a path such as [params>param], in order. *)
Fixpoint elementsAt (path : list string) (l : list xml) : list xml :=
  match path with
  | [] => []
  | [name] => elementsNamed name l
  | name :: path' => elementsAt path' (elementsNamed name l ≫= xmlChildren)
  end.

(** The members of a struct: those of all the elements of its name, which decode into
    one struct. *)
Definition membersOf (name : string) (l : list xml) : list xml := elementsNamed name l ≫= xmlChildren.

(** A member of a simple type: each element of its name is converted in turn and the
    last one stays. *)
Definition readText {A} (conv : string → option A) (zero : A) (name : string) (l : list xml) : option A :=
  foldl (λ acc x, _ ← acc; conv (xmlText x)) (Some zero) (elementsNamed name l).

Section decode.
Context `{UnicodeSpace} `{FloatSyntax}.

(** [copyValue] of encoding/xml; an empty text is zero. *)
Definition intText (s : string) : option Z :=
  if String.eqb s "" then Some 0 else let '(n, ok) := Atoi (TrimSpace s) in if ok then Some n else None.
Definition floatText (s : string) : option float64 :=
  if String.eqb s "" then Some float64_zero else parseFloat (TrimSpace s).

Record XMLRPCScalar := mkXMLRPCScalar {
  xs_String : string;
  xs_Int : Z;
  xs_Int4 : Z;
  xs_Double : float64;
  xs_Boolean : Z }.

Definition readScalar (l : list xml) : option XMLRPCScalar :=
  vString ← readText Some "" "string" l;
  vInt ← readText intText 0 "i8" l;
  vInt4 ← readText intText 0 "i4" l;
  vDouble ← readText floatText float64_zero "double" l;
  vBoolean ← readText intText 0 "boolean" l;
  Some (mkXMLRPCScalar vString vInt vInt4 vDouble vBoolean).

(** A value and, if it is an array, its values. *)
Record XMLRPCResult := mkXMLRPCResult {
  xr_Value : XMLRPCScalar;
  xr_Array : option (list XMLRPCScalar) }.

Definition readResult (l : list xml) : option XMLRPCResult :=
  vValue ← readScalar l;
  vArray ← match elementsNamed "array" l with
           | [] => Some None
           | _ => Some <$> mapM (λ x, readScalar (xmlChildren x))
                             (elementsNamed "value" (membersOf "data" (membersOf "array" l)))
           end;
  Some (mkXMLRPCResult vValue vArray).

Record XMLRPCMember := mkXMLRPCMember {
  xm_Name : string;
  xm_String : string;
  xm_Int : Z }.

Definition readFaultMember (l : list xml) : option XMLRPCMember :=
  vName ← readText Some "" "name" l;
  vString ← readText Some "" "string" (membersOf "value" l);
  vInt ← readText intText 0 "i4" (membersOf "value" l);
  Some (mkXMLRPCMember vName vString vInt).

Record XMLRPCResponse := mkXMLRPCResponse {
  xp_Params : list XMLRPCResult;
  xp_Fault : option (list XMLRPCMember) }.

Definition readResponse (x : xml) : option XMLRPCResponse :=
  if String.eqb (xmlName x) "methodResponse" then
    let l := xmlChildren x in
    vParams ← mapM (λ p, readResult (membersOf "value" (xmlChildren p))) (elementsAt ["params"; "param"]%string l);
    vFault ← match elementsNamed "fault" l with
             | [] => Some None
             | _ => Some <$> mapM (λ m, readFaultMember (xmlChildren m))
                               (elementsNamed "member" (membersOf "struct" (membersOf "value" (membersOf "fault" l))))
             end;
    Some (mkXMLRPCResponse vParams vFault)
  else None.
End decode.

(** ** Calls *)

(** An argument as the [<value>] of a [<param>]; [None] for a type the code does not
    support.  An empty string is left out of its value. *)
Definition XMLRPCValue (p : any) : option (list xml) :=
  match p with
  | VString s => Some (if String.eqb s "" then [] else [XText "string" s])
  | VInt n => Some [XText "i8" (Itoa n)]
  | VFloat f => Some [XText "double" (formatFloat f)]
  | VBool b => Some [XText "boolean" (if b then "1" else "0")]
  | _ => None
  end.
Definition XMLRPCParam (value : list xml) : xml := XElem "param" [XElem "value" value].

(** [XMLRPCRequest]: the field [Params] has no tag, and the name of its elements is that
    of their type. *)
Definition XMLRPCRequest (methodName : string) (params : list xml) : xml :=
  XElem "methodCall" (XText "methodName" methodName :: params).

(** [%T] of an argument. *)
Definition typeName (p : any) : string :=
  match p with
  | VNil => "<nil>"
  | VBool _ => "bool"
  | VString _ => "string"
  | VInt _ => "int"
  | VFloat _ => "float64"
  | VInts _ => "[]int"
  | VList _ => "[]interface {}"
  | VMap _ => "map[string]interface {}"
  end.

Fixpoint encodeParams (params : list any) : list xml + error :=
  match params with
  | [] => inl []
  | p :: rest =>
      match XMLRPCValue p with
      | None => inr ("unsupported parameter type: " +:+ typeName p)%string
      | Some v => match encodeParams rest with
                  | inl l => inl (XMLRPCParam v :: l)
                  | inr e => inr e
                  end
      end
  end.

Record RTorrentClient := mkRTorrentClient {
  rc_baseURL : string;
  rc_username : string;
  rc_password : string }.

Definition NewRTorrentClient (baseURL username password : string) : RTorrentClient :=
  mkRTorrentClient (trimSlash baseURL) username password.

Section client.
Context {W : Type} `{Transport W} `{UnicodeSpace} `{FloatSyntax} (c : RTorrentClient).

Definition callPost (document : xml) : HttpRequest :=
  mkHttpRequest "POST" (rc_baseURL c) [("Content-Type", "text/xml")%string] (basicAuth (rc_username c) (rc_password c))
    (XMLBody document).

(** The code and the text of a fault: of its last members of these names. *)
Definition faultError (members : list XMLRPCMember) : error :=
  let code := foldl (λ n m, if String.eqb (xm_Name m) "faultCode" then xm_Int m else n) 0 members in
  let text := foldl (λ s m, if String.eqb (xm_Name m) "faultString" then xm_String m else s) "" members in
  ("XML-RPC fault " +:+ Itoa code +:+ ": " +:+ text)%string.

Definition call (method : string) (params : list any) : M W XMLRPCResponse :=
  match encodeParams params with
  | inr e => fail e
  | inl xmlParams =>
      let* r := exchange "failed to create request" "request failed" (callPost (XMLRPCRequest method xmlParams)) in
      if negb (hp_Status r =? 200) then fail (httpError r)
      else
        match hp_XML r ≫= readResponse with
        | None => fail ("failed to unmarshal response: " +:+ xmlError (hp_XML r))%string
        | Some resp => match xp_Fault resp with Some members => fail (faultError members) | None => ret resp end
        end
  end.

(** The first value of a response, and a call for its string or its integer. *)
Definition firstValue (resp : XMLRPCResponse) : option XMLRPCScalar := xr_Value <$> head (xp_Params resp).
Definition callString (method : string) : M W string :=
  let* resp := call method [] in ret (from_option xs_String "" (firstValue resp)).
Definition callInt (method : string) : M W Z :=
  let* resp := call method [] in ret (from_option xs_Int 0 (firstValue resp)).
Definition callVersion (method : string) : M W string :=
  let* resp := call method [] in
  match firstValue resp with Some v => ret (xs_String v) | None => fail "no version in response" end.
Definition callSet (method : string) (params : list any) : M W unit := call method params ;;; ret tt.

Definition rtGetVersion : M W string := callVersion "system.client_version".
Definition rtTestConnection : M W unit := rtGetVersion ;;; ret tt.
Definition GetLibTorrentVersion : M W string := callVersion "system.library_version".

Definition GetSetting (name : string) : M W string :=
  let* resp := call name [] in
  match firstValue resp with
  | None => ret ""%string
  | Some v =>
      if negb (String.eqb (xs_String v) "") then ret (xs_String v)
      else if negb (xs_Int v =? 0) then ret (Itoa (xs_Int v))
      else if negb (xs_Int4 v =? 0) then ret (Itoa (xs_Int4 v))
      else ret ""%string
  end.
Definition SetSetting (name : string) (value : any) : M W unit := callSet (name +:+ ".set") [VString ""; value].

Definition GetDownloadRate : M W Z := callInt "throttle.global_down.max_rate".
Definition rtSetDownloadRate (rate : Z) : M W unit := callSet "throttle.global_down.max_rate.set" [VString ""; VInt rate].
Definition GetUploadRate : M W Z := callInt "throttle.global_up.max_rate".
Definition SetUploadRate (rate : Z) : M W unit := callSet "throttle.global_up.max_rate.set" [VString ""; VInt rate].
Definition GetDirectory : M W string := callString "directory.default".
Definition SetDirectory (dir : string) : M W unit := callSet "directory.default.set" [VString ""; VString dir].
Definition GetSessionDirectory : M W string := callString "session.path".
Definition GetMaxPeers : M W Z := callInt "throttle.max_peers.normal".
Definition SetMaxPeers (peers : Z) : M W unit := callSet "throttle.max_peers.normal.set" [VString ""; VInt peers].
Definition GetMaxUploads : M W Z := callInt "throttle.max_uploads.global".
Definition SetMaxUploads (uploads : Z) : M W unit := callSet "throttle.max_uploads.global.set" [VString ""; VInt uploads].
Definition IsDHTEnabled : M W bool :=
  let* resp := call "dht.mode" [] in
  ret (from_option (λ v, negb (String.eqb (xs_String v) "off")) false (firstValue resp)).
Definition SetDHTMode (mode : string) : M W unit := callSet "dht.mode.set" [VString mode].
Definition GetEncryptionMode : M W string :=
  let* x := attempt (call "protocol.encryption.set" []) in
  match x with
  | inr _ => ret ""%string
  | inl resp => ret (from_option xs_String "" (firstValue resp))
  end.
Definition SetEncryptionMode (mode : string) : M W unit := callSet "protocol.encryption.set" [VString mode].
Definition GetTransferStats : M W (Z * Z) :=
  let* downloadRate := failedTo "get download rate" (callInt "throttle.global_down.rate") in
  let* uploadRate := failedTo "get upload rate" (callInt "throttle.global_up.rate") in
  ret (downloadRate, uploadRate).

(** ** The settings *)

Definition syncRTorrentSettings (spec : RTorrentSpec) : M W unit :=
  forSome (rt_Speed spec) (λ s,
    whenM (0 <? rts_DownloadRate s) (failedTo "set download rate" (rtSetDownloadRate (int64 (rts_DownloadRate s * 1024)))) ;;;
    whenM (0 <? rts_UploadRate s) (failedTo "set upload rate" (SetUploadRate (int64 (rts_UploadRate s * 1024))))) ;;;
  forSome (rt_Directories spec) (λ d,
    whenM (negb (String.eqb (rtd_Directory d) "")) (failedTo "set directory" (SetDirectory (rtd_Directory d)))) ;;;
  forSome (rt_Connections spec) (λ n,
    whenM (0 <? rtn_MaxPeers n) (failedTo "set max peers" (SetMaxPeers (rtn_MaxPeers n))) ;;;
    whenM (0 <? rtn_MaxUploads n) (failedTo "set max uploads" (SetMaxUploads (rtn_MaxUploads n)))) ;;;
  forSome (rt_Protocol spec) (λ p,
    forSome (rtp_DHT p) (λ dht, failedTo "set DHT mode" (SetDHTMode (if dht then "auto" else "off"))) ;;;
    whenM (negb (String.eqb (rtp_Encryption p) "")) (failedTo "set encryption mode" (SetEncryptionMode (rtp_Encryption p)))).
End client.

(** ** What the server reads *)

(** The calls a specification asks for, in order: the heading of an error, the method
    and the arguments. *)
Record SettingCall := mkSettingCall {
  sc_what : string;
  sc_method : string;
  sc_params : list any }.

Definition rtorrentCalls (spec : RTorrentSpec) : list SettingCall :=
  pickFor (rt_Speed spec) (λ s,
    pick (0 <? rts_DownloadRate s) (mkSettingCall "set download rate" "throttle.global_down.max_rate.set"
      [VString ""; VInt (int64 (rts_DownloadRate s * 1024))]) ++
    pick (0 <? rts_UploadRate s) (mkSettingCall "set upload rate" "throttle.global_up.max_rate.set"
      [VString ""; VInt (int64 (rts_UploadRate s * 1024))])) ++
  pickFor (rt_Directories spec) (λ d,
    pick (negb (String.eqb (rtd_Directory d) "")) (mkSettingCall "set directory" "directory.default.set"
      [VString ""; VString (rtd_Directory d)])) ++
  pickFor (rt_Connections spec) (λ n,
    pick (0 <? rtn_MaxPeers n) (mkSettingCall "set max peers" "throttle.max_peers.normal.set"
      [VString ""; VInt (rtn_MaxPeers n)]) ++
    pick (0 <? rtn_MaxUploads n) (mkSettingCall "set max uploads" "throttle.max_uploads.global.set"
      [VString ""; VInt (rtn_MaxUploads n)])) ++
  pickFor (rt_Protocol spec) (λ p,
    pickFor (rtp_DHT p) (λ dht,
      [mkSettingCall "set DHT mode" "dht.mode.set" [VString (if dht : bool then "auto" else "off")]]) ++
    pick (negb (String.eqb (rtp_Encryption p) "")) (mkSettingCall "set encryption mode" "protocol.encryption.set"
      [VString (rtp_Encryption p)])).

(** A call as an XML-RPC server reads it: its method, and its parameters at the path where
    the client itself looks for those of a response. *)
Definition methodOf (document : xml) : list string := xmlText <$> elementsNamed "methodName" (xmlChildren document).
Definition paramsOf (document : xml) : list xml := elementsAt ["params"; "param"]%string (xmlChildren document).

Section calls.
Context {W : Type} `{Transport W} `{UnicodeSpace} `{FloatSyntax} (c : RTorrentClient).
Implicit Types (w : W).

Definition runCall (x : SettingCall) : M W unit := failedTo (sc_what x) (callSet c (sc_method x) (sc_params x)).

(** The sync is its calls, one after another up to the first that fails. *)
Lemma rtorrent_calls spec : runsAs runCall (syncRTorrentSettings c spec) (rtorrentCalls spec).
Proof. unfold syncRTorrentSettings, rtorrentCalls. runs_as. Qed.

(** No document of a call has parameters where a server looks for them. *)
Lemma paramsOf_call method xmlParams : Forall (λ x, xmlName x = "param"%string) xmlParams →
  paramsOf (XMLRPCRequest method xmlParams) = [] ∧ methodOf (XMLRPCRequest method xmlParams) = [method].
Proof.
  intros Hp. unfold paramsOf, methodOf, elementsNamed. cbn [xmlChildren XMLRPCRequest elementsAt].
  unfold elementsNamed. rewrite !filter_cons_False, filter_cons_True by done.
  assert (∀ name : string, name ≠ "param"%string → filter (λ x, xmlName x = name) xmlParams = []) as Hf.
  { intros name Hn. induction Hp as [|x l Hx _ IH]; [done|]. rewrite filter_cons_False; [done|]. by rewrite Hx. }
  by rewrite !Hf.
Qed.

Lemma encodeParams_names params l : encodeParams params = inl l → Forall (λ x, xmlName x = "param"%string) l.
Proof.
  revert l. induction params as [|p params IH]; simpl; [by intros l [= <-]|]. intros l.
  destruct (XMLRPCValue p); [|done]. destruct (encodeParams params); [|done]. intros [= <-].
  constructor; [done|by apply IH].
Qed.

Definition supported (p : any) : bool := match XMLRPCValue p with Some _ => true | None => false end.

Lemma encodeParams_supported params : forallb supported params = true → ∃ l, encodeParams params = inl l.
Proof.
  unfold supported. induction params as [|p params IH]; simpl; [by eexists|]. intros [Hp Hps]%andb_true_iff.
  destruct (XMLRPCValue p); [|done]. destruct (IH Hps) as [xs ->]. by eexists.
Qed.

Lemma rtorrentCalls_supported spec : Forall (λ x, forallb supported (sc_params x) = true) (rtorrentCalls spec).
Proof.
  unfold rtorrentCalls, pickFor, pick, from_option.
  repeat first [apply Forall_app_2|case_match|apply Forall_nil_2|by apply Forall_singleton].
Qed.

(** C25: The values of the specification do not reach rTorrent.  The code writes the
    parameters of a call directly into [methodCall], not into [params], where XML-RPC
    has them and where the same code reads those of a response.  So to a server that
    reads calls at the place XML-RPC says, a specification is the same as any other
    that sets the same settings to whatever other values: the results and the states
    of the server are equal. *)
Theorem rtorrent_values_ignored spec spec' w :
  (∀ d d' j v, methodOf d = methodOf d' → paramsOf d = paramsOf d' →
    roundTrip j (callPost c d) v = roundTrip j (callPost c d') v) →
  sc_what <$> rtorrentCalls spec = sc_what <$> rtorrentCalls spec' →
  sc_method <$> rtorrentCalls spec = sc_method <$> rtorrentCalls spec' →
  syncRTorrentSettings c spec w = syncRTorrentSettings c spec' w.
Proof.
  intros Hreads Hwhat Hmethod. rewrite !(rtorrent_calls _ w).
  pose proof (rtorrentCalls_supported spec) as Hs. pose proof (rtorrentCalls_supported spec') as Hs'.
  revert Hwhat Hmethod Hs Hs' w. generalize (rtorrentCalls spec) (rtorrentCalls spec'). clear spec spec'.
  intros l. induction l as [|x l IH]; intros [|x' l'] Hwhat Hmethod Hs Hs' w; try done.
  apply Forall_cons_1 in Hs as [Hx Hs], Hs' as [Hx' Hs']. injection Hwhat as Ew Hwhat. injection Hmethod as Em Hmethod.
  cbn. assert (runCall x w = runCall x' w) as E.
  { unfold runCall, failedTo, wrapErr, callSet, call, bind. rewrite <-Ew, <-Em.
    destruct (encodeParams_supported _ Hx) as [ps Hps], (encodeParams_supported _ Hx') as [ps' Hps'].
    rewrite Hps, Hps'. destruct (paramsOf_call (sc_method x) ps (encodeParams_names _ _ Hps)) as [P1 M1].
    destruct (paramsOf_call (sc_method x) ps' (encodeParams_names _ _ Hps')) as [P2 M2].
    unfold exchange, send, bind. cbn [callPost hq_URL].
    by rewrite (Hreads _ (XMLRPCRequest (sc_method x) ps')) by congruence. }
  unfold bind. rewrite E. destruct (runCall x' w) as [w' [[]|e|why]]; [by apply IH|done..].
Qed.
End calls.

(** ** A server that reads calls *)
Module MiniRTorrent.

(** The state is the calls received: their methods and their parameters. *)
Definition State : Type := list (list string * list xml).
Definition document (r : HttpRequest) : xml := match hq_Body r with XMLBody d => d | _ => XText "" "" end.
Definition nothing : HttpReply :=
  Reply (mkHttpResponse 200 [] "" None (Some (XElem "methodResponse" [XElem "params" [XElem "param" [XElem "value" []]]]))).

#[export] Instance Server : Transport State := {|
  Jar := unit;
  newJar := tt;
  roundTrip j r s := ((methodOf (document r), paramsOf (document r)) :: s, (tt, nothing));
  newRequestError := id;
  marshalError _ := "json"%string;
  unmarshalError _ := "json"%string;
  xmlError _ := "xml"%string |}.
#[export] Instance noFloats : FloatSyntax := {| parseFloat _ := None; scanFloat _ := None |}.
#[export] Instance asciiSpace : UnicodeSpace := id.

Definition exampleClient : RTorrentClient := NewRTorrentClient "http://seedbox/RPC2" "" "".
Definition limited (rate : Z) (directory : string) : RTorrentSpec :=
  mkRTorrentSpec (mkRTorrentConnectionSpec "http://seedbox/RPC2" None) (Some (mkRTorrentSpeedSpec rate 0))
    (Some (mkRTorrentDirectoriesSpec directory "")) None None None.
End MiniRTorrent.

Section witnesses.
Import MiniRTorrent.

(** Two rates and two directories: the server receives the same two calls, without a value. *)
Lemma rtorrent_values_ignored_witness :
  syncRTorrentSettings exampleClient (limited 100 "/data/a") ([] : State) =
    syncRTorrentSettings exampleClient (limited 900 "/data/b") [] ∧
  (syncRTorrentSettings exampleClient (limited 100 "/data/a") ([] : State)).1 =
    [(["directory.default.set"%string], []); (["throttle.global_down.max_rate.set"%string], [])].
Proof.
  split; [|vm_compute; reflexivity].
  apply (rtorrent_values_ignored exampleClient (limited 100 "/data/a") (limited 900 "/data/b"));
    [|vm_compute; reflexivity..].
  intros d d' j v Hm Hp. cbn -[paramsOf methodOf]. by rewrite Hm, Hp.
Defined.
End witnesses.
