(* ===== verification/Sabnzbd.v ===== *)
(** * SABnzbd (src/internal/adapters/downloadstack/sabnzbd_client.go and
      syncSABnzbdSettings of downloadstackconfig_controller.go)

    The client whose calls are query strings of GET requests, and the calls that set
    what the specification asks for. *)
From S2P Require Export Settings DownloadStackApi ClientTypes.

(** ** The client *)

Record SABnzbdClient := mkSABnzbdClient {
  sb_baseURL : string;
  sb_apiKey : string }.

Definition NewSABnzbdClient (baseURL apiKey : string) : SABnzbdClient := mkSABnzbdClient (trimSlash baseURL) apiKey.

Section client.
Context {W : Type} `{Transport W} (c : SABnzbdClient).

Definition sabParams (mode : string) (params : gmap string string) : gmap string string :=
  <["output" := "json"]> (<["mode" := mode]> (<["apikey" := sb_apiKey c]> params))%string.

Definition sabGet (mode : string) (params : gmap string string) : HttpRequest :=
  mkHttpRequest "GET" (sb_baseURL c +:+ "/api?" +:+ encodeValues (sabParams mode params)) [] None NoBody.

Definition sabRequest (mode : string) (params : gmap string string) : M W HttpResponse :=
  let* r := exchange "failed to create request" "request failed" (sabGet mode params) in
  if negb (hp_Status r =? 200) then fail (httpError r) else ret r.

(** Decode a member of the answer's object. *)
Definition sabRead {A} (msg mode : string) (member : list (string * any) → option A) : M W A :=
  let* r := sabRequest mode ∅ in
  match hp_JSON r ≫= asStruct member with
  | Some a => ret a
  | None => fail (msg +:+ ": " +:+ unmarshalError (hp_JSON r))%string
  end.

Definition sabGetVersion : M W string := sabRead "failed to parse version" "version" (getString "version").
Definition sabTestConnection : M W unit := sabGetVersion ;;; ret tt.
Definition sabGetConfig : M W SABnzbdConfig := sabRead "failed to parse config" "get_config" (getStruct "config").

Definition sabSetConfig (section_ keyword value : string) : M W unit :=
  let* r := sabRequest "set_config"
    (<["value" := value]> (<["keyword" := keyword]> {["section" := section_]}))%string in
  let* result := unmarshal "failed to parse response" (hp_JSON r) in
  if srr_Status result then ret tt else fail ("set_config failed: " +:+ srr_Error result)%string.

Definition GetQueue : M W SABnzbdQueue := sabRead "failed to parse queue" "queue" (getStruct "queue").
Definition sabGetHistory : M W SABnzbdHistory := sabRead "failed to parse history" "history" (getStruct "history").
Definition Pause : M W unit := sabRequest "pause" ∅ ;;; ret tt.
Definition Resume : M W unit := sabRequest "resume" ∅ ;;; ret tt.
Definition SetSpeedLimit (limit : Z) : M W unit := sabRequest "config" {["value"%string := Itoa limit]} ;;; ret tt.
Definition Restart : M W unit := sabRequest "restart" ∅ ;;; ret tt.
Definition GetServerStats : M W (gmap string any) :=
  let* r := sabRequest "server_stats" ∅ in unmarshal "failed to parse server stats" (hp_JSON r).
Definition GetWarnings : M W (list string) :=
  sabRead "failed to parse warnings" "warnings" (getSlice fromJSON "warnings").

(** ** The settings *)

(** [SetConfig] in the section [misc], and its error. *)
Definition setMisc (keyword value : string) : M W unit :=
  failedTo ("set " +:+ keyword) (sabSetConfig "misc" keyword value).
Definition setMiscPath (keyword value : string) : M W unit :=
  whenM (negb (String.eqb value "")) (setMisc keyword value).

Definition syncSABnzbdSettings (spec : SABnzbdSpec) : M W unit :=
  forSome (sb_Speed spec) (λ s,
    whenM (0 <? sbs_SpeedLimit s) (failedTo "set speed limit" (SetSpeedLimit (sbs_SpeedLimit s))) ;;;
    whenM (sbs_PauseDownloads s) (failedTo "pause downloads" Pause)) ;;;
  forSome (sb_Directories spec) (λ d,
    setMiscPath "download_dir" (sbd_DownloadDir d) ;;;
    setMiscPath "complete_dir" (sbd_CompleteDir d) ;;;
    setMiscPath "incomplete_dir" (sbd_IncompleteDir d) ;;;
    setMiscPath "script_dir" (sbd_ScriptDir d) ;;;
    setMiscPath "nzb_backup_dir" (sbd_NzbBackupDir d)) ;;;
  forSome (sb_Queue spec) (λ q,
    whenM (sbq_PreCheck q) (setMisc "pre_check" "1") ;;;
    whenM (0 <? sbq_MaxRetries q) (setMisc "max_art_tries" (Itoa (sbq_MaxRetries q)))) ;;;
  forSome (sb_PostProcessing spec) (λ p,
    whenM (sbp_UnpackEnabled p) (setMisc "unpack" "1") ;;;
    whenM (sbp_CleanupEnabled p) (setMisc "cleanup_list" "1")).
End client.

(** ** The sync *)

(** The calls a specification asks for, in order. *)
Inductive SabCall :=
| SabLimit (n : Z)
| SabPause
| SabSet (keyword value : string).

Definition sabPath (keyword value : string) : list SabCall := pick (negb (String.eqb value "")) (SabSet keyword value).

Definition sabnzbdCalls (spec : SABnzbdSpec) : list SabCall :=
  pickFor (sb_Speed spec) (λ s,
    pick (0 <? sbs_SpeedLimit s) (SabLimit (sbs_SpeedLimit s)) ++ pick (sbs_PauseDownloads s) SabPause) ++
  pickFor (sb_Directories spec) (λ d,
    sabPath "download_dir" (sbd_DownloadDir d) ++ sabPath "complete_dir" (sbd_CompleteDir d) ++
    sabPath "incomplete_dir" (sbd_IncompleteDir d) ++ sabPath "script_dir" (sbd_ScriptDir d) ++
    sabPath "nzb_backup_dir" (sbd_NzbBackupDir d)) ++
  pickFor (sb_Queue spec) (λ q,
    pick (sbq_PreCheck q) (SabSet "pre_check" "1") ++
    pick (0 <? sbq_MaxRetries q) (SabSet "max_art_tries" (Itoa (sbq_MaxRetries q)))) ++
  pickFor (sb_PostProcessing spec) (λ p,
    pick (sbp_UnpackEnabled p) (SabSet "unpack" "1") ++ pick (sbp_CleanupEnabled p) (SabSet "cleanup_list" "1")).

Definition runSab {W} `{Transport W} (c : SABnzbdClient) (x : SabCall) : M W unit :=
  match x with
  | SabLimit n => failedTo "set speed limit" (SetSpeedLimit c n)
  | SabPause => failedTo "pause downloads" (Pause c)
  | SabSet keyword value => setMisc c keyword value
  end.

Lemma sabnzbd_calls {W} `{Transport W} c spec : runsAs (runSab c) (syncSABnzbdSettings c spec) (sabnzbdCalls spec).
Proof. unfold syncSABnzbdSettings, sabnzbdCalls, setMiscPath, sabPath. runs_as. Qed.

(** What SABnzbd promises to a client for the [calls]: a call answers 200 whatever it
    thinks of the API key, which is [right] or not; set_config tells in the answer, and
    stores the value in the section [misc] only with the right key. *)
Definition callGet (c : SABnzbdClient) (x : SabCall) : HttpRequest :=
  match x with
  | SabLimit n => sabGet c "config" {["value"%string := Itoa n]}
  | SabPause => sabGet c "pause" ∅
  | SabSet keyword value =>
      sabGet c "set_config" (<["value" := value]> (<["keyword" := keyword]> {["section" := "misc"]}))%string
  end.

Definition isSet (x : SabCall) : bool := match x with SabSet _ _ => true | _ => false end.

(** The values of the section [misc] after a call that SABnzbd carries out. *)
Definition applySab (conf : gmap string string) (x : SabCall) : gmap string string :=
  match x with SabSet keyword value => <[keyword := value]> conf | _ => conf end.

Class SABnzbdLaws {W} `{Transport W} (c : SABnzbdClient) (right_ : bool) (conf : W → gmap string string)
    (calls : list SabCall) : Prop := {
  sl_url x : x ∈ calls → urlParse (hq_URL (callGet c x)) ≠ None;
  sl_set x w : x ∈ calls → isSet x = true →
    ∃ w' j a result, roundTrip newJar (callGet c x) w = (w', (j, Reply a)) ∧ hp_Status a = 200 ∧
      hp_JSON a ≫= fromJSON = Some result ∧ srr_Status result = right_ ∧
      conf w' = if right_ then applySab (conf w) x else conf w;
  sl_other x w : x ∈ calls → isSet x = false →
    ∃ w' j a, roundTrip newJar (callGet c x) w = (w', (j, Reply a)) ∧ hp_Status a = 200 ∧ conf w' = conf w }.

Section sync.
Context {W : Type} `{Transport W} (c : SABnzbdClient) (right_ : bool) (conf : W → gmap string string).
Implicit Types (w : W).

Lemma runSab_run calls x w : SABnzbdLaws c right_ conf calls → x ∈ calls →
  ∃ w', if right_ || negb (isSet x) then runSab c x w = (w', Ret tt) ∧ conf w' = applySab (conf w) x
        else (∃ e, runSab c x w = (w', Err e)) ∧ conf w' = conf w.
Proof.
  intros Hl Hx. destruct (isSet x) eqn:Hs.
  - destruct (sl_set x w Hx Hs) as (w' & j & a & result & E & Hst & Hd & Hr & Hc). exists w'.
    destruct x as [| |keyword value]; [done..|]. rewrite orb_false_r.
    assert (sabSetConfig c "misc" keyword value w =
      (w', if right_ then Ret tt else Err ("set_config failed: " +:+ srr_Error result)%string)) as Er.
    { unfold sabSetConfig, sabRequest. rewrite bind_assoc.
      rewrite (bind_ok _ _ _ _ _ (exchange_run _ _ _ _ _ _ _ (sl_url _ Hx) E)), Hst.
      change (negb (200 =? 200)) with false. cbn iota. rewrite bind_ret_l, (bind_ok _ _ _ _ _ (unmarshal_ok _ _ _ _ Hd)), Hr.
      by destruct right_. }
    unfold runSab, setMisc, failedTo. destruct right_.
    + by rewrite (wrapErr_ok _ _ _ _ _ Er).
    + rewrite (wrapErr_err _ _ _ _ _ Er). split; [by eexists|done].
  - destruct (sl_other x w Hx Hs) as (w' & j & a & E & Hst & Hc). exists w'. rewrite orb_true_r.
    pose proof (exchange_run "failed to create request" "request failed" _ _ _ _ _ (sl_url x Hx) E) as Ex.
    destruct x as [n| |]; [| |done]; (split; [|done]); unfold runSab, failedTo; apply wrapErr_ok;
      unfold SetSpeedLimit, Pause, sabRequest; rewrite bind_assoc, (bind_ok _ _ _ _ _ Ex), Hst; done.
Qed.

(** With the right key the calls go through; without it the first that sets a value of
    the configuration fails and nothing is stored. *)
Lemma inTurn_sab all calls w : SABnzbdLaws c right_ conf all → (∀ x, x ∈ calls → x ∈ all) →
  ∃ w', if right_ || forallb (negb ∘ isSet) calls
        then inTurn (runSab c) calls w = (w', Ret tt) ∧ conf w' = foldl applySab (conf w) calls
        else (∃ e, inTurn (runSab c) calls w = (w', Err e)) ∧ conf w' = conf w.
Proof.
  intros Hl. revert w. induction calls as [|x calls IH]; intros w Hin; [exists w; by rewrite orb_true_r|].
  destruct (runSab_run all x w Hl (Hin x ltac:(by left))) as (w1 & Hx). simpl. unfold compose at 1.
  destruct (right_ || negb (isSet x)) eqn:Hr.
  - destruct Hx as [E Hc]. destruct (IH w1 (λ y Hy, Hin y (list_elem_of_further _ _ _ Hy))) as (w2 & Hx2). exists w2.
    rewrite (bind_ok _ _ _ _ _ E). destruct right_; [by rewrite <-Hc|]. cbn [orb] in *. rewrite Hr. cbn [andb].
    destruct x; [..|done]; cbn [applySab] in *; by rewrite <-Hc.
  - apply orb_false_iff in Hr as [-> Hr]. rewrite Hr. cbn [orb andb] in *. destruct Hx as [[e E] Hc]. exists w1.
    split; [|done]. exists e. by apply bind_err.
Qed.
End sync.

(** C32: The settings reach SABnzbd, or, with a wrong API key, perhaps silently not.  With
    the right key the sync returns and the section [misc] has every value the
    specification sets, over those it had.  With a wrong key nothing is stored; the sync
    fails if there is a value to store, but a specification of a speed limit or a pause
    only is reported as synced, since of those calls only the status is looked at. *)
Theorem sabnzbd_sync {W} `{Transport W} c right_ (conf : W → gmap string string) spec w :
  SABnzbdLaws c right_ conf (sabnzbdCalls spec) →
  if right_ || forallb (negb ∘ isSet) (sabnzbdCalls spec) then
    ∃ w', syncSABnzbdSettings c spec w = (w', Ret tt) ∧ conf w' = foldl applySab (conf w) (sabnzbdCalls spec)
  else ∃ w' e, syncSABnzbdSettings c spec w = (w', Err e) ∧ conf w' = conf w.
Proof.
  intros Hl. rewrite (sabnzbd_calls c spec w). destruct (inTurn_sab c right_ conf _ _ w Hl (λ _ H, H)) as (w' & Hr).
  destruct (right_ || _); [by exists w'|]. destruct Hr as [[e E] Hc]. by exists w', e.
Qed.

(** ** The query *)

(** A query as the server reads it: split at the ampersands, then at the first equals
    sign of each part, and unescaped. *)
Fixpoint Split (sep : ascii) (s : string) : list string :=
  match s with
  | EmptyString => [""%string]
  | String c s' =>
      if Ascii.eqb c sep then ""%string :: Split sep s'
      else match Split sep s' with
           | [] => [String c ""]
           | first :: rest => String c first :: rest
           end
  end.

Fixpoint QueryUnescape (s : string) : option string :=
  match s with
  | EmptyString => Some ""%string
  | String "%" (String h (String l s')) =>
      if isHex h && isHex l then String (ascii_of_N (16 * unhex h + unhex l)) <$> QueryUnescape s' else None
  | String "%" _ => None
  | String c s' => String (if Ascii.eqb c "+" then " "%char else c) <$> QueryUnescape s'
  end.

Definition parsePair (s : string) : option (string * string) :=
  kv ← Cut "=" s; k ← QueryUnescape kv.1; v ← QueryUnescape kv.2; Some (k, v).
Definition parseQuery (q : string) : option (list (string * string)) :=
  if String.eqb q "" then Some [] else mapM parsePair (Split "&" q).

Definition queryByte (c : ascii) : bool := notByte "&" c && notByte "=" c.

Lemma QueryEscape_bytes s : stringForall queryByte (QueryEscape s) = true.
Proof.
  induction s as [|c s IH]; [done|]. cbn [QueryEscape].
  destruct c as [[] [] [] [] [] [] [] []]; exact IH.
Qed.

Lemma QueryUnescape_escape s : QueryUnescape (QueryEscape s) = Some s.
Proof.
  induction s as [|c s IH]; [done|]. cbn [QueryEscape]. revert IH. generalize (QueryEscape s). intros t IH.
  transitivity (String c <$> QueryUnescape t); [|by rewrite IH].
  destruct c as [[] [] [] [] [] [] [] []]; reflexivity.
Qed.

Lemma parsePair_escape k v : parsePair (QueryEscape k +:+ "=" +:+ QueryEscape v) = Some (k, v).
Proof.
  unfold parsePair. change ("=" +:+ QueryEscape v)%string with (String "=" (QueryEscape v)). rewrite Cut_append.
  - simpl. by rewrite !QueryUnescape_escape.
  - eapply stringForall_impl; [|apply QueryEscape_bytes]. intros c Hc. unfold queryByte, notByte in Hc.
    by apply andb_true_iff in Hc as [_ Hc].
Qed.

Lemma Split_none sep s : stringForall (notByte sep) s = true → Split sep s = [s].
Proof.
  induction s as [|c s IH]; [done|]. intros [Hc Hs]%andb_true_iff. simpl. unfold notByte in Hc.
  rewrite negb_true_iff in Hc. by rewrite Hc, IH.
Qed.

Lemma Split_append sep s t : stringForall (notByte sep) s = true → Split sep (s +:+ String sep t) = s :: Split sep t.
Proof.
  induction s as [|c s IH]; simpl; [by rewrite Ascii.eqb_refl|]. intros [Hc Hs]%andb_true_iff. unfold notByte in Hc.
  rewrite negb_true_iff in Hc. by rewrite Hc, IH.
Qed.

Lemma Split_join (sep : ascii) l : l ≠ [] → Forall (λ s, stringForall (notByte sep) s = true) l →
  Split sep (joinWith (String sep "") l) = l.
Proof.
  intros Hne Hl. induction Hl as [|s l Hs Hl IH]; [done|]. destruct l as [|s' l]; [by apply Split_none|].
  change (joinWith (String sep "") (s :: s' :: l)) with (s +:+ String sep (joinWith (String sep "") (s' :: l)))%string.
  by rewrite Split_append, IH.
Qed.

Definition pairText (kv : string * string) : string := (QueryEscape kv.1 +:+ "=" +:+ QueryEscape kv.2)%string.

Lemma parsePair_text kv : parsePair (pairText kv) = Some kv.
Proof. destruct kv as [k v]. apply parsePair_escape. Qed.

Lemma pairText_bytes kv : stringForall (notByte "&") (pairText kv) = true.
Proof.
  destruct kv as [k v]. unfold pairText. change ("=" +:+ QueryEscape v)%string with (String "=" (QueryEscape v)).
  rewrite stringForall_app. simpl.
  assert (∀ s, stringForall (notByte "&") (QueryEscape s) = true) as Hs; [|rewrite Hs; exact (Hs v)].
  intros s. eapply stringForall_impl; [|apply QueryEscape_bytes]. intros c Hc. by apply andb_true_iff in Hc as [Hc _].
Qed.

Lemma parseQuery_encode (m : gmap string string) : parseQuery (encodeValues m) = Some (sortedEntries m).
Proof.
  change (encodeValues m) with (joinWith "&" (pairText <$> sortedEntries m)). unfold parseQuery.
  assert (∀ l, joinWith "&" (pairText <$> l) = ""%string → l = []) as Hempty.
  { intros [|kv l] E; [done|]. assert (pairText kv ≠ ""%string) as Hne by (intros E'; pose proof (parsePair_text kv) as Hp; by rewrite E' in Hp).
    cbn in E. destruct (pairText kv); [done|]. by destruct (pairText <$> l). }
  destruct (String.eqb_spec (joinWith "&" (pairText <$> sortedEntries m)) "") as [E|E]; [by rewrite (Hempty _ E)|].
  rewrite Split_join.
  - clear. induction (sortedEntries m) as [|kv l IH]; [done|]. cbn. rewrite parsePair_text. cbn. by rewrite IH.
  - by destruct (sortedEntries m).
  - apply Forall_fmap, Forall_true. apply pairText_bytes.
Qed.

(** A call to SABnzbd reads back as it was written.  The URL of a request is the base
    URL, the path [/api] and a query that reads as exactly the parameters of the call
    with the API key, the mode and the output format, whatever bytes the names and
    values are made of. *)
Theorem sabnzbd_query c mode params : ∃ query,
  hq_URL (sabGet c mode params) = (sb_baseURL c +:+ "/api?" +:+ query)%string ∧
  ∃ pairs, parseQuery query = Some pairs ∧ NoDup pairs.*1 ∧
    list_to_map pairs = sabParams c mode params ∧
    sabParams c mode params !! "mode"%string = Some mode ∧
    sabParams c mode params !! "apikey"%string = Some (sb_apiKey c).
Proof.
  eexists. split; [done|]. eexists. split; [apply parseQuery_encode|]. rewrite sortedEntries_keys.
  split; [apply NoDup_sortedKeys|]. split; [apply sortedEntries_map|]. unfold sabParams.
  split; by rewrite !lookup_insert_ne, ?lookup_insert_eq by done.
Qed.

(** ** A server *)
Module MiniSABnzbd.

Definition exampleClient : SABnzbdClient := NewSABnzbdClient "http://seedbox:8085" "0123456789abcdef".
Definition exampleSABnzbd (dir : string) : SABnzbdSpec :=
  mkSABnzbdSpec (mkSABnzbdConnectionSpec "http://seedbox:8085" (mkSecretKeySelector "sab" ""))
    (Some (mkSABnzbdSpeedSpec 500 0 true)) (Some (mkSABnzbdDirectoriesSpec dir "" "" "" "")) [] None None.

(** The state is the section [misc]; the server knows the calls of the examples. *)
Definition known : list SabCall := [SabLimit 500; SabPause; SabSet "download_dir" "/data/my downloads"].
Definition answer (document : any) : HttpReply := Reply (mkHttpResponse 200 [] "" (Some document) None).

Definition respond (right_ : bool) (r : HttpRequest) (misc : gmap string string) : gmap string string * HttpReply :=
  match list_find (λ x, hq_URL r = hq_URL (callGet exampleClient x)) known with
  | Some (_, x) =>
      if isSet x then (if right_ then applySab misc x else misc, answer (VMap [("status", VBool right_)]%string))
      else (misc, answer (VMap [("status", VBool right_)]%string))
  | None => (misc, NoReply "404")
  end.

Definition Server (right_ : bool) : Transport (gmap string string) := {|
  Jar := unit;
  newJar := tt;
  roundTrip j r s := let '(s', x) := respond right_ r s in (s', (tt, x));
  newRequestError := id;
  marshalError _ := "json"%string;
  unmarshalError _ := "json"%string;
  xmlError _ := "xml"%string |}.

Lemma known_found x : x ∈ known → ∃ i,
  list_find (λ y, hq_URL (callGet exampleClient x) = hq_URL (callGet exampleClient y)) known = Some (i, x).
Proof.
  rewrite list_elem_of_In. intros [<-|[<-|[<-|[]]]]; [exists 0%nat|exists 1%nat|exists 2%nat]; vm_compute; reflexivity.
Qed.

Lemma sabnzbd_keeps right_ dir : dir ∈ [""; "/data/my downloads"]%string →
  @SABnzbdLaws _ (Server right_) exampleClient right_ id (sabnzbdCalls (exampleSABnzbd dir)).
Proof.
  intros Hd. assert (∀ x, x ∈ sabnzbdCalls (exampleSABnzbd dir) → x ∈ known) as Hk.
  { rewrite list_elem_of_In in Hd. intros x. rewrite !list_elem_of_In.
    destruct Hd as [<-|[<-|[]]]; vm_compute; tauto. }
  split.
  - intros x Hx%Hk%list_elem_of_In. destruct Hx as [<-|[<-|[<-|[]]]]; vm_compute; discriminate.
  - intros x w Hx%Hk Hs. destruct (known_found x Hx) as [i Hi].
    eexists _, tt, _, (mkSABnzbdResponse right_ ""). unfold roundTrip, Server, respond. rewrite Hi, Hs. by split_and!.
  - intros x w Hx%Hk Hs. destruct (known_found x Hx) as [i Hi].
    eexists _, tt, _. unfold roundTrip, Server, respond. rewrite Hi, Hs. by split_and!.
Qed.
End MiniSABnzbd.

Section witnesses.
Import MiniSABnzbd.

(** With the right key the directory arrives; with a wrong one a specification without a
    value to store is reported as synced all the same. *)
Lemma sabnzbd_sync_witness :
  (∃ w', @syncSABnzbdSettings _ (Server true) exampleClient (exampleSABnzbd "/data/my downloads") ∅ = (w', Ret tt) ∧
    w' = {["download_dir" := "/data/my downloads"]}%string) ∧
  ∃ w', @syncSABnzbdSettings _ (Server false) exampleClient (exampleSABnzbd "") ∅ = (w', Ret tt) ∧ w' = ∅.
Proof.
  split.
  - destruct (@sabnzbd_sync _ (Server true) exampleClient true id (exampleSABnzbd "/data/my downloads") ∅ (sabnzbd_keeps true "/data/my downloads" ltac:(set_solver)))
      as (w' & E & Hc). exists w'. split; [exact E|]. unfold id in Hc. rewrite Hc. vm_compute. reflexivity.
  - pose proof (@sabnzbd_sync _ (Server false) exampleClient false id (exampleSABnzbd "") ∅ (sabnzbd_keeps false "" ltac:(set_solver))) as Hs.
    change (forallb (negb ∘ isSet) (sabnzbdCalls (exampleSABnzbd ""))) with true in Hs.
    destruct Hs as (w' & E & Hc). exists w'. split; [exact E|]. unfold id in Hc. rewrite Hc. vm_compute. reflexivity.
Defined.
End witnesses.
