(* ===== verification/NZBGet.v ===== *)
(** * NZBGet (src/internal/adapters/downloadstack/nzbget_client.go and syncNZBGetSettings
      of downloadstackconfig_controller.go)

    The JSON-RPC client with its numbered requests, and the calls that set what the
    specification asks for. *)
From S2P Require Export Settings DownloadStackApi ClientTypes.

(** ** The client *)

Record NZBGetClient := mkNZBGetClient {
  nz_baseURL : string;
  nz_username : string;
  nz_password : string;
  nz_requestID : Z }.

Definition nz_set_requestID (id : Z) (c : NZBGetClient) : NZBGetClient :=
  mkNZBGetClient (nz_baseURL c) (nz_username c) (nz_password c) id.

Definition NewNZBGetClient (baseURL username password : string) : NZBGetClient :=
  mkNZBGetClient (trimSlash baseURL) username password 0.

Record NZBGetRPCRequest := mkNZBGetRPCRequest {
  nrq_Method : string;
  nrq_Params : list any;
  nrq_ID : Z;
  nrq_Version : string }.

Definition nzbBody (r : NZBGetRPCRequest) : any := VMap (
  [("method", VString (nrq_Method r))]%string ++
  omitIf (Nat.eqb (length (nrq_Params r)) 0) "params" (VList (nrq_Params r)) ++
  [("id", VInt (nrq_ID r)); ("jsonrpc", VString (nrq_Version r))]%string).

Definition configItem (item : NZBGetConfigItem) : any :=
  VMap [("Name", VString (nci_Name item)); ("Value", VString (nci_Value item))]%string.

Section client.
Context {W : Type} `{Transport W}.
Abbreviation MN := (M (Net W NZBGetClient)).

Definition nzbNextID : MN Z :=
  let* c := client in
  let id := int64 (nz_requestID c + 1) in
  setClient (nz_set_requestID id c) ;;; ret id.

Definition nzbPost (body : any) (c : NZBGetClient) : HttpRequest :=
  mkHttpRequest "POST" (nz_baseURL c +:+ "/jsonrpc") [jsonType] (basicAuth (nz_username c) (nz_password c))
    (JSONBody (toWire body)).

Definition nzbRequest (method : string) (params : list any) : MN NZBGetRPCResponse :=
  let* id := nzbNextID in
  let body := nzbBody (mkNZBGetRPCRequest method params id "2.0") in
  if negb (marshalable body) then fail ("failed to marshal request: " +:+ marshalError body)%string
  else
    let* c := client in
    let* r := onServices (exchange "failed to create request" "request failed" (nzbPost body c)) in
    if hp_Status r =? 401 then fail "authentication failed: invalid credentials"
    else if negb (hp_Status r =? 200) then fail (httpError r)
    else
      let* rpcResp := unmarshal "failed to decode response" (hp_JSON r) in
      match nrr_Error rpcResp with
      | Some e => fail ("RPC error: " +:+ nre_Message e +:+ " (code " +:+ Itoa (nre_Code e) +:+ ")")%string
      | None => ret rpcResp
      end.

(** A call and what its result decodes to; and a call whose result must be [true]. *)
Definition nzbRead {A} `{FromJSON A} (msg method : string) (params : list any) : MN A :=
  let* resp := nzbRequest method params in unmarshal msg (nrr_Result resp).
Definition nzbDo (method : string) (params : list any) : MN unit :=
  let* success := nzbRead "failed to parse response" method params in
  if success : bool then ret tt else fail (method +:+ " failed")%string.

Definition nzbGetVersion : MN string := nzbRead "failed to parse version" "version" [].
Definition nzbTestConnection : MN unit := nzbGetVersion ;;; ret tt.
Definition nzbGetConfig : MN (list NZBGetConfigItem) := nzbRead "failed to parse config" "config" [].
Definition nzbSetConfig (name value : string) : MN unit :=
  nzbDo "saveconfig" [VList [configItem (mkNZBGetConfigItem name value)]].
Definition nzbGetStatus : MN NZBGetStatus := nzbRead "failed to parse status" "status" [].
Definition GetGroups : MN (list NZBGetGroup) := nzbRead "failed to parse groups" "listgroups" [].
Definition nzbGetHistory : MN (list NZBGetHistoryItem) := nzbRead "failed to parse history" "history" [VBool false].
Definition PauseDownload : MN unit := nzbDo "pausedownload" [].
Definition ResumeDownload : MN unit := nzbDo "resumedownload" [].
Definition nzbSetDownloadRate (rate : Z) : MN unit := nzbDo "rate" [VInt rate].
Definition Reload : MN unit := nzbDo "reload" [].
Definition Scan : MN unit := nzbDo "scan" [].
Definition Shutdown : MN unit := nzbDo "shutdown" [].
Definition GetLog (start count : Z) : MN (list NZBGetLogEntry) :=
  nzbRead "failed to parse log" "log" [VInt start; VInt count].

(** ** The settings *)

Definition setOption (name value : string) : MN unit := failedTo ("set " +:+ name) (nzbSetConfig name value).
Definition setText (name value : string) : MN unit := whenM (negb (String.eqb value "")) (setOption name value).
Definition setNumber (name : string) (n : Z) : MN unit := whenM (0 <? n) (setOption name (Itoa n)).
Definition yesNo (b : bool) : string := if b then "yes" else "no".
Definition setYesNo (name : string) (x : option bool) : MN unit := forSome x (λ b, setOption name (yesNo b)).

Definition syncNZBGetSettings (spec : NZBGetSpec) : MN unit :=
  forSome (ng_Speed spec) (λ s,
    whenM (0 <? ngs_DownloadRate s) (failedTo "set download rate" (nzbSetDownloadRate (ngs_DownloadRate s))) ;;;
    setNumber "ArticleTimeout" (ngs_ArticleTimeout s) ;;;
    setNumber "WriteBuffer" (ngs_WriteBuffer s)) ;;;
  forSome (ng_Directories spec) (λ d,
    setText "MainDir" (ngd_MainDir d) ;;;
    setText "DestDir" (ngd_DestDir d) ;;;
    setText "InterDir" (ngd_InterDir d) ;;;
    setText "NzbDir" (ngd_NzbDir d) ;;;
    setText "TempDir" (ngd_TempDir d) ;;;
    setText "ScriptDir" (ngd_ScriptDir d)) ;;;
  forSome (ng_Queue spec) (λ q,
    whenM (ngq_DupeCheck q) (setOption "DupeCheck" "yes") ;;;
    setNumber "PropagationDelay" (ngq_PropagationDelay q) ;;;
    setText "HealthCheck" (ngq_HealthCheck q)) ;;;
  forSome (ng_PostProcessing spec) (λ p,
    setText "ParCheck" (ngp_ParCheck p) ;;;
    setYesNo "ParRepair" (ngp_ParRepair p) ;;;
    setYesNo "Unpack" (ngp_Unpack p) ;;;
    setYesNo "UnpackCleanupDisk" (ngp_UnpackCleanupDisk p) ;;;
    setYesNo "DirectUnpack" (ngp_DirectUnpack p)) ;;;
  forSome (ng_Connections spec) (λ n,
    setNumber "ArticleConnections" (ngn_ArticleConnections n) ;;;
    setNumber "RetryInterval" (ngn_RetryInterval n) ;;;
    setNumber "TerminateTimeout" (ngn_TerminateTimeout n) ;;;
    setYesNo "Decode" (ngn_Decode n)).
End client.

(** ** The sync *)

(** The calls a specification asks for, in order: the download rate and the options. *)
Inductive NzbCall :=
| NzbRate (n : Z)
| NzbSet (name value : string).

Definition nzbText (name value : string) : list NzbCall := pick (negb (String.eqb value "")) (NzbSet name value).
Definition nzbNumber (name : string) (n : Z) : list NzbCall := pick (0 <? n) (NzbSet name (Itoa n)).
Definition nzbYesNo (name : string) (x : option bool) : list NzbCall := pickFor x (λ b, [NzbSet name (yesNo b)]).

Definition nzbgetCalls (spec : NZBGetSpec) : list NzbCall :=
  pickFor (ng_Speed spec) (λ s,
    pick (0 <? ngs_DownloadRate s) (NzbRate (ngs_DownloadRate s)) ++
    nzbNumber "ArticleTimeout" (ngs_ArticleTimeout s) ++ nzbNumber "WriteBuffer" (ngs_WriteBuffer s)) ++
  pickFor (ng_Directories spec) (λ d,
    nzbText "MainDir" (ngd_MainDir d) ++ nzbText "DestDir" (ngd_DestDir d) ++ nzbText "InterDir" (ngd_InterDir d) ++
    nzbText "NzbDir" (ngd_NzbDir d) ++ nzbText "TempDir" (ngd_TempDir d) ++ nzbText "ScriptDir" (ngd_ScriptDir d)) ++
  pickFor (ng_Queue spec) (λ q,
    pick (ngq_DupeCheck q) (NzbSet "DupeCheck" "yes") ++
    nzbNumber "PropagationDelay" (ngq_PropagationDelay q) ++ nzbText "HealthCheck" (ngq_HealthCheck q)) ++
  pickFor (ng_PostProcessing spec) (λ p,
    nzbText "ParCheck" (ngp_ParCheck p) ++ nzbYesNo "ParRepair" (ngp_ParRepair p) ++ nzbYesNo "Unpack" (ngp_Unpack p) ++
    nzbYesNo "UnpackCleanupDisk" (ngp_UnpackCleanupDisk p) ++ nzbYesNo "DirectUnpack" (ngp_DirectUnpack p)) ++
  pickFor (ng_Connections spec) (λ n,
    nzbNumber "ArticleConnections" (ngn_ArticleConnections n) ++ nzbNumber "RetryInterval" (ngn_RetryInterval n) ++
    nzbNumber "TerminateTimeout" (ngn_TerminateTimeout n) ++ nzbYesNo "Decode" (ngn_Decode n)).

Definition callMethod (x : NzbCall) : string := match x with NzbRate _ => "rate" | NzbSet _ _ => "saveconfig" end.
Definition callParams (x : NzbCall) : list any :=
  match x with
  | NzbRate n => [VInt n]
  | NzbSet name value => [VList [configItem (mkNZBGetConfigItem name value)]]
  end.
Definition callWhat (x : NzbCall) : string :=
  match x with NzbRate _ => "set download rate" | NzbSet name _ => "set " +:+ name end.

Definition runNzb {W} `{Transport W} (x : NzbCall) : M (Net W NZBGetClient) unit :=
  failedTo (callWhat x) (nzbDo (callMethod x) (callParams x)).

Lemma nzbget_calls {W} `{Transport W} spec : runsAs runNzb (syncNZBGetSettings spec) (nzbgetCalls spec).
Proof.
  unfold syncNZBGetSettings, nzbgetCalls, setNumber, setText, setYesNo, nzbNumber, nzbText, nzbYesNo. runs_as.
Qed.

(** The options after a call that NZBGet carries out; the rate is not one of them. *)
Definition applyNzb (conf : gmap string string) (x : NzbCall) : gmap string string :=
  match x with NzbSet name value => <[name := value]> conf | NzbRate _ => conf end.

(** What NZBGet promises to a client: a call, with whatever number, is answered 200 and
    without an error; its result says whether NZBGet [refuses] it, and if not it is
    carried out. *)
Class NZBGetLaws {W} `{Transport W} (c : NZBGetClient) (refuses : NzbCall → bool) (conf : W → gmap string string) : Prop := {
  nl_url : urlParse (nz_baseURL c +:+ "/jsonrpc")%string ≠ None;
  nl_call x id w : ∃ w' j a resp,
    roundTrip newJar (nzbPost (nzbBody (mkNZBGetRPCRequest (callMethod x) (callParams x) id "2.0")) c) w = (w', (j, Reply a)) ∧
    hp_Status a = 200 ∧ hp_JSON a ≫= fromJSON = Some resp ∧ nrr_Error resp = None ∧
    nrr_Result resp = Some (VBool (negb (refuses x))) ∧
    conf w' = if refuses x then conf w else applyNzb (conf w) x }.

Section sync.
Context {W : Type} `{NZBGetLaws W}.
Implicit Types (w : W) (id : Z).

Abbreviation numbered id := (nz_set_requestID id c).

Lemma runNzb_run x id w : ∃ w', runNzb x (mkNet w (numbered id)) =
    (mkNet w' (numbered (int64 (id + 1))),
     if refuses x then Err ("failed to " +:+ callWhat x +:+ ": " +:+ callMethod x +:+ " failed")%string else Ret tt) ∧
  conf w' = if refuses x then conf w else applyNzb (conf w) x.
Proof.
  destruct (nl_call x (int64 (id + 1)) w) as (w' & j & a & resp & E & Hst & Hd & He & Hr & Hc). exists w'. split; [|done].
  assert (nzbDo (callMethod x) (callParams x) (mkNet w (numbered id)) =
    (mkNet w' (numbered (int64 (id + 1))), if refuses x then Err (callMethod x +:+ " failed")%string else Ret tt)) as Er.
  { unfold nzbDo, nzbRead, nzbRequest, nzbNextID. rewrite !bind_assoc, bind_client. cbn zeta.
    rewrite !bind_assoc, bind_setClient, bind_ret_l.
    assert (∀ id, marshalable (nzbBody (mkNZBGetRPCRequest (callMethod x) (callParams x) id "2.0")) = true) as Hm
      by (by destruct x).
    change (nz_requestID (numbered id)) with id. rewrite Hm. cbn [negb]. rewrite !bind_assoc, bind_client.
    assert (urlParse (hq_URL (nzbPost (nzbBody (mkNZBGetRPCRequest (callMethod x) (callParams x) (int64 (id + 1)) "2.0")) c)) ≠ None)
      as Hu by exact (nl_url (c:=c) (refuses:=refuses) (conf:=conf)).
    rewrite bind_assoc, (bind_ok _ _ _ _ _ (onServices_run _ _ _ _ _ (exchange_run "failed to create request"
      "request failed" _ _ _ _ _ Hu E))), Hst.
    change (200 =? 401) with false. change (negb (200 =? 200)) with false. cbn iota.
    rewrite bind_assoc, (bind_ok _ _ _ _ _ (unmarshal_ok _ _ _ _ Hd)), He, bind_ret_l, Hr.
    rewrite (bind_ok _ _ _ _ _ (unmarshal_ok _ (Some (VBool (negb (refuses x)))) (negb (refuses x)) _ eq_refl)). by destruct (refuses x). }
  unfold runNzb, failedTo. destruct (refuses x); [by rewrite (wrapErr_err _ _ _ _ _ Er)|by rewrite (wrapErr_ok _ _ _ _ _ Er)].
Qed.

(** The calls up to the first that NZBGet refuses, if there is one. *)
Lemma inTurn_nzb l id w : ∃ w' id', inTurn runNzb l (mkNet w (numbered id)) =
  (mkNet w' (numbered id'), match list_find refuses l with
    | None => Ret tt
    | Some (_, x) => Err ("failed to " +:+ callWhat x +:+ ": " +:+ callMethod x +:+ " failed")%string
    end) ∧
  conf w' = foldl applyNzb (conf w) (match list_find refuses l with None => l | Some (i, _) => take i l end).
Proof.
  revert id w. induction l as [|x l IH]; intros id w; [by exists w, id|].
  destruct (runNzb_run x id w) as (w1 & E1 & Hc1). simpl. destruct (refuses x) eqn:Hr.
  - rewrite decide_True by done. exists w1, (int64 (id + 1)). by rewrite (bind_err _ _ _ _ _ E1).
  - rewrite decide_False by (by intros ?). rewrite (bind_ok _ _ _ _ _ E1).
    destruct (IH (int64 (id + 1)) w1) as (w' & id' & E & Hc). exists w', id'. rewrite E, Hc, Hc1.
    by destruct (list_find refuses l) as [[i y]|].
Qed.
End sync.

(** C22: The sync of NZBGet, whatever it accepts.  The options of the specification are
    set one request after another.  If NZBGet refuses none the sync returns and the
    options are all in place; otherwise it fails naming the first one that is refused,
    with exactly those before it in place and none of those after it. *)
Theorem nzbget_sync {W} `{Transport W} c refuses (conf : W → gmap string string) spec id w :
  NZBGetLaws c refuses conf →
  let calls := nzbgetCalls spec in
  ∃ w' id',
    syncNZBGetSettings spec (mkNet w (nz_set_requestID id c)) =
      (mkNet w' (nz_set_requestID id' c), match list_find refuses calls with
        | None => Ret tt
        | Some (_, x) => Err ("failed to " +:+ callWhat x +:+ ": " +:+ callMethod x +:+ " failed")%string
        end) ∧
    conf w' = foldl applyNzb (conf w)
      (match list_find refuses calls with None => calls | Some (i, _) => take i calls end).
Proof. intros Hl. cbn zeta. rewrite nzbget_calls. apply inTurn_nzb. Qed.

(** ** A server *)
Module MiniNZBGet.

(** The state is the options; NzbDir cannot be set, and no rate. *)
Definition decodeCall (method : string) (params : list any) : option NzbCall :=
  match params with
  | [VInt n] => Some (NzbRate n)
  | [VList [VMap [(_, VString name); (_, VString value)]]] => Some (NzbSet name value)
  | _ => None
  end.
Definition refuses (x : NzbCall) : bool := match x with NzbRate _ => true | NzbSet name _ => String.eqb name "NzbDir" end.

Definition respond (r : HttpRequest) (conf : gmap string string) : gmap string string * HttpReply :=
  match hq_Body r with
  | JSONBody (VMap [(_, VString method); (_, VList params); (_, id); _]) =>
      match decodeCall method params with
      | Some x =>
          (if refuses x then conf else applyNzb conf x,
           Reply (mkHttpResponse 200 [] "" (Some (VMap [("result", VBool (negb (refuses x))); ("error", VNil)]%string)) None))
      | None => (conf, NoReply "EOF")
      end
  | _ => (conf, NoReply "EOF")
  end.

#[export] Instance Server : Transport (gmap string string) := {|
  Jar := unit;
  newJar := tt;
  roundTrip j r s := let '(s', x) := respond r s in (s', (tt, x));
  newRequestError := id;
  marshalError _ := "json"%string;
  unmarshalError _ := "json"%string;
  xmlError _ := "xml"%string |}.

Definition exampleClient : NZBGetClient := NewNZBGetClient "http://seedbox:6789" "nzbget" "tegbzn6789".
Definition exampleNZBGet : NZBGetSpec :=
  mkNZBGetSpec (mkNZBGetConnectionSpec "http://seedbox:6789" None) None
    (Some (mkNZBGetDirectoriesSpec "/data" "/data/done" "" "/nzb" "/tmp" "")) [] None None None.

#[export] Instance keeps : NZBGetLaws exampleClient refuses id.
Proof.
  split.
  - vm_compute. discriminate.
  - intros x id w. eexists _, tt, _, (mkNZBGetRPCResponse (Some (VBool (negb (refuses x)))) None 0).
    split_and!; [by destruct x|done..].
Qed.
End MiniNZBGet.

Section witnesses.
Import MiniNZBGet.

(** NzbDir is refused: the two directories before it are set, the one after it is not. *)
Lemma nzbget_sync_witness : ∃ n', syncNZBGetSettings exampleNZBGet (mkNet ∅ exampleClient) =
    (n', Err "failed to set NzbDir: saveconfig failed") ∧
  net_services n' = {["MainDir" := "/data"; "DestDir" := "/data/done"]}%string.
Proof.
  destruct (nzbget_sync exampleClient refuses id exampleNZBGet 0 ∅ keeps) as (w' & id' & E & Hc).
  eexists. split; [exact E|]. simpl. unfold id in Hc. rewrite Hc. vm_compute. reflexivity.
Defined.
End witnesses.

