(* ===== verification/DownloadStack.v ===== *)
(** * The download stack (src/internal/controller/downloadstackconfig_controller.go)

    The reconciliation of a DownloadStackConfig: the environment of the VPN container
    as a secret and the restart of its deployment when it changes, then each download
    client that is configured.  What the controller asks of the cluster beyond [Kube]
    is the class [KubeStack]. *)
From S2P Require Export GenericReconciler Gluetun Transmission QBittorrent Deluge RTorrent Sabnzbd NZBGet.

(** ** Kubernetes *)

(** A secret as the client library holds it; [stringData] is written, never read. *)
Record Secret := mkSecret {
  sec_Namespace : string;
  sec_Name : string;
  sec_Controller : option string;
  sec_Data : gmap string string;
  sec_StringData : gmap string string }.

Class KubeStack (W : Type) := {
  Deployment : Type;
  templateAnnotations : Deployment → gmap string string;
  with_templateAnnotations : gmap string string → Deployment → Deployment;
  kubeGetDeployment : string → string → M W Deployment;
  kubeUpdateDeployment : Deployment → M W unit;
  kubeCreateOrUpdate : Secret → (Secret → Secret + error) → M W unit;   (* controllerutil.CreateOrUpdate *)
  setControllerReference : ObjectMeta → Secret → Secret + error;
  rfc3339 : Z → string }.

(** ** The object *)

Definition downloadStackFinalizer : string := "downloadstackconfig.arr.rinzler.cloud/finalizer".
Definition restartAnnotationKey : string := "downloadstack.arr.rinzler.cloud/restartedAt".
Definition configHashAnnotationKey : string := "downloadstack.arr.rinzler.cloud/gluetun-hash".

#[export] Instance DownloadStackClientObject : ClientObject DownloadStackConfig := {|
  meta_of := ds_ObjectMeta;
  with_meta m c := mkDownloadStackConfig m (ds_Spec c) (ds_Status c);
  meta_with _ _ := eq_refl |}.

Definition dst_set_Conditions (cs : list Condition) (s : DownloadStackConfigStatus) : DownloadStackConfigStatus :=
  let 'mkDownloadStackConfigStatus _ h g tc tv qc qv dc dv rc rv sc sv nc nv t o := s in
  mkDownloadStackConfigStatus cs h g tc tv qc qv dc dv rc rv sc sv nc nv t o.
Definition dst_set_Gluetun (hash : string) (generated : bool) (s : DownloadStackConfigStatus) : DownloadStackConfigStatus :=
  let 'mkDownloadStackConfigStatus cs _ _ tc tv qc qv dc dv rc rv sc sv nc nv t o := s in
  mkDownloadStackConfigStatus cs hash generated tc tv qc qv dc dv rc rv sc sv nc nv t o.
Definition dst_set_Reconciled (t : option Z) (generation : Z) (s : DownloadStackConfigStatus) : DownloadStackConfigStatus :=
  let 'mkDownloadStackConfigStatus cs h g tc tv qc qv dc dv rc rv sc sv nc nv _ _ := s in
  mkDownloadStackConfigStatus cs h g tc tv qc qv dc dv rc rv sc sv nc nv t generation.

#[export] Program Instance DownloadStackStatusWrapper : HasConditions DownloadStackConfig := {|
  conditions_of c := dst_Conditions (ds_Status c);
  with_conditions cs c := mkDownloadStackConfig (ds_ObjectMeta c) (ds_Spec c) (dst_set_Conditions cs (ds_Status c)) |}.
Next Obligation. by intros cs [m spec []]. Qed.

(** The download clients and the fields of the status that belong to each: whether it is
    connected, and its version, which is kept when it cannot be read. *)
Inductive App := AppTransmission | AppQBittorrent | AppDeluge | AppRTorrent | AppSABnzbd | AppNZBGet.

Definition app_name (a : App) : string :=
  match a with
  | AppTransmission => "Transmission"
  | AppQBittorrent => "QBittorrent"
  | AppDeluge => "Deluge"
  | AppRTorrent => "RTorrent"
  | AppSABnzbd => "SABnzbd"
  | AppNZBGet => "NZBGet"
  end.

Definition dst_set_App (a : App) (connected : bool) (version : option string) (s : DownloadStackConfigStatus)
    : DownloadStackConfigStatus :=
  let 'mkDownloadStackConfigStatus cs h g tc tv qc qv dc dv rc rv sc sv nc nv t o := s in
  let b := connected in
  match a with
  | AppTransmission => mkDownloadStackConfigStatus cs h g b (default tv version) qc qv dc dv rc rv sc sv nc nv t o
  | AppQBittorrent => mkDownloadStackConfigStatus cs h g tc tv b (default qv version) dc dv rc rv sc sv nc nv t o
  | AppDeluge => mkDownloadStackConfigStatus cs h g tc tv qc qv b (default dv version) rc rv sc sv nc nv t o
  | AppRTorrent => mkDownloadStackConfigStatus cs h g tc tv qc qv dc dv b (default rv version) sc sv nc nv t o
  | AppSABnzbd => mkDownloadStackConfigStatus cs h g tc tv qc qv dc dv rc rv b (default sv version) nc nv t o
  | AppNZBGet => mkDownloadStackConfigStatus cs h g tc tv qc qv dc dv rc rv sc sv b (default nv version) t o
  end.

Section controller.
Context {W : Type} `{Kube W} `{!KubeObject W DownloadStackConfig} `{!KubeStack W} `{Transport W}
  `{UnicodeSpace} `{FloatSyntax} `{JSONText} (o : RangeOrder).
Abbreviation MR := (M (Rec W DownloadStackConfig)).
Abbreviation Outcome := (Result * option error)%type.
Implicit Types (c : DownloadStackConfig).

Definition modifyDS (f : DownloadStackConfigStatus → DownloadStackConfigStatus) : MR unit :=
  modifyConfig (λ c, mkDownloadStackConfig (ds_ObjectMeta c) (ds_Spec c) (f (ds_Status c))).

(** ** Credentials *)

(** The user and the password of a reference, or the defaults without one. *)
Definition resolveCredentials (namespace : string) (ref : option CredentialsSecretRef) (dflt : string * string)
    : M W (string * string) :=
  match ref with
  | None => ret dflt
  | Some ref =>
      let* username := ResolveSecretValue namespace (csr_Name ref) (orDefault (csr_UsernameKey ref) "username") in
      let* password := ResolveSecretValue namespace (csr_Name ref) (orDefault (csr_PasswordKey ref) "password") in
      ret (username, password)
  end.

(** ** A download client *)

(** What becomes of a client: no connection; or a connection, the version if it can be
    read, and a sync that fails or does not. *)
Inductive ClientOutcome :=
| NotConnected (e : error)
| SyncFailed (version : option string) (e : error)
| Synced (version : option string).

(** The calls made with a new client, in order; the status is in memory and is written
    after them ([recordClient]). *)
Definition runClient {Cl} (cl : Cl) (test : M (Net W Cl) unit) (getVersion : M (Net W Cl) string)
    (sync : M (Net W Cl) unit) : M W ClientOutcome :=
  withClient cl (
    let* tested := attempt test in
    match tested with
    | inr e => ret (NotConnected e)
    | inl _ =>
        let* version := attempt getVersion in
        let version := match version with inl v => Some v | inr _ => None end in
        let* synced := attempt sync in
        match synced with
        | inr e => ret (SyncFailed version e)
        | inl _ => ret (Synced version)
        end
    end).

(** The Ready condition of a client that failed: its name and what failed. *)
Definition failClient (a : App) (generation : Z) (what : string) (e : error) : MR (option error) :=
  SetCondition generation ConditionTypeReady ConditionFalse (app_name a +:+ what) e ;;; ret (Some e).

Definition recordClient (a : App) (generation : Z) (x : ClientOutcome) : MR (option error) :=
  match x with
  | NotConnected e => modifyDS (dst_set_App a false None) ;;; failClient a generation "ConnectionFailed" e
  | SyncFailed version e => modifyDS (dst_set_App a true version) ;;; failClient a generation "SyncFailed" e
  | Synced version => modifyDS (dst_set_App a true version) ;;; ret None
  end.

(** Resolve the credentials [m], then run the client made of them. *)
Definition reconcileClient {A} (a : App) (generation : Z) (m : M W A) (run : A → M W ClientOutcome) : MR (option error) :=
  let* credentials := attempt (onWorld m) in
  match credentials with
  | inr e => failClient a generation "CredentialsFailed" e
  | inl x => let* outcome := onWorld (run x) in recordClient a generation outcome
  end.

Definition runTransmission (spec : TransmissionSpec) (cred : string * string) : M W ClientOutcome :=
  runClient (NewTransmissionClient (tmc_URL (tm_Connection spec)) cred.1 cred.2)
    TransmissionTestConnection GetTransmissionVersion (SyncTransmissionSettings spec).
Definition runQBittorrent (spec : QBittorrentSpec) (cred : string * string) : M W ClientOutcome :=
  runClient (NewQBittorrentClient (qbc_URL (qb_Connection spec)) cred.1 cred.2)
    qbTestConnection qbGetVersion (syncQBittorrentSettings spec).
Definition runDeluge (spec : DelugeSpec) (password : string) : M W ClientOutcome :=
  runClient (NewDelugeClient (dlc_URL (dl_Connection spec)) password)
    delugeTestConnection delugeGetVersion (syncDelugeSettings spec).
Definition runRTorrent (spec : RTorrentSpec) (cred : string * string) : M W ClientOutcome :=
  let cl := NewRTorrentClient (rtc_URL (rt_Connection spec)) cred.1 cred.2 in
  runClient cl (onServices (rtTestConnection cl)) (onServices (rtGetVersion cl)) (onServices (syncRTorrentSettings cl spec)).
Definition runSABnzbd (spec : SABnzbdSpec) (apiKey : string) : M W ClientOutcome :=
  let cl := NewSABnzbdClient (sbc_URL (sb_Connection spec)) apiKey in
  runClient cl (onServices (sabTestConnection cl)) (onServices (sabGetVersion cl)) (onServices (syncSABnzbdSettings cl spec)).
Definition runNZBGet (spec : NZBGetSpec) (cred : string * string) : M W ClientOutcome :=
  runClient (NewNZBGetClient (ngc_URL (ng_Connection spec)) cred.1 cred.2)
    nzbTestConnection nzbGetVersion (syncNZBGetSettings spec).

Definition reconcileTransmission c (spec : TransmissionSpec) : MR (option error) :=
  reconcileClient AppTransmission (om_Generation (ds_ObjectMeta c))
    (resolveCredentials (om_Namespace (ds_ObjectMeta c)) (tmc_CredentialsSecretRef (tm_Connection spec)) ("", "")%string)
    (runTransmission spec).
Definition reconcileQBittorrent c (spec : QBittorrentSpec) : MR (option error) :=
  reconcileClient AppQBittorrent (om_Generation (ds_ObjectMeta c))
    (resolveCredentials (om_Namespace (ds_ObjectMeta c)) (qbc_CredentialsSecretRef (qb_Connection spec)) ("", "")%string)
    (runQBittorrent spec).
Definition reconcileDeluge c (spec : DelugeSpec) : MR (option error) :=
  reconcileClient AppDeluge (om_Generation (ds_ObjectMeta c))
    (resolveOne (om_Namespace (ds_ObjectMeta c)) "password" "deluge" (dlc_PasswordSecretRef (dl_Connection spec)))
    (runDeluge spec).
Definition reconcileRTorrent c (spec : RTorrentSpec) : MR (option error) :=
  reconcileClient AppRTorrent (om_Generation (ds_ObjectMeta c))
    (resolveCredentials (om_Namespace (ds_ObjectMeta c)) (rtc_CredentialsSecretRef (rt_Connection spec)) ("", "")%string)
    (runRTorrent spec).
Definition reconcileSABnzbd c (spec : SABnzbdSpec) : MR (option error) :=
  reconcileClient AppSABnzbd (om_Generation (ds_ObjectMeta c))
    (resolveOne (om_Namespace (ds_ObjectMeta c)) "apiKey" "" (Some (sbc_APIKeySecretRef (sb_Connection spec))))
    (runSABnzbd spec).
Definition reconcileNZBGet c (spec : NZBGetSpec) : MR (option error) :=
  reconcileClient AppNZBGet (om_Generation (ds_ObjectMeta c))
    (resolveCredentials (om_Namespace (ds_ObjectMeta c)) (ngc_CredentialsSecretRef (ng_Connection spec))
      ("nzbget", "tegbzn6789")%string)
    (runNZBGet spec).

(** The clients that are configured, in order; the first that fails ends the reconciliation. *)
Definition configuredClients c : list (MR (option error)) :=
  let spec := ds_Spec c in
  pickFor (dss_Transmission spec) (λ s, [reconcileTransmission c s]) ++
  pickFor (dss_QBittorrent spec) (λ s, [reconcileQBittorrent c s]) ++
  pickFor (dss_Deluge spec) (λ s, [reconcileDeluge c s]) ++
  pickFor (dss_RTorrent spec) (λ s, [reconcileRTorrent c s]) ++
  pickFor (dss_SABnzbd spec) (λ s, [reconcileSABnzbd c s]) ++
  pickFor (dss_NZBGet spec) (λ s, [reconcileNZBGet c s]).

Fixpoint clientsInTurn (l : list (MR (option error))) (k : MR Outcome) : MR Outcome :=
  match l with
  | [] => k
  | m :: l' =>
      let* e := m in
      match e with
      | Some e => requeueAfterError (Some e)
      | None => clientsInTurn l' k
      end
  end.

(** ** The VPN container *)

(** Read, annotate and write the deployment; the clock is read in between. *)
Definition restartDeployment c : M W unit :=
  let* deployment := wrapErr (λ e, "failed to get deployment: " +:+ e)%string
    (kubeGetDeployment (om_Namespace (ds_ObjectMeta c)) (lor_Name (dss_DeploymentRef (ds_Spec c)))) in
  let* w := Prelude.get in
  wrapErr (λ e, "failed to update deployment: " +:+ e)%string (kubeUpdateDeployment (with_templateAnnotations
    (<[configHashAnnotationKey := dst_GluetunConfigHash (ds_Status c)]>
      (<[restartAnnotationKey := rfc3339 (kubeClock w)]> (templateAnnotations deployment))) deployment)).

Definition gluetunSecretName c : string := (om_Name (ds_ObjectMeta c) +:+ "-gluetun-env")%string.

(** The function given to [CreateOrUpdate]. *)
Definition mutateSecret c (env : Env) (s : Secret) : Secret + error :=
  match setControllerReference (ds_ObjectMeta c) s with
  | inl s => inl (mkSecret (sec_Namespace s) (sec_Name s) (sec_Controller s) (sec_Data s) env)
  | inr e => inr e
  end.

Definition writeGluetunSecret c (env : Env) : M W unit :=
  kubeCreateOrUpdate (mkSecret (om_Namespace (ds_ObjectMeta c)) (gluetunSecretName c) None ∅ ∅) (mutateSecret c env).

(** The hash goes into the status, and the deployment is restarted if it is another one
    and the specification says so; a failed restart is logged. *)
Definition noteGluetun (env : Env) : MR unit :=
  let newHash := HashGluetunEnv o env in
  let* c := config in
  let configChanged := negb (String.eqb newHash (dst_GluetunConfigHash (ds_Status c))) in
  modifyDS (dst_set_Gluetun newHash true) ;;;
  if configChanged && dss_RestartOnGluetunChange (ds_Spec c) then
    let* c := config in
    let* _ := attempt (onWorld (restartDeployment c)) in ret tt
  else ret tt.

(** ** The reconciliation *)

Definition noClient : string := "no download client configured".
Definition noClientMessage : string :=
  "At least one download client (Transmission, qBittorrent, Deluge, rTorrent, SABnzbd, or NZBGet) must be configured".

Definition dsIntervalOf c : Z := default DefaultRequeueInterval (dss_Reconciliation (ds_Spec c) ≫= rcs_Interval).

(** The credentials of the VPN: those without a reference are empty. *)
Definition gluetunCredentialsOf c : M W (string * string) :=
  resolveCredentials (om_Namespace (ds_ObjectMeta c))
    (glp_CredentialsSecretRef (gl_Provider (dss_Gluetun (ds_Spec c)))) ("", "")%string.
Definition gluetunKeyOf c : M W string :=
  resolveOne (om_Namespace (ds_ObjectMeta c)) "privateKey" ""
    (glp_PrivateKeySecretRef (gl_Provider (dss_Gluetun (ds_Spec c)))).

(** The end of a reconciliation in which nothing failed. *)
Definition succeed (now generation : Z) : MR Outcome :=
  modifyDS (dst_set_Reconciled (Some now) generation) ;;;
  SetCondition generation ConditionTypeReady ConditionTrue "Reconciled" "Configuration applied successfully" ;;;
  updateAndPoll dsIntervalOf.

Definition dsReconcileNormal : MR Outcome :=
  let* r := Prelude.get in
  let now := kubeClock (rec_world r) in
  let* c := config in
  let g := om_Generation (ds_ObjectMeta c) in
  step g "GluetunCredentialsFailed" (gluetunCredentialsOf c) (λ cred,
  step g "GluetunPrivateKeyFailed" (gluetunKeyOf c) (λ privateKey,
  let env := GenerateGluetunEnv (mkGluetunEnvInput (dss_Gluetun (ds_Spec c)) cred.1 cred.2 privateKey) in
  step g "GluetunSecretFailed" (writeGluetunSecret c env) (λ _,
  noteGluetun env ;;;
  match configuredClients c with
  | [] =>
      SetCondition g ConditionTypeReady ConditionFalse "NoDownloadClient" noClientMessage ;;;
      requeueAfterError (Some noClient)
  | l => clientsInTurn l (succeed now g)
  end))).

(** The secret is left to the garbage collector. *)
Definition dsReconcileDelete : MR Outcome :=
  modifyFinalizers (λ fs, removeFinalizer fs downloadStackFinalizer) ;;; thenUpdate false.

Definition dsReconcileObject : MR Outcome :=
  let* c := config in
  if from_option rcs_Suspend false (dss_Reconciliation (ds_Spec c)) then ret (mkResult false 0, None)
  else
    match om_DeletionTimestamp (ds_ObjectMeta c) with
    | Some _ => dsReconcileDelete
    | None =>
        if negb (containsFinalizer (om_Finalizers (ds_ObjectMeta c)) downloadStackFinalizer) then
          modifyFinalizers (λ fs, addFinalizer fs downloadStackFinalizer) ;;; thenUpdate true
        else dsReconcileNormal
    end.

Definition DownloadStackConfigReconcile (fetch : M W DownloadStackConfig) (isNotFound : error → bool) : M W Outcome := λ w,
  match fetch w with
  | (w', Ret c) => let '(r, x) := dsReconcileObject (mkRec w' c) in (rec_world r, x)
  | (w', Err e) => (w', Ret (mkResult false 0, if isNotFound e then None else Some e))
  | (w', Panic p) => (w', Panic p)
  end.
End controller.
