(* ===== verification/StackReconcile.v ===== *)
(** * The reconciliation of the download stack (theorems about [DownloadStack])

    Every reconciliation that returns writes a status that tells what happened; the
    secret of the VPN container only ever grows; a restart is asked for once. *)
From S2P Require Export DownloadStack Reports.

(** ** What the status tells *)

(** The specification and the metadata, which a reconciliation never changes. *)
Definition sameObject (c c' : DownloadStackConfig) : Prop := ds_Spec c' = ds_Spec c ∧ ds_ObjectMeta c' = ds_ObjectMeta c.

#[export] Instance sameObject_preorder : PreOrder sameObject.
Proof. split; [by intros c|]. unfold sameObject. intros c1 c2 c3 [] []. split; congruence. Qed.

Lemma sameObject_conditions cs c : sameObject c (with_conditions cs c).
Proof. done. Qed.

(** The parts of an object that the handling of the clients leaves alone. *)
Definition agree (c c' : DownloadStackConfig) : Prop :=
  sameObject c c' ∧
  dst_GluetunConfigHash (ds_Status c') = dst_GluetunConfigHash (ds_Status c) ∧
  dst_GluetunSecretGenerated (ds_Status c') = dst_GluetunSecretGenerated (ds_Status c).

#[export] Instance agree_preorder : PreOrder agree.
Proof. split; [by intros c|]. unfold agree. intros c1 c2 c3 (? & ? & ?) (? & ? & ?). split_and!; [by etrans|congruence..]. Qed.

Lemma agree_App a b v c : agree c (mkDownloadStackConfig (ds_ObjectMeta c) (ds_Spec c) (dst_set_App a b v (ds_Status c))).
Proof. destruct c as [m spec []]. by destruct a. Qed.
Lemma agree_Conditions cs c : agree c (with_conditions cs c).
Proof. by destruct c as [m spec []]. Qed.
Lemma agree_Reconciled t g c :
  agree c (mkDownloadStackConfig (ds_ObjectMeta c) (ds_Spec c) (dst_set_Reconciled t g (ds_Status c))).
Proof. by destruct c as [m spec []]. Qed.

Lemma agree_same c c' : agree c c' → sameObject c c'.
Proof. by intros []. Qed.

Section reports.
Context {W : Type} `{KubeLaws W} `{!KubeObject W DownloadStackConfig} `{!KubeStack W} `{Transport W}
  `{UnicodeSpace} `{FloatSyntax} `{JSONText} (o : RangeOrder).
Abbreviation MR := (M (Rec W DownloadStackConfig)).
Abbreviation Outcome := (Result * option error)%type.
Implicit Types (c : DownloadStackConfig) (r : Rec W DownloadStackConfig).

Abbreviation reports := (reportsFailure sameObject).

(** ** The clients *)

(** The value of a key of a secret, as it is read from the cluster: from [w] to [w']. *)
Definition readsKey (ns name key : string) (w w' : W) (value : string) : Prop :=
  ∃ data, kubeGetSecret ns name w = (w', Ret data) ∧ data !! key = Some value.

(** The user and the password a reference names, or the defaults without one. *)
Definition readsPair (ns : string) (ref : option CredentialsSecretRef) (dflt : string * string)
    (w w' : W) (cred : string * string) : Prop :=
  match ref with
  | None => w' = w ∧ cred = dflt
  | Some ref => ∃ w1, readsKey ns (csr_Name ref) (orDefault (csr_UsernameKey ref) "username") w w1 cred.1 ∧
      readsKey ns (csr_Name ref) (orDefault (csr_PasswordKey ref) "password") w1 w' cred.2
  end.

(** The value a reference to one key names, or the default without one. *)
Definition readsOne (ns key dflt : string) (ref : option SecretKeySelector) (w w' : W) (value : string) : Prop :=
  match ref with
  | None => w' = w ∧ value = dflt
  | Some ref => readsKey ns (sks_Name ref) (orDefault (sks_Key ref) key) w w' value
  end.

(** A computation returns what a relation of worlds and values says, and only that. *)
Definition returns {A} (m : M W A) (R : W → W → A → Prop) : Prop := ∀ w w' a, m w = (w', Ret a) ↔ R w w' a.

Lemma ResolveSecretValue_returns ns n k : returns (ResolveSecretValue ns n k) (readsKey ns n k).
Proof.
  intros w w' v. unfold ResolveSecretValue, bind, wrapErr, readsKey.
  destruct (kubeGetSecret ns n w) as [w1 [data|e|why]]; [|by split; [|intros (? & ? & ?)]..].
  destruct (data !! k) as [v1|] eqn:Ek; split.
  - intros [= <- <-]. by exists data.
  - intros (d & [= <- <-] & Hv). rewrite Ek in Hv. by injection Hv as <-.
  - done.
  - intros (d & [= <- <-] & Hv). by rewrite Ek in Hv.
Qed.

Lemma resolveCredentials_returns ns ref dflt : returns (resolveCredentials ns ref dflt) (readsPair ns ref dflt).
Proof.
  intros w w' [u p]. destruct ref as [ref|]; [|by cbn; unfold ret; split; [intros E; simplify_eq|intros [-> <-]]].
  cbn [resolveCredentials readsPair fst snd]. unfold bind. split.
  - destruct (ResolveSecretValue _ _ (orDefault (csr_UsernameKey ref) _) w) as [w1 [u1|e|why]] eqn:E1; [|done..].
    destruct (ResolveSecretValue _ _ (orDefault (csr_PasswordKey ref) _) w1) as [w2 [p1|e|why]] eqn:E2; [|done..].
    intros [= <- <- <-]. exists w1. by split; apply ResolveSecretValue_returns.
  - intros (w1 & ->%ResolveSecretValue_returns & ->%ResolveSecretValue_returns). done.
Qed.

Lemma resolveOne_returns ns key dflt ref : returns (resolveOne ns key dflt ref) (readsOne ns key dflt ref).
Proof. intros w w' v. destruct ref as [ref|]; [apply ResolveSecretValue_returns|by cbn; unfold ret; split; [intros E; simplify_eq|intros [-> ->]]]. Qed.

(** Its credentials were read, and the client made of them by [run] was connected and
    synced: from [w] to [w']. *)
Definition syncedBy {A} (reads : W → W → A → Prop) (run : A → M W ClientOutcome) (w w' : W) : Prop :=
  ∃ w1 cred version, reads w w1 cred ∧ run cred w1 = (w', Ret (Synced version)).

(** Every one of the clients was synced, one after the other: from [w] to [w']. *)
Fixpoint inTurn (l : list (W → W → Prop)) (w w' : W) : Prop :=
  match l with
  | [] => w' = w
  | P :: l => ∃ w1, P w w1 ∧ inTurn l w1 w'
  end.

(** What a client does to the world and to the object: it goes on exactly if it was
    synced. *)
Definition handles (m : MR (option error)) (P : W → W → Prop) : Prop := ∀ r r' e, m r = (r', Ret e) →
  agree (rec_config r) (rec_config r') ∧
  match e with
  | Some _ => readyOf (rec_config r') = Some ConditionFalse ∧ ∀ w', ¬ P (rec_world r) w'
  | None => ∀ w', P (rec_world r) w' ↔ w' = rec_world r'
  end.

Lemma modifyDS_run f r : modifyDS f r = (mkRec (rec_world r)
  (mkDownloadStackConfig (ds_ObjectMeta (rec_config r)) (ds_Spec (rec_config r)) (f (ds_Status (rec_config r)))), Ret tt).
Proof. done. Qed.

Lemma failClient_run a g what e r r' x : failClient a g what e r = (r', Ret x) →
  x = Some e ∧ agree (rec_config r) (rec_config r') ∧ readyOf (rec_config r') = Some ConditionFalse.
Proof.
  intros E. unfold failClient in E.
  destruct (SetCondition_ready agree agree_Conditions g ConditionFalse (app_name a +:+ what) e r) as (c' & cs & E1 & _ & Ha & Hr).
  rewrite (bind_ok _ _ _ _ _ E1) in E. by injection E as <- <-.
Qed.

Lemma recordClient_run a g out r r' x : recordClient a g out r = (r', Ret x) →
  agree (rec_config r) (rec_config r') ∧
  match x with
  | Some _ => readyOf (rec_config r') = Some ConditionFalse ∧ ∀ v, out ≠ Synced v
  | None => rec_world r' = rec_world r ∧ ∃ v, out = Synced v
  end.
Proof.
  unfold recordClient. destruct out as [e|v e|v]; rewrite (bind_ok _ _ _ _ _ (modifyDS_run _ _)).
  - intros (-> & Ha & Hr)%failClient_run. split; [|done]. etrans; [apply agree_App|exact Ha].
  - intros (-> & Ha & Hr)%failClient_run. split; [|done]. etrans; [apply agree_App|exact Ha].
  - intros [= <- <-]. split; [apply agree_App|]. split; [done|by eexists].
Qed.

Lemma reconcileClient_handles {A} a g (m : M W A) reads run : returns m reads →
  handles (reconcileClient a g m run) (syncedBy reads run).
Proof.
  intros Hm r r' x E. unfold reconcileClient, bind, attempt, onWorld in E. destruct r as [w1 c1]. cbn [rec_world rec_config] in *.
  assert (∀ w', syncedBy reads run w1 w' ↔ ∃ w2 cred v, m w1 = (w2, Ret cred) ∧ run cred w2 = (w', Ret (Synced v))) as Hsync.
  { intros w'. unfold syncedBy. by setoid_rewrite (Hm _ _ _). }
  clear Hm. destruct (m w1) as [w2 [cred|e|why]]; [| |done].
  - cbn [rec_world rec_config] in E. destruct (run cred w2) as [w3 [out|e|why]] eqn:Er; [|done..].
    apply recordClient_run in E as [Ha Hx]. split; [exact Ha|]. cbn [rec_world] in Hx. destruct x as [e|].
    + destruct Hx as [Hr Hno]. split; [done|]. intros w' (w4 & cred' & v & [= <- <-] & Er')%Hsync.
      rewrite Er in Er'. injection Er' as <- ->. by apply (Hno v).
    + destruct Hx as [-> [v ->]]. intros w'. rewrite Hsync. split.
      * intros (w4 & cred' & v' & [= <- <-] & Er'). rewrite Er in Er'. by injection Er'.
      * intros ->. by exists w2, cred, v.
  - apply failClient_run in E as (-> & Ha & Hr). split; [exact Ha|]. split; [done|].
    by intros w' (w4 & cred' & v & E' & _)%Hsync.
Qed.

Lemma clientsInTurn_cases c (l : list (MR (option error))) Ps k r r' x : Forall2 handles l Ps →
  clientsInTurn l k r = (r', Ret x) → agree c (rec_config r) →
  (∃ r1, (∀ w', inTurn Ps (rec_world r) w' ↔ w' = rec_world r1) ∧ agree c (rec_config r1) ∧ k r1 = (r', Ret x)) ∨
  (reports c r' x ∧ ∀ w', ¬ inTurn Ps (rec_world r) w').
Proof.
  intros Hl. revert r. induction Hl as [|m P l Ps Hm Hl IH]; intros r E Ha.
  - left. by exists r.
  - cbn in E. unfold bind in E. destruct (m r) as [r1 [e|e|why]] eqn:Em; [|done..].
    destruct (Hm _ _ _ Em) as [Ha1 He]. destruct e as [e|].
    + right. destruct He as [Hr Hno]. split; [|by intros w' (w1 & HP & _); apply (Hno w1)].
      apply (requeue_reports _ _ _ _ _ _ E); [|done]. apply (agree_same c). by etrans.
    + assert (∀ w', inTurn (P :: Ps) (rec_world r) w' ↔ inTurn Ps (rec_world r1) w') as Hin.
      { intros w'. cbn [inTurn]. split; [by intros (w1 & ->%He & H')|]. intros H'. exists (rec_world r1). by rewrite He. }
      setoid_rewrite Hin. apply IH; [done|by etrans].
Qed.

(** The clients the specification configures, in the order of the controller. *)
Definition clientsOf c : list (W → W → Prop) :=
  let ns := om_Namespace (ds_ObjectMeta c) in
  let spec := ds_Spec c in
  pickFor (dss_Transmission spec) (λ s, [syncedBy
    (readsPair ns (tmc_CredentialsSecretRef (tm_Connection s)) ("", "")%string) (runTransmission s)]) ++
  pickFor (dss_QBittorrent spec) (λ s, [syncedBy
    (readsPair ns (qbc_CredentialsSecretRef (qb_Connection s)) ("", "")%string) (runQBittorrent s)]) ++
  pickFor (dss_Deluge spec) (λ s, [syncedBy
    (readsOne ns "password" "deluge" (dlc_PasswordSecretRef (dl_Connection s))) (runDeluge s)]) ++
  pickFor (dss_RTorrent spec) (λ s, [syncedBy
    (readsPair ns (rtc_CredentialsSecretRef (rt_Connection s)) ("", "")%string) (runRTorrent s)]) ++
  pickFor (dss_SABnzbd spec) (λ s, [syncedBy
    (readsOne ns "apiKey" "" (Some (sbc_APIKeySecretRef (sb_Connection s)))) (runSABnzbd s)]) ++
  pickFor (dss_NZBGet spec) (λ s, [syncedBy
    (readsPair ns (ngc_CredentialsSecretRef (ng_Connection s)) ("nzbget", "tegbzn6789")%string) (runNZBGet s)]).

Lemma handles_pick {A} (x : option A) f (P : A → W → W → Prop) : (∀ a, handles (f a) (P a)) →
  Forall2 handles (pickFor x (λ a, [f a])) (pickFor x (λ a, [P a])).
Proof. intros Hf. destruct x; simpl; [|constructor]. constructor; [apply Hf|constructor]. Qed.

Lemma configuredClients_handles c : Forall2 handles (configuredClients c) (clientsOf c).
Proof.
  unfold configuredClients, clientsOf. cbv zeta.
  repeat first [apply Forall2_app|apply handles_pick; intros s; apply reconcileClient_handles;
    (apply resolveCredentials_returns || apply resolveOne_returns)].
Qed.

(** ** The VPN container *)

(** The environment the specification of [c] gives with these credentials. *)
Definition envOf c (cred : string * string) (key : string) : Env :=
  GenerateGluetunEnv (mkGluetunEnvInput (dss_Gluetun (ds_Spec c)) cred.1 cred.2 key).

(** The object once the environment is noted. *)
Definition noted (env : Env) c : DownloadStackConfig :=
  mkDownloadStackConfig (ds_ObjectMeta c) (ds_Spec c) (dst_set_Gluetun (HashGluetunEnv o env) true (ds_Status c)).

Lemma noted_fields env c : sameObject c (noted env c) ∧
  dst_GluetunConfigHash (ds_Status (noted env c)) = HashGluetunEnv o env ∧
  dst_GluetunSecretGenerated (ds_Status (noted env c)) = true.
Proof. by destruct c as [m spec []]. Qed.

Definition needsRestart (env : Env) c : bool :=
  negb (String.eqb (HashGluetunEnv o env) (dst_GluetunConfigHash (ds_Status c))) && dss_RestartOnGluetunChange (ds_Spec c).

Lemma noteGluetun_run env w c : noteGluetun o env (mkRec w c) =
  let '(w', x) := if needsRestart env c then restartDeployment (noted env c) w else (w, Ret tt) in
  (mkRec w' (noted env c), match x with Panic why => Panic why | _ => Ret tt end).
Proof.
  unfold noteGluetun, needsRestart, noted, config, bind, modifyDS, modifyConfig, attempt, onWorld.
  cbn [rec_world rec_config ds_Spec ds_Status ds_ObjectMeta].
  destruct (_ && _); [|done]. cbn -[restartDeployment].
  match goal with |- context [restartDeployment ?d w] => by destruct (restartDeployment d w) as [w' []] end.
Qed.

(** The world once the environment is noted. *)
Definition restarted (env : Env) c (w : W) : W := if needsRestart env c then (restartDeployment (noted env c) w).1 else w.

(** The end of a reconciliation in which nothing failed. *)
Lemma succeed_run now g w c : ∃ c1, agree c c1 ∧ dst_ObservedGeneration (ds_Status c1) = g ∧
  succeedsWith dsIntervalOf w c1 (succeed now g (mkRec w c)).
Proof.
  unfold succeed. rewrite (bind_ok _ _ _ _ _ (modifyDS_run _ _)). cbn [rec_world rec_config].
  destruct (poll_succeeds agree agree_Conditions dsIntervalOf g "Reconciled" "Configuration applied successfully" w
    (mkDownloadStackConfig (ds_ObjectMeta c) (ds_Spec c) (dst_set_Reconciled (Some now) g (ds_Status c)))) as [cs Hr].
  eexists. split; [|split; [|exact Hr]].
  - etrans; [apply agree_Reconciled|apply agree_Conditions].
  - by destruct c as [m spec []].
Qed.

(** The work of a reconciliation from [w] to [w']: the credentials of the VPN are read,
    the environment they give is written into the secret, the deployment is restarted if
    need be, and the clients, of which there is one at least, are synced in turn. *)
Definition stackSynced c (env : Env) (w w' : W) : Prop := ∃ cred key w1 w2 w3,
  let ns := om_Namespace (ds_ObjectMeta c) in
  let provider := gl_Provider (dss_Gluetun (ds_Spec c)) in
  readsPair ns (glp_CredentialsSecretRef provider) ("", "")%string w w1 cred ∧
  readsOne ns "privateKey" "" (glp_PrivateKeySecretRef provider) w1 w2 key ∧
  env = envOf c cred key ∧
  writeGluetunSecret c env w2 = (w3, Ret tt) ∧
  clientsOf c ≠ [] ∧ inTurn (clientsOf c) (restarted env c w3) w'.

(** The same by the operations of the controller. *)
Lemma stackSynced_iff c env w w' : stackSynced c env w w' ↔ ∃ cred key w1 w2 w3,
  gluetunCredentialsOf c w = (w1, Ret cred) ∧ gluetunKeyOf c w1 = (w2, Ret key) ∧ env = envOf c cred key ∧
  writeGluetunSecret c env w2 = (w3, Ret tt) ∧ clientsOf c ≠ [] ∧ inTurn (clientsOf c) (restarted env c w3) w'.
Proof.
  unfold stackSynced, gluetunCredentialsOf, gluetunKeyOf. cbv zeta.
  by setoid_rewrite (resolveCredentials_returns _ _ _ _ _ _); setoid_rewrite (resolveOne_returns _ _ _ _ _ _ _).
Qed.

Lemma clientsOf_noted env c : clientsOf (noted env c) = clientsOf c ∧ configuredClients (noted env c) = configuredClients c.
Proof. by destruct c as [? ? []]. Qed.

(** What follows the write of the secret, in the world [w]. *)
Lemma afterSecret_cases now env w c r' x :
  (noteGluetun o env ;;; match configuredClients c with
   | [] => SetCondition (om_Generation (ds_ObjectMeta c)) ConditionTypeReady ConditionFalse "NoDownloadClient" noClientMessage ;;;
       requeueAfterError (Some noClient)
   | l => clientsInTurn l (succeed now (om_Generation (ds_ObjectMeta c))) end) (mkRec w c) = (r', Ret x) →
  let done_ w' := clientsOf c ≠ [] ∧ inTurn (clientsOf c) (restarted env c w) w' in
  (∃ c1 w', done_ w' ∧ agree (noted env c) c1 ∧
     dst_ObservedGeneration (ds_Status c1) = om_Generation (ds_ObjectMeta c) ∧ succeedsWith dsIntervalOf w' c1 (r', Ret x)) ∨
  ((∀ w', ¬ done_ w') ∧ reportsFailure sameObject c r' x).
Proof.
  intros E. cbv zeta. unfold bind in E at 1. rewrite noteGluetun_run in E. unfold restarted.
  destruct (if needsRestart env c then _ else _) as [w4 o4] eqn:E4.
  assert ((if needsRestart env c then (restartDeployment (noted env c) w).1 else w) = w4) as ->
    by (destruct (needsRestart env c); [by rewrite E4|by injection E4]).
  assert (match o4 with Panic why => Panic why | _ => Ret tt end = Ret tt) as Eo by (by destruct o4).
  rewrite Eo in E. clear E4 Eo o4. destruct (noted_fields env c) as (Hsame & _ & _).
  pose proof (configuredClients_handles c) as Hl. destruct Hl as [|m P l Ps Hm Hl].
  - right. split; [by intros w' [? _]|].
    destruct (SetCondition_ready sameObject sameObject_conditions (om_Generation (ds_ObjectMeta c)) ConditionFalse
      "NoDownloadClient" noClientMessage (mkRec w4 (noted env c))) as (c' & cs & E1 & _ & Ha & Hr).
    rewrite (bind_ok _ _ _ _ _ E1) in E. apply (requeue_reports _ _ _ _ _ _ E); [by etrans|done].
  - eapply clientsInTurn_cases in E; [|by constructor|reflexivity]. cbn [rec_world rec_config] in E.
    destruct E as [([w5 c5] & Hin & Ha & E)|[Hf Hno]].
    + left. cbn [rec_world rec_config] in *.
      destruct (succeed_run now (om_Generation (ds_ObjectMeta c)) w5 c5) as (c1 & Ha1 & Hg & Hs). rewrite E in Hs.
      exists c1, w5. split_and!; [done|by apply Hin|by etrans|done|done].
    + right. split; [by intros w' [_ ?%Hno]|]. by apply (reportsFailure_agree _ _ (noted env c)).
Qed.

(** A step that failed is not a step of the work. *)
#[local] Ltac stuck := intros ? ? (? & ? & ? & ? & ? & ?); destruct_and?; congruence.

(** C5: What a reconciliation of the download stack that returns has done.  Either its
    work was done: the credentials of the VPN were read from the secrets the specification
    names (the user, the password and the private key each from its key), the secret of
    the VPN container was written with the environment the specification gives with them,
    the deployment was restarted if need be, and each client that is configured, one
    at least, was connected and synced with the credentials its specification names, one
    after the other.  Then it ends with one write of a status that is Ready and has the
    hash of that environment and the generation, and the object is polled after its
    interval.  Or that work cannot be done from the world the reconciliation started in:
    then the status that is written is not Ready, an error is returned and the object is
    retried. *)
Theorem downloadstack_reports c w r' x :
  dsReconcileNormal o (mkRec w c) = (r', Ret x) →
  (∃ env w' c1, stackSynced c env w w' ∧ succeedsWith dsIntervalOf w' c1 (r', Ret x) ∧ sameObject c c1 ∧
    dst_ObservedGeneration (ds_Status c1) = om_Generation (ds_ObjectMeta c) ∧
    dst_GluetunConfigHash (ds_Status c1) = HashGluetunEnv o env) ∨
  ((∀ env w', ¬ stackSynced c env w w') ∧ reportsFailure sameObject c r' x).
Proof.
  setoid_rewrite stackSynced_iff. unfold dsReconcileNormal, Prelude.get, config. unfold bind at 1 2. cbn [rec_world rec_config].
  rewrite step_run_on. destruct (gluetunCredentialsOf c w) as [w1 [cred|e|why]]; [| |done].
  2: { intros E. right. split; [stuck|]. by eapply (failStep_reports sameObject sameObject_conditions c). }
  rewrite step_run_on. destruct (gluetunKeyOf c w1) as [w2 [key|e|why]] eqn:Ek; [| |done].
  2: { intros E. right. split; [stuck|]. by eapply (failStep_reports sameObject sameObject_conditions c). }
  rewrite step_run_on. fold (envOf c cred key). destruct (writeGluetunSecret c (envOf c cred key) w2) as [w3 [[]|e|why]] eqn:Es; [| |done].
  2: { intros E. right. split; [stuck|]. by eapply (failStep_reports sameObject sameObject_conditions c). }
  intros E. apply afterSecret_cases in E as [(c1 & w' & [Hne Hin] & (Hs & Hh & _) & Hg & Hr)|[Hno Hf]].
  - left. exists (envOf c cred key), w', c1. destruct (noted_fields (envOf c cred key) c) as (Hs0 & Hh0 & _).
    split_and!; [by exists cred, key, w1, w2, w3|done|by etrans|done|by rewrite Hh].
  - right. split; [|done]. intros env w' (cred' & key' & v1 & v2 & v3 & [= <- <-] & Hk & -> & Hw & Hd).
    rewrite Ek in Hk. injection Hk as <- <-. rewrite Es in Hw. injection Hw as <-. by apply (Hno w').
Qed.
End reports.

(** ** The restart *)

Section restart.
Context {W : Type} `{Kube W} `{!KubeStack W} (o : RangeOrder).
Implicit Types (c : DownloadStackConfig) (w v : W).

(** C24: A change of the VPN environment asks for one restart of the deployment.  When the
    hash in the status is another one and the specification says so, the deployment is
    read, annotated with the new hash and written; the hash goes into the status whether
    or not that succeeds.  So a second run with the same environment leaves the cluster
    alone: a restart that failed, of a deployment that does not exist yet, say, is not
    asked for again, and the container keeps running with its old environment. *)
Theorem restart_once env w c :
  (∀ ns n, noPanic (kubeGetDeployment (W:=W) ns n)) → (∀ d, noPanic (kubeUpdateDeployment (W:=W) d)) →
  let c1 := noted o env c in
  noteGluetun o env (mkRec w c) = (mkRec (if needsRestart o env c then (restartDeployment c1 w).1 else w) c1, Ret tt) ∧
  dst_GluetunConfigHash (ds_Status c1) = HashGluetunEnv o env ∧
  (∀ d w', kubeGetDeployment (om_Namespace (ds_ObjectMeta c)) (lor_Name (dss_DeploymentRef (ds_Spec c))) w = (w', Ret d) →
     (restartDeployment c1 w).1 = (kubeUpdateDeployment (with_templateAnnotations
       (<[configHashAnnotationKey := HashGluetunEnv o env]>
         (<[restartAnnotationKey := rfc3339 (kubeClock w')]> (templateAnnotations d))) d) w').1) ∧
  ∀ v, noteGluetun o env (mkRec v c1) = (mkRec v c1, Ret tt).
Proof.
  intros Hget Hupd. cbn zeta. assert (∀ c, noPanic (restartDeployment c)) as Hr.
  { intros c'. unfold restartDeployment. noPanics. intros w0. apply Hupd. }
  destruct (noted_fields o env c) as ((Hs & Hm) & Hh & _). split_and!; [|done| |].
  - rewrite noteGluetun_run. destruct (needsRestart o env c); [|done]. pose proof (Hr (noted o env c) w) as [_ Hp].
    destruct (restartDeployment _ w) as [w' []]; [done..|by destruct (Hp why)].
  - intros d w' Ed. unfold restartDeployment. rewrite Hm, Hs, (bind_ok _ _ _ _ _ (wrapErr_ok _ _ _ _ _ Ed)).
    unfold bind, Prelude.get. rewrite Hh. unfold wrapErr. by destruct (kubeUpdateDeployment _ w') as [w'' []].
  - intros v. rewrite noteGluetun_run. unfold needsRestart. rewrite Hh, String.eqb_refl. cbn [negb andb].
    do 2 f_equal. unfold noted. cbn. by destruct c as [m spec []].
Qed.
End restart.

(** ** The secret *)

(** What is documented of the writes of secrets: [CreateOrUpdate] reads the secret, or
    starts with an empty one, passes it to the function and writes what that returns;
    the API server merges [stringData] into the data.  The owner reference is no data. *)
Class StackLaws W `{KubeStack W} (secretOf : W → string → string → option (gmap string string)) : Prop := {
  createOrUpdate_ok s f w w' : kubeCreateOrUpdate s f w = (w', Ret tt) → ∃ s0 s1,
    sec_Namespace s0 = sec_Namespace s ∧ sec_Name s0 = sec_Name s ∧
    sec_Data s0 = default ∅ (secretOf w (sec_Namespace s) (sec_Name s)) ∧ f s0 = inl s1 ∧
    secretOf w' (sec_Namespace s) (sec_Name s) = Some (sec_StringData s1 ∪ sec_Data s1);
  controllerReference_data m s s' : setControllerReference m s = inl s' →
    sec_Data s' = sec_Data s ∧ sec_Namespace s' = sec_Namespace s ∧ sec_Name s' = sec_Name s }.

Section secret.
Context {W : Type} `{Kube W} `{!KubeStack W} secretOf `{!StackLaws W secretOf}.

(** The secret of the VPN container.  After it was written it has every variable of
    the environment, and the variables it had before that are no longer part of the
    environment as well: a server, a port or a password that is removed from the
    specification stays in force. *)
Theorem gluetun_secret_merges (c : DownloadStackConfig) env (w w' : W) :
  writeGluetunSecret c env w = (w', Ret tt) →
  let ns := om_Namespace (ds_ObjectMeta c) in
  let old := default ∅ (secretOf w ns (gluetunSecretName c)) in
  ∃ data, secretOf w' ns (gluetunSecretName c) = Some data ∧
    (∀ k v, env !! k = Some v → data !! k = Some v) ∧
    ∀ k, env !! k = None → data !! k = old !! k.
Proof.
  intros E. cbn zeta. apply (createOrUpdate_ok (secretOf:=secretOf)) in E as (s0 & s1 & _ & _ & Hd & Hf & Hs).
  cbn [sec_Namespace sec_Name] in Hd, Hs. rewrite <-Hd. eexists. split; [exact Hs|].
  unfold mutateSecret in Hf. destruct (setControllerReference _ s0) as [s2|] eqn:Ec; [|done]. injection Hf as <-.
  apply controllerReference_data in Ec as (Hd2 & _ & _). cbn [sec_StringData sec_Data]. rewrite Hd2.
  split; [intros k v; by apply lookup_union_Some_l|]. intros k Hk. by rewrite lookup_union_r.
Qed.
End secret.

(** ** A client from its credentials to its settings *)

Lemma runClient_connected {W Cl} (cl : Cl) test getVersion sync (w w1 w2 w3 : W) c1 c2 c3 version x :
  test (mkNet w cl) = (mkNet w1 c1, Ret tt) → getVersion (mkNet w1 c1) = (mkNet w2 c2, Ret version) →
  sync (mkNet w2 c2) = (mkNet w3 c3, x) →
  runClient cl test getVersion sync w = (w3, match x with
    | Ret _ => Ret (Synced (Some version))
    | Err e => Ret (SyncFailed (Some version) e)
    | Panic why => Panic why
    end).
Proof. intros Et Ev Es. unfold runClient, withClient, bind, attempt, ret. rewrite Et, Ev, Es. by destruct x. Qed.

(** Transmission is reconciled.  A new client for the URL and the credentials of the
    specification connects, learns the version of the server and syncs: the outcome is
    a success with that version, and the server then has the settings of the
    specification over those it had; unless a setting is no number of JSON, and then
    the outcome is a failed sync of a connected client and the settings are as before. *)
Theorem transmission_reconciled {W} `{Transport W} `{FloatSyntax} (spec : TransmissionSpec) cred token settings version (w : W) :
  let cl := NewTransmissionClient (tmc_URL (tm_Connection spec)) cred.1 cred.2 in
  TransmissionLaws cl token settings version →
  let desired := buildTransmissionSettings spec in
  if marshalable (VObject desired) then
    ∃ w', runTransmission spec cred w = (w', Ret (Synced (Some version))) ∧ settings w' = stored desired ∪ settings w
  else ∃ w' e, runTransmission spec cred w = (w', Ret (SyncFailed (Some version) e)) ∧ settings w' = settings w.
Proof.
  intros cl Hl desired.
  destruct (GetSession_run "" w) as (w1 & s1 & E1 & _ & _ & Hs1).
  destruct (GetSession_run (token w) w1) as (w2 & s2 & E2 & Hv & Ht & Hs2).
  change (tc_set_sessionID "" cl) with cl in E1.
  assert (TransmissionTestConnection (mkNet w cl) = (mkNet w1 (tc_set_sessionID (token w) cl), Ret tt)) as Et
    by (unfold TransmissionTestConnection; by rewrite (bind_ok _ _ _ _ _ E1)).
  assert (GetTransmissionVersion (mkNet w1 (tc_set_sessionID (token w) cl)) =
    (mkNet w2 (tc_set_sessionID (token w1) cl), Ret version)) as Ev
    by (unfold GetTransmissionVersion; rewrite (bind_ok _ _ _ _ _ E2); by rewrite <-Hv).
  assert (∀ w3 c3 x, SyncTransmissionSettings spec (mkNet w2 (tc_set_sessionID (token w1) cl)) = (mkNet w3 c3, x) →
    runTransmission spec cred w = (w3, match x with
      | Ret _ => Ret (Synced (Some version)) | Err e => Ret (SyncFailed (Some version) e) | Panic why => Panic why
      end)) as Hrun by (intros w3 c3 x Es; exact (runClient_connected _ _ _ _ _ _ _ _ _ _ _ _ _ Et Ev Es)).
  unfold SyncTransmissionSettings in Hrun. cbv zeta in Hrun. fold desired in Hrun. rewrite <-Hs1, <-Hs2.
  destruct (marshalable _) eqn:Hm; case_bool_decide as Hd.
  - exists w2. rewrite (Hrun _ _ _ eq_refl). split; [done|]. rewrite Hd. unfold stored.
    by rewrite fmap_empty, (left_id_L ∅ (∪)).
  - destruct (SetSession_run (token w1) desired w2 Hd Hm) as (w3 & Es & _ & Hs3). exists w3. by rewrite (Hrun _ _ _ Es).
  - by rewrite Hd in Hm.
  - unfold SetSession, request in Hrun. rewrite Hm in Hrun. eexists w2, _. by rewrite (Hrun _ _ _ eq_refl).
Qed.

(** ** An example cluster *)
Module ExampleStack.
Import ExampleCluster.

(** The secrets, and the annotations of the one deployment, if there is one. *)
Definition World : Type := Cluster * option (gmap string string).

#[export] Instance StackKube : Kube World := kubeOn fst.
#[export] Instance StackKubeLaws : KubeLaws World := kubeOn_laws fst.

#[export] Instance Stack : KubeStack World := {|
  Deployment := gmap string string;
  templateAnnotations := id;
  with_templateAnnotations a _ := a;
  kubeGetDeployment ns name := λ w, (w, match w.2 with Some d => Ret d | None => Err "not found" end);
  kubeUpdateDeployment d := λ w, ((w.1, Some d), Ret tt);
  kubeCreateOrUpdate s f := λ w,
    let key := (sec_Namespace s, sec_Name s) in
    match f (mkSecret key.1 key.2 None (default ∅ (w.1 !! key)) ∅) with
    | inl s' => ((<[key := sec_StringData s' ∪ sec_Data s']> w.1, w.2), Ret tt)
    | inr e => (w, Err e)
    end;
  setControllerReference m s :=
    inl (mkSecret (sec_Namespace s) (sec_Name s) (Some (om_Name m)) (sec_Data s) (sec_StringData s));
  rfc3339 _ := "1970-01-01T00:00:00Z" |}.

Definition secretOf (w : World) (ns name : string) : option (gmap string string) := w.1 !! (ns, name).

#[export] Instance keeps : StackLaws World secretOf.
Proof.
  split; [|by intros m s s' [= <-]]. intros s f [cl d] w'. unfold kubeCreateOrUpdate, Stack, secretOf. cbn.
  destruct (f _) as [s1|] eqn:Ef; [|done]. intros [= <-]. 
  refine (ex_intro _ _ (ex_intro _ s1 (conj _ (conj _ (conj _ (conj Ef _)))))); [done..|]. apply lookup_insert_eq.
Qed.

(** NZBGet tells its version to everyone. *)
#[export] Instance Answers : Transport World := {|
  Jar := unit;
  newJar := tt;
  roundTrip j r w := (w, (tt, Reply (mkHttpResponse 200 [] "" (Some (VMap [("result", VString "21.1")]%string)) None)));
  newRequestError := id;
  marshalError _ := "json"%string;
  unmarshalError _ := "json"%string;
  xmlError _ := "xml"%string |}.
#[export] Instance noFloats : FloatSyntax := {| parseFloat _ := None; scanFloat _ := None |}.
#[export] Instance asciiSpace : UnicodeSpace := id.
#[export] Instance noText : JSONText := λ _, ""%string.

Definition exampleGluetun : GluetunSpec :=
  mkGluetunSpec (mkGluetunProviderSpec "mullvad" None (Some (mkSecretKeySelector "vpn" ""))) "wireguard" None None None None None None.
Definition exampleStack : DownloadStackConfig :=
  mkDownloadStackConfig (mkObjectMeta "stack" "media" "4f1d" 7 None [downloadStackFinalizer])
    (mkDownloadStackConfigSpec (mkLocalObjectReference "downloads") exampleGluetun None None None None None
       (Some (mkNZBGetSpec (mkNZBGetConnectionSpec "http://localhost:6789" None) None None [] None None None)) true None)
    (mkDownloadStackConfigStatus [] "" false false "" false "" false "" false "" false "" false "" None 0).

(** A cluster with the key, an old secret with a server that is no longer asked for, and
    no deployment yet. *)
Definition exampleWorld : World :=
  ({[ ("media", "vpn") := {[ "privateKey" := "wg-key" ]};
      ("media", "stack-gluetun-env") := {[ "SERVER_CITIES" := "Oslo" ]} ]}%string, None).
Definition exampleEnv : Env := envOf exampleStack ("", "")%string "wg-key".
End ExampleStack.

Section witnesses.
Import ExampleCluster ExampleStack.

(** NZBGet is synced and the object is Ready; the deployment does not exist. *)
Lemma downloadstack_reports_witness : ∃ r' x w' c1,
  dsReconcileNormal keyOrder (mkRec exampleWorld exampleStack) = (r', Ret x) ∧
  readyOf c1 = Some ConditionTrue ∧ stackSynced keyOrder exampleStack exampleEnv exampleWorld w'.
Proof.
  assert ((dsReconcileNormal keyOrder (mkRec exampleWorld exampleStack)).2 =
    Ret (mkResult false DefaultRequeueInterval, None)) as Ex by (vm_compute; reflexivity).
  destruct (dsReconcileNormal keyOrder (mkRec exampleWorld exampleStack)) as [r' x] eqn:E. cbn [snd] in Ex. subst x.
  pose proof (downloadstack_reports keyOrder exampleStack exampleWorld r' _ E) as [Hr|[_ Hf]].
  - destruct Hr as (env & w' & c1 & Hs & [Hready _] & _). exists r', (mkResult false DefaultRequeueInterval, None), w', c1.
    split; [reflexivity|]. split; [exact Hready|]. destruct Hs as (cred & key & w1 & w2 & w3 & Hc & Hk & He & Hrest).
    destruct Hc as [-> ->]. destruct Hk as (data & Hg & Hk). injection Hg as <- <-.
    assert (key = "wg-key"%string) as -> by (vm_compute in Hk; congruence).
    rewrite He in Hrest. exists ("", "")%string, "wg-key"%string, exampleWorld, exampleWorld, w3.
    split; [by split|]. split; [|split; [reflexivity|exact Hrest]].
    exists {[ "privateKey" := "wg-key" ]}%string. split; [reflexivity|exact Hk].
  - exfalso. destruct Hf as (w1 & c1 & w2 & out & e & _ & _ & _ & _ & Hx). discriminate Hx.
Defined.

(** The restart fails, the hash is stored, and the next run asks for nothing. *)
Lemma restart_once_witness : ∃ c1,
  noteGluetun keyOrder exampleEnv (mkRec exampleWorld exampleStack) = (mkRec exampleWorld c1, Ret tt) ∧
  ∀ v, noteGluetun keyOrder exampleEnv (mkRec v c1) = (mkRec v c1, Ret tt).
Proof.
  destruct (restart_once keyOrder exampleEnv exampleWorld exampleStack) as (E & _ & _ & Hv).
  - intros ns n w. by split; [|destruct w as [? []]].
  - intros d w. by split.
  - eexists. split; [|exact Hv].
    assert (needsRestart keyOrder exampleEnv exampleStack = true) as Hn by (vm_compute; reflexivity).
    rewrite Hn in E. exact E.
Defined.

(** The city stays in the secret. *)
Lemma gluetun_secret_merges_witness : ∃ w' data,
  writeGluetunSecret exampleStack exampleEnv exampleWorld = (w', Ret tt) ∧
  secretOf w' "media" "stack-gluetun-env" = Some data ∧
  data !! "VPN_TYPE"%string = Some "wireguard"%string ∧ data !! "SERVER_CITIES"%string = Some "Oslo"%string.
Proof.
  assert (∃ w', writeGluetunSecret exampleStack exampleEnv exampleWorld = (w', Ret tt)) as [w' E] by (eexists; reflexivity).
  destruct (gluetun_secret_merges secretOf exampleStack exampleEnv exampleWorld w' E) as (data & Hd & Hin & Hout).
  exists w', data. split_and!; [exact E|exact Hd|apply Hin; vm_compute; reflexivity|].
  rewrite Hout by (vm_compute; reflexivity). vm_compute. reflexivity.
Defined.

(** A new client of the example server of Transmission. *)
Lemma transmission_reconciled_witness : ∃ w',
  @runTransmission _ MiniTransmission.Server noFloats exampleTransmission ("admin", "pw")%string ∅ =
    (w', Ret (Synced (Some "4.0.5"%string))) ∧
  w' !! "alt-speed-time-day"%string = Some (VInt 3).
Proof.
  pose proof (@transmission_reconciled _ MiniTransmission.Server noFloats exampleTransmission ("admin", "pw")%string
    (λ _, MiniTransmission.theToken) id "4.0.5"%string ∅ MiniTransmission.keeps) as Hs.
  assert (marshalable (VObject (buildTransmissionSettings exampleTransmission)) = true) as Hm by (vm_compute; reflexivity).
  cbv zeta in Hs. rewrite Hm in Hs. destruct Hs as (w' & E & Hw). exists w'. split; [exact E|].
  unfold id in Hw. rewrite Hw. vm_compute. reflexivity.
Defined.
End witnesses.
