(* ===== verification/BazarrApi.v ===== *)
(** * The custom resource BazarrConfig (src/api/v1alpha1/bazarrconfig_types.go)

    The subtitle manager Bazarr: its language profiles and providers, its connections,
    and the two ways to configure it. *)
From S2P Require Export Api.

Record BazarrLanguage := mkBazarrLanguage {
  bl_Code : string;
  bl_Forced : bool;
  bl_HearingImpaired : bool }.

Record BazarrLanguageProfile := mkBazarrLanguageProfile {
  blp_Name : string;
  blp_Languages : list BazarrLanguage;
  blp_DefaultForSeries : bool;
  blp_DefaultForMovies : bool }.

Record BazarrProvider := mkBazarrProvider {
  bp_Name : string;
  bp_Username : string;
  bp_PasswordSecretRef : option SecretKeySelector;
  bp_APIKeySecretRef : option SecretKeySelector }.

Record BazarrConnectionSpec := mkBazarrConnectionSpec {
  bzc_URL : string;
  bzc_APIKeySecretRef : option SecretKeySelector;
  bzc_ConfigPath : string }.

Record BazarrAPIConnectionSpec := mkBazarrAPIConnectionSpec {
  bac_URL : string;
  bac_APIKeySecretRef : SecretKeySelector }.

Record BazarrConfigSpec := mkBazarrConfigSpec {
  bzs_ConfigMode : string;
  bzs_Connection : option BazarrAPIConnectionSpec;
  bzs_Sonarr : BazarrConnectionSpec;
  bzs_Radarr : BazarrConnectionSpec;
  bzs_LanguageProfiles : list BazarrLanguageProfile;
  bzs_Providers : list BazarrProvider;
  bzs_Authentication : option AuthenticationSpec;
  bzs_OutputPath : string;
  bzs_ConfigMapRef : option LocalObjectReference;
  bzs_Reconciliation : option ReconciliationSpec }.

Record BazarrConfigStatus := mkBazarrConfigStatus {
  bst_Conditions : list Condition;
  bst_ActiveMode : string;
  bst_BazarrConnected : bool;
  bst_BazarrVersion : string;
  bst_SonarrConnected : bool;
  bst_RadarrConnected : bool;
  bst_ConfigGenerated : bool;
  bst_LanguageProfilesSynced : bool;
  bst_ProvidersSynced : bool;
  bst_LastReconcile : option Z;
  bst_LastAppliedHash : string }.

Record BazarrConfig := mkBazarrConfig {
  bz_ObjectMeta : ObjectMeta;
  bz_Spec : BazarrConfigSpec;
  bz_Status : BazarrConfigStatus }.


Definition BazarrConfigModeFile : string := "file".
Definition BazarrConfigModeAPI : string := "api".
