(* ===== verification/Bazarr.v ===== *)
(** * Bazarr (src/internal/adapters/bazarr)

    The two ways to configure Bazarr: [Generate] makes the configuration file from the
    specification and the resolved secrets (generator.go), and [BazarrClient] is the
    client of its REST API (client.go).  The serialization to YAML is a parameter. *)
From S2P Require Export BazarrApi Settings Hash.

(** ** The configuration file (generator.go) *)

(** [SonarrConfig] and [RadarrConfig], which have the same fields. *)
Record BazarrArrConfig := mkBazarrArrConfig {
  bza_IP : string;
  bza_Port : Z;
  bza_BaseURL : string;
  bza_SSL : bool;
  bza_APIKey : string }.

Record GeneralConfig := mkGeneralConfig {
  gen_UseSonarr : bool;
  gen_UseRadarr : bool;
  gen_EnabledProviders : list string;
  gen_SingleLanguage : bool;
  gen_SerieDefaultEnabled : bool;
  gen_SerieDefaultProfile : Z;
  gen_MovieDefaultEnabled : bool;
  gen_MovieDefaultProfile : Z }.

Record ConfigLanguageItem := mkConfigLanguageItem {
  cli_ID : Z;
  cli_Language : string;
  cli_Forced : bool;
  cli_HI : bool;
  cli_AudioExclude : bool }.

Record ConfigLanguageProfile := mkConfigLanguageProfile {
  clp_Name : string;
  clp_ProfileID : Z;
  clp_Cutoff : any;
  clp_Items : list ConfigLanguageItem }.

Record AuthConfig := mkAuthConfig {
  aut_Type : option string;
  aut_Username : string;
  aut_Password : string }.

Record ProviderConfig := mkProviderConfig {
  prc_Username : string;
  prc_Password : string;
  prc_APIKey : string }.

(** The type [Config] of the package. *)
Record BazarrFile := mkBazarrFile {
  bf_Sonarr : BazarrArrConfig;
  bf_Radarr : BazarrArrConfig;
  bf_General : GeneralConfig;
  bf_Languages : list ConfigLanguageProfile;
  bf_Auth : option AuthConfig;
  bf_Providers : gmap string ProviderConfig }.    (* inlined *)

Record ProviderSecrets := mkProviderSecrets {
  psc_Password : string;
  psc_APIKey : string }.
Definition noSecrets : ProviderSecrets := mkProviderSecrets "" "".

Record GeneratorInput := mkGeneratorInput {
  gin_Spec : BazarrConfigSpec;
  gin_SonarrAPIKey : string;
  gin_RadarrAPIKey : string;
  gin_ResolvedProviderSecrets : gmap string ProviderSecrets;
  gin_ResolvedAuthPassword : string }.

(** The texts of the errors of [url.Parse], and [yaml.Marshal], which may also panic. *)
Class BazarrText := {
  urlError : string → error;
  marshalYAML : BazarrFile → outcome string }.

Definition quote : ascii := "034".

(** The error of [strconv.Atoi] for digits: they are out of range. *)
Definition atoiError (s : string) : error :=
  ("strconv.Atoi: parsing " +:+ String quote (s +:+ String quote "") +:+ ": value out of range")%string.

Section generator.
Context `{BazarrText}.

Definition parseURL (rawURL : string) : (string * Z * string * bool) + error :=
  match urlParse rawURL with
  | None => inr (urlError rawURL)
  | Some parsed =>
      let host := orDefault (urlHostname parsed) "localhost" in
      let ssl := String.eqb (url_Scheme parsed) "https" in
      let basePath := orDefault (url_Path parsed) "/" in
      let portStr := urlPort parsed in
      if String.eqb portStr "" then inl (host, if ssl then 443 else 80, basePath, ssl)
      else
        let '(port, ok) := Atoi portStr in
        if ok : bool then inl (host, port, basePath, ssl)
        else inr ("invalid port: " +:+ atoiError portStr)%string
  end.

(** The number of the last profile that is the default, or 1. *)
Definition defaultProfile (isDefault : BazarrLanguageProfile → bool) (profiles : list BazarrLanguageProfile) : Z :=
  foldl (λ n '(idx, p), if isDefault p then Z.of_nat idx + 1 else n) 1 (imap pair profiles).

Definition buildGeneralConfig (spec : BazarrConfigSpec) : GeneralConfig :=
  mkGeneralConfig true true (bp_Name <$> bzs_Providers spec) false
    true (defaultProfile blp_DefaultForSeries (bzs_LanguageProfiles spec))
    true (defaultProfile blp_DefaultForMovies (bzs_LanguageProfiles spec)).

Definition buildLanguageItem (langIdx : nat) (lang : BazarrLanguage) : ConfigLanguageItem :=
  mkConfigLanguageItem (Z.of_nat langIdx + 1) (bl_Code lang) (bl_Forced lang) (bl_HearingImpaired lang) false.
Definition buildLanguageProfile (idx : nat) (profile : BazarrLanguageProfile) : ConfigLanguageProfile :=
  mkConfigLanguageProfile (blp_Name profile) (Z.of_nat idx + 1) VNil (imap buildLanguageItem (blp_Languages profile)).
Definition buildLanguageProfiles (profiles : list BazarrLanguageProfile) : list ConfigLanguageProfile :=
  imap buildLanguageProfile profiles.

(** [md5Hash]: the digest in hexadecimal. *)
Definition md5Hash (s : string) : string := md5Hex s.

Definition buildAuthConfig (auth : option AuthenticationSpec) (resolvedPassword : string) : option AuthConfig :=
  match auth with
  | None => None
  | Some auth =>
      if String.eqb (aus_Method auth) "none" then None
      else Some (mkAuthConfig (if String.eqb (aus_Method auth) "" then None else Some (aus_Method auth))
        (aus_Username auth) (if String.eqb resolvedPassword "" then "" else md5Hash resolvedPassword))
  end.

Definition buildProviderConfig (provider : BazarrProvider) (secrets : ProviderSecrets) : option ProviderConfig :=
  let config := mkProviderConfig (bp_Username provider) (psc_Password secrets) (psc_APIKey secrets) in
  if String.eqb (prc_Username config) "" && String.eqb (prc_Password config) "" && String.eqb (prc_APIKey config) ""
  then None else Some config.

Definition addProvider (secrets : gmap string ProviderSecrets) (m : gmap string ProviderConfig) (p : BazarrProvider)
    : gmap string ProviderConfig :=
  match buildProviderConfig p (default noSecrets (secrets !! bp_Name p)) with
  | Some config => <[bp_Name p := config]> m
  | None => m
  end.

Definition arrConfig (url : string * Z * string * bool) (apiKey : string) : BazarrArrConfig :=
  let '(host, port, base, ssl) := url in mkBazarrArrConfig host port base ssl apiKey.

Definition Generate (input : GeneratorInput) : BazarrFile + error :=
  let spec := gin_Spec input in
  match parseURL (bzc_URL (bzs_Sonarr spec)) with
  | inr e => inr ("invalid sonarr URL: " +:+ e)%string
  | inl sonarr =>
      match parseURL (bzc_URL (bzs_Radarr spec)) with
      | inr e => inr ("invalid radarr URL: " +:+ e)%string
      | inl radarr =>
          inl (mkBazarrFile (arrConfig sonarr (gin_SonarrAPIKey input)) (arrConfig radarr (gin_RadarrAPIKey input))
            (buildGeneralConfig spec) (buildLanguageProfiles (bzs_LanguageProfiles spec))
            (buildAuthConfig (bzs_Authentication spec) (gin_ResolvedAuthPassword input))
            (foldl (addProvider (gin_ResolvedProviderSecrets input)) ∅ (bzs_Providers spec)))
      end
  end.

Definition GenerateYAML {W} (config : BazarrFile) : M W string := λ w, (w, marshalYAML config).
End generator.

(** ** What is generated *)

(** A URL [scheme://host:port/path] of plain bytes. *)
Record Endpoint := mkEndpoint {
  ep_tls : bool;
  ep_host : string;
  ep_port : Z;
  ep_path : string }.
Definition urlOf (e : Endpoint) : string :=
  ((if ep_tls e then "https" else "http") +:+ "://" +:+ (ep_host e +:+ String ":" (Itoa (ep_port e))) +:+ ep_path e)%string.
Definition plainEndpoint (e : Endpoint) : bool :=
  stringForall hostByte (ep_host e) && negb (String.eqb (ep_host e) "") &&
  (0 <=? ep_port e) && (ep_port e <=? maxInt) && plainPath (ep_path e).

Section generated.
Context `{BazarrText}.

Lemma parseURL_plain e : plainEndpoint e = true →
  parseURL (urlOf e) = inl (ep_host e, ep_port e, orDefault (ep_path e) "/", ep_tls e).
Proof.
  unfold plainEndpoint. rewrite !andb_true_iff, negb_true_iff. intros ((((Hh & Hne) & H0) & H1) & Hp).
  apply String.eqb_neq in Hne. apply Z.leb_le in H0, H1. destruct (Itoa_nonneg _ H0) as [Hd Hdne].
  unfold parseURL, urlOf. rewrite urlParse_plain_path by done. unfold urlHostname, urlPort. cbn [url_Host url_Scheme url_Path].
  rewrite splitHostPort_plain by done. cbn [fst snd].
  apply String.eqb_neq in Hdne. rewrite Hdne, Atoi_Itoa by (unfold minInt; lia).
  unfold orDefault at 1. apply String.eqb_neq in Hne. rewrite Hne. by destruct (ep_tls e).
Qed.

(** The entry of a provider: of the last one of the name with any credentials. *)
Lemma providers_lookup secrets l (m : gmap string ProviderConfig) n :
  foldl (addProvider secrets) m l !! n =
  match last (omap (λ p, if decide (bp_Name p = n) then buildProviderConfig p (default noSecrets (secrets !! n)) else None) l) with
  | Some config => Some config
  | None => m !! n
  end.
Proof.
  induction l as [|p l IH] using rev_ind; [done|]. rewrite foldl_app, omap_app, last_app. cbn [foldl omap list_omap].
  unfold addProvider at 1. case_decide as Hn.
  - subst n. destruct (buildProviderConfig p _) as [config|]; cbn [last]; [by rewrite lookup_insert_eq|]. by rewrite IH.
  - cbn [last]. destruct (buildProviderConfig p _) as [config|]; [rewrite lookup_insert_ne by done|]; apply IH.
Qed.

(** What the file of Bazarr says.  For plain URLs the file is generated, and Sonarr
    and Radarr are at the hosts, the ports and the base paths of the URLs, over TLS as
    they say, with their keys; a provider has an entry exactly when it has any
    credentials; and the password is never in the file, only its MD5 digest, 32
    hexadecimal digits. *)
Theorem bazarr_generate input sonarr radarr :
  let spec := gin_Spec input in
  bzc_URL (bzs_Sonarr spec) = urlOf sonarr → bzc_URL (bzs_Radarr spec) = urlOf radarr →
  plainEndpoint sonarr = true → plainEndpoint radarr = true →
  ∃ file, Generate input = inl file ∧
    bf_Sonarr file = mkBazarrArrConfig (ep_host sonarr) (ep_port sonarr) (orDefault (ep_path sonarr) "/") (ep_tls sonarr)
      (gin_SonarrAPIKey input) ∧
    bf_Radarr file = mkBazarrArrConfig (ep_host radarr) (ep_port radarr) (orDefault (ep_path radarr) "/") (ep_tls radarr)
      (gin_RadarrAPIKey input) ∧
    (∀ n, bf_Providers file !! n = last (omap (λ p, if decide (bp_Name p = n)
       then buildProviderConfig p (default noSecrets (gin_ResolvedProviderSecrets input !! n)) else None) (bzs_Providers spec))) ∧
    ∀ a, bf_Auth file = Some a → aut_Password a = ""%string ∨
      String.length (aut_Password a) = 32%nat ∧ stringForall isHexLower (aut_Password a) = true.
Proof.
  intros spec Hs Hr Hps Hpr. unfold Generate. fold spec. rewrite Hs, Hr, !parseURL_plain by done.
  eexists. split; [done|]. cbn [bf_Sonarr bf_Radarr bf_Providers bf_Auth]. split_and!; [done..| |].
  - intros n. rewrite providers_lookup. by destruct (last _).
  - unfold buildAuthConfig. destruct (bzs_Authentication spec) as [auth|]; [|done].
    destruct (String.eqb (aus_Method auth) "none"); [done|]. intros a [= <-]. cbn [aut_Password].
    destruct (String.eqb _ ""); [by left|]. right. unfold md5Hash, md5Hex.
    by rewrite hex_length, md5Sum_length, hex_digits.
Qed.

Lemma defaultProfile_snoc isDefault l p :
  defaultProfile isDefault (l ++ [p]) = if isDefault p then Z.of_nat (length l) + 1 else defaultProfile isDefault l.
Proof. unfold defaultProfile. rewrite imap_app, foldl_app. simpl. by rewrite Nat.add_0_r. Qed.

(** C38: The default profiles of the file.  The profiles are numbered from 1 in the order
    of the specification, and the default for series, as that for movies, is the number
    of the last profile that the specification flags; without a flag it is 1, which is
    a profile of the file exactly when there is one. *)
Theorem bazarr_default_profile spec isDefault number :
  (isDefault, number) ∈ [(blp_DefaultForSeries, gen_SerieDefaultProfile (buildGeneralConfig spec));
                         (blp_DefaultForMovies, gen_MovieDefaultProfile (buildGeneralConfig spec))] →
  let profiles := bzs_LanguageProfiles spec in
  (∀ i p, buildLanguageProfiles profiles !! i = Some p → clp_ProfileID p = Z.of_nat i + 1) ∧
  1 ≤ number ≤ Z.max 1 (Z.of_nat (length profiles)) ∧
  match last (filter (λ p, isDefault p = true) profiles) with
  | None => number = 1
  | Some p => profiles !! Z.to_nat (number - 1) = Some p ∧
      ∀ i q, (Z.to_nat number ≤ i)%nat → profiles !! i = Some q → isDefault q = false
  end.
Proof.
  intros Hin. cbn zeta. assert (number = defaultProfile isDefault (bzs_LanguageProfiles spec)) as ->.
  { apply elem_of_cons in Hin as [[= -> ->]|[= -> ->]%list_elem_of_singleton]; done. }
  split.
  { intros i p. unfold buildLanguageProfiles. rewrite list_lookup_imap. intros (q & _ & ->)%fmap_Some. done. }
  clear Hin. induction (bzs_LanguageProfiles spec) as [|p l IH] using rev_ind; [done|].
  rewrite defaultProfile_snoc, filter_app, filter_cons, filter_nil, length_app. cbn [length].
  destruct (isDefault p) eqn:Ep.
  - rewrite decide_True by done. rewrite last_snoc. split; [lia|]. split.
    + replace (Z.to_nat _) with (length l) by lia. by rewrite lookup_app_r, Nat.sub_diag by lia.
    + intros i q Hi Hq. apply lookup_lt_Some in Hq. rewrite length_app in Hq. simpl in Hq. lia.
  - rewrite decide_False, app_nil_r by done. destruct IH as [Hb IH]. split; [lia|].
    destruct (last _) as [p'|]; [|done]. destruct IH as [Hp' Hlater]. split; [by apply lookup_app_l_Some|].
    intros i q Hi Hq. apply lookup_app_Some in Hq as [Hq|[_ Hq]]; [by eapply Hlater|].
    apply list_lookup_singleton_Some in Hq as [_ <-]. done.
Qed.
End generated.

(** ** The documents of the API (client.go) *)

Record ConnectionStatus := mkConnectionStatus {
  bcs_Status : string;
  bcs_Version : string }.

#[export] Instance FromJSON_ConnectionStatus : FromJSON ConnectionStatus := asStruct (λ l,
  vStatus ← getString "status" l;
  vVersion ← getString "version" l;
  Some (mkConnectionStatus vStatus vVersion)).

Record BazarrHealth := mkBazarrHealth {
  bzh_DiskSpace : string;
  bzh_Status : string }.

#[export] Instance FromJSON_BazarrHealth : FromJSON BazarrHealth := asStruct (λ l,
  vDiskSpace ← getString "disk_space" l;
  vStatus ← getString "status" l;
  Some (mkBazarrHealth vDiskSpace vStatus)).

Record LanguageProfileItem := mkLanguageProfileItem {
  lpi_ID : Z;
  lpi_Language : string;
  lpi_Forced : string;
  lpi_HI : string;
  lpi_AudioExclude : string }.

#[export] Instance FromJSON_LanguageProfileItem : FromJSON LanguageProfileItem := asStruct (λ l,
  vID ← getInt "id" l;
  vLanguage ← getString "language" l;
  vForced ← getString "forced" l;
  vHI ← getString "hi" l;
  vAudioExclude ← getString "audio_exclude" l;
  Some (mkLanguageProfileItem vID vLanguage vForced vHI vAudioExclude)).

Record LanguageProfile := mkLanguageProfile {
  lp_ProfileID : Z;
  lp_Name : string;
  lp_Cutoff : option Z;
  lp_Items : list LanguageProfileItem }.

#[export] Instance FromJSON_LanguageProfile : FromJSON LanguageProfile := asStruct (λ l,
  vProfileID ← getInt "profileId" l;
  vName ← getString "name" l;
  vCutoff ← getPtr asInt "cutoff" l;
  vItems ← getSlice fromJSON "items" l;
  Some (mkLanguageProfile vProfileID vName vCutoff vItems)).

Record Language := mkLanguage {
  lng_Code2 : string;
  lng_Code3 : string;
  lng_Name : string }.

#[export] Instance FromJSON_Language : FromJSON Language := asStruct (λ l,
  vCode2 ← getString "code2" l;
  vCode3 ← getString "code3" l;
  vName ← getString "name" l;
  Some (mkLanguage vCode2 vCode3 vName)).

Record Provider := mkProvider {
  prv_Name : string;
  prv_Enabled : bool;
  prv_Settings : gmap string any }.

#[export] Instance FromJSON_Provider : FromJSON Provider := asStruct (λ l,
  vName ← getString "name" l;
  vEnabled ← getBool "enabled" l;
  vSettings ← getMap "settings" l;
  Some (mkProvider vName vEnabled vSettings)).

Record SystemSettings := mkSystemSettings {
  sst_General : gmap string any;
  sst_Sonarr : gmap string any;
  sst_Radarr : gmap string any;
  sst_Auth : gmap string any;
  sst_Proxy : gmap string any;
  sst_Subsync : gmap string any;
  sst_Analytics : gmap string any;
  sst_Betaseries : gmap string any }.

#[export] Instance FromJSON_SystemSettings : FromJSON SystemSettings := asStruct (λ l,
  vGeneral ← getMap "general" l;
  vSonarr ← getMap "sonarr" l;
  vRadarr ← getMap "radarr" l;
  vAuth ← getMap "auth" l;
  vProxy ← getMap "proxy" l;
  vSubsync ← getMap "subsync" l;
  vAnalytics ← getMap "analytics" l;
  vBetaseries ← getMap "betaseries" l;
  Some (mkSystemSettings vGeneral vSonarr vRadarr vAuth vProxy vSubsync vAnalytics vBetaseries)).

Record ProviderList := mkProviderList { pls_Data : list Provider }.
#[export] Instance FromJSON_ProviderList : FromJSON ProviderList := asStruct (λ l,
  vData ← getSlice fromJSON "data" l; Some (mkProviderList vData)).

(** The members of [data]. *)
Record SystemStatus := mkSystemStatus {
  bss_BazarrVersion : string;
  bss_SonarrVersion : string;
  bss_RadarrVersion : string;
  bss_OSVersion : string;
  bss_PythonVersion : string;
  bss_StartTime : string }.

#[export] Instance FromJSON_SystemStatus : FromJSON SystemStatus := asStruct (λ l,
  vBazarr ← getString "bazarr_version" l;
  vSonarr ← getString "sonarr_version" l;
  vRadarr ← getString "radarr_version" l;
  vOS ← getString "operating_system" l;
  vPython ← getString "python_version" l;
  vStart ← getString "start_time" l;
  Some (mkSystemStatus vBazarr vSonarr vRadarr vOS vPython vStart)).

Record BazarrHealthStatus := mkBazarrHealthStatus {
  bhs_Sonarr : option ConnectionStatus;
  bhs_Radarr : option ConnectionStatus;
  bhs_Bazarr : option BazarrHealth }.

#[export] Instance FromJSON_BazarrHealthStatus : FromJSON BazarrHealthStatus := asStruct (λ l,
  vSonarr ← getPtr fromJSON "sonarr" l;
  vRadarr ← getPtr fromJSON "radarr" l;
  vBazarr ← getPtr fromJSON "bazarr" l;
  Some (mkBazarrHealthStatus vSonarr vRadarr vBazarr)).

(** An answer whose member [data] is a struct, and one where it is a slice. *)
Definition dataOf {A} `{FromJSON A} : any → option A := asStruct (getStruct "data").
Definition dataList {A} `{FromJSON A} : any → option (list A) := asStruct (getSlice fromJSON "data").

#[export] Instance ToJSON_LanguageProfileItem : ToJSON LanguageProfileItem := λ i, VMap [
  ("id", VInt (lpi_ID i)); ("language", VString (lpi_Language i)); ("forced", VString (lpi_Forced i));
  ("hi", VString (lpi_HI i)); ("audio_exclude", VString (lpi_AudioExclude i))]%string.

#[export] Instance ToJSON_LanguageProfile : ToJSON LanguageProfile := λ p, VMap [
  ("profileId", VInt (lp_ProfileID p)); ("name", VString (lp_Name p));
  ("cutoff", match lp_Cutoff p with Some n => VInt n | None => VNil end);
  ("items", VList (toJSON <$> lp_Items p))]%string.

(** Over the settings as they are, numbers included. *)
Definition providerBody (p : Provider) : any := VMap (
  [("name", VString (prv_Name p)); ("enabled", VBool (prv_Enabled p))]%string ++
  omitIf (bool_decide (prv_Settings p = ∅)) "settings" (VObject (prv_Settings p))).

(** ** The client *)

Record BazarrClient := mkBazarrClient {
  bzr_baseURL : string;
  bzr_apiKey : string }.

(** [NewClient]; [NewClientWithHTTP] differs in the transport. *)
Definition NewBazarrClient (baseURL apiKey : string) : BazarrClient := mkBazarrClient (trimSlash baseURL) apiKey.

Section client.
Context {W : Type} `{Transport W} (c : BazarrClient).

Definition bzRequest (method path : string) (body : option any) : HttpRequest :=
  mkHttpRequest method (bzr_baseURL c +:+ path)
    ([("X-API-KEY", bzr_apiKey c); ("Accept", "application/json")]%string ++
     match body with Some _ => [jsonType] | None => [] end) None
    (match body with Some v => JSONBody (toWire v) | None => NoBody end).

Definition doRequest (method path : string) (body : option any) : M W HttpResponse :=
  let* x := send "failed to create request" newJar (bzRequest method path body) in
  match x.2 with
  | NoReply e => fail e
  | Reply r => ret r
  end.

Definition statusError (r : HttpResponse) : error :=
  ("unexpected status " +:+ Itoa (hp_Status r) +:+ ": " +:+ hp_Text r)%string.

(** [Decode] with the conversion of the result. *)
Definition decodeAs {A} (conv : any → option A) (r : HttpResponse) : M W A :=
  match hp_JSON r ≫= conv with
  | Some a => ret a
  | None => fail (unmarshalError (hp_JSON r))
  end.

Definition bzGet {A} (conv : any → option A) (path : string) : M W A :=
  let* r := doRequest "GET" path None in
  if hp_Status r =? 200 then decodeAs conv r else fail (statusError r).

(** A request that changes something: any status of 2xx will do. *)
Definition change (method path : string) (body : option any) : M W HttpResponse :=
  if match body with Some v => marshalable v | None => true end then
    let* r := doRequest method path body in
    if (hp_Status r <? 200) || (300 <=? hp_Status r) then fail (statusError r) else ret r
  else fail ("failed to marshal request body: " +:+ marshalError (default VNil body))%string.

Definition bzPost {A} (conv : any → option A) (path : string) (body : option any) : M W A :=
  let* r := change "POST" path body in decodeAs conv r.
Definition bzPostOnly (path : string) (body : option any) : M W unit := change "POST" path body ;;; ret tt.
Definition bzPatch (path : string) (body : any) : M W unit := change "PATCH" path (Some body) ;;; ret tt.
Definition bzDelete (path : string) : M W unit := change "DELETE" path None ;;; ret tt.

Definition profilesPath : string := "/api/system/languages/profiles".
Definition profilePath (id : Z) : string := (profilesPath +:+ "/" +:+ Itoa id)%string.

Definition GetSystemStatus : M W SystemStatus := failedTo "get system status" (bzGet dataOf "/api/system/status").
Definition bzGetHealth : M W BazarrHealthStatus := failedTo "get health status" (bzGet dataOf "/api/system/health").
Definition GetLanguages : M W (list Language) := failedTo "get languages" (bzGet dataList "/api/system/languages").
Definition GetLanguageProfiles : M W (list LanguageProfile) :=
  failedTo "get language profiles" (bzGet dataList profilesPath).
Definition CreateLanguageProfile (profile : LanguageProfile) : M W LanguageProfile :=
  failedTo "create language profile" (bzPost dataOf profilesPath (Some (toJSON profile))).
Definition UpdateLanguageProfile (profile : LanguageProfile) : M W unit :=
  failedTo "update language profile" (bzPatch (profilePath (lp_ProfileID profile)) (toJSON profile)).
Definition DeleteLanguageProfile (profileID : Z) : M W unit :=
  failedTo "delete language profile" (bzDelete (profilePath profileID)).
Definition GetProviders : M W (list Provider) :=
  let* l := failedTo "get providers" (bzGet fromJSON "/api/providers") in ret (pls_Data l).
Definition UpdateProviders (providers : list Provider) : M W unit :=
  failedTo "update providers" (bzPostOnly "/api/providers" (Some (VList (providerBody <$> providers)))).
Definition GetSettings : M W SystemSettings := failedTo "get settings" (bzGet dataOf "/api/system/settings").
Definition UpdateSettings (settings : gmap string any) : M W unit :=
  failedTo "update settings" (bzPostOnly "/api/system/settings" (Some (VObject settings))).
Definition bzTestConnection : M W unit := GetSystemStatus ;;; ret tt.
Definition bzGetVersion : M W string := let* status := GetSystemStatus in ret (bss_BazarrVersion status).

Definition SearchSubtitles (itemType : string) (itemID : Z) (language : string) : M W unit :=
  let params := <["language"%string := language]>
    (<[(itemType +:+ "id")%string := Itoa itemID]> {["action"%string := "search"%string]}) in
  failedTo "search subtitles" (bzPostOnly ("/api/subtitles?" +:+ encodeValues params) None).
End client.

(** ** Witnesses *)
Module ExampleBazarr.

(** A serialization that shows how many profiles there are. *)
#[export] Instance exampleText : BazarrText := {|
  urlError s := ("parse " +:+ s)%string;
  marshalYAML f := Ret ("profiles: " +:+ Itoa (Z.of_nat (length (bf_Languages f))))%string |}.

Definition english (isDefault : bool) : BazarrLanguageProfile :=
  mkBazarrLanguageProfile "English" [mkBazarrLanguage "en" false true] isDefault false.
Definition german : BazarrLanguageProfile :=
  mkBazarrLanguageProfile "German" [mkBazarrLanguage "de" false false; mkBazarrLanguage "en" true false] true true.

Definition exampleSpec : BazarrConfigSpec :=
  mkBazarrConfigSpec "" None (mkBazarrConnectionSpec "http://sonarr:8989" (Some (mkSecretKeySelector "sonarr" "")) "")
    (mkBazarrConnectionSpec "https://radarr.example:443/radarr" None "") [english true; german; english false]
    [mkBazarrProvider "opensubtitlescom" "me" (Some (mkSecretKeySelector "subs" "")) None; mkBazarrProvider "podnapisi" "" None None]
    (Some (mkAuthenticationSpec "basic" "admin" (Some (mkSecretKeySelector "login" "")) "")) "" (Some (mkLocalObjectReference "bazarr-config")) None.
Definition exampleInput : GeneratorInput :=
  mkGeneratorInput exampleSpec "sonarr-key" "" {["opensubtitlescom" := mkProviderSecrets "pw" ""]}%string "secret".
End ExampleBazarr.

Lemma bazarr_generate_witness : ∃ file, Generate (H := ExampleBazarr.exampleText) ExampleBazarr.exampleInput = inl file ∧
  bf_Radarr file = mkBazarrArrConfig "radarr.example" 443 "/radarr" true "".
Proof.
  destruct (bazarr_generate (H := ExampleBazarr.exampleText) ExampleBazarr.exampleInput
    (mkEndpoint false "sonarr" 8989 "") (mkEndpoint true "radarr.example" 443 "/radarr")) as (file & E & _ & Hr & _);
    [vm_compute; reflexivity..|]. exists file. exact (conj E Hr).
Defined.

Lemma bazarr_default_profile_witness :
  let spec := ExampleBazarr.exampleSpec in
  gen_SerieDefaultProfile (buildGeneralConfig spec) = 2 ∧
  1 ≤ gen_SerieDefaultProfile (buildGeneralConfig spec) ≤ Z.max 1 (Z.of_nat (length (bzs_LanguageProfiles spec))).
Proof.
  split; [vm_compute; reflexivity|].
  refine (proj1 (proj2 (bazarr_default_profile ExampleBazarr.exampleSpec blp_DefaultForSeries _ _))). by left.
Defined.
