(* ===== verification/BazarrController.v ===== *)
(** * The Bazarr controller (src/internal/controller/bazarrconfig_controller.go)

    The reconciliation of a BazarrConfig in its two modes: the configuration file in
    a config map, and the REST API of a running Bazarr.  What the controller asks of
    the cluster beyond [Kube] is the class [KubeConfigMaps]. *)
From S2P Require Export GenericReconciler Bazarr.

(** ** Kubernetes *)

Class KubeConfigMaps (W : Type) := {
  ConfigMap : Type;
  configMapData : ConfigMap → gmap string string;
  with_configMapData : gmap string string → ConfigMap → ConfigMap;
  ownerUIDs : ConfigMap → list string;
  newConfigMap : string → string → gmap string string → ConfigMap;   (* namespace, name, data *)
  setConfigMapOwner : ObjectMeta → ConfigMap → ConfigMap + error;     (* SetControllerReference *)
  kubeGetConfigMap : string → string → M W ConfigMap;
  kubeCreateConfigMap : ConfigMap → M W unit;
  kubeUpdateConfigMap : ConfigMap → M W unit;
  kubeDeleteConfigMap : ConfigMap → M W unit;
  isNotFound : error → bool }.

(** ** The object *)

Definition bazarrFinalizer : string := "bazarrconfig.arr.rinzler.cloud/finalizer".

#[export] Instance BazarrClientObject : ClientObject BazarrConfig := {|
  meta_of := bz_ObjectMeta;
  with_meta m c := mkBazarrConfig m (bz_Spec c) (bz_Status c);
  meta_with _ _ := eq_refl |}.

(** The fields of the status, as the code sets them. *)
Definition bst_set_Conditions (cs : list Condition) (s : BazarrConfigStatus) : BazarrConfigStatus :=
  let 'mkBazarrConfigStatus _ m bc bv sc rc cg lp ps t h := s in mkBazarrConfigStatus cs m bc bv sc rc cg lp ps t h.
Definition bst_set_ActiveMode (mode : string) (s : BazarrConfigStatus) : BazarrConfigStatus :=
  let 'mkBazarrConfigStatus cs _ bc bv sc rc cg lp ps t h := s in mkBazarrConfigStatus cs mode bc bv sc rc cg lp ps t h.
Definition bst_set_BazarrConnected (b : bool) (s : BazarrConfigStatus) : BazarrConfigStatus :=
  let 'mkBazarrConfigStatus cs m _ bv sc rc cg lp ps t h := s in mkBazarrConfigStatus cs m b bv sc rc cg lp ps t h.
Definition bst_set_BazarrVersion (v : string) (s : BazarrConfigStatus) : BazarrConfigStatus :=
  let 'mkBazarrConfigStatus cs m bc _ sc rc cg lp ps t h := s in mkBazarrConfigStatus cs m bc v sc rc cg lp ps t h.
Definition bst_set_SonarrConnected (b : bool) (s : BazarrConfigStatus) : BazarrConfigStatus :=
  let 'mkBazarrConfigStatus cs m bc bv _ rc cg lp ps t h := s in mkBazarrConfigStatus cs m bc bv b rc cg lp ps t h.
Definition bst_set_RadarrConnected (b : bool) (s : BazarrConfigStatus) : BazarrConfigStatus :=
  let 'mkBazarrConfigStatus cs m bc bv sc _ cg lp ps t h := s in mkBazarrConfigStatus cs m bc bv sc b cg lp ps t h.
Definition bst_set_ConfigGenerated (b : bool) (s : BazarrConfigStatus) : BazarrConfigStatus :=
  let 'mkBazarrConfigStatus cs m bc bv sc rc _ lp ps t h := s in mkBazarrConfigStatus cs m bc bv sc rc b lp ps t h.
Definition bst_set_LanguageProfilesSynced (b : bool) (s : BazarrConfigStatus) : BazarrConfigStatus :=
  let 'mkBazarrConfigStatus cs m bc bv sc rc cg _ ps t h := s in mkBazarrConfigStatus cs m bc bv sc rc cg b ps t h.
Definition bst_set_ProvidersSynced (b : bool) (s : BazarrConfigStatus) : BazarrConfigStatus :=
  let 'mkBazarrConfigStatus cs m bc bv sc rc cg lp _ t h := s in mkBazarrConfigStatus cs m bc bv sc rc cg lp b t h.
Definition bst_set_LastReconcile (t : option Z) (s : BazarrConfigStatus) : BazarrConfigStatus :=
  let 'mkBazarrConfigStatus cs m bc bv sc rc cg lp ps _ h := s in mkBazarrConfigStatus cs m bc bv sc rc cg lp ps t h.

#[export] Program Instance BazarrStatusWrapper : HasConditions BazarrConfig := {|
  conditions_of c := bst_Conditions (bz_Status c);
  with_conditions cs c := mkBazarrConfig (bz_ObjectMeta c) (bz_Spec c) (bst_set_Conditions cs (bz_Status c)) |}.
Next Obligation. by intros cs [m spec []]. Qed.

Section controller.
Context {W : Type} `{Kube W} `{!KubeObject W BazarrConfig} `{!KubeConfigMaps W} `{Transport W} `{BazarrText}.
Abbreviation MR := (M (Rec W BazarrConfig)).
Abbreviation Outcome := (Result * option error)%type.
Implicit Types (c : BazarrConfig) (spec : BazarrConfigSpec).

Definition modifyBZ (f : BazarrConfigStatus → BazarrConfigStatus) : MR unit :=
  modifyConfig (λ c, mkBazarrConfig (bz_ObjectMeta c) (bz_Spec c) (f (bz_Status c))).

(** [x, err := m(); if err != nil { ...; undo; ...return }; k(x)]. *)
Definition stepUndo {A} (undo : BazarrConfigStatus → BazarrConfigStatus) (generation : Z) (reason : string) (m : M W A)
    (k : A → MR Outcome) : MR Outcome :=
  let* r := attempt (onWorld m) in
  match r with
  | inl a => k a
  | inr e =>
      SetCondition generation ConditionTypeReady ConditionFalse reason e ;;;
      modifyBZ undo ;;; requeueAfterError (Some e)
  end.

(** ** Secrets *)

Definition resolveConnectionAPIKey (namespace : string) (conn : BazarrConnectionSpec) : M W string :=
  resolveOne namespace "apiKey" "" (bzc_APIKeySecretRef conn).

Definition resolveProvider (namespace : string) (result : gmap string ProviderSecrets) (provider : BazarrProvider)
    : M W (gmap string ProviderSecrets) :=
  let* password := resolveOne namespace "password" "" (bp_PasswordSecretRef provider) in
  let* apiKey := resolveOne namespace "apiKey" "" (bp_APIKeySecretRef provider) in
  ret (<[bp_Name provider := mkProviderSecrets password apiKey]> result).

Definition resolveProviderSecrets (namespace : string) (providers : list BazarrProvider)
    : M W (gmap string ProviderSecrets) := forRange (resolveProvider namespace) ∅ providers.

(** ** The config map *)

Definition configKey : string := "config.yaml".

Definition ensureConfigMap c (name configData : string) : M W unit :=
  let namespace := om_Namespace (bz_ObjectMeta c) in
  let* found := attempt (kubeGetConfigMap namespace name) in
  match found with
  | inr e =>
      if isNotFound e then
        match setConfigMapOwner (bz_ObjectMeta c) (newConfigMap namespace name {[ configKey := configData ]}) with
        | inr e => fail e
        | inl cm => kubeCreateConfigMap cm
        end
      else fail e
  | inl cm => kubeUpdateConfigMap (with_configMapData (<[configKey := configData]> (configMapData cm)) cm)
  end.

(** ** The file *)

Definition bzIntervalOf c : Z := default DefaultRequeueInterval (bzs_Reconciliation (bz_Spec c) ≫= rcs_Interval).

Definition generate (input : GeneratorInput) : M W BazarrFile :=
  match Generate input with
  | inl config => ret config
  | inr e => fail e
  end.

(** The end of a reconciliation in which nothing failed. *)
Definition bzSucceed (generation : Z) (message : string) : MR Outcome :=
  let* r := Prelude.get in
  modifyBZ (bst_set_LastReconcile (Some (kubeClock (rec_world r)))) ;;;
  SetCondition generation ConditionTypeReady ConditionTrue "Ready" message ;;;
  updateAndPoll bzIntervalOf.

Definition reconcileFileMode : MR Outcome :=
  modifyBZ (bst_set_ActiveMode BazarrConfigModeFile) ;;;
  let* c := config in
  let spec := bz_Spec c in
  let ns := om_Namespace (bz_ObjectMeta c) in
  let g := om_Generation (bz_ObjectMeta c) in
  stepUndo (bst_set_SonarrConnected false) g "SonarrSecretResolutionFailed"
    (resolveConnectionAPIKey ns (bzs_Sonarr spec)) (λ sonarrAPIKey,
  modifyBZ (bst_set_SonarrConnected true) ;;;
  stepUndo (bst_set_RadarrConnected false) g "RadarrSecretResolutionFailed"
    (resolveConnectionAPIKey ns (bzs_Radarr spec)) (λ radarrAPIKey,
  modifyBZ (bst_set_RadarrConnected true) ;;;
  step g "ProviderSecretResolutionFailed" (resolveProviderSecrets ns (bzs_Providers spec)) (λ providerSecrets,
  step g "AuthSecretResolutionFailed"
    (resolveOne ns "password" "" (bzs_Authentication spec ≫= aus_PasswordSecretRef)) (λ authPassword,
  step g "ConfigGenerationFailed"
    (generate (mkGeneratorInput spec sonarrAPIKey radarrAPIKey providerSecrets authPassword)) (λ generatedConfig,
  step g "YAMLSerializationFailed" (GenerateYAML generatedConfig) (λ configYAML,
  step g "ConfigMapUpdateFailed"
    (match bzs_ConfigMapRef spec with
     | Some ref => ensureConfigMap c (lor_Name ref) configYAML
     | None => ret tt
     end) (λ _,
  modifyBZ (bst_set_ConfigGenerated true) ;;;
  modifyBZ (bst_set_BazarrConnected false) ;;;
  modifyBZ (bst_set_BazarrVersion "") ;;;
  modifyBZ (bst_set_LanguageProfilesSynced false) ;;;
  modifyBZ (bst_set_ProvidersSynced false) ;;;
  bzSucceed g "Bazarr configuration generated successfully (file mode)"))))))).

(** ** The API *)

Definition pyBool (b : bool) : string := if b then "True" else "False".

Definition apiItem (idx : nat) (lang : BazarrLanguage) : LanguageProfileItem :=
  mkLanguageProfileItem (Z.of_nat idx + 1) (bl_Code lang) (pyBool (bl_Forced lang)) (pyBool (bl_HearingImpaired lang)) "False".
Definition apiProfile (profileID : Z) (desired : BazarrLanguageProfile) : LanguageProfile :=
  mkLanguageProfile profileID (blp_Name desired) None (imap apiItem (blp_Languages desired)).

(** Updated by the ID of the profile of that name, or created; an error is logged. *)
Definition syncLanguageProfile (client : BazarrClient) (currentByName : gmap string LanguageProfile)
    (desired : BazarrLanguageProfile) : M W unit :=
  match currentByName !! blp_Name desired with
  | Some existing => attempt (UpdateLanguageProfile client (apiProfile (lp_ProfileID existing) desired)) ;;; ret tt
  | None => attempt (CreateLanguageProfile client (apiProfile 0 desired)) ;;; ret tt
  end.

Definition syncLanguageProfiles (client : BazarrClient) spec : M W unit :=
  let* currentProfiles := failedTo "get current language profiles" (GetLanguageProfiles client) in
  forRange (λ _, syncLanguageProfile client (indexBy lp_Name currentProfiles)) tt (bzs_LanguageProfiles spec).

Definition providerSettings (p : BazarrProvider) (secrets : ProviderSecrets) : Settings :=
  setString "apikey" (psc_APIKey secrets) (setString "password" (psc_Password secrets)
    (setString "username" (bp_Username p) ∅)).

Definition syncProviders (client : BazarrClient) (namespace : string) spec : M W unit :=
  match bzs_Providers spec with
  | [] => ret tt
  | _ =>
      let* providerSecrets := failedTo "resolve provider secrets" (resolveProviderSecrets namespace (bzs_Providers spec)) in
      failedTo "update providers" (UpdateProviders client
        ((λ p, mkProvider (bp_Name p) true (providerSettings p (default noSecrets (providerSecrets !! bp_Name p))))
          <$> bzs_Providers spec))
  end.

(** What the health of Bazarr says of a connection. *)
Definition connectedOf (s : option ConnectionStatus) (set : bool → BazarrConfigStatus → BazarrConfigStatus)
    : BazarrConfigStatus → BazarrConfigStatus :=
  match s with
  | Some s => set (String.eqb (bcs_Status s) "True")
  | None => id
  end.

Definition checkHealth (client : BazarrClient) : MR unit :=
  let* health := attempt (onWorld (bzGetHealth client)) in
  match health with
  | inl h =>
      modifyBZ (connectedOf (bhs_Sonarr h) bst_set_SonarrConnected) ;;;
      modifyBZ (connectedOf (bhs_Radarr h) bst_set_RadarrConnected)
  | inr _ => ret tt
  end.

Definition reconcileAPIMode : MR Outcome :=
  modifyBZ (bst_set_ActiveMode BazarrConfigModeAPI) ;;;
  let* c := config in
  let spec := bz_Spec c in
  let ns := om_Namespace (bz_ObjectMeta c) in
  let g := om_Generation (bz_ObjectMeta c) in
  match bzs_Connection spec with
  | None =>
      failStep g "ConnectionMissing" "connection is required for API mode" (Some "connection is required for API mode"%string)
  | Some connection =>
      stepUndo (bst_set_BazarrConnected false) g "BazarrSecretResolutionFailed"
        (ResolveSecretValue ns (sks_Name (bac_APIKeySecretRef connection)) (sks_Key (bac_APIKeySecretRef connection))) (λ bazarrAPIKey,
      let bazarrClient := NewBazarrClient (bac_URL connection) bazarrAPIKey in
      stepUndo (bst_set_BazarrConnected false) g "BazarrConnectionFailed" (bzGetVersion bazarrClient) (λ version,
      modifyBZ (bst_set_BazarrConnected true) ;;;
      modifyBZ (bst_set_BazarrVersion version) ;;;
      checkHealth bazarrClient ;;;
      stepUndo (bst_set_LanguageProfilesSynced false) g "LanguageProfileSyncFailed"
        (syncLanguageProfiles bazarrClient spec) (λ _,
      modifyBZ (bst_set_LanguageProfilesSynced true) ;;;
      stepUndo (bst_set_ProvidersSynced false) g "ProviderSyncFailed" (syncProviders bazarrClient ns spec) (λ _,
      modifyBZ (bst_set_ProvidersSynced true) ;;;
      modifyBZ (bst_set_ConfigGenerated false) ;;;
      bzSucceed g ("Bazarr configured successfully via API (v" +:+ version +:+ ")")))))
  end.

(** ** Deletion and the reconciliation *)

(** The config map is deleted if the object owns it; that may fail. *)
Definition deleteConfigMap c : M W unit :=
  match bzs_ConfigMapRef (bz_Spec c) with
  | None => ret tt
  | Some ref =>
      let* found := attempt (kubeGetConfigMap (om_Namespace (bz_ObjectMeta c)) (lor_Name ref)) in
      match found with
      | inl cm =>
          if existsb (λ uid, String.eqb uid (om_UID (bz_ObjectMeta c))) (ownerUIDs cm)
          then attempt (kubeDeleteConfigMap cm) ;;; ret tt else ret tt
      | inr _ => ret tt
      end
  end.

Definition bzReconcileDelete : MR Outcome :=
  let* c := config in
  onWorld (deleteConfigMap c) ;;;
  modifyFinalizers (λ fs, removeFinalizer fs bazarrFinalizer) ;;;
  thenUpdate false.

Definition unknownMode (mode : string) : error := ("unknown config mode: " +:+ mode)%string.

Definition bzReconcileObject : MR Outcome :=
  let* c := config in
  if from_option rcs_Suspend false (bzs_Reconciliation (bz_Spec c)) then ret (mkResult false 0, None)
  else
    match om_DeletionTimestamp (bz_ObjectMeta c) with
    | Some _ => bzReconcileDelete
    | None =>
        if negb (containsFinalizer (om_Finalizers (bz_ObjectMeta c)) bazarrFinalizer) then
          modifyFinalizers (λ fs, addFinalizer fs bazarrFinalizer) ;;; thenUpdate true
        else
          let mode := orDefault (bzs_ConfigMode (bz_Spec c)) BazarrConfigModeFile in
          if String.eqb mode BazarrConfigModeFile then reconcileFileMode
          else if String.eqb mode BazarrConfigModeAPI then reconcileAPIMode
          else ret (mkResult false 0, Some (unknownMode mode))
    end.

Definition BazarrConfigReconcile (fetch : M W BazarrConfig) (notFoundError : error → bool) : M W Outcome := λ w,
  match fetch w with
  | (w', Ret c) => let '(r, x) := bzReconcileObject (mkRec w' c) in (rec_world r, x)
  | (w', Err e) => (w', Ret (mkResult false 0, if notFoundError e then None else Some e))
  | (w', Panic p) => (w', Panic p)
  end.
End controller.
