(* ===== verification/BazarrReconcile.v ===== *)
(** * The reconciliation of Bazarr (theorems about [Bazarr] and [BazarrController])

    What the two modes do and report; the config map from its creation to the deletion
    of the object; the requests for the language profiles. *)
From S2P Require Export BazarrController Reports.

(** ** The two modes *)

(** The specification and the metadata, which a reconciliation never changes. *)
Definition sameBazarr (c c' : BazarrConfig) : Prop := bz_Spec c' = bz_Spec c ∧ bz_ObjectMeta c' = bz_ObjectMeta c.

#[export] Instance sameBazarr_preorder : PreOrder sameBazarr.
Proof. split; [by intros c|]. unfold sameBazarr. intros c1 c2 c3 [] []. split; congruence. Qed.

Lemma sameBazarr_conditions cs c : sameBazarr c (with_conditions cs c).
Proof. done. Qed.

(** The object with a status changed by [f]. *)
Definition onStatus (f : BazarrConfigStatus → BazarrConfigStatus) (c : BazarrConfig) : BazarrConfig :=
  mkBazarrConfig (bz_ObjectMeta c) (bz_Spec c) (f (bz_Status c)).

Lemma sameBazarr_status c c' f : sameBazarr c c' → sameBazarr c (onStatus f c').
Proof. done. Qed.

Section modes.
Context {W : Type} `{KubeLaws W} `{!KubeObject W BazarrConfig} `{!KubeConfigMaps W} `{Transport W} `{BazarrText}.
Abbreviation MR := (M (Rec W BazarrConfig)).
Abbreviation Outcome := (Result * option error)%type.
Implicit Types (c : BazarrConfig).

Lemma modifyBZ_then {A} f (k : MR A) w c : (modifyBZ f ;;; k) (mkRec w c) = k (mkRec w (onStatus f c)).
Proof. done. Qed.

(** A field of the status that is no condition. *)
Definition noCondition (f : BazarrConfigStatus → BazarrConfigStatus) : Prop := ∀ s, bst_Conditions (f s) = bst_Conditions s.

Lemma onStatus_conditions f c : noCondition f → conditions_of (onStatus f c) = conditions_of c.
Proof. intros Hf. apply Hf. Qed.

Abbreviation tells := (tells sameBazarr bzIntervalOf).

Lemma tells_stepUndo {A B} c (good : W → B → BazarrConfig → Prop) undo g reason (m : M W A) (k' : A → M W B)
    (k : A → MR Outcome) w c' :
  noCondition undo → sameBazarr c c' → (∀ a w', m w = (w', Ret a) → tells c good (k' a w') (k a (mkRec w' c'))) →
  tells c good (bind m k' w) (stepUndo undo g reason m k (mkRec w c')).
Proof.
  intros Hu Ha Hk. unfold stepUndo, bind at 1 2, attempt, onWorld. cbn [rec_world rec_config].
  destruct (m w) as [w' [a|e|why]]; [by apply Hk| |done].
  destruct (SetCondition_message sameBazarr sameBazarr_conditions g ConditionFalse reason e (mkRec w' c'))
    as (c1 & cs & E & -> & _ & Hr & Hm). rewrite (bind_ok _ _ _ _ _ E). cbn [rec_world rec_config] in *.
  rewrite modifyBZ_then. eexists. split; [|apply requeue_fails].
  - apply sameBazarr_status. by etrans.
  - unfold readyOf. by rewrite onStatus_conditions.
  - unfold messageOf. by rewrite onStatus_conditions.
Qed.

Lemma bzSucceed_succeeds g msg w c : ∃ cs,
  succeedsWith bzIntervalOf w (with_conditions cs (onStatus (bst_set_LastReconcile (Some (kubeClock w))) c))
    (bzSucceed g msg (mkRec w c)).
Proof.
  unfold bzSucceed. unfold bind at 1. unfold Prelude.get. cbn [rec_world]. rewrite modifyBZ_then.
  apply (poll_succeeds sameBazarr sameBazarr_conditions).
Qed.

(** The work of the file mode: the secrets, the file, its text and the config map. *)
Definition writeFile c : M W unit :=
  let ns := om_Namespace (bz_ObjectMeta c) in
  let spec := bz_Spec c in
  let* sonarrAPIKey := resolveConnectionAPIKey ns (bzs_Sonarr spec) in
  let* radarrAPIKey := resolveConnectionAPIKey ns (bzs_Radarr spec) in
  let* providerSecrets := resolveProviderSecrets ns (bzs_Providers spec) in
  let* authPassword := resolveOne ns "password" "" (bzs_Authentication spec ≫= aus_PasswordSecretRef) in
  let* file := generate (mkGeneratorInput spec sonarrAPIKey radarrAPIKey providerSecrets authPassword) in
  let* yaml := GenerateYAML file in
  match bzs_ConfigMapRef spec with
  | Some ref => ensureConfigMap c (lor_Name ref) yaml
  | None => ret tt
  end.

(** The status after the file was generated. *)
Definition fileStatus (w : W) (_ : unit) c : Prop :=
  bst_ActiveMode (bz_Status c) = BazarrConfigModeFile ∧ bst_ConfigGenerated (bz_Status c) = true ∧
  bst_LastReconcile (bz_Status c) = Some (kubeClock w) ∧
  bst_SonarrConnected (bz_Status c) = true ∧ bst_RadarrConnected (bz_Status c) = true.

(** C21: The file mode does its work and tells what came of it.  The secrets are resolved,
    the file is generated from them and serialized, and the config map is written, in
    this order, and nothing else is done to the cluster.  If all of that succeeds the
    status says so, with the time, and the object is polled again; otherwise the status
    is not Ready, has the error as its message, and the object is retried.  Sonarr and
    Radarr count as connected as soon as their keys are resolved. *)
Theorem bazarr_file_mode c w :
  tells c fileStatus (writeFile c w) (reconcileFileMode (mkRec w c)).
Proof.
  unfold writeFile, reconcileFileMode. rewrite modifyBZ_then, config_then. cbn zeta.
  apply tells_stepUndo; [by intros []|done|]. intros sonarrKey w1 _. rewrite modifyBZ_then.
  apply tells_stepUndo; [by intros []|done|]. intros radarrKey w2 _. rewrite modifyBZ_then.
  apply tells_step; [apply _|apply sameBazarr_conditions|done|]. intros secrets w3 _.
  apply tells_step; [apply _|apply sameBazarr_conditions|done|]. intros password w4 _.
  apply tells_step; [apply _|apply sameBazarr_conditions|done|]. intros file w5 _.
  apply tells_step; [apply _|apply sameBazarr_conditions|done|]. intros yaml w6 _.
  apply tells_last; [apply _|apply sameBazarr_conditions|done|]. intros [] w7 _.
  rewrite !modifyBZ_then. edestruct bzSucceed_succeeds as [cs Hs].
  eexists. split; [|split; [|exact Hs]]; [done|]. unfold fileStatus.
  by destruct c as [m spec []].
Qed.

(** The work of the API mode, which gives the version of Bazarr; the health of Bazarr
    is asked for, but the answer does not matter. *)
Definition configure c : M W string :=
  let ns := om_Namespace (bz_ObjectMeta c) in
  let spec := bz_Spec c in
  match bzs_Connection spec with
  | None => fail "connection is required for API mode"
  | Some connection =>
      let ref := bac_APIKeySecretRef connection in
      let* bazarrAPIKey := ResolveSecretValue ns (sks_Name ref) (sks_Key ref) in
      let client := NewBazarrClient (bac_URL connection) bazarrAPIKey in
      let* version := bzGetVersion client in
      attempt (bzGetHealth client) ;;;
      syncLanguageProfiles client spec ;;;
      syncProviders client ns spec ;;;
      ret version
  end.

Lemma checkHealth_then {A B} (good : W → B → BazarrConfig → Prop) client c (k : MR Outcome) (k' : A → M W B) (x : A) w c' :
  (∀ s r w', tells c good (k' x w')
    (k (mkRec w' (onStatus (connectedOf r bst_set_RadarrConnected) (onStatus (connectedOf s bst_set_SonarrConnected) c'))))) →
  tells c good ((attempt (bzGetHealth client) ;;; k' x) w) ((checkHealth client ;;; k) (mkRec w c')).
Proof.
  intros Hk. unfold checkHealth, bind, attempt, onWorld. cbn [rec_world rec_config].
  destruct (bzGetHealth client w) as [w' [h|e|why]]; [apply Hk| |done].
  specialize (Hk None None w'). by destruct c' as [m spec []].
Qed.

(** The status after a Bazarr of that version was configured. *)
Definition apiStatus (w : W) (version : string) c : Prop :=
  bst_ActiveMode (bz_Status c) = BazarrConfigModeAPI ∧ bst_BazarrConnected (bz_Status c) = true ∧
  bst_BazarrVersion (bz_Status c) = version ∧ bst_LanguageProfilesSynced (bz_Status c) = true ∧
  bst_ProvidersSynced (bz_Status c) = true ∧ bst_ConfigGenerated (bz_Status c) = false ∧
  bst_LastReconcile (bz_Status c) = Some (kubeClock w).

(** C33: The API mode does its work and tells what came of it.  With the key of Bazarr its
    version is read, then the language profiles and the providers are synced, in this
    order.  If that succeeds the status has the version and says that both are synced;
    otherwise it is not Ready and has the error as its message, and the object is
    retried. *)
Theorem bazarr_api_mode c w :
  tells c apiStatus (configure c w) (reconcileAPIMode (mkRec w c)).
Proof.
  unfold configure, reconcileAPIMode. rewrite modifyBZ_then, config_then. cbn zeta.
  destruct c as [m spec status]. cbn [bz_Spec bz_ObjectMeta onStatus].
  destruct (bzs_Connection spec) as [connection|].
  2: { destruct (failStep_fails sameBazarr sameBazarr_conditions (om_Generation m) "ConnectionMissing"
         "connection is required for API mode" w (onStatus (bst_set_ActiveMode BazarrConfigModeAPI) (mkBazarrConfig m spec status)))
         as [cs Hf]. eexists. split; [|exact Hf]. done. }
  apply tells_stepUndo; [by intros []|done|]. intros key w1 _.
  apply tells_stepUndo; [by intros []|done|]. intros version w2 _. rewrite !modifyBZ_then.
  apply (checkHealth_then _ _ _ _ (λ _ : unit, _) tt). intros s r w3.
  apply tells_stepUndo; [by intros []|done|]. intros [] w4 _. rewrite modifyBZ_then.
  apply tells_stepUndo; [by intros []|done|]. intros [] w5 _. rewrite !modifyBZ_then.
  edestruct bzSucceed_succeeds as [cs Hs].
  eexists. split; [|split; [|exact Hs]]; [done|]. unfold apiStatus, connectedOf.
  by destruct status, s, r.
Qed.
End modes.

(** ** The phases *)

(** The dispatch on the mode. *)
Lemma mode_cases {A} mode (file api : A) (unknown : string → A) :
  (if String.eqb (orDefault mode BazarrConfigModeFile) BazarrConfigModeFile then file
   else if String.eqb (orDefault mode BazarrConfigModeFile) BazarrConfigModeAPI then api
   else unknown (orDefault mode BazarrConfigModeFile))
  = if String.eqb mode "api" then api else if String.eqb mode "file" || String.eqb mode "" then file else unknown mode.
Proof.
  unfold orDefault, BazarrConfigModeFile, BazarrConfigModeAPI.
  destruct (String.eqb_spec mode "") as [->|Hne]; [reflexivity|].
  destruct (String.eqb_spec mode "api") as [->|]; [reflexivity|]. by rewrite orb_false_r.
Qed.

Section phases.
Context {W : Type} `{KubeLaws W} `{!KubeObject W BazarrConfig} `{!KubeConfigMaps W} `{Transport W} `{BazarrText}.
Implicit Types (c : BazarrConfig).

Definition bzPhase c : Phase := phaseFrom (bzs_Reconciliation (bz_Spec c)) (bz_ObjectMeta c) bazarrFinalizer.

(** What an active object asks for. *)
Definition bzMode c : M (Rec W BazarrConfig) (Result * option error) :=
  let mode := bzs_ConfigMode (bz_Spec c) in
  if String.eqb mode "api" then reconcileAPIMode
  else if String.eqb mode "file" || String.eqb mode "" then reconcileFileMode
  else ret (mkResult false 0, Some (unknownMode mode)).

Lemma deleteConfigMap_returns c w :
  (∀ ns n, noPanic (kubeGetConfigMap (W:=W) ns n)) → (∀ cm, noPanic (kubeDeleteConfigMap (W:=W) cm)) →
  ∃ w', deleteConfigMap c w = (w', Ret tt).
Proof.
  intros Hg Hd. unfold deleteConfigMap. destruct (bzs_ConfigMapRef (bz_Spec c)) as [ref|]; [|by eexists].
  destruct (attempt_returns _ w (Hg (om_Namespace (bz_ObjectMeta c)) (lor_Name ref))) as (w1 & x & E).
  rewrite (bind_ok _ _ _ _ _ E). destruct x as [cm|e]; [|by eexists]. case_match; [|by eexists].
  destruct (attempt_returns _ w1 (Hd cm)) as (w2 & y & E2). rewrite (bind_ok _ _ _ _ _ E2). by eexists.
Qed.

(** The life of a BazarrConfig.  A suspended object is left alone; a new one gets the
    finalizer, and only then, as an active object, is reconciled in its mode, the file
    mode unless the specification says otherwise.  The deletion of an object is never
    blocked: whatever becomes of its config map, the object is written without its
    finalizer and with all its others, and is not retried unless that write fails. *)
Theorem bazarr_phases w c :
  (∀ ns n, noPanic (kubeGetConfigMap (W:=W) ns n)) → (∀ cm, noPanic (kubeDeleteConfigMap (W:=W) cm)) →
  let fs := om_Finalizers (bz_ObjectMeta c) in
  let guarded := withFinalizers (addFinalizer fs bazarrFinalizer) c in
  let released := withFinalizers (removeFinalizer fs bazarrFinalizer) c in
  match bzPhase c with
  | Suspended => bzReconcileObject (mkRec w c) = (mkRec w c, Ret (mkResult false 0, None))
  | Deleting => (∃ w', bzReconcileObject (mkRec w c) = storing released false w') ∧
      ∀ f, f ∈ om_Finalizers (bz_ObjectMeta released) ↔ f ∈ fs ∧ f ≠ bazarrFinalizer
  | Unguarded => bzReconcileObject (mkRec w c) = storing guarded true w ∧ bzPhase guarded = Active
  | Active => bzReconcileObject (mkRec w c) = bzMode c (mkRec w c)
  end.
Proof.
  intros Hg Hd fs guarded released. unfold bzReconcileObject, bzPhase, phaseFrom.
  rewrite config_then. destruct (from_option rcs_Suspend _ _) eqn:Es; [done|].
  destruct (om_DeletionTimestamp (bz_ObjectMeta c)) as [t|] eqn:Et.
  - split; [|intros f; apply removeFinalizer_spec]. destruct (deleteConfigMap_returns c w Hg Hd) as [w' E].
    exists w'. rewrite <-update_run. unfold bzReconcileDelete. rewrite config_then.
    assert (onWorld (deleteConfigMap c) (mkRec w c) = (mkRec w' c, Ret tt)) as E'
      by (unfold onWorld; cbn [rec_world rec_config]; by rewrite E).
    etransitivity; [exact (bind_ok _ _ _ _ _ E')|done].
  - fold fs. destruct (containsFinalizer fs bazarrFinalizer) eqn:Ef.
    + cbn [negb]. unfold bzMode. cbv zeta.
      pose proof (f_equal (λ k, k (mkRec w c)) (mode_cases (bzs_ConfigMode (bz_Spec c)) reconcileFileMode reconcileAPIMode
        (λ mode, ret (mkResult false 0, Some (unknownMode mode))))) as Hmode.
      exact Hmode.
    + cbn [negb]. rewrite <-update_run. split; [done|].
      pose proof (phaseFrom_guarded (bzs_Reconciliation (bz_Spec c)) (bz_ObjectMeta c) bazarrFinalizer) as Hp.
      unfold phaseFrom in Hp. fold fs in Hp. rewrite Es, Et, Ef in Hp. exact (Hp eq_refl).
Qed.
End phases.

(** ** The config map *)

(** What is documented of the API server and of [SetControllerReference]; a write may
    fail, and then changes nothing. *)
Class ConfigMapLaws W `{KubeConfigMaps W} (view : W → string → string → option ConfigMap) : Prop := {
  cml_get ns n w : match view w ns n with
    | Some cm => kubeGetConfigMap ns n w = (w, Ret cm)
    | None => ∃ e, kubeGetConfigMap ns n w = (w, Err e) ∧ isNotFound e = true
    end;
  cml_new ns n d : configMapData (newConfigMap ns n d) = d;
  cml_data d cm : configMapData (with_configMapData d cm) = d ∧ ownerUIDs (with_configMapData d cm) = ownerUIDs cm;
  cml_owner m cm cm' : setConfigMapOwner m cm = inl cm' →
    configMapData cm' = configMapData cm ∧ om_UID m ∈ ownerUIDs cm';
  cml_create m ns n d cm w : setConfigMapOwner m (newConfigMap ns n d) = inl cm →
    match kubeCreateConfigMap cm w with
    | (w', Ret _) => ∀ ns' n', view w' ns' n' = if decide ((ns', n') = (ns, n)) then Some cm else view w ns' n'
    | (w', Err _) => view w' = view w
    | (_, Panic _) => False
    end;
  cml_update ns n cm d w : view w ns n = Some cm →
    match kubeUpdateConfigMap (with_configMapData d cm) w with
    | (w', Ret _) => ∀ ns' n',
        view w' ns' n' = if decide ((ns', n') = (ns, n)) then Some (with_configMapData d cm) else view w ns' n'
    | (w', Err _) => view w' = view w
    | (_, Panic _) => False
    end;
  cml_delete ns n cm w : view w ns n = Some cm →
    match kubeDeleteConfigMap cm w with
    | (w', Ret _) => ∀ ns' n', view w' ns' n' = if decide ((ns', n') = (ns, n)) then None else view w ns' n'
    | (w', Err _) => view w' = view w
    | (_, Panic _) => False
    end }.

Section configMap.
Context {W : Type} `{!KubeConfigMaps W} (view : W → string → string → option ConfigMap) `{!ConfigMapLaws W view}.
Implicit Types (c : BazarrConfig).






End configMap.

(** ** The language profiles *)

(** A request for the language profiles of Bazarr, as the API has it: the address of the
    client, the rest of the path and the document, if there is one. *)
Definition profilesRequest (cl : BazarrClient) (method rest : string) (document : option any) : HttpRequest :=
  mkHttpRequest method (bzr_baseURL cl +:+ "/api/system/languages/profiles" +:+ rest)
    ([("X-API-KEY", bzr_apiKey cl); ("Accept", "application/json")]%string ++
     match document with Some _ => [("Content-Type", "application/json")]%string | None => [] end) None
    (match document with Some v => JSONBody v | None => NoBody end).

(** The document of a language profile of the specification: its languages are numbered
    from 1, and its flags are the texts that Python has for them. *)
Definition languageDocument (i : nat) (lang : BazarrLanguage) : any := VMap [
  ("id", VInt (Z.of_nat i + 1)); ("language", VString (bl_Code lang));
  ("forced", VString (if bl_Forced lang then "True" else "False"));
  ("hi", VString (if bl_HearingImpaired lang then "True" else "False"));
  ("audio_exclude", VString "False")]%string.
Definition profileDocument (id : Z) (d : BazarrLanguageProfile) : any := VMap [
  ("profileId", VInt id); ("name", VString (blp_Name d)); ("cutoff", VNil);
  ("items", VList (imap languageDocument (blp_Languages d)))]%string.

(** What is asked of a Bazarr with the profiles [l] for one profile of the specification:
    to change the last one of its name, or to create one if there is none. *)
Definition profileWrite (cl : BazarrClient) (l : list LanguageProfile) (d : BazarrLanguageProfile) : HttpRequest :=
  match last (filter (λ q, lp_Name q = blp_Name d) l) with
  | Some q => profilesRequest cl "PATCH" ("/" +:+ Itoa (lp_ProfileID q)) (Some (profileDocument (lp_ProfileID q) d))
  | None => profilesRequest cl "POST" "" (Some (profileDocument 0 d))
  end.

(** The profiles an answer lists. *)
Definition profilesIn (reply : HttpReply) : option (list LanguageProfile) :=
  match reply with
  | Reply a => if hp_Status a =? 200 then hp_JSON a ≫= dataList else None
  | NoReply _ => None
  end.

Lemma profile_marshalable p : marshalable (toJSON (p : LanguageProfile)) = true.
Proof.
  destruct p as [id n cutoff items]. cbn. apply andb_true_iff. split; [by destruct cutoff|].
  rewrite andb_true_r. apply forallb_forall. intros v [i [-> _]]%list_elem_of_In%list_elem_of_fmap. done.
Qed.

Lemma profile_wire (p : LanguageProfile) : toWire (toJSON p) = toJSON p.
Proof.
  destruct p as [id n cutoff items]. assert (map toWire (toJSON <$> items) = toJSON <$> items) as Hi
    by (induction items as [|[] items IH]; [done|]; cbn; by f_equal).
  unfold toJSON at 1 2, ToJSON_LanguageProfile. cbn [toWire map lp_ProfileID lp_Name lp_Cutoff lp_Items].
  rewrite Hi. by destruct cutoff.
Qed.

Lemma profile_document id d : toJSON (apiProfile id d) = profileDocument id d.
Proof.
  unfold toJSON, ToJSON_LanguageProfile, apiProfile, profileDocument. cbn [lp_ProfileID lp_Name lp_Cutoff lp_Items].
  by rewrite fmap_imap.
Qed.

Lemma profilePath_plain id : plainPath (profilePath id) = true.
Proof. unfold profilePath. apply plainPath_app; [done..|]. apply Itoa_pathByte. Qed.

Section profileSync.
Context {W : Type} `{Transport W} (cl : BazarrClient).
Hypothesis wellFormed : ∀ path, plainPath path = true → urlParse (bzr_baseURL cl +:+ path) ≠ None.
Implicit Types (w : W) (d : BazarrLanguageProfile) (l : list LanguageProfile).

(** The world after a request. *)
Definition afterRequest w (rq : HttpRequest) : W := (roundTrip newJar rq w).1.

Lemma doRequest_run method path body w : plainPath path = true →
  doRequest cl method path body w = let '(w', (_, reply)) := roundTrip newJar (bzRequest cl method path body) w in
    (w', match reply with Reply a => Ret a | NoReply e => Err e end).
Proof.
  intros Hp. unfold doRequest, bind, send. cbn [hq_URL bzRequest].
  destruct (urlParse _) eqn:Eu; [|by destruct (wellFormed path Hp)].
  by destruct (roundTrip _ _ w) as [w' [j []]].
Qed.

(** A write is one request, whatever becomes of it. *)
Lemma change_world method path p w : plainPath path = true → ∃ x,
  change cl method path (Some (toJSON (p : LanguageProfile))) w =
    (afterRequest w (bzRequest cl method path (Some (toJSON p))), x) ∧ ∀ why, x ≠ Panic why.
Proof.
  intros Hp. unfold change. rewrite profile_marshalable. unfold bind. rewrite doRequest_run by done. unfold afterRequest.
  destruct (roundTrip _ _ w) as [w' [j [e|a]]]; [by eexists (Err _)|].
  simpl. destruct (_ || _); [by eexists (Err _)|by eexists (Ret _)].
Qed.

Lemma write_world d l w : syncLanguageProfile cl (indexBy lp_Name l) d w = (afterRequest w (profileWrite cl l d), Ret tt).
Proof.
  unfold syncLanguageProfile, profileWrite. rewrite lookup_indexBy. destruct (last _) as [q|].
  - destruct (change_world "PATCH" (profilePath (lp_ProfileID q)) (apiProfile (lp_ProfileID q) d) w (profilePath_plain _)) as (x & E & Hx).
    unfold UpdateLanguageProfile, bzPatch, failedTo, wrapErr, bind, attempt. change (lp_ProfileID (apiProfile (lp_ProfileID q) d)) with (lp_ProfileID q).
    rewrite E. unfold bzRequest. rewrite profile_wire, profile_document.
    destruct x; [done..|by destruct (Hx why)].
  - destruct (change_world "POST" profilesPath (apiProfile 0 d) w eq_refl) as (x & E & Hx).
    unfold CreateLanguageProfile, bzPost, failedTo, wrapErr, bind, attempt.
    rewrite E. unfold bzRequest. rewrite profile_wire, profile_document.
    destruct x as [a|e|why]; [|done|by destruct (Hx why)].
    unfold decodeAs. by destruct (hp_JSON a ≫= _).
Qed.

(** C6: The requests of a sync of the language profiles, whatever the server answers to
    them.  The client's address being well formed, the profiles are asked for once.  If
    the answer lists them, there follows one request for each profile of the
    specification, in its order: a PATCH of the last one of its name under its ID, or a
    POST if there is none of the name, each with the languages of the specification in
    order; nothing else is sent, profiles that are not in the specification are left
    alone, and the sync succeeds even if Bazarr refuses every one of these requests.  If
    the answer is not a list with the status 200, as that of a Bazarr without such a
    path is, nothing more is sent and the sync fails. *)
Theorem bazarr_profile_requests spec w :
  let '(w1, (_, reply)) := roundTrip newJar (profilesRequest cl "GET" "" None) w in
  match profilesIn reply with
  | Some l => syncLanguageProfiles cl spec w =
      (foldl afterRequest w1 (profileWrite cl l <$> bzs_LanguageProfiles spec), Ret tt)
  | None => ∃ e, syncLanguageProfiles cl spec w = (w1, Err e)
  end.
Proof.
  unfold syncLanguageProfiles, GetLanguageProfiles, bzGet, failedTo, wrapErr, bind. rewrite doRequest_run by done.
  change (bzRequest cl "GET" profilesPath None) with (profilesRequest cl "GET" "" None).
  destruct (roundTrip _ _ w) as [w1 [j [e|a]]]; [by eexists|]. unfold profilesIn, decodeAs.
  destruct (hp_Status a =? 200); [|by eexists]. destruct (hp_JSON a ≫= dataList) as [l|]; [|by eexists]. simpl.
  generalize w1. induction (bzs_LanguageProfiles spec) as [|d ds IH]; intros v; [done|].
  cbn [forRange fmap list_fmap foldl]. by rewrite (bind_ok _ _ _ _ _ (write_world d l v)).
Qed.
End profileSync.

(** ** An example cluster with a Bazarr *)
Module ExampleBazarrCluster.
Import ExampleCluster.
Export ExampleBazarr.

Record MiniMap := mkMiniMap {
  mm_key : string * string;
  mm_Data : gmap string string;
  mm_Owners : list string }.

(** The secrets, the config maps with their owners, and the profiles of the Bazarr. *)
Record World := mkWorld {
  ew_Secrets : Cluster;
  ew_Maps : gmap (string * string) (gmap string string * list string);
  ew_Profiles : list LanguageProfile }.

#[export] Instance BazarrKube : Kube World := kubeOn ew_Secrets.
#[export] Instance BazarrKubeLaws : KubeLaws World := kubeOn_laws ew_Secrets.

Definition viewOf (w : World) (ns n : string) : option MiniMap :=
  (λ x, mkMiniMap (ns, n) x.1 x.2) <$> ew_Maps w !! (ns, n).
Definition putMap (m : MiniMap) (w : World) : World * outcome unit :=
  (mkWorld (ew_Secrets w) (<[mm_key m := (mm_Data m, mm_Owners m)]> (ew_Maps w)) (ew_Profiles w), Ret tt).

#[export] Instance Maps : KubeConfigMaps World := {|
  ConfigMap := MiniMap;
  configMapData := mm_Data;
  with_configMapData d m := mkMiniMap (mm_key m) d (mm_Owners m);
  ownerUIDs := mm_Owners;
  newConfigMap ns n d := mkMiniMap (ns, n) d [];
  setConfigMapOwner m x := inl (mkMiniMap (mm_key x) (mm_Data x) (om_UID m :: mm_Owners x));
  kubeGetConfigMap ns n w := (w, match viewOf w ns n with Some m => Ret m | None => Err "not found" end);
  kubeCreateConfigMap := putMap;
  kubeUpdateConfigMap := putMap;
  kubeDeleteConfigMap m w := (mkWorld (ew_Secrets w) (delete (mm_key m) (ew_Maps w)) (ew_Profiles w), Ret tt);
  isNotFound e := String.eqb e "not found" |}.

Lemma viewOf_put m w ns n : viewOf (putMap m w).1 ns n = if decide ((ns, n) = mm_key m) then Some m else viewOf w ns n.
Proof.
  unfold viewOf, putMap. cbn [fst ew_Maps]. case_decide as E.
  - rewrite E, lookup_insert_eq. by destruct m as [k d o]; simpl in *; subst k.
  - by rewrite lookup_insert_ne.
Qed.

Lemma viewOf_key w ns n m : viewOf w ns n = Some m → mm_key m = (ns, n).
Proof. unfold viewOf. by intros (x & _ & ->)%fmap_Some. Qed.

#[export] Instance mapLaws : ConfigMapLaws World viewOf.
Proof.
  split; try done.
  - intros ns n w. unfold kubeGetConfigMap, Maps. destruct (viewOf w ns n); [done|]. by exists "not found"%string.
  - intros m cm cm' [= <-]. split; [done|by left].
  - intros m ns n d cm w [= <-] ns' n'. apply (viewOf_put (mkMiniMap (ns, n) d [om_UID m])).
  - intros ns n cm d w Hv ns' n'. apply viewOf_key in Hv. rewrite <-Hv. apply (viewOf_put (mkMiniMap (mm_key cm) d (mm_Owners cm))).
  - intros ns n cm w Hv ns' n'. apply viewOf_key in Hv. unfold kubeDeleteConfigMap, Maps, viewOf. cbn [ew_Maps].
    rewrite Hv. case_decide as E; [by rewrite E, lookup_delete_eq|by rewrite lookup_delete_ne].
Qed.

(** The Bazarr numbers its profiles upwards. *)
Definition freshID (l : list LanguageProfile) : Z := foldr (λ p n, Z.max (lp_ProfileID p + 1) n) 1 l.

Definition document (data : any) : HttpReply := Reply (mkHttpResponse 200 [] "" (Some (VMap [("data"%string, data)])) None).

Definition answer (rq : HttpRequest) (w : World) : World * HttpReply :=
  let store l := mkWorld (ew_Secrets w) (ew_Maps w) l in
  let l := ew_Profiles w in
  let sent := match hq_Body rq with JSONBody v => fromJSON v | _ => None end in
  match sent with
  | Some p =>
      if String.eqb (hq_Method rq) "POST" then
        let p' := mkLanguageProfile (freshID l) (lp_Name p) (lp_Cutoff p) (lp_Items p) in
        (store (l ++ [p']), document (toJSON p'))
      else (store ((λ q : LanguageProfile, if lp_ProfileID q =? lp_ProfileID p then p else q) <$> l), document VNil)
  | None =>
      if String.eqb (hq_URL rq) "http://bazarr:6767/api/system/languages/profiles"
      then (w, document (VList (toJSON <$> l)))
      else (w, document (VMap [("bazarr_version", VString "1.4.0")]%string))
  end.

#[export] Instance Bazarr : Transport World := {|
  Jar := unit;
  newJar := tt;
  roundTrip j r w := let '(w', x) := answer r w in (w', (tt, x));
  newRequestError := id;
  marshalError _ := "json"%string;
  unmarshalError _ := "json"%string;
  xmlError _ := "xml"%string |}.

Definition exampleClient : BazarrClient := NewBazarrClient "http://bazarr:6767" "key".

Lemma exampleClient_wellFormed path : plainPath path = true → urlParse (bzr_baseURL exampleClient +:+ path) ≠ None.
Proof.
  intros Hp. change (bzr_baseURL exampleClient) with ("http" +:+ "://" +:+ ("bazarr" +:+ String ":" "6767"))%string.
  pose proof (urlParse_plain_path false "bazarr" "6767" path eq_refl eq_refl ltac:(done) Hp) as Hu. cbn zeta in Hu.
  assert ((("http" +:+ "://" +:+ ("bazarr" +:+ String ":" "6767")) +:+ path)
    = ("http" +:+ "://" +:+ ("bazarr" +:+ String ":" "6767") +:+ path))%string as -> by reflexivity.
  by rewrite Hu.
Qed.
End ExampleBazarrCluster.

Section witnesses.
Import ExampleCluster ExampleBazarrCluster.

Definition exampleMeta (finalizers : list string) : ObjectMeta := mkObjectMeta "subs" "media" "4f1d" 7 None finalizers.
Definition exampleBazarr (mode : string) (finalizers : list string) : BazarrConfig :=
  mkBazarrConfig (exampleMeta finalizers)
    (mkBazarrConfigSpec mode (Some (mkBazarrAPIConnectionSpec "http://bazarr:6767" (mkSecretKeySelector "bazarr" "key")))
       (bzs_Sonarr exampleSpec) (bzs_Radarr exampleSpec) [english true; german] [] None "" (Some (mkLocalObjectReference "bazarr-config")) None)
    (mkBazarrConfigStatus [] "" false "" false false false false false None "").

(** The keys of Sonarr and of Bazarr, a config map of someone else, and two profiles. *)
Definition exampleWorld : World :=
  mkWorld {[ ("media", "sonarr") := {[ "apiKey" := "sonarr-key" ]}; ("media", "bazarr") := {[ "key" := "bazarr-key" ]} ]}%string
    {[ ("media", "bazarr-config")%string := ({[ "notes.txt" := "mine" ]}%string, ["77aa"]%string) ]}
    [mkLanguageProfile 3 "German" None []; mkLanguageProfile 5 "French" (Some 2) []]%string.

(** The file is written next to what was there. *)
Lemma bazarr_file_mode_witness : let c := exampleBazarr "" [bazarrFinalizer] in ∃ w' c1,
  writeFile c exampleWorld = (w', Ret tt) ∧ fileStatus w' tt c1 ∧ readyOf c1 = Some ConditionTrue ∧
  (mm_Data <$> viewOf w' "media" "bazarr-config") = Some ({[ "notes.txt" := "mine"; configKey := "profiles: 2" ]}%string : gmap string string).
Proof.
  intros c. assert ((writeFile c exampleWorld).2 = Ret tt) as Ex by (vm_compute; reflexivity).
  assert (mm_Data <$> viewOf (writeFile c exampleWorld).1 "media" "bazarr-config"
    = Some ({[ "notes.txt" := "mine"; configKey := "profiles: 2" ]}%string : gmap string string)) as Em by (vm_compute; reflexivity).
  pose proof (bazarr_file_mode c exampleWorld) as Ht.
  destruct (writeFile c exampleWorld) as [w' out] eqn:E. cbn [fst snd] in Ex, Em. subst out.
  destruct Ht as (c1 & _ & Hs & Hr & _). exists w', c1. exact (conj eq_refl (conj Hs (conj Hr Em))).
Defined.

(** The Bazarr is configured. *)
Lemma bazarr_api_mode_witness : let c := exampleBazarr "api" [bazarrFinalizer] in ∃ w' c1,
  configure c exampleWorld = (w', Ret "1.4.0"%string) ∧ apiStatus w' "1.4.0" c1 ∧ readyOf c1 = Some ConditionTrue ∧
  (λ p, (lp_ProfileID p, lp_Name p, length (lp_Items p))) <$> ew_Profiles w' =
    [(3, "German", 2%nat); (5, "French", 0%nat); (6, "English", 1%nat)]%string.
Proof.
  intros c. assert ((configure c exampleWorld).2 = Ret "1.4.0"%string) as Ex by (vm_compute; reflexivity).
  assert ((λ p, (lp_ProfileID p, lp_Name p, length (lp_Items p))) <$> ew_Profiles (configure c exampleWorld).1 =
    [(3, "German", 2%nat); (5, "French", 0%nat); (6, "English", 1%nat)]%string) as Em by (vm_compute; reflexivity).
  pose proof (bazarr_api_mode c exampleWorld) as Ht.
  destruct (configure c exampleWorld) as [w' out] eqn:E. cbn [fst snd] in Ex, Em. subst out.
  destruct Ht as (c1 & _ & Hs & Hr & _). exists w', c1. exact (conj eq_refl (conj Hs (conj Hr Em))).
Defined.

Lemma bazarr_phases_witness : ∃ c1,
  bzReconcileObject (mkRec exampleWorld (exampleBazarr "" [])) = (mkRec exampleWorld c1, Ret (mkResult true 0, None)) ∧
  bzPhase c1 = Active.
Proof.
  destruct (bazarr_phases exampleWorld (exampleBazarr "" [])) as [E Hp].
  - intros ns n w. unfold kubeGetConfigMap, Maps. by split; [|destruct (viewOf _ _ _)].
  - intros cm w. by split.
  - eexists. exact (conj E Hp).
Defined.


(** The German profile is changed, the English one is created and the French one stays. *)
Lemma bazarr_profile_requests_witness : ∃ w',
  syncLanguageProfiles exampleClient (bz_Spec (exampleBazarr "api" [])) exampleWorld = (w', Ret tt) ∧
  (λ p, (lp_ProfileID p, lp_Name p)) <$> ew_Profiles w' = [(3, "German"); (5, "French"); (6, "English")]%string.
Proof.
  pose proof (bazarr_profile_requests exampleClient exampleClient_wellFormed (bz_Spec (exampleBazarr "api" [])) exampleWorld) as Hs.
  eexists. split; [exact Hs|]. vm_compute. reflexivity.
Defined.
End witnesses.
